(* ===== verification/_CoqProject ===== *)
-Q . S2P
Prelude.v
Strings.v
StringAlgo.v
StringBuffer.v
StringBufferFacts.v
Conversions.v
ConversionsFacts.v
SdpUtils.v
SdpUtilsFacts.v
Proxy.v
ProxyObject.v
Json.v
FloatFacts.v
SignalingModels.v
SignalingFacts.v
SignalingShapes.v
JsonMore.v
SignalingTypes.v
Observable.v
Utilities.v
Logger.v
WebsocketRequest.v
Websocket.v
WebsocketFacts.v
SignalingClient.v
MediasoupApi.v
ParticipantController.v
ParticipantProxy.v
MediaController.v
MediaControllerFacts.v
RemoteMedia.v
VideoPipeline.v
Reader.v
ReaderFacts.v
RoomClient.v
RoomClientFacts.v
RtcClient.v
Programs.v
Session.v
SessionFacts.v
SessionProgress.v
SessionRaces.v
Engine.v
EngineFacts.v
