(* ===== verification/Prelude.v ===== *)
(** * A verified model of the mediasoup C++ client

    ** The program

    The repository is a client of a mediasoup conference server: [src/core] is the
    library, [src/sdk] the small class applications embed, [src/third_party] is
    vendored.  A client opens a websocket to the server, exchanges JSON documents
    with it (requests with an id, responses that carry the id back, requests from
    the server, notifications), and drives libmediasoupclient and WebRTC from what
    it hears.  The components call each other downwards and report upwards through
    lists of weak observers:

<<
      test_pusher, test_puller       src/test
        | H264Reader: frames of a file
      RtcClient                      src/sdk/rtc_client.cpp
        | createRoomClient
      Engine, Core                   src/core/service/engine.cpp, core.cpp
        | threads, WebRTC context
      RtcClient
        | RoomClientProxy (calls marshalled to the mediasoup thread)
        | join, leave, enableVideo        ^ room state, participants
      RoomClient                     src/core/service/room_client.cpp
        |             |                   ^
        |      ParticipantController <- MediaController
        |                              participant_controller.cpp, media_controller.cpp
      MediasoupApi                   src/core/service/mediasoup_api.{h,cpp}
        | send(text, callbacks)           ^ callbacks
      SignalingClient                src/core/service/signaling_client.cpp
        | WebsocketRequest table          ^ onMessage, onClosed
      WebsocketTransport             src/core/websocket/websocket_transport.h
        | connect, sendText               ^ onOpen, onTextMessage
      TLSWebsocketEndpoint           src/core/websocket/tls_websocket_endpoint.cpp
>>

    A frame of the application goes from [RtcClient::inputFrame] through the media
    controller to the dummy video source and from there to the dummy encoder, which
    hands it to WebRTC as it is.  Beside all of them stand the two loggers
    ([src/core/logger]), one for the program and one for what WebRTC says.

    ** Conventions of the model

    - A handler of a component is a function [M S E A]: from the component's state
      it either runs to an end, [Done (a, s', es)], with the effects it had in
      program order, or stops in a [Fault]: a null pointer or an empty optional
      that is dereferenced, or an exception that leaves the handler.  Handlers are
      composed with [x ← m; k] the way the code composes calls.
    - Calls that leave a component are effects ([sc_effect], [pc_effect],
      [mc_effect], [rc_effect], [rtc_effect],
      [ws_effect], [tr_effect]): texts handed to the transport,
      observers notified, tasks posted to another thread.  A posted task is
      delivered by a separate operation ([rc_run (RcTask ...)], [mc_run_task],
      [handleResponse_task]), so that a history, a list of operations, interleaves
      calls, deliveries and tasks in every order.  [Session] carries the effects out.
    - A [shared_ptr] to a shared mutable object is an address into a heap held by
      the owner ([Participant] objects); elsewhere a pointer is an [option].
      [operator[]] on a map inserts the missing key, with null, as in C++.
    - The iteration order of an unordered map is a parameter ([HashOrder], or the
      [hash_order] argument) known only to be a permutation of the entries.
    - Integers are [Z], with the narrowing conversions written out ([wrap32]) and
      the representable ranges as predicates ([in_int32], [in_int64]).
    - Third-party code is a parameter: the JSON parser and printer ([parse],
      [print], and [nlohmann_parse] for nlohmann::json), [Device::Load] and
      [CanProduce], [Produce], [Consume], the creation of transports.  The few
      flags of libmediasoupclient's objects the code reads (closed, paused) are
      modelled from its sources.

    ** The files

    - [Prelude]: results, faults, the handler monad with its weakest
      preconditions, loops, machine ranges, tactics.
    - [Json] (core/json/serialization.hpp): adapters for native values,
      serializers, [json_serialize] and [json_deserialize] over the typed field
      list of a struct ([FieldsMap], the code's [FIELDS_MAP]), [fromJsonString];
      [LawfulModel] and [PlainModel] are the interface between the structs and
      the generic theorems.
    - [SignalingModels] (core/service/signaling_models.h): every struct of the
      protocol as a record with its field list in the code's order, its default
      initializers and, where they hold, its law instances.  [SignalingFacts]
      holds the theorems on the wire format.
    - [JsonMore] (core/json/serialization.hpp): the adapters the protocol does not
      use (maps, enumerations) and the functions on texts, with the classes
      [TypedModel] and [TypedDefault]: what is read fits its C++ types.
      [SignalingTypes] has their instances for the protocol structs; [FloatFacts]
      proves what the one [float] member needs, that narrowing a double is idempotent.
    - [Strings] and [StringAlgo] (core/json/string_algo.hpp): characters, searching,
      comparing, replacing, joining.  [Conversions] and [ConversionsFacts] (string_algo.hpp,
      stringable.hpp): values to texts and back, through string streams and UTF-8.
    - [StringBuffer] and [StringBufferFacts] (core/json/StringBuffer.h): the stream
      buffer over a growing vector, with its pointers into the vector's storage; the
      class [StreamType] tells the template's instances and its specialization apart.
    - [SdpUtils] and [SdpUtilsFacts] (core/utils/sdp_utils.cpp): the line parsers,
      [split], [join] and [injectSimulcast].
    - [Proxy] (core/utils/interface_proxy.hpp): threads with task queues, programs that
      call through proxies, and schedules; the abstract object the proxies implement.
      [ProxyObject]: an object whose methods are handlers, behind its proxy.
    - [Observable] (core/utils/universal_observable.hpp): the list of weak
      observers, over a set of live addresses.
    - [Utilities] (core/utils/string_utils.cpp, object_factory.hpp, observer.hpp,
      observable.h, singleton.h): random identifiers, the singleton, and the templates
      nothing uses.
    - [Logger] (core/logger): the two loggers over spdlog's registry and thread pool,
      the sink given to WebRTC and the handler given to libmediasoupclient.
    - [WebsocketRequest] (core/websocket/websocket_request.h) and
      [SignalingClient] (core/service/signaling_client.cpp): the table of pending
      requests and the dispatch of incoming messages.
    - [Websocket] (core/websocket): the metadata of a connection, the plain and the
      TLS endpoint with its certificate checks, and the transport over the class
      [IWebsocketEndpoint]; [WebsocketFacts] states the contract of an endpoint
      ([EndpointLaws]), proves it of both, and the transport's theorems from it.
    - [MediasoupApi] (core/service/mediasoup_api.{h,cpp}): one function per
      request, and the callback wrapper.
    - [ParticipantController] (core/service/participant.cpp and
      participant_controller.cpp), which sees the media controller through the
      class [IMediaController].
      [ParticipantProxy]: the same behind its proxy.
    - [MediaController] (core/service/media_controller.cpp), which implements that
      class, and its theorems in [MediaControllerFacts].
    - [VideoPipeline] (core/service/dummy_video_source.cc, dummy_video_encoder.cc,
      sdk/video_receiver.cpp): the frame from the application to the encoder, and the
      decoded image back.
    - [Reader] and [ReaderFacts] (test/reader.cpp): the file readers that feed the
      client in the test programs.
    - [RoomClient] (core/service/room_client.cpp): the handshake with the server
      and the lifetime of the components; its theorems in [RoomClientFacts].
    - [RemoteMedia]: the media controller's tasks with their observers, the participant
      controller among them, called in the middle of the task, on the state of both.
    - [RtcClient] (sdk/rtc_client.cpp), and the chain of observers from the media
      controller up to the application.
    - [Programs] (test/test_pusher.cpp, test_puller.cpp): the main functions, and the way
      of a file's frames from the reader to the encoder.
    - [Session]: the objects [RoomClient::init] makes, put together: the room, its two
      controllers, the signaling client with its table, the transport with its TLS
      endpoint, and the queues of the transport thread and the mediasoup thread.  The
      effects of each component are carried out on the others; a step is one call, one
      event of the network, or the next task of a thread.  [SessionFacts] has the
      invariant of every such history, [SessionProgress] the session together with a
      server that answers, under every schedule.
    - [Interleave]: the same session with smaller steps.  A handler of the room is a
      step, each effect it had another, and a request three: it is made, its text is
      sent, it is entered into the table; the threads and the network interleave
      between them.  [InterleaveFacts] shows that the runs of [Session] are among these
      ([sessions_are_interleavings]), proves the safety of the handshake for all of
      them, and what an answer does that arrives between the last two steps.
    - [Engine] and [EngineFacts] (core/service/core.cpp, engine.cpp,
      component_factory.cpp, rtc_context.cpp, core/utils/thread_provider.cpp): the
      process from [Core::init] to [Core::destroy], with its loggers, threads, contexts
      and room clients, and the room client behind [RoomClientProxy].

    State records have the code's members under the code's names with a prefix
    ([mc_consumerMap] is [MediaController::_consumerMap]); operations have the
    code's names, with a prefix where two classes share one ([sc_onClosed] is
    [SignalingClient::onClosed], [rc_onClosed] is [RoomClient::onClosed]).

    ** What the theorems show

    - Wire format: round trip of every protocol struct without initializers,
      independence from unknown, reordered and repeated members, an exact
      characterisation of rejected documents, what is lost ([apt]); whatever is read
      has the types its struct declares, at every depth.
    - Signaling: in every history each callback is called at most once; a response
      resolves its own request; a lost connection rejects all pending requests;
      the dispatch of a message; ids wider than 32 bits and answers to server
      requests, which break the table; an answer that overtakes its request.
    - Websocket: a session of the transport over any endpoint that keeps the
      contract, a refused address, the connections of an endpoint kept apart in
      every history, what the certificate check really tests.
    - API: the header of every request, a completed call, a dropped callback.
    - Observers: a notification reaches every live observer once.
    - Participants: the life of a participant as its observers see it, for every
      history; what breaks it (events before [newPeer], missing data).
    - Media: consistency of the tables for every history, the effect of each
      server message, muting as a contract between [muteAudio] and
      [isAudioMuted], and the null pointers the code can reach.
    - Room: the handshake ends connected, the state machine, [leave] releases
      everything, and what the callbacks get wrong (a refusal taken as success,
      late responses, joining again, ignored options).
    - Threads: an object behind its proxy refines one whose methods happen at once
      (every schedule, any number of threads); a posted call returns after a bounded
      number of steps of the object's thread; a call back to the caller's thread stops
      both.  The room client and the participant controller are such objects.
    - Process: a room client is made and registered; a process that was shut down
      cannot start again; threads are never stopped; [Core::init] twice throws.
    - Loggers: where each message goes; after a restart WebRTC's log is lost; what a
      second [init] does to the loggers that exist.
    - Video: the frames of a file reach the encoder's callback in order, unchanged and
      marked as they should be, from the pusher's reader thread on; the
      H.264 reader refines a reader of whole units, loses the first unit of its file
      and never returns from a file without slices.
    - Texts: the SDP line parsers are their regular expressions, injecting simulcast
      inserts one block and twice changes nothing more, [split] and [join];
      [replace] ends unless the text to replace is empty; integers and wide strings
      survive the way to a text and back; a stream buffer is a queue as
      long as it is synchronised, and what happens when it is not; a buffer for reading
      never writes through a pointer.
    - Media and participants together: the calls of the observers in the middle of a
      task change nothing for the media controller; a new remote video reaches its
      participant, a removed one stays listed.
    - Session: a room is connected only if a text came that answers its join request,
      however the threads interleave; joining with a cooperating server connects
      whatever the schedule, with the requests of the handshake sent once and in order,
      when handlers are atomic; when they are not, an answer that overtakes the entry of
      its request stalls it for ever; leaving while the connection opens makes the room
      send on a null endpoint.
    - Application: the end of a remote video dereferences a null track; the calls of
      [test_pusher]'s main function, with too few arguments as well.

    ** Fuel and bounds

    Four loops are not structural.  [split_loop] and [StringAlgo.replace_loop] get one
    round more than the text has characters, which is enough ([split_join],
    [replace_terminates]: an empty text to replace is never done).  [Reader.read_loop]
    takes its rounds as an argument: [h264_reader_refines] and [file_reaches_encoder]
    give a number that is enough, [reader_never_returns] the files where none is.
    [syncOutput_calls] takes the depth of the stack; one call is enough except in the
    state where no depth is ([cleared_buffer_recurses]).  Schedules of [Proxy] and
    histories of operations are lists, and [proxied_call_returns] bounds the steps a call
    needs; [session_connects] has no fuel: [eventually] is an inductive predicate, finite
    on every schedule.
    The lemma [send_timeout_bounds] evaluates binary64 arithmetic for table sizes up to
    2000.

    ** What is not modelled

    WebRTC, libmediasoupclient and spdlog beyond what the code relies on; of the loggers
    the patterns, the rotation of the files and what is written by the single log
    statements of the components (they are output; those whose arguments dereference a
    pointer are modelled where they stand); the [WIN32] branches; memory management other
    than liveness of observers and the storage of [StringBuffer]; floating-point values
    through string streams; of [StringBuffer.h] the state bits of the streams.

    The promises on which the callbacks of the transports wait are effects of [Session]
    and [Interleave].  The tasks of the transport thread are atomic in both: they read the
    table of requests under its mutex and send nothing.  The calls of the application
    arrive in a session as tasks of the mediasoup thread, which is what [Proxy] proves of
    the proxies the application holds ([room_client_proxy_serialises]); the two models
    meet there and are not one state. *)

From stdpp Require Import base gmap strings list fin_maps.
From Stdlib Require Import ZArith Lia.

Declare Scope rtc_scope.
Delimit Scope rtc_scope with rtc.
#[global] Open Scope Z_scope.

(** ** Results of fallible pure code *)

(** The value a C++ function returns, or the exception it throws. *)
Inductive result (E A : Type) : Type :=
| Ok (a : A)
| Err (e : E).
Arguments Ok {E A} a.
Arguments Err {E A} e.

#[global] Instance result_ret {E} : MRet (result E) := fun A a => Ok a.
#[global] Instance result_bind {E} : MBind (result E) :=
  fun A B f r => match r with Ok a => f a | Err e => Err e end.

(** [mapM] for [result], written out so that it reduces under [vm_compute]. *)
Fixpoint traverse {E A B} (f : A -> result E B) (l : list A) : result E (list B) :=
  match l with
  | [] => Ok []
  | x :: l => match f x with
              | Err e => Err e
              | Ok y => match traverse f l with
                        | Err e => Err e
                        | Ok ys => Ok (y :: ys)
                        end
              end
  end.

Lemma traverse_map_ok {E A B C} (f : A -> result E B) (g : C -> A) (h : C -> B) (l : list C) :
  Forall (fun x => f (g x) = Ok (h x)) l -> traverse f (map g l) = Ok (map h l).
Proof. induction 1 as [|x l Hx _ IH]; simpl; [done|]. by rewrite Hx, IH. Qed.

(** ** Handlers: state, effects and run-time faults *)

(** What ends a C++ handler abnormally: dereferencing a null [shared_ptr] (or
    raw pointer), reading through an empty [absl::optional], or an exception
    that leaves the handler. *)
Inductive fault : Type :=
| NullDeref (what : string)
| BadOptional (what : string)
| Thrown (what : string).

Inductive outcome (A : Type) : Type :=
| Done (a : A)
| Fault (f : fault).
Arguments Done {A} a.
Arguments Fault {A} f.

(** A handler of a component with state [S] that emits effects of type [E]
    (messages sent, tasks posted, observers called), in program order. *)
Definition M (S E A : Type) : Type := S -> outcome (A * S * list E).

#[global] Instance M_ret {S E} : MRet (M S E) := fun A a s => Done (a, s, []).
#[global] Instance M_bind {S E} : MBind (M S E) := fun A B f m s =>
  match m s with
  | Fault x => Fault x
  | Done (a, s1, e1) =>
      match f a s1 with
      | Fault x => Fault x
      | Done (b, s2, e2) => Done (b, s2, e1 ++ e2)
      end
  end.

Section handlers.
Context {S E : Type}.

Definition get : M S E S := fun s => Done (s, s, []).
Definition gets {A} (f : S -> A) : M S E A := fun s => Done (f s, s, []).
Definition modify (f : S -> S) : M S E unit := fun s => Done (tt, f s, []).
Definition emit (e : E) : M S E unit := fun s => Done (tt, s, [e]).
Definition emits (es : list E) : M S E unit := fun s => Done (tt, s, es).
Definition throw {A} (f : fault) : M S E A := fun _ => Fault f.
Definition skip : M S E unit := mret tt.

(** Pointer dereference and [optional::value()] / [operator->]. *)
Definition deref {A} (what : string) (p : option A) : M S E A :=
  match p with Some a => mret a | None => throw (NullDeref what) end.
Definition value {A} (what : string) (o : option A) : M S E A :=
  match o with Some a => mret a | None => throw (BadOptional what) end.

(** A range-[for] over the listed elements. *)
Fixpoint for_each {A} (l : list A) (body : A -> M S E unit) : M S E unit :=
  match l with
  | [] => skip
  | x :: l => _ ← body x; for_each l body
  end.

(** A range-[for] whose body may [return] from the enclosing function: the
    body answers [Some r] to leave with [r], [None] to go on. *)
Fixpoint for_until {A R} (l : list A) (body : A -> M S E (option R)) : M S E (option R) :=
  match l with
  | [] => mret None
  | x :: l => r ← body x; match r with Some v => mret (Some v) | None => for_until l body end
  end.
End handlers.

(** Runs a handler of a sub-object inside its owner. *)
Definition zoom {S T E F A} (g : S -> T) (p : T -> S -> S) (inj : E -> F) (m : M T E A) : M S F A :=
  fun s => match m (g s) with
           | Fault x => Fault x
           | Done (a, t, es) => Done (a, p t s, inj <$> es)
           end.

(** [absl::optional::value_or]. *)
Definition value_or {A} (o : option A) (d : A) : A := default d o.

(** ** Reasoning about handlers *)

(** [wp m Q s]: run from [s], the handler ends normally and [Q] holds of its
    value, final state and effects. *)
Definition wp {S E A} (m : M S E A) (Q : A -> S -> list E -> Prop) (s : S) : Prop :=
  match m s with Done (a, s', es) => Q a s' es | Fault _ => False end.

(** [wlp]: the same, except that a fault is allowed. *)
Definition wlp {S E A} (m : M S E A) (Q : A -> S -> list E -> Prop) (s : S) : Prop :=
  match m s with Done (a, s', es) => Q a s' es | Fault _ => True end.

(** A handler preserves [I] when no normal run leaves [I]. *)
Definition preserves {S E A} (I : S -> Prop) (m : M S E A) : Prop :=
  forall s, I s -> wlp m (fun _ s' _ => I s') s.

Section wlp_rules.
Context {S E : Type}.
Implicit Types s : S.

Lemma wlp_ret {A} (a : A) (Q : A -> S -> list E -> Prop) s : Q a s [] -> wlp (mret a) Q s.
Proof. done. Qed.
Lemma wlp_get Q s : Q s s [] -> wlp (get (E := E)) Q s.
Proof. done. Qed.
Lemma wlp_gets {A} (f : S -> A) Q s : Q (f s) s [] -> wlp (gets (E := E) f) Q s.
Proof. done. Qed.
Lemma wlp_modify f Q s : Q tt (f s) [] -> wlp (modify (E := E) f) Q s.
Proof. done. Qed.
Lemma wlp_emit (e : E) Q s : Q tt s [e] -> wlp (emit e) Q s.
Proof. done. Qed.
Lemma wlp_emits (es : list E) Q s : Q tt s es -> wlp (emits es) Q s.
Proof. done. Qed.
Lemma wlp_throw {A} f (Q : A -> S -> list E -> Prop) s : wlp (throw f) Q s.
Proof. done. Qed.

Lemma wlp_bind {A B} (m : M S E A) (f : A -> M S E B) Q s :
  wlp m (fun a s1 e1 => wlp (f a) (fun b s2 e2 => Q b s2 (e1 ++ e2)) s1) s ->
  wlp (mbind f m) Q s.
Proof.
  unfold wlp, mbind, M_bind. destruct (m s) as [[[a s1] e1]|]; [|done].
  destruct (f a s1) as [[[b s2] e2]|]; done.
Qed.

Lemma wlp_deref {A} w (p : option A) (Q : A -> S -> list E -> Prop) s :
  (forall a, p = Some a -> Q a s []) -> wlp (deref w p) Q s.
Proof. destruct p; simpl; [by intros H; apply H | done]. Qed.
Lemma wlp_value {A} w (p : option A) (Q : A -> S -> list E -> Prop) s :
  (forall a, p = Some a -> Q a s []) -> wlp (value w p) Q s.
Proof. destruct p; simpl; [by intros H; apply H | done]. Qed.

Lemma wlp_mono {A} (m : M S E A) (P Q : A -> S -> list E -> Prop) s :
  (forall a s' es, P a s' es -> Q a s' es) -> wlp m P s -> wlp m Q s.
Proof. unfold wlp. destruct (m s) as [[[??]?]|]; auto. Qed.

Lemma preserves_wlp {A} (I : S -> Prop) (m : M S E A) s :
  preserves I m -> I s -> wlp m (fun _ s' _ => I s') s.
Proof. intros H HI; exact (H s HI). Qed.

Lemma preserves_bind {A B} (I : S -> Prop) (m : M S E A) (f : A -> M S E B) :
  preserves I m -> (forall a, preserves I (f a)) -> preserves I (mbind f m).
Proof.
  intros Hm Hf s HI. apply wlp_bind. eapply wlp_mono; [|exact (Hm s HI)].
  intros a s1 e1 HI1; exact (Hf a s1 HI1).
Qed.

Lemma preserves_for_each {A} (I : S -> Prop) (l : list A) (body : A -> M S E unit) :
  (forall x, x ∈ l -> preserves I (body x)) -> preserves I (for_each l body).
Proof.
  induction l as [|x l IH]; simpl; intros Hb; [by intros s|].
  apply preserves_bind; [apply Hb; by left | intros _; apply IH; intros; apply Hb; by right].
Qed.

Lemma preserves_for_until {A R} (I : S -> Prop) (l : list A) (body : A -> M S E (option R)) :
  (forall x, x ∈ l -> preserves I (body x)) -> preserves I (for_until l body).
Proof.
  induction l as [|x l IH]; simpl; intros Hb; [by intros s|].
  apply preserves_bind; [apply Hb; by left | intros [r|]; [by intros s|]].
  apply IH; intros; apply Hb; by right.
Qed.
End wlp_rules.

(** Every run relates its states by [Rel], and its effects satisfy [Q]. *)
Definition framed {S E A} (Rel : S -> S -> Prop) (Q : E -> Prop) (m : M S E A) : Prop :=
  forall s, wlp m (fun _ s' es => Rel s s' /\ Forall Q es) s.

Section framed_rules.
Context {S E : Type} (Rel : S -> S -> Prop) `{!PreOrder Rel} (Q : E -> Prop).

Lemma framed_bind {A B} (m : M S E A) (f : A -> M S E B) :
  framed Rel Q m -> (forall a, framed Rel Q (f a)) -> framed Rel Q (mbind f m).
Proof.
  intros Hm Hf s. apply wlp_bind. eapply wlp_mono; [|exact (Hm s)]. intros a s1 e1 [H1 E1].
  eapply wlp_mono; [|exact (Hf a s1)]. intros b s2 e2 [H2 E2]. split; [by etrans | by apply Forall_app].
Qed.
Lemma framed_ret {A} (a : A) : framed Rel Q (mret a : M S E A).
Proof. intros s. split; [reflexivity | constructor]. Qed.
Lemma framed_get : framed Rel Q (get : M S E S).
Proof. intros s. split; [reflexivity | constructor]. Qed.
Lemma framed_gets {A} (f : S -> A) : framed Rel Q (gets f : M S E A).
Proof. intros s. split; [reflexivity | constructor]. Qed.
Lemma framed_modify f : (forall s, Rel s (f s)) -> framed Rel Q (modify f : M S E unit).
Proof. intros Hf s. split; [apply Hf | constructor]. Qed.
Lemma framed_throw {A} f : framed Rel Q (throw f : M S E A).
Proof. done. Qed.
Lemma framed_emit e : Q e -> framed Rel Q (emit e : M S E unit).
Proof. intros He s. split; [reflexivity | by repeat constructor]. Qed.
Lemma framed_emits es : Forall Q es -> framed Rel Q (emits es : M S E unit).
Proof. intros He s. split; [reflexivity | exact He]. Qed.
Lemma framed_deref {A} w (o : option A) : framed Rel Q (deref w o : M S E A).
Proof. destruct o; [apply framed_ret | apply framed_throw]. Qed.
Lemma framed_value {A} w (o : option A) : framed Rel Q (value w o : M S E A).
Proof. destruct o; [apply framed_ret | apply framed_throw]. Qed.
Lemma framed_for_each {A} (l : list A) (body : A -> M S E unit) :
  (forall x, framed Rel Q (body x)) -> framed Rel Q (for_each l body).
Proof. intros Hb. induction l; cbn [for_each]; [apply framed_ret | by apply framed_bind]. Qed.
Lemma framed_zoom {T F A} (g : S -> T) p (inj : F -> E) (m : M T F A) :
  (forall s t, Rel s (p t s)) -> framed (fun _ _ => True) (fun e => Q (inj e)) m -> framed Rel Q (zoom g p inj m).
Proof.
  intros Hp Hm s. unfold wlp, zoom. specialize (Hm (g s)). unfold wlp in Hm.
  destruct (m (g s)) as [[[a t] es]|]; [|done]. destruct Hm as [_ Hm]. split; [apply Hp | by apply Forall_fmap].
Qed.
End framed_rules.

#[global] Instance anything_preorder {S} : PreOrder (fun _ _ : S => True).
Proof. by split. Qed.

(** The effects of every run satisfy [Q]. *)
Abbreviation emits_only Q m := (framed (fun _ _ => True) Q m).

Lemma emits_only_any {S E A} (Q : E -> Prop) (m : M S E A) : (forall e, Q e) -> emits_only Q m.
Proof. intros HQ s. unfold wlp. destruct (m s) as [[[a s'] es]|]; [|done]. split; [done|]. by apply Forall_forall. Qed.

Lemma emits_only_wlp {S E A} (Q : E -> Prop) (m : M S E A) s :
  emits_only Q m -> wlp m (fun _ _ es => Forall Q es) s.
Proof. intros Hm. eapply wlp_mono; [|exact (Hm s)]. by intros a s' es []. Qed.

(** Equation of a two-step run, used to evaluate handlers symbolically. *)
Lemma bind_done {S E A B} (m : M S E A) (f : A -> M S E B) s a s1 e1 :
  m s = Done (a, s1, e1) ->
  mbind f m s = match f a s1 with
                | Done (b, s2, e2) => Done (b, s2, e1 ++ e2)
                | Fault x => Fault x
                end.
Proof. by unfold mbind, M_bind; intros ->. Qed.

(** Loops of which at most one round does something. *)
Lemma for_each_idle {S E A} (l : list A) (body : A -> M S E unit) s :
  (forall x, x ∈ l -> body x s = Done (tt, s, [])) -> for_each l body s = Done (tt, s, []).
Proof.
  induction l as [|x l IH]; intros Hb; simpl; [done|].
  rewrite (bind_done _ _ _ _ _ _ (Hb x (list_elem_of_here _ _))).
  by rewrite IH by (intros; apply Hb; by right).
Qed.

Lemma for_each_single {S E A} (l : list A) (body : A -> M S E unit) x s s' es :
  NoDup l -> x ∈ l -> body x s = Done (tt, s', es) ->
  (forall y, y ∈ l -> y <> x -> body y s = Done (tt, s, [])) ->
  (forall y, y ∈ l -> y <> x -> body y s' = Done (tt, s', [])) ->
  for_each l body s = Done (tt, s', es).
Proof.
  intros Hnd Hx Hbx Hb Hb'. induction Hnd as [|y l Hy Hnd IH]; [by apply not_elem_of_nil in Hx|].
  apply elem_of_cons in Hx as [<-|Hx]; simpl.
  - rewrite (bind_done _ _ _ _ _ _ Hbx). rewrite for_each_idle; [by rewrite app_nil_r|].
    intros z Hz. apply Hb'; [by right|]. by intros ->.
  - rewrite (bind_done _ _ _ _ _ _ (Hb y (list_elem_of_here _ _) ltac:(by intros ->))).
    rewrite IH; [done|done|..]; intros; [apply Hb | apply Hb']; set_solver.
Qed.

Lemma for_until_idle {S E A R} (l : list A) (body : A -> M S E (option R)) s :
  (forall x, x ∈ l -> body x s = Done (None, s, [])) -> for_until l body s = Done (None, s, []).
Proof.
  induction l as [|x l IH]; intros Hb; simpl; [done|].
  rewrite (bind_done _ _ _ _ _ _ (Hb x (list_elem_of_here _ _))).
  by rewrite IH by (intros; apply Hb; by right).
Qed.

Lemma for_until_hit {S E A R} `{EqDecision A} (l : list A) (body : A -> M S E (option R)) x r s s' es :
  x ∈ l -> body x s = Done (Some r, s', es) ->
  (forall y, y ∈ l -> y <> x -> body y s = Done (None, s, [])) ->
  for_until l body s = Done (Some r, s', es).
Proof.
  intros Hx Hbx Hb. induction l as [|y l IH]; [by apply not_elem_of_nil in Hx|]. simpl.
  destruct (decide (y = x)) as [->|Hne].
  - rewrite (bind_done _ _ _ _ _ _ Hbx). simpl. by rewrite app_nil_r.
  - rewrite (bind_done _ _ _ _ _ _ (Hb y (list_elem_of_here _ _) Hne)).
    apply elem_of_cons in Hx as [->|Hx]; [done|].
    rewrite IH; [done|done|]. intros; apply Hb; set_solver.
Qed.

(** Symbolic execution of a handler in a [wlp] goal: one rule per primitive,
    conditionals and matches split with their equation. *)
Ltac wlp_step :=
  lazymatch goal with
  | |- wlp (mbind _ _) _ _ => apply wlp_bind
  | |- wlp (mret _) _ _ => apply wlp_ret
  | |- wlp skip _ _ => apply wlp_ret
  | |- wlp get _ _ => apply wlp_get
  | |- wlp (gets _) _ _ => apply wlp_gets
  | |- wlp (modify _) _ _ => apply wlp_modify
  | |- wlp (emit _) _ _ => apply wlp_emit
  | |- wlp (emits _) _ _ => apply wlp_emits
  | |- wlp (throw _) _ _ => apply wlp_throw
  | |- wlp (deref _ _) _ _ => apply wlp_deref; intros
  | |- wlp (value _ _) _ _ => apply wlp_value; intros
  | |- wlp (if ?b then _ else _) _ _ =>
      lazymatch type of b with bool => destruct b eqn:? | _ => destruct b end
  | |- wlp (match ?x with _ => _ end) _ _ => destruct x eqn:?
  | |- wlp ((fun _ => _) _) _ _ => cbv beta
  end.
Ltac wlp_run := repeat wlp_step.

(** Evaluates the primitives of a handler applied to a state, in the goal. *)
Ltac run_M :=
  cbv beta iota delta [mbind M_bind mret M_ret get gets modify emit emits throw skip deref value];
  simpl.

Create HintDb rtc.
#[export] Hint Resolve wlp_ret wlp_throw : rtc.
#[export] Hint Resolve framed_ret framed_get framed_gets framed_throw framed_deref framed_value : rtc.

(** Walks through a handler in a [framed] goal; leaves the effects and assignments that
    need an argument, and the handlers that need a lemma. *)
Ltac frame_step :=
  lazymatch goal with
  | |- framed _ _ (mbind _ _) => apply framed_bind; [typeclasses eauto| |intros]
  | |- framed _ _ (for_each _ _) => apply framed_for_each; [typeclasses eauto|intros]
  | |- framed _ _ skip => apply framed_ret; typeclasses eauto
  | |- framed _ _ (emit _) => apply framed_emit; [typeclasses eauto|]; try solve [done | auto with rtc]
  | |- framed _ _ (modify _) => apply framed_modify; intros; try solve [done | auto with rtc]
  | |- framed _ _ (zoom _ _ _ _) => apply framed_zoom; [try solve [done | intros; auto with rtc]|]
  | |- framed _ _ (if ?b then _ else _) => destruct b
  | |- framed _ _ (match ?x with _ => _ end) => destruct x eqn:?
  | |- framed _ _ (let x := _ in _) => cbv zeta
  | |- framed _ _ _ => solve [eauto with rtc typeclass_instances | by apply emits_only_any]
  end.
Ltac frame_run := repeat frame_step.

(** ** Machine integers *)

Definition INT32_MIN : Z := -2147483648.
Definition INT32_MAX : Z := 2147483647.
Definition INT64_MIN : Z := -9223372036854775808.
Definition INT64_MAX : Z := 9223372036854775807.

Definition in_int32 (z : Z) : bool := (INT32_MIN <=? z) && (z <=? INT32_MAX).
Definition in_int64 (z : Z) : bool := (INT64_MIN <=? z) && (z <=? INT64_MAX).

(** Conversion of an integer to [int32_t], as every compiler the project builds
    with does it: the value modulo 2^32, read as two's complement. *)
Definition wrap32 (z : Z) : Z := (z + 2147483648) mod 4294967296 - 2147483648.

Lemma in_int32_spec z : in_int32 z = true <-> INT32_MIN <= z <= INT32_MAX.
Proof. unfold in_int32. rewrite andb_true_iff, !Z.leb_le. done. Qed.
Lemma in_int64_spec z : in_int64 z = true <-> INT64_MIN <= z <= INT64_MAX.
Proof. unfold in_int64. rewrite andb_true_iff, !Z.leb_le. done. Qed.

Lemma wrap32_id z : in_int32 z = true -> wrap32 z = z.
Proof.
  rewrite in_int32_spec. unfold wrap32, INT32_MIN, INT32_MAX. intros ?.
  rewrite Z.mod_small; lia.
Qed.
Lemma wrap32_range z : in_int32 (wrap32 z) = true.
Proof.
  rewrite in_int32_spec. unfold wrap32, INT32_MIN, INT32_MAX.
  pose proof (Z.mod_pos_bound (z + 2147483648) 4294967296). lia.
Qed.
Lemma wrap32_fixed z : wrap32 z = z <-> in_int32 z = true.
Proof. split; [intros <-; apply wrap32_range | apply wrap32_id]. Qed.
