(* ===== verification/Strings.v ===== *)
(** * Characters and strings as lists

    What the text-processing components share: [std::string] as a list of
    characters, the [<cctype>] classification of the C locale, and [std::search]
    with its specification. *)

From stdpp Require Import base strings list.
From Stdlib Require Import Ascii Lia.
From S2P Require Import Prelude.

#[local] Open Scope list_scope.
#[local] Open Scope nat_scope.

Abbreviation str := (list ascii).

(** A literal of the source. *)
Definition lit (s : string) : str := Stdlib.Strings.String.list_ascii_of_string s.

(** ** Characters *)

Definition NUL : ascii := Ascii.zero.

Definition tolower (c : ascii) : ascii :=
  let n := nat_of_ascii c in
  if (65 <=? n) && (n <=? 90) then ascii_of_nat (n + 32) else c.
Definition toupper (c : ascii) : ascii :=
  let n := nat_of_ascii c in
  if (97 <=? n) && (n <=? 122) then ascii_of_nat (n - 32) else c.
Definition isdigit (c : ascii) : bool :=
  let n := nat_of_ascii c in (48 <=? n) && (n <=? 57).
Definition isspace (c : ascii) : bool :=
  let n := nat_of_ascii c in ((9 <=? n) && (n <=? 13)) || (n =? 32).

(** ** [std::search]

    Both functions compare element by element with a predicate; [search] gives the
    index of the first match, or the length of the text: the position of [end]. *)

Section search.
Context {A : Type}.
Variable p : A -> A -> bool.

Fixpoint matches_at (text sub : list A) {struct sub} : bool :=
  match sub, text with
  | [], _ => true
  | y :: sub, x :: text => p x y && matches_at text sub
  | _ :: _, [] => false
  end.

Fixpoint search (text sub : list A) : nat :=
  if matches_at text sub then 0
  else match text with
       | [] => 0
       | _ :: text => S (search text sub)
       end.

(** [mid] is an occurrence of [sub]. *)
Definition same (mid sub : list A) : Prop := Forall2 (fun x y => p x y = true) mid sub.

Lemma matches_at_spec text sub :
  matches_at text sub = true <-> exists mid post, text = mid ++ post /\ same mid sub.
Proof.
  revert text. induction sub as [|y sub IH]; intros text; simpl.
  - split; [intros _; exists [], text; split; [done | apply Forall2_nil; done] | done].
  - destruct text as [|x text].
    + split; [done|]. intros (mid & post & Heq & Hs). apply Forall2_cons_inv_r in Hs as (? & ? & ? & ? & ->). done.
    + rewrite andb_true_iff, IH. split.
      * intros (Hp & mid & post & -> & Hs). exists (x :: mid), post. split; [done|]. by constructor.
      * intros (mid & post & Heq & Hs). apply Forall2_cons_inv_r in Hs as (x' & mid' & Hp & Hs & ->).
        injection Heq as -> ->. split; [done|]. by exists mid', post.
Qed.

Lemma search_le text sub : search text sub <= length text.
Proof. induction text; simpl; destruct (matches_at _ _); lia. Qed.

(** No occurrence of [sub] starts before the index [search] gives. *)
Lemma search_first text sub i :
  i < search text sub -> matches_at (drop i text) sub = false.
Proof.
  revert i. induction text as [|x text IH]; intros i; cbn [search].
  - destruct (matches_at [] sub); lia.
  - destruct (matches_at (x :: text) sub) eqn:Hm; [lia|]. destruct i as [|i]; [done|].
    intros Hi. apply IH. lia.
Qed.

Lemma search_hit text sub :
  search text sub <> length text -> matches_at (drop (search text sub) text) sub = true.
Proof.
  induction text as [|x text IH]; cbn [search].
  - by destruct (matches_at [] sub).
  - destruct (matches_at (x :: text) sub) eqn:Hm; [by rewrite drop_0|].
    simpl. intros Hne. apply IH. lia.
Qed.

Lemma search_miss text sub i :
  search text sub = length text -> i < length text -> matches_at (drop i text) sub = false.
Proof. intros Hs Hi. apply search_first. lia. Qed.

(** The text around the first occurrence. *)
Lemma search_split text sub :
  search text sub <> length text ->
  exists mid post, text = take (search text sub) text ++ mid ++ post /\ same mid sub /\
    drop (search text sub + length sub) text = post.
Proof.
  intros Hne. pose proof (search_hit text sub Hne) as Hm.
  apply matches_at_spec in Hm as (mid & post & Hd & Hs).
  exists mid, post. split; [by rewrite <- Hd, take_drop|]. split; [done|].
  rewrite <- drop_drop, Hd. apply Forall2_length in Hs. rewrite <- Hs. by rewrite drop_app_length.
Qed.
End search.

(** With equality, an occurrence is a copy. *)
Lemma same_eqb (mid sub : str) : same Ascii.eqb mid sub <-> mid = sub.
Proof.
  unfold same. split.
  - induction 1 as [|x y mid sub Hxy _ IH]; [done|]. apply Ascii.eqb_eq in Hxy. by subst.
  - intros ->. induction sub; constructor; [by apply Ascii.eqb_eq | done].
Qed.
