(* ===== verification/StringAlgo.v ===== *)
(** * String algorithms

    Models [core/json/string_algo.hpp] on [std::string] operands.  The templates'
    [Predicate] is a parameter; [CharEqual] and [ICharEqual] are its two values.
    An iterator into the text is an index.  [stringable<std::string>] copies, so
    [to_string] of a string is the string; the conversion of another element type
    is the argument [to_string] of the functions on containers. *)

From stdpp Require Import base strings list.
From Stdlib Require Import Ascii Lia.
From S2P Require Import Prelude Strings.

#[local] Open Scope list_scope.
#[local] Open Scope nat_scope.

Definition CharEqual (c1 c2 : ascii) : bool := Ascii.eqb c1 c2.
Definition ICharEqual (c1 c2 : ascii) : bool := Ascii.eqb (toupper c1) (toupper c2).

Definition is_nul (c : ascii) : bool := Ascii.eqb c NUL.

Section algo.
Variable p : ascii -> ascii -> bool.

Definition contains (text subText : str) : bool := negb (search p text subText =? length text).

Definition find_after (text subText : str) : nat :=
  let it := search p text subText in
  if it =? length text then it else it + length subText.

(** [for (k = 0; text1[k] && text2[k]; ++k)]: [operator[]] gives NUL at the end. *)
Fixpoint equals (text1 text2 : str) : bool :=
  match text1, text2 with
  | c1 :: text1, c2 :: text2 =>
      if is_nul c1 || is_nul c2 then true
      else if negb (p c1 c2) then false else equals text1 text2
  | _, _ => true
  end.

(** Past its end [text1[k]] is NUL. *)
Fixpoint startsWith (text1 text2 : str) : bool :=
  match text2 with
  | [] => true
  | c2 :: text2 =>
      if is_nul c2 then true
      else match text1 with
           | [] => if negb (p NUL c2) then false else startsWith [] text2
           | c1 :: text1 => if negb (p c1 c2) then false else startsWith text1 text2
           end
  end.

(** The [while] loop of [replace]: [rest] is the text from [posLast], where [pos] was
    searched from; [None] when [fuel] rounds are not enough. *)
Fixpoint replace_loop (fuel : nat) (subText newText rest result : str) : option str :=
  match fuel with
  | O => None
  | S fuel =>
      let pos := search p rest subText in
      if pos =? length rest then Some (result ++ rest)
      else replace_loop fuel subText newText (drop (pos + length subText) rest)
             (result ++ take pos rest ++ newText)
  end.

(** [length text] rounds are enough, and one for the test that ends the loop. *)
Definition replace (text subText newText : str) : option str :=
  replace_loop (S (length text)) subText newText text [].
End algo.

Definition icontains := contains ICharEqual.
Definition ifind_after := find_after ICharEqual.
Definition iequals := equals ICharEqual.
Definition istartsWith := startsWith ICharEqual.
Definition ireplace := replace ICharEqual.

Section to_string.
Context {T : Type}.
Variable to_string : T -> str.

(** [to_string] of a vector, or of a set in its iteration order. *)
Definition to_string_all (values : list T) (separator : ascii) : str :=
  match values with
  | [] => []
  | _ => let r := foldl (fun r e => r ++ (to_string e ++ [separator])) [] values in
         take (length r - 1) r
  end.

(** The parameter pack of [combineString]. *)
Fixpoint combineString (head : T) (parameters : list T) : str :=
  match parameters with
  | [] => to_string head
  | x :: l => to_string head ++ combineString x l
  end.
End to_string.

(** ** What they compute *)

Section facts.
Variable p : ascii -> ascii -> bool.

(** [contains] finds substrings: it answers true exactly when the text is not
    empty and has an occurrence of the other text, and [find_after] then gives the
    index after the first one.  An empty text contains nothing, not even the empty
    text. *)
Theorem contains_spec text subText :
  (contains p text subText = true <->
     text <> [] /\ exists pre mid post, text = pre ++ mid ++ post /\ same p mid subText) /\
  (contains p text subText = true ->
     exists pre mid post, text = pre ++ mid ++ post /\ same p mid subText /\
       find_after p text subText = length pre + length mid /\
       (forall i, i < length pre -> matches_at p (drop i text) subText = false)).
Proof.
  assert (Hc : contains p text subText = true <-> search p text subText <> length text).
  { unfold contains. rewrite negb_true_iff. apply Nat.eqb_neq. }
  assert (Hhit : contains p text subText = true ->
    exists pre mid post, text = pre ++ mid ++ post /\ same p mid subText /\
      length pre = search p text subText).
  { intros Hs%Hc. destruct (search_split p text subText Hs) as (mid & post & Heq & Hm & _).
    exists (take (search p text subText) text), mid, post. split; [done|]. split; [done|].
    apply length_take_le, search_le. }
  split; [split|].
  - intros H. split; [|destruct (Hhit H) as (pre & mid & post & ? & ? & _); by exists pre, mid, post].
    intros ->. apply Hc in H. apply H. simpl. by destruct (matches_at p [] subText).
  - intros (Hne & pre & mid & post & Heq & Hm). apply Hc. intros Hs.
    assert (Hno : matches_at p (drop (length pre) text) subText = true).
    { apply matches_at_spec. exists mid, post. by rewrite Heq, drop_app_length. }
    destruct (decide (length pre < length text)) as [Hlt|Hge].
    + by rewrite (search_miss p text subText (length pre) Hs Hlt) in Hno.
    + rewrite Heq, !length_app in Hge. assert (mid = [] /\ post = []) as [-> ->].
      { split; apply length_zero_iff_nil; lia. }
      apply Forall2_nil_inv_l in Hm. subst subText. rewrite !app_nil_r in Heq. subst pre.
      destruct text as [|x text]; [done|]. simpl in Hs. by destruct text.
  - intros H. destruct (Hhit H) as (pre & mid & post & Heq & Hm & Hl). exists pre, mid, post.
    split; [done|]. split; [done|]. apply Hc in H. split.
    + unfold find_after. rewrite (proj2 (Nat.eqb_neq _ _) H), <- Hl. by rewrite (Forall2_length _ _ _ Hm).
    + intros i Hi. apply search_first. lia.
Qed.

(** Replacing from left to right: the reference [replace] is compared with. *)
Inductive replaced (subText newText : str) : str -> str -> Prop :=
| replaced_none text :
    (forall i, i < length text -> matches_at p (drop i text) subText = false) ->
    replaced subText newText text text
| replaced_first pre mid rest result :
    same p mid subText ->
    (forall i, i < length pre -> matches_at p (drop i (pre ++ mid ++ rest)) subText = false) ->
    replaced subText newText rest result ->
    replaced subText newText (pre ++ mid ++ rest) (pre ++ newText ++ result).

Lemma replace_loop_spec fuel subText newText rest acc :
  subText <> [] -> length rest < fuel ->
  exists r, replace_loop p fuel subText newText rest acc = Some (acc ++ r) /\ replaced subText newText rest r.
Proof.
  intros Hne. revert rest acc. induction fuel as [|fuel IH]; intros rest acc Hf; [lia|]. simpl.
  destruct (search p rest subText =? length rest) eqn:Hs.
  - apply Nat.eqb_eq in Hs. exists rest. split; [done|]. constructor. intros i. by apply search_miss.
  - apply Nat.eqb_neq in Hs.
    destruct (search_split p rest subText Hs) as (mid & post & Heq & Hm & Hdrop).
    pose proof (search_le p rest subText) as Hle. pose proof (Forall2_length _ _ _ Hm) as Hlm.
    assert (Hmid : 0 < length mid). { rewrite Hlm. destruct subText; [done | simpl; lia]. }
    rewrite Hdrop.
    assert (Hpost : length post < fuel).
    { apply (f_equal length) in Heq. rewrite !length_app, length_take_le in Heq by done. lia. }
    destruct (IH post (acc ++ take (search p rest subText) rest ++ newText) Hpost) as (r & Hr & Hrep).
    exists (take (search p rest subText) rest ++ newText ++ r). split; [by rewrite Hr, <- !app_assoc|].
    rewrite Heq at 1. constructor; [done| |done]. intros i Hi. rewrite <- Heq.
    apply search_first. rewrite length_take_le in Hi by done. exact Hi.
Qed.

Lemma replace_loop_stuck fuel newText rest acc :
  rest <> [] -> replace_loop p fuel [] newText rest acc = None.
Proof.
  revert acc. induction fuel as [|fuel IH]; intros acc Hne; [done|]. simpl.
  assert (search p rest [] = 0) as -> by (by destruct rest).
  destruct rest as [|x rest]; [done|]. simpl. by apply IH.
Qed.

Lemma replace_loop_more fuel subText newText rest acc v :
  replace_loop p fuel subText newText rest acc = Some v ->
  forall fuel', fuel <= fuel' -> replace_loop p fuel' subText newText rest acc = Some v.
Proof.
  revert rest acc. induction fuel as [|fuel IH]; [done|]. intros rest acc Hv [|fuel'] Hf; [lia|]. revert Hv. simpl.
  destruct (search p rest subText =? length rest); [done|]. intros Hv. apply (IH _ _ Hv). lia.
Qed.

(** C30: [replace] ends unless it is asked to replace the empty text.  For a
    non-empty text to replace, [length text] rounds are enough and the result is
    the text with the occurrences replaced from left to right; replacing the empty
    text in a non-empty one never ends, whatever the number of rounds; in the empty
    one it replaces nothing. *)
Theorem replace_terminates text subText newText :
  (subText <> [] -> exists r, replace p text subText newText = Some r /\ replaced subText newText text r /\
     forall fuel, length text < fuel -> replace_loop p fuel subText newText text [] = Some r) /\
  (subText = [] -> text <> [] -> forall fuel, replace_loop p fuel subText newText text [] = None) /\
  (subText = [] -> text = [] -> replace p text subText newText = Some []).
Proof.
  split; [|split].
  - intros Hne. destruct (replace_loop_spec (S (length text)) subText newText text [] Hne ltac:(lia))
      as (r & Hr & Hrep). exists r. split; [exact Hr|]. split; [done|].
    intros fuel Hf. apply (replace_loop_more _ _ _ _ _ _ Hr). lia.
  - intros -> Hne fuel. by apply replace_loop_stuck.
  - by intros -> ->.
Qed.
End facts.

Definition ab : str := ["a"; "b"]%char.

Lemma replace_terminates_witness :
  (ab <> [] /\ exists r, replace CharEqual (ab ++ ab) ab ["c"%char] = Some r /\
     replaced CharEqual ab ["c"%char] (ab ++ ab) r /\ r = ["c"; "c"]%char) /\
  (forall fuel, replace_loop CharEqual fuel [] ["c"%char] ab [] = None).
Proof.
  split; [|exact (proj1 (proj2 (replace_terminates CharEqual ab [] ["c"%char])) eq_refl ltac:(discriminate))].
  split; [discriminate|].
  destruct (proj1 (replace_terminates CharEqual (ab ++ ab) ab ["c"%char]) ltac:(discriminate)) as (r & Hr & Hrep & _).
  exists r. split; [exact Hr|]. split; [exact Hrep|]. vm_compute in Hr. by injection Hr as <-.
Defined.

(** [equals] is not equality: on texts without a NUL it answers true exactly
    when one is a prefix of the other, [startsWith] exactly when the second is a
    prefix of the first. *)
Theorem equals_is_prefix text1 text2 :
  NUL ∉ text1 -> NUL ∉ text2 ->
  (equals CharEqual text1 text2 = true <-> text1 `prefix_of` text2 \/ text2 `prefix_of` text1) /\
  (startsWith CharEqual text1 text2 = true <-> text2 `prefix_of` text1).
Proof.
  assert (Hnul : forall c (l : str), NUL ∉ c :: l -> is_nul c = false /\ NUL ∉ l).
  { intros c l Hc. apply not_elem_of_cons in Hc as [Hc Hl]. split; [|done].
    unfold is_nul. apply Ascii.eqb_neq. congruence. }
  revert text2. induction text1 as [|c1 text1 IH]; intros text2 H1 H2.
  - split; cbn [equals startsWith].
    + split; [intros _; left; apply prefix_nil | done].
    + destruct text2 as [|c2 text2]; [done|]. apply Hnul in H2 as [Hc _]. cbn [startsWith]. rewrite Hc.
      assert (CharEqual NUL c2 = false) as ->.
      { unfold CharEqual. rewrite Ascii.eqb_sym. exact Hc. }
      cbn [negb]. split; [done|]. by intros ?%prefix_nil_not.
  - destruct text2 as [|c2 text2].
    { split; simpl; [|by split; [intros _; apply prefix_nil|]]. split; [intros _; right; apply prefix_nil | done]. }
    destruct (Hnul _ _ H1) as [Hc1 Hl1], (Hnul _ _ H2) as [Hc2 Hl2]. destruct (IH text2 Hl1 Hl2) as [He Hs].
    cbn [equals startsWith]. rewrite Hc1, Hc2. cbn [orb].
    destruct (CharEqual c1 c2) eqn:Heq; unfold CharEqual in Heq; cbn [negb].
    + apply Ascii.eqb_eq in Heq. subst c2. rewrite He, Hs.
      assert (Hcons : forall l l' : str, l `prefix_of` l' <-> c1 :: l `prefix_of` c1 :: l').
      { split; [apply prefix_cons | apply prefix_cons_inv_2]. }
      by rewrite (Hcons text1 text2), (Hcons text2 text1).
    + apply Ascii.eqb_neq in Heq. split; (split; [done|]).
      * intros [H|H]; apply prefix_cons_inv_1 in H; congruence.
      * intros H. apply prefix_cons_inv_1 in H. congruence.
Qed.

(** The containers: elements with the separator between them. *)
Lemma to_string_all_spec {T} (f : T -> str) (x : T) l sep :
  to_string_all f (x :: l) sep = foldl (fun r e => r ++ sep :: f e) (f x) l.
Proof.
  unfold to_string_all. cbv zeta.
  assert (H : forall l r, foldl (fun r e => r ++ f e ++ [sep]) (r ++ [sep]) l =
                          foldl (fun r e => r ++ sep :: f e) r l ++ [sep]).
  { induction l0 as [|y l0 IH]; intros r; simpl; [done|]. rewrite <- IH. f_equal. by rewrite <- !app_assoc. }
  simpl. rewrite H. rewrite length_app. simpl. rewrite Nat.add_sub. by rewrite take_app_length.
Qed.
