(* ===== verification/StringBuffer.v ===== *)
(** * The growing stream buffer

    Models [core/json/StringBuffer.h]: the primary template [BasicStringBuffer] on
    [std::iostream] and on [std::ostream], its specialization for [std::istream], and
    the three [BasicStringBufferPtr].  The code of the specialization is that of the
    template where the class [StreamType] does not say otherwise.  The text lives in a
    vector; the get and put areas of [std::streambuf] point into its storage
    and are brought up to date by [syncInput] and [syncOutput].

    A pointer is null or an offset into a block of storage; allocating makes a block of
    a new number, and a pointer to any block but the vector's own dangles.  Undefined
    behaviour is a fault.  The growth of a vector's capacity is the parameter [grow].
    Of [std::streambuf], [sgetc], [sbumpc], [sputc], [sungetc] and [sputbackc] are
    modelled: they work on the areas and call the virtual functions at their ends.  Of
    the state of the stream, which the [std::istream] and the [std::ostream] a buffer is
    share, [good()] is modelled: reading an exhausted source sets [failbit], and the
    stream takes nothing until a [clear()]. *)

From stdpp Require Import base strings pretty list.
From Stdlib Require Import ZArith Lia Ascii SpecFloat.
From S2P Require Import Prelude Strings.

#[local] Open Scope list_scope.

(** ** Storage *)

(** [std::vector<char>]; an empty one that never grew has capacity 0 and no block. *)
Record vector : Type := mkVector { v_text : str; v_block : nat; v_cap : nat }.
Definition v_size (v : vector) : nat := length (v_text v).

(** A pointer: block and offset. *)
Abbreviation ptr := (option (nat * nat)).

(** [<] on the pointers of one block; null is below the others. *)
Definition ptr_lt (p q : ptr) : bool :=
  match p, q with
  | Some (_, i), Some (_, j) => (i <? j)%nat
  | None, Some _ => true
  | _, None => false
  end.
Definition ptr_le (p q : ptr) : bool := negb (ptr_lt q p).
(** [p - q] of pointers that are not null, and [p + n]. *)
Definition ptr_sub (p q : ptr) : nat :=
  match p, q with Some (_, i), Some (_, j) => (i - j)%nat | _, _ => 0%nat end.
Definition ptr_add (p : ptr) (n : nat) : ptr := (fun bi => (fst bi, (snd bi + n)%nat)) <$> p.
Definition is_null (p : ptr) : bool := bool_decide (p = None).

(** The source stream: whether it is [good], and what it still holds. *)
Record source : Type := mkSrc { src_good : bool; src_left : str }.

Record StringBuffer : Type := mkSB {
  sb_data : vector;
  sb_blocks : nat;   (* the blocks allocated so far *)
  sb_eback : ptr;
  sb_gptr : ptr;
  sb_egptr : ptr;
  sb_pbase : ptr;
  sb_pptr : ptr;
  sb_epptr : ptr;
  sb_inputInitialized : bool;
  sb_src : option source;
  sb_good : bool   (* [good()] of the stream the buffer is *)
}.

(** [std::ostream::write]. *)
Inductive sb_effect : Type := OsWrite (os : nat) (text : str).

Abbreviation sb_handler := (M StringBuffer sb_effect).

(** The constructors; a text that is not empty is stored in a block of its size. *)
Definition new_StringBuffer (text : str) (src : option source) : StringBuffer :=
  mkSB (mkVector text 0 (length text)) 1 None None None None None None false src true.

Definition set_data (v : vector) (blocks : nat) (s : StringBuffer) : StringBuffer :=
  mkSB v blocks (sb_eback s) (sb_gptr s) (sb_egptr s) (sb_pbase s) (sb_pptr s) (sb_epptr s)
    (sb_inputInitialized s) (sb_src s) (sb_good s).
Definition setg (eback gptr egptr : ptr) : sb_handler unit := modify (fun s =>
  mkSB (sb_data s) (sb_blocks s) eback gptr egptr (sb_pbase s) (sb_pptr s) (sb_epptr s) (sb_inputInitialized s) (sb_src s) (sb_good s)).
(** [setp] puts [pptr] at [pbase]. *)
Definition setp (pbase epptr : ptr) : sb_handler unit := modify (fun s =>
  mkSB (sb_data s) (sb_blocks s) (sb_eback s) (sb_gptr s) (sb_egptr s) pbase pbase epptr (sb_inputInitialized s) (sb_src s) (sb_good s)).
Definition set_pptr (p : ptr) : sb_handler unit := modify (fun s =>
  mkSB (sb_data s) (sb_blocks s) (sb_eback s) (sb_gptr s) (sb_egptr s) (sb_pbase s) p (sb_epptr s) (sb_inputInitialized s)
    (sb_src s) (sb_good s)).
Definition set_initialized (b : bool) : sb_handler unit := modify (fun s =>
  mkSB (sb_data s) (sb_blocks s) (sb_eback s) (sb_gptr s) (sb_egptr s) (sb_pbase s) (sb_pptr s) (sb_epptr s) b (sb_src s) (sb_good s)).
Definition set_src (v : option source) : sb_handler unit := modify (fun s =>
  mkSB (sb_data s) (sb_blocks s) (sb_eback s) (sb_gptr s) (sb_egptr s) (sb_pbase s) (sb_pptr s) (sb_epptr s)
    (sb_inputInitialized s) v (sb_good s)).
(** [clear()] and [setstate(failbit)] of the stream. *)
Definition set_good (b : bool) : sb_handler unit := modify (fun s =>
  mkSB (sb_data s) (sb_blocks s) (sb_eback s) (sb_gptr s) (sb_egptr s) (sb_pbase s) (sb_pptr s) (sb_epptr s)
    (sb_inputInitialized s) (sb_src s) b).

(** [&data[0]]. *)
Definition start_of (s : StringBuffer) : ptr := Some (v_block (sb_data s), 0%nat).
Definition size_of (s : StringBuffer) : nat := v_size (sb_data s).

(** [*p], and [*p = c]: inside the vector. *)
Definition inside (s : StringBuffer) (block i : nat) : bool :=
  (block =? v_block (sb_data s))%nat && (i <? size_of s)%nat.
Definition load (p : ptr) : sb_handler ascii :=
  s ← get;
  match p with
  | None => throw (NullDeref "gptr")
  | Some (b, i) =>
      if inside s b i then deref "gptr" (v_text (sb_data s) !! i) else throw (Thrown "read outside the vector")
  end.
Definition store (p : ptr) (c : ascii) : sb_handler unit :=
  s ← get;
  match p with
  | None => throw (NullDeref "pptr")
  | Some (b, i) =>
      if inside s b i then
        modify (set_data (mkVector (<[i := c]> (v_text (sb_data s))) (v_block (sb_data s)) (v_cap (sb_data s))) (sb_blocks s))
      else throw (Thrown "write outside the vector")
  end.

(** The stream a buffer is: whether it is a [std::istream] and a [std::ostream], and
    whether [*this << x] is the template's own [operator<<] (which brings the put area
    up to date first) or that of [std::ostream]. *)
Class StreamType : Type := { is_istream : bool; is_ostream : bool; own_insertion : bool }.
Definition iostream_type : StreamType := {| is_istream := true; is_ostream := true; own_insertion := true |}.
Definition ostream_type : StreamType := {| is_istream := false; is_ostream := true; own_insertion := true |}.
Definition istream_type : StreamType := {| is_istream := true; is_ostream := false; own_insertion := false |}.

Section buffer.
Context {kind : StreamType}.
(** The new capacity, from the size and the number of elements added. *)
Variable grow : nat -> nat -> nat.
(** The calls that fit the stack. *)
Variable stack : nat.

(** [push_back], and [insert] at the end. *)
Definition v_append (text : str) (v : vector) (blocks : nat) : vector * nat :=
  if (v_size v + length text <=? v_cap v)%nat then (mkVector (v_text v ++ text) (v_block v) (v_cap v), blocks)
  else (mkVector (v_text v ++ text) blocks (grow (v_size v) (length text)), S blocks).

(** [operator+=], and [operator<<] of texts. *)
Definition append (text : str) : sb_handler unit := modify (fun s =>
  let '(v, blocks) := v_append text (sb_data s) (sb_blocks s) in set_data v blocks s).

(** What a [const char *] points to. *)
Fixpoint c_string (bytes : str) : str :=
  match bytes with
  | [] => []
  | c :: bytes => if Ascii.eqb c NUL then [] else c :: c_string bytes
  end.
Definition append_cstr (p : option str) : sb_handler unit := p ← deref "str" p; append (c_string p).

(** [std::to_chars] of an integer, at most 20 characters. *)
Definition to_chars (z : Z) : str :=
  if z <? 0 then "-"%char :: lit (pretty (Z.to_N (- z))) else lit (pretty (Z.to_N z)).
Definition appendNumber (value : Z) : sb_handler unit := append (to_chars value).

(** [m * 10^6 / 2^k] to the nearest integer, a tie to the even one. *)
Definition fixed6 (m : positive) (e : Z) : Z :=
  if 0 <=? e then Z.pos m * 2 ^ e * 1000000
  else
    let d := 2 ^ (- e) in
    let n := Z.pos m * 1000000 in
    let q := n / d in
    let r := n mod d in
    if 2 * r <? d then q else if d <? 2 * r then q + 1 else if Z.even q then q else q + 1.
(** [std::to_string] of a floating-point number: the format [%f]. *)
Definition six_digits (z : Z) : str :=
  let t := to_chars z in replicate (6 - length t) "0"%char ++ t.
Definition to_string_float (value : spec_float) : str :=
  let sign (s : bool) : str := if s then ["-"%char] else [] in
  match value with
  | S754_zero s => sign s ++ lit "0.000000"
  | S754_infinity s => sign s ++ lit "inf"
  | S754_nan => lit "nan"
  | S754_finite s m e =>
      let z := fixed6 m e in sign s ++ to_chars (z / 1000000) ++ ["."%char] ++ six_digits (z mod 1000000)
  end.
Definition appendFloat (value : spec_float) : sb_handler unit := append (to_string_float value).
Definition append_bool (value : bool) : sb_handler unit := appendNumber (if value then 1 else 0).
Definition append_endl : sb_handler unit := append [ascii_of_nat 10].

Definition nullTerminate : sb_handler unit :=
  s ← get; if decide (last (v_text (sb_data s)) = Some NUL) then skip else append [NUL].
Definition unterminate : sb_handler unit :=
  s ← get;
  if decide (last (v_text (sb_data s)) = Some NUL) then
    modify (set_data (mkVector (removelast (v_text (sb_data s))) (v_block (sb_data s)) (v_cap (sb_data s))) (sb_blocks s))
  else skip.

(** [((std::istream * )this)->clear()]: of a class that is not a [std::istream] the cast
    gives a pointer to no such object. *)
Definition clear_istream : sb_handler unit :=
  if is_istream then set_good true else throw (Thrown "cast to std::istream").

Definition clear : sb_handler unit :=
  _ ← modify (fun s => set_data (mkVector [] (v_block (sb_data s)) (v_cap (sb_data s))) (sb_blocks s) s);
  clear_istream.

Definition sb_str : sb_handler str := gets (fun s => v_text (sb_data s)).
Definition sb_at (pos : nat) : sb_handler ascii :=
  s ← get; match v_text (sb_data s) !! pos with Some c => mret c | None => throw (Thrown "data[pos]") end.
(** The characters a caller finds. *)
Definition sb_c_str (addNulTerminator : bool) : sb_handler str :=
  _ ← (if addNulTerminator then nullTerminate else skip);
  _ ← sb_at 0;
  sb_str.

(** ** The put area *)

(** [setp(&data[0] + from, &data[0] + size)]. *)
Definition setp_from (from : nat) : sb_handler unit :=
  s ← get; setp (ptr_add (start_of s) from) (ptr_add (start_of s) (size_of s)).

(** Either end of the buffer as the put area's. *)
Definition setp_end : sb_handler unit := s ← get; setp_from (size_of s).

Definition output_in_area (s : StringBuffer) : bool :=
  negb (is_null (sb_pbase s)) && negb (is_null (sb_pptr s)) && negb (is_null (sb_epptr s)) &&
  ptr_le (sb_pbase s) (sb_pptr s) && ptr_lt (sb_pptr s) (sb_epptr s).

(** [src != nullptr && src->good()]. *)
Definition source_good (s : StringBuffer) : bool := match sb_src s with Some x => src_good x | None => false end.

(** The rest of [syncOutput], after the source was read. *)
Definition syncOutput_area (offset : nat) : sb_handler unit :=
  s ← get;
  if (size_of s <=? offset)%nat then
    if (size_of s =? 0)%nat then setp None None else setp_end
  else setp_from offset.

Definition output_at_end (s : StringBuffer) : bool :=
  let e := ptr_add (start_of s) (size_of s) in
  bool_decide (sb_pbase s = e) && bool_decide (sb_pptr s = e) && bool_decide (sb_epptr s = e).

Definition overflow_with (syncOutput : sb_handler unit) (c : ascii) : sb_handler unit :=
  let in_area s := ptr_lt (sb_pptr s) (sb_epptr s) && negb (is_null (sb_pptr s)) && negb (is_null (sb_epptr s)) in
  s ← get;
  if in_area s then
    _ ← syncOutput;
    s ← get;
    if in_area s then _ ← store (sb_pptr s) c; set_pptr (ptr_add (sb_pptr s) 1)
    else append [c]
  else append [c].

(** [std::streambuf::sputc]. *)
Definition sputc_with (syncOutput : sb_handler unit) (c : ascii) : sb_handler unit :=
  s ← get;
  if ptr_lt (sb_pptr s) (sb_epptr s) then _ ← store (sb_pptr s) c; set_pptr (ptr_add (sb_pptr s) 1)
  else overflow_with syncOutput c.

(** [<<] of a [std::streambuf] that holds [text], into the [std::ostream]: its sentry lets
    nothing through unless the stream is good; then the characters are inserted, and when
    there was none [failbit] is set. *)
Definition insert_streambuf_with (syncOutput : sb_handler unit) (text : str) : sb_handler unit :=
  s ← get;
  if sb_good s then
    _ ← for_each text (sputc_with syncOutput);
    if decide (text = []) then set_good false else skip
  else skip.

(** [*this << src->rdbuf()]: the source is read as far as characters are inserted. *)
Definition read_source_with (syncOutput : sb_handler unit) : sb_handler unit :=
  _ ← (if own_insertion then syncOutput else skip);
  s ← get;
  match sb_src s with
  | None => throw (NullDeref "src")
  | Some x =>
      _ ← (if sb_good s then set_src (Some (mkSrc (src_good x) [])) else skip);
      insert_streambuf_with syncOutput (src_left x)
  end.

Fixpoint syncOutput_calls (calls : nat) : sb_handler unit :=
  match calls with
  | O => throw (Thrown "stack overflow")
  | S calls =>
      s ← get;
      if output_in_area s then
        let offset := ptr_sub (sb_pptr s) (sb_pbase s) in
        _ ← (if (size_of s <=? offset)%nat && source_good s then read_source_with (syncOutput_calls calls) else skip);
        syncOutput_area offset
      else if (size_of s =? 0)%nat then
        if negb (is_null (sb_pbase s)) || negb (is_null (sb_pptr s)) || negb (is_null (sb_epptr s)) then setp None None
        else skip
      else if output_at_end s then skip
      else setp_end
  end.
Definition syncOutput : sb_handler unit := syncOutput_calls stack.
Definition overflow : ascii -> sb_handler unit := overflow_with syncOutput.
Definition sputc : ascii -> sb_handler unit := sputc_with syncOutput.

(** [operator<<] of anything else: what the object writes to the [std::ostream], which
    takes nothing when it is not good. *)
Definition stream_object (text : str) : sb_handler unit :=
  _ ← (if own_insertion then syncOutput else skip);
  s ← get;
  if sb_good s then for_each text sputc else skip.

(** ** The get area *)

(** [setg(start, next, start + size)]. *)
Definition setg_at (next : nat) : sb_handler unit :=
  s ← get; setg (start_of s) (ptr_add (start_of s) next) (ptr_add (start_of s) (size_of s)).

Definition input_in_area (s : StringBuffer) : bool :=
  sb_inputInitialized s && negb (is_null (sb_eback s)) && negb (is_null (sb_gptr s)) && negb (is_null (sb_egptr s)) &&
  ptr_le (sb_eback s) (sb_gptr s) && ptr_le (sb_gptr s) (sb_egptr s).

(** The test "Changes are required". *)
Definition input_changed (s : StringBuffer) : bool :=
  is_null (sb_gptr s) || bool_decide (sb_gptr s = sb_egptr s) ||
  (negb (bool_decide (start_of s = sb_eback s)) || ptr_lt (sb_egptr s) (ptr_add (start_of s) (size_of s))).

Definition syncInput : sb_handler bool :=
  s ← get;
  if (size_of s =? 0)%nat then
    _ ← setg None None None; _ ← set_initialized false; mret false
  else if negb (input_changed s) then mret true
  else
    _ ← clear_istream;
    if input_in_area s then
      let offset := ptr_sub (sb_gptr s) (sb_eback s) in
      _ ← (if (size_of s <=? offset)%nat && source_good s then read_source_with syncOutput else skip);
      s ← get;
      if (offset =? size_of s)%nat then _ ← setg_at (size_of s); mret false
      else if (size_of s <? offset)%nat then
        _ ← setg (start_of s) None (ptr_add (start_of s) (size_of s)); mret false
      else _ ← setg_at offset; mret true
    else _ ← setg_at 0; _ ← set_initialized true; mret true.

Definition sync : sb_handler Z := _ ← syncInput; _ ← syncOutput; mret 0.

Definition underflow : sb_handler (option ascii) :=
  available ← syncInput;
  if (available : bool) then s ← get; c ← load (sb_gptr s); mret (Some c) else mret None.

Definition gbump (n : nat) : sb_handler unit :=
  s ← get; setg (sb_eback s) (ptr_add (sb_gptr s) n) (sb_egptr s).

(** [sgetc] and [sbumpc], which calls [uflow] at the end of the area. *)
Definition sgetc : sb_handler (option ascii) :=
  s ← get; if ptr_lt (sb_gptr s) (sb_egptr s) then c ← load (sb_gptr s); mret (Some c) else underflow.
Definition sbumpc : sb_handler (option ascii) :=
  s ← get;
  if ptr_lt (sb_gptr s) (sb_egptr s) then c ← load (sb_gptr s); _ ← gbump 1; mret (Some c)
  else r ← underflow; match r with Some c => _ ← gbump 1; mret (Some c) | None => mret None end.

(** A [char] converted to [int], and a character of [std::char_traits]. *)
Definition int_of_char (c : ascii) : Z :=
  let n := Z.of_nat (nat_of_ascii c) in if n <? 128 then n else n - 256.
Definition to_int_type (c : ascii) : Z := Z.of_nat (nat_of_ascii c).
Definition EOF : Z := -1.

(** [gptr - 1], below the pointer. *)
Definition ptr_pred (p : ptr) : ptr := (fun bi => (fst bi, (snd bi - 1)%nat)) <$> p.

(** The [char] an [int] becomes. *)
Definition char_of_int (c : Z) : ascii := ascii_of_nat (Z.to_nat (c mod 256)).

(** The last branch is compiled where the buffer is no [std::istream]; it writes
    through the pointer read before [setg]. *)
Definition pbackfail (c : Z) : sb_handler Z :=
  _ ← syncInput;
  s ← get;
  if sb_inputInitialized s && negb (is_null (sb_eback s)) && negb (is_null (sb_gptr s)) && negb (is_null (sb_egptr s)) &&
     ptr_lt (sb_eback s) (sb_gptr s) && ptr_le (sb_gptr s) (sb_egptr s) then
    let back := setg (sb_eback s) (ptr_pred (sb_gptr s)) (sb_egptr s) in
    if c =? EOF then _ ← back; mret 0
    else
      x ← load (ptr_pred (sb_gptr s));
      if int_of_char x =? c then _ ← back; mret c
      else if negb is_istream then _ ← back; _ ← store (sb_gptr s) (char_of_int c); mret c
      else mret EOF
  else mret EOF.

(** [sputbackc] and [sungetc]. *)
Definition sputbackc (c : ascii) : sb_handler Z :=
  s ← get;
  if ptr_lt (sb_eback s) (sb_gptr s) then
    x ← load (ptr_pred (sb_gptr s));
    if Ascii.eqb x c then _ ← setg (sb_eback s) (ptr_pred (sb_gptr s)) (sb_egptr s); mret (to_int_type c)
    else pbackfail (to_int_type c)
  else pbackfail (to_int_type c).
Definition sungetc : sb_handler Z :=
  s ← get;
  if ptr_lt (sb_eback s) (sb_gptr s) then
    x ← load (ptr_pred (sb_gptr s));
    _ ← setg (sb_eback s) (ptr_pred (sb_gptr s)) (sb_egptr s); mret (to_int_type x)
  else pbackfail EOF.

(** ** Seeking, swapping, assigning *)

Inductive seekdir : Type := Beg | Cur | End_.

(** The offset [dir] names; [cur] is the one of the current position. *)
Definition dir_offset (dir : seekdir) (cur : nat) (s : StringBuffer) : Z :=
  match dir with Beg => 0 | Cur => Z.of_nat cur | End_ => Z.of_nat (size_of s) end.

(** [&data[0] + newOffset + off] is inside; the put area ends at [epptr]. *)
Definition seek_inside (z : Z) (limit : ptr) : bool :=
  (0 <=? z) && match limit with Some (_, e) => z <=? Z.of_nat e | None => false end.

Definition seekoff (off : Z) (dir : seekdir) (in_ out : bool) : sb_handler Z :=
  let which_in := in_ && is_istream in
  let which_out := out && is_ostream in
  if negb which_in && negb which_out then mret EOF
  else
    _ ← (if which_out then syncOutput else skip);
    _ ← (if which_in then _ ← syncInput; skip else skip);
    s ← get;
    if (is_null (sb_gptr s) && which_in) || (is_null (sb_pptr s) && which_out) then mret EOF
    else
      let newInput := if which_in then dir_offset dir (ptr_sub (sb_gptr s) (sb_eback s)) s else -1 in
      let newOutput := if which_out then dir_offset dir (ptr_sub (sb_pptr s) (sb_pbase s)) s else -1 in
      if which_in && negb (seek_inside (newInput + off) (ptr_add (start_of s) (size_of s))) then mret EOF
      else if which_out && negb (seek_inside (newOutput + off) (sb_epptr s)) then mret EOF
      else
        _ ← (if which_in then setg_at (Z.to_nat (newInput + off)) else skip);
        _ ← (if which_out then setp_from (Z.to_nat (newOutput + off)) else skip);
        mret (if which_in then newInput else newOutput).
Definition seekpos (sp : Z) (which_in which_out : bool) : sb_handler Z := seekoff sp Beg which_in which_out.

(** [swap] with a vector, whose blocks are numbered with the buffer's; the vector gets
    the buffer's storage. *)
Definition swap_vector (other : vector) : sb_handler vector :=
  s ← get;
  _ ← modify (set_data other (sb_blocks s `max` S (v_block other)));
  _ ← sync;
  mret (sb_data s).

(** [swap] with another buffer: either sees the other's storage as a new block. *)
Definition renumber (block : nat) (v : vector) : vector := mkVector (v_text v) block (v_cap v).
Definition swap_buffer (other : StringBuffer) : sb_handler StringBuffer :=
  s ← get;
  let b := (sb_blocks s `max` sb_blocks other)%nat in
  _ ← modify (set_data (renumber b (sb_data other)) (S b));
  _ ← sync;
  match sync (set_data (renumber b (sb_data s)) (S b) other) with
  | Done (_, other, _) => mret other
  | Fault f => throw f
  end.

(** [setbuf]; [vector::assign] allocates when the text does not fit. *)
Definition setbuf (text : option str) : sb_handler unit :=
  match text with
  | None | Some [] => clear
  | Some text =>
      _ ← modify (fun s =>
            if (length text <=? v_cap (sb_data s))%nat then
              set_data (mkVector text (v_block (sb_data s)) (v_cap (sb_data s))) (sb_blocks s) s
            else set_data (mkVector text (sb_blocks s) (length text)) (S (sb_blocks s)) s);
      _ ← set_initialized false;
      _ ← syncInput; skip
  end.
End buffer.

(** ** The specialization for [std::istream] *)

Section istream.
#[local] Existing Instance istream_type.
Variable grow : nat -> nat -> nat.
Variable stack : nat.

Definition isb_new : str -> option source -> StringBuffer := new_StringBuffer.
(** [operator<<(std::streambuf * )], of a buffer that still holds [text]. *)
Definition isb_insert : str -> sb_handler unit := insert_streambuf_with grow (syncOutput grow stack).
Definition isb_nullTerminate : sb_handler unit := nullTerminate grow.
Definition isb_unterminate : sb_handler unit := unterminate.
Definition isb_size : StringBuffer -> nat := size_of.
Definition isb_clear : sb_handler unit := clear.
Definition isb_at : nat -> sb_handler ascii := sb_at.
Definition isb_c_str : bool -> sb_handler str := sb_c_str grow.
Definition isb_str : sb_handler str := sb_str.
Definition isb_swap : vector -> sb_handler vector := swap_vector grow stack.
Definition isb_sync : sb_handler Z := sync grow stack.
Definition isb_syncInput : sb_handler bool := syncInput grow stack.
Definition isb_syncOutput : sb_handler unit := syncOutput grow stack.
Definition isb_underflow : sb_handler (option ascii) := underflow grow stack.
Definition isb_overflow : ascii -> sb_handler unit := overflow grow stack.
Definition isb_pbackfail : Z -> sb_handler Z := pbackfail grow stack.
Definition isb_setbuf : option str -> sb_handler unit := setbuf grow stack.
(** [repositionWrite] is false. *)
Definition isb_seekoff (off : Z) (dir : seekdir) (in_ : bool) : sb_handler Z := seekoff grow stack off dir in_ false.
Definition isb_seekpos (sp : Z) (in_ : bool) : sb_handler Z := isb_seekoff sp Beg in_.
End istream.

(** ** The pointers to a buffer *)

(** [BasicStringBufferPtr<std::iostream>]: [os], and the buffer it owns. *)
Record StringBufferPtr : Type := mkSBPtr { sp_os : option nat; sp_sb : StringBuffer }.

Abbreviation sp_handler := (M StringBufferPtr sb_effect).

Section pointers.
Context {kind : StreamType}.
Variable grow : nat -> nat -> nat.
Variable stack : nat.

(** A new buffer on the stream, with what the stream holds: [*sb << is.rdbuf()]. *)
Definition sp_filled (x : source) (os : option nat) : outcome StringBufferPtr :=
  match read_source_with grow (syncOutput grow stack) (new_StringBuffer [] (Some x)) with
  | Done (_, s, _) => Done (mkSBPtr os s)
  | Fault f => Fault f
  end.
Definition sp_of_istream (x : source) : outcome StringBufferPtr := sp_filled x None.
Definition sp_of_iostream (x : source) (os : nat) : outcome StringBufferPtr := sp_filled x (Some os).
End pointers.
Definition sp_of_ostream (os : nat) : StringBufferPtr := mkSBPtr (Some os) (new_StringBuffer [] None).

(** [operator<<(std::ostream &, StringBuffer &)]. *)
Definition write_to (os : nat) : sp_handler unit :=
  p ← get;
  let text := v_text (sb_data (sp_sb p)) in
  if (0 <? length text)%nat then emit (OsWrite os text) else skip.
Definition sp_flush : sp_handler unit :=
  p ← get;
  match sp_os p with
  | Some os => _ ← write_to os; modify (fun p => mkSBPtr None (sp_sb p))
  | None => skip
  end.
Definition sp_destroy : sp_handler unit :=
  p ← get; match sp_os p with Some os => write_to os | None => skip end.

(** [BasicStringBufferPtr<std::ostream>]: of a stream it never reads. *)
Definition osp_of_ostream : nat -> StringBufferPtr := sp_of_ostream.
Definition osp_flush : sp_handler unit := sp_flush.
Definition osp_destroy : sp_handler unit := sp_destroy.

(** [BasicStringBufferPtr<std::istream>]. *)
Definition isp_of_istream (grow : nat -> nat -> nat) (stack : nat) : source -> outcome StringBufferPtr :=
  sp_of_istream (kind := istream_type) grow stack.
