(* ===== verification/StringBufferFacts.v ===== *)
(** * The growing stream buffer: theorems

    The specification is a queue: the text written so far, the position read up to, and
    what the source still holds.  Histories in which a [sync] stands between every write
    and the next read behave like the queue; the other theorems show what happens
    outside of them. *)

From stdpp Require Import base strings list.
From Stdlib Require Import ZArith Lia Ascii.
From S2P Require Import Prelude Strings StringBuffer.

#[local] Open Scope list_scope.
#[local] Open Scope nat_scope.

(** ** The queue *)

(** The text, the position read up to, the source, and whether objects can be written. *)
Record queue : Type := mkQueue { q_text : str; q_pos : nat; q_src : option source; q_ok : bool }.

Definition q_write (text : str) (q : queue) : queue := mkQueue (q_text q ++ text) (q_pos q) (q_src q) (q_ok q).
(** What an object writes is lost when the stream is not good. *)
Definition q_object (text : str) (q : queue) : queue := if q_ok q then q_write text q else q.
(** At the end of a text that is not empty, what a good source holds is added; a source
    that holds nothing any more leaves the stream in a failed state.  Anywhere else in a
    text that is not empty the state is cleared. *)
Definition q_fill (q : queue) : queue :=
  let cleared := mkQueue (q_text q) (q_pos q) (q_src q) true in
  if length (q_text q) =? 0 then q
  else match q_src q with
       | Some x =>
           if (length (q_text q) <=? q_pos q) && src_good x then
             mkQueue (q_text q ++ src_left x) (q_pos q) (Some (mkSrc true [])) (negb (bool_decide (src_left x = [])))
           else cleared
       | None => cleared
       end.
Definition q_next (q : queue) : option ascii := q_text q !! q_pos q.
Definition q_advance (q : queue) : queue :=
  match q_next q with Some _ => mkQueue (q_text q) (S (q_pos q)) (q_src q) (q_ok q) | None => q end.

(** ** Histories *)

Inductive sb_op : Type :=
| OWrite (text : str)   (* [+=], [<<] of texts and numbers *)
| OObject (text : str)   (* [<<] of an object that writes [text] *)
| OSync
| OPeek
| OGet.

Fixpoint q_run (ops : list sb_op) (q : queue) : list (option ascii) * queue :=
  match ops with
  | [] => ([], q)
  | OWrite text :: ops => q_run ops (q_write text q)
  | OObject text :: ops => q_run ops (q_object text q)
  | OSync :: ops => q_run ops (q_fill q)
  | OPeek :: ops => let '(rs, q') := q_run ops (q_fill q) in (q_next (q_fill q) :: rs, q')
  | OGet :: ops => let '(rs, q') := q_run ops (q_advance (q_fill q)) in (q_next (q_fill q) :: rs, q')
  end.

(** A [sync] between every write and the next read. *)
Fixpoint disciplined (written : bool) (ops : list sb_op) : bool :=
  match ops with
  | [] => true
  | OWrite _ :: ops | OObject _ :: ops => disciplined true ops
  | OSync :: ops => disciplined false ops
  | OPeek :: ops | OGet :: ops => negb written && disciplined written ops
  end.

(** When a fill does nothing, and what else it does. *)
Lemma q_fill_idle q : (q_pos q < length (q_text q) /\ q_ok q = true) \/ length (q_text q) = 0 -> q_fill q = q.
Proof.
  intros Hp. unfold q_fill. destruct Hp as [[Hp Hok]| ->]; [|done].
  rewrite (proj2 (Nat.eqb_neq _ _)) by lia. destruct (q_src q) as [x|] eqn:Hx.
  - rewrite (proj2 (Nat.leb_gt (length (q_text q)) (q_pos q)) Hp). destruct q; simpl in *; congruence.
  - destruct q; simpl in *; congruence.
Qed.

(** Inside the text only the state changes. *)
Lemma q_fill_inside q : q_pos q < length (q_text q) -> q_fill q = mkQueue (q_text q) (q_pos q) (q_src q) true.
Proof.
  intros Hp. unfold q_fill. rewrite (proj2 (Nat.eqb_neq _ _)) by lia. destruct (q_src q) as [x|] eqn:Hx; [|done].
  by rewrite (proj2 (Nat.leb_gt (length (q_text q)) (q_pos q)) Hp).
Qed.

Lemma q_fill_grows q : q_pos (q_fill q) = q_pos q /\ length (q_text q) <= length (q_text (q_fill q)).
Proof. unfold q_fill. repeat case_match; simpl; rewrite ?length_app; lia. Qed.

(** The state fails at the end of the text only. *)
Lemma q_fill_fails q : 0 < length (q_text q) -> q_ok (q_fill q) = false -> length (q_text (q_fill q)) <= q_pos (q_fill q).
Proof.
  intros Hne. unfold q_fill. rewrite (proj2 (Nat.eqb_neq _ _)) by lia. destruct (q_src q) as [x|]; [|done].
  destruct ((length (q_text q) <=? q_pos q) && src_good x) eqn:Hc; [|done]. simpl.
  apply andb_true_iff in Hc as [Hc%Nat.leb_le _]. case_bool_decide as Hl; [|done]. by rewrite Hl, app_nil_r.
Qed.

(** Without a source nothing is lost. *)
Definition written_by (op : sb_op) : str := match op with OWrite text | OObject text => text | _ => [] end.

Lemma q_run_sourceless ops q : q_src q = None -> q_ok q = true ->
  q_text (snd (q_run ops q)) = q_text q ++ (ops ≫= written_by).
Proof.
  revert q. assert (Hfill : forall q, q_src q = None -> q_ok q = true -> q_fill q = q).
  { intros [t p src ok]; simpl; intros -> ->. unfold q_fill. simpl. by destruct (length t =? 0). }
  induction ops as [|op ops IH]; intros q Hs Hok; [by rewrite app_nil_r|].
  destruct op as [text|text| | |]; rewrite bind_cons; cbn [q_run written_by]; rewrite ?Hfill by done.
  - rewrite IH by done. simpl. by rewrite <- app_assoc.
  - unfold q_object. rewrite Hok, IH by done. simpl. by rewrite <- app_assoc.
  - by rewrite IH.
  - specialize (IH q Hs Hok). by destruct (q_run ops q).
  - assert (Ha : q_src (q_advance q) = None /\ q_ok (q_advance q) = true /\ q_text (q_advance q) = q_text q)
      by (unfold q_advance; by destruct (q_next q)).
    destruct Ha as (H1 & H2 & H3). specialize (IH _ H1 H2). rewrite H3 in IH. by destruct (q_run ops (q_advance q)).
Qed.

Section queue.
(** A stream that can be read. *)
Context {kind : StreamType}.
Hypothesis readable : is_istream = true.
Variable grow : nat -> nat -> nat.
Variable depth : nat.
Let stack := S depth.

Fixpoint sb_run (ops : list sb_op) : sb_handler (list (option ascii)) :=
  match ops with
  | [] => mret []
  | OWrite text :: ops => _ ← append grow text; sb_run ops
  | OObject text :: ops => _ ← stream_object grow stack text; sb_run ops
  | OSync :: ops => _ ← sync grow stack; sb_run ops
  | OPeek :: ops => r ← sgetc grow stack; rs ← sb_run ops; mret (r :: rs)
  | OGet :: ops => r ← sbumpc grow stack; rs ← sb_run ops; mret (r :: rs)
  end.

(** The get area of a buffer that stands for [q]: none yet, or from the start of a
    block; [live] when it can be read. *)
Definition get_area (q : queue) (live : bool) (s : StringBuffer) : Prop :=
  (sb_gptr s = None /\ sb_egptr s = None /\ q_pos q = 0) \/
  exists b e, sb_eback s = Some (b, 0) /\ sb_gptr s = Some (b, q_pos q) /\ sb_egptr s = Some (b, e) /\
    sb_inputInitialized s = true /\ q_pos q <= e <= length (q_text q) /\ 0 < length (q_text q) /\
    (live = true -> b = v_block (sb_data s) \/ q_pos q = e).

Definition stands_for (q : queue) (live : bool) (s : StringBuffer) : Prop :=
  v_text (sb_data s) = q_text q /\ sb_src s = q_src q /\ sb_pptr s = sb_epptr s /\ sb_good s = q_ok q /\
  (q_ok q = false -> sb_gptr s = sb_egptr s) /\ get_area q live s.

Lemma stands_for_new text src : stands_for (mkQueue text 0 src true) true (new_StringBuffer text src).
Proof. repeat split. by left. Qed.

Lemma get_area_weaken q live s : get_area q live s -> get_area q false s.
Proof. intros [?|(b & e & ? & ? & ? & ? & ? & ? & _)]; [by left | right]. exists b, e. by repeat (split; [done|]). Qed.

Lemma append_run text s : exists s', append grow text s = Done (tt, s', []) /\
  v_text (sb_data s') = v_text (sb_data s) ++ text /\ sb_src s' = sb_src s /\ sb_pptr s' = sb_pptr s /\
  sb_epptr s' = sb_epptr s /\ sb_pbase s' = sb_pbase s /\ sb_eback s' = sb_eback s /\ sb_gptr s' = sb_gptr s /\
  sb_egptr s' = sb_egptr s /\ sb_inputInitialized s' = sb_inputInitialized s /\ sb_good s' = sb_good s.
Proof. unfold append, modify, v_append. destruct (v_size _ + _ <=? _); eexists; (split; [reflexivity|]); by repeat split. Qed.

Lemma append_stands text q live s : stands_for q live s ->
  exists s', append grow text s = Done (tt, s', []) /\ stands_for (q_write text q) false s'.
Proof.
  intros (Ht & Hs & Hp & Hok & Hend & Hg).
  destruct (append_run text s) as (s' & Hr & Ht' & Hs' & Hp1 & Hp2 & _ & H1 & H2 & H3 & H4 & H5).
  exists s'. split; [done|]. split; [by rewrite Ht', Ht|]. split; [by rewrite Hs'|]. split; [congruence|].
  split; [by rewrite H5|]. split; [simpl; rewrite H2, H3; exact Hend|].
  destruct (get_area_weaken _ _ _ Hg) as [(? & ? & ?)|(b & e & ? & ? & ? & ? & ? & ? & _)].
  - left. simpl. by rewrite H2, H3.
  - right. exists b, e. rewrite H1, H2, H3, H4. simpl. rewrite length_app. repeat split; auto; lia.
Qed.

Lemma ptr_lt_irrefl p : ptr_lt p p = false.
Proof. destruct p as [[b i]|]; [|done]. apply Nat.ltb_irrefl. Qed.

(** Without a put area every character is appended. *)
Lemma sputc_append sync c s : sb_pptr s = sb_epptr s -> sputc_with grow sync c s = append grow [c] s.
Proof.
  intros Hp. destruct (append_run [c] s) as (s' & Hr & _). rewrite Hr. unfold sputc_with, overflow_with.
  rewrite (bind_done get _ s s s []), Hp, ptr_lt_irrefl by done.
  rewrite (bind_done get _ s s s []), Hp, ptr_lt_irrefl by done. cbn [andb]. by rewrite Hr.
Qed.

Lemma sputcs_append sync text : forall s, sb_pptr s = sb_epptr s ->
  exists s', for_each text (sputc_with grow sync) s = Done (tt, s', []) /\
    v_text (sb_data s') = v_text (sb_data s) ++ text /\ sb_src s' = sb_src s /\ sb_pptr s' = sb_epptr s' /\
    sb_eback s' = sb_eback s /\ sb_gptr s' = sb_gptr s /\ sb_egptr s' = sb_egptr s /\
    sb_inputInitialized s' = sb_inputInitialized s /\ sb_good s' = sb_good s.
Proof.
  induction text as [|c text IH]; intros s Hp; [exists s; by rewrite app_nil_r|]. cbn [for_each].
  destruct (append_run [c] s) as (s1 & Hr & Ht1 & Hs1 & Hp1 & Hp1' & _ & H1 & H2 & H3 & H4 & H5).
  destruct (IH s1) as (s' & Hr' & Ht' & Hs' & Hp' & H1' & H2' & H3' & H4' & H5'); [congruence|].
  exists s'. rewrite (bind_done _ _ s tt s1 []) by (by rewrite sputc_append). rewrite Hr'. split; [done|].
  rewrite Ht', Ht1, <- app_assoc. repeat split; congruence.
Qed.

(** [syncOutput] leaves no put area. *)
Lemma syncOutput_run calls s : sb_pptr s = sb_epptr s -> exists s', syncOutput_calls grow (S calls) s = Done (tt, s', []) /\
  sb_data s' = sb_data s /\ sb_src s' = sb_src s /\ sb_pptr s' = sb_epptr s' /\
  sb_eback s' = sb_eback s /\ sb_gptr s' = sb_gptr s /\ sb_egptr s' = sb_egptr s /\
  sb_inputInitialized s' = sb_inputInitialized s /\ sb_good s' = sb_good s.
Proof.
  intros Hp. cbn [syncOutput_calls]. rewrite (bind_done get _ s s s []) by done.
  assert (output_in_area s = false) as -> by (unfold output_in_area; by rewrite Hp, ptr_lt_irrefl, !andb_false_r).
  destruct (size_of s =? 0)%nat; [destruct (_ || _) | destruct (output_at_end s)];
    eexists; (split; [reflexivity|]); by repeat split.
Qed.

(** What comes before an insertion. *)
Lemma prepared_run s : sb_pptr s = sb_epptr s ->
  exists s', (if own_insertion then syncOutput grow stack else skip) s = Done (tt, s', []) /\
  sb_data s' = sb_data s /\ sb_src s' = sb_src s /\ sb_pptr s' = sb_epptr s' /\
  sb_eback s' = sb_eback s /\ sb_gptr s' = sb_gptr s /\ sb_egptr s' = sb_egptr s /\
  sb_inputInitialized s' = sb_inputInitialized s /\ sb_good s' = sb_good s.
Proof. intros Hp. destruct own_insertion; [by apply syncOutput_run | exists s; by repeat split]. Qed.

Lemma read_source_run s x : sb_pptr s = sb_epptr s -> sb_src s = Some x -> sb_good s = true ->
  exists s', read_source_with grow (syncOutput grow stack) s = Done (tt, s', []) /\
    v_text (sb_data s') = v_text (sb_data s) ++ src_left x /\ sb_src s' = Some (mkSrc (src_good x) []) /\
    sb_pptr s' = sb_epptr s' /\ sb_inputInitialized s' = sb_inputInitialized s /\
    sb_eback s' = sb_eback s /\ sb_gptr s' = sb_gptr s /\ sb_egptr s' = sb_egptr s /\
    sb_good s' = negb (bool_decide (src_left x = [])).
Proof.
  intros Hp Hx Hgood. destruct (prepared_run s Hp) as (s1 & Hr1 & Hd1 & Hs1 & Hp1 & H1 & H2 & H3 & Hi1 & Hg1).
  unfold read_source_with. rewrite (bind_done _ _ s tt s1 [] Hr1).
  set (s2 := mkSB (sb_data s1) (sb_blocks s1) (sb_eback s1) (sb_gptr s1) (sb_egptr s1) (sb_pbase s1) (sb_pptr s1)
    (sb_epptr s1) (sb_inputInitialized s1) (Some (mkSrc (src_good x) [])) (sb_good s1)).
  destruct (sputcs_append (syncOutput grow stack) (src_left x) s2 Hp1)
    as (s' & Hr & Ht & Hs & Hp' & H1' & H2' & H3' & Hi & Hg).
  rewrite (bind_done get _ s1 s1 s1 []) by done. rewrite Hs1, Hx, Hg1, Hgood.
  rewrite (bind_done (set_src _) _ s1 tt s2 []) by done. unfold insert_streambuf_with.
  rewrite (bind_done get _ s2 s2 s2 []) by done. change (sb_good s2) with (sb_good s1). rewrite Hg1, Hgood.
  rewrite (bind_done _ _ _ _ _ _ Hr).
  assert (Hlast : exists s3, (if decide (src_left x = []) then set_good false else skip) s' = Done (tt, s3, []) /\
    sb_data s3 = sb_data s' /\ sb_src s3 = sb_src s' /\ sb_pptr s3 = sb_pptr s' /\ sb_epptr s3 = sb_epptr s' /\
    sb_inputInitialized s3 = sb_inputInitialized s' /\ sb_eback s3 = sb_eback s' /\ sb_gptr s3 = sb_gptr s' /\
    sb_egptr s3 = sb_egptr s' /\ sb_good s3 = negb (bool_decide (src_left x = []))).
  { destruct (decide (src_left x = [])) as [->|Hne].
    - eexists. split; [reflexivity|]. by repeat split.
    - exists s'. rewrite bool_decide_false by done. repeat split. exact (eq_trans Hg (eq_trans Hg1 Hgood)). }
  destruct Hlast as (s3 & Hr3 & Hd3 & Hs3 & Hp3 & He3 & Hi3 & E1 & E2 & E3 & Hg3).
  exists s3. rewrite Hr3, Hd3, Hs3, Hp3, He3, Hi3, E1, E2, E3, Hg3, Ht, Hi, H1', H2', H3'. simpl.
  rewrite Hd1, Hi1, H1, H2, H3. by repeat split.
Qed.

(** The source is read exactly where the queue fills. *)
Lemma fill_run q s : v_text (sb_data s) = q_text q -> sb_src s = q_src q -> sb_pptr s = sb_epptr s ->
  sb_good s = true -> 0 < length (q_text q) -> exists s1,
  (if (size_of s <=? q_pos q) && source_good s then read_source_with grow (syncOutput grow stack) else skip) s =
    Done (tt, s1, []) /\ v_text (sb_data s1) = q_text (q_fill q) /\ sb_src s1 = q_src (q_fill q) /\
  sb_pptr s1 = sb_epptr s1 /\ sb_inputInitialized s1 = sb_inputInitialized s /\ sb_good s1 = q_ok (q_fill q).
Proof.
  intros Ht Hsrc Hp Hgood Hne. unfold q_fill, source_good, size_of, v_size.
  rewrite Ht, Hsrc, (proj2 (Nat.eqb_neq _ _)) by lia.
  destruct (q_src q) as [x|] eqn:Hx; [|rewrite andb_false_r; exists s; by repeat (split; [done || congruence|])].
  destruct ((length (q_text q) <=? q_pos q) && src_good x) eqn:Hc;
    [|exists s; by repeat (split; [done || congruence|])].
  apply andb_true_iff in Hc as [_ Hx'].
  destruct (read_source_run s x Hp Hsrc Hgood) as (s1 & Hr & Ht1 & Hs1 & Hp1 & Hi1 & _ & _ & _ & Hg1).
  exists s1. split; [done|]. split; [by rewrite Ht1, Ht|]. split; [by rewrite Hs1, Hx'|]. by repeat split.
Qed.

(** The area [setg_at] makes. *)
Lemma area_from_start q next s : size_of s = length (q_text q) -> q_pos q = next -> next <= size_of s ->
  0 < size_of s -> sb_inputInitialized s = true ->
  get_area q true (mkSB (sb_data s) (sb_blocks s) (start_of s) (ptr_add (start_of s) next)
    (ptr_add (start_of s) (size_of s)) (sb_pbase s) (sb_pptr s) (sb_epptr s) true (sb_src s) (sb_good s)).
Proof.
  intros Hs Hn Hle Hpos Hi. right. exists (v_block (sb_data s)), (size_of s). simpl. rewrite Hn.
  repeat (split; [done || lia|]). by left.
Qed.

Lemma unchanged_area q live s : stands_for q live s -> 0 < size_of s -> input_changed s = false ->
  q_pos q < size_of s /\ stands_for q true s /\ ptr_lt (sb_gptr s) (sb_egptr s) = true.
Proof.
  intros (Ht & Hsrc & Hp & Hok & Hend & Hg) H0 Hch.
  assert (Hsize : size_of s = length (q_text q)) by (unfold size_of, v_size; by rewrite Ht).
  destruct Hg as [(Hg & _)|(b & e & Hb & Hg & He & Hi & Hpe & Hne & _)]; [by unfold input_changed in Hch; rewrite Hg in Hch|].
  unfold input_changed in Hch. rewrite Hg, He in Hch. simpl in Hch.
  apply orb_false_iff in Hch as [Hpe' [Hst Hge]%orb_false_iff].
  apply bool_decide_eq_false in Hpe'. apply negb_false_iff, bool_decide_eq_true in Hst.
  rewrite Hb in Hst. injection Hst as Hblk. apply Nat.ltb_ge in Hge. assert (q_pos q <> e) by congruence.
  split; [lia|]. split; [|rewrite Hg, He; apply Nat.ltb_lt; lia].
  repeat (split; [done|]). right. exists b, e. repeat (split; [done|]). by left.
Qed.

(** Clearing the state. *)
Definition cleared (s : StringBuffer) : StringBuffer :=
  mkSB (sb_data s) (sb_blocks s) (sb_eback s) (sb_gptr s) (sb_egptr s) (sb_pbase s) (sb_pptr s) (sb_epptr s)
    (sb_inputInitialized s) (sb_src s) true.

(** [syncInput] fills the queue at its end, and leaves an area that can be read; it
    answers whether a character is there. *)
Lemma syncInput_run q live s : stands_for q live s ->
  exists s', syncInput grow stack s = Done (bool_decide (q_pos (q_fill q) < length (q_text (q_fill q))), s', []) /\
    stands_for (q_fill q) true s' /\
    (q_pos (q_fill q) < length (q_text (q_fill q)) -> ptr_lt (sb_gptr s') (sb_egptr s') = true).
Proof.
  intros Hst. pose proof Hst as (Ht & Hsrc & Hp & Hok & Hend & Hg). unfold syncInput. rewrite (bind_done get _ s s s []) by done.
  assert (Hsize : size_of s = length (q_text q)) by (unfold size_of, v_size; by rewrite Ht).
  destruct (size_of s =? 0) eqn:H0.
  { apply Nat.eqb_eq in H0. rewrite q_fill_idle by lia.
    assert (Hpos : q_pos q = 0) by (destruct Hg as [(_ & _ & ?)|(b & e & _ & _ & _ & _ & ? & _)]; lia).
    eexists. split; [rewrite bool_decide_false by lia; reflexivity|]. split; [|lia].
    repeat (split; [done|]). by left. }
  apply Nat.eqb_neq in H0. destruct (input_changed s) eqn:Hch; cbn [negb].
  2: { destruct (unchanged_area q live s Hst ltac:(lia) Hch) as (Hlt & Hst' & Hgp).
    assert (Hgood : q_ok q = true).
    { destruct (q_ok q) eqn:E; [done|]. rewrite (Hend eq_refl), ptr_lt_irrefl in Hgp. done. }
    rewrite q_fill_idle by (left; split; [lia | done]). exists s. by rewrite bool_decide_true by lia. }
  rewrite (bind_done clear_istream _ s tt (cleared s) []) by (unfold clear_istream; by rewrite readable).
  destruct Hg as [(Hg & He & Hpos)|(b & e & Hb & Hg & He & Hi & Hpe & Hne & Hlive)].
  - rewrite q_fill_inside by lia. assert (input_in_area s = false) as ->.
    { unfold input_in_area. by rewrite Hg, !andb_false_r. }
    eexists. split; [rewrite bool_decide_true by (simpl; lia); reflexivity|].
    split; [|intros _; apply Nat.ltb_lt; unfold size_of in *; simpl; lia].
    repeat (split; [done|]). right. exists (v_block (sb_data s)), (length (q_text q)). simpl.
    change (size_of _) with (size_of s). rewrite Hsize, Hpos. repeat (split; [done || lia|]). by left.
  - assert (input_in_area s = true) as ->.
    { unfold input_in_area. rewrite Hi, Hb, Hg, He. unfold ptr_le. simpl. apply negb_true_iff, Nat.ltb_ge. lia. }
    assert (ptr_sub (sb_gptr s) (sb_eback s) = q_pos q) as -> by (rewrite Hb, Hg; apply Nat.sub_0_r). cbv zeta.
    change (size_of s <=? q_pos q) with (size_of (cleared s) <=? q_pos q). change (source_good s) with (source_good (cleared s)).
    destruct (fill_run q (cleared s) Ht Hsrc Hp eq_refl Hne) as (s1 & Hr1 & Ht1 & Hs1 & Hp1 & Hi1 & Hg1).
    change (sb_inputInitialized (cleared s)) with (sb_inputInitialized s) in Hi1. rewrite Hi in Hi1.
    rewrite (bind_done _ _ _ _ _ _ Hr1), (bind_done get _ s1 s1 s1 []) by done.
    assert (Hsize1 : size_of s1 = length (q_text (q_fill q))) by (unfold size_of, v_size; by rewrite Ht1).
    destruct (q_fill_grows q) as [Hpos Hle]. rewrite <- Hpos. pose proof (q_fill_fails q Hne) as Hfail.
    destruct (q_pos (q_fill q) =? size_of s1) eqn:Heq; [apply Nat.eqb_eq in Heq | apply Nat.eqb_neq in Heq].
    + eexists. split; [rewrite bool_decide_false by lia; reflexivity|]. split; [|lia].
      repeat (split; [done|]). destruct s1; simpl in Hi1; subst. apply area_from_start; try done; lia.
    + rewrite (proj2 (Nat.ltb_ge _ _)) by lia. eexists. split; [rewrite bool_decide_true by lia; reflexivity|].
      split; [|intros _; apply Nat.ltb_lt; simpl; lia].
      split; [done|]. split; [done|]. split; [done|]. split; [done|]. split; [intros Hf; specialize (Hfail Hf); lia|].
      destruct s1; simpl in Hi1; subst. apply area_from_start; try done; lia.
Qed.

(** A character of the area. *)
Lemma load_area q s : stands_for q true s -> ptr_lt (sb_gptr s) (sb_egptr s) = true ->
  exists c, q_next q = Some c /\ q_fill q = q /\ load (sb_gptr s) s = Done (c, s, []) /\
    exists s', gbump 1 s = Done (tt, s', []) /\ stands_for (q_advance q) true s'.
Proof.
  intros (Ht & Hsrc & Hp & Hok & Hend & Hg) Hlt.
  assert (Hgood : q_ok q = true).
  { destruct (q_ok q) eqn:E; [done|]. rewrite (Hend eq_refl), ptr_lt_irrefl in Hlt. done. }
  destruct Hg as [(Hg & He & _)|(b & e & Hb & Hg & He & Hi & Hpe & Hne & Hlive)]; [by rewrite Hg, He in Hlt|].
  rewrite Hg, He in Hlt. apply Nat.ltb_lt in Hlt. destruct (Hlive eq_refl) as [-> | ?]; [|lia].
  destruct (lookup_lt_is_Some_2 (q_text q) (q_pos q) ltac:(lia)) as [c Hc]. exists c. split; [done|].
  split; [apply q_fill_idle; left; split; [lia | done]|]. split.
  - unfold load. rewrite (bind_done get _ s s s []), Hg by done. unfold inside, size_of, v_size.
    rewrite Ht, Nat.eqb_refl, (proj2 (Nat.ltb_lt _ _)) by lia. by rewrite Hc.
  - eexists. split; [reflexivity|]. unfold q_advance, q_next. rewrite Hc. repeat (split; [done|]).
    split; [simpl; by rewrite Hgood|]. right. exists (v_block (sb_data s)), e. simpl. rewrite Hg. simpl. rewrite Nat.add_1_r.
    repeat (split; [done || lia|]). by left.
Qed.

Lemma q_next_None q : length (q_text q) <= q_pos q -> q_next q = None.
Proof. intros H. by apply lookup_ge_None_2. Qed.

Lemma sgetc_run q s : stands_for q true s ->
  exists s', sgetc grow stack s = Done (q_next (q_fill q), s', []) /\ stands_for (q_fill q) true s'.
Proof.
  intros Hst. unfold sgetc. rewrite (bind_done get _ s s s []) by done.
  destruct (ptr_lt (sb_gptr s) (sb_egptr s)) eqn:Hlt.
  - destruct (load_area q s Hst Hlt) as (c & Hc & Hf & Hl & _). exists s.
    by rewrite (bind_done _ _ _ _ _ _ Hl), Hf, Hc.
  - unfold underflow. destruct (syncInput_run q true s Hst) as (s' & Hr & Hst' & Hin). rewrite (bind_done _ _ _ _ _ _ Hr).
    exists s'. split; [|done]. case_bool_decide as Hd; [|by rewrite q_next_None by lia].
    destruct (load_area _ s' Hst' (Hin Hd)) as (c & Hc & _ & Hl & _).
    rewrite (bind_done get _ s' s' s' []) by done. by rewrite (bind_done _ _ _ _ _ _ Hl), Hc.
Qed.

Lemma sbumpc_run q s : stands_for q true s ->
  exists s', sbumpc grow stack s = Done (q_next (q_fill q), s', []) /\ stands_for (q_advance (q_fill q)) true s'.
Proof.
  intros Hst. unfold sbumpc. rewrite (bind_done get _ s s s []) by done.
  destruct (ptr_lt (sb_gptr s) (sb_egptr s)) eqn:Hlt.
  - destruct (load_area q s Hst Hlt) as (c & Hc & Hf & Hl & s' & Hb & Hst'). exists s'.
    by rewrite (bind_done _ _ _ _ _ _ Hl), (bind_done _ _ _ _ _ _ Hb), Hf, Hc.
  - unfold underflow. destruct (syncInput_run q true s Hst) as (s' & Hr & Hst' & Hin).
    case_bool_decide as Hd.
    + destruct (load_area _ s' Hst' (Hin Hd)) as (c & Hc & _ & Hl & s2 & Hb & Hst2). exists s2.
      assert (Hu : underflow grow stack s = Done (Some c, s', [])).
      { unfold underflow. rewrite (bind_done _ _ _ _ _ _ Hr), (bind_done get _ s' s' s' []) by done.
        by rewrite (bind_done _ _ _ _ _ _ Hl). }
      by rewrite (bind_done _ _ _ _ _ _ Hu), (bind_done _ _ _ _ _ _ Hb), Hc.
    + assert (Hu : underflow grow stack s = Done (None, s', [])) by (unfold underflow; by rewrite (bind_done _ _ _ _ _ _ Hr)).
      exists s'. rewrite (bind_done _ _ _ _ _ _ Hu). unfold q_advance. by rewrite q_next_None by lia.
Qed.

Lemma prepared_stands q live s : stands_for q live s ->
  exists s', (if own_insertion then syncOutput grow stack else skip) s = Done (tt, s', []) /\ stands_for q live s'.
Proof.
  intros (Ht & Hsrc & Hp & Hok & Hend & Hg). destruct (prepared_run s Hp) as (s' & Hr & Hd & Hs & Hp' & H1 & H2 & H3 & H4 & H5).
  exists s'. split; [done|]. split; [by rewrite Hd|]. split; [by rewrite Hs|]. split; [done|].
  split; [by rewrite H5|]. split; [by rewrite H2, H3|].
  unfold get_area. by rewrite Hd, H1, H2, H3, H4.
Qed.

(** [syncOutput] changes nothing the queue is about. *)
Lemma syncOutput_stands q live s : stands_for q live s ->
  exists s', syncOutput grow stack s = Done (tt, s', []) /\ stands_for q live s'.
Proof.
  intros (Ht & Hsrc & Hp & Hok & Hend & Hg). destruct (syncOutput_run depth s Hp) as (s' & Hr & Hd & Hs & Hp' & H1 & H2 & H3 & H4 & H5).
  exists s'. split; [done|]. split; [by rewrite Hd|]. split; [by rewrite Hs|]. split; [done|].
  split; [by rewrite H5|]. split; [by rewrite H2, H3|].
  unfold get_area. by rewrite Hd, H1, H2, H3, H4.
Qed.

Lemma sync_run q live s : stands_for q live s ->
  exists s', sync grow stack s = Done (0%Z, s', []) /\ stands_for (q_fill q) true s'.
Proof.
  intros Hst. destruct (syncInput_run q live s Hst) as (s1 & Hr1 & Hst1 & _).
  destruct (syncOutput_stands _ _ _ Hst1) as (s2 & Hr2 & Hst2). exists s2.
  unfold sync. by rewrite (bind_done _ _ _ _ _ _ Hr1), (bind_done _ _ _ _ _ _ Hr2).
Qed.

Lemma stands_weaken q live s : stands_for q live s -> stands_for q false s.
Proof. intros (? & ? & ? & ? & ? & Hg%get_area_weaken). by repeat (split; [done|]). Qed.

Lemma stream_object_run text q live s : stands_for q live s ->
  exists s', stream_object grow stack text s = Done (tt, s', []) /\ stands_for (q_object text q) false s'.
Proof.
  intros Hst. destruct (prepared_stands _ _ _ Hst) as (s1 & Hr1 & Hst1). pose proof Hst1 as (Ht & Hsrc & Hp & Hok & Hend & Hg).
  unfold stream_object, q_object. rewrite (bind_done _ _ _ _ _ _ Hr1), (bind_done get _ s1 s1 s1 []), Hok by done.
  destruct (q_ok q) eqn:Hgood; [|exists s1; split; [done | by eapply stands_weaken]].
  destruct (sputcs_append (syncOutput grow stack) text s1 Hp) as (s2 & Hr2 & Ht2 & Hs2 & Hp2 & H1 & H2 & H3 & H4 & H5).
  exists s2. assert (for_each text (sputc grow stack) s1 = Done (tt, s2, [])) as -> by exact Hr2. split; [done|].
  split; [by rewrite Ht2, Ht|]. split; [by rewrite Hs2|]. split; [done|].
  split; [simpl; congruence|]. split; [simpl; congruence|].
  destruct (get_area_weaken _ _ _ Hg) as [(? & ? & ?)|(b & e & ? & ? & ? & ? & ? & ? & _)].
  - left. simpl. by rewrite H2, H3.
  - right. exists b, e. rewrite H1, H2, H3, H4. simpl. rewrite length_app. repeat split; auto; lia.
Qed.

Lemma sb_run_queue ops : forall q live s, stands_for q live s -> disciplined (negb live) ops = true ->
  exists s', sb_run ops s = Done (fst (q_run ops q), s', []) /\ exists live', stands_for (snd (q_run ops q)) live' s'.
Proof.
  induction ops as [|op ops IH]; intros q live s Hst Hd; [by exists s; split; [|exists live]|].
  destruct op as [text|text| | |]; cbn [sb_run q_run]; simpl in Hd.
  - destruct (append_stands text q live s Hst) as (s1 & Hr & Hst1). rewrite (bind_done _ _ _ _ _ _ Hr).
    destruct (IH _ false s1 Hst1 Hd) as (s' & -> & Hst'). by exists s'.
  - destruct (stream_object_run text q live s Hst) as (s1 & Hr & Hst1). rewrite (bind_done _ _ _ _ _ _ Hr).
    destruct (IH _ false s1 Hst1 Hd) as (s' & -> & Hst'). by exists s'.
  - destruct (sync_run q live s Hst) as (s1 & Hr & Hst1). rewrite (bind_done _ _ _ _ _ _ Hr).
    destruct (IH _ true s1 Hst1 Hd) as (s' & -> & Hst'). by exists s'.
  - apply andb_true_iff in Hd as [Hl Hd]. rewrite negb_involutive in Hl. subst live.
    destruct (sgetc_run q s Hst) as (s1 & Hr & Hst1). rewrite (bind_done _ _ _ _ _ _ Hr).
    destruct (IH _ true s1 Hst1 Hd) as (s' & Hr' & Hst'). exists s'. rewrite (bind_done _ _ _ _ _ _ Hr').
    by destruct (q_run ops (q_fill q)).
  - apply andb_true_iff in Hd as [Hl Hd]. rewrite negb_involutive in Hl. subst live.
    destruct (sbumpc_run q s Hst) as (s1 & Hr & Hst1). rewrite (bind_done _ _ _ _ _ _ Hr).
    destruct (IH _ true s1 Hst1 Hd) as (s' & Hr' & Hst'). exists s'. rewrite (bind_done _ _ _ _ _ _ Hr').
    by destruct (q_run ops (q_advance (q_fill q))).
Qed.

End queue.

(** ** A buffer on a stream *)

Section pointers.
Context {kind : StreamType}.
Hypothesis readable : is_istream = true.
Variable grow : nat -> nat -> nat.
Variable depth : nat.

(** A pointer made from an input stream reads it: the buffer has taken all the stream
    held, and every history of writes, reads and syncs with a [sync] between a write
    and the next read answers from that text on; the stream is left empty.  (A buffer
    made on the stream itself never reads it, [source_never_read].) *)
Theorem pointer_reads_stream x ops : disciplined false ops = true ->
  let q := mkQueue (src_left x) 0 (Some (mkSrc (src_good x) [])) (negb (bool_decide (src_left x = []))) in
  exists s s', sp_of_istream grow (S depth) x = Done (mkSBPtr None s) /\
    sb_src s = Some (mkSrc (src_good x) []) /\ sb_str s = Done (src_left x, s, []) /\
    sb_run grow depth ops s = Done (fst (q_run ops q), s', []).
Proof.
  intros Hd q.
  destruct (read_source_run grow depth (new_StringBuffer [] (Some x)) x eq_refl eq_refl eq_refl)
    as (s & Hr & Ht & Hs & Hp & _ & _ & Hg & He & Hok). simpl in Ht.
  assert (Hst : stands_for q true s).
  { split; [done|]. split; [done|]. split; [done|]. split; [done|]. split; [by rewrite Hg, He|]. left. by rewrite Hg, He. }
  destruct (sb_run_queue readable grow depth ops _ true s Hst Hd) as (s' & Hrun & _).
  exists s, s'. split; [|split; [done|split; [|done]]].
  - unfold sp_of_istream, sp_filled. by rewrite Hr.
  - unfold sb_str, gets. by rewrite Ht.
Qed.
End pointers.

(** ** The specialization for [std::istream] cannot write *)

Section istream.
#[local] Existing Instance istream_type.
Variable grow : nat -> nat -> nat.
Variable depth : nat.
Let stack := S depth.

Create HintDb isb.

(** What a user can call, with any arguments and in any order. *)
Inductive isb_op : Type :=
| IsInsert (text : str)
| IsNullTerminate
| IsUnterminate
| IsClear
| IsSwap (other : vector)
| IsSync
| IsGet
| IsPeek
| IsPutback (c : ascii)
| IsUnget
| IsSetbuf (text : option str)
| IsSeek (off : Z) (dir : seekdir) (in_ : bool)
| IsAt (pos : nat)
| IsCStr (addNulTerminator : bool).

Definition isb_run (op : isb_op) : sb_handler unit :=
  match op with
  | IsInsert text => isb_insert grow stack text
  | IsNullTerminate => isb_nullTerminate grow
  | IsUnterminate => isb_unterminate
  | IsClear => isb_clear
  | IsSwap other => _ ← isb_swap grow stack other; skip
  | IsSync => _ ← isb_sync grow stack; skip
  | IsGet => _ ← sbumpc grow stack; skip
  | IsPeek => _ ← sgetc grow stack; skip
  | IsPutback c => _ ← sputbackc grow stack c; skip
  | IsUnget => _ ← sungetc grow stack; skip
  | IsSetbuf text => isb_setbuf grow stack text
  | IsSeek off dir in_ => _ ← isb_seekoff grow stack off dir in_; skip
  | IsAt pos => _ ← isb_at pos; skip
  | IsCStr add => _ ← isb_c_str grow add; skip
  end.

(** No put area before, none after; a fault is not one of writing. *)
Definition no_area (s : StringBuffer) : Prop := sb_pptr s = sb_epptr s.
Definition write_fault (f : fault) : Prop := f = Thrown "stack overflow" \/ f = Thrown "write outside the vector" \/ f = NullDeref "pptr".
Definition reads_only {A} (m : sb_handler A) : Prop := forall s, no_area s ->
  match m s with Done (_, s', _) => no_area s' | Fault f => ~ write_fault f end.

Lemma reads_bind {A B} (m : sb_handler A) (f : A -> sb_handler B) :
  reads_only m -> (forall a, reads_only (f a)) -> reads_only (mbind f m).
Proof.
  intros Hm Hf s Hs. specialize (Hm s Hs). unfold mbind, M_bind. destruct (m s) as [[[a s'] es]|]; [|done].
  specialize (Hf a s' Hm). by destruct (f a s') as [[[b s2] e2]|].
Qed.
Lemma reads_ret {A} (a : A) : reads_only (mret a).
Proof. by intros s Hs. Qed.
Lemma reads_get : reads_only get.
Proof. by intros s Hs. Qed.
Lemma reads_gets {A} (f : StringBuffer -> A) : reads_only (gets f).
Proof. by intros s Hs. Qed.
Lemma reads_throw {A} f : ~ write_fault f -> reads_only (throw f : sb_handler A).
Proof. by intros Hf s Hs. Qed.
Lemma reads_modify f : (forall s, no_area s -> no_area (f s)) -> reads_only (modify f).
Proof. intros Hf s Hs. by apply Hf. Qed.
Lemma reads_deref {A} w (p : option A) : w <> "pptr" -> reads_only (deref w p).
Proof. intros Hw. destruct p; [apply reads_ret | apply reads_throw]. by intros [?|[?|[= ?]]]. Qed.

#[local] Ltac reads_step :=
  match goal with
  | |- reads_only (mbind _ _) => apply reads_bind; [|intros ?]
  | |- reads_only (mret _) => apply reads_ret
  | |- reads_only skip => apply reads_ret
  | |- reads_only get => apply reads_get
  | |- reads_only (gets _) => apply reads_gets
  | |- reads_only (throw _) => apply reads_throw; by intros [?|[?|?]]
  | |- reads_only (deref _ _) => by apply reads_deref
  | |- reads_only (modify _) => apply reads_modify; intros ? ?
  | |- reads_only (if ?b then _ else _) => destruct b
  | |- reads_only (match ?x with _ => _ end) => destruct x
  | _ => done
  end.
#[local] Ltac reads := repeat reads_step; eauto with isb.

Lemma reads_append text : reads_only (append grow text).
Proof.
  intros s Hs. destruct (append_run grow text s) as (s' & -> & _ & _ & Hp & He & _). unfold no_area. congruence.
Qed.
Lemma reads_sputcs sync text : reads_only (for_each text (sputc_with grow sync)).
Proof. intros s Hs. by destruct (sputcs_append grow sync text s Hs) as (s' & -> & _ & _ & Hp & _). Qed.
Lemma reads_syncOutput : reads_only (syncOutput grow stack).
Proof. intros s Hs. destruct (syncOutput_run grow depth s Hs) as (s' & Hr & _ & _ & Hp & _). unfold syncOutput, stack. by rewrite Hr. Qed.
Lemma reads_setg b g e : reads_only (setg b g e).
Proof. unfold setg. by reads. Qed.
Lemma reads_set_initialized b : reads_only (set_initialized b).
Proof. unfold set_initialized. by reads. Qed.
Lemma reads_load p : reads_only (load p).
Proof. unfold load. reads. Qed.
#[local] Hint Resolve reads_append reads_sputcs reads_syncOutput reads_setg reads_set_initialized reads_load : isb.

Lemma reads_clear : reads_only clear.
Proof. unfold clear, clear_istream, set_good. cbn [is_istream istream_type]. by reads. Qed.
#[local] Hint Resolve reads_clear : isb.
Lemma reads_setg_at n : reads_only (setg_at n).
Proof. unfold setg_at. reads. Qed.
#[local] Hint Resolve reads_setg_at : isb.
Lemma reads_set_good b : reads_only (set_good b).
Proof. unfold set_good. by reads. Qed.
#[local] Hint Resolve reads_set_good : isb.
Lemma reads_streambuf text : reads_only (insert_streambuf_with grow (syncOutput grow stack) text).
Proof. unfold insert_streambuf_with. reads. Qed.
#[local] Hint Resolve reads_streambuf : isb.
Lemma reads_source : reads_only (read_source_with grow (syncOutput grow stack)).
Proof. unfold read_source_with, set_src. cbn [own_insertion istream_type]. reads. Qed.
#[local] Hint Resolve reads_source : isb.
Lemma reads_syncInput : reads_only (syncInput grow stack).
Proof. unfold syncInput, clear_istream, set_good. cbn [is_istream istream_type]. cbv zeta. reads. Qed.
#[local] Hint Resolve reads_syncInput : isb.
Lemma reads_underflow : reads_only (underflow grow stack).
Proof. unfold underflow. reads. Qed.
Lemma reads_pbackfail c : reads_only (pbackfail grow stack c).
Proof. unfold pbackfail. cbn [is_istream istream_type negb]. cbv zeta. reads. Qed.
Lemma reads_gbump n : reads_only (gbump n).
Proof. unfold gbump. reads. Qed.
Lemma reads_sync : reads_only (sync grow stack).
Proof. unfold sync. reads. Qed.
Lemma reads_nullTerminate : reads_only (nullTerminate grow).
Proof. unfold nullTerminate. reads. Qed.
Lemma reads_sb_at n : reads_only (sb_at n).
Proof. unfold sb_at. reads. Qed.
#[local] Hint Resolve reads_underflow reads_pbackfail reads_gbump reads_sync reads_nullTerminate reads_sb_at : isb.

(** C23: a buffer for reading is never written to through a pointer.  Whatever calls its
    user makes, with whatever arguments and growth of the vector, the specialization
    for [std::istream] has no put area: it never stores a character outside its vector
    and one call of [syncOutput] on the stack is enough, unlike the template
    ([cleared_buffer_recurses]). *)
Theorem istream_never_writes ops text src :
  match for_each ops isb_run (isb_new text src) with
  | Done (_, s, _) => sb_pptr s = sb_epptr s
  | Fault f => f <> Thrown "stack overflow" /\ f <> Thrown "write outside the vector" /\ f <> NullDeref "pptr"
  end.
Proof.
  assert (Hops : reads_only (for_each ops isb_run)).
  { induction ops as [|op ops IH]; cbn [for_each]; reads.
    destruct op; cbn [isb_run]; unfold isb_insert, isb_nullTerminate, isb_unterminate, isb_clear, isb_swap, isb_sync,
      isb_setbuf, isb_seekoff, isb_at, isb_c_str, unterminate, swap_vector, sbumpc,
      sgetc, sputbackc, sungetc, setbuf, seekoff, sb_c_str, sb_str;
      cbn [is_istream is_ostream own_insertion istream_type andb]; cbv zeta; rewrite ?andb_false_r; reads.
    by case_match. }
  specialize (Hops (isb_new text src) eq_refl). destruct (for_each ops isb_run _) as [[[u s] es]|f]; [done|].
  split; [|split]; intros ->; apply Hops; [by left | right; by left | right; by right].
Qed.
End istream.

(** ** Numbers *)

(** [to_string] rounds to the nearest multiple of [10^-6]. *)
Lemma fixed6_nearest m e : (e < 0)%Z ->
  (2 * Z.abs (fixed6 m e * 2 ^ (- e) - Z.pos m * 1000000) <= 2 ^ (- e))%Z.
Proof.
  intros He. unfold fixed6. rewrite (proj2 (Z.leb_gt 0 e)) by done. cbv zeta.
  set (d := (2 ^ (- e))%Z). assert (0 < d)%Z by (apply Z.pow_pos_nonneg; lia).
  set (n := (Z.pos m * 1000000)%Z). pose proof (Z.div_mod n d ltac:(lia)) as Hn. pose proof (Z.mod_pos_bound n d ltac:(lia)).
  set (q := (n / d)%Z) in *. set (r := (n mod d)%Z) in *.
  assert (q * d - n = - r)%Z as Hq by lia. assert ((q + 1) * d - n = d - r)%Z as Hq1 by lia.
  destruct (Z.ltb_spec (2 * r) d); [rewrite Hq; lia|].
  destruct (Z.ltb_spec d (2 * r)); [rewrite Hq1; lia|].
  destruct (Z.even q); [rewrite Hq | rewrite Hq1]; lia.
Qed.

(** ** The buffer for output *)

(** A buffer for output cannot be cleared or flushed: both cast it to a
    [std::istream], which it is not. *)
Theorem ostream_cast_undefined grow stack text src :
  clear (kind := ostream_type) (new_StringBuffer text src) = Fault (Thrown "cast to std::istream") /\
  (text <> [] -> sync (kind := ostream_type) grow stack (new_StringBuffer text src) = Fault (Thrown "cast to std::istream")).
Proof.
  split; [reflexivity|]. intros Hne. unfold sync, syncInput. destruct text as [|c text]; [done|]. reflexivity.
Qed.

(** ** Outside of the discipline *)

#[local] Existing Instance iostream_type.

(** Without the [sync] a read after a write reads freed memory.  A buffer starts
    with no room to spare, so after one of at least two characters was read, any write
    moves the text to another block while the get area stays in the old one, and the
    next read takes a character from there; with a [sync] between them the same history
    is fine. *)
Theorem read_after_write_dangles grow depth c1 c2 text new src : new <> [] ->
  sb_run grow depth [OGet; OWrite new; OGet] (new_StringBuffer (c1 :: c2 :: text) src) =
    Fault (Thrown "read outside the vector") /\
  exists s, sb_run grow depth [OGet; OWrite new; OSync; OGet] (new_StringBuffer (c1 :: c2 :: text) src) =
    Done ([Some c1; Some c2], s, []).
Proof.
  intros Hnew. split.
  - set (s0 := new_StringBuffer (c1 :: c2 :: text) src).
    set (n := S (S (length text))).
    set (s1 := mkSB (sb_data s0) 1 (Some (0, 0)) (Some (0, 1)) (Some (0, n)) None None None true src true).
    assert (Hget : sbumpc grow (S depth) s0 = Done (Some c1, s1, [])) by reflexivity.
    assert (Hw : append grow new s1 = Done (tt, set_data (mkVector ((c1 :: c2 :: text) ++ new) 1
      (grow n (length new))) 2 s1, [])).
    { unfold append, modify, v_append, v_size. cbn [s1 s0 new_StringBuffer sb_data v_text v_cap sb_blocks].
      destruct new as [|x new]; [done|]. by rewrite (proj2 (Nat.leb_gt _ _)) by (simpl; lia). }
    assert (Hrest : sb_run grow depth [OWrite new; OGet] s1 = Fault (Thrown "read outside the vector")).
    { cbn [sb_run]. rewrite (bind_done _ _ _ _ _ _ Hw). reflexivity. }
    change (sb_run grow depth [OGet; OWrite new; OGet]) with
      (r ← sbumpc grow (S depth); rs ← sb_run grow depth [OWrite new; OGet]; mret (r :: rs)).
    rewrite (bind_done _ _ _ _ _ _ Hget). unfold mbind, M_bind. by rewrite Hrest.
  - destruct (sb_run_queue (kind := iostream_type) eq_refl grow depth [OGet; OWrite new; OSync; OGet] _ true _ (stands_for_new (c1 :: c2 :: text) src) eq_refl)
      as (s & Hr & _). exists s. rewrite Hr. clear. do 3 f_equal. cbn [q_run].
    rewrite (q_fill_idle (mkQueue (c1 :: c2 :: text) 0 src true)) by (left; simpl; split; [lia | done]).
    change (q_advance (mkQueue (c1 :: c2 :: text) 0 src true)) with (mkQueue (c1 :: c2 :: text) 1 src true).
    by rewrite !(q_fill_idle (q_write new (mkQueue (c1 :: c2 :: text) 1 src true))) by (left; simpl; split; [lia | done]).
Qed.

Definition only_reads (op : sb_op) : bool := match op with OWrite _ | OObject _ => false | _ => true end.

Lemma reads_disciplined ops : forallb only_reads ops = true -> disciplined false ops = true.
Proof. induction ops as [|[?|?| | |] ops IH]; simpl; done || (intros; by apply IH). Qed.

Lemma q_run_nothing src ops : forallb only_reads ops = true ->
  Forall (fun r => r = None) (fst (q_run ops (mkQueue [] 0 src true))) /\ snd (q_run ops (mkQueue [] 0 src true)) = mkQueue [] 0 src true.
Proof.
  assert (Hf : q_fill (mkQueue [] 0 src true) = mkQueue [] 0 src true) by (apply q_fill_idle; by right).
  induction ops as [|op ops IH]; [done|]. intros [Hop Hops]%andb_true_iff. specialize (IH Hops) as [IH1 IH2].
  destruct op; try done; cbn [q_run]; rewrite ?Hf; try done; cbn [q_advance q_next q_text q_pos lookup list_lookup];
    destruct (q_run ops (mkQueue [] 0 src true)) as [rs q']; split; try done; by constructor.
Qed.

(** A buffer made on a source stream alone never reads it.  [syncInput] gives up on
    an empty vector before it looks at the source, so every read answers the end of
    file, whatever the source holds, until something is written. *)
Theorem source_never_read grow depth x ops : forallb only_reads ops = true ->
  exists outs s, sb_run grow depth ops (new_StringBuffer [] (Some x)) = Done (outs, s, []) /\
    Forall (fun r => r = None) outs /\ sb_src s = Some x.
Proof.
  intros Hops. destruct (q_run_nothing (Some x) ops Hops) as [Hout Hq].
  destruct (sb_run_queue (kind := iostream_type) eq_refl grow depth ops _ true _ (stands_for_new [] (Some x)) (reads_disciplined _ Hops))
    as (s & Hr & live & _ & Hs & _).
  eexists _, s. split; [exact Hr|]. split; [done|]. by rewrite Hs, Hq.
Qed.

(** The put area after seeking to [k]. *)
Definition seeked (text : str) (src : option source) (k : nat) : StringBuffer :=
  mkSB (mkVector text 0 (length text)) 1 None None None (Some (0, k)) (Some (0, k)) (Some (0, length text)) false src true.

Lemma seekp_run grow depth text src k : k < length text ->
  seekoff grow (S depth) (Z.of_nat k) Beg false true (new_StringBuffer text src) = Done (0%Z, seeked text src k, []).
Proof.
  intros Hk. unfold seekoff. cbn [negb andb is_istream is_ostream iostream_type].
  assert (Hsync : syncOutput grow (S depth) (new_StringBuffer text src) = Done (tt, seeked text src (length text), [])).
  { unfold syncOutput. cbn [syncOutput_calls]. rewrite (bind_done get _ _ _ _ []) by reflexivity.
    change (output_in_area (new_StringBuffer text src)) with false. change (size_of _) with (length text).
    destruct (length text =? 0) eqn:H0; [apply Nat.eqb_eq in H0; lia|]. reflexivity. }
  rewrite (bind_done _ _ _ _ _ _ Hsync). rewrite (bind_done skip _ _ tt _ []) by reflexivity.
  rewrite (bind_done get _ _ _ _ []) by reflexivity. cbn [orb is_null sb_gptr sb_pptr seeked andb].
  change (is_null None && false || is_null (Some (0, length text)) && true) with false.
  cbn [dir_offset sb_epptr seeked].
  assert (seek_inside (0 + Z.of_nat k) (Some (0, length text)) = true) as ->.
  { unfold seek_inside. rewrite !(proj2 (Z.leb_le _ _)) by lia. done. }
  cbn [negb]. rewrite (bind_done skip _ _ tt _ []) by reflexivity. rewrite Z.add_0_l, Nat2Z.id. reflexivity.
Qed.

Lemma seeked_sputc grow depth text src k c : k < length text ->
  exists s, sputc grow (S depth) c (seeked text src k) = Done (tt, s, []) /\ v_text (sb_data s) = <[k := c]> text.
Proof.
  intros Hk. unfold sputc, sputc_with. rewrite (bind_done get _ _ _ _ []) by reflexivity.
  cbn [seeked sb_pptr sb_epptr ptr_lt]. rewrite (proj2 (Nat.ltb_lt _ _)) by done.
  unfold store. set (s0 := seeked text src k).
  eexists. split.
  - unfold mbind, M_bind, get. change (inside s0 0 k) with (k <? length text).
    rewrite (proj2 (Nat.ltb_lt _ _)) by done. reflexivity.
  - reflexivity.
Qed.

(** Asking for the position. *)
Lemma tellp_run grow depth text src k : k < length text ->
  seekoff grow (S depth) 0 Cur false true (seeked text src k) = Done (0%Z, seeked text src 0, []).
Proof.
  intros Hk. unfold seekoff. cbn [negb andb is_istream is_ostream iostream_type].
  assert (Hsync : syncOutput grow (S depth) (seeked text src k) = Done (tt, seeked text src 0, [])).
  { unfold syncOutput. cbn [syncOutput_calls]. rewrite (bind_done get _ _ _ _ []) by reflexivity.
    assert (output_in_area (seeked text src k) = true) as ->.
    { change (negb (k <? k) && (k <? length text) = true). by rewrite Nat.ltb_irrefl, (proj2 (Nat.ltb_lt _ _)). }
    change (size_of (seeked text src k)) with (length text).
    assert (ptr_sub (sb_pptr (seeked text src k)) (sb_pbase (seeked text src k)) = 0) as -> by apply Nat.sub_diag.
    cbv zeta. rewrite (proj2 (Nat.leb_gt _ _)) by lia. cbn [andb].
    rewrite (bind_done skip _ _ tt _ []) by reflexivity. unfold syncOutput_area.
    rewrite (bind_done get _ _ _ _ []) by reflexivity. change (size_of (seeked text src k)) with (length text).
    rewrite (proj2 (Nat.leb_gt _ _)) by lia. reflexivity. }
  rewrite (bind_done _ _ _ _ _ _ Hsync). rewrite (bind_done skip _ _ tt _ []) by reflexivity.
  rewrite (bind_done get _ _ _ _ []) by reflexivity.
  change (seek_inside (dir_offset Cur _ _ + 0) _) with (seek_inside 0 (Some (0, length text))).
  assert (seek_inside 0 (Some (0, length text)) = true) as -> by (apply Z.leb_le; lia). reflexivity.
Qed.

(** Asking a stream buffer for its write position moves it.  After [seekp(k)] a
    character goes to position [k]; but [tellp()], whatever [k] is, answers 0 and leaves
    the position there, so the next character overwrites the first one: [syncOutput]
    takes [pptr] relative to [pbase], which is not the start of the text. *)
Theorem tellp_moves_the_writer grow depth text src k c : k < length text ->
  exists s1 s2 s3 s4,
    seekoff grow (S depth) (Z.of_nat k) Beg false true (new_StringBuffer text src) = Done (0%Z, s1, []) /\
    sputc grow (S depth) c s1 = Done (tt, s2, []) /\ v_text (sb_data s2) = <[k := c]> text /\
    seekoff grow (S depth) 0 Cur false true s1 = Done (0%Z, s3, []) /\
    sputc grow (S depth) c s3 = Done (tt, s4, []) /\ v_text (sb_data s4) = <[0 := c]> text.
Proof.
  intros Hk. destruct (seeked_sputc grow depth text src k c Hk) as (s2 & H2 & T2).
  destruct (seeked_sputc grow depth text src 0 c ltac:(lia)) as (s4 & H4 & T4).
  exists (seeked text src k), s2, (seeked text src 0), s4.
  split; [by apply seekp_run|]. split; [done|]. split; [done|]. split; [by apply tellp_run | done].
Qed.

Lemma syncOutput_recurses grow calls s :
  output_in_area s = true -> size_of s <= ptr_sub (sb_pptr s) (sb_pbase s) -> source_good s = true ->
  syncOutput_calls grow calls s = Fault (Thrown "stack overflow").
Proof.
  intros Hin Hs Hg. induction calls as [|calls IH]; [done|]. cbn [syncOutput_calls].
  rewrite (bind_done get _ s s s []), Hin, (proj2 (Nat.leb_le _ _) Hs), Hg by done. cbn [andb].
  unfold mbind at 1, M_bind at 1. unfold read_source_with. cbn [own_insertion iostream_type]. unfold mbind at 1, M_bind at 1. by rewrite IH.
Qed.

(** A buffer with a source that was cleared while its write position was inside the
    text cannot be written to as a stream: [syncOutput] asks for the source with
    [operator<<], which calls [syncOutput] on the same state, however deep the stack. *)
Theorem cleared_buffer_recurses grow stack text k left object : k < length text -> 0 < stack ->
  (_ ← seekoff grow stack (Z.of_nat k) Beg false true; _ ← clear; stream_object grow stack object)
    (new_StringBuffer text (Some (mkSrc true left))) = Fault (Thrown "stack overflow").
Proof.
  intros Hk Hstack. destruct stack as [|depth]; [lia|]. rewrite (bind_done _ _ _ _ _ _ (seekp_run grow depth text _ k Hk)).
  rewrite (bind_done clear _ _ tt _ []) by reflexivity. unfold stream_object. cbn [own_insertion iostream_type]. unfold mbind at 1, M_bind at 1, syncOutput.
  rewrite syncOutput_recurses; [done|..|done].
  - change (negb (k <? k) && (k <? length text) = true). by rewrite Nat.ltb_irrefl, (proj2 (Nat.ltb_lt _ _)).
  - cbn. lia.
Qed.

(** A text that shrinks below the read position: the read that finds it answers the end
    of file and leaves a null [gptr] below the end, which the next read follows. *)
Example shrinking_crashes grow :
  (_ ← nullTerminate grow; _ ← sbumpc grow 1; _ ← sbumpc grow 1; _ ← unterminate; r ← sgetc grow 1; mret r)
    (new_StringBuffer ["a"%char] None) =
  Done (None, mkSB (mkVector ["a"%char] 1 (grow 1 1)) 2 (Some (1, 0)) None (Some (1, 1)) None None None true None true, []) /\
  (_ ← nullTerminate grow; _ ← sbumpc grow 1; _ ← sbumpc grow 1; _ ← unterminate; _ ← sgetc grow 1; sgetc grow 1)
    (new_StringBuffer ["a"%char] None) = Fault (NullDeref "gptr").
Proof. split; reflexivity. Qed.

(** The pointer hands the text to the stream once: [flush] does, and the destructor
    then nothing; without [flush] the destructor does. *)
Theorem pointer_writes_once p os text :
  sp_os p = Some os -> v_text (sb_data (sp_sb p)) = text -> text <> [] ->
  (_ ← sp_flush; sp_destroy) p = Done (tt, mkSBPtr None (sp_sb p), [OsWrite os text]) /\
  sp_destroy p = Done (tt, p, [OsWrite os text]).
Proof.
  intros Hos <- Hne. unfold sp_flush, sp_destroy, write_to. run_M. rewrite Hos. simpl.
  destruct (v_text (sb_data (sp_sb p))) as [|c text]; [done|]. by split.
Qed.

(** ** Examples *)

Definition doubled (size added : nat) : nat := size + max size added.
Definition mixed : list sb_op :=
  [OGet; OWrite (lit "cd"); OObject (lit "ef"); OSync; OGet; OGet; OPeek; OGet; OGet; OGet; OGet; OGet].

(** The second read finds the source exhausted: [x] is lost, [w] is not. *)
Definition exhausting : list sb_op :=
  [OGet; OGet; OObject (lit "x"); OWrite (lit "z"); OSync; OObject (lit "w"); OSync; OGet; OGet].


Lemma read_after_write_dangles_witness :
  sb_run doubled 2 [OGet; OWrite (lit "c"); OGet] (new_StringBuffer (lit "ab") None) =
    Fault (Thrown "read outside the vector").
Proof. exact (proj1 (read_after_write_dangles doubled 2 "a" "b" [] (lit "c") None ltac:(discriminate))). Defined.

Lemma pointer_reads_stream_witness :
  disciplined false [OGet; OPeek] = true /\
  exists s s', sp_of_istream (kind := istream_type) doubled 1 (mkSrc true (lit "ab")) = Done (mkSBPtr None s) /\
    sb_run (kind := istream_type) doubled 0 [OGet; OPeek] s = Done ([Some "a"; Some "b"]%char, s', []).
Proof.
  split; [reflexivity|].
  destruct (pointer_reads_stream (kind := istream_type) eq_refl doubled 0 (mkSrc true (lit "ab")) [OGet; OPeek] eq_refl)
    as (s & s' & H1 & _ & _ & H2). exists s, s'. split; [exact H1 | exact H2].
Defined.

Lemma source_never_read_witness :
  forallb only_reads [OGet; OSync; OPeek] = true /\
  exists outs s, sb_run doubled 2 [OGet; OSync; OPeek] (new_StringBuffer [] (Some (mkSrc true (lit "abc")))) = Done (outs, s, []) /\
    sb_src s = Some (mkSrc true (lit "abc")).
Proof.
  split; [reflexivity|].
  destruct (source_never_read doubled 2 (mkSrc true (lit "abc")) [OGet; OSync; OPeek] eq_refl) as (outs & s & Hr & _ & Hs).
  exists outs, s. split; [exact Hr | exact Hs].
Defined.

Lemma tellp_moves_the_writer_witness :
  exists s1 s3 s4, seekoff doubled 3 3 Beg false true (new_StringBuffer (lit "abcde") None) = Done (0%Z, s1, []) /\
    seekoff doubled 3 0 Cur false true s1 = Done (0%Z, s3, []) /\
    sputc doubled 3 "x"%char s3 = Done (tt, s4, []) /\ v_text (sb_data s4) = lit "xbcde".
Proof.
  destruct (tellp_moves_the_writer doubled 2 (lit "abcde") None 3 "x"%char ltac:(simpl; lia))
    as (s1 & s2 & s3 & s4 & H1 & _ & _ & H3 & H4 & T4).
  exists s1, s3, s4. split; [exact H1|]. split; [exact H3|]. split; [exact H4 | exact T4].
Defined.

Lemma cleared_buffer_recurses_witness :
  (_ ← seekoff doubled 9 1 Beg false true; _ ← clear; stream_object doubled 9 (lit "x"))
    (new_StringBuffer (lit "ab") (Some (mkSrc true []))) = Fault (Thrown "stack overflow").
Proof. exact (cleared_buffer_recurses doubled 9 (lit "ab") 1 [] (lit "x") ltac:(simpl; lia) ltac:(lia)). Defined.
