(* ===== verification/Conversions.v ===== *)
(** * Conversions between values and texts

    Models the conversions of [core/json/string_algo.hpp] ([to_string],
    [lexical_cast], [to_wstring]) and the [stringable] classes of
    [core/json/stringable.hpp].  A type that can be converted is a [Converter], the
    record of the four functions [determine_type] finds for it: an arithmetic type goes
    through a string stream ([convert_primitive]), any other through its [stringable]
    ([convert_general]).

    Of the standard library, [operator<<] and [operator>>] of integers, [bool] and
    [char] in the "C" locale, and [codecvt_utf8] on 32-bit [wchar_t], which is UTF-8 as
    RFC 3629 has it.  A variable [operator>>] leaves as it was is uninitialised: reading
    it is a fault.  Floating-point types are not modelled. *)

From stdpp Require Import base strings pretty list.
From Stdlib Require Import ZArith Lia Ascii.
From S2P Require Import Prelude Strings StringBuffer.

#[local] Open Scope list_scope.

(** ** Characters *)

Definition code (c : ascii) : Z := Z.of_nat (nat_of_ascii c).
Definition byte (z : Z) : ascii := ascii_of_nat (Z.to_nat z).

(** [std::wstring]: the values of its [wchar_t]s. *)
Abbreviation wstr := (list Z).
Definition widen (s : str) : wstr := code <$> s.

(** ** Arithmetic types *)

(** An integer type of more than one byte by its limits; [bool]; [char]. *)
Inductive prim : Type := PInt (lo hi : Z) | PBool | PChar.

Definition int_type (bits : Z) : prim := PInt (- 2 ^ (bits - 1)) (2 ^ (bits - 1) - 1).
Definition uint_type (bits : Z) : prim := PInt 0 (2 ^ bits - 1).

(** [os << value; os.str()]; a [bool] is written as a number. *)
Definition write_prim (t : prim) (value : Z) : str :=
  match t with
  | PInt _ _ | PBool => to_chars value
  | PChar => [byte (value mod 256)]
  end.

(** The sign, and the digits up to the first other character. *)
Definition is_blank (c : Z) : bool := ((9 <=? c) && (c <=? 13)) || (c =? 32).
Fixpoint skip_blanks (s : wstr) : wstr :=
  match s with [] => [] | c :: l => if is_blank c then skip_blanks l else s end.
Definition is_digit (c : Z) : bool := (48 <=? c) && (c <=? 57).
Fixpoint digits (s : wstr) (acc : Z) : Z :=
  match s with
  | [] => acc
  | c :: l => if is_digit c then digits l (acc * 10 + (c - 48)) else acc
  end.
Definition read_number (s : wstr) : Z :=
  match s with
  | 45 :: l => - digits l 0
  | 43 :: l => digits l 0
  | _ => digits s 0
  end.

(** What [operator>>] stores: out of range the nearest limit; of an unsigned type the
    negative of a number in range. *)
Definition store_int (lo hi n : Z) : Z :=
  if hi <? n then hi
  else if 0 <=? n then n
  else if lo =? 0 then (if hi <? - n then hi else (hi + 1) + n)
  else Z.max lo n.

(** [T r; os >> r; return r;]: on a stream without a character that is not blank
    nothing is stored. *)
Definition read_prim (t : prim) (text : wstr) : outcome Z :=
  match skip_blanks text with
  | [] => Fault (Thrown "uninitialized value")
  | c :: l =>
      Done (match t with
            | PInt lo hi => store_int lo hi (read_number (c :: l))
            | PBool => if read_number (c :: l) =? 0 then 0 else 1
            | PChar => c
            end)
  end.

(** ** UTF-8 *)

Definition is_surrogate (c : Z) : bool := (55296 <=? c) && (c <=? 57343).
Definition encode (c : Z) : option str :=
  if c <? 0 then None
  else if c <? 128 then Some [byte c]
  else if c <? 2048 then Some [byte (192 + c / 64); byte (128 + c mod 64)]
  else if c <? 65536 then
    if is_surrogate c then None
    else Some [byte (224 + c / 4096); byte (128 + (c / 64) mod 64); byte (128 + c mod 64)]
  else if c <=? 1114111 then
    Some [byte (240 + c / 262144); byte (128 + (c / 4096) mod 64); byte (128 + (c / 64) mod 64); byte (128 + c mod 64)]
  else None.
(** [to_bytes]. *)
Fixpoint to_bytes (w : wstr) : option str :=
  match w with
  | [] => Some []
  | c :: w => match encode c, to_bytes w with Some s, Some l => Some (s ++ l) | _, _ => None end
  end.

Definition is_tail (c : ascii) : bool := (128 <=? code c) && (code c <=? 191).
Definition tail_bits (c : ascii) : Z := code c - 128.
Definition between (lo hi c : Z) : bool := (lo <=? c) && (c <=? hi).
Definition cons_code (c : Z) (l : option wstr) : option wstr := (fun l => c :: l) <$> l.
(** [from_bytes]. *)
Fixpoint from_bytes (s : str) : option wstr :=
  match s with
  | [] => Some []
  | c1 :: s =>
      let b := code c1 in
      if b <? 128 then cons_code b (from_bytes s)
      else match s with
           | [] => None
           | c2 :: s =>
               if negb (is_tail c2) then None
               else if between 194 223 b then cons_code ((b - 192) * 64 + tail_bits c2) (from_bytes s)
               else match s with
                    | [] => None
                    | c3 :: s =>
                        if negb (is_tail c3) then None
                        else if between 224 239 b then
                          let c := (b - 224) * 4096 + tail_bits c2 * 64 + tail_bits c3 in
                          if (c <? 2048) || is_surrogate c then None else cons_code c (from_bytes s)
                        else match s with
                             | [] => None
                             | c4 :: s =>
                                 if negb (is_tail c4) then None
                                 else if between 240 244 b then
                                   let c := (b - 240) * 262144 + tail_bits c2 * 4096 + tail_bits c3 * 64 + tail_bits c4 in
                                   if (c <? 65536) || (1114111 <? c) then None else cons_code c (from_bytes s)
                                 else None
                             end
                    end
           end
  end.

(** ** Converters *)

(** [operator()], [convert_back] of a [std::string], [convert_wstring], and
    [convert_back] of a [std::wstring]. *)
Record Converter (T : Type) : Type := mkConverter {
  convert : T -> outcome str;
  convert_back : str -> outcome T;
  convert_wstring : T -> outcome wstr;
  convert_back_wide : wstr -> outcome T
}.
Arguments mkConverter {T}.
Arguments convert {T}.
Arguments convert_back {T}.
Arguments convert_wstring {T}.
Arguments convert_back_wide {T}.

Definition convert_primitive (t : prim) : Converter Z := {|
  convert v := Done (write_prim t v);
  convert_back s := read_prim t (widen s);
  convert_wstring v := Done (widen (write_prim t v));
  convert_back_wide w := read_prim t w
|}.

(** [stringable<std::wstring>]. *)
Definition wstring_to_utf8 (w : wstr) : outcome str :=
  match to_bytes w with Some s => Done s | None => Fault (Thrown "range_error") end.
(** [wchar_t(c)]: a [char] is signed. *)
Definition utf8_to_wstring (s : str) : wstr :=
  match from_bytes s with Some w => w | None => int_of_char <$> s end.

Definition stringable (T : Type) : Type := (T -> outcome str) * (str -> outcome T).
Definition stringable_string : stringable str := (Done, Done).
Definition stringable_wstring : stringable wstr := (wstring_to_utf8, fun s => Done (utf8_to_wstring s)).
(** A [const char *]. *)
Definition stringable_cstr (s : option str) : str := match s with None => [] | Some s => c_string s end.
(** [std::exception] is its [what()]; a [std::runtime_error] returned as one is sliced. *)
Definition stringable_exception (what_of_base : str) : stringable str := (Done, fun _ => Done what_of_base).

Definition obind {A B} (m : outcome A) (f : A -> outcome B) : outcome B :=
  match m with Done a => f a | Fault x => Fault x end.

Definition convert_general {T} (s : stringable T) : Converter T := {|
  convert v := s.1 v;
  convert_back t := s.2 t;
  convert_wstring v := obind (s.1 v) (fun t => Done (utf8_to_wstring t));
  convert_back_wide w := obind (wstring_to_utf8 w) s.2
|}.

(** [to_string], [to_wstring] and [lexical_cast] of a type, and those of
    [std::wstring], which copy. *)
Definition algo_to_string {T} (c : Converter T) : T -> outcome str := convert c.
Definition to_wstring {T} (c : Converter T) : T -> outcome wstr := convert_wstring c.
Definition to_wstring_wide : wstr -> outcome wstr := Done.
Definition lexical_cast {T} (c : Converter T) : str -> outcome T := convert_back c.
Definition lexical_cast_wide {T} (c : Converter T) : wstr -> outcome T := convert_back_wide c.
Definition lexical_cast_wstring : wstr -> outcome wstr := Done.
