(* ===== verification/ConversionsFacts.v ===== *)
(** * Conversions: theorems

    Numbers and wide strings survive the way to a text and back; what is read of a text
    is always in the type's range; and the cases where the conversions lose something
    or read an uninitialised variable. *)

From stdpp Require Import base strings pretty list.
From Stdlib Require Import ZArith Lia Ascii.
From S2P Require Import Prelude Strings StringBuffer Conversions.

#[local] Open Scope list_scope.

(** ** Numbers *)

Lemma digit_code n : (n < 10)%N -> code (pretty_N_char n) = 48 + Z.of_N n.
Proof.
  intros Hn. destruct n as [|q]; [reflexivity|].
  do 4 (destruct q as [q|q|]; try reflexivity; try lia).
Qed.

Lemma is_digit_code n : (n < 10)%N -> is_digit (48 + Z.of_N n) = true.
Proof. intros Hn. unfold is_digit. apply andb_true_iff. lia. Qed.

(** Reading the digits of a number gives the number. *)
Lemma digits_go x : forall s, digits (widen (lit (pretty_N_go x s))) 0 = digits (widen (lit s)) (Z.of_N x).
Proof.
  induction (N.lt_wf_0 x) as [x _ IH]. intros s. destruct (decide (x = 0%N)) as [-> | Hx]; [by rewrite pretty_N_go_0|].
  rewrite pretty_N_go_step by lia. rewrite IH by (apply N.div_lt; lia).
  pose proof (N.mod_lt x 10 ltac:(lia)) as Hm.
  change (widen (lit (String.String ?c s))) with (code c :: widen (lit s)). cbn [digits].
  rewrite digit_code by done. rewrite is_digit_code by done. f_equal.
  pose proof (N.div_mod x 10 ltac:(lia)). lia.
Qed.
Lemma digits_pretty (n : N) : digits (widen (lit (pretty n))) 0 = Z.of_N n.
Proof.
  unfold pretty, pretty_N. case_decide as H; [by subst|]. by rewrite digits_go.
Qed.

(** The first character of a number's digits is a digit. *)
Lemma pretty_head (n : N) : exists c l, widen (lit (pretty n)) = c :: l /\ is_digit c = true.
Proof.
  unfold pretty, pretty_N. case_decide as H; [by eexists _, _|].
  assert (Hgo : forall x s, (s = "" \/ exists c l, widen (lit s) = c :: l /\ is_digit c = true)%string ->
    (0 < x)%N \/ s <> ""%string -> exists c l, widen (lit (pretty_N_go x s)) = c :: l /\ is_digit c = true).
  { intros x. induction (N.lt_wf_0 x) as [x _ IH]. intros s Hs Hx. destruct (decide (x = 0%N)) as [-> | Hne].
    - rewrite pretty_N_go_0. destruct Hs as [-> | Hs]; [lia || by destruct Hx | done].
    - rewrite pretty_N_go_step by lia. apply IH; [apply N.div_lt; lia| |by right]. right.
      pose proof (N.mod_lt x 10 ltac:(lia)) as Hm. eexists _, _. split; [reflexivity|].
      by rewrite digit_code, is_digit_code. }
  apply Hgo; [by left|]. left. lia.
Qed.

Lemma digit_not_blank c : is_digit c = true -> is_blank c = false /\ c <> 45 /\ c <> 43.
Proof. unfold is_digit, is_blank. intros [H1 H2]%andb_true_iff. split; [|lia]. apply orb_false_iff. split; [apply andb_false_iff|]; lia. Qed.

Lemma read_number_digits c l : is_digit c = true -> read_number (c :: l) = digits (c :: l) 0.
Proof.
  intros (_ & H1 & H2)%digit_not_blank. unfold read_number.
  destruct c as [|c|c]; try done. repeat (destruct c as [c|c|]; try done).
Qed.

Lemma read_to_chars z : exists c l, widen (to_chars z) = c :: l /\ is_blank c = false /\ read_number (c :: l) = z.
Proof.
  unfold to_chars. destruct (Z.ltb_spec z 0) as [Hz|Hz].
  - exists 45, (widen (lit (pretty (Z.to_N (- z))))). split; [done|]. split; [done|].
    change (- digits (widen (lit (pretty (Z.to_N (- z))))) 0 = z). rewrite digits_pretty. lia.
  - destruct (pretty_head (Z.to_N z)) as (c & l & Heq & Hc). exists c, l. split; [done|].
    split; [by apply digit_not_blank|]. rewrite read_number_digits, <- Heq, digits_pretty by done. lia.
Qed.

(** The limits of a C++ integer type. *)
Definition integer (lo hi : Z) : Prop := 0 <= hi /\ (lo = 0 \/ lo < 0).

Lemma store_in_range lo hi n : integer lo hi -> lo <= n <= hi -> store_int lo hi n = n.
Proof.
  intros [Hhi Hlo] Hn. unfold store_int. rewrite (proj2 (Z.ltb_ge _ _)) by lia.
  destruct (Z.leb_spec 0 n); [done|]. rewrite (proj2 (Z.eqb_neq lo 0)) by lia. lia.
Qed.

Lemma store_bounded lo hi n : integer lo hi -> lo <= store_int lo hi n <= hi.
Proof.
  intros [Hhi Hlo]. unfold store_int. destruct (Z.ltb_spec hi n); [lia|]. destruct (Z.leb_spec 0 n); [lia|].
  destruct (Z.eqb_spec lo 0); [|lia]. destruct (Z.ltb_spec hi (- n)); lia.
Qed.

(** A number of an integer type survives: [lexical_cast<T>(to_string(v))] is [v], and
    so it is through wide strings. *)
Theorem integer_roundtrip lo hi v : integer lo hi -> lo <= v <= hi ->
  obind (algo_to_string (convert_primitive (PInt lo hi)) v) (lexical_cast (convert_primitive (PInt lo hi))) = Done v /\
  obind (to_wstring (convert_primitive (PInt lo hi)) v) (lexical_cast_wide (convert_primitive (PInt lo hi))) = Done v.
Proof.
  intros Ht Hv. assert (Hr : read_prim (PInt lo hi) (widen (to_chars v)) = Done v).
  { unfold read_prim. destruct (read_to_chars v) as (c & l & -> & Hc & Hn). cbn [skip_blanks]. rewrite Hc, Hn.
    by rewrite store_in_range. }
  by split.
Qed.

Lemma skip_blanks_spec w : skip_blanks w = [] <-> Forall (fun c => is_blank c = true) w.
Proof.
  induction w as [|c w IH]; cbn [skip_blanks]; [done|]. destruct (is_blank c) eqn:Hc.
  - rewrite IH. split; [by constructor | by inversion 1].
  - split; [done|]. inversion 1. congruence.
Qed.

(** What [lexical_cast] answers is always a value of the type, whatever the text: out
    of range the nearest limit, without digits 0.  Only on a text of blanks it answers
    a variable that was never written. *)
Theorem lexical_cast_in_range lo hi text : integer lo hi ->
  (exists v, lexical_cast (convert_primitive (PInt lo hi)) text = Done v /\ lo <= v <= hi) \/
  (Forall (fun c => is_blank (code c) = true) text /\
   lexical_cast (convert_primitive (PInt lo hi)) text = Fault (Thrown "uninitialized value")).
Proof.
  intros Ht. unfold lexical_cast. cbn [convert_primitive convert_back]. unfold read_prim.
  destruct (skip_blanks (widen text)) as [|c l] eqn:Hs.
  - right. split; [|done]. apply skip_blanks_spec in Hs. unfold widen in Hs. by apply Forall_fmap in Hs.
  - left. eexists. split; [reflexivity|]. by apply store_bounded.
Qed.

(** A [char] that is a blank does not survive. *)
Theorem blank_char_lost c : is_blank (code c) = true ->
  obind (algo_to_string (convert_primitive PChar) (code c)) (lexical_cast (convert_primitive PChar)) =
    Fault (Thrown "uninitialized value").
Proof. intros Hc. destruct c as [[] [] [] [] [] [] [] []]; (discriminate Hc || reflexivity). Qed.

(** ** UTF-8 *)

Lemma code_byte z : 0 <= z < 256 -> code (byte z) = z.
Proof. intros Hz. unfold code, byte. rewrite nat_ascii_embedding by lia. lia. Qed.
Lemma byte_code c : byte (code c) = c.
Proof. unfold byte, code. rewrite Nat2Z.id. apply ascii_nat_embedding. Qed.
Lemma code_bound c : 0 <= code c < 256.
Proof. unfold code. pose proof (nat_ascii_bounded c). lia. Qed.
Lemma byte_is z c : z = code c -> byte z = c.
Proof. intros ->. apply byte_code. Qed.

Lemma tail_byte x : 0 <= x < 64 -> is_tail (byte (128 + x)) = true /\ tail_bits (byte (128 + x)) = x.
Proof. intros Hx. unfold is_tail, tail_bits. rewrite code_byte by lia. split; [apply andb_true_iff|]; lia. Qed.
Lemma is_tail_bits c : is_tail c = true -> 0 <= tail_bits c < 64 /\ code c = 128 + tail_bits c.
Proof. unfold is_tail, tail_bits. intros [? ?]%andb_true_iff. lia. Qed.
Lemma between_true lo hi c : lo <= c <= hi -> between lo hi c = true.
Proof. intros. apply andb_true_iff. lia. Qed.
Lemma between_false lo hi c : c < lo \/ hi < c -> between lo hi c = false.
Proof. intros. apply andb_false_iff. lia. Qed.

(** The bits of a code point are put together again. *)
Lemma bits2 c : c / 64 * 64 + c mod 64 = c.
Proof. pose proof (Z.div_mod c 64 ltac:(lia)). lia. Qed.
Lemma bits3 c : c / 4096 * 4096 + (c / 64) mod 64 * 64 + c mod 64 = c.
Proof.
  pose proof (bits2 c) as H1. pose proof (bits2 (c / 64)) as H2. rewrite Z.div_div in H2 by lia.
  change (64 * 64) with 4096 in H2. lia.
Qed.
Lemma bits4 c : c / 262144 * 262144 + (c / 4096) mod 64 * 4096 + (c / 64) mod 64 * 64 + c mod 64 = c.
Proof.
  pose proof (bits3 c) as H1. pose proof (bits2 (c / 4096)) as H2. rewrite Z.div_div in H2 by lia.
  change (4096 * 64) with 262144 in H2. lia.
Qed.
Lemma mod64 c : 0 <= c mod 64 < 64.
Proof. apply Z.mod_pos_bound. lia. Qed.

Lemma from_encode c bs s : encode c = Some bs -> from_bytes (bs ++ s) = cons_code c (from_bytes s).
Proof.
  unfold encode. destruct (Z.ltb_spec c 0); [done|].
  destruct (Z.ltb_spec c 128).
  { intros [= <-]. cbn [app from_bytes]. cbv zeta. rewrite code_byte by lia. by rewrite (proj2 (Z.ltb_lt _ _)). }
  pose proof (mod64 c) as Hm. destruct (tail_byte _ Hm) as [Ht Hb].
  destruct (Z.ltb_spec c 2048).
  { intros [= <-]. assert (2 <= c / 64 < 32) by (split; [apply Z.div_le_lower_bound | apply Z.div_lt_upper_bound]; lia).
    cbn [app from_bytes]. cbv zeta. rewrite code_byte, Ht, Hb by lia.
    rewrite (proj2 (Z.ltb_ge _ _)), between_true by lia. cbn [negb]. f_equal. pose proof (bits2 c). lia. }
  pose proof (mod64 (c / 64)) as Hm2. destruct (tail_byte _ Hm2) as [Ht2 Hb2].
  destruct (Z.ltb_spec c 65536).
  { destruct (is_surrogate c) eqn:Hs; [done|]. intros [= <-].
    assert (0 <= c / 4096 < 16) by (split; [apply Z.div_pos | apply Z.div_lt_upper_bound]; lia).
    cbn [app from_bytes]. cbv zeta. rewrite code_byte, Ht, Hb, Ht2, Hb2 by lia.
    rewrite (proj2 (Z.ltb_ge _ _)), between_false, between_true by lia. cbn [negb].
    replace (_ + _ + c mod 64) with c by (pose proof (bits3 c); lia).
    by rewrite (proj2 (Z.ltb_ge c 2048)), Hs by lia. }
  destruct (Z.leb_spec c 1114111); [|done]. intros [= <-].
  pose proof (mod64 (c / 4096)) as Hm3. destruct (tail_byte _ Hm3) as [Ht3 Hb3].
  assert (0 <= c / 262144 < 5) by (split; [apply Z.div_pos | apply Z.div_lt_upper_bound]; lia).
  cbn [app from_bytes]. cbv zeta. rewrite code_byte, Ht, Hb, Ht2, Hb2, Ht3, Hb3 by lia.
  rewrite (proj2 (Z.ltb_ge _ _)), !between_false, between_true by lia. cbn [negb].
  replace (_ + _ + _ + c mod 64) with c by (pose proof (bits4 c); lia).
  by rewrite (proj2 (Z.ltb_ge c 65536)), (proj2 (Z.ltb_ge 1114111 c)) by lia.
Qed.

(** The shortest encoding of what was decoded. *)
Lemma encode_ascii c1 : code c1 < 128 -> encode (code c1) = Some [c1].
Proof.
  intros H. pose proof (code_bound c1). unfold encode. rewrite (proj2 (Z.ltb_ge _ 0)), (proj2 (Z.ltb_lt _ 128)) by lia.
  by rewrite byte_code.
Qed.
Lemma encode_two c1 c2 : 194 <= code c1 <= 223 -> is_tail c2 = true ->
  encode ((code c1 - 192) * 64 + tail_bits c2) = Some [c1; c2].
Proof.
  intros H1 [H2 H2']%is_tail_bits. set (c := _ + _). assert (128 <= c < 2048) by (subst c; lia). unfold encode.
  rewrite (proj2 (Z.ltb_ge _ 0)), (proj2 (Z.ltb_ge _ 128)), (proj2 (Z.ltb_lt _ 2048)) by lia.
  assert (c / 64 = code c1 - 192) by (symmetry; apply (Z.div_unique_pos c 64 _ (tail_bits c2)); subst c; lia).
  assert (c mod 64 = tail_bits c2) by (symmetry; apply (Z.mod_unique_pos c 64 (code c1 - 192)); subst c; lia).
  do 2 f_equal; [apply byte_is; lia|]. f_equal. apply byte_is. lia.
Qed.
Lemma encode_three c1 c2 c3 : 224 <= code c1 <= 239 -> is_tail c2 = true -> is_tail c3 = true ->
  let c := (code c1 - 224) * 4096 + tail_bits c2 * 64 + tail_bits c3 in
  2048 <= c -> is_surrogate c = false -> encode c = Some [c1; c2; c3].
Proof.
  intros H1 [H2 H2']%is_tail_bits [H3 H3']%is_tail_bits c Hc Hs. assert (c < 65536) by (subst c; lia). unfold encode.
  rewrite (proj2 (Z.ltb_ge _ 0)), (proj2 (Z.ltb_ge _ 128)), (proj2 (Z.ltb_ge _ 2048)), (proj2 (Z.ltb_lt _ 65536)), Hs by lia.
  assert (c / 64 = (code c1 - 224) * 64 + tail_bits c2) as H64 by (symmetry; apply (Z.div_unique_pos c 64 _ (tail_bits c3)); subst c; lia).
  assert (c mod 64 = tail_bits c3) by (symmetry; apply (Z.mod_unique_pos c 64 ((code c1 - 224) * 64 + tail_bits c2)); subst c; lia).
  assert (c / 4096 = code c1 - 224) by (symmetry; apply (Z.div_unique_pos c 4096 _ (tail_bits c2 * 64 + tail_bits c3)); subst c; lia).
  assert ((c / 64) mod 64 = tail_bits c2) by (rewrite H64; symmetry; apply (Z.mod_unique_pos _ 64 (code c1 - 224)); lia).
  do 2 f_equal; [apply byte_is; lia|]. f_equal; [apply byte_is; lia|]. f_equal. apply byte_is. lia.
Qed.
Lemma encode_four c1 c2 c3 c4 : 240 <= code c1 <= 244 -> is_tail c2 = true -> is_tail c3 = true -> is_tail c4 = true ->
  let c := (code c1 - 240) * 262144 + tail_bits c2 * 4096 + tail_bits c3 * 64 + tail_bits c4 in
  65536 <= c <= 1114111 -> encode c = Some [c1; c2; c3; c4].
Proof.
  intros H1 [H2 H2']%is_tail_bits [H3 H3']%is_tail_bits [H4 H4']%is_tail_bits c Hc. unfold encode.
  rewrite (proj2 (Z.ltb_ge _ 0)), (proj2 (Z.ltb_ge _ 128)), (proj2 (Z.ltb_ge _ 2048)), (proj2 (Z.ltb_ge _ 65536)),
    (proj2 (Z.leb_le _ 1114111)) by lia.
  assert (c / 64 = (code c1 - 240) * 4096 + tail_bits c2 * 64 + tail_bits c3) as H64 by (symmetry; apply (Z.div_unique_pos c 64 _ (tail_bits c4)); subst c; lia).
  assert (c mod 64 = tail_bits c4) by (symmetry; apply (Z.mod_unique_pos c 64 ((code c1 - 240) * 4096 + tail_bits c2 * 64 + tail_bits c3)); subst c; lia).
  assert (c / 4096 = (code c1 - 240) * 64 + tail_bits c2) as H4096 by (symmetry; apply (Z.div_unique_pos c 4096 _ (tail_bits c3 * 64 + tail_bits c4)); subst c; lia).
  assert ((c / 64) mod 64 = tail_bits c3) by (rewrite H64; symmetry; apply (Z.mod_unique_pos _ 64 ((code c1 - 240) * 64 + tail_bits c2)); lia).
  assert ((c / 4096) mod 64 = tail_bits c2) by (rewrite H4096; symmetry; apply (Z.mod_unique_pos _ 64 (code c1 - 240)); lia).
  assert (c / 262144 = code c1 - 240) by (symmetry; apply (Z.div_unique_pos c 262144 _ (tail_bits c2 * 4096 + tail_bits c3 * 64 + tail_bits c4)); subst c; lia).
  do 2 f_equal; [apply byte_is; lia|]. f_equal; [apply byte_is; lia|]. f_equal; [apply byte_is; lia|]. f_equal. apply byte_is. lia.
Qed.

Lemma to_from w : forall s, to_bytes w = Some s -> from_bytes s = Some w.
Proof.
  induction w as [|c w IH]; intros s; cbn [to_bytes]; [by intros [= <-]|].
  destruct (encode c) as [bs|] eqn:Hc; [|done]. destruct (to_bytes w) as [l|]; [|done]. intros [= <-].
  by rewrite (from_encode c bs l Hc), (IH l).
Qed.

Lemma to_bytes_cons c bs w s : encode c = Some bs -> to_bytes w = Some s -> to_bytes (c :: w) = Some (bs ++ s).
Proof. intros Hc Hw. cbn [to_bytes]. by rewrite Hc, Hw. Qed.

Lemma between_spec lo hi c : between lo hi c = true -> lo <= c <= hi.
Proof. intros [? ?]%andb_true_iff. lia. Qed.

Lemma from_to n : forall s w, (length s <= n)%nat -> from_bytes s = Some w -> to_bytes w = Some s.
Proof.
  induction n as [|n IH]; intros [|c1 s] w Hn; cbn [length] in Hn; try lia; cbn [from_bytes]; try by intros [= <-].
  cbv zeta. destruct (Z.ltb_spec (code c1) 128) as [H1|H1].
  { intros (w' & Hw & ->)%fmap_Some. apply (to_bytes_cons _ [c1]); [by apply encode_ascii | apply IH; [lia | done]]. }
  destruct s as [|c2 s]; [done|]. destruct (is_tail c2) eqn:H2; cbn [negb]; [|done]. cbn [length] in Hn.
  destruct (between 194 223 (code c1)) eqn:Hb2.
  { intros (w' & Hw & ->)%fmap_Some. apply (to_bytes_cons _ [c1; c2]); [|apply IH; [lia | done]].
    apply encode_two; [by apply between_spec | done]. }
  destruct s as [|c3 s]; [done|]. destruct (is_tail c3) eqn:H3; cbn [negb]; [|done]. cbn [length] in Hn.
  destruct (between 224 239 (code c1)) eqn:Hb3.
  { destruct (_ || _) eqn:Hr; [done|]. apply orb_false_iff in Hr as [Hr%Z.ltb_ge Hs].
    intros (w' & Hw & ->)%fmap_Some. apply (to_bytes_cons _ [c1; c2; c3]); [|apply IH; [lia | done]].
    apply encode_three; try done. by apply between_spec. }
  destruct s as [|c4 s]; [done|]. destruct (is_tail c4) eqn:H4; cbn [negb]; [|done]. cbn [length] in Hn.
  destruct (between 240 244 (code c1)) eqn:Hb4; [|done].
  destruct (_ || _) eqn:Hr; [done|]. apply orb_false_iff in Hr as [Hr%Z.ltb_ge Hr2%Z.ltb_ge].
  intros (w' & Hw & ->)%fmap_Some. apply (to_bytes_cons _ [c1; c2; c3; c4]); [|apply IH; [lia | done]].
  apply encode_four; try done. by apply between_spec.
Qed.

(** C29: the UTF-8 codec is exact: a wide string of Unicode scalar values becomes bytes
    that are read back as it, and bytes that are well-formed UTF-8 are read as the one
    wide string that is written as them; so texts survive the way through
    [stringable<std::wstring>] in both directions. *)
Theorem utf8_roundtrip w s :
  (wstring_to_utf8 w = Done s <-> from_bytes s = Some w) /\
  (from_bytes s = Some w -> utf8_to_wstring s = w /\ wstring_to_utf8 (utf8_to_wstring s) = Done s).
Proof.
  assert (Hiff : wstring_to_utf8 w = Done s <-> from_bytes s = Some w).
  { unfold wstring_to_utf8. split.
    - destruct (to_bytes w) as [s'|] eqn:Hw; [|done]. intros [= <-]. by apply to_from.
    - intros Hs. by rewrite (from_to (length s) s w (le_n _) Hs). }
  split; [done|]. intros Hs. assert (Hu : utf8_to_wstring s = w) by (unfold utf8_to_wstring; by rewrite Hs).
  split; [done|]. rewrite Hu. by apply Hiff.
Qed.

(** Bytes that are not UTF-8 are widened one by one, a byte of 128 and more to a
    negative [wchar_t], which has no encoding: they do not come back. *)
Theorem invalid_bytes_lost s : from_bytes s = None ->
  utf8_to_wstring s = int_of_char <$> s /\ wstring_to_utf8 (utf8_to_wstring s) <> Done s.
Proof.
  intros Hs. split; [unfold utf8_to_wstring; by rewrite Hs|]. intros Hw.
  assert (Hsome : from_bytes s = Some (utf8_to_wstring s)); [|congruence].
  revert Hw. unfold wstring_to_utf8. destruct (to_bytes (utf8_to_wstring s)) as [s'|] eqn:Ht; [|done].
  intros [= ->]. by apply to_from.
Qed.

(** ** Examples *)

Lemma integer_roundtrip_witness :
  integer (-32768) 32767 /\
  obind (algo_to_string (convert_primitive (PInt (-32768) 32767)) (-1234)) (lexical_cast (convert_primitive (PInt (-32768) 32767))) = Done (-1234).
Proof.
  split; [split; lia|]. exact (proj1 (integer_roundtrip (-32768) 32767 (-1234) ltac:(split; lia) ltac:(lia))).
Defined.

Lemma lexical_cast_in_range_witness :
  integer 0 65535 /\ exists v, lexical_cast (convert_primitive (PInt 0 65535)) (lit " 70000x") = Done v /\ 0 <= v <= 65535.
Proof.
  split; [split; lia|].
  destruct (lexical_cast_in_range 0 65535 (lit " 70000x") ltac:(split; lia)) as [H|[_ H]]; [exact H | discriminate H].
Defined.

Lemma utf8_roundtrip_witness :
  from_bytes [byte 195; byte 164; byte 33] = Some [228; 33] /\
  utf8_to_wstring [byte 195; byte 164; byte 33] = [228; 33].
Proof.
  split; [reflexivity|].
  exact (proj1 (proj2 (utf8_roundtrip [228; 33] [byte 195; byte 164; byte 33]) eq_refl)).
Defined.
