(* ===== verification/SdpUtils.v ===== *)
(** * SDP utilities

    Models [core/utils/sdp_utils.cpp].  The regular expressions are lists of items
    (a literal, compared without case as [std::regex::icase] does; a captured
    [(class+)]), executed with greedy backtracking as ECMAScript prescribes, and
    compared with the language they denote.  The random numbers [genSsrc] draws are
    a parameter, one per call. *)

From stdpp Require Import base strings pretty list.
From Stdlib Require Import Ascii ZArith Lia.
From S2P Require Import Prelude Strings.

#[local] Open Scope list_scope.
#[local] Open Scope nat_scope.

(** ** Regular expressions *)

Inductive rx_item : Type :=
| RLit (text : str)
| RPlus (class : ascii -> bool).

(** The language, with the captured groups.  [full]: [std::regex_match], which
    matches the whole line; otherwise a search anchored at its start. *)
Inductive rx_match (full : bool) : list rx_item -> str -> list str -> Prop :=
| rx_end s : (full = true -> s = []) -> rx_match full [] s []
| rx_lit text q items s caps :
    tolower <$> q = tolower <$> text -> rx_match full items s caps ->
    rx_match full (RLit text :: items) (q ++ s) caps
| rx_plus class g items s caps :
    g <> [] -> Forall (fun c => class c = true) g -> rx_match full items s caps ->
    rx_match full (RPlus class :: items) (g ++ s) (g :: caps).

(** Removes [text] from the front of the line. *)
Fixpoint strip_icase (text s : str) : option str :=
  match text, s with
  | [], _ => Some s
  | x :: text, y :: s => if Ascii.eqb (tolower x) (tolower y) then strip_icase text s else None
  | _ :: _, [] => None
  end.

(** How many characters of the class the line starts with. *)
Fixpoint span (class : ascii -> bool) (s : str) : nat :=
  match s with
  | c :: s => if class c then S (span class s) else 0
  | [] => 0
  end.

(** [(class+)]: the longest group first, then shorter ones. *)
Fixpoint try_groups (run : str -> option (list str)) (s : str) (n : nat) : option (list str) :=
  match n with
  | O => None
  | S m => match run (drop n s) with
           | Some caps => Some (take n s :: caps)
           | None => try_groups run s m
           end
  end.

Fixpoint rx_exec (full : bool) (items : list rx_item) (s : str) : option (list str) :=
  match items with
  | [] => if full then (if decide (s = []) then Some [] else None) else Some []
  | RLit text :: items => match strip_icase text s with Some s => rx_exec full items s | None => None end
  | RPlus class :: items => try_groups (rx_exec full items) s (span class s)
  end.

Definition isnotspace (c : ascii) : bool := negb (isspace c).
Definition CR : str := ["013"%char].

Definition re_mline : list rx_item := [RLit (lit "m="); RPlus isnotspace; RLit (lit " ")].
Definition re_fid : list rx_item :=
  [RLit (lit "a=ssrc-group:FID "); RPlus isdigit; RLit (lit " "); RPlus isdigit; RLit CR].
Definition re_cname : list rx_item :=
  [RLit (lit "a=ssrc:"); RPlus isdigit; RLit (lit " cname:"); RPlus isnotspace; RLit CR].
Definition re_mslabel : list rx_item :=
  [RLit (lit "a=ssrc:"); RPlus isdigit; RLit (lit " mslabel:"); RPlus isnotspace; RLit CR].
Definition re_label : list rx_item :=
  [RLit (lit "a=ssrc:"); RPlus isdigit; RLit (lit " label:"); RPlus isnotspace; RLit CR].

Definition parse1 (full : bool) (re : list rx_item) (line : str) : option str :=
  match rx_exec full re line with Some [a] => Some a | _ => None end.
Definition parse2 (re : list rx_item) (line : str) : option (str * str) :=
  match rx_exec true re line with Some [a; b] => Some (a, b) | _ => None end.

(** [Some]: the function returns true and sets its out-parameters. *)
Definition parseMline (line : str) : option str := parse1 false re_mline line.
Definition parseFid (line : str) : option (str * str) := parse2 re_fid line.
Definition parseCname (line : str) : option (str * str) := parse2 re_cname line.
Definition parseMslabel (line : str) : option (str * str) := parse2 re_mslabel line.
Definition parseLabel (line : str) : option (str * str) := parse2 re_label line.

(** ** Splitting and joining *)

(** The characters up to the delimiter, and what follows it. *)
Fixpoint read_until (delim : ascii) (s : str) : str * str :=
  match s with
  | [] => ([], [])
  | c :: s => if Ascii.eqb c delim then ([], s)
              else let (item, rest) := read_until delim s in (c :: item, rest)
  end.

(** [std::getline]: it fails at the end of the stream. *)
Definition getline (delim : ascii) (s : str) : option (str * str) :=
  match s with [] => None | _ => Some (read_until delim s) end.

(** The [while] loop of [split]; each round reads at least one character. *)
Fixpoint split_loop (fuel : nat) (delim : ascii) (s : str) (elems : list str) : option (list str) :=
  match fuel with
  | O => None
  | S fuel => match getline delim s with
              | None => Some elems
              | Some (item, rest) => split_loop fuel delim rest (elems ++ [item])
              end
  end.
Definition split (s : str) (delim : ascii) : option (list str) := split_loop (S (length s)) delim s [].

Fixpoint join (lines : list str) (separator : str) : str :=
  match lines with
  | [] => []
  | [l] => l
  | l :: lines => l ++ separator ++ join lines separator
  end.

(** ** Simulcast *)

(** [setw(9) << setfill('0') << value]. *)
Definition genSsrc (value : N) : str :=
  let s := lit (pretty value) in replicate (9 - length s) "0"%char ++ s.

Definition injectSsrc (ssrc cname mslabel label : str) : list str :=
  let assrc := lit "a=ssrc:" ++ ssrc in
  [assrc ++ lit " cname:" ++ cname ++ CR;
   assrc ++ lit " msid:" ++ mslabel ++ lit " " ++ label ++ CR;
   assrc ++ lit " mslabel:" ++ mslabel ++ CR;
   assrc ++ lit " label:" ++ label ++ CR].

(** The lines appended, and the new [ssrc]; [draw1], [draw2] are the two numbers. *)
Definition injectSsrcAndFid (draw1 draw2 : N) (cname mslabel label : str) (fid : bool) : list str * str :=
  let ssrc := genSsrc draw1 in
  let ssrcFid := genSsrc draw2 in
  ((if fid then [lit "a=ssrc-group:FID " ++ ssrc ++ lit " " ++ ssrcFid ++ CR] else []) ++
   injectSsrc ssrc cname mslabel label ++
   (if fid then injectSsrc ssrcFid cname mslabel label else []), ssrc).

(** The local variables of the loop over the lines. *)
Record scan : Type := mkScan {
  sc_ssrc : str;
  sc_ssrcFid : str;
  sc_cname : str;
  sc_mslabel : str;
  sc_label : str;
  sc_index2inject : nat;
  sc_video : bool;
  sc_hasSimulcast : bool
}.
Definition scan0 : scan := mkScan [] [] [] [] [] 0 false false.

Definition scan_section (video : bool) (index : nat) (s : scan) : scan :=
  mkScan (sc_ssrc s) (sc_ssrcFid s) (sc_cname s) (sc_mslabel s) (sc_label s) index video (sc_hasSimulcast s).
Definition scan_ids (ssrc ssrcFid cname : str) (s : scan) : scan :=
  mkScan ssrc ssrcFid cname (sc_mslabel s) (sc_label s) (sc_index2inject s) (sc_video s) (sc_hasSimulcast s).
Definition scan_mslabel (mslabel : str) (s : scan) : scan :=
  mkScan (sc_ssrc s) (sc_ssrcFid s) (sc_cname s) mslabel (sc_label s) (sc_index2inject s) (sc_video s)
    (sc_hasSimulcast s).
Definition scan_label (label : str) (s : scan) : scan :=
  mkScan (sc_ssrc s) (sc_ssrcFid s) (sc_cname s) (sc_mslabel s) label (sc_index2inject s) (sc_video s)
    (sc_hasSimulcast s).
Definition scan_sim (b : bool) (s : scan) : scan :=
  mkScan (sc_ssrc s) (sc_ssrcFid s) (sc_cname s) (sc_mslabel s) (sc_label s) (sc_index2inject s) (sc_video s) b.

Definition SIM : str := lit "a=ssrc-group:SIM ".

(** [empty() && parse(line, tmpSsrc, value) && tmpSsrc == ssrc]: the value to take. *)
Definition wanted (current : str) (parsed : option (str * str)) (ssrc : str) : option str :=
  match current, parsed with
  | [], Some (tmpSsrc, value) => if decide (tmpSsrc = ssrc) then Some value else None
  | _, _ => None
  end.

(** The last test of the loop's body. *)
Definition scan_group (line : str) (s : scan) : scan :=
  if matches_at Ascii.eqb line SIM then scan_sim true s else s.

(** The body from [if (ssrc.length())] on. *)
Definition scan_values (line : str) (s : scan) : scan :=
  if decide (sc_ssrc s = []) then scan_group line s
  else match wanted (sc_cname s) (parseCname line) (sc_ssrc s) with
       | Some v => scan_ids (sc_ssrc s) (sc_ssrcFid s) v s
       | None =>
           match wanted (sc_mslabel s) (parseMslabel line) (sc_ssrc s) with
           | Some v => scan_mslabel v s
           | None =>
               match wanted (sc_label s) (parseLabel line) (sc_ssrc s) with
               | Some v => scan_label v s
               | None => scan_group line s
               end
           end
       end.

(** The body from [if (!video)] on. *)
Definition scan_attribute (line : str) (s : scan) : scan :=
  if negb (sc_video s) then s
  else if decide (sc_ssrc s = []) then
    match parseFid line with
    | Some (ssrc, ssrcFid) => scan_ids ssrc ssrcFid (sc_cname s) s
    | None =>
        match parseCname line with
        | Some (ssrc, cname) => scan_values line (scan_ids ssrc (sc_ssrcFid s) cname s)
        | None => scan_values line s
        end
    end
  else scan_values line s.

Definition scan_line (i : nat) (line : str) (s : scan) : scan :=
  match parseMline line with
  | Some mtype =>
      if negb (sc_video s) && bool_decide (mtype = lit "video") then
        scan_section true (sc_index2inject s) s
      else if sc_video s then scan_section false (i - 1) s
      else scan_attribute line s
  | None => scan_attribute line s
  end.

Fixpoint scan_lines (i : nat) (lines : list str) (s : scan) : scan :=
  match lines with
  | [] => s
  | line :: lines => scan_lines (S i) lines (scan_line i line s)
  end.

(** The loop over the layers: the lines, and the end of the group line. *)
Fixpoint simulcast_layers (draw : nat -> N) (n i : nat) (s : scan) : list str * str :=
  match n with
  | O => ([], [])
  | S n =>
      let (lines, assrc) := injectSsrcAndFid (draw (2 * i)) (draw (2 * i + 1)) (sc_cname s) (sc_mslabel s)
                              (sc_label s) (negb (bool_decide (sc_ssrcFid s = []))) in
      let (lines', group) := simulcast_layers draw n (S i) s in
      (lines ++ lines', lit " " ++ assrc ++ group)
  end.

Definition simulcast_lines (draw : nat -> N) (simulcast : Z) (s : scan) : list str :=
  let (lines, group) := simulcast_layers draw (Z.to_nat simulcast) 0 s in
  lines ++ [SIM ++ sc_ssrc s ++ group ++ CR].

Definition nonempty (s : str) : bool := negb (bool_decide (s = [])).

Definition injectSimulcast (draw : nat -> N) (simulcast : Z) (lines : list str) : list str :=
  if (simulcast <? 1)%Z || (simulcast >? 2)%Z then lines
  else
    let s := scan_lines 0 lines scan0 in
    if negb (sc_hasSimulcast s) && nonempty (sc_ssrc s) && nonempty (sc_cname s) &&
       nonempty (sc_mslabel s) && nonempty (sc_label s) then
      let k := if decide (sc_index2inject s = 0) then length lines else sc_index2inject s in
      take k lines ++ simulcast_lines draw simulcast s ++ drop k lines
    else lines.
