(* ===== verification/SdpUtilsFacts.v ===== *)
(** * Theorems on the SDP utilities *)

From stdpp Require Import base strings pretty list.
From Stdlib Require Import Ascii ZArith Lia.
From S2P Require Import Prelude Strings SdpUtils.

#[local] Open Scope list_scope.
#[local] Open Scope nat_scope.

(** ** The matcher and the language *)

Lemma strip_icase_spec text s rest :
  strip_icase text s = Some rest <-> exists q, s = q ++ rest /\ tolower <$> q = tolower <$> text.
Proof.
  revert s. induction text as [|x text IH]; intros s; cbn [strip_icase].
  - split; [intros [= ->]; by exists [] |]. intros (q & -> & Hq). by destruct q.
  - destruct s as [|y s].
    + split; [done|]. intros (q & Hq & Hl). symmetry in Hq. apply app_nil in Hq as [-> ->]. done.
    + destruct (Ascii.eqb (tolower x) (tolower y)) eqn:He.
      * apply Ascii.eqb_eq in He. rewrite IH. split.
        -- intros (q & -> & Hq). exists (y :: q). split; [done|]. rewrite !fmap_cons. by rewrite Hq, He.
        -- intros (q & Hs & Hq). destruct q as [|z q]; [done|]. rewrite !fmap_cons in Hq.
           injection Hs as <- ->. exists q. split; [done|]. congruence.
      * apply Ascii.eqb_neq in He. split; [done|]. intros (q & Hs & Hq). destruct q as [|z q]; [done|].
        rewrite !fmap_cons in Hq. injection Hs as <- ->. congruence.
Qed.

Lemma span_Forall class s : Forall (fun c => class c = true) (take (span class s) s).
Proof. induction s as [|c s IH]; simpl; [done|]. destruct (class c) eqn:Hc; simpl; [by constructor | done]. Qed.

Lemma span_le class s : span class s <= length s.
Proof. induction s as [|c s IH]; simpl; [done|]. destruct (class c); simpl; lia. Qed.

Lemma span_app class g s :
  Forall (fun c => class c = true) g -> length g <= span class (g ++ s).
Proof. induction 1 as [|c g Hc _ IH]; simpl; [lia|]. rewrite Hc. lia. Qed.

Lemma try_groups_Some run s n caps :
  try_groups run s n = Some caps ->
  exists m r, 1 <= m <= n /\ run (drop m s) = Some r /\ caps = take m s :: r.
Proof.
  induction n as [|n IH]; cbn [try_groups]; [done|]. destruct (run (drop (S n) s)) as [r|] eqn:Hr.
  - intros [= <-]. exists (S n), r. split; [lia | done].
  - intros (m & r & Hm & ?)%IH. exists m, r. split; [lia | done].
Qed.

Lemma try_groups_None run s n m :
  try_groups run s n = None -> 1 <= m <= n -> run (drop m s) = None.
Proof.
  induction n as [|n IH]; cbn [try_groups]; [lia|]. destruct (run (drop (S n) s)) eqn:Hr; [done|].
  intros Hn Hm. destruct (decide (m = S n)) as [->|]; [done|]. apply IH; [done | lia].
Qed.

Lemma rx_exec_sound full items s caps : rx_exec full items s = Some caps -> rx_match full items s caps.
Proof.
  revert s caps. induction items as [|[text|class] items IH]; intros s caps; cbn [rx_exec].
  - destruct full.
    + destruct (decide (s = [])) as [->|]; [|done]. intros [= <-]. by constructor.
    + intros [= <-]. by constructor.
  - destruct (strip_icase text s) as [rest|] eqn:Hs; [|done]. intros H.
    apply strip_icase_spec in Hs as (q & -> & Hq). constructor; [done|]. by apply IH.
  - intros (m & r & Hm & Hr & ->)%try_groups_Some. rewrite <- (take_drop m s) at 1.
    pose proof (span_le class s). constructor; [| |by apply IH].
    2:{ rewrite <- (Nat.min_l m (span class s)), <- take_take by lia. by apply Forall_take, span_Forall. }
    intros Hnil. apply (f_equal length) in Hnil. rewrite length_take_le in Hnil by lia. simpl in Hnil. lia.
Qed.

Lemma rx_exec_complete full items s caps :
  rx_match full items s caps -> exists caps', rx_exec full items s = Some caps'.
Proof.
  induction 1 as [s Hf|text q items s caps Hq _ (caps' & IH)|class g items s caps Hg Hc _ (caps' & IH)];
    cbn [rx_exec].
  - destruct full; [rewrite Hf by done; by exists [] | by exists []].
  - rewrite (proj2 (strip_icase_spec text (q ++ s) s)) by (by exists q). by exists caps'.
  - destruct (try_groups _ _ _) as [r|] eqn:Ht; [by exists r|]. exfalso.
    pose proof (span_app class g s Hc). destruct g as [|c g]; [done|].
    pose proof (try_groups_None _ _ _ (length (c :: g)) Ht) as Hn.
    rewrite drop_app_length, IH in Hn. discriminate Hn. simpl in *; lia.
Qed.

(** Every group is followed by a literal that starts outside the group's class. *)
Fixpoint separated (items : list rx_item) : Prop :=
  match items with
  | [] => True
  | RLit _ :: items => separated items
  | RPlus class :: items =>
      match items with
      | RLit (x :: _) :: _ => forall c, tolower c = tolower x -> class c = false
      | _ => False
      end /\ separated items
  end.

Lemma span_exact class g c s :
  Forall (fun c => class c = true) g -> class c = false -> span class (g ++ c :: s) = length g.
Proof. intros Hg Hc. induction Hg as [|d g Hd _ IH]; simpl; [by rewrite Hc | by rewrite Hd, IH]. Qed.

Lemma rx_match_unique full items s caps1 caps2 :
  separated items -> rx_match full items s caps1 -> rx_match full items s caps2 -> caps1 = caps2.
Proof.
  intros Hsep H1. revert caps2.
  assert (Hgroup : forall class items s caps, separated (RPlus class :: items) ->
    rx_match full items s caps -> forall g, Forall (fun c => class c = true) g -> span class (g ++ s) = length g).
  { clear. intros class items s caps [Hsep _] Hm g Hg.
    destruct items as [|[[|x text]|] items]; try done. inversion Hm as [|? q ? ? ? Hq|]; subst.
    destruct q as [|c q]; [done|]. rewrite !fmap_cons in Hq. simpl. apply span_exact; [done|].
    apply Hsep. congruence. }
  induction H1 as [s Hf|text q items s caps Hq H1 IH|class g items s caps Hg Hc H1 IH]; intros caps2 H2.
  - by inversion H2.
  - inversion H2 as [|? q' ? s' ? Hq' H2' Heq|]; subst. apply IH; [done|].
    assert (Hl : length q' = length q).
    { rewrite <- (length_fmap tolower q), <- (length_fmap tolower q'). by rewrite Hq, Hq'. }
    by apply app_inj_1 in H0 as [_ <-].
  - inversion H2 as [| |? g' ? s' ? Hg' Hc' H2' Heq]; subst.
    pose proof (Hgroup _ _ _ _ Hsep H1 _ Hc) as Hl. pose proof (Hgroup _ _ _ _ Hsep H2' _ Hc') as Hl'.
    rewrite H0, Hl in Hl'. apply app_inj_1 in H0 as [-> ->]; [|done].
    f_equal. apply IH; [by destruct Hsep | done].
Qed.

Lemma rx_exec_iff full items s caps :
  separated items -> rx_exec full items s = Some caps <-> rx_match full items s caps.
Proof.
  intros Hsep. split; [apply rx_exec_sound|]. intros H. destruct (rx_exec_complete _ _ _ _ H) as (caps' & He).
  rewrite He. f_equal. eapply rx_match_unique; [done | by apply rx_exec_sound | done].
Qed.

Lemma not_in_class (class : ascii -> bool) (x : ascii) :
  forallb (fun n => let c := ascii_of_nat n in negb (Ascii.eqb (tolower c) (tolower x) && class c)) (seq 0 256) = true ->
  forall c, tolower c = tolower x -> class c = false.
Proof.
  intros H c Hc. rewrite forallb_forall in H. specialize (H (nat_of_ascii c)). cbv beta zeta in H.
  rewrite ascii_nat_embedding, Hc, Ascii.eqb_refl in H. cbn [andb] in H. apply negb_true_iff, H.
  apply in_seq. pose proof (nat_ascii_bounded c). lia.
Qed.

Lemma patterns_separated :
  Forall separated [re_mline; re_fid; re_cname; re_mslabel; re_label].
Proof.
  repeat apply Forall_cons_2; try apply Forall_nil_2; 
    cbv beta iota delta [separated re_mline re_fid re_cname re_mslabel re_label lit CR
                         Stdlib.Strings.String.list_ascii_of_string];
    repeat split; apply not_in_class; vm_compute; reflexivity.
Qed.

Lemma pattern_iff full re line caps :
  re ∈ [re_mline; re_fid; re_cname; re_mslabel; re_label] ->
  rx_exec full re line = Some caps <-> rx_match full re line caps.
Proof. intros Hre. apply rx_exec_iff. exact (proj1 (Forall_forall _ _) patterns_separated re Hre). Qed.

(** The number of groups of a pattern. *)
Fixpoint groups (items : list rx_item) : nat :=
  match items with
  | [] => 0
  | RLit _ :: items => groups items
  | RPlus _ :: items => S (groups items)
  end.

Lemma rx_match_groups full items s caps : rx_match full items s caps -> length caps = groups items.
Proof. induction 1; simpl; auto. Qed.

Lemma parse1_iff full re line a :
  re ∈ [re_mline; re_fid; re_cname; re_mslabel; re_label] ->
  parse1 full re line = Some a <-> rx_match full re line [a].
Proof.
  intros Hre. unfold parse1. rewrite <- pattern_iff by done.
  destruct (rx_exec full re line) as [[|b [|? ?]]|]; split; congruence.
Qed.

Lemma parse2_iff re line a b :
  re ∈ [re_mline; re_fid; re_cname; re_mslabel; re_label] ->
  parse2 re line = Some (a, b) <-> rx_match true re line [a; b].
Proof.
  intros Hre. unfold parse2. rewrite <- pattern_iff by done.
  destruct (rx_exec true re line) as [[|c [|d [|? ?]]]|]; split; congruence.
Qed.

Ltac in_patterns := repeat (first [apply list_elem_of_here | apply list_elem_of_further]).

(** *** The lines, written out *)

(** [p] is [text] up to the case of its letters. *)
Definition reads (p : str) (text : string) : Prop := tolower <$> p = tolower <$> lit text.
(** One or more decimal digits; one or more characters none of which is white space. *)
Definition all_digits (g : str) : Prop := g <> [] /\ forall c, c ∈ g -> c ∈ lit "0123456789".
Definition word (g : str) : Prop :=
  g <> [] /\ forall c, c ∈ g -> c ∉ [" "; "009"; "010"; "011"; "012"; "013"]%char.

Lemma isdigit_spec c : isdigit c = true <-> c ∈ lit "0123456789".
Proof.
  unfold lit. cbv [String.list_ascii_of_string]. rewrite !elem_of_cons, elem_of_nil.
  destruct c as [[] [] [] [] [] [] [] []]; vm_compute; split; intros H; try reflexivity; try discriminate H;
    first [by repeat (first [left; reflexivity | right]) | exfalso; repeat destruct H as [H|H]; (discriminate H || exact H)].
Qed.

Lemma isnotspace_spec c : isnotspace c = true <-> c ∉ [" "; "009"; "010"; "011"; "012"; "013"]%char.
Proof.
  rewrite !elem_of_cons, elem_of_nil.
  destruct c as [[] [] [] [] [] [] [] []]; vm_compute; split; intros H; try reflexivity; try discriminate H;
    first [exfalso; apply H; by repeat (first [left; reflexivity | right])
          | intros H'; repeat destruct H' as [H'|H']; (discriminate H' || exact H')].
Qed.

Lemma digits_class g : g <> [] /\ Forall (fun c => isdigit c = true) g <-> all_digits g.
Proof. unfold all_digits. rewrite Forall_forall. by setoid_rewrite isdigit_spec. Qed.
Lemma word_class g : g <> [] /\ Forall (fun c => isnotspace c = true) g <-> word g.
Proof. unfold word. rewrite Forall_forall. by setoid_rewrite isnotspace_spec. Qed.

(** A character without case is read as itself. *)
Lemma reads_exactly (x : ascii) p :
  forallb (fun n => let c := ascii_of_nat n in implb (Ascii.eqb (tolower c) (tolower x)) (Ascii.eqb c x)) (seq 0 256) = true ->
  tolower <$> p = tolower <$> [x] <-> p = [x].
Proof.
  intros H. split; [|by intros ->]. destruct p as [|c [|? ?]]; try discriminate. intros [= Hc]. f_equal.
  rewrite forallb_forall in H. specialize (H (nat_of_ascii c)). cbv beta zeta in H.
  rewrite ascii_nat_embedding, Hc, Ascii.eqb_refl in H. cbn [implb] in H. apply Ascii.eqb_eq, H.
  apply in_seq. pose proof (nat_ascii_bounded c). lia.
Qed.

(** What the items of a pattern stand for. *)
Lemma rx_lit_iff full text items s caps :
  rx_match full (RLit text :: items) s caps <->
  exists q rest, s = q ++ rest /\ tolower <$> q = tolower <$> text /\ rx_match full items rest caps.
Proof.
  split; [|intros (q & rest & -> & Hq & Hm); by constructor].
  inversion 1; subst. by do 2 eexists.
Qed.
Lemma rx_plus_iff full class items s caps :
  rx_match full (RPlus class :: items) s caps <->
  exists g rest caps', s = g ++ rest /\ caps = g :: caps' /\ (g <> [] /\ Forall (fun c => class c = true) g) /\
    rx_match full items rest caps'.
Proof.
  split; [|intros (g & rest & caps' & -> & -> & [Hg Hc] & Hm); by constructor].
  inversion 1; subst. by do 3 eexists.
Qed.
Lemma rx_end_iff full s caps : rx_match full [] s caps <-> caps = [] /\ (full = true -> s = []).
Proof. split; [by inversion 1 | intros [-> Hs]; by constructor]. Qed.

(** A line [a=ssrc:<digits><text><word>\r]. *)
Lemma attribute_line text line a b :
  rx_match true [RLit (lit "a=ssrc:"); RPlus isdigit; RLit (lit text); RPlus isnotspace; RLit CR] line [a; b] <->
  all_digits a /\ word b /\ exists p q, reads p "a=ssrc:" /\ reads q text /\ line = p ++ a ++ q ++ b ++ CR.
Proof.
  split.
  - intros (p & l1 & -> & Hp & (g & l2 & c1 & -> & [= <- <-] & Hg & (q & l3 & -> & Hq & (w & l4 & c2 & -> & [= <- <-] & Hw &
      (e & l5 & -> & He & [_ Hend]%rx_end_iff)%rx_lit_iff)%rx_plus_iff)%rx_lit_iff)%rx_plus_iff)%rx_lit_iff.
    rewrite (Hend eq_refl), app_nil_r. apply reads_exactly in He as ->; [|vm_compute; reflexivity].
    split; [by apply digits_class|]. split; [by apply word_class|]. by exists p, q.
  - intros (Ha%digits_class & Hb%word_class & p & q & Hp & Hq & ->).
    apply rx_lit_iff. do 2 eexists. split; [done|]. split; [exact Hp|].
    apply rx_plus_iff. do 3 eexists. split; [done|]. split; [done|]. split; [done|].
    apply rx_lit_iff. do 2 eexists. split; [done|]. split; [exact Hq|].
    apply rx_plus_iff. do 3 eexists. split; [done|]. split; [done|]. split; [done|].
    apply rx_lit_iff. exists CR, []. split; [by rewrite app_nil_r|]. split; [done|]. by apply rx_end_iff.
Qed.

(** C28: the lines the five parsers accept, and what they return.  [parseMline] accepts
    the lines that begin with [m=], a word and a blank; [parseFid] the lines
    [a=ssrc-group:FID <digits> <digits>\r]; the other three [a=ssrc:<digits> <name>:<word>\r],
    with the name [cname], [mslabel] or [label]; letters in either case.  They return the
    words and digits at those places, and a line can be read in one way only. *)
Theorem line_parsers_accept line a b :
  (parseMline line = Some a <->
     word a /\ exists m rest, reads m "m=" /\ line = m ++ a ++ lit " " ++ rest) /\
  (parseFid line = Some (a, b) <->
     all_digits a /\ all_digits b /\ exists p, reads p "a=ssrc-group:FID " /\ line = p ++ a ++ lit " " ++ b ++ ["013"%char]) /\
  (parseCname line = Some (a, b) <->
     all_digits a /\ word b /\ exists p q, reads p "a=ssrc:" /\ reads q " cname:" /\ line = p ++ a ++ q ++ b ++ ["013"%char]) /\
  (parseMslabel line = Some (a, b) <->
     all_digits a /\ word b /\ exists p q, reads p "a=ssrc:" /\ reads q " mslabel:" /\ line = p ++ a ++ q ++ b ++ ["013"%char]) /\
  (parseLabel line = Some (a, b) <->
     all_digits a /\ word b /\ exists p q, reads p "a=ssrc:" /\ reads q " label:" /\ line = p ++ a ++ q ++ b ++ ["013"%char]).
Proof.
  split; [|split; [|split; [|split]]].
  - etrans; [apply parse1_iff; in_patterns|]. split.
    + intros (m & l1 & -> & Hm & (g & l2 & c1 & -> & [= <- <-] & Hg & (e & l3 & -> & He & _)%rx_lit_iff)%rx_plus_iff)%rx_lit_iff.
      apply reads_exactly in He as ->; [|vm_compute; reflexivity]. split; [by apply word_class|]. by exists m, l3.
    + intros (Ha%word_class & m & rest & Hm & ->). apply rx_lit_iff. do 2 eexists. split; [done|]. split; [exact Hm|].
      apply rx_plus_iff. do 3 eexists. split; [done|]. split; [done|]. split; [done|].
      apply rx_lit_iff. do 2 eexists. split; [done|]. split; [done|]. by apply rx_end_iff.
  - etrans; [apply parse2_iff; in_patterns|]. split.
    + intros (p & l1 & -> & Hp & (g & l2 & c1 & -> & [= <- <-] & Hg & (q & l3 & -> & Hq & (w & l4 & c2 & -> & [= <- <-] & Hw &
        (e & l5 & -> & He & [_ Hend]%rx_end_iff)%rx_lit_iff)%rx_plus_iff)%rx_lit_iff)%rx_plus_iff)%rx_lit_iff.
      rewrite (Hend eq_refl), app_nil_r. apply reads_exactly in He as ->; [|vm_compute; reflexivity].
      apply reads_exactly in Hq as ->; [|vm_compute; reflexivity].
      split; [by apply digits_class|]. split; [by apply digits_class|]. by exists p.
    + intros (Ha%digits_class & Hb%digits_class & p & Hp & ->).
      apply rx_lit_iff. do 2 eexists. split; [done|]. split; [exact Hp|].
      apply rx_plus_iff. do 3 eexists. split; [done|]. split; [done|]. split; [done|].
      apply rx_lit_iff. do 2 eexists. split; [done|]. split; [done|].
      apply rx_plus_iff. do 3 eexists. split; [done|]. split; [done|]. split; [done|].
      apply rx_lit_iff. exists CR, []. split; [by rewrite app_nil_r|]. split; [done|]. by apply rx_end_iff.
  - etrans; [apply parse2_iff; in_patterns | apply attribute_line].
  - etrans; [apply parse2_iff; in_patterns | apply attribute_line].
  - etrans; [apply parse2_iff; in_patterns | apply attribute_line].
Qed.

(** ** What is written is read back *)

Definition is_digits (s : str) : Prop := s <> [] /\ Forall (fun c => isdigit c = true) s.
Definition is_token (s : str) : Prop := s <> [] /\ Forall (fun c => isnotspace c = true) s.

Lemma rx_match_attr prefix mid x y :
  is_digits x -> is_token y ->
  rx_match true [RLit prefix; RPlus isdigit; RLit mid; RPlus isnotspace; RLit CR]
    ((prefix ++ x) ++ mid ++ y ++ CR) [x; y].
Proof.
  intros [Hx Hdx] [Hy Hdy]. rewrite <- app_assoc. constructor; [done|]. constructor; [done..|].
  constructor; [done|]. constructor; [done..|]. rewrite <- (app_nil_r CR). constructor; [done|]. by constructor.
Qed.

Lemma list_ascii_app a b : lit (a +:+ b) = lit a ++ lit b.
Proof. induction a as [|c a IH]; [done|]. exact (f_equal (cons c) IH). Qed.

Lemma pretty_N_char_digit n : isdigit (pretty_N_char n) = true.
Proof.
  unfold pretty_N_char. destruct n as [|[[[|[]|]|[[]|[]|]|]|[[[]|[]|]|[[]|[]|]|]|]]; reflexivity.
Qed.

Lemma pretty_digits (n : N) : is_digits (lit (pretty n)).
Proof.
  assert (Hgo : forall n s, Forall (fun c => isdigit c = true) (lit s) ->
    Forall (fun c => isdigit c = true) (lit (pretty_N_go n s))).
  { clear. intros n. induction (N.lt_wf_0 n) as [n _ IH]. intros s Hs.
    destruct (decide (0 < n)%N) as [Hn|Hn].
    - rewrite pretty_N_go_step by done. apply IH; [by apply N.div_lt|].
      constructor; [apply pretty_N_char_digit | exact Hs].
    - replace n with 0%N by lia. rewrite pretty_N_go_0. exact Hs. }
  unfold pretty, pretty_N. destruct (decide (n = 0%N)) as [->|Hn].
  { split; [done|]. by repeat constructor. }
  split; [|by apply Hgo; constructor].
  assert (Hlen : forall n s, length (lit s) <= length (lit (pretty_N_go n s))).
  { clear. intros n. induction (N.lt_wf_0 n) as [n _ IH]. intros s.
    destruct (decide (0 < n)%N) as [Hn|Hn].
    - rewrite pretty_N_go_step by done. etrans; [|apply IH, N.div_lt; done]. simpl. lia.
    - replace n with 0%N by lia. by rewrite pretty_N_go_0. }
  rewrite pretty_N_go_step by lia. intros Hnil.
  pose proof (Hlen (n `div` 10)%N (String (pretty_N_char (n `mod` 10)) "")) as Hl.
  rewrite Hnil in Hl. simpl in Hl. lia.
Qed.

Lemma genSsrc_digits n : is_digits (genSsrc n) /\ 9 <= length (genSsrc n).
Proof.
  unfold genSsrc. destruct (pretty_digits n) as [Hne Hd]. split; [split|].
  - intros [_ H]%app_nil. done.
  - apply Forall_app. split; [|done]. by apply Forall_replicate.
  - rewrite length_app, length_replicate. lia.
Qed.

(** The lines written for a new source are read back: for a cname, mslabel and
    label without white space, the parsers recover the two drawn ssrcs and the three
    texts from the nine lines, the FID line first; every drawn ssrc is a number of
    nine digits or more. *)
Theorem injected_lines_read_back draw1 draw2 cname mslabel label :
  is_token cname -> is_token mslabel -> is_token label ->
  exists fid c1 m1 s1 l1 c2 m2 s2 l2,
    injectSsrcAndFid draw1 draw2 cname mslabel label true =
      ([fid; c1; m1; s1; l1; c2; m2; s2; l2], genSsrc draw1) /\
    parseFid fid = Some (genSsrc draw1, genSsrc draw2) /\
    Forall (fun p => parseCname (fst p) = Some (snd p, cname)) [(c1, genSsrc draw1); (c2, genSsrc draw2)] /\
    Forall (fun p => parseMslabel (fst p) = Some (snd p, mslabel)) [(s1, genSsrc draw1); (s2, genSsrc draw2)] /\
    Forall (fun p => parseLabel (fst p) = Some (snd p, label)) [(l1, genSsrc draw1); (l2, genSsrc draw2)] /\
    Forall (fun n => is_digits (genSsrc n) /\ 9 <= length (genSsrc n)) [draw1; draw2].
Proof.
  intros Hc Hm Hl. destruct (genSsrc_digits draw1) as [H1 L1], (genSsrc_digits draw2) as [H2 L2].
  do 9 eexists. split; [unfold injectSsrcAndFid, injectSsrc; cbn [app]; reflexivity|].
  split.
  { apply parse2_iff; [in_patterns|]. constructor; [done|]. destruct H1, H2. constructor; [done..|].
    constructor; [done|]. constructor; [done..|]. rewrite <- (app_nil_r CR). constructor; [done|]. by constructor. }
  split; [|split; [|split]]; repeat apply Forall_cons_2; try apply Forall_nil_2; cbn [fst snd];
    first [by split | apply parse2_iff; [in_patterns | by apply rx_match_attr]].
Qed.

Lemma injected_lines_read_back_witness :
  is_token (lit "x") /\ exists fid rest, injectSsrcAndFid 7 8 (lit "x") (lit "m") (lit "l") true = (fid :: rest, lit "000000007") /\
    parseFid fid = Some (lit "000000007", lit "000000008").
Proof.
  assert (Ht : forall c, isnotspace c = true -> is_token [c]) by (split; [done | by repeat constructor]).
  split; [by apply (Ht "x"%char)|].
  destruct (injected_lines_read_back 7 8 (lit "x") (lit "m") (lit "l")
    (Ht "x"%char eq_refl) (Ht "m"%char eq_refl) (Ht "l"%char eq_refl)) as (fid & c1 & m1 & s1 & l1 & c2 & m2 & s2 & l2 & He & Hf & _).
  exists fid, [c1; m1; s1; l1; c2; m2; s2; l2]. by split.
Defined.

(** ** Splitting and joining *)

Lemma read_until_spec d s item rest :
  read_until d s = (item, rest) -> (d ∉ item) /\ ((s = item ++ (d :: rest)) \/ (s = item /\ rest = [])).
Proof.
  revert item rest. induction s as [|c s IH]; intros item rest; simpl.
  - intros [= <- <-]. split; [apply not_elem_of_nil | by right].
  - destruct (Ascii.eqb c d) eqn:Hc.
    + intros [= <- <-]. apply Ascii.eqb_eq in Hc as ->. split; [apply not_elem_of_nil | by left].
    + apply Ascii.eqb_neq in Hc. destruct (read_until d s) as [item' rest']. intros [= <- <-].
      destruct (IH _ _ eq_refl) as [Hn Hs]. split; [by rewrite not_elem_of_cons|].
      destruct Hs as [->|[-> ->]]; [by left | by right].
Qed.

Lemma read_until_app d item rest : d ∉ item -> read_until d (item ++ d :: rest) = (item, rest).
Proof.
  induction item as [|c item IH]; simpl; [by rewrite Ascii.eqb_refl|].
  rewrite not_elem_of_cons. intros [Hc Hn]. rewrite (proj2 (Ascii.eqb_neq c d)) by done. by rewrite IH.
Qed.

Lemma read_until_all d item : d ∉ item -> read_until d item = (item, []).
Proof.
  induction item as [|c item IH]; simpl; [done|].
  rewrite not_elem_of_cons. intros [Hc Hn]. rewrite (proj2 (Ascii.eqb_neq c d)) by done. by rewrite IH.
Qed.

Lemma join_cons l lines d : lines <> [] -> join (l :: lines) [d] = l ++ d :: join lines [d].
Proof. by destruct lines. Qed.

Lemma getline_Some d s : s <> [] -> getline d s = Some (read_until d s).
Proof. by destruct s. Qed.

Lemma split_loop_join d l lines fuel elems :
  Forall (fun l => d ∉ l) (l :: lines) -> last (l :: lines) <> Some [] ->
  length (join (l :: lines) [d]) < fuel ->
  split_loop fuel d (join (l :: lines) [d]) elems = Some (elems ++ l :: lines).
Proof.
  revert l fuel elems. induction lines as [|l' lines IH]; intros l [|fuel] elems [Hl Hls]%Forall_cons Hlast Hf;
    try lia; cbn [split_loop].
  - simpl in Hlast |- *. rewrite getline_Some, read_until_all by (done || congruence). destruct fuel; [|done].
    destruct l; [done | simpl in Hf; lia].
  - rewrite join_cons in * by done. rewrite getline_Some by (by destruct l). rewrite read_until_app by done.
    rewrite IH; [by rewrite <- app_assoc | done | done|]. rewrite length_app in Hf. simpl in Hf |- *. lia.
Qed.

Lemma split_loop_total d fuel s elems :
  length s < fuel ->
  exists lines, split_loop fuel d s elems = Some (elems ++ lines) /\ Forall (fun l => d ∉ l) lines /\
    (s = [] <-> lines = []) /\ (join lines [d] = s \/ join lines [d] ++ [d] = s).
Proof.
  revert s elems. induction fuel as [|fuel IH]; intros s elems Hf; [lia|]. cbn [split_loop].
  destruct (decide (s = [])) as [->|Hs].
  { exists []. simpl. rewrite app_nil_r. split; [done|]. split; [by apply Forall_nil|].
    split; [done | by left]. }
  rewrite getline_Some by done. destruct (read_until d s) as [item rest] eqn:Hr.
  apply read_until_spec in Hr as [Hi Hsplit].
  assert (Hlt : length rest < fuel).
  { destruct Hsplit as [->|[-> ->]]; [rewrite length_app in Hf; simpl in Hf; lia|].
    destruct item; [done | simpl in *; lia]. }
  destruct (IH rest (elems ++ [item]) Hlt) as (lines & He & Hall & Hne & Hj).
  exists (item :: lines). rewrite He, <- app_assoc. split; [done|]. split; [by constructor|]. split; [done|].
  destruct (decide (lines = [])) as [->|Hl].
  - assert (rest = []) as -> by (by apply Hne).
    destruct Hsplit as [->|[-> _]]; [by right | by left].
  - rewrite join_cons by done. destruct Hsplit as [->|[_ Hnil]]; [|by apply Hne in Hnil].
    destruct Hj as [->| <-]; [by left | right]. by rewrite <- app_assoc.
Qed.

(** Splitting and joining: [split] ends on every text, and joining the pieces,
    none of which has a delimiter, gives the text back up to one delimiter at its
    end; lines without delimiters, the last one not empty, come back from their
    join. *)
Theorem split_join d :
  (forall s, exists lines, split s d = Some lines /\ Forall (fun l => d ∉ l) lines /\
     (join lines [d] = s \/ join lines [d] ++ [d] = s)) /\
  (forall lines, Forall (fun l => d ∉ l) lines -> last lines <> Some [] ->
     split (join lines [d]) d = Some lines).
Proof.
  split.
  - intros s. destruct (split_loop_total d (S (length s)) s [] ltac:(lia)) as (lines & He & Hall & _ & Hj).
    by exists lines.
  - intros [|l lines] Hall Hlast; [done|]. unfold split. rewrite split_loop_join; [done | done | done | lia].
Qed.

(** ** Injecting simulcast *)

Abbreviation flag lines := (sc_video (scan_lines 0 lines scan0)).

Lemma scan_lines_app i l1 l2 s :
  scan_lines i (l1 ++ l2) s = scan_lines (i + length l1) l2 (scan_lines i l1 s).
Proof.
  revert i s. induction l1 as [|x l1 IH]; intros i s; simpl; [by rewrite Nat.add_0_r|].
  rewrite IH. f_equal. lia.
Qed.

Lemma scan_lines_snoc pre line :
  scan_lines 0 (pre ++ [line]) scan0 = scan_line (length pre) line (scan_lines 0 pre scan0).
Proof. by rewrite scan_lines_app. Qed.

(** The attributes of a line leave the section's data alone. *)
Lemma scan_values_section line s :
  sc_video (scan_values line s) = sc_video s /\ sc_index2inject (scan_values line s) = sc_index2inject s /\
  (sc_hasSimulcast s = true -> sc_hasSimulcast (scan_values line s) = true) /\
  sc_ssrc (scan_values line s) = sc_ssrc s.
Proof.
  assert (Hg : forall s, sc_video (scan_group line s) = sc_video s /\
    sc_index2inject (scan_group line s) = sc_index2inject s /\
    (sc_hasSimulcast s = true -> sc_hasSimulcast (scan_group line s) = true) /\
    sc_ssrc (scan_group line s) = sc_ssrc s).
  { intros t. unfold scan_group. by destruct (matches_at _ _ _). }
  unfold scan_values. destruct (decide _); [apply Hg|].
  destruct (wanted (sc_cname s) _ _); [done|]. destruct (wanted (sc_mslabel s) _ _); [done|].
  destruct (wanted (sc_label s) _ _); [done|]. apply Hg.
Qed.

Lemma scan_attribute_section line s :
  sc_video (scan_attribute line s) = sc_video s /\ sc_index2inject (scan_attribute line s) = sc_index2inject s /\
  (sc_hasSimulcast s = true -> sc_hasSimulcast (scan_attribute line s) = true).
Proof.
  unfold scan_attribute. destruct (sc_video s) eqn:Hv; cbn [negb]; [|done].
  assert (Hs : forall t, sc_video t = true -> sc_index2inject t = sc_index2inject s ->
    sc_hasSimulcast t = sc_hasSimulcast s ->
    sc_video (scan_values line t) = true /\ sc_index2inject (scan_values line t) = sc_index2inject s /\
    (sc_hasSimulcast s = true -> sc_hasSimulcast (scan_values line t) = true)).
  { intros t H1 H2 H3. destruct (scan_values_section line t) as (-> & -> & H & _). rewrite H3 in H. done. }
  destruct (decide _); [|by apply Hs].
  destruct (parseFid line) as [[??]|]; [done|]. destruct (parseCname line) as [[??]|]; by apply Hs.
Qed.

Lemma scan_attribute_off line s : sc_video s = false -> scan_attribute line s = s.
Proof. unfold scan_attribute. by intros ->. Qed.

Lemma scan_line_attribute i line s : parseMline line = None -> scan_line i line s = scan_attribute line s.
Proof. unfold scan_line. by intros ->. Qed.

Lemma scan_line_sim i line s : sc_hasSimulcast s = true -> sc_hasSimulcast (scan_line i line s) = true.
Proof.
  intros Hs. pose proof (proj2 (proj2 (scan_attribute_section line s)) Hs) as Ha. unfold scan_line.
  destruct (parseMline line); [|done]. destruct (_ && _); [done|]. by destruct (sc_video s).
Qed.

Lemma scan_lines_sim i lines s : sc_hasSimulcast s = true -> sc_hasSimulcast (scan_lines i lines s) = true.
Proof. revert i s. induction lines; intros i s Hs; simpl; [done|]. by apply IHlines, scan_line_sim. Qed.

(** No video section is empty. *)
Definition no_empty_video (lines : list str) : Prop :=
  forall pre a b post, lines = pre ++ a :: b :: post -> parseMline a = Some (lit "video") -> parseMline b = None.

(** The prefix ends inside a video section. *)
Definition in_video_section (pre : list str) : Prop :=
  exists p v q, pre = p ++ v :: q /\ parseMline v = Some (lit "video") /\ Forall (fun l => parseMline l = None) q.

Record scanned (pre : list str) (s : scan) : Prop := mkScanned {
  scanned_video : sc_video s = true -> in_video_section pre;
  scanned_index : sc_index2inject s <> 0 ->
    sc_index2inject s <= length pre /\ flag (take (sc_index2inject s) pre) = true;
  scanned_ssrc : sc_ssrc s <> [] -> sc_video s = true \/ sc_index2inject s <> 0
}.

Lemma scanned_same_section pre line s s' :
  scanned pre s -> sc_video s' = sc_video s -> sc_index2inject s' = sc_index2inject s ->
  (sc_ssrc s' <> [] -> sc_video s = true \/ sc_index2inject s <> 0) ->
  (sc_video s = true -> parseMline line = None) ->
  scanned (pre ++ [line]) s'.
Proof.
  intros [Hv Hi Hs] Ev Ei Es Hm. constructor.
  - rewrite Ev. intros Ht. destruct (Hv Ht) as (p & v & q & -> & Hpv & Hq). exists p, v, (q ++ [line]).
    split; [by rewrite <- app_assoc|]. split; [done|]. apply Forall_app. auto.
  - rewrite Ei. intros Hne. destruct (Hi Hne) as [Hle Hf]. rewrite length_app, take_app_le by done.
    split; [lia | done].
  - by rewrite Ev, Ei.
Qed.

Lemma scanned_prefix pre : no_empty_video pre -> scanned pre (scan_lines 0 pre scan0).
Proof.
  induction pre as [|line pre IH] using rev_ind; intros Hno; [by constructor|].
  assert (Hpre : scanned pre (scan_lines 0 pre scan0)).
  { apply IH. intros p a b q ->. apply (Hno p a b (q ++ [line])). by rewrite <- app_assoc. }
  clear IH. rewrite scan_lines_snoc. set (s := scan_lines 0 pre scan0) in *.
  destruct (scan_attribute_section line s) as (Hav & Hai & _).
  destruct (parseMline line) as [mtype|] eqn:Hm.
  - unfold scan_line. rewrite Hm. destruct (sc_video s) eqn:Hv; cbn [negb andb].
    + destruct (scanned_video _ _ Hpre Hv) as (p & v & q & Hp & Hpv & Hq).
      destruct q as [|x q' _] using rev_ind.
      { rewrite (Hno p v line []) in Hm; [done | by rewrite Hp, <- app_assoc | done]. }
      apply Forall_app in Hq as [_ [Hx _]%Forall_cons].
      assert (Hl : length pre - 1 = length (p ++ v :: q')).
      { rewrite Hp, !length_app, length_cons, length_app. simpl. lia. }
      assert (Hpre' : pre = (p ++ v :: q') ++ [x]) by (by rewrite Hp, <- app_assoc).
      constructor; cbn [scan_section sc_video sc_index2inject]; [done| |].
      * intros _. rewrite Hl, Hpre'. split; [rewrite (length_app _ [line]), (length_app _ [x]); lia|].
        rewrite <- (app_assoc _ [x]), take_app_length.
        subst s. rewrite Hpre', scan_lines_snoc, scan_line_attribute in Hv by done.
        destruct (scan_attribute_section x (scan_lines 0 (p ++ v :: q') scan0)) as (H & _ & _). congruence.
      * intros _. right. rewrite Hl, length_app. simpl. lia.
    + destruct (bool_decide (mtype = lit "video")) eqn:Hb.
      * apply bool_decide_eq_true in Hb as ->. destruct Hpre as [_ Hi _]. constructor;
          cbn [scan_section sc_video sc_index2inject].
        -- intros _. exists pre, line, []. by split.
        -- intros Hne. destruct (Hi Hne) as [Hle Hf]. rewrite length_app, take_app_le by done. split; [lia | done].
        -- by left.
      * rewrite scan_attribute_off by done. apply (scanned_same_section _ _ s); try done.
        -- apply Hpre.
        -- congruence.
  - rewrite scan_line_attribute by done. apply (scanned_same_section _ _ s); try done.
    destruct (sc_video s) eqn:Hv; [by left|]. rewrite scan_attribute_off by done.
    intros H. destruct (scanned_ssrc _ _ Hpre H) as [?|?]; [congruence | by right].
Qed.

(** The lines written are attributes. *)
Definition is_attribute (line : str) : Prop := exists t, line = lit "a=" ++ t.

Lemma attribute_no_mline line : is_attribute line -> parseMline line = None.
Proof. by intros (t & ->). Qed.

Lemma injectSsrc_lines ssrc cname mslabel label :
  length (injectSsrc ssrc cname mslabel label) = 4 /\ Forall is_attribute (injectSsrc ssrc cname mslabel label).
Proof. split; [done|]. unfold injectSsrc. repeat apply Forall_cons_2; try apply Forall_nil_2; by eexists. Qed.

Lemma injectSsrcAndFid_lines draw1 draw2 cname mslabel label (fid : bool) lines ssrc :
  injectSsrcAndFid draw1 draw2 cname mslabel label fid = (lines, ssrc) ->
  length lines = (if fid then 9 else 4) /\ Forall is_attribute lines.
Proof.
  unfold injectSsrcAndFid. intros [= <- _]. destruct fid; (split; [done|]);
    repeat apply Forall_cons_2; try apply Forall_nil_2; by eexists.
Qed.

Lemma simulcast_layers_lines draw n i s lines group :
  simulcast_layers draw n i s = (lines, group) ->
  length lines = n * (if decide (sc_ssrcFid s = []) then 4 else 9) /\ Forall is_attribute lines.
Proof.
  revert i lines group. induction n as [|n IH]; intros i lines group; cbn [simulcast_layers].
  { intros [= <- <-]. split; [done | apply Forall_nil_2]. }
  destruct (injectSsrcAndFid _ _ _ _ _ _) as [new ssrc] eqn:Hnew. apply injectSsrcAndFid_lines in Hnew as [Hn Hf].
  destruct (simulcast_layers draw n (S i) s) as [lines' group'] eqn:Hrest. apply IH in Hrest as [Hl Ha].
  intros [= <- <-]. rewrite length_app, Hn, Hl. split; [|by apply Forall_app_2].
  destruct (decide (sc_ssrcFid s = [])) as [He|He];
    [rewrite bool_decide_eq_true_2 by done | rewrite bool_decide_eq_false_2 by done]; simpl; lia.
Qed.

Lemma simulcast_lines_spec draw n s :
  exists lines g, simulcast_lines draw n s = lines ++ [SIM ++ g] /\ Forall is_attribute lines /\
    length lines = Z.to_nat n * (if decide (sc_ssrcFid s = []) then 4 else 9).
Proof.
  unfold simulcast_lines. destruct (simulcast_layers draw (Z.to_nat n) 0 s) as [lines group] eqn:Hl.
  apply simulcast_layers_lines in Hl as [Hn Ha]. by exists lines, (sc_ssrc s ++ group ++ CR).
Qed.

Lemma scan_attributes_video i lines s :
  Forall is_attribute lines -> sc_video (scan_lines i lines s) = sc_video s.
Proof.
  intros Ha. revert i s. induction Ha as [|l lines Hl _ IH]; intros i s; simpl; [done|].
  rewrite IH, scan_line_attribute by (by apply attribute_no_mline). apply scan_attribute_section.
Qed.

(** The group line is noticed in a video section, whatever was read before it. *)
Lemma scan_group_line i g s :
  sc_video s = true -> sc_hasSimulcast (scan_line i (SIM ++ g) s) = true.
Proof.
  intros Hv. rewrite scan_line_attribute by done. unfold scan_attribute. rewrite Hv. cbn [negb].
  assert (Hg : forall t, sc_hasSimulcast (scan_group (SIM ++ g) t) = true) by done.
  assert (Hw : forall c, wanted c None (sc_ssrc s) = None) by (by intros []).
  change (parseFid (SIM ++ g)) with (@None (str * str)). change (parseCname (SIM ++ g)) with (@None (str * str)).
  unfold scan_values. change (parseCname (SIM ++ g)) with (@None (str * str)).
  change (parseMslabel (SIM ++ g)) with (@None (str * str)). change (parseLabel (SIM ++ g)) with (@None (str * str)).
  rewrite !Hw. destruct (decide (sc_ssrc s = [])); apply Hg.
Qed.

(** Where the loop decides to insert, when it does. *)
Lemma injectSimulcast_cases draw n lines :
  no_empty_video lines ->
  injectSimulcast draw n lines = lines /\ (forall draw', injectSimulcast draw' n lines = lines) \/
  exists k, injectSimulcast draw n lines =
      take k lines ++ simulcast_lines draw n (scan_lines 0 lines scan0) ++ drop k lines /\
    (1 <= n <= 2)%Z /\ flag (take k lines) = true.
Proof.
  intros Hno. unfold injectSimulcast. destruct (_ || _) eqn:Hr; [by left|].
  apply orb_false_iff in Hr as [H1%Z.ltb_ge H2]. rewrite Z.gtb_ltb in H2. apply Z.ltb_ge in H2.
  destruct (scanned_prefix lines Hno) as [_ Hi Hs]. cbv zeta. destruct (_ && nonempty _) eqn:Hc; [|by left].
  right. rewrite !andb_true_iff in Hc. destruct Hc as ((((_ & Hss) & _) & _) & _).
  unfold nonempty in Hss. apply negb_true_iff, bool_decide_eq_false in Hss.
  eexists. split; [reflexivity|]. split; [lia|]. destruct (decide _) as [Hz|Hz].
  - rewrite take_ge by done. destruct (Hs Hss) as [?|?]; done.
  - by apply Hi.
Qed.

(** [injectSimulcast] inserts one block inside a video section and leaves every
    other line as it is: for a description without an empty video section, it
    either changes nothing, or adds, for one or two layers, nine lines a layer (four
    without a retransmission source) and a SIM line, after an [m=video] line and
    before the next section. *)
Theorem injectSimulcast_position draw n lines :
  no_empty_video lines ->
  injectSimulcast draw n lines = lines \/
  exists before block g after, lines = before ++ after /\
    injectSimulcast draw n lines = before ++ (block ++ [SIM ++ g]) ++ after /\
    in_video_section before /\ (1 <= n <= 2)%Z /\ Forall (fun l => parseMline l = None) block /\
    (length block = Z.to_nat n * 9 \/ length block = Z.to_nat n * 4).
Proof.
  intros Hno. destruct (injectSimulcast_cases draw n lines Hno) as [[? _]|(k & -> & Hn & Hf)]; [by left | right].
  destruct (simulcast_lines_spec draw n (scan_lines 0 lines scan0)) as (block & g & -> & Ha & Hl).
  exists (take k lines), block, g, (drop k lines). split; [by rewrite take_drop|]. split; [done|].
  split; [|split; [done|split]].
  - refine (scanned_video _ _ (scanned_prefix (take k lines) _) Hf).
    intros p a b q Hp. apply (Hno p a b (q ++ drop k lines)).
    rewrite <- (take_drop k lines) at 1. rewrite Hp. by rewrite <- !app_assoc.
  - eapply Forall_impl; [exact Ha | apply attribute_no_mline].
  - rewrite Hl. destruct (decide _); auto.
Qed.

(** C19: [injectSimulcast] is idempotent on descriptions without an empty video
    section: whatever numbers are drawn the second time, what it inserted is found
    again, and nothing is inserted twice. *)
Theorem injectSimulcast_idempotent draw draw' n lines :
  no_empty_video lines ->
  injectSimulcast draw' n (injectSimulcast draw n lines) = injectSimulcast draw n lines.
Proof.
  intros Hno. destruct (injectSimulcast_cases draw n lines Hno) as [[-> H]|(k & -> & Hn & Hf)]; [apply H|].
  destruct (simulcast_lines_spec draw n (scan_lines 0 lines scan0)) as (block & g & -> & Ha & Hl).
  assert (Hsim : sc_hasSimulcast (scan_lines 0 (take k lines ++ (block ++ [SIM ++ g]) ++ drop k lines) scan0) = true).
  { rewrite scan_lines_app, scan_lines_app. apply scan_lines_sim. rewrite scan_lines_app. cbn [scan_lines].
    apply scan_group_line. by rewrite scan_attributes_video. }
  unfold injectSimulcast at 1. destruct (_ || _); [done|]. cbv zeta. by rewrite Hsim.
Qed.

(** A description with one video source, as libwebrtc writes it. *)
Definition sample_sdp : list str :=
  (fun l => lit l ++ CR) <$>
    ["v=0"; "m=audio 9 RTP"; "a=ssrc:5 cname:c"; "m=video 9 RTP"; "a=ssrc-group:FID 1 2"; "a=ssrc:1 cname:c";
     "a=ssrc:1 mslabel:m"; "a=ssrc:1 label:l"; "m=application 9 DTLS"]%string.

Lemma sample_no_empty_video : no_empty_video sample_sdp.
Proof.
  intros pre a b post H Ha.
  assert (Hi : exists i, sample_sdp !! i = Some a /\ sample_sdp !! S i = Some b).
  { exists (length pre). rewrite H. split; [by rewrite list_lookup_middle|].
    rewrite lookup_app_r by lia. by replace (S (length pre) - length pre) with 1 by lia. }
  clear H. destruct Hi as (i & H1 & H2).
  do 8 (destruct i as [|i]; [apply Some_inj in H1, H2; subst; revert Ha; vm_compute; congruence|]).
  destruct i; discriminate H2.
Qed.

Lemma injectSimulcast_position_witness :
  no_empty_video sample_sdp /\ injectSimulcast (fun i => N.of_nat i) 2 sample_sdp <> sample_sdp /\
  exists before block g after, sample_sdp = before ++ after /\
    injectSimulcast (fun i => N.of_nat i) 2 sample_sdp = before ++ (block ++ [SIM ++ g]) ++ after.
Proof.
  split; [exact sample_no_empty_video|].
  assert (Hne : injectSimulcast (fun i => N.of_nat i) 2 sample_sdp <> sample_sdp).
  { intros H. apply (f_equal length) in H. vm_compute in H. discriminate H. }
  split; [exact Hne|].
  destruct (injectSimulcast_position (fun i => N.of_nat i) 2 sample_sdp sample_no_empty_video)
    as [H|(b & bl & g & a & H1 & H2 & _)].
  - destruct (Hne H).
  - exists b, bl, g, a. exact (conj H1 H2).
Defined.

Lemma injectSimulcast_idempotent_witness :
  no_empty_video sample_sdp /\
  injectSimulcast (fun i => 9%N) 2 (injectSimulcast (fun i => N.of_nat i) 2 sample_sdp) =
    injectSimulcast (fun i => N.of_nat i) 2 sample_sdp.
Proof.
  split; [exact sample_no_empty_video|].
  exact (injectSimulcast_idempotent (fun i => N.of_nat i) (fun i => 9%N) 2 sample_sdp sample_no_empty_video).
Defined.

(** Where the video section is empty the block lands outside it, and a second call
    inserts another one. *)
Example injectSimulcast_twice :
  let sdp := (fun l => lit l ++ CR) <$>
    ["v=0"; "m=video 9 RTP"; "a=ssrc-group:FID 1 2"; "a=ssrc:1 cname:c"; "a=ssrc:1 mslabel:m"; "a=ssrc:1 label:l";
     "m=audio 9 RTP"; "m=video 9 RTP"; "m=audio 9 RTP"]%string in
  let once := injectSimulcast (fun i => N.of_nat i) 1 sdp in
  length once = length sdp + 10 /\
  length (injectSimulcast (fun i => N.of_nat i) 1 once) = length sdp + 20.
Proof. by vm_compute. Qed.
