(* ===== verification/Proxy.v ===== *)
(** * Calls across threads

    Models [core/utils/interface_proxy.hpp]: a proxy forwards every method of an
    interface to an object that lives on another thread, and blocks the caller until
    the method has returned there.

    A program of a thread is a tree ([prog]): a step on the data of the thread it
    runs on, a call through a proxy, or the end with a result.  A method's code is
    the parameter [body].  A thread is what [rtc::Thread] documents: a queue of
    tasks, run one after another in the order they were posted; a thread that was
    stopped drops what is posted to it.  Each scheduling decision lets one thread
    make one step ([step]), so that a schedule, a list of threads, gives every
    interleaving. *)

From stdpp Require Import base list functions.
From Stdlib Require Import Lia.
From S2P Require Import Prelude.

#[local] Open Scope list_scope.
#[local] Open Scope nat_scope.

Abbreviation thread := nat.

Section proxy.
Context {Val St Meth : Type}.

(** [Call h m k]: [proxy->m()] where the proxy's [_thread] is [h], null if [None]. *)
Inductive prog : Type :=
| Ret (r : Val)
| Act (f : St -> Val * St) (k : Val -> prog)
| Call (h : option thread) (m : Meth) (k : Val -> prog).

(** A call that runs in place: the method, then the rest with its result. *)
Fixpoint and_then (p : prog) (k : Val -> prog) : prog :=
  match p with
  | Ret r => k r
  | Act f k' => Act f (fun v => and_then (k' v) k)
  | Call h m k' => Call h m (fun v => and_then (k' v) k)
  end.

Variable body : Meth -> prog.

(** [task] of [marshal]: invoke the method, store [_result], set the promise. *)
Record task : Type := mkTask { task_promise : nat; task_method : Meth }.

(** What a thread is doing.  [done]: the promise to set at the end of the task that
    runs, [None] in the thread's own program. *)
Inductive cursor : Type :=
| Idle
| Running (done : option nat) (p : prog)
| Blocked (done : option nat) (promise : nat) (k : Val -> prog)
| Finished (r : Val)
| Crashed.

Record tstate : Type := mkThread {
  ts_cursor : cursor;
  ts_queue : list task;
  ts_data : St;
  ts_accepts : bool
}.

(** [promises]: the promise of the [n]-th posted call, with [_result] once set. *)
Record config : Type := mkConfig { threads : thread -> tstate; promises : list (option Val) }.

Definition with_cursor (cur : cursor) (s : tstate) : tstate :=
  mkThread cur (ts_queue s) (ts_data s) (ts_accepts s).
Definition with_thread (t : thread) (f : tstate -> tstate) (c : config) : config :=
  mkConfig (<[t := f (threads c t)]> (threads c)) (promises c).

(** [PostTask]. *)
Definition post (tk : task) (s : tstate) : tstate :=
  if ts_accepts s then mkThread (ts_cursor s) (ts_queue s ++ [tk]) (ts_data s) true else s.

(** [marshal] on thread [t]: in place on the object's own thread; otherwise the task
    is posted there and [t] waits for the promise. *)
Definition marshal (t : thread) (done : option nat) (h : option thread) (m : Meth) (k : Val -> prog)
    (c : config) : config :=
  match h with
  | None => with_thread t (with_cursor Crashed) c
  | Some h =>
      if decide (h = t) then with_thread t (with_cursor (Running done (and_then (body m) k))) c
      else
        let promise := length (promises c) in
        with_thread t (with_cursor (Blocked done promise k))
          (with_thread h (post (mkTask promise m)) (mkConfig (threads c) (promises c ++ [None])))
  end.

(** One step of thread [t]; [None] when it cannot make one. *)
Definition step (t : thread) (c : config) : option config :=
  let s := threads c t in
  match ts_cursor s with
  | Running done (Act f k) =>
      let (v, d) := f (ts_data s) in
      Some (with_thread t (fun s => mkThread (Running done (k v)) (ts_queue s) d (ts_accepts s)) c)
  | Running done (Call h m k) => Some (marshal t done h m k c)
  | Running (Some promise) (Ret r) =>
      Some (with_thread t (with_cursor Idle) (mkConfig (threads c) (<[promise := Some r]> (promises c))))
  | Running None (Ret r) => Some (with_thread t (with_cursor (Finished r)) c)
  | Blocked done promise k =>
      match promises c !! promise with
      | Some (Some r) => Some (with_thread t (with_cursor (Running done (k r))) c)
      | _ => None
      end
  | Idle =>
      match ts_queue s with
      | tk :: queue =>
          if ts_accepts s then
            Some (with_thread t (fun s =>
              mkThread (Running (Some (task_promise tk)) (body (task_method tk))) queue (ts_data s) (ts_accepts s)) c)
          else None
      | [] => None
      end
  | Finished _ | Crashed => None
  end.

(** A schedule; a thread that cannot make its step lets its turn pass. *)
Definition run (sched : list thread) (c : config) : config :=
  foldl (fun c t => default c (step t c)) c sched.

(** ** The specification: an object whose methods happen at once *)

(** Code that calls no proxy. *)
Fixpoint leaf (p : prog) : Prop :=
  match p with
  | Ret _ => True
  | Act _ k => forall v, leaf (k v)
  | Call _ _ _ => False
  end.

(** Code whose calls all go to the thread [w]. *)
Fixpoint calls_only (w : thread) (p : prog) : Prop :=
  match p with
  | Ret _ => True
  | Act _ k => forall v, calls_only w (k v)
  | Call h _ k => h = Some w /\ forall v, calls_only w (k v)
  end.

(** Code without calls run to its end: the steps it takes, its result, the data. *)
Inductive executes : prog -> St -> nat -> Val -> St -> Prop :=
| executes_ret r d : executes (Ret r) d 0 r d
| executes_act f k d n r d' :
    executes (k (fst (f d))) (snd (f d)) n r d' -> executes (Act f k) d (S n) r d'.

Inductive acursor : Type :=
| ARunning (p : prog)
| APending (m : Meth) (k : Val -> prog)
| AReturned (r : Val) (k : Val -> prog)
| AFinished (r : Val).

(** One object and its clients; [a_local]: the clients' own data; [a_log]: the calls
    that happened, with their results. *)
Record aconfig : Type := mkAConfig {
  a_object : St;
  a_local : thread -> St;
  a_client : thread -> acursor;
  a_log : list (Meth * Val)
}.

Definition with_client (t : thread) (x : acursor) (a : aconfig) : aconfig :=
  mkAConfig (a_object a) (a_local a) (<[t := x]> (a_client a)) (a_log a).

Inductive astep : aconfig -> aconfig -> Prop :=
| astep_act a t f k : a_client a t = ARunning (Act f k) ->
    astep a (mkAConfig (a_object a) (<[t := snd (f (a_local a t))]> (a_local a))
               (<[t := ARunning (k (fst (f (a_local a t))))]> (a_client a)) (a_log a))
| astep_call a t h m k : a_client a t = ARunning (Call h m k) -> astep a (with_client t (APending m k) a)
| astep_commit a t m k n r d :
    a_client a t = APending m k -> executes (body m) (a_object a) n r d ->
    astep a (with_client t (AReturned r k) (mkAConfig d (a_local a) (a_client a) (a_log a ++ [(m, r)])))
| astep_return a t r k : a_client a t = AReturned r k -> astep a (with_client t (ARunning (k r)) a)
| astep_finish a t r : a_client a t = ARunning (Ret r) -> astep a (with_client t (AFinished r) a).

Inductive asteps : aconfig -> aconfig -> Prop :=
| asteps_refl a : asteps a a
| asteps_step a b c : asteps a b -> astep b c -> asteps a c.

(** The object on thread [w], every other thread running its program. *)
Definition start (w : thread) (progs : thread -> prog) (local : thread -> St) (d : St) : config :=
  mkConfig (fun t => if decide (t = w) then mkThread Idle [] d true
                     else mkThread (Running None (progs t)) [] (local t) true) [].
Definition astart (progs : thread -> prog) (local : thread -> St) (d : St) : aconfig :=
  mkAConfig d local (fun t => ARunning (progs t)) [].

Lemma leaf_executes p d : leaf p -> exists n r d', executes p d n r d'.
Proof.
  revert d. induction p as [r|f k IH|h m k IH]; intros d; simpl.
  - intros _. exists 0, r, d. constructor.
  - intros Hl. destruct (IH (fst (f d)) (snd (f d)) (Hl _)) as (n & r & d' & He).
    exists (S n), r, d'. by constructor.
  - done.
Qed.

Lemma run_app s1 s2 c : run (s1 ++ s2) c = run s2 (run s1 c).
Proof. unfold run. by rewrite foldl_app. Qed.

(** ** Refinement *)

(** Setting a promise adds its result. *)
Lemma omap_set (l : list (option Val)) q r :
  l !! q = Some None -> omap id (<[q := Some r]> l) ≡ₚ r :: omap id l.
Proof.
  intros Hq. rewrite <- (take_drop_middle l q None Hq) at 2.
  rewrite (insert_take_drop l q (Some r)) by (by eapply lookup_lt_Some). rewrite !omap_app. simpl.
  by rewrite Permutation_middle.
Qed.

Section server.
Context (w : thread) (Hleaf : forall m, leaf (body m)).

Definition current_of (current : option task) (s : tstate) (obj : St) : Prop :=
  match current, ts_cursor s with
  | None, Idle => ts_data s = obj
  | Some tk, Running (Some q) p =>
      q = task_promise tk /\ leaf p /\
      forall n r d, executes p (ts_data s) n r d -> exists n', executes (body (task_method tk)) obj n' r d
  | _, _ => False
  end.

(** The tasks not finished: the one that runs, then the queue. *)
Definition tasks (current : option task) (s : tstate) : list task := option_list current ++ ts_queue s.

Definition client_of (all : list task) (c : config) (a : aconfig) (t : thread) : Prop :=
  ts_data (threads c t) = a_local a t /\
  match ts_cursor (threads c t) with
  | Running None p => a_client a t = ARunning p /\ calls_only w p
  | Finished r => a_client a t = AFinished r
  | Blocked None q k =>
      (forall v, calls_only w (k v)) /\
      ((exists r, promises c !! q = Some (Some r) /\ a_client a t = AReturned r k) \/
       (exists m, promises c !! q = Some None /\ a_client a t = APending m k /\ mkTask q m ∈ all))
  | _ => False
  end /\ ts_queue (threads c t) = [].

Record simulates (current : option task) (c : config) (a : aconfig) : Prop := mkSim {
  sim_accepts : ts_accepts (threads c w) = true;
  sim_server : current_of current (threads c w) (a_object a);
  sim_clients : forall t, t <> w -> client_of (tasks current (threads c w)) c a t;
  sim_nodup : NoDup (task_promise <$> tasks current (threads c w));
  sim_owner : forall tk, tk ∈ tasks current (threads c w) ->
    promises c !! task_promise tk = Some None /\
    exists t k, t <> w /\ ts_cursor (threads c t) = Blocked None (task_promise tk) k;
  sim_distinct : forall t t' q k k', ts_cursor (threads c t) = Blocked None q k ->
    ts_cursor (threads c t') = Blocked None q k' -> t = t';
  sim_log : omap id (promises c) ≡ₚ snd <$> a_log a
}.

Lemma simulates_start progs local d :
  (forall t, t <> w -> calls_only w (progs t)) -> simulates None (start w progs local d) (astart progs local d).
Proof.
  intros Hc. unfold start. constructor; simpl.
  - by rewrite decide_True.
  - unfold current_of. by rewrite decide_True.
  - intros t Ht. unfold client_of. simpl. rewrite decide_False by done. simpl. auto.
  - rewrite decide_True by done. simpl. constructor.
  - rewrite decide_True by done. simpl. intros tk Htk. by apply not_elem_of_nil in Htk.
  - intros t t' q k k'. destruct (decide (t = w)); done.
  - done.
Qed.

Lemma lookup_with t f c t' :
  threads (with_thread t f c) t' = if decide (t = t') then f (threads c t) else threads c t'.
Proof. unfold with_thread; simpl. destruct (decide (t = t')) as [<-|]; [apply fn_lookup_insert | by apply fn_lookup_insert_ne]. Qed.

Lemma lookup_client t x a t' : a_client (with_client t x a) t' = if decide (t = t') then x else a_client a t'.
Proof. unfold with_client; simpl. destruct (decide (t = t')) as [<-|]; [apply fn_lookup_insert | by apply fn_lookup_insert_ne]. Qed.

(** What a step leaves alone of another client. *)
Lemma client_of_frame all all' c c' a a' t :
  client_of all c a t -> threads c' t = threads c t -> a_local a' t = a_local a t -> a_client a' t = a_client a t ->
  (forall q k, ts_cursor (threads c t) = Blocked None q k ->
     promises c' !! q = promises c !! q /\ forall m, mkTask q m ∈ all -> mkTask q m ∈ all') ->
  client_of all' c' a' t.
Proof.
  unfold client_of. intros (Hd & Hcur & Hq) Ht Hl Ha Hp. rewrite Ht, Hl, Ha. split; [done|]. split; [|done].
  destruct (ts_cursor (threads c t)) as [|[?|] ?|[?|] q k| |] eqn:Hc; try done.
  destruct (Hp q k eq_refl) as [-> Hall]. destruct Hcur as [? [?|(m & ? & ? & ?)]]; split; auto.
  right. exists m. auto.
Qed.

(** A step of the server that ends no task. *)
Lemma simulates_server current current' c a s' :
  simulates current c a -> current_of current' s' (a_object a) -> ts_accepts s' = true ->
  tasks current' s' = tasks current (threads c w) -> simulates current' (with_thread w (fun _ => s') c) a.
Proof.
  intros [Hacc Hs Hcl Hnd Hown Hdis Hlog] Hs' Hacc' Htasks.
  assert (Hne : forall t k q, ts_cursor (threads (with_thread w (fun _ => s') c) t) = Blocked None q k ->
    ts_cursor (threads c t) = Blocked None q k).
  { intros t k q. rewrite lookup_with. destruct (decide (w = t)); [|done].
    unfold current_of in Hs'. intros H. rewrite H in Hs'. by destruct current'. }
  constructor; try (rewrite !lookup_with, decide_True by done; rewrite ?Htasks; done).
  - intros t Ht. rewrite !lookup_with, decide_True, Htasks by done.
    apply (client_of_frame (tasks current (threads c w)) _ c _ a); auto.
    by rewrite lookup_with, decide_False by done.
  - rewrite lookup_with, decide_True, Htasks by done. intros tk Htk.
    destruct (Hown tk Htk) as (Hp & t & k & Ht & Hb). split; [done|]. exists t, k. split; [done|].
    by rewrite lookup_with, decide_False by done.
  - intros t t' q k k' H H'. by eapply Hdis; apply Hne.
  - exact Hlog.
Qed.

(** A step of a client that posts nothing. *)
Lemma simulates_client current c a a' t s' :
  simulates current c a -> t <> w ->
  (forall q k, ts_cursor (threads c t) = Blocked None q k -> promises c !! q <> Some None) ->
  (forall q k, ts_cursor s' <> Blocked None q k) ->
  client_of (tasks current (threads c w)) (with_thread t (fun _ => s') c) a' t ->
  a_object a' = a_object a -> a_log a' = a_log a ->
  (forall t', t' <> t -> a_local a' t' = a_local a t' /\ a_client a' t' = a_client a t') ->
  simulates current (with_thread t (fun _ => s') c) a'.
Proof.
  intros [Hacc Hs Hcl Hnd Hown Hdis Hlog] Ht Hold Hnew Hme Hobj Hlg Hoth.
  assert (Hw : threads (with_thread t (fun _ => s') c) w = threads c w).
  { by rewrite lookup_with, decide_False by done. }
  constructor; rewrite ?Hw; try done; [by rewrite Hobj|..].
  - intros t' Ht'. destruct (decide (t' = t)) as [->|Hne]; [done|].
    destruct (Hoth t' Hne) as [Hl Ha].
    apply (client_of_frame (tasks current (threads c w)) _ c _ a); auto.
    by rewrite lookup_with, decide_False by done.
  - intros tk Htk. destruct (Hown tk Htk) as (Hp & t' & k & Ht' & Hb). split; [done|]. exists t', k. split; [done|].
    rewrite lookup_with. destruct (decide (t = t')) as [<-|]; [|done]. by destruct (Hold _ _ Hb).
  - intros t1 t2 q k k'. rewrite !lookup_with.
    destruct (decide (t = t1)), (decide (t = t2)); intros H1 H2; subst; try (by destruct (Hnew _ _ H1));
      try (by destruct (Hnew _ _ H2)); try done. by eapply Hdis.
  - by rewrite Hlg.
Qed.

Lemma with_threads t f c t' : t' <> t -> threads (with_thread t f c) t' = threads c t'.
Proof. intros Ht. by rewrite lookup_with, decide_False by done. Qed.
Lemma with_this t f c : threads (with_thread t f c) t = f (threads c t).
Proof. by rewrite lookup_with, decide_True by done. Qed.

(** The posted call of a client: the object's thread gets the task. *)
Lemma simulates_post current c a t m k :
  simulates current c a -> t <> w -> ts_cursor (threads c t) = Running None (Call (Some w) m k) ->
  (forall v, calls_only w (k v)) ->
  simulates current (marshal t None (Some w) m k c) (with_client t (APending m k) a).
Proof.
  intros [Hacc Hs Hcl Hnd Hown Hdis Hlog] Ht Hrun Hk. unfold marshal. rewrite decide_False by done.
  cbv zeta. set (q := length (promises c)). set (c' := with_thread t _ _).
  destruct (Hcl t Ht) as (Hdata & _ & Hqueue).
  assert (Hw : threads c' w = mkThread (ts_cursor (threads c w)) (ts_queue (threads c w) ++ [mkTask q m])
                                (ts_data (threads c w)) true).
  { subst c'. rewrite with_threads, with_this by done. simpl. unfold post. by rewrite Hacc. }
  assert (Hme : threads c' t = mkThread (Blocked None q k) [] (ts_data (threads c t)) (ts_accepts (threads c t))).
  { subst c'. rewrite with_this, with_threads by done. unfold with_cursor. simpl. by rewrite Hqueue. }
  assert (Hoth : forall t', t' <> t -> t' <> w -> threads c' t' = threads c t').
  { intros t' H1 H2. subst c'. by rewrite !with_threads by done. }
  assert (Htasks : tasks current (threads c' w) = tasks current (threads c w) ++ [mkTask q m]).
  { rewrite Hw. unfold tasks. simpl. by rewrite app_assoc. }
  assert (Hold : forall q' v, promises c !! q' = Some v -> promises c' !! q' = Some v /\ q' <> q).
  { intros q' v Hv. pose proof (lookup_lt_Some _ _ _ Hv). subst c'. simpl. rewrite lookup_app_l by done.
    split; [done|]. unfold q. lia. }
  assert (Hpq : promises c' !! q = Some None).
  { subst c'. simpl. by rewrite lookup_app_r, Nat.sub_diag by done. }
  assert (Hfresh : forall t' k', ts_cursor (threads c t') <> Blocked None q k').
  { intros t' k' Hb. destruct (decide (t' = w)) as [->|Ht'].
    - unfold current_of in Hs. rewrite Hb in Hs. by destruct current.
    - destruct (Hcl t' Ht') as (_ & Hcur & _). rewrite Hb in Hcur.
      destruct Hcur as [_ [(? & H & _)|(? & H & _)]]; by apply Hold in H as [_ ?]. }
  assert (Hb : forall t' q' k', t' <> t -> ts_cursor (threads c' t') = Blocked None q' k' ->
    ts_cursor (threads c t') = Blocked None q' k').
  { intros t' q' k' Hne. destruct (decide (t' = w)) as [->|Hne']; [by rewrite Hw | by rewrite Hoth]. }
  constructor.
  - by rewrite Hw.
  - rewrite Hw. exact Hs.
  - intros t' Ht'. rewrite Htasks. destruct (decide (t' = t)) as [->|Hne].
    + unfold client_of. rewrite Hme, lookup_client, decide_True by done. simpl.
      split; [done|]. split; [|done]. split; [done|]. right. exists m.
      split; [exact Hpq|]. split; [done|]. apply elem_of_app. right. by left.
    + apply (client_of_frame (tasks current (threads c w)) _ c _ a); [by apply Hcl | by apply Hoth | done |..].
      * rewrite lookup_client. by rewrite decide_False by congruence.
      * intros q' k' Hb'. destruct (Hcl t' Ht') as (_ & Hcur & _). rewrite Hb' in Hcur.
        split; [|intros; by apply elem_of_app; left].
        destruct Hcur as [_ [(? & H & _)|(? & H & _)]]; by rewrite H; apply Hold in H as [-> _].
  - rewrite Htasks, fmap_app. apply list.NoDup_app. split; [done|]. split.
    + intros q' Hq' Hin. apply list_elem_of_singleton in Hin. simpl in Hin. subst q'.
      apply list_elem_of_fmap in Hq' as (tk & Hq & Htk). destruct (Hown tk Htk) as [H _].
      apply Hold in H as [_ H]. by rewrite <- Hq in H.
    + apply list.NoDup_singleton.
  - rewrite Htasks. intros tk [Htk| ->%list_elem_of_singleton]%elem_of_app.
    + destruct (Hown tk Htk) as (Hp & t' & k' & Ht' & Hbl). apply Hold in Hp as [Hp _]. split; [done|].
      exists t', k'. split; [done|]. destruct (decide (t' = t)) as [->|Hne]; [by rewrite Hrun in Hbl | by rewrite Hoth].
    + cbn [task_promise]. split; [exact Hpq|]. exists t, k. by rewrite Hme.
  - intros t1 t2 q' k1 k2 H1 H2. destruct (decide (t1 = t)) as [->|H1'], (decide (t2 = t)) as [->|H2']; [done|..].
    + rewrite Hme in H1. apply Hb in H2; [|done]. injection H1 as <- _. by destruct (Hfresh _ _ H2).
    + rewrite Hme in H2. apply Hb in H1; [|done]. injection H2 as <- _. by destruct (Hfresh _ _ H1).
    + eapply Hdis; by apply Hb.
  - subst c'. simpl. rewrite omap_app. simpl. by rewrite app_nil_r.
Qed.

(** The end of a task: the promise is set, the pending call of its owner happens. *)
Lemma simulates_done tk c a r n d' :
  simulates (Some tk) c a -> ts_cursor (threads c w) = Running (Some (task_promise tk)) (Ret r) ->
  executes (body (task_method tk)) (a_object a) n r d' -> d' = ts_data (threads c w) ->
  exists a', astep a a' /\
    simulates None (with_thread w (with_cursor Idle)
      (mkConfig (threads c) (<[task_promise tk := Some r]> (promises c)))) a'.
Proof.
  intros [Hacc Hs Hcl Hnd Hown Hdis Hlog] Hrun He ->. set (c' := with_thread w _ _).
  destruct (Hown tk ltac:(by left)) as (Hp & t & k & Ht & Hb).
  pose proof (Hcl t Ht) as (Hdata & Hcur & Hqueue). rewrite Hb in Hcur.
  destruct Hcur as [Hk [(r' & H & _)|(m & _ & Ha & Hin)]]; [congruence|].
  assert (Htk : mkTask (task_promise tk) m = tk).
  { apply elem_of_cons in Hin as [H|Hin]; [done|]. simpl in Hnd. apply list.NoDup_cons in Hnd as [Hn _].
    destruct Hn. apply list_elem_of_fmap. by exists (mkTask (task_promise tk) m). }
  destruct tk as [q m']. injection Htk as <-. simpl in *.
  assert (Hlt : q < length (promises c)) by (by eapply lookup_lt_Some).
  assert (Hoth : forall t', t' <> w -> threads c' t' = threads c t').
  { intros t' H. subst c'. by rewrite with_threads by done. }
  assert (Hw : threads c' w = with_cursor Idle (threads c w)) by (subst c'; by rewrite with_this).
  assert (Hprom : forall q', q' <> q -> promises c' !! q' = promises c !! q').
  { intros q' H. subst c'. simpl. by rewrite list_lookup_insert_ne by done. }
  assert (Hnb : forall t' q' k', ts_cursor (threads c' t') = Blocked None q' k' ->
    t' <> w /\ ts_cursor (threads c t') = Blocked None q' k').
  { intros t' q' k' H. destruct (decide (t' = w)) as [->|Hne]; [by rewrite Hw in H|]. by rewrite Hoth in H. }
  exists (with_client t (AReturned r k)
    (mkAConfig (ts_data (threads c w)) (a_local a) (a_client a) (a_log a ++ [(m, r)]))).
  split; [by eapply astep_commit|]. apply list.NoDup_cons in Hnd as [Hnotin Hnd].
  constructor.
  - by rewrite Hw.
  - by rewrite Hw.
  - intros t' Ht'. rewrite Hw. destruct (decide (t' = t)) as [->|Hne].
    + unfold client_of. rewrite Hoth, Hb, lookup_client, decide_True by done. split; [done|]. split; [|done].
      split; [done|]. left. exists r. split; [|done]. subst c'. simpl. by apply list_lookup_insert_eq.
    + apply (client_of_frame (mkTask q m :: ts_queue (threads c w)) _ c _ a); [by apply Hcl | by apply Hoth | done |..].
      * rewrite lookup_client. by rewrite decide_False by congruence.
      * intros q' k' Hb'. assert (Hq' : q' <> q). { intros ->. apply Hne. by eapply Hdis. }
        split; [by apply Hprom|]. intros m' [H|H]%elem_of_cons; [congruence | exact H].
  - rewrite Hw. exact Hnd.
  - rewrite Hw. intros tk' Htk'. destruct (Hown tk' ltac:(by right)) as (Hp' & t' & k' & Ht' & Hb').
    assert (Hq' : task_promise tk' <> q).
    { intros H. apply Hnotin. rewrite <- H. by apply list_elem_of_fmap_2. }
    split; [by rewrite Hprom|]. exists t', k'. by rewrite Hoth.
  - intros t1 t2 q' k1 k2 [_ H1]%Hnb [_ H2]%Hnb. by eapply Hdis.
  - subst c'. cbn [promises with_thread]. rewrite (omap_set _ _ _ Hp), Hlog. simpl. rewrite fmap_app. simpl.
    by rewrite <- Permutation_cons_append.
Qed.

Lemma simulates_step_server current c a c' :
  simulates current c a -> step w c = Some c' ->
  exists current' a', simulates current' c' a' /\ (a' = a \/ astep a a').
Proof.
  intros Hsim Hstep. pose proof (sim_server _ _ _ Hsim) as Hs. pose proof (sim_accepts _ _ _ Hsim) as Hacc.
  unfold step in Hstep. unfold current_of in Hs.
  destruct (ts_cursor (threads c w)) as [|[q|] p|d q k|r|] eqn:Hcur; try by destruct current.
  - destruct current; [done|]. destruct (ts_queue (threads c w)) as [|tk queue] eqn:Hq; [done|].
    rewrite Hacc in Hstep. injection Hstep as <-. exists (Some tk), a. split; [|by left].
    apply (simulates_server None); [done|..]; simpl; [|done|].
    + unfold current_of. simpl. split; [done|]. split; [apply Hleaf|]. rewrite Hs. eauto.
    + unfold tasks. simpl. by rewrite Hq.
  - destruct current as [tk|]; [|done]. destruct Hs as (-> & Hl & Hex). destruct p as [r|f k|h m k]; [..|done].
    + injection Hstep as <-. destruct (Hex _ _ _ (executes_ret _ _)) as (n & Hn).
      destruct (simulates_done _ _ _ _ _ _ Hsim Hcur Hn eq_refl) as (a' & Ha & Hs'). exists None, a'. auto.
    + destruct (f (ts_data (threads c w))) as [v d] eqn:Hf. injection Hstep as <-.
      exists (Some tk), a. split; [|by left]. apply (simulates_server (Some tk)); [done|..]; simpl; [|done|done].
      unfold current_of. simpl. split; [done|]. split; [apply Hl|]. intros n r d' He. apply (Hex (S n)).
      constructor. by rewrite Hf.
Qed.

Lemma simulates_step_client current c a t c' :
  simulates current c a -> t <> w -> step t c = Some c' ->
  exists a', simulates current c' a' /\ (a' = a \/ astep a a').
Proof.
  intros Hsim Ht Hstep. destruct (sim_clients _ _ _ Hsim t Ht) as (Hdata & Hcl & Hqueue).
  assert (Hothers : forall x loc t', t' <> t ->
    <[t := loc]> (a_local a) t' = a_local a t' /\ <[t := x]> (a_client a) t' = a_client a t').
  { intros x loc t' Hne. split; by rewrite fn_lookup_insert_ne by done. }
  assert (Hothers' : forall x t', t' <> t ->
    a_local (with_client t x a) t' = a_local a t' /\ a_client (with_client t x a) t' = a_client a t').
  { intros x t' Hne. by rewrite lookup_client, decide_False by done. }
  assert (Hnb : forall q k, ts_cursor (threads c t) = Blocked None q k -> promises c !! q <> Some None).
  { intros q k Hb H. unfold step in Hstep. rewrite Hb, H in Hstep. done. }
  unfold step in Hstep.
  destruct (ts_cursor (threads c t)) as [|[q|] p|[d|] q k|r|] eqn:Hcur; try done.
  - destruct Hcl as [Ha Hcalls]. destruct p as [r|f k|h m k].
    + injection Hstep as <-. exists (with_client t (AFinished r) a). split; [|right; by apply astep_finish].
      eapply (simulates_client _ _ _ _ t _ Hsim Ht); [by rewrite Hcur | done | | done | done | apply Hothers'].
      unfold client_of. rewrite with_this, lookup_client, decide_True by done. simpl. auto.
    + destruct (f (ts_data (threads c t))) as [v d] eqn:Hf. injection Hstep as <-.
      eexists. split; [|right; by eapply astep_act].
      eapply (simulates_client _ _ _ _ t _ Hsim Ht); [by rewrite Hcur | done | | done | done | apply Hothers].
      unfold client_of. rewrite with_this. simpl. rewrite !fn_lookup_insert, <- Hdata, Hf. auto.
    + injection Hstep as <-. destruct Hcalls as [-> Hk]. exists (with_client t (APending m k) a).
      split; [by apply simulates_post | right; by eapply astep_call].
  - destruct Hcl as [Hk [(r & Hp & Ha)|(m & Hp & Ha & _)]]; rewrite Hp in Hstep; [|done].
    injection Hstep as <-. exists (with_client t (ARunning (k r)) a).
    split; [|right; by apply astep_return].
    eapply (simulates_client _ _ _ _ t _ Hsim Ht); [by rewrite Hcur | done | | done | done | apply Hothers'].
    unfold client_of. rewrite with_this, lookup_client, decide_True by done. simpl. auto.
Qed.

Lemma simulates_run sched current c a :
  simulates current c a -> exists current' a', simulates current' (run sched c) a' /\ asteps a a'.
Proof.
  revert current c a. induction sched as [|t sched IH] using rev_ind; intros current c a Hsim.
  - exists current, a. split; [done | constructor].
  - destruct (IH _ _ _ Hsim) as (cur1 & a1 & H1 & Ha1). rewrite run_app. simpl.
    destruct (step t (run sched c)) as [c'|] eqn:Hst; simpl; [|by exists cur1, a1].
    destruct (decide (t = w)) as [->|Ht].
    + destruct (simulates_step_server _ _ _ _ H1 Hst) as (cur2 & a2 & H2 & [->|Ha2]); exists cur2; eauto using asteps_step.
    + destruct (simulates_step_client _ _ _ _ _ H1 Ht Hst) as (a2 & H2 & [->|Ha2]); exists cur1; eauto using asteps_step.
Qed.
End server.

(** ** Every call returns

    How many steps of its thread a task is away from its end. *)
Inductive queue_due : list task -> St -> nat -> nat -> Prop :=
| due_here q m queue d n r d' :
    executes (body m) d n r d' -> queue_due (mkTask q m :: queue) d q (S (S n))
| due_later tk queue d q n r d' n' :
    executes (body (task_method tk)) d n r d' -> queue_due queue d' q n' ->
    queue_due (tk :: queue) d q (S (S n) + n').

Definition due (s : tstate) (q n : nat) : Prop :=
  match ts_cursor s with
  | Idle => queue_due (ts_queue s) (ts_data s) q n
  | Running (Some q') p =>
      exists n1 r d, executes p (ts_data s) n1 r d /\
        ((q' = q /\ n = S n1) \/ exists n2, queue_due (ts_queue s) d q n2 /\ n = S n1 + n2)
  | _ => False
  end.

Lemma queue_due_app queue l d q n : queue_due queue d q n -> queue_due (queue ++ l) d q n.
Proof. induction 1; simpl; econstructor; eauto. Qed.

Lemma queue_due_total queue d q m :
  (forall m, leaf (body m)) -> mkTask q m ∈ queue -> exists n, queue_due queue d q n.
Proof.
  intros Hleaf. revert d. induction queue as [|tk queue IH]; intros d Hin; [by apply not_elem_of_nil in Hin|].
  destruct (leaf_executes (body (task_method tk)) d (Hleaf _)) as (n & r & d' & He).
  apply elem_of_cons in Hin as [<-|Hin]; [exists (S (S n)); by econstructor|].
  destruct (IH d' Hin) as (n' & Hn). eexists. by econstructor.
Qed.

(** The steps of other threads only add new tasks behind. *)
Definition extended (c : config) (s s' : tstate) : Prop :=
  exists l, s' = mkThread (ts_cursor s) (ts_queue s ++ l) (ts_data s) (ts_accepts s) /\
    forall tk, tk ∈ l -> task_promise tk = length (promises c).

Lemma extended_refl c s : extended c s s.
Proof. exists []. rewrite app_nil_r. split; [by destruct s|]. intros tk Htk. by apply not_elem_of_nil in Htk. Qed.

Lemma step_other w t c c' :
  t <> w -> step t c = Some c' -> extended c (threads c w) (threads c' w).
Proof.
  intros Ht Hstep.
  assert (Hsame : forall f c0, threads c0 = threads c -> extended c (threads c w) (threads (with_thread t f c0) w)).
  { intros f c0 He. rewrite with_threads, He by done. apply extended_refl. }
  assert (Hmarshal : forall done h m k, extended c (threads c w) (threads (marshal t done h m k c) w)).
  { intros done [h|] m k; unfold marshal; [|by apply Hsame]. destruct (decide (h = t)); [by apply Hsame|]. cbv zeta.
    rewrite with_threads, lookup_with by done. cbn [threads]. destruct (decide (h = w)) as [->|]; [|apply extended_refl].
    unfold post. destruct (threads c w) as [cu qu da [|]]; simpl; [|apply extended_refl].
    eexists. split; [reflexivity|]. by intros tk ->%list_elem_of_singleton. }
  unfold step in Hstep. destruct (ts_cursor (threads c t)) as [|[q|] [r|f k|h m k]|d q k|r|]; try discriminate Hstep;
    try (injection Hstep as <-; by first [apply Hmarshal | apply Hsame]);
    try (destruct (f _); injection Hstep as <-; by apply Hsame).
  - destruct (ts_queue _); [done|]. destruct (ts_accepts (threads c t)); [|done]. injection Hstep as <-. by apply Hsame.
  - destruct (promises c !! q) as [[r|]|]; try done. injection Hstep as <-. by apply Hsame.
Qed.

Lemma step_promises t c c' :
  step t c = Some c' -> length (promises c) <= length (promises c') /\
  forall q r, promises c !! q = Some (Some r) -> exists r', promises c' !! q = Some (Some r').
Proof.
  assert (Hsame : forall c', promises c' = promises c -> length (promises c) <= length (promises c') /\
    forall q r, promises c !! q = Some (Some r) -> exists r', promises c' !! q = Some (Some r')).
  { intros c0 ->. eauto. }
  assert (Hmarshal : forall done h m k, length (promises c) <= length (promises (marshal t done h m k c)) /\
    forall q r, promises c !! q = Some (Some r) -> exists r', promises (marshal t done h m k c) !! q = Some (Some r')).
  { intros done [h|] m k; [|by apply Hsame]. unfold marshal. destruct (decide _); [by apply Hsame|]. simpl.
    rewrite length_app. split; [lia|]. intros q r Hq. exists r. rewrite lookup_app_l; [done|]. by eapply lookup_lt_Some. }
  unfold step. destruct (ts_cursor (threads c t)) as [|[q|] [r|f k|h m k]|d q k|r|]; try done;
    try (intros [= <-]; by apply Hmarshal); try (destruct (f _); intros [= <-]; by apply Hsame).
  - destruct (ts_queue _); [done|]. destruct (ts_accepts (threads c t)); [|done]. intros [= <-]. by apply Hsame.
  - intros [= <-]. simpl. rewrite length_insert. split; [done|]. intros q' r' Hq.
    destruct (decide (q = q')) as [<-|Hne].
    + exists r. apply list_lookup_insert_eq. by eapply lookup_lt_Some.
    + exists r'. by rewrite list_lookup_insert_ne.
  - intros [= <-]. by apply Hsame.
  - destruct (promises c !! q) as [[r|]|]; try done. intros [= <-]. by apply Hsame.
Qed.

(** A step of the object's thread brings every task nearer to its end. *)
Lemma step_due w c q n :
  due (threads c w) q n -> ts_accepts (threads c w) = true -> q < length (promises c) ->
  exists c', step w c = Some c' /\ ts_accepts (threads c' w) = true /\
    ((exists r, promises c' !! q = Some (Some r)) \/ exists n', n' < n /\ due (threads c' w) q n').
Proof.
  intros Hdue Hacc Hlt. unfold step. unfold due in Hdue.
  destruct (ts_cursor (threads c w)) as [|[q'|] p|d q' k|r|] eqn:Hcur; try done.
  - inversion Hdue as [? m queue d n0 r d' He Hq Hd|tk queue d ? n0 r d' n' He Hlater Hq Hd]; subst;
      rewrite Hacc; (eexists; split; [reflexivity|]); rewrite with_this; (split; [done|]); right;
      unfold due; simpl.
    + exists (S n0). split; [lia|]. exists n0, r, d'. auto.
    + exists (S n0 + n'). split; [lia|]. exists n0, r, d'. eauto.
  - destruct Hdue as (n1 & r & d & He & Hcase). inversion He as [r' d0|f k d0 n0 r' d' He']; subst.
    + eexists. split; [reflexivity|]. rewrite with_this. split; [exact Hacc|].
      destruct Hcase as [[-> ->]|(n2 & Hd & ->)].
      * left. exists r. simpl. by apply list_lookup_insert_eq.
      * right. exists n2. split; [lia|]. exact Hd.
    + destruct (f (ts_data (threads c w))) as [v d1] eqn:Hf. eexists. split; [reflexivity|].
      rewrite with_this. split; [exact Hacc|]. right. unfold due. simpl in *.
      destruct Hcase as [[-> ->]|(n2 & Hd & ->)].
      * exists (S n0). split; [lia|]. exists n0, r, d. auto.
      * exists (S n0 + n2). split; [lia|]. exists n0, r, d. split; [done|]. right. by exists n2.
Qed.

Lemma run_resolved sched c q r :
  promises c !! q = Some (Some r) -> exists r', promises (run sched c) !! q = Some (Some r').
Proof.
  revert c r. induction sched as [|t sched IH]; intros c r Hq; simpl; [by exists r|].
  destruct (step t c) as [c'|] eqn:Hst; simpl; [|by eapply IH].
  destruct (proj2 (step_promises _ _ _ Hst) _ _ Hq) as (r' & Hr'). by eapply IH.
Qed.

Lemma run_due w sched c q n :
  due (threads c w) q n -> ts_accepts (threads c w) = true -> q < length (promises c) ->
  n <= count_occ Nat.eq_dec sched w -> exists r, promises (run sched c) !! q = Some (Some r).
Proof.
  revert c n. induction sched as [|t sched IH]; intros c n Hdue Hacc Hlt Hn.
  { simpl in Hn. assert (n = 0) as -> by lia. destruct (step_due _ _ _ _ Hdue Hacc Hlt) as (c' & _ & _ & [[r Hr]|(n' & ? & _)]); [|lia].
    exfalso. unfold due in Hdue. destruct (ts_cursor (threads c w)) as [|[?|]| | |]; [inversion Hdue|..|done|done|done]; [|done].
    destruct Hdue as (? & ? & ? & _ & [[_ ?]|(? & _ & ?)]); lia. }
  simpl in Hn |- *. destruct (Nat.eq_dec t w) as [->|Ht].
  - destruct (step_due _ _ _ _ Hdue Hacc Hlt) as (c' & Hst & Hacc' & Hcase). rewrite Hst. simpl.
    destruct Hcase as [[r Hr]|(n' & Hlt' & Hdue')]; [by eapply run_resolved|].
    apply (IH c' n'); [done | done | | lia]. pose proof (proj1 (step_promises _ _ _ Hst)). lia.
  - destruct (step t c) as [c'|] eqn:Hst; simpl; [|by apply (IH c n)].
    destruct (step_other w _ _ _ Ht Hst) as (l & Hl & _). apply (IH c' n); [|by rewrite Hl| |done].
    + rewrite Hl. unfold due in *. simpl. destruct (ts_cursor (threads c w)) as [|[?|]| | |]; try done.
      * by apply queue_due_app.
      * destruct Hdue as (n1 & r & d & He & [?|(n2 & Hd & ?)]); exists n1, r, d; split; eauto using queue_due_app.
    + pose proof (proj1 (step_promises _ _ _ Hst)). lia.
Qed.

(** What [marshal] does when it posts. *)
Lemma marshal_posts t h d m k c :
  h <> t ->
  let c' := marshal t d (Some h) m k c in
  threads c' t = with_cursor (Blocked d (length (promises c)) k) (threads c t) /\
  threads c' h = post (mkTask (length (promises c)) m) (threads c h) /\
  (forall u, u <> t -> u <> h -> threads c' u = threads c u) /\
  promises c' = promises c ++ [None].
Proof.
  intros Hh. cbv zeta. unfold marshal. rewrite decide_False by done. cbv zeta. split; [|split; [|split]].
  - by rewrite with_this, with_threads by done.
  - by rewrite with_threads, with_this by done.
  - intros u Hu Hu'. by rewrite !with_threads by done.
  - done.
Qed.

(** ** Calls that never return *)

Definition done_of (cur : cursor) : option nat :=
  match cur with Running d _ => d | Blocked d _ _ => d | _ => None end.

(** The thread will set the promise, now or later. *)
Definition holds (s : tstate) (q : nat) : Prop :=
  done_of (ts_cursor s) = Some q \/ exists tk, tk ∈ ts_queue s /\ task_promise tk = q.

(** The promises [P] are held by the threads [B] only, which wait for them. *)
Record stuck (B : list thread) (P : list nat) (c : config) : Prop := mkStuck {
  stuck_waits : forall t, t ∈ B -> exists d q k, ts_cursor (threads c t) = Blocked d q k /\ q ∈ P;
  stuck_unset : forall q, q ∈ P -> promises c !! q = Some None;
  stuck_held : forall u q, u ∉ B -> q ∈ P -> ~ holds (threads c u) q
}.

Lemma step_holds t c c' q : step t c = Some c' -> holds (threads c' t) q -> holds (threads c t) q.
Proof.
  unfold step, holds. intros Hstep.
  destruct (ts_cursor (threads c t)) as [|[p|] [r|f k|[h|] m k]|d p k|r|] eqn:Hcur; try discriminate Hstep;
    try (unfold marshal in Hstep; destruct (decide (h = t)));
    try (destruct (f _) eqn:Hf);
    try (destruct (promises c !! p) as [[?|]|]; [|discriminate Hstep..]);
    try (injection Hstep as <-; rewrite ?with_this, ?with_threads by done; simpl; by intuition congruence).
  destruct (ts_queue (threads c t)) as [|tk queue] eqn:Hq; [done|]. destruct (ts_accepts (threads c t)); [|done].
  injection Hstep as <-. rewrite with_this. simpl. intros [[= <-]|(tk' & Hin & <-)]; right.
  - exists tk. split; [by left | done].
  - exists tk'. split; [by right | done].
Qed.

Lemma step_unset t c c' q :
  step t c = Some c' -> promises c !! q = Some None -> ~ holds (threads c t) q -> promises c' !! q = Some None.
Proof.
  intros Hstep Hq Hh. assert (Happ : forall l, (promises c ++ l) !! q = Some None).
  { intros l. rewrite lookup_app_l; [done|]. by eapply lookup_lt_Some. }
  unfold step in Hstep. unfold holds in Hh.
  destruct (ts_cursor (threads c t)) as [|[p|] [r|f k|[h|] m k]|d p k|r|] eqn:Hcur; try discriminate Hstep;
    try (unfold marshal in Hstep; destruct (decide (h = t)));
    try (destruct (f _) eqn:Hf);
    try (destruct (promises c !! p) as [[?|]|]; [|discriminate Hstep..]);
    try (injection Hstep as <-; simpl; by first [exact Hq | apply Happ]).
  - destruct (ts_queue (threads c t)); [done|]. destruct (ts_accepts (threads c t)); [|done]. by injection Hstep as <-.
  - injection Hstep as <-. simpl. destruct (decide (p = q)) as [->|]; [destruct Hh; by left|].
    by rewrite list_lookup_insert_ne.
Qed.

Lemma stuck_step B P c t c' :
  stuck B P c -> step t c = Some c' ->
  stuck B P c' /\ forall u, u ∈ B -> ts_cursor (threads c' u) = ts_cursor (threads c u).
Proof.
  intros [Hw Hu Hh] Hstep.
  assert (Ht : t ∉ B).
  { intros Hin. destruct (Hw t Hin) as (d & q & k & Hb & Hq). unfold step in Hstep.
    by rewrite Hb, (Hu q Hq) in Hstep. }
  assert (Hsame : forall u, u ∈ B -> ts_cursor (threads c' u) = ts_cursor (threads c u)).
  { intros u Hin. assert (Hne : t <> u) by (intros ->; done).
    destruct (step_other u _ _ _ Hne Hstep) as (l & -> & _). done. }
  split; [|done]. constructor.
  - intros u Hin. rewrite (Hsame u Hin). by apply Hw.
  - intros q Hq. apply (step_unset _ _ _ _ Hstep); auto.
  - intros u q Hu' Hq Hholds. destruct (decide (t = u)) as [->|Hne].
    + apply (Hh u q Hu' Hq). by eapply step_holds.
    + destruct (step_other u _ _ _ Hne Hstep) as (l & He & Hfresh). rewrite He in Hholds.
      destruct Hholds as [Hd|(tk & Hin & Htk)]; simpl in *; [apply (Hh u q Hu' Hq); by left|].
      apply elem_of_app in Hin as [Hin|Hin]; [apply (Hh u q Hu' Hq); right; by exists tk|].
      apply Hfresh in Hin. pose proof (lookup_lt_Some _ _ _ (Hu q Hq)). lia.
Qed.

Lemma stuck_run B P sched c :
  stuck B P c -> forall u, u ∈ B -> ts_cursor (threads (run sched c) u) = ts_cursor (threads c u).
Proof.
  revert c. induction sched as [|t sched IH]; intros c Hs u Hin; simpl; [done|].
  destruct (step t c) as [c'|] eqn:Hst; simpl; [|by apply IH].
  destruct (stuck_step _ _ _ _ _ Hs Hst) as [Hs' Hsame]. rewrite (IH c' Hs' u Hin). by apply Hsame.
Qed.

(** ** The theorems *)

(** C5: an object behind a proxy is atomic: for any number of threads that call its
    proxy, under every schedule, what the threads have computed, their results, and
    the object's data whenever its thread is idle, are those of an execution in
    which every call happens at once, in some order, with the result the method
    gives when it runs alone; and the results handed to callers are those of the calls
    that happened, each once. *)
Theorem proxy_refines_atomic_object w progs local d sched :
  (forall m, leaf (body m)) -> (forall t, t <> w -> calls_only w (progs t)) ->
  let c := run sched (start w progs local d) in
  exists a, asteps (astart progs local d) a /\
    (ts_cursor (threads c w) = Idle -> ts_data (threads c w) = a_object a) /\
    omap id (promises c) ≡ₚ snd <$> a_log a /\
    forall t, t <> w ->
      ts_data (threads c t) = a_local a t /\
      (forall p, ts_cursor (threads c t) = Running None p -> a_client a t = ARunning p) /\
      (forall r, ts_cursor (threads c t) = Finished r -> a_client a t = AFinished r).
Proof.
  intros Hleaf Hcalls c.
  destruct (simulates_run w Hleaf sched _ _ _ (simulates_start w progs local d Hcalls)) as (cur & a & Hsim & Ha).
  exists a. split; [done|]. split.
  - intros Hidle. pose proof (sim_server _ _ _ _ Hsim) as Hs. unfold current_of in Hs. fold c in Hs.
    rewrite Hidle in Hs. by destruct cur.
  - split; [exact (sim_log _ _ _ _ Hsim)|]. intros t Ht. destruct (sim_clients _ _ _ _ Hsim t Ht) as (Hd & Hc & _). fold c in Hd, Hc. split; [done|].
    split; intros x Hx; rewrite Hx in Hc; [apply Hc | exact Hc].
Qed.

(** C9: a call through the proxy always returns, when the bodies of the methods call
    no proxy themselves: in every reachable situation a waiting caller has a bound such that once the object's thread has been given
    that many steps, whatever the other threads do meanwhile, the promise it waits
    for is set. *)
Theorem proxied_call_returns w progs local d sched t q k :
  (forall m, leaf (body m)) -> (forall t, t <> w -> calls_only w (progs t)) -> t <> w ->
  ts_cursor (threads (run sched (start w progs local d)) t) = Blocked None q k ->
  exists n, forall sched', n <= count_occ Nat.eq_dec sched' w ->
    exists r, promises (run (sched ++ sched') (start w progs local d)) !! q = Some (Some r).
Proof.
  intros Hleaf Hcalls Ht Hb.
  destruct (simulates_run w Hleaf sched _ _ _ (simulates_start w progs local d Hcalls)) as (cur & a & Hsim & _).
  set (c := run sched (start w progs local d)) in *.
  destruct (sim_clients _ _ _ _ Hsim t Ht) as (_ & Hc & _). rewrite Hb in Hc.
  destruct Hc as [_ [(r & Hp & _)|(m & Hp & _ & Hin)]].
  { exists 0. intros sched' _. rewrite run_app. by eapply run_resolved. }
  assert (Hdue : exists n, due (threads c w) q n).
  { pose proof (sim_server _ _ _ _ Hsim) as Hs. unfold current_of in Hs. unfold due. unfold tasks in Hin.
    destruct (ts_cursor (threads c w)) as [|[q'|] p|d' q' k'|r|]; destruct cur as [tk|]; try done; simpl in Hin.
    - by eapply queue_due_total.
    - destruct Hs as (-> & Hl & _). destruct (leaf_executes p (ts_data (threads c w)) Hl) as (n & r & d' & He).
      apply elem_of_cons in Hin as [<-|Hin]; [exists (S n), n, r, d'; auto|].
      destruct (queue_due_total _ d' q m Hleaf Hin) as (n2 & H2). exists (S n + n2), n, r, d'. eauto. }
  destruct Hdue as (n & Hdue). exists n. intros sched' Hn. rewrite run_app.
  apply (run_due w sched' c q n Hdue); [apply (sim_accepts _ _ _ _ Hsim) | by eapply lookup_lt_Some | done].
Qed.

(** C34: a method that calls back through a proxy of its caller's thread deadlocks:
    once the method has been started, neither the caller nor the object's thread
    moves again, under any schedule. *)
Theorem callback_deadlocks w t progs local d m k m' k' sched :
  t <> w -> progs t = Call (Some w) m k -> body m = Call (Some t) m' k' ->
  let c := run ([t; w; w] ++ sched) (start w progs local d) in
  ts_cursor (threads c t) = Blocked None 0 k /\ ts_cursor (threads c w) = Blocked (Some 0) 1 k'.
Proof.
  intros Ht Hprog Hbody. cbv zeta. rewrite run_app. set (c0 := start w progs local d).
  assert (Hw : w <> t) by done.
  assert (H0t : forall u, u <> w -> threads c0 u = mkThread (Running None (progs u)) [] (local u) true).
  { intros u Hu. unfold c0, start. cbn [threads]. by rewrite decide_False. }
  assert (H0w : threads c0 w = mkThread Idle [] d true).
  { unfold c0, start. cbn [threads]. by rewrite decide_True. }
  assert (H0p : promises c0 = []) by done. clearbody c0.
  destruct (marshal_posts t w None m k c0 Hw) as (Ht1 & Hw1 & Ho1 & Hp1).
  assert (S1 : step t c0 = Some (marshal t None (Some w) m k c0)).
  { unfold step. rewrite (H0t t Ht). cbn [ts_cursor]. by rewrite Hprog. }
  set (c1 := marshal t None (Some w) m k c0) in *. clearbody c1.
  rewrite H0p, (H0t t Ht) in Ht1. rewrite H0p, H0w in Hw1. rewrite H0p in Hp1. cbn in Ht1, Hw1, Hp1.
  set (c2 := with_thread w (fun s => mkThread (Running (Some 0) (body m)) [] (ts_data s) (ts_accepts s)) c1).
  assert (S2 : step w c1 = Some c2) by (unfold step; by rewrite Hw1).
  assert (Hw2 : threads c2 w = mkThread (Running (Some 0) (body m)) [] d true) by (unfold c2; by rewrite with_this, Hw1).
  assert (H2 : forall u, u <> w -> threads c2 u = threads c1 u) by (intros u Hu; unfold c2; by rewrite with_threads).
  assert (Hp2 : promises c2 = [None]) by done. clearbody c2.
  destruct (marshal_posts w t (Some 0) m' k' c2 Ht) as (Hw3 & Ht3 & Ho3 & Hp3).
  assert (S3 : step w c2 = Some (marshal w (Some 0) (Some t) m' k' c2)) by (unfold step; by rewrite Hw2, Hbody).
  set (c3 := marshal w (Some 0) (Some t) m' k' c2) in *. clearbody c3.
  rewrite Hp2, Hw2 in Hw3. rewrite Hp2, (H2 t Ht), Ht1 in Ht3. rewrite Hp2 in Hp3. cbn in Hw3, Ht3, Hp3.
  assert (Hrun : run [t; w; w] c0 = c3) by (unfold run; cbn [foldl]; by rewrite S1; cbn; rewrite S2; cbn; rewrite S3).
  assert (Hstuck : stuck [t; w] [0; 1] c3).
  { constructor.
    - intros u Hu. apply elem_of_cons in Hu as [-> | ->%list_elem_of_singleton].
      + rewrite Ht3. exists None, 0, k. split; [done | by left].
      + rewrite Hw3. exists (Some 0), 1, k'. split; [done | right; by left].
    - intros q Hq. rewrite Hp3. apply elem_of_cons in Hq as [-> | ->%list_elem_of_singleton]; done.
    - intros u q Hu _. apply not_elem_of_cons in Hu as [Hut Huw]. assert (u <> w) by (intros ->; apply Huw; by left).
      rewrite Ho3, H2, Ho1, H0t by done. unfold holds. cbn.
      intros [?|(? & Hin & _)]; [done | by apply not_elem_of_nil in Hin]. }
  rewrite Hrun. split.
  - rewrite (stuck_run _ _ sched _ Hstuck t) by (by left). by rewrite Ht3.
  - rewrite (stuck_run _ _ sched _ Hstuck w) by (right; by left). by rewrite Hw3.
Qed.

(** A call to a stopped thread never returns: the posted task is dropped, and the
    caller waits for a promise nobody sets. *)
Theorem call_to_stopped_thread c t w d m k sched :
  t <> w -> ts_cursor (threads c t) = Running d (Call (Some w) m k) -> ts_accepts (threads c w) = false ->
  (forall u q, holds (threads c u) q -> q < length (promises c)) ->
  ts_cursor (threads (run (t :: sched) c) t) = Blocked d (length (promises c)) k.
Proof.
  intros Ht Hrun Hacc Hwf. assert (Hw : w <> t) by done.
  destruct (marshal_posts t w d m k c Hw) as (Ht1 & Hw1 & Ho1 & Hp1).
  change (run (t :: sched) c) with (run sched (default c (step t c))).
  assert (Hst : step t c = Some (marshal t d (Some w) m k c)) by (unfold step; rewrite Hrun; by destruct d).
  rewrite Hst. cbn [default]. set (c1 := marshal t d (Some w) m k c) in *.
  assert (Hstuck : stuck [t] [length (promises c)] c1).
  { constructor.
    - intros u ->%list_elem_of_singleton. rewrite Ht1. do 3 eexists. split; [reflexivity | by left].
    - intros q ->%list_elem_of_singleton. rewrite Hp1, lookup_app_r, Nat.sub_diag by done. done.
    - intros u q Hu ->%list_elem_of_singleton Hh. assert (Hut : u <> t) by (intros ->; apply Hu; by left).
      enough (holds (threads c u) (length (promises c))) as H by (apply Hwf in H; lia).
      destruct (decide (u = w)) as [->|Huw].
      + rewrite Hw1 in Hh. unfold post in Hh. by rewrite Hacc in Hh.
      + by rewrite Ho1 in Hh. }
  pose proof (stuck_run _ _ sched _ Hstuck t ltac:(by left)) as H. rewrite Ht1 in H. exact H.
Qed.
End proxy.

(** ** A counter and its callers *)

(** [m] is added to the counter, which answers its old value. *)
Definition counter_body (m : nat) : @prog nat nat nat := Act (fun s => (s, s + m)) Ret.
Definition counter_clients (t : thread) : @prog nat nat nat :=
  Call (Some 0) t (fun v => Call (Some 0) v Ret).

Lemma counter_leaf m : leaf (counter_body m).
Proof. by intros v. Qed.
Lemma counter_clients_only t : t <> 0 -> calls_only 0 (counter_clients t).
Proof. done. Qed.

Lemma proxy_refines_atomic_object_witness :
  let c := run counter_body [1; 2; 0; 1; 0; 0; 0; 0; 0; 1; 2; 1; 2] (start 0 counter_clients (fun _ => 0) 5) in
  ts_cursor (threads c 0) = Idle /\ ts_data (threads c 0) = 8 /\
  exists a, asteps counter_body (astart counter_clients (fun _ => 0) 5) a /\ a_object a = 8.
Proof.
  intros c. assert (Hi : ts_cursor (threads c 0) = Idle) by (by vm_compute).
  assert (Hd : ts_data (threads c 0) = 8) by (by vm_compute).
  split; [exact Hi|]. split; [exact Hd|].
  destruct (proxy_refines_atomic_object counter_body 0 counter_clients (fun _ => 0) 5
    [1; 2; 0; 1; 0; 0; 0; 0; 0; 1; 2; 1; 2] counter_leaf (fun t _ => counter_clients_only t ltac:(assumption)))
    as (a & Ha & Ho & _).
  exists a. split; [exact Ha|]. rewrite <- (Ho Hi). exact Hd.
Defined.

Lemma proxied_call_returns_witness :
  ts_cursor (threads (run counter_body [1; 2] (start 0 counter_clients (fun _ => 0) 5)) 2) =
    Blocked None 1 (fun v => Call (Some 0) v Ret) /\
  exists n, forall sched', n <= count_occ Nat.eq_dec sched' 0 ->
    exists r, promises (run counter_body ([1; 2] ++ sched') (start 0 counter_clients (fun _ => 0) 5)) !! 1 = Some (Some r).
Proof.
  assert (Hb : ts_cursor (threads (run counter_body [1; 2] (start 0 counter_clients (fun _ => 0) 5)) 2) =
    Blocked None 1 (fun v => Call (Some 0) v Ret)) by reflexivity.
  split; [exact Hb|].
  refine (proxied_call_returns counter_body 0 counter_clients (fun _ => 0) 5 [1; 2] 2 1 _ counter_leaf _ _ Hb);
    [intros t Ht; by apply counter_clients_only | done].
Defined.

(** A method that asks its caller. *)
Definition asking_body (m : nat) : @prog nat nat nat := Call (Some 1) m Ret.

Lemma callback_deadlocks_witness :
  counter_clients 1 = Call (Some 0) 1 (fun v => Call (Some 0) v Ret) /\
  ts_cursor (threads (run asking_body ([1; 0; 0] ++ [0; 1; 2; 1]) (start 0 counter_clients (fun _ => 0) 5)) 1) =
    Blocked None 0 (fun v => Call (Some 0) v Ret).
Proof.
  split; [reflexivity|].
  refine (proj1 (callback_deadlocks asking_body 0 1 counter_clients (fun _ => 0) 5 1
    (fun v => Call (Some 0) v Ret) 1 Ret [0; 1; 2; 1] _ eq_refl eq_refl)). done.
Defined.

(** Thread 0 was stopped. *)
Definition stopped_config : @config nat nat nat :=
  mkConfig (fun t => mkThread (if decide (t = 0) then Idle else Running None (counter_clients t)) [] 0
                       (negb (bool_decide (t = 0)))) [].

Lemma call_to_stopped_thread_witness :
  ts_accepts (threads stopped_config 0) = false /\
  ts_cursor (threads (run counter_body [1; 0; 0; 1] stopped_config) 1) = Blocked None 0 (fun v => Call (Some 0) v Ret).
Proof.
  split; [reflexivity|].
  refine (call_to_stopped_thread counter_body stopped_config 1 0 None 1 (fun v => Call (Some 0) v Ret) [0; 0; 1] _ eq_refl eq_refl _).
  - done.
  - intros u q. unfold holds, stopped_config. simpl. destruct (decide (u = 0)); simpl;
      (intros [?|(? & Hin & _)]; [done | by apply not_elem_of_nil in Hin]).
Defined.
