(* ===== verification/ProxyObject.v ===== *)
(** * Objects behind a proxy

    What the proxies of [i_room_client.h] and [i_participant_controller.h] share: an
    object whose methods are handlers lives on one thread, and every method of its
    proxy is a call marshalled there ([PROXY_METHOD0] to [PROXY_METHOD5] of
    [core/utils/interface_proxy.hpp]).  Calls from any number of threads amount to a
    sequence of whole method calls. *)

From stdpp Require Import base list functions.
From Stdlib Require Import Lia.
From S2P Require Import Prelude Proxy.

#[local] Open Scope list_scope.
#[local] Open Scope nat_scope.

Section object.
Context {St E Meth Res : Type}.
Variable method : Meth -> M St E Res.

(** The object's data on its thread: its state and what it has done, or the fault that
    ended it; a caller gets the result or the fault. *)
Definition object_data : Type := outcome (St * list E).

Definition call_method (m : Meth) (d : object_data) : outcome Res * object_data :=
  match d with
  | Fault f => (Fault f, Fault f)
  | Done (s, es) =>
      match method m s with
      | Done (v, s', es') => (Done v, Done (s', es ++ es'))
      | Fault f => (Fault f, Fault f)
      end
  end.

(** [(t->*m)(args)]. *)
Definition object_body (m : Meth) : @prog (outcome Res) object_data Meth := Act (call_method m) Ret.

(** The methods one after another: their results and the data in the end. *)
Fixpoint call_all (ms : list Meth) (d : object_data) : list (outcome Res) * object_data :=
  match ms with
  | [] => ([], d)
  | m :: ms => let '(r, d1) := call_method m d in let '(rs, d2) := call_all ms d1 in (r :: rs, d2)
  end.

Lemma object_body_leaf m : leaf (object_body m).
Proof. by intros v. Qed.

Lemma call_all_snoc ms m d :
  call_all (ms ++ [m]) d =
    ((call_all ms d).1 ++ [(call_method m (call_all ms d).2).1], (call_method m (call_all ms d).2).2).
Proof.
  revert d. induction ms as [|m' ms IH]; intros d; simpl; [by destruct (call_method m d)|].
  destruct (call_method m' d) as [r d1]. rewrite IH. by destruct (call_all ms d1) as [rs d2].
Qed.

Lemma object_commits a0 a :
  asteps object_body a0 a -> a_log a0 = [] ->
  call_all (a_log a).*1 (a_object a0) = ((a_log a).*2, a_object a).
Proof.
  induction 1 as [|a b c _ IH Hstep]; intros H0; [by rewrite H0|]. specialize (IH H0).
  inversion Hstep as [| |? t m k n r d Hc He| |]; subst; try exact IH. simpl.
  rewrite !fmap_app. change (fst <$> [(m, r)]) with [m]. change (snd <$> [(m, r)]) with [r].
  rewrite call_all_snoc, IH. simpl.
  inversion He as [|? ? ? ? ? ? He']; subst. inversion He'; subst. done.
Qed.

(** Whenever the object's thread is idle, its data is that after some sequence of whole
    calls, whose results are the ones the callers got. *)
Lemma object_serialises w progs local d sched :
  (forall t, t <> w -> calls_only w (progs t)) ->
  let c := run object_body sched (start w progs local d) in
  ts_cursor (threads c w) = Idle ->
  exists ms rs, call_all ms d = (rs, ts_data (threads c w)) /\ omap id (promises c) ≡ₚ rs.
Proof.
  intros Hcalls c Hidle.
  destruct (simulates_run _ w object_body_leaf sched _ _ _ (simulates_start _ w progs local d Hcalls)) as (cur & a & Hsim & Ha).
  pose proof (sim_server _ _ _ _ _ Hsim) as Hs. unfold current_of in Hs. fold c in Hs. rewrite Hidle in Hs.
  destruct cur; [done|]. rewrite Hs. exists (a_log a).*1, (a_log a).*2.
  split; [exact (object_commits _ _ Ha eq_refl) | exact (sim_log _ _ _ _ _ Hsim)].
Qed.
End object.
