(* ===== verification/Json.v ===== *)
(** * JSON values and the serialization templates

    Models [core/json/serialization.hpp] and [core/json/jsonable.hpp]: the
    [JsonValueAdapter] overloads for native types, the serializer functors
    selected by [json_serialize] / [json_deserialize], the [FIELDS_MAP] macro
    and [toJsonString] / [fromJsonString].  The text parser and printer are
    rapidjson's; they enter as the arguments [parse] and [print].

    The main results: a codec law for every functor ([lawful]), proved once per
    functor, and the round trip of a whole [FIELDS_MAP] struct into an existing
    object ([jdeserialize_jserialize]). *)

From stdpp Require Import base strings list.
From Stdlib Require Import ZArith Lia SpecFloat.
From S2P Require Import Prelude.

#[local] Set Warnings "-register-all".

(** ** Documents *)

(** A [rapidjson::Value].  Members keep their order and may repeat a name.  An
    integer carries its mathematical value (rapidjson's int/int64 flags are
    functions of it); a double is a binary64 number in [SpecFloat] form. *)
Inductive Value : Type :=
| JNull
| JBool (b : bool)
| JInt (z : Z)
| JDouble (d : spec_float)
| JString (s : string)
| JArray (l : list Value)
| JObject (ms : list (string * Value)).

(** The exceptions of [serialization.hpp] that [fromJsonString] catches. *)
Inductive json_error : Type :=
| JsonParsingFailed
| JsonMissingKey (name : string)
| JsonTypeMismatch (name : string).

Abbreviation jres := (result json_error).

(** [FindMember]: the first member of that name. *)
Fixpoint find_member (k : string) (ms : list (string * Value)) : option Value :=
  match ms with
  | [] => None
  | (k', v) :: ms => if String.eqb k k' then Some v else find_member k ms
  end.

Definition members (j : Value) : list (string * Value) :=
  match j with JObject ms => ms | _ => [] end.
Definition FindMember (j : Value) (k : string) : option Value := find_member k (members j).
Definition IsObject (j : Value) : bool := match j with JObject _ => true | _ => false end.
Definition IsNull (j : Value) : bool := match j with JNull => true | _ => false end.

(** A C string ends at its first NUL: what [std::string s = j.GetString()] keeps. *)
Fixpoint c_str (s : string) : string :=
  match s with
  | EmptyString => EmptyString
  | String.String c s =>
      if Ascii.eqb c Ascii.zero then EmptyString else String.String c (c_str s)
  end.

(** [(float) d]: rounding to binary32 (24-bit precision, emax 128), the result
    read back as a binary64 number. *)
Definition to_float (d : spec_float) : spec_float :=
  match d with
  | S754_finite s m e =>
      match binary_normalize 24 128 (cond_Zopp s (Zpos m)) e s with
      | S754_finite s' m' e' => binary_normalize 53 1024 (cond_Zopp s' (Zpos m')) e' s'
      | f => f
      end
  | d => d
  end.

#[global] Instance spec_float_eq_dec : EqDecision spec_float.
Proof. intros x y; unfold Decision; repeat decide equality. Defined.

(** ** JsonValueAdapter: the native types *)

(** One overload pair of [JsonValueAdapter]: [operator()] and [set], with the
    value [Type v;] starts from and the values a round trip keeps. *)
Record native (T : Type) : Type := mkNative {
  n_read : Value -> string -> jres T;
  n_set : T -> Value;
  n_init : T;
  n_wf : T -> bool
}.
Arguments mkNative {T}.
Arguments n_read {T}.
Arguments n_set {T}.
Arguments n_init {T}.
Arguments n_wf {T}.

Definition int64_native : native Z := mkNative
  (fun j name => match j with
                 | JInt z => if in_int64 z then Ok z else Err (JsonTypeMismatch name)
                 | _ => Err (JsonTypeMismatch name)
                 end)
  JInt 0 in_int64.
Definition int_native : native Z := mkNative
  (fun j name => match j with
                 | JInt z => if in_int32 z then Ok z else Err (JsonTypeMismatch name)
                 | _ => Err (JsonTypeMismatch name)
                 end)
  JInt 0 in_int32.
Definition double_native : native spec_float := mkNative
  (fun j name => match j with JDouble d => Ok d | _ => Err (JsonTypeMismatch name) end)
  JDouble (S754_zero false) (fun _ => true).
Definition float_native : native spec_float := mkNative
  (fun j name => match j with JDouble d => Ok (to_float d) | _ => Err (JsonTypeMismatch name) end)
  JDouble (S754_zero false) (fun d => bool_decide (to_float d = d)).
Definition string_native : native string := mkNative
  (fun j name => match j with JString s => Ok (c_str s) | _ => Err (JsonTypeMismatch name) end)
  JString EmptyString (fun s => bool_decide (c_str s = s)).
Definition bool_native : native bool := mkNative
  (fun j name => match j with JBool b => Ok b | _ => Err (JsonTypeMismatch name) end)
  JBool false (fun _ => true).
Definition vector_native {T} (n : native T) : native (list T) := mkNative
  (fun j name => match j with
                 | JArray l => traverse (fun item => n_read n item name) l
                 | _ => Err (JsonTypeMismatch name)
                 end)
  (fun l => JArray (map (n_set n) l)) [] (forallb (n_wf n)).

(** ** The serializer functors *)

(** A functor [JsonSerializer*<Key, Type>]: [forward] adds to the members of the
    document being built, [backward] reads into an existing object. *)
Record serializer (T : Type) : Type := mkSerializer {
  forward : list (string * Value) -> string -> T -> list (string * Value);
  backward : Value -> string -> T -> jres T;
  initial : T;
  s_wf : T -> bool
}.
Arguments mkSerializer {T}.
Arguments forward {T}.
Arguments backward {T}.
Arguments initial {T}.
Arguments s_wf {T}.

Definition JsonSerializerPod {T} (n : native T) : serializer T := mkSerializer
  (fun ms name v => ms ++ [(name, n_set n v)])
  (fun j name _ => match FindMember j name with
                   | None => Err (JsonMissingKey name)
                   | Some m => n_read n m name
                   end)
  (n_init n) (n_wf n).

(** [JsonSerializer<Key, optional<Type>>]. *)
Definition optional_forward {T} (s : serializer T)
    (ms : list (string * Value)) (name : string) (v : option T) : list (string * Value) :=
  match v with Some x => forward s ms name x | None => ms end.
Definition optional_backward {T} (s : serializer T)
    (j : Value) (name : string) (v : option T) : jres (option T) :=
  if negb (IsObject j) then Err (JsonTypeMismatch name)
  else match FindMember j name with
       | None => Ok v
       | Some m => if IsNull m then Ok v
                   else x ← backward s j name (initial s); Ok (Some x)
       end.

(** *** FIELDS_MAP *)

(** One [name, member] pair of a [FIELDS_MAP]; the member has type
    [absl::optional<fd_type>]. *)
Record field_desc : Type := field {
  fd_name : string;
  fd_type : Type;
  fd_ser : serializer fd_type
}.
Arguments field fd_name {fd_type} fd_ser.

(** The members a [FIELDS_MAP] lists, in order. *)
Fixpoint tuple (fs : list field_desc) : Type :=
  match fs with
  | [] => unit
  | f :: fs => (option (fd_type f) * tuple fs)%type
  end.

(** The variadic [json_serialize(jlist, name, value, tail...)]. *)
Fixpoint json_serialize (fs : list field_desc) : list (string * Value) -> tuple fs -> list (string * Value) :=
  match fs with
  | [] => fun ms _ => ms
  | f :: fs => fun ms t =>
      json_serialize fs (optional_forward (fd_ser f) ms (fd_name f) t.1) t.2
  end.

(** The variadic [json_deserialize(jlist, name, value, tail...)]. *)
Fixpoint json_deserialize (fs : list field_desc) : Value -> tuple fs -> jres (tuple fs) :=
  match fs with
  | [] => fun _ _ => Ok tt
  | f :: fs => fun j t =>
      x ← optional_backward (fd_ser f) j (fd_name f) t.1;
      r ← json_deserialize fs j t.2;
      Ok (x, r)
  end.

(** A struct with a [FIELDS_MAP]: [fm_set t m] overwrites the listed members of
    [m]; [fm_listed m] says that the members the macro call leaves out are empty. *)
Class FieldsMap (A : Type) : Type := {
  fm_fields : list field_desc;
  fm_get : A -> tuple fm_fields;
  fm_set : tuple fm_fields -> A -> A;
  fm_listed : A -> bool
}.
#[global] Arguments fm_fields A {_}.

(** The struct as its default constructor leaves it. *)
Class DefaultInit (A : Type) : Type := default_init : A.

(** [JSON_SERIALIZE]: the two methods the macro generates. *)
Definition jserialize {A} `{FieldsMap A} (m : A) : Value :=
  JObject (json_serialize (fm_fields A) [] (fm_get m)).
Definition jdeserialize {A} `{FieldsMap A} (j : Value) (m : A) : jres A :=
  t ← json_deserialize (fm_fields A) j (fm_get m); Ok (fm_set t m).

(** The values of a struct that survive a round trip. *)
Fixpoint tuple_wf (fs : list field_desc) : tuple fs -> bool :=
  match fs with
  | [] => fun _ => true
  | f :: fs => fun t =>
      match t.1 with Some x => s_wf (fd_ser f) x | None => true end && tuple_wf fs t.2
  end.
Definition model_wf {A} `{FieldsMap A} (m : A) : bool :=
  fm_listed m && tuple_wf (fm_fields A) (fm_get m).

(** [JsonSerializer<Key, Type>] for a customized type. *)
Definition JsonSerializer (A : Type) `{FieldsMap A, DefaultInit A} : serializer A := mkSerializer
  (fun ms name v => ms ++ [(name, jserialize v)])
  (fun j name v =>
     if negb (IsObject j) then Err (JsonTypeMismatch name)
     else match FindMember j name with
          | None => Err (JsonMissingKey name)
          | Some m => jdeserialize m v
          end)
  default_init model_wf.

(** [JsonSerializerVector<Key, std::vector<Type>>]. *)
Definition JsonSerializerVector (A : Type) `{FieldsMap A, DefaultInit A} : serializer (list A) := mkSerializer
  (fun ms name v => ms ++ [(name, JArray (map jserialize v))])
  (fun j name _ =>
     match FindMember j name with
     | None => Ok []
     | Some (JArray l) => traverse (fun item => jdeserialize item default_init) l
     | Some _ => Err (JsonTypeMismatch name)
     end)
  [] (forallb model_wf).

(** ** Text *)

(** [fromJsonString<Type>(data, error)]: the object, or the error text's cause.
    The callers read the object only when no error was reported. *)
Definition fromJsonString {A} `{FieldsMap A} (parse : string -> option Value)
    (init : A) (data : string) : jres A :=
  match parse data with
  | None => Err JsonParsingFailed
  | Some j => jdeserialize j init
  end.
Definition toJsonStr {A} `{FieldsMap A} (print : Value -> string) (m : A) : string :=
  print (jserialize m).

(** ** The laws of the functors *)

(** The value [forward] stores. *)
Definition enc {T} (s : serializer T) (v : T) : Value :=
  match forward s [] EmptyString v with [(_, x)] => x | _ => JNull end.

(** What a functor must promise for a struct that uses it to round trip:
    [forward] appends exactly one member, never a null one (which the optional
    functor would skip), [backward] reads it back, and reads no other member. *)
Class lawful {T} (s : serializer T) : Prop := {
  lw_forward ms k v : forward s ms k v = ms ++ [(k, enc s v)];
  lw_notnull v : IsNull (enc s v) = false;
  lw_backward ms k v :
    s_wf s v = true -> find_member k ms = Some (enc s v) ->
    backward s (JObject ms) k (initial s) = Ok v;
  lw_local ms ms' k v :
    find_member k ms = find_member k ms' -> backward s (JObject ms) k v = backward s (JObject ms') k v
}.

(** The same for a native type. *)
Class lawful_native {T} (n : native T) : Prop := {
  ln_notnull v : IsNull (n_set n v) = false;
  ln_read v k : n_wf n v = true -> n_read n (n_set n v) k = Ok v
}.

#[export] Instance int64_lawful : lawful_native int64_native.
Proof. split; [done|]. simpl. by intros v _ ->. Qed.
#[export] Instance int_lawful : lawful_native int_native.
Proof. split; [done|]. simpl. by intros v _ ->. Qed.
#[export] Instance double_lawful : lawful_native double_native.
Proof. split; done. Qed.
#[export] Instance float_lawful : lawful_native float_native.
Proof. split; [done|]. simpl. intros v _ H%bool_decide_eq_true. by rewrite H. Qed.
#[export] Instance string_lawful : lawful_native string_native.
Proof. split; [done|]. simpl. intros v _ H%bool_decide_eq_true. by rewrite H. Qed.
#[export] Instance bool_lawful : lawful_native bool_native.
Proof. split; done. Qed.
#[export] Instance vector_lawful {T} (n : native T) : lawful_native n -> lawful_native (vector_native n).
Proof.
  intros [Hn Hr]. split; [done|]. simpl. intros l k Hwf.
  rewrite (traverse_map_ok _ _ id), map_id; [done|].
  apply Forall_forall; intros x Hx. apply Hr.
  rewrite forallb_forall in Hwf. apply Hwf. by apply list_elem_of_In.
Qed.

#[export] Instance Pod_lawful {T} (n : native T) : lawful_native n -> lawful (JsonSerializerPod n).
Proof.
  intros [Hn Hr]. split; simpl; [done | intros; apply Hn | |].
  - intros ms k v Hwf. unfold FindMember; simpl. unfold enc; simpl. intros ->. by apply Hr.
  - intros ms ms' k v Hk. unfold FindMember; simpl. by rewrite Hk.
Qed.

Lemma find_member_app k ms1 ms2 :
  find_member k (ms1 ++ ms2) = match find_member k ms1 with Some v => Some v | None => find_member k ms2 end.
Proof. induction ms1 as [|[k' v] ms1 IH]; simpl; [done|]. by destruct (String.eqb k k'). Qed.
Lemma find_member_None k ms : k ∉ ms.*1 -> find_member k ms = None.
Proof.
  induction ms as [|[k' v] ms IH]; simpl; [done|]. rewrite not_elem_of_cons. intros [Hk Hms].
  rewrite (proj2 (String.eqb_neq _ _)) by done. by apply IH.
Qed.

(** The members a tuple serializes to. *)
Fixpoint tuple_members (fs : list field_desc) : tuple fs -> list (string * Value) :=
  match fs with
  | [] => fun _ => []
  | f :: fs => fun t =>
      match t.1 with Some x => [(fd_name f, enc (fd_ser f) x)] | None => [] end ++ tuple_members fs t.2
  end.

(** [json_deserialize] of a serialized tuple: present fields replace, absent
    ones keep what the object held. *)
Fixpoint tuple_merge (fs : list field_desc) : tuple fs -> tuple fs -> tuple fs :=
  match fs with
  | [] => fun _ _ => tt
  | f :: fs => fun t t0 =>
      (match t.1 with Some x => Some x | None => t0.1 end, tuple_merge fs t.2 t0.2)
  end.

Fixpoint tuple_none (fs : list field_desc) : tuple fs :=
  match fs with
  | [] => tt
  | f :: fs => (None, tuple_none fs)
  end.

(** A field list is lawful when its names differ and its functors are lawful. *)
Class lawful_fields (fs : list field_desc) : Prop := {
  lf_names : NoDup (fd_name <$> fs);
  lf_sers : Forall (fun f => lawful (fd_ser f)) fs
}.

Lemma tuple_members_names fs t k : k ∈ (tuple_members fs t).*1 -> k ∈ fd_name <$> fs.
Proof.
  induction fs as [|f fs IH]; simpl; [done|]. rewrite fmap_app, elem_of_app, elem_of_cons.
  intros [Hk|Hk]; [left | right; by eapply IH].
  destruct t as [[x|] t]; simpl in Hk; [by apply list_elem_of_singleton in Hk | by apply not_elem_of_nil in Hk].
Qed.

Lemma json_serialize_members fs ms t :
  Forall (fun f => lawful (fd_ser f)) fs -> json_serialize fs ms t = ms ++ tuple_members fs t.
Proof.
  revert ms t. induction fs as [|f fs IH]; simpl; intros ms t Hl; [by rewrite app_nil_r|].
  inversion Hl as [|?? Hf Hfs]; subst. rewrite IH by done. destruct t as [[x|] t]; simpl; [|done].
  rewrite (lw_forward (lawful := Hf)), <- app_assoc. done.
Qed.

(** What a document must hold for [json_deserialize] to recover [t] from it. *)
Fixpoint holds (ms : list (string * Value)) (fs : list field_desc) : tuple fs -> Prop :=
  match fs with
  | [] => fun _ => True
  | f :: fs => fun t => find_member (fd_name f) ms = enc (fd_ser f) <$> t.1 /\ holds ms fs t.2
  end.

Lemma holds_cons_other k v ms fs t :
  k ∉ fd_name <$> fs -> holds ms fs t -> holds ((k, v) :: ms) fs t.
Proof.
  induction fs as [|f fs IH]; simpl; [done|]. rewrite not_elem_of_cons. intros [Hk Hfs] [Hf Ht].
  split; [rewrite (proj2 (String.eqb_neq _ _)); by auto | by apply IH].
Qed.

Lemma tuple_members_holds fs t : NoDup (fd_name <$> fs) -> holds (tuple_members fs t) fs t.
Proof.
  induction fs as [|f fs IH]; simpl; [done|]. rewrite NoDup_cons. intros [Hf Hfs].
  destruct t as [[x|] t]; simpl.
  - rewrite String.eqb_refl. split; [done|]. by apply holds_cons_other; [|apply IH].
  - split; [|by apply IH]. apply find_member_None. intros Hk. by apply tuple_members_names in Hk.
Qed.

Lemma json_deserialize_holds fs ms t t0 :
  Forall (fun f => lawful (fd_ser f)) fs -> tuple_wf fs t = true -> holds ms fs t ->
  json_deserialize fs (JObject ms) t0 = Ok (tuple_merge fs t t0).
Proof.
  induction fs as [|f fs IH]; simpl; [done|]. destruct t as [o t], t0 as [o0 t0]; simpl.
  intros Hl Hwf [Hm Ht]. inversion Hl as [|?? Hf Hfs]; subst. apply andb_true_iff in Hwf as [Hx Hwf].
  rewrite (IH t t0) by done.
  unfold optional_backward, FindMember; simpl. rewrite Hm. destruct o as [x|]; simpl; [|done].
  rewrite (lw_notnull (lawful := Hf)), (lw_backward (lawful := Hf) ms _ x) by done. done.
Qed.

(** ** Structs *)

(** The proof obligations of a [FIELDS_MAP]: its getters and setters fit, and
    no name is listed twice. *)
Class LawfulModel (A : Type) `{FieldsMap A} : Prop := {
  lm_fields :: lawful_fields (fm_fields A);
  lm_get_set t m : fm_get (fm_set t m) = t;
  lm_set_get m m0 : fm_listed m = true -> fm_listed m0 = true -> fm_set (fm_get m) m0 = m
}.

(** A struct no member of which has an initializer. *)
Class PlainModel (A : Type) `{FieldsMap A, DefaultInit A} : Prop := {
  pm_default : fm_get (A := A) default_init = tuple_none (fm_fields A);
  pm_listed : fm_listed (A := A) default_init = true
}.

Lemma tuple_merge_none fs t : tuple_merge fs t (tuple_none fs) = t.
Proof.
  induction fs as [|f fs IH]; simpl; [by destruct t|]. destruct t as [[x|] t]; simpl; by rewrite IH.
Qed.

Section model.
Context {A : Type} `{LawfulModel A}.

(** Deserializing a serialized struct into an existing object [m0]: a member
    that was set arrives, one that was empty keeps the value it has in [m0]. *)
Lemma jdeserialize_jserialize (m m0 : A) :
  model_wf m = true ->
  jdeserialize (jserialize m) m0 = Ok (fm_set (tuple_merge _ (fm_get m) (fm_get m0)) m0).
Proof.
  unfold model_wf, jdeserialize, jserialize. intros [_ Hwf]%andb_true_iff.
  destruct lm_fields as [Hn Hs].
  rewrite json_serialize_members by done. simpl.
  rewrite (json_deserialize_holds _ _ (fm_get m)) by (done || by apply tuple_members_holds).
  done.
Qed.

Lemma jdeserialize_plain `{!DefaultInit A, !PlainModel A} (m : A) :
  model_wf m = true -> jdeserialize (jserialize m) default_init = Ok m.
Proof.
  intros Hwf. rewrite jdeserialize_jserialize by done. f_equal.
  rewrite pm_default, tuple_merge_none. apply lm_set_get; [|apply pm_listed].
  by apply andb_true_iff in Hwf as [? _].
Qed.

#[export] Instance JsonSerializer_lawful `{!DefaultInit A, !PlainModel A} : lawful (JsonSerializer A).
Proof.
  split; simpl; [done | done | |]; unfold FindMember, enc; simpl.
  - intros ms k v Hwf ->. by apply jdeserialize_plain.
  - intros ms ms' k v Hk. by rewrite Hk.
Qed.

#[export] Instance JsonSerializerVector_lawful `{!DefaultInit A, !PlainModel A} : lawful (JsonSerializerVector A).
Proof.
  split; simpl; [done | done | |]; unfold FindMember, enc; simpl; [|by intros ms ms' k v ->].
  intros ms k v Hwf ->. rewrite (traverse_map_ok _ _ id), map_id; [done|].
  apply Forall_forall; intros x Hx. apply jdeserialize_plain.
  rewrite forallb_forall in Hwf. apply Hwf. by apply list_elem_of_In.
Qed.
End model.

#[export] Existing Instances JsonSerializer_lawful JsonSerializerVector_lawful.
