(* ===== verification/FloatFacts.v ===== *)
(** * Narrowing a double to a float

    The adapter of [float] ([core/json/serialization.hpp]) reads a double and converts it.
    Converting what was converted changes nothing: rounding gives a number in the format's
    canonical form, such a number is a double exactly, and rounds to itself. *)

From stdpp Require Import base strings list.
From Stdlib Require Import ZArith Lia SpecFloat.
From S2P Require Import Prelude Json.

(** ** Digits and shifts *)

Lemma digits_log2 m : Zpos (digits2_pos m) = Z.log2 (Zpos m) + 1.
Proof.
  induction m as [m IH|m IH|]; cbn [digits2_pos]; [| |reflexivity]; rewrite Pos2Z.inj_succ, IH.
  - rewrite (Pos2Z.inj_xI m), Z.log2_succ_double by lia. lia.
  - rewrite (Pos2Z.inj_xO m), Z.log2_double by lia. lia.
Qed.

(** The digits of a number between two powers of two. *)
Lemma digits_unique m k : 0 <= k -> 2 ^ k <= Zpos m < 2 ^ (k + 1) -> Zpos (digits2_pos m) = k + 1.
Proof. intros Hk Hm. rewrite digits_log2, (Z.log2_unique _ k); lia. Qed.
Lemma digits_bounds m : 2 ^ (Zpos (digits2_pos m) - 1) <= Zpos m < 2 ^ Zpos (digits2_pos m).
Proof. pose proof (Z.log2_spec (Zpos m) ltac:(lia)) as H. rewrite digits_log2. replace (Z.log2 (Z.pos m) + 1 - 1) with (Z.log2 (Z.pos m)) by lia. lia. Qed.

Lemma iter_pos_iter {A} (f : A -> A) n x : iter_pos f n x = Pos.iter f x n.
Proof.
  revert x. induction n as [n IH|n IH|]; intros x; cbn [iter_pos Pos.iter]; rewrite ?IH; try done.
  by rewrite <- !Pos.iter_swap.
Qed.

Lemma shr_1_half r : 0 <= shr_m r -> shr_m (shr_1 r) = shr_m r / 2.
Proof.
  destruct r as [m r s]. cbn [shr_m]. intros Hm. destruct m as [|[p|p|]|p]; try done; cbn [shr_1 shr_m].
  - rewrite (Pos2Z.inj_xI p). rewrite <- (Z.div_unique (2 * Z.pos p + 1) 2 (Z.pos p) 1); lia.
  - rewrite (Pos2Z.inj_xO p), Z.mul_comm, Z.div_mul; lia.
Qed.
Lemma shr_1_exact m : shr_1 (Build_shr_record (2 * m) false false) = Build_shr_record m false false.
Proof. by destruct m. Qed.

Lemma iter_shr r n : 0 <= shr_m r -> shr_m (iter_pos shr_1 n r) = shr_m r / 2 ^ Zpos n.
Proof.
  rewrite iter_pos_iter. intros Hr. induction n as [|n IH] using Pos.peano_ind; [by apply shr_1_half|].
  rewrite Pos.iter_succ, shr_1_half, IH by (rewrite IH; apply Z.div_pos; [done | apply Z.pow_pos_nonneg; lia]).
  rewrite Pos2Z.inj_succ, Z.pow_succ_r, (Z.mul_comm 2), Z.div_div by lia. done.
Qed.
Lemma iter_shr_exact m n :
  iter_pos shr_1 n (Build_shr_record (m * 2 ^ Zpos n) false false) = Build_shr_record m false false.
Proof.
  rewrite iter_pos_iter. induction n as [|n IH] using Pos.peano_ind.
  - change (Pos.iter shr_1 ?x 1) with (shr_1 x). by rewrite Z.mul_comm, shr_1_exact.
  - rewrite Pos.iter_succ_r, Pos2Z.inj_succ, Z.pow_succ_r by lia.
    replace (m * (2 * 2 ^ Z.pos n)) with (2 * (m * 2 ^ Z.pos n)) by lia. by rewrite shr_1_exact.
Qed.
Lemma iter_xO m n : Zpos (Pos.iter xO m n) = Zpos m * 2 ^ Zpos n.
Proof.
  induction n as [|n IH] using Pos.peano_ind; [simpl; lia|].
  rewrite Pos.iter_succ, Pos2Z.inj_succ, Z.pow_succ_r by lia. rewrite (Pos2Z.inj_xO (Pos.iter _ _ _)), IH. lia.
Qed.

(** ** Rounding *)

Section rounding.
Context (prec emax : Z).
Hypothesis prec_two : 2 <= prec.

Abbreviation fexp := (fexp prec emax).
Abbreviation emin := (emin prec emax).

Lemma shr_div m e n l : 0 <= m -> 0 <= n ->
  exists r, shr (shr_record_of_loc m l) e n = (r, e + n) /\ shr_m r = m / 2 ^ n.
Proof.
  intros Hm Hn. assert (Hr : shr_m (shr_record_of_loc m l) = m) by by destruct l as [|[]].
  destruct n as [|n|n]; [|..|lia]; cbn [shr].
  - eexists. split; [by rewrite Z.add_0_r|]. rewrite Hr, Z.pow_0_r, Z.div_1_r. done.
  - eexists. split; [done|]. rewrite iter_shr; by rewrite Hr.
Qed.

Lemma shr_zero e n : exists r e', shr (shr_record_of_loc 0 loc_Exact) e n = (r, e') /\ shr_m r = 0.
Proof.
  destruct n as [|n|n]; cbn [shr]; [by do 2 eexists| |by do 2 eexists]. do 2 eexists. split; [done|].
  rewrite iter_shr by done. apply Z.div_0_l, Z.pow_nonzero; lia.
Qed.

(** Rounding to the nearest adds at most one. *)
Lemma round_cases m l : round_nearest_even m l = m \/ round_nearest_even m l = m + 1.
Proof. destruct l as [|[]]; cbn; try destruct (Z.even m); auto. Qed.

(** The second shift, when [m] has [k + 1] digits: none, or one after a carry. *)
Lemma second_shift s m2 e1 k s' m e :
  0 <= k -> 2 ^ k <= m2 <= 2 ^ (k + 1) -> fexp (k + 1 + e1) = e1 ->
  (let '(r, e2) := shr_fexp prec emax m2 e1 loc_Exact in
   match shr_m r with
   | Z0 => S754_zero s
   | Zpos m => if e2 <=? emax - prec then S754_finite s m e2 else S754_infinity s
   | _ => S754_nan
   end) = S754_finite s' m e ->
  bounded prec emax m e = true.
Proof.
  intros Hk Hm2 He1. unfold shr_fexp. pose proof (Z.pow_pos_nonneg 2 k ltac:(lia) Hk) as Hpos.
  destruct m2 as [|m2|m2]; [lia| |lia]. cbn [Zdigits2].
  destruct (decide (Zpos m2 = 2 ^ (k + 1))) as [Heq|Hne].
  - assert (Hd : Zpos (digits2_pos m2) = k + 2).
    { rewrite (digits_unique m2 (k + 1)); [lia..|]. rewrite Heq. split; [lia|]. apply Z.pow_lt_mono_r; lia. }
    rewrite Hd. assert (Hs : fexp (k + 2 + e1) - e1 = 0 \/ fexp (k + 2 + e1) - e1 = 1 /\ k + 1 = prec).
    { unfold SpecFloat.fexp in *. lia. }
    destruct Hs as [Hs|[Hs Hp]]; rewrite Hs; cbn [shr]; [|change (iter_pos shr_1 1 ?x) with (shr_1 x); cbn [shr_record_of_loc]].
    + destruct (_ <=? _) eqn:Hle; [|done]. intros [= <- <- <-]. unfold bounded, canonical_mantissa. rewrite Hd, Hle.
      apply andb_true_iff. split; [apply Z.eqb_eq; lia | done].
    + rewrite Z.pow_add_r, Z.pow_1_r, Z.mul_comm in Heq by lia. rewrite Heq, shr_1_exact. cbn [shr_m].
      destruct (2 ^ k) as [|p|p] eqn:Hp2; [lia| |lia]. destruct (_ <=? _) eqn:Hle; [|done]. intros [= <- <- <-].
      unfold bounded, canonical_mantissa. rewrite Hle, (digits_unique p k); [|lia|].
      * apply andb_true_iff. split; [|done]. apply Z.eqb_eq. unfold SpecFloat.fexp in *. lia.
      * rewrite <- Hp2. split; [lia|]. apply Z.pow_lt_mono_r; lia.
  - rewrite (digits_unique m2 k), He1, Z.sub_diag by lia. cbn [shr shr_record_of_loc shr_m].
    destruct (_ <=? _) eqn:Hle; [|done]. intros [= <- <- <-]. unfold bounded, canonical_mantissa.
    rewrite (digits_unique m2 k), He1, Hle, Z.eqb_refl by lia. done.
Qed.

(** What rounding gives is in canonical form. *)
Lemma round_aux_bounded s mx ex s' m e :
  ex <= fexp (Zpos (digits2_pos mx) + ex) ->
  binary_round_aux prec emax s (Zpos mx) ex loc_Exact = S754_finite s' m e -> bounded prec emax m e = true.
Proof.
  intros Hex. unfold binary_round_aux. unfold shr_fexp at 1. cbn [Zdigits2]. pose proof (digits_bounds mx) as Hmx.
  set (d := Zpos (digits2_pos mx)) in *. assert (Hd : 1 <= d) by (unfold d; lia). set (n := fexp (d + ex) - ex).
  destruct (shr_div (Zpos mx) ex n loc_Exact ltac:(lia) ltac:(lia)) as (r & -> & Hr).
  pose proof (round_cases (shr_m r) (loc_of_shr_record r)) as Hround. revert Hround.
  generalize (round_nearest_even (shr_m r) (loc_of_shr_record r)). intros m2 Hround.
  destruct (decide (d <= n)) as [Hsmall|Hbig].
  - assert (shr_m r = 0) as Hr0.
    { rewrite Hr. apply Z.div_small. split; [lia|]. apply Z.lt_le_trans with (2 ^ d); [lia|]. apply Z.pow_le_mono_r; lia. }
    destruct Hround as [->| ->]; rewrite Hr0.
    + unfold shr_fexp. destruct (shr_zero (ex + n) (fexp (Zdigits2 0 + (ex + n)) - (ex + n))) as (r0 & e0 & -> & ->). done.
    + apply (second_shift s 1 (ex + n) 0); [lia | simpl; lia|]. unfold n, SpecFloat.fexp in *. lia.
  - apply (second_shift s m2 (ex + n) (d - n - 1)); [lia| |].
    + assert (Hdiv : 2 ^ (d - n - 1) <= shr_m r < 2 ^ (d - n)).
      { rewrite Hr. split.
        - apply Z.div_le_lower_bound; [apply Z.pow_pos_nonneg; lia|]. rewrite <- Z.pow_add_r by lia.
          replace (n + (d - n - 1)) with (d - 1) by lia. lia.
        - apply Z.div_lt_upper_bound; [apply Z.pow_pos_nonneg; lia|]. rewrite <- Z.pow_add_r by lia.
          replace (n + (d - n)) with d by lia. lia. }
      replace (d - n - 1 + 1) with (d - n) by lia. lia.
    + replace (d - n - 1 + 1 + (ex + n)) with (d + ex) by lia. lia.
Qed.

Lemma digits_shift m k m2 : 0 <= k -> Zpos m2 = Zpos m * 2 ^ k -> Zpos (digits2_pos m2) = Zpos (digits2_pos m) + k.
Proof. intros Hk Hm. rewrite !digits_log2, Hm, Z.log2_mul_pow2; lia. Qed.

Lemma round_bounded s mx ex s' m e : binary_round prec emax s mx ex = S754_finite s' m e -> bounded prec emax m e = true.
Proof.
  unfold binary_round, shl_align. destruct (fexp _ - ex) as [|p|p] eqn:Hf; intros H.
  - eapply round_aux_bounded; [|exact H]. lia.
  - eapply round_aux_bounded; [|exact H]. lia.
  - eapply round_aux_bounded; [|exact H]. rewrite (digits_shift mx (Zpos p) _ ltac:(lia) (iter_xO mx p)).
    replace (Z.pos (digits2_pos mx) + Z.pos p + fexp (Z.pos (digits2_pos mx) + ex)) with (Z.pos (digits2_pos mx) + ex) by lia. lia.
Qed.

Lemma shift_none m e : canonical_mantissa prec emax m e = true ->
  shr_fexp prec emax (Zpos m) e loc_Exact = (Build_shr_record (Zpos m) false false, e).
Proof. intros Hc%Z.eqb_eq. unfold shr_fexp. cbn [Zdigits2]. by rewrite Hc, Z.sub_diag. Qed.

(** A number in canonical form is found whatever the form it is given in. *)
Lemma round_aux_exact s m e k mk : bounded prec emax m e = true -> 0 <= k -> Zpos mk = Zpos m * 2 ^ k ->
  binary_round_aux prec emax s (Zpos mk) (e - k) loc_Exact = S754_finite s m e.
Proof.
  intros [Hc He]%andb_true_iff Hk Hmk. unfold binary_round_aux. unfold shr_fexp at 1. cbn [Zdigits2].
  rewrite (digits_shift m k mk Hk Hmk).
  assert (Hf : fexp (Z.pos (digits2_pos m) + k + (e - k)) - (e - k) = k).
  { replace (Z.pos (digits2_pos m) + k + (e - k)) with (Z.pos (digits2_pos m) + e) by lia.
    apply Z.eqb_eq in Hc. lia. }
  rewrite Hf. assert (Hshr : shr (shr_record_of_loc (Zpos mk) loc_Exact) (e - k) k = (Build_shr_record (Zpos m) false false, e)).
  { destruct k as [|k|k]; [|..|lia]; cbn [shr shr_record_of_loc].
    - rewrite Z.sub_0_r. repeat f_equal. lia.
    - rewrite Hmk, iter_shr_exact. f_equal. lia. }
  rewrite Hshr. cbn [shr_m loc_of_shr_record round_nearest_even]. by rewrite shift_none, He.
Qed.

Lemma round_down s m e k mk : bounded prec emax m e = true -> 0 <= k -> Zpos mk = Zpos m * 2 ^ k ->
  binary_round prec emax s mk (e - k) = S754_finite s m e.
Proof.
  intros Hb Hk Hmk. unfold binary_round, shl_align. rewrite (digits_shift m k mk Hk Hmk).
  replace (Z.pos (digits2_pos m) + k + (e - k)) with (Z.pos (digits2_pos m) + e) by lia.
  pose proof Hb as [Hc%Z.eqb_eq _]%andb_true_iff. rewrite Hc.
  replace (e - (e - k)) with k by lia. destruct k as [|k|k]; [|..|lia]; by apply round_aux_exact.
Qed.

Lemma round_up s m e k mk : bounded prec emax mk (e - k) = true -> 0 <= k -> Zpos mk = Zpos m * 2 ^ k ->
  binary_round prec emax s m e = S754_finite s mk (e - k).
Proof.
  intros Hb Hk Hmk. unfold binary_round, shl_align.
  assert (Hf : fexp (Z.pos (digits2_pos m) + e) = e - k).
  { pose proof Hb as [Hc%Z.eqb_eq _]%andb_true_iff. rewrite (digits_shift m k mk Hk Hmk) in Hc.
    by replace (Z.pos (digits2_pos m) + e) with (Z.pos (digits2_pos m) + k + (e - k)) by lia. }
  rewrite Hf. replace (e - k - e) with (- k) by lia.
  pose proof (round_aux_exact s mk (e - k) 0 mk Hb ltac:(lia) ltac:(lia)) as Hr. rewrite Z.sub_0_r in Hr.
  destruct k as [|k|k]; [|..|lia]; cbn [Z.opp].
  - assert (m = mk) as -> by (simpl in Hmk; lia). rewrite Z.sub_0_r in *. exact Hr.
  - change (binary_round_aux prec emax s (Zpos (Pos.iter xO m k)) (e - Zpos k) loc_Exact = S754_finite s mk (e - Zpos k)).
    by rewrite iter_xO, <- Hmk.
Qed.

Lemma normalize_round s m e z : binary_normalize prec emax (cond_Zopp s (Zpos m)) e z = binary_round prec emax s m e.
Proof. by destruct s. Qed.
End rounding.

(** ** Floats in doubles *)

(** A float is a double with the same value. *)
Lemma widen m e : bounded 24 128 m e = true ->
  exists k mk, 0 <= k /\ Zpos mk = Zpos m * 2 ^ k /\ bounded 53 1024 mk (e - k) = true.
Proof.
  intros [Hc He]%andb_true_iff. apply Z.eqb_eq in Hc. apply Z.leb_le in He. unfold fexp, emin in Hc.
  set (d := Zpos (digits2_pos m)) in *. assert (Hd : 1 <= d <= 24) by (unfold d in *; lia).
  set (k := e - fexp 53 1024 (d + e)). assert (Hk : 0 <= k) by (unfold k, fexp, emin; lia).
  destruct (Zpos m * 2 ^ k) as [|mk|mk] eqn:Hmk; try (pose proof (Z.pow_pos_nonneg 2 k); lia).
  exists k, mk. do 2 (split; [done|]). apply andb_true_iff. split.
  - apply Z.eqb_eq. rewrite (digits_shift m k mk Hk ltac:(lia)). fold d.
    replace (d + k + (e - k)) with (d + e) by lia. unfold k. lia.
  - apply Z.leb_le. unfold k, fexp, emin. lia.
Qed.

(** Converting a second time changes nothing. *)
Lemma to_float_idemp d : to_float (to_float d) = to_float d.
Proof.
  destruct d as [| | |s m e]; try done. unfold to_float at 2 3. rewrite normalize_round.
  destruct (binary_round 24 128 s m e) as [s'|s'| |s' m' e'] eqn:Hr; try done.
  apply round_bounded in Hr; [|lia]. destruct (widen _ _ Hr) as (k & mk & Hk & Hmk & Hb).
  rewrite normalize_round, (round_up 53 1024 s' m' e' k mk Hb Hk Hmk). unfold to_float.
  rewrite normalize_round, (round_down 24 128 s' m' e' k mk Hr Hk Hmk), normalize_round.
  by apply round_up.
Qed.
