(* ===== verification/SignalingModels.v ===== *)
(** * The signaling messages

    One record per struct of [core/service/signaling_models.h], with the struct's
    [FIELDS_MAP] as an instance of [FieldsMap] (the JSON names, in the order the
    macro lists them) and the proof that the map is lawful.  A struct [A::B] of
    the header is the record [A_B], its member [x] the field [A_B_x].  All members
    are [absl::optional]s.  A struct whose [id] starts from [generateID()] has a
    constructor [A_new gid] with the drawn number as its argument. *)

From stdpp Require Import base strings list.
From Stdlib Require Import ZArith Lia SpecFloat.
From S2P Require Import Prelude Json.

#[local] Open Scope string_scope.

(** The functors [json_serialize] selects for the native member types. *)
Abbreviation pod_bool := (JsonSerializerPod bool_native).
Abbreviation pod_int32 := (JsonSerializerPod int_native).
Abbreviation pod_int64 := (JsonSerializerPod int64_native).
Abbreviation pod_string := (JsonSerializerPod string_native).
Abbreviation pod_double := (JsonSerializerPod double_native).
Abbreviation pod_float := (JsonSerializerPod float_native).
Abbreviation pod_int32s := (JsonSerializerPod (vector_native int_native)).

(** [generateID()] draws from [uniform_int_distribution<int32_t>(0, INT32_MAX)]:
    the numbers it can return. *)
Definition generateID (gid : Z) : bool := ((0 <=? gid) && (gid <=? INT32_MAX))%Z.

(** Discharges the obligations of one [FIELDS_MAP]. *)
Ltac destruct_tuple :=
  repeat match goal with
         | t : tuple _ |- _ => simpl in t
         | t : (_ * _)%type |- _ => destruct t
         | t : unit |- _ => destruct t
         end.
Ltac solve_model :=
  split;
  [ split; [apply (bool_decide_unpack _); vm_compute; exact I | repeat (apply List.Forall_cons; [simpl; apply _|]); apply List.Forall_nil]
  | intros t m; destruct_tuple; reflexivity
  | intros [] []; cbn -[bool_decide]; rewrite ?andb_true_iff, ?bool_decide_eq_true; intros; subst; reflexivity ].

(** [signaling::MessageType] *)
Record MessageType : Type := mk_MessageType {
  MessageType_request : option bool;
  MessageType_response : option bool;
  MessageType_notification : option bool
}.
#[export] Instance MessageType_map : FieldsMap MessageType := {|
  fm_fields := [
    field "request" pod_bool;
    field "response" pod_bool;
    field "notification" pod_bool];
  fm_get m :=
    (m.(MessageType_request), (m.(MessageType_response), (m.(MessageType_notification), tt)));
  fm_set t m :=
    let '(x0, (x1, (x2, _))) := t in
    mk_MessageType x0 x1 x2;
  fm_listed m := true |}.
#[export] Instance MessageType_init : DefaultInit MessageType :=
  mk_MessageType None None None.
#[export] Instance MessageType_lawful : LawfulModel MessageType.
Proof. solve_model. Qed.
#[export] Instance MessageType_plain : PlainModel MessageType.
Proof. by split. Qed.

(** [signaling::RequestHeader] *)
Record RequestHeader : Type := mk_RequestHeader {
  RequestHeader_request : option bool;
  RequestHeader_id : option Z;
  RequestHeader_method : option string
}.
#[export] Instance RequestHeader_map : FieldsMap RequestHeader := {|
  fm_fields := [
    field "request" pod_bool;
    field "id" pod_int64;
    field "method" pod_string];
  fm_get m :=
    (m.(RequestHeader_request), (m.(RequestHeader_id), (m.(RequestHeader_method), tt)));
  fm_set t m :=
    let '(x0, (x1, (x2, _))) := t in
    mk_RequestHeader x0 x1 x2;
  fm_listed m := true |}.
#[export] Instance RequestHeader_init : DefaultInit RequestHeader :=
  mk_RequestHeader None None None.
#[export] Instance RequestHeader_lawful : LawfulModel RequestHeader.
Proof. solve_model. Qed.
#[export] Instance RequestHeader_plain : PlainModel RequestHeader.
Proof. by split. Qed.

(** [signaling::ResponseHeader] *)
Record ResponseHeader : Type := mk_ResponseHeader {
  ResponseHeader_response : option bool;
  ResponseHeader_id : option Z;
  ResponseHeader_ok : option bool
}.
#[export] Instance ResponseHeader_map : FieldsMap ResponseHeader := {|
  fm_fields := [
    field "response" pod_bool;
    field "id" pod_int64;
    field "ok" pod_bool];
  fm_get m :=
    (m.(ResponseHeader_response), (m.(ResponseHeader_id), (m.(ResponseHeader_ok), tt)));
  fm_set t m :=
    let '(x0, (x1, (x2, _))) := t in
    mk_ResponseHeader x0 x1 x2;
  fm_listed m := true |}.
#[export] Instance ResponseHeader_init : DefaultInit ResponseHeader :=
  mk_ResponseHeader None None None.
#[export] Instance ResponseHeader_lawful : LawfulModel ResponseHeader.
Proof. solve_model. Qed.
#[export] Instance ResponseHeader_plain : PlainModel ResponseHeader.
Proof. by split. Qed.

(** [signaling::NotificationHeader] *)
Record NotificationHeader : Type := mk_NotificationHeader {
  NotificationHeader_notification : option bool;
  NotificationHeader_method : option string
}.
#[export] Instance NotificationHeader_map : FieldsMap NotificationHeader := {|
  fm_fields := [
    field "notification" pod_bool;
    field "method" pod_string];
  fm_get m :=
    (m.(NotificationHeader_notification), (m.(NotificationHeader_method), tt));
  fm_set t m :=
    let '(x0, (x1, _)) := t in
    mk_NotificationHeader x0 x1;
  fm_listed m := true |}.
#[export] Instance NotificationHeader_init : DefaultInit NotificationHeader :=
  mk_NotificationHeader None None.
#[export] Instance NotificationHeader_lawful : LawfulModel NotificationHeader.
Proof. solve_model. Qed.
#[export] Instance NotificationHeader_plain : PlainModel NotificationHeader.
Proof. by split. Qed.

(** [signaling::BasicResponse] *)
Record BasicResponse : Type := mk_BasicResponse {
  BasicResponse_response : option bool;
  BasicResponse_id : option Z;
  BasicResponse_ok : option bool
}.
#[export] Instance BasicResponse_map : FieldsMap BasicResponse := {|
  fm_fields := [
    field "response" pod_bool;
    field "id" pod_int64;
    field "ok" pod_bool];
  fm_get m :=
    (m.(BasicResponse_response), (m.(BasicResponse_id), (m.(BasicResponse_ok), tt)));
  fm_set t m :=
    let '(x0, (x1, (x2, _))) := t in
    mk_BasicResponse x0 x1 x2;
  fm_listed m := true |}.
#[export] Instance BasicResponse_init : DefaultInit BasicResponse :=
  mk_BasicResponse None None None.
#[export] Instance BasicResponse_lawful : LawfulModel BasicResponse.
Proof. solve_model. Qed.
#[export] Instance BasicResponse_plain : PlainModel BasicResponse.
Proof. by split. Qed.

(** [signaling::GetRouterRtpCapabilitiesRequest] *)
Record GetRouterRtpCapabilitiesRequest : Type := mk_GetRouterRtpCapabilitiesRequest {
  GetRouterRtpCapabilitiesRequest_request : option bool;
  GetRouterRtpCapabilitiesRequest_id : option Z;
  GetRouterRtpCapabilitiesRequest_method : option string
}.
#[export] Instance GetRouterRtpCapabilitiesRequest_map : FieldsMap GetRouterRtpCapabilitiesRequest := {|
  fm_fields := [
    field "request" pod_bool;
    field "id" pod_int64;
    field "method" pod_string];
  fm_get m :=
    (m.(GetRouterRtpCapabilitiesRequest_request), (m.(GetRouterRtpCapabilitiesRequest_id),
    (m.(GetRouterRtpCapabilitiesRequest_method), tt)));
  fm_set t m :=
    let '(x0, (x1, (x2, _))) := t in
    mk_GetRouterRtpCapabilitiesRequest x0 x1 x2;
  fm_listed m := true |}.
Definition GetRouterRtpCapabilitiesRequest_new (gid : Z) : GetRouterRtpCapabilitiesRequest :=
  mk_GetRouterRtpCapabilitiesRequest (Some true) (Some gid) (Some "getRouterRtpCapabilities").
#[export] Instance GetRouterRtpCapabilitiesRequest_lawful : LawfulModel GetRouterRtpCapabilitiesRequest.
Proof. solve_model. Qed.

(** [signaling::GetRouterRtpCapabilitiesResponse::RTCPFeedback] *)
Record GetRouterRtpCapabilitiesResponse_RTCPFeedback : Type := mk_GetRouterRtpCapabilitiesResponse_RTCPFeedback {
  GetRouterRtpCapabilitiesResponse_RTCPFeedback_type : option string;
  GetRouterRtpCapabilitiesResponse_RTCPFeedback_parameter : option string
}.
#[export] Instance GetRouterRtpCapabilitiesResponse_RTCPFeedback_map : FieldsMap GetRouterRtpCapabilitiesResponse_RTCPFeedback := {|
  fm_fields := [
    field "type" pod_string;
    field "parameter" pod_string];
  fm_get m :=
    (m.(GetRouterRtpCapabilitiesResponse_RTCPFeedback_type),
    (m.(GetRouterRtpCapabilitiesResponse_RTCPFeedback_parameter), tt));
  fm_set t m :=
    let '(x0, (x1, _)) := t in
    mk_GetRouterRtpCapabilitiesResponse_RTCPFeedback x0 x1;
  fm_listed m := true |}.
#[export] Instance GetRouterRtpCapabilitiesResponse_RTCPFeedback_init : DefaultInit GetRouterRtpCapabilitiesResponse_RTCPFeedback :=
  mk_GetRouterRtpCapabilitiesResponse_RTCPFeedback None None.
#[export] Instance GetRouterRtpCapabilitiesResponse_RTCPFeedback_lawful : LawfulModel GetRouterRtpCapabilitiesResponse_RTCPFeedback.
Proof. solve_model. Qed.
#[export] Instance GetRouterRtpCapabilitiesResponse_RTCPFeedback_plain : PlainModel GetRouterRtpCapabilitiesResponse_RTCPFeedback.
Proof. by split. Qed.

(** [signaling::GetRouterRtpCapabilitiesResponse::Parameters] *)
Record GetRouterRtpCapabilitiesResponse_Parameters : Type := mk_GetRouterRtpCapabilitiesResponse_Parameters {
  GetRouterRtpCapabilitiesResponse_Parameters_apt : option Z;
  GetRouterRtpCapabilitiesResponse_Parameters_levelAsymmetryAllowed : option Z;
  GetRouterRtpCapabilitiesResponse_Parameters_packetizationMode : option Z;
  GetRouterRtpCapabilitiesResponse_Parameters_profileLevelId : option string;
  GetRouterRtpCapabilitiesResponse_Parameters_xGoogleStartBitrate : option Z
}.
#[export] Instance GetRouterRtpCapabilitiesResponse_Parameters_map : FieldsMap GetRouterRtpCapabilitiesResponse_Parameters := {|
  fm_fields := [
    field "apt" pod_int32;
    field "level-asymmetry-allowed" pod_int32;
    field "packetization-mode" pod_int32;
    field "profile-level-id" pod_string;
    field "x-google-start-bitrate" pod_int32];
  fm_get m :=
    (m.(GetRouterRtpCapabilitiesResponse_Parameters_apt),
    (m.(GetRouterRtpCapabilitiesResponse_Parameters_levelAsymmetryAllowed),
    (m.(GetRouterRtpCapabilitiesResponse_Parameters_packetizationMode),
    (m.(GetRouterRtpCapabilitiesResponse_Parameters_profileLevelId),
    (m.(GetRouterRtpCapabilitiesResponse_Parameters_xGoogleStartBitrate), tt)))));
  fm_set t m :=
    let '(x0, (x1, (x2, (x3, (x4, _))))) := t in
    mk_GetRouterRtpCapabilitiesResponse_Parameters x0 x1 x2 x3 x4;
  fm_listed m := true |}.
#[export] Instance GetRouterRtpCapabilitiesResponse_Parameters_init : DefaultInit GetRouterRtpCapabilitiesResponse_Parameters :=
  mk_GetRouterRtpCapabilitiesResponse_Parameters None None None None None.
#[export] Instance GetRouterRtpCapabilitiesResponse_Parameters_lawful : LawfulModel GetRouterRtpCapabilitiesResponse_Parameters.
Proof. solve_model. Qed.
#[export] Instance GetRouterRtpCapabilitiesResponse_Parameters_plain : PlainModel GetRouterRtpCapabilitiesResponse_Parameters.
Proof. by split. Qed.

(** [signaling::GetRouterRtpCapabilitiesResponse::Codec] *)
Record GetRouterRtpCapabilitiesResponse_Codec : Type := mk_GetRouterRtpCapabilitiesResponse_Codec {
  GetRouterRtpCapabilitiesResponse_Codec_kind : option string;
  GetRouterRtpCapabilitiesResponse_Codec_mimeType : option string;
  GetRouterRtpCapabilitiesResponse_Codec_clockRate : option Z;
  GetRouterRtpCapabilitiesResponse_Codec_channels : option Z;
  GetRouterRtpCapabilitiesResponse_Codec_rtcpFeedback : option (list GetRouterRtpCapabilitiesResponse_RTCPFeedback);
  GetRouterRtpCapabilitiesResponse_Codec_parameters : option GetRouterRtpCapabilitiesResponse_Parameters;
  GetRouterRtpCapabilitiesResponse_Codec_preferredPayloadType : option Z
}.
#[export] Instance GetRouterRtpCapabilitiesResponse_Codec_map : FieldsMap GetRouterRtpCapabilitiesResponse_Codec := {|
  fm_fields := [
    field "kind" pod_string;
    field "mimeType" pod_string;
    field "clockRate" pod_int32;
    field "channels" pod_int32;
    field "rtcpFeedback" (JsonSerializerVector GetRouterRtpCapabilitiesResponse_RTCPFeedback);
    field "parameters" (JsonSerializer GetRouterRtpCapabilitiesResponse_Parameters);
    field "preferredPayloadType" pod_int32];
  fm_get m :=
    (m.(GetRouterRtpCapabilitiesResponse_Codec_kind),
    (m.(GetRouterRtpCapabilitiesResponse_Codec_mimeType),
    (m.(GetRouterRtpCapabilitiesResponse_Codec_clockRate),
    (m.(GetRouterRtpCapabilitiesResponse_Codec_channels),
    (m.(GetRouterRtpCapabilitiesResponse_Codec_rtcpFeedback),
    (m.(GetRouterRtpCapabilitiesResponse_Codec_parameters),
    (m.(GetRouterRtpCapabilitiesResponse_Codec_preferredPayloadType), tt)))))));
  fm_set t m :=
    let '(x0, (x1, (x2, (x3, (x4, (x5, (x6, _))))))) := t in
    mk_GetRouterRtpCapabilitiesResponse_Codec x0 x1 x2 x3 x4 x5 x6;
  fm_listed m := true |}.
#[export] Instance GetRouterRtpCapabilitiesResponse_Codec_init : DefaultInit GetRouterRtpCapabilitiesResponse_Codec :=
  mk_GetRouterRtpCapabilitiesResponse_Codec None None None None None None None.
#[export] Instance GetRouterRtpCapabilitiesResponse_Codec_lawful : LawfulModel GetRouterRtpCapabilitiesResponse_Codec.
Proof. solve_model. Qed.
#[export] Instance GetRouterRtpCapabilitiesResponse_Codec_plain : PlainModel GetRouterRtpCapabilitiesResponse_Codec.
Proof. by split. Qed.

(** [signaling::GetRouterRtpCapabilitiesResponse::HeaderExtension] *)
Record GetRouterRtpCapabilitiesResponse_HeaderExtension : Type := mk_GetRouterRtpCapabilitiesResponse_HeaderExtension {
  GetRouterRtpCapabilitiesResponse_HeaderExtension_kind : option string;
  GetRouterRtpCapabilitiesResponse_HeaderExtension_uri : option string;
  GetRouterRtpCapabilitiesResponse_HeaderExtension_preferredId : option Z;
  GetRouterRtpCapabilitiesResponse_HeaderExtension_preferredEncrypt : option bool;
  GetRouterRtpCapabilitiesResponse_HeaderExtension_direction : option string
}.
#[export] Instance GetRouterRtpCapabilitiesResponse_HeaderExtension_map : FieldsMap GetRouterRtpCapabilitiesResponse_HeaderExtension := {|
  fm_fields := [
    field "kind" pod_string;
    field "uri" pod_string;
    field "preferredId" pod_int32;
    field "preferredEncrypt" pod_bool;
    field "direction" pod_string];
  fm_get m :=
    (m.(GetRouterRtpCapabilitiesResponse_HeaderExtension_kind),
    (m.(GetRouterRtpCapabilitiesResponse_HeaderExtension_uri),
    (m.(GetRouterRtpCapabilitiesResponse_HeaderExtension_preferredId),
    (m.(GetRouterRtpCapabilitiesResponse_HeaderExtension_preferredEncrypt),
    (m.(GetRouterRtpCapabilitiesResponse_HeaderExtension_direction), tt)))));
  fm_set t m :=
    let '(x0, (x1, (x2, (x3, (x4, _))))) := t in
    mk_GetRouterRtpCapabilitiesResponse_HeaderExtension x0 x1 x2 x3 x4;
  fm_listed m := true |}.
#[export] Instance GetRouterRtpCapabilitiesResponse_HeaderExtension_init : DefaultInit GetRouterRtpCapabilitiesResponse_HeaderExtension :=
  mk_GetRouterRtpCapabilitiesResponse_HeaderExtension None None None None None.
#[export] Instance GetRouterRtpCapabilitiesResponse_HeaderExtension_lawful : LawfulModel GetRouterRtpCapabilitiesResponse_HeaderExtension.
Proof. solve_model. Qed.
#[export] Instance GetRouterRtpCapabilitiesResponse_HeaderExtension_plain : PlainModel GetRouterRtpCapabilitiesResponse_HeaderExtension.
Proof. by split. Qed.

(** [signaling::GetRouterRtpCapabilitiesResponse::Data] *)
Record GetRouterRtpCapabilitiesResponse_Data : Type := mk_GetRouterRtpCapabilitiesResponse_Data {
  GetRouterRtpCapabilitiesResponse_Data_codecs : option (list GetRouterRtpCapabilitiesResponse_Codec);
  GetRouterRtpCapabilitiesResponse_Data_headerExtensions : option (list GetRouterRtpCapabilitiesResponse_HeaderExtension)
}.
#[export] Instance GetRouterRtpCapabilitiesResponse_Data_map : FieldsMap GetRouterRtpCapabilitiesResponse_Data := {|
  fm_fields := [
    field "codecs" (JsonSerializerVector GetRouterRtpCapabilitiesResponse_Codec);
    field "headerExtensions" (JsonSerializerVector GetRouterRtpCapabilitiesResponse_HeaderExtension)];
  fm_get m :=
    (m.(GetRouterRtpCapabilitiesResponse_Data_codecs),
    (m.(GetRouterRtpCapabilitiesResponse_Data_headerExtensions), tt));
  fm_set t m :=
    let '(x0, (x1, _)) := t in
    mk_GetRouterRtpCapabilitiesResponse_Data x0 x1;
  fm_listed m := true |}.
#[export] Instance GetRouterRtpCapabilitiesResponse_Data_init : DefaultInit GetRouterRtpCapabilitiesResponse_Data :=
  mk_GetRouterRtpCapabilitiesResponse_Data None None.
#[export] Instance GetRouterRtpCapabilitiesResponse_Data_lawful : LawfulModel GetRouterRtpCapabilitiesResponse_Data.
Proof. solve_model. Qed.
#[export] Instance GetRouterRtpCapabilitiesResponse_Data_plain : PlainModel GetRouterRtpCapabilitiesResponse_Data.
Proof. by split. Qed.

(** [signaling::GetRouterRtpCapabilitiesResponse] *)
Record GetRouterRtpCapabilitiesResponse : Type := mk_GetRouterRtpCapabilitiesResponse {
  GetRouterRtpCapabilitiesResponse_response : option bool;
  GetRouterRtpCapabilitiesResponse_id : option Z;
  GetRouterRtpCapabilitiesResponse_ok : option bool;
  GetRouterRtpCapabilitiesResponse_data : option GetRouterRtpCapabilitiesResponse_Data
}.
#[export] Instance GetRouterRtpCapabilitiesResponse_map : FieldsMap GetRouterRtpCapabilitiesResponse := {|
  fm_fields := [
    field "response" pod_bool;
    field "id" pod_int64;
    field "ok" pod_bool;
    field "data" (JsonSerializer GetRouterRtpCapabilitiesResponse_Data)];
  fm_get m :=
    (m.(GetRouterRtpCapabilitiesResponse_response), (m.(GetRouterRtpCapabilitiesResponse_id),
    (m.(GetRouterRtpCapabilitiesResponse_ok), (m.(GetRouterRtpCapabilitiesResponse_data), tt))));
  fm_set t m :=
    let '(x0, (x1, (x2, (x3, _)))) := t in
    mk_GetRouterRtpCapabilitiesResponse x0 x1 x2 x3;
  fm_listed m := true |}.
#[export] Instance GetRouterRtpCapabilitiesResponse_init : DefaultInit GetRouterRtpCapabilitiesResponse :=
  mk_GetRouterRtpCapabilitiesResponse None None None None.
#[export] Instance GetRouterRtpCapabilitiesResponse_lawful : LawfulModel GetRouterRtpCapabilitiesResponse.
Proof. solve_model. Qed.
#[export] Instance GetRouterRtpCapabilitiesResponse_plain : PlainModel GetRouterRtpCapabilitiesResponse.
Proof. by split. Qed.

(** [signaling::CreateWebRtcTransportRequest::NumStreams] *)
Record CreateWebRtcTransportRequest_NumStreams : Type := mk_CreateWebRtcTransportRequest_NumStreams {
  CreateWebRtcTransportRequest_NumStreams_MIS : option Z;
  CreateWebRtcTransportRequest_NumStreams_OS : option Z
}.
#[export] Instance CreateWebRtcTransportRequest_NumStreams_map : FieldsMap CreateWebRtcTransportRequest_NumStreams := {|
  fm_fields := [
    field "MIS" pod_int32;
    field "OS" pod_int32];
  fm_get m :=
    (m.(CreateWebRtcTransportRequest_NumStreams_MIS),
    (m.(CreateWebRtcTransportRequest_NumStreams_OS), tt));
  fm_set t m :=
    let '(x0, (x1, _)) := t in
    mk_CreateWebRtcTransportRequest_NumStreams x0 x1;
  fm_listed m := true |}.
#[export] Instance CreateWebRtcTransportRequest_NumStreams_init : DefaultInit CreateWebRtcTransportRequest_NumStreams :=
  mk_CreateWebRtcTransportRequest_NumStreams None None.
#[export] Instance CreateWebRtcTransportRequest_NumStreams_lawful : LawfulModel CreateWebRtcTransportRequest_NumStreams.
Proof. solve_model. Qed.
#[export] Instance CreateWebRtcTransportRequest_NumStreams_plain : PlainModel CreateWebRtcTransportRequest_NumStreams.
Proof. by split. Qed.

(** [signaling::CreateWebRtcTransportRequest::SCTPCapabilities] *)
Record CreateWebRtcTransportRequest_SCTPCapabilities : Type := mk_CreateWebRtcTransportRequest_SCTPCapabilities {
  CreateWebRtcTransportRequest_SCTPCapabilities_numStreams : option CreateWebRtcTransportRequest_NumStreams
}.
#[export] Instance CreateWebRtcTransportRequest_SCTPCapabilities_map : FieldsMap CreateWebRtcTransportRequest_SCTPCapabilities := {|
  fm_fields := [
    field "numStreams" (JsonSerializer CreateWebRtcTransportRequest_NumStreams)];
  fm_get m :=
    (m.(CreateWebRtcTransportRequest_SCTPCapabilities_numStreams), tt);
  fm_set t m :=
    let '(x0, _) := t in
    mk_CreateWebRtcTransportRequest_SCTPCapabilities x0;
  fm_listed m := true |}.
#[export] Instance CreateWebRtcTransportRequest_SCTPCapabilities_init : DefaultInit CreateWebRtcTransportRequest_SCTPCapabilities :=
  mk_CreateWebRtcTransportRequest_SCTPCapabilities None.
#[export] Instance CreateWebRtcTransportRequest_SCTPCapabilities_lawful : LawfulModel CreateWebRtcTransportRequest_SCTPCapabilities.
Proof. solve_model. Qed.
#[export] Instance CreateWebRtcTransportRequest_SCTPCapabilities_plain : PlainModel CreateWebRtcTransportRequest_SCTPCapabilities.
Proof. by split. Qed.

(** [signaling::CreateWebRtcTransportRequest::Data] *)
Record CreateWebRtcTransportRequest_Data : Type := mk_CreateWebRtcTransportRequest_Data {
  CreateWebRtcTransportRequest_Data_consuming : option bool;
  CreateWebRtcTransportRequest_Data_producing : option bool;
  CreateWebRtcTransportRequest_Data_forceTcp : option bool;
  CreateWebRtcTransportRequest_Data_sctpCapabilities : option CreateWebRtcTransportRequest_SCTPCapabilities
}.
#[export] Instance CreateWebRtcTransportRequest_Data_map : FieldsMap CreateWebRtcTransportRequest_Data := {|
  fm_fields := [
    field "consuming" pod_bool;
    field "producing" pod_bool;
    field "forceTcp" pod_bool;
    field "sctpCapabilities" (JsonSerializer CreateWebRtcTransportRequest_SCTPCapabilities)];
  fm_get m :=
    (m.(CreateWebRtcTransportRequest_Data_consuming),
    (m.(CreateWebRtcTransportRequest_Data_producing),
    (m.(CreateWebRtcTransportRequest_Data_forceTcp),
    (m.(CreateWebRtcTransportRequest_Data_sctpCapabilities), tt))));
  fm_set t m :=
    let '(x0, (x1, (x2, (x3, _)))) := t in
    mk_CreateWebRtcTransportRequest_Data x0 x1 x2 x3;
  fm_listed m := true |}.
#[export] Instance CreateWebRtcTransportRequest_Data_init : DefaultInit CreateWebRtcTransportRequest_Data :=
  mk_CreateWebRtcTransportRequest_Data None None None None.
#[export] Instance CreateWebRtcTransportRequest_Data_lawful : LawfulModel CreateWebRtcTransportRequest_Data.
Proof. solve_model. Qed.
#[export] Instance CreateWebRtcTransportRequest_Data_plain : PlainModel CreateWebRtcTransportRequest_Data.
Proof. by split. Qed.

(** [signaling::CreateWebRtcTransportRequest] *)
Record CreateWebRtcTransportRequest : Type := mk_CreateWebRtcTransportRequest {
  CreateWebRtcTransportRequest_request : option bool;
  CreateWebRtcTransportRequest_id : option Z;
  CreateWebRtcTransportRequest_method : option string;
  CreateWebRtcTransportRequest_data : option CreateWebRtcTransportRequest_Data
}.
#[export] Instance CreateWebRtcTransportRequest_map : FieldsMap CreateWebRtcTransportRequest := {|
  fm_fields := [
    field "request" pod_bool;
    field "id" pod_int64;
    field "method" pod_string;
    field "data" (JsonSerializer CreateWebRtcTransportRequest_Data)];
  fm_get m :=
    (m.(CreateWebRtcTransportRequest_request), (m.(CreateWebRtcTransportRequest_id),
    (m.(CreateWebRtcTransportRequest_method), (m.(CreateWebRtcTransportRequest_data), tt))));
  fm_set t m :=
    let '(x0, (x1, (x2, (x3, _)))) := t in
    mk_CreateWebRtcTransportRequest x0 x1 x2 x3;
  fm_listed m := true |}.
Definition CreateWebRtcTransportRequest_new (gid : Z) : CreateWebRtcTransportRequest :=
  mk_CreateWebRtcTransportRequest (Some true) (Some gid) (Some "createWebRtcTransport") None.
#[export] Instance CreateWebRtcTransportRequest_lawful : LawfulModel CreateWebRtcTransportRequest.
Proof. solve_model. Qed.

(** [signaling::CreateWebRtcTransportResponse::Fingerprint] *)
Record CreateWebRtcTransportResponse_Fingerprint : Type := mk_CreateWebRtcTransportResponse_Fingerprint {
  CreateWebRtcTransportResponse_Fingerprint_algorithm : option string;
  CreateWebRtcTransportResponse_Fingerprint_value : option string
}.
#[export] Instance CreateWebRtcTransportResponse_Fingerprint_map : FieldsMap CreateWebRtcTransportResponse_Fingerprint := {|
  fm_fields := [
    field "algorithm" pod_string;
    field "value" pod_string];
  fm_get m :=
    (m.(CreateWebRtcTransportResponse_Fingerprint_algorithm),
    (m.(CreateWebRtcTransportResponse_Fingerprint_value), tt));
  fm_set t m :=
    let '(x0, (x1, _)) := t in
    mk_CreateWebRtcTransportResponse_Fingerprint x0 x1;
  fm_listed m := true |}.
#[export] Instance CreateWebRtcTransportResponse_Fingerprint_init : DefaultInit CreateWebRtcTransportResponse_Fingerprint :=
  mk_CreateWebRtcTransportResponse_Fingerprint None None.
#[export] Instance CreateWebRtcTransportResponse_Fingerprint_lawful : LawfulModel CreateWebRtcTransportResponse_Fingerprint.
Proof. solve_model. Qed.
#[export] Instance CreateWebRtcTransportResponse_Fingerprint_plain : PlainModel CreateWebRtcTransportResponse_Fingerprint.
Proof. by split. Qed.

(** [signaling::CreateWebRtcTransportResponse::DTLSParameters] *)
Record CreateWebRtcTransportResponse_DTLSParameters : Type := mk_CreateWebRtcTransportResponse_DTLSParameters {
  CreateWebRtcTransportResponse_DTLSParameters_fingerprints : option (list CreateWebRtcTransportResponse_Fingerprint);
  CreateWebRtcTransportResponse_DTLSParameters_role : option string
}.
#[export] Instance CreateWebRtcTransportResponse_DTLSParameters_map : FieldsMap CreateWebRtcTransportResponse_DTLSParameters := {|
  fm_fields := [
    field "fingerprints" (JsonSerializerVector CreateWebRtcTransportResponse_Fingerprint);
    field "role" pod_string];
  fm_get m :=
    (m.(CreateWebRtcTransportResponse_DTLSParameters_fingerprints),
    (m.(CreateWebRtcTransportResponse_DTLSParameters_role), tt));
  fm_set t m :=
    let '(x0, (x1, _)) := t in
    mk_CreateWebRtcTransportResponse_DTLSParameters x0 x1;
  fm_listed m := true |}.
#[export] Instance CreateWebRtcTransportResponse_DTLSParameters_init : DefaultInit CreateWebRtcTransportResponse_DTLSParameters :=
  mk_CreateWebRtcTransportResponse_DTLSParameters None None.
#[export] Instance CreateWebRtcTransportResponse_DTLSParameters_lawful : LawfulModel CreateWebRtcTransportResponse_DTLSParameters.
Proof. solve_model. Qed.
#[export] Instance CreateWebRtcTransportResponse_DTLSParameters_plain : PlainModel CreateWebRtcTransportResponse_DTLSParameters.
Proof. by split. Qed.

(** [signaling::CreateWebRtcTransportResponse::ICECandidate] *)
Record CreateWebRtcTransportResponse_ICECandidate : Type := mk_CreateWebRtcTransportResponse_ICECandidate {
  CreateWebRtcTransportResponse_ICECandidate_type : option string;
  CreateWebRtcTransportResponse_ICECandidate_protocol : option string;
  CreateWebRtcTransportResponse_ICECandidate_foundation : option string;
  CreateWebRtcTransportResponse_ICECandidate_ip : option string;
  CreateWebRtcTransportResponse_ICECandidate_port : option Z;
  CreateWebRtcTransportResponse_ICECandidate_priority : option Z
}.
#[export] Instance CreateWebRtcTransportResponse_ICECandidate_map : FieldsMap CreateWebRtcTransportResponse_ICECandidate := {|
  fm_fields := [
    field "type" pod_string;
    field "protocol" pod_string;
    field "foundation" pod_string;
    field "ip" pod_string;
    field "port" pod_int32;
    field "priority" pod_int32];
  fm_get m :=
    (m.(CreateWebRtcTransportResponse_ICECandidate_type),
    (m.(CreateWebRtcTransportResponse_ICECandidate_protocol),
    (m.(CreateWebRtcTransportResponse_ICECandidate_foundation),
    (m.(CreateWebRtcTransportResponse_ICECandidate_ip),
    (m.(CreateWebRtcTransportResponse_ICECandidate_port),
    (m.(CreateWebRtcTransportResponse_ICECandidate_priority), tt))))));
  fm_set t m :=
    let '(x0, (x1, (x2, (x3, (x4, (x5, _)))))) := t in
    mk_CreateWebRtcTransportResponse_ICECandidate x0 x1 x2 x3 x4 x5;
  fm_listed m := true |}.
#[export] Instance CreateWebRtcTransportResponse_ICECandidate_init : DefaultInit CreateWebRtcTransportResponse_ICECandidate :=
  mk_CreateWebRtcTransportResponse_ICECandidate None None None None None None.
#[export] Instance CreateWebRtcTransportResponse_ICECandidate_lawful : LawfulModel CreateWebRtcTransportResponse_ICECandidate.
Proof. solve_model. Qed.
#[export] Instance CreateWebRtcTransportResponse_ICECandidate_plain : PlainModel CreateWebRtcTransportResponse_ICECandidate.
Proof. by split. Qed.

(** [signaling::CreateWebRtcTransportResponse::ICEParameters] *)
Record CreateWebRtcTransportResponse_ICEParameters : Type := mk_CreateWebRtcTransportResponse_ICEParameters {
  CreateWebRtcTransportResponse_ICEParameters_iceLite : option bool;
  CreateWebRtcTransportResponse_ICEParameters_password : option string;
  CreateWebRtcTransportResponse_ICEParameters_usernameFragment : option string
}.
#[export] Instance CreateWebRtcTransportResponse_ICEParameters_map : FieldsMap CreateWebRtcTransportResponse_ICEParameters := {|
  fm_fields := [
    field "iceLite" pod_bool;
    field "password" pod_string;
    field "usernameFragment" pod_string];
  fm_get m :=
    (m.(CreateWebRtcTransportResponse_ICEParameters_iceLite),
    (m.(CreateWebRtcTransportResponse_ICEParameters_password),
    (m.(CreateWebRtcTransportResponse_ICEParameters_usernameFragment), tt)));
  fm_set t m :=
    let '(x0, (x1, (x2, _))) := t in
    mk_CreateWebRtcTransportResponse_ICEParameters x0 x1 x2;
  fm_listed m := true |}.
#[export] Instance CreateWebRtcTransportResponse_ICEParameters_init : DefaultInit CreateWebRtcTransportResponse_ICEParameters :=
  mk_CreateWebRtcTransportResponse_ICEParameters None None None.
#[export] Instance CreateWebRtcTransportResponse_ICEParameters_lawful : LawfulModel CreateWebRtcTransportResponse_ICEParameters.
Proof. solve_model. Qed.
#[export] Instance CreateWebRtcTransportResponse_ICEParameters_plain : PlainModel CreateWebRtcTransportResponse_ICEParameters.
Proof. by split. Qed.

(** [signaling::CreateWebRtcTransportResponse::SCTPParameters] *)
Record CreateWebRtcTransportResponse_SCTPParameters : Type := mk_CreateWebRtcTransportResponse_SCTPParameters {
  CreateWebRtcTransportResponse_SCTPParameters_MIS : option Z;
  CreateWebRtcTransportResponse_SCTPParameters_OS : option Z;
  CreateWebRtcTransportResponse_SCTPParameters_isDataChannel : option bool;
  CreateWebRtcTransportResponse_SCTPParameters_port : option Z;
  CreateWebRtcTransportResponse_SCTPParameters_maxMessageSize : option Z;
  CreateWebRtcTransportResponse_SCTPParameters_sctpBufferedAmount : option Z;
  CreateWebRtcTransportResponse_SCTPParameters_sendBufferSize : option Z
}.
#[export] Instance CreateWebRtcTransportResponse_SCTPParameters_map : FieldsMap CreateWebRtcTransportResponse_SCTPParameters := {|
  fm_fields := [
    field "MIS" pod_int32;
    field "OS" pod_int32;
    field "isDataChannel" pod_bool;
    field "port" pod_int32;
    field "maxMessageSize" pod_int32;
    field "sctpBufferedAmount" pod_int32;
    field "sendBufferSize" pod_int32];
  fm_get m :=
    (m.(CreateWebRtcTransportResponse_SCTPParameters_MIS),
    (m.(CreateWebRtcTransportResponse_SCTPParameters_OS),
    (m.(CreateWebRtcTransportResponse_SCTPParameters_isDataChannel),
    (m.(CreateWebRtcTransportResponse_SCTPParameters_port),
    (m.(CreateWebRtcTransportResponse_SCTPParameters_maxMessageSize),
    (m.(CreateWebRtcTransportResponse_SCTPParameters_sctpBufferedAmount),
    (m.(CreateWebRtcTransportResponse_SCTPParameters_sendBufferSize), tt)))))));
  fm_set t m :=
    let '(x0, (x1, (x2, (x3, (x4, (x5, (x6, _))))))) := t in
    mk_CreateWebRtcTransportResponse_SCTPParameters x0 x1 x2 x3 x4 x5 x6;
  fm_listed m := true |}.
#[export] Instance CreateWebRtcTransportResponse_SCTPParameters_init : DefaultInit CreateWebRtcTransportResponse_SCTPParameters :=
  mk_CreateWebRtcTransportResponse_SCTPParameters None None None None None None None.
#[export] Instance CreateWebRtcTransportResponse_SCTPParameters_lawful : LawfulModel CreateWebRtcTransportResponse_SCTPParameters.
Proof. solve_model. Qed.
#[export] Instance CreateWebRtcTransportResponse_SCTPParameters_plain : PlainModel CreateWebRtcTransportResponse_SCTPParameters.
Proof. by split. Qed.

(** [signaling::CreateWebRtcTransportResponse::Data] *)
Record CreateWebRtcTransportResponse_Data : Type := mk_CreateWebRtcTransportResponse_Data {
  CreateWebRtcTransportResponse_Data_id : option string;
  CreateWebRtcTransportResponse_Data_dtlsParameters : option CreateWebRtcTransportResponse_DTLSParameters;
  CreateWebRtcTransportResponse_Data_iceCandidates : option (list CreateWebRtcTransportResponse_ICECandidate);
  CreateWebRtcTransportResponse_Data_iceParameters : option CreateWebRtcTransportResponse_ICEParameters;
  CreateWebRtcTransportResponse_Data_sctpParameters : option CreateWebRtcTransportResponse_SCTPParameters
}.
#[export] Instance CreateWebRtcTransportResponse_Data_map : FieldsMap CreateWebRtcTransportResponse_Data := {|
  fm_fields := [
    field "id" pod_string;
    field "dtlsParameters" (JsonSerializer CreateWebRtcTransportResponse_DTLSParameters);
    field "iceCandidates" (JsonSerializerVector CreateWebRtcTransportResponse_ICECandidate);
    field "iceParameters" (JsonSerializer CreateWebRtcTransportResponse_ICEParameters);
    field "sctpParameters" (JsonSerializer CreateWebRtcTransportResponse_SCTPParameters)];
  fm_get m :=
    (m.(CreateWebRtcTransportResponse_Data_id),
    (m.(CreateWebRtcTransportResponse_Data_dtlsParameters),
    (m.(CreateWebRtcTransportResponse_Data_iceCandidates),
    (m.(CreateWebRtcTransportResponse_Data_iceParameters),
    (m.(CreateWebRtcTransportResponse_Data_sctpParameters), tt)))));
  fm_set t m :=
    let '(x0, (x1, (x2, (x3, (x4, _))))) := t in
    mk_CreateWebRtcTransportResponse_Data x0 x1 x2 x3 x4;
  fm_listed m := true |}.
#[export] Instance CreateWebRtcTransportResponse_Data_init : DefaultInit CreateWebRtcTransportResponse_Data :=
  mk_CreateWebRtcTransportResponse_Data None None None None None.
#[export] Instance CreateWebRtcTransportResponse_Data_lawful : LawfulModel CreateWebRtcTransportResponse_Data.
Proof. solve_model. Qed.
#[export] Instance CreateWebRtcTransportResponse_Data_plain : PlainModel CreateWebRtcTransportResponse_Data.
Proof. by split. Qed.

(** [signaling::CreateWebRtcTransportResponse] *)
Record CreateWebRtcTransportResponse : Type := mk_CreateWebRtcTransportResponse {
  CreateWebRtcTransportResponse_request : option bool;
  CreateWebRtcTransportResponse_id : option Z;
  CreateWebRtcTransportResponse_ok : option bool;
  CreateWebRtcTransportResponse_data : option CreateWebRtcTransportResponse_Data
}.
#[export] Instance CreateWebRtcTransportResponse_map : FieldsMap CreateWebRtcTransportResponse := {|
  fm_fields := [
    field "request" pod_bool;
    field "id" pod_int64;
    field "ok" pod_bool;
    field "data" (JsonSerializer CreateWebRtcTransportResponse_Data)];
  fm_get m :=
    (m.(CreateWebRtcTransportResponse_request), (m.(CreateWebRtcTransportResponse_id),
    (m.(CreateWebRtcTransportResponse_ok), (m.(CreateWebRtcTransportResponse_data), tt))));
  fm_set t m :=
    let '(x0, (x1, (x2, (x3, _)))) := t in
    mk_CreateWebRtcTransportResponse x0 x1 x2 x3;
  fm_listed m := true |}.
Definition CreateWebRtcTransportResponse_new (gid : Z) : CreateWebRtcTransportResponse :=
  mk_CreateWebRtcTransportResponse (Some true) (Some gid) None None.
#[export] Instance CreateWebRtcTransportResponse_lawful : LawfulModel CreateWebRtcTransportResponse.
Proof. solve_model. Qed.

(** [signaling::JoinRequest::Device] *)
Record JoinRequest_Device : Type := mk_JoinRequest_Device {
  JoinRequest_Device_flag : option string;
  JoinRequest_Device_name : option string;
  JoinRequest_Device_version : option string
}.
#[export] Instance JoinRequest_Device_map : FieldsMap JoinRequest_Device := {|
  fm_fields := [
    field "flag" pod_string;
    field "name" pod_string;
    field "version" pod_string];
  fm_get m :=
    (m.(JoinRequest_Device_flag), (m.(JoinRequest_Device_name),
    (m.(JoinRequest_Device_version), tt)));
  fm_set t m :=
    let '(x0, (x1, (x2, _))) := t in
    mk_JoinRequest_Device x0 x1 x2;
  fm_listed m := true |}.
#[export] Instance JoinRequest_Device_init : DefaultInit JoinRequest_Device :=
  mk_JoinRequest_Device None None None.
#[export] Instance JoinRequest_Device_lawful : LawfulModel JoinRequest_Device.
Proof. solve_model. Qed.
#[export] Instance JoinRequest_Device_plain : PlainModel JoinRequest_Device.
Proof. by split. Qed.

(** [signaling::JoinRequest::RTCPFeedback] *)
Record JoinRequest_RTCPFeedback : Type := mk_JoinRequest_RTCPFeedback {
  JoinRequest_RTCPFeedback_type : option string;
  JoinRequest_RTCPFeedback_parameter : option string
}.
#[export] Instance JoinRequest_RTCPFeedback_map : FieldsMap JoinRequest_RTCPFeedback := {|
  fm_fields := [
    field "type" pod_string;
    field "parameter" pod_string];
  fm_get m :=
    (m.(JoinRequest_RTCPFeedback_type), (m.(JoinRequest_RTCPFeedback_parameter), tt));
  fm_set t m :=
    let '(x0, (x1, _)) := t in
    mk_JoinRequest_RTCPFeedback x0 x1;
  fm_listed m := true |}.
#[export] Instance JoinRequest_RTCPFeedback_init : DefaultInit JoinRequest_RTCPFeedback :=
  mk_JoinRequest_RTCPFeedback None None.
#[export] Instance JoinRequest_RTCPFeedback_lawful : LawfulModel JoinRequest_RTCPFeedback.
Proof. solve_model. Qed.
#[export] Instance JoinRequest_RTCPFeedback_plain : PlainModel JoinRequest_RTCPFeedback.
Proof. by split. Qed.

(** [signaling::JoinRequest::Parameters] *)
Record JoinRequest_Parameters : Type := mk_JoinRequest_Parameters {
  JoinRequest_Parameters_apt : option Z;
  JoinRequest_Parameters_levelAsymmetryAllowed : option Z;
  JoinRequest_Parameters_packetizationMode : option Z;
  JoinRequest_Parameters_profileLevelId : option string;
  JoinRequest_Parameters_xGoogleStartBitrate : option Z;
  JoinRequest_Parameters_minptime : option Z;
  JoinRequest_Parameters_useinbandfec : option Z;
  JoinRequest_Parameters_profileId : option Z
}.
#[export] Instance JoinRequest_Parameters_map : FieldsMap JoinRequest_Parameters := {|
  fm_fields := [
    field "level-asymmetry-allowed" pod_int32;
    field "packetization-mode" pod_int32;
    field "profile-level-id" pod_string;
    field "x-google-start-bitrate" pod_int32;
    field "minptime" pod_int32;
    field "useinbandfec" pod_int32;
    field "profile-id" pod_int32];
  fm_get m :=
    (m.(JoinRequest_Parameters_levelAsymmetryAllowed),
    (m.(JoinRequest_Parameters_packetizationMode), (m.(JoinRequest_Parameters_profileLevelId),
    (m.(JoinRequest_Parameters_xGoogleStartBitrate), (m.(JoinRequest_Parameters_minptime),
    (m.(JoinRequest_Parameters_useinbandfec), (m.(JoinRequest_Parameters_profileId), tt)))))));
  fm_set t m :=
    let '(x0, (x1, (x2, (x3, (x4, (x5, (x6, _))))))) := t in
    mk_JoinRequest_Parameters m.(JoinRequest_Parameters_apt) x0 x1 x2 x3 x4 x5 x6;
  fm_listed m := bool_decide (m.(JoinRequest_Parameters_apt) = None) |}.
#[export] Instance JoinRequest_Parameters_init : DefaultInit JoinRequest_Parameters :=
  mk_JoinRequest_Parameters None None None None None None None None.
#[export] Instance JoinRequest_Parameters_lawful : LawfulModel JoinRequest_Parameters.
Proof. solve_model. Qed.
#[export] Instance JoinRequest_Parameters_plain : PlainModel JoinRequest_Parameters.
Proof. by split. Qed.

(** [signaling::JoinRequest::Codec] *)
Record JoinRequest_Codec : Type := mk_JoinRequest_Codec {
  JoinRequest_Codec_kind : option string;
  JoinRequest_Codec_mimeType : option string;
  JoinRequest_Codec_clockRate : option Z;
  JoinRequest_Codec_channels : option Z;
  JoinRequest_Codec_rtcpFeedback : option (list JoinRequest_RTCPFeedback);
  JoinRequest_Codec_parameters : option JoinRequest_Parameters;
  JoinRequest_Codec_preferredPayloadType : option Z
}.
#[export] Instance JoinRequest_Codec_map : FieldsMap JoinRequest_Codec := {|
  fm_fields := [
    field "kind" pod_string;
    field "mimeType" pod_string;
    field "clockRate" pod_int32;
    field "channels" pod_int32;
    field "rtcpFeedback" (JsonSerializerVector JoinRequest_RTCPFeedback);
    field "parameters" (JsonSerializer JoinRequest_Parameters);
    field "preferredPayloadType" pod_int32];
  fm_get m :=
    (m.(JoinRequest_Codec_kind), (m.(JoinRequest_Codec_mimeType),
    (m.(JoinRequest_Codec_clockRate), (m.(JoinRequest_Codec_channels),
    (m.(JoinRequest_Codec_rtcpFeedback), (m.(JoinRequest_Codec_parameters),
    (m.(JoinRequest_Codec_preferredPayloadType), tt)))))));
  fm_set t m :=
    let '(x0, (x1, (x2, (x3, (x4, (x5, (x6, _))))))) := t in
    mk_JoinRequest_Codec x0 x1 x2 x3 x4 x5 x6;
  fm_listed m := true |}.
#[export] Instance JoinRequest_Codec_init : DefaultInit JoinRequest_Codec :=
  mk_JoinRequest_Codec None None None None None None None.
#[export] Instance JoinRequest_Codec_lawful : LawfulModel JoinRequest_Codec.
Proof. solve_model. Qed.
#[export] Instance JoinRequest_Codec_plain : PlainModel JoinRequest_Codec.
Proof. by split. Qed.

(** [signaling::JoinRequest::HeaderExtension] *)
Record JoinRequest_HeaderExtension : Type := mk_JoinRequest_HeaderExtension {
  JoinRequest_HeaderExtension_kind : option string;
  JoinRequest_HeaderExtension_uri : option string;
  JoinRequest_HeaderExtension_preferredId : option Z;
  JoinRequest_HeaderExtension_preferredEncrypt : option bool;
  JoinRequest_HeaderExtension_direction : option string
}.
#[export] Instance JoinRequest_HeaderExtension_map : FieldsMap JoinRequest_HeaderExtension := {|
  fm_fields := [
    field "kind" pod_string;
    field "uri" pod_string;
    field "preferredId" pod_int32;
    field "preferredEncrypt" pod_bool;
    field "direction" pod_string];
  fm_get m :=
    (m.(JoinRequest_HeaderExtension_kind), (m.(JoinRequest_HeaderExtension_uri),
    (m.(JoinRequest_HeaderExtension_preferredId),
    (m.(JoinRequest_HeaderExtension_preferredEncrypt),
    (m.(JoinRequest_HeaderExtension_direction), tt)))));
  fm_set t m :=
    let '(x0, (x1, (x2, (x3, (x4, _))))) := t in
    mk_JoinRequest_HeaderExtension x0 x1 x2 x3 x4;
  fm_listed m := true |}.
#[export] Instance JoinRequest_HeaderExtension_init : DefaultInit JoinRequest_HeaderExtension :=
  mk_JoinRequest_HeaderExtension None None None None None.
#[export] Instance JoinRequest_HeaderExtension_lawful : LawfulModel JoinRequest_HeaderExtension.
Proof. solve_model. Qed.
#[export] Instance JoinRequest_HeaderExtension_plain : PlainModel JoinRequest_HeaderExtension.
Proof. by split. Qed.

(** [signaling::JoinRequest::RTPCapabilities] *)
Record JoinRequest_RTPCapabilities : Type := mk_JoinRequest_RTPCapabilities {
  JoinRequest_RTPCapabilities_codecs : option (list JoinRequest_Codec);
  JoinRequest_RTPCapabilities_headerExtensions : option (list JoinRequest_HeaderExtension)
}.
#[export] Instance JoinRequest_RTPCapabilities_map : FieldsMap JoinRequest_RTPCapabilities := {|
  fm_fields := [
    field "codecs" (JsonSerializerVector JoinRequest_Codec);
    field "headerExtensions" (JsonSerializerVector JoinRequest_HeaderExtension)];
  fm_get m :=
    (m.(JoinRequest_RTPCapabilities_codecs), (m.(JoinRequest_RTPCapabilities_headerExtensions),
    tt));
  fm_set t m :=
    let '(x0, (x1, _)) := t in
    mk_JoinRequest_RTPCapabilities x0 x1;
  fm_listed m := true |}.
#[export] Instance JoinRequest_RTPCapabilities_init : DefaultInit JoinRequest_RTPCapabilities :=
  mk_JoinRequest_RTPCapabilities None None.
#[export] Instance JoinRequest_RTPCapabilities_lawful : LawfulModel JoinRequest_RTPCapabilities.
Proof. solve_model. Qed.
#[export] Instance JoinRequest_RTPCapabilities_plain : PlainModel JoinRequest_RTPCapabilities.
Proof. by split. Qed.

(** [signaling::JoinRequest::NumStreams] *)
Record JoinRequest_NumStreams : Type := mk_JoinRequest_NumStreams {
  JoinRequest_NumStreams_MIS : option Z;
  JoinRequest_NumStreams_OS : option Z
}.
#[export] Instance JoinRequest_NumStreams_map : FieldsMap JoinRequest_NumStreams := {|
  fm_fields := [
    field "MIS" pod_int32;
    field "OS" pod_int32];
  fm_get m :=
    (m.(JoinRequest_NumStreams_MIS), (m.(JoinRequest_NumStreams_OS), tt));
  fm_set t m :=
    let '(x0, (x1, _)) := t in
    mk_JoinRequest_NumStreams x0 x1;
  fm_listed m := true |}.
#[export] Instance JoinRequest_NumStreams_init : DefaultInit JoinRequest_NumStreams :=
  mk_JoinRequest_NumStreams None None.
#[export] Instance JoinRequest_NumStreams_lawful : LawfulModel JoinRequest_NumStreams.
Proof. solve_model. Qed.
#[export] Instance JoinRequest_NumStreams_plain : PlainModel JoinRequest_NumStreams.
Proof. by split. Qed.

(** [signaling::JoinRequest::SCTPCapabilities] *)
Record JoinRequest_SCTPCapabilities : Type := mk_JoinRequest_SCTPCapabilities {
  JoinRequest_SCTPCapabilities_numStreams : option JoinRequest_NumStreams
}.
#[export] Instance JoinRequest_SCTPCapabilities_map : FieldsMap JoinRequest_SCTPCapabilities := {|
  fm_fields := [
    field "numStreams" (JsonSerializer JoinRequest_NumStreams)];
  fm_get m :=
    (m.(JoinRequest_SCTPCapabilities_numStreams), tt);
  fm_set t m :=
    let '(x0, _) := t in
    mk_JoinRequest_SCTPCapabilities x0;
  fm_listed m := true |}.
#[export] Instance JoinRequest_SCTPCapabilities_init : DefaultInit JoinRequest_SCTPCapabilities :=
  mk_JoinRequest_SCTPCapabilities None.
#[export] Instance JoinRequest_SCTPCapabilities_lawful : LawfulModel JoinRequest_SCTPCapabilities.
Proof. solve_model. Qed.
#[export] Instance JoinRequest_SCTPCapabilities_plain : PlainModel JoinRequest_SCTPCapabilities.
Proof. by split. Qed.

(** [signaling::JoinRequest::Data] *)
Record JoinRequest_Data : Type := mk_JoinRequest_Data {
  JoinRequest_Data_displayName : option string;
  JoinRequest_Data_device : option JoinRequest_Device;
  JoinRequest_Data_rtpCapabilities : option JoinRequest_RTPCapabilities;
  JoinRequest_Data_sctpCapabilities : option JoinRequest_SCTPCapabilities
}.
#[export] Instance JoinRequest_Data_map : FieldsMap JoinRequest_Data := {|
  fm_fields := [
    field "displayName" pod_string;
    field "device" (JsonSerializer JoinRequest_Device);
    field "rtpCapabilities" (JsonSerializer JoinRequest_RTPCapabilities);
    field "sctpCapabilities" (JsonSerializer JoinRequest_SCTPCapabilities)];
  fm_get m :=
    (m.(JoinRequest_Data_displayName), (m.(JoinRequest_Data_device),
    (m.(JoinRequest_Data_rtpCapabilities), (m.(JoinRequest_Data_sctpCapabilities), tt))));
  fm_set t m :=
    let '(x0, (x1, (x2, (x3, _)))) := t in
    mk_JoinRequest_Data x0 x1 x2 x3;
  fm_listed m := true |}.
#[export] Instance JoinRequest_Data_init : DefaultInit JoinRequest_Data :=
  mk_JoinRequest_Data None None None None.
#[export] Instance JoinRequest_Data_lawful : LawfulModel JoinRequest_Data.
Proof. solve_model. Qed.
#[export] Instance JoinRequest_Data_plain : PlainModel JoinRequest_Data.
Proof. by split. Qed.

(** [signaling::JoinRequest] *)
Record JoinRequest : Type := mk_JoinRequest {
  JoinRequest_request : option bool;
  JoinRequest_id : option Z;
  JoinRequest_method : option string;
  JoinRequest_data : option JoinRequest_Data
}.
#[export] Instance JoinRequest_map : FieldsMap JoinRequest := {|
  fm_fields := [
    field "request" pod_bool;
    field "id" pod_int64;
    field "method" pod_string;
    field "data" (JsonSerializer JoinRequest_Data)];
  fm_get m :=
    (m.(JoinRequest_request), (m.(JoinRequest_id), (m.(JoinRequest_method),
    (m.(JoinRequest_data), tt))));
  fm_set t m :=
    let '(x0, (x1, (x2, (x3, _)))) := t in
    mk_JoinRequest x0 x1 x2 x3;
  fm_listed m := true |}.
Definition JoinRequest_new (gid : Z) : JoinRequest :=
  mk_JoinRequest (Some true) (Some gid) (Some "join") None.
#[export] Instance JoinRequest_lawful : LawfulModel JoinRequest.
Proof. solve_model. Qed.

(** [signaling::JoinResponse::Device] *)
Record JoinResponse_Device : Type := mk_JoinResponse_Device {
  JoinResponse_Device_flag : option string;
  JoinResponse_Device_name : option string;
  JoinResponse_Device_version : option string
}.
#[export] Instance JoinResponse_Device_map : FieldsMap JoinResponse_Device := {|
  fm_fields := [
    field "flag" pod_string;
    field "name" pod_string;
    field "version" pod_string];
  fm_get m :=
    (m.(JoinResponse_Device_flag), (m.(JoinResponse_Device_name),
    (m.(JoinResponse_Device_version), tt)));
  fm_set t m :=
    let '(x0, (x1, (x2, _))) := t in
    mk_JoinResponse_Device x0 x1 x2;
  fm_listed m := true |}.
#[export] Instance JoinResponse_Device_init : DefaultInit JoinResponse_Device :=
  mk_JoinResponse_Device None None None.
#[export] Instance JoinResponse_Device_lawful : LawfulModel JoinResponse_Device.
Proof. solve_model. Qed.
#[export] Instance JoinResponse_Device_plain : PlainModel JoinResponse_Device.
Proof. by split. Qed.

(** [signaling::JoinResponse::Peer] *)
Record JoinResponse_Peer : Type := mk_JoinResponse_Peer {
  JoinResponse_Peer_id : option string;
  JoinResponse_Peer_displayName : option string;
  JoinResponse_Peer_device : option JoinResponse_Device
}.
#[export] Instance JoinResponse_Peer_map : FieldsMap JoinResponse_Peer := {|
  fm_fields := [
    field "id" pod_string;
    field "displayName" pod_string;
    field "device" (JsonSerializer JoinResponse_Device)];
  fm_get m :=
    (m.(JoinResponse_Peer_id), (m.(JoinResponse_Peer_displayName),
    (m.(JoinResponse_Peer_device), tt)));
  fm_set t m :=
    let '(x0, (x1, (x2, _))) := t in
    mk_JoinResponse_Peer x0 x1 x2;
  fm_listed m := true |}.
#[export] Instance JoinResponse_Peer_init : DefaultInit JoinResponse_Peer :=
  mk_JoinResponse_Peer None None None.
#[export] Instance JoinResponse_Peer_lawful : LawfulModel JoinResponse_Peer.
Proof. solve_model. Qed.
#[export] Instance JoinResponse_Peer_plain : PlainModel JoinResponse_Peer.
Proof. by split. Qed.

(** [signaling::JoinResponse::Data] *)
Record JoinResponse_Data : Type := mk_JoinResponse_Data {
  JoinResponse_Data_peers : option (list JoinResponse_Peer)
}.
#[export] Instance JoinResponse_Data_map : FieldsMap JoinResponse_Data := {|
  fm_fields := [
    field "peers" (JsonSerializerVector JoinResponse_Peer)];
  fm_get m :=
    (m.(JoinResponse_Data_peers), tt);
  fm_set t m :=
    let '(x0, _) := t in
    mk_JoinResponse_Data x0;
  fm_listed m := true |}.
#[export] Instance JoinResponse_Data_init : DefaultInit JoinResponse_Data :=
  mk_JoinResponse_Data None.
#[export] Instance JoinResponse_Data_lawful : LawfulModel JoinResponse_Data.
Proof. solve_model. Qed.
#[export] Instance JoinResponse_Data_plain : PlainModel JoinResponse_Data.
Proof. by split. Qed.

(** [signaling::JoinResponse] *)
Record JoinResponse : Type := mk_JoinResponse {
  JoinResponse_response : option bool;
  JoinResponse_id : option Z;
  JoinResponse_ok : option bool;
  JoinResponse_data : option JoinResponse_Data
}.
#[export] Instance JoinResponse_map : FieldsMap JoinResponse := {|
  fm_fields := [
    field "response" pod_bool;
    field "id" pod_int64;
    field "ok" pod_bool;
    field "data" (JsonSerializer JoinResponse_Data)];
  fm_get m :=
    (m.(JoinResponse_response), (m.(JoinResponse_id), (m.(JoinResponse_ok),
    (m.(JoinResponse_data), tt))));
  fm_set t m :=
    let '(x0, (x1, (x2, (x3, _)))) := t in
    mk_JoinResponse x0 x1 x2 x3;
  fm_listed m := true |}.
#[export] Instance JoinResponse_init : DefaultInit JoinResponse :=
  mk_JoinResponse None None None None.
#[export] Instance JoinResponse_lawful : LawfulModel JoinResponse.
Proof. solve_model. Qed.
#[export] Instance JoinResponse_plain : PlainModel JoinResponse.
Proof. by split. Qed.

(** [signaling::NewDataConsumerRequest::AppData] *)
Record NewDataConsumerRequest_AppData : Type := mk_NewDataConsumerRequest_AppData {
  NewDataConsumerRequest_AppData_peerId : option string
}.
#[export] Instance NewDataConsumerRequest_AppData_map : FieldsMap NewDataConsumerRequest_AppData := {|
  fm_fields := [
    field "peerId" pod_string];
  fm_get m :=
    (m.(NewDataConsumerRequest_AppData_peerId), tt);
  fm_set t m :=
    let '(x0, _) := t in
    mk_NewDataConsumerRequest_AppData x0;
  fm_listed m := true |}.
#[export] Instance NewDataConsumerRequest_AppData_init : DefaultInit NewDataConsumerRequest_AppData :=
  mk_NewDataConsumerRequest_AppData None.
#[export] Instance NewDataConsumerRequest_AppData_lawful : LawfulModel NewDataConsumerRequest_AppData.
Proof. solve_model. Qed.
#[export] Instance NewDataConsumerRequest_AppData_plain : PlainModel NewDataConsumerRequest_AppData.
Proof. by split. Qed.

(** [signaling::NewDataConsumerRequest::SCTPStreamParameters] *)
Record NewDataConsumerRequest_SCTPStreamParameters : Type := mk_NewDataConsumerRequest_SCTPStreamParameters {
  NewDataConsumerRequest_SCTPStreamParameters_streamId : option Z;
  NewDataConsumerRequest_SCTPStreamParameters_ordered : option bool
}.
#[export] Instance NewDataConsumerRequest_SCTPStreamParameters_map : FieldsMap NewDataConsumerRequest_SCTPStreamParameters := {|
  fm_fields := [
    field "streamId" pod_int32;
    field "ordered" pod_bool];
  fm_get m :=
    (m.(NewDataConsumerRequest_SCTPStreamParameters_streamId),
    (m.(NewDataConsumerRequest_SCTPStreamParameters_ordered), tt));
  fm_set t m :=
    let '(x0, (x1, _)) := t in
    mk_NewDataConsumerRequest_SCTPStreamParameters x0 x1;
  fm_listed m := true |}.
#[export] Instance NewDataConsumerRequest_SCTPStreamParameters_init : DefaultInit NewDataConsumerRequest_SCTPStreamParameters :=
  mk_NewDataConsumerRequest_SCTPStreamParameters None None.
#[export] Instance NewDataConsumerRequest_SCTPStreamParameters_lawful : LawfulModel NewDataConsumerRequest_SCTPStreamParameters.
Proof. solve_model. Qed.
#[export] Instance NewDataConsumerRequest_SCTPStreamParameters_plain : PlainModel NewDataConsumerRequest_SCTPStreamParameters.
Proof. by split. Qed.

(** [signaling::NewDataConsumerRequest::Data] *)
Record NewDataConsumerRequest_Data : Type := mk_NewDataConsumerRequest_Data {
  NewDataConsumerRequest_Data_id : option string;
  NewDataConsumerRequest_Data_peerId : option string;
  NewDataConsumerRequest_Data_dataProducerId : option string;
  NewDataConsumerRequest_Data_label : option string;
  NewDataConsumerRequest_Data_protocol : option string;
  NewDataConsumerRequest_Data_sctpStreamParameters : option NewDataConsumerRequest_SCTPStreamParameters;
  NewDataConsumerRequest_Data_appData : option NewDataConsumerRequest_AppData
}.
#[export] Instance NewDataConsumerRequest_Data_map : FieldsMap NewDataConsumerRequest_Data := {|
  fm_fields := [
    field "id" pod_string;
    field "peerId" pod_string;
    field "dataProducerId" pod_string;
    field "label" pod_string;
    field "protocol" pod_string;
    field "sctpStreamParameters" (JsonSerializer NewDataConsumerRequest_SCTPStreamParameters);
    field "appData" (JsonSerializer NewDataConsumerRequest_AppData)];
  fm_get m :=
    (m.(NewDataConsumerRequest_Data_id), (m.(NewDataConsumerRequest_Data_peerId),
    (m.(NewDataConsumerRequest_Data_dataProducerId), (m.(NewDataConsumerRequest_Data_label),
    (m.(NewDataConsumerRequest_Data_protocol),
    (m.(NewDataConsumerRequest_Data_sctpStreamParameters),
    (m.(NewDataConsumerRequest_Data_appData), tt)))))));
  fm_set t m :=
    let '(x0, (x1, (x2, (x3, (x4, (x5, (x6, _))))))) := t in
    mk_NewDataConsumerRequest_Data x0 x1 x2 x3 x4 x5 x6;
  fm_listed m := true |}.
#[export] Instance NewDataConsumerRequest_Data_init : DefaultInit NewDataConsumerRequest_Data :=
  mk_NewDataConsumerRequest_Data None None None None None None None.
#[export] Instance NewDataConsumerRequest_Data_lawful : LawfulModel NewDataConsumerRequest_Data.
Proof. solve_model. Qed.
#[export] Instance NewDataConsumerRequest_Data_plain : PlainModel NewDataConsumerRequest_Data.
Proof. by split. Qed.

(** [signaling::NewDataConsumerRequest] *)
Record NewDataConsumerRequest : Type := mk_NewDataConsumerRequest {
  NewDataConsumerRequest_request : option bool;
  NewDataConsumerRequest_id : option Z;
  NewDataConsumerRequest_method : option string;
  NewDataConsumerRequest_data : option NewDataConsumerRequest_Data
}.
#[export] Instance NewDataConsumerRequest_map : FieldsMap NewDataConsumerRequest := {|
  fm_fields := [
    field "request" pod_bool;
    field "id" pod_int64;
    field "method" pod_string;
    field "data" (JsonSerializer NewDataConsumerRequest_Data)];
  fm_get m :=
    (m.(NewDataConsumerRequest_request), (m.(NewDataConsumerRequest_id),
    (m.(NewDataConsumerRequest_method), (m.(NewDataConsumerRequest_data), tt))));
  fm_set t m :=
    let '(x0, (x1, (x2, (x3, _)))) := t in
    mk_NewDataConsumerRequest x0 x1 x2 x3;
  fm_listed m := true |}.
#[export] Instance NewDataConsumerRequest_init : DefaultInit NewDataConsumerRequest :=
  mk_NewDataConsumerRequest None None None None.
#[export] Instance NewDataConsumerRequest_lawful : LawfulModel NewDataConsumerRequest.
Proof. solve_model. Qed.
#[export] Instance NewDataConsumerRequest_plain : PlainModel NewDataConsumerRequest.
Proof. by split. Qed.

(** [signaling::NewConsumerRequest::SharingData] *)
Record NewConsumerRequest_SharingData : Type := mk_NewConsumerRequest_SharingData {
  NewConsumerRequest_SharingData_trackName : option string
}.
#[export] Instance NewConsumerRequest_SharingData_map : FieldsMap NewConsumerRequest_SharingData := {|
  fm_fields := [
    field "trackName" pod_string];
  fm_get m :=
    (m.(NewConsumerRequest_SharingData_trackName), tt);
  fm_set t m :=
    let '(x0, _) := t in
    mk_NewConsumerRequest_SharingData x0;
  fm_listed m := true |}.
#[export] Instance NewConsumerRequest_SharingData_init : DefaultInit NewConsumerRequest_SharingData :=
  mk_NewConsumerRequest_SharingData None.
#[export] Instance NewConsumerRequest_SharingData_lawful : LawfulModel NewConsumerRequest_SharingData.
Proof. solve_model. Qed.
#[export] Instance NewConsumerRequest_SharingData_plain : PlainModel NewConsumerRequest_SharingData.
Proof. by split. Qed.

(** [signaling::NewConsumerRequest::AppData] *)
Record NewConsumerRequest_AppData : Type := mk_NewConsumerRequest_AppData {
  NewConsumerRequest_AppData_peerId : option string;
  NewConsumerRequest_AppData_sharing : option NewConsumerRequest_SharingData
}.
#[export] Instance NewConsumerRequest_AppData_map : FieldsMap NewConsumerRequest_AppData := {|
  fm_fields := [
    field "peerId" pod_string;
    field "sharing" (JsonSerializer NewConsumerRequest_SharingData)];
  fm_get m :=
    (m.(NewConsumerRequest_AppData_peerId), (m.(NewConsumerRequest_AppData_sharing), tt));
  fm_set t m :=
    let '(x0, (x1, _)) := t in
    mk_NewConsumerRequest_AppData x0 x1;
  fm_listed m := true |}.
#[export] Instance NewConsumerRequest_AppData_init : DefaultInit NewConsumerRequest_AppData :=
  mk_NewConsumerRequest_AppData None None.
#[export] Instance NewConsumerRequest_AppData_lawful : LawfulModel NewConsumerRequest_AppData.
Proof. solve_model. Qed.
#[export] Instance NewConsumerRequest_AppData_plain : PlainModel NewConsumerRequest_AppData.
Proof. by split. Qed.

(** [signaling::NewConsumerRequest::RTCPFeedback] *)
Record NewConsumerRequest_RTCPFeedback : Type := mk_NewConsumerRequest_RTCPFeedback {
  NewConsumerRequest_RTCPFeedback_type : option string;
  NewConsumerRequest_RTCPFeedback_parameter : option string
}.
#[export] Instance NewConsumerRequest_RTCPFeedback_map : FieldsMap NewConsumerRequest_RTCPFeedback := {|
  fm_fields := [
    field "type" pod_string;
    field "parameter" pod_string];
  fm_get m :=
    (m.(NewConsumerRequest_RTCPFeedback_type), (m.(NewConsumerRequest_RTCPFeedback_parameter),
    tt));
  fm_set t m :=
    let '(x0, (x1, _)) := t in
    mk_NewConsumerRequest_RTCPFeedback x0 x1;
  fm_listed m := true |}.
#[export] Instance NewConsumerRequest_RTCPFeedback_init : DefaultInit NewConsumerRequest_RTCPFeedback :=
  mk_NewConsumerRequest_RTCPFeedback None None.
#[export] Instance NewConsumerRequest_RTCPFeedback_lawful : LawfulModel NewConsumerRequest_RTCPFeedback.
Proof. solve_model. Qed.
#[export] Instance NewConsumerRequest_RTCPFeedback_plain : PlainModel NewConsumerRequest_RTCPFeedback.
Proof. by split. Qed.

(** [signaling::NewConsumerRequest::Parameters] *)
Record NewConsumerRequest_Parameters : Type := mk_NewConsumerRequest_Parameters {
  NewConsumerRequest_Parameters_spropstereo : option Z;
  NewConsumerRequest_Parameters_minptime : option Z;
  NewConsumerRequest_Parameters_useinbandfec : option Z;
  NewConsumerRequest_Parameters_usedtx : option Z
}.
#[export] Instance NewConsumerRequest_Parameters_map : FieldsMap NewConsumerRequest_Parameters := {|
  fm_fields := [
    field "sprop-stereo" pod_int32;
    field "usedtx" pod_int32;
    field "minptime" pod_int32;
    field "useinbandfec" pod_int32];
  fm_get m :=
    (m.(NewConsumerRequest_Parameters_spropstereo), (m.(NewConsumerRequest_Parameters_usedtx),
    (m.(NewConsumerRequest_Parameters_minptime),
    (m.(NewConsumerRequest_Parameters_useinbandfec), tt))));
  fm_set t m :=
    let '(x0, (x1, (x2, (x3, _)))) := t in
    mk_NewConsumerRequest_Parameters x0 x2 x3 x1;
  fm_listed m := true |}.
#[export] Instance NewConsumerRequest_Parameters_init : DefaultInit NewConsumerRequest_Parameters :=
  mk_NewConsumerRequest_Parameters None None None None.
#[export] Instance NewConsumerRequest_Parameters_lawful : LawfulModel NewConsumerRequest_Parameters.
Proof. solve_model. Qed.
#[export] Instance NewConsumerRequest_Parameters_plain : PlainModel NewConsumerRequest_Parameters.
Proof. by split. Qed.

(** [signaling::NewConsumerRequest::Codec] *)
Record NewConsumerRequest_Codec : Type := mk_NewConsumerRequest_Codec {
  NewConsumerRequest_Codec_mimeType : option string;
  NewConsumerRequest_Codec_clockRate : option Z;
  NewConsumerRequest_Codec_channels : option Z;
  NewConsumerRequest_Codec_rtcpFeedback : option (list NewConsumerRequest_RTCPFeedback);
  NewConsumerRequest_Codec_parameters : option NewConsumerRequest_Parameters;
  NewConsumerRequest_Codec_payloadType : option Z
}.
#[export] Instance NewConsumerRequest_Codec_map : FieldsMap NewConsumerRequest_Codec := {|
  fm_fields := [
    field "mimeType" pod_string;
    field "clockRate" pod_int32;
    field "channels" pod_int32;
    field "rtcpFeedback" (JsonSerializerVector NewConsumerRequest_RTCPFeedback);
    field "parameters" (JsonSerializer NewConsumerRequest_Parameters);
    field "payloadType" pod_int32];
  fm_get m :=
    (m.(NewConsumerRequest_Codec_mimeType), (m.(NewConsumerRequest_Codec_clockRate),
    (m.(NewConsumerRequest_Codec_channels), (m.(NewConsumerRequest_Codec_rtcpFeedback),
    (m.(NewConsumerRequest_Codec_parameters), (m.(NewConsumerRequest_Codec_payloadType),
    tt))))));
  fm_set t m :=
    let '(x0, (x1, (x2, (x3, (x4, (x5, _)))))) := t in
    mk_NewConsumerRequest_Codec x0 x1 x2 x3 x4 x5;
  fm_listed m := true |}.
#[export] Instance NewConsumerRequest_Codec_init : DefaultInit NewConsumerRequest_Codec :=
  mk_NewConsumerRequest_Codec None None None None None None.
#[export] Instance NewConsumerRequest_Codec_lawful : LawfulModel NewConsumerRequest_Codec.
Proof. solve_model. Qed.
#[export] Instance NewConsumerRequest_Codec_plain : PlainModel NewConsumerRequest_Codec.
Proof. by split. Qed.

(** [signaling::NewConsumerRequest::HeaderExtension] *)
Record NewConsumerRequest_HeaderExtension : Type := mk_NewConsumerRequest_HeaderExtension {
  NewConsumerRequest_HeaderExtension_id : option Z;
  NewConsumerRequest_HeaderExtension_encrypt : option bool;
  NewConsumerRequest_HeaderExtension_uri : option string
}.
#[export] Instance NewConsumerRequest_HeaderExtension_map : FieldsMap NewConsumerRequest_HeaderExtension := {|
  fm_fields := [
    field "id" pod_int32;
    field "uri" pod_string;
    field "encrypt" pod_bool];
  fm_get m :=
    (m.(NewConsumerRequest_HeaderExtension_id), (m.(NewConsumerRequest_HeaderExtension_uri),
    (m.(NewConsumerRequest_HeaderExtension_encrypt), tt)));
  fm_set t m :=
    let '(x0, (x1, (x2, _))) := t in
    mk_NewConsumerRequest_HeaderExtension x0 x2 x1;
  fm_listed m := true |}.
#[export] Instance NewConsumerRequest_HeaderExtension_init : DefaultInit NewConsumerRequest_HeaderExtension :=
  mk_NewConsumerRequest_HeaderExtension None None None.
#[export] Instance NewConsumerRequest_HeaderExtension_lawful : LawfulModel NewConsumerRequest_HeaderExtension.
Proof. solve_model. Qed.
#[export] Instance NewConsumerRequest_HeaderExtension_plain : PlainModel NewConsumerRequest_HeaderExtension.
Proof. by split. Qed.

(** [signaling::NewConsumerRequest::RTX] *)
Record NewConsumerRequest_RTX : Type := mk_NewConsumerRequest_RTX {
  NewConsumerRequest_RTX_ssrc : option Z
}.
#[export] Instance NewConsumerRequest_RTX_map : FieldsMap NewConsumerRequest_RTX := {|
  fm_fields := [
    field "ssrc" pod_int64];
  fm_get m :=
    (m.(NewConsumerRequest_RTX_ssrc), tt);
  fm_set t m :=
    let '(x0, _) := t in
    mk_NewConsumerRequest_RTX x0;
  fm_listed m := true |}.
#[export] Instance NewConsumerRequest_RTX_init : DefaultInit NewConsumerRequest_RTX :=
  mk_NewConsumerRequest_RTX None.
#[export] Instance NewConsumerRequest_RTX_lawful : LawfulModel NewConsumerRequest_RTX.
Proof. solve_model. Qed.
#[export] Instance NewConsumerRequest_RTX_plain : PlainModel NewConsumerRequest_RTX.
Proof. by split. Qed.

(** [signaling::NewConsumerRequest::Encoding] *)
Record NewConsumerRequest_Encoding : Type := mk_NewConsumerRequest_Encoding {
  NewConsumerRequest_Encoding_maxBitrate : option Z;
  NewConsumerRequest_Encoding_ssrc : option Z;
  NewConsumerRequest_Encoding_rtx : option NewConsumerRequest_RTX;
  NewConsumerRequest_Encoding_scalabilityMode : option string
}.
#[export] Instance NewConsumerRequest_Encoding_map : FieldsMap NewConsumerRequest_Encoding := {|
  fm_fields := [
    field "ssrc" pod_int64;
    field "maxBitrate" pod_int32;
    field "rtx" (JsonSerializer NewConsumerRequest_RTX);
    field "scalabilityMode" pod_string];
  fm_get m :=
    (m.(NewConsumerRequest_Encoding_ssrc), (m.(NewConsumerRequest_Encoding_maxBitrate),
    (m.(NewConsumerRequest_Encoding_rtx), (m.(NewConsumerRequest_Encoding_scalabilityMode),
    tt))));
  fm_set t m :=
    let '(x0, (x1, (x2, (x3, _)))) := t in
    mk_NewConsumerRequest_Encoding x1 x0 x2 x3;
  fm_listed m := true |}.
#[export] Instance NewConsumerRequest_Encoding_init : DefaultInit NewConsumerRequest_Encoding :=
  mk_NewConsumerRequest_Encoding None None None None.
#[export] Instance NewConsumerRequest_Encoding_lawful : LawfulModel NewConsumerRequest_Encoding.
Proof. solve_model. Qed.
#[export] Instance NewConsumerRequest_Encoding_plain : PlainModel NewConsumerRequest_Encoding.
Proof. by split. Qed.

(** [signaling::NewConsumerRequest::Rtcp] *)
Record NewConsumerRequest_Rtcp : Type := mk_NewConsumerRequest_Rtcp {
  NewConsumerRequest_Rtcp_cname : option string;
  NewConsumerRequest_Rtcp_mux : option bool;
  NewConsumerRequest_Rtcp_reducedSize : option bool
}.
#[export] Instance NewConsumerRequest_Rtcp_map : FieldsMap NewConsumerRequest_Rtcp := {|
  fm_fields := [
    field "cname" pod_string;
    field "mux" pod_bool;
    field "reducedSize" pod_bool];
  fm_get m :=
    (m.(NewConsumerRequest_Rtcp_cname), (m.(NewConsumerRequest_Rtcp_mux),
    (m.(NewConsumerRequest_Rtcp_reducedSize), tt)));
  fm_set t m :=
    let '(x0, (x1, (x2, _))) := t in
    mk_NewConsumerRequest_Rtcp x0 x1 x2;
  fm_listed m := true |}.
#[export] Instance NewConsumerRequest_Rtcp_init : DefaultInit NewConsumerRequest_Rtcp :=
  mk_NewConsumerRequest_Rtcp None None None.
#[export] Instance NewConsumerRequest_Rtcp_lawful : LawfulModel NewConsumerRequest_Rtcp.
Proof. solve_model. Qed.
#[export] Instance NewConsumerRequest_Rtcp_plain : PlainModel NewConsumerRequest_Rtcp.
Proof. by split. Qed.

(** [signaling::NewConsumerRequest::RTPParameters] *)
Record NewConsumerRequest_RTPParameters : Type := mk_NewConsumerRequest_RTPParameters {
  NewConsumerRequest_RTPParameters_encodings : option (list NewConsumerRequest_Encoding);
  NewConsumerRequest_RTPParameters_codecs : option (list NewConsumerRequest_Codec);
  NewConsumerRequest_RTPParameters_headerExtensions : option (list NewConsumerRequest_HeaderExtension);
  NewConsumerRequest_RTPParameters_mid : option string;
  NewConsumerRequest_RTPParameters_rtcp : option NewConsumerRequest_Rtcp
}.
#[export] Instance NewConsumerRequest_RTPParameters_map : FieldsMap NewConsumerRequest_RTPParameters := {|
  fm_fields := [
    field "encodings" (JsonSerializerVector NewConsumerRequest_Encoding);
    field "codecs" (JsonSerializerVector NewConsumerRequest_Codec);
    field "headerExtensions" (JsonSerializerVector NewConsumerRequest_HeaderExtension);
    field "mid" pod_string;
    field "rtcp" (JsonSerializer NewConsumerRequest_Rtcp)];
  fm_get m :=
    (m.(NewConsumerRequest_RTPParameters_encodings),
    (m.(NewConsumerRequest_RTPParameters_codecs),
    (m.(NewConsumerRequest_RTPParameters_headerExtensions),
    (m.(NewConsumerRequest_RTPParameters_mid), (m.(NewConsumerRequest_RTPParameters_rtcp),
    tt)))));
  fm_set t m :=
    let '(x0, (x1, (x2, (x3, (x4, _))))) := t in
    mk_NewConsumerRequest_RTPParameters x0 x1 x2 x3 x4;
  fm_listed m := true |}.
#[export] Instance NewConsumerRequest_RTPParameters_init : DefaultInit NewConsumerRequest_RTPParameters :=
  mk_NewConsumerRequest_RTPParameters None None None None None.
#[export] Instance NewConsumerRequest_RTPParameters_lawful : LawfulModel NewConsumerRequest_RTPParameters.
Proof. solve_model. Qed.
#[export] Instance NewConsumerRequest_RTPParameters_plain : PlainModel NewConsumerRequest_RTPParameters.
Proof. by split. Qed.

(** [signaling::NewConsumerRequest::Data] *)
Record NewConsumerRequest_Data : Type := mk_NewConsumerRequest_Data {
  NewConsumerRequest_Data_id : option string;
  NewConsumerRequest_Data_peerId : option string;
  NewConsumerRequest_Data_type : option string;
  NewConsumerRequest_Data_kind : option string;
  NewConsumerRequest_Data_producerId : option string;
  NewConsumerRequest_Data_producerPaused : option bool;
  NewConsumerRequest_Data_rtpParameters : option NewConsumerRequest_RTPParameters;
  NewConsumerRequest_Data_appData : option NewConsumerRequest_AppData
}.
#[export] Instance NewConsumerRequest_Data_map : FieldsMap NewConsumerRequest_Data := {|
  fm_fields := [
    field "id" pod_string;
    field "peerId" pod_string;
    field "kind" pod_string;
    field "type" pod_string;
    field "producerId" pod_string;
    field "producerPaused" pod_bool;
    field "rtpParameters" (JsonSerializer NewConsumerRequest_RTPParameters);
    field "appData" (JsonSerializer NewConsumerRequest_AppData)];
  fm_get m :=
    (m.(NewConsumerRequest_Data_id), (m.(NewConsumerRequest_Data_peerId),
    (m.(NewConsumerRequest_Data_kind), (m.(NewConsumerRequest_Data_type),
    (m.(NewConsumerRequest_Data_producerId), (m.(NewConsumerRequest_Data_producerPaused),
    (m.(NewConsumerRequest_Data_rtpParameters), (m.(NewConsumerRequest_Data_appData), tt))))))));
  fm_set t m :=
    let '(x0, (x1, (x2, (x3, (x4, (x5, (x6, (x7, _)))))))) := t in
    mk_NewConsumerRequest_Data x0 x1 x3 x2 x4 x5 x6 x7;
  fm_listed m := true |}.
#[export] Instance NewConsumerRequest_Data_init : DefaultInit NewConsumerRequest_Data :=
  mk_NewConsumerRequest_Data None None None None None None None None.
#[export] Instance NewConsumerRequest_Data_lawful : LawfulModel NewConsumerRequest_Data.
Proof. solve_model. Qed.
#[export] Instance NewConsumerRequest_Data_plain : PlainModel NewConsumerRequest_Data.
Proof. by split. Qed.

(** [signaling::NewConsumerRequest] *)
Record NewConsumerRequest : Type := mk_NewConsumerRequest {
  NewConsumerRequest_request : option bool;
  NewConsumerRequest_id : option Z;
  NewConsumerRequest_method : option string;
  NewConsumerRequest_data : option NewConsumerRequest_Data
}.
#[export] Instance NewConsumerRequest_map : FieldsMap NewConsumerRequest := {|
  fm_fields := [
    field "request" pod_bool;
    field "id" pod_int64;
    field "method" pod_string;
    field "data" (JsonSerializer NewConsumerRequest_Data)];
  fm_get m :=
    (m.(NewConsumerRequest_request), (m.(NewConsumerRequest_id),
    (m.(NewConsumerRequest_method), (m.(NewConsumerRequest_data), tt))));
  fm_set t m :=
    let '(x0, (x1, (x2, (x3, _)))) := t in
    mk_NewConsumerRequest x0 x1 x2 x3;
  fm_listed m := true |}.
#[export] Instance NewConsumerRequest_init : DefaultInit NewConsumerRequest :=
  mk_NewConsumerRequest None None None None.
#[export] Instance NewConsumerRequest_lawful : LawfulModel NewConsumerRequest.
Proof. solve_model. Qed.
#[export] Instance NewConsumerRequest_plain : PlainModel NewConsumerRequest.
Proof. by split. Qed.

(** [signaling::ConnectWebRtcTransportRequest::Fingerprint] *)
Record ConnectWebRtcTransportRequest_Fingerprint : Type := mk_ConnectWebRtcTransportRequest_Fingerprint {
  ConnectWebRtcTransportRequest_Fingerprint_algorithm : option string;
  ConnectWebRtcTransportRequest_Fingerprint_value : option string
}.
#[export] Instance ConnectWebRtcTransportRequest_Fingerprint_map : FieldsMap ConnectWebRtcTransportRequest_Fingerprint := {|
  fm_fields := [
    field "algorithm" pod_string;
    field "value" pod_string];
  fm_get m :=
    (m.(ConnectWebRtcTransportRequest_Fingerprint_algorithm),
    (m.(ConnectWebRtcTransportRequest_Fingerprint_value), tt));
  fm_set t m :=
    let '(x0, (x1, _)) := t in
    mk_ConnectWebRtcTransportRequest_Fingerprint x0 x1;
  fm_listed m := true |}.
#[export] Instance ConnectWebRtcTransportRequest_Fingerprint_init : DefaultInit ConnectWebRtcTransportRequest_Fingerprint :=
  mk_ConnectWebRtcTransportRequest_Fingerprint None None.
#[export] Instance ConnectWebRtcTransportRequest_Fingerprint_lawful : LawfulModel ConnectWebRtcTransportRequest_Fingerprint.
Proof. solve_model. Qed.
#[export] Instance ConnectWebRtcTransportRequest_Fingerprint_plain : PlainModel ConnectWebRtcTransportRequest_Fingerprint.
Proof. by split. Qed.

(** [signaling::ConnectWebRtcTransportRequest::DTLSParameters] *)
Record ConnectWebRtcTransportRequest_DTLSParameters : Type := mk_ConnectWebRtcTransportRequest_DTLSParameters {
  ConnectWebRtcTransportRequest_DTLSParameters_fingerprints : option (list ConnectWebRtcTransportRequest_Fingerprint);
  ConnectWebRtcTransportRequest_DTLSParameters_role : option string
}.
#[export] Instance ConnectWebRtcTransportRequest_DTLSParameters_map : FieldsMap ConnectWebRtcTransportRequest_DTLSParameters := {|
  fm_fields := [
    field "fingerprints" (JsonSerializerVector ConnectWebRtcTransportRequest_Fingerprint);
    field "role" pod_string];
  fm_get m :=
    (m.(ConnectWebRtcTransportRequest_DTLSParameters_fingerprints),
    (m.(ConnectWebRtcTransportRequest_DTLSParameters_role), tt));
  fm_set t m :=
    let '(x0, (x1, _)) := t in
    mk_ConnectWebRtcTransportRequest_DTLSParameters x0 x1;
  fm_listed m := true |}.
#[export] Instance ConnectWebRtcTransportRequest_DTLSParameters_init : DefaultInit ConnectWebRtcTransportRequest_DTLSParameters :=
  mk_ConnectWebRtcTransportRequest_DTLSParameters None None.
#[export] Instance ConnectWebRtcTransportRequest_DTLSParameters_lawful : LawfulModel ConnectWebRtcTransportRequest_DTLSParameters.
Proof. solve_model. Qed.
#[export] Instance ConnectWebRtcTransportRequest_DTLSParameters_plain : PlainModel ConnectWebRtcTransportRequest_DTLSParameters.
Proof. by split. Qed.

(** [signaling::ConnectWebRtcTransportRequest::Data] *)
Record ConnectWebRtcTransportRequest_Data : Type := mk_ConnectWebRtcTransportRequest_Data {
  ConnectWebRtcTransportRequest_Data_transportId : option string;
  ConnectWebRtcTransportRequest_Data_dtlsParameters : option ConnectWebRtcTransportRequest_DTLSParameters
}.
#[export] Instance ConnectWebRtcTransportRequest_Data_map : FieldsMap ConnectWebRtcTransportRequest_Data := {|
  fm_fields := [
    field "transportId" pod_string;
    field "dtlsParameters" (JsonSerializer ConnectWebRtcTransportRequest_DTLSParameters)];
  fm_get m :=
    (m.(ConnectWebRtcTransportRequest_Data_transportId),
    (m.(ConnectWebRtcTransportRequest_Data_dtlsParameters), tt));
  fm_set t m :=
    let '(x0, (x1, _)) := t in
    mk_ConnectWebRtcTransportRequest_Data x0 x1;
  fm_listed m := true |}.
#[export] Instance ConnectWebRtcTransportRequest_Data_init : DefaultInit ConnectWebRtcTransportRequest_Data :=
  mk_ConnectWebRtcTransportRequest_Data None None.
#[export] Instance ConnectWebRtcTransportRequest_Data_lawful : LawfulModel ConnectWebRtcTransportRequest_Data.
Proof. solve_model. Qed.
#[export] Instance ConnectWebRtcTransportRequest_Data_plain : PlainModel ConnectWebRtcTransportRequest_Data.
Proof. by split. Qed.

(** [signaling::ConnectWebRtcTransportRequest] *)
Record ConnectWebRtcTransportRequest : Type := mk_ConnectWebRtcTransportRequest {
  ConnectWebRtcTransportRequest_request : option bool;
  ConnectWebRtcTransportRequest_id : option Z;
  ConnectWebRtcTransportRequest_method : option string;
  ConnectWebRtcTransportRequest_data : option ConnectWebRtcTransportRequest_Data
}.
#[export] Instance ConnectWebRtcTransportRequest_map : FieldsMap ConnectWebRtcTransportRequest := {|
  fm_fields := [
    field "request" pod_bool;
    field "id" pod_int64;
    field "method" pod_string;
    field "data" (JsonSerializer ConnectWebRtcTransportRequest_Data)];
  fm_get m :=
    (m.(ConnectWebRtcTransportRequest_request), (m.(ConnectWebRtcTransportRequest_id),
    (m.(ConnectWebRtcTransportRequest_method), (m.(ConnectWebRtcTransportRequest_data), tt))));
  fm_set t m :=
    let '(x0, (x1, (x2, (x3, _)))) := t in
    mk_ConnectWebRtcTransportRequest x0 x1 x2 x3;
  fm_listed m := true |}.
Definition ConnectWebRtcTransportRequest_new (gid : Z) : ConnectWebRtcTransportRequest :=
  mk_ConnectWebRtcTransportRequest (Some true) (Some gid) (Some "connectWebRtcTransport") None.
#[export] Instance ConnectWebRtcTransportRequest_lawful : LawfulModel ConnectWebRtcTransportRequest.
Proof. solve_model. Qed.

(** [signaling::ProduceRequest::SharingData] *)
Record ProduceRequest_SharingData : Type := mk_ProduceRequest_SharingData {
  ProduceRequest_SharingData_trackName : option string
}.
#[export] Instance ProduceRequest_SharingData_map : FieldsMap ProduceRequest_SharingData := {|
  fm_fields := [
    field "trackName" pod_string];
  fm_get m :=
    (m.(ProduceRequest_SharingData_trackName), tt);
  fm_set t m :=
    let '(x0, _) := t in
    mk_ProduceRequest_SharingData x0;
  fm_listed m := true |}.
#[export] Instance ProduceRequest_SharingData_init : DefaultInit ProduceRequest_SharingData :=
  mk_ProduceRequest_SharingData None.
#[export] Instance ProduceRequest_SharingData_lawful : LawfulModel ProduceRequest_SharingData.
Proof. solve_model. Qed.
#[export] Instance ProduceRequest_SharingData_plain : PlainModel ProduceRequest_SharingData.
Proof. by split. Qed.

(** [signaling::ProduceRequest::AppData] *)
Record ProduceRequest_AppData : Type := mk_ProduceRequest_AppData {
  ProduceRequest_AppData_peerId : option string;
  ProduceRequest_AppData_sharing : option ProduceRequest_SharingData
}.
#[export] Instance ProduceRequest_AppData_map : FieldsMap ProduceRequest_AppData := {|
  fm_fields := [
    field "peerId" pod_string;
    field "sharing" (JsonSerializer ProduceRequest_SharingData)];
  fm_get m :=
    (m.(ProduceRequest_AppData_peerId), (m.(ProduceRequest_AppData_sharing), tt));
  fm_set t m :=
    let '(x0, (x1, _)) := t in
    mk_ProduceRequest_AppData x0 x1;
  fm_listed m := true |}.
#[export] Instance ProduceRequest_AppData_init : DefaultInit ProduceRequest_AppData :=
  mk_ProduceRequest_AppData None None.
#[export] Instance ProduceRequest_AppData_lawful : LawfulModel ProduceRequest_AppData.
Proof. solve_model. Qed.
#[export] Instance ProduceRequest_AppData_plain : PlainModel ProduceRequest_AppData.
Proof. by split. Qed.

(** [signaling::ProduceRequest::RTCPFeedback] *)
Record ProduceRequest_RTCPFeedback : Type := mk_ProduceRequest_RTCPFeedback {
  ProduceRequest_RTCPFeedback_type : option string;
  ProduceRequest_RTCPFeedback_parameter : option string
}.
#[export] Instance ProduceRequest_RTCPFeedback_map : FieldsMap ProduceRequest_RTCPFeedback := {|
  fm_fields := [
    field "type" pod_string;
    field "parameter" pod_string];
  fm_get m :=
    (m.(ProduceRequest_RTCPFeedback_type), (m.(ProduceRequest_RTCPFeedback_parameter), tt));
  fm_set t m :=
    let '(x0, (x1, _)) := t in
    mk_ProduceRequest_RTCPFeedback x0 x1;
  fm_listed m := true |}.
#[export] Instance ProduceRequest_RTCPFeedback_init : DefaultInit ProduceRequest_RTCPFeedback :=
  mk_ProduceRequest_RTCPFeedback None None.
#[export] Instance ProduceRequest_RTCPFeedback_lawful : LawfulModel ProduceRequest_RTCPFeedback.
Proof. solve_model. Qed.
#[export] Instance ProduceRequest_RTCPFeedback_plain : PlainModel ProduceRequest_RTCPFeedback.
Proof. by split. Qed.

(** [signaling::ProduceRequest::Parameters] *)
Record ProduceRequest_Parameters : Type := mk_ProduceRequest_Parameters {
  ProduceRequest_Parameters_apt : option Z;
  ProduceRequest_Parameters_spropstereo : option Z;
  ProduceRequest_Parameters_minptime : option Z;
  ProduceRequest_Parameters_useinbandfec : option Z;
  ProduceRequest_Parameters_usedtx : option Z;
  ProduceRequest_Parameters_levelAsymmetryAllowed : option Z;
  ProduceRequest_Parameters_packetizationMode : option Z;
  ProduceRequest_Parameters_profileLevelId : option string;
  ProduceRequest_Parameters_xGoogleStartBitrate : option Z;
  ProduceRequest_Parameters_profileId : option Z
}.
#[export] Instance ProduceRequest_Parameters_map : FieldsMap ProduceRequest_Parameters := {|
  fm_fields := [
    field "apt" pod_int32;
    field "sprop-stereo" pod_int32;
    field "usedtx" pod_int32;
    field "minptime" pod_int32;
    field "useinbandfec" pod_int32;
    field "level-asymmetry-allowed" pod_int32;
    field "packetization-mode" pod_int32;
    field "profile-level-id" pod_string;
    field "x-google-start-bitrate" pod_int32;
    field "profile-id" pod_int32];
  fm_get m :=
    (m.(ProduceRequest_Parameters_apt), (m.(ProduceRequest_Parameters_spropstereo),
    (m.(ProduceRequest_Parameters_usedtx), (m.(ProduceRequest_Parameters_minptime),
    (m.(ProduceRequest_Parameters_useinbandfec),
    (m.(ProduceRequest_Parameters_levelAsymmetryAllowed),
    (m.(ProduceRequest_Parameters_packetizationMode),
    (m.(ProduceRequest_Parameters_profileLevelId),
    (m.(ProduceRequest_Parameters_xGoogleStartBitrate),
    (m.(ProduceRequest_Parameters_profileId), tt))))))))));
  fm_set t m :=
    let '(x0, (x1, (x2, (x3, (x4, (x5, (x6, (x7, (x8, (x9, _)))))))))) := t in
    mk_ProduceRequest_Parameters x0 x1 x3 x4 x2 x5 x6 x7 x8 x9;
  fm_listed m := true |}.
#[export] Instance ProduceRequest_Parameters_init : DefaultInit ProduceRequest_Parameters :=
  mk_ProduceRequest_Parameters None None None None None None None None None None.
#[export] Instance ProduceRequest_Parameters_lawful : LawfulModel ProduceRequest_Parameters.
Proof. solve_model. Qed.
#[export] Instance ProduceRequest_Parameters_plain : PlainModel ProduceRequest_Parameters.
Proof. by split. Qed.

(** [signaling::ProduceRequest::Codec] *)
Record ProduceRequest_Codec : Type := mk_ProduceRequest_Codec {
  ProduceRequest_Codec_mimeType : option string;
  ProduceRequest_Codec_clockRate : option Z;
  ProduceRequest_Codec_channels : option Z;
  ProduceRequest_Codec_rtcpFeedback : option (list ProduceRequest_RTCPFeedback);
  ProduceRequest_Codec_parameters : option ProduceRequest_Parameters;
  ProduceRequest_Codec_payloadType : option Z
}.
#[export] Instance ProduceRequest_Codec_map : FieldsMap ProduceRequest_Codec := {|
  fm_fields := [
    field "mimeType" pod_string;
    field "clockRate" pod_int32;
    field "channels" pod_int32;
    field "rtcpFeedback" (JsonSerializerVector ProduceRequest_RTCPFeedback);
    field "parameters" (JsonSerializer ProduceRequest_Parameters);
    field "payloadType" pod_int32];
  fm_get m :=
    (m.(ProduceRequest_Codec_mimeType), (m.(ProduceRequest_Codec_clockRate),
    (m.(ProduceRequest_Codec_channels), (m.(ProduceRequest_Codec_rtcpFeedback),
    (m.(ProduceRequest_Codec_parameters), (m.(ProduceRequest_Codec_payloadType), tt))))));
  fm_set t m :=
    let '(x0, (x1, (x2, (x3, (x4, (x5, _)))))) := t in
    mk_ProduceRequest_Codec x0 x1 x2 x3 x4 x5;
  fm_listed m := true |}.
#[export] Instance ProduceRequest_Codec_init : DefaultInit ProduceRequest_Codec :=
  mk_ProduceRequest_Codec None None None None None None.
#[export] Instance ProduceRequest_Codec_lawful : LawfulModel ProduceRequest_Codec.
Proof. solve_model. Qed.
#[export] Instance ProduceRequest_Codec_plain : PlainModel ProduceRequest_Codec.
Proof. by split. Qed.

(** [signaling::ProduceRequest::HeaderExtension] *)
Record ProduceRequest_HeaderExtension : Type := mk_ProduceRequest_HeaderExtension {
  ProduceRequest_HeaderExtension_id : option Z;
  ProduceRequest_HeaderExtension_encrypt : option bool;
  ProduceRequest_HeaderExtension_uri : option string
}.
#[export] Instance ProduceRequest_HeaderExtension_map : FieldsMap ProduceRequest_HeaderExtension := {|
  fm_fields := [
    field "id" pod_int32;
    field "uri" pod_string;
    field "encrypt" pod_bool];
  fm_get m :=
    (m.(ProduceRequest_HeaderExtension_id), (m.(ProduceRequest_HeaderExtension_uri),
    (m.(ProduceRequest_HeaderExtension_encrypt), tt)));
  fm_set t m :=
    let '(x0, (x1, (x2, _))) := t in
    mk_ProduceRequest_HeaderExtension x0 x2 x1;
  fm_listed m := true |}.
#[export] Instance ProduceRequest_HeaderExtension_init : DefaultInit ProduceRequest_HeaderExtension :=
  mk_ProduceRequest_HeaderExtension None None None.
#[export] Instance ProduceRequest_HeaderExtension_lawful : LawfulModel ProduceRequest_HeaderExtension.
Proof. solve_model. Qed.
#[export] Instance ProduceRequest_HeaderExtension_plain : PlainModel ProduceRequest_HeaderExtension.
Proof. by split. Qed.

(** [signaling::ProduceRequest::Encoding] *)
Record ProduceRequest_Encoding : Type := mk_ProduceRequest_Encoding {
  ProduceRequest_Encoding_ssrc : option Z;
  ProduceRequest_Encoding_active : option bool;
  ProduceRequest_Encoding_dtx : option bool;
  ProduceRequest_Encoding_maxBitrate : option Z;
  ProduceRequest_Encoding_rid : option string;
  ProduceRequest_Encoding_scalabilityMode : option string;
  ProduceRequest_Encoding_scaleResolutionDownBy : option spec_float
}.
#[export] Instance ProduceRequest_Encoding_map : FieldsMap ProduceRequest_Encoding := {|
  fm_fields := [
    field "ssrc" pod_int64;
    field "active" pod_bool;
    field "dtx" pod_bool;
    field "maxBitrate" pod_int32;
    field "rid" pod_string;
    field "scalabilityMode" pod_string;
    field "scaleResolutionDownBy" pod_float];
  fm_get m :=
    (m.(ProduceRequest_Encoding_ssrc), (m.(ProduceRequest_Encoding_active),
    (m.(ProduceRequest_Encoding_dtx), (m.(ProduceRequest_Encoding_maxBitrate),
    (m.(ProduceRequest_Encoding_rid), (m.(ProduceRequest_Encoding_scalabilityMode),
    (m.(ProduceRequest_Encoding_scaleResolutionDownBy), tt)))))));
  fm_set t m :=
    let '(x0, (x1, (x2, (x3, (x4, (x5, (x6, _))))))) := t in
    mk_ProduceRequest_Encoding x0 x1 x2 x3 x4 x5 x6;
  fm_listed m := true |}.
#[export] Instance ProduceRequest_Encoding_init : DefaultInit ProduceRequest_Encoding :=
  mk_ProduceRequest_Encoding None None None None None None None.
#[export] Instance ProduceRequest_Encoding_lawful : LawfulModel ProduceRequest_Encoding.
Proof. solve_model. Qed.
#[export] Instance ProduceRequest_Encoding_plain : PlainModel ProduceRequest_Encoding.
Proof. by split. Qed.

(** [signaling::ProduceRequest::Rtcp] *)
Record ProduceRequest_Rtcp : Type := mk_ProduceRequest_Rtcp {
  ProduceRequest_Rtcp_cname : option string;
  ProduceRequest_Rtcp_reducedSize : option bool
}.
#[export] Instance ProduceRequest_Rtcp_map : FieldsMap ProduceRequest_Rtcp := {|
  fm_fields := [
    field "cname" pod_string;
    field "reducedSize" pod_bool];
  fm_get m :=
    (m.(ProduceRequest_Rtcp_cname), (m.(ProduceRequest_Rtcp_reducedSize), tt));
  fm_set t m :=
    let '(x0, (x1, _)) := t in
    mk_ProduceRequest_Rtcp x0 x1;
  fm_listed m := true |}.
#[export] Instance ProduceRequest_Rtcp_init : DefaultInit ProduceRequest_Rtcp :=
  mk_ProduceRequest_Rtcp None None.
#[export] Instance ProduceRequest_Rtcp_lawful : LawfulModel ProduceRequest_Rtcp.
Proof. solve_model. Qed.
#[export] Instance ProduceRequest_Rtcp_plain : PlainModel ProduceRequest_Rtcp.
Proof. by split. Qed.

(** [signaling::ProduceRequest::RTPParameters] *)
Record ProduceRequest_RTPParameters : Type := mk_ProduceRequest_RTPParameters {
  ProduceRequest_RTPParameters_encodings : option (list ProduceRequest_Encoding);
  ProduceRequest_RTPParameters_codecs : option (list ProduceRequest_Codec);
  ProduceRequest_RTPParameters_headerExtensions : option (list ProduceRequest_HeaderExtension);
  ProduceRequest_RTPParameters_mid : option string;
  ProduceRequest_RTPParameters_rtcp : option ProduceRequest_Rtcp
}.
#[export] Instance ProduceRequest_RTPParameters_map : FieldsMap ProduceRequest_RTPParameters := {|
  fm_fields := [
    field "encodings" (JsonSerializerVector ProduceRequest_Encoding);
    field "codecs" (JsonSerializerVector ProduceRequest_Codec);
    field "headerExtensions" (JsonSerializerVector ProduceRequest_HeaderExtension);
    field "mid" pod_string;
    field "rtcp" (JsonSerializer ProduceRequest_Rtcp)];
  fm_get m :=
    (m.(ProduceRequest_RTPParameters_encodings), (m.(ProduceRequest_RTPParameters_codecs),
    (m.(ProduceRequest_RTPParameters_headerExtensions), (m.(ProduceRequest_RTPParameters_mid),
    (m.(ProduceRequest_RTPParameters_rtcp), tt)))));
  fm_set t m :=
    let '(x0, (x1, (x2, (x3, (x4, _))))) := t in
    mk_ProduceRequest_RTPParameters x0 x1 x2 x3 x4;
  fm_listed m := true |}.
#[export] Instance ProduceRequest_RTPParameters_init : DefaultInit ProduceRequest_RTPParameters :=
  mk_ProduceRequest_RTPParameters None None None None None.
#[export] Instance ProduceRequest_RTPParameters_lawful : LawfulModel ProduceRequest_RTPParameters.
Proof. solve_model. Qed.
#[export] Instance ProduceRequest_RTPParameters_plain : PlainModel ProduceRequest_RTPParameters.
Proof. by split. Qed.

(** [signaling::ProduceRequest::Data] *)
Record ProduceRequest_Data : Type := mk_ProduceRequest_Data {
  ProduceRequest_Data_transportId : option string;
  ProduceRequest_Data_kind : option string;
  ProduceRequest_Data_rtpParameters : option ProduceRequest_RTPParameters;
  ProduceRequest_Data_appData : option ProduceRequest_AppData
}.
#[export] Instance ProduceRequest_Data_map : FieldsMap ProduceRequest_Data := {|
  fm_fields := [
    field "transportId" pod_string;
    field "kind" pod_string;
    field "rtpParameters" (JsonSerializer ProduceRequest_RTPParameters);
    field "appData" (JsonSerializer ProduceRequest_AppData)];
  fm_get m :=
    (m.(ProduceRequest_Data_transportId), (m.(ProduceRequest_Data_kind),
    (m.(ProduceRequest_Data_rtpParameters), (m.(ProduceRequest_Data_appData), tt))));
  fm_set t m :=
    let '(x0, (x1, (x2, (x3, _)))) := t in
    mk_ProduceRequest_Data x0 x1 x2 x3;
  fm_listed m := true |}.
#[export] Instance ProduceRequest_Data_init : DefaultInit ProduceRequest_Data :=
  mk_ProduceRequest_Data None None None None.
#[export] Instance ProduceRequest_Data_lawful : LawfulModel ProduceRequest_Data.
Proof. solve_model. Qed.
#[export] Instance ProduceRequest_Data_plain : PlainModel ProduceRequest_Data.
Proof. by split. Qed.

(** [signaling::ProduceRequest] *)
Record ProduceRequest : Type := mk_ProduceRequest {
  ProduceRequest_request : option bool;
  ProduceRequest_id : option Z;
  ProduceRequest_method : option string;
  ProduceRequest_data : option ProduceRequest_Data
}.
#[export] Instance ProduceRequest_map : FieldsMap ProduceRequest := {|
  fm_fields := [
    field "request" pod_bool;
    field "id" pod_int64;
    field "method" pod_string;
    field "data" (JsonSerializer ProduceRequest_Data)];
  fm_get m :=
    (m.(ProduceRequest_request), (m.(ProduceRequest_id), (m.(ProduceRequest_method),
    (m.(ProduceRequest_data), tt))));
  fm_set t m :=
    let '(x0, (x1, (x2, (x3, _)))) := t in
    mk_ProduceRequest x0 x1 x2 x3;
  fm_listed m := true |}.
Definition ProduceRequest_new (gid : Z) : ProduceRequest :=
  mk_ProduceRequest (Some true) (Some gid) (Some "produce") None.
#[export] Instance ProduceRequest_lawful : LawfulModel ProduceRequest.
Proof. solve_model. Qed.

(** [signaling::ProduceResponse::Data] *)
Record ProduceResponse_Data : Type := mk_ProduceResponse_Data {
  ProduceResponse_Data_id : option string
}.
#[export] Instance ProduceResponse_Data_map : FieldsMap ProduceResponse_Data := {|
  fm_fields := [
    field "id" pod_string];
  fm_get m :=
    (m.(ProduceResponse_Data_id), tt);
  fm_set t m :=
    let '(x0, _) := t in
    mk_ProduceResponse_Data x0;
  fm_listed m := true |}.
#[export] Instance ProduceResponse_Data_init : DefaultInit ProduceResponse_Data :=
  mk_ProduceResponse_Data None.
#[export] Instance ProduceResponse_Data_lawful : LawfulModel ProduceResponse_Data.
Proof. solve_model. Qed.
#[export] Instance ProduceResponse_Data_plain : PlainModel ProduceResponse_Data.
Proof. by split. Qed.

(** [signaling::ProduceResponse] *)
Record ProduceResponse : Type := mk_ProduceResponse {
  ProduceResponse_response : option bool;
  ProduceResponse_id : option Z;
  ProduceResponse_ok : option bool;
  ProduceResponse_data : option ProduceResponse_Data
}.
#[export] Instance ProduceResponse_map : FieldsMap ProduceResponse := {|
  fm_fields := [
    field "response" pod_bool;
    field "id" pod_int64;
    field "ok" pod_bool;
    field "data" (JsonSerializer ProduceResponse_Data)];
  fm_get m :=
    (m.(ProduceResponse_response), (m.(ProduceResponse_id), (m.(ProduceResponse_ok),
    (m.(ProduceResponse_data), tt))));
  fm_set t m :=
    let '(x0, (x1, (x2, (x3, _)))) := t in
    mk_ProduceResponse x0 x1 x2 x3;
  fm_listed m := true |}.
#[export] Instance ProduceResponse_init : DefaultInit ProduceResponse :=
  mk_ProduceResponse None None None None.
#[export] Instance ProduceResponse_lawful : LawfulModel ProduceResponse.
Proof. solve_model. Qed.
#[export] Instance ProduceResponse_plain : PlainModel ProduceResponse.
Proof. by split. Qed.

(** [signaling::ProduceDataRequest::AppData] *)
Record ProduceDataRequest_AppData : Type := mk_ProduceDataRequest_AppData {
  ProduceDataRequest_AppData_info : option string
}.
#[export] Instance ProduceDataRequest_AppData_map : FieldsMap ProduceDataRequest_AppData := {|
  fm_fields := [
    field "info" pod_string];
  fm_get m :=
    (m.(ProduceDataRequest_AppData_info), tt);
  fm_set t m :=
    let '(x0, _) := t in
    mk_ProduceDataRequest_AppData x0;
  fm_listed m := true |}.
#[export] Instance ProduceDataRequest_AppData_init : DefaultInit ProduceDataRequest_AppData :=
  mk_ProduceDataRequest_AppData None.
#[export] Instance ProduceDataRequest_AppData_lawful : LawfulModel ProduceDataRequest_AppData.
Proof. solve_model. Qed.
#[export] Instance ProduceDataRequest_AppData_plain : PlainModel ProduceDataRequest_AppData.
Proof. by split. Qed.

(** [signaling::ProduceDataRequest::SCTPStreamParameters] *)
Record ProduceDataRequest_SCTPStreamParameters : Type := mk_ProduceDataRequest_SCTPStreamParameters {
  ProduceDataRequest_SCTPStreamParameters_streamId : option Z;
  ProduceDataRequest_SCTPStreamParameters_maxRetransmits : option Z;
  ProduceDataRequest_SCTPStreamParameters_ordered : option bool
}.
#[export] Instance ProduceDataRequest_SCTPStreamParameters_map : FieldsMap ProduceDataRequest_SCTPStreamParameters := {|
  fm_fields := [
    field "streamId" pod_int32;
    field "maxRetransmits" pod_int32;
    field "ordered" pod_bool];
  fm_get m :=
    (m.(ProduceDataRequest_SCTPStreamParameters_streamId),
    (m.(ProduceDataRequest_SCTPStreamParameters_maxRetransmits),
    (m.(ProduceDataRequest_SCTPStreamParameters_ordered), tt)));
  fm_set t m :=
    let '(x0, (x1, (x2, _))) := t in
    mk_ProduceDataRequest_SCTPStreamParameters x0 x1 x2;
  fm_listed m := true |}.
#[export] Instance ProduceDataRequest_SCTPStreamParameters_init : DefaultInit ProduceDataRequest_SCTPStreamParameters :=
  mk_ProduceDataRequest_SCTPStreamParameters None None None.
#[export] Instance ProduceDataRequest_SCTPStreamParameters_lawful : LawfulModel ProduceDataRequest_SCTPStreamParameters.
Proof. solve_model. Qed.
#[export] Instance ProduceDataRequest_SCTPStreamParameters_plain : PlainModel ProduceDataRequest_SCTPStreamParameters.
Proof. by split. Qed.

(** [signaling::ProduceDataRequest::Data] *)
Record ProduceDataRequest_Data : Type := mk_ProduceDataRequest_Data {
  ProduceDataRequest_Data_transportId : option string;
  ProduceDataRequest_Data_label : option string;
  ProduceDataRequest_Data_protocol : option string;
  ProduceDataRequest_Data_sctpStreamParameters : option ProduceDataRequest_SCTPStreamParameters;
  ProduceDataRequest_Data_appData : option ProduceDataRequest_AppData
}.
#[export] Instance ProduceDataRequest_Data_map : FieldsMap ProduceDataRequest_Data := {|
  fm_fields := [
    field "transportId" pod_string;
    field "label" pod_string;
    field "protocol" pod_string;
    field "sctpStreamParameters" (JsonSerializer ProduceDataRequest_SCTPStreamParameters);
    field "appData" (JsonSerializer ProduceDataRequest_AppData)];
  fm_get m :=
    (m.(ProduceDataRequest_Data_transportId), (m.(ProduceDataRequest_Data_label),
    (m.(ProduceDataRequest_Data_protocol), (m.(ProduceDataRequest_Data_sctpStreamParameters),
    (m.(ProduceDataRequest_Data_appData), tt)))));
  fm_set t m :=
    let '(x0, (x1, (x2, (x3, (x4, _))))) := t in
    mk_ProduceDataRequest_Data x0 x1 x2 x3 x4;
  fm_listed m := true |}.
#[export] Instance ProduceDataRequest_Data_init : DefaultInit ProduceDataRequest_Data :=
  mk_ProduceDataRequest_Data None None None None None.
#[export] Instance ProduceDataRequest_Data_lawful : LawfulModel ProduceDataRequest_Data.
Proof. solve_model. Qed.
#[export] Instance ProduceDataRequest_Data_plain : PlainModel ProduceDataRequest_Data.
Proof. by split. Qed.

(** [signaling::ProduceDataRequest] *)
Record ProduceDataRequest : Type := mk_ProduceDataRequest {
  ProduceDataRequest_request : option bool;
  ProduceDataRequest_id : option Z;
  ProduceDataRequest_method : option string;
  ProduceDataRequest_data : option ProduceDataRequest_Data
}.
#[export] Instance ProduceDataRequest_map : FieldsMap ProduceDataRequest := {|
  fm_fields := [
    field "request" pod_bool;
    field "id" pod_int64;
    field "method" pod_string;
    field "data" (JsonSerializer ProduceDataRequest_Data)];
  fm_get m :=
    (m.(ProduceDataRequest_request), (m.(ProduceDataRequest_id),
    (m.(ProduceDataRequest_method), (m.(ProduceDataRequest_data), tt))));
  fm_set t m :=
    let '(x0, (x1, (x2, (x3, _)))) := t in
    mk_ProduceDataRequest x0 x1 x2 x3;
  fm_listed m := true |}.
Definition ProduceDataRequest_new (gid : Z) : ProduceDataRequest :=
  mk_ProduceDataRequest None (Some gid) (Some "produceData") None.
#[export] Instance ProduceDataRequest_lawful : LawfulModel ProduceDataRequest.
Proof. solve_model. Qed.

(** [signaling::ProduceDataResponse::Data] *)
Record ProduceDataResponse_Data : Type := mk_ProduceDataResponse_Data {
  ProduceDataResponse_Data_id : option string
}.
#[export] Instance ProduceDataResponse_Data_map : FieldsMap ProduceDataResponse_Data := {|
  fm_fields := [
    field "id" pod_string];
  fm_get m :=
    (m.(ProduceDataResponse_Data_id), tt);
  fm_set t m :=
    let '(x0, _) := t in
    mk_ProduceDataResponse_Data x0;
  fm_listed m := true |}.
#[export] Instance ProduceDataResponse_Data_init : DefaultInit ProduceDataResponse_Data :=
  mk_ProduceDataResponse_Data None.
#[export] Instance ProduceDataResponse_Data_lawful : LawfulModel ProduceDataResponse_Data.
Proof. solve_model. Qed.
#[export] Instance ProduceDataResponse_Data_plain : PlainModel ProduceDataResponse_Data.
Proof. by split. Qed.

(** [signaling::ProduceDataResponse] *)
Record ProduceDataResponse : Type := mk_ProduceDataResponse {
  ProduceDataResponse_response : option bool;
  ProduceDataResponse_id : option Z;
  ProduceDataResponse_ok : option bool;
  ProduceDataResponse_data : option ProduceDataResponse_Data
}.
#[export] Instance ProduceDataResponse_map : FieldsMap ProduceDataResponse := {|
  fm_fields := [
    field "response" pod_bool;
    field "id" pod_int64;
    field "ok" pod_bool;
    field "data" (JsonSerializer ProduceDataResponse_Data)];
  fm_get m :=
    (m.(ProduceDataResponse_response), (m.(ProduceDataResponse_id),
    (m.(ProduceDataResponse_ok), (m.(ProduceDataResponse_data), tt))));
  fm_set t m :=
    let '(x0, (x1, (x2, (x3, _)))) := t in
    mk_ProduceDataResponse x0 x1 x2 x3;
  fm_listed m := true |}.
#[export] Instance ProduceDataResponse_init : DefaultInit ProduceDataResponse :=
  mk_ProduceDataResponse None None None None.
#[export] Instance ProduceDataResponse_lawful : LawfulModel ProduceDataResponse.
Proof. solve_model. Qed.
#[export] Instance ProduceDataResponse_plain : PlainModel ProduceDataResponse.
Proof. by split. Qed.

(** [signaling::ProducerRequest::Data] *)
Record ProducerRequest_Data : Type := mk_ProducerRequest_Data {
  ProducerRequest_Data_producerId : option string
}.
#[export] Instance ProducerRequest_Data_map : FieldsMap ProducerRequest_Data := {|
  fm_fields := [
    field "producerId" pod_string];
  fm_get m :=
    (m.(ProducerRequest_Data_producerId), tt);
  fm_set t m :=
    let '(x0, _) := t in
    mk_ProducerRequest_Data x0;
  fm_listed m := true |}.
#[export] Instance ProducerRequest_Data_init : DefaultInit ProducerRequest_Data :=
  mk_ProducerRequest_Data None.
#[export] Instance ProducerRequest_Data_lawful : LawfulModel ProducerRequest_Data.
Proof. solve_model. Qed.
#[export] Instance ProducerRequest_Data_plain : PlainModel ProducerRequest_Data.
Proof. by split. Qed.

(** [signaling::ProducerRequest] *)
Record ProducerRequest : Type := mk_ProducerRequest {
  ProducerRequest_request : option bool;
  ProducerRequest_id : option Z;
  ProducerRequest_method : option string;
  ProducerRequest_data : option ProducerRequest_Data
}.
#[export] Instance ProducerRequest_map : FieldsMap ProducerRequest := {|
  fm_fields := [
    field "request" pod_bool;
    field "id" pod_int64;
    field "method" pod_string;
    field "data" (JsonSerializer ProducerRequest_Data)];
  fm_get m :=
    (m.(ProducerRequest_request), (m.(ProducerRequest_id), (m.(ProducerRequest_method),
    (m.(ProducerRequest_data), tt))));
  fm_set t m :=
    let '(x0, (x1, (x2, (x3, _)))) := t in
    mk_ProducerRequest x0 x1 x2 x3;
  fm_listed m := true |}.
Definition ProducerRequest_new (gid : Z) : ProducerRequest :=
  mk_ProducerRequest (Some true) (Some gid) None None.
#[export] Instance ProducerRequest_lawful : LawfulModel ProducerRequest.
Proof. solve_model. Qed.

(** [signaling::ConsumerRequest::Data] *)
Record ConsumerRequest_Data : Type := mk_ConsumerRequest_Data {
  ConsumerRequest_Data_consumerId : option string
}.
#[export] Instance ConsumerRequest_Data_map : FieldsMap ConsumerRequest_Data := {|
  fm_fields := [
    field "consumerId" pod_string];
  fm_get m :=
    (m.(ConsumerRequest_Data_consumerId), tt);
  fm_set t m :=
    let '(x0, _) := t in
    mk_ConsumerRequest_Data x0;
  fm_listed m := true |}.
#[export] Instance ConsumerRequest_Data_init : DefaultInit ConsumerRequest_Data :=
  mk_ConsumerRequest_Data None.
#[export] Instance ConsumerRequest_Data_lawful : LawfulModel ConsumerRequest_Data.
Proof. solve_model. Qed.
#[export] Instance ConsumerRequest_Data_plain : PlainModel ConsumerRequest_Data.
Proof. by split. Qed.

(** [signaling::ConsumerRequest] *)
Record ConsumerRequest : Type := mk_ConsumerRequest {
  ConsumerRequest_request : option bool;
  ConsumerRequest_id : option Z;
  ConsumerRequest_method : option string;
  ConsumerRequest_data : option ConsumerRequest_Data
}.
#[export] Instance ConsumerRequest_map : FieldsMap ConsumerRequest := {|
  fm_fields := [
    field "request" pod_bool;
    field "id" pod_int64;
    field "method" pod_string;
    field "data" (JsonSerializer ConsumerRequest_Data)];
  fm_get m :=
    (m.(ConsumerRequest_request), (m.(ConsumerRequest_id), (m.(ConsumerRequest_method),
    (m.(ConsumerRequest_data), tt))));
  fm_set t m :=
    let '(x0, (x1, (x2, (x3, _)))) := t in
    mk_ConsumerRequest x0 x1 x2 x3;
  fm_listed m := true |}.
Definition ConsumerRequest_new (gid : Z) : ConsumerRequest :=
  mk_ConsumerRequest (Some true) (Some gid) None None.
#[export] Instance ConsumerRequest_lawful : LawfulModel ConsumerRequest.
Proof. solve_model. Qed.

(** [signaling::ChangeDisplayNameRequest::Data] *)
Record ChangeDisplayNameRequest_Data : Type := mk_ChangeDisplayNameRequest_Data {
  ChangeDisplayNameRequest_Data_displayName : option string
}.
#[export] Instance ChangeDisplayNameRequest_Data_map : FieldsMap ChangeDisplayNameRequest_Data := {|
  fm_fields := [
    field "displayName" pod_string];
  fm_get m :=
    (m.(ChangeDisplayNameRequest_Data_displayName), tt);
  fm_set t m :=
    let '(x0, _) := t in
    mk_ChangeDisplayNameRequest_Data x0;
  fm_listed m := true |}.
#[export] Instance ChangeDisplayNameRequest_Data_init : DefaultInit ChangeDisplayNameRequest_Data :=
  mk_ChangeDisplayNameRequest_Data None.
#[export] Instance ChangeDisplayNameRequest_Data_lawful : LawfulModel ChangeDisplayNameRequest_Data.
Proof. solve_model. Qed.
#[export] Instance ChangeDisplayNameRequest_Data_plain : PlainModel ChangeDisplayNameRequest_Data.
Proof. by split. Qed.

(** [signaling::ChangeDisplayNameRequest] *)
Record ChangeDisplayNameRequest : Type := mk_ChangeDisplayNameRequest {
  ChangeDisplayNameRequest_request : option bool;
  ChangeDisplayNameRequest_id : option Z;
  ChangeDisplayNameRequest_method : option string;
  ChangeDisplayNameRequest_data : option ChangeDisplayNameRequest_Data
}.
#[export] Instance ChangeDisplayNameRequest_map : FieldsMap ChangeDisplayNameRequest := {|
  fm_fields := [
    field "request" pod_bool;
    field "id" pod_int64;
    field "method" pod_string;
    field "data" (JsonSerializer ChangeDisplayNameRequest_Data)];
  fm_get m :=
    (m.(ChangeDisplayNameRequest_request), (m.(ChangeDisplayNameRequest_id),
    (m.(ChangeDisplayNameRequest_method), (m.(ChangeDisplayNameRequest_data), tt))));
  fm_set t m :=
    let '(x0, (x1, (x2, (x3, _)))) := t in
    mk_ChangeDisplayNameRequest x0 x1 x2 x3;
  fm_listed m := true |}.
Definition ChangeDisplayNameRequest_new (gid : Z) : ChangeDisplayNameRequest :=
  mk_ChangeDisplayNameRequest (Some true) (Some gid) (Some "changeDisplayName") None.
#[export] Instance ChangeDisplayNameRequest_lawful : LawfulModel ChangeDisplayNameRequest.
Proof. solve_model. Qed.

(** [signaling::RestartICERequest::Data] *)
Record RestartICERequest_Data : Type := mk_RestartICERequest_Data {
  RestartICERequest_Data_transportId : option string
}.
#[export] Instance RestartICERequest_Data_map : FieldsMap RestartICERequest_Data := {|
  fm_fields := [
    field "transportId" pod_string];
  fm_get m :=
    (m.(RestartICERequest_Data_transportId), tt);
  fm_set t m :=
    let '(x0, _) := t in
    mk_RestartICERequest_Data x0;
  fm_listed m := true |}.
#[export] Instance RestartICERequest_Data_init : DefaultInit RestartICERequest_Data :=
  mk_RestartICERequest_Data None.
#[export] Instance RestartICERequest_Data_lawful : LawfulModel RestartICERequest_Data.
Proof. solve_model. Qed.
#[export] Instance RestartICERequest_Data_plain : PlainModel RestartICERequest_Data.
Proof. by split. Qed.

(** [signaling::RestartICERequest] *)
Record RestartICERequest : Type := mk_RestartICERequest {
  RestartICERequest_request : option bool;
  RestartICERequest_id : option Z;
  RestartICERequest_method : option string;
  RestartICERequest_data : option RestartICERequest_Data
}.
#[export] Instance RestartICERequest_map : FieldsMap RestartICERequest := {|
  fm_fields := [
    field "request" pod_bool;
    field "id" pod_int64;
    field "method" pod_string;
    field "data" (JsonSerializer RestartICERequest_Data)];
  fm_get m :=
    (m.(RestartICERequest_request), (m.(RestartICERequest_id), (m.(RestartICERequest_method),
    (m.(RestartICERequest_data), tt))));
  fm_set t m :=
    let '(x0, (x1, (x2, (x3, _)))) := t in
    mk_RestartICERequest x0 x1 x2 x3;
  fm_listed m := true |}.
Definition RestartICERequest_new (gid : Z) : RestartICERequest :=
  mk_RestartICERequest (Some true) (Some gid) (Some "restartIce") None.
#[export] Instance RestartICERequest_lawful : LawfulModel RestartICERequest.
Proof. solve_model. Qed.

(** [signaling::RestartICEResponse::Data] *)
Record RestartICEResponse_Data : Type := mk_RestartICEResponse_Data {
  RestartICEResponse_Data_iceLite : option bool;
  RestartICEResponse_Data_password : option string;
  RestartICEResponse_Data_usernameFragment : option string
}.
#[export] Instance RestartICEResponse_Data_map : FieldsMap RestartICEResponse_Data := {|
  fm_fields := [
    field "iceLite" pod_bool;
    field "password" pod_string;
    field "usernameFragment" pod_string];
  fm_get m :=
    (m.(RestartICEResponse_Data_iceLite), (m.(RestartICEResponse_Data_password),
    (m.(RestartICEResponse_Data_usernameFragment), tt)));
  fm_set t m :=
    let '(x0, (x1, (x2, _))) := t in
    mk_RestartICEResponse_Data x0 x1 x2;
  fm_listed m := true |}.
#[export] Instance RestartICEResponse_Data_init : DefaultInit RestartICEResponse_Data :=
  mk_RestartICEResponse_Data None None None.
#[export] Instance RestartICEResponse_Data_lawful : LawfulModel RestartICEResponse_Data.
Proof. solve_model. Qed.
#[export] Instance RestartICEResponse_Data_plain : PlainModel RestartICEResponse_Data.
Proof. by split. Qed.

(** [signaling::RestartICEResponse] *)
Record RestartICEResponse : Type := mk_RestartICEResponse {
  RestartICEResponse_response : option bool;
  RestartICEResponse_id : option Z;
  RestartICEResponse_ok : option bool;
  RestartICEResponse_data : option RestartICEResponse_Data
}.
#[export] Instance RestartICEResponse_map : FieldsMap RestartICEResponse := {|
  fm_fields := [
    field "response" pod_bool;
    field "id" pod_int64;
    field "ok" pod_bool;
    field "data" (JsonSerializer RestartICEResponse_Data)];
  fm_get m :=
    (m.(RestartICEResponse_response), (m.(RestartICEResponse_id), (m.(RestartICEResponse_ok),
    (m.(RestartICEResponse_data), tt))));
  fm_set t m :=
    let '(x0, (x1, (x2, (x3, _)))) := t in
    mk_RestartICEResponse x0 x1 x2 x3;
  fm_listed m := true |}.
#[export] Instance RestartICEResponse_init : DefaultInit RestartICEResponse :=
  mk_RestartICEResponse None None None None.
#[export] Instance RestartICEResponse_lawful : LawfulModel RestartICEResponse.
Proof. solve_model. Qed.
#[export] Instance RestartICEResponse_plain : PlainModel RestartICEResponse.
Proof. by split. Qed.

(** [signaling::SetConsumerPriorityRequest::Data] *)
Record SetConsumerPriorityRequest_Data : Type := mk_SetConsumerPriorityRequest_Data {
  SetConsumerPriorityRequest_Data_consumerId : option string;
  SetConsumerPriorityRequest_Data_priority : option Z
}.
#[export] Instance SetConsumerPriorityRequest_Data_map : FieldsMap SetConsumerPriorityRequest_Data := {|
  fm_fields := [
    field "consumerId" pod_string;
    field "priority" pod_int32];
  fm_get m :=
    (m.(SetConsumerPriorityRequest_Data_consumerId),
    (m.(SetConsumerPriorityRequest_Data_priority), tt));
  fm_set t m :=
    let '(x0, (x1, _)) := t in
    mk_SetConsumerPriorityRequest_Data x0 x1;
  fm_listed m := true |}.
#[export] Instance SetConsumerPriorityRequest_Data_init : DefaultInit SetConsumerPriorityRequest_Data :=
  mk_SetConsumerPriorityRequest_Data None None.
#[export] Instance SetConsumerPriorityRequest_Data_lawful : LawfulModel SetConsumerPriorityRequest_Data.
Proof. solve_model. Qed.
#[export] Instance SetConsumerPriorityRequest_Data_plain : PlainModel SetConsumerPriorityRequest_Data.
Proof. by split. Qed.

(** [signaling::SetConsumerPriorityRequest] *)
Record SetConsumerPriorityRequest : Type := mk_SetConsumerPriorityRequest {
  SetConsumerPriorityRequest_request : option bool;
  SetConsumerPriorityRequest_id : option Z;
  SetConsumerPriorityRequest_method : option string;
  SetConsumerPriorityRequest_data : option SetConsumerPriorityRequest_Data
}.
#[export] Instance SetConsumerPriorityRequest_map : FieldsMap SetConsumerPriorityRequest := {|
  fm_fields := [
    field "request" pod_bool;
    field "id" pod_int64;
    field "method" pod_string;
    field "data" (JsonSerializer SetConsumerPriorityRequest_Data)];
  fm_get m :=
    (m.(SetConsumerPriorityRequest_request), (m.(SetConsumerPriorityRequest_id),
    (m.(SetConsumerPriorityRequest_method), (m.(SetConsumerPriorityRequest_data), tt))));
  fm_set t m :=
    let '(x0, (x1, (x2, (x3, _)))) := t in
    mk_SetConsumerPriorityRequest x0 x1 x2 x3;
  fm_listed m := true |}.
Definition SetConsumerPriorityRequest_new (gid : Z) : SetConsumerPriorityRequest :=
  mk_SetConsumerPriorityRequest (Some true) (Some gid) (Some "setConsumerPriority") None.
#[export] Instance SetConsumerPriorityRequest_lawful : LawfulModel SetConsumerPriorityRequest.
Proof. solve_model. Qed.

(** [signaling::SetConsumerPreferredLayersRequest::Data] *)
Record SetConsumerPreferredLayersRequest_Data : Type := mk_SetConsumerPreferredLayersRequest_Data {
  SetConsumerPreferredLayersRequest_Data_consumerId : option string;
  SetConsumerPreferredLayersRequest_Data_spatialLayer : option Z;
  SetConsumerPreferredLayersRequest_Data_temporalLayer : option Z
}.
#[export] Instance SetConsumerPreferredLayersRequest_Data_map : FieldsMap SetConsumerPreferredLayersRequest_Data := {|
  fm_fields := [
    field "consumerId" pod_string;
    field "spatialLayer" pod_int32;
    field "temporalLayer" pod_int32];
  fm_get m :=
    (m.(SetConsumerPreferredLayersRequest_Data_consumerId),
    (m.(SetConsumerPreferredLayersRequest_Data_spatialLayer),
    (m.(SetConsumerPreferredLayersRequest_Data_temporalLayer), tt)));
  fm_set t m :=
    let '(x0, (x1, (x2, _))) := t in
    mk_SetConsumerPreferredLayersRequest_Data x0 x1 x2;
  fm_listed m := true |}.
#[export] Instance SetConsumerPreferredLayersRequest_Data_init : DefaultInit SetConsumerPreferredLayersRequest_Data :=
  mk_SetConsumerPreferredLayersRequest_Data None None None.
#[export] Instance SetConsumerPreferredLayersRequest_Data_lawful : LawfulModel SetConsumerPreferredLayersRequest_Data.
Proof. solve_model. Qed.
#[export] Instance SetConsumerPreferredLayersRequest_Data_plain : PlainModel SetConsumerPreferredLayersRequest_Data.
Proof. by split. Qed.

(** [signaling::SetConsumerPreferredLayersRequest] *)
Record SetConsumerPreferredLayersRequest : Type := mk_SetConsumerPreferredLayersRequest {
  SetConsumerPreferredLayersRequest_request : option bool;
  SetConsumerPreferredLayersRequest_id : option Z;
  SetConsumerPreferredLayersRequest_method : option string;
  SetConsumerPreferredLayersRequest_data : option SetConsumerPreferredLayersRequest_Data
}.
#[export] Instance SetConsumerPreferredLayersRequest_map : FieldsMap SetConsumerPreferredLayersRequest := {|
  fm_fields := [
    field "request" pod_bool;
    field "id" pod_int64;
    field "method" pod_string;
    field "data" (JsonSerializer SetConsumerPreferredLayersRequest_Data)];
  fm_get m :=
    (m.(SetConsumerPreferredLayersRequest_request), (m.(SetConsumerPreferredLayersRequest_id),
    (m.(SetConsumerPreferredLayersRequest_method), (m.(SetConsumerPreferredLayersRequest_data),
    tt))));
  fm_set t m :=
    let '(x0, (x1, (x2, (x3, _)))) := t in
    mk_SetConsumerPreferredLayersRequest x0 x1 x2 x3;
  fm_listed m := true |}.
Definition SetConsumerPreferredLayersRequest_new (gid : Z) : SetConsumerPreferredLayersRequest :=
  mk_SetConsumerPreferredLayersRequest (Some true) (Some gid)
  (Some "setConsumerPreferredLayers") None.
#[export] Instance SetConsumerPreferredLayersRequest_lawful : LawfulModel SetConsumerPreferredLayersRequest.
Proof. solve_model. Qed.

(** [signaling::GetTransportStatsRequest::Data] *)
Record GetTransportStatsRequest_Data : Type := mk_GetTransportStatsRequest_Data {
  GetTransportStatsRequest_Data_transportId : option string
}.
#[export] Instance GetTransportStatsRequest_Data_map : FieldsMap GetTransportStatsRequest_Data := {|
  fm_fields := [
    field "transportId" pod_string];
  fm_get m :=
    (m.(GetTransportStatsRequest_Data_transportId), tt);
  fm_set t m :=
    let '(x0, _) := t in
    mk_GetTransportStatsRequest_Data x0;
  fm_listed m := true |}.
#[export] Instance GetTransportStatsRequest_Data_init : DefaultInit GetTransportStatsRequest_Data :=
  mk_GetTransportStatsRequest_Data None.
#[export] Instance GetTransportStatsRequest_Data_lawful : LawfulModel GetTransportStatsRequest_Data.
Proof. solve_model. Qed.
#[export] Instance GetTransportStatsRequest_Data_plain : PlainModel GetTransportStatsRequest_Data.
Proof. by split. Qed.

(** [signaling::GetTransportStatsRequest] *)
Record GetTransportStatsRequest : Type := mk_GetTransportStatsRequest {
  GetTransportStatsRequest_request : option bool;
  GetTransportStatsRequest_id : option Z;
  GetTransportStatsRequest_method : option string;
  GetTransportStatsRequest_data : option GetTransportStatsRequest_Data
}.
#[export] Instance GetTransportStatsRequest_map : FieldsMap GetTransportStatsRequest := {|
  fm_fields := [
    field "request" pod_bool;
    field "id" pod_int64;
    field "method" pod_string;
    field "data" (JsonSerializer GetTransportStatsRequest_Data)];
  fm_get m :=
    (m.(GetTransportStatsRequest_request), (m.(GetTransportStatsRequest_id),
    (m.(GetTransportStatsRequest_method), (m.(GetTransportStatsRequest_data), tt))));
  fm_set t m :=
    let '(x0, (x1, (x2, (x3, _)))) := t in
    mk_GetTransportStatsRequest x0 x1 x2 x3;
  fm_listed m := true |}.
Definition GetTransportStatsRequest_new (gid : Z) : GetTransportStatsRequest :=
  mk_GetTransportStatsRequest (Some true) (Some gid) (Some "getTransportStats") None.
#[export] Instance GetTransportStatsRequest_lawful : LawfulModel GetTransportStatsRequest.
Proof. solve_model. Qed.

(** [signaling::GetTransportStatsResponse::ICESelectedTuple] *)
Record GetTransportStatsResponse_ICESelectedTuple : Type := mk_GetTransportStatsResponse_ICESelectedTuple {
  GetTransportStatsResponse_ICESelectedTuple_localIp : option string;
  GetTransportStatsResponse_ICESelectedTuple_localPort : option Z;
  GetTransportStatsResponse_ICESelectedTuple_remoteIp : option string;
  GetTransportStatsResponse_ICESelectedTuple_remotePort : option Z;
  GetTransportStatsResponse_ICESelectedTuple_protocol : option string
}.
#[export] Instance GetTransportStatsResponse_ICESelectedTuple_map : FieldsMap GetTransportStatsResponse_ICESelectedTuple := {|
  fm_fields := [
    field "localIp" pod_string;
    field "localPort" pod_int32;
    field "remoteIp" pod_string;
    field "remotePort" pod_int32;
    field "protocol" pod_string];
  fm_get m :=
    (m.(GetTransportStatsResponse_ICESelectedTuple_localIp),
    (m.(GetTransportStatsResponse_ICESelectedTuple_localPort),
    (m.(GetTransportStatsResponse_ICESelectedTuple_remoteIp),
    (m.(GetTransportStatsResponse_ICESelectedTuple_remotePort),
    (m.(GetTransportStatsResponse_ICESelectedTuple_protocol), tt)))));
  fm_set t m :=
    let '(x0, (x1, (x2, (x3, (x4, _))))) := t in
    mk_GetTransportStatsResponse_ICESelectedTuple x0 x1 x2 x3 x4;
  fm_listed m := true |}.
#[export] Instance GetTransportStatsResponse_ICESelectedTuple_init : DefaultInit GetTransportStatsResponse_ICESelectedTuple :=
  mk_GetTransportStatsResponse_ICESelectedTuple None None None None None.
#[export] Instance GetTransportStatsResponse_ICESelectedTuple_lawful : LawfulModel GetTransportStatsResponse_ICESelectedTuple.
Proof. solve_model. Qed.
#[export] Instance GetTransportStatsResponse_ICESelectedTuple_plain : PlainModel GetTransportStatsResponse_ICESelectedTuple.
Proof. by split. Qed.

(** [signaling::GetTransportStatsResponse::Data] *)
Record GetTransportStatsResponse_Data : Type := mk_GetTransportStatsResponse_Data {
  GetTransportStatsResponse_Data_transportId : option string;
  GetTransportStatsResponse_Data_type : option string;
  GetTransportStatsResponse_Data_availableOutgoingBitrate : option Z;
  GetTransportStatsResponse_Data_bytesReceived : option Z;
  GetTransportStatsResponse_Data_bytesSent : option Z;
  GetTransportStatsResponse_Data_dtlsState : option string;
  GetTransportStatsResponse_Data_iceRole : option string;
  GetTransportStatsResponse_Data_iceSelectedTuple : option GetTransportStatsResponse_ICESelectedTuple;
  GetTransportStatsResponse_Data_iceState : option string;
  GetTransportStatsResponse_Data_maxIncomingBitrate : option Z;
  GetTransportStatsResponse_Data_probationBytesSent : option Z;
  GetTransportStatsResponse_Data_probationSendBitrate : option Z;
  GetTransportStatsResponse_Data_recvBitrate : option Z;
  GetTransportStatsResponse_Data_rtpBytesReceived : option Z;
  GetTransportStatsResponse_Data_rtpBytesSent : option Z;
  GetTransportStatsResponse_Data_rtpPacketLossReceived : option Z;
  GetTransportStatsResponse_Data_rtpRecvBitrate : option Z;
  GetTransportStatsResponse_Data_rtpSendBitrate : option Z;
  GetTransportStatsResponse_Data_rtxBytesReceived : option Z;
  GetTransportStatsResponse_Data_rtxBytesSent : option Z;
  GetTransportStatsResponse_Data_rtxRecvBitrate : option Z;
  GetTransportStatsResponse_Data_rtxSendBitrate : option Z;
  GetTransportStatsResponse_Data_sctpState : option string;
  GetTransportStatsResponse_Data_sendBitrate : option Z;
  GetTransportStatsResponse_Data_timestamp : option Z
}.
#[export] Instance GetTransportStatsResponse_Data_map : FieldsMap GetTransportStatsResponse_Data := {|
  fm_fields := [
    field "transportId" pod_string;
    field "type" pod_string;
    field "availableOutgoingBitrate" pod_int64;
    field "bytesReceived" pod_int64;
    field "bytesSent" pod_int64;
    field "dtlsState" pod_string;
    field "iceRole" pod_string;
    field "iceSelectedTuple" (JsonSerializer GetTransportStatsResponse_ICESelectedTuple);
    field "iceState" pod_string;
    field "maxIncomingBitrate" pod_int64;
    field "probationBytesSent" pod_int64;
    field "probationSendBitrate" pod_int64;
    field "recvBitrate" pod_int64;
    field "rtpBytesReceived" pod_int64;
    field "rtpBytesSent" pod_int64;
    field "rtpPacketLossReceived" pod_int64;
    field "rtpSendBitrate" pod_int64;
    field "rtxBytesReceived" pod_int64;
    field "rtxBytesSent" pod_int64;
    field "rtxRecvBitrate" pod_int64;
    field "rtxSendBitrate" pod_int64;
    field "sctpState" pod_string;
    field "sendBitrate" pod_int64;
    field "timestamp" pod_int64];
  fm_get m :=
    (m.(GetTransportStatsResponse_Data_transportId), (m.(GetTransportStatsResponse_Data_type),
    (m.(GetTransportStatsResponse_Data_availableOutgoingBitrate),
    (m.(GetTransportStatsResponse_Data_bytesReceived),
    (m.(GetTransportStatsResponse_Data_bytesSent),
    (m.(GetTransportStatsResponse_Data_dtlsState), (m.(GetTransportStatsResponse_Data_iceRole),
    (m.(GetTransportStatsResponse_Data_iceSelectedTuple),
    (m.(GetTransportStatsResponse_Data_iceState),
    (m.(GetTransportStatsResponse_Data_maxIncomingBitrate),
    (m.(GetTransportStatsResponse_Data_probationBytesSent),
    (m.(GetTransportStatsResponse_Data_probationSendBitrate),
    (m.(GetTransportStatsResponse_Data_recvBitrate),
    (m.(GetTransportStatsResponse_Data_rtpBytesReceived),
    (m.(GetTransportStatsResponse_Data_rtpBytesSent),
    (m.(GetTransportStatsResponse_Data_rtpPacketLossReceived),
    (m.(GetTransportStatsResponse_Data_rtpSendBitrate),
    (m.(GetTransportStatsResponse_Data_rtxBytesReceived),
    (m.(GetTransportStatsResponse_Data_rtxBytesSent),
    (m.(GetTransportStatsResponse_Data_rtxRecvBitrate),
    (m.(GetTransportStatsResponse_Data_rtxSendBitrate),
    (m.(GetTransportStatsResponse_Data_sctpState),
    (m.(GetTransportStatsResponse_Data_sendBitrate),
    (m.(GetTransportStatsResponse_Data_timestamp), tt))))))))))))))))))))))));
  fm_set t m :=
    let '(x0, (x1, (x2, (x3, (x4, (x5, (x6, (x7, (x8, (x9, (x10, (x11, (x12, (x13, (x14, (x15,
    (x16, (x17, (x18, (x19, (x20, (x21, (x22, (x23, _)))))))))))))))))))))))) := t in
    mk_GetTransportStatsResponse_Data x0 x1 x2 x3 x4 x5 x6 x7 x8 x9 x10 x11 x12 x13 x14 x15
    m.(GetTransportStatsResponse_Data_rtpRecvBitrate) x16 x17 x18 x19 x20 x21 x22 x23;
  fm_listed m := bool_decide (m.(GetTransportStatsResponse_Data_rtpRecvBitrate) = None) |}.
#[export] Instance GetTransportStatsResponse_Data_init : DefaultInit GetTransportStatsResponse_Data :=
  mk_GetTransportStatsResponse_Data None None None None None None None None None None None None
  None None None None None None None None None None None None None.
#[export] Instance GetTransportStatsResponse_Data_lawful : LawfulModel GetTransportStatsResponse_Data.
Proof. solve_model. Qed.
#[export] Instance GetTransportStatsResponse_Data_plain : PlainModel GetTransportStatsResponse_Data.
Proof. by split. Qed.

(** [signaling::GetTransportStatsResponse] *)
Record GetTransportStatsResponse : Type := mk_GetTransportStatsResponse {
  GetTransportStatsResponse_response : option bool;
  GetTransportStatsResponse_id : option Z;
  GetTransportStatsResponse_ok : option bool;
  GetTransportStatsResponse_data : option (list GetTransportStatsResponse_Data)
}.
#[export] Instance GetTransportStatsResponse_map : FieldsMap GetTransportStatsResponse := {|
  fm_fields := [
    field "response" pod_bool;
    field "id" pod_int64;
    field "ok" pod_bool;
    field "data" (JsonSerializerVector GetTransportStatsResponse_Data)];
  fm_get m :=
    (m.(GetTransportStatsResponse_response), (m.(GetTransportStatsResponse_id),
    (m.(GetTransportStatsResponse_ok), (m.(GetTransportStatsResponse_data), tt))));
  fm_set t m :=
    let '(x0, (x1, (x2, (x3, _)))) := t in
    mk_GetTransportStatsResponse x0 x1 x2 x3;
  fm_listed m := true |}.
#[export] Instance GetTransportStatsResponse_init : DefaultInit GetTransportStatsResponse :=
  mk_GetTransportStatsResponse None None None None.
#[export] Instance GetTransportStatsResponse_lawful : LawfulModel GetTransportStatsResponse.
Proof. solve_model. Qed.
#[export] Instance GetTransportStatsResponse_plain : PlainModel GetTransportStatsResponse.
Proof. by split. Qed.

(** [signaling::GetProducerStatsRequest::Data] *)
Record GetProducerStatsRequest_Data : Type := mk_GetProducerStatsRequest_Data {
  GetProducerStatsRequest_Data_producerId : option string
}.
#[export] Instance GetProducerStatsRequest_Data_map : FieldsMap GetProducerStatsRequest_Data := {|
  fm_fields := [
    field "producerId" pod_string];
  fm_get m :=
    (m.(GetProducerStatsRequest_Data_producerId), tt);
  fm_set t m :=
    let '(x0, _) := t in
    mk_GetProducerStatsRequest_Data x0;
  fm_listed m := true |}.
#[export] Instance GetProducerStatsRequest_Data_init : DefaultInit GetProducerStatsRequest_Data :=
  mk_GetProducerStatsRequest_Data None.
#[export] Instance GetProducerStatsRequest_Data_lawful : LawfulModel GetProducerStatsRequest_Data.
Proof. solve_model. Qed.
#[export] Instance GetProducerStatsRequest_Data_plain : PlainModel GetProducerStatsRequest_Data.
Proof. by split. Qed.

(** [signaling::GetProducerStatsRequest] *)
Record GetProducerStatsRequest : Type := mk_GetProducerStatsRequest {
  GetProducerStatsRequest_request : option bool;
  GetProducerStatsRequest_id : option Z;
  GetProducerStatsRequest_method : option string;
  GetProducerStatsRequest_data : option GetProducerStatsRequest_Data
}.
#[export] Instance GetProducerStatsRequest_map : FieldsMap GetProducerStatsRequest := {|
  fm_fields := [
    field "request" pod_bool;
    field "id" pod_int64;
    field "method" pod_string;
    field "data" (JsonSerializer GetProducerStatsRequest_Data)];
  fm_get m :=
    (m.(GetProducerStatsRequest_request), (m.(GetProducerStatsRequest_id),
    (m.(GetProducerStatsRequest_method), (m.(GetProducerStatsRequest_data), tt))));
  fm_set t m :=
    let '(x0, (x1, (x2, (x3, _)))) := t in
    mk_GetProducerStatsRequest x0 x1 x2 x3;
  fm_listed m := true |}.
Definition GetProducerStatsRequest_new (gid : Z) : GetProducerStatsRequest :=
  mk_GetProducerStatsRequest (Some true) (Some gid) (Some "getProducerStats") None.
#[export] Instance GetProducerStatsRequest_lawful : LawfulModel GetProducerStatsRequest.
Proof. solve_model. Qed.

(** [signaling::GetProducerStatsResponse::BitrateByLayer] *)
Record GetProducerStatsResponse_BitrateByLayer : Type := mk_GetProducerStatsResponse_BitrateByLayer {
  GetProducerStatsResponse_BitrateByLayer_L00 : option Z;
  GetProducerStatsResponse_BitrateByLayer_L01 : option Z;
  GetProducerStatsResponse_BitrateByLayer_L02 : option Z
}.
#[export] Instance GetProducerStatsResponse_BitrateByLayer_map : FieldsMap GetProducerStatsResponse_BitrateByLayer := {|
  fm_fields := [
    field "0.0" pod_int32;
    field "0.1" pod_int32;
    field "0.2" pod_int32];
  fm_get m :=
    (m.(GetProducerStatsResponse_BitrateByLayer_L00),
    (m.(GetProducerStatsResponse_BitrateByLayer_L01),
    (m.(GetProducerStatsResponse_BitrateByLayer_L02), tt)));
  fm_set t m :=
    let '(x0, (x1, (x2, _))) := t in
    mk_GetProducerStatsResponse_BitrateByLayer x0 x1 x2;
  fm_listed m := true |}.
#[export] Instance GetProducerStatsResponse_BitrateByLayer_init : DefaultInit GetProducerStatsResponse_BitrateByLayer :=
  mk_GetProducerStatsResponse_BitrateByLayer None None None.
#[export] Instance GetProducerStatsResponse_BitrateByLayer_lawful : LawfulModel GetProducerStatsResponse_BitrateByLayer.
Proof. solve_model. Qed.
#[export] Instance GetProducerStatsResponse_BitrateByLayer_plain : PlainModel GetProducerStatsResponse_BitrateByLayer.
Proof. by split. Qed.

(** [signaling::GetProducerStatsResponse::Data] *)
Record GetProducerStatsResponse_Data : Type := mk_GetProducerStatsResponse_Data {
  GetProducerStatsResponse_Data_type : option string;
  GetProducerStatsResponse_Data_kind : option string;
  GetProducerStatsResponse_Data_mimeType : option string;
  GetProducerStatsResponse_Data_rid : option string;
  GetProducerStatsResponse_Data_bitrate : option Z;
  GetProducerStatsResponse_Data_byteCount : option Z;
  GetProducerStatsResponse_Data_firCount : option Z;
  GetProducerStatsResponse_Data_fractionLost : option Z;
  GetProducerStatsResponse_Data_jitter : option Z;
  GetProducerStatsResponse_Data_nackCount : option Z;
  GetProducerStatsResponse_Data_nackPacketCount : option Z;
  GetProducerStatsResponse_Data_packetCount : option Z;
  GetProducerStatsResponse_Data_packetsDiscarded : option Z;
  GetProducerStatsResponse_Data_packetsLost : option Z;
  GetProducerStatsResponse_Data_packetsRepaired : option Z;
  GetProducerStatsResponse_Data_packetsRetransmitted : option Z;
  GetProducerStatsResponse_Data_pliCount : option Z;
  GetProducerStatsResponse_Data_roundTripTime : option spec_float;
  GetProducerStatsResponse_Data_rtxPacketsDiscarded : option Z;
  GetProducerStatsResponse_Data_rtxSsrc : option Z;
  GetProducerStatsResponse_Data_score : option Z;
  GetProducerStatsResponse_Data_ssrc : option Z;
  GetProducerStatsResponse_Data_timestamp : option Z;
  GetProducerStatsResponse_Data_bitrateByLayer : option GetProducerStatsResponse_BitrateByLayer
}.
#[export] Instance GetProducerStatsResponse_Data_map : FieldsMap GetProducerStatsResponse_Data := {|
  fm_fields := [
    field "type" pod_string;
    field "kind" pod_string;
    field "mimeType" pod_string;
    field "rid" pod_string;
    field "bitrate" pod_int64;
    field "byteCount" pod_int64;
    field "firCount" pod_int64;
    field "fractionLost" pod_int64;
    field "jitter" pod_int64;
    field "nackCount" pod_int64;
    field "nackPacketCount" pod_int64;
    field "packetCount" pod_int64;
    field "packetsDiscarded" pod_int64;
    field "packetsLost" pod_int64;
    field "packetsRepaired" pod_int64;
    field "packetsRetransmitted" pod_int64;
    field "pliCount" pod_int64;
    field "roundTripTime" pod_double;
    field "rtxPacketsDiscarded" pod_int64;
    field "rtxSsrc" pod_int64;
    field "score" pod_int64;
    field "ssrc" pod_int64;
    field "timestamp" pod_int64;
    field "bitrateByLayer" (JsonSerializer GetProducerStatsResponse_BitrateByLayer)];
  fm_get m :=
    (m.(GetProducerStatsResponse_Data_type), (m.(GetProducerStatsResponse_Data_kind),
    (m.(GetProducerStatsResponse_Data_mimeType), (m.(GetProducerStatsResponse_Data_rid),
    (m.(GetProducerStatsResponse_Data_bitrate), (m.(GetProducerStatsResponse_Data_byteCount),
    (m.(GetProducerStatsResponse_Data_firCount),
    (m.(GetProducerStatsResponse_Data_fractionLost), (m.(GetProducerStatsResponse_Data_jitter),
    (m.(GetProducerStatsResponse_Data_nackCount),
    (m.(GetProducerStatsResponse_Data_nackPacketCount),
    (m.(GetProducerStatsResponse_Data_packetCount),
    (m.(GetProducerStatsResponse_Data_packetsDiscarded),
    (m.(GetProducerStatsResponse_Data_packetsLost),
    (m.(GetProducerStatsResponse_Data_packetsRepaired),
    (m.(GetProducerStatsResponse_Data_packetsRetransmitted),
    (m.(GetProducerStatsResponse_Data_pliCount),
    (m.(GetProducerStatsResponse_Data_roundTripTime),
    (m.(GetProducerStatsResponse_Data_rtxPacketsDiscarded),
    (m.(GetProducerStatsResponse_Data_rtxSsrc), (m.(GetProducerStatsResponse_Data_score),
    (m.(GetProducerStatsResponse_Data_ssrc), (m.(GetProducerStatsResponse_Data_timestamp),
    (m.(GetProducerStatsResponse_Data_bitrateByLayer), tt))))))))))))))))))))))));
  fm_set t m :=
    let '(x0, (x1, (x2, (x3, (x4, (x5, (x6, (x7, (x8, (x9, (x10, (x11, (x12, (x13, (x14, (x15,
    (x16, (x17, (x18, (x19, (x20, (x21, (x22, (x23, _)))))))))))))))))))))))) := t in
    mk_GetProducerStatsResponse_Data x0 x1 x2 x3 x4 x5 x6 x7 x8 x9 x10 x11 x12 x13 x14 x15 x16
    x17 x18 x19 x20 x21 x22 x23;
  fm_listed m := true |}.
#[export] Instance GetProducerStatsResponse_Data_init : DefaultInit GetProducerStatsResponse_Data :=
  mk_GetProducerStatsResponse_Data None None None None None None None None None None None None
  None None None None None None None None None None None None.
#[export] Instance GetProducerStatsResponse_Data_lawful : LawfulModel GetProducerStatsResponse_Data.
Proof. solve_model. Qed.
#[export] Instance GetProducerStatsResponse_Data_plain : PlainModel GetProducerStatsResponse_Data.
Proof. by split. Qed.

(** [signaling::GetProducerStatsResponse] *)
Record GetProducerStatsResponse : Type := mk_GetProducerStatsResponse {
  GetProducerStatsResponse_response : option bool;
  GetProducerStatsResponse_id : option Z;
  GetProducerStatsResponse_ok : option bool;
  GetProducerStatsResponse_data : option (list GetProducerStatsResponse_Data)
}.
#[export] Instance GetProducerStatsResponse_map : FieldsMap GetProducerStatsResponse := {|
  fm_fields := [
    field "response" pod_bool;
    field "id" pod_int64;
    field "ok" pod_bool;
    field "data" (JsonSerializerVector GetProducerStatsResponse_Data)];
  fm_get m :=
    (m.(GetProducerStatsResponse_response), (m.(GetProducerStatsResponse_id),
    (m.(GetProducerStatsResponse_ok), (m.(GetProducerStatsResponse_data), tt))));
  fm_set t m :=
    let '(x0, (x1, (x2, (x3, _)))) := t in
    mk_GetProducerStatsResponse x0 x1 x2 x3;
  fm_listed m := true |}.
#[export] Instance GetProducerStatsResponse_init : DefaultInit GetProducerStatsResponse :=
  mk_GetProducerStatsResponse None None None None.
#[export] Instance GetProducerStatsResponse_lawful : LawfulModel GetProducerStatsResponse.
Proof. solve_model. Qed.
#[export] Instance GetProducerStatsResponse_plain : PlainModel GetProducerStatsResponse.
Proof. by split. Qed.

(** [signaling::GetDataProducerStatsRequest::Data] *)
Record GetDataProducerStatsRequest_Data : Type := mk_GetDataProducerStatsRequest_Data {
  GetDataProducerStatsRequest_Data_dataProducerId : option string
}.
#[export] Instance GetDataProducerStatsRequest_Data_map : FieldsMap GetDataProducerStatsRequest_Data := {|
  fm_fields := [
    field "dataProducerId" pod_string];
  fm_get m :=
    (m.(GetDataProducerStatsRequest_Data_dataProducerId), tt);
  fm_set t m :=
    let '(x0, _) := t in
    mk_GetDataProducerStatsRequest_Data x0;
  fm_listed m := true |}.
#[export] Instance GetDataProducerStatsRequest_Data_init : DefaultInit GetDataProducerStatsRequest_Data :=
  mk_GetDataProducerStatsRequest_Data None.
#[export] Instance GetDataProducerStatsRequest_Data_lawful : LawfulModel GetDataProducerStatsRequest_Data.
Proof. solve_model. Qed.
#[export] Instance GetDataProducerStatsRequest_Data_plain : PlainModel GetDataProducerStatsRequest_Data.
Proof. by split. Qed.

(** [signaling::GetDataProducerStatsRequest] *)
Record GetDataProducerStatsRequest : Type := mk_GetDataProducerStatsRequest {
  GetDataProducerStatsRequest_request : option bool;
  GetDataProducerStatsRequest_id : option Z;
  GetDataProducerStatsRequest_method : option string;
  GetDataProducerStatsRequest_data : option GetDataProducerStatsRequest_Data
}.
#[export] Instance GetDataProducerStatsRequest_map : FieldsMap GetDataProducerStatsRequest := {|
  fm_fields := [
    field "request" pod_bool;
    field "id" pod_int64;
    field "method" pod_string;
    field "data" (JsonSerializer GetDataProducerStatsRequest_Data)];
  fm_get m :=
    (m.(GetDataProducerStatsRequest_request), (m.(GetDataProducerStatsRequest_id),
    (m.(GetDataProducerStatsRequest_method), (m.(GetDataProducerStatsRequest_data), tt))));
  fm_set t m :=
    let '(x0, (x1, (x2, (x3, _)))) := t in
    mk_GetDataProducerStatsRequest x0 x1 x2 x3;
  fm_listed m := true |}.
Definition GetDataProducerStatsRequest_new (gid : Z) : GetDataProducerStatsRequest :=
  mk_GetDataProducerStatsRequest (Some true) (Some gid) (Some "getDataProducerStats") None.
#[export] Instance GetDataProducerStatsRequest_lawful : LawfulModel GetDataProducerStatsRequest.
Proof. solve_model. Qed.

(** [signaling::GetDataProducerStatsResponse::Data] *)
Record GetDataProducerStatsResponse_Data : Type := mk_GetDataProducerStatsResponse_Data {
  GetDataProducerStatsResponse_Data_type : option string;
  GetDataProducerStatsResponse_Data_label : option string;
  GetDataProducerStatsResponse_Data_protocol : option string;
  GetDataProducerStatsResponse_Data_bytesReceived : option Z;
  GetDataProducerStatsResponse_Data_messagesReceived : option Z;
  GetDataProducerStatsResponse_Data_timestamp : option Z
}.
#[export] Instance GetDataProducerStatsResponse_Data_map : FieldsMap GetDataProducerStatsResponse_Data := {|
  fm_fields := [
    field "type" pod_string;
    field "label" pod_string;
    field "protocol" pod_string;
    field "bytesReceived" pod_int64;
    field "messagesReceived" pod_int64;
    field "timestamp" pod_int64];
  fm_get m :=
    (m.(GetDataProducerStatsResponse_Data_type), (m.(GetDataProducerStatsResponse_Data_label),
    (m.(GetDataProducerStatsResponse_Data_protocol),
    (m.(GetDataProducerStatsResponse_Data_bytesReceived),
    (m.(GetDataProducerStatsResponse_Data_messagesReceived),
    (m.(GetDataProducerStatsResponse_Data_timestamp), tt))))));
  fm_set t m :=
    let '(x0, (x1, (x2, (x3, (x4, (x5, _)))))) := t in
    mk_GetDataProducerStatsResponse_Data x0 x1 x2 x3 x4 x5;
  fm_listed m := true |}.
#[export] Instance GetDataProducerStatsResponse_Data_init : DefaultInit GetDataProducerStatsResponse_Data :=
  mk_GetDataProducerStatsResponse_Data None None None None None None.
#[export] Instance GetDataProducerStatsResponse_Data_lawful : LawfulModel GetDataProducerStatsResponse_Data.
Proof. solve_model. Qed.
#[export] Instance GetDataProducerStatsResponse_Data_plain : PlainModel GetDataProducerStatsResponse_Data.
Proof. by split. Qed.

(** [signaling::GetDataProducerStatsResponse] *)
Record GetDataProducerStatsResponse : Type := mk_GetDataProducerStatsResponse {
  GetDataProducerStatsResponse_response : option bool;
  GetDataProducerStatsResponse_id : option Z;
  GetDataProducerStatsResponse_ok : option bool;
  GetDataProducerStatsResponse_data : option (list GetDataProducerStatsResponse_Data)
}.
#[export] Instance GetDataProducerStatsResponse_map : FieldsMap GetDataProducerStatsResponse := {|
  fm_fields := [
    field "response" pod_bool;
    field "id" pod_int64;
    field "ok" pod_bool;
    field "data" (JsonSerializerVector GetDataProducerStatsResponse_Data)];
  fm_get m :=
    (m.(GetDataProducerStatsResponse_response), (m.(GetDataProducerStatsResponse_id),
    (m.(GetDataProducerStatsResponse_ok), (m.(GetDataProducerStatsResponse_data), tt))));
  fm_set t m :=
    let '(x0, (x1, (x2, (x3, _)))) := t in
    mk_GetDataProducerStatsResponse x0 x1 x2 x3;
  fm_listed m := true |}.
#[export] Instance GetDataProducerStatsResponse_init : DefaultInit GetDataProducerStatsResponse :=
  mk_GetDataProducerStatsResponse None None None None.
#[export] Instance GetDataProducerStatsResponse_lawful : LawfulModel GetDataProducerStatsResponse.
Proof. solve_model. Qed.
#[export] Instance GetDataProducerStatsResponse_plain : PlainModel GetDataProducerStatsResponse.
Proof. by split. Qed.

(** [signaling::GetConsumerStatsRequest::Data] *)
Record GetConsumerStatsRequest_Data : Type := mk_GetConsumerStatsRequest_Data {
  GetConsumerStatsRequest_Data_consumerId : option string
}.
#[export] Instance GetConsumerStatsRequest_Data_map : FieldsMap GetConsumerStatsRequest_Data := {|
  fm_fields := [
    field "consumerId" pod_string];
  fm_get m :=
    (m.(GetConsumerStatsRequest_Data_consumerId), tt);
  fm_set t m :=
    let '(x0, _) := t in
    mk_GetConsumerStatsRequest_Data x0;
  fm_listed m := true |}.
#[export] Instance GetConsumerStatsRequest_Data_init : DefaultInit GetConsumerStatsRequest_Data :=
  mk_GetConsumerStatsRequest_Data None.
#[export] Instance GetConsumerStatsRequest_Data_lawful : LawfulModel GetConsumerStatsRequest_Data.
Proof. solve_model. Qed.
#[export] Instance GetConsumerStatsRequest_Data_plain : PlainModel GetConsumerStatsRequest_Data.
Proof. by split. Qed.

(** [signaling::GetConsumerStatsRequest] *)
Record GetConsumerStatsRequest : Type := mk_GetConsumerStatsRequest {
  GetConsumerStatsRequest_request : option bool;
  GetConsumerStatsRequest_id : option Z;
  GetConsumerStatsRequest_method : option string;
  GetConsumerStatsRequest_data : option GetConsumerStatsRequest_Data
}.
#[export] Instance GetConsumerStatsRequest_map : FieldsMap GetConsumerStatsRequest := {|
  fm_fields := [
    field "request" pod_bool;
    field "id" pod_int64;
    field "method" pod_string;
    field "data" (JsonSerializer GetConsumerStatsRequest_Data)];
  fm_get m :=
    (m.(GetConsumerStatsRequest_request), (m.(GetConsumerStatsRequest_id),
    (m.(GetConsumerStatsRequest_method), (m.(GetConsumerStatsRequest_data), tt))));
  fm_set t m :=
    let '(x0, (x1, (x2, (x3, _)))) := t in
    mk_GetConsumerStatsRequest x0 x1 x2 x3;
  fm_listed m := true |}.
Definition GetConsumerStatsRequest_new (gid : Z) : GetConsumerStatsRequest :=
  mk_GetConsumerStatsRequest (Some true) (Some gid) (Some "getConsumerStats") None.
#[export] Instance GetConsumerStatsRequest_lawful : LawfulModel GetConsumerStatsRequest.
Proof. solve_model. Qed.

(** [signaling::GetConsumerStatsResponse::BitrateByLayer] *)
Record GetConsumerStatsResponse_BitrateByLayer : Type := mk_GetConsumerStatsResponse_BitrateByLayer {
  GetConsumerStatsResponse_BitrateByLayer_L00 : option Z;
  GetConsumerStatsResponse_BitrateByLayer_L01 : option Z;
  GetConsumerStatsResponse_BitrateByLayer_L02 : option Z
}.
#[export] Instance GetConsumerStatsResponse_BitrateByLayer_map : FieldsMap GetConsumerStatsResponse_BitrateByLayer := {|
  fm_fields := [
    field "0.0" pod_int32;
    field "0.1" pod_int32;
    field "0.2" pod_int32];
  fm_get m :=
    (m.(GetConsumerStatsResponse_BitrateByLayer_L00),
    (m.(GetConsumerStatsResponse_BitrateByLayer_L01),
    (m.(GetConsumerStatsResponse_BitrateByLayer_L02), tt)));
  fm_set t m :=
    let '(x0, (x1, (x2, _))) := t in
    mk_GetConsumerStatsResponse_BitrateByLayer x0 x1 x2;
  fm_listed m := true |}.
#[export] Instance GetConsumerStatsResponse_BitrateByLayer_init : DefaultInit GetConsumerStatsResponse_BitrateByLayer :=
  mk_GetConsumerStatsResponse_BitrateByLayer None None None.
#[export] Instance GetConsumerStatsResponse_BitrateByLayer_lawful : LawfulModel GetConsumerStatsResponse_BitrateByLayer.
Proof. solve_model. Qed.
#[export] Instance GetConsumerStatsResponse_BitrateByLayer_plain : PlainModel GetConsumerStatsResponse_BitrateByLayer.
Proof. by split. Qed.

(** [signaling::GetConsumerStatsResponse::Data] *)
Record GetConsumerStatsResponse_Data : Type := mk_GetConsumerStatsResponse_Data {
  GetConsumerStatsResponse_Data_type : option string;
  GetConsumerStatsResponse_Data_kind : option string;
  GetConsumerStatsResponse_Data_mimeType : option string;
  GetConsumerStatsResponse_Data_rid : option string;
  GetConsumerStatsResponse_Data_bitrate : option Z;
  GetConsumerStatsResponse_Data_byteCount : option Z;
  GetConsumerStatsResponse_Data_firCount : option Z;
  GetConsumerStatsResponse_Data_fractionLost : option Z;
  GetConsumerStatsResponse_Data_jitter : option Z;
  GetConsumerStatsResponse_Data_nackCount : option Z;
  GetConsumerStatsResponse_Data_nackPacketCount : option Z;
  GetConsumerStatsResponse_Data_packetCount : option Z;
  GetConsumerStatsResponse_Data_packetsDiscarded : option Z;
  GetConsumerStatsResponse_Data_packetsLost : option Z;
  GetConsumerStatsResponse_Data_packetsRepaired : option Z;
  GetConsumerStatsResponse_Data_packetsRetransmitted : option Z;
  GetConsumerStatsResponse_Data_pliCount : option Z;
  GetConsumerStatsResponse_Data_rtxPacketsDiscarded : option Z;
  GetConsumerStatsResponse_Data_rtxSsrc : option Z;
  GetConsumerStatsResponse_Data_roundTripTime : option spec_float;
  GetConsumerStatsResponse_Data_score : option Z;
  GetConsumerStatsResponse_Data_ssrc : option Z;
  GetConsumerStatsResponse_Data_timestamp : option Z;
  GetConsumerStatsResponse_Data_bitrateByLayer : option GetConsumerStatsResponse_BitrateByLayer
}.
#[export] Instance GetConsumerStatsResponse_Data_map : FieldsMap GetConsumerStatsResponse_Data := {|
  fm_fields := [
    field "type" pod_string;
    field "kind" pod_string;
    field "mimeType" pod_string;
    field "rid" pod_string;
    field "bitrate" pod_int64;
    field "byteCount" pod_int64;
    field "firCount" pod_int64;
    field "fractionLost" pod_int64;
    field "jitter" pod_int64;
    field "nackCount" pod_int64;
    field "nackPacketCount" pod_int64;
    field "packetCount" pod_int64;
    field "packetsDiscarded" pod_int64;
    field "packetsLost" pod_int64;
    field "packetsRepaired" pod_int64;
    field "packetsRetransmitted" pod_int64;
    field "pliCount" pod_int64;
    field "rtxPacketsDiscarded" pod_int64;
    field "rtxSsrc" pod_int64;
    field "roundTripTime" pod_double;
    field "score" pod_int64;
    field "ssrc" pod_int64;
    field "timestamp" pod_int64;
    field "bitrateByLayer" (JsonSerializer GetConsumerStatsResponse_BitrateByLayer)];
  fm_get m :=
    (m.(GetConsumerStatsResponse_Data_type), (m.(GetConsumerStatsResponse_Data_kind),
    (m.(GetConsumerStatsResponse_Data_mimeType), (m.(GetConsumerStatsResponse_Data_rid),
    (m.(GetConsumerStatsResponse_Data_bitrate), (m.(GetConsumerStatsResponse_Data_byteCount),
    (m.(GetConsumerStatsResponse_Data_firCount),
    (m.(GetConsumerStatsResponse_Data_fractionLost), (m.(GetConsumerStatsResponse_Data_jitter),
    (m.(GetConsumerStatsResponse_Data_nackCount),
    (m.(GetConsumerStatsResponse_Data_nackPacketCount),
    (m.(GetConsumerStatsResponse_Data_packetCount),
    (m.(GetConsumerStatsResponse_Data_packetsDiscarded),
    (m.(GetConsumerStatsResponse_Data_packetsLost),
    (m.(GetConsumerStatsResponse_Data_packetsRepaired),
    (m.(GetConsumerStatsResponse_Data_packetsRetransmitted),
    (m.(GetConsumerStatsResponse_Data_pliCount),
    (m.(GetConsumerStatsResponse_Data_rtxPacketsDiscarded),
    (m.(GetConsumerStatsResponse_Data_rtxSsrc),
    (m.(GetConsumerStatsResponse_Data_roundTripTime), (m.(GetConsumerStatsResponse_Data_score),
    (m.(GetConsumerStatsResponse_Data_ssrc), (m.(GetConsumerStatsResponse_Data_timestamp),
    (m.(GetConsumerStatsResponse_Data_bitrateByLayer), tt))))))))))))))))))))))));
  fm_set t m :=
    let '(x0, (x1, (x2, (x3, (x4, (x5, (x6, (x7, (x8, (x9, (x10, (x11, (x12, (x13, (x14, (x15,
    (x16, (x17, (x18, (x19, (x20, (x21, (x22, (x23, _)))))))))))))))))))))))) := t in
    mk_GetConsumerStatsResponse_Data x0 x1 x2 x3 x4 x5 x6 x7 x8 x9 x10 x11 x12 x13 x14 x15 x16
    x17 x18 x19 x20 x21 x22 x23;
  fm_listed m := true |}.
#[export] Instance GetConsumerStatsResponse_Data_init : DefaultInit GetConsumerStatsResponse_Data :=
  mk_GetConsumerStatsResponse_Data None None None None None None None None None None None None
  None None None None None None None None None None None None.
#[export] Instance GetConsumerStatsResponse_Data_lawful : LawfulModel GetConsumerStatsResponse_Data.
Proof. solve_model. Qed.
#[export] Instance GetConsumerStatsResponse_Data_plain : PlainModel GetConsumerStatsResponse_Data.
Proof. by split. Qed.

(** [signaling::GetConsumerStatsResponse] *)
Record GetConsumerStatsResponse : Type := mk_GetConsumerStatsResponse {
  GetConsumerStatsResponse_response : option bool;
  GetConsumerStatsResponse_id : option Z;
  GetConsumerStatsResponse_ok : option bool;
  GetConsumerStatsResponse_data : option (list GetConsumerStatsResponse_Data)
}.
#[export] Instance GetConsumerStatsResponse_map : FieldsMap GetConsumerStatsResponse := {|
  fm_fields := [
    field "response" pod_bool;
    field "id" pod_int64;
    field "ok" pod_bool;
    field "data" (JsonSerializerVector GetConsumerStatsResponse_Data)];
  fm_get m :=
    (m.(GetConsumerStatsResponse_response), (m.(GetConsumerStatsResponse_id),
    (m.(GetConsumerStatsResponse_ok), (m.(GetConsumerStatsResponse_data), tt))));
  fm_set t m :=
    let '(x0, (x1, (x2, (x3, _)))) := t in
    mk_GetConsumerStatsResponse x0 x1 x2 x3;
  fm_listed m := true |}.
#[export] Instance GetConsumerStatsResponse_init : DefaultInit GetConsumerStatsResponse :=
  mk_GetConsumerStatsResponse None None None None.
#[export] Instance GetConsumerStatsResponse_lawful : LawfulModel GetConsumerStatsResponse.
Proof. solve_model. Qed.
#[export] Instance GetConsumerStatsResponse_plain : PlainModel GetConsumerStatsResponse.
Proof. by split. Qed.

(** [signaling::GetDataConsumerStatsRequest::Data] *)
Record GetDataConsumerStatsRequest_Data : Type := mk_GetDataConsumerStatsRequest_Data {
  GetDataConsumerStatsRequest_Data_dataConsumerId : option string
}.
#[export] Instance GetDataConsumerStatsRequest_Data_map : FieldsMap GetDataConsumerStatsRequest_Data := {|
  fm_fields := [
    field "dataConsumerId" pod_string];
  fm_get m :=
    (m.(GetDataConsumerStatsRequest_Data_dataConsumerId), tt);
  fm_set t m :=
    let '(x0, _) := t in
    mk_GetDataConsumerStatsRequest_Data x0;
  fm_listed m := true |}.
#[export] Instance GetDataConsumerStatsRequest_Data_init : DefaultInit GetDataConsumerStatsRequest_Data :=
  mk_GetDataConsumerStatsRequest_Data None.
#[export] Instance GetDataConsumerStatsRequest_Data_lawful : LawfulModel GetDataConsumerStatsRequest_Data.
Proof. solve_model. Qed.
#[export] Instance GetDataConsumerStatsRequest_Data_plain : PlainModel GetDataConsumerStatsRequest_Data.
Proof. by split. Qed.

(** [signaling::GetDataConsumerStatsRequest] *)
Record GetDataConsumerStatsRequest : Type := mk_GetDataConsumerStatsRequest {
  GetDataConsumerStatsRequest_request : option bool;
  GetDataConsumerStatsRequest_id : option Z;
  GetDataConsumerStatsRequest_method : option string;
  GetDataConsumerStatsRequest_data : option GetDataConsumerStatsRequest_Data
}.
#[export] Instance GetDataConsumerStatsRequest_map : FieldsMap GetDataConsumerStatsRequest := {|
  fm_fields := [
    field "request" pod_bool;
    field "id" pod_int64;
    field "method" pod_string;
    field "data" (JsonSerializer GetDataConsumerStatsRequest_Data)];
  fm_get m :=
    (m.(GetDataConsumerStatsRequest_request), (m.(GetDataConsumerStatsRequest_id),
    (m.(GetDataConsumerStatsRequest_method), (m.(GetDataConsumerStatsRequest_data), tt))));
  fm_set t m :=
    let '(x0, (x1, (x2, (x3, _)))) := t in
    mk_GetDataConsumerStatsRequest x0 x1 x2 x3;
  fm_listed m := true |}.
Definition GetDataConsumerStatsRequest_new (gid : Z) : GetDataConsumerStatsRequest :=
  mk_GetDataConsumerStatsRequest (Some true) (Some gid) (Some "getDataConsumerStats") None.
#[export] Instance GetDataConsumerStatsRequest_lawful : LawfulModel GetDataConsumerStatsRequest.
Proof. solve_model. Qed.

(** [signaling::GetDataConsumerStatsResponse::Data] *)
Record GetDataConsumerStatsResponse_Data : Type := mk_GetDataConsumerStatsResponse_Data {
  GetDataConsumerStatsResponse_Data_type : option string;
  GetDataConsumerStatsResponse_Data_label : option string;
  GetDataConsumerStatsResponse_Data_protocol : option string;
  GetDataConsumerStatsResponse_Data_bufferedAmount : option Z;
  GetDataConsumerStatsResponse_Data_bytesSent : option Z;
  GetDataConsumerStatsResponse_Data_messagesSent : option Z;
  GetDataConsumerStatsResponse_Data_timestamp : option Z
}.
#[export] Instance GetDataConsumerStatsResponse_Data_map : FieldsMap GetDataConsumerStatsResponse_Data := {|
  fm_fields := [
    field "type" pod_string;
    field "label" pod_string;
    field "protocol" pod_string;
    field "bufferedAmount" pod_int64;
    field "bytesSent" pod_int64;
    field "messagesSent" pod_int64;
    field "timestamp" pod_int64];
  fm_get m :=
    (m.(GetDataConsumerStatsResponse_Data_type), (m.(GetDataConsumerStatsResponse_Data_label),
    (m.(GetDataConsumerStatsResponse_Data_protocol),
    (m.(GetDataConsumerStatsResponse_Data_bufferedAmount),
    (m.(GetDataConsumerStatsResponse_Data_bytesSent),
    (m.(GetDataConsumerStatsResponse_Data_messagesSent),
    (m.(GetDataConsumerStatsResponse_Data_timestamp), tt)))))));
  fm_set t m :=
    let '(x0, (x1, (x2, (x3, (x4, (x5, (x6, _))))))) := t in
    mk_GetDataConsumerStatsResponse_Data x0 x1 x2 x3 x4 x5 x6;
  fm_listed m := true |}.
#[export] Instance GetDataConsumerStatsResponse_Data_init : DefaultInit GetDataConsumerStatsResponse_Data :=
  mk_GetDataConsumerStatsResponse_Data None None None None None None None.
#[export] Instance GetDataConsumerStatsResponse_Data_lawful : LawfulModel GetDataConsumerStatsResponse_Data.
Proof. solve_model. Qed.
#[export] Instance GetDataConsumerStatsResponse_Data_plain : PlainModel GetDataConsumerStatsResponse_Data.
Proof. by split. Qed.

(** [signaling::GetDataConsumerStatsResponse] *)
Record GetDataConsumerStatsResponse : Type := mk_GetDataConsumerStatsResponse {
  GetDataConsumerStatsResponse_response : option bool;
  GetDataConsumerStatsResponse_id : option Z;
  GetDataConsumerStatsResponse_ok : option bool;
  GetDataConsumerStatsResponse_data : option (list GetDataConsumerStatsResponse_Data)
}.
#[export] Instance GetDataConsumerStatsResponse_map : FieldsMap GetDataConsumerStatsResponse := {|
  fm_fields := [
    field "response" pod_bool;
    field "id" pod_int64;
    field "ok" pod_bool;
    field "data" (JsonSerializerVector GetDataConsumerStatsResponse_Data)];
  fm_get m :=
    (m.(GetDataConsumerStatsResponse_response), (m.(GetDataConsumerStatsResponse_id),
    (m.(GetDataConsumerStatsResponse_ok), (m.(GetDataConsumerStatsResponse_data), tt))));
  fm_set t m :=
    let '(x0, (x1, (x2, (x3, _)))) := t in
    mk_GetDataConsumerStatsResponse x0 x1 x2 x3;
  fm_listed m := true |}.
#[export] Instance GetDataConsumerStatsResponse_init : DefaultInit GetDataConsumerStatsResponse :=
  mk_GetDataConsumerStatsResponse None None None None.
#[export] Instance GetDataConsumerStatsResponse_lawful : LawfulModel GetDataConsumerStatsResponse.
Proof. solve_model. Qed.
#[export] Instance GetDataConsumerStatsResponse_plain : PlainModel GetDataConsumerStatsResponse.
Proof. by split. Qed.

(** [signaling::ApplyNetworkThrottleRequest::Data] *)
Record ApplyNetworkThrottleRequest_Data : Type := mk_ApplyNetworkThrottleRequest_Data {
  ApplyNetworkThrottleRequest_Data_secret : option string;
  ApplyNetworkThrottleRequest_Data_uplink : option Z;
  ApplyNetworkThrottleRequest_Data_downlink : option Z;
  ApplyNetworkThrottleRequest_Data_rtt : option Z
}.
#[export] Instance ApplyNetworkThrottleRequest_Data_map : FieldsMap ApplyNetworkThrottleRequest_Data := {|
  fm_fields := [
    field "secret" pod_string;
    field "uplink" pod_int64;
    field "downlink" pod_int64;
    field "rtt" pod_int64];
  fm_get m :=
    (m.(ApplyNetworkThrottleRequest_Data_secret), (m.(ApplyNetworkThrottleRequest_Data_uplink),
    (m.(ApplyNetworkThrottleRequest_Data_downlink), (m.(ApplyNetworkThrottleRequest_Data_rtt),
    tt))));
  fm_set t m :=
    let '(x0, (x1, (x2, (x3, _)))) := t in
    mk_ApplyNetworkThrottleRequest_Data x0 x1 x2 x3;
  fm_listed m := true |}.
#[export] Instance ApplyNetworkThrottleRequest_Data_init : DefaultInit ApplyNetworkThrottleRequest_Data :=
  mk_ApplyNetworkThrottleRequest_Data None None None None.
#[export] Instance ApplyNetworkThrottleRequest_Data_lawful : LawfulModel ApplyNetworkThrottleRequest_Data.
Proof. solve_model. Qed.
#[export] Instance ApplyNetworkThrottleRequest_Data_plain : PlainModel ApplyNetworkThrottleRequest_Data.
Proof. by split. Qed.

(** [signaling::ApplyNetworkThrottleRequest] *)
Record ApplyNetworkThrottleRequest : Type := mk_ApplyNetworkThrottleRequest {
  ApplyNetworkThrottleRequest_request : option bool;
  ApplyNetworkThrottleRequest_id : option Z;
  ApplyNetworkThrottleRequest_method : option string;
  ApplyNetworkThrottleRequest_data : option ApplyNetworkThrottleRequest_Data
}.
#[export] Instance ApplyNetworkThrottleRequest_map : FieldsMap ApplyNetworkThrottleRequest := {|
  fm_fields := [
    field "request" pod_bool;
    field "id" pod_int64;
    field "method" pod_string;
    field "data" (JsonSerializer ApplyNetworkThrottleRequest_Data)];
  fm_get m :=
    (m.(ApplyNetworkThrottleRequest_request), (m.(ApplyNetworkThrottleRequest_id),
    (m.(ApplyNetworkThrottleRequest_method), (m.(ApplyNetworkThrottleRequest_data), tt))));
  fm_set t m :=
    let '(x0, (x1, (x2, (x3, _)))) := t in
    mk_ApplyNetworkThrottleRequest x0 x1 x2 x3;
  fm_listed m := true |}.
Definition ApplyNetworkThrottleRequest_new (gid : Z) : ApplyNetworkThrottleRequest :=
  mk_ApplyNetworkThrottleRequest (Some true) (Some gid) (Some "applyNetworkThrottle") None.
#[export] Instance ApplyNetworkThrottleRequest_lawful : LawfulModel ApplyNetworkThrottleRequest.
Proof. solve_model. Qed.

(** [signaling::ResetNetworkThrottleRequest::Data] *)
Record ResetNetworkThrottleRequest_Data : Type := mk_ResetNetworkThrottleRequest_Data {
  ResetNetworkThrottleRequest_Data_secret : option string
}.
#[export] Instance ResetNetworkThrottleRequest_Data_map : FieldsMap ResetNetworkThrottleRequest_Data := {|
  fm_fields := [
    field "secret" pod_string];
  fm_get m :=
    (m.(ResetNetworkThrottleRequest_Data_secret), tt);
  fm_set t m :=
    let '(x0, _) := t in
    mk_ResetNetworkThrottleRequest_Data x0;
  fm_listed m := true |}.
#[export] Instance ResetNetworkThrottleRequest_Data_init : DefaultInit ResetNetworkThrottleRequest_Data :=
  mk_ResetNetworkThrottleRequest_Data None.
#[export] Instance ResetNetworkThrottleRequest_Data_lawful : LawfulModel ResetNetworkThrottleRequest_Data.
Proof. solve_model. Qed.
#[export] Instance ResetNetworkThrottleRequest_Data_plain : PlainModel ResetNetworkThrottleRequest_Data.
Proof. by split. Qed.

(** [signaling::ResetNetworkThrottleRequest] *)
Record ResetNetworkThrottleRequest : Type := mk_ResetNetworkThrottleRequest {
  ResetNetworkThrottleRequest_request : option bool;
  ResetNetworkThrottleRequest_id : option Z;
  ResetNetworkThrottleRequest_method : option string;
  ResetNetworkThrottleRequest_data : option ResetNetworkThrottleRequest_Data
}.
#[export] Instance ResetNetworkThrottleRequest_map : FieldsMap ResetNetworkThrottleRequest := {|
  fm_fields := [
    field "request" pod_bool;
    field "id" pod_int64;
    field "method" pod_string;
    field "data" (JsonSerializer ResetNetworkThrottleRequest_Data)];
  fm_get m :=
    (m.(ResetNetworkThrottleRequest_request), (m.(ResetNetworkThrottleRequest_id),
    (m.(ResetNetworkThrottleRequest_method), (m.(ResetNetworkThrottleRequest_data), tt))));
  fm_set t m :=
    let '(x0, (x1, (x2, (x3, _)))) := t in
    mk_ResetNetworkThrottleRequest x0 x1 x2 x3;
  fm_listed m := true |}.
Definition ResetNetworkThrottleRequest_new (gid : Z) : ResetNetworkThrottleRequest :=
  mk_ResetNetworkThrottleRequest (Some true) (Some gid) (Some "resetNetworkThrottle") None.
#[export] Instance ResetNetworkThrottleRequest_lawful : LawfulModel ResetNetworkThrottleRequest.
Proof. solve_model. Qed.

(** [signaling::DownlinkBweNotification::Data] *)
Record DownlinkBweNotification_Data : Type := mk_DownlinkBweNotification_Data {
  DownlinkBweNotification_Data_availableBitrate : option Z;
  DownlinkBweNotification_Data_desiredBitrate : option Z;
  DownlinkBweNotification_Data_effectiveDesiredBitrate : option Z
}.
#[export] Instance DownlinkBweNotification_Data_map : FieldsMap DownlinkBweNotification_Data := {|
  fm_fields := [
    field "availableBitrate" pod_int64;
    field "desiredBitrate" pod_int64;
    field "effectiveDesiredBitrate" pod_int64];
  fm_get m :=
    (m.(DownlinkBweNotification_Data_availableBitrate),
    (m.(DownlinkBweNotification_Data_desiredBitrate),
    (m.(DownlinkBweNotification_Data_effectiveDesiredBitrate), tt)));
  fm_set t m :=
    let '(x0, (x1, (x2, _))) := t in
    mk_DownlinkBweNotification_Data x0 x1 x2;
  fm_listed m := true |}.
#[export] Instance DownlinkBweNotification_Data_init : DefaultInit DownlinkBweNotification_Data :=
  mk_DownlinkBweNotification_Data None None None.
#[export] Instance DownlinkBweNotification_Data_lawful : LawfulModel DownlinkBweNotification_Data.
Proof. solve_model. Qed.
#[export] Instance DownlinkBweNotification_Data_plain : PlainModel DownlinkBweNotification_Data.
Proof. by split. Qed.

(** [signaling::DownlinkBweNotification] *)
Record DownlinkBweNotification : Type := mk_DownlinkBweNotification {
  DownlinkBweNotification_notification : option bool;
  DownlinkBweNotification_method : option string;
  DownlinkBweNotification_data : option DownlinkBweNotification_Data
}.
#[export] Instance DownlinkBweNotification_map : FieldsMap DownlinkBweNotification := {|
  fm_fields := [
    field "notification" pod_bool;
    field "method" pod_string;
    field "data" (JsonSerializer DownlinkBweNotification_Data)];
  fm_get m :=
    (m.(DownlinkBweNotification_notification), (m.(DownlinkBweNotification_method),
    (m.(DownlinkBweNotification_data), tt)));
  fm_set t m :=
    let '(x0, (x1, (x2, _))) := t in
    mk_DownlinkBweNotification x0 x1 x2;
  fm_listed m := true |}.
#[export] Instance DownlinkBweNotification_init : DefaultInit DownlinkBweNotification :=
  mk_DownlinkBweNotification None None None.
#[export] Instance DownlinkBweNotification_lawful : LawfulModel DownlinkBweNotification.
Proof. solve_model. Qed.
#[export] Instance DownlinkBweNotification_plain : PlainModel DownlinkBweNotification.
Proof. by split. Qed.

(** [signaling::ConsumerScoreNotification::Score] *)
Record ConsumerScoreNotification_Score : Type := mk_ConsumerScoreNotification_Score {
  ConsumerScoreNotification_Score_producerScore : option Z;
  ConsumerScoreNotification_Score_producerScores : option (list Z);
  ConsumerScoreNotification_Score_score : option Z
}.
#[export] Instance ConsumerScoreNotification_Score_map : FieldsMap ConsumerScoreNotification_Score := {|
  fm_fields := [
    field "producerScore" pod_int32;
    field "producerScores" pod_int32s;
    field "score" pod_int32];
  fm_get m :=
    (m.(ConsumerScoreNotification_Score_producerScore),
    (m.(ConsumerScoreNotification_Score_producerScores),
    (m.(ConsumerScoreNotification_Score_score), tt)));
  fm_set t m :=
    let '(x0, (x1, (x2, _))) := t in
    mk_ConsumerScoreNotification_Score x0 x1 x2;
  fm_listed m := true |}.
#[export] Instance ConsumerScoreNotification_Score_init : DefaultInit ConsumerScoreNotification_Score :=
  mk_ConsumerScoreNotification_Score None None None.
#[export] Instance ConsumerScoreNotification_Score_lawful : LawfulModel ConsumerScoreNotification_Score.
Proof. solve_model. Qed.
#[export] Instance ConsumerScoreNotification_Score_plain : PlainModel ConsumerScoreNotification_Score.
Proof. by split. Qed.

(** [signaling::ConsumerScoreNotification::Data] *)
Record ConsumerScoreNotification_Data : Type := mk_ConsumerScoreNotification_Data {
  ConsumerScoreNotification_Data_consumerId : option string;
  ConsumerScoreNotification_Data_score : option ConsumerScoreNotification_Score
}.
#[export] Instance ConsumerScoreNotification_Data_map : FieldsMap ConsumerScoreNotification_Data := {|
  fm_fields := [
    field "consumerId" pod_string;
    field "score" (JsonSerializer ConsumerScoreNotification_Score)];
  fm_get m :=
    (m.(ConsumerScoreNotification_Data_consumerId), (m.(ConsumerScoreNotification_Data_score),
    tt));
  fm_set t m :=
    let '(x0, (x1, _)) := t in
    mk_ConsumerScoreNotification_Data x0 x1;
  fm_listed m := true |}.
#[export] Instance ConsumerScoreNotification_Data_init : DefaultInit ConsumerScoreNotification_Data :=
  mk_ConsumerScoreNotification_Data None None.
#[export] Instance ConsumerScoreNotification_Data_lawful : LawfulModel ConsumerScoreNotification_Data.
Proof. solve_model. Qed.
#[export] Instance ConsumerScoreNotification_Data_plain : PlainModel ConsumerScoreNotification_Data.
Proof. by split. Qed.

(** [signaling::ConsumerScoreNotification] *)
Record ConsumerScoreNotification : Type := mk_ConsumerScoreNotification {
  ConsumerScoreNotification_notification : option bool;
  ConsumerScoreNotification_method : option string;
  ConsumerScoreNotification_data : option ConsumerScoreNotification_Data
}.
#[export] Instance ConsumerScoreNotification_map : FieldsMap ConsumerScoreNotification := {|
  fm_fields := [
    field "notification" pod_bool;
    field "method" pod_string;
    field "data" (JsonSerializer ConsumerScoreNotification_Data)];
  fm_get m :=
    (m.(ConsumerScoreNotification_notification), (m.(ConsumerScoreNotification_method),
    (m.(ConsumerScoreNotification_data), tt)));
  fm_set t m :=
    let '(x0, (x1, (x2, _))) := t in
    mk_ConsumerScoreNotification x0 x1 x2;
  fm_listed m := true |}.
#[export] Instance ConsumerScoreNotification_init : DefaultInit ConsumerScoreNotification :=
  mk_ConsumerScoreNotification None None None.
#[export] Instance ConsumerScoreNotification_lawful : LawfulModel ConsumerScoreNotification.
Proof. solve_model. Qed.
#[export] Instance ConsumerScoreNotification_plain : PlainModel ConsumerScoreNotification.
Proof. by split. Qed.

(** [signaling::ProducerScoreNotification::Score] *)
Record ProducerScoreNotification_Score : Type := mk_ProducerScoreNotification_Score {
  ProducerScoreNotification_Score_rid : option string;
  ProducerScoreNotification_Score_encodingIdx : option Z;
  ProducerScoreNotification_Score_score : option Z;
  ProducerScoreNotification_Score_ssrc : option Z
}.
#[export] Instance ProducerScoreNotification_Score_map : FieldsMap ProducerScoreNotification_Score := {|
  fm_fields := [
    field "rid" pod_string;
    field "encodingIdx" pod_int32;
    field "score" pod_int32;
    field "ssrc" pod_int64];
  fm_get m :=
    (m.(ProducerScoreNotification_Score_rid), (m.(ProducerScoreNotification_Score_encodingIdx),
    (m.(ProducerScoreNotification_Score_score), (m.(ProducerScoreNotification_Score_ssrc),
    tt))));
  fm_set t m :=
    let '(x0, (x1, (x2, (x3, _)))) := t in
    mk_ProducerScoreNotification_Score x0 x1 x2 x3;
  fm_listed m := true |}.
#[export] Instance ProducerScoreNotification_Score_init : DefaultInit ProducerScoreNotification_Score :=
  mk_ProducerScoreNotification_Score None None None None.
#[export] Instance ProducerScoreNotification_Score_lawful : LawfulModel ProducerScoreNotification_Score.
Proof. solve_model. Qed.
#[export] Instance ProducerScoreNotification_Score_plain : PlainModel ProducerScoreNotification_Score.
Proof. by split. Qed.

(** [signaling::ProducerScoreNotification::Data] *)
Record ProducerScoreNotification_Data : Type := mk_ProducerScoreNotification_Data {
  ProducerScoreNotification_Data_producerId : option string;
  ProducerScoreNotification_Data_score : option (list ProducerScoreNotification_Score)
}.
#[export] Instance ProducerScoreNotification_Data_map : FieldsMap ProducerScoreNotification_Data := {|
  fm_fields := [
    field "producerId" pod_string;
    field "score" (JsonSerializerVector ProducerScoreNotification_Score)];
  fm_get m :=
    (m.(ProducerScoreNotification_Data_producerId), (m.(ProducerScoreNotification_Data_score),
    tt));
  fm_set t m :=
    let '(x0, (x1, _)) := t in
    mk_ProducerScoreNotification_Data x0 x1;
  fm_listed m := true |}.
#[export] Instance ProducerScoreNotification_Data_init : DefaultInit ProducerScoreNotification_Data :=
  mk_ProducerScoreNotification_Data None None.
#[export] Instance ProducerScoreNotification_Data_lawful : LawfulModel ProducerScoreNotification_Data.
Proof. solve_model. Qed.
#[export] Instance ProducerScoreNotification_Data_plain : PlainModel ProducerScoreNotification_Data.
Proof. by split. Qed.

(** [signaling::ProducerScoreNotification] *)
Record ProducerScoreNotification : Type := mk_ProducerScoreNotification {
  ProducerScoreNotification_notification : option bool;
  ProducerScoreNotification_method : option string;
  ProducerScoreNotification_data : option ProducerScoreNotification_Data
}.
#[export] Instance ProducerScoreNotification_map : FieldsMap ProducerScoreNotification := {|
  fm_fields := [
    field "notification" pod_bool;
    field "method" pod_string;
    field "data" (JsonSerializer ProducerScoreNotification_Data)];
  fm_get m :=
    (m.(ProducerScoreNotification_notification), (m.(ProducerScoreNotification_method),
    (m.(ProducerScoreNotification_data), tt)));
  fm_set t m :=
    let '(x0, (x1, (x2, _))) := t in
    mk_ProducerScoreNotification x0 x1 x2;
  fm_listed m := true |}.
#[export] Instance ProducerScoreNotification_init : DefaultInit ProducerScoreNotification :=
  mk_ProducerScoreNotification None None None.
#[export] Instance ProducerScoreNotification_lawful : LawfulModel ProducerScoreNotification.
Proof. solve_model. Qed.
#[export] Instance ProducerScoreNotification_plain : PlainModel ProducerScoreNotification.
Proof. by split. Qed.

(** [signaling::ConsumerLayersChangedNotification::Data] *)
Record ConsumerLayersChangedNotification_Data : Type := mk_ConsumerLayersChangedNotification_Data {
  ConsumerLayersChangedNotification_Data_consumerId : option string;
  ConsumerLayersChangedNotification_Data_spatialLayer : option Z;
  ConsumerLayersChangedNotification_Data_temporalLayer : option Z
}.
#[export] Instance ConsumerLayersChangedNotification_Data_map : FieldsMap ConsumerLayersChangedNotification_Data := {|
  fm_fields := [
    field "consumerId" pod_string;
    field "spatialLayer" pod_int32;
    field "temporalLayer" pod_int32];
  fm_get m :=
    (m.(ConsumerLayersChangedNotification_Data_consumerId),
    (m.(ConsumerLayersChangedNotification_Data_spatialLayer),
    (m.(ConsumerLayersChangedNotification_Data_temporalLayer), tt)));
  fm_set t m :=
    let '(x0, (x1, (x2, _))) := t in
    mk_ConsumerLayersChangedNotification_Data x0 x1 x2;
  fm_listed m := true |}.
#[export] Instance ConsumerLayersChangedNotification_Data_init : DefaultInit ConsumerLayersChangedNotification_Data :=
  mk_ConsumerLayersChangedNotification_Data None None None.
#[export] Instance ConsumerLayersChangedNotification_Data_lawful : LawfulModel ConsumerLayersChangedNotification_Data.
Proof. solve_model. Qed.
#[export] Instance ConsumerLayersChangedNotification_Data_plain : PlainModel ConsumerLayersChangedNotification_Data.
Proof. by split. Qed.

(** [signaling::ConsumerLayersChangedNotification] *)
Record ConsumerLayersChangedNotification : Type := mk_ConsumerLayersChangedNotification {
  ConsumerLayersChangedNotification_notification : option bool;
  ConsumerLayersChangedNotification_method : option string;
  ConsumerLayersChangedNotification_data : option ConsumerLayersChangedNotification_Data
}.
#[export] Instance ConsumerLayersChangedNotification_map : FieldsMap ConsumerLayersChangedNotification := {|
  fm_fields := [
    field "notification" pod_bool;
    field "method" pod_string;
    field "data" (JsonSerializer ConsumerLayersChangedNotification_Data)];
  fm_get m :=
    (m.(ConsumerLayersChangedNotification_notification),
    (m.(ConsumerLayersChangedNotification_method), (m.(ConsumerLayersChangedNotification_data),
    tt)));
  fm_set t m :=
    let '(x0, (x1, (x2, _))) := t in
    mk_ConsumerLayersChangedNotification x0 x1 x2;
  fm_listed m := true |}.
#[export] Instance ConsumerLayersChangedNotification_init : DefaultInit ConsumerLayersChangedNotification :=
  mk_ConsumerLayersChangedNotification None None None.
#[export] Instance ConsumerLayersChangedNotification_lawful : LawfulModel ConsumerLayersChangedNotification.
Proof. solve_model. Qed.
#[export] Instance ConsumerLayersChangedNotification_plain : PlainModel ConsumerLayersChangedNotification.
Proof. by split. Qed.

(** [signaling::ActiveSpeakerNotification::Data] *)
Record ActiveSpeakerNotification_Data : Type := mk_ActiveSpeakerNotification_Data {
  ActiveSpeakerNotification_Data_peerId : option string;
  ActiveSpeakerNotification_Data_volume : option Z
}.
#[export] Instance ActiveSpeakerNotification_Data_map : FieldsMap ActiveSpeakerNotification_Data := {|
  fm_fields := [
    field "peerId" pod_string;
    field "volume" pod_int32];
  fm_get m :=
    (m.(ActiveSpeakerNotification_Data_peerId), (m.(ActiveSpeakerNotification_Data_volume), tt));
  fm_set t m :=
    let '(x0, (x1, _)) := t in
    mk_ActiveSpeakerNotification_Data x0 x1;
  fm_listed m := true |}.
#[export] Instance ActiveSpeakerNotification_Data_init : DefaultInit ActiveSpeakerNotification_Data :=
  mk_ActiveSpeakerNotification_Data None None.
#[export] Instance ActiveSpeakerNotification_Data_lawful : LawfulModel ActiveSpeakerNotification_Data.
Proof. solve_model. Qed.
#[export] Instance ActiveSpeakerNotification_Data_plain : PlainModel ActiveSpeakerNotification_Data.
Proof. by split. Qed.

(** [signaling::ActiveSpeakerNotification] *)
Record ActiveSpeakerNotification : Type := mk_ActiveSpeakerNotification {
  ActiveSpeakerNotification_notification : option bool;
  ActiveSpeakerNotification_method : option string;
  ActiveSpeakerNotification_data : option ActiveSpeakerNotification_Data
}.
#[export] Instance ActiveSpeakerNotification_map : FieldsMap ActiveSpeakerNotification := {|
  fm_fields := [
    field "notification" pod_bool;
    field "method" pod_string;
    field "data" (JsonSerializer ActiveSpeakerNotification_Data)];
  fm_get m :=
    (m.(ActiveSpeakerNotification_notification), (m.(ActiveSpeakerNotification_method),
    (m.(ActiveSpeakerNotification_data), tt)));
  fm_set t m :=
    let '(x0, (x1, (x2, _))) := t in
    mk_ActiveSpeakerNotification x0 x1 x2;
  fm_listed m := true |}.
#[export] Instance ActiveSpeakerNotification_init : DefaultInit ActiveSpeakerNotification :=
  mk_ActiveSpeakerNotification None None None.
#[export] Instance ActiveSpeakerNotification_lawful : LawfulModel ActiveSpeakerNotification.
Proof. solve_model. Qed.
#[export] Instance ActiveSpeakerNotification_plain : PlainModel ActiveSpeakerNotification.
Proof. by split. Qed.

(** [signaling::ConsumerPausedNotification::Data] *)
Record ConsumerPausedNotification_Data : Type := mk_ConsumerPausedNotification_Data {
  ConsumerPausedNotification_Data_consumerId : option string
}.
#[export] Instance ConsumerPausedNotification_Data_map : FieldsMap ConsumerPausedNotification_Data := {|
  fm_fields := [
    field "consumerId" pod_string];
  fm_get m :=
    (m.(ConsumerPausedNotification_Data_consumerId), tt);
  fm_set t m :=
    let '(x0, _) := t in
    mk_ConsumerPausedNotification_Data x0;
  fm_listed m := true |}.
#[export] Instance ConsumerPausedNotification_Data_init : DefaultInit ConsumerPausedNotification_Data :=
  mk_ConsumerPausedNotification_Data None.
#[export] Instance ConsumerPausedNotification_Data_lawful : LawfulModel ConsumerPausedNotification_Data.
Proof. solve_model. Qed.
#[export] Instance ConsumerPausedNotification_Data_plain : PlainModel ConsumerPausedNotification_Data.
Proof. by split. Qed.

(** [signaling::ConsumerPausedNotification] *)
Record ConsumerPausedNotification : Type := mk_ConsumerPausedNotification {
  ConsumerPausedNotification_notification : option bool;
  ConsumerPausedNotification_method : option string;
  ConsumerPausedNotification_data : option ConsumerPausedNotification_Data
}.
#[export] Instance ConsumerPausedNotification_map : FieldsMap ConsumerPausedNotification := {|
  fm_fields := [
    field "notification" pod_bool;
    field "method" pod_string;
    field "data" (JsonSerializer ConsumerPausedNotification_Data)];
  fm_get m :=
    (m.(ConsumerPausedNotification_notification), (m.(ConsumerPausedNotification_method),
    (m.(ConsumerPausedNotification_data), tt)));
  fm_set t m :=
    let '(x0, (x1, (x2, _))) := t in
    mk_ConsumerPausedNotification x0 x1 x2;
  fm_listed m := true |}.
#[export] Instance ConsumerPausedNotification_init : DefaultInit ConsumerPausedNotification :=
  mk_ConsumerPausedNotification None None None.
#[export] Instance ConsumerPausedNotification_lawful : LawfulModel ConsumerPausedNotification.
Proof. solve_model. Qed.
#[export] Instance ConsumerPausedNotification_plain : PlainModel ConsumerPausedNotification.
Proof. by split. Qed.

(** [signaling::ConsumerResumedNotification::Data] *)
Record ConsumerResumedNotification_Data : Type := mk_ConsumerResumedNotification_Data {
  ConsumerResumedNotification_Data_consumerId : option string
}.
#[export] Instance ConsumerResumedNotification_Data_map : FieldsMap ConsumerResumedNotification_Data := {|
  fm_fields := [
    field "consumerId" pod_string];
  fm_get m :=
    (m.(ConsumerResumedNotification_Data_consumerId), tt);
  fm_set t m :=
    let '(x0, _) := t in
    mk_ConsumerResumedNotification_Data x0;
  fm_listed m := true |}.
#[export] Instance ConsumerResumedNotification_Data_init : DefaultInit ConsumerResumedNotification_Data :=
  mk_ConsumerResumedNotification_Data None.
#[export] Instance ConsumerResumedNotification_Data_lawful : LawfulModel ConsumerResumedNotification_Data.
Proof. solve_model. Qed.
#[export] Instance ConsumerResumedNotification_Data_plain : PlainModel ConsumerResumedNotification_Data.
Proof. by split. Qed.

(** [signaling::ConsumerResumedNotification] *)
Record ConsumerResumedNotification : Type := mk_ConsumerResumedNotification {
  ConsumerResumedNotification_notification : option bool;
  ConsumerResumedNotification_method : option string;
  ConsumerResumedNotification_data : option ConsumerResumedNotification_Data
}.
#[export] Instance ConsumerResumedNotification_map : FieldsMap ConsumerResumedNotification := {|
  fm_fields := [
    field "notification" pod_bool;
    field "method" pod_string;
    field "data" (JsonSerializer ConsumerResumedNotification_Data)];
  fm_get m :=
    (m.(ConsumerResumedNotification_notification), (m.(ConsumerResumedNotification_method),
    (m.(ConsumerResumedNotification_data), tt)));
  fm_set t m :=
    let '(x0, (x1, (x2, _))) := t in
    mk_ConsumerResumedNotification x0 x1 x2;
  fm_listed m := true |}.
#[export] Instance ConsumerResumedNotification_init : DefaultInit ConsumerResumedNotification :=
  mk_ConsumerResumedNotification None None None.
#[export] Instance ConsumerResumedNotification_lawful : LawfulModel ConsumerResumedNotification.
Proof. solve_model. Qed.
#[export] Instance ConsumerResumedNotification_plain : PlainModel ConsumerResumedNotification.
Proof. by split. Qed.

(** [signaling::ConsumerClosedNotification::Data] *)
Record ConsumerClosedNotification_Data : Type := mk_ConsumerClosedNotification_Data {
  ConsumerClosedNotification_Data_consumerId : option string
}.
#[export] Instance ConsumerClosedNotification_Data_map : FieldsMap ConsumerClosedNotification_Data := {|
  fm_fields := [
    field "consumerId" pod_string];
  fm_get m :=
    (m.(ConsumerClosedNotification_Data_consumerId), tt);
  fm_set t m :=
    let '(x0, _) := t in
    mk_ConsumerClosedNotification_Data x0;
  fm_listed m := true |}.
#[export] Instance ConsumerClosedNotification_Data_init : DefaultInit ConsumerClosedNotification_Data :=
  mk_ConsumerClosedNotification_Data None.
#[export] Instance ConsumerClosedNotification_Data_lawful : LawfulModel ConsumerClosedNotification_Data.
Proof. solve_model. Qed.
#[export] Instance ConsumerClosedNotification_Data_plain : PlainModel ConsumerClosedNotification_Data.
Proof. by split. Qed.

(** [signaling::ConsumerClosedNotification] *)
Record ConsumerClosedNotification : Type := mk_ConsumerClosedNotification {
  ConsumerClosedNotification_notification : option bool;
  ConsumerClosedNotification_method : option string;
  ConsumerClosedNotification_data : option ConsumerClosedNotification_Data
}.
#[export] Instance ConsumerClosedNotification_map : FieldsMap ConsumerClosedNotification := {|
  fm_fields := [
    field "notification" pod_bool;
    field "method" pod_string;
    field "data" (JsonSerializer ConsumerClosedNotification_Data)];
  fm_get m :=
    (m.(ConsumerClosedNotification_notification), (m.(ConsumerClosedNotification_method),
    (m.(ConsumerClosedNotification_data), tt)));
  fm_set t m :=
    let '(x0, (x1, (x2, _))) := t in
    mk_ConsumerClosedNotification x0 x1 x2;
  fm_listed m := true |}.
#[export] Instance ConsumerClosedNotification_init : DefaultInit ConsumerClosedNotification :=
  mk_ConsumerClosedNotification None None None.
#[export] Instance ConsumerClosedNotification_lawful : LawfulModel ConsumerClosedNotification.
Proof. solve_model. Qed.
#[export] Instance ConsumerClosedNotification_plain : PlainModel ConsumerClosedNotification.
Proof. by split. Qed.

(** [signaling::DataConsumerClosedNotification::Data] *)
Record DataConsumerClosedNotification_Data : Type := mk_DataConsumerClosedNotification_Data {
  DataConsumerClosedNotification_Data_dataConsumerId : option string
}.
#[export] Instance DataConsumerClosedNotification_Data_map : FieldsMap DataConsumerClosedNotification_Data := {|
  fm_fields := [
    field "dataConsumerId" pod_string];
  fm_get m :=
    (m.(DataConsumerClosedNotification_Data_dataConsumerId), tt);
  fm_set t m :=
    let '(x0, _) := t in
    mk_DataConsumerClosedNotification_Data x0;
  fm_listed m := true |}.
#[export] Instance DataConsumerClosedNotification_Data_init : DefaultInit DataConsumerClosedNotification_Data :=
  mk_DataConsumerClosedNotification_Data None.
#[export] Instance DataConsumerClosedNotification_Data_lawful : LawfulModel DataConsumerClosedNotification_Data.
Proof. solve_model. Qed.
#[export] Instance DataConsumerClosedNotification_Data_plain : PlainModel DataConsumerClosedNotification_Data.
Proof. by split. Qed.

(** [signaling::DataConsumerClosedNotification] *)
Record DataConsumerClosedNotification : Type := mk_DataConsumerClosedNotification {
  DataConsumerClosedNotification_notification : option bool;
  DataConsumerClosedNotification_method : option string;
  DataConsumerClosedNotification_data : option DataConsumerClosedNotification_Data
}.
#[export] Instance DataConsumerClosedNotification_map : FieldsMap DataConsumerClosedNotification := {|
  fm_fields := [
    field "notification" pod_bool;
    field "method" pod_string;
    field "data" (JsonSerializer DataConsumerClosedNotification_Data)];
  fm_get m :=
    (m.(DataConsumerClosedNotification_notification),
    (m.(DataConsumerClosedNotification_method), (m.(DataConsumerClosedNotification_data), tt)));
  fm_set t m :=
    let '(x0, (x1, (x2, _))) := t in
    mk_DataConsumerClosedNotification x0 x1 x2;
  fm_listed m := true |}.
#[export] Instance DataConsumerClosedNotification_init : DefaultInit DataConsumerClosedNotification :=
  mk_DataConsumerClosedNotification None None None.
#[export] Instance DataConsumerClosedNotification_lawful : LawfulModel DataConsumerClosedNotification.
Proof. solve_model. Qed.
#[export] Instance DataConsumerClosedNotification_plain : PlainModel DataConsumerClosedNotification.
Proof. by split. Qed.

(** [signaling::PeerDisplayNameChangedNotification::Data] *)
Record PeerDisplayNameChangedNotification_Data : Type := mk_PeerDisplayNameChangedNotification_Data {
  PeerDisplayNameChangedNotification_Data_peerId : option string;
  PeerDisplayNameChangedNotification_Data_oldDisplayName : option string;
  PeerDisplayNameChangedNotification_Data_displayName : option string
}.
#[export] Instance PeerDisplayNameChangedNotification_Data_map : FieldsMap PeerDisplayNameChangedNotification_Data := {|
  fm_fields := [
    field "peerId" pod_string;
    field "oldDisplayName" pod_string;
    field "displayName" pod_string];
  fm_get m :=
    (m.(PeerDisplayNameChangedNotification_Data_peerId),
    (m.(PeerDisplayNameChangedNotification_Data_oldDisplayName),
    (m.(PeerDisplayNameChangedNotification_Data_displayName), tt)));
  fm_set t m :=
    let '(x0, (x1, (x2, _))) := t in
    mk_PeerDisplayNameChangedNotification_Data x0 x1 x2;
  fm_listed m := true |}.
#[export] Instance PeerDisplayNameChangedNotification_Data_init : DefaultInit PeerDisplayNameChangedNotification_Data :=
  mk_PeerDisplayNameChangedNotification_Data None None None.
#[export] Instance PeerDisplayNameChangedNotification_Data_lawful : LawfulModel PeerDisplayNameChangedNotification_Data.
Proof. solve_model. Qed.
#[export] Instance PeerDisplayNameChangedNotification_Data_plain : PlainModel PeerDisplayNameChangedNotification_Data.
Proof. by split. Qed.

(** [signaling::PeerDisplayNameChangedNotification] *)
Record PeerDisplayNameChangedNotification : Type := mk_PeerDisplayNameChangedNotification {
  PeerDisplayNameChangedNotification_notification : option bool;
  PeerDisplayNameChangedNotification_method : option string;
  PeerDisplayNameChangedNotification_data : option PeerDisplayNameChangedNotification_Data
}.
#[export] Instance PeerDisplayNameChangedNotification_map : FieldsMap PeerDisplayNameChangedNotification := {|
  fm_fields := [
    field "notification" pod_bool;
    field "method" pod_string;
    field "data" (JsonSerializer PeerDisplayNameChangedNotification_Data)];
  fm_get m :=
    (m.(PeerDisplayNameChangedNotification_notification),
    (m.(PeerDisplayNameChangedNotification_method),
    (m.(PeerDisplayNameChangedNotification_data), tt)));
  fm_set t m :=
    let '(x0, (x1, (x2, _))) := t in
    mk_PeerDisplayNameChangedNotification x0 x1 x2;
  fm_listed m := true |}.
#[export] Instance PeerDisplayNameChangedNotification_init : DefaultInit PeerDisplayNameChangedNotification :=
  mk_PeerDisplayNameChangedNotification None None None.
#[export] Instance PeerDisplayNameChangedNotification_lawful : LawfulModel PeerDisplayNameChangedNotification.
Proof. solve_model. Qed.
#[export] Instance PeerDisplayNameChangedNotification_plain : PlainModel PeerDisplayNameChangedNotification.
Proof. by split. Qed.

(** [signaling::NewPeerNotification::Device] *)
Record NewPeerNotification_Device : Type := mk_NewPeerNotification_Device {
  NewPeerNotification_Device_flag : option string;
  NewPeerNotification_Device_name : option string;
  NewPeerNotification_Device_version : option string
}.
#[export] Instance NewPeerNotification_Device_map : FieldsMap NewPeerNotification_Device := {|
  fm_fields := [
    field "flag" pod_string;
    field "name" pod_string;
    field "version" pod_string];
  fm_get m :=
    (m.(NewPeerNotification_Device_flag), (m.(NewPeerNotification_Device_name),
    (m.(NewPeerNotification_Device_version), tt)));
  fm_set t m :=
    let '(x0, (x1, (x2, _))) := t in
    mk_NewPeerNotification_Device x0 x1 x2;
  fm_listed m := true |}.
#[export] Instance NewPeerNotification_Device_init : DefaultInit NewPeerNotification_Device :=
  mk_NewPeerNotification_Device None None None.
#[export] Instance NewPeerNotification_Device_lawful : LawfulModel NewPeerNotification_Device.
Proof. solve_model. Qed.
#[export] Instance NewPeerNotification_Device_plain : PlainModel NewPeerNotification_Device.
Proof. by split. Qed.

(** [signaling::NewPeerNotification::Data] *)
Record NewPeerNotification_Data : Type := mk_NewPeerNotification_Data {
  NewPeerNotification_Data_id : option string;
  NewPeerNotification_Data_displayName : option string;
  NewPeerNotification_Data_device : option NewPeerNotification_Device
}.
#[export] Instance NewPeerNotification_Data_map : FieldsMap NewPeerNotification_Data := {|
  fm_fields := [
    field "id" pod_string;
    field "displayName" pod_string;
    field "device" (JsonSerializer NewPeerNotification_Device)];
  fm_get m :=
    (m.(NewPeerNotification_Data_id), (m.(NewPeerNotification_Data_displayName),
    (m.(NewPeerNotification_Data_device), tt)));
  fm_set t m :=
    let '(x0, (x1, (x2, _))) := t in
    mk_NewPeerNotification_Data x0 x1 x2;
  fm_listed m := true |}.
#[export] Instance NewPeerNotification_Data_init : DefaultInit NewPeerNotification_Data :=
  mk_NewPeerNotification_Data None None None.
#[export] Instance NewPeerNotification_Data_lawful : LawfulModel NewPeerNotification_Data.
Proof. solve_model. Qed.
#[export] Instance NewPeerNotification_Data_plain : PlainModel NewPeerNotification_Data.
Proof. by split. Qed.

(** [signaling::NewPeerNotification] *)
Record NewPeerNotification : Type := mk_NewPeerNotification {
  NewPeerNotification_notification : option bool;
  NewPeerNotification_method : option string;
  NewPeerNotification_data : option NewPeerNotification_Data
}.
#[export] Instance NewPeerNotification_map : FieldsMap NewPeerNotification := {|
  fm_fields := [
    field "notification" pod_bool;
    field "method" pod_string;
    field "data" (JsonSerializer NewPeerNotification_Data)];
  fm_get m :=
    (m.(NewPeerNotification_notification), (m.(NewPeerNotification_method),
    (m.(NewPeerNotification_data), tt)));
  fm_set t m :=
    let '(x0, (x1, (x2, _))) := t in
    mk_NewPeerNotification x0 x1 x2;
  fm_listed m := true |}.
#[export] Instance NewPeerNotification_init : DefaultInit NewPeerNotification :=
  mk_NewPeerNotification None None None.
#[export] Instance NewPeerNotification_lawful : LawfulModel NewPeerNotification.
Proof. solve_model. Qed.
#[export] Instance NewPeerNotification_plain : PlainModel NewPeerNotification.
Proof. by split. Qed.

(** [signaling::PeerClosedNotification::Data] *)
Record PeerClosedNotification_Data : Type := mk_PeerClosedNotification_Data {
  PeerClosedNotification_Data_peerId : option string
}.
#[export] Instance PeerClosedNotification_Data_map : FieldsMap PeerClosedNotification_Data := {|
  fm_fields := [
    field "peerId" pod_string];
  fm_get m :=
    (m.(PeerClosedNotification_Data_peerId), tt);
  fm_set t m :=
    let '(x0, _) := t in
    mk_PeerClosedNotification_Data x0;
  fm_listed m := true |}.
#[export] Instance PeerClosedNotification_Data_init : DefaultInit PeerClosedNotification_Data :=
  mk_PeerClosedNotification_Data None.
#[export] Instance PeerClosedNotification_Data_lawful : LawfulModel PeerClosedNotification_Data.
Proof. solve_model. Qed.
#[export] Instance PeerClosedNotification_Data_plain : PlainModel PeerClosedNotification_Data.
Proof. by split. Qed.

(** [signaling::PeerClosedNotification] *)
Record PeerClosedNotification : Type := mk_PeerClosedNotification {
  PeerClosedNotification_notification : option bool;
  PeerClosedNotification_method : option string;
  PeerClosedNotification_data : option PeerClosedNotification_Data
}.
#[export] Instance PeerClosedNotification_map : FieldsMap PeerClosedNotification := {|
  fm_fields := [
    field "notification" pod_bool;
    field "method" pod_string;
    field "data" (JsonSerializer PeerClosedNotification_Data)];
  fm_get m :=
    (m.(PeerClosedNotification_notification), (m.(PeerClosedNotification_method),
    (m.(PeerClosedNotification_data), tt)));
  fm_set t m :=
    let '(x0, (x1, (x2, _))) := t in
    mk_PeerClosedNotification x0 x1 x2;
  fm_listed m := true |}.
#[export] Instance PeerClosedNotification_init : DefaultInit PeerClosedNotification :=
  mk_PeerClosedNotification None None None.
#[export] Instance PeerClosedNotification_lawful : LawfulModel PeerClosedNotification.
Proof. solve_model. Qed.
#[export] Instance PeerClosedNotification_plain : PlainModel PeerClosedNotification.
Proof. by split. Qed.
