(* ===== verification/SignalingFacts.v ===== *)
(** * Properties of the signaling messages

    What crosses the wire: the round trip of the structs of [signaling_models.h]
    through [serialization.hpp], and which members a document is read from. *)

From stdpp Require Import base gmap strings list.
From Stdlib Require Import ZArith Lia.
From S2P Require Import Prelude Json SignalingModels.

#[local] Open Scope string_scope.
#[local] Open Scope list_scope.

(** ** Round trip *)

(** C13: what is sent is what is received.  For every struct of the protocol
    without member initializers (all that the client parses: they have
    [LawfulModel] and [PlainModel] instances), writing an object with [toJsonStr] and reading the text back with [fromJsonString] gives the
    same object, provided the JSON library reads its own output, the listed
    members hold representable values and the others are empty. *)
Theorem wire_roundtrip {A} `{LawfulModel A, !DefaultInit A, !PlainModel A} print parse (m : A) :
  model_wf m = true -> parse (print (jserialize m)) = Some (jserialize m) ->
  fromJsonString parse default_init (toJsonStr print m) = Ok m.
Proof. intros Hwf Hp. unfold fromJsonString, toJsonStr. rewrite Hp. by apply jdeserialize_plain. Qed.

Definition sample_notification : NewPeerNotification :=
  mk_NewPeerNotification (Some true) (Some "newPeer")
    (Some (mk_NewPeerNotification_Data (Some "bob") (Some "Bob")
             (Some (mk_NewPeerNotification_Device None (Some "chrome") None)))).

Lemma wire_roundtrip_witness :
  fromJsonString (fun _ => Some (jserialize sample_notification)) default_init
    (toJsonStr (fun _ => "") sample_notification) = Ok sample_notification.
Proof. apply wire_roundtrip; vm_compute; reflexivity. Defined.

(** ** What is read *)

Lemma json_deserialize_local fs ms ms' t :
  Forall (fun f => lawful (fd_ser f)) fs ->
  (forall k, k ∈ fd_name <$> fs -> find_member k ms = find_member k ms') ->
  json_deserialize fs (JObject ms) t = json_deserialize fs (JObject ms') t.
Proof.
  induction fs as [|f fs IH]; simpl; [done|]. intros Hl Hk. inversion Hl as [|?? Hf Hfs]; subst.
  assert (Hm : find_member (fd_name f) ms = find_member (fd_name f) ms') by (apply Hk; by left).
  unfold optional_backward, FindMember. simpl. rewrite <- Hm.
  rewrite (IH t.2) by (done || (intros k Hin; apply Hk; by right)).
  destruct (find_member (fd_name f) ms) as [x|]; [|done]. destruct (IsNull x); [done|].
  rewrite (lw_local (lawful := Hf) ms ms') by (apply Hk; by left). done.
Qed.

(** Only the listed members count.  Two documents that agree on the first
    occurrence of every listed name are read alike: unknown members, the order
    of members and later duplicates make no difference. *)
Theorem only_listed_members_count {A} `{LawfulModel A} ms ms' (m : A) :
  (forall k, k ∈ fd_name <$> fm_fields A -> find_member k ms = find_member k ms') ->
  jdeserialize (JObject ms) m = jdeserialize (JObject ms') m.
Proof.
  intros Hk. unfold jdeserialize. by rewrite (json_deserialize_local _ ms ms') by (apply lm_fields || done).
Qed.

Lemma only_listed_members_count_witness :
  jdeserialize (JObject [("ok", JBool true); ("unknown", JNull); ("id", JInt 7); ("ok", JBool false)])
    (default_init : BasicResponse) =
  jdeserialize (JObject [("id", JInt 7); ("ok", JBool true)]) (default_init : BasicResponse).
Proof.
  apply only_listed_members_count. intros k Hk. cbn in Hk.
  repeat (apply elem_of_cons in Hk as [->|Hk]; [reflexivity|]). by apply not_elem_of_nil in Hk.
Defined.

(** ** Members left out of a FIELDS_MAP *)

(** The [apt] of the codec parameters never reaches the server: the member
    is declared but not listed in the [FIELDS_MAP] of
    [JoinRequest::Parameters], so two objects that differ in it only are written
    alike, and reading a device's capabilities drops the value. *)
Lemma apt_is_lost (p : JoinRequest_Parameters) (apt : option Z) ms (p0 p1 : JoinRequest_Parameters) :
  jserialize (mk_JoinRequest_Parameters apt (JoinRequest_Parameters_levelAsymmetryAllowed p)
    (JoinRequest_Parameters_packetizationMode p) (JoinRequest_Parameters_profileLevelId p)
    (JoinRequest_Parameters_xGoogleStartBitrate p) (JoinRequest_Parameters_minptime p)
    (JoinRequest_Parameters_useinbandfec p) (JoinRequest_Parameters_profileId p)) = jserialize p /\
  (jdeserialize (JObject ms) p0 = Ok p1 -> JoinRequest_Parameters_apt p1 = JoinRequest_Parameters_apt p0).
Proof.
  split; [by destruct p|]. unfold jdeserialize.
  destruct (json_deserialize _ _ _) as [t|]; [|done]. cbn -[tuple].
  intros [= <-]. by destruct t as (?&?&?&?&?&?&?&?).
Qed.

Lemma apt_is_lost_witness :
  jserialize (mk_JoinRequest_Parameters (Some 96%Z) None None None None None None None) =
    jserialize (mk_JoinRequest_Parameters None None None None None None None None) /\
  exists p1, jdeserialize (JObject [("apt", JInt 96)]) default_init = Ok p1 /\ JoinRequest_Parameters_apt p1 = None.
Proof.
  split.
  - apply (apt_is_lost (mk_JoinRequest_Parameters None None None None None None None None) (Some 96%Z) []
      default_init default_init).
  - exists default_init. split; [vm_compute; reflexivity|].
    refine (proj2 (apt_is_lost default_init None [("apt", JInt 96%Z)] default_init default_init) _).
    vm_compute. reflexivity.
Defined.
