(* ===== verification/SignalingShapes.v ===== *)
(** * The declared members of the signaling messages

    [signaling_models.h] gives every member of a message a C++ type.  This file
    reads those declarations as the JSON kind a value of the type is written
    as ([shape], one list [X_members] per struct), relates the functors that
    [json_serialize] picks to the kinds they are meant for ([reads_as], a relation
    on the functors' names that does not look at their code), and proves against
    it which documents [fromJsonString] takes. *)

From stdpp Require Import base strings list.
From Stdlib Require Import ZArith Lia SpecFloat.
From S2P Require Import Prelude Json SignalingModels.

#[local] Set Warnings "-register-all".

#[local] Open Scope string_scope.
#[local] Open Scope list_scope.

(** ** Kinds of JSON values *)

Inductive shape : Type :=
| ShBool
| ShInt32
| ShInt64
| ShDouble
| ShString
| ShArray (s : shape)
| ShObject (ms : list (string * shape)).

(** What rapidjson's [IsBool], [IsInt], [IsInt64], [IsDouble], [IsString],
    [IsArray] and [IsObject] say of a value of that kind; a member of an object
    may be missing or null. *)
Fixpoint fits (s : shape) (j : Value) {struct s} : bool :=
  match s, j with
  | ShBool, JBool _ => true
  | ShInt32, JInt z => (- 2 ^ 31 <=? z)%Z && (z <? 2 ^ 31)%Z
  | ShInt64, JInt z => (- 2 ^ 63 <=? z)%Z && (z <? 2 ^ 63)%Z
  | ShDouble, JDouble _ => true
  | ShString, JString _ => true
  | ShArray s, JArray l => forallb (fits s) l
  | ShObject ms, JObject doc =>
      forallb (fun m => match find_member m.1 doc with
                        | Some x => IsNull x || fits m.2 x
                        | None => true
                        end) ms
  | _, _ => false
  end.

(** Member [k] of a document is there and is not null. *)
Definition has_member (j : Value) (k : string) : bool :=
  match FindMember j k with Some x => negb (IsNull x) | None => false end.

(** ** The functors and the kinds they are meant for *)

Inductive native_reads_as : forall T, native T -> shape -> Prop :=
| NBool : native_reads_as bool bool_native ShBool
| NInt32 : native_reads_as Z int_native ShInt32
| NInt64 : native_reads_as Z int64_native ShInt64
| NDouble : native_reads_as spec_float double_native ShDouble
| NFloat : native_reads_as spec_float float_native ShDouble
| NString : native_reads_as string string_native ShString
| NVector T (n : native T) s : native_reads_as T n s -> native_reads_as (list T) (vector_native n) (ShArray s).

Inductive reads_as : forall T, serializer T -> shape -> Prop :=
| RPod T (n : native T) s : native_reads_as T n s -> reads_as T (JsonSerializerPod n) s
| RStruct A (HA : FieldsMap A) (HD : DefaultInit A) ms :
    ms <> [] -> declares (fm_fields A) ms -> reads_as A (JsonSerializer A) (ShObject ms)
| RStructs A (HA : FieldsMap A) (HD : DefaultInit A) ms :
    ms <> [] -> declares (fm_fields A) ms -> reads_as (list A) (JsonSerializerVector A) (ShArray (ShObject ms))
with declares : list field_desc -> list (string * shape) -> Prop :=
| DNil : declares [] []
| DCons k T (ser : serializer T) s fs ms :
    reads_as T ser s -> declares fs ms -> declares (field k ser :: fs) ((k, s) :: ms).

Scheme reads_as_mut := Induction for reads_as Sort Prop
with declares_mut := Induction for declares Sort Prop.

(** The [FIELDS_MAP] of [A] lists the members [ms] with functors of their kinds. *)
Class Declared (A : Type) `{FieldsMap A} (ms : list (string * shape)) : Prop := {
  declared_some : ms <> [];
  declared : declares (fm_fields A) ms
}.

Ltac solve_declared :=
  split; [discriminate|];
  repeat first [ apply DNil | apply DCons | apply NBool | apply NInt32 | apply NInt64 | apply NDouble
               | apply NFloat | apply NString | apply NVector | apply RPod
               | (eapply RStruct; [eapply declared_some | eapply declared])
               | (eapply RStructs; [eapply declared_some | eapply declared]) ];
  try apply _.

(** ** The declarations of [signaling_models.h] *)

Definition MessageType_members : list (string * shape) :=
  [("request", ShBool); ("response", ShBool); ("notification", ShBool)].
#[export] Instance MessageType_declared : Declared MessageType MessageType_members.
Proof. solve_declared. Qed.

Definition RequestHeader_members : list (string * shape) :=
  [("request", ShBool); ("id", ShInt64); ("method", ShString)].
#[export] Instance RequestHeader_declared : Declared RequestHeader RequestHeader_members.
Proof. solve_declared. Qed.

Definition ResponseHeader_members : list (string * shape) :=
  [("response", ShBool); ("id", ShInt64); ("ok", ShBool)].
#[export] Instance ResponseHeader_declared : Declared ResponseHeader ResponseHeader_members.
Proof. solve_declared. Qed.

Definition NotificationHeader_members : list (string * shape) :=
  [("notification", ShBool); ("method", ShString)].
#[export] Instance NotificationHeader_declared : Declared NotificationHeader NotificationHeader_members.
Proof. solve_declared. Qed.

Definition BasicResponse_members : list (string * shape) :=
  [("response", ShBool); ("id", ShInt64); ("ok", ShBool)].
#[export] Instance BasicResponse_declared : Declared BasicResponse BasicResponse_members.
Proof. solve_declared. Qed.

Definition GetRouterRtpCapabilitiesRequest_members : list (string * shape) :=
  [("request", ShBool); ("id", ShInt64); ("method", ShString)].
#[export] Instance GetRouterRtpCapabilitiesRequest_declared :
  Declared GetRouterRtpCapabilitiesRequest GetRouterRtpCapabilitiesRequest_members.
Proof. solve_declared. Qed.

Definition GetRouterRtpCapabilitiesResponse_RTCPFeedback_members : list (string * shape) :=
  [("type", ShString); ("parameter", ShString)].
#[export] Instance GetRouterRtpCapabilitiesResponse_RTCPFeedback_declared :
  Declared GetRouterRtpCapabilitiesResponse_RTCPFeedback GetRouterRtpCapabilitiesResponse_RTCPFeedback_members.
Proof. solve_declared. Qed.

Definition GetRouterRtpCapabilitiesResponse_Parameters_members : list (string * shape) :=
  [("apt", ShInt32); ("level-asymmetry-allowed", ShInt32); ("packetization-mode", ShInt32);
   ("profile-level-id", ShString); ("x-google-start-bitrate", ShInt32)].
#[export] Instance GetRouterRtpCapabilitiesResponse_Parameters_declared :
  Declared GetRouterRtpCapabilitiesResponse_Parameters GetRouterRtpCapabilitiesResponse_Parameters_members.
Proof. solve_declared. Qed.

Definition GetRouterRtpCapabilitiesResponse_Codec_members : list (string * shape) :=
  [("kind", ShString); ("mimeType", ShString); ("clockRate", ShInt32); ("channels", ShInt32);
   ("rtcpFeedback", ShArray (ShObject GetRouterRtpCapabilitiesResponse_RTCPFeedback_members));
   ("parameters", ShObject GetRouterRtpCapabilitiesResponse_Parameters_members);
   ("preferredPayloadType", ShInt32)].
#[export] Instance GetRouterRtpCapabilitiesResponse_Codec_declared :
  Declared GetRouterRtpCapabilitiesResponse_Codec GetRouterRtpCapabilitiesResponse_Codec_members.
Proof. solve_declared. Qed.

Definition GetRouterRtpCapabilitiesResponse_HeaderExtension_members : list (string * shape) :=
  [("kind", ShString); ("uri", ShString); ("preferredId", ShInt32); ("preferredEncrypt", ShBool);
   ("direction", ShString)].
#[export] Instance GetRouterRtpCapabilitiesResponse_HeaderExtension_declared :
  Declared GetRouterRtpCapabilitiesResponse_HeaderExtension GetRouterRtpCapabilitiesResponse_HeaderExtension_members.
Proof. solve_declared. Qed.

Definition GetRouterRtpCapabilitiesResponse_Data_members : list (string * shape) :=
  [("codecs", ShArray (ShObject GetRouterRtpCapabilitiesResponse_Codec_members));
   ("headerExtensions", ShArray (ShObject GetRouterRtpCapabilitiesResponse_HeaderExtension_members))].
#[export] Instance GetRouterRtpCapabilitiesResponse_Data_declared :
  Declared GetRouterRtpCapabilitiesResponse_Data GetRouterRtpCapabilitiesResponse_Data_members.
Proof. solve_declared. Qed.

Definition GetRouterRtpCapabilitiesResponse_members : list (string * shape) :=
  [("response", ShBool); ("id", ShInt64); ("ok", ShBool);
   ("data", ShObject GetRouterRtpCapabilitiesResponse_Data_members)].
#[export] Instance GetRouterRtpCapabilitiesResponse_declared :
  Declared GetRouterRtpCapabilitiesResponse GetRouterRtpCapabilitiesResponse_members.
Proof. solve_declared. Qed.

Definition CreateWebRtcTransportRequest_NumStreams_members : list (string * shape) :=
  [("MIS", ShInt32); ("OS", ShInt32)].
#[export] Instance CreateWebRtcTransportRequest_NumStreams_declared :
  Declared CreateWebRtcTransportRequest_NumStreams CreateWebRtcTransportRequest_NumStreams_members.
Proof. solve_declared. Qed.

Definition CreateWebRtcTransportRequest_SCTPCapabilities_members : list (string * shape) :=
  [("numStreams", ShObject CreateWebRtcTransportRequest_NumStreams_members)].
#[export] Instance CreateWebRtcTransportRequest_SCTPCapabilities_declared :
  Declared CreateWebRtcTransportRequest_SCTPCapabilities CreateWebRtcTransportRequest_SCTPCapabilities_members.
Proof. solve_declared. Qed.

Definition CreateWebRtcTransportRequest_Data_members : list (string * shape) :=
  [("consuming", ShBool); ("producing", ShBool); ("forceTcp", ShBool);
   ("sctpCapabilities", ShObject CreateWebRtcTransportRequest_SCTPCapabilities_members)].
#[export] Instance CreateWebRtcTransportRequest_Data_declared :
  Declared CreateWebRtcTransportRequest_Data CreateWebRtcTransportRequest_Data_members.
Proof. solve_declared. Qed.

Definition CreateWebRtcTransportRequest_members : list (string * shape) :=
  [("request", ShBool); ("id", ShInt64); ("method", ShString);
   ("data", ShObject CreateWebRtcTransportRequest_Data_members)].
#[export] Instance CreateWebRtcTransportRequest_declared :
  Declared CreateWebRtcTransportRequest CreateWebRtcTransportRequest_members.
Proof. solve_declared. Qed.

Definition CreateWebRtcTransportResponse_Fingerprint_members : list (string * shape) :=
  [("algorithm", ShString); ("value", ShString)].
#[export] Instance CreateWebRtcTransportResponse_Fingerprint_declared :
  Declared CreateWebRtcTransportResponse_Fingerprint CreateWebRtcTransportResponse_Fingerprint_members.
Proof. solve_declared. Qed.

Definition CreateWebRtcTransportResponse_DTLSParameters_members : list (string * shape) :=
  [("fingerprints", ShArray (ShObject CreateWebRtcTransportResponse_Fingerprint_members)); ("role", ShString)].
#[export] Instance CreateWebRtcTransportResponse_DTLSParameters_declared :
  Declared CreateWebRtcTransportResponse_DTLSParameters CreateWebRtcTransportResponse_DTLSParameters_members.
Proof. solve_declared. Qed.

Definition CreateWebRtcTransportResponse_ICECandidate_members : list (string * shape) :=
  [("type", ShString); ("protocol", ShString); ("foundation", ShString); ("ip", ShString); ("port", ShInt32);
   ("priority", ShInt32)].
#[export] Instance CreateWebRtcTransportResponse_ICECandidate_declared :
  Declared CreateWebRtcTransportResponse_ICECandidate CreateWebRtcTransportResponse_ICECandidate_members.
Proof. solve_declared. Qed.

Definition CreateWebRtcTransportResponse_ICEParameters_members : list (string * shape) :=
  [("iceLite", ShBool); ("password", ShString); ("usernameFragment", ShString)].
#[export] Instance CreateWebRtcTransportResponse_ICEParameters_declared :
  Declared CreateWebRtcTransportResponse_ICEParameters CreateWebRtcTransportResponse_ICEParameters_members.
Proof. solve_declared. Qed.

Definition CreateWebRtcTransportResponse_SCTPParameters_members : list (string * shape) :=
  [("MIS", ShInt32); ("OS", ShInt32); ("isDataChannel", ShBool); ("port", ShInt32);
   ("maxMessageSize", ShInt32); ("sctpBufferedAmount", ShInt32); ("sendBufferSize", ShInt32)].
#[export] Instance CreateWebRtcTransportResponse_SCTPParameters_declared :
  Declared CreateWebRtcTransportResponse_SCTPParameters CreateWebRtcTransportResponse_SCTPParameters_members.
Proof. solve_declared. Qed.

Definition CreateWebRtcTransportResponse_Data_members : list (string * shape) :=
  [("id", ShString); ("dtlsParameters", ShObject CreateWebRtcTransportResponse_DTLSParameters_members);
   ("iceCandidates", ShArray (ShObject CreateWebRtcTransportResponse_ICECandidate_members));
   ("iceParameters", ShObject CreateWebRtcTransportResponse_ICEParameters_members);
   ("sctpParameters", ShObject CreateWebRtcTransportResponse_SCTPParameters_members)].
#[export] Instance CreateWebRtcTransportResponse_Data_declared :
  Declared CreateWebRtcTransportResponse_Data CreateWebRtcTransportResponse_Data_members.
Proof. solve_declared. Qed.

Definition CreateWebRtcTransportResponse_members : list (string * shape) :=
  [("request", ShBool); ("id", ShInt64); ("ok", ShBool);
   ("data", ShObject CreateWebRtcTransportResponse_Data_members)].
#[export] Instance CreateWebRtcTransportResponse_declared :
  Declared CreateWebRtcTransportResponse CreateWebRtcTransportResponse_members.
Proof. solve_declared. Qed.

Definition JoinRequest_Device_members : list (string * shape) :=
  [("flag", ShString); ("name", ShString); ("version", ShString)].
#[export] Instance JoinRequest_Device_declared : Declared JoinRequest_Device JoinRequest_Device_members.
Proof. solve_declared. Qed.

Definition JoinRequest_RTCPFeedback_members : list (string * shape) :=
  [("type", ShString); ("parameter", ShString)].
#[export] Instance JoinRequest_RTCPFeedback_declared :
  Declared JoinRequest_RTCPFeedback JoinRequest_RTCPFeedback_members.
Proof. solve_declared. Qed.

Definition JoinRequest_Parameters_members : list (string * shape) :=
  [("level-asymmetry-allowed", ShInt32); ("packetization-mode", ShInt32); ("profile-level-id", ShString);
   ("x-google-start-bitrate", ShInt32); ("minptime", ShInt32); ("useinbandfec", ShInt32);
   ("profile-id", ShInt32)].
#[export] Instance JoinRequest_Parameters_declared : Declared JoinRequest_Parameters JoinRequest_Parameters_members.
Proof. solve_declared. Qed.

Definition JoinRequest_Codec_members : list (string * shape) :=
  [("kind", ShString); ("mimeType", ShString); ("clockRate", ShInt32); ("channels", ShInt32);
   ("rtcpFeedback", ShArray (ShObject JoinRequest_RTCPFeedback_members));
   ("parameters", ShObject JoinRequest_Parameters_members); ("preferredPayloadType", ShInt32)].
#[export] Instance JoinRequest_Codec_declared : Declared JoinRequest_Codec JoinRequest_Codec_members.
Proof. solve_declared. Qed.

Definition JoinRequest_HeaderExtension_members : list (string * shape) :=
  [("kind", ShString); ("uri", ShString); ("preferredId", ShInt32); ("preferredEncrypt", ShBool);
   ("direction", ShString)].
#[export] Instance JoinRequest_HeaderExtension_declared :
  Declared JoinRequest_HeaderExtension JoinRequest_HeaderExtension_members.
Proof. solve_declared. Qed.

Definition JoinRequest_RTPCapabilities_members : list (string * shape) :=
  [("codecs", ShArray (ShObject JoinRequest_Codec_members));
   ("headerExtensions", ShArray (ShObject JoinRequest_HeaderExtension_members))].
#[export] Instance JoinRequest_RTPCapabilities_declared :
  Declared JoinRequest_RTPCapabilities JoinRequest_RTPCapabilities_members.
Proof. solve_declared. Qed.

Definition JoinRequest_NumStreams_members : list (string * shape) :=
  [("MIS", ShInt32); ("OS", ShInt32)].
#[export] Instance JoinRequest_NumStreams_declared : Declared JoinRequest_NumStreams JoinRequest_NumStreams_members.
Proof. solve_declared. Qed.

Definition JoinRequest_SCTPCapabilities_members : list (string * shape) :=
  [("numStreams", ShObject JoinRequest_NumStreams_members)].
#[export] Instance JoinRequest_SCTPCapabilities_declared :
  Declared JoinRequest_SCTPCapabilities JoinRequest_SCTPCapabilities_members.
Proof. solve_declared. Qed.

Definition JoinRequest_Data_members : list (string * shape) :=
  [("displayName", ShString); ("device", ShObject JoinRequest_Device_members);
   ("rtpCapabilities", ShObject JoinRequest_RTPCapabilities_members);
   ("sctpCapabilities", ShObject JoinRequest_SCTPCapabilities_members)].
#[export] Instance JoinRequest_Data_declared : Declared JoinRequest_Data JoinRequest_Data_members.
Proof. solve_declared. Qed.

Definition JoinRequest_members : list (string * shape) :=
  [("request", ShBool); ("id", ShInt64); ("method", ShString); ("data", ShObject JoinRequest_Data_members)].
#[export] Instance JoinRequest_declared : Declared JoinRequest JoinRequest_members.
Proof. solve_declared. Qed.

Definition JoinResponse_Device_members : list (string * shape) :=
  [("flag", ShString); ("name", ShString); ("version", ShString)].
#[export] Instance JoinResponse_Device_declared : Declared JoinResponse_Device JoinResponse_Device_members.
Proof. solve_declared. Qed.

Definition JoinResponse_Peer_members : list (string * shape) :=
  [("id", ShString); ("displayName", ShString); ("device", ShObject JoinResponse_Device_members)].
#[export] Instance JoinResponse_Peer_declared : Declared JoinResponse_Peer JoinResponse_Peer_members.
Proof. solve_declared. Qed.

Definition JoinResponse_Data_members : list (string * shape) :=
  [("peers", ShArray (ShObject JoinResponse_Peer_members))].
#[export] Instance JoinResponse_Data_declared : Declared JoinResponse_Data JoinResponse_Data_members.
Proof. solve_declared. Qed.

Definition JoinResponse_members : list (string * shape) :=
  [("response", ShBool); ("id", ShInt64); ("ok", ShBool); ("data", ShObject JoinResponse_Data_members)].
#[export] Instance JoinResponse_declared : Declared JoinResponse JoinResponse_members.
Proof. solve_declared. Qed.

Definition NewDataConsumerRequest_AppData_members : list (string * shape) :=
  [("peerId", ShString)].
#[export] Instance NewDataConsumerRequest_AppData_declared :
  Declared NewDataConsumerRequest_AppData NewDataConsumerRequest_AppData_members.
Proof. solve_declared. Qed.

Definition NewDataConsumerRequest_SCTPStreamParameters_members : list (string * shape) :=
  [("streamId", ShInt32); ("ordered", ShBool)].
#[export] Instance NewDataConsumerRequest_SCTPStreamParameters_declared :
  Declared NewDataConsumerRequest_SCTPStreamParameters NewDataConsumerRequest_SCTPStreamParameters_members.
Proof. solve_declared. Qed.

Definition NewDataConsumerRequest_Data_members : list (string * shape) :=
  [("id", ShString); ("peerId", ShString); ("dataProducerId", ShString); ("label", ShString);
   ("protocol", ShString);
   ("sctpStreamParameters", ShObject NewDataConsumerRequest_SCTPStreamParameters_members);
   ("appData", ShObject NewDataConsumerRequest_AppData_members)].
#[export] Instance NewDataConsumerRequest_Data_declared :
  Declared NewDataConsumerRequest_Data NewDataConsumerRequest_Data_members.
Proof. solve_declared. Qed.

Definition NewDataConsumerRequest_members : list (string * shape) :=
  [("request", ShBool); ("id", ShInt64); ("method", ShString);
   ("data", ShObject NewDataConsumerRequest_Data_members)].
#[export] Instance NewDataConsumerRequest_declared : Declared NewDataConsumerRequest NewDataConsumerRequest_members.
Proof. solve_declared. Qed.

Definition NewConsumerRequest_SharingData_members : list (string * shape) :=
  [("trackName", ShString)].
#[export] Instance NewConsumerRequest_SharingData_declared :
  Declared NewConsumerRequest_SharingData NewConsumerRequest_SharingData_members.
Proof. solve_declared. Qed.

Definition NewConsumerRequest_AppData_members : list (string * shape) :=
  [("peerId", ShString); ("sharing", ShObject NewConsumerRequest_SharingData_members)].
#[export] Instance NewConsumerRequest_AppData_declared :
  Declared NewConsumerRequest_AppData NewConsumerRequest_AppData_members.
Proof. solve_declared. Qed.

Definition NewConsumerRequest_RTCPFeedback_members : list (string * shape) :=
  [("type", ShString); ("parameter", ShString)].
#[export] Instance NewConsumerRequest_RTCPFeedback_declared :
  Declared NewConsumerRequest_RTCPFeedback NewConsumerRequest_RTCPFeedback_members.
Proof. solve_declared. Qed.

Definition NewConsumerRequest_Parameters_members : list (string * shape) :=
  [("sprop-stereo", ShInt32); ("usedtx", ShInt32); ("minptime", ShInt32); ("useinbandfec", ShInt32)].
#[export] Instance NewConsumerRequest_Parameters_declared :
  Declared NewConsumerRequest_Parameters NewConsumerRequest_Parameters_members.
Proof. solve_declared. Qed.

Definition NewConsumerRequest_Codec_members : list (string * shape) :=
  [("mimeType", ShString); ("clockRate", ShInt32); ("channels", ShInt32);
   ("rtcpFeedback", ShArray (ShObject NewConsumerRequest_RTCPFeedback_members));
   ("parameters", ShObject NewConsumerRequest_Parameters_members); ("payloadType", ShInt32)].
#[export] Instance NewConsumerRequest_Codec_declared :
  Declared NewConsumerRequest_Codec NewConsumerRequest_Codec_members.
Proof. solve_declared. Qed.

Definition NewConsumerRequest_HeaderExtension_members : list (string * shape) :=
  [("id", ShInt32); ("uri", ShString); ("encrypt", ShBool)].
#[export] Instance NewConsumerRequest_HeaderExtension_declared :
  Declared NewConsumerRequest_HeaderExtension NewConsumerRequest_HeaderExtension_members.
Proof. solve_declared. Qed.

Definition NewConsumerRequest_RTX_members : list (string * shape) :=
  [("ssrc", ShInt64)].
#[export] Instance NewConsumerRequest_RTX_declared : Declared NewConsumerRequest_RTX NewConsumerRequest_RTX_members.
Proof. solve_declared. Qed.

Definition NewConsumerRequest_Encoding_members : list (string * shape) :=
  [("ssrc", ShInt64); ("maxBitrate", ShInt32); ("rtx", ShObject NewConsumerRequest_RTX_members);
   ("scalabilityMode", ShString)].
#[export] Instance NewConsumerRequest_Encoding_declared :
  Declared NewConsumerRequest_Encoding NewConsumerRequest_Encoding_members.
Proof. solve_declared. Qed.

Definition NewConsumerRequest_Rtcp_members : list (string * shape) :=
  [("cname", ShString); ("mux", ShBool); ("reducedSize", ShBool)].
#[export] Instance NewConsumerRequest_Rtcp_declared :
  Declared NewConsumerRequest_Rtcp NewConsumerRequest_Rtcp_members.
Proof. solve_declared. Qed.

Definition NewConsumerRequest_RTPParameters_members : list (string * shape) :=
  [("encodings", ShArray (ShObject NewConsumerRequest_Encoding_members));
   ("codecs", ShArray (ShObject NewConsumerRequest_Codec_members));
   ("headerExtensions", ShArray (ShObject NewConsumerRequest_HeaderExtension_members)); ("mid", ShString);
   ("rtcp", ShObject NewConsumerRequest_Rtcp_members)].
#[export] Instance NewConsumerRequest_RTPParameters_declared :
  Declared NewConsumerRequest_RTPParameters NewConsumerRequest_RTPParameters_members.
Proof. solve_declared. Qed.

Definition NewConsumerRequest_Data_members : list (string * shape) :=
  [("id", ShString); ("peerId", ShString); ("kind", ShString); ("type", ShString); ("producerId", ShString);
   ("producerPaused", ShBool); ("rtpParameters", ShObject NewConsumerRequest_RTPParameters_members);
   ("appData", ShObject NewConsumerRequest_AppData_members)].
#[export] Instance NewConsumerRequest_Data_declared :
  Declared NewConsumerRequest_Data NewConsumerRequest_Data_members.
Proof. solve_declared. Qed.

Definition NewConsumerRequest_members : list (string * shape) :=
  [("request", ShBool); ("id", ShInt64); ("method", ShString);
   ("data", ShObject NewConsumerRequest_Data_members)].
#[export] Instance NewConsumerRequest_declared : Declared NewConsumerRequest NewConsumerRequest_members.
Proof. solve_declared. Qed.

Definition ConnectWebRtcTransportRequest_Fingerprint_members : list (string * shape) :=
  [("algorithm", ShString); ("value", ShString)].
#[export] Instance ConnectWebRtcTransportRequest_Fingerprint_declared :
  Declared ConnectWebRtcTransportRequest_Fingerprint ConnectWebRtcTransportRequest_Fingerprint_members.
Proof. solve_declared. Qed.

Definition ConnectWebRtcTransportRequest_DTLSParameters_members : list (string * shape) :=
  [("fingerprints", ShArray (ShObject ConnectWebRtcTransportRequest_Fingerprint_members)); ("role", ShString)].
#[export] Instance ConnectWebRtcTransportRequest_DTLSParameters_declared :
  Declared ConnectWebRtcTransportRequest_DTLSParameters ConnectWebRtcTransportRequest_DTLSParameters_members.
Proof. solve_declared. Qed.

Definition ConnectWebRtcTransportRequest_Data_members : list (string * shape) :=
  [("transportId", ShString);
   ("dtlsParameters", ShObject ConnectWebRtcTransportRequest_DTLSParameters_members)].
#[export] Instance ConnectWebRtcTransportRequest_Data_declared :
  Declared ConnectWebRtcTransportRequest_Data ConnectWebRtcTransportRequest_Data_members.
Proof. solve_declared. Qed.

Definition ConnectWebRtcTransportRequest_members : list (string * shape) :=
  [("request", ShBool); ("id", ShInt64); ("method", ShString);
   ("data", ShObject ConnectWebRtcTransportRequest_Data_members)].
#[export] Instance ConnectWebRtcTransportRequest_declared :
  Declared ConnectWebRtcTransportRequest ConnectWebRtcTransportRequest_members.
Proof. solve_declared. Qed.

Definition ProduceRequest_SharingData_members : list (string * shape) :=
  [("trackName", ShString)].
#[export] Instance ProduceRequest_SharingData_declared :
  Declared ProduceRequest_SharingData ProduceRequest_SharingData_members.
Proof. solve_declared. Qed.

Definition ProduceRequest_AppData_members : list (string * shape) :=
  [("peerId", ShString); ("sharing", ShObject ProduceRequest_SharingData_members)].
#[export] Instance ProduceRequest_AppData_declared : Declared ProduceRequest_AppData ProduceRequest_AppData_members.
Proof. solve_declared. Qed.

Definition ProduceRequest_RTCPFeedback_members : list (string * shape) :=
  [("type", ShString); ("parameter", ShString)].
#[export] Instance ProduceRequest_RTCPFeedback_declared :
  Declared ProduceRequest_RTCPFeedback ProduceRequest_RTCPFeedback_members.
Proof. solve_declared. Qed.

Definition ProduceRequest_Parameters_members : list (string * shape) :=
  [("apt", ShInt32); ("sprop-stereo", ShInt32); ("usedtx", ShInt32); ("minptime", ShInt32);
   ("useinbandfec", ShInt32); ("level-asymmetry-allowed", ShInt32); ("packetization-mode", ShInt32);
   ("profile-level-id", ShString); ("x-google-start-bitrate", ShInt32); ("profile-id", ShInt32)].
#[export] Instance ProduceRequest_Parameters_declared :
  Declared ProduceRequest_Parameters ProduceRequest_Parameters_members.
Proof. solve_declared. Qed.

Definition ProduceRequest_Codec_members : list (string * shape) :=
  [("mimeType", ShString); ("clockRate", ShInt32); ("channels", ShInt32);
   ("rtcpFeedback", ShArray (ShObject ProduceRequest_RTCPFeedback_members));
   ("parameters", ShObject ProduceRequest_Parameters_members); ("payloadType", ShInt32)].
#[export] Instance ProduceRequest_Codec_declared : Declared ProduceRequest_Codec ProduceRequest_Codec_members.
Proof. solve_declared. Qed.

Definition ProduceRequest_HeaderExtension_members : list (string * shape) :=
  [("id", ShInt32); ("uri", ShString); ("encrypt", ShBool)].
#[export] Instance ProduceRequest_HeaderExtension_declared :
  Declared ProduceRequest_HeaderExtension ProduceRequest_HeaderExtension_members.
Proof. solve_declared. Qed.

Definition ProduceRequest_Encoding_members : list (string * shape) :=
  [("ssrc", ShInt64); ("active", ShBool); ("dtx", ShBool); ("maxBitrate", ShInt32); ("rid", ShString);
   ("scalabilityMode", ShString); ("scaleResolutionDownBy", ShDouble)].
#[export] Instance ProduceRequest_Encoding_declared :
  Declared ProduceRequest_Encoding ProduceRequest_Encoding_members.
Proof. solve_declared. Qed.

Definition ProduceRequest_Rtcp_members : list (string * shape) :=
  [("cname", ShString); ("reducedSize", ShBool)].
#[export] Instance ProduceRequest_Rtcp_declared : Declared ProduceRequest_Rtcp ProduceRequest_Rtcp_members.
Proof. solve_declared. Qed.

Definition ProduceRequest_RTPParameters_members : list (string * shape) :=
  [("encodings", ShArray (ShObject ProduceRequest_Encoding_members));
   ("codecs", ShArray (ShObject ProduceRequest_Codec_members));
   ("headerExtensions", ShArray (ShObject ProduceRequest_HeaderExtension_members)); ("mid", ShString);
   ("rtcp", ShObject ProduceRequest_Rtcp_members)].
#[export] Instance ProduceRequest_RTPParameters_declared :
  Declared ProduceRequest_RTPParameters ProduceRequest_RTPParameters_members.
Proof. solve_declared. Qed.

Definition ProduceRequest_Data_members : list (string * shape) :=
  [("transportId", ShString); ("kind", ShString);
   ("rtpParameters", ShObject ProduceRequest_RTPParameters_members);
   ("appData", ShObject ProduceRequest_AppData_members)].
#[export] Instance ProduceRequest_Data_declared : Declared ProduceRequest_Data ProduceRequest_Data_members.
Proof. solve_declared. Qed.

Definition ProduceRequest_members : list (string * shape) :=
  [("request", ShBool); ("id", ShInt64); ("method", ShString); ("data", ShObject ProduceRequest_Data_members)].
#[export] Instance ProduceRequest_declared : Declared ProduceRequest ProduceRequest_members.
Proof. solve_declared. Qed.

Definition ProduceResponse_Data_members : list (string * shape) :=
  [("id", ShString)].
#[export] Instance ProduceResponse_Data_declared : Declared ProduceResponse_Data ProduceResponse_Data_members.
Proof. solve_declared. Qed.

Definition ProduceResponse_members : list (string * shape) :=
  [("response", ShBool); ("id", ShInt64); ("ok", ShBool); ("data", ShObject ProduceResponse_Data_members)].
#[export] Instance ProduceResponse_declared : Declared ProduceResponse ProduceResponse_members.
Proof. solve_declared. Qed.

Definition ProduceDataRequest_AppData_members : list (string * shape) :=
  [("info", ShString)].
#[export] Instance ProduceDataRequest_AppData_declared :
  Declared ProduceDataRequest_AppData ProduceDataRequest_AppData_members.
Proof. solve_declared. Qed.

Definition ProduceDataRequest_SCTPStreamParameters_members : list (string * shape) :=
  [("streamId", ShInt32); ("maxRetransmits", ShInt32); ("ordered", ShBool)].
#[export] Instance ProduceDataRequest_SCTPStreamParameters_declared :
  Declared ProduceDataRequest_SCTPStreamParameters ProduceDataRequest_SCTPStreamParameters_members.
Proof. solve_declared. Qed.

Definition ProduceDataRequest_Data_members : list (string * shape) :=
  [("transportId", ShString); ("label", ShString); ("protocol", ShString);
   ("sctpStreamParameters", ShObject ProduceDataRequest_SCTPStreamParameters_members);
   ("appData", ShObject ProduceDataRequest_AppData_members)].
#[export] Instance ProduceDataRequest_Data_declared :
  Declared ProduceDataRequest_Data ProduceDataRequest_Data_members.
Proof. solve_declared. Qed.

Definition ProduceDataRequest_members : list (string * shape) :=
  [("request", ShBool); ("id", ShInt64); ("method", ShString);
   ("data", ShObject ProduceDataRequest_Data_members)].
#[export] Instance ProduceDataRequest_declared : Declared ProduceDataRequest ProduceDataRequest_members.
Proof. solve_declared. Qed.

Definition ProduceDataResponse_Data_members : list (string * shape) :=
  [("id", ShString)].
#[export] Instance ProduceDataResponse_Data_declared :
  Declared ProduceDataResponse_Data ProduceDataResponse_Data_members.
Proof. solve_declared. Qed.

Definition ProduceDataResponse_members : list (string * shape) :=
  [("response", ShBool); ("id", ShInt64); ("ok", ShBool); ("data", ShObject ProduceDataResponse_Data_members)].
#[export] Instance ProduceDataResponse_declared : Declared ProduceDataResponse ProduceDataResponse_members.
Proof. solve_declared. Qed.

Definition ProducerRequest_Data_members : list (string * shape) :=
  [("producerId", ShString)].
#[export] Instance ProducerRequest_Data_declared : Declared ProducerRequest_Data ProducerRequest_Data_members.
Proof. solve_declared. Qed.

Definition ProducerRequest_members : list (string * shape) :=
  [("request", ShBool); ("id", ShInt64); ("method", ShString); ("data", ShObject ProducerRequest_Data_members)].
#[export] Instance ProducerRequest_declared : Declared ProducerRequest ProducerRequest_members.
Proof. solve_declared. Qed.

Definition ConsumerRequest_Data_members : list (string * shape) :=
  [("consumerId", ShString)].
#[export] Instance ConsumerRequest_Data_declared : Declared ConsumerRequest_Data ConsumerRequest_Data_members.
Proof. solve_declared. Qed.

Definition ConsumerRequest_members : list (string * shape) :=
  [("request", ShBool); ("id", ShInt64); ("method", ShString); ("data", ShObject ConsumerRequest_Data_members)].
#[export] Instance ConsumerRequest_declared : Declared ConsumerRequest ConsumerRequest_members.
Proof. solve_declared. Qed.

Definition ChangeDisplayNameRequest_Data_members : list (string * shape) :=
  [("displayName", ShString)].
#[export] Instance ChangeDisplayNameRequest_Data_declared :
  Declared ChangeDisplayNameRequest_Data ChangeDisplayNameRequest_Data_members.
Proof. solve_declared. Qed.

Definition ChangeDisplayNameRequest_members : list (string * shape) :=
  [("request", ShBool); ("id", ShInt64); ("method", ShString);
   ("data", ShObject ChangeDisplayNameRequest_Data_members)].
#[export] Instance ChangeDisplayNameRequest_declared :
  Declared ChangeDisplayNameRequest ChangeDisplayNameRequest_members.
Proof. solve_declared. Qed.

Definition RestartICERequest_Data_members : list (string * shape) :=
  [("transportId", ShString)].
#[export] Instance RestartICERequest_Data_declared : Declared RestartICERequest_Data RestartICERequest_Data_members.
Proof. solve_declared. Qed.

Definition RestartICERequest_members : list (string * shape) :=
  [("request", ShBool); ("id", ShInt64); ("method", ShString);
   ("data", ShObject RestartICERequest_Data_members)].
#[export] Instance RestartICERequest_declared : Declared RestartICERequest RestartICERequest_members.
Proof. solve_declared. Qed.

Definition RestartICEResponse_Data_members : list (string * shape) :=
  [("iceLite", ShBool); ("password", ShString); ("usernameFragment", ShString)].
#[export] Instance RestartICEResponse_Data_declared :
  Declared RestartICEResponse_Data RestartICEResponse_Data_members.
Proof. solve_declared. Qed.

Definition RestartICEResponse_members : list (string * shape) :=
  [("response", ShBool); ("id", ShInt64); ("ok", ShBool); ("data", ShObject RestartICEResponse_Data_members)].
#[export] Instance RestartICEResponse_declared : Declared RestartICEResponse RestartICEResponse_members.
Proof. solve_declared. Qed.

Definition SetConsumerPriorityRequest_Data_members : list (string * shape) :=
  [("consumerId", ShString); ("priority", ShInt32)].
#[export] Instance SetConsumerPriorityRequest_Data_declared :
  Declared SetConsumerPriorityRequest_Data SetConsumerPriorityRequest_Data_members.
Proof. solve_declared. Qed.

Definition SetConsumerPriorityRequest_members : list (string * shape) :=
  [("request", ShBool); ("id", ShInt64); ("method", ShString);
   ("data", ShObject SetConsumerPriorityRequest_Data_members)].
#[export] Instance SetConsumerPriorityRequest_declared :
  Declared SetConsumerPriorityRequest SetConsumerPriorityRequest_members.
Proof. solve_declared. Qed.

Definition SetConsumerPreferredLayersRequest_Data_members : list (string * shape) :=
  [("consumerId", ShString); ("spatialLayer", ShInt32); ("temporalLayer", ShInt32)].
#[export] Instance SetConsumerPreferredLayersRequest_Data_declared :
  Declared SetConsumerPreferredLayersRequest_Data SetConsumerPreferredLayersRequest_Data_members.
Proof. solve_declared. Qed.

Definition SetConsumerPreferredLayersRequest_members : list (string * shape) :=
  [("request", ShBool); ("id", ShInt64); ("method", ShString);
   ("data", ShObject SetConsumerPreferredLayersRequest_Data_members)].
#[export] Instance SetConsumerPreferredLayersRequest_declared :
  Declared SetConsumerPreferredLayersRequest SetConsumerPreferredLayersRequest_members.
Proof. solve_declared. Qed.

Definition GetTransportStatsRequest_Data_members : list (string * shape) :=
  [("transportId", ShString)].
#[export] Instance GetTransportStatsRequest_Data_declared :
  Declared GetTransportStatsRequest_Data GetTransportStatsRequest_Data_members.
Proof. solve_declared. Qed.

Definition GetTransportStatsRequest_members : list (string * shape) :=
  [("request", ShBool); ("id", ShInt64); ("method", ShString);
   ("data", ShObject GetTransportStatsRequest_Data_members)].
#[export] Instance GetTransportStatsRequest_declared :
  Declared GetTransportStatsRequest GetTransportStatsRequest_members.
Proof. solve_declared. Qed.

Definition GetTransportStatsResponse_ICESelectedTuple_members : list (string * shape) :=
  [("localIp", ShString); ("localPort", ShInt32); ("remoteIp", ShString); ("remotePort", ShInt32);
   ("protocol", ShString)].
#[export] Instance GetTransportStatsResponse_ICESelectedTuple_declared :
  Declared GetTransportStatsResponse_ICESelectedTuple GetTransportStatsResponse_ICESelectedTuple_members.
Proof. solve_declared. Qed.

Definition GetTransportStatsResponse_Data_members : list (string * shape) :=
  [("transportId", ShString); ("type", ShString); ("availableOutgoingBitrate", ShInt64);
   ("bytesReceived", ShInt64); ("bytesSent", ShInt64); ("dtlsState", ShString); ("iceRole", ShString);
   ("iceSelectedTuple", ShObject GetTransportStatsResponse_ICESelectedTuple_members); ("iceState", ShString);
   ("maxIncomingBitrate", ShInt64); ("probationBytesSent", ShInt64); ("probationSendBitrate", ShInt64);
   ("recvBitrate", ShInt64); ("rtpBytesReceived", ShInt64); ("rtpBytesSent", ShInt64);
   ("rtpPacketLossReceived", ShInt64); ("rtpSendBitrate", ShInt64); ("rtxBytesReceived", ShInt64);
   ("rtxBytesSent", ShInt64); ("rtxRecvBitrate", ShInt64); ("rtxSendBitrate", ShInt64);
   ("sctpState", ShString); ("sendBitrate", ShInt64); ("timestamp", ShInt64)].
#[export] Instance GetTransportStatsResponse_Data_declared :
  Declared GetTransportStatsResponse_Data GetTransportStatsResponse_Data_members.
Proof. solve_declared. Qed.

Definition GetTransportStatsResponse_members : list (string * shape) :=
  [("response", ShBool); ("id", ShInt64); ("ok", ShBool);
   ("data", ShArray (ShObject GetTransportStatsResponse_Data_members))].
#[export] Instance GetTransportStatsResponse_declared :
  Declared GetTransportStatsResponse GetTransportStatsResponse_members.
Proof. solve_declared. Qed.

Definition GetProducerStatsRequest_Data_members : list (string * shape) :=
  [("producerId", ShString)].
#[export] Instance GetProducerStatsRequest_Data_declared :
  Declared GetProducerStatsRequest_Data GetProducerStatsRequest_Data_members.
Proof. solve_declared. Qed.

Definition GetProducerStatsRequest_members : list (string * shape) :=
  [("request", ShBool); ("id", ShInt64); ("method", ShString);
   ("data", ShObject GetProducerStatsRequest_Data_members)].
#[export] Instance GetProducerStatsRequest_declared :
  Declared GetProducerStatsRequest GetProducerStatsRequest_members.
Proof. solve_declared. Qed.

Definition GetProducerStatsResponse_BitrateByLayer_members : list (string * shape) :=
  [("0.0", ShInt32); ("0.1", ShInt32); ("0.2", ShInt32)].
#[export] Instance GetProducerStatsResponse_BitrateByLayer_declared :
  Declared GetProducerStatsResponse_BitrateByLayer GetProducerStatsResponse_BitrateByLayer_members.
Proof. solve_declared. Qed.

Definition GetProducerStatsResponse_Data_members : list (string * shape) :=
  [("type", ShString); ("kind", ShString); ("mimeType", ShString); ("rid", ShString); ("bitrate", ShInt64);
   ("byteCount", ShInt64); ("firCount", ShInt64); ("fractionLost", ShInt64); ("jitter", ShInt64);
   ("nackCount", ShInt64); ("nackPacketCount", ShInt64); ("packetCount", ShInt64);
   ("packetsDiscarded", ShInt64); ("packetsLost", ShInt64); ("packetsRepaired", ShInt64);
   ("packetsRetransmitted", ShInt64); ("pliCount", ShInt64); ("roundTripTime", ShDouble);
   ("rtxPacketsDiscarded", ShInt64); ("rtxSsrc", ShInt64); ("score", ShInt64); ("ssrc", ShInt64);
   ("timestamp", ShInt64); ("bitrateByLayer", ShObject GetProducerStatsResponse_BitrateByLayer_members)].
#[export] Instance GetProducerStatsResponse_Data_declared :
  Declared GetProducerStatsResponse_Data GetProducerStatsResponse_Data_members.
Proof. solve_declared. Qed.

Definition GetProducerStatsResponse_members : list (string * shape) :=
  [("response", ShBool); ("id", ShInt64); ("ok", ShBool);
   ("data", ShArray (ShObject GetProducerStatsResponse_Data_members))].
#[export] Instance GetProducerStatsResponse_declared :
  Declared GetProducerStatsResponse GetProducerStatsResponse_members.
Proof. solve_declared. Qed.

Definition GetDataProducerStatsRequest_Data_members : list (string * shape) :=
  [("dataProducerId", ShString)].
#[export] Instance GetDataProducerStatsRequest_Data_declared :
  Declared GetDataProducerStatsRequest_Data GetDataProducerStatsRequest_Data_members.
Proof. solve_declared. Qed.

Definition GetDataProducerStatsRequest_members : list (string * shape) :=
  [("request", ShBool); ("id", ShInt64); ("method", ShString);
   ("data", ShObject GetDataProducerStatsRequest_Data_members)].
#[export] Instance GetDataProducerStatsRequest_declared :
  Declared GetDataProducerStatsRequest GetDataProducerStatsRequest_members.
Proof. solve_declared. Qed.

Definition GetDataProducerStatsResponse_Data_members : list (string * shape) :=
  [("type", ShString); ("label", ShString); ("protocol", ShString); ("bytesReceived", ShInt64);
   ("messagesReceived", ShInt64); ("timestamp", ShInt64)].
#[export] Instance GetDataProducerStatsResponse_Data_declared :
  Declared GetDataProducerStatsResponse_Data GetDataProducerStatsResponse_Data_members.
Proof. solve_declared. Qed.

Definition GetDataProducerStatsResponse_members : list (string * shape) :=
  [("response", ShBool); ("id", ShInt64); ("ok", ShBool);
   ("data", ShArray (ShObject GetDataProducerStatsResponse_Data_members))].
#[export] Instance GetDataProducerStatsResponse_declared :
  Declared GetDataProducerStatsResponse GetDataProducerStatsResponse_members.
Proof. solve_declared. Qed.

Definition GetConsumerStatsRequest_Data_members : list (string * shape) :=
  [("consumerId", ShString)].
#[export] Instance GetConsumerStatsRequest_Data_declared :
  Declared GetConsumerStatsRequest_Data GetConsumerStatsRequest_Data_members.
Proof. solve_declared. Qed.

Definition GetConsumerStatsRequest_members : list (string * shape) :=
  [("request", ShBool); ("id", ShInt64); ("method", ShString);
   ("data", ShObject GetConsumerStatsRequest_Data_members)].
#[export] Instance GetConsumerStatsRequest_declared :
  Declared GetConsumerStatsRequest GetConsumerStatsRequest_members.
Proof. solve_declared. Qed.

Definition GetConsumerStatsResponse_BitrateByLayer_members : list (string * shape) :=
  [("0.0", ShInt32); ("0.1", ShInt32); ("0.2", ShInt32)].
#[export] Instance GetConsumerStatsResponse_BitrateByLayer_declared :
  Declared GetConsumerStatsResponse_BitrateByLayer GetConsumerStatsResponse_BitrateByLayer_members.
Proof. solve_declared. Qed.

Definition GetConsumerStatsResponse_Data_members : list (string * shape) :=
  [("type", ShString); ("kind", ShString); ("mimeType", ShString); ("rid", ShString); ("bitrate", ShInt64);
   ("byteCount", ShInt64); ("firCount", ShInt64); ("fractionLost", ShInt64); ("jitter", ShInt64);
   ("nackCount", ShInt64); ("nackPacketCount", ShInt64); ("packetCount", ShInt64);
   ("packetsDiscarded", ShInt64); ("packetsLost", ShInt64); ("packetsRepaired", ShInt64);
   ("packetsRetransmitted", ShInt64); ("pliCount", ShInt64); ("rtxPacketsDiscarded", ShInt64);
   ("rtxSsrc", ShInt64); ("roundTripTime", ShDouble); ("score", ShInt64); ("ssrc", ShInt64);
   ("timestamp", ShInt64); ("bitrateByLayer", ShObject GetConsumerStatsResponse_BitrateByLayer_members)].
#[export] Instance GetConsumerStatsResponse_Data_declared :
  Declared GetConsumerStatsResponse_Data GetConsumerStatsResponse_Data_members.
Proof. solve_declared. Qed.

Definition GetConsumerStatsResponse_members : list (string * shape) :=
  [("response", ShBool); ("id", ShInt64); ("ok", ShBool);
   ("data", ShArray (ShObject GetConsumerStatsResponse_Data_members))].
#[export] Instance GetConsumerStatsResponse_declared :
  Declared GetConsumerStatsResponse GetConsumerStatsResponse_members.
Proof. solve_declared. Qed.

Definition GetDataConsumerStatsRequest_Data_members : list (string * shape) :=
  [("dataConsumerId", ShString)].
#[export] Instance GetDataConsumerStatsRequest_Data_declared :
  Declared GetDataConsumerStatsRequest_Data GetDataConsumerStatsRequest_Data_members.
Proof. solve_declared. Qed.

Definition GetDataConsumerStatsRequest_members : list (string * shape) :=
  [("request", ShBool); ("id", ShInt64); ("method", ShString);
   ("data", ShObject GetDataConsumerStatsRequest_Data_members)].
#[export] Instance GetDataConsumerStatsRequest_declared :
  Declared GetDataConsumerStatsRequest GetDataConsumerStatsRequest_members.
Proof. solve_declared. Qed.

Definition GetDataConsumerStatsResponse_Data_members : list (string * shape) :=
  [("type", ShString); ("label", ShString); ("protocol", ShString); ("bufferedAmount", ShInt64);
   ("bytesSent", ShInt64); ("messagesSent", ShInt64); ("timestamp", ShInt64)].
#[export] Instance GetDataConsumerStatsResponse_Data_declared :
  Declared GetDataConsumerStatsResponse_Data GetDataConsumerStatsResponse_Data_members.
Proof. solve_declared. Qed.

Definition GetDataConsumerStatsResponse_members : list (string * shape) :=
  [("response", ShBool); ("id", ShInt64); ("ok", ShBool);
   ("data", ShArray (ShObject GetDataConsumerStatsResponse_Data_members))].
#[export] Instance GetDataConsumerStatsResponse_declared :
  Declared GetDataConsumerStatsResponse GetDataConsumerStatsResponse_members.
Proof. solve_declared. Qed.

Definition ApplyNetworkThrottleRequest_Data_members : list (string * shape) :=
  [("secret", ShString); ("uplink", ShInt64); ("downlink", ShInt64); ("rtt", ShInt64)].
#[export] Instance ApplyNetworkThrottleRequest_Data_declared :
  Declared ApplyNetworkThrottleRequest_Data ApplyNetworkThrottleRequest_Data_members.
Proof. solve_declared. Qed.

Definition ApplyNetworkThrottleRequest_members : list (string * shape) :=
  [("request", ShBool); ("id", ShInt64); ("method", ShString);
   ("data", ShObject ApplyNetworkThrottleRequest_Data_members)].
#[export] Instance ApplyNetworkThrottleRequest_declared :
  Declared ApplyNetworkThrottleRequest ApplyNetworkThrottleRequest_members.
Proof. solve_declared. Qed.

Definition ResetNetworkThrottleRequest_Data_members : list (string * shape) :=
  [("secret", ShString)].
#[export] Instance ResetNetworkThrottleRequest_Data_declared :
  Declared ResetNetworkThrottleRequest_Data ResetNetworkThrottleRequest_Data_members.
Proof. solve_declared. Qed.

Definition ResetNetworkThrottleRequest_members : list (string * shape) :=
  [("request", ShBool); ("id", ShInt64); ("method", ShString);
   ("data", ShObject ResetNetworkThrottleRequest_Data_members)].
#[export] Instance ResetNetworkThrottleRequest_declared :
  Declared ResetNetworkThrottleRequest ResetNetworkThrottleRequest_members.
Proof. solve_declared. Qed.

Definition DownlinkBweNotification_Data_members : list (string * shape) :=
  [("availableBitrate", ShInt64); ("desiredBitrate", ShInt64); ("effectiveDesiredBitrate", ShInt64)].
#[export] Instance DownlinkBweNotification_Data_declared :
  Declared DownlinkBweNotification_Data DownlinkBweNotification_Data_members.
Proof. solve_declared. Qed.

Definition DownlinkBweNotification_members : list (string * shape) :=
  [("notification", ShBool); ("method", ShString); ("data", ShObject DownlinkBweNotification_Data_members)].
#[export] Instance DownlinkBweNotification_declared :
  Declared DownlinkBweNotification DownlinkBweNotification_members.
Proof. solve_declared. Qed.

Definition ConsumerScoreNotification_Score_members : list (string * shape) :=
  [("producerScore", ShInt32); ("producerScores", ShArray ShInt32); ("score", ShInt32)].
#[export] Instance ConsumerScoreNotification_Score_declared :
  Declared ConsumerScoreNotification_Score ConsumerScoreNotification_Score_members.
Proof. solve_declared. Qed.

Definition ConsumerScoreNotification_Data_members : list (string * shape) :=
  [("consumerId", ShString); ("score", ShObject ConsumerScoreNotification_Score_members)].
#[export] Instance ConsumerScoreNotification_Data_declared :
  Declared ConsumerScoreNotification_Data ConsumerScoreNotification_Data_members.
Proof. solve_declared. Qed.

Definition ConsumerScoreNotification_members : list (string * shape) :=
  [("notification", ShBool); ("method", ShString); ("data", ShObject ConsumerScoreNotification_Data_members)].
#[export] Instance ConsumerScoreNotification_declared :
  Declared ConsumerScoreNotification ConsumerScoreNotification_members.
Proof. solve_declared. Qed.

Definition ProducerScoreNotification_Score_members : list (string * shape) :=
  [("rid", ShString); ("encodingIdx", ShInt32); ("score", ShInt32); ("ssrc", ShInt64)].
#[export] Instance ProducerScoreNotification_Score_declared :
  Declared ProducerScoreNotification_Score ProducerScoreNotification_Score_members.
Proof. solve_declared. Qed.

Definition ProducerScoreNotification_Data_members : list (string * shape) :=
  [("producerId", ShString); ("score", ShArray (ShObject ProducerScoreNotification_Score_members))].
#[export] Instance ProducerScoreNotification_Data_declared :
  Declared ProducerScoreNotification_Data ProducerScoreNotification_Data_members.
Proof. solve_declared. Qed.

Definition ProducerScoreNotification_members : list (string * shape) :=
  [("notification", ShBool); ("method", ShString); ("data", ShObject ProducerScoreNotification_Data_members)].
#[export] Instance ProducerScoreNotification_declared :
  Declared ProducerScoreNotification ProducerScoreNotification_members.
Proof. solve_declared. Qed.

Definition ConsumerLayersChangedNotification_Data_members : list (string * shape) :=
  [("consumerId", ShString); ("spatialLayer", ShInt32); ("temporalLayer", ShInt32)].
#[export] Instance ConsumerLayersChangedNotification_Data_declared :
  Declared ConsumerLayersChangedNotification_Data ConsumerLayersChangedNotification_Data_members.
Proof. solve_declared. Qed.

Definition ConsumerLayersChangedNotification_members : list (string * shape) :=
  [("notification", ShBool); ("method", ShString);
   ("data", ShObject ConsumerLayersChangedNotification_Data_members)].
#[export] Instance ConsumerLayersChangedNotification_declared :
  Declared ConsumerLayersChangedNotification ConsumerLayersChangedNotification_members.
Proof. solve_declared. Qed.

Definition ActiveSpeakerNotification_Data_members : list (string * shape) :=
  [("peerId", ShString); ("volume", ShInt32)].
#[export] Instance ActiveSpeakerNotification_Data_declared :
  Declared ActiveSpeakerNotification_Data ActiveSpeakerNotification_Data_members.
Proof. solve_declared. Qed.

Definition ActiveSpeakerNotification_members : list (string * shape) :=
  [("notification", ShBool); ("method", ShString); ("data", ShObject ActiveSpeakerNotification_Data_members)].
#[export] Instance ActiveSpeakerNotification_declared :
  Declared ActiveSpeakerNotification ActiveSpeakerNotification_members.
Proof. solve_declared. Qed.

Definition ConsumerPausedNotification_Data_members : list (string * shape) :=
  [("consumerId", ShString)].
#[export] Instance ConsumerPausedNotification_Data_declared :
  Declared ConsumerPausedNotification_Data ConsumerPausedNotification_Data_members.
Proof. solve_declared. Qed.

Definition ConsumerPausedNotification_members : list (string * shape) :=
  [("notification", ShBool); ("method", ShString); ("data", ShObject ConsumerPausedNotification_Data_members)].
#[export] Instance ConsumerPausedNotification_declared :
  Declared ConsumerPausedNotification ConsumerPausedNotification_members.
Proof. solve_declared. Qed.

Definition ConsumerResumedNotification_Data_members : list (string * shape) :=
  [("consumerId", ShString)].
#[export] Instance ConsumerResumedNotification_Data_declared :
  Declared ConsumerResumedNotification_Data ConsumerResumedNotification_Data_members.
Proof. solve_declared. Qed.

Definition ConsumerResumedNotification_members : list (string * shape) :=
  [("notification", ShBool); ("method", ShString); ("data", ShObject ConsumerResumedNotification_Data_members)].
#[export] Instance ConsumerResumedNotification_declared :
  Declared ConsumerResumedNotification ConsumerResumedNotification_members.
Proof. solve_declared. Qed.

Definition ConsumerClosedNotification_Data_members : list (string * shape) :=
  [("consumerId", ShString)].
#[export] Instance ConsumerClosedNotification_Data_declared :
  Declared ConsumerClosedNotification_Data ConsumerClosedNotification_Data_members.
Proof. solve_declared. Qed.

Definition ConsumerClosedNotification_members : list (string * shape) :=
  [("notification", ShBool); ("method", ShString); ("data", ShObject ConsumerClosedNotification_Data_members)].
#[export] Instance ConsumerClosedNotification_declared :
  Declared ConsumerClosedNotification ConsumerClosedNotification_members.
Proof. solve_declared. Qed.

Definition DataConsumerClosedNotification_Data_members : list (string * shape) :=
  [("dataConsumerId", ShString)].
#[export] Instance DataConsumerClosedNotification_Data_declared :
  Declared DataConsumerClosedNotification_Data DataConsumerClosedNotification_Data_members.
Proof. solve_declared. Qed.

Definition DataConsumerClosedNotification_members : list (string * shape) :=
  [("notification", ShBool); ("method", ShString);
   ("data", ShObject DataConsumerClosedNotification_Data_members)].
#[export] Instance DataConsumerClosedNotification_declared :
  Declared DataConsumerClosedNotification DataConsumerClosedNotification_members.
Proof. solve_declared. Qed.

Definition PeerDisplayNameChangedNotification_Data_members : list (string * shape) :=
  [("peerId", ShString); ("oldDisplayName", ShString); ("displayName", ShString)].
#[export] Instance PeerDisplayNameChangedNotification_Data_declared :
  Declared PeerDisplayNameChangedNotification_Data PeerDisplayNameChangedNotification_Data_members.
Proof. solve_declared. Qed.

Definition PeerDisplayNameChangedNotification_members : list (string * shape) :=
  [("notification", ShBool); ("method", ShString);
   ("data", ShObject PeerDisplayNameChangedNotification_Data_members)].
#[export] Instance PeerDisplayNameChangedNotification_declared :
  Declared PeerDisplayNameChangedNotification PeerDisplayNameChangedNotification_members.
Proof. solve_declared. Qed.

Definition NewPeerNotification_Device_members : list (string * shape) :=
  [("flag", ShString); ("name", ShString); ("version", ShString)].
#[export] Instance NewPeerNotification_Device_declared :
  Declared NewPeerNotification_Device NewPeerNotification_Device_members.
Proof. solve_declared. Qed.

Definition NewPeerNotification_Data_members : list (string * shape) :=
  [("id", ShString); ("displayName", ShString); ("device", ShObject NewPeerNotification_Device_members)].
#[export] Instance NewPeerNotification_Data_declared :
  Declared NewPeerNotification_Data NewPeerNotification_Data_members.
Proof. solve_declared. Qed.

Definition NewPeerNotification_members : list (string * shape) :=
  [("notification", ShBool); ("method", ShString); ("data", ShObject NewPeerNotification_Data_members)].
#[export] Instance NewPeerNotification_declared : Declared NewPeerNotification NewPeerNotification_members.
Proof. solve_declared. Qed.

Definition PeerClosedNotification_Data_members : list (string * shape) :=
  [("peerId", ShString)].
#[export] Instance PeerClosedNotification_Data_declared :
  Declared PeerClosedNotification_Data PeerClosedNotification_Data_members.
Proof. solve_declared. Qed.

Definition PeerClosedNotification_members : list (string * shape) :=
  [("notification", ShBool); ("method", ShString); ("data", ShObject PeerClosedNotification_Data_members)].
#[export] Instance PeerClosedNotification_declared : Declared PeerClosedNotification PeerClosedNotification_members.
Proof. solve_declared. Qed.

(** ** What the functors take *)

Lemma in_int32_bounds z : in_int32 z = ((- 2 ^ 31 <=? z) && (z <? 2 ^ 31))%Z.
Proof. apply eq_true_iff_eq. rewrite in_int32_spec, andb_true_iff, Z.leb_le, Z.ltb_lt. unfold INT32_MIN, INT32_MAX. lia. Qed.
Lemma in_int64_bounds z : in_int64 z = ((- 2 ^ 63 <=? z) && (z <? 2 ^ 63))%Z.
Proof. apply eq_true_iff_eq. rewrite in_int64_spec, andb_true_iff, Z.leb_le, Z.ltb_lt. unfold INT64_MIN, INT64_MAX. lia. Qed.

Lemma native_read_fits T (n : native T) s :
  native_reads_as T n s ->
  forall j name, if fits s j then exists x, n_read n j name = Ok x else n_read n j name = Err (JsonTypeMismatch name).
Proof.
  induction 1 as [| | | | | |T n s Hn IH]; intros j name; destruct j as [|b|z|d|t|l|o]; simpl; try done; try by eexists.
  - rewrite <- in_int32_bounds. destruct (in_int32 z); [by eexists | done].
  - rewrite <- in_int64_bounds. destruct (in_int64 z); [by eexists | done].
  - induction l as [|j l IHl]; simpl; [by eexists|]. specialize (IH j name).
    destruct (fits s j); simpl; [|by rewrite IH]. destruct IH as [x ->]. simpl.
    destruct (forallb (fits s) l); [destruct IHl as [xs ->]; by eexists | by rewrite IHl].
Qed.

(** A missing or null member leaves the field as it was. *)
Fixpoint keeps (j : Value) (fs : list field_desc) : tuple fs -> tuple fs -> Prop :=
  match fs with
  | [] => fun _ _ => True
  | f :: fs => fun t t' =>
      (if has_member j (fd_name f) then is_Some t'.1 else t'.1 = t.1) /\ keeps j fs t.2 t'.2
  end.

Definition taken {T} (ok : bool) (r : jres T) (good : T -> Prop) : Prop :=
  if ok then exists x, r = Ok x /\ good x else exists name, r = Err (JsonTypeMismatch name).

(** What the [backward] of a functor does with a member that is there. *)
Definition member_taken {T} (ser : serializer T) (s : shape) : Prop :=
  forall doc k x v, find_member k doc = Some x ->
  taken (fits s x) (backward ser (JObject doc) k v) (fun _ => True).
(** What a [FIELDS_MAP] does with any document. *)
Definition fields_taken (fs : list field_desc) (ms : list (string * shape)) : Prop :=
  ms <> [] -> forall j t, taken (fits (ShObject ms) j) (json_deserialize fs j t) (keeps j fs t).

Lemma jdeserialize_taken {A} `{FieldsMap A} ms j (m : A) :
  ms <> [] -> fields_taken (fm_fields A) ms ->
  taken (fits (ShObject ms) j) (jdeserialize j m)
    (fun m' => exists t, m' = fm_set t m /\ keeps j (fm_fields A) (fm_get m) t).
Proof.
  intros Hms Hf. unfold jdeserialize. specialize (Hf Hms j (fm_get m)). unfold taken in *.
  destruct (fits (ShObject ms) j).
  - destruct Hf as (t & -> & Hk). eexists. split; [done|]. by exists t.
  - by destruct Hf as (name & ->); exists name.
Qed.

Lemma traverse_taken {A} `{FieldsMap A, DefaultInit A} ms l :
  ms <> [] -> fields_taken (fm_fields A) ms ->
  taken (forallb (fits (ShObject ms)) l) (traverse (fun item => jdeserialize item (default_init : A)) l) (fun _ => True).
Proof.
  intros Hms Hf. induction l as [|j l IH]; [by eexists|].
  pose proof (jdeserialize_taken ms j default_init Hms Hf) as Hj. unfold taken in *.
  cbn [forallb traverse]. destruct (fits (ShObject ms) j); simpl.
  - destruct Hj as (x & -> & _). simpl.
    destruct (forallb _ l); [destruct IH as (xs & -> & _) | destruct IH as (name & ->)]; by eexists.
  - destruct Hj as (name & ->). by eexists.
Qed.

Lemma fields_taken_cons k T (ser : serializer T) s fs ms :
  member_taken ser s -> (ms = [] -> fs = []) -> fields_taken fs ms -> fields_taken (field k ser :: fs) ((k, s) :: ms).
Proof.
  intros Hs Hnil Hfs _ j [o t]. unfold taken. cbn [fits forallb fst snd json_deserialize].
  unfold optional_backward. cbn [fd_ser fd_name fd_type].
  destruct j as [| | | | | |doc]; try (by eexists).
  cbn [IsObject negb]. unfold FindMember. cbn [members].
  assert (Htail : forall t0, taken (fits (ShObject ms) (JObject doc)) (json_deserialize fs (JObject doc) t0)
                    (keeps (JObject doc) fs t0)).
  { destruct ms as [|m ms]; [|intros; by apply Hfs]. rewrite Hnil by done. by exists tt. }
  specialize (Htail t).
  unfold taken in Htail. cbn [fits] in Htail.
  specialize (Hs doc k). unfold taken in Hs. cbn [fd_type] in *.
  cbn [keeps fst snd fd_name]. unfold has_member, FindMember. cbn [members].
  destruct (find_member k doc) as [x|] eqn:Hx.
  - destruct (IsNull x) eqn:Hnull; cbn [orb negb andb].
    + destruct (forallb _ ms).
      * destruct Htail as (t' & -> & Hk). by eexists.
      * destruct Htail as (name & ->). by eexists.
    + specialize (Hs x (initial ser) eq_refl). destruct (fits s x); cbn [andb].
      * destruct Hs as (y & -> & _). destruct (forallb _ ms).
        -- destruct Htail as (t' & -> & Hk). eexists. split; [done|]. split; [by eexists | done].
        -- destruct Htail as (name & ->). by eexists.
      * destruct Hs as (name & ->). by eexists.
  - cbn [andb]. destruct (forallb _ ms).
    + destruct Htail as (t' & -> & Hk). by eexists.
    + destruct Htail as (name & ->). by eexists.
Qed.

Lemma declares_nil fs : declares fs [] -> fs = [].
Proof. by inversion 1. Qed.

Lemma declared_taken fs ms : declares fs ms -> fields_taken fs ms.
Proof.
  revert fs ms.
  apply (declares_mut (fun T ser s _ => member_taken ser s) (fun fs ms _ => fields_taken fs ms)).
  - intros T n s Hn doc k x v Hx. cbn [backward JsonSerializerPod]. unfold FindMember. cbn [members]. rewrite Hx.
    pose proof (native_read_fits T n s Hn x k) as Hr. unfold taken. destruct (fits s x); [|by eexists].
    by destruct Hr as [y ->]; exists y.
  - intros A HA HD ms Hms Hd IH doc k x v Hx. cbn [backward JsonSerializer IsObject negb].
    unfold FindMember. cbn [members]. rewrite Hx.
    pose proof (jdeserialize_taken ms x v Hms IH) as Hj. unfold taken in *. destruct (fits _ x); [|done].
    destruct Hj as (y & -> & _). by exists y.
  - intros A HA HD ms Hms Hd IH doc k x v Hx. cbn [backward JsonSerializerVector].
    unfold FindMember. cbn [members]. rewrite Hx.
    destruct x as [| | | | |l|]; try (by eexists). by apply traverse_taken.
  - by intros [].
  - intros k T ser s fs ms Hs IHs Hd IHd. apply fields_taken_cons; [done| |done]. intros ->. by apply declares_nil.
Qed.

(** C31: which texts a message is read from.  A text that rapidjson does not parse
    is rejected as such.  A parsed document is taken exactly when it is an object
    whose listed members are each missing, null, or of the JSON kind of the
    member's declared C++ type (an integer in the type's range, an array all of
    whose items fit, an object that fits in turn); the struct is then the old one
    with listed members replaced, a missing or null member keeping the value it
    had.  Every other document is rejected with a type mismatch, and never with a
    missing key. *)
Theorem rejected_iff_mismatch {A} `{FieldsMap A} ms parse data (m : A) :
  Declared A ms ->
  match parse data with
  | None => fromJsonString parse m data = Err JsonParsingFailed
  | Some j =>
      if fits (ShObject ms) j
      then exists t, fromJsonString parse m data = Ok (fm_set t m) /\ keeps j (fm_fields A) (fm_get m) t
      else exists name, fromJsonString parse m data = Err (JsonTypeMismatch name)
  end.
Proof.
  intros [Hms Hd]. unfold fromJsonString. destruct (parse data) as [j|]; [|done].
  pose proof (jdeserialize_taken ms j m Hms (declared_taken _ _ Hd)) as Hj. unfold taken in Hj.
  destruct (fits (ShObject ms) j); [|done]. destruct Hj as (m' & -> & t & -> & Hk). by exists t.
Qed.

Definition parse_ok (text : string) : option Value :=
  if String.eqb text "good" then Some (JObject [("response", JBool true); ("id", JInt 7); ("ok", JNull)])
  else if String.eqb text "wide" then Some (JObject [("id", JInt (2 ^ 63))])
  else if String.eqb text "list" then Some (JArray [])
  else None.

Lemma rejected_iff_mismatch_witness :
  (exists t, fromJsonString parse_ok (default_init : BasicResponse) "good" = Ok (fm_set t default_init) /\
     keeps (JObject [("response", JBool true); ("id", JInt 7); ("ok", JNull)]) (fm_fields BasicResponse)
       (fm_get default_init) t) /\
  (exists name, fromJsonString parse_ok (default_init : BasicResponse) "wide" = Err (JsonTypeMismatch name)) /\
  (exists name, fromJsonString parse_ok (default_init : BasicResponse) "list" = Err (JsonTypeMismatch name)) /\
  fromJsonString parse_ok (default_init : BasicResponse) "" = Err JsonParsingFailed.
Proof.
  refine (conj _ (conj _ (conj _ _))).
  - exact (rejected_iff_mismatch BasicResponse_members parse_ok "good" default_init BasicResponse_declared).
  - exact (rejected_iff_mismatch BasicResponse_members parse_ok "wide" default_init BasicResponse_declared).
  - exact (rejected_iff_mismatch BasicResponse_members parse_ok "list" default_init BasicResponse_declared).
  - exact (rejected_iff_mismatch BasicResponse_members parse_ok "" default_init BasicResponse_declared).
Defined.
