(* ===== verification/JsonMore.v ===== *)
(** * The rest of the serialization templates

    Models what [core/json/serialization.hpp] offers besides the members the
    protocol uses: maps with string keys, enumerations, the conversions between text
    and documents, and [fromJsonString] with its check for an object; and proves that
    what is read from a document has the types of the members it is read into.

    A [std::map<std::string, T>] is the list of its entries in key order.  Its
    lookup is by comparison of bytes, as [std::string] compares. *)

From stdpp Require Import base strings list.
From Stdlib Require Import ZArith Lia Sorted.
From S2P Require Import Prelude Json FloatFacts.

#[local] Open Scope list_scope.

(** ** std::map *)

Abbreviation smap T := (list (string * T)).

Definition key_lt (a b : string) : bool := match String.compare a b with Lt => true | _ => false end.

(** [value[k] = v]. *)
Fixpoint map_assign {T} (k : string) (v : T) (m : smap T) : smap T :=
  match m with
  | [] => [(k, v)]
  | (k', v') :: m' =>
      match String.compare k k' with
      | Lt => (k, v) :: m
      | Eq => (k, v) :: m'
      | Gt => (k', v') :: map_assign k v m'
      end
  end.

(** The keys are in order and differ. *)
Fixpoint in_order {T} (m : smap T) : bool :=
  match m with
  | [] => true
  | [_] => true
  | (k, _) :: (((k', _) :: _) as m') => key_lt k k' && in_order m'
  end.

(** The members of an object read into a map, one after another. *)
Fixpoint read_members {T} (read : string -> Value -> jres T) (ms : list (string * Value)) (m : smap T) :
    jres (smap T) :=
  match ms with
  | [] => Ok m
  | (k, x) :: ms => v ← read k x; read_members read ms (map_assign k v m)
  end.

(** [JsonValueAdapter] on [std::map<std::string, Type>]. *)
Definition map_native {T} (n : native T) : native (smap T) := mkNative
  (fun j name => match j with
                 | JObject ms => read_members (fun k x => n_read n x k) ms []
                 | _ => Err (JsonTypeMismatch name)
                 end)
  (fun m => JObject ((fun e => (fst e, n_set n (snd e))) <$> m)) []
  (fun m => in_order m && forallb (fun e => n_wf n (snd e)) m).

(** [JsonSerializerMap<Key, std::map<std::string, Type>>]: a missing member reads as
    the empty map. *)
Definition JsonSerializerMap (A : Type) `{FieldsMap A, DefaultInit A} : serializer (smap A) := mkSerializer
  (fun ms name m => ms ++ [(name, JObject ((fun e => (fst e, jserialize (snd e))) <$> m))])
  (fun j name _ =>
     match FindMember j name with
     | None => Ok []
     | Some (JObject ms) => read_members (fun _ x => jdeserialize x default_init) ms []
     | Some _ => Err (JsonTypeMismatch name)
     end)
  [] (fun m => in_order m && forallb (fun e => model_wf (snd e)) m).

(** ** Enumerations

    [jlist[name] = (int64_t)value] needs the member to exist: [operator[]] asserts
    it.  [GetInt64] asserts that the member holds one. *)
Fixpoint assign_member (ms : list (string * Value)) (name : string) (v : Value) : option (list (string * Value)) :=
  match ms with
  | [] => None
  | (k, x) :: ms =>
      if String.eqb name k then Some ((k, v) :: ms)
      else match assign_member ms name v with Some ms => Some ((k, x) :: ms) | None => None end
  end.
Definition enum_forward (ms : list (string * Value)) (name : string) (value : Z) : outcome (list (string * Value)) :=
  match assign_member ms name (JInt value) with
  | Some ms => Done ms
  | None => Fault (Thrown "operator[]"%string)
  end.
Definition enum_backward (j : Value) (name : string) : outcome (jres Z) :=
  match FindMember j name with
  | None => Done (Err (JsonMissingKey name))
  | Some (JInt z) => if in_int64 z then Done (Ok z) else Fault (Thrown "GetInt64"%string)
  | Some _ => Fault (Thrown "GetInt64"%string)
  end.

(** ** Text *)

Section text.
Variable parse : string -> option Value.
Variable print : Value -> string.   (* [PrettyWriter] *)

Definition stringToJson (data : string) : jres Value :=
  match parse data with Some j => Ok j | None => Err JsonParsingFailed end.

(** [stringable<Value>] and [stringable<Document>]; [convert_back] gives what the
    parser leaves in the document, null after an error. *)
Definition value_to_string (json : Value) : string := c_str (print json).
Definition document_convert_back (s : string) : Value := match parse (c_str s) with Some j => j | None => JNull end.

Definition toJson {A} `{FieldsMap A} (value : A) : Value := jserialize value.
Definition toJsonString {A} `{FieldsMap A} (value : A) : string := value_to_string (toJson value).

(** [fromJsonString(data, bCheckValidObject)]: null for a document that is no object;
    the exceptions leave the function. *)
Definition fromJsonString_checked {A} `{FieldsMap A} (init : A) (data : string) (bCheckValidObject : bool) :
    jres (option A) :=
  json ← stringToJson data;
  if bCheckValidObject && negb (IsObject json) then Ok None
  else m ← jdeserialize json init; Ok (Some m).
End text.

(** ** Maps are read back *)

Lemma compare_lt_trans a b c : String.compare a b = Lt -> String.compare b c = Lt -> String.compare a c = Lt.
Proof.
  revert b c. induction a as [|x a IH]; intros [|y b] [|z c]; simpl; try done.
  destruct (Ascii.compare x y) eqn:Hxy; try done; destruct (Ascii.compare y z) eqn:Hyz; try done.
  - apply Ascii.compare_eq_iff in Hxy, Hyz. subst. unfold Ascii.compare. rewrite N.compare_refl. apply IH.
  - apply Ascii.compare_eq_iff in Hxy. subst. by rewrite Hyz.
  - apply Ascii.compare_eq_iff in Hyz. subst. by rewrite Hxy.
  - intros _ _. unfold Ascii.compare in *.
    rewrite (proj2 (N.compare_lt_iff (Ascii.N_of_ascii x) (Ascii.N_of_ascii z))); [done|].
    eapply N.lt_trans; by apply N.compare_lt_iff.
Qed.

Lemma in_order_cons {T} k (v : T) m :
  in_order ((k, v) :: m) = true <-> (forall e, e ∈ m -> key_lt k (fst e) = true) /\ in_order m = true.
Proof.
  revert k v. induction m as [|[k' v'] m IH]; intros k v.
  - split; [intros _; split; [|done]; intros e He; by apply not_elem_of_nil in He | done].
  - assert (in_order ((k, v) :: (k', v') :: m) = key_lt k k' && in_order ((k', v') :: m)) as -> by done.
    rewrite andb_true_iff, (IH k' v'). split.
    + intros [Hk [Hm Ho]]. split; [|done]. intros e [->|He]%elem_of_cons; [done|]. specialize (Hm e He).
      unfold key_lt in *. destruct (String.compare k k') eqn:H1; try done.
      destruct (String.compare k' (fst e)) eqn:H2; try done. by rewrite (compare_lt_trans _ _ _ H1 H2).
    + intros [Hall Ho]. split; [apply (Hall (k', v')); by left | done].
Qed.

(** A key after all others is added at the end. *)
Lemma map_assign_last {T} k (v : T) m :
  (forall e, e ∈ m -> key_lt (fst e) k = true) -> map_assign k v m = m ++ [(k, v)].
Proof.
  induction m as [|[k' v'] m IH]; intros Hall; [done|]. simpl.
  assert (Hk : key_lt k' k = true) by (apply (Hall (k', v')); by left).
  unfold key_lt in Hk. rewrite String.compare_antisym. destruct (String.compare k' k); try done. simpl.
  rewrite IH; [done|]. intros e He. apply Hall. by right.
Qed.

Lemma read_members_in_order {T} (read : string -> Value -> jres T) (enc : T -> Value) m m0 :
  (forall e, e ∈ m -> read (fst e) (enc (snd e)) = Ok (snd e)) -> in_order m = true ->
  (forall e0 e, e0 ∈ m0 -> e ∈ m -> key_lt (fst e0) (fst e) = true) ->
  read_members read ((fun e => (fst e, enc (snd e))) <$> m) m0 = Ok (m0 ++ m).
Proof.
  revert m0. induction m as [|[k v] m IH]; intros m0 Hread Hord Hlt; [by rewrite app_nil_r|].
  apply in_order_cons in Hord as [Hk Hord]. simpl.
  pose proof (Hread (k, v) (list_elem_of_here _ _)) as Hkv. simpl in Hkv. rewrite Hkv. cbn [mbind result_bind].
  rewrite map_assign_last by (intros e He; apply (Hlt e (k, v)); [done | by left]).
  rewrite IH; [by rewrite <- app_assoc | | done |].
  - intros e He. apply Hread. by right.
  - intros e0 e [He0|He0]%elem_of_app He; [apply Hlt; [done | by right]|].
    apply list_elem_of_singleton in He0 as ->. by apply Hk.
Qed.

#[export] Instance map_lawful {T} (n : native T) : lawful_native n -> lawful_native (map_native n).
Proof.
  intros [Hn Hr]. split; [done|]. simpl. intros m k [Hord Hwf]%andb_true_iff.
  apply (read_members_in_order (fun k x => n_read n x k) (n_set n) m []); [|done|].
  - intros e He. apply Hr. rewrite forallb_forall in Hwf. apply Hwf. by apply list_elem_of_In.
  - intros e0 e He0. by apply not_elem_of_nil in He0.
Qed.

#[export] Instance JsonSerializerMap_lawful {A} `{LawfulModel A} `{!DefaultInit A, !PlainModel A} :
  lawful (JsonSerializerMap A).
Proof.
  split; simpl; [done | done | |]; unfold FindMember, enc; simpl; [|by intros ms ms' k v ->].
  intros ms k m [Hord Hwf]%andb_true_iff ->.
  apply (read_members_in_order (fun _ x => jdeserialize x default_init) jserialize m []); [|done|].
  - intros e He. apply jdeserialize_plain. rewrite forallb_forall in Hwf. apply Hwf. by apply list_elem_of_In.
  - intros e0 e He0. by apply not_elem_of_nil in He0.
Qed.

(** The text functions: an object written with [toJsonString] is read back, an
    enumeration can replace a member but never add one, and with
    [bCheckValidObject] a document that is not an object gives null where without it
    the reader throws for any struct that lists a member. *)
Theorem text_functions {A} `{LawfulModel A, !DefaultInit A, !PlainModel A} parse print (m : A) j data ms name z :
  (model_wf m = true -> parse (toJsonString print m) = Some (jserialize m) ->
     fromJsonString_checked parse default_init (toJsonString print m) true = Ok (Some m)) /\
  (parse data = Some j -> IsObject j = false ->
     fromJsonString_checked parse (default_init (A := A)) data true = Ok None /\
     (forall f fs, fm_fields A = f :: fs ->
        fromJsonString_checked parse (default_init (A := A)) data false = Err (JsonTypeMismatch (fd_name f)))) /\
  ((exists ms', enum_forward ms name z = Done ms') <-> name ∈ ms.*1).
Proof.
  split; [|split].
  - intros Hwf Hp. unfold fromJsonString_checked, stringToJson. rewrite Hp. simpl. by rewrite jdeserialize_plain.
  - intros Hp Hj. unfold fromJsonString_checked, stringToJson. rewrite Hp. simpl. rewrite Hj. split; [done|].
    intros f fs Hfs. unfold jdeserialize.
    assert (Hd : forall t, json_deserialize (fm_fields A) j t = Err (JsonTypeMismatch (fd_name f))).
    { rewrite Hfs. intros t. simpl. unfold optional_backward. by rewrite Hj. }
    by rewrite Hd.
  - unfold enum_forward. induction ms as [|[k x] ms IH]; simpl.
    + split; [by intros [? ?] | by intros ?%not_elem_of_nil].
    + rewrite elem_of_cons. destruct (String.eqb name k) eqn:Hk.
      * apply String.eqb_eq in Hk. split; [by left | by eexists].
      * apply String.eqb_neq in Hk. destruct (assign_member ms name (JInt z)) as [ms'|].
        -- split; [intros _; right; apply IH; by eexists | by eexists].
        -- split; [by intros [? ?]|]. intros [?|Hin]; [done|]. apply IH in Hin as [? ?]. done.
Qed.

(** ** What is read fits

    A read value is one its C++ type can hold: an [int] in the range of [int], a
    string without a NUL, a [float] a number that rounds to itself. *)

Class typed_native {T} (n : native T) : Prop := {
  tn_init : n_wf n (n_init n) = true;
  tn_read j k v : n_read n j k = Ok v -> n_wf n v = true
}.

Class typed {T} (s : serializer T) : Prop := {
  ty_initial : s_wf s (initial s) = true;
  ty_backward j k v x : backward s j k v = Ok x -> s_wf s v = true -> s_wf s x = true
}.

Class TypedModel (A : Type) `{LawfulModel A} : Prop := {
  tm_fields : Forall (fun f => typed (fd_ser f)) (fm_fields A);
  tm_listed (t : tuple (fm_fields A)) (m : A) : fm_listed (fm_set t m) = fm_listed m
}.
Class TypedDefault (A : Type) `{FieldsMap A, DefaultInit A} : Prop :=
  tm_default : model_wf (default_init (A := A)) = true.

Lemma c_str_idemp s : c_str (c_str s) = c_str s.
Proof. induction s as [|c s IH]; simpl; [done|]. destruct (Ascii.eqb c Ascii.zero) eqn:Hc; simpl; [done|]. by rewrite Hc, IH. Qed.

Lemma traverse_fits {B C} (f : B -> jres C) (P : C -> bool) l r :
  (forall x y, f x = Ok y -> P y = true) -> traverse f l = Ok r -> forallb P r = true.
Proof.
  intros Hf. revert r. induction l as [|x l IH]; simpl; intros r; [by intros [= <-]|].
  destruct (f x) as [y|] eqn:Hx; [|done]. destruct (traverse f l) as [ys|]; [|done]. intros [= <-]. simpl.
  by rewrite (Hf _ _ Hx), IH.
Qed.

Lemma map_assign_keys {T} k (v : T) m e : e ∈ map_assign k v m -> e = (k, v) \/ e ∈ m.
Proof.
  induction m as [|[k' v'] m IH]; simpl.
  - intros ->%list_elem_of_singleton. by left.
  - destruct (String.compare k k'); rewrite !elem_of_cons; intuition.
Qed.

Lemma map_assign_in_order {T} k (v : T) m : in_order m = true -> in_order (map_assign k v m) = true.
Proof.
  induction m as [|[k' v'] m IH]; [done|]. intros Hord. pose proof Hord as [Hk Hm]%in_order_cons.
  cbn [map_assign]. destruct (String.compare k k') eqn:Hc.
  - apply String.compare_eq_iff in Hc as ->. by apply in_order_cons.
  - apply in_order_cons. split; [|done]. intros e [->|He]%elem_of_cons; unfold key_lt; cbn [fst]; [by rewrite Hc|].
    specialize (Hk e He). unfold key_lt in Hk. destruct (String.compare k' (fst e)) eqn:H2; try done.
    by rewrite (compare_lt_trans _ _ _ Hc H2).
  - apply in_order_cons. split; [|by apply IH]. intros e [->|He]%map_assign_keys; [|by apply Hk].
    unfold key_lt. cbn [fst]. rewrite String.compare_antisym, Hc. done.
Qed.

Lemma read_members_fits {T} (read : string -> Value -> jres T) (P : T -> bool) ms m r :
  (forall k x v, read k x = Ok v -> P v = true) -> read_members read ms m = Ok r ->
  in_order m && forallb (fun e => P (snd e)) m = true -> in_order r && forallb (fun e => P (snd e)) r = true.
Proof.
  intros Hread. revert m. induction ms as [|[k x] ms IH]; simpl; intros m; [by intros [= <-]|].
  destruct (read k x) as [v|] eqn:Hv; [|done]. cbn [mbind result_bind]. intros Hr [Hord Hall]%andb_true_iff.
  apply (IH _ Hr), andb_true_iff. split; [by apply map_assign_in_order|].
  rewrite forallb_forall in *. intros e He%list_elem_of_In%map_assign_keys.
  destruct He as [->|He]; [by eapply Hread | by apply Hall, list_elem_of_In].
Qed.

#[export] Instance int64_typed : typed_native int64_native.
Proof. split; [done|]. intros [] k v; simpl; try done. destruct (in_int64 z) eqn:Hz; [|done]. by intros [= <-]. Qed.
#[export] Instance int_typed : typed_native int_native.
Proof. split; [done|]. intros [] k v; simpl; try done. destruct (in_int32 z) eqn:Hz; [|done]. by intros [= <-]. Qed.
#[export] Instance double_typed : typed_native double_native.
Proof. split; done. Qed.
#[export] Instance float_typed : typed_native float_native.
Proof. split; [done|]. intros [] k v; simpl; try done. intros [= <-]. by rewrite to_float_idemp, bool_decide_eq_true_2. Qed.
#[export] Instance string_typed : typed_native string_native.
Proof. split; [done|]. intros [] k v; simpl; try done. intros [= <-]. by rewrite c_str_idemp, bool_decide_eq_true_2. Qed.
#[export] Instance bool_typed : typed_native bool_native.
Proof. split; done. Qed.
#[export] Instance vector_typed {T} (n : native T) : typed_native n -> typed_native (vector_native n).
Proof.
  intros [Hi Hr]. split; [done|]. intros [] k v; simpl; try done. apply traverse_fits. intros x y. apply Hr.
Qed.
#[export] Instance map_typed {T} (n : native T) : typed_native n -> typed_native (map_native n).
Proof.
  intros [Hi Hr]. split; [done|]. intros [] k v; simpl; try done. intros H.
  apply (read_members_fits _ _ _ _ _ (fun k x v => Hr x k v) H). done.
Qed.

#[export] Instance Pod_typed {T} (n : native T) : typed_native n -> typed (JsonSerializerPod n).
Proof. intros [Hi Hr]. split; [done|]. simpl. intros j k v x. destruct (FindMember j k); [|done]. intros Hx _. by eapply Hr. Qed.

Section typed_model.
Context {A : Type} `{TypedModel A}.

Lemma json_deserialize_fits fs j t t' :
  Forall (fun f => typed (fd_ser f)) fs -> json_deserialize fs j t = Ok t' -> tuple_wf fs t = true -> tuple_wf fs t' = true.
Proof.
  revert t t'. induction fs as [|f fs IH]; [done|]. intros [o t] [o' t'] [Hf Hfs]%Forall_cons. cbn [json_deserialize tuple_wf fst snd].
  destruct (optional_backward _ _ _ _) as [x|] eqn:Hx; [|done]. cbn [mbind result_bind].
  destruct (json_deserialize fs j t) as [r|] eqn:Hr; [|done]. intros [= <- <-] [Ho Ht]%andb_true_iff.
  apply andb_true_iff. split; [|by eapply IH]. unfold optional_backward in Hx.
  destruct (IsObject j); [|done]. cbn [negb] in Hx. destruct (FindMember j (fd_name f)) as [m|]; [|by injection Hx as <-].
  destruct (IsNull m); [by injection Hx as <-|]. destruct (backward _ _ _ _) as [y|] eqn:Hy; [|done]. injection Hx as <-.
  destruct Hf as [Hi Hb]. by eapply Hb.
Qed.

Lemma jdeserialize_fits j (m m' : A) : jdeserialize j m = Ok m' -> model_wf m = true -> model_wf m' = true.
Proof.
  unfold jdeserialize, model_wf. destruct (json_deserialize _ j (fm_get m)) as [t|] eqn:Ht; [|done].
  intros [= <-] [Hl Hw]%andb_true_iff. rewrite tm_listed, Hl, lm_get_set.
  exact (json_deserialize_fits _ _ _ _ tm_fields Ht Hw).
Qed.

Context `{!DefaultInit A, !TypedDefault A}.

#[export] Instance JsonSerializer_typed : typed (JsonSerializer A).
Proof.
  split; [exact tm_default|]. simpl. intros j k v x. destruct (IsObject j); [|done]. simpl.
  destruct (FindMember j k); [|done]. apply jdeserialize_fits.
Qed.
#[export] Instance JsonSerializerVector_typed : typed (JsonSerializerVector A).
Proof.
  split; [done|]. simpl. intros j k v x. destruct (FindMember j k) as [[]|]; try done; [|by intros [= <-]].
  intros Hx _. apply (traverse_fits _ _ _ _ (fun y z Hz => jdeserialize_fits y _ z Hz tm_default) Hx).
Qed.
#[export] Instance JsonSerializerMap_typed : typed (JsonSerializerMap A).
Proof.
  split; [done|]. simpl. intros j k v x. destruct (FindMember j k) as [[]|]; try done; [|by intros [= <-]].
  intros Hx _. by apply (read_members_fits _ _ _ _ _ (fun _ y z Hz => jdeserialize_fits y _ z Hz tm_default) Hx).
Qed.
End typed_model.

#[export] Existing Instances JsonSerializer_typed JsonSerializerVector_typed JsonSerializerMap_typed.
