(* ===== verification/SignalingTypes.v ===== *)
(** * What the client reads has the types of its structs

    One instance per struct of [core/service/signaling_models.h]: its members are read
    by functors that keep to the members' types.  The theorem follows for all of
    them. *)

From stdpp Require Import base strings list.
From Stdlib Require Import ZArith Lia.
From S2P Require Import Prelude Json SignalingModels JsonMore.

Ltac solve_typed :=
  split;
  [ repeat (apply List.Forall_cons; [cbn [fd_ser]; apply _|]); apply List.Forall_nil
  | intros t m; destruct_tuple; reflexivity ].

#[export] Instance MessageType_typed : TypedModel MessageType.
Proof. solve_typed. Qed.
#[export] Instance MessageType_typed_default : TypedDefault MessageType.
Proof. reflexivity. Qed.
#[export] Instance RequestHeader_typed : TypedModel RequestHeader.
Proof. solve_typed. Qed.
#[export] Instance RequestHeader_typed_default : TypedDefault RequestHeader.
Proof. reflexivity. Qed.
#[export] Instance ResponseHeader_typed : TypedModel ResponseHeader.
Proof. solve_typed. Qed.
#[export] Instance ResponseHeader_typed_default : TypedDefault ResponseHeader.
Proof. reflexivity. Qed.
#[export] Instance NotificationHeader_typed : TypedModel NotificationHeader.
Proof. solve_typed. Qed.
#[export] Instance NotificationHeader_typed_default : TypedDefault NotificationHeader.
Proof. reflexivity. Qed.
#[export] Instance BasicResponse_typed : TypedModel BasicResponse.
Proof. solve_typed. Qed.
#[export] Instance BasicResponse_typed_default : TypedDefault BasicResponse.
Proof. reflexivity. Qed.
#[export] Instance GetRouterRtpCapabilitiesRequest_typed : TypedModel GetRouterRtpCapabilitiesRequest.
Proof. solve_typed. Qed.
#[export] Instance GetRouterRtpCapabilitiesResponse_RTCPFeedback_typed : TypedModel GetRouterRtpCapabilitiesResponse_RTCPFeedback.
Proof. solve_typed. Qed.
#[export] Instance GetRouterRtpCapabilitiesResponse_RTCPFeedback_typed_default : TypedDefault GetRouterRtpCapabilitiesResponse_RTCPFeedback.
Proof. reflexivity. Qed.
#[export] Instance GetRouterRtpCapabilitiesResponse_Parameters_typed : TypedModel GetRouterRtpCapabilitiesResponse_Parameters.
Proof. solve_typed. Qed.
#[export] Instance GetRouterRtpCapabilitiesResponse_Parameters_typed_default : TypedDefault GetRouterRtpCapabilitiesResponse_Parameters.
Proof. reflexivity. Qed.
#[export] Instance GetRouterRtpCapabilitiesResponse_Codec_typed : TypedModel GetRouterRtpCapabilitiesResponse_Codec.
Proof. solve_typed. Qed.
#[export] Instance GetRouterRtpCapabilitiesResponse_Codec_typed_default : TypedDefault GetRouterRtpCapabilitiesResponse_Codec.
Proof. reflexivity. Qed.
#[export] Instance GetRouterRtpCapabilitiesResponse_HeaderExtension_typed : TypedModel GetRouterRtpCapabilitiesResponse_HeaderExtension.
Proof. solve_typed. Qed.
#[export] Instance GetRouterRtpCapabilitiesResponse_HeaderExtension_typed_default : TypedDefault GetRouterRtpCapabilitiesResponse_HeaderExtension.
Proof. reflexivity. Qed.
#[export] Instance GetRouterRtpCapabilitiesResponse_Data_typed : TypedModel GetRouterRtpCapabilitiesResponse_Data.
Proof. solve_typed. Qed.
#[export] Instance GetRouterRtpCapabilitiesResponse_Data_typed_default : TypedDefault GetRouterRtpCapabilitiesResponse_Data.
Proof. reflexivity. Qed.
#[export] Instance GetRouterRtpCapabilitiesResponse_typed : TypedModel GetRouterRtpCapabilitiesResponse.
Proof. solve_typed. Qed.
#[export] Instance GetRouterRtpCapabilitiesResponse_typed_default : TypedDefault GetRouterRtpCapabilitiesResponse.
Proof. reflexivity. Qed.
#[export] Instance CreateWebRtcTransportRequest_NumStreams_typed : TypedModel CreateWebRtcTransportRequest_NumStreams.
Proof. solve_typed. Qed.
#[export] Instance CreateWebRtcTransportRequest_NumStreams_typed_default : TypedDefault CreateWebRtcTransportRequest_NumStreams.
Proof. reflexivity. Qed.
#[export] Instance CreateWebRtcTransportRequest_SCTPCapabilities_typed : TypedModel CreateWebRtcTransportRequest_SCTPCapabilities.
Proof. solve_typed. Qed.
#[export] Instance CreateWebRtcTransportRequest_SCTPCapabilities_typed_default : TypedDefault CreateWebRtcTransportRequest_SCTPCapabilities.
Proof. reflexivity. Qed.
#[export] Instance CreateWebRtcTransportRequest_Data_typed : TypedModel CreateWebRtcTransportRequest_Data.
Proof. solve_typed. Qed.
#[export] Instance CreateWebRtcTransportRequest_Data_typed_default : TypedDefault CreateWebRtcTransportRequest_Data.
Proof. reflexivity. Qed.
#[export] Instance CreateWebRtcTransportRequest_typed : TypedModel CreateWebRtcTransportRequest.
Proof. solve_typed. Qed.
#[export] Instance CreateWebRtcTransportResponse_Fingerprint_typed : TypedModel CreateWebRtcTransportResponse_Fingerprint.
Proof. solve_typed. Qed.
#[export] Instance CreateWebRtcTransportResponse_Fingerprint_typed_default : TypedDefault CreateWebRtcTransportResponse_Fingerprint.
Proof. reflexivity. Qed.
#[export] Instance CreateWebRtcTransportResponse_DTLSParameters_typed : TypedModel CreateWebRtcTransportResponse_DTLSParameters.
Proof. solve_typed. Qed.
#[export] Instance CreateWebRtcTransportResponse_DTLSParameters_typed_default : TypedDefault CreateWebRtcTransportResponse_DTLSParameters.
Proof. reflexivity. Qed.
#[export] Instance CreateWebRtcTransportResponse_ICECandidate_typed : TypedModel CreateWebRtcTransportResponse_ICECandidate.
Proof. solve_typed. Qed.
#[export] Instance CreateWebRtcTransportResponse_ICECandidate_typed_default : TypedDefault CreateWebRtcTransportResponse_ICECandidate.
Proof. reflexivity. Qed.
#[export] Instance CreateWebRtcTransportResponse_ICEParameters_typed : TypedModel CreateWebRtcTransportResponse_ICEParameters.
Proof. solve_typed. Qed.
#[export] Instance CreateWebRtcTransportResponse_ICEParameters_typed_default : TypedDefault CreateWebRtcTransportResponse_ICEParameters.
Proof. reflexivity. Qed.
#[export] Instance CreateWebRtcTransportResponse_SCTPParameters_typed : TypedModel CreateWebRtcTransportResponse_SCTPParameters.
Proof. solve_typed. Qed.
#[export] Instance CreateWebRtcTransportResponse_SCTPParameters_typed_default : TypedDefault CreateWebRtcTransportResponse_SCTPParameters.
Proof. reflexivity. Qed.
#[export] Instance CreateWebRtcTransportResponse_Data_typed : TypedModel CreateWebRtcTransportResponse_Data.
Proof. solve_typed. Qed.
#[export] Instance CreateWebRtcTransportResponse_Data_typed_default : TypedDefault CreateWebRtcTransportResponse_Data.
Proof. reflexivity. Qed.
#[export] Instance CreateWebRtcTransportResponse_typed : TypedModel CreateWebRtcTransportResponse.
Proof. solve_typed. Qed.
#[export] Instance JoinRequest_Device_typed : TypedModel JoinRequest_Device.
Proof. solve_typed. Qed.
#[export] Instance JoinRequest_Device_typed_default : TypedDefault JoinRequest_Device.
Proof. reflexivity. Qed.
#[export] Instance JoinRequest_RTCPFeedback_typed : TypedModel JoinRequest_RTCPFeedback.
Proof. solve_typed. Qed.
#[export] Instance JoinRequest_RTCPFeedback_typed_default : TypedDefault JoinRequest_RTCPFeedback.
Proof. reflexivity. Qed.
#[export] Instance JoinRequest_Parameters_typed : TypedModel JoinRequest_Parameters.
Proof. solve_typed. Qed.
#[export] Instance JoinRequest_Parameters_typed_default : TypedDefault JoinRequest_Parameters.
Proof. reflexivity. Qed.
#[export] Instance JoinRequest_Codec_typed : TypedModel JoinRequest_Codec.
Proof. solve_typed. Qed.
#[export] Instance JoinRequest_Codec_typed_default : TypedDefault JoinRequest_Codec.
Proof. reflexivity. Qed.
#[export] Instance JoinRequest_HeaderExtension_typed : TypedModel JoinRequest_HeaderExtension.
Proof. solve_typed. Qed.
#[export] Instance JoinRequest_HeaderExtension_typed_default : TypedDefault JoinRequest_HeaderExtension.
Proof. reflexivity. Qed.
#[export] Instance JoinRequest_RTPCapabilities_typed : TypedModel JoinRequest_RTPCapabilities.
Proof. solve_typed. Qed.
#[export] Instance JoinRequest_RTPCapabilities_typed_default : TypedDefault JoinRequest_RTPCapabilities.
Proof. reflexivity. Qed.
#[export] Instance JoinRequest_NumStreams_typed : TypedModel JoinRequest_NumStreams.
Proof. solve_typed. Qed.
#[export] Instance JoinRequest_NumStreams_typed_default : TypedDefault JoinRequest_NumStreams.
Proof. reflexivity. Qed.
#[export] Instance JoinRequest_SCTPCapabilities_typed : TypedModel JoinRequest_SCTPCapabilities.
Proof. solve_typed. Qed.
#[export] Instance JoinRequest_SCTPCapabilities_typed_default : TypedDefault JoinRequest_SCTPCapabilities.
Proof. reflexivity. Qed.
#[export] Instance JoinRequest_Data_typed : TypedModel JoinRequest_Data.
Proof. solve_typed. Qed.
#[export] Instance JoinRequest_Data_typed_default : TypedDefault JoinRequest_Data.
Proof. reflexivity. Qed.
#[export] Instance JoinRequest_typed : TypedModel JoinRequest.
Proof. solve_typed. Qed.
#[export] Instance JoinResponse_Device_typed : TypedModel JoinResponse_Device.
Proof. solve_typed. Qed.
#[export] Instance JoinResponse_Device_typed_default : TypedDefault JoinResponse_Device.
Proof. reflexivity. Qed.
#[export] Instance JoinResponse_Peer_typed : TypedModel JoinResponse_Peer.
Proof. solve_typed. Qed.
#[export] Instance JoinResponse_Peer_typed_default : TypedDefault JoinResponse_Peer.
Proof. reflexivity. Qed.
#[export] Instance JoinResponse_Data_typed : TypedModel JoinResponse_Data.
Proof. solve_typed. Qed.
#[export] Instance JoinResponse_Data_typed_default : TypedDefault JoinResponse_Data.
Proof. reflexivity. Qed.
#[export] Instance JoinResponse_typed : TypedModel JoinResponse.
Proof. solve_typed. Qed.
#[export] Instance JoinResponse_typed_default : TypedDefault JoinResponse.
Proof. reflexivity. Qed.
#[export] Instance NewDataConsumerRequest_AppData_typed : TypedModel NewDataConsumerRequest_AppData.
Proof. solve_typed. Qed.
#[export] Instance NewDataConsumerRequest_AppData_typed_default : TypedDefault NewDataConsumerRequest_AppData.
Proof. reflexivity. Qed.
#[export] Instance NewDataConsumerRequest_SCTPStreamParameters_typed : TypedModel NewDataConsumerRequest_SCTPStreamParameters.
Proof. solve_typed. Qed.
#[export] Instance NewDataConsumerRequest_SCTPStreamParameters_typed_default : TypedDefault NewDataConsumerRequest_SCTPStreamParameters.
Proof. reflexivity. Qed.
#[export] Instance NewDataConsumerRequest_Data_typed : TypedModel NewDataConsumerRequest_Data.
Proof. solve_typed. Qed.
#[export] Instance NewDataConsumerRequest_Data_typed_default : TypedDefault NewDataConsumerRequest_Data.
Proof. reflexivity. Qed.
#[export] Instance NewDataConsumerRequest_typed : TypedModel NewDataConsumerRequest.
Proof. solve_typed. Qed.
#[export] Instance NewDataConsumerRequest_typed_default : TypedDefault NewDataConsumerRequest.
Proof. reflexivity. Qed.
#[export] Instance NewConsumerRequest_SharingData_typed : TypedModel NewConsumerRequest_SharingData.
Proof. solve_typed. Qed.
#[export] Instance NewConsumerRequest_SharingData_typed_default : TypedDefault NewConsumerRequest_SharingData.
Proof. reflexivity. Qed.
#[export] Instance NewConsumerRequest_AppData_typed : TypedModel NewConsumerRequest_AppData.
Proof. solve_typed. Qed.
#[export] Instance NewConsumerRequest_AppData_typed_default : TypedDefault NewConsumerRequest_AppData.
Proof. reflexivity. Qed.
#[export] Instance NewConsumerRequest_RTCPFeedback_typed : TypedModel NewConsumerRequest_RTCPFeedback.
Proof. solve_typed. Qed.
#[export] Instance NewConsumerRequest_RTCPFeedback_typed_default : TypedDefault NewConsumerRequest_RTCPFeedback.
Proof. reflexivity. Qed.
#[export] Instance NewConsumerRequest_Parameters_typed : TypedModel NewConsumerRequest_Parameters.
Proof. solve_typed. Qed.
#[export] Instance NewConsumerRequest_Parameters_typed_default : TypedDefault NewConsumerRequest_Parameters.
Proof. reflexivity. Qed.
#[export] Instance NewConsumerRequest_Codec_typed : TypedModel NewConsumerRequest_Codec.
Proof. solve_typed. Qed.
#[export] Instance NewConsumerRequest_Codec_typed_default : TypedDefault NewConsumerRequest_Codec.
Proof. reflexivity. Qed.
#[export] Instance NewConsumerRequest_HeaderExtension_typed : TypedModel NewConsumerRequest_HeaderExtension.
Proof. solve_typed. Qed.
#[export] Instance NewConsumerRequest_HeaderExtension_typed_default : TypedDefault NewConsumerRequest_HeaderExtension.
Proof. reflexivity. Qed.
#[export] Instance NewConsumerRequest_RTX_typed : TypedModel NewConsumerRequest_RTX.
Proof. solve_typed. Qed.
#[export] Instance NewConsumerRequest_RTX_typed_default : TypedDefault NewConsumerRequest_RTX.
Proof. reflexivity. Qed.
#[export] Instance NewConsumerRequest_Encoding_typed : TypedModel NewConsumerRequest_Encoding.
Proof. solve_typed. Qed.
#[export] Instance NewConsumerRequest_Encoding_typed_default : TypedDefault NewConsumerRequest_Encoding.
Proof. reflexivity. Qed.
#[export] Instance NewConsumerRequest_Rtcp_typed : TypedModel NewConsumerRequest_Rtcp.
Proof. solve_typed. Qed.
#[export] Instance NewConsumerRequest_Rtcp_typed_default : TypedDefault NewConsumerRequest_Rtcp.
Proof. reflexivity. Qed.
#[export] Instance NewConsumerRequest_RTPParameters_typed : TypedModel NewConsumerRequest_RTPParameters.
Proof. solve_typed. Qed.
#[export] Instance NewConsumerRequest_RTPParameters_typed_default : TypedDefault NewConsumerRequest_RTPParameters.
Proof. reflexivity. Qed.
#[export] Instance NewConsumerRequest_Data_typed : TypedModel NewConsumerRequest_Data.
Proof. solve_typed. Qed.
#[export] Instance NewConsumerRequest_Data_typed_default : TypedDefault NewConsumerRequest_Data.
Proof. reflexivity. Qed.
#[export] Instance NewConsumerRequest_typed : TypedModel NewConsumerRequest.
Proof. solve_typed. Qed.
#[export] Instance NewConsumerRequest_typed_default : TypedDefault NewConsumerRequest.
Proof. reflexivity. Qed.
#[export] Instance ConnectWebRtcTransportRequest_Fingerprint_typed : TypedModel ConnectWebRtcTransportRequest_Fingerprint.
Proof. solve_typed. Qed.
#[export] Instance ConnectWebRtcTransportRequest_Fingerprint_typed_default : TypedDefault ConnectWebRtcTransportRequest_Fingerprint.
Proof. reflexivity. Qed.
#[export] Instance ConnectWebRtcTransportRequest_DTLSParameters_typed : TypedModel ConnectWebRtcTransportRequest_DTLSParameters.
Proof. solve_typed. Qed.
#[export] Instance ConnectWebRtcTransportRequest_DTLSParameters_typed_default : TypedDefault ConnectWebRtcTransportRequest_DTLSParameters.
Proof. reflexivity. Qed.
#[export] Instance ConnectWebRtcTransportRequest_Data_typed : TypedModel ConnectWebRtcTransportRequest_Data.
Proof. solve_typed. Qed.
#[export] Instance ConnectWebRtcTransportRequest_Data_typed_default : TypedDefault ConnectWebRtcTransportRequest_Data.
Proof. reflexivity. Qed.
#[export] Instance ConnectWebRtcTransportRequest_typed : TypedModel ConnectWebRtcTransportRequest.
Proof. solve_typed. Qed.
#[export] Instance ProduceRequest_SharingData_typed : TypedModel ProduceRequest_SharingData.
Proof. solve_typed. Qed.
#[export] Instance ProduceRequest_SharingData_typed_default : TypedDefault ProduceRequest_SharingData.
Proof. reflexivity. Qed.
#[export] Instance ProduceRequest_AppData_typed : TypedModel ProduceRequest_AppData.
Proof. solve_typed. Qed.
#[export] Instance ProduceRequest_AppData_typed_default : TypedDefault ProduceRequest_AppData.
Proof. reflexivity. Qed.
#[export] Instance ProduceRequest_RTCPFeedback_typed : TypedModel ProduceRequest_RTCPFeedback.
Proof. solve_typed. Qed.
#[export] Instance ProduceRequest_RTCPFeedback_typed_default : TypedDefault ProduceRequest_RTCPFeedback.
Proof. reflexivity. Qed.
#[export] Instance ProduceRequest_Parameters_typed : TypedModel ProduceRequest_Parameters.
Proof. solve_typed. Qed.
#[export] Instance ProduceRequest_Parameters_typed_default : TypedDefault ProduceRequest_Parameters.
Proof. reflexivity. Qed.
#[export] Instance ProduceRequest_Codec_typed : TypedModel ProduceRequest_Codec.
Proof. solve_typed. Qed.
#[export] Instance ProduceRequest_Codec_typed_default : TypedDefault ProduceRequest_Codec.
Proof. reflexivity. Qed.
#[export] Instance ProduceRequest_HeaderExtension_typed : TypedModel ProduceRequest_HeaderExtension.
Proof. solve_typed. Qed.
#[export] Instance ProduceRequest_HeaderExtension_typed_default : TypedDefault ProduceRequest_HeaderExtension.
Proof. reflexivity. Qed.
#[export] Instance ProduceRequest_Rtcp_typed : TypedModel ProduceRequest_Rtcp.
Proof. solve_typed. Qed.
#[export] Instance ProduceRequest_Rtcp_typed_default : TypedDefault ProduceRequest_Rtcp.
Proof. reflexivity. Qed.
#[export] Instance ProduceRequest_Encoding_typed : TypedModel ProduceRequest_Encoding.
Proof. solve_typed. Qed.
#[export] Instance ProduceRequest_Encoding_typed_default : TypedDefault ProduceRequest_Encoding.
Proof. reflexivity. Qed.
#[export] Instance ProduceRequest_RTPParameters_typed : TypedModel ProduceRequest_RTPParameters.
Proof. solve_typed. Qed.
#[export] Instance ProduceRequest_RTPParameters_typed_default : TypedDefault ProduceRequest_RTPParameters.
Proof. reflexivity. Qed.
#[export] Instance ProduceRequest_Data_typed : TypedModel ProduceRequest_Data.
Proof. solve_typed. Qed.
#[export] Instance ProduceRequest_Data_typed_default : TypedDefault ProduceRequest_Data.
Proof. reflexivity. Qed.
#[export] Instance ProduceRequest_typed : TypedModel ProduceRequest.
Proof. solve_typed. Qed.
#[export] Instance ProduceResponse_Data_typed : TypedModel ProduceResponse_Data.
Proof. solve_typed. Qed.
#[export] Instance ProduceResponse_Data_typed_default : TypedDefault ProduceResponse_Data.
Proof. reflexivity. Qed.
#[export] Instance ProduceResponse_typed : TypedModel ProduceResponse.
Proof. solve_typed. Qed.
#[export] Instance ProduceResponse_typed_default : TypedDefault ProduceResponse.
Proof. reflexivity. Qed.
#[export] Instance ProduceDataRequest_AppData_typed : TypedModel ProduceDataRequest_AppData.
Proof. solve_typed. Qed.
#[export] Instance ProduceDataRequest_AppData_typed_default : TypedDefault ProduceDataRequest_AppData.
Proof. reflexivity. Qed.
#[export] Instance ProduceDataRequest_SCTPStreamParameters_typed : TypedModel ProduceDataRequest_SCTPStreamParameters.
Proof. solve_typed. Qed.
#[export] Instance ProduceDataRequest_SCTPStreamParameters_typed_default : TypedDefault ProduceDataRequest_SCTPStreamParameters.
Proof. reflexivity. Qed.
#[export] Instance ProduceDataRequest_Data_typed : TypedModel ProduceDataRequest_Data.
Proof. solve_typed. Qed.
#[export] Instance ProduceDataRequest_Data_typed_default : TypedDefault ProduceDataRequest_Data.
Proof. reflexivity. Qed.
#[export] Instance ProduceDataRequest_typed : TypedModel ProduceDataRequest.
Proof. solve_typed. Qed.
#[export] Instance ProduceDataResponse_Data_typed : TypedModel ProduceDataResponse_Data.
Proof. solve_typed. Qed.
#[export] Instance ProduceDataResponse_Data_typed_default : TypedDefault ProduceDataResponse_Data.
Proof. reflexivity. Qed.
#[export] Instance ProduceDataResponse_typed : TypedModel ProduceDataResponse.
Proof. solve_typed. Qed.
#[export] Instance ProduceDataResponse_typed_default : TypedDefault ProduceDataResponse.
Proof. reflexivity. Qed.
#[export] Instance ProducerRequest_Data_typed : TypedModel ProducerRequest_Data.
Proof. solve_typed. Qed.
#[export] Instance ProducerRequest_Data_typed_default : TypedDefault ProducerRequest_Data.
Proof. reflexivity. Qed.
#[export] Instance ProducerRequest_typed : TypedModel ProducerRequest.
Proof. solve_typed. Qed.
#[export] Instance ConsumerRequest_Data_typed : TypedModel ConsumerRequest_Data.
Proof. solve_typed. Qed.
#[export] Instance ConsumerRequest_Data_typed_default : TypedDefault ConsumerRequest_Data.
Proof. reflexivity. Qed.
#[export] Instance ConsumerRequest_typed : TypedModel ConsumerRequest.
Proof. solve_typed. Qed.
#[export] Instance ChangeDisplayNameRequest_Data_typed : TypedModel ChangeDisplayNameRequest_Data.
Proof. solve_typed. Qed.
#[export] Instance ChangeDisplayNameRequest_Data_typed_default : TypedDefault ChangeDisplayNameRequest_Data.
Proof. reflexivity. Qed.
#[export] Instance ChangeDisplayNameRequest_typed : TypedModel ChangeDisplayNameRequest.
Proof. solve_typed. Qed.
#[export] Instance RestartICERequest_Data_typed : TypedModel RestartICERequest_Data.
Proof. solve_typed. Qed.
#[export] Instance RestartICERequest_Data_typed_default : TypedDefault RestartICERequest_Data.
Proof. reflexivity. Qed.
#[export] Instance RestartICERequest_typed : TypedModel RestartICERequest.
Proof. solve_typed. Qed.
#[export] Instance RestartICEResponse_Data_typed : TypedModel RestartICEResponse_Data.
Proof. solve_typed. Qed.
#[export] Instance RestartICEResponse_Data_typed_default : TypedDefault RestartICEResponse_Data.
Proof. reflexivity. Qed.
#[export] Instance RestartICEResponse_typed : TypedModel RestartICEResponse.
Proof. solve_typed. Qed.
#[export] Instance RestartICEResponse_typed_default : TypedDefault RestartICEResponse.
Proof. reflexivity. Qed.
#[export] Instance SetConsumerPriorityRequest_Data_typed : TypedModel SetConsumerPriorityRequest_Data.
Proof. solve_typed. Qed.
#[export] Instance SetConsumerPriorityRequest_Data_typed_default : TypedDefault SetConsumerPriorityRequest_Data.
Proof. reflexivity. Qed.
#[export] Instance SetConsumerPriorityRequest_typed : TypedModel SetConsumerPriorityRequest.
Proof. solve_typed. Qed.
#[export] Instance SetConsumerPreferredLayersRequest_Data_typed : TypedModel SetConsumerPreferredLayersRequest_Data.
Proof. solve_typed. Qed.
#[export] Instance SetConsumerPreferredLayersRequest_Data_typed_default : TypedDefault SetConsumerPreferredLayersRequest_Data.
Proof. reflexivity. Qed.
#[export] Instance SetConsumerPreferredLayersRequest_typed : TypedModel SetConsumerPreferredLayersRequest.
Proof. solve_typed. Qed.
#[export] Instance GetTransportStatsRequest_Data_typed : TypedModel GetTransportStatsRequest_Data.
Proof. solve_typed. Qed.
#[export] Instance GetTransportStatsRequest_Data_typed_default : TypedDefault GetTransportStatsRequest_Data.
Proof. reflexivity. Qed.
#[export] Instance GetTransportStatsRequest_typed : TypedModel GetTransportStatsRequest.
Proof. solve_typed. Qed.
#[export] Instance GetTransportStatsResponse_ICESelectedTuple_typed : TypedModel GetTransportStatsResponse_ICESelectedTuple.
Proof. solve_typed. Qed.
#[export] Instance GetTransportStatsResponse_ICESelectedTuple_typed_default : TypedDefault GetTransportStatsResponse_ICESelectedTuple.
Proof. reflexivity. Qed.
#[export] Instance GetTransportStatsResponse_Data_typed : TypedModel GetTransportStatsResponse_Data.
Proof. solve_typed. Qed.
#[export] Instance GetTransportStatsResponse_Data_typed_default : TypedDefault GetTransportStatsResponse_Data.
Proof. reflexivity. Qed.
#[export] Instance GetTransportStatsResponse_typed : TypedModel GetTransportStatsResponse.
Proof. solve_typed. Qed.
#[export] Instance GetTransportStatsResponse_typed_default : TypedDefault GetTransportStatsResponse.
Proof. reflexivity. Qed.
#[export] Instance GetProducerStatsRequest_Data_typed : TypedModel GetProducerStatsRequest_Data.
Proof. solve_typed. Qed.
#[export] Instance GetProducerStatsRequest_Data_typed_default : TypedDefault GetProducerStatsRequest_Data.
Proof. reflexivity. Qed.
#[export] Instance GetProducerStatsRequest_typed : TypedModel GetProducerStatsRequest.
Proof. solve_typed. Qed.
#[export] Instance GetProducerStatsResponse_BitrateByLayer_typed : TypedModel GetProducerStatsResponse_BitrateByLayer.
Proof. solve_typed. Qed.
#[export] Instance GetProducerStatsResponse_BitrateByLayer_typed_default : TypedDefault GetProducerStatsResponse_BitrateByLayer.
Proof. reflexivity. Qed.
#[export] Instance GetProducerStatsResponse_Data_typed : TypedModel GetProducerStatsResponse_Data.
Proof. solve_typed. Qed.
#[export] Instance GetProducerStatsResponse_Data_typed_default : TypedDefault GetProducerStatsResponse_Data.
Proof. reflexivity. Qed.
#[export] Instance GetProducerStatsResponse_typed : TypedModel GetProducerStatsResponse.
Proof. solve_typed. Qed.
#[export] Instance GetProducerStatsResponse_typed_default : TypedDefault GetProducerStatsResponse.
Proof. reflexivity. Qed.
#[export] Instance GetDataProducerStatsRequest_Data_typed : TypedModel GetDataProducerStatsRequest_Data.
Proof. solve_typed. Qed.
#[export] Instance GetDataProducerStatsRequest_Data_typed_default : TypedDefault GetDataProducerStatsRequest_Data.
Proof. reflexivity. Qed.
#[export] Instance GetDataProducerStatsRequest_typed : TypedModel GetDataProducerStatsRequest.
Proof. solve_typed. Qed.
#[export] Instance GetDataProducerStatsResponse_Data_typed : TypedModel GetDataProducerStatsResponse_Data.
Proof. solve_typed. Qed.
#[export] Instance GetDataProducerStatsResponse_Data_typed_default : TypedDefault GetDataProducerStatsResponse_Data.
Proof. reflexivity. Qed.
#[export] Instance GetDataProducerStatsResponse_typed : TypedModel GetDataProducerStatsResponse.
Proof. solve_typed. Qed.
#[export] Instance GetDataProducerStatsResponse_typed_default : TypedDefault GetDataProducerStatsResponse.
Proof. reflexivity. Qed.
#[export] Instance GetConsumerStatsRequest_Data_typed : TypedModel GetConsumerStatsRequest_Data.
Proof. solve_typed. Qed.
#[export] Instance GetConsumerStatsRequest_Data_typed_default : TypedDefault GetConsumerStatsRequest_Data.
Proof. reflexivity. Qed.
#[export] Instance GetConsumerStatsRequest_typed : TypedModel GetConsumerStatsRequest.
Proof. solve_typed. Qed.
#[export] Instance GetConsumerStatsResponse_BitrateByLayer_typed : TypedModel GetConsumerStatsResponse_BitrateByLayer.
Proof. solve_typed. Qed.
#[export] Instance GetConsumerStatsResponse_BitrateByLayer_typed_default : TypedDefault GetConsumerStatsResponse_BitrateByLayer.
Proof. reflexivity. Qed.
#[export] Instance GetConsumerStatsResponse_Data_typed : TypedModel GetConsumerStatsResponse_Data.
Proof. solve_typed. Qed.
#[export] Instance GetConsumerStatsResponse_Data_typed_default : TypedDefault GetConsumerStatsResponse_Data.
Proof. reflexivity. Qed.
#[export] Instance GetConsumerStatsResponse_typed : TypedModel GetConsumerStatsResponse.
Proof. solve_typed. Qed.
#[export] Instance GetConsumerStatsResponse_typed_default : TypedDefault GetConsumerStatsResponse.
Proof. reflexivity. Qed.
#[export] Instance GetDataConsumerStatsRequest_Data_typed : TypedModel GetDataConsumerStatsRequest_Data.
Proof. solve_typed. Qed.
#[export] Instance GetDataConsumerStatsRequest_Data_typed_default : TypedDefault GetDataConsumerStatsRequest_Data.
Proof. reflexivity. Qed.
#[export] Instance GetDataConsumerStatsRequest_typed : TypedModel GetDataConsumerStatsRequest.
Proof. solve_typed. Qed.
#[export] Instance GetDataConsumerStatsResponse_Data_typed : TypedModel GetDataConsumerStatsResponse_Data.
Proof. solve_typed. Qed.
#[export] Instance GetDataConsumerStatsResponse_Data_typed_default : TypedDefault GetDataConsumerStatsResponse_Data.
Proof. reflexivity. Qed.
#[export] Instance GetDataConsumerStatsResponse_typed : TypedModel GetDataConsumerStatsResponse.
Proof. solve_typed. Qed.
#[export] Instance GetDataConsumerStatsResponse_typed_default : TypedDefault GetDataConsumerStatsResponse.
Proof. reflexivity. Qed.
#[export] Instance ApplyNetworkThrottleRequest_Data_typed : TypedModel ApplyNetworkThrottleRequest_Data.
Proof. solve_typed. Qed.
#[export] Instance ApplyNetworkThrottleRequest_Data_typed_default : TypedDefault ApplyNetworkThrottleRequest_Data.
Proof. reflexivity. Qed.
#[export] Instance ApplyNetworkThrottleRequest_typed : TypedModel ApplyNetworkThrottleRequest.
Proof. solve_typed. Qed.
#[export] Instance ResetNetworkThrottleRequest_Data_typed : TypedModel ResetNetworkThrottleRequest_Data.
Proof. solve_typed. Qed.
#[export] Instance ResetNetworkThrottleRequest_Data_typed_default : TypedDefault ResetNetworkThrottleRequest_Data.
Proof. reflexivity. Qed.
#[export] Instance ResetNetworkThrottleRequest_typed : TypedModel ResetNetworkThrottleRequest.
Proof. solve_typed. Qed.
#[export] Instance DownlinkBweNotification_Data_typed : TypedModel DownlinkBweNotification_Data.
Proof. solve_typed. Qed.
#[export] Instance DownlinkBweNotification_Data_typed_default : TypedDefault DownlinkBweNotification_Data.
Proof. reflexivity. Qed.
#[export] Instance DownlinkBweNotification_typed : TypedModel DownlinkBweNotification.
Proof. solve_typed. Qed.
#[export] Instance DownlinkBweNotification_typed_default : TypedDefault DownlinkBweNotification.
Proof. reflexivity. Qed.
#[export] Instance ConsumerScoreNotification_Score_typed : TypedModel ConsumerScoreNotification_Score.
Proof. solve_typed. Qed.
#[export] Instance ConsumerScoreNotification_Score_typed_default : TypedDefault ConsumerScoreNotification_Score.
Proof. reflexivity. Qed.
#[export] Instance ConsumerScoreNotification_Data_typed : TypedModel ConsumerScoreNotification_Data.
Proof. solve_typed. Qed.
#[export] Instance ConsumerScoreNotification_Data_typed_default : TypedDefault ConsumerScoreNotification_Data.
Proof. reflexivity. Qed.
#[export] Instance ConsumerScoreNotification_typed : TypedModel ConsumerScoreNotification.
Proof. solve_typed. Qed.
#[export] Instance ConsumerScoreNotification_typed_default : TypedDefault ConsumerScoreNotification.
Proof. reflexivity. Qed.
#[export] Instance ProducerScoreNotification_Score_typed : TypedModel ProducerScoreNotification_Score.
Proof. solve_typed. Qed.
#[export] Instance ProducerScoreNotification_Score_typed_default : TypedDefault ProducerScoreNotification_Score.
Proof. reflexivity. Qed.
#[export] Instance ProducerScoreNotification_Data_typed : TypedModel ProducerScoreNotification_Data.
Proof. solve_typed. Qed.
#[export] Instance ProducerScoreNotification_Data_typed_default : TypedDefault ProducerScoreNotification_Data.
Proof. reflexivity. Qed.
#[export] Instance ProducerScoreNotification_typed : TypedModel ProducerScoreNotification.
Proof. solve_typed. Qed.
#[export] Instance ProducerScoreNotification_typed_default : TypedDefault ProducerScoreNotification.
Proof. reflexivity. Qed.
#[export] Instance ConsumerLayersChangedNotification_Data_typed : TypedModel ConsumerLayersChangedNotification_Data.
Proof. solve_typed. Qed.
#[export] Instance ConsumerLayersChangedNotification_Data_typed_default : TypedDefault ConsumerLayersChangedNotification_Data.
Proof. reflexivity. Qed.
#[export] Instance ConsumerLayersChangedNotification_typed : TypedModel ConsumerLayersChangedNotification.
Proof. solve_typed. Qed.
#[export] Instance ConsumerLayersChangedNotification_typed_default : TypedDefault ConsumerLayersChangedNotification.
Proof. reflexivity. Qed.
#[export] Instance ActiveSpeakerNotification_Data_typed : TypedModel ActiveSpeakerNotification_Data.
Proof. solve_typed. Qed.
#[export] Instance ActiveSpeakerNotification_Data_typed_default : TypedDefault ActiveSpeakerNotification_Data.
Proof. reflexivity. Qed.
#[export] Instance ActiveSpeakerNotification_typed : TypedModel ActiveSpeakerNotification.
Proof. solve_typed. Qed.
#[export] Instance ActiveSpeakerNotification_typed_default : TypedDefault ActiveSpeakerNotification.
Proof. reflexivity. Qed.
#[export] Instance ConsumerPausedNotification_Data_typed : TypedModel ConsumerPausedNotification_Data.
Proof. solve_typed. Qed.
#[export] Instance ConsumerPausedNotification_Data_typed_default : TypedDefault ConsumerPausedNotification_Data.
Proof. reflexivity. Qed.
#[export] Instance ConsumerPausedNotification_typed : TypedModel ConsumerPausedNotification.
Proof. solve_typed. Qed.
#[export] Instance ConsumerPausedNotification_typed_default : TypedDefault ConsumerPausedNotification.
Proof. reflexivity. Qed.
#[export] Instance ConsumerResumedNotification_Data_typed : TypedModel ConsumerResumedNotification_Data.
Proof. solve_typed. Qed.
#[export] Instance ConsumerResumedNotification_Data_typed_default : TypedDefault ConsumerResumedNotification_Data.
Proof. reflexivity. Qed.
#[export] Instance ConsumerResumedNotification_typed : TypedModel ConsumerResumedNotification.
Proof. solve_typed. Qed.
#[export] Instance ConsumerResumedNotification_typed_default : TypedDefault ConsumerResumedNotification.
Proof. reflexivity. Qed.
#[export] Instance ConsumerClosedNotification_Data_typed : TypedModel ConsumerClosedNotification_Data.
Proof. solve_typed. Qed.
#[export] Instance ConsumerClosedNotification_Data_typed_default : TypedDefault ConsumerClosedNotification_Data.
Proof. reflexivity. Qed.
#[export] Instance ConsumerClosedNotification_typed : TypedModel ConsumerClosedNotification.
Proof. solve_typed. Qed.
#[export] Instance ConsumerClosedNotification_typed_default : TypedDefault ConsumerClosedNotification.
Proof. reflexivity. Qed.
#[export] Instance DataConsumerClosedNotification_Data_typed : TypedModel DataConsumerClosedNotification_Data.
Proof. solve_typed. Qed.
#[export] Instance DataConsumerClosedNotification_Data_typed_default : TypedDefault DataConsumerClosedNotification_Data.
Proof. reflexivity. Qed.
#[export] Instance DataConsumerClosedNotification_typed : TypedModel DataConsumerClosedNotification.
Proof. solve_typed. Qed.
#[export] Instance DataConsumerClosedNotification_typed_default : TypedDefault DataConsumerClosedNotification.
Proof. reflexivity. Qed.
#[export] Instance PeerDisplayNameChangedNotification_Data_typed : TypedModel PeerDisplayNameChangedNotification_Data.
Proof. solve_typed. Qed.
#[export] Instance PeerDisplayNameChangedNotification_Data_typed_default : TypedDefault PeerDisplayNameChangedNotification_Data.
Proof. reflexivity. Qed.
#[export] Instance PeerDisplayNameChangedNotification_typed : TypedModel PeerDisplayNameChangedNotification.
Proof. solve_typed. Qed.
#[export] Instance PeerDisplayNameChangedNotification_typed_default : TypedDefault PeerDisplayNameChangedNotification.
Proof. reflexivity. Qed.
#[export] Instance NewPeerNotification_Device_typed : TypedModel NewPeerNotification_Device.
Proof. solve_typed. Qed.
#[export] Instance NewPeerNotification_Device_typed_default : TypedDefault NewPeerNotification_Device.
Proof. reflexivity. Qed.
#[export] Instance NewPeerNotification_Data_typed : TypedModel NewPeerNotification_Data.
Proof. solve_typed. Qed.
#[export] Instance NewPeerNotification_Data_typed_default : TypedDefault NewPeerNotification_Data.
Proof. reflexivity. Qed.
#[export] Instance NewPeerNotification_typed : TypedModel NewPeerNotification.
Proof. solve_typed. Qed.
#[export] Instance NewPeerNotification_typed_default : TypedDefault NewPeerNotification.
Proof. reflexivity. Qed.
#[export] Instance PeerClosedNotification_Data_typed : TypedModel PeerClosedNotification_Data.
Proof. solve_typed. Qed.
#[export] Instance PeerClosedNotification_Data_typed_default : TypedDefault PeerClosedNotification_Data.
Proof. reflexivity. Qed.
#[export] Instance PeerClosedNotification_typed : TypedModel PeerClosedNotification.
Proof. solve_typed. Qed.
#[export] Instance PeerClosedNotification_typed_default : TypedDefault PeerClosedNotification.
Proof. reflexivity. Qed.

(** C14: what is read fits its type: whatever text arrives, if [fromJsonString] reads
    it into an object whose members are representable (any new object), then so are
    the members of the result, at every depth: integers are in the range of their
    type, strings are C strings.  It follows that the object can be written and read
    again without loss. *)
Theorem read_values_fit {A} `{TypedModel A} parse text (init m : A) :
  model_wf init = true -> fromJsonString parse init text = Ok m ->
  model_wf m = true /\
  forall `{!DefaultInit A, !PlainModel A} print, parse (print (jserialize m)) = Some (jserialize m) ->
    fromJsonString parse default_init (toJsonStr print m) = Ok m.
Proof.
  intros Hi Hr. assert (Hm : model_wf m = true).
  { unfold fromJsonString in Hr. destruct (parse text) as [j|]; [|done]. by eapply jdeserialize_fits. }
  split; [done|]. intros ? ? print Hp. unfold fromJsonString, toJsonStr. rewrite Hp. by apply jdeserialize_plain.
Qed.

(** A notification as it arrives, with a member the struct does not list. *)
Definition arriving : Value :=
  JObject [("notification", JBool true); ("seq", JInt 9007199254740993); ("method", JString "newPeer");
           ("data", JObject [("id", JString "bob")])]%string.

Lemma read_values_fit_witness :
  exists m : NewPeerNotification, fromJsonString (fun _ => Some arriving) default_init ""%string = Ok m /\ model_wf m = true.
Proof.
  destruct (fromJsonString (A := NewPeerNotification) (fun _ => Some arriving) default_init ""%string) as [m|e] eqn:Hr;
    [|vm_compute in Hr; discriminate Hr].
  exists m. split; [reflexivity|].
  refine (proj1 (read_values_fit (fun _ => Some arriving) ""%string default_init m _ Hr)). vm_compute. reflexivity.
Defined.
