(* ===== verification/Observable.v ===== *)
(** * UniversalObservable

    Models [core/utils/universal_observable.hpp], the observer list every
    component of the SDK derives from.  Objects are named by their address; a
    [std::weak_ptr] can be locked while its object is alive.  The critical
    section makes every operation atomic, so each is one function on the list. *)

From stdpp Require Import base gmap strings list relations.
From S2P Require Import Prelude.

(** An object's address, and [std::shared_ptr<Observer>] ([None] is null). *)
Abbreviation address := nat.
Abbreviation observer_ptr := (option address).

(** [InnerObject<weak_ptr>] and [InnerObject<shared_ptr>], the two types the
    [absl::any] elements of [_observers] hold, with [rtc::Thread *thread]. *)
Inductive inner_object : Type :=
| WeakObject (observer : observer_ptr) (thread : option nat)
| Object (observer : observer_ptr) (thread : option nat).

Definition inner_thread (e : inner_object) : option nat :=
  match e with WeakObject _ t => t | Object _ t => t end.
Definition inner_observer (e : inner_object) : observer_ptr :=
  match e with WeakObject o _ => o | Object o _ => o end.

(** [weak_ptr::lock], given the objects alive at that moment. *)
Definition lock (alive : address -> bool) (w : observer_ptr) : observer_ptr :=
  match w with
  | Some a => if alive a then Some a else None
  | None => None
  end.

(** The [shared_ptr] an element yields. *)
Definition strong (alive : address -> bool) (e : inner_object) : observer_ptr :=
  match e with
  | WeakObject o _ => lock alive o
  | Object o _ => o
  end.

Definition hasObserverInternal (alive : address -> bool) (observers : list inner_object)
    (observer : observer_ptr) : bool :=
  existsb (fun e => bool_decide (strong alive e = observer)) observers.

Definition hasObserver := hasObserverInternal.

Definition addWeakObserver (alive : address -> bool) (observers : list inner_object)
    (observer : observer_ptr) (thread : option nat) : list inner_object :=
  if hasObserverInternal alive observers observer then observers
  else observers ++ [WeakObject observer thread].

Definition addObserver (alive : address -> bool) (observers : list inner_object)
    (observer : observer_ptr) (thread : option nat) : list inner_object :=
  if hasObserverInternal alive observers observer then observers
  else observers ++ [Object observer thread].

(** Erases the first element that yields [observer]. *)
Fixpoint removeObserver (alive : address -> bool) (observers : list inner_object)
    (observer : observer_ptr) : list inner_object :=
  match observers with
  | [] => []
  | e :: l => if bool_decide (strong alive e = observer) then l
              else e :: removeObserver alive l observer
  end.

Definition clearObserver (observers : list inner_object) : list inner_object := [].
Definition numOfObservers (observers : list inner_object) : nat := length observers.

(** One call of [notifier]: made at once when the observer's thread is the
    current one, otherwise posted to that thread. *)
Inductive delivery : Type :=
| Direct (observer : address)
| Posted (thread : nat) (observer : address).

Definition delivery_target (d : delivery) : address :=
  match d with Direct a => a | Posted _ a => a end.

(** The loop of [notifyObservers] over its copy of the list. *)
Fixpoint notifyObservers (alive : address -> bool) (current : nat)
    (observers : list inner_object) : outcome (list delivery) :=
  match observers with
  | [] => Done []
  | e :: l =>
      match strong alive e with
      | None => notifyObservers alive current l
      | Some a =>
          match inner_thread e with
          | None => Fault (NullDeref "thread"%string)
          | Some t =>
              match notifyObservers alive current l with
              | Fault f => Fault f
              | Done ds => Done ((if (t =? current)%nat then Direct a else Posted t a) :: ds)
              end
          end
      end
  end.

(** The posted lambda locks its [wobs] again when it runs. *)
Definition run_posted (alive : address -> bool) (observer : address) : list address :=
  if alive observer then [observer] else [].

(** ** Lemmas *)

Lemma hasObserver_spec alive l o :
  hasObserverInternal alive l o = true <-> exists e, e ∈ l /\ strong alive e = o.
Proof.
  unfold hasObserverInternal. rewrite existsb_exists. setoid_rewrite bool_decide_eq_true.
  by setoid_rewrite list_elem_of_In.
Qed.

Lemma removeObserver_absent alive l o :
  hasObserverInternal alive l o = false -> removeObserver alive l o = l.
Proof.
  induction l as [|e l IH]; simpl; [done|]. rewrite orb_false_iff. intros [He Hl].
  rewrite He. by rewrite IH.
Qed.

Lemma removeObserver_app_new alive l o e :
  hasObserverInternal alive l o = false -> strong alive e = o ->
  removeObserver alive (l ++ [e]) o = l.
Proof.
  induction l as [|e' l IH]; simpl.
  - intros _ He. by rewrite bool_decide_eq_true_2.
  - rewrite orb_false_iff. intros [He' Hl] He. rewrite He'. by rewrite IH.
Qed.

Lemma removeObserver_sublist alive l o : removeObserver alive l o `sublist_of` l.
Proof.
  induction l as [|e l IH]; simpl; [done|]. case_bool_decide.
  - by apply sublist_cons.
  - by apply sublist_skip.
Qed.

(** The observers a list can still reach, in registration order. *)
Definition live_observers (alive : address -> bool) (l : list inner_object) : list address :=
  omap (strong alive) l.

(** The addresses a list names, alive or not. *)
Definition named (l : list inner_object) : list address := omap inner_observer l.

Lemma elem_of_named a l : a ∈ named l <-> exists e, e ∈ l /\ inner_observer e = Some a.
Proof. unfold named. rewrite list_elem_of_omap. done. Qed.

Lemma named_sublist l1 l2 : l1 `sublist_of` l2 -> named l1 `sublist_of` named l2.
Proof.
  induction 1 as [|e l1 l2 _ IH|e l1 l2 _ IH]; [done| |]; unfold named in *; cbn;
    destruct (inner_observer e); auto using sublist_skip, sublist_cons.
Qed.

Lemma live_observers_sublist alive l : live_observers alive l `sublist_of` named l.
Proof.
  induction l as [|e l IH]; [done|]. unfold live_observers, named in *.
  destruct e as [[a|] t|[a|] t]; cbn; try done; [destruct (alive a)|];
    auto using sublist_skip, sublist_cons.
Qed.

Lemma strong_named alive e a : strong alive e = Some a -> inner_observer e = Some a.
Proof. destruct e as [[b|] t|[b|] t]; simpl; try done. by destruct (alive b). Qed.

(** ** Every history of the list *)

(** The program's use of one observer list: observers are added while the
    caller holds them (so they are alive), removed, cleared; objects die. *)
Inductive obs_step : (gset address * list inner_object) -> (gset address * list inner_object) -> Prop :=
| step_add_weak (A : gset address) l a t :
    a ∈ A -> obs_step (A, l) (A, addWeakObserver (fun x => bool_decide (x ∈ A)) l (Some a) t)
| step_add (A : gset address) l a t :
    a ∈ A -> obs_step (A, l) (A, addObserver (fun x => bool_decide (x ∈ A)) l (Some a) t)
| step_remove (A : gset address) l o :
    obs_step (A, l) (A, removeObserver (fun x => bool_decide (x ∈ A)) l o)
| step_clear (A : gset address) l : obs_step (A, l) (A, clearObserver l)
| step_die (A : gset address) l a : obs_step (A, l) (A ∖ {[a]}, l).

Lemma add_named_nodup (A : gset address) l a e :
  a ∈ A -> inner_observer e = Some a ->
  NoDup (named l) ->
  NoDup (named (if hasObserverInternal (fun x => bool_decide (x ∈ A)) l (Some a) then l else l ++ [e])).
Proof.
  intros Ha He Hl. destruct (hasObserverInternal _ _ _) eqn:Hh; [done|].
  unfold named in *. rewrite omap_app. cbn. rewrite He. apply NoDup_app. split; [done|]. split; [|by apply NoDup_singleton].
  intros b Hb ->%list_elem_of_singleton. apply elem_of_named in Hb as (e' & Hin & He').
  apply not_true_iff_false in Hh. apply Hh, hasObserver_spec. exists e'. split; [done|].
  destruct e' as [o' t'|o' t']; simpl in *; subst; simpl; [by rewrite bool_decide_eq_true_2 | done].
Qed.

Lemma obs_step_nodup x y : obs_step x y -> NoDup (named x.2) -> NoDup (named y.2).
Proof.
  destruct 1; simpl; try done.
  - by apply add_named_nodup.
  - by apply add_named_nodup.
  - intros Hn. eapply sublist_NoDup; [exact Hn | apply named_sublist, removeObserver_sublist].
  - intros _. apply NoDup_nil_2.
Qed.

Lemma obs_steps_nodup x y : rtc obs_step x y -> NoDup (named x.2) -> NoDup (named y.2).
Proof. induction 1; eauto using obs_step_nodup. Qed.

Lemma notifyObservers_live alive current l ds :
  notifyObservers alive current l = Done ds -> delivery_target <$> ds = live_observers alive l.
Proof.
  revert ds. induction l as [|e l IH]; simpl; intros ds; [by intros [= <-]|].
  unfold live_observers in *; cbn. destruct (strong alive e) as [a|]; [|apply IH].
  destruct (inner_thread e) as [t|]; [|done].
  destruct (notifyObservers alive current l) as [ds'|]; [|done]. intros [= <-]. cbn.
  rewrite IH by done. by destruct (t =? current)%nat.
Qed.

Lemma notifyObservers_done alive current l :
  Forall (fun e => is_Some (inner_thread e)) l -> exists ds, notifyObservers alive current l = Done ds.
Proof.
  induction 1 as [|e l [t Ht] _ [ds IH]]; simpl; [by exists []|].
  destruct (strong alive e) as [a|]; [|by exists ds]. rewrite Ht, IH. eauto.
Qed.

(** ** Properties *)

(** C27. Whatever sequence of additions, removals, clears and object deaths built
    the list, a notification that ends normally reaches every live registered
    observer, no observer twice, and no dead one. *)
Theorem notify_exactly_once (A0 A : gset address) l current ds :
  rtc obs_step (A0, []) (A, l) ->
  notifyObservers (fun x => bool_decide (x ∈ A)) current l = Done ds ->
  NoDup (delivery_target <$> ds) /\
  (forall a, a ∈ delivery_target <$> ds <->
             exists e, e ∈ l /\ strong (fun x => bool_decide (x ∈ A)) e = Some a).
Proof.
  intros Hr Hn. rewrite (notifyObservers_live _ _ _ _ Hn). split.
  - eapply sublist_NoDup; [|apply live_observers_sublist].
    apply (obs_steps_nodup _ _ Hr). apply NoDup_nil_2.
  - intros a. unfold live_observers. by rewrite list_elem_of_omap.
Qed.

(** Two observers on different threads, the second of which dies. *)
Lemma notify_exactly_once_witness :
  exists A l ds,
    rtc obs_step ({[1%nat; 2%nat]} : gset address, []) (A, l) /\
    notifyObservers (fun x => bool_decide (x ∈ A)) 7 l = Done ds /\
    NoDup (delivery_target <$> ds) /\ 1%nat ∈ delivery_target <$> ds.
Proof.
  set (A := {[1%nat; 2%nat]} : gset address).
  set (alive := fun x => bool_decide (x ∈ A)).
  set (l := addObserver alive (addWeakObserver alive [] (Some 1%nat) (Some 7%nat)) (Some 2%nat) (Some 9%nat)).
  assert (Hr : rtc obs_step (A, []) (A, l)).
  { eapply rtc_l; [apply (step_add_weak A [] 1%nat (Some 7%nat)); set_solver|].
    apply rtc_once, (step_add A _ 2%nat (Some 9%nat)); set_solver. }
  assert (Hn : notifyObservers alive 7 l = Done [Direct 1; Posted 9 2]) by (vm_compute; reflexivity).
  exists A, l, [Direct 1; Posted 9 2].
  destruct (notify_exactly_once A A l 7 [Direct 1; Posted 9 2] Hr Hn) as [Hd Hi].
  split; [exact Hr|]. split; [exact Hn|]. split; [exact Hd|].
  apply Hi. exists (WeakObject (Some 1%nat) (Some 7%nat)). split; [vm_compute; left|reflexivity].
Defined.

(** Registering a live observer that is not in the list and then removing it
    gives back the list, and registering it a second time changes nothing. *)
Theorem add_remove_observer alive l a t :
  alive a = true -> hasObserver alive l (Some a) = false ->
  removeObserver alive (addWeakObserver alive l (Some a) t) (Some a) = l /\
  (forall t', addWeakObserver alive (addWeakObserver alive l (Some a) t) (Some a) t' =
              addWeakObserver alive l (Some a) t).
Proof.
  unfold hasObserver, addWeakObserver. intros Ha Hh. rewrite Hh. split.
  - apply removeObserver_app_new; [done|]. simpl. by rewrite Ha.
  - intros t'. replace (hasObserverInternal alive _ _) with true; [done|].
    symmetry. apply hasObserver_spec. exists (WeakObject (Some a) t).
    split; [set_solver | simpl; by rewrite Ha].
Qed.

Lemma add_remove_observer_witness :
  removeObserver (fun _ => true)
    (addWeakObserver (fun _ => true) [WeakObject (Some 1%nat) None] (Some 2%nat) (Some 3%nat)) (Some 2%nat)
  = [WeakObject (Some 1%nat) None].
Proof.
  apply (add_remove_observer (fun _ => true) [WeakObject (Some 1%nat) None] 2%nat (Some 3%nat));
    vm_compute; reflexivity.
Defined.
