(* ===== verification/Utilities.v ===== *)
(** * Utilities

    Models [core/utils/string_utils.cpp], [object_factory.hpp], [observer.hpp],
    [observable.h], [singleton.h] and [notifications.hpp]: random identifiers, the registry
    of named objects, the typed observer of a notification, the list of weak observers it
    can be kept in, and the singleton.  [join] draws the peer id with [randomString],
    [Engine] and [ComponentFactory] are singletons; the others have no user in the
    repository.
    Critical sections make every operation atomic, so each is one function. *)

From stdpp Require Import base gmap strings list.
From Stdlib Require Import ZArith Lia Ascii.
From S2P Require Import Prelude Strings Observable.

#[local] Open Scope list_scope.

(** ** Random identifiers *)

Definition charSet : str := lit "ABCDEFGHIJKLMNOPQRSTUVWXYZabcdefghijklmnopqrstuvwxyz0123456789".

(** The positions drawn, each [uniform_int_distribution(0, charSet.length() - 1)];
    [substr] past the end throws. *)
Fixpoint randomString (draws : list nat) : outcome str :=
  match draws with
  | [] => Done []
  | randomPoz :: draws =>
      if (length charSet <? randomPoz)%nat then Fault (Thrown "std::out_of_range")
      else match randomString draws with
           | Done rest => Done (take 1 (drop randomPoz charSet) ++ rest)
           | Fault f => Fault f
           end
  end.

(** A letter or a digit: a character that stands for itself in a URL. *)
Definition unreserved (c : ascii) : bool :=
  isdigit c || (let n := nat_of_ascii (tolower c) in (97 <=? n)%nat && (n <=? 122)%nat).

(** An identifier has one character per draw, all letters and digits: the peer id can
    be put into the address of the websocket as it is. *)
Theorem randomString_fits_url draws : Forall (fun d => (d < length charSet)%nat) draws ->
  exists id, randomString draws = Done id /\ length id = length draws /\ forallb unreserved id = true.
Proof.
  induction 1 as [|d draws Hd _ (id & IH & Hl & Hu)]; [by exists []|]. cbn [randomString]. rewrite (proj2 (Nat.ltb_ge (length charSet) d)), IH by lia.
  destruct (lookup_lt_is_Some_2 _ _ Hd) as [c Hc]. rewrite (drop_S _ _ _ Hc). eexists. split; [reflexivity|].
  simpl. split; [by rewrite Hl|]. rewrite Hu, andb_true_r.
  assert (Hall : Forall (fun c => unreserved c = true) charSet) by (apply (bool_decide_eq_true_1 _); vm_compute; reflexivity).
  exact (proj1 (Forall_lookup _ _) Hall _ _ Hc).
Qed.

(** ** The object factory *)

Abbreviation ObjectFactory := (gmap string (option nat)).

Inductive of_effect : Type := ObjectInit (object : nat) | ObjectDestroy (object : nat).
Abbreviation of_handler := (M ObjectFactory of_effect).

Section factory.
(** The order of the unordered map's entries. *)
Variable hash_order : ObjectFactory -> list (string * option nat).

Definition of_call (e : nat -> of_effect) : of_handler unit :=
  m ← get;
  for_each (hash_order m) (fun entry => match snd entry with Some object => emit (e object) | None => skip end).
Definition of_init : of_handler unit := of_call ObjectInit.
Definition of_destroy : of_handler unit := _ ← of_call ObjectDestroy; modify (fun _ => ∅).
Definition of_register (key : string) (object : option nat) : of_handler unit := modify <[key := object]>.
Definition of_unregister (key : string) : of_handler unit :=
  m ← get; match m !! key with Some _ => modify (delete key) | None => skip end.
(** On a copy of the map. *)
Definition of_get (key : string) : of_handler (option nat) :=
  m ← get; mret (match m !! key with Some object => object | None => None end).

Lemma of_call_run e m : of_call e m = Done (tt, m, e <$> omap snd (hash_order m)).
Proof.
  unfold of_call. rewrite (bind_done get _ m m m []) by done.
  assert (H : forall l, for_each l (fun entry : string * option nat =>
            match snd entry with Some object => emit (e object) | None => skip end) m =
            Done (tt, m, e <$> omap snd l)).
  { induction l as [|[k [o|]] l IH]; simpl; [done|..]; unfold mbind, M_bind; simpl; by rewrite IH. }
  by rewrite H.
Qed.

(** The registry is a finite map: what was registered last under a key is what [_get]
    answers, and null once it is taken out; [_init] and [_destroy] call every object
    once for each name it has, and [_destroy] leaves nothing. *)
Theorem object_factory_is_a_map key key' object m :
  hash_order m ≡ₚ map_to_list m ->
  (exists m', of_register key object m = Done (tt, m', []) /\ of_get key m' = Done (object, m', []) /\
     (key' <> key -> of_get key' m' = Done (value_or (m !! key') None, m', []))) /\
  (exists m', of_unregister key m = Done (tt, m', []) /\ of_get key m' = Done (None, m', []) /\
     (key' <> key -> of_get key' m' = Done (value_or (m !! key') None, m', []))) /\
  (exists objects, objects ≡ₚ omap snd (map_to_list m) /\ of_init m = Done (tt, m, ObjectInit <$> objects) /\
     of_destroy m = Done (tt, ∅, ObjectDestroy <$> objects)).
Proof.
  intros Horder. split; [|split].
  - eexists. split; [reflexivity|]. unfold of_get. run_M. rewrite lookup_insert_eq. split; [done|].
    intros Hne. rewrite lookup_insert_ne by done. by destruct (m !! key').
  - assert (Hun : of_unregister key m = Done (tt, delete key m, [])).
    { unfold of_unregister. run_M. destruct (m !! key) eqn:Hk; [done|]. by rewrite delete_id. }
    exists (delete key m). split; [done|]. unfold of_get. run_M. rewrite lookup_delete_eq. split; [done|].
    intros Hne. rewrite lookup_delete_ne by done. by destruct (m !! key').
  - exists (omap snd (hash_order m)). split; [by rewrite Horder|]. split; [apply of_call_run|].
    unfold of_destroy. rewrite (bind_done _ _ _ _ _ _ (of_call_run ObjectDestroy m)). simpl. by rewrite app_nil_r.
Qed.
End factory.

(** ** Typed observers *)

(** [Observer<T, N>]: the object (weak), the method, by number, and its thread; [ob_type]
    is [N], the notification type, and [ob_class] the template instance. *)
Record Observer : Type := mkObserver {
  ob_class : nat;
  ob_type : nat;
  ob_object : observer_ptr;
  ob_method : option nat;
  ob_scheduleThread : option nat
}.
(** A notification and the types it can be cast to. *)
Record Notification : Type := mkNotification { nf_id : nat; nf_types : list nat }.

(** [(object.get()->*_method)(nf)]. *)
Inductive typed_call : Type := ObserverCall (object method nf : nat).

Definition shouldAccept (nf : Notification) (o : Observer) : bool := existsb (Nat.eqb (ob_type o)) (nf_types nf).
Definition ob_notify (alive : address -> bool) (nf : Notification) (o : Observer) : list typed_call :=
  if negb (shouldAccept nf o) then []
  else match lock alive (ob_object o) with
       | None => []
       | Some object => match ob_method o with Some method => [ObserverCall object method (nf_id nf)] | None => [] end
       end.
Definition ob_equals (alive : address -> bool) (o observer : Observer) : bool :=
  if negb (ob_class observer =? ob_class o)%nat then false
  else match lock alive (ob_object o), lock alive (ob_object observer) with
       | Some a, Some b => (a =? b)%nat && bool_decide (ob_method observer = ob_method o)
       | _, _ => false
       end.
Definition ob_isValid (alive : address -> bool) (o : Observer) : bool :=
  match lock alive (ob_object o), ob_method o with Some _, Some _ => true | _, _ => false end.
Definition ob_clone (o : Observer) : Observer := o.

(** An observer calls at most one method, and does exactly when it is valid and the
    notification is of its type; a clone equals it while the object is alive, and no
    longer. *)
Theorem observer_contract alive nf o :
  (ob_notify alive nf o <> [] <-> shouldAccept nf o = true /\ ob_isValid alive o = true) /\
  (length (ob_notify alive nf o) <= 1)%nat /\
  (ob_equals alive o (ob_clone o) = true <-> exists a, lock alive (ob_object o) = Some a).
Proof.
  unfold ob_notify, ob_isValid, ob_equals, ob_clone. rewrite Nat.eqb_refl. simpl.
  destruct (shouldAccept nf o); simpl; destruct (lock alive (ob_object o)) as [a|]; simpl;
    rewrite ?Nat.eqb_refl; (split; [|split; [destruct (ob_method o); simpl; lia|]]);
    try (destruct (ob_method o); intuition congruence);
    try (split; [by intros|by intros [??]]);
    rewrite bool_decide_true by done; split; eauto.
Qed.

(** ** Lists of weak observers *)

(** [Observable] of [observable.h]; [notify] calls a function that does not exist and
    cannot be instantiated. *)
Definition ol_addObserver (alive : address -> bool) (observers : list observer_ptr) (observer : observer_ptr) :
    list observer_ptr :=
  match lock alive observer with Some _ => observers ++ [observer] | None => observers end.

Definition expired (alive : address -> bool) (w : observer_ptr) : bool :=
  match lock alive w with Some _ => false | None => true end.

(** The [while] loop and the [erase] after it. *)
Fixpoint ol_remove (alive : address -> bool) (target : address) (observers : list observer_ptr) : list observer_ptr :=
  match observers with
  | [] => []
  | w :: l => if expired alive w then ol_remove alive target l
              else if bool_decide (lock alive w = Some target) then l
              else w :: ol_remove alive target l
  end.
Definition ol_removeObserver (alive : address -> bool) (observers : list observer_ptr) (observer : observer_ptr) :
    list observer_ptr :=
  match lock alive observer with None => observers | Some target => ol_remove alive target observers end.
Definition removeInvalid (alive : address -> bool) (observers : list observer_ptr) : list observer_ptr :=
  filter (fun w => expired alive w = false) observers.

(** [removeObserver] takes out the first registration of a live observer and the
    expired entries before it; what is left of the live ones is what the list without
    expired entries would be left with. *)
Theorem removeObserver_first alive observers observer a :
  lock alive observer = Some a ->
  removeInvalid alive (ol_removeObserver alive observers observer) =
    match list_find (fun w => lock alive w = Some a) (removeInvalid alive observers) with
    | Some (i, _) => delete i (removeInvalid alive observers)
    | None => removeInvalid alive observers
    end.
Proof.
  intros Ha. unfold ol_removeObserver. rewrite Ha. unfold removeInvalid.
  induction observers as [|w l IH]; [done|]. cbn [ol_remove]. rewrite filter_cons.
  destruct (expired alive w) eqn:He.
  - rewrite decide_False by congruence. apply IH.
  - rewrite decide_True by done. cbn [list_find]. case_bool_decide as Hw.
    + by rewrite decide_True by done.
    + rewrite decide_False, filter_cons, decide_True, IH by done.
      by destruct (list_find _ _) as [[i x]|].
Qed.

(** ** Singletons *)

(** [Singleton<T>::sharedInstance]: the static pointer and the flag of [call_once].  The
    pointer is returned by reference; [assign] is what a caller may do with it. *)
Record Singleton (T : Type) : Type := mkSingleton { sg_instance : option T; sg_ocf : bool }.
Arguments mkSingleton {T} _ _.
Arguments sg_instance {T} _.
Arguments sg_ocf {T} _.
Definition new_singleton {T} : Singleton T := mkSingleton None false.

Inductive singleton_effect : Type := SgNew.

Section singleton.
Context {T : Type}.
Abbreviation sg_handler := (M (Singleton T) singleton_effect).

(** [t]: what [new T] gives. *)
Definition sharedInstance (t : T) : sg_handler (option T) :=
  s ← get;
  _ ← (if sg_ocf s then skip else _ ← emit SgNew; modify (fun _ => mkSingleton (Some t) true));
  gets sg_instance.
Definition assign (v : option T) : sg_handler unit := modify (fun s => mkSingleton v (sg_ocf s)).

(** Any calls and assignments, each call with what [new] would give it. *)
Definition sg_step (op : T + option T) : sg_handler unit :=
  match op with inl t => _ ← sharedInstance t; skip | inr v => assign v end.

Lemma made_steps (ops : list (T + option T)) s :
  sg_ocf s = true -> exists s', for_each ops sg_step s = Done (tt, s', []) /\ sg_ocf s' = true.
Proof.
  revert s. induction ops as [|[t|v] ops IH]; intros s Hs; [by exists s|..]; cbn [for_each sg_step].
  - destruct (IH s Hs) as (s' & Hrun & Hs'). exists s'. split; [|done].
    unfold sharedInstance. run_M. rewrite Hs. run_M. by rewrite Hrun.
  - destruct (IH (mkSingleton v (sg_ocf s)) Hs) as (s' & Hrun & Hs'). exists s'. split; [|done].
    unfold assign. run_M. by rewrite Hrun.
Qed.

(** The object is made at most once in every history, and only by the first call of
    [sharedInstance]; that call, and those after it as long as nobody assigns to the
    pointer, give the object it made. *)
Theorem singleton_made_once (ops : list (T + option T)) t n :
  (forall s, exists s' es, for_each ops sg_step s = Done (tt, s', es) /\ (length es <= 1)%nat) /\
  (ops = inl <$> repeat t n -> forall u, exists es,
     (_ ← sharedInstance t; _ ← for_each ops sg_step; sharedInstance u) new_singleton =
       Done (Some t, mkSingleton (Some t) true, es) /\ es = [SgNew]).
Proof.
  split.
  - induction ops as [|op ops IH]; intros s; [by exists s, []; split; [|simpl; lia]|].
    destruct (sg_ocf s) eqn:Hs.
    + destruct (made_steps (op :: ops) s Hs) as (s' & Hrun & _). exists s', []. split; [done | simpl; lia].
    + cbn [for_each]. destruct op as [u|v]; cbn [sg_step].
      * destruct (made_steps ops (mkSingleton (Some u) true) eq_refl) as (s' & Hrun & _).
        exists s', [SgNew]. split; [|simpl; lia]. unfold sharedInstance. run_M. rewrite Hs. run_M. by rewrite Hrun.
      * destruct (IH (mkSingleton v (sg_ocf s))) as (s' & es & Hrun & Hes). exists s', es. split; [|done].
        unfold assign. run_M. by rewrite Hrun.
  - intros -> u. exists [SgNew]. split; [|done]. unfold sharedInstance at 1. run_M.
    assert (Hr : for_each (inl <$> repeat t n) sg_step (mkSingleton (Some t) true) = Done (tt, mkSingleton (Some t) true, [])).
    { induction n as [|n IH]; [done|]. cbn [repeat fmap list_fmap for_each sg_step]. unfold sharedInstance. run_M. by rewrite IH. }
    by rewrite Hr.
Qed.
End singleton.

(** [KeyValueNotification]. *)
Record KeyValueNotification (any : Type) : Type := mkKeyValue { m_key : string; m_value : any }.
