(* ===== verification/Logger.v ===== *)
(** * The loggers

    Models [core/logger/spd_logger.{h,cpp}] and [rtc_log_sink.{h,cpp}]: two asynchronous
    loggers, one for the application and libmediasoupclient and one for WebRTC, over the
    registry of spdlog ([third_party/spdlog]: a logger is registered under its name once, and
    writes through the thread pool it was made with, which it does not own).  WebRTC hands a
    message to the sinks in its list; [opens] tells which files can be opened.  Messages
    are texts; patterns, rotation and the levels of the environment, which [init]
    overrides, are left out. *)

From stdpp Require Import base strings list.
From Stdlib Require Import ZArith Lia.
From S2P Require Import Prelude.

#[local] Open Scope string_scope.
#[local] Open Scope list_scope.

(** ** State *)

(** [spdlog::level], [mediasoupclient::Logger::LogLevel] and [rtc::LoggingSeverity]. *)
Inductive level : Type := trace | debug | info | warn | err | critical.
Inductive LogLevel : Type := LOG_NONE | LOG_ERROR | LOG_WARN | LOG_DEBUG | LOG_TRACE.
Inductive LoggingSeverity : Type := LS_VERBOSE | LS_INFO | LS_WARNING | LS_ERROR | LS_NONE.

(** An [async_logger]: its file, whether the console is among its sinks, its thread pool. *)
Record spd_logger : Type := mkSpd { sl_name : string; sl_file : string; sl_console : bool; sl_pool : nat }.

Record Logger : Type := mkLogger {
  lg_appLogger : option spd_logger;
  lg_rtcLogger : option spd_logger;
  lg_rtcLogSink : bool;
  lg_loggers : list string;   (* the names in spdlog's registry *)
  lg_pools : nat;             (* thread pools made so far; the last one lives *)
  lg_stream : bool;           (* the sink is in WebRTC's list *)
  lg_handler : bool           (* libmediasoupclient has a handler *)
}.
Definition new_logger : Logger := mkLogger None None false [""] 0 false false.

Inductive lg_effect : Type :=
| LFile (path : string) (l : level) (message : string)
| LConsole (l : level) (message : string)
| LLost (l : level) (message : string)   (* an error on stderr instead *)
| LFlushLost.                            (* likewise *)

Abbreviation lg_handler_of := (M Logger lg_effect).

Definition lg_set_app (v : option spd_logger) (s : Logger) : Logger :=
  mkLogger v (lg_rtcLogger s) (lg_rtcLogSink s) (lg_loggers s) (lg_pools s) (lg_stream s) (lg_handler s).
Definition lg_set_rtc (v : option spd_logger) (s : Logger) : Logger :=
  mkLogger (lg_appLogger s) v (lg_rtcLogSink s) (lg_loggers s) (lg_pools s) (lg_stream s) (lg_handler s).
Definition lg_set_sink (v : bool) (s : Logger) : Logger :=
  mkLogger (lg_appLogger s) (lg_rtcLogger s) v (lg_loggers s) (lg_pools s) (lg_stream s) (lg_handler s).
Definition lg_set_loggers (f : list string -> list string) (s : Logger) : Logger :=
  mkLogger (lg_appLogger s) (lg_rtcLogger s) (lg_rtcLogSink s) (f (lg_loggers s)) (lg_pools s) (lg_stream s) (lg_handler s).
Definition lg_set_pools (n : nat) (s : Logger) : Logger :=
  mkLogger (lg_appLogger s) (lg_rtcLogger s) (lg_rtcLogSink s) (lg_loggers s) n (lg_stream s) (lg_handler s).
Definition lg_set_stream (v : bool) (s : Logger) : Logger :=
  mkLogger (lg_appLogger s) (lg_rtcLogger s) (lg_rtcLogSink s) (lg_loggers s) (lg_pools s) v (lg_handler s).
Definition lg_set_handler (v : bool) (s : Logger) : Logger :=
  mkLogger (lg_appLogger s) (lg_rtcLogger s) (lg_rtcLogSink s) (lg_loggers s) (lg_pools s) (lg_stream s) v.

(** ** spdlog *)

(** [init_thread_pool]: the pool there was goes. *)
Definition init_thread_pool : lg_handler_of unit := modify (fun s => lg_set_pools (S (lg_pools s)) s).
Definition drop_all : lg_handler_of unit := modify (lg_set_loggers (fun _ => [])).

(** The pool a logger was made with still lives. *)
Definition pooled (l : spd_logger) (s : Logger) : bool := (S (sl_pool l) =? lg_pools s)%nat.

(** [logger->log(level, message)], on a logger whose level lets everything pass. *)
Definition spd_log (l : option spd_logger) (lvl : level) (message : string) : lg_handler_of unit :=
  l ← deref "logger" l;
  s ← get;
  if pooled l s then
    _ ← emit (LFile (sl_file l) lvl message);
    if sl_console l then emit (LConsole lvl message) else skip
  else emit (LLost lvl message).
(** [logger->flush()]. *)
Definition spd_flush (l : option spd_logger) : lg_handler_of unit :=
  l ← deref "logger" l;
  s ← get;
  if pooled l s then skip else emit LFlushLost.

Section logger.
Variable opens : string -> bool.

(** [create_async_nb<rotating_file_sink_mt>(name, path, ...)]. *)
Definition create_async_nb (name path : string) : lg_handler_of spd_logger :=
  if negb (opens path) then throw (Thrown "Failed opening file for writing")
  else
    s ← get;
    if decide (name ∈ lg_loggers s) then throw (Thrown "logger with that name already exists")
    else
      _ ← modify (lg_set_loggers (fun l => name :: l));
      mret (mkSpd name path false (pred (lg_pools s))).

(** ** [Logger] *)

Definition lg_init (log_path : string) : lg_handler_of unit :=
  _ ← init_thread_pool;
  app ← create_async_nb "app" (log_path +:+ "/app.log");
  _ ← modify (lg_set_app (Some (mkSpd (sl_name app) (sl_file app) true (sl_pool app))));
  rtc ← create_async_nb "rtc" (log_path +:+ "/rtc.log");
  _ ← modify (lg_set_rtc (Some rtc));
  s ← get;
  _ ← (if lg_rtcLogSink s then skip
       else _ ← modify (lg_set_sink true); modify (lg_set_stream true));
  modify (lg_set_handler true).
End logger.

Definition lg_destroy : lg_handler_of unit :=
  s ← get;
  _ ← spd_flush (lg_rtcLogger s);
  _ ← spd_flush (lg_appLogger s);
  _ ← drop_all;
  if lg_rtcLogSink s then modify (lg_set_stream false) else skip.

(** The macros [TLOG] to [CLOG], and [TLOG_RTC] to [CLOG_RTC]. *)
Definition app_log (lvl : level) (message : string) : lg_handler_of unit :=
  s ← get; spd_log (lg_appLogger s) lvl message.
Definition rtc_log (lvl : level) (message : string) : lg_handler_of unit :=
  s ← get; spd_log (lg_rtcLogger s) lvl message.

(** [LogHandler::OnLog]. *)
Definition OnLog (lvl : LogLevel) (payload : string) : lg_handler_of unit :=
  match lvl with
  | LOG_TRACE => app_log trace payload
  | LOG_DEBUG => app_log debug payload
  | LOG_WARN => app_log warn payload
  | LOG_ERROR => app_log err payload
  | LOG_NONE => skip
  end.

(** [RTCLogSink::OnLogMessage(message, severity)]; the other two overloads are empty. *)
Definition OnLogMessage (message : string) (severity : LoggingSeverity) : lg_handler_of unit :=
  match severity with
  | LS_VERBOSE => rtc_log trace message
  | LS_INFO => rtc_log info message
  | LS_WARNING => rtc_log warn message
  | LS_ERROR => rtc_log err message
  | LS_NONE => skip
  end.
Definition OnLogMessage_tag (message : string) (severity : LoggingSeverity) (tag : string) : lg_handler_of unit := skip.
Definition OnLogMessage_plain (message : string) : lg_handler_of unit := skip.

(** A message of WebRTC, and one of libmediasoupclient. *)
Definition webrtc_says (severity : LoggingSeverity) (message : string) : lg_handler_of unit :=
  s ← get; if lg_stream s then OnLogMessage message severity else skip.
Definition mediasoup_says (lvl : LogLevel) (payload : string) : lg_handler_of unit :=
  s ← get; if lg_handler s then OnLog lvl payload else skip.

(** ** Theorems *)

(** What a severity and a level of libmediasoupclient become. *)
Definition of_severity (v : LoggingSeverity) : option level :=
  match v with
  | LS_VERBOSE => Some trace | LS_INFO => Some info | LS_WARNING => Some warn | LS_ERROR => Some err | LS_NONE => None
  end.
Definition of_LogLevel (v : LogLevel) : option level :=
  match v with
  | LOG_TRACE => Some trace | LOG_DEBUG => Some debug | LOG_WARN => Some warn | LOG_ERROR => Some err | LOG_NONE => None
  end.

Section facts.
Variable opens : string -> bool.
Variable log_path : string.
Abbreviation app_file := (log_path +:+ "/app.log").
Abbreviation rtc_file := (log_path +:+ "/rtc.log").

(** Both loggers are there and can write. *)
Record writing (s : Logger) : Prop := {
  wr_app : exists l, lg_appLogger s = Some l /\ sl_file l = app_file /\ sl_console l = true /\ pooled l s = true;
  wr_rtc : exists l, lg_rtcLogger s = Some l /\ sl_file l = rtc_file /\ sl_console l = false /\ pooled l s = true
}.

Definition to_app (lvl : level) (message : string) : list lg_effect := [LFile app_file lvl message; LConsole lvl message].
Definition to_rtc (lvl : level) (message : string) : list lg_effect := [LFile rtc_file lvl message].
Definition if_level (o : option level) (f : level -> list lg_effect) : list lg_effect :=
  match o with Some l => f l | None => [] end.

Lemma app_log_writes s lvl message : writing s -> app_log lvl message s = Done (tt, s, to_app lvl message).
Proof.
  intros [(l & Hl & Hf & Hc & Hp) _]. unfold app_log, spd_log. run_M. rewrite Hl. simpl. rewrite Hp, Hc, Hf. reflexivity.
Qed.
Lemma rtc_log_writes s lvl message : writing s -> rtc_log lvl message s = Done (tt, s, to_rtc lvl message).
Proof.
  intros [_ (l & Hl & Hf & Hc & Hp)]. unfold rtc_log, spd_log. run_M. rewrite Hl. simpl. rewrite Hp, Hc, Hf. reflexivity.
Qed.

(** [init] where neither name is taken. *)
Lemma lg_init_run s :
  opens app_file = true -> opens rtc_file = true -> "app" ∉ lg_loggers s -> "rtc" ∉ lg_loggers s ->
  exists s', lg_init opens log_path s = Done (tt, s', []) /\ writing s' /\ lg_rtcLogSink s' = true /\
    lg_handler s' = true /\ lg_stream s' = (if lg_rtcLogSink s then lg_stream s else true) /\
    lg_loggers s' = "rtc" :: "app" :: lg_loggers s.
Proof.
  intros Ha Hr Hna Hnr. destruct s as [a r sink names pools stream handler]. cbn [lg_loggers lg_rtcLogSink lg_stream] in *.
  unfold lg_init, init_thread_pool, create_async_nb. rewrite Ha, Hr. cbn [negb].
  unfold mbind, M_bind, modify, get, mret, M_ret. cbn [lg_set_pools lg_pools lg_loggers].
  rewrite decide_False by done.
  cbn [lg_set_loggers lg_set_app lg_appLogger lg_rtcLogger lg_rtcLogSink lg_loggers lg_pools lg_stream lg_handler].
  rewrite decide_False by (by intros [?|?]%elem_of_cons).
  destruct sink; cbn; (eexists; split; [reflexivity|]); cbn; (split; [|done]); split; eexists;
    (split; [reflexivity|]); cbn; unfold pooled; cbn; by rewrite Nat.eqb_refl.
Qed.

Lemma lg_destroy_run s :
  writing s -> lg_destroy s =
    Done (tt, lg_set_stream (if lg_rtcLogSink s then false else lg_stream s) (lg_set_loggers (fun _ => []) s), []).
Proof.
  intros [(a & Ha & _ & _ & Hpa) (r & Hr & _ & _ & Hpr)]. unfold lg_destroy, spd_flush. run_M. rewrite Hr, Ha. run_M.
  rewrite Hpr, Hpa. by destruct s as [? ? [] ? ? ? ?].
Qed.

(** [destroy] empties the registry. *)
Lemma lg_destroy_drops s : wlp lg_destroy (fun _ s' _ => lg_loggers s' = []) s.
Proof. unfold lg_destroy, spd_flush, drop_all. by wlp_run. Qed.

Lemma lg_init_names s : wlp (lg_init opens log_path) (fun _ s' _ => "app" ∈ lg_loggers s') s.
Proof.
  unfold lg_init, init_thread_pool, create_async_nb. wlp_run; cbn; right; left.
Qed.

(** Where the messages go once the loggers are made: those of the program and of
    libmediasoupclient to the file and the console of [app], those of WebRTC, while its
    sink is in the list, to the file of [rtc], each at the level of its severity; the one
    severity and the one level without a counterpart are dropped. *)
Theorem logger_routes s lvl message :
  opens app_file = true -> opens rtc_file = true -> "app" ∉ lg_loggers s -> "rtc" ∉ lg_loggers s -> lg_rtcLogSink s = false ->
  exists s', lg_init opens log_path s = Done (tt, s', []) /\
    app_log lvl message s' = Done (tt, s', to_app lvl message) /\
    (forall v payload, mediasoup_says v payload s' = Done (tt, s', if_level (of_LogLevel v) (fun l => to_app l payload))) /\
    (forall v text, webrtc_says v text s' = Done (tt, s', if_level (of_severity v) (fun l => to_rtc l text))).
Proof.
  intros Ha Hr Hna Hnr Hsink. destruct (lg_init_run s Ha Hr Hna Hnr) as (s' & Hrun & Hw & _ & Hh & Hs & _). rewrite Hsink in Hs.
  exists s'. split; [exact Hrun|]. split; [by apply app_log_writes|]. split.
  - intros v payload. unfold mediasoup_says, mbind, M_bind, get. rewrite Hh.
    destruct v; cbn [OnLog of_LogLevel if_level]; rewrite ?app_log_writes by done; reflexivity.
  - intros v text. unfold webrtc_says, mbind, M_bind, get. rewrite Hs.
    destruct v; cbn [OnLogMessage of_severity if_level]; rewrite ?rtc_log_writes by done; reflexivity.
Qed.

(** C33: after [destroy] and a second [init] the log of WebRTC is lost: [destroy] takes the
    sink out of WebRTC's list and keeps it, and [init] adds it only when it makes it.  The
    loggers are there and the program's messages are written; nothing WebRTC says is,
    however often the pair is repeated. *)
Theorem restart_loses_rtc_log s n :
  opens app_file = true -> opens rtc_file = true -> writing s -> lg_rtcLogSink s = true ->
  exists s', for_each (replicate (S n) tt) (fun _ => _ ← lg_destroy; lg_init opens log_path) s = Done (tt, s', []) /\
    (forall lvl message, app_log lvl message s' = Done (tt, s', to_app lvl message)) /\
    (forall v text, webrtc_says v text s' = Done (tt, s', [])).
Proof.
  intros Ha Hr Hw Hsink.
  enough (Hn : forall k s, writing s -> lg_rtcLogSink s = true -> (k = 0%nat -> lg_stream s = false) ->
    exists s', for_each (replicate k tt) (fun _ => _ ← lg_destroy; lg_init opens log_path) s = Done (tt, s', []) /\
      writing s' /\ lg_stream s' = false).
  { destruct (Hn (S n) s Hw Hsink ltac:(done)) as (s' & Hrun & Hw' & Hst). exists s'. split; [exact Hrun|].
    split; [intros lvl message; by apply app_log_writes|]. intros v text. unfold webrtc_says, mbind, M_bind, get. by rewrite Hst. }
  clear s Hw Hsink. induction k as [|k IH]; intros s Hw Hsink Hst; [by exists s; auto|]. cbn [replicate for_each].
  set (s1 := lg_set_stream false (lg_set_loggers (fun _ => []) s)).
  assert (Hd : lg_destroy s = Done (tt, s1, [])) by (by rewrite (lg_destroy_run s Hw), Hsink).
  destruct (lg_init_run s1 Ha Hr) as (s2 & Hrun & Hw2 & Hsink2 & _ & Hst2 & _); [by apply not_elem_of_nil..|].
  destruct (IH s2 Hw2 Hsink2) as (s3 & H3 & Hw3 & Hst3).
  { intros _. rewrite Hst2. cbn. by rewrite Hsink. }
  exists s3. split; [|done].
  assert (Hboth : (_ ← lg_destroy; lg_init opens log_path) s = Done (tt, s2, [])) by (by rewrite (bind_done _ _ _ _ _ _ Hd), Hrun).
  by rewrite (bind_done _ _ _ _ _ _ Hboth), H3.
Qed.

(** A second [init] without [destroy] throws; it has by then replaced the thread pool the
    loggers write through, and every message afterwards is lost.  Before the first
    [init] every log statement, and [destroy], dereference null. *)
Theorem logger_misuse s lvl message :
  (opens app_file = true -> "app" ∈ lg_loggers s ->
     lg_init opens log_path s = Fault (Thrown "logger with that name already exists")) /\
  (writing s -> (_ ← init_thread_pool; app_log lvl message) s = Done (tt, lg_set_pools (S (lg_pools s)) s, [LLost lvl message])) /\
  app_log lvl message new_logger = Fault (NullDeref "logger") /\ lg_destroy new_logger = Fault (NullDeref "logger").
Proof.
  split; [|split; [|done]].
  - intros Ho Hin. unfold lg_init, init_thread_pool, create_async_nb. rewrite Ho. cbn [negb].
    unfold mbind, M_bind, modify, get. cbn [lg_set_pools lg_loggers]. by rewrite decide_True.
  - intros [(l & Hl & _ & _ & Hp) _]. unfold app_log, spd_log, init_thread_pool. run_M. rewrite Hl. simpl.
    unfold pooled in *. apply Nat.eqb_eq in Hp. cbn [lg_set_pools lg_pools].
    replace (S (sl_pool l) =? S (lg_pools s))%nat with false; [done|]. symmetry. apply Nat.eqb_neq. lia.
Qed.
End facts.

(** ** Witnesses *)

Definition every_file : string -> bool := fun _ => true.
Definition logging : Logger :=
  match lg_init every_file "logs" new_logger with Done (_, s, _) => s | Fault _ => new_logger end.

Lemma logging_writes : writing "logs" logging.
Proof. split; eexists; (split; [vm_compute; reflexivity|]); repeat split. Qed.

Lemma logger_routes_witness : exists s',
  lg_init every_file "logs" new_logger = Done (tt, s', []) /\
  app_log info "hello" s' = Done (tt, s', to_app "logs" info "hello") /\
  webrtc_says LS_WARNING "hm" s' = Done (tt, s', [LFile "logs/rtc.log" warn "hm"]).
Proof.
  destruct (logger_routes every_file "logs" new_logger info "hello" eq_refl eq_refl) as (s' & Hrun & Happ & _ & Hrtc);
    [by intros ?%list_elem_of_singleton.. | done|].
  exists s'. split; [exact Hrun|]. split; [exact Happ|]. exact (Hrtc LS_WARNING "hm").
Defined.

Lemma restart_loses_rtc_log_witness : exists s',
  for_each (replicate 2 tt) (fun _ => _ ← lg_destroy; lg_init every_file "logs") logging = Done (tt, s', []) /\
  (forall lvl message, app_log lvl message s' = Done (tt, s', to_app "logs" lvl message)) /\
  (forall v text, webrtc_says v text s' = Done (tt, s', [])).
Proof. exact (restart_loses_rtc_log every_file "logs" logging 1 eq_refl eq_refl logging_writes eq_refl). Defined.

Lemma logger_misuse_witness :
  lg_init every_file "logs" logging = Fault (Thrown "logger with that name already exists") /\
  (_ ← init_thread_pool; app_log info "hello") logging = Done (tt, lg_set_pools 2 logging, [LLost info "hello"]).
Proof.
  destruct (logger_misuse every_file "logs" logging info "hello") as (H1 & H2 & _). split.
  - apply H1; [reflexivity|]. vm_compute. right. left.
  - exact (H2 logging_writes).
Defined.
