(* ===== verification/WebsocketRequest.v ===== *)
(** * Pending requests

    Models [core/websocket/websocket_request.h] and the timeout that
    [SignalingClient::send] computes for a request.  A callback is a value of an
    arbitrary type [CB]; calling it is an effect. *)

From stdpp Require Import base strings list.
From Stdlib Require Import ZArith Lia SpecFloat.
From S2P Require Import Prelude.

#[local] Open Scope Z_scope.

(** A call of a request's [ResolveCallback] or [RejectCallback]. *)
Inductive request_call (CB : Type) : Type :=
| Resolve (cb : CB) (json : string)
| Reject (cb : CB) (errorCode : Z) (errorInfo : string).
Arguments Resolve {CB}.
Arguments Reject {CB}.

(** The class's members; [wr_timer] says whether the steady timer is pending. *)
Record WebsocketRequest (CB : Type) : Type := mkRequest {
  wr_id : Z;
  wr_text : string;
  wr_data : list Z;
  wr_resolve : option CB;
  wr_reject : option CB;
  wr_timeout : Z;
  wr_timer : bool
}.
Arguments mkRequest {CB}.
Arguments wr_id {CB}.
Arguments wr_text {CB}.
Arguments wr_data {CB}.
Arguments wr_resolve {CB}.
Arguments wr_reject {CB}.
Arguments wr_timeout {CB}.
Arguments wr_timer {CB}.

Section request.
Context {CB : Type}.
Implicit Types r : WebsocketRequest CB.

Definition new_request (id timeout : Z) : WebsocketRequest CB :=
  mkRequest id EmptyString [] None None timeout false.

(** [int32_t id() { return _id; }]: the 64-bit id is narrowed. *)
Definition request_id r : Z := wrap32 (wr_id r).

Definition setText (text : string) r : WebsocketRequest CB :=
  mkRequest (wr_id r) text (wr_data r) (wr_resolve r) (wr_reject r) (wr_timeout r) (wr_timer r).
Definition setData (data : list Z) r : WebsocketRequest CB :=
  mkRequest (wr_id r) (wr_text r) data (wr_resolve r) (wr_reject r) (wr_timeout r) (wr_timer r).
Definition setResolveCallback (cb : option CB) r : WebsocketRequest CB :=
  mkRequest (wr_id r) (wr_text r) (wr_data r) cb (wr_reject r) (wr_timeout r) (wr_timer r).
Definition setRejectCallback (cb : option CB) r : WebsocketRequest CB :=
  mkRequest (wr_id r) (wr_text r) (wr_data r) (wr_resolve r) cb (wr_timeout r) (wr_timer r).
Definition set_timer (b : bool) r : WebsocketRequest CB :=
  mkRequest (wr_id r) (wr_text r) (wr_data r) (wr_resolve r) (wr_reject r) (wr_timeout r) b.

Definition ticktock r : WebsocketRequest CB := set_timer true r.

Definition request_resolve r (json : string) : WebsocketRequest CB * list (request_call CB) :=
  (set_timer false r,
   match wr_resolve r with Some cb => [Resolve cb json] | None => [] end).

Definition request_reject r (errorCode : Z) (errorInfo : string) :
    WebsocketRequest CB * list (request_call CB) :=
  (set_timer false r,
   match wr_reject r with Some cb => [Reject cb errorCode errorInfo] | None => [] end).

(** The timer's handler: the call of [_reject] is commented out. *)
Definition request_timeout r : WebsocketRequest CB * list (request_call CB) :=
  (set_timer false r, []).

Definition request_close r : WebsocketRequest CB * list (request_call CB) :=
  (set_timer false r,
   match wr_reject r with Some cb => [Reject cb 2 "connection closed"%string] | None => [] end).
End request.

(** ** The timeout *)

(** [uint32_t timeout = 1500 * (15 + (0.1 * n))] in binary64, truncated. *)
Definition double_of_Z (z : Z) : spec_float := binary_normalize 53 1024 z 0 false.
Definition double_0_1 : spec_float := S754_finite false 7205759403792794 (-56).
Definition trunc_double (d : spec_float) : Z :=
  match d with
  | S754_finite s m e => cond_Zopp s (Z.shiftl (Zpos m) e)
  | _ => 0
  end.
Definition send_timeout (n : Z) : Z :=
  trunc_double (SFmul 53 1024 (double_of_Z 1500)
                  (SFadd 53 1024 (double_of_Z 15) (SFmul 53 1024 double_0_1 (double_of_Z n)))).

(** Checks a predicate on the [fuel] integers from [lo] on. *)
Fixpoint check_range (P : Z -> bool) (lo : Z) (fuel : nat) : bool :=
  match fuel with
  | O => true
  | S fuel => P lo && check_range P (lo + 1) fuel
  end.

Lemma check_range_spec P lo fuel n :
  check_range P lo fuel = true -> lo <= n < lo + Z.of_nat fuel -> P n = true.
Proof.
  revert lo. induction fuel as [|fuel IH]; simpl; intros lo Hc Hn; [lia|].
  apply andb_true_iff in Hc as [H0 Hc]. destruct (decide (n = lo)) as [->|Hne]; [done|].
  apply (IH (lo + 1)); [done | lia].
Qed.

(** The timeout given to a request is within one millisecond of
    22500 + 150 * (number of pending requests), for up to 2000 pending requests:
    it stays inside [uint32_t], and more pending requests never shorten it by
    more than the rounding. *)
Lemma send_timeout_bounds n :
  0 <= n < 2000 -> 22500 + 150 * n - 1 <= send_timeout n <= 22500 + 150 * n.
Proof.
  intros Hn.
  set (P := fun k => (22500 + 150 * k - 1 <=? send_timeout k) && (send_timeout k <=? 22500 + 150 * k)).
  assert (Hc : check_range P 0 2000 = true) by (vm_compute; reflexivity).
  pose proof (check_range_spec P 0 2000 n Hc ltac:(lia)) as H. unfold P in H.
  rewrite andb_true_iff, !Z.leb_le in H. exact H.
Qed.

Lemma send_timeout_bounds_witness : 22799 <= send_timeout 2 <= 22800.
Proof. apply (send_timeout_bounds 2). lia. Defined.
