(* ===== verification/Websocket.v ===== *)
(** * The websocket layer

    Models [core/websocket]: the metadata of a connection
    ([connection_metadata.h]), the endpoint that owns the connections, in its
    plain and TLS versions ([websocket_endpoint.cpp],
    [tls_websocket_endpoint.cpp], with the certificate checks of the latter), and
    the transport over an endpoint ([websocket_transport.h], a template over the
    endpoint's class: here over [IWebsocketEndpoint]).

    websocketpp is seen through the effects (connections started, frames sent,
    closings asked for) and through what it reports: whether a URI and a
    subprotocol are accepted, and the events of a connection, delivered with what
    the connection object says at that moment.  Each connection object it makes
    has a new handle.  OpenSSL's certificate is the record [X509] of what the
    checks read. *)

From stdpp Require Import base gmap strings list pretty sorting.
From Stdlib Require Import ZArith Lia Ascii.
From S2P Require Import Prelude Strings Json Observable.

#[local] Open Scope string_scope.
#[local] Open Scope list_scope.

(** ** Data *)

(** What is sent in a frame, by opcode. *)
Inductive ws_frame : Type :=
| FText (data : string)
| FBinary (data : list Z)
| FPing (data : string)
| FPong (data : string).

(** The calls of [IConnectionObserver]. *)
Inductive conn_event : Type :=
| OnOpen
| OnFail (errorCode : Z) (reason : string)
| OnClose (closeCode : Z) (reason : string)
| OnValidate
| OnTextMessage (text : string)
| OnBinaryMessage (data : list Z)
| OnPing (text : string)
| OnPong (text : string)
| OnPongTimeout (text : string).

(** What the handlers of [ConnectionMetadata] are called with.  The connection
    object [con] answers with its [Server] header, its error code and message, its
    close code, the name [websocketpp::close::status::get_string] gives that code,
    and its close reason. *)
Inductive net_event : Type :=
| NetOpen (server : string)
| NetFail (server : string) (ec : Z) (message : string)
| NetClose (code : Z) (code_string reason : string)
| NetValidate
| NetMessage (frame : ws_frame)
| NetPing (msg : string)
| NetPong (msg : string)
| NetPongTimeout (msg : string).

Record ConnectionMetadata : Type := mkMetadata {
  md_id : Z;
  md_hdl : nat;
  md_status : string;
  md_uri : string;
  md_server : string;
  md_errorReason : string;
  md_observer : observer_ptr        (* [std::weak_ptr<IConnectionObserver>] *)
}.

Definition new_metadata (id : Z) (hdl : nat) (uri : string) (observer : observer_ptr) : ConnectionMetadata :=
  mkMetadata id hdl "Connecting" uri "N/A" "" observer.

Definition md_update (status server errorReason : string) (m : ConnectionMetadata) : ConnectionMetadata :=
  mkMetadata (md_id m) (md_hdl m) status (md_uri m) server errorReason (md_observer m).

Section metadata.
(** The objects alive when the handler runs. *)
Variable alive : address -> bool.

(** [if (auto observer = _observer.lock()) observer->...]. *)
Definition call_observer (m : ConnectionMetadata) (e : conn_event) : list (address * conn_event) :=
  match lock alive (md_observer m) with Some a => [(a, e)] | None => [] end.

Definition md_onOpen (server : string) (m : ConnectionMetadata) :=
  (md_update "Open" server (md_errorReason m) m, call_observer m OnOpen).

Definition md_onFail (server : string) (ec : Z) (message : string) (m : ConnectionMetadata) :=
  (md_update "Failed" server message m, call_observer m (OnFail ec message)).

Definition md_onClose (code : Z) (code_string reason : string) (m : ConnectionMetadata) :=
  let s := "close code: " +:+ pretty code +:+ " (" +:+ code_string +:+ "), close reason: " +:+ reason in
  (md_update "Closed" (md_server m) s m, call_observer m (OnClose code s)).

Definition md_onValidate (m : ConnectionMetadata) := (m, call_observer m OnValidate).

Definition md_onMessage (frame : ws_frame) (m : ConnectionMetadata) :=
  (m, match frame with
      | FText text => call_observer m (OnTextMessage text)
      | FBinary data => call_observer m (OnBinaryMessage data)
      | _ => []
      end).

Definition md_onPing (msg : string) (m : ConnectionMetadata) := (m, call_observer m (OnPing msg)).
Definition md_onPong (msg : string) (m : ConnectionMetadata) := (m, call_observer m (OnPong msg)).
Definition md_onPongTimeout (msg : string) (m : ConnectionMetadata) := (m, call_observer m (OnPongTimeout msg)).

(** [connect] binds a handler for every event except the validation. *)
Definition md_event (e : net_event) (m : ConnectionMetadata) : ConnectionMetadata * list (address * conn_event) :=
  match e with
  | NetOpen server => md_onOpen server m
  | NetFail server ec message => md_onFail server ec message m
  | NetClose code code_string reason => md_onClose code code_string reason m
  | NetValidate => (m, [])
  | NetMessage frame => md_onMessage frame m
  | NetPing msg => md_onPing msg m
  | NetPong msg => md_onPong msg m
  | NetPongTimeout msg => md_onPongTimeout msg m
  end.
End metadata.

(** ** The endpoint *)

Inductive ws_effect : Type :=
| WConnect (hdl : nat) (uri subprotocol : string)
| WSend (hdl : nat) (frame : ws_frame)
| WClose (hdl : nat) (code : Z) (reason : string)
| WObserver (observer : address) (e : conn_event).

(** [ep_nextId] is an [int]: [_nextId++] on the largest one is undefined, a fault.
    [ep_hdls]: how many connection objects [_endpoint] has made. *)
Record WebsocketEndpoint : Type := mkEndpoint {
  ep_connectionList : gmap Z ConnectionMetadata;
  ep_nextId : Z;
  ep_hdls : nat
}.

Definition new_endpoint : WebsocketEndpoint := mkEndpoint ∅ 0 0.

Definition ep_set_list (f : gmap Z ConnectionMetadata -> gmap Z ConnectionMetadata) (s : WebsocketEndpoint) :=
  mkEndpoint (f (ep_connectionList s)) (ep_nextId s) (ep_hdls s).

Abbreviation ep_handler := (M WebsocketEndpoint ws_effect).

(** The entries of a [std::map<int, ...>] in iteration order. *)
Definition key_le {A} (a b : Z * A) : Prop := (a.1 <= b.1)%Z.
#[global] Instance key_le_dec {A} (a b : Z * A) : Decision (key_le a b) := Z_le_dec a.1 b.1.
Definition in_key_order {A} (m : gmap Z A) : list (Z * A) := merge_sort key_le (map_to_list m).

(** [_connectionList.find(id)] and the early return. *)
Definition with_connection (id : Z) (body : ConnectionMetadata -> ep_handler unit) : ep_handler unit :=
  m ← gets ep_connectionList;
  match m !! id with
  | None => skip
  | Some metadata => body metadata
  end.

Definition ep_close (id code : Z) (reason : string) : ep_handler unit :=
  with_connection id (fun md => emit (WClose (md_hdl md) code reason)).
Definition ep_sendText (id : Z) (data : string) : ep_handler unit :=
  with_connection id (fun md => emit (WSend (md_hdl md) (FText data))).
Definition ep_sendBinary (id : Z) (data : list Z) : ep_handler unit :=
  with_connection id (fun md => emit (WSend (md_hdl md) (FBinary data))).
Definition ep_sendPing (id : Z) (data : string) : ep_handler unit :=
  with_connection id (fun md => emit (WSend (md_hdl md) (FPing data))).
Definition ep_sendPong (id : Z) (data : string) : ep_handler unit :=
  with_connection id (fun md => emit (WSend (md_hdl md) (FPong data))).

Definition ep_getMetadata (id : Z) : ep_handler (option ConnectionMetadata) :=
  m ← gets ep_connectionList; mret (m !! id).

(** The destructor: [going_away] is 1001. *)
Definition ep_destroy : ep_handler unit :=
  m ← gets ep_connectionList;
  for_each (in_key_order m) (fun it =>
    if decide (md_status it.2 <> "Open") then skip
    else emit (WClose (md_hdl it.2) 1001 "")).

(** An event of the connection [id] reaches the metadata bound to it. *)
Definition ep_event (alive : address -> bool) (id : Z) (e : net_event) : ep_handler unit :=
  with_connection id (fun md =>
    let (md', calls) := md_event alive e md in
    _ ← modify (ep_set_list <[id := md']>);
    emits ((fun c => WObserver c.1 c.2) <$> calls)).

Section connect.
(** Whether [get_connection] and [add_subprotocol] report no error. *)
Variable get_connection : string -> bool.
Variable add_subprotocol : string -> bool.

Definition ep_connect (uri : string) (observer : observer_ptr) (subprotocol : string) : ep_handler Z :=
  if negb (get_connection uri) then mret (-1)%Z
  else
    s ← get;
    let hdl := ep_hdls s in
    _ ← modify (fun s => mkEndpoint (ep_connectionList s) (ep_nextId s) (S (ep_hdls s)));
    if negb (bool_decide (subprotocol = "")) && negb (add_subprotocol subprotocol) then mret (-1)%Z
    else
      let newId := ep_nextId s in
      _ ← (if (newId =? INT32_MAX)%Z then throw (Thrown "signed overflow of _nextId")
           else modify (fun s => mkEndpoint (ep_connectionList s) (newId + 1)%Z (ep_hdls s)));
      _ ← modify (ep_set_list <[newId := new_metadata newId hdl uri observer]>);
      _ ← emit (WConnect hdl uri subprotocol);
      mret newId.
End connect.

(** ** TLS *)

(** [GENERAL_NAME]: a DNS name (its ASN.1 string may hold a NUL), or another kind. *)
Inductive general_name : Type :=
| GEN_DNS (data : string)
| GEN_OTHER.

(** What the checks read of an [X509] certificate: the list of subject alternative
    names ([None]: [X509_get_ext_d2i] gives null), and, when the subject has a
    common name ([X509_NAME_get_index_by_NID] is not negative), the data of its
    entry ([None]: the entry or its data is null). *)
Record X509 : Type := mkX509 {
  x509_san_names : option (list general_name);
  x509_common_name : option (option string)
}.

(** [strcasecmp(a, b) == 0] on the C strings at the start of [a] and [b]. *)
Fixpoint equal_nocase (a b : string) : bool :=
  match a, b with
  | EmptyString, EmptyString => true
  | String.String x a, String.String y b => Ascii.eqb (tolower x) (tolower y) && equal_nocase a b
  | _, _ => false
  end.
Definition strcasecmp_0 (a b : string) : bool := equal_nocase (c_str a) (c_str b).

(** [ASN1_STRING_length(s) != strlen(data)]. *)
Definition embedded_nul (s : string) : bool := negb (String.length s =? String.length (c_str s))%nat.

(** The loop over the names, from the value [result] has. *)
Fixpoint san_loop (hostname : string) (names : list general_name) (result : bool) : bool :=
  match names with
  | [] => result
  | GEN_OTHER :: names => san_loop hostname names result
  | GEN_DNS dns_name :: names =>
      if embedded_nul dns_name then result
      else san_loop hostname names (strcasecmp_0 hostname dns_name)
  end.

Definition verify_subject_alternative_name (hostname : string) (cert : X509) : bool :=
  match x509_san_names cert with
  | None => false
  | Some san_names => san_loop hostname san_names false
  end.

Definition verify_common_name (hostname : string) (cert : X509) : bool :=
  match x509_common_name cert with
  | None => false
  | Some None => false
  | Some (Some common_name_str) =>
      if embedded_nul common_name_str then false else strcasecmp_0 hostname common_name_str
  end.

Definition verify_certificate (hostname : string) (preverified : bool) (depth : Z) (cert : X509) : bool :=
  if (depth =? 0)%Z && preverified then
    if verify_subject_alternative_name hostname cert then true
    else if verify_common_name hostname cert then true else false
  else preverified.

(** The calls [on_tls_init] makes on the [asio::ssl::context]. *)
Inductive tls_option : Type := default_workarounds | no_sslv2 | no_sslv3 | single_dh_use.
Inductive tls_verify_mode : Type := verify_none | verify_peer.
Inductive tls_setting : Type :=
| SetOptions (options : list tls_option)
| SetVerifyMode (mode : tls_verify_mode)
| SetVerifyCallback (hostname : string).

(** The settings made before the first that throws; [throws] is asio's. *)
Fixpoint until_throw (throws : tls_setting -> bool) (settings : list tls_setting) : list tls_setting :=
  match settings with
  | [] => []
  | x :: l => if throws x then [] else x :: until_throw throws l
  end.

Definition on_tls_init (throws : tls_setting -> bool) (hostname : string) : list tls_setting :=
  until_throw throws
    [SetOptions [default_workarounds; no_sslv2; no_sslv3; single_dh_use];
     SetVerifyMode verify_none;
     SetVerifyCallback hostname].

(** [TLSWebsocketEndpoint] has the members and the text of [WebsocketEndpoint]
    over a TLS client; its constructor also installs the TLS handler. *)
Record TLSWebsocketEndpoint : Type := mkTls {
  tls_base : WebsocketEndpoint;
  tls_init_handler : (tls_setting -> bool) -> list tls_setting
}.

Definition new_tls_endpoint : TLSWebsocketEndpoint :=
  mkTls new_endpoint (fun throws => on_tls_init throws "").

Definition tls_set_base (b : WebsocketEndpoint) (s : TLSWebsocketEndpoint) := mkTls b (tls_init_handler s).

Abbreviation tls_handler := (M TLSWebsocketEndpoint ws_effect).
Definition on_base {A} (m : ep_handler A) : tls_handler A := zoom tls_base tls_set_base (fun e => e) m.

Definition tls_connect (get_connection add_subprotocol : string -> bool) (uri : string)
    (observer : observer_ptr) (subprotocol : string) : tls_handler Z :=
  on_base (ep_connect get_connection add_subprotocol uri observer subprotocol).
Definition tls_close (id code : Z) (reason : string) : tls_handler unit := on_base (ep_close id code reason).
Definition tls_sendText (id : Z) (data : string) : tls_handler unit := on_base (ep_sendText id data).
Definition tls_sendBinary (id : Z) (data : list Z) : tls_handler unit := on_base (ep_sendBinary id data).
Definition tls_sendPing (id : Z) (data : string) : tls_handler unit := on_base (ep_sendPing id data).
Definition tls_sendPong (id : Z) (data : string) : tls_handler unit := on_base (ep_sendPong id data).
Definition tls_getMetadata (id : Z) : tls_handler (option ConnectionMetadata) := on_base (ep_getMetadata id).
Definition tls_event (alive : address -> bool) (id : Z) (e : net_event) : tls_handler unit :=
  on_base (ep_event alive id e).
Definition tls_destroy : tls_handler unit := on_base ep_destroy.

(** ** The transport *)

(** What [WebsocketTransport<T>] uses of its endpoint class. *)
Class IWebsocketEndpoint (T : Type) : Type := {
  t_new : T;
  t_connect : string -> observer_ptr -> string -> M T ws_effect Z;
  t_close : Z -> Z -> string -> M T ws_effect unit;
  t_sendText : Z -> string -> M T ws_effect unit;
  t_sendBinary : Z -> list Z -> M T ws_effect unit;
  t_event : (address -> bool) -> Z -> net_event -> M T ws_effect unit;
  t_destroy : M T ws_effect unit
}.

Definition plain_interface (get_connection add_subprotocol : string -> bool) :
    IWebsocketEndpoint WebsocketEndpoint := {|
  t_new := new_endpoint;
  t_connect := ep_connect get_connection add_subprotocol;
  t_close := ep_close;
  t_sendText := ep_sendText;
  t_sendBinary := ep_sendBinary;
  t_event := ep_event;
  t_destroy := ep_destroy
|}.

Definition tls_interface (get_connection add_subprotocol : string -> bool) :
    IWebsocketEndpoint TLSWebsocketEndpoint := {|
  t_new := new_tls_endpoint;
  t_connect := tls_connect get_connection add_subprotocol;
  t_close := tls_close;
  t_sendText := tls_sendText;
  t_sendBinary := tls_sendBinary;
  t_event := tls_event;
  t_destroy := tls_destroy
|}.

(** The calls of [ITransportObserver]. *)
Inductive transport_event : Type :=
| TOnOpened
| TOnClosed
| TOnFailed (errorCode : Z) (reason : string)
| TOnMessage (json : string).

Inductive tr_effect : Type :=
| TEndpoint (e : ws_effect)
| TNotify (e : transport_event).

Record WebsocketTransport (T : Type) : Type := mkTransport {
  tr_url : string;
  tr_connectionId : Z;
  tr_websocket : option T;
  tr_observers : list inner_object
}.
Arguments mkTransport {T}.
Arguments tr_url {T}.
Arguments tr_connectionId {T}.
Arguments tr_websocket {T}.
Arguments tr_observers {T}.

Section transport.
Context {T : Type} `{IWebsocketEndpoint T}.
(** The transport's own address, and [_thread]. *)
Variable self : address.
Variable thread : option nat.

Abbreviation tr_handler := (M (WebsocketTransport T) tr_effect).
Implicit Types s : WebsocketTransport T.

Definition new_transport : WebsocketTransport T := mkTransport "" (-1) None [].

Definition tr_set_url (url : string) s := mkTransport url (tr_connectionId s) (tr_websocket s) (tr_observers s).
Definition tr_set_id (id : Z) s := mkTransport (tr_url s) id (tr_websocket s) (tr_observers s).
Definition tr_set_websocket (w : option T) s :=
  mkTransport (tr_url s) (tr_connectionId s) w (tr_observers s).
Definition tr_set_observers (f : list inner_object -> list inner_object) s :=
  mkTransport (tr_url s) (tr_connectionId s) (tr_websocket s) (f (tr_observers s)).

Definition tr_init : tr_handler unit := skip.
Definition tr_destroy : tr_handler unit := skip.

Definition isValid s : bool :=
  match tr_websocket s with Some _ => negb (tr_connectionId s =? -1)%Z | None => false end.

Definition tr_addObserver (alive : address -> bool) (observer : observer_ptr) : tr_handler unit :=
  modify (tr_set_observers (fun l => addWeakObserver alive l observer thread)).
Definition tr_removeObserver (alive : address -> bool) (observer : observer_ptr) : tr_handler unit :=
  modify (tr_set_observers (fun l => Observable.removeObserver alive l observer)).

(** [_websocket->...]. *)
Definition websocket {A} (m : M T ws_effect A) : tr_handler A :=
  s ← get;
  w ← deref "_websocket" (tr_websocket s);
  zoom (fun _ => w) (fun w' => tr_set_websocket (Some w')) TEndpoint m.

(** [_websocket = w]: the endpoint it pointed to, which no one else owns, is destroyed. *)
Definition assign_websocket (w : option T) : tr_handler unit :=
  s ← get;
  _ ← modify (tr_set_websocket w);
  match tr_websocket s with
  | None => skip
  | Some old => zoom (fun _ => old) (fun _ s => s) TEndpoint t_destroy
  end.

Definition tr_connect (url subprotocol : string) : tr_handler unit :=
  _ ← modify (tr_set_url url);
  _ ← assign_websocket (Some t_new);
  id ← websocket (t_connect url (Some self) subprotocol);
  modify (tr_set_id id).

(** [close::status::normal] is 1000. *)
Definition tr_disconnect : tr_handler unit :=
  s ← get;
  if isValid s then
    _ ← websocket (t_close (tr_connectionId s) 1000 "");
    _ ← modify (tr_set_id (-1)%Z);
    assign_websocket None
  else skip.

Definition tr_sendText (text : string) : tr_handler unit :=
  if decide (text = "") then skip
  else s ← get; websocket (t_sendText (tr_connectionId s) text).
Definition tr_sendData (data : list Z) : tr_handler unit :=
  match data with
  | [] => skip
  | _ => s ← get; websocket (t_sendBinary (tr_connectionId s) data)
  end.

(** The transport as [IConnectionObserver]; the callbacks without effect only log. *)
Definition tr_onConnection (e : conn_event) : tr_handler unit :=
  match e with
  | OnOpen => emit (TNotify TOnOpened)
  | OnFail errorCode reason => emit (TNotify (TOnFailed errorCode reason))
  | OnClose _ _ => emit (TNotify TOnClosed)
  | OnTextMessage json => emit (TNotify (TOnMessage json))
  | OnValidate | OnBinaryMessage _ | OnPing _ | OnPong _ | OnPongTimeout _ => skip
  end.

(** The calls for this transport among an endpoint's effects. *)
Definition my_call (e : ws_effect) : list conn_event :=
  match e with WObserver a c => if decide (a = self) then [c] else [] | _ => [] end.

(** An event on a connection of the current endpoint (a destroyed endpoint's
    thread has ended): the endpoint calls the transport. *)
Definition tr_net_event (alive : address -> bool) (id : Z) (e : net_event) : tr_handler unit := fun s =>
  match tr_websocket s with
  | None => Done (tt, s, [])
  | Some w =>
      match t_event alive id e w with
      | Fault f => Fault f
      | Done (_, w', es) => for_each (es ≫= my_call) tr_onConnection (tr_set_websocket (Some w') s)
      end
  end.
End transport.
