(* ===== verification/WebsocketFacts.v ===== *)
(** * What the websocket layer guarantees

    The contract an endpoint offers the transport ([EndpointLaws], kept by the
    plain and by the TLS endpoint), sessions of the transport over it, the
    histories of an endpoint, and the certificate checks. *)

From stdpp Require Import base gmap strings list pretty sorting.
From Stdlib Require Import ZArith Lia Ascii.
From S2P Require Import Prelude Json Observable Websocket.

#[local] Open Scope string_scope.
#[local] Open Scope list_scope.

(** ** The contract of an endpoint *)

(** What the observer of a connection is told of an event. *)
Definition conn_call (e : net_event) : option conn_event :=
  match e with
  | NetOpen _ => Some OnOpen
  | NetFail _ ec message => Some (OnFail ec message)
  | NetClose code code_string reason =>
      Some (OnClose code ("close code: " +:+ pretty code +:+ " (" +:+ code_string +:+ "), close reason: " +:+ reason))
  | NetValidate => None
  | NetMessage (FText text) => Some (OnTextMessage text)
  | NetMessage (FBinary data) => Some (OnBinaryMessage data)
  | NetMessage _ => None
  | NetPing msg => Some (OnPing msg)
  | NetPong msg => Some (OnPong msg)
  | NetPongTimeout msg => Some (OnPongTimeout msg)
  end.

Definition conn_calls (alive : address -> bool) (observer : observer_ptr) (e : net_event) : list ws_effect :=
  match conn_call e, lock alive observer with
  | Some c, Some a => [WObserver a c]
  | _, _ => []
  end.

Definition is_close (e : ws_effect) : Prop := exists h code reason, e = WClose h code reason.

(** What an operation on the connection [id] does: nothing when it is unknown. *)
Definition on_handle (c : option (nat * observer_ptr)) (f : nat -> ws_effect) : list ws_effect :=
  match c with Some (h, _) => [f h] | None => [] end.

Class EndpointLaws (T : Type) `{IWebsocketEndpoint T} : Type := {
  (** The handle and the observer of the connection with an id. *)
  bound : T -> Z -> option (nat * observer_ptr);
  connect_law uri observer subprotocol : exists id t es,
    t_connect uri observer subprotocol t_new = Done (id, t, es) /\
    ((id = (-1)%Z /\ es = [] /\ forall k, bound t k = None) \/
     (id <> (-1)%Z /\ exists h, es = [WConnect h uri subprotocol] /\ bound t id = Some (h, observer)));
  sendText_law t id data :
    t_sendText id data t = Done (tt, t, on_handle (bound t id) (fun h => WSend h (FText data)));
  sendBinary_law t id data :
    t_sendBinary id data t = Done (tt, t, on_handle (bound t id) (fun h => WSend h (FBinary data)));
  close_law t id code reason :
    t_close id code reason t = Done (tt, t, on_handle (bound t id) (fun h => WClose h code reason));
  event_law alive t id e : exists t',
    t_event alive id e t =
      Done (tt, t', match bound t id with Some (_, o) => conn_calls alive o e | None => [] end) /\
    (forall k, bound t' k = bound t k);
  destroy_law t : exists es, t_destroy t = Done (tt, t, es) /\ Forall is_close es
}.

(** ** The endpoints keep it *)

Definition ep_bound (t : WebsocketEndpoint) (id : Z) : option (nat * observer_ptr) :=
  (fun md => (md_hdl md, md_observer md)) <$> (ep_connectionList t !! id).

Lemma with_connection_law t id (f : nat -> ws_effect) :
  with_connection id (fun md => emit (f (md_hdl md))) t = Done (tt, t, on_handle (ep_bound t id) f).
Proof. unfold with_connection, ep_bound. run_M. by destruct (_ !! id). Qed.

Lemma md_event_spec alive e md :
  md_hdl (fst (md_event alive e md)) = md_hdl md /\
  md_observer (fst (md_event alive e md)) = md_observer md /\
  md_id (fst (md_event alive e md)) = md_id md /\
  (fun c => WObserver c.1 c.2) <$> snd (md_event alive e md) = conn_calls alive (md_observer md) e.
Proof.
  unfold conn_calls. destruct e as [| | | |[]| | |]; simpl; unfold call_observer;
    destruct (lock alive (md_observer md)); done.
Qed.

Lemma ep_event_law alive t id e : exists t',
  ep_event alive id e t =
    Done (tt, t', match ep_bound t id with Some (_, o) => conn_calls alive o e | None => [] end) /\
  (forall k, ep_bound t' k = ep_bound t k).
Proof.
  unfold ep_event, with_connection, ep_bound at 1. run_M.
  destruct (ep_connectionList t !! id) as [md|] eqn:Hid; simpl; [|by eexists].
  pose proof (md_event_spec alive e md) as (Hh & Ho & _ & Hc).
  destruct (md_event alive e md) as [md' calls]. simpl in *. rewrite Hc. eexists. split; [done|].
  intros k. unfold ep_bound. simpl. destruct (decide (k = id)) as [->|Hk].
  - rewrite lookup_insert_eq, Hid. simpl. by rewrite Hh, Ho.
  - by rewrite lookup_insert_ne.
Qed.

Lemma for_each_tells {S E A} (l : list A) (body : A -> M S E unit) (P : E -> Prop) s :
  (forall x, x ∈ l -> exists es, body x s = Done (tt, s, es) /\ Forall P es) ->
  exists es, for_each l body s = Done (tt, s, es) /\ Forall P es.
Proof.
  induction l as [|x l IH]; intros Hb; simpl; [by exists []|].
  destruct (Hb x) as (e1 & H1 & HP1); [by left|].
  destruct IH as (e2 & H2 & HP2); [intros; apply Hb; by right|].
  exists (e1 ++ e2). rewrite (bind_done _ _ _ _ _ _ H1), H2. split; [done|]. by apply Forall_app.
Qed.

Lemma ep_destroy_law t : exists es, ep_destroy t = Done (tt, t, es) /\ Forall is_close es.
Proof.
  unfold ep_destroy.
  destruct (for_each_tells (in_key_order (ep_connectionList t))
    (fun it => if decide (md_status it.2 <> "Open") then skip else emit (WClose (md_hdl it.2) 1001 "")) is_close t)
    as (es & Hes & HP).
  { intros [k md] _. simpl. destruct (decide _); run_M; eexists; (split; [done|]); [done|].
    repeat constructor. by do 3 eexists. }
  exists es. split; [|done]. cbv beta iota delta [mbind M_bind gets]. by rewrite Hes.
Qed.

Section endpoints.
Variable get_connection : string -> bool.
Variable add_subprotocol : string -> bool.

(** Whether [connect] creates the connection. *)
Definition accepted_url (uri subprotocol : string) : bool :=
  get_connection uri && (bool_decide (subprotocol = "") || add_subprotocol subprotocol).

Lemma ep_connect_run uri observer subprotocol t :
  (ep_nextId t < INT32_MAX)%Z ->
  exists hdls, (ep_hdls t <= hdls)%nat /\
  ep_connect get_connection add_subprotocol uri observer subprotocol t =
    if accepted_url uri subprotocol then
      Done (ep_nextId t,
            mkEndpoint (<[ep_nextId t := new_metadata (ep_nextId t) (ep_hdls t) uri observer]> (ep_connectionList t))
              (ep_nextId t + 1) (S (ep_hdls t)),
            [WConnect (ep_hdls t) uri subprotocol])
    else Done ((-1)%Z, mkEndpoint (ep_connectionList t) (ep_nextId t) hdls, []).
Proof.
  intros Hmax. unfold ep_connect, accepted_url. destruct (get_connection uri); simpl.
  - exists (S (ep_hdls t)). split; [lia|]. run_M. rewrite (proj2 (Z.eqb_neq _ _)) by lia.
    by destruct (bool_decide (subprotocol = "")), (add_subprotocol subprotocol).
  - exists (ep_hdls t). split; [done|]. by destruct t.
Qed.

(** With all the ids given out, an address that is accepted overflows [_nextId]. *)
Lemma ep_connect_overflows uri observer subprotocol t :
  ep_nextId t = INT32_MAX -> accepted_url uri subprotocol = true ->
  ep_connect get_connection add_subprotocol uri observer subprotocol t = Fault (Thrown "signed overflow of _nextId").
Proof.
  intros Hmax. unfold ep_connect, accepted_url. destruct (get_connection uri); simpl; [|done]. run_M. rewrite Hmax.
  by destruct (bool_decide (subprotocol = "")), (add_subprotocol subprotocol).
Qed.

#[local] Instance plain_endpoint : IWebsocketEndpoint WebsocketEndpoint :=
  plain_interface get_connection add_subprotocol.
#[local] Instance tls_endpoint : IWebsocketEndpoint TLSWebsocketEndpoint :=
  tls_interface get_connection add_subprotocol.

#[local] Instance plain_laws : EndpointLaws WebsocketEndpoint.
Proof.
  refine {| bound := ep_bound |}.
  - intros uri o sub. simpl. destruct (ep_connect_run uri o sub new_endpoint) as (n & _ & ->); [done|].
    destruct (accepted_url uri sub).
    + do 3 eexists. split; [done|]. right. split; [done|]. exists 0%nat. split; [done|].
      unfold ep_bound. simpl. by rewrite lookup_insert_eq.
    + do 3 eexists. split; [done|]. left. split; [done|]. split; [done|]. intros k.
      unfold ep_bound. simpl. by rewrite lookup_empty.
  - intros. apply (with_connection_law t id (fun h => WSend h (FText data))).
  - intros. apply (with_connection_law t id (fun h => WSend h (FBinary data))).
  - intros. apply (with_connection_law t id (fun h => WClose h code reason)).
  - intros. apply ep_event_law.
  - apply ep_destroy_law.
Defined.

Lemma on_base_run {A} (m : ep_handler A) t a b es :
  m (tls_base t) = Done (a, b, es) -> on_base m t = Done (a, tls_set_base b t, es).
Proof. unfold on_base, zoom. intros ->. by rewrite list_fmap_id. Qed.

Lemma on_base_idle (m : ep_handler unit) t es :
  m (tls_base t) = Done (tt, tls_base t, es) -> on_base m t = Done (tt, t, es).
Proof. intros Hm. rewrite (on_base_run _ _ _ _ _ Hm). by destruct t. Qed.

#[local] Instance tls_laws : EndpointLaws TLSWebsocketEndpoint.
Proof.
  refine {| bound t := ep_bound (tls_base t) |}.
  - intros uri o sub. destruct (connect_law (T := WebsocketEndpoint) uri o sub) as (id & t & es & Hrun & Hcase).
    exists id, (tls_set_base t new_tls_endpoint), es. split; [|exact Hcase]. by apply on_base_run.
  - intros. apply on_base_idle, (with_connection_law _ id (fun h => WSend h (FText data))).
  - intros. apply on_base_idle, (with_connection_law _ id (fun h => WSend h (FBinary data))).
  - intros. apply on_base_idle, (with_connection_law _ id (fun h => WClose h code reason)).
  - intros. destruct (ep_event_law alive (tls_base t) id e) as (b & Hrun & Hb).
    exists (tls_set_base b t). split; [by apply on_base_run | done].
  - intros t. destruct (ep_destroy_law (tls_base t)) as (es & Hrun & Hes).
    exists es. split; [by apply on_base_idle | done].
Defined.
End endpoints.

(** ** Sessions of the transport *)

(** What the user of the transport does, and what its connection reports,
    between [connect] and [disconnect]. *)
Inductive session_act : Type :=
| ActText (text : string)
| ActData (data : list Z)
| ActEvent (e : net_event).

(** What the observers of the transport hear of an event. *)
Definition told (e : net_event) : list transport_event :=
  match e with
  | NetOpen _ => [TOnOpened]
  | NetFail _ ec message => [TOnFailed ec message]
  | NetClose _ _ _ => [TOnClosed]
  | NetMessage (FText text) => [TOnMessage text]
  | _ => []
  end.

(** The effects of an act in a session on the connection with handle [h]. *)
Definition act_effects (h : nat) (a : session_act) : list tr_effect :=
  match a with
  | ActText text => if decide (text = "") then [] else [TEndpoint (WSend h (FText text))]
  | ActData data => if decide (data = []) then [] else [TEndpoint (WSend h (FBinary data))]
  | ActEvent e => TNotify <$> told e
  end.

Section sessions.
Context {T : Type} `{EndpointLaws T}.
Variable self : address.
Variable alive : address -> bool.
Implicit Types s : WebsocketTransport T.

Definition act_run (a : session_act) : M (WebsocketTransport T) tr_effect unit :=
  match a with
  | ActText text => tr_sendText text
  | ActData data => tr_sendData data
  | ActEvent e => s ← get; tr_net_event self alive (tr_connectionId s) e
  end.

(** The transport is on the connection [c] of its endpoint ([None]: on none). *)
Definition on_connection (c : option (nat * observer_ptr)) s : Prop :=
  exists w, tr_websocket s = Some w /\ bound w (tr_connectionId s) = c.

Lemma tr_sendText_run text s c :
  on_connection c s -> text <> "" ->
  tr_sendText text s = Done (tt, s, TEndpoint <$> on_handle c (fun h => WSend h (FText text))).
Proof.
  intros (w & Hw & <-) Ht. unfold tr_sendText. rewrite decide_False by done.
  unfold websocket. run_M. rewrite Hw. simpl. unfold zoom. rewrite sendText_law.
  destruct s; simpl in *; by subst.
Qed.

Lemma tr_sendData_run data s c :
  on_connection c s -> data <> [] ->
  tr_sendData data s = Done (tt, s, TEndpoint <$> on_handle c (fun h => WSend h (FBinary data))).
Proof.
  intros (w & Hw & <-) Ht. unfold tr_sendData. destruct data; [done|].
  unfold websocket. run_M. rewrite Hw. simpl. unfold zoom. rewrite sendBinary_law.
  destruct s; simpl in *; by subst.
Qed.

Lemma told_run e a s :
  for_each (conn_calls alive (Some a) e ≫= my_call a) (tr_onConnection (T := T)) s =
    Done (tt, s, if alive a then TNotify <$> told e else []).
Proof.
  unfold conn_calls, lock. destruct (alive a); destruct e as [| | | |[]| | |]; simpl; try done;
    by rewrite decide_True by done.
Qed.

Lemma net_event_run e s c :
  on_connection c s ->
  exists s', tr_net_event self alive (tr_connectionId s) e s =
    Done (tt, s', match c with
                  | Some (_, o) => if decide (o = Some self) then
                                     if alive self then TNotify <$> told e else []
                                   else []
                  | None => []
                  end) /\
    on_connection c s' /\ tr_connectionId s' = tr_connectionId s /\ tr_url s' = tr_url s /\
    tr_observers s' = tr_observers s.
Proof.
  intros (w & Hw & <-). unfold tr_net_event. rewrite Hw.
  destruct (event_law alive w (tr_connectionId s) e) as (w' & -> & Hb).
  exists (tr_set_websocket (Some w') s).
  split; [|split; [exists w'; simpl; by rewrite Hb | done]].
  destruct (bound w (tr_connectionId s)) as [[h o]|]; [|done].
  destruct (decide (o = Some self)) as [->|Hne]; [apply told_run|].
  unfold conn_calls. destruct (conn_call e); [|done]. destruct o as [a|]; simpl; [|done].
  destruct (alive a); [|done]. simpl. by rewrite decide_False by congruence.
Qed.

(** Every act runs, and has the effects of the connection the transport is on. *)
Lemma act_done a s c (silent : forall h o, c = Some (h, o) -> o = Some self) :
  alive self = true -> on_connection c s ->
  exists s', act_run a s =
    Done (tt, s', match c with Some (h, _) => act_effects h a | None => [] end) /\
    on_connection c s' /\ tr_connectionId s' = tr_connectionId s /\ tr_url s' = tr_url s /\
    tr_observers s' = tr_observers s.
Proof.
  intros Ha Hs. destruct a as [text|data|e]; simpl.
  - destruct (decide (text = "")) as [->|Ht]; [by exists s; destruct c as [[]|]|].
    exists s. rewrite (tr_sendText_run _ _ _ Hs Ht). by destruct c as [[]|].
  - destruct (decide (data = [])) as [->|Ht]; [by exists s; destruct c as [[]|]|].
    exists s. rewrite (tr_sendData_run _ _ _ Hs Ht). by destruct c as [[]|].
  - destruct (net_event_run e s c Hs) as (s' & Hrun & Hrest). exists s'. split; [|done].
    run_M. rewrite Hrun. destruct c as [[h o]|]; [|done].
    by rewrite (silent _ _ eq_refl), decide_True, Ha.
Qed.

Lemma acts_done acts s c :
  (forall h o, c = Some (h, o) -> o = Some self) -> alive self = true -> on_connection c s ->
  exists s', for_each acts act_run s =
    Done (tt, s', match c with Some (h, _) => acts ≫= act_effects h | None => [] end) /\
    on_connection c s' /\ tr_connectionId s' = tr_connectionId s /\ tr_url s' = tr_url s /\
    tr_observers s' = tr_observers s.
Proof.
  intros Hc Ha. revert s. induction acts as [|a acts IH]; intros s Hs; simpl.
  - exists s. by destruct c as [[]|].
  - destruct (act_done a s c Hc Ha Hs) as (s1 & H1 & Hs1 & Hi1 & Hu1 & Ho1).
    destruct (IH s1 Hs1) as (s2 & H2 & Hs2 & Hi2 & Hu2 & Ho2).
    exists s2. rewrite (bind_done _ _ _ _ _ _ H1), H2.
    split; [by destruct c as [[]|]|]. split; [done|]. by rewrite Hi2, Hu2, Ho2.
Qed.

Lemma assign_run w s : exists closes,
  assign_websocket w s = Done (tt, tr_set_websocket w s, TEndpoint <$> closes) /\ Forall is_close closes.
Proof.
  unfold assign_websocket. run_M. destruct (tr_websocket s) as [old|]; [|by exists []].
  destruct (destroy_law old) as (es & Hes & Hc). exists es. unfold zoom. by rewrite Hes.
Qed.

(** [connect] leaves the transport on a new connection, or on none. *)
Lemma connect_run url sub s : exists id w es closes,
  t_connect url (Some self) sub t_new = Done (id, w, es) /\ Forall is_close closes /\
  tr_connect self url sub s =
    Done (tt, mkTransport url id (Some w) (tr_observers s), TEndpoint <$> closes ++ es).
Proof.
  destruct (connect_law url (Some self) sub) as (id & w & es & Hrun & _).
  destruct (assign_run (Some t_new) (tr_set_url url s)) as (closes & Hassign & Hc).
  exists id, w, es, closes. split; [done|]. split; [done|].
  unfold tr_connect. rewrite (bind_done _ _ _ _ _ _ (eq_refl : modify (tr_set_url url) s = Done (tt, _, []))).
  rewrite (bind_done _ _ _ _ _ _ Hassign). unfold websocket. run_M. unfold zoom. rewrite Hrun. simpl.
  by rewrite fmap_app, app_nil_r.
Qed.

Lemma disconnect_run s h o :
  on_connection (Some (h, o)) s -> tr_connectionId s <> (-1)%Z -> exists closes,
  tr_disconnect s =
    Done (tt, mkTransport (tr_url s) (-1) None (tr_observers s),
          TEndpoint <$> WClose h 1000 "" :: closes) /\ Forall is_close closes.
Proof.
  intros (w & Hw & Hb) Hid. unfold tr_disconnect.
  destruct (assign_run None (tr_set_id (-1) s)) as (closes & Hassign & Hc). exists closes. split; [|done].
  assert (Hclose : websocket (t_close (tr_connectionId s) 1000 "") s =
      Done (tt, s, [TEndpoint (WClose h 1000 "")])).
  { unfold websocket. run_M. rewrite Hw. simpl. unfold zoom. rewrite close_law, Hb. simpl.
    destruct s; simpl in *; by subst. }
  assert (Hvalid : isValid s = true).
  { unfold isValid. rewrite Hw. by rewrite (proj2 (Z.eqb_neq _ _) Hid). }
  rewrite (bind_done _ _ _ _ _ _ (eq_refl : get s = Done (s, s, []))), Hvalid.
  rewrite (bind_done _ _ _ _ _ _ Hclose).
  rewrite (bind_done _ _ _ _ _ _ (eq_refl : modify (tr_set_id (-1)) s = Done (tt, _, []))).
  by rewrite Hassign.
Qed.

(** A whole session when the endpoint accepts the address. *)
Lemma session_run url sub acts s id w h :
  alive self = true -> id <> (-1)%Z ->
  t_connect url (Some self) sub t_new = Done (id, w, [WConnect h url sub]) ->
  bound w id = Some (h, Some self) ->
  exists before after,
    Forall is_close (before ++ after) /\
    (_ ← tr_connect self url sub; _ ← for_each acts act_run; tr_disconnect) s =
      Done (tt, mkTransport url (-1) None (tr_observers s),
            (TEndpoint <$> before) ++ TEndpoint (WConnect h url sub) :: (acts ≫= act_effects h) ++
            TEndpoint (WClose h 1000 "") :: (TEndpoint <$> after)).
Proof.
  intros Ha Hid Hconnect Hb.
  destruct (connect_run url sub s) as (id' & w' & es & before & Hc' & Hbefore & Hrun).
  rewrite Hconnect in Hc'. injection Hc' as <- <- <-.
  destruct (acts_done acts (mkTransport url id (Some w) (tr_observers s)) (Some (h, Some self)))
    as (s2 & Hacts & Hs2 & Hi2 & Hu2 & Ho2); [by intros ?? [= -> <-] | done | by exists w |].
  destruct (disconnect_run s2 h (Some self) Hs2) as (after & Hdis & Hafter); [by rewrite Hi2|].
  exists before, after. split; [by apply Forall_app|].
  rewrite (bind_done _ _ _ _ _ _ Hrun), (bind_done _ _ _ _ _ _ Hacts), Hdis, Hu2, Ho2. simpl.
  by rewrite fmap_app, <- app_assoc.
Qed.

(** And when it does not: nothing is reported, and every later act does nothing. *)
Lemma refused_run url sub acts s id w :
  alive self = true -> id = (-1)%Z ->
  t_connect url (Some self) sub t_new = Done (id, w, []) -> (forall k, bound w k = None) ->
  exists before s',
    Forall is_close before /\
    (_ ← tr_connect self url sub; _ ← for_each acts act_run; tr_disconnect) s =
      Done (tt, s', TEndpoint <$> before) /\
    tr_connectionId s' = (-1)%Z /\ tr_websocket s' <> None.
Proof.
  intros Ha -> Hconnect Hb.
  destruct (connect_run url sub s) as (id' & w' & es & before & Hc' & Hbefore & Hrun).
  rewrite Hconnect in Hc'. injection Hc' as <- <- <-.
  destruct (acts_done acts (mkTransport url (-1) (Some w) (tr_observers s)) None)
    as (s2 & Hacts & (w2 & Hw2 & _) & Hi2 & _); [done | done | by exists w |].
  exists before, s2. split; [done|].
  rewrite (bind_done _ _ _ _ _ _ Hrun), (bind_done _ _ _ _ _ _ Hacts). simpl in Hi2.
  unfold tr_disconnect, isValid. run_M. rewrite Hw2, Hi2. simpl.
  by rewrite !app_nil_r.
Qed.

Lemma no_connection_faults text s :
  tr_websocket s = None -> text <> "" -> tr_sendText text s = Fault (NullDeref "_websocket").
Proof. intros Hs Ht. unfold tr_sendText. rewrite decide_False by done. unfold websocket. run_M. by rewrite Hs. Qed.
End sessions.

Section tls_sessions.
Variable get_connection : string -> bool.
Variable add_subprotocol : string -> bool.
#[local] Instance used_endpoint : IWebsocketEndpoint TLSWebsocketEndpoint :=
  tls_interface get_connection add_subprotocol.
#[local] Instance used_laws : EndpointLaws TLSWebsocketEndpoint := tls_laws get_connection add_subprotocol.

(** C17: a session of the transport the client uses.  When the address is
    accepted, [connect] opens one connection; whatever is then sent goes out on
    that connection, once and in order, and what the connection reports reaches
    the observers, in order; [disconnect] closes it.  Apart from that only old
    and closing connections are closed.  The transport then has no endpoint, and
    a further [send] dereferences a null pointer. *)
Theorem transport_session self alive url sub acts (s : WebsocketTransport TLSWebsocketEndpoint) :
  alive self = true -> accepted_url get_connection add_subprotocol url sub = true ->
  exists h before after s',
    (_ ← tr_connect self url sub; _ ← for_each acts (act_run self alive); tr_disconnect) s =
      Done (tt, s', (TEndpoint <$> before) ++ TEndpoint (WConnect h url sub) :: (acts ≫= act_effects h) ++
                    TEndpoint (WClose h 1000 "") :: (TEndpoint <$> after)) /\
    Forall is_close (before ++ after) /\
    (forall text, text <> "" -> tr_sendText text s' = Fault (NullDeref "_websocket")).
Proof.
  intros Ha Hacc.
  destruct (ep_connect_run get_connection add_subprotocol url (Some self) sub new_endpoint) as (n & _ & Hrun); [done|].
  rewrite Hacc in Hrun.
  destruct (session_run self alive url sub acts s 0%Z (tls_set_base _ new_tls_endpoint) 0%nat Ha ltac:(done)
              (on_base_run _ new_tls_endpoint _ _ _ Hrun)) as (before & after & Hc & Hs).
  { change (ep_bound (mkEndpoint {[0%Z := new_metadata 0 0 url (Some self)]} 1 1) 0 = Some (0%nat, Some self)).
    unfold ep_bound. simpl. by rewrite lookup_singleton_eq. }
  exists 0%nat, before, after. eexists. split; [exact Hs|]. split; [done|].
  intros text. by apply no_connection_faults.
Qed.

(** A refused address is never reported.  When websocketpp refuses the address
    or the subprotocol, [connect] tells the observers nothing; everything sent
    afterwards is dropped without an error, and [disconnect] does nothing: the
    room client waits for ever in [CONNECTING]. *)
Theorem connect_failure_is_silent self alive url sub acts (s : WebsocketTransport TLSWebsocketEndpoint) :
  alive self = true -> accepted_url get_connection add_subprotocol url sub = false ->
  exists before s',
    (_ ← tr_connect self url sub; _ ← for_each acts (act_run self alive); tr_disconnect) s =
      Done (tt, s', TEndpoint <$> before) /\
    Forall is_close before /\ tr_connectionId s' = (-1)%Z /\ tr_websocket s' <> None.
Proof.
  intros Ha Hacc.
  destruct (ep_connect_run get_connection add_subprotocol url (Some self) sub new_endpoint) as (n & _ & Hrun); [done|].
  rewrite Hacc in Hrun.
  set (w := tls_set_base (mkEndpoint ∅ 0 n) new_tls_endpoint).
  assert (Hw : t_connect url (Some self) sub t_new = Done ((-1)%Z, w, [])) by exact (on_base_run _ new_tls_endpoint _ _ _ Hrun).
  destruct (refused_run self alive url sub acts s (-1)%Z w Ha eq_refl Hw) as (before & s' & Hc & Hs & Hrest).
  { intros k. change (ep_bound (mkEndpoint ∅ 0 n) k = None). unfold ep_bound. simpl. by rewrite lookup_empty. }
  by exists before, s'.
Qed.
End tls_sessions.

(** ** Histories of an endpoint *)

Inductive ep_op : Type :=
| EpConnect (uri : string) (observer : observer_ptr) (subprotocol : string)
| EpClose (id code : Z) (reason : string)
| EpSend (id : Z) (frame : ws_frame)
| EpEvent (id : Z) (alive : address -> bool) (e : net_event)
| EpDestroy.

Definition ep_run (get_connection add_subprotocol : string -> bool) (op : ep_op) : ep_handler unit :=
  match op with
  | EpConnect uri observer subprotocol =>
      _ ← ep_connect get_connection add_subprotocol uri observer subprotocol; skip
  | EpClose id code reason => ep_close id code reason
  | EpSend id (FText data) => ep_sendText id data
  | EpSend id (FBinary data) => ep_sendBinary id data
  | EpSend id (FPing data) => ep_sendPing id data
  | EpSend id (FPong data) => ep_sendPong id data
  | EpEvent id alive e => ep_event alive id e
  | EpDestroy => ep_destroy
  end.

(** Reads a trace from the set of handles connected so far: a handle is connected
    once, and frames and closings go to connected handles only. *)
Fixpoint on_known_handles (known : gset nat) (es : list ws_effect) : option (gset nat) :=
  match es with
  | [] => Some known
  | WConnect h _ _ :: es => if decide (h ∈ known) then None else on_known_handles ({[h]} ∪ known) es
  | WSend h _ :: es | WClose h _ _ :: es => if decide (h ∈ known) then on_known_handles known es else None
  | WObserver _ _ :: es => on_known_handles known es
  end.

(** The table: ids below [_nextId], each entry under its own id, with a handle
    that was connected and that no other entry has. *)
Definition ep_wf (known : gset nat) (t : WebsocketEndpoint) : Prop :=
  (forall h, h ∈ known -> (h < ep_hdls t)%nat) /\ (0 <= ep_nextId t)%Z /\
  (forall id md, ep_connectionList t !! id = Some md ->
     (0 <= id < ep_nextId t)%Z /\ md_id md = id /\ md_hdl md ∈ known) /\
  (forall id id' md md', ep_connectionList t !! id = Some md -> ep_connectionList t !! id' = Some md' ->
     md_hdl md = md_hdl md' -> id = id').

Lemma on_known_app known es1 es2 :
  on_known_handles known (es1 ++ es2) =
  match on_known_handles known es1 with Some k => on_known_handles k es2 | None => None end.
Proof.
  revert known. induction es1 as [|[] es1 IH]; intros known; simpl; [done|..]; try apply IH;
    case_decide; done || apply IH.
Qed.

(** How many ids an operation may use. *)
Definition ids_used (op : ep_op) : Z := match op with EpConnect _ _ _ => 1 | _ => 0 end%Z.
Definition ids_needed (ops : list ep_op) : Z := foldr (fun op n => ids_used op + n)%Z 0%Z ops.

Lemma ids_needed_nonneg ops : (0 <= ids_needed ops)%Z.
Proof. induction ops as [|[] ops IH]; simpl; lia. Qed.

(** What an operation that uses at most [n] ids does to a table and the handles known. *)
Definition ep_step (n : Z) (m : ep_handler unit) : Prop := forall known t, ep_wf known t -> (ep_nextId t + n <= INT32_MAX)%Z ->
  exists t' es known', m t = Done (tt, t', es) /\ on_known_handles known es = Some known' /\ ep_wf known' t' /\
    (ep_nextId t' <= ep_nextId t + n)%Z.

Lemma on_handle_step id f :
  (forall known h, on_known_handles known [f h] = if decide (h ∈ known) then Some known else None) ->
  ep_step 0 (with_connection id (fun md => emit (f (md_hdl md)))).
Proof.
  intros Hf known t Hwf _. rewrite with_connection_law. do 2 eexists. exists known. split; [done|].
  unfold ep_bound. destruct (ep_connectionList t !! id) as [md|] eqn:Hid; simpl on_handle; (split; [|split; [done|lia]]); [|done].
  rewrite Hf. destruct Hwf as (? & ? & Htab & ?). rewrite decide_True; [done|]. by apply (Htab id md).
Qed.

Lemma connect_step get_connection add_subprotocol uri observer subprotocol :
  ep_step 1 (ep_run get_connection add_subprotocol (EpConnect uri observer subprotocol)).
Proof.
  intros known t (Hk & Hn & Htab & Hinj) Hmax. simpl.
  destruct (ep_connect_run get_connection add_subprotocol uri observer subprotocol t) as (n & Hle & Hrun); [lia|].
  destruct (accepted_url _ _ uri subprotocol); rewrite (bind_done _ _ _ _ _ _ Hrun); simpl;
    do 3 eexists; (split; [done|]); simpl.
  - rewrite decide_False by (intros Hh%Hk; lia). split; [done|]. split; [|simpl; lia]. split_and!; simpl.
    + intros h. rewrite elem_of_union, elem_of_singleton. intros [->|Hh%Hk]; lia.
    + lia.
    + intros id md. rewrite lookup_insert. case_decide as Hid; [subst id; intros [= <-]; simpl; split_and!; [lia..|done|by apply elem_of_union_l, elem_of_singleton]|].
      intros (? & ? & ?)%Htab. split_and!; [lia..|done|by apply elem_of_union_r].
    + intros id id' md md'. rewrite !lookup_insert.
      do 2 case_decide; subst; try congruence.
      * intros [= <-] (_ & _ & Hh%Hk)%Htab. simpl. lia.
      * intros (_ & _ & Hh%Hk)%Htab [= <-]. simpl. lia.
      * eauto.
  - split; [done|]. split; [|simpl; lia]. split_and!; simpl; [|done..]. intros h Hh%Hk. lia.
Qed.

Lemma event_step id alive e : ep_step 0 (ep_event alive id e).
Proof.
  intros known t (Hk & Hn & Htab & Hinj) _. unfold ep_event, with_connection. run_M.
  destruct (ep_connectionList t !! id) as [md|] eqn:Hid; simpl;
    [|exists t, [], known; split_and!; try done; lia].
  pose proof (md_event_spec alive e md) as (Hh & _ & Hi & Hc).
  destruct (md_event alive e md) as [md' calls]. simpl in *. do 3 eexists. split; [done|]. rewrite Hc. split.
  { instantiate (1 := known). unfold conn_calls. by destruct (conn_call e), (lock alive (md_observer md)). }
  split; [|simpl; lia]. split_and!; simpl; [done|done| |].
  - intros k m. rewrite lookup_insert. case_decide; [|by apply Htab]. intros [= <-]. subst k.
    rewrite Hh, Hi. by apply Htab.
  - intros k k' m m'. rewrite !lookup_insert. do 2 case_decide; subst; try congruence; [| |by apply Hinj].
    + intros [= <-] Hm'. rewrite Hh. by apply Hinj.
    + intros Hm [= <-]. rewrite Hh. by apply Hinj.
Qed.

Lemma destroy_step : ep_step 0 ep_destroy.
Proof.
  intros known t Hwf _. pose proof Hwf as (_ & _ & Htab & _). unfold ep_destroy.
  destruct (for_each_tells (in_key_order (ep_connectionList t))
    (fun it => if decide (md_status it.2 <> "Open") then skip else emit (WClose (md_hdl it.2) 1001 ""))
    (fun e => exists h, e = WClose h 1001 "" /\ h ∈ known) t) as (es & Hes & HP).
  { intros [k md] Hin. unfold in_key_order in Hin. rewrite merge_sort_Permutation in Hin.
    apply elem_of_map_to_list, Htab in Hin as (_ & _ & Hin).
    simpl. destruct (decide _); eexists; (split; [done|]); [done|]. repeat constructor. by eexists. }
  exists t, es, known. split; [cbv beta iota delta [mbind M_bind gets]; by rewrite Hes|]. split; [|split; [done|lia]].
  clear Hes. induction HP as [|e es (h & -> & Hh) HP IH]; simpl; [done|]. by rewrite decide_True.
Qed.

Lemma ep_run_step get_connection add_subprotocol op :
  ep_step (ids_used op) (ep_run get_connection add_subprotocol op).
Proof.
  destruct op as [uri o sub|id code reason|id [d|d|d|d]|id alive e|].
  - apply connect_step.
  - by apply (on_handle_step id (fun h => WClose h code reason)).
  - by apply (on_handle_step id (fun h => WSend h (FText d))).
  - by apply (on_handle_step id (fun h => WSend h (FBinary d))).
  - by apply (on_handle_step id (fun h => WSend h (FPing d))).
  - by apply (on_handle_step id (fun h => WSend h (FPong d))).
  - apply event_step.
  - apply destroy_step.
Qed.

(** C26: an endpoint keeps its connections apart, as long as its ids last.  Every
    history of calls and connection events with at most 2147483647 calls of [connect]
    (so that the [int] [_nextId] does not overflow) runs to its end; no connection is
    started twice, frames and closings go only to connections started before, and the
    ids of the table name pairwise different connections, each with its own id in its
    metadata; [_nextId] is at most the number of calls of [connect]. *)
Theorem endpoint_connections_apart get_connection add_subprotocol ops :
  (ids_needed ops <= INT32_MAX)%Z ->
  exists t es known,
    for_each ops (ep_run get_connection add_subprotocol) new_endpoint = Done (tt, t, es) /\
    on_known_handles ∅ es = Some known /\ ep_wf known t /\ (ep_nextId t <= ids_needed ops)%Z.
Proof.
  assert (Hrun : forall known t, ep_wf known t -> (ep_nextId t + ids_needed ops <= INT32_MAX)%Z -> exists t' es known',
    for_each ops (ep_run get_connection add_subprotocol) t = Done (tt, t', es) /\
    on_known_handles known es = Some known' /\ ep_wf known' t' /\ (ep_nextId t' <= ep_nextId t + ids_needed ops)%Z).
  { induction ops as [|op ops IH]; intros known t Hwf Hmax; simpl in *;
      [exists t, [], known; split_and!; try done; lia|].
    pose proof (ids_needed_nonneg ops).
    destruct (ep_run_step get_connection add_subprotocol op known t Hwf) as (t1 & e1 & k1 & H1 & Hk1 & Hw1 & Hn1); [lia|].
    destruct (IH k1 t1 Hw1) as (t2 & e2 & k2 & H2 & Hk2 & Hw2 & Hn2); [lia|]. exists t2, (e1 ++ e2), k2.
    rewrite (bind_done _ _ _ _ _ _ H1), H2, on_known_app, Hk1. split_and!; try done. lia. }
  intros Hmax. apply Hrun; [|done]. split_and!; simpl; [set_solver | done | |]; intros *; by rewrite lookup_empty.
Qed.

(** ** Certificates *)

(** The DNS names the loop reads: up to the first with an embedded NUL. *)
Fixpoint read_names (names : list general_name) : list string :=
  match names with
  | [] => []
  | GEN_OTHER :: names => read_names names
  | GEN_DNS d :: names => if embedded_nul d then [] else d :: read_names names
  end.

Lemma san_loop_last hostname names result :
  san_loop hostname names result =
  match last (read_names names) with Some d => strcasecmp_0 hostname d | None => result end.
Proof.
  revert result. induction names as [|[d|] names IH]; intros result; simpl; [done| |apply IH].
  destruct (embedded_nul d); [done|]. rewrite IH, last_cons. by destruct (last (read_names names)).
Qed.

Lemma read_clean_names ds :
  Forall (fun d => embedded_nul d = false) ds -> read_names (GEN_DNS <$> ds) = ds.
Proof.
  induction 1 as [|d ds Hd _ IH]; [done|]. rewrite fmap_cons. cbn [read_names]. by rewrite Hd, IH.
Qed.

(** Only the last alternative name counts.  The comment says that one of the
    subject alternative names must match; the loop keeps the answer for the last
    DNS name it reads, so a certificate for the host that lists another name after
    it is refused (unless its common name matches), and the answer is that of the
    last name in every case. *)
Theorem only_last_name_counts hostname cert names :
  x509_san_names cert = Some names ->
  (verify_certificate hostname true 0 cert = true <->
     (exists d, last (read_names names) = Some d /\ strcasecmp_0 hostname d = true) \/
     verify_common_name hostname cert = true) /\
  (forall ds other cn, Forall (fun d => embedded_nul d = false) (ds ++ [other]) ->
     strcasecmp_0 hostname other = false ->
     verify_subject_alternative_name hostname (mkX509 (Some (GEN_DNS <$> ds ++ [other])) cn) = false).
Proof.
  intros Hn. assert (Hsan : verify_subject_alternative_name hostname cert =
    match last (read_names names) with Some d => strcasecmp_0 hostname d | None => false end).
  { unfold verify_subject_alternative_name. by rewrite Hn, san_loop_last. }
  split.
  - unfold verify_certificate. simpl. rewrite Hsan.
    assert (Hor : forall b : bool, (if b then true else if verify_common_name hostname cert then true else false) = true <->
      b = true \/ verify_common_name hostname cert = true) by (intros []; destruct (verify_common_name _ _); intuition congruence).
    rewrite Hor. destruct (last (read_names names)) as [d|]; 
      [|split; (intros [Hd|]; [|by right]); [done | by destruct Hd as (? & [=] & _)]].
    split; (intros [Hd|]; [left|by right]); [by exists d | by destruct Hd as (? & [= <-] & ?)].
  - intros ds other cn Hclean Hne. unfold verify_subject_alternative_name.
    cbn [x509_san_names]. by rewrite san_loop_last, read_clean_names, last_snoc.
Qed.

(** The name the client checks certificates against is empty, so no certificate
    whose last alternative name and common name are non-empty would pass: the
    connections work only because verification is off ([verify_none]). *)
Lemma tls_name_is_empty throws :
  tls_init_handler new_tls_endpoint throws = on_tls_init throws "" /\
  (forall hostname (s : tls_setting), s ∈ on_tls_init throws hostname -> s <> SetVerifyMode verify_peer).
Proof.
  split; [done|]. intros hostname s. unfold on_tls_init. simpl.
  repeat match goal with |- context [if throws ?x then _ else _] => destruct (throws x) end;
    intros Hin ->; repeat (apply elem_of_cons in Hin as [[=]|Hin]); by apply not_elem_of_nil in Hin.
Qed.

(** ** Witnesses *)

Definition sample_acts : list session_act :=
  [ActEvent (NetOpen "mediasoup"); ActText "request"; ActText ""; ActEvent (NetMessage (FText "response"));
   ActEvent (NetPing "p"); ActData [1; 2]%Z].

Lemma transport_session_witness :
  exists h before after s',
    (_ ← tr_connect (H := tls_interface (fun _ => true) (fun _ => true)) 5%nat "wss://host:4443" "protoo";
     _ ← for_each sample_acts (act_run (H := tls_interface (fun _ => true) (fun _ => true)) 5%nat (fun _ => true));
     tr_disconnect (H := tls_interface (fun _ => true) (fun _ => true))) new_transport =
      Done (tt, s', (TEndpoint <$> before) ++ TEndpoint (WConnect h "wss://host:4443" "protoo") ::
                    [TNotify TOnOpened; TEndpoint (WSend h (FText "request"));
                     TNotify (TOnMessage "response"); TEndpoint (WSend h (FBinary [1; 2]%Z))] ++
                    TEndpoint (WClose h 1000 "") :: (TEndpoint <$> after)) /\
    Forall is_close (before ++ after) /\
    (forall text, text <> "" ->
       tr_sendText (H := tls_interface (fun _ => true) (fun _ => true)) text s' = Fault (NullDeref "_websocket")).
Proof.
  exact (transport_session (fun _ => true) (fun _ => true) 5%nat (fun _ => true) "wss://host:4443" "protoo"
           sample_acts new_transport eq_refl eq_refl).
Defined.

(** A history with two connections, one of them closed. *)
Definition sample_history : list ep_op :=
  [EpConnect "wss://a" (Some 5%nat) "protoo"; EpConnect "wss://b" (Some 6%nat) "";
   EpEvent 0 (fun _ => true) (NetOpen "mediasoup"); EpSend 0 (FText "hello"); EpSend 7 (FPing "x");
   EpClose 1 1000 ""; EpDestroy].

Lemma endpoint_connections_apart_witness :
  exists t known,
    for_each sample_history (ep_run (fun _ => true) (fun _ => true)) new_endpoint =
      Done (tt, t, [WConnect 0 "wss://a" "protoo"; WConnect 1 "wss://b" ""; WObserver 5%nat OnOpen;
                    WSend 0 (FText "hello"); WClose 1 1000 ""; WClose 0 1001 ""]) /\
    ep_wf known t /\ ep_nextId t = 2%Z.
Proof.
  destruct (endpoint_connections_apart (fun _ => true) (fun _ => true) sample_history)
    as (t & es & known & Hrun & _ & Hwf & _); [vm_compute; discriminate|].
  exists t, known. vm_compute in Hrun. injection Hrun as <- <-. split; [reflexivity|]. split; [exact Hwf | reflexivity].
Defined.

Lemma connect_failure_is_silent_witness :
  exists before s',
    (_ ← tr_connect (H := tls_interface (fun _ => false) (fun _ => true)) 5%nat "not a url" "protoo";
     _ ← for_each sample_acts (act_run (H := tls_interface (fun _ => false) (fun _ => true)) 5%nat (fun _ => true));
     tr_disconnect (H := tls_interface (fun _ => false) (fun _ => true))) new_transport =
      Done (tt, s', TEndpoint <$> before) /\
    Forall is_close before /\ tr_connectionId s' = (-1)%Z /\ tr_websocket s' <> None.
Proof.
  exact (connect_failure_is_silent (fun _ => false) (fun _ => true) 5%nat (fun _ => true) "not a url" "protoo"
           sample_acts new_transport eq_refl eq_refl).
Defined.

Lemma only_last_name_counts_witness :
  (verify_certificate "Media.example" true 0
     (mkX509 (Some [GEN_DNS "media.example"; GEN_OTHER; GEN_DNS "www.example"]) None) = true <->
   (exists d, last ["media.example"; "www.example"] = Some d /\ strcasecmp_0 "Media.example" d = true) \/
   false = true) /\
  (forall ds other cn, Forall (fun d => embedded_nul d = false) (ds ++ [other]) ->
     strcasecmp_0 "Media.example" other = false ->
     verify_subject_alternative_name "Media.example" (mkX509 (Some (GEN_DNS <$> ds ++ [other])) cn) = false).
Proof.
  exact (only_last_name_counts "Media.example"
           (mkX509 (Some [GEN_DNS "media.example"; GEN_OTHER; GEN_DNS "www.example"]) None) _ eq_refl).
Defined.
