(* ===== verification/SignalingClient.v ===== *)
(** * SignalingClient

    Models [core/service/signaling_client.cpp]: the table of pending requests,
    the calls into the transport, and the dispatch of incoming protoo messages to
    the [ISignalingEventHandler] observers.  Text is parsed by rapidjson, which
    enters as the argument [parse]; the numbers [generateID()] draws when a
    message object is default-constructed enter as [gid].

    The request table is guarded by [_requestMutex], so each handler is atomic;
    a lambda posted to [_thread] is an effect ([PostTask]) and a handler of its
    own ([handleResponse_task]). *)

From stdpp Require Import base gmap strings list.
From Stdlib Require Import ZArith Lia.
From S2P Require Import Prelude Json SignalingModels WebsocketRequest Observable.

#[local] Open Scope string_scope.
#[local] Open Scope list_scope.

(** ** Events for the observers *)

(** The calls an [ISignalingEventHandler] receives. *)
Inductive SignalingEvent : Type :=
| onOpened
| onClosed
| onNewConsumer (request : NewConsumerRequest)
| onNewDataConsumer (request : NewDataConsumerRequest)
| onProducerScore (notification : ProducerScoreNotification)
| onConsumerScore (notification : ConsumerScoreNotification)
| onNewPeer (notification : NewPeerNotification)
| onPeerClosed (notification : PeerClosedNotification)
| onPeerDisplayNameChanged (notification : PeerDisplayNameChangedNotification)
| onConsumerPaused (notification : ConsumerPausedNotification)
| onConsumerResumed (notification : ConsumerResumedNotification)
| onConsumerClosed (notification : ConsumerClosedNotification)
| onConsumerLayersChanged (notification : ConsumerLayersChangedNotification)
| onDataConsumerClosed (notification : DataConsumerClosedNotification)
| onDownlinkBwe (notification : DownlinkBweNotification)
| onActiveSpeaker (notification : ActiveSpeakerNotification).

(** The methods the dispatch knows. *)
Inductive method : Type :=
| M_newConsumer | M_newDataConsumer
| M_producerScore | M_newPeer | M_peerClosed | M_peerDisplayNameChanged | M_downlinkBwe
| M_consumerClosed | M_consumerPaused | M_consumerResumed | M_consumerLayersChanged
| M_consumerScore | M_dataConsumerClosed | M_activeSpeaker.

#[global] Instance method_eq_dec : EqDecision method.
Proof. solve_decision. Defined.

(** The argument of a [notifyObservers] call. *)
Inductive notifier : Type :=
| NotifyOpened
| NotifyClosed
| NotifyMessage (m : method) (json : string).

(** ** State and effects *)

Record SignalingClient (CB : Type) : Type := mkClient {
  sc_requestMap : gmap Z (WebsocketRequest CB);
  sc_observers : list inner_object;
  sc_thread : option nat
}.
Arguments mkClient {CB}.
Arguments sc_requestMap {CB}.
Arguments sc_observers {CB}.
Arguments sc_thread {CB}.

Inductive sc_effect (CB : Type) : Type :=
| TransportInit
| TransportAddObserver
| TransportRemoveObserver
| TransportConnect (url subprotocol : string)
| TransportDisconnect
| TransportSendText (text : string)
| TransportSendData (data : list Z)
| Callback (c : request_call CB)
| Notify (n : notifier)
| PostTask (json : string).
Arguments TransportInit {CB}.
Arguments TransportAddObserver {CB}.
Arguments TransportRemoveObserver {CB}.
Arguments TransportConnect {CB}.
Arguments TransportDisconnect {CB}.
Arguments TransportSendText {CB}.
Arguments TransportSendData {CB}.
Arguments Callback {CB}.
Arguments Notify {CB}.
Arguments PostTask {CB}.

(** The two method tables: [handleRequest] and [handleNotification]. *)
Definition request_method (name : string) : option method :=
  if decide (name = "newConsumer") then Some M_newConsumer
  else if decide (name = "newDataConsumer") then Some M_newDataConsumer
  else None.

Definition notification_method (name : string) : option method :=
  if decide (name = "producerScore") then Some M_producerScore
  else if decide (name = "newPeer") then Some M_newPeer
  else if decide (name = "peerClosed") then Some M_peerClosed
  else if decide (name = "peerDisplayNameChanged") then Some M_peerDisplayNameChanged
  else if decide (name = "downlinkBwe") then Some M_downlinkBwe
  else if decide (name = "consumerClosed") then Some M_consumerClosed
  else if decide (name = "consumerPaused") then Some M_consumerPaused
  else if decide (name = "consumerResumed") then Some M_consumerResumed
  else if decide (name = "consumerLayersChanged") then Some M_consumerLayersChanged
  else if decide (name = "consumerScore") then Some M_consumerScore
  else if decide (name = "dataConsumerClosed") then Some M_dataConsumerClosed
  else if decide (name = "activeSpeaker") then Some M_activeSpeaker
  else None.

Section client.
Context {CB : Type}.
Variable parse : string -> option Value.

Abbreviation state := (SignalingClient CB).
Abbreviation handler := (M (SignalingClient CB) (sc_effect CB)).

Definition set_requestMap (f : gmap Z (WebsocketRequest CB) -> gmap Z (WebsocketRequest CB))
    (s : state) : state :=
  mkClient (f (sc_requestMap s)) (sc_observers s) (sc_thread s).
Definition set_observers (f : list inner_object -> list inner_object) (s : state) : state :=
  mkClient (sc_requestMap s) (f (sc_observers s)) (sc_thread s).

Definition clearRequests : handler unit := modify (set_requestMap (fun _ => ∅)).

Definition sc_init : handler unit :=
  _ ← clearRequests;
  _ ← emit TransportInit;
  emit TransportAddObserver.

Definition sc_destroy : handler unit :=
  _ ← modify (set_observers clearObserver);
  _ ← clearRequests;
  emit TransportRemoveObserver.

Definition sc_addObserver (alive : address -> bool) (observer : observer_ptr) : handler unit :=
  t ← gets sc_thread;
  modify (set_observers (fun l => addWeakObserver alive l observer t)).

Definition sc_removeObserver (alive : address -> bool) (observer : observer_ptr) : handler unit :=
  modify (set_observers (fun l => Observable.removeObserver alive l observer)).

Definition connect (url subprotocol : string) : handler unit :=
  emit (TransportConnect url subprotocol).
Definition disconnect : handler unit := emit TransportDisconnect.

(** The three parts of [send(text, transaction, scb, fcb)]: making the request, handing
    its text to the transport, and entering it into the table, which alone is done
    under the lock. *)
Definition make_request (text : string) (transcation : Z) (scb fcb : option CB) : handler (WebsocketRequest CB) :=
  n ← gets (fun s => Z.of_nat (size (sc_requestMap s)));
  mret (setRejectCallback fcb (setResolveCallback scb (setText text (new_request transcation (send_timeout n))))).
Definition send_request (request : WebsocketRequest CB) : handler unit := emit (TransportSendText (wr_text request)).
Definition record_request (request : WebsocketRequest CB) : handler unit :=
  modify (set_requestMap (fun m => <[request_id request := ticktock request]> m)).

(** [send(text, transaction, scb, fcb)]. *)
Definition sendText (text : string) (transcation : Z) (scb fcb : option CB) : handler unit :=
  if decide (text = "") then skip
  else
    request ← make_request text transcation scb fcb;
    _ ← send_request request;
    record_request request.

(** [send(data, transaction, scb, fcb)]. *)
Definition sendData (data : list Z) (transcation : Z) (scb fcb : option CB) : handler unit :=
  if decide (data = []) then skip
  else
    n ← gets (fun s => Z.of_nat (size (sc_requestMap s)));
    let request := setRejectCallback fcb (setResolveCallback scb
                     (setData data (new_request transcation (send_timeout n)))) in
    _ ← emit (TransportSendData (wr_data request));
    modify (set_requestMap (fun m => <[request_id request := ticktock request]> m)).

(** [onOpened], [onClosed], [onFailed]: the [ITransportObserver] calls.  The
    loop of [onClosed] visits the table in the order [hash_order] of the
    unordered map. *)
Definition sc_onOpened : handler unit := emit (Notify NotifyOpened).

Definition sc_onClosed
    (hash_order : gmap Z (WebsocketRequest CB) -> list (Z * WebsocketRequest CB)) : handler unit :=
  m ← gets sc_requestMap;
  _ ← for_each (hash_order m) (fun it => emits (Callback <$> snd (request_close it.2)));
  _ ← modify (set_requestMap (fun _ => ∅));
  emit (Notify NotifyClosed).

Definition sc_onFailed (errorCode : Z) (reason : string) : handler unit :=
  emit (Notify NotifyClosed).

Definition handleRequest (json : string) : handler unit :=
  if decide (json = "") then skip
  else match fromJsonString (A := RequestHeader) parse default_init json with
       | Err _ => skip
       | Ok header =>
           match request_method (value_or (RequestHeader_method header) "") with
           | Some m => emit (Notify (NotifyMessage m json))
           | None => skip
           end
       end.

Definition handleResponse (json : string) : handler unit :=
  t ← gets sc_thread;
  match t with Some _ => emit (PostTask json) | None => skip end.

(** The lambda [handleResponse] posts, once its [wself] is locked. *)
Definition handleResponse_task (json : string) : handler unit :=
  match fromJsonString (A := ResponseHeader) parse default_init json with
  | Err _ => skip
  | Ok header =>
      if (value_or (ResponseHeader_id header) (-1) =? -1)%Z then skip
      else
        id ← value "header->id" (ResponseHeader_id header);
        m ← gets sc_requestMap;
        match m !! id with
        | None => skip
        | Some request =>
            _ ← modify (set_requestMap (delete id));
            emits (Callback <$> snd (request_resolve request json))
        end
  end.

Definition handleNotification (json : string) : handler unit :=
  if decide (json = "") then skip
  else match fromJsonString (A := NotificationHeader) parse default_init json with
       | Err _ => skip
       | Ok header =>
           match notification_method (value_or (NotificationHeader_method header) "") with
           | Some m => emit (Notify (NotifyMessage m json))
           | None => skip
           end
       end.

Definition sc_onMessage (json : string) : handler unit :=
  match fromJsonString (A := MessageType) parse default_init json with
  | Err _ => skip
  | Ok model =>
      if value_or (MessageType_notification model) false then handleNotification json
      else if value_or (MessageType_response model) false then handleResponse json
      else if value_or (MessageType_request model) false then handleRequest json
      else skip
  end.

(** The lambda each observer is called with: it parses the text again as the
    message of its method and drops it when that fails. *)
Definition as_event {A} `{FieldsMap A, DefaultInit A} (k : A -> SignalingEvent) (json : string) :
    option SignalingEvent :=
  match fromJsonString parse default_init json with Ok x => Some (k x) | Err _ => None end.

Definition observer_call (n : notifier) : option SignalingEvent :=
  match n with
  | NotifyOpened => Some onOpened
  | NotifyClosed => Some onClosed
  | NotifyMessage m json =>
      match m with
      | M_newConsumer => as_event onNewConsumer json
      | M_newDataConsumer => as_event onNewDataConsumer json
      | M_producerScore => as_event onProducerScore json
      | M_newPeer => as_event onNewPeer json
      | M_peerClosed => as_event onPeerClosed json
      | M_peerDisplayNameChanged => as_event onPeerDisplayNameChanged json
      | M_downlinkBwe => as_event onDownlinkBwe json
      | M_consumerClosed => as_event onConsumerClosed json
      | M_consumerPaused => as_event onConsumerPaused json
      | M_consumerResumed => as_event onConsumerResumed json
      | M_consumerLayersChanged => as_event onConsumerLayersChanged json
      | M_consumerScore => as_event onConsumerScore json
      | M_dataConsumerClosed => as_event onDataConsumerClosed json
      | M_activeSpeaker => as_event onActiveSpeaker json
      end
  end.
End client.

(** ** Lemmas *)

Section facts.
Context {CB : Type}.
Variable parse : string -> option Value.
Implicit Types s : SignalingClient CB.
Implicit Types m : gmap Z (WebsocketRequest CB).

(** Every entry of the table sits at its request's narrowed id. *)
Definition table_wf s : Prop :=
  map_Forall (fun k r => request_id r = k) (sc_requestMap s).

Lemma table_wf_int32 s k r :
  table_wf s -> sc_requestMap s !! k = Some r -> in_int32 k = true.
Proof. intros Hwf Hk. rewrite <- (Hwf k r Hk). apply wrap32_range. Qed.

Lemma sendText_run text id scb fcb s :
  text <> "" ->
  exists r, sendText text id scb fcb s =
              Done (tt, set_requestMap (fun m => <[wrap32 id := r]> m) s, [TransportSendText text]) /\
            wr_id r = id /\ wr_resolve r = scb /\ wr_reject r = fcb.
Proof.
  intros Ht. unfold sendText. rewrite decide_False by done.
  eexists. split; [|split; [|split]]; reflexivity.
Qed.

Lemma response_hit json h id r s :
  fromJsonString (A := ResponseHeader) parse default_init json = Ok h ->
  ResponseHeader_id h = Some id -> id <> (-1)%Z -> sc_requestMap s !! id = Some r ->
  handleResponse_task parse json s =
    Done (tt, set_requestMap (delete id) s,
          Callback <$> match wr_resolve r with Some cb => [Resolve cb json] | None => [] end).
Proof.
  intros Hh Hid Hne Hr. unfold handleResponse_task. rewrite Hh. simpl. rewrite Hid. simpl.
  replace (id =? -1)%Z with false by (symmetry; by apply Z.eqb_neq).
  unfold mbind, M_bind, gets, modify, emits; simpl. rewrite Hr. simpl. by destruct (wr_resolve r).
Qed.

Lemma response_miss json h id s :
  fromJsonString (A := ResponseHeader) parse default_init json = Ok h ->
  ResponseHeader_id h = Some id -> sc_requestMap s !! id = None ->
  handleResponse_task parse json s = Done (tt, s, []).
Proof.
  intros Hh Hid Hr. unfold handleResponse_task. rewrite Hh. simpl. rewrite Hid. simpl.
  destruct (id =? -1)%Z; [done|].
  unfold mbind, M_bind, gets; simpl. by rewrite Hr.
Qed.

(** *** Accounting of callbacks *)

(** The callbacks still waiting in the table, and those a run has called. *)
Definition pending m : list CB := omap (fun kr => wr_reject kr.2) (map_to_list m).
Definition called (es : list (sc_effect CB)) : list CB :=
  omap (fun e => match e with
                 | Callback (Resolve cb _) => Some cb
                 | Callback (Reject cb _ _) => Some cb
                 | _ => None
                 end) es.

(** [MediasoupApi::send] gives one callback for both outcomes. *)
Definition same_callback m : Prop := map_Forall (fun _ r => wr_resolve r = wr_reject r) m.

Lemma pending_delete_Some m k r :
  m !! k = Some r -> pending m ≡ₚ option_list (wr_reject r) ++ pending (delete k m).
Proof.
  intros Hk. unfold pending. rewrite <- (map_to_list_delete m k r Hk). cbn.
  by destruct (wr_reject r).
Qed.

Lemma pending_delete m k : pending (delete k m) ⊆+ pending m.
Proof.
  destruct (m !! k) as [r|] eqn:Hk.
  - rewrite (pending_delete_Some m k r Hk). by apply submseteq_inserts_l.
  - by rewrite delete_id.
Qed.

Lemma pending_insert m k r :
  pending (<[k := r]> m) ≡ₚ option_list (wr_reject r) ++ pending (delete k m).
Proof.
  unfold pending. rewrite <- (insert_delete_eq m k r).
  rewrite map_to_list_insert by apply lookup_delete_eq. cbn. by destruct (wr_reject r).
Qed.

(** The operations that touch the table. *)
Inductive op : Type :=
| OpSendText (text : string) (id : Z) (cb : option CB)
| OpSendData (data : list Z) (id : Z) (cb : option CB)
| OpResponse (json : string)
| OpClosed
| OpClear.

Variable hash_order : gmap Z (WebsocketRequest CB) -> list (Z * WebsocketRequest CB).
Hypothesis hash_order_perm : forall m, hash_order m ≡ₚ map_to_list m.

Definition op_run (o : op) : M (SignalingClient CB) (sc_effect CB) unit :=
  match o with
  | OpSendText text id cb => sendText text id cb cb
  | OpSendData data id cb => sendData data id cb cb
  | OpResponse json => handleResponse_task parse json
  | OpClosed => sc_onClosed hash_order
  | OpClear => clearRequests
  end.

Definition op_sent (o : op) : list CB :=
  match o with
  | OpSendText text _ (Some cb) => if decide (text = "") then [] else [cb]
  | OpSendData data _ (Some cb) => if decide (data = []) then [] else [cb]
  | _ => []
  end.

Lemma called_app es1 es2 : called (es1 ++ es2) = called es1 ++ called es2.
Proof. apply omap_app. Qed.

(** [onClosed] calls every pending callback once, with code 2. *)
Lemma close_all_run (l : list (Z * WebsocketRequest CB)) s :
  for_each l (fun it => emits (Callback <$> snd (request_close it.2))) s =
  Done (tt, s, l ≫= fun it => Callback <$> snd (request_close it.2)).
Proof.
  induction l as [|it l IH]; [done|].
  cbn [for_each]. by rewrite (bind_done _ _ s tt s _ eq_refl), IH.
Qed.

Lemma called_close_all (l : list (Z * WebsocketRequest CB)) :
  called (l ≫= fun it => Callback <$> snd (request_close it.2)) = omap (fun kr => wr_reject kr.2) l.
Proof.
  induction l as [|it l IH]; [done|]. rewrite bind_cons, called_app, IH. cbn.
  by destruct (wr_reject it.2).
Qed.

Lemma onClosed_run s :
  sc_onClosed hash_order s =
  Done (tt, set_requestMap (fun _ => ∅) s,
        (hash_order (sc_requestMap s) ≫= fun it => Callback <$> snd (request_close it.2))
        ++ [Notify NotifyClosed]).
Proof.
  unfold sc_onClosed. rewrite (bind_done _ _ s _ s _ eq_refl).
  by rewrite (bind_done _ _ _ _ _ _ (close_all_run _ s)).
Qed.

Lemma insert_accounting s r :
  wr_resolve r = wr_reject r -> same_callback (sc_requestMap s) ->
  let s' := set_requestMap (fun m => <[request_id r := r]> m) s in
  same_callback (sc_requestMap s') /\
  pending (sc_requestMap s') ⊆+ pending (sc_requestMap s) ++ option_list (wr_reject r).
Proof.
  simpl. intros Hr Hs. split; [by apply map_Forall_insert_2|].
  rewrite pending_insert, (Permutation_app_comm _ (option_list _)).
  apply submseteq_skips_l, pending_delete.
Qed.

(** One operation: no callback appears that was not pending or just sent, and
    a called one is gone from the table. *)
Lemma op_accounting o s :
  same_callback (sc_requestMap s) ->
  exists s' es, op_run o s = Done (tt, s', es) /\ same_callback (sc_requestMap s') /\
    pending (sc_requestMap s') ++ called es ⊆+ pending (sc_requestMap s) ++ op_sent o.
Proof.
  intros Hs. destruct o as [text id cb|data id cb|json| |]; simpl.
  - unfold sendText. destruct (decide (text = "")) as [->|Ht].
    + exists s, []. split; [done|]. split; [done|]. destruct cb; by rewrite !app_nil_r.
    + eexists _, _. split; [reflexivity|]. cbn [called omap list_omap]. rewrite app_nil_r.
      edestruct (insert_accounting s (ticktock (setRejectCallback cb (setResolveCallback cb
        (setText text (new_request id (send_timeout (Z.of_nat (size (sc_requestMap s)))))))))
        eq_refl Hs) as [H1 H2].
      split; [exact H1|]. etrans; [exact H2|]. by destruct cb.
  - unfold sendData. destruct (decide (data = [])) as [->|Ht].
    + exists s, []. split; [done|]. split; [done|]. destruct cb; by rewrite !app_nil_r.
    + eexists _, _. split; [reflexivity|]. cbn [called omap list_omap]. rewrite app_nil_r.
      edestruct (insert_accounting s (ticktock (setRejectCallback cb (setResolveCallback cb
        (setData data (new_request id (send_timeout (Z.of_nat (size (sc_requestMap s)))))))))
        eq_refl Hs) as [H1 H2].
      split; [exact H1|]. etrans; [exact H2|]. by destruct cb.
  - rewrite app_nil_r. destruct (fromJsonString (A := ResponseHeader) parse default_init json) as [h|e] eqn:Hh.
    2:{ exists s, []. unfold handleResponse_task. rewrite Hh. by rewrite app_nil_r. }
    destruct (ResponseHeader_id h) as [id|] eqn:Hid.
    2:{ exists s, []. unfold handleResponse_task. rewrite Hh; simpl. rewrite Hid. by rewrite app_nil_r. }
    destruct (sc_requestMap s !! id) as [r|] eqn:Hr.
    2:{ exists s, []. rewrite (response_miss _ h id) by done. by rewrite app_nil_r. }
    destruct (decide (id = -1)%Z) as [->|Hne].
    { exists s, []. unfold handleResponse_task. rewrite Hh; simpl. rewrite Hid. by rewrite app_nil_r. }
    eexists _, _. split; [by apply (response_hit _ h id r)|]. split; [by apply map_Forall_delete|].
    simpl. rewrite (pending_delete_Some _ _ _ Hr), (Permutation_app_comm (option_list _)), <- (Hs _ _ Hr).
    by destruct (wr_resolve r).
  - rewrite app_nil_r, onClosed_run. eexists _, _. split; [reflexivity|]. split; [by apply map_Forall_empty|].
    rewrite called_app, called_close_all, app_nil_r. simpl. unfold pending. rewrite map_to_list_empty. simpl.
    by rewrite hash_order_perm.
  - rewrite app_nil_r. eexists _, _. split; [reflexivity|]. split; [by apply map_Forall_empty|].
    rewrite app_nil_r. simpl. unfold pending at 1. rewrite map_to_list_empty. apply submseteq_nil_l.
Qed.

Lemma ops_accounting ops s :
  same_callback (sc_requestMap s) ->
  exists s' es, for_each ops op_run s = Done (tt, s', es) /\
    pending (sc_requestMap s') ++ called es ⊆+ pending (sc_requestMap s) ++ (ops ≫= op_sent).
Proof.
  revert s. induction ops as [|o ops IH]; intros s Hs; simpl.
  - exists s, []. by rewrite !app_nil_r.
  - destruct (op_accounting o s Hs) as (s1 & e1 & Hr & Hs1 & Ha).
    destruct (IH s1 Hs1) as (s2 & e2 & Hr2 & Ha2). exists s2, (e1 ++ e2).
    rewrite (bind_done _ _ _ _ _ _ Hr), Hr2. split; [done|].
    rewrite called_app, app_assoc, (Permutation_app_comm (pending _)), <- app_assoc.
    etrans; [apply submseteq_skips_l, Ha2|].
    rewrite !app_assoc, (Permutation_app_comm (called e1)). by apply submseteq_skips_r.
Qed.
(** The operations that leave the entry of one id alone: sends under ids that narrow
    to another one, responses that carry another one. *)
Definition avoids (k : Z) (o : op) : Prop :=
  match o with
  | OpSendText _ id _ | OpSendData _ id _ => wrap32 id <> k
  | OpResponse json => forall h, fromJsonString (A := ResponseHeader) parse default_init json = Ok h ->
      ResponseHeader_id h <> Some k
  | OpClosed | OpClear => False
  end.

(** Such an operation does to the rest of the table what it does to it alone. *)
Lemma op_avoiding k r o s :
  avoids k o -> sc_requestMap s !! k = Some r ->
  exists s' es, op_run o s = Done (tt, s', es) /\ sc_requestMap s' !! k = Some r.
Proof.
  intros Ha Hk. destruct o as [text id cb|data id cb|json| |]; simpl in *; [..|done|done].
  - unfold sendText. destruct (decide (text = "")); [by exists s, []|].
    eexists _, _. split; [reflexivity|]. simpl. by rewrite lookup_insert_ne.
  - unfold sendData. destruct (decide (data = [])); [by exists s, []|].
    eexists _, _. split; [reflexivity|]. simpl. by rewrite lookup_insert_ne.
  - destruct (fromJsonString (A := ResponseHeader) parse default_init json) as [h|e] eqn:Hh.
    2:{ exists s, []. unfold handleResponse_task. by rewrite Hh. }
    specialize (Ha h eq_refl). destruct (ResponseHeader_id h) as [id|] eqn:Hid.
    2:{ exists s, []. unfold handleResponse_task. rewrite Hh; simpl. by rewrite Hid. }
    destruct (sc_requestMap s !! id) as [r'|] eqn:Hr'.
    2:{ exists s, []. by rewrite (response_miss _ h id). }
    destruct (decide (id = -1)%Z) as [->|Hne].
    { exists s, []. unfold handleResponse_task. rewrite Hh; simpl. by rewrite Hid. }
    eexists _, _. split; [by apply (response_hit _ h id r')|]. simpl. rewrite lookup_delete_ne by congruence. done.
Qed.

Lemma ops_avoiding k r cb ops s :
  same_callback (sc_requestMap s) -> sc_requestMap s !! k = Some r -> wr_reject r = Some cb ->
  Forall (avoids k) ops ->
  exists s' es, for_each ops op_run s = Done (tt, s', es) /\ sc_requestMap s' !! k = Some r /\
    called es ⊆+ pending (delete k (sc_requestMap s)) ++ (ops ≫= op_sent).
Proof.
  intros Hs Hk Hcb Hops.
  assert (exists s' es, for_each ops op_run s = Done (tt, s', es) /\ sc_requestMap s' !! k = Some r)
    as (s' & es & Hr & Hk').
  { clear Hs. revert s Hk. induction Hops as [|o ops Ho _ IH]; intros s Hk; [by exists s, []|].
    destruct (op_avoiding k r o s Ho Hk) as (s1 & e1 & H1 & Hk1). destruct (IH s1 Hk1) as (s2 & e2 & H2 & Hk2).
    exists s2, (e1 ++ e2). split; [|done]. simpl. by rewrite (bind_done _ _ _ _ _ _ H1), H2. }
  exists s', es. split; [done|]. split; [done|].
  destruct (ops_accounting ops s Hs) as (s2 & e2 & Hr2 & Ha). rewrite Hr in Hr2. simplify_eq.
  rewrite (pending_delete_Some _ _ _ Hk'), (pending_delete_Some _ _ _ Hk), Hcb in Ha. simpl in Ha.
  apply (submseteq_app_inv_l _ _ [cb]) in Ha. etrans; [|exact Ha]. by apply submseteq_inserts_l.
Qed.
End facts.

(** ** Properties *)

(** A client with an empty table on thread 1, and a parser that knows three
    texts; the concrete inputs of the witnesses below. *)
Definition empty_client : SignalingClient nat := mkClient ∅ [] (Some 1%nat).
Definition sample_parse (text : string) : option Value :=
  if decide (text = "r7") then
    Some (JObject [("response", JBool true); ("id", JInt 7); ("ok", JBool true)])
  else if decide (text = "r2^32+7") then
    Some (JObject [("response", JBool true); ("id", JInt 4294967303); ("ok", JBool true)])
  else if decide (text = "both") then
    Some (JObject [("response", JBool true); ("notification", JBool true);
                   ("method", JString "newPeer"); ("id", JInt 7)])
  else None.

(** C7. In every history of sends, responses, connection losses and clears, with
    a different callback for each send, no callback is called twice, and only
    callbacks that were sent are called; the history never faults.  This holds
    for every iteration order of the unordered request table. *)
Theorem callbacks_at_most_once {CB} (parse : string -> option Value)
    (hash_order : gmap Z (WebsocketRequest CB) -> list (Z * WebsocketRequest CB))
    (ops : list op) (s : SignalingClient CB) :
  (forall m, hash_order m ≡ₚ map_to_list m) ->
  sc_requestMap s = ∅ -> NoDup (ops ≫= op_sent) ->
  exists s' es, for_each ops (op_run parse hash_order) s = Done (tt, s', es) /\
    NoDup (called es) /\ (forall cb, cb ∈ called es -> cb ∈ ops ≫= op_sent).
Proof.
  intros Hperm Hempty Hnd.
  destruct (ops_accounting parse hash_order Hperm ops s) as (s' & es & Hr & Ha).
  { rewrite Hempty. apply map_Forall_empty. }
  exists s', es. split; [done|]. revert Ha. rewrite Hempty. unfold pending at 2.
  rewrite map_to_list_empty. cbn [omap list_omap app]. intros Ha.
  assert (Hc : called es ⊆+ ops ≫= op_sent).
  { etrans; [|exact Ha]. by apply submseteq_inserts_l. }
  destruct (submseteq_Permutation _ _ Hc) as [k Hk].
  split; [rewrite Hk in Hnd; by apply NoDup_app in Hnd as [? _]|].
  intros cb Hcb. by eapply elem_of_submseteq.
Qed.

Lemma callbacks_at_most_once_witness :
  exists s' es,
    for_each [OpSendText "join" 7 (Some 1%nat); OpResponse "r7"; OpResponse "r7"; OpClosed]
      (op_run sample_parse map_to_list) empty_client = Done (tt, s', es) /\
    NoDup (called es) /\
    (forall cb, cb ∈ called es ->
       cb ∈ [OpSendText "join" 7 (Some 1%nat); OpResponse "r7"; OpResponse "r7"; OpClosed] ≫= op_sent).
Proof.
  apply (callbacks_at_most_once sample_parse map_to_list
           [OpSendText "join" 7 (Some 1%nat); OpResponse "r7"; OpResponse "r7"; OpClosed] empty_client).
  - intros m. reflexivity.
  - reflexivity.
  - vm_compute. apply NoDup_singleton.
Defined.

(** C15. A response that carries the id a request was sent with resolves exactly
    that request's callback with the response text and takes the request out of
    the table, for every id an [int32_t] holds except -1. *)
Theorem response_resolves_request {CB} (parse : string -> option Value)
    (s : SignalingClient CB) text id cb fcb json h :
  in_int32 id = true -> id <> (-1)%Z -> text <> "" ->
  fromJsonString (A := ResponseHeader) parse default_init json = Ok h ->
  ResponseHeader_id h = Some id ->
  (_ ← sendText text id (Some cb) fcb; handleResponse_task parse json) s =
  Done (tt, set_requestMap (delete id) s, [TransportSendText text; Callback (Resolve cb json)]).
Proof.
  intros Hid Hne Ht Hh Hi.
  destruct (sendText_run text id (Some cb) fcb s Ht) as (r & Hs & _ & Hres & _).
  rewrite (bind_done _ _ _ _ _ _ Hs), (response_hit _ _ h id r); try done.
  - rewrite Hres. unfold set_requestMap. simpl. rewrite (wrap32_id _ Hid), delete_insert_eq. done.
  - simpl. rewrite (wrap32_id _ Hid). apply lookup_insert_eq.
Qed.

Lemma response_resolves_request_witness :
  (_ ← sendText "join" 7 (Some 1%nat) None; handleResponse_task sample_parse "r7") empty_client =
  Done (tt, set_requestMap (delete 7) empty_client,
        [TransportSendText "join"; Callback (Resolve 1%nat "r7")]).
Proof.
  apply (response_resolves_request sample_parse empty_client "join" 7 1%nat None "r7"
           (mk_ResponseHeader (Some true) (Some 7) (Some true)));
    [reflexivity | discriminate | discriminate | vm_compute; reflexivity | reflexivity].
Defined.

(** C38. The table stores a request under its id narrowed to 32 bits but looks a
    response up under the full 64-bit id.  [send] with an id that does not fit an
    [int32_t] hands the text to the transport and leaves the request under the
    narrowed id, with nothing else of the client changed.  From then on, whatever
    further requests are sent under ids that narrow to another one and whatever
    responses arrive that do not carry the narrowed id, the response to the request
    itself (with its full id) among them, the request stays in the table as it was
    put there, and the callbacks called are those of other requests.  Only a response
    that carries the narrowed id, which the server never gave, calls it. *)
Theorem wide_id_never_answered {CB} (parse : string -> option Value)
    (s : SignalingClient CB) text id cb :
  let narrow := wrap32 id in
  in_int32 id = false -> text <> "" -> same_callback (sc_requestMap s) ->
  exists r s1, wr_id r = id /\ wr_text r = text /\ wr_resolve r = Some cb /\ wr_reject r = Some cb /\
    s1 = mkClient (<[narrow := r]> (sc_requestMap s)) (sc_observers s) (sc_thread s) /\
    sendText text id (Some cb) (Some cb) s = Done (tt, s1, [TransportSendText text]) /\
    (forall json h, fromJsonString (A := ResponseHeader) parse default_init json = Ok h ->
       ResponseHeader_id h = Some id -> avoids parse narrow (OpResponse (CB := CB) json)) /\
    (forall order ops, (forall m, order m ≡ₚ map_to_list m) -> Forall (avoids parse narrow) ops ->
       exists s' es, for_each ops (op_run parse order) s1 = Done (tt, s', es) /\
         sc_requestMap s' !! narrow = Some r /\
         called es ⊆+ pending (delete narrow (sc_requestMap s)) ++ (ops ≫= op_sent)) /\
    (forall json h, fromJsonString (A := ResponseHeader) parse default_init json = Ok h ->
       ResponseHeader_id h = Some narrow -> narrow <> (-1)%Z ->
       handleResponse_task parse json s1 =
         Done (tt, set_requestMap (delete narrow) s1, [Callback (Resolve cb json)])).
Proof.
  intros narrow Hid Ht Hsame.
  set (r := ticktock (setRejectCallback (Some cb) (setResolveCallback (Some cb) (setText text
    (new_request id (send_timeout (Z.of_nat (size (sc_requestMap s))))))))).
  assert (Hsend : sendText text id (Some cb) (Some cb) s =
    Done (tt, set_requestMap <[narrow := r]> s, [TransportSendText text])).
  { unfold sendText. by rewrite decide_False. }
  exists r, (set_requestMap <[narrow := r]> s). do 4 (split; [done|]).
  split; [done|]. split; [exact Hsend|]. split; [|split].
  - intros json h Hh Hi h' Hh' Hi'. assert (h' = h) as -> by congruence.
    assert (E : wrap32 id = id) by (unfold narrow in Hi'; congruence). apply wrap32_fixed in E. congruence.
  - intros order ops Horder Hops.
    destruct (ops_avoiding parse order Horder narrow r cb ops (set_requestMap <[narrow := r]> s))
      as (s' & es & Hr & Hk & Hc); [by apply map_Forall_insert_2|apply lookup_insert_eq|done..|].
    exists s', es. split; [exact Hr|]. split; [exact Hk|].
    simpl in Hc. by rewrite delete_insert_eq in Hc.
  - intros json h Hh Hi Hne. rewrite (response_hit parse json h narrow r) by (try done; apply lookup_insert_eq). done.
Qed.

Lemma wide_id_never_answered_witness :
  let r := mkRequest 4294967303 "join" [] (Some 1%nat) (Some 1%nat) 22500 true in
  sendText "join" 4294967303 (Some 1%nat) (Some 1%nat) empty_client =
    Done (tt, mkClient {[7%Z := r]} [] (Some 1%nat), [TransportSendText "join"]) /\
  exists s' es,
    for_each [OpResponse "r2^32+7"; OpSendText "leave" 8 (Some 2%nat); OpResponse "r2^32+7"]
      (op_run sample_parse map_to_list) (mkClient {[7%Z := r]} [] (Some 1%nat)) = Done (tt, s', es) /\
    sc_requestMap s' !! 7%Z = Some r /\ 1%nat ∉ called es.
Proof.
  destruct (wide_id_never_answered sample_parse empty_client "join" 4294967303 1%nat)
    as (r & s1 & Hid & Htext & Hres & Hrej & -> & Hs & Hown & Hops & _); [reflexivity | discriminate | apply map_Forall_empty |].
  vm_compute in Hs. injection Hs as <-. split; [reflexivity|].
  destruct (Hops map_to_list [OpResponse "r2^32+7"; OpSendText "leave" 8 (Some 2%nat); OpResponse "r2^32+7"])
    as (s' & es & Hr & Hk & Hc).
  { intros m. reflexivity. }
  { assert (Hr2 : avoids sample_parse (wrap32 4294967303) (OpResponse (CB := nat) "r2^32+7"))
      by (eapply Hown; [vm_compute; reflexivity | reflexivity]).
    apply Forall_cons; split; [exact Hr2|]. apply Forall_cons; split; [vm_compute; discriminate|].
    apply Forall_cons; split; [exact Hr2 | apply Forall_nil_2]. }
  exists s', es. split; [exact Hr|]. split; [exact Hk|].
  intros H1. eapply elem_of_submseteq in Hc; [|exact H1]. vm_compute in Hc.
  apply list_elem_of_singleton in Hc. discriminate Hc.
Defined.

(** An answer can overtake its request.  [send] hands the text to the transport
    before it enters the request into the table, and the responses are handled on
    another thread.  A response that is handled between the two finds no request: it
    changes nothing and calls nothing, and the request, answered, stays in the table
    with its callback; handled after both, it calls the callback. *)
Theorem answer_overtakes_request {CB} (parse : string -> option Value)
    (s : SignalingClient CB) text id cb fcb json h :
  in_int32 id = true -> id <> (-1)%Z -> text <> "" ->
  fromJsonString (A := ResponseHeader) parse default_init json = Ok h ->
  ResponseHeader_id h = Some id -> sc_requestMap s !! id = None ->
  (exists r s',
    (r ← make_request text id (Some cb) fcb; _ ← send_request r; _ ← handleResponse_task parse json; record_request r) s =
      Done (tt, s', [TransportSendText text]) /\
    sc_requestMap s' = <[id := r]> (sc_requestMap s) /\ wr_resolve r = Some cb) /\
  (r ← make_request text id (Some cb) fcb; _ ← send_request r; _ ← record_request r; handleResponse_task parse json) s =
    Done (tt, s, [TransportSendText text; Callback (Resolve cb json)]).
Proof.
  intros Hid Hne Ht Hh Hi Hnone. pose proof (response_miss parse json h id s Hh Hi Hnone) as Hmiss.
  set (r := ticktock (setRejectCallback fcb (setResolveCallback (Some cb) (setText text
    (new_request id (send_timeout (Z.of_nat (size (sc_requestMap s))))))))).
  assert (Hreq : request_id r = id) by (apply (wrap32_id _ Hid)).
  split.
  - exists r. eexists. split; [|split; [|reflexivity]].
    + erewrite bind_done by reflexivity. erewrite bind_done by reflexivity. rewrite (bind_done _ _ _ _ _ _ Hmiss). reflexivity.
    + change (<[request_id r := r]> (sc_requestMap s) = <[id := r]> (sc_requestMap s)). by rewrite Hreq.
  - erewrite bind_done by reflexivity. erewrite bind_done by reflexivity. erewrite bind_done by reflexivity.
    erewrite (response_hit parse json h id r) by (try done; change (<[request_id r := r]> (sc_requestMap s) !! id = Some r);
      rewrite Hreq; apply lookup_insert_eq).
    change (set_requestMap (delete id) _) with (set_requestMap (fun _ => delete id (<[request_id r := r]> (sc_requestMap s))) s).
    rewrite Hreq, delete_insert_eq, delete_id by done. by destruct s.
Qed.

Lemma answer_overtakes_request_witness :
  (exists r s',
    (r ← make_request "join" 7 (Some 1%nat) None; _ ← send_request r; _ ← handleResponse_task sample_parse "r7"; record_request r)
      empty_client = Done (tt, s', [TransportSendText "join"]) /\
    sc_requestMap s' = <[7%Z := r]> ∅ /\ wr_resolve r = Some 1%nat).
Proof.
  refine (proj1 (answer_overtakes_request sample_parse empty_client "join" 7 1%nat None "r7"
           (mk_ResponseHeader (Some true) (Some 7) (Some true)) _ _ _ _ _ _));
    [reflexivity | discriminate | discriminate | vm_compute; reflexivity | reflexivity | reflexivity].
Defined.

(** C25. When the connection closes, every pending request that has a reject
    callback is rejected once with code 2, the table is emptied, and the
    observers are told afterwards. *)
Theorem onClosed_rejects_all {CB}
    (hash_order : gmap Z (WebsocketRequest CB) -> list (Z * WebsocketRequest CB)) (s : SignalingClient CB) :
  (forall m, hash_order m ≡ₚ map_to_list m) ->
  exists es, sc_onClosed hash_order s =
      Done (tt, set_requestMap (fun _ => ∅) s, es ++ [Notify NotifyClosed]) /\
    called es ≡ₚ pending (sc_requestMap s) /\
    Forall (fun e => exists cb, e = Callback (Reject cb 2 "connection closed")) es.
Proof.
  intros Hperm. eexists. split; [apply onClosed_run|]. split.
  - rewrite called_close_all. unfold pending. by rewrite Hperm.
  - apply Forall_forall. intros e (it & He & _)%list_elem_of_bind. cbn in He.
    destruct (wr_reject it.2) as [cb|]; cbn in He; [|by apply not_elem_of_nil in He].
    apply list_elem_of_singleton in He. eauto.
Qed.

Lemma onClosed_rejects_all_witness :
  exists s es, sendText "join" 7 (Some 1%nat) (Some 1%nat) empty_client = Done (tt, s, [TransportSendText "join"]) /\
    sc_onClosed map_to_list s = Done (tt, set_requestMap (fun _ => ∅) s, es ++ [Notify NotifyClosed]) /\
    called es ≡ₚ [1%nat].
Proof.
  eexists.
  destruct (onClosed_rejects_all map_to_list
    (set_requestMap (fun m => <[7%Z := mkRequest 7 "join" [] (Some 1%nat) (Some 1%nat) 22500 true]> m) empty_client))
    as (es & Hr & Hp & _); [intros m; reflexivity|].
  exists es. split; [reflexivity|]. split; [exact Hr | exact Hp].
Defined.

(** Answering a server request goes through the same table: the entry that
    [MediasoupApi::response] leaves (with null callbacks) replaces a client
    request pending under the same id, whose callback is then never called, not
    even when its response arrives. *)
Theorem answer_clobbers_pending {CB} (parse : string -> option Value)
    (s : SignalingClient CB) text answer id cb json h :
  in_int32 id = true -> id <> (-1)%Z -> text <> "" -> answer <> "" ->
  fromJsonString (A := ResponseHeader) parse default_init json = Ok h ->
  ResponseHeader_id h = Some id ->
  (_ ← sendText text id (Some cb) (Some cb);
   _ ← sendText answer id None None;
   handleResponse_task parse json) s =
  Done (tt, set_requestMap (delete id) s, [TransportSendText text; TransportSendText answer]).
Proof.
  intros Hid Hne Ht Ha Hh Hi.
  destruct (sendText_run text id (Some cb) (Some cb) s Ht) as (r & Hs & _).
  rewrite (bind_done _ _ _ _ _ _ Hs).
  set (s1 := set_requestMap _ s).
  destruct (sendText_run answer id (@None CB) None s1 Ha) as (r2 & Hs2 & _ & Hres & _).
  rewrite (bind_done _ _ _ _ _ _ Hs2), (response_hit _ _ h id r2); try done.
  - rewrite Hres. unfold s1, set_requestMap. simpl.
    rewrite (wrap32_id _ Hid), insert_insert_eq, delete_insert_eq. done.
  - simpl. rewrite (wrap32_id _ Hid). apply lookup_insert_eq.
Qed.

Lemma answer_clobbers_pending_witness :
  (_ ← sendText "join" 7 (Some 1%nat) (Some 1%nat);
   _ ← sendText "answer" 7 None None;
   handleResponse_task sample_parse "r7") empty_client =
  Done (tt, set_requestMap (delete 7) empty_client, [TransportSendText "join"; TransportSendText "answer"]).
Proof.
  apply (answer_clobbers_pending sample_parse empty_client "join" "answer" 7 1%nat "r7"
           (mk_ResponseHeader (Some true) (Some 7) (Some true)));
    [reflexivity | discriminate | discriminate | discriminate | vm_compute; reflexivity | reflexivity].
Defined.

(** An incoming message never changes the table and never faults; it has at
    most one effect, chosen by the flags in the order notification, response,
    request: the observers are notified of the method the header names, with the
    text itself, or the response task is posted. *)
Theorem onMessage_dispatch {CB} (parse : string -> option Value) (s : SignalingClient CB) json :
  exists es, sc_onMessage parse json s = Done (tt, s, es) /\
    (es = [] \/
     (es = [PostTask json] /\ is_Some (sc_thread s) /\
      exists t, fromJsonString (A := MessageType) parse default_init json = Ok t /\
                value_or (MessageType_notification t) false = false /\
                MessageType_response t = Some true) \/
     (exists m h, es = [Notify (NotifyMessage m json)] /\
        fromJsonString (A := NotificationHeader) parse default_init json = Ok h /\
        notification_method (value_or (NotificationHeader_method h) "") = Some m) \/
     (exists m h t, es = [Notify (NotifyMessage m json)] /\
        fromJsonString (A := RequestHeader) parse default_init json = Ok h /\
        request_method (value_or (RequestHeader_method h) "") = Some m /\
        fromJsonString (A := MessageType) parse default_init json = Ok t /\
        value_or (MessageType_notification t) false = false /\
        value_or (MessageType_response t) false = false)).
Proof.
  unfold sc_onMessage, handleNotification, handleResponse, handleRequest.
  destruct (fromJsonString (A := MessageType) parse default_init json) as [t|] eqn:Ht; [|by exists []; auto].
  destruct (value_or (MessageType_notification t) false) eqn:Hn.
  { destruct (decide (json = "")); [by exists []; auto|].
    destruct (fromJsonString (A := NotificationHeader) parse default_init json) as [h|]; [|by exists []; auto].
    destruct (notification_method _) as [m|] eqn:Hm; [|by exists []; auto].
    eexists. split; [reflexivity|]. eauto 10. }
  destruct (value_or (MessageType_response t) false) eqn:Hr.
  { rewrite (bind_done _ _ s _ s _ eq_refl). destruct (sc_thread s) eqn:Hth; [|by exists []; auto].
    eexists. split; [reflexivity|]. right; left. split; [done|]. split; [done|]. exists t.
    destruct (MessageType_response t) as [[]|]; done. }
  destruct (value_or (MessageType_request t) false); [|by exists []; auto].
  destruct (decide (json = "")); [by exists []; auto|].
  destruct (fromJsonString (A := RequestHeader) parse default_init json) as [h|]; [|by exists []; auto].
  destruct (request_method _) as [m|] eqn:Hm; [|by exists []; auto].
  eexists. split; [reflexivity|]. do 3 right. eauto 10.
Qed.
