(* ===== verification/MediasoupApi.v ===== *)
(** * MediasoupApi

    Models [core/service/mediasoup_api.cpp] and the [send] template of
    [mediasoup_api.h]: every call builds a request message, serializes it and
    hands it to the [SignalingClient] with one callback for both outcomes.
    [print] and [parse] are rapidjson's writer and parser, [gid] the number
    [generateID()] draws for the request, [K] the type of the callers'
    [std::function] callbacks. *)

From stdpp Require Import base gmap strings list.
From Stdlib Require Import ZArith Lia.
From S2P Require Import Prelude Json SignalingModels WebsocketRequest Observable SignalingClient.

#[local] Open Scope string_scope.
#[local] Open Scope list_scope.

(** The [Response] type argument of [send<Request, Response>]. *)
Inductive response_kind : Type :=
| RGetRouterRtpCapabilities | RCreateWebRtcTransport | RJoin | RBasic | RProduce | RProduceData
| RRestartICE | RTransportStats | RProducerStats | RDataProducerStats | RConsumerStats
| RDataConsumerStats.

Inductive ApiResponse : Type :=
| GetRouterRtpCapabilitiesResp (r : GetRouterRtpCapabilitiesResponse)
| CreateWebRtcTransportResp (r : CreateWebRtcTransportResponse)
| JoinResp (r : JoinResponse)
| BasicResp (r : BasicResponse)
| ProduceResp (r : ProduceResponse)
| ProduceDataResp (r : ProduceDataResponse)
| RestartICEResp (r : RestartICEResponse)
| TransportStatsResp (r : GetTransportStatsResponse)
| ProducerStatsResp (r : GetProducerStatsResponse)
| DataProducerStatsResp (r : GetDataProducerStatsResponse)
| ConsumerStatsResp (r : GetConsumerStatsResponse)
| DataConsumerStatsResp (r : GetDataConsumerStatsResponse).

(** What the two lambdas of [send] capture: the response type and the callback. *)
Record api_cb (K : Type) : Type := mkCb { cb_kind : response_kind; cb_user : option K }.
Arguments mkCb {K}.
Arguments cb_kind {K}.
Arguments cb_user {K}.

(** [callback(errorCode, errorInfo, response)]. *)
Record user_call (K : Type) : Type := mkCall {
  uc_callback : K;
  uc_errorCode : Z;
  uc_errorInfo : string;
  uc_response : option ApiResponse
}.
Arguments mkCall {K}.
Arguments uc_callback {K}.
Arguments uc_errorCode {K}.
Arguments uc_errorInfo {K}.
Arguments uc_response {K}.

Section callbacks.
Context {K : Type}.
Variable parse : string -> option Value.

(** [fromJsonString<Response>(json, err)]. *)
Definition parse_response (kind : response_kind) (gid : Z) (json : string) : jres ApiResponse :=
  match kind with
  | RGetRouterRtpCapabilities => x ← fromJsonString parse default_init json; Ok (GetRouterRtpCapabilitiesResp x)
  | RCreateWebRtcTransport =>
      x ← fromJsonString parse (CreateWebRtcTransportResponse_new gid) json; Ok (CreateWebRtcTransportResp x)
  | RJoin => x ← fromJsonString parse default_init json; Ok (JoinResp x)
  | RBasic => x ← fromJsonString parse default_init json; Ok (BasicResp x)
  | RProduce => x ← fromJsonString parse default_init json; Ok (ProduceResp x)
  | RProduceData => x ← fromJsonString parse default_init json; Ok (ProduceDataResp x)
  | RRestartICE => x ← fromJsonString parse default_init json; Ok (RestartICEResp x)
  | RTransportStats => x ← fromJsonString parse default_init json; Ok (TransportStatsResp x)
  | RProducerStats => x ← fromJsonString parse default_init json; Ok (ProducerStatsResp x)
  | RDataProducerStats => x ← fromJsonString parse default_init json; Ok (DataProducerStatsResp x)
  | RConsumerStats => x ← fromJsonString parse default_init json; Ok (ConsumerStatsResp x)
  | RDataConsumerStats => x ← fromJsonString parse default_init json; Ok (DataConsumerStatsResp x)
  end.

(** The success and the failure lambda of [send]. *)
Definition run_callback (gid : Z) (c : request_call (api_cb K)) : list (user_call K) :=
  match c with
  | Resolve cb json =>
      if decide (json = "") then []
      else match parse_response (cb_kind cb) gid json with
           | Err _ => []
           | Ok response =>
               match cb_user cb with Some k => [mkCall k 0 "" (Some response)] | None => [] end
           end
  | Reject cb errorCode errorInfo =>
      match cb_user cb with Some k => [mkCall k errorCode errorInfo None] | None => [] end
  end.
End callbacks.

Section api.
Context {K : Type}.
Variable print : Value -> string.
(** Whether [_wsc.lock()] yields the client. *)
Variable wsc : bool.

Abbreviation handler := (M (SignalingClient (api_cb K)) (sc_effect (api_cb K))).

(** [send<Request, Response>(request, callback)]; [req_id] reads [request->id]. *)
Definition api_send {Request} `{FieldsMap Request} (kind : response_kind)
    (req_id : Request -> option Z) (request : option Request) (callback : option K) : handler unit :=
  match request with
  | None => skip
  | Some request =>
      if negb wsc then skip
      else sendText (toJsonStr print request) (value_or (req_id request) (-1)%Z)
             (Some (mkCb kind callback)) (Some (mkCb kind callback))
  end.

Definition api_getRouterRtpCapabilities (gid : Z) (callback : option K) : handler unit :=
  api_send RGetRouterRtpCapabilities GetRouterRtpCapabilitiesRequest_id
    (Some (GetRouterRtpCapabilitiesRequest_new gid)) callback.

Definition api_createWebRtcTransport (request : option CreateWebRtcTransportRequest)
    (callback : option K) : handler unit :=
  api_send RCreateWebRtcTransport CreateWebRtcTransportRequest_id request callback.

Definition api_join (request : option JoinRequest) (callback : option K) : handler unit :=
  api_send RJoin JoinRequest_id request callback.

Definition api_connectWebRtcTransport (request : option ConnectWebRtcTransportRequest)
    (callback : option K) : handler unit :=
  api_send RBasic ConnectWebRtcTransportRequest_id request callback.

Definition api_produce (request : option ProduceRequest) (callback : option K) : handler unit :=
  api_send RProduce ProduceRequest_id request callback.

Definition api_produceData (request : option ProduceDataRequest) (callback : option K) : handler unit :=
  api_send RProduceData ProduceDataRequest_id request callback.

(** [request->method = m; request->data = Data(); request->data->producerId = id]. *)
Definition producer_request (gid : Z) (m producerId : string) : ProducerRequest :=
  let r := ProducerRequest_new gid in
  mk_ProducerRequest (ProducerRequest_request r) (ProducerRequest_id r) (Some m)
    (Some (mk_ProducerRequest_Data (Some producerId))).
Definition api_pauseProducer (gid : Z) (producerId : string) (callback : option K) : handler unit :=
  api_send RBasic ProducerRequest_id (Some (producer_request gid "pauseProducer" producerId)) callback.
Definition api_resumeProducer (gid : Z) (producerId : string) (callback : option K) : handler unit :=
  api_send RBasic ProducerRequest_id (Some (producer_request gid "resumeProducer" producerId)) callback.
Definition api_closeProducer (gid : Z) (producerId : string) (callback : option K) : handler unit :=
  api_send RBasic ProducerRequest_id (Some (producer_request gid "closeProducer" producerId)) callback.

Definition consumer_request (gid : Z) (m consumerId : string) : ConsumerRequest :=
  let r := ConsumerRequest_new gid in
  mk_ConsumerRequest (ConsumerRequest_request r) (ConsumerRequest_id r) (Some m)
    (Some (mk_ConsumerRequest_Data (Some consumerId))).
Definition api_pauseConsumer (gid : Z) (consumerId : string) (callback : option K) : handler unit :=
  api_send RBasic ConsumerRequest_id (Some (consumer_request gid "pauseConsumer" consumerId)) callback.
Definition api_resumeConsumer (gid : Z) (consumerId : string) (callback : option K) : handler unit :=
  api_send RBasic ConsumerRequest_id (Some (consumer_request gid "resumeConsumer" consumerId)) callback.
Definition api_requestConsumerKeyFrame (gid : Z) (consumerId : string) (callback : option K) : handler unit :=
  api_send RBasic ConsumerRequest_id (Some (consumer_request gid "requestConsumerKeyFrame" consumerId)) callback.

Definition change_display_name_request (gid : Z) (displayName : string) : ChangeDisplayNameRequest :=
  let r := ChangeDisplayNameRequest_new gid in
  mk_ChangeDisplayNameRequest (ChangeDisplayNameRequest_request r) (ChangeDisplayNameRequest_id r)
    (ChangeDisplayNameRequest_method r) (Some (mk_ChangeDisplayNameRequest_Data (Some displayName))).
Definition api_changeDisplayName (gid : Z) (displayName : string) (callback : option K) : handler unit :=
  api_send RBasic ChangeDisplayNameRequest_id (Some (change_display_name_request gid displayName)) callback.

Definition restart_ice_request (gid : Z) (transportId : string) : RestartICERequest :=
  let r := RestartICERequest_new gid in
  mk_RestartICERequest (RestartICERequest_request r) (RestartICERequest_id r)
    (RestartICERequest_method r) (Some (mk_RestartICERequest_Data (Some transportId))).
Definition api_restartICE (gid : Z) (transportId : string) (callback : option K) : handler unit :=
  api_send RRestartICE RestartICERequest_id (Some (restart_ice_request gid transportId)) callback.

Definition consumer_priority_request (gid : Z) (consumerId : string) (priority : Z) :
    SetConsumerPriorityRequest :=
  let r := SetConsumerPriorityRequest_new gid in
  mk_SetConsumerPriorityRequest (SetConsumerPriorityRequest_request r) (SetConsumerPriorityRequest_id r)
    (SetConsumerPriorityRequest_method r)
    (Some (mk_SetConsumerPriorityRequest_Data (Some consumerId) (Some priority))).
Definition api_setConsumerPriority (gid : Z) (consumerId : string) (priority : Z)
    (callback : option K) : handler unit :=
  api_send RBasic SetConsumerPriorityRequest_id
    (Some (consumer_priority_request gid consumerId priority)) callback.

Definition preferred_layers_request (gid : Z) (consumerId : string) (spatialLayer temporalLayer : Z) :
    SetConsumerPreferredLayersRequest :=
  let r := SetConsumerPreferredLayersRequest_new gid in
  mk_SetConsumerPreferredLayersRequest (SetConsumerPreferredLayersRequest_request r)
    (SetConsumerPreferredLayersRequest_id r) (SetConsumerPreferredLayersRequest_method r)
    (Some (mk_SetConsumerPreferredLayersRequest_Data (Some consumerId) (Some spatialLayer) (Some temporalLayer))).
Definition api_setConsumerPreferredLayers (gid : Z) (consumerId : string) (spatialLayer temporalLayer : Z)
    (callback : option K) : handler unit :=
  api_send RBasic SetConsumerPreferredLayersRequest_id
    (Some (preferred_layers_request gid consumerId spatialLayer temporalLayer)) callback.

Definition transport_stats_request (gid : Z) (transportId : string) : GetTransportStatsRequest :=
  let r := GetTransportStatsRequest_new gid in
  mk_GetTransportStatsRequest (GetTransportStatsRequest_request r) (GetTransportStatsRequest_id r)
    (GetTransportStatsRequest_method r) (Some (mk_GetTransportStatsRequest_Data (Some transportId))).
Definition api_getTransportStats (gid : Z) (transportId : string) (callback : option K) : handler unit :=
  api_send RTransportStats GetTransportStatsRequest_id (Some (transport_stats_request gid transportId)) callback.

Definition producer_stats_request (gid : Z) (producerId : string) : GetProducerStatsRequest :=
  let r := GetProducerStatsRequest_new gid in
  mk_GetProducerStatsRequest (GetProducerStatsRequest_request r) (GetProducerStatsRequest_id r)
    (GetProducerStatsRequest_method r) (Some (mk_GetProducerStatsRequest_Data (Some producerId))).
Definition api_getProducerStats (gid : Z) (producerId : string) (callback : option K) : handler unit :=
  api_send RProducerStats GetProducerStatsRequest_id (Some (producer_stats_request gid producerId)) callback.

Definition data_producer_stats_request (gid : Z) (dataProducerId : string) : GetDataProducerStatsRequest :=
  let r := GetDataProducerStatsRequest_new gid in
  mk_GetDataProducerStatsRequest (GetDataProducerStatsRequest_request r) (GetDataProducerStatsRequest_id r)
    (GetDataProducerStatsRequest_method r) (Some (mk_GetDataProducerStatsRequest_Data (Some dataProducerId))).
Definition api_getDataProducerStats (gid : Z) (dataProducerId : string) (callback : option K) : handler unit :=
  api_send RDataProducerStats GetDataProducerStatsRequest_id
    (Some (data_producer_stats_request gid dataProducerId)) callback.

Definition consumer_stats_request (gid : Z) (consumerId : string) : GetConsumerStatsRequest :=
  let r := GetConsumerStatsRequest_new gid in
  mk_GetConsumerStatsRequest (GetConsumerStatsRequest_request r) (GetConsumerStatsRequest_id r)
    (GetConsumerStatsRequest_method r) (Some (mk_GetConsumerStatsRequest_Data (Some consumerId))).
Definition api_getConsumerStats (gid : Z) (consumerId : string) (callback : option K) : handler unit :=
  api_send RConsumerStats GetConsumerStatsRequest_id (Some (consumer_stats_request gid consumerId)) callback.

Definition data_consumer_stats_request (gid : Z) (dataConsumerId : string) : GetDataConsumerStatsRequest :=
  let r := GetDataConsumerStatsRequest_new gid in
  mk_GetDataConsumerStatsRequest (GetDataConsumerStatsRequest_request r) (GetDataConsumerStatsRequest_id r)
    (GetDataConsumerStatsRequest_method r) (Some (mk_GetDataConsumerStatsRequest_Data (Some dataConsumerId))).
Definition api_getDataConsumerStats (gid : Z) (dataConsumerId : string) (callback : option K) : handler unit :=
  api_send RDataConsumerStats GetDataConsumerStatsRequest_id
    (Some (data_consumer_stats_request gid dataConsumerId)) callback.

Definition api_applyNetworkThrottle (request : option ApplyNetworkThrottleRequest)
    (callback : option K) : handler unit :=
  api_send RBasic ApplyNetworkThrottleRequest_id request callback.

Definition reset_throttle_request (gid : Z) (secret : string) : ResetNetworkThrottleRequest :=
  let r := ResetNetworkThrottleRequest_new gid in
  mk_ResetNetworkThrottleRequest (ResetNetworkThrottleRequest_request r) (ResetNetworkThrottleRequest_id r)
    (ResetNetworkThrottleRequest_method r) (Some (mk_ResetNetworkThrottleRequest_Data (Some secret))).
Definition api_resetNetworkThrottle (gid : Z) (secret : string) (callback : option K) : handler unit :=
  api_send RBasic ResetNetworkThrottleRequest_id (Some (reset_throttle_request gid secret)) callback.

(** [response(response)]: the answer to a server request. *)
Definition api_response (response : option BasicResponse) : handler unit :=
  match response with
  | None => skip
  | Some response =>
      if negb wsc then skip
      else sendText (toJsonStr print response) (value_or (BasicResponse_id response) (-1)%Z) None None
  end.
End api.

(** ** The requests as data *)

(** The calls of [IMediasoupApi] that send a request; where the caller builds the
    request object, it does so by [make_shared<Request>()] and sets its [data]. *)
Inductive api_request : Type :=
| AGetRouterRtpCapabilities
| ACreateWebRtcTransport (data : option CreateWebRtcTransportRequest_Data)
| AJoin (data : option JoinRequest_Data)
| AConnectWebRtcTransport (data : option ConnectWebRtcTransportRequest_Data)
| AProduce (data : option ProduceRequest_Data)
| AProduceData (data : option ProduceDataRequest_Data)
| APauseProducer (producerId : string)
| AResumeProducer (producerId : string)
| ACloseProducer (producerId : string)
| APauseConsumer (consumerId : string)
| AResumeConsumer (consumerId : string)
| AChangeDisplayName (displayName : string)
| ARestartICE (transportId : string)
| ARequestConsumerKeyFrame (consumerId : string)
| ASetConsumerPriority (consumerId : string) (priority : Z)
| ASetConsumerPreferredLayers (consumerId : string) (spatialLayer temporalLayer : Z)
| AGetTransportStats (transportId : string)
| AGetProducerStats (producerId : string)
| AGetDataProducerStats (dataProducerId : string)
| AGetConsumerStats (consumerId : string)
| AGetDataConsumerStats (dataConsumerId : string)
| AApplyNetworkThrottle (data : option ApplyNetworkThrottleRequest_Data)
| AResetNetworkThrottle (secret : string).

(** The requests the callers of the API build. *)
Definition transport_request (gid : Z) (data : option CreateWebRtcTransportRequest_Data) :
    CreateWebRtcTransportRequest :=
  let r := CreateWebRtcTransportRequest_new gid in
  mk_CreateWebRtcTransportRequest (CreateWebRtcTransportRequest_request r)
    (CreateWebRtcTransportRequest_id r) (CreateWebRtcTransportRequest_method r) data.
Definition join_request (gid : Z) (data : option JoinRequest_Data) : JoinRequest :=
  let r := JoinRequest_new gid in
  mk_JoinRequest (JoinRequest_request r) (JoinRequest_id r) (JoinRequest_method r) data.
Definition connect_request (gid : Z) (data : option ConnectWebRtcTransportRequest_Data) :
    ConnectWebRtcTransportRequest :=
  let r := ConnectWebRtcTransportRequest_new gid in
  mk_ConnectWebRtcTransportRequest (ConnectWebRtcTransportRequest_request r)
    (ConnectWebRtcTransportRequest_id r) (ConnectWebRtcTransportRequest_method r) data.
Definition produce_request (gid : Z) (data : option ProduceRequest_Data) : ProduceRequest :=
  let r := ProduceRequest_new gid in
  mk_ProduceRequest (ProduceRequest_request r) (ProduceRequest_id r) (ProduceRequest_method r) data.
Definition produce_data_request (gid : Z) (data : option ProduceDataRequest_Data) : ProduceDataRequest :=
  let r := ProduceDataRequest_new gid in
  mk_ProduceDataRequest (ProduceDataRequest_request r) (ProduceDataRequest_id r)
    (ProduceDataRequest_method r) data.
Definition throttle_request (gid : Z) (data : option ApplyNetworkThrottleRequest_Data) :
    ApplyNetworkThrottleRequest :=
  let r := ApplyNetworkThrottleRequest_new gid in
  mk_ApplyNetworkThrottleRequest (ApplyNetworkThrottleRequest_request r)
    (ApplyNetworkThrottleRequest_id r) (ApplyNetworkThrottleRequest_method r) data.

(** The call itself. *)
Definition api_call {K} (print : Value -> string) (wsc : bool) (r : api_request) (gid : Z)
    (cb : option K) : M (SignalingClient (api_cb K)) (sc_effect (api_cb K)) unit :=
  match r with
  | AGetRouterRtpCapabilities => api_getRouterRtpCapabilities print wsc gid cb
  | ACreateWebRtcTransport d => api_createWebRtcTransport print wsc (Some (transport_request gid d)) cb
  | AJoin d => api_join print wsc (Some (join_request gid d)) cb
  | AConnectWebRtcTransport d => api_connectWebRtcTransport print wsc (Some (connect_request gid d)) cb
  | AProduce d => api_produce print wsc (Some (produce_request gid d)) cb
  | AProduceData d => api_produceData print wsc (Some (produce_data_request gid d)) cb
  | APauseProducer i => api_pauseProducer print wsc gid i cb
  | AResumeProducer i => api_resumeProducer print wsc gid i cb
  | ACloseProducer i => api_closeProducer print wsc gid i cb
  | APauseConsumer i => api_pauseConsumer print wsc gid i cb
  | AResumeConsumer i => api_resumeConsumer print wsc gid i cb
  | AChangeDisplayName n => api_changeDisplayName print wsc gid n cb
  | ARestartICE i => api_restartICE print wsc gid i cb
  | ARequestConsumerKeyFrame i => api_requestConsumerKeyFrame print wsc gid i cb
  | ASetConsumerPriority i p => api_setConsumerPriority print wsc gid i p cb
  | ASetConsumerPreferredLayers i sl tl => api_setConsumerPreferredLayers print wsc gid i sl tl cb
  | AGetTransportStats i => api_getTransportStats print wsc gid i cb
  | AGetProducerStats i => api_getProducerStats print wsc gid i cb
  | AGetDataProducerStats i => api_getDataProducerStats print wsc gid i cb
  | AGetConsumerStats i => api_getConsumerStats print wsc gid i cb
  | AGetDataConsumerStats i => api_getDataConsumerStats print wsc gid i cb
  | AApplyNetworkThrottle d => api_applyNetworkThrottle print wsc (Some (throttle_request gid d)) cb
  | AResetNetworkThrottle x => api_resetNetworkThrottle print wsc gid x cb
  end.

(** The document a call serializes, and the response type it expects. *)
Definition api_message (r : api_request) (gid : Z) : Value :=
  match r with
  | AGetRouterRtpCapabilities => jserialize (GetRouterRtpCapabilitiesRequest_new gid)
  | ACreateWebRtcTransport d => jserialize (transport_request gid d)
  | AJoin d => jserialize (join_request gid d)
  | AConnectWebRtcTransport d => jserialize (connect_request gid d)
  | AProduce d => jserialize (produce_request gid d)
  | AProduceData d => jserialize (produce_data_request gid d)
  | APauseProducer i => jserialize (producer_request gid "pauseProducer" i)
  | AResumeProducer i => jserialize (producer_request gid "resumeProducer" i)
  | ACloseProducer i => jserialize (producer_request gid "closeProducer" i)
  | APauseConsumer i => jserialize (consumer_request gid "pauseConsumer" i)
  | AResumeConsumer i => jserialize (consumer_request gid "resumeConsumer" i)
  | AChangeDisplayName n => jserialize (change_display_name_request gid n)
  | ARestartICE i => jserialize (restart_ice_request gid i)
  | ARequestConsumerKeyFrame i => jserialize (consumer_request gid "requestConsumerKeyFrame" i)
  | ASetConsumerPriority i p => jserialize (consumer_priority_request gid i p)
  | ASetConsumerPreferredLayers i sl tl => jserialize (preferred_layers_request gid i sl tl)
  | AGetTransportStats i => jserialize (transport_stats_request gid i)
  | AGetProducerStats i => jserialize (producer_stats_request gid i)
  | AGetDataProducerStats i => jserialize (data_producer_stats_request gid i)
  | AGetConsumerStats i => jserialize (consumer_stats_request gid i)
  | AGetDataConsumerStats i => jserialize (data_consumer_stats_request gid i)
  | AApplyNetworkThrottle d => jserialize (throttle_request gid d)
  | AResetNetworkThrottle x => jserialize (reset_throttle_request gid x)
  end.

Definition api_kind (r : api_request) : response_kind :=
  match r with
  | AGetRouterRtpCapabilities => RGetRouterRtpCapabilities
  | ACreateWebRtcTransport _ => RCreateWebRtcTransport
  | AJoin _ => RJoin
  | AProduce _ => RProduce
  | AProduceData _ => RProduceData
  | ARestartICE _ => RRestartICE
  | AGetTransportStats _ => RTransportStats
  | AGetProducerStats _ => RProducerStats
  | AGetDataProducerStats _ => RDataProducerStats
  | AGetConsumerStats _ => RConsumerStats
  | AGetDataConsumerStats _ => RDataConsumerStats
  | _ => RBasic
  end.

(** The protoo method the server expects for each call. *)
Definition api_method (r : api_request) : string :=
  match r with
  | AGetRouterRtpCapabilities => "getRouterRtpCapabilities"
  | ACreateWebRtcTransport _ => "createWebRtcTransport"
  | AJoin _ => "join"
  | AConnectWebRtcTransport _ => "connectWebRtcTransport"
  | AProduce _ => "produce"
  | AProduceData _ => "produceData"
  | APauseProducer _ => "pauseProducer"
  | AResumeProducer _ => "resumeProducer"
  | ACloseProducer _ => "closeProducer"
  | APauseConsumer _ => "pauseConsumer"
  | AResumeConsumer _ => "resumeConsumer"
  | AChangeDisplayName _ => "changeDisplayName"
  | ARestartICE _ => "restartIce"
  | ARequestConsumerKeyFrame _ => "requestConsumerKeyFrame"
  | ASetConsumerPriority _ _ => "setConsumerPriority"
  | ASetConsumerPreferredLayers _ _ _ => "setConsumerPreferredLayers"
  | AGetTransportStats _ => "getTransportStats"
  | AGetProducerStats _ => "getProducerStats"
  | AGetDataProducerStats _ => "getDataProducerStats"
  | AGetConsumerStats _ => "getConsumerStats"
  | AGetDataConsumerStats _ => "getDataConsumerStats"
  | AApplyNetworkThrottle _ => "applyNetworkThrottle"
  | AResetNetworkThrottle _ => "resetNetworkThrottle"
  end.

(** ** Lemmas *)

Lemma generateID_int32 gid : generateID gid = true -> in_int32 gid = true.
Proof.
  unfold generateID. rewrite andb_true_iff, !Z.leb_le, in_int32_spec. unfold INT32_MIN, INT32_MAX. lia.
Qed.
Lemma generateID_int64 gid : generateID gid = true -> in_int64 gid = true.
Proof.
  unfold generateID. rewrite andb_true_iff, !Z.leb_le, in_int64_spec.
  unfold INT64_MIN, INT64_MAX, INT32_MAX. lia.
Qed.
Lemma generateID_nonneg gid : generateID gid = true -> gid <> (-1)%Z.
Proof. unfold generateID. rewrite andb_true_iff, !Z.leb_le. lia. Qed.

Lemma api_call_sends {K} print r gid (cb : option K) :
  api_call print true r gid cb =
  sendText (print (api_message r gid)) gid (Some (mkCb (api_kind r) cb)) (Some (mkCb (api_kind r) cb)).
Proof. destruct r; reflexivity. Qed.

(** ** Properties *)

(** Every request the API sends carries the drawn id and the method name of
    the call, whatever its data; the [request] flag is set on all of them except
    [produceData], whose struct has no initializer for it. *)
Theorem api_request_header r gid :
  generateID gid = true ->
  jdeserialize (A := RequestHeader) (api_message r gid) default_init =
  Ok (mk_RequestHeader (match r with AProduceData _ => None | _ => Some true end)
        (Some gid) (Some (api_method r))).
Proof.
  intros Hg%generateID_int64.
  destruct r as [|[]|[]|[]|[]|[]| | | | | | | | | | | | | | | |[]|]; cbn -[in_int64]; by rewrite Hg.
Qed.

Lemma api_request_header_witness :
  jdeserialize (A := RequestHeader) (api_message (AProduceData None) 5) default_init =
  Ok (mk_RequestHeader None (Some 5%Z) (Some "produceData")).
Proof. apply (api_request_header (AProduceData None) 5). reflexivity. Defined.

(** C16. A call followed by a well-formed response with its id completes the
    call: the text is sent, and the caller's callback gets error code 0 and the
    parsed response, once; the request is no longer pending. *)
Theorem api_call_completes {K} print parse (s : SignalingClient (api_cb K)) r gid k json h resp :
  generateID gid = true -> print (api_message r gid) <> "" -> json <> "" ->
  fromJsonString (A := ResponseHeader) parse default_init json = Ok h ->
  ResponseHeader_id h = Some gid ->
  parse_response parse (api_kind r) gid json = Ok resp ->
  exists c,
    (_ ← api_call print true r gid (Some k); handleResponse_task parse json) s =
      Done (tt, set_requestMap (delete gid) s, [TransportSendText (print (api_message r gid)); Callback c]) /\
    run_callback parse gid c = [mkCall k 0 "" (Some resp)].
Proof.
  intros Hg Hp Hj Hh Hid Hr. exists (Resolve (mkCb (api_kind r) (Some k)) json). split.
  - rewrite api_call_sends.
    destruct (sendText_run (print (api_message r gid)) gid (Some (mkCb (api_kind r) (Some k)))
                (Some (mkCb (api_kind r) (Some k))) s Hp) as (q & Hs & _ & Hres & _).
    rewrite (bind_done _ _ _ _ _ _ Hs).
    pose proof (wrap32_id _ (generateID_int32 _ Hg)) as Hw.
    rewrite (response_hit _ _ h gid q); [|done|done|by apply generateID_nonneg|].
    + rewrite Hres. unfold set_requestMap. simpl. by rewrite Hw, delete_insert_eq.
    + simpl. rewrite Hw. apply lookup_insert_eq.
  - simpl. rewrite decide_False by done. by rewrite Hr.
Qed.

Definition sample_print (v : Value) : string := "request".
Lemma api_call_completes_witness :
  exists c,
    (_ ← api_call sample_print true (APauseProducer "p") 7 (Some 1%nat);
     handleResponse_task sample_parse "r7") (mkClient ∅ [] (Some 1%nat)) =
      Done (tt, set_requestMap (delete 7%Z) (mkClient ∅ [] (Some 1%nat)),
            [TransportSendText "request"; Callback c]) /\
    run_callback sample_parse 7 c =
      [mkCall 1%nat 0 "" (Some (BasicResp (mk_BasicResponse (Some true) (Some 7%Z) (Some true))))].
Proof.
  apply (api_call_completes sample_print sample_parse (mkClient ∅ [] (Some 1%nat)) (APauseProducer "p") 7 1%nat "r7"
           (mk_ResponseHeader (Some true) (Some 7%Z) (Some true)));
    [reflexivity | discriminate | discriminate | vm_compute; reflexivity | reflexivity | vm_compute; reflexivity].
Defined.

(** The callback of a call can be lost: when the response carries the
    right id but does not parse as the call's response type, the request is
    taken out of the table and the caller's callback is not called at all. *)
Theorem bad_response_drops_callback {K} print parse (s : SignalingClient (api_cb K)) r gid k json h e :
  generateID gid = true -> print (api_message r gid) <> "" ->
  fromJsonString (A := ResponseHeader) parse default_init json = Ok h ->
  ResponseHeader_id h = Some gid ->
  parse_response parse (api_kind r) gid json = Err e ->
  exists s' es,
    (_ ← api_call print true r gid (Some k); handleResponse_task parse json) s = Done (tt, s', es) /\
    sc_requestMap s' !! gid = None /\
    (es ≫= fun x => match x with Callback c => run_callback parse gid c | _ => [] end) = [].
Proof.
  intros Hg Hp Hh Hid Hr. rewrite api_call_sends.
  destruct (sendText_run (print (api_message r gid)) gid (Some (mkCb (api_kind r) (Some k)))
              (Some (mkCb (api_kind r) (Some k))) s Hp) as (q & Hs & _ & Hres & _).
  rewrite (bind_done _ _ _ _ _ _ Hs).
  pose proof (wrap32_id _ (generateID_int32 _ Hg)) as Hw.
  rewrite (response_hit _ _ h gid q); [|done|done|by apply generateID_nonneg|].
  - eexists _, _. split; [reflexivity|]. split; [simpl; apply lookup_delete_eq|].
    rewrite Hres. simpl. case_decide; [done|]. by rewrite Hr.
  - simpl. rewrite Hw. apply lookup_insert_eq.
Qed.

(** A response whose [data.id] is a number where [produce] expects a string. *)
Definition bad_parse (text : string) : option Value :=
  Some (JObject [("response", JBool true); ("id", JInt 7); ("ok", JBool true);
                 ("data", JObject [("id", JInt 1)])]).
Lemma bad_response_drops_callback_witness :
  exists s' es,
    (_ ← api_call sample_print true (AProduce None) 7 (Some 1%nat);
     handleResponse_task bad_parse "x") (mkClient ∅ [] (Some 1%nat)) = Done (tt, s', es) /\
    sc_requestMap s' !! 7%Z = None /\
    (es ≫= fun x => match x with Callback c => run_callback bad_parse 7 c | _ => [] end) = [].
Proof.
  apply (bad_response_drops_callback sample_print bad_parse (mkClient ∅ [] (Some 1%nat)) (AProduce None) 7 1%nat "x"
           (mk_ResponseHeader (Some true) (Some 7%Z) (Some true)) (JsonTypeMismatch "id"));
    [reflexivity | discriminate | vm_compute; reflexivity | reflexivity | vm_compute; reflexivity].
Defined.
