(* ===== verification/ParticipantController.v ===== *)
(** * Participants

    Models [core/service/participant.cpp] and
    [core/service/participant_controller.cpp].  Participants are heap objects
    shared with the observers, so the controller's state holds a store of
    participants and a map from peer ids to (possibly null) pointers into it.
    [std::unordered_map::operator[]] inserts a null pointer for a missing key;
    the model does the same.  The media controller is reached through the
    interface class [IMediaController]. *)

From stdpp Require Import base gmap strings list.
From Stdlib Require Import ZArith Lia.
From S2P Require Import Prelude Json SignalingModels Observable.

#[local] Open Scope string_scope.
#[local] Open Scope list_scope.

(** [rtc::scoped_refptr<webrtc::MediaStreamTrackInterface>]. *)
Abbreviation track_ptr := (option nat).

(** ** Participant *)

(** The members of [Participant].  The constructor initializes only the id and
    the name: [None] stands for an indeterminate scalar. *)
Record Participant : Type := mkParticipant {
  p_id : string;
  p_displayName : string;
  p_isActive : option bool;
  p_isAudioMuted : option bool;
  p_isVideoMuted : option bool;
  p_volume : option Z;
  p_audioTracks : gmap string track_ptr;
  p_videoTracks : gmap string track_ptr
}.

Definition new_participant (id displayName : string) : Participant :=
  mkParticipant id displayName None None None None ∅ ∅.

Definition hasAudio (p : Participant) : bool := negb (bool_decide (p_audioTracks p = ∅)).
Definition hasVideo (p : Participant) : bool := negb (bool_decide (p_videoTracks p = ∅)).

Definition setId (id : string) (p : Participant) : Participant :=
  mkParticipant id (p_displayName p) (p_isActive p) (p_isAudioMuted p) (p_isVideoMuted p) (p_volume p)
    (p_audioTracks p) (p_videoTracks p).
Definition setDisplayName (name : string) (p : Participant) : Participant :=
  mkParticipant (p_id p) name (p_isActive p) (p_isAudioMuted p) (p_isVideoMuted p) (p_volume p)
    (p_audioTracks p) (p_videoTracks p).
Definition setActive (isActive : bool) (p : Participant) : Participant :=
  mkParticipant (p_id p) (p_displayName p) (Some isActive) (p_isAudioMuted p) (p_isVideoMuted p) (p_volume p)
    (p_audioTracks p) (p_videoTracks p).
Definition setAudioMuted (muted : bool) (p : Participant) : Participant :=
  mkParticipant (p_id p) (p_displayName p) (p_isActive p) (Some muted) (p_isVideoMuted p) (p_volume p)
    (p_audioTracks p) (p_videoTracks p).
Definition setVideoMuted (muted : bool) (p : Participant) : Participant :=
  mkParticipant (p_id p) (p_displayName p) (p_isActive p) (p_isAudioMuted p) (Some muted) (p_volume p)
    (p_audioTracks p) (p_videoTracks p).
Definition setSpeakingVolume (volume : Z) (p : Participant) : Participant :=
  mkParticipant (p_id p) (p_displayName p) (p_isActive p) (p_isAudioMuted p) (p_isVideoMuted p) (Some volume)
    (p_audioTracks p) (p_videoTracks p).
Definition setAudioTracks (tracks : gmap string track_ptr) (p : Participant) : Participant :=
  mkParticipant (p_id p) (p_displayName p) (p_isActive p) (p_isAudioMuted p) (p_isVideoMuted p) (p_volume p)
    tracks (p_videoTracks p).
Definition setVideoTracks (tracks : gmap string track_ptr) (p : Participant) : Participant :=
  mkParticipant (p_id p) (p_displayName p) (p_isActive p) (p_isAudioMuted p) (p_isVideoMuted p) (p_volume p)
    (p_audioTracks p) tracks.

(** ** The interface to the media controller *)

(** The calls of [IMediaController] the participant controller makes; [MC] is
    the media controller's state, [E] its effects. *)
Class IMediaController (MC E : Type) : Type := {
  i_muteAudio : string -> bool -> M MC E unit;
  i_isAudioMuted : string -> M MC E bool;
  i_muteVideo : string -> bool -> M MC E unit;
  i_isVideoMuted : string -> M MC E bool;
  i_getRemoteAudioTracks : string -> M MC E (gmap string track_ptr);
  i_getRemoteVideoTracks : string -> M MC E (gmap string track_ptr)
}.

(** What the track queries must promise: on a media state that satisfies
    [mc_ok] they end normally, keep [mc_ok], and have no effects. *)
Class MediaTracksOk (MC E : Type) `{IMediaController MC E} : Type := {
  mc_ok : MC -> Prop;
  audio_tracks_ok pid s :
    mc_ok s -> exists ts s', i_getRemoteAudioTracks pid s = Done (ts, s', []) /\ mc_ok s';
  video_tracks_ok pid s :
    mc_ok s -> exists ts s', i_getRemoteVideoTracks pid s = Done (ts, s', []) /\ mc_ok s'
}.

(** ** ParticipantController *)

(** The calls an [IParticipantEventHandler] receives; a participant is passed
    as a pointer. *)
Inductive ParticipantEvent : Type :=
| PParticipantJoin (p : nat)
| PParticipantLeave (p : nat)
| PRemoteActiveSpeaker (p : nat) (volume : Z)
| PDisplayNameChanged (p : nat)
| PCreateRemoteVideoTrack (p : nat) (tid : string) (track : track_ptr) (appData : Value)
| PRemoveRemoteVideoTrack (p : nat) (tid : string) (track : track_ptr)
| PRemoteAudioStateChanged (p : nat) (muted : bool)
| PRemoteVideoStateChanged (p : nat) (muted : bool).

Record ParticipantController (MC : Type) : Type := mkController {
  pc_participantMap : gmap string (option nat);
  pc_heap : gmap nat Participant;
  pc_next : nat;
  pc_observers : list inner_object;
  pc_media : MC
}.
Arguments mkController {MC}.
Arguments pc_participantMap {MC}.
Arguments pc_heap {MC}.
Arguments pc_next {MC}.
Arguments pc_observers {MC}.
Arguments pc_media {MC}.

(** Effects: calls of the observers, and what the media controller does. *)
Inductive pc_effect (E : Type) : Type :=
| PNotify (e : ParticipantEvent)
| PMedia (e : E).
Arguments PNotify {E}.
Arguments PMedia {E}.

Section controller.
Context {MC E : Type} `{IMediaController MC E}.

Abbreviation state := (ParticipantController MC).
Abbreviation handler := (M (ParticipantController MC) (pc_effect E)).

Definition set_map (f : gmap string (option nat) -> gmap string (option nat)) (s : state) : state :=
  mkController (f (pc_participantMap s)) (pc_heap s) (pc_next s) (pc_observers s) (pc_media s).
Definition set_heap (f : gmap nat Participant -> gmap nat Participant) (s : state) : state :=
  mkController (pc_participantMap s) (f (pc_heap s)) (pc_next s) (pc_observers s) (pc_media s).
Definition set_pc_observers (f : list inner_object -> list inner_object) (s : state) : state :=
  mkController (pc_participantMap s) (pc_heap s) (pc_next s) (f (pc_observers s)) (pc_media s).
Definition set_media (m : MC) (s : state) : state :=
  mkController (pc_participantMap s) (pc_heap s) (pc_next s) (pc_observers s) m.

(** [std::make_shared<Participant>(id, displayName)]. *)
Definition alloc (p : Participant) : handler nat := fun s =>
  Done (pc_next s,
        mkController (pc_participantMap s) (<[pc_next s := p]> (pc_heap s)) (S (pc_next s))
          (pc_observers s) (pc_media s), []).

(** [_participantMap[pid]]. *)
Definition map_index (pid : string) : handler (option nat) :=
  m ← gets pc_participantMap;
  match m !! pid with
  | Some p => mret p
  | None => _ ← modify (set_map <[pid := None]>); mret None
  end.

(** [impl->set...(...)] through a non-null pointer. *)
Definition update (p : nat) (f : Participant -> Participant) : handler unit :=
  modify (set_heap (alter f p)).

Definition media {A} (m : M MC E A) : handler A := zoom pc_media set_media PMedia m.

Definition pc_init : handler unit := skip.
Definition pc_destroy : handler unit := modify (set_map (fun _ => ∅)).

Definition pc_addObserver (alive : address -> bool) (observer : observer_ptr) (thread : option nat) :
    handler unit :=
  modify (set_pc_observers (fun l => addWeakObserver alive l observer thread)).
Definition pc_removeObserver (alive : address -> bool) (observer : observer_ptr) : handler unit :=
  modify (set_pc_observers (fun l => Observable.removeObserver alive l observer)).

Definition getParticipant (pid : string) : handler (option nat) :=
  m ← gets pc_participantMap;
  if decide (is_Some (m !! pid)) then map_index pid else mret None.
Definition getParticipants : handler (gmap string (option nat)) := gets pc_participantMap.

Definition pc_muteAudio (pid : string) (muted : bool) : handler unit := media (i_muteAudio pid muted).
Definition pc_isAudioMuted (pid : string) : handler bool := media (i_isAudioMuted pid).
Definition pc_muteVideo (pid : string) (muted : bool) : handler unit := media (i_muteVideo pid muted).
Definition pc_isVideoMuted (pid : string) : handler bool := media (i_isVideoMuted pid).

Definition createParticipant (pid displayName : string) : handler unit :=
  m ← gets pc_participantMap;
  if decide (is_Some (m !! pid)) then skip
  else
    a ← alloc (new_participant pid displayName);
    _ ← modify (set_map <[pid := Some a]>);
    participant ← map_index pid;
    match participant with
    | None => skip
    | Some p =>
        _ ← update p (setActive true);
        emit (PNotify (PParticipantJoin p))
    end.

(** [ISignalingEventHandler] *)

Definition pc_onNewPeer (notification : option NewPeerNotification) : handler unit :=
  match notification with
  | None => skip
  | Some notification =>
      data ← value "notification->data" (NewPeerNotification_data notification);
      let pid := value_or (NewPeerNotification_Data_id data) "" in
      if decide (pid = "") then skip
      else
        m ← gets pc_participantMap;
        if decide (m !! pid = None) then
          createParticipant pid (value_or (NewPeerNotification_Data_displayName data) "")
        else skip
  end.

(** The common head of the handlers below: [pid] must not be empty and
    [_participantMap[pid]] must not be null. *)
Definition with_participant (pid : string) (body : nat -> handler unit) : handler unit :=
  if decide (pid = "") then skip
  else
    participant ← map_index pid;
    match participant with
    | None => skip
    | Some p => body p
    end.

Definition pc_onPeerClosed (notification : option PeerClosedNotification) : handler unit :=
  match notification with
  | None => skip
  | Some notification =>
      data ← value "notification->data" (PeerClosedNotification_data notification);
      let pid := value_or (PeerClosedNotification_Data_peerId data) "" in
      with_participant pid (fun p =>
        _ ← update p (setActive false);
        _ ← emit (PNotify (PParticipantLeave p));
        modify (set_map (delete pid)))
  end.

Definition pc_onPeerDisplayNameChanged (notification : option PeerDisplayNameChangedNotification) :
    handler unit :=
  match notification with
  | None => skip
  | Some notification =>
      data ← value "notification->data" (PeerDisplayNameChangedNotification_data notification);
      with_participant (value_or (PeerDisplayNameChangedNotification_Data_peerId data) "") (fun p =>
        _ ← update p (setDisplayName
              (value_or (PeerDisplayNameChangedNotification_Data_displayName data) ""));
        emit (PNotify (PDisplayNameChanged p)))
  end.

Definition pc_onActiveSpeaker (notification : option ActiveSpeakerNotification) : handler unit :=
  match notification with
  | None => skip
  | Some notification =>
      data ← value "notification->data" (ActiveSpeakerNotification_data notification);
      with_participant (value_or (ActiveSpeakerNotification_Data_peerId data) "") (fun p =>
        let volume := value_or (ActiveSpeakerNotification_Data_volume data) 0%Z in
        _ ← update p (setSpeakingVolume volume);
        emit (PNotify (PRemoteActiveSpeaker p volume)))
  end.

(** [IMediaEventHandler] *)

Definition pc_onRemoteAudioStateChanged (pid : string) (muted : bool) : handler unit :=
  with_participant pid (fun p =>
    _ ← update p (setAudioMuted muted);
    emit (PNotify (PRemoteAudioStateChanged p muted))).

Definition pc_onRemoteVideoStateChanged (pid : string) (muted : bool) : handler unit :=
  with_participant pid (fun p =>
    _ ← update p (setVideoMuted muted);
    emit (PNotify (PRemoteVideoStateChanged p muted))).

Definition pc_onCreateRemoteAudioTrack (pid tid : string) (track : track_ptr) : handler unit :=
  with_participant pid (fun p =>
    tracks ← media (i_getRemoteAudioTracks pid);
    update p (setAudioTracks tracks)).

Definition pc_onRemoveRemoteAudioTrack (pid tid : string) (track : track_ptr) : handler unit :=
  with_participant pid (fun p =>
    tracks ← media (i_getRemoteAudioTracks pid);
    update p (setAudioTracks tracks)).

Definition pc_onCreateRemoteVideoTrack (pid tid : string) (track : track_ptr) (appData : Value) :
    handler unit :=
  with_participant pid (fun p =>
    tracks ← media (i_getRemoteVideoTracks pid);
    _ ← update p (setVideoTracks tracks);
    emit (PNotify (PCreateRemoteVideoTrack p tid track appData))).

Definition pc_onRemoveRemoteVideoTrack (pid tid : string) (track : track_ptr) : handler unit :=
  with_participant pid (fun p =>
    tracks ← media (i_getRemoteVideoTracks pid);
    _ ← update p (setVideoTracks tracks);
    emit (PNotify (PRemoveRemoteVideoTrack p tid track))).

(** A new controller. *)
Definition new_controller (m : MC) : state := mkController ∅ ∅ O [] m.
End controller.

(** ** Invariant *)

(** Every registered pointer leads to a stored, active participant that carries
    its key as id; the store is allocated up to [pc_next]. *)
Definition pc_wf {MC} (s : ParticipantController MC) : Prop :=
  (forall pid p, pc_participantMap s !! pid = Some (Some p) ->
     exists q, pc_heap s !! p = Some q /\ p_id q = pid /\ p_isActive q = Some true) /\
  (forall p, is_Some (pc_heap s !! p) -> (p < pc_next s)%nat).

Section invariant.
Context {MC E : Type} `{IMediaController MC E}.
Implicit Types s : ParticipantController MC.

Lemma new_controller_wf (m : MC) : pc_wf (new_controller m).
Proof. split; simpl; intros ?; [intros ?|]; rewrite lookup_empty; [done | by intros []]. Qed.

Lemma wf_set_media m s : pc_wf s -> pc_wf (set_media m s).
Proof. done. Qed.

Lemma wf_insert_null pid s :
  pc_participantMap s !! pid = None -> pc_wf s -> pc_wf (set_map <[pid := None]> s).
Proof.
  intros Hn [Hm Hh]. split; [|done]. simpl. intros pid' p.
  rewrite lookup_insert. case_decide; [done | apply Hm].
Qed.

Lemma wf_delete pid s : pc_wf s -> pc_wf (set_map (delete pid) s).
Proof.
  intros [Hm Hh]. split; [|done]. simpl. intros pid' p.
  rewrite lookup_delete. case_decide; [done | apply Hm].
Qed.

(** An update that keeps the id and the activity of the participant. *)
Definition keeps_identity (f : Participant -> Participant) : Prop :=
  forall q, p_id (f q) = p_id q /\ (p_isActive q = Some true -> p_isActive (f q) = Some true).

Lemma wf_update f p s : keeps_identity f -> pc_wf s -> pc_wf (set_heap (alter f p) s).
Proof.
  intros Hf [Hm Hh]. split; simpl.
  - intros pid p' (q & Hq & Hid & Hact)%Hm. destruct (Hf q) as [H1 H2].
    rewrite lookup_alter. case_decide as Hp; subst; [|by eauto].
    exists (f q). rewrite Hq, H1. auto.
  - intros p'. rewrite lookup_alter. case_decide; [|apply Hh].
    rewrite fmap_is_Some. subst. apply Hh.
Qed.

(** [map_index] inserts a null entry at most; a non-null answer is registered. *)
Lemma map_index_wlp pid (Q : option nat -> ParticipantController MC -> list (pc_effect E) -> Prop) s :
  pc_wf s ->
  (forall p, pc_participantMap s !! pid = Some p -> Q p s []) ->
  (pc_participantMap s !! pid = None -> pc_wf (set_map <[pid := None]> s) ->
   Q None (set_map <[pid := None]> s) []) ->
  wlp (map_index pid) Q s.
Proof.
  intros Hwf Hs Hn. unfold map_index. wlp_run; simpl; eauto using wf_insert_null.
Qed.

Lemma with_participant_preserves pid (body : nat -> M (ParticipantController MC) (pc_effect E) unit) :
  (forall p s, pc_wf s -> pc_participantMap s !! pid = Some (Some p) -> wlp (body p) (fun _ s' _ => pc_wf s') s) ->
  preserves pc_wf (with_participant pid body).
Proof.
  intros Hb s Hwf. unfold with_participant. wlp_step; [by apply wlp_ret|].
  wlp_step. apply map_index_wlp; [done| |].
  - intros [p|] Hp; [eapply wlp_mono; [|by apply Hb]; done | by apply wlp_ret].
  - intros _ Hwf'. by apply wlp_ret.
Qed.

(** A body that only updates its participant, queries the media controller
    and notifies. *)
Lemma keeps_identity_setters :
  (forall n, keeps_identity (setDisplayName n)) /\ (forall b, keeps_identity (setAudioMuted b)) /\
  (forall b, keeps_identity (setVideoMuted b)) /\ (forall v, keeps_identity (setSpeakingVolume v)) /\
  (forall t, keeps_identity (setAudioTracks t)) /\ (forall t, keeps_identity (setVideoTracks t)) /\
  keeps_identity (setActive true).
Proof. repeat split; done. Qed.

Lemma wlp_update f p s (Q : unit -> ParticipantController MC -> list (pc_effect E) -> Prop) :
  Q tt (set_heap (alter f p) s) [] -> wlp (update p f) Q s.
Proof. done. Qed.

Lemma wlp_media {A} (m : M MC E A) s (Q : A -> ParticipantController MC -> list (pc_effect E) -> Prop) :
  (forall a m' es, Q a (set_media m' s) es) -> wlp (media m) Q s.
Proof. intros HQ. unfold wlp, media, zoom. destruct (m (pc_media s)) as [[[a m'] es]|]; auto. Qed.

(** The two branches of [createParticipant]. *)
Lemma createParticipant_old pid name s :
  is_Some (pc_participantMap s !! pid) ->
  createParticipant (E := E) pid name s = Done (tt, s, []).
Proof.
  intros Hs. unfold createParticipant. rewrite (bind_done _ _ s (pc_participantMap s) s []) by done.
  by rewrite decide_True by done.
Qed.

Definition with_new_participant (pid name : string) s : ParticipantController MC :=
  mkController (<[pid := Some (pc_next s)]> (pc_participantMap s))
    (<[pc_next s := setActive true (new_participant pid name)]> (pc_heap s))
    (S (pc_next s)) (pc_observers s) (pc_media s).

Lemma createParticipant_new pid name s :
  pc_participantMap s !! pid = None ->
  createParticipant (E := E) pid name s =
    Done (tt, with_new_participant pid name s, [PNotify (PParticipantJoin (pc_next s))]).
Proof.
  intros Hn. unfold createParticipant. rewrite (bind_done _ _ s (pc_participantMap s) s []) by done.
  rewrite decide_False by (rewrite Hn; by intros []).
  unfold alloc, map_index, update. run_M.
  rewrite lookup_insert_eq. unfold with_new_participant, set_heap. simpl.
  by rewrite alter_insert_eq.
Qed.

Lemma wf_new pid name s : pc_wf s -> pc_wf (with_new_participant pid name s).
Proof.
  intros [Hm Hh]. split; simpl.
  - intros pid' p. rewrite lookup_insert. case_decide as Hpid.
    + intros [= <-]. rewrite lookup_insert_eq. eauto.
    + intros (q & Hq & Hrest)%Hm. exists q. rewrite lookup_insert_ne; [done|].
      intros <-. pose proof (Hh _ (mk_is_Some _ _ Hq)). lia.
  - intros p. rewrite lookup_insert. case_decide; [lia|]. intros Hp%Hh. lia.
Qed.

Lemma createParticipant_preserves pid name :
  preserves pc_wf (createParticipant (MC := MC) (E := E) pid name).
Proof.
  intros s Hwf. unfold wlp. destruct (pc_participantMap s !! pid) eqn:Hp.
  - by rewrite createParticipant_old by eauto.
  - rewrite createParticipant_new by done. by apply wf_new.
Qed.

(** The common shape of the media and notification handlers: update the
    participant with a function that keeps its identity, then notify. *)
Lemma wlp_update_emit f p e s :
  keeps_identity f -> pc_wf s ->
  wlp (_ ← update p f; emit e) (fun _ s' (_ : list (pc_effect E)) => pc_wf s') s.
Proof. intros Hf Hwf. by apply (wf_update f p s). Qed.
End invariant.

(** ** Operations *)

(** Every call that can reach the controller: from the room, from the signaling
    client and from the media controller. *)
Inductive pc_op : Type :=
| OpDestroy
| OpAddObserver (alive : address -> bool) (observer : observer_ptr) (thread : option nat)
| OpRemoveObserver (alive : address -> bool) (observer : observer_ptr)
| OpGetParticipant (pid : string)
| OpMuteAudio (pid : string) (muted : bool)
| OpIsAudioMuted (pid : string)
| OpMuteVideo (pid : string) (muted : bool)
| OpIsVideoMuted (pid : string)
| OpCreateParticipant (pid displayName : string)
| OpNewPeer (n : option NewPeerNotification)
| OpPeerClosed (n : option PeerClosedNotification)
| OpDisplayNameChanged (n : option PeerDisplayNameChangedNotification)
| OpActiveSpeaker (n : option ActiveSpeakerNotification)
| OpRemoteAudioState (pid : string) (muted : bool)
| OpRemoteVideoState (pid : string) (muted : bool)
| OpCreateRemoteAudioTrack (pid tid : string) (track : track_ptr)
| OpRemoveRemoteAudioTrack (pid tid : string) (track : track_ptr)
| OpCreateRemoteVideoTrack (pid tid : string) (track : track_ptr) (appData : Value)
| OpRemoveRemoteVideoTrack (pid tid : string) (track : track_ptr).

Section operations.
Context {MC E : Type} `{IMediaController MC E}.
Implicit Types s : ParticipantController MC.

Definition pc_run (op : pc_op) : M (ParticipantController MC) (pc_effect E) unit :=
  match op with
  | OpDestroy => pc_destroy
  | OpAddObserver alive o t => pc_addObserver alive o t
  | OpRemoveObserver alive o => pc_removeObserver alive o
  | OpGetParticipant pid => _ ← getParticipant pid; skip
  | OpMuteAudio pid b => pc_muteAudio pid b
  | OpIsAudioMuted pid => _ ← pc_isAudioMuted pid; skip
  | OpMuteVideo pid b => pc_muteVideo pid b
  | OpIsVideoMuted pid => _ ← pc_isVideoMuted pid; skip
  | OpCreateParticipant pid n => createParticipant pid n
  | OpNewPeer n => pc_onNewPeer n
  | OpPeerClosed n => pc_onPeerClosed n
  | OpDisplayNameChanged n => pc_onPeerDisplayNameChanged n
  | OpActiveSpeaker n => pc_onActiveSpeaker n
  | OpRemoteAudioState pid b => pc_onRemoteAudioStateChanged pid b
  | OpRemoteVideoState pid b => pc_onRemoteVideoStateChanged pid b
  | OpCreateRemoteAudioTrack pid tid t => pc_onCreateRemoteAudioTrack pid tid t
  | OpRemoveRemoteAudioTrack pid tid t => pc_onRemoveRemoteAudioTrack pid tid t
  | OpCreateRemoteVideoTrack pid tid t a => pc_onCreateRemoteVideoTrack pid tid t a
  | OpRemoveRemoteVideoTrack pid tid t => pc_onRemoveRemoteVideoTrack pid tid t
  end.

Lemma onPeerClosed_preserves n : preserves pc_wf (pc_onPeerClosed (MC := MC) (E := E) n).
Proof.
  intros s Hwf. unfold pc_onPeerClosed. wlp_step; [|done]. wlp_step. wlp_step.
  apply with_participant_preserves; [|done]. clear s Hwf. intros q s Hwf Hq.
  apply wlp_bind, wlp_update. wlp_run. split; simpl.
  - intros pid' q'. rewrite lookup_delete. case_decide; [done|]. intros Hq'.
    destruct (proj1 Hwf _ _ Hq) as (x & Hx & Hid & _).
    destruct (proj1 Hwf _ _ Hq') as (x' & Hx' & Hid' & Hact).
    exists x'. rewrite lookup_alter_ne; [done|]. intros ->. congruence.
  - intros q'. rewrite lookup_alter. case_decide; [|apply Hwf].
    rewrite fmap_is_Some. subst. apply Hwf.
Qed.

Lemma pc_run_preserves op : preserves pc_wf (pc_run op).
Proof.
  pose proof keeps_identity_setters as (?&?&?&?&?&?&?).
  destruct op; simpl; intros s Hwf;
    try (apply wlp_media; by intros);
    try (apply wlp_bind, wlp_media; by intros);
    try (unfold pc_onCreateRemoteAudioTrack, pc_onRemoveRemoteAudioTrack, pc_onCreateRemoteVideoTrack,
           pc_onRemoveRemoteVideoTrack;
         apply with_participant_preserves; [|done]; intros; apply wlp_bind, wlp_media; intros;
         by apply wf_update);
    try (by apply with_participant_preserves; [|done]; intros; apply wlp_update_emit);
    try (unfold pc_onPeerDisplayNameChanged, pc_onActiveSpeaker;
         wlp_step; [|done]; wlp_step; wlp_step;
         by apply with_participant_preserves; [|done]; intros; apply wlp_update_emit).
  - split; simpl; [intros ??; by rewrite lookup_empty | apply Hwf].
  - done.
  - done.
  - unfold getParticipant. wlp_run; [|done]. apply map_index_wlp; [done| |]; by intros.
  - by apply createParticipant_preserves.
  - unfold pc_onNewPeer. wlp_run; try done. by apply createParticipant_preserves.
  - by apply onPeerClosed_preserves.
Qed.
End operations.

(** ** What the observers see *)

(** The life of participants as an observer may expect it: a participant joins
    once, under a pointer never seen before; every other call about it falls
    between its join and its leave.  [lifecycle] runs this specification over
    the calls; the state is the next pointer and the participants present. *)
Definition event_participant (e : ParticipantEvent) : nat :=
  match e with
  | PParticipantJoin p | PParticipantLeave p | PRemoteActiveSpeaker p _ | PDisplayNameChanged p
  | PCreateRemoteVideoTrack p _ _ _ | PRemoveRemoteVideoTrack p _ _
  | PRemoteAudioStateChanged p _ | PRemoteVideoStateChanged p _ => p
  end.

Definition lifecycle_step (st : nat * gset nat) (e : ParticipantEvent) : option (nat * gset nat) :=
  let '(next, present) := st in
  match e with
  | PParticipantJoin p =>
      if decide (p = next) then Some (S next, {[p]} ∪ present) else None
  | PParticipantLeave p =>
      if decide (p ∈ present) then Some (next, present ∖ {[p]}) else None
  | _ => if decide (event_participant e ∈ present) then Some st else None
  end.

Fixpoint lifecycle (st : nat * gset nat) (es : list ParticipantEvent) : option (nat * gset nat) :=
  match es with
  | [] => Some st
  | e :: es => match lifecycle_step st e with Some st' => lifecycle st' es | None => None end
  end.

(** The calls of the observers among the effects. *)
Fixpoint notifications {E} (es : list (pc_effect E)) : list ParticipantEvent :=
  match es with
  | [] => []
  | PNotify e :: es => e :: notifications es
  | PMedia _ :: es => notifications es
  end.

Lemma notifications_app {E} (es es' : list (pc_effect E)) :
  notifications (es ++ es') = notifications es ++ notifications es'.
Proof. induction es as [|[e|e] es IH]; simpl; by rewrite ?IH. Qed.

Lemma notifications_media {E} (es : list E) : notifications (PMedia <$> es) = [].
Proof. by induction es. Qed.

Lemma lifecycle_app st es es' :
  lifecycle st (es ++ es') = match lifecycle st es with Some st' => lifecycle st' es' | None => None end.
Proof.
  revert st. induction es as [|e es IH]; intros st; simpl; [done|].
  destruct (lifecycle_step st e); [apply IH | done].
Qed.

Section observers.
Context {MC E : Type} `{IMediaController MC E}.
Implicit Types s : ParticipantController MC.

(** Registered participants are present for the observers. *)
Definition registered_present s (present : gset nat) : Prop :=
  forall pid p, pc_participantMap s !! pid = Some (Some p) -> p ∈ present.

Definition accepted s (present : gset nat) s' (es : list (pc_effect E)) : Prop :=
  exists present' : gset nat, lifecycle (pc_next s, present) (notifications es) = Some (pc_next s', present') /\
    registered_present s' present'.

(** A step that sends at most calls about registered participants and
    registers nothing is accepted. *)
Lemma accepted_silent s present s' es :
  pc_next s' = pc_next s -> notifications es = [] -> registered_present s' present ->
  accepted s present s' es.
Proof. intros Hn He Hr. exists present. rewrite He, Hn. done. Qed.

Lemma accepted_event s present s' e :
  pc_next s' = pc_next s -> registered_present s' present ->
  event_participant e ∈ present ->
  match e with PParticipantJoin _ | PParticipantLeave _ => False | _ => True end ->
  accepted s present s' [PNotify e].
Proof.
  intros Hn Hr He Hk. exists present. rewrite Hn. split; [|done]. simpl.
  destruct e; try done; simpl in *; by rewrite decide_True.
Qed.

Lemma wlp_with_participant pid (body : nat -> M (ParticipantController MC) (pc_effect E) unit) s present :
  registered_present s present ->
  (forall p, pc_participantMap s !! pid = Some (Some p) ->
     wlp (body p) (fun _ s' es => accepted s present s' es) s) ->
  wlp (with_participant pid body) (fun _ s' es => accepted s present s' es) s.
Proof.
  intros Hr Hb. unfold with_participant. wlp_step; [by apply accepted_silent|].
  wlp_step. unfold map_index. wlp_step. wlp_step.
  destruct (pc_participantMap s !! pid) as [[p|]|] eqn:Hp; simpl.
  - wlp_step. by apply Hb.
  - wlp_run. by apply accepted_silent.
  - wlp_run. apply accepted_silent; [done | done |]. intros pid' p. simpl.
    rewrite lookup_insert. case_decide; [done | exact (Hr pid' p)].
Qed.

Lemma wlp_media_silent {A} (m : M MC E A) s (Q : A -> ParticipantController MC -> list (pc_effect E) -> Prop) :
  (forall a m' es, notifications es = [] -> Q a (set_media m' s) es) -> wlp (media m) Q s.
Proof.
  intros HQ. unfold wlp, media, zoom. destruct (m (pc_media s)) as [[[a m'] es]|]; [|done].
  apply HQ, notifications_media.
Qed.

Lemma accepted_update_emit f e pid p s present :
  registered_present s present -> pc_participantMap s !! pid = Some (Some p) ->
  event_participant e = p ->
  match e with PParticipantJoin _ | PParticipantLeave _ => False | _ => True end ->
  wlp (_ ← update p f; emit (PNotify e)) (fun _ s' es => accepted s present s' es) s.
Proof. intros Hr Hp He Hk. apply accepted_event; try done. rewrite He. exact (Hr _ _ Hp). Qed.

Lemma createParticipant_accepted pid name s present :
  registered_present s present ->
  wlp (createParticipant pid name) (fun _ s' es => accepted s present s' es) s.
Proof.
  intros Hr. unfold wlp. destruct (pc_participantMap s !! pid) eqn:Hp.
  - rewrite createParticipant_old by eauto. by apply accepted_silent.
  - rewrite createParticipant_new by done. exists ({[pc_next s]} ∪ present). simpl.
    rewrite decide_True by done. split; [done|]. intros pid' p. simpl. rewrite lookup_insert.
    case_decide; [intros [= <-]; set_solver | intros ?%Hr; set_solver].
Qed.

Lemma onPeerClosed_accepted n s present :
  pc_wf s -> registered_present s present ->
  wlp (pc_onPeerClosed n) (fun _ s' es => accepted s present s' es) s.
Proof.
  intros Hwf Hr. unfold pc_onPeerClosed. wlp_step; [|by apply accepted_silent]. wlp_step. wlp_step.
  apply wlp_with_participant; [done|]. intros q Hq. apply wlp_bind, wlp_update. wlp_run.
  exists (present ∖ {[q]}). simpl. rewrite decide_True by exact (Hr _ _ Hq).
  split; [done|]. intros pid' q'. simpl. rewrite lookup_delete. case_decide; [done|]. intros Hq'.
  apply elem_of_difference. split; [exact (Hr _ _ Hq')|]. rewrite elem_of_singleton. intros ->.
  destruct (proj1 Hwf _ _ Hq) as (x & Hx & Hid & _), (proj1 Hwf _ _ Hq') as (x' & Hx' & Hid' & _).
  congruence.
Qed.

Lemma accepted_tracks {A} (m : M MC E A) f e pid p s present :
  registered_present s present -> pc_participantMap s !! pid = Some (Some p) ->
  event_participant e = p ->
  match e with PParticipantJoin _ | PParticipantLeave _ => False | _ => True end ->
  wlp (t ← media m; _ ← update p (f t); emit (PNotify e)) (fun _ s' es => accepted s present s' es) s.
Proof.
  intros Hr Hp He Hk. apply wlp_bind, wlp_media_silent. intros t m' es Hes.
  apply (wlp_mono _ (fun _ s' es' => accepted (set_media m' s) present s' es')).
  - unfold accepted. intros _ s' es'. by rewrite notifications_app, Hes.
  - by apply (accepted_update_emit _ _ pid).
Qed.

Lemma pc_run_accepted op s present :
  pc_wf s -> registered_present s present ->
  wlp (pc_run op) (fun _ s' es => accepted s present s' es) s.
Proof.
  intros Hwf Hr. destruct op; simpl.
  all: try (by apply accepted_silent).
  all: try (apply wlp_media_silent; intros; by apply accepted_silent).
  all: try (apply wlp_bind, wlp_media_silent; intros; wlp_step; apply accepted_silent;
            by rewrite ?app_nil_r).
  all: try (apply wlp_with_participant; [done|]; intros p Hp;
            first [by eapply accepted_update_emit | by eapply accepted_tracks]).
  all: try (apply wlp_with_participant; [done|]; intros p Hp; apply wlp_bind, wlp_media_silent;
            intros tr m' es Hes; apply accepted_silent; by rewrite ?app_nil_r).
  - unfold getParticipant, map_index. wlp_run; by apply accepted_silent.
  - by apply createParticipant_accepted.
  - unfold pc_onNewPeer. wlp_run; try (by apply accepted_silent). by apply createParticipant_accepted.
  - by apply onPeerClosed_accepted.
  - unfold pc_onPeerDisplayNameChanged. wlp_step; [|by apply accepted_silent]. wlp_step. wlp_step.
    apply wlp_with_participant; [done|]. intros. by eapply accepted_update_emit.
  - unfold pc_onActiveSpeaker. wlp_step; [|by apply accepted_silent]. wlp_step. wlp_step.
    apply wlp_with_participant; [done|]. intros. by eapply accepted_update_emit.
Qed.
End observers.

(** ** Properties *)

(** A media controller that knows no tracks, for the witnesses. *)
#[global] Instance silent_media : IMediaController unit Empty_set := {|
  i_muteAudio _ _ := skip;
  i_isAudioMuted _ := mret true;
  i_muteVideo _ _ := skip;
  i_isVideoMuted _ := mret true;
  i_getRemoteAudioTracks _ := mret ∅;
  i_getRemoteVideoTracks _ := mret ∅
|}.

#[global] Instance silent_media_ok : MediaTracksOk unit Empty_set := {|
  mc_ok _ := True;
  audio_tracks_ok _ s _ := ex_intro _ ∅ (ex_intro _ s (conj eq_refl I));
  video_tracks_ok _ s _ := ex_intro _ ∅ (ex_intro _ s (conj eq_refl I))
|}.

Definition new_peer (pid name : string) : option NewPeerNotification :=
  Some (mk_NewPeerNotification None None
    (Some (mk_NewPeerNotification_Data (Some pid) (Some name) None))).
Definition peer_closed (pid : string) : option PeerClosedNotification :=
  Some (mk_PeerClosedNotification None None (Some (mk_PeerClosedNotification_Data (Some pid)))).

(** The peer a handler looks up with [_participantMap[pid]], for the calls that
    do; [None] for the others and for notifications without data. *)
Definition event_peer (op : pc_op) : option string :=
  match op with
  | OpPeerClosed (Some n) =>
      (fun d => value_or (PeerClosedNotification_Data_peerId d) "") <$> PeerClosedNotification_data n
  | OpDisplayNameChanged (Some n) =>
      (fun d => value_or (PeerDisplayNameChangedNotification_Data_peerId d) "") <$>
        PeerDisplayNameChangedNotification_data n
  | OpActiveSpeaker (Some n) =>
      (fun d => value_or (ActiveSpeakerNotification_Data_peerId d) "") <$> ActiveSpeakerNotification_data n
  | OpRemoteAudioState pid _ | OpRemoteVideoState pid _
  | OpCreateRemoteAudioTrack pid _ _ | OpRemoveRemoteAudioTrack pid _ _
  | OpCreateRemoteVideoTrack pid _ _ _ | OpRemoveRemoteVideoTrack pid _ _ => Some pid
  | _ => None
  end.

(** A notification that carries no [data]. *)
Definition lacks_data (op : pc_op) : bool :=
  match op with
  | OpNewPeer (Some n) => negb (bool_decide (is_Some (NewPeerNotification_data n)))
  | OpPeerClosed (Some n) => negb (bool_decide (is_Some (PeerClosedNotification_data n)))
  | OpDisplayNameChanged (Some n) =>
      negb (bool_decide (is_Some (PeerDisplayNameChangedNotification_data n)))
  | OpActiveSpeaker (Some n) => negb (bool_decide (is_Some (ActiveSpeakerNotification_data n)))
  | _ => false
  end.

(** The calls that are passed on to the media controller as they are. *)
Definition delegated (op : pc_op) : bool :=
  match op with
  | OpMuteAudio _ _ | OpIsAudioMuted _ | OpMuteVideo _ _ | OpIsVideoMuted _ => true
  | _ => false
  end.

Section properties.
Context {MC E : Type} `{IMediaController MC E}.
Implicit Types s : ParticipantController MC.

Lemma run_accepted ops s present :
  pc_wf s -> registered_present s present ->
  wlp (for_each ops pc_run) (fun _ s' es => pc_wf s' /\ accepted s present s' es) s.
Proof.
  revert s present. induction ops as [|op ops IH]; intros s present Hwf Hr; simpl.
  { split; [done|]. by apply accepted_silent. }
  apply wlp_bind. pose proof (pc_run_preserves op s Hwf) as Hp.
  pose proof (pc_run_accepted op s present Hwf Hr) as Ha.
  unfold wlp in *. destruct (pc_run op s) as [[[a s1] e1]|]; [|done].
  destruct Ha as (present1 & Hl & Hr1). specialize (IH s1 present1 Hp Hr1).
  destruct (for_each ops pc_run s1) as [[[b s2] e2]|]; [|done].
  destruct IH as [Hwf2 (present2 & Hl2 & Hr2)]. split; [done|].
  exists present2. by rewrite notifications_app, lifecycle_app, Hl.
Qed.

(** C6: whatever sequence of calls reaches a new participant controller, the
    observers see a well-formed life of every participant (one join, under a
    pointer never used before, before any other call about it; at most one
    leave; nothing after the leave), and the table then holds only active
    participants the observers know, each under its own id. *)
Theorem participant_lifecycle ops (m : MC) s (es : list (pc_effect E)) :
  for_each ops pc_run (new_controller m) = Done (tt, s, es) ->
  exists present,
    lifecycle (0%nat, ∅) (notifications es) = Some (pc_next s, present) /\
    (forall pid p, pc_participantMap s !! pid = Some (Some p) ->
       p ∈ present /\
       exists q, pc_heap s !! p = Some q /\ p_id q = pid /\ p_isActive q = Some true).
Proof.
  intros Hrun. pose proof (run_accepted ops (new_controller m) ∅ (new_controller_wf m)) as Hacc.
  unfold wlp in Hacc. rewrite Hrun in Hacc. destruct Hacc as [[Hm _] (present & Hl & Hr)].
  { intros pid p. simpl. by rewrite lookup_empty. }
  exists present. split; [exact Hl|]. intros pid p Hp. split; [exact (Hr _ _ Hp) | exact (Hm _ _ Hp)].
Qed.

Lemma onPeerClosed_registered pid p q s :
  pid <> "" -> pc_participantMap s !! pid = Some (Some p) -> pc_heap s !! p = Some q ->
  pc_onPeerClosed (E := E) (peer_closed pid) s =
    Done (tt, set_map (delete pid) (set_heap <[p := setActive false q]> s),
          [PNotify (PParticipantLeave p)]).
Proof.
  intros Hne Hp Hq. unfold pc_onPeerClosed, peer_closed, with_participant, map_index, update. run_M.
  rewrite decide_False by done. rewrite Hp. simpl. unfold set_map, set_heap. simpl.
  repeat f_equal. apply map_eq. intros i. rewrite lookup_alter, lookup_insert.
  case_decide; subst; by rewrite ?Hq.
Qed.

Lemma onNewPeer_absent pid name s :
  pid <> "" -> pc_participantMap s !! pid = None ->
  pc_onNewPeer (E := E) (new_peer pid name) s =
    Done (tt, with_new_participant pid name s, [PNotify (PParticipantJoin (pc_next s))]).
Proof.
  intros Hne Hp. unfold pc_onNewPeer, new_peer. run_M.
  rewrite decide_False by done. rewrite decide_True by done. by rewrite createParticipant_new.
Qed.

(** A peer that joins, leaves and joins again is reported as two
    participants: the first object ends inactive and stays as it is, the
    second is a new, active object with the new display name, and the table
    holds only the second. *)
Theorem join_leave_rejoin pid n1 n2 s :
  pid <> "" -> pc_participantMap s !! pid = None ->
  exists s',
    for_each [OpNewPeer (new_peer pid n1); OpPeerClosed (peer_closed pid); OpNewPeer (new_peer pid n2)]
      (pc_run (E := E)) s =
      Done (tt, s', [PNotify (PParticipantJoin (pc_next s)); PNotify (PParticipantLeave (pc_next s));
                     PNotify (PParticipantJoin (S (pc_next s)))]) /\
    pc_participantMap s' = <[pid := Some (S (pc_next s))]> (pc_participantMap s) /\
    pc_heap s' !! pc_next s = Some (setActive false (new_participant pid n1)) /\
    pc_heap s' !! S (pc_next s) = Some (setActive true (new_participant pid n2)) /\
    (forall p, p ≠ pc_next s -> p ≠ S (pc_next s) -> pc_heap s' !! p = pc_heap s !! p).
Proof.
  intros Hne Hn. eexists. split; [|split; [|split; [|split]]].
  - cbn [for_each pc_run]. erewrite bind_done by (by apply onNewPeer_absent).
    erewrite bind_done; [|eapply onPeerClosed_registered; [done|simpl; by rewrite lookup_insert_eq..]].
    erewrite bind_done; [|apply onNewPeer_absent; [done|simpl; by rewrite lookup_delete_eq]].
    done.
  - simpl. by rewrite delete_insert_eq, delete_id by done.
  - simpl. by rewrite lookup_insert_ne, lookup_insert_eq by lia.
  - simpl. by rewrite lookup_insert_eq.
  - intros p H1 H2. simpl. by rewrite !lookup_insert_ne by done.
Qed.

Lemma with_participant_absent pid body s :
  pid <> "" -> pc_participantMap s !! pid = None ->
  with_participant (E := E) pid body s = Done (tt, set_map <[pid := None]> s, []).
Proof.
  intros Hne Hn. unfold with_participant, map_index. rewrite decide_False by done. run_M.
  by rewrite Hn.
Qed.

(** An event about a peer that is not (yet) in the table is dropped, but
    leaves a null entry behind; when the peer's [newPeer] notification comes
    after it, no participant is created, nobody is told that the peer joined,
    and the peer stays unknown. *)
Theorem early_event_hides_peer op pid name s :
  event_peer op = Some pid -> pid <> "" -> pc_participantMap s !! pid = None ->
  let s' := set_map <[pid := None]> s in
  for_each [op; OpNewPeer (new_peer pid name)] (pc_run (E := E)) s = Done (tt, s', []) /\
  createParticipant (E := E) pid name s' = Done (tt, s', []) /\
  getParticipant (E := E) pid s' = Done (None, s', []).
Proof.
  intros Hop Hne Hn s'.
  assert (Hs' : pc_participantMap s' !! pid = Some None) by (simpl; by rewrite lookup_insert_eq).
  assert (Hrun : pc_run (E := E) op s = Done (tt, s', [])).
  { destruct op as [| | | | | | | | | |[n|]|[n|]|[n|]| | | | | |]; simplify_eq/=;
      try (by apply with_participant_absent);
      unfold pc_onPeerClosed, pc_onPeerDisplayNameChanged, pc_onActiveSpeaker;
      match type of Hop with _ <$> ?d = _ => destruct d; simplify_eq/= end;
      (erewrite bind_done by done); by rewrite with_participant_absent. }
  split; [|split].
  - cbn [for_each]. rewrite (bind_done _ _ _ _ _ _ Hrun). unfold pc_run, pc_onNewPeer, new_peer.
    run_M. rewrite decide_False by done. rewrite decide_False by congruence. done.
  - apply createParticipant_old. by rewrite Hs'.
  - unfold getParticipant, map_index. run_M. rewrite lookup_insert_eq. rewrite decide_True by eauto. by rewrite Hs'.
Qed.

(** The call ends normally. *)
Definition ends (m : M (ParticipantController MC) (pc_effect E) unit) s : Prop :=
  exists s' es, m s = Done (tt, s', es).

Lemma ends_value {A} w (d : A) f s : ends (f d) s -> ends (x ← value w (Some d); f x) s.
Proof. intros (s' & es & Hf). exists s', es. unfold ends. run_M. by rewrite Hf. Qed.

Lemma ends_tracks {A} (m : M MC E A) (f : A -> M (ParticipantController MC) (pc_effect E) unit) s :
  (exists ts m', m (pc_media s) = Done (ts, m', [])) -> (forall ts s, ends (f ts) s) ->
  ends (ts ← media m; f ts) s.
Proof.
  intros (ts & m' & Hm) Hf. destruct (Hf ts (set_media m' s)) as (s' & es & Hs').
  exists s', es. unfold media, zoom, mbind, M_bind. rewrite Hm. simpl. by rewrite Hs'.
Qed.

Lemma with_participant_done pid body s :
  (forall p, ends (body p) s) -> ends (with_participant pid body) s.
Proof.
  intros Hb. unfold ends, with_participant, map_index. case_decide; [by eexists _, _|]. run_M.
  destruct (pc_participantMap s !! pid) as [[p|]|] eqn:Hp; simpl.
  - destruct (Hb p) as (s' & es & ->). by eexists _, _.
  - by eexists _, _.
  - by eexists _, _.
Qed.

Lemma createParticipant_done pid name s :
  ends (createParticipant pid name) s.
Proof.
  unfold ends. destruct (pc_participantMap s !! pid) eqn:Hp.
  - rewrite createParticipant_old by eauto. by eexists _, _.
  - rewrite createParticipant_new by done. by eexists _, _.
Qed.

Lemma run_ends `{!MediaTracksOk MC E} op s :
  mc_ok (pc_media s) -> delegated op = false -> lacks_data op = false -> ends (pc_run op) s.
Proof.
  intros Hok Hd Hl. pose proof (fun pid => audio_tracks_ok pid _ Hok) as Ha.
  pose proof (fun pid => video_tracks_ok pid _ Hok) as Hv.
  destruct op as [| | | | | | | | |[n|]|[n|]|[n|]|[n|]| | | | | |]; try done; simpl in *;
    unfold pc_onNewPeer, pc_onPeerClosed, pc_onPeerDisplayNameChanged, pc_onActiveSpeaker in *;
    try (rewrite negb_false_iff, bool_decide_eq_true in Hl; destruct Hl as [d Hl]; rewrite Hl;
         apply ends_value); cbv beta;
    try (by eexists _, _); try apply createParticipant_done;
    try (apply with_participant_done; intros p; first
      [ by eexists _, _
      | apply ends_tracks; [|intros; by eexists _, _];
        first [destruct (Ha pid) as (?&?&?&_); by eauto | destruct (Hv pid) as (?&?&?&_); by eauto]]).
  - unfold ends, getParticipant, map_index. run_M.
    destruct (pc_participantMap s !! pid) eqn:Hp; rewrite ?decide_True, ?decide_False by
      (rewrite ?Hp; eauto; by intros []); rewrite ?Hp; by eexists _, _.
  - case_decide; [by eexists _, _|]. unfold ends. run_M.
    case_decide; [|by eexists _, _]. destruct (createParticipant_done
      (value_or (NewPeerNotification_Data_id d) "") (value_or (NewPeerNotification_Data_displayName d) "") s)
      as (s' & es & ->). by eexists _, _.
Qed.

(** As long as the media controller answers the track queries, the only
    calls that fail are notifications that carry no [data]: those always read
    through an empty optional, and every other call ends normally. *)
Theorem faults_exactly_without_data `{!MediaTracksOk MC E} op s :
  mc_ok (pc_media s) -> delegated op = false ->
  (exists f, pc_run (E := E) op s = Fault f) <-> lacks_data op = true.
Proof.
  intros Hok Hd. destruct (lacks_data op) eqn:Hl; split; try done.
  - intros _. destruct op as [| | | | | | | | |[n|]|[n|]|[n|]|[n|]| | | | | |]; try done; simpl in *;
      unfold pc_onNewPeer, pc_onPeerClosed, pc_onPeerDisplayNameChanged, pc_onActiveSpeaker;
      rewrite negb_true_iff, bool_decide_eq_false in Hl; rewrite <- eq_None_not_Some in Hl;
      rewrite Hl; run_M; by eexists.
  - intros [f Hf]. exfalso. cut (ends (pc_run op) s); [intros (s' & es & Hrun); congruence|].
    clear f Hf. by apply run_ends.
Qed.
End properties.

(** ** Witnesses *)

Definition empty_room : ParticipantController unit := new_controller tt.

(** Two peers come, one speaks, one leaves. *)
Definition sample_session : list pc_op :=
  [OpNewPeer (new_peer "alice" "Alice"); OpNewPeer (new_peer "bob" "Bob");
   OpRemoteAudioState "bob" true; OpPeerClosed (peer_closed "alice")].

Lemma participant_lifecycle_witness :
  exists s es present,
    for_each sample_session (pc_run (E := Empty_set)) empty_room = Done (tt, s, es) /\
    lifecycle (0%nat, ∅) (notifications es) = Some (pc_next s, present) /\ (length es = 4)%nat.
Proof.
  destruct (for_each sample_session (pc_run (E := Empty_set)) empty_room) as [[[[] s] es]|] eqn:Hrun.
  - destruct (participant_lifecycle sample_session tt s es Hrun) as (present & Hl & _).
    exists s, es, present. split; [done|]. split; [exact Hl|]. vm_compute in Hrun.
    injection Hrun as <- <-. reflexivity.
  - vm_compute in Hrun. discriminate Hrun.
Defined.

Lemma join_leave_rejoin_witness :
  exists s', for_each [OpNewPeer (new_peer "alice" "Alice"); OpPeerClosed (peer_closed "alice");
                       OpNewPeer (new_peer "alice" "Alice 2")] (pc_run (E := Empty_set)) empty_room =
    Done (tt, s', [PNotify (PParticipantJoin 0); PNotify (PParticipantLeave 0); PNotify (PParticipantJoin 1)]).
Proof.
  destruct (join_leave_rejoin (E := Empty_set) "alice" "Alice" "Alice 2" empty_room) as (s' & Hs' & _);
    [discriminate | reflexivity |]. exists s'. exact Hs'.
Defined.

Lemma early_event_hides_peer_witness :
  exists s', for_each [OpRemoteAudioState "bob" true; OpNewPeer (new_peer "bob" "Bob")]
               (pc_run (E := Empty_set)) empty_room = Done (tt, s', []).
Proof.
  destruct (early_event_hides_peer (E := Empty_set) (OpRemoteAudioState "bob" true) "bob" "Bob" empty_room)
    as (Hrun & _); [reflexivity | discriminate | reflexivity |]. eexists. exact Hrun.
Defined.

Lemma faults_exactly_without_data_witness :
  exists f, pc_run (E := Empty_set) (OpPeerClosed (Some (mk_PeerClosedNotification None None None))) empty_room
            = Fault f.
Proof.
  apply (faults_exactly_without_data (E := Empty_set)).
  - exact I.
  - reflexivity.
  - vm_compute. reflexivity.
Defined.
