(* ===== verification/ParticipantProxy.v ===== *)
(** * The participant controller behind its proxy

    Models the proxy map of [core/service/i_participant_controller.h] and [ProxyImpl]
    ([core/utils/container.hpp]), through which applications reach the participants
    from their own threads. *)

From stdpp Require Import base gmap strings list.
From Stdlib Require Import ZArith.
From S2P Require Import Prelude Observable ParticipantController Proxy ProxyObject.

#[local] Open Scope list_scope.
#[local] Open Scope nat_scope.

(** The methods; [alive]: the observers alive at the call. *)
Inductive participant_method : Type :=
| PMAddObserver (alive : address -> bool) (observer : observer_ptr) (callbackThread : option nat)
| PMRemoveObserver (alive : address -> bool) (observer : observer_ptr)
| PMGetParticipant (pid : string)
| PMGetParticipants
| PMMuteAudio (pid : string) (muted : bool)
| PMIsAudioMuted (pid : string)
| PMMuteVideo (pid : string) (muted : bool)
| PMIsVideoMuted (pid : string).

Inductive participant_result : Type :=
| PRVoid
| PRParticipant (p : option nat)
| PRParticipants (m : gmap string (option nat))
| PRBool (b : bool).

Section proxy.
Context {MC E : Type} `{IMediaController MC E}.

Definition answering {A} (inj : A -> participant_result) (m : M (ParticipantController MC) (pc_effect E) A) :
    M (ParticipantController MC) (pc_effect E) participant_result := a ← m; mret (inj a).

Definition participant_call (m : participant_method) : M (ParticipantController MC) (pc_effect E) participant_result :=
  match m with
  | PMAddObserver alive observer callbackThread =>
      answering (fun _ => PRVoid) (pc_addObserver alive observer callbackThread)
  | PMRemoveObserver alive observer => answering (fun _ => PRVoid) (pc_removeObserver alive observer)
  | PMGetParticipant pid => answering PRParticipant (getParticipant pid)
  | PMGetParticipants => answering PRParticipants getParticipants
  | PMMuteAudio pid muted => answering (fun _ => PRVoid) (pc_muteAudio pid muted)
  | PMIsAudioMuted pid => answering PRBool (pc_isAudioMuted pid)
  | PMMuteVideo pid muted => answering (fun _ => PRVoid) (pc_muteVideo pid muted)
  | PMIsVideoMuted pid => answering PRBool (pc_isVideoMuted pid)
  end.

(** [ProxyImpl]: the proxy, and the controller while it is alive. *)
Record ProxyImpl : Type := mkProxyImpl { pi_proxy : option nat; pi_impl : observer_ptr }.
Definition pi_lock (alive : address -> bool) (p : ProxyImpl) : observer_ptr := lock alive (pi_impl p).

(** Calls of [ParticipantControllerProxy] from any number of threads are a history of
    whole method calls on the controller, with their results. *)
Theorem participant_proxy_serialises w progs local d sched :
  (forall t, t <> w -> calls_only w (progs t)) ->
  let c := run (object_body participant_call) sched (start w progs local d) in
  ts_cursor (threads c w) = Idle ->
  exists ms rs, call_all participant_call ms d = (rs, ts_data (threads c w)) /\ omap id (promises c) ≡ₚ rs.
Proof. exact (object_serialises participant_call w progs local d sched). Qed.

(** Only muting and asking go on to the media controller; the other methods never do,
    and none but [addObserver] and [removeObserver] touches the observers. *)
Definition asks_media (m : participant_method) : bool :=
  match m with PMMuteAudio _ _ | PMIsAudioMuted _ | PMMuteVideo _ _ | PMIsVideoMuted _ => true | _ => false end.

Theorem participant_queries_are_local m s : pc_wf s -> asks_media m = false ->
  exists r s', participant_call m s = Done (r, s', []) /\ pc_media s' = pc_media s /\
    pc_participantMap s' = pc_participantMap s /\ pc_heap s' = pc_heap s /\ pc_wf s'.
Proof.
  intros Hwf Hm. destruct m; try discriminate Hm; unfold participant_call, answering; run_M.
  - unfold pc_addObserver. run_M. eexists _, _. split; [reflexivity|]. by repeat (split; [done|]).
  - unfold pc_removeObserver. run_M. eexists _, _. split; [reflexivity|]. by repeat (split; [done|]).
  - unfold getParticipant. run_M. destruct (decide _) as [[p Hp]|Hp]; [|by eexists _, _].
    unfold map_index. run_M. rewrite Hp. simpl. by eexists _, _.
  - unfold getParticipants. run_M. by eexists _, _.
Qed.
End proxy.
