(* ===== verification/MediaController.v ===== *)
(** * MediaController

    Models [core/service/media_controller.cpp]: the local producers, the
    consumers of the remote peers and the tables that relate them.

    Producers and consumers are objects of libmediasoupclient; of their state
    the controller reads the id, the kind, the track and whether the track is
    enabled, and every other holder of a pointer (the notification closures)
    reads only what never changes, so the tables hold them by value.  What the
    transports, the device and nlohmann's parser answer are arguments of the
    operations.  A range-[for] over a [std::unordered_map] visits the entries in
    the order [hash_order] gives. *)

From stdpp Require Import base gmap strings list.
From Stdlib Require Import ZArith Lia.
From S2P Require Import Prelude Json SignalingModels Observable MediasoupApi ParticipantController.

#[local] Open Scope string_scope.
#[local] Open Scope list_scope.

(** ** Surroundings *)

(** [Options]; [OptionsDefault] is [Options()]. *)
Record Options : Type := mkOptions {
  o_useSimulcast : option bool;
  o_useSharingSimulcast : option bool;
  o_forceTcp : option bool;
  o_produce : option bool;
  o_consume : option bool;
  o_forceH264 : option bool;
  o_forceVP9 : option bool;
  o_svc : option string;
  o_datachannel : option bool;
  o_throttleSecret : option string;
  o_e2eKey : option string
}.
Definition OptionsDefault : Options :=
  mkOptions (Some false) (Some false) None (Some true) (Some true) None None None (Some true) None None.

(** The iteration order of a [std::unordered_map]: some order of its entries. *)
Class HashOrder : Type := {
  hash_order : forall {A}, gmap string A -> list (string * A);
  hash_order_perm : forall {A} (m : gmap string A), hash_order m ≡ₚ map_to_list m
}.

(** The keys a range-[for] over [m] visits. *)
Definition visit `{HashOrder} {A} (m : gmap string A) : list string := (hash_order m).*1.

(** [signaling::Sharing] and [signaling::SharingAppData] with their nlohmann
    conversions ([signaling_models.cpp]). *)
Record Sharing : Type := mkSharing { sharing_trackName : string }.
Record SharingAppData : Type := mkSharingAppData { sharing_appdata : Sharing }.

Inductive nlohmann_error : Type := TypeError (what : string).

Definition sharing_to_json (st : Sharing) : Value := JObject [("trackName", JString (sharing_trackName st))].
Definition sharing_from_json (j : Value) (st : Sharing) : result nlohmann_error Sharing :=
  match FindMember j "trackName" with
  | None => Ok st
  | Some (JString s) => Ok (mkSharing s)
  | Some _ => Err (TypeError "type must be string")
  end.
Definition sharing_app_to_json (st : SharingAppData) : Value :=
  JObject [("sharing", sharing_to_json (sharing_appdata st))].
Definition sharing_app_from_json (j : Value) (st : SharingAppData) : result nlohmann_error SharingAppData :=
  match FindMember j "sharing" with
  | None => Ok st
  | Some v => x ← sharing_from_json v (sharing_appdata st); Ok (mkSharingAppData x)
  end.

(** [webrtc::RtpEncodingParameters], the members the code sets. *)
Record RtpEncodingParameters : Type := mkEncoding {
  rid : string;
  active : bool;
  max_bitrate_bps : Z;
  scale_resolution_down_by : Z
}.

(** [mediasoupclient::Producer], [Consumer] and [DataConsumer]. *)
Record Producer : Type := mkProducer { pr_id : string; pr_enabled : bool; pr_closed : bool }.
Record Consumer : Type := mkConsumer {
  c_id : string;
  c_kind : string;
  c_track : track_ptr;
  c_enabled : bool;
  c_closed : bool
}.
Record DataConsumer : Type := mkDataConsumer { dc_id : string; dc_closed : bool }.

(** [Pause], [Resume] and [IsPaused]: nothing happens to a closed object. *)
Definition producer_set_enabled (b : bool) (p : Producer) : Producer :=
  if pr_closed p then p else mkProducer (pr_id p) b (pr_closed p).
Definition producer_IsPaused (p : Producer) : bool := negb (pr_enabled p).
Definition consumer_set_enabled (b : bool) (c : Consumer) : Consumer :=
  if c_closed c then c else mkConsumer (c_id c) (c_kind c) (c_track c) b (c_closed c).
Definition consumer_IsPaused (c : Consumer) : bool := negb (c_enabled c).

(** [DummyVideoSource(width, height)]. *)
Record VideoSource : Type := mkSource { vs_width : Z; vs_height : Z }.

(** ** State *)

Record MediaController : Type := mkMC {
  mc_options : Options;
  mc_api : bool;                                       (* [_mediasoupApi] is not null *)
  mc_device : option nat;
  mc_sendTransport : option nat;
  mc_recvTransport : option nat;
  mc_encodings : list RtpEncodingParameters;
  mc_micProducer : option Producer;
  mc_producerMap : gmap string (option Producer);
  mc_sourceMap : gmap string (option VideoSource);
  mc_consumerMap : gmap string (option Consumer);
  mc_dataConsumerMap : gmap string (option DataConsumer);
  mc_consumerIdToPeerId : gmap string string;
  mc_observers : list inner_object
}.

Definition new_media_controller (options : Options) (api : bool) : MediaController :=
  mkMC options api None None None [] None ∅ ∅ ∅ ∅ ∅ [].

(** The calls an [IMediaEventHandler] receives. *)
Inductive MediaEvent : Type :=
| MRemoteAudioStateChanged (pid : string) (muted : bool)
| MRemoteVideoStateChanged (pid : string) (muted : bool)
| MCreateRemoteAudioTrack (pid tid : string) (track : track_ptr)
| MRemoveRemoteAudioTrack (pid tid : string) (track : track_ptr)
| MCreateRemoteVideoTrack (pid tid : string) (track : track_ptr) (appData : Value)
| MRemoveRemoteVideoTrack (pid tid : string) (track : track_ptr).

(** The lambdas posted to the mediasoup thread. *)
Inductive mc_task : Type :=
| TaskNewConsumer (request : option NewConsumerRequest)
| TaskNewDataConsumer (request : option NewDataConsumerRequest)
| TaskUpdateConsumer (tid : string) (paused : bool)
| TaskConsumerClosed (notification : option ConsumerClosedNotification).

(** [MNotify calls] is one [notifyObservers]: the calls its lambda makes on each
    observer, or the fault it ends in. *)
Inductive mc_effect : Type :=
| MApi (r : api_request) (has_callback : bool)
| MResponse (r : BasicResponse)
| MNotify (calls : outcome (list MediaEvent))
| MPost (t : mc_task)
| MProduce (kind : string) (encodings : option (list RtpEncodingParameters)) (codecOptions appData : Value)
| MConsume (id producerId kind : string) (rtpParameters appData : Value)
| MConsumeData (id dataProducerId : string) (streamId : Z) (label protocol : string) (appData : Value)
| MCloseProducer (id : string)
| MCloseConsumer (id : string)
| MCloseDataConsumer (id : string)
| MInputFrame (trackName : string) (source : VideoSource) (data : list Z).

Abbreviation mc_handler := (M MediaController mc_effect).

(** ** Assignments to the members *)

Definition mc_set_device v s := mkMC (mc_options s) (mc_api s) v (mc_sendTransport s) (mc_recvTransport s)
  (mc_encodings s) (mc_micProducer s) (mc_producerMap s) (mc_sourceMap s) (mc_consumerMap s)
  (mc_dataConsumerMap s) (mc_consumerIdToPeerId s) (mc_observers s).
Definition mc_set_send v s := mkMC (mc_options s) (mc_api s) (mc_device s) v (mc_recvTransport s)
  (mc_encodings s) (mc_micProducer s) (mc_producerMap s) (mc_sourceMap s) (mc_consumerMap s)
  (mc_dataConsumerMap s) (mc_consumerIdToPeerId s) (mc_observers s).
Definition mc_set_recv v s := mkMC (mc_options s) (mc_api s) (mc_device s) (mc_sendTransport s) v
  (mc_encodings s) (mc_micProducer s) (mc_producerMap s) (mc_sourceMap s) (mc_consumerMap s)
  (mc_dataConsumerMap s) (mc_consumerIdToPeerId s) (mc_observers s).
Definition mc_set_encodings v s := mkMC (mc_options s) (mc_api s) (mc_device s) (mc_sendTransport s)
  (mc_recvTransport s) v (mc_micProducer s) (mc_producerMap s) (mc_sourceMap s) (mc_consumerMap s)
  (mc_dataConsumerMap s) (mc_consumerIdToPeerId s) (mc_observers s).
Definition mc_set_mic v s := mkMC (mc_options s) (mc_api s) (mc_device s) (mc_sendTransport s)
  (mc_recvTransport s) (mc_encodings s) v (mc_producerMap s) (mc_sourceMap s) (mc_consumerMap s)
  (mc_dataConsumerMap s) (mc_consumerIdToPeerId s) (mc_observers s).
Definition mc_set_producers f s := mkMC (mc_options s) (mc_api s) (mc_device s) (mc_sendTransport s)
  (mc_recvTransport s) (mc_encodings s) (mc_micProducer s) (f (mc_producerMap s)) (mc_sourceMap s)
  (mc_consumerMap s) (mc_dataConsumerMap s) (mc_consumerIdToPeerId s) (mc_observers s).
Definition mc_set_sources f s := mkMC (mc_options s) (mc_api s) (mc_device s) (mc_sendTransport s)
  (mc_recvTransport s) (mc_encodings s) (mc_micProducer s) (mc_producerMap s) (f (mc_sourceMap s))
  (mc_consumerMap s) (mc_dataConsumerMap s) (mc_consumerIdToPeerId s) (mc_observers s).
Definition mc_set_consumers f s := mkMC (mc_options s) (mc_api s) (mc_device s) (mc_sendTransport s)
  (mc_recvTransport s) (mc_encodings s) (mc_micProducer s) (mc_producerMap s) (mc_sourceMap s)
  (f (mc_consumerMap s)) (mc_dataConsumerMap s) (mc_consumerIdToPeerId s) (mc_observers s).
Definition mc_set_dataConsumers f s := mkMC (mc_options s) (mc_api s) (mc_device s) (mc_sendTransport s)
  (mc_recvTransport s) (mc_encodings s) (mc_micProducer s) (mc_producerMap s) (mc_sourceMap s)
  (mc_consumerMap s) (f (mc_dataConsumerMap s)) (mc_consumerIdToPeerId s) (mc_observers s).
Definition mc_set_peers f s := mkMC (mc_options s) (mc_api s) (mc_device s) (mc_sendTransport s)
  (mc_recvTransport s) (mc_encodings s) (mc_micProducer s) (mc_producerMap s) (mc_sourceMap s)
  (mc_consumerMap s) (mc_dataConsumerMap s) (f (mc_consumerIdToPeerId s)) (mc_observers s).
Definition mc_set_observers f s := mkMC (mc_options s) (mc_api s) (mc_device s) (mc_sendTransport s)
  (mc_recvTransport s) (mc_encodings s) (mc_micProducer s) (mc_producerMap s) (mc_sourceMap s)
  (mc_consumerMap s) (mc_dataConsumerMap s) (mc_consumerIdToPeerId s) (f (mc_observers s)).

(** ** Operations *)

Section operations.
Context `{HashOrder}.

(** [map[k]] on a map of pointers: a missing key is inserted with null. *)
Definition map_at {A} (get : MediaController -> gmap string (option A))
    (set : (gmap string (option A) -> gmap string (option A)) -> MediaController -> MediaController)
    (k : string) : mc_handler (option A) :=
  m ← gets get;
  match m !! k with
  | Some p => mret p
  | None => _ ← modify (set <[k := None]>); mret None
  end.

(** [_consumerIdToPeerId[k]]: a missing key is inserted with the empty string. *)
Definition peer_at (k : string) : mc_handler string :=
  m ← gets mc_consumerIdToPeerId;
  match m !! k with
  | Some p => mret p
  | None => _ ← modify (mc_set_peers <[k := ""]>); mret ""
  end.

(** [pair.second->...] for the entry [k] of [_consumerMap] a loop stands at. *)
Definition consumer_at (k : string) : mc_handler Consumer :=
  m ← gets mc_consumerMap;
  deref "consumer.second" (mjoin (m !! k)).
Definition set_consumer (k : string) (c : Consumer) : mc_handler unit :=
  modify (mc_set_consumers <[k := Some c]>).

Definition configVideoEncodings : mc_handler unit :=
  modify (mc_set_encodings
    [mkEncoding "h" true 5000000 1; mkEncoding "m" true 1000000 2; mkEncoding "m" true 500000 4]).

Definition mc_init : mc_handler unit := configVideoEncodings.

(** [Close()]: the transport is told once. *)
Definition close_producer (p : Producer) : mc_handler unit :=
  if pr_closed p then skip else emit (MCloseProducer (pr_id p)).
Definition close_consumer (c : Consumer) : mc_handler unit :=
  if c_closed c then skip else emit (MCloseConsumer (c_id c)).
Definition close_data_consumer (c : DataConsumer) : mc_handler unit :=
  if dc_closed c then skip else emit (MCloseDataConsumer (dc_id c)).

Definition mc_destroy : mc_handler unit :=
  mic ← gets mc_micProducer;
  _ ← match mic with
      | Some p => _ ← close_producer p; modify (mc_set_mic None)
      | None => skip
      end;
  producers ← gets mc_producerMap;
  _ ← for_each (visit producers) (fun k =>
        m ← gets mc_producerMap;
        p ← deref "ref.second" (mjoin (m !! k));
        _ ← close_producer p;
        modify (mc_set_producers <[k := None]>));
  dataConsumers ← gets mc_dataConsumerMap;
  _ ← for_each (visit dataConsumers) (fun k =>
        m ← gets mc_dataConsumerMap;
        c ← deref "dataConsumer.second" (mjoin (m !! k));
        close_data_consumer c);
  _ ← modify (mc_set_dataConsumers (fun _ => ∅));
  consumers ← gets mc_consumerMap;
  _ ← for_each (visit consumers) (fun k => c ← consumer_at k; close_consumer c);
  _ ← modify (mc_set_consumers (fun _ => ∅));
  modify (mc_set_sources (fun m => (fun _ => None) <$> m)).

Definition mc_setMediasoupDevice (device : option nat) : mc_handler unit := modify (mc_set_device device).
Definition mc_setSendTransport (t : option nat) : mc_handler unit := modify (mc_set_send t).
Definition mc_setRecvTransport (t : option nat) : mc_handler unit := modify (mc_set_recv t).

Definition mc_addObserver (alive : address -> bool) (observer : observer_ptr) (thread : option nat) :
    mc_handler unit :=
  modify (mc_set_observers (fun l => addWeakObserver alive l observer thread)).
Definition mc_removeObserver (alive : address -> bool) (observer : observer_ptr) : mc_handler unit :=
  modify (mc_set_observers (fun l => Observable.removeObserver alive l observer)).

(** [Transport::Close()] marks the objects of the transport closed; the
    controller's listeners ([OnTransportClose]) do nothing. *)
Definition recv_transport_closed : mc_handler unit :=
  _ ← modify (mc_set_consumers (fun m => option_map (fun c =>
        mkConsumer (c_id c) (c_kind c) (c_track c) (c_enabled c) true) <$> m));
  modify (mc_set_dataConsumers (fun m => option_map (fun c => mkDataConsumer (dc_id c) true) <$> m)).
Definition send_transport_closed : mc_handler unit :=
  _ ← modify (fun s => mc_set_mic ((fun p => mkProducer (pr_id p) (pr_enabled p) true) <$> mc_micProducer s) s);
  modify (mc_set_producers (fun m => option_map (fun p => mkProducer (pr_id p) (pr_enabled p) true) <$> m)).

Section local_media.
(** [_mediasoupDevice->CanProduce(kind)] and the producer
    [_sendTransport->Produce(...)] returns, or its exception. *)
Variable CanProduce : nat -> string -> bool.
Variable Produce : string -> option (list RtpEncodingParameters) -> Value -> Value -> result string Producer.

Definition produce (kind : string) (encodings : option (list RtpEncodingParameters))
    (codecOptions appData : Value) : mc_handler Producer :=
  _ ← emit (MProduce kind encodings codecOptions appData);
  match Produce kind encodings codecOptions appData with
  | Ok p => mret p
  | Err e => throw (Thrown e)
  end.

Definition mc_enableAudio (enabled : bool) : mc_handler unit :=
  s ← get;
  match mc_device s with
  | None => skip
  | Some d =>
      if negb (CanProduce d "audio") then skip
      else match mc_sendTransport s with
           | None => skip
           | Some _ =>
               if enabled then
                 match mc_micProducer s with
                 | Some _ => skip
                 | None =>
                     p ← produce "audio" None
                           (JObject [("opusDtx", JBool true); ("opusStereo", JBool true)]) (JObject []);
                     modify (mc_set_mic (Some p))
                 end
               else if negb (mc_api s) then skip
               else match mc_micProducer s with
                    | None => skip
                    | Some p =>
                        _ ← emit (MApi (ACloseProducer (pr_id p)) true);
                        _ ← close_producer p;
                        modify (mc_set_mic None)
                    end
           end
  end.

Definition mc_enableVideo (enabled : bool) (trackName : string) (width height : Z) : mc_handler unit :=
  s ← get;
  match mc_device s with
  | None => skip
  | Some d =>
      if negb (CanProduce d "video") then skip
      else match mc_sendTransport s with
           | None => skip
           | Some _ =>
               videoProducer ← map_at mc_producerMap mc_set_producers trackName;
               videoSource ← map_at mc_sourceMap mc_set_sources trackName;
               if enabled then
                 match videoProducer with
                 | Some _ => skip
                 | None => match videoSource with
                 | Some _ => skip
                 | None =>
                     _ ← modify (mc_set_sources <[trackName := Some (mkSource width height)]>);
                     p ← produce "video"
                           (if value_or (o_useSimulcast (mc_options s)) false
                            then Some (mc_encodings s) else None)
                           (JObject [("videoGoogleMaxBitrate", JInt 20480); ("videoGoogleMinBitrate", JInt 0);
                                     ("videoGoogleStartBitrate", JInt 20480)])
                           (sharing_app_to_json (mkSharingAppData (mkSharing trackName)));
                     modify (mc_set_producers <[trackName := Some p]>)
                 end end
               else
                 _ ← match videoSource with
                     | Some _ => modify (mc_set_sources <[trackName := None]>)
                     | None => skip
                     end;
                 if negb (mc_api s) then skip
                 else match videoProducer with
                      | None => skip
                      | Some p =>
                          _ ← emit (MApi (ACloseProducer (pr_id p)) true);
                          _ ← close_producer p;
                          modify (mc_set_producers <[trackName := None]>)
                      end
           end
  end.
End local_media.

Definition mc_muteAudio (muted : bool) : mc_handler unit :=
  s ← get;
  if negb (mc_api s) then skip
  else match mc_micProducer s with
       | None => skip
       | Some p =>
           let p := producer_set_enabled (negb muted) p in
           _ ← modify (mc_set_mic (Some p));
           emit (MApi (if muted then APauseProducer (pr_id p) else AResumeProducer (pr_id p)) true)
       end.

Definition mc_isAudioMuted : mc_handler bool :=
  mic ← gets mc_micProducer;
  mret (match mic with None => true | Some p => producer_IsPaused p end).

(** The loops of [muteAudio(pid, muted)] and [muteVideo(pid, muted)], which
    differ in the kind only; a body that answers [Some] returns. *)
Definition mute_peer (kind pid : string) (muted : bool) : mc_handler unit :=
  s ← get;
  if negb (mc_api s) then skip
  else
    _ ← for_until (hash_order (mc_consumerIdToPeerId s)) (fun pair =>
          if decide (pair.2 = pid) then
            m ← gets mc_consumerMap;
            if decide (m !! pair.1 = None) then mret (Some tt)
            else
              c ← consumer_at pair.1;
              if decide (c_kind c = kind) then
                _ ← set_consumer pair.1 (consumer_set_enabled (negb muted) c);
                _ ← emit (MApi (if muted then APauseConsumer (c_id c) else AResumeConsumer (c_id c)) true);
                mret None
              else mret None
          else mret None);
    skip.
Definition mc_muteAudioOf (pid : string) (muted : bool) : mc_handler unit := mute_peer "audio" pid muted.
Definition mc_muteVideoOf (pid : string) (muted : bool) : mc_handler unit := mute_peer "video" pid muted.

(** [isAudioMuted(pid)] and [isVideoMuted(pid)]. *)
Definition peer_muted (kind pid : string) : mc_handler bool :=
  m ← gets mc_consumerIdToPeerId;
  r ← for_until (hash_order m) (fun pair =>
        if decide (pair.2 = pid) then
          p ← map_at mc_consumerMap mc_set_consumers pair.1;
          c ← deref "consumer" p;
          mret (if decide (c_kind c = kind) then if consumer_IsPaused c then None else Some false else None)
        else mret None);
  mret (value_or r true).
Definition mc_isAudioMutedOf (pid : string) : mc_handler bool := peer_muted "audio" pid.
Definition mc_isVideoMutedOf (pid : string) : mc_handler bool := peer_muted "video" pid.

(** [tracks[key] = ...] in loops over [_consumerMap]. *)
Fixpoint collect_tracks (keys : list string) (keep : string -> Consumer -> mc_handler bool)
    (tracks : gmap string track_ptr) : mc_handler (gmap string track_ptr) :=
  match keys with
  | [] => mret tracks
  | k :: keys =>
      c ← consumer_at k;
      b ← keep k c;
      collect_tracks keys keep (if b : bool then <[k := c_track c]> tracks else tracks)
  end.

Definition mc_getRemoteAudioTracks (pid : string) : mc_handler (gmap string track_ptr) :=
  m ← gets mc_consumerMap;
  collect_tracks (visit m) (fun _ c => mret (bool_decide (c_kind c = "audio"))) ∅.

(** [auto peerId = _consumerIdToPeerId[pair.first]] comes before the test. *)
Definition mc_getRemoteVideoTracks (pid : string) : mc_handler (gmap string track_ptr) :=
  m ← gets mc_consumerMap;
  collect_tracks (visit m) (fun k c =>
    peerId ← peer_at k;
    mret (bool_decide (c_kind c = "video") && bool_decide (peerId = pid))) ∅.

Definition mc_inputFrame (trackName : string) (data : list Z) : mc_handler unit :=
  ref ← map_at mc_sourceMap mc_set_sources trackName;
  match ref with
  | Some source => emit (MInputFrame trackName source data)
  | None => skip
  end.

(** The handlers that call the observers, for whoever runs them: [lift] runs the
    controller's own steps in the state [St] that holds it, [notify] is
    [notifyObservers], given the calls its lambda makes on each observer. *)
Section notifying.
Context {St F : Type} (lift : forall A, mc_handler A -> M St F A).
Arguments lift {A}.
Variable notify : outcome (list MediaEvent) -> M St F unit.

Definition updateConsumer_in (tid : string) (paused : bool) : M St F unit :=
  m ← lift (gets mc_consumerMap);
  for_each (visit m) (fun k =>
    c ← lift (consumer_at k);
    if decide (c_id c = tid) then
      peerId ← lift (peer_at (c_id c));
      let c := consumer_set_enabled (negb paused) c in
      _ ← lift (set_consumer k c);
      let paused := consumer_IsPaused c in
      if decide (c_kind c = "audio") then notify (Done [MRemoteAudioStateChanged peerId paused])
      else if decide (c_kind c = "video") then notify (Done [MRemoteVideoStateChanged peerId paused])
      else skip
    else skip).

(** The task of [onConsumerClosed]. *)
Definition consumerClosed_in (notification : option ConsumerClosedNotification) : M St F unit :=
  m ← lift (gets mc_consumerMap);
  _ ← for_until (visit m) (fun k =>
        c ← lift (consumer_at k);
        n ← deref "notification" notification;
        data ← value "notification->data" (ConsumerClosedNotification_data n);
        if decide (c_id c = value_or (ConsumerClosedNotification_Data_consumerId data) "") then
          peerId ← lift (peer_at (c_id c));
          let tid := c_id c in
          _ ← (if decide (c_kind c = "audio") then
                 notify (Done [MRemoteAudioStateChanged peerId true;
                               MRemoveRemoteAudioTrack peerId tid None])
               else if decide (c_kind c = "video") then
                 notify (Done [MRemoteVideoStateChanged peerId true;
                               MRemoveRemoteVideoTrack peerId tid None])
               else skip);
          _ ← lift (close_consumer c);
          _ ← lift (modify (mc_set_peers (delete tid)));
          _ ← lift (modify (mc_set_consumers (delete tid)));
          mret (Some tt)
        else mret None);
  skip.
End notifying.

(** The controller by itself: its notifications are effects. *)
Definition alone {A} (m : mc_handler A) : mc_handler A := m.
Definition notify_alone (calls : outcome (list MediaEvent)) : mc_handler unit := emit (MNotify calls).

Definition updateConsumer : string -> bool -> mc_handler unit := updateConsumer_in (@alone) notify_alone.
Definition consumerClosed_task : option ConsumerClosedNotification -> mc_handler unit :=
  consumerClosed_in (@alone) notify_alone.

Section remote_media.
(** rapidjson's writer, nlohmann's parser (which throws), and the consumers
    [_recvTransport->Consume(...)] and [ConsumeData(...)] return. *)
Variable print : Value -> string.
Variable nlohmann_parse : string -> result string Value.
Variable Consume : string -> string -> string -> Value -> Value -> result string Consumer.
Variable ConsumeData : string -> string -> Z -> string -> string -> Value -> result string DataConsumer.

(** [nlohmann::json::parse(model->toJsonStr())]. *)
Definition reparse {A} `{FieldsMap A} (m : A) : mc_handler Value :=
  match nlohmann_parse (toJsonStr print m) with
  | Ok v => mret v
  | Err e => throw (Thrown e)
  end.

Definition answer_request (id : option Z) : BasicResponse :=
  mk_BasicResponse (Some true) id (Some true).

(** The lambda of [createNewConsumer]'s [notifyObservers]. *)
Definition new_consumer_calls (c : Consumer) (peerId : option string) (producerPaused : bool)
    (appData : Value) : outcome (list MediaEvent) :=
  if decide (c_kind c = "audio") then
    match peerId with
    | Some pid => Done [MCreateRemoteAudioTrack pid (c_id c) (c_track c);
                        MRemoteAudioStateChanged pid producerPaused]
    | None => Fault (BadOptional "request->data->peerId")
    end
  else if decide (c_kind c = "video") then
    match peerId with
    | Some pid => Done [MCreateRemoteVideoTrack pid (c_id c) (c_track c) appData;
                        MRemoteVideoStateChanged pid producerPaused]
    | None => Fault (BadOptional "request->data->peerId")
    end
  else Done [].

Definition createNewConsumer_in {St F : Type} (lift : forall {A}, mc_handler A -> M St F A)
    (notify : outcome (list MediaEvent) -> M St F unit) (request : option NewConsumerRequest) : M St F unit :=
  match request with
  | None => skip
  | Some request =>
      s ← lift get;
      if negb (value_or (o_consume (mc_options s)) false) then skip
      else match mc_recvTransport s with
           | None => skip
           | Some _ =>
               data ← value "request->data" (NewConsumerRequest_data request);
               rtp ← value "rtpParameters" (NewConsumerRequest_Data_rtpParameters data);
               rtpParameters ← lift (reparse rtp);
               app ← value "appData" (NewConsumerRequest_Data_appData data);
               appData ← lift (reparse app);
               id ← value "id" (NewConsumerRequest_Data_id data);
               producerId ← value "producerId" (NewConsumerRequest_Data_producerId data);
               kind ← value "kind" (NewConsumerRequest_Data_kind data);
               _ ← lift (emit (MConsume id producerId kind rtpParameters appData));
               match Consume id producerId kind rtpParameters appData with
               | Err e => throw (Thrown e)
               | Ok ptr =>
                   _ ← lift (set_consumer id ptr);
                   _ ← lift (modify (mc_set_peers <[id := value_or (NewConsumerRequest_Data_peerId data) ""]>));
                   producerPaused ← value "producerPaused" (NewConsumerRequest_Data_producerPaused data);
                   _ ← notify (new_consumer_calls ptr (NewConsumerRequest_Data_peerId data)
                                 producerPaused appData);
                   if negb (mc_api s) then skip
                   else
                     _ ← lift (emit (MResponse (answer_request (NewConsumerRequest_id request))));
                     lift (emit (MApi (ASetConsumerPreferredLayers id 1 1) false))
               end
           end
  end.
Definition createNewConsumer : option NewConsumerRequest -> mc_handler unit :=
  createNewConsumer_in (@alone) notify_alone.

Definition createNewDataConsumer (request : option NewDataConsumerRequest) : mc_handler unit :=
  match request with
  | None => skip
  | Some request =>
      s ← get;
      if negb (value_or (o_consume (mc_options s)) false) then skip
      else if negb (value_or (o_datachannel (mc_options s)) false) then skip
      else match mc_recvTransport s with
           | None => skip
           | Some _ =>
               data ← value "request->data" (NewDataConsumerRequest_data request);
               app ← value "appData" (NewDataConsumerRequest_Data_appData data);
               appData ← reparse app;
               id ← value "id" (NewDataConsumerRequest_Data_id data);
               dataProducerId ← value "dataProducerId" (NewDataConsumerRequest_Data_dataProducerId data);
               sctp ← value "sctpStreamParameters" (NewDataConsumerRequest_Data_sctpStreamParameters data);
               streamId ← value "streamId" (NewDataConsumerRequest_SCTPStreamParameters_streamId sctp);
               label ← value "label" (NewDataConsumerRequest_Data_label data);
               protocol ← value "protocol" (NewDataConsumerRequest_Data_protocol data);
               _ ← emit (MConsumeData id dataProducerId streamId label protocol appData);
               match ConsumeData id dataProducerId streamId label protocol appData with
               | Err e => throw (Thrown e)
               | Ok ptr =>
                   _ ← modify (mc_set_dataConsumers <[id := Some ptr]>);
                   _ ← modify (mc_set_peers <[id := value_or (NewDataConsumerRequest_Data_peerId data) ""]>);
                   if negb (mc_api s) then skip
                   else emit (MResponse (answer_request (NewDataConsumerRequest_id request)))
               end
           end
  end.

(** [ISignalingEventHandler]: every handler posts to the mediasoup thread. *)
Definition mc_onNewConsumer (request : option NewConsumerRequest) : mc_handler unit :=
  emit (MPost (TaskNewConsumer request)).
Definition mc_onNewDataConsumer (request : option NewDataConsumerRequest) : mc_handler unit :=
  emit (MPost (TaskNewDataConsumer request)).
Definition mc_onConsumerPaused (notification : option ConsumerPausedNotification) : mc_handler unit :=
  match notification with
  | None => skip
  | Some n =>
      data ← value "notification->data" (ConsumerPausedNotification_data n);
      let tid := value_or (ConsumerPausedNotification_Data_consumerId data) "" in
      if decide (tid = "") then skip else emit (MPost (TaskUpdateConsumer tid true))
  end.
Definition mc_onConsumerResumed (notification : option ConsumerResumedNotification) : mc_handler unit :=
  match notification with
  | None => skip
  | Some n =>
      data ← value "notification->data" (ConsumerResumedNotification_data n);
      let tid := value_or (ConsumerResumedNotification_Data_consumerId data) "" in
      if decide (tid = "") then skip else emit (MPost (TaskUpdateConsumer tid false))
  end.
Definition mc_onConsumerClosed (notification : option ConsumerClosedNotification) : mc_handler unit :=
  emit (MPost (TaskConsumerClosed notification)).

Definition mc_run_task_in {St F : Type} (lift : forall {A}, mc_handler A -> M St F A)
    (notify : outcome (list MediaEvent) -> M St F unit) (t : mc_task) : M St F unit :=
  match t with
  | TaskNewConsumer r => createNewConsumer_in (@lift) notify r
  | TaskNewDataConsumer r => lift (createNewDataConsumer r)
  | TaskUpdateConsumer tid paused => updateConsumer_in (@lift) notify tid paused
  | TaskConsumerClosed n => consumerClosed_in (@lift) notify n
  end.
Definition mc_run_task : mc_task -> mc_handler unit := mc_run_task_in (@alone) notify_alone.
End remote_media.
End operations.

(** The media controller as the participant controller sees it. *)
#[global] Instance MediaController_interface `{HashOrder} : IMediaController MediaController mc_effect := {|
  i_muteAudio := mc_muteAudioOf;
  i_isAudioMuted := mc_isAudioMutedOf;
  i_muteVideo := mc_muteVideoOf;
  i_isVideoMuted := mc_isVideoMutedOf;
  i_getRemoteAudioTracks := mc_getRemoteAudioTracks;
  i_getRemoteVideoTracks := mc_getRemoteVideoTracks
|}.

(** ** Facts about the tables *)

(** Every entry of [_consumerMap] is a consumer that carries its key as id and
    whose peer is recorded; no data consumer is null. *)
Definition mc_wf (s : MediaController) : Prop :=
  (forall k p, mc_consumerMap s !! k = Some p ->
     exists c, p = Some c /\ c_id c = k /\ is_Some (mc_consumerIdToPeerId s !! k)) /\
  (forall k, mc_dataConsumerMap s !! k <> Some None).

Section tables.
Context `{HashOrder}.
Implicit Types s : MediaController.

Lemma elem_of_hash_order {A} (m : gmap string A) k v : (k, v) ∈ hash_order m <-> m !! k = Some v.
Proof. rewrite hash_order_perm. by rewrite elem_of_map_to_list. Qed.

Lemma hash_order_empty {A} : hash_order (∅ : gmap string A) = [].
Proof. apply Permutation_nil. symmetry. rewrite <- (map_to_list_empty (K := string) (A := A)). apply hash_order_perm. Qed.
Lemma visit_empty {A} : visit (∅ : gmap string A) = [].
Proof. unfold visit. by rewrite hash_order_empty. Qed.

Lemma NoDup_visit {A} (m : gmap string A) : NoDup (visit m).
Proof. unfold visit. rewrite hash_order_perm. apply NoDup_fst_map_to_list. Qed.

Lemma elem_of_visit {A} (m : gmap string A) k : k ∈ visit m <-> is_Some (m !! k).
Proof.
  unfold visit. rewrite list_elem_of_fmap. split.
  - intros ([k' v] & -> & Hv%elem_of_hash_order). by eexists.
  - intros [v Hv]. exists (k, v). split; [done|]. by apply elem_of_hash_order.
Qed.

Lemma consumer_at_some k c s :
  mc_consumerMap s !! k = Some (Some c) -> consumer_at k s = Done (c, s, []).
Proof. intros Hk. unfold consumer_at. run_M. by rewrite Hk. Qed.

Lemma peer_at_some k p s :
  mc_consumerIdToPeerId s !! k = Some p -> peer_at k s = Done (p, s, []).
Proof. intros Hk. unfold peer_at. run_M. by rewrite Hk. Qed.

Lemma map_at_some {A} get set k (p : option A) s :
  get s !! k = Some p -> map_at get set k s = Done (p, s, []).
Proof. intros Hk. unfold map_at. run_M. by rewrite Hk. Qed.

Lemma wf_consumer k p s :
  mc_wf s -> mc_consumerMap s !! k = Some p ->
  exists c peer, p = Some c /\ c_id c = k /\ mc_consumerIdToPeerId s !! k = Some peer.
Proof. intros [Hc _] Hk. destruct (Hc _ _ Hk) as (c & -> & Hid & peer & Hp). eauto. Qed.

(** ** The track queries *)

(** The tracks [keep] selects, as a map. *)
Definition tracks_of (keep : string -> Consumer -> bool) (m : gmap string (option Consumer)) :
    gmap string track_ptr :=
  map_imap (fun k p => match p with
                       | Some c => if keep k c then Some (c_track c) else None
                       | None => None
                       end) m.

Lemma collect_tracks_spec keep (test : string -> Consumer -> bool) s keys ts :
  (forall k, k ∈ keys -> exists c, mc_consumerMap s !! k = Some (Some c) /\
                                    keep k c s = Done (test k c, s, [])) ->
  exists ts', collect_tracks keys keep ts s = Done (ts', s, []) /\
    forall k, ts' !! k = if decide (k ∈ keys)
                         then match tracks_of test (mc_consumerMap s) !! k with
                              | Some t => Some t | None => ts !! k end
                         else ts !! k.
Proof.
  revert ts. induction keys as [|k keys IH]; intros ts Hk; cbn [collect_tracks].
  { exists ts. split; [done|]. intros k. by rewrite decide_False by apply not_elem_of_nil. }
  destruct (Hk k (list_elem_of_here _ _)) as (c & Hc & Hkeep).
  rewrite (bind_done _ _ _ _ _ _ (consumer_at_some k c s Hc)).
  rewrite (bind_done _ _ _ _ _ _ Hkeep).
  destruct (IH (if test k c then <[k:=c_track c]> ts else ts)) as (ts' & -> & Hts').
  { intros; apply Hk; by right. }
  exists ts'. split; [done|]. intros k'. rewrite Hts'. unfold tracks_of. rewrite !map_lookup_imap.
  destruct (decide (k' = k)) as [->|Hne].
  - rewrite (decide_True (P := k ∈ k :: keys)) by (by left). rewrite Hc. simpl.
    destruct (test k c); simpl; [|by case_decide].
    rewrite lookup_insert_eq. by case_decide.
  - destruct (decide (k' ∈ keys)); [rewrite decide_True by (by right) | rewrite decide_False by (by intros [?|?]%elem_of_cons)];
      destruct (test k c); rewrite ?lookup_insert_ne by done; done.
Qed.

Lemma tracks_of_all keep m ts :
  (forall k, ts !! k = if decide (k ∈ visit m) then match tracks_of keep m !! k with
                                                     | Some t => Some t | None => (∅ : gmap string track_ptr) !! k end
                       else (∅ : gmap string track_ptr) !! k) ->
  ts = tracks_of keep m.
Proof.
  intros Hts. apply map_eq. intros k. rewrite Hts, lookup_empty. case_decide as Hk.
  - by destruct (tracks_of keep m !! k).
  - rewrite elem_of_visit, <- eq_None_not_Some in Hk. unfold tracks_of.
    by rewrite map_lookup_imap, Hk.
Qed.

Lemma getRemoteAudioTracks_spec pid s :
  mc_wf s ->
  mc_getRemoteAudioTracks pid s =
    Done (tracks_of (fun _ c => bool_decide (c_kind c = "audio")) (mc_consumerMap s), s, []).
Proof.
  intros Hwf. unfold mc_getRemoteAudioTracks. erewrite bind_done by done.
  edestruct (collect_tracks_spec (fun _ c => mret (bool_decide (c_kind c = "audio")) : mc_handler bool)
    (fun _ c => bool_decide (c_kind c = "audio")) s (visit (mc_consumerMap s)) ∅) as (ts & -> & Hts).
  { intros k [p Hp]%elem_of_visit. destruct (wf_consumer _ _ _ Hwf Hp) as (c & peer & -> & _). eauto. }
  by rewrite (tracks_of_all _ _ _ Hts).
Qed.

Definition video_track_of (pid : string) s (k : string) (c : Consumer) : bool :=
  bool_decide (c_kind c = "video") && bool_decide (mc_consumerIdToPeerId s !! k = Some pid).

Lemma getRemoteVideoTracks_spec pid s :
  mc_wf s ->
  mc_getRemoteVideoTracks pid s = Done (tracks_of (video_track_of pid s) (mc_consumerMap s), s, []).
Proof.
  intros Hwf. unfold mc_getRemoteVideoTracks. erewrite bind_done by done.
  edestruct (collect_tracks_spec (fun k c => (peerId ← peer_at k;
      mret (bool_decide (c_kind c = "video") && bool_decide (peerId = pid))) : mc_handler bool)
    (video_track_of pid s) s (visit (mc_consumerMap s)) ∅) as (ts & -> & Hts).
  { intros k [p Hp]%elem_of_visit. destruct (wf_consumer _ _ _ Hwf Hp) as (c & peer & -> & _ & Hpeer).
    exists c. split; [done|]. rewrite (bind_done _ _ _ _ _ _ (peer_at_some _ _ _ Hpeer)).
    unfold video_track_of. rewrite Hpeer. do 4 f_equal. by apply bool_decide_ext; split; congruence. }
  by rewrite (tracks_of_all _ _ _ Hts).
Qed.
End tables.

(** The media controller keeps its promise to the participant controller. *)
#[global] Instance MediaController_tracks_ok `{HashOrder} : MediaTracksOk MediaController mc_effect.
Proof.
  refine {| mc_ok := mc_wf |}; intros pid s Hwf.
  - eexists _, s. split; [by apply getRemoteAudioTracks_spec | done].
  - eexists _, s. split; [by apply getRemoteVideoTracks_spec | done].
Defined.
