(* ===== verification/MediaControllerFacts.v ===== *)
(** * Properties of the media controller

    The tables of [MediaController]: what every operation does to them, the
    invariant they satisfy, and what the queries about a peer answer. *)

From stdpp Require Import base gmap strings list.
From Stdlib Require Import ZArith Lia.
From S2P Require Import Prelude Json SignalingModels Observable MediasoupApi ParticipantController MediaController.

#[local] Open Scope string_scope.
#[local] Open Scope list_scope.

(** A concrete iteration order, for the witnesses. *)
#[global] Instance sorted_order : HashOrder := {|
  hash_order A m := map_to_list m;
  hash_order_perm A m := reflexivity (map_to_list m)
|}.

(** ** Muting a peer *)

Section muting.
Context `{HashOrder}.
Implicit Types s : MediaController.

(** Every id recorded for the peer names a consumer: true of a peer that has
    no data consumers. *)
Definition peer_registered (pid : string) s : Prop :=
  forall k, mc_consumerIdToPeerId s !! k = Some pid -> exists c, mc_consumerMap s !! k = Some (Some c).

(** What a mute does to the consumer [k] of the table. *)
Definition muted_consumer (kind pid : string) (muted : bool) s (k : string) (p : option Consumer) :
    option Consumer :=
  if decide (mc_consumerIdToPeerId s !! k = Some pid)
  then option_map (fun c => if decide (c_kind c = kind) then consumer_set_enabled (negb muted) c else c) p
  else p.

(** The requests of one round. *)
Definition mute_calls (kind pid : string) (muted : bool) (m : gmap string (option Consumer))
    (pair : string * string) : list mc_effect :=
  if decide (pair.2 = pid) then
    match m !! pair.1 with
    | Some (Some c) =>
        if decide (c_kind c = kind)
        then [MApi (if muted then APauseConsumer (c_id c) else AResumeConsumer (c_id c)) true] else []
    | _ => []
    end
  else [].

Definition mute_round (kind pid : string) (muted : bool) (pair : string * string) : mc_handler (option unit) :=
  if decide (pair.2 = pid) then
    m ← gets mc_consumerMap;
    if decide (m !! pair.1 = None) then mret (Some tt)
    else
      c ← consumer_at pair.1;
      if decide (c_kind c = kind) then
        _ ← set_consumer pair.1 (consumer_set_enabled (negb muted) c);
        _ ← emit (MApi (if muted then APauseConsumer (c_id c) else AResumeConsumer (c_id c)) true);
        mret None
      else mret None
  else mret None.

Definition mute_entry (kind pid : string) (muted : bool) (pair : string * string)
    (m : gmap string (option Consumer)) : gmap string (option Consumer) :=
  if decide (pair.2 = pid) then
    match m !! pair.1 with
    | Some (Some c) =>
        if decide (c_kind c = kind) then <[pair.1 := Some (consumer_set_enabled (negb muted) c)]> m else m
    | _ => m
    end
  else m.

Lemma mc_set_consumers_id s : mc_set_consumers (fun m => m) s = s.
Proof. by destruct s. Qed.

Lemma mute_round_spec kind pid muted pair s :
  (pair.2 = pid -> exists c, mc_consumerMap s !! pair.1 = Some (Some c)) ->
  mute_round kind pid muted pair s =
    Done (None, mc_set_consumers (mute_entry kind pid muted pair) s,
          mute_calls kind pid muted (mc_consumerMap s) pair).
Proof.
  intros Hreg. unfold mute_round, mute_entry, mute_calls.
  case_decide as Hp; [|unfold mret, M_ret; by rewrite mc_set_consumers_id].
  destruct (Hreg Hp) as [c Hc]. unfold consumer_at, set_consumer. run_M. rewrite Hc. simpl.
  rewrite Hc. simpl. case_decide; simpl; unfold mc_set_consumers; simpl; rewrite Hc.
  - by rewrite decide_True.
  - rewrite decide_False by done. by destruct s.
Qed.

Lemma mute_entry_other kind pid muted pair m k :
  k <> pair.1 -> mute_entry kind pid muted pair m !! k = m !! k.
Proof.
  intros Hk. unfold mute_entry. repeat case_match; try done. by rewrite lookup_insert_ne.
Qed.

Lemma mute_loop kind pid muted l s :
  NoDup l.*1 ->
  (forall k, (k, pid) ∈ l -> exists c, mc_consumerMap s !! k = Some (Some c)) ->
  for_until l (mute_round kind pid muted) s =
    Done (None, mc_set_consumers (fun m => foldl (fun m pair => mute_entry kind pid muted pair m) m l) s,
          concat (map (mute_calls kind pid muted (mc_consumerMap s)) l)).
Proof.
  revert s. induction l as [|[k p] l IH]; intros s Hnd Hreg; simpl.
  { by rewrite mc_set_consumers_id. }
  apply NoDup_cons in Hnd as [Hk Hnd]. simpl in Hk.
  assert (Hl : forall k', k' ∈ l.*1 -> k' <> k) by (intros ? ? ->; done).
  rewrite (bind_done _ _ _ _ _ _ (mute_round_spec kind pid muted (k, p) s ltac:(intros [=->]; apply Hreg; by left))).
  rewrite IH; [|done|].
  - simpl. do 2 f_equal. f_equal. f_equal. apply map_ext_in. intros [k' p'] Hin. unfold mute_calls. simpl.
    rewrite mute_entry_other; [done|]. apply Hl, list_elem_of_fmap. exists (k', p').
    split; [done|]. by apply list_elem_of_In.
  - intros k' Hk'. simpl. rewrite mute_entry_other; [apply Hreg; by right|].
    apply Hl, list_elem_of_fmap. by exists (k', pid).
Qed.

Lemma mute_fold_lookup kind pid muted l m k :
  NoDup l.*1 ->
  foldl (fun m pair => mute_entry kind pid muted pair m) m l !! k =
    if decide ((k, pid) ∈ l) then
      option_map (option_map (fun c => if decide (c_kind c = kind) then consumer_set_enabled (negb muted) c else c))
        (m !! k)
    else m !! k.
Proof.
  revert m. induction l as [|[k' p'] l IH]; intros m Hnd; cbn [foldl].
  { by rewrite decide_False by apply not_elem_of_nil. }
  apply NoDup_cons in Hnd as [Hk Hnd]. simpl in Hk. rewrite IH by done.
  destruct (decide (k = k')) as [->|Hne].
  - rewrite decide_False by (intros Hin; apply Hk, list_elem_of_fmap; by exists (k', pid)).
    unfold mute_entry. simpl. destruct (decide (p' = pid)) as [->|Hp].
    + rewrite decide_True by (by left). destruct (m !! k') as [[c|]|] eqn:Hm; simpl; rewrite ?Hm; try done.
      destruct (decide (c_kind c = kind)); [by rewrite lookup_insert_eq | done].
    + rewrite decide_False; [done|]. intros [[= ->]|Hin]%elem_of_cons; [done|].
      apply Hk, list_elem_of_fmap. by exists (k', pid).
  - rewrite mute_entry_other by done. destruct (decide ((k, pid) ∈ l)).
    + by rewrite decide_True by (by right).
    + rewrite decide_False; [done|]. by intros [[= -> ->]|?]%elem_of_cons.
Qed.

Lemma mute_peer_spec kind pid muted s :
  mc_api s = true -> peer_registered pid s ->
  mute_peer kind pid muted s =
    Done (tt, mc_set_consumers (map_imap (fun k p => Some (muted_consumer kind pid muted s k p))) s,
          concat (map (mute_calls kind pid muted (mc_consumerMap s)) (hash_order (mc_consumerIdToPeerId s)))).
Proof.
  intros Hapi Hreg. unfold mute_peer. erewrite bind_done by done. rewrite Hapi. simpl.
  change (λ pair : string * string, _) with (mute_round kind pid muted).
  assert (Hnd : NoDup (hash_order (mc_consumerIdToPeerId s)).*1) by apply NoDup_visit.
  rewrite (bind_done _ _ _ _ _ _ (mute_loop kind pid muted _ s Hnd
    ltac:(intros k Hk; apply Hreg; by apply elem_of_hash_order))).
  simpl. rewrite app_nil_r. do 2 f_equal. f_equal. unfold mc_set_consumers. f_equal.
  apply map_eq. intros k. rewrite mute_fold_lookup by done. rewrite map_lookup_imap. unfold muted_consumer.
  rewrite (decide_ext ((k, pid) ∈ _) (mc_consumerIdToPeerId s !! k = Some pid)) by apply elem_of_hash_order.
  destruct (mc_consumerMap s !! k); simpl; [|by case_decide]. by case_decide.
Qed.

(** ** Is a peer muted? *)

(** The peer has a consumer of that kind whose track is enabled. *)
Definition hears (kind pid : string) s : Prop :=
  exists k c, mc_consumerIdToPeerId s !! k = Some pid /\ mc_consumerMap s !! k = Some (Some c) /\
    c_kind c = kind /\ c_enabled c = true.

Definition peer_round (kind pid : string) (pair : string * string) : mc_handler (option bool) :=
  if decide (pair.2 = pid) then
    p ← map_at mc_consumerMap mc_set_consumers pair.1;
    c ← deref "consumer" p;
    mret (if decide (c_kind c = kind) then if consumer_IsPaused c then None else Some false else None)
  else mret None.

Lemma peer_round_other kind pid pair s :
  pair.2 <> pid -> peer_round kind pid pair s = Done (None, s, []).
Proof. intros Hp. unfold peer_round. by rewrite decide_False. Qed.

Lemma peer_round_consumer kind pid k c s :
  mc_consumerMap s !! k = Some (Some c) ->
  peer_round kind pid (k, pid) s =
    Done (if decide (c_kind c = kind) then if consumer_IsPaused c then None else Some false else None, s, []).
Proof.
  intros Hc. unfold peer_round. rewrite decide_True by done.
  rewrite (bind_done _ _ _ _ _ _ (map_at_some _ _ _ _ _ Hc)). by run_M.
Qed.

Lemma peer_round_null kind pid k s :
  mc_consumerMap s !! k = None -> peer_round kind pid (k, pid) s = Fault (NullDeref "consumer").
Proof. intros Hc. unfold peer_round, map_at. rewrite decide_True by done. run_M. by rewrite Hc. Qed.

Lemma peer_loop kind pid l s :
  (forall k, (k, pid) ∈ l -> exists c, mc_consumerMap s !! k = Some (Some c)) ->
  exists r, for_until l (peer_round kind pid) s = Done (r, s, []) /\
    (r = None \/ r = Some false) /\
    (r = Some false <-> exists k c, (k, pid) ∈ l /\ mc_consumerMap s !! k = Some (Some c) /\
                                    c_kind c = kind /\ c_enabled c = true).
Proof.
  induction l as [|[k p] l IH]; intros Hreg; cbn [for_until].
  { exists None. split; [done|]. split; [by left|]. split; [done|].
    intros (k & c & Hin & _). by apply not_elem_of_nil in Hin. }
  destruct IH as (r & Hl & Hr & Hiff); [intros; apply Hreg; by right|].
  destruct (decide (p = pid)) as [->|Hp].
  - destruct (Hreg k (list_elem_of_here _ _)) as [c Hc].
    rewrite (bind_done _ _ _ _ _ _ (peer_round_consumer kind pid k c s Hc)).
    destruct (decide (c_kind c = kind /\ c_enabled c = true)) as [[Hk He]|Hn].
    + exists (Some false). rewrite decide_True by done. unfold consumer_IsPaused. rewrite He.
      split; [done|]. split; [by right|]. split; [|done]. intros _. exists k, c.
      split; [by left | done].
    + exists r.
      replace (if decide (c_kind c = kind) then if consumer_IsPaused c then None else Some false else None)
        with (@None bool) by (unfold consumer_IsPaused; destruct (decide (c_kind c = kind)), (c_enabled c);
                              done || (exfalso; by apply Hn)).
      rewrite Hl. split; [done|]. split; [done|]. rewrite Hiff. split.
      * intros (k' & c' & Hin & Hrest). exists k', c'. split; [by right | done].
      * intros (k' & c' & [[= ->]|Hin]%elem_of_cons & Hc' & Hrest); [|by exists k', c'].
        rewrite Hc in Hc'. injection Hc' as ->. by destruct Hn.
  - rewrite (bind_done _ _ _ _ _ _ (peer_round_other kind pid (k, p) s Hp)). rewrite Hl.
    exists r. split; [done|]. split; [done|]. rewrite Hiff. split.
    + intros (k' & c' & Hin & Hrest). exists k', c'. split; [by right | done].
    + intros (k' & c' & [[= -> ->]|Hin]%elem_of_cons & Hrest); [done | by exists k', c'].
Qed.

Lemma peer_muted_spec kind pid s :
  peer_registered pid s ->
  exists b, peer_muted kind pid s = Done (b, s, []) /\ (b = false <-> hears kind pid s).
Proof.
  intros Hreg. unfold peer_muted. erewrite bind_done by done.
  change (λ pair : string * string, _) with (peer_round kind pid).
  destruct (peer_loop kind pid (hash_order (mc_consumerIdToPeerId s)) s) as (r & Hl & Hr & Hiff).
  { intros k Hk%elem_of_hash_order. by apply Hreg. }
  rewrite (bind_done _ _ _ _ _ _ Hl). exists (value_or r true). split; [done|].
  unfold hears. setoid_rewrite elem_of_hash_order in Hiff.
  destruct Hr as [-> | ->]; simpl; rewrite <- Hiff; split; congruence.
Qed.

Lemma peer_loop_null kind pid l k s :
  (k, pid) ∈ l -> mc_consumerMap s !! k = None ->
  (forall k' c, (k', pid) ∈ l -> mc_consumerMap s !! k' = Some (Some c) ->
     ~ (c_kind c = kind /\ c_enabled c = true)) ->
  (forall k', (k', pid) ∈ l -> mc_consumerMap s !! k' <> Some None) ->
  for_until l (peer_round kind pid) s = Fault (NullDeref "consumer").
Proof.
  induction l as [|[k' p] l IH]; intros Hin Hk Hno Hnn; [by apply not_elem_of_nil in Hin|].
  cbn [for_until]. destruct (decide (p = pid)) as [->|Hp].
  - destruct (mc_consumerMap s !! k') as [[c|]|] eqn:Hc.
    + rewrite (bind_done _ _ _ _ _ _ (peer_round_consumer kind pid k' c s Hc)).
      replace (if decide (c_kind c = kind) then if consumer_IsPaused c then None else Some false else None)
        with (@None bool).
      * rewrite IH; [done|..]; try done.
        -- apply elem_of_cons in Hin as [[= ->]|?]; [congruence | done].
        -- intros; by eapply Hno; [right|].
        -- intros; apply Hnn; by right.
      * pose proof (Hno k' c (list_elem_of_here _ _) Hc) as Hn.
        unfold consumer_IsPaused. destruct (decide (c_kind c = kind)), (c_enabled c);
          done || (exfalso; by apply Hn).
    + exfalso. by apply (Hnn k' (list_elem_of_here _ _)).
    + unfold mbind, M_bind. by rewrite peer_round_null.
  - rewrite (bind_done _ _ _ _ _ _ (peer_round_other kind pid (k', p) s Hp)).
    rewrite IH; [done|..]; try done.
    + by apply elem_of_cons in Hin as [[= -> ->]|?].
    + intros; by eapply Hno; [right|].
    + intros; apply Hnn; by right.
Qed.
End muting.

Section peers.
Context `{HashOrder}.
Implicit Types s : MediaController.

Lemma muted_lookup kind pid muted s k :
  mc_consumerMap (mc_set_consumers (map_imap (fun k p => Some (muted_consumer kind pid muted s k p))) s) !! k =
    option_map (muted_consumer kind pid muted s k) (mc_consumerMap s !! k).
Proof. simpl. rewrite map_lookup_imap. by destruct (mc_consumerMap s !! k). Qed.

(** C18: muting or unmuting a remote peer works.  When every id recorded for the peer
    names a consumer in the table (so none is a data consumer's), these consumers are
    open and one of them at least is of the kind, [muteAudio(pid, b)] (and
    [muteVideo]) leaves every consumer of the peer and the kind disabled iff [b] and
    otherwise as it was, every other consumer and every other part of the controller
    unchanged, asks the server to pause or resume exactly those consumers, once each,
    and [isAudioMuted(pid)] (resp. [isVideoMuted]) then answers [b]. *)
Theorem mute_then_ask kind pid muted s :
  mc_api s = true -> peer_registered pid s ->
  (forall k c, mc_consumerIdToPeerId s !! k = Some pid -> mc_consumerMap s !! k = Some (Some c) ->
     c_closed c = false) ->
  (exists k c, mc_consumerIdToPeerId s !! k = Some pid /\ mc_consumerMap s !! k = Some (Some c) /\
     c_kind c = kind) ->
  exists s',
    mute_peer kind pid muted s =
      Done (tt, s', concat (map (mute_calls kind pid muted (mc_consumerMap s))
                              (hash_order (mc_consumerIdToPeerId s)))) /\
    (forall k c, mc_consumerMap s !! k = Some (Some c) ->
       mc_consumerIdToPeerId s !! k = Some pid -> c_kind c = kind ->
       mc_consumerMap s' !! k = Some (Some (mkConsumer (c_id c) kind (c_track c) (negb muted) false))) /\
    (forall k, (forall c, mc_consumerMap s !! k = Some (Some c) ->
                mc_consumerIdToPeerId s !! k <> Some pid \/ c_kind c <> kind) ->
       mc_consumerMap s' !! k = mc_consumerMap s !! k) /\
    s' = mc_set_consumers (fun _ => mc_consumerMap s') s /\
    peer_muted kind pid s' = Done (muted, s', []).
Proof.
  intros Hapi Hreg Hopen (k0 & c0 & Hk0 & Hc0 & Hkind). eexists. split; [by apply mute_peer_spec|].
  set (s' := mc_set_consumers _ s).
  assert (Hl : forall k, mc_consumerMap s' !! k = option_map (muted_consumer kind pid muted s k) (mc_consumerMap s !! k))
    by (intros; apply muted_lookup).
  assert (Hset : forall k c, mc_consumerMap s !! k = Some (Some c) -> mc_consumerIdToPeerId s !! k = Some pid ->
      c_kind c = kind -> mc_consumerMap s' !! k = Some (Some (mkConsumer (c_id c) kind (c_track c) (negb muted) false))).
  { intros k c Hc Hk Hkd. rewrite Hl, Hc. simpl. unfold muted_consumer. rewrite decide_True by done. simpl.
    rewrite decide_True by done. unfold consumer_set_enabled. by rewrite (Hopen k c Hk Hc), Hkd. }
  split; [exact Hset|]. split; [|split; [done|]].
  - intros k Hother. rewrite Hl. destruct (mc_consumerMap s !! k) as [[c|]|]; simpl; [| |done].
    + unfold muted_consumer. case_decide; [|done]. simpl. rewrite decide_False; [done|].
      destruct (Hother c eq_refl); tauto.
    + unfold muted_consumer. by case_decide.
  - destruct (peer_muted_spec kind pid s') as (b & -> & Hb).
    { intros k Hk. destruct (Hreg k Hk) as [c Hc]. rewrite Hl, Hc. simpl. unfold muted_consumer.
      case_decide; simpl; eauto. }
    replace b with muted; [done|]. destruct muted, b; try done; exfalso.
    + destruct (proj1 Hb eq_refl) as (k & c & Hk & Hc & Hkd & He). destruct (Hreg k Hk) as [c' Hc'].
      pose proof Hc as Hc2. rewrite Hl, Hc' in Hc2. simpl in Hc2. unfold muted_consumer in Hc2.
      rewrite decide_True in Hc2 by done. simpl in Hc2.
      assert (Hkd' : c_kind c' = kind).
      { case_decide; [done|]. by simplify_eq. }
      rewrite (Hset k c' Hc' Hk Hkd') in Hc. injection Hc as <-. discriminate He.
    + cut (true = false); [done|]. apply Hb. eexists k0, _. split; [done|]. split; [by apply Hset|]. done.
Qed.

(** A peer with a data consumer cannot be asked whether it is muted: the
    data consumer's id is in the peer table but not among the consumers, so,
    whatever the iteration order, [isAudioMuted(pid)] dereferences a null
    pointer unless an unmuted consumer of that kind comes first; with none,
    it always does. *)
Theorem data_consumer_breaks_isMuted kind pid k s :
  mc_wf s -> mc_consumerIdToPeerId s !! k = Some pid -> mc_consumerMap s !! k = None ->
  ~ hears kind pid s ->
  peer_muted kind pid s = Fault (NullDeref "consumer").
Proof.
  intros Hwf Hk Hc Hno. unfold peer_muted. erewrite bind_done by done.
  change (λ pair : string * string, _) with (peer_round kind pid).
  unfold mbind, M_bind. rewrite (peer_loop_null kind pid _ k s); [done|..].
  - by apply elem_of_hash_order.
  - done.
  - intros k' c Hk'%elem_of_hash_order Hc' [Hkd He]. apply Hno. by exists k', c.
  - intros k' _ Hn. destruct (proj1 Hwf _ _ Hn) as (c & ? & _). done.
Qed.

(** What the observers are told of a consumer's state. *)
Definition state_event (kind pid : string) (paused : bool) : list mc_effect :=
  if decide (kind = "audio") then [MNotify (Done [MRemoteAudioStateChanged pid paused])]
  else if decide (kind = "video") then [MNotify (Done [MRemoteVideoStateChanged pid paused])]
  else [].

Definition update_round (tid : string) (paused : bool) (k : string) : mc_handler unit :=
  c ← consumer_at k;
  if decide (c_id c = tid) then
    peerId ← peer_at (c_id c);
    let c := consumer_set_enabled (negb paused) c in
    _ ← set_consumer k c;
    let paused := consumer_IsPaused c in
    if decide (c_kind c = "audio") then emit (MNotify (Done [MRemoteAudioStateChanged peerId paused]))
    else if decide (c_kind c = "video") then emit (MNotify (Done [MRemoteVideoStateChanged peerId paused]))
    else skip
  else skip.

Lemma update_round_other tid paused k s :
  mc_wf s -> is_Some (mc_consumerMap s !! k) -> k <> tid ->
  update_round tid paused k s = Done (tt, s, []).
Proof.
  intros Hwf [p Hp] Hne. destruct (wf_consumer _ _ _ Hwf Hp) as (c & peer & -> & Hid & _).
  unfold update_round. rewrite (bind_done _ _ _ _ _ _ (consumer_at_some _ _ _ Hp)).
  rewrite decide_False by congruence. done.
Qed.

Lemma consumer_set_enabled_kind b c :
  c_kind (consumer_set_enabled b c) = c_kind c /\ c_id (consumer_set_enabled b c) = c_id c /\
  c_closed (consumer_set_enabled b c) = c_closed c.
Proof. unfold consumer_set_enabled. by destruct (c_closed c) eqn:Hc. Qed.

Lemma wf_set_consumer k c s :
  mc_wf s -> is_Some (mc_consumerIdToPeerId s !! k) -> c_id c = k ->
  mc_wf (mc_set_consumers <[k := Some c]> s).
Proof.
  intros [Hc Hd] Hk Hid. split; [|done]. simpl. intros k' p. rewrite lookup_insert.
  case_decide; [intros [= <-]; subst; eauto | apply Hc].
Qed.

Lemma update_round_hit paused k c peer s :
  mc_consumerMap s !! k = Some (Some c) -> c_id c = k -> mc_consumerIdToPeerId s !! k = Some peer ->
  let c' := consumer_set_enabled (negb paused) c in
  update_round k paused k s =
    Done (tt, mc_set_consumers <[k := Some c']> s, state_event (c_kind c) peer (consumer_IsPaused c')).
Proof.
  intros Hc Hid Hp c'. unfold update_round. rewrite (bind_done _ _ _ _ _ _ (consumer_at_some _ _ _ Hc)).
  rewrite decide_True by done. rewrite Hid. rewrite (bind_done _ _ _ _ _ _ (peer_at_some _ _ _ Hp)).
  unfold set_consumer, state_event. run_M. subst c'.
  destruct (consumer_set_enabled_kind (negb paused) c) as [Hk _]. rewrite Hk.
  by repeat case_decide.
Qed.

(** A [consumerPaused] or [consumerResumed] notification acts on the one
    consumer it names, whatever the iteration order: its track is disabled or
    enabled and the observers are told the resulting state for the peer the
    consumer belongs to; a name that is not in the table changes nothing. *)
Theorem updateConsumer_acts_once tid paused s :
  mc_wf s ->
  updateConsumer tid paused s =
    match mc_consumerMap s !! tid, mc_consumerIdToPeerId s !! tid with
    | Some (Some c), Some peer =>
        let c' := consumer_set_enabled (negb paused) c in
        Done (tt, mc_set_consumers <[tid := Some c']> s,
              state_event (c_kind c) peer (consumer_IsPaused c'))
    | _, _ => Done (tt, s, [])
    end.
Proof.
  intros Hwf. unfold updateConsumer, updateConsumer_in, alone. erewrite bind_done by done.
  change (λ k : string, _) with (update_round tid paused).
  destruct (mc_consumerMap s !! tid) as [p|] eqn:Hp.
  - destruct (wf_consumer _ _ _ Hwf Hp) as (c & peer & -> & Hid & Hpeer). rewrite Hpeer.
    rewrite (for_each_single _ _ tid _ _ _ (NoDup_visit _) (proj2 (elem_of_visit _ _) (mk_is_Some _ _ Hp))
      (update_round_hit paused tid c peer s Hp Hid Hpeer)); [done|..].
    + intros k Hk%elem_of_visit Hne. by apply update_round_other.
    + intros k Hk%elem_of_visit Hne. apply update_round_other; [|simpl; by rewrite lookup_insert_ne by done|done].
      apply wf_set_consumer; [done|by eauto|]. destruct (consumer_set_enabled_kind (negb paused) c) as (_&->&_). done.
  - rewrite for_each_idle; [done|]. intros k Hk%elem_of_visit. apply update_round_other; [done|done|].
    intros ->. rewrite Hp in Hk. by destruct Hk.
Qed.
End peers.

(** ** Closing and creating consumers *)

Definition consumer_closed (tid : string) : option ConsumerClosedNotification :=
  Some (mk_ConsumerClosedNotification None None (Some (mk_ConsumerClosedNotification_Data (Some tid)))).

Section consumers.
Context `{HashOrder}.
Implicit Types s : MediaController.

Definition closed_event (kind pid tid : string) : list mc_effect :=
  if decide (kind = "audio") then
    [MNotify (Done [MRemoteAudioStateChanged pid true; MRemoveRemoteAudioTrack pid tid None])]
  else if decide (kind = "video") then
    [MNotify (Done [MRemoteVideoStateChanged pid true; MRemoveRemoteVideoTrack pid tid None])]
  else [].

Definition closed_round (notification : option ConsumerClosedNotification) (k : string) :
    mc_handler (option unit) :=
  c ← consumer_at k;
  n ← deref "notification" notification;
  data ← value "notification->data" (ConsumerClosedNotification_data n);
  if decide (c_id c = value_or (ConsumerClosedNotification_Data_consumerId data) "") then
    peerId ← peer_at (c_id c);
    let tid := c_id c in
    _ ← (if decide (c_kind c = "audio") then
           emit (MNotify (Done [MRemoteAudioStateChanged peerId true;
                                MRemoveRemoteAudioTrack peerId tid None]))
         else if decide (c_kind c = "video") then
           emit (MNotify (Done [MRemoteVideoStateChanged peerId true;
                                MRemoveRemoteVideoTrack peerId tid None]))
         else skip);
    _ ← close_consumer c;
    _ ← modify (mc_set_peers (delete tid));
    _ ← modify (mc_set_consumers (delete tid));
    mret (Some tt)
  else mret None.

Lemma closed_round_other tid k s :
  mc_wf s -> is_Some (mc_consumerMap s !! k) -> k <> tid ->
  closed_round (consumer_closed tid) k s = Done (None, s, []).
Proof.
  intros Hwf [p Hp] Hne. destruct (wf_consumer _ _ _ Hwf Hp) as (c & peer & -> & Hid & _).
  unfold closed_round. rewrite (bind_done _ _ _ _ _ _ (consumer_at_some _ _ _ Hp)). run_M.
  by rewrite decide_False by congruence.
Qed.

Lemma closed_round_hit tid c peer s :
  mc_consumerMap s !! tid = Some (Some c) -> c_id c = tid -> mc_consumerIdToPeerId s !! tid = Some peer ->
  closed_round (consumer_closed tid) tid s =
    Done (Some tt, mc_set_consumers (delete tid) (mc_set_peers (delete tid) s),
          closed_event (c_kind c) peer tid ++ (if c_closed c then [] else [MCloseConsumer tid])).
Proof.
  intros Hc Hid Hp. unfold closed_round. rewrite (bind_done _ _ _ _ _ _ (consumer_at_some _ _ _ Hc)).
  unfold peer_at, closed_event, close_consumer. run_M. rewrite decide_True by done. rewrite Hid, Hp.
  by destruct (decide (c_kind c = "audio")), (decide (c_kind c = "video")), (c_closed c).
Qed.

Lemma consumer_closed_run tid s :
  mc_wf s ->
  consumerClosed_task (consumer_closed tid) s =
    match mc_consumerMap s !! tid, mc_consumerIdToPeerId s !! tid with
    | Some (Some c), Some peer =>
        Done (tt, mc_set_consumers (delete tid) (mc_set_peers (delete tid) s),
              closed_event (c_kind c) peer tid ++ (if c_closed c then [] else [MCloseConsumer tid]))
    | _, _ => Done (tt, s, [])
    end.
Proof.
  intros Hwf. unfold consumerClosed_task, consumerClosed_in, alone. erewrite bind_done by done.
  change (λ k : string, _) with (closed_round (consumer_closed tid)).
  destruct (mc_consumerMap s !! tid) as [p|] eqn:Hp.
  - destruct (wf_consumer _ _ _ Hwf Hp) as (c & peer & -> & Hid & Hpeer). rewrite Hpeer.
    erewrite bind_done; [|eapply (for_until_hit _ _ tid)].
    + simpl. by rewrite app_nil_r.
    + apply elem_of_visit. by eexists.
    + by apply closed_round_hit.
    + intros k Hk%elem_of_visit Hne. by apply closed_round_other.
  - rewrite (bind_done _ _ s None s []); [done|]. apply for_until_idle. intros k Hk%elem_of_visit.
    apply closed_round_other; [done|done|]. intros ->. rewrite Hp in Hk. by destruct Hk.
Qed.

(** C24: a [consumerClosed] notification removes exactly the consumer it names:
    the observers are told that the peer is muted and the track is gone, the
    consumer is closed, and both tables forget it; a name that is not in the
    table changes nothing. *)
Theorem consumerClosed_removes tid s :
  mc_wf s ->
  consumerClosed_task (consumer_closed tid) s =
    match mc_consumerMap s !! tid, mc_consumerIdToPeerId s !! tid with
    | Some (Some c), Some peer =>
        Done (tt, mc_set_consumers (delete tid) (mc_set_peers (delete tid) s),
              closed_event (c_kind c) peer tid ++ (if c_closed c then [] else [MCloseConsumer tid]))
    | _, _ => Done (tt, s, [])
    end.
Proof. apply consumer_closed_run. Qed.

(** A request that carries everything [createNewConsumer] reads. *)
Definition complete_request (id producerId kind pid : string) (paused : bool) (rid : option Z)
    (rtp : NewConsumerRequest_RTPParameters) (app : NewConsumerRequest_AppData) : option NewConsumerRequest :=
  Some (mk_NewConsumerRequest (Some true) rid (Some "newConsumer")
    (Some (mk_NewConsumerRequest_Data (Some id) (Some pid) None (Some kind) (Some producerId) (Some paused)
       (Some rtp) (Some app)))).

(** C12: a complete [newConsumer] request from the server, on a controller that
    consumes and has its receive transport, creates the consumer, records it
    and its peer, tells the observers of the new track and its state, answers
    the server with the request's id and asks for layers 1/1; when the
    transport refuses, nothing is answered and the exception leaves the task. *)
Theorem createNewConsumer_answers print nlohmann_parse Consume s t
    id producerId kind pid paused rid rtp app rtpJson appJson :
  o_consume (mc_options s) = Some true -> mc_recvTransport s = Some t -> mc_api s = true ->
  nlohmann_parse (toJsonStr print rtp) = Ok rtpJson -> nlohmann_parse (toJsonStr print app) = Ok appJson ->
  createNewConsumer print nlohmann_parse Consume
    (complete_request id producerId kind pid paused rid rtp app) s =
    match Consume id producerId kind rtpJson appJson with
    | Err e => Fault (Thrown e)
    | Ok c =>
        Done (tt, mc_set_peers <[id := pid]> (mc_set_consumers <[id := Some c]> s),
              [MConsume id producerId kind rtpJson appJson;
               MNotify (Done
                 (if decide (c_kind c = "audio") then
                    [MCreateRemoteAudioTrack pid (c_id c) (c_track c); MRemoteAudioStateChanged pid paused]
                  else if decide (c_kind c = "video") then
                    [MCreateRemoteVideoTrack pid (c_id c) (c_track c) appJson; MRemoteVideoStateChanged pid paused]
                  else []));
               MResponse (mk_BasicResponse (Some true) rid (Some true));
               MApi (ASetConsumerPreferredLayers id 1 1) false])
    end.
Proof.
  intros Ho Ht Ha Hrtp Happ. unfold createNewConsumer, createNewConsumer_in, alone, notify_alone, complete_request, reparse, set_consumer. run_M.
  rewrite Ho, Ht. simpl. rewrite Hrtp. simpl. rewrite Happ. simpl.
  destruct (Consume id producerId kind rtpJson appJson) as [c|]; [|done]. simpl. rewrite Ha.
  unfold new_consumer_calls. by repeat case_decide.
Qed.
End consumers.

(** ** The invariant *)

(** Every call and every task of the media controller. *)
Inductive mc_op : Type :=
| McInit | McDestroy
| McSetDevice (d : option nat) | McSetSend (t : option nat) | McSetRecv (t : option nat)
| McAddObserver (alive : address -> bool) (o : observer_ptr) (t : option nat)
| McRemoveObserver (alive : address -> bool) (o : observer_ptr)
| McSendClosed | McRecvClosed
| McEnableAudio (enabled : bool)
| McEnableVideo (enabled : bool) (trackName : string) (width height : Z)
| McMuteAudio (muted : bool) | McIsAudioMuted
| McMutePeer (kind pid : string) (muted : bool) | McPeerMuted (kind pid : string)
| McAudioTracks (pid : string) | McVideoTracks (pid : string)
| McInputFrame (trackName : string) (data : list Z)
| McNewConsumer (r : option NewConsumerRequest)
| McNewDataConsumer (r : option NewDataConsumerRequest)
| McConsumerPaused (n : option ConsumerPausedNotification)
| McConsumerResumed (n : option ConsumerResumedNotification)
| McConsumerClosed (n : option ConsumerClosedNotification)
| McTask (t : mc_task).

Section invariant.
Context `{HashOrder}.
Variable CanProduce : nat -> string -> bool.
Variable Produce : string -> option (list RtpEncodingParameters) -> Value -> Value -> result string Producer.
Variable print : Value -> string.
Variable nlohmann_parse : string -> result string Value.
Variable Consume : string -> string -> string -> Value -> Value -> result string Consumer.
Variable ConsumeData : string -> string -> Z -> string -> string -> Value -> result string DataConsumer.
Implicit Types s : MediaController.

Definition mc_run (op : mc_op) : mc_handler unit :=
  match op with
  | McInit => mc_init
  | McDestroy => mc_destroy
  | McSetDevice d => mc_setMediasoupDevice d
  | McSetSend t => mc_setSendTransport t
  | McSetRecv t => mc_setRecvTransport t
  | McAddObserver alive o t => mc_addObserver alive o t
  | McRemoveObserver alive o => mc_removeObserver alive o
  | McSendClosed => send_transport_closed
  | McRecvClosed => recv_transport_closed
  | McEnableAudio b => mc_enableAudio CanProduce Produce b
  | McEnableVideo b n w h => mc_enableVideo CanProduce Produce b n w h
  | McMuteAudio b => mc_muteAudio b
  | McIsAudioMuted => _ ← mc_isAudioMuted; skip
  | McMutePeer kind pid b => mute_peer kind pid b
  | McPeerMuted kind pid => _ ← peer_muted kind pid; skip
  | McAudioTracks pid => _ ← mc_getRemoteAudioTracks pid; skip
  | McVideoTracks pid => _ ← mc_getRemoteVideoTracks pid; skip
  | McInputFrame n d => mc_inputFrame n d
  | McNewConsumer r => mc_onNewConsumer r
  | McNewDataConsumer r => mc_onNewDataConsumer r
  | McConsumerPaused n => mc_onConsumerPaused n
  | McConsumerResumed n => mc_onConsumerResumed n
  | McConsumerClosed n => mc_onConsumerClosed n
  | McTask t => mc_run_task print nlohmann_parse Consume ConsumeData t
  end.

(** Assignments the invariant does not see. *)
Definition frames (f : MediaController -> MediaController) : Prop :=
  forall s, mc_consumerMap (f s) = mc_consumerMap s /\ mc_dataConsumerMap (f s) = mc_dataConsumerMap s /\
            mc_consumerIdToPeerId (f s) = mc_consumerIdToPeerId s.

Lemma preserves_frame (f : MediaController -> MediaController) :
  frames f -> preserves (E := mc_effect) mc_wf (modify f).
Proof.
  intros Hf s [Hc Hd]. destruct (Hf s) as (E1 & E2 & E3). split; rewrite ?E1, ?E2, ?E3; done.
Qed.

Lemma preserves_pure {A} (m : mc_handler A) :
  (forall s, wlp m (fun _ s' _ => s' = s) s) -> preserves mc_wf m.
Proof. intros Hm s Hwf. eapply wlp_mono; [|exact (Hm s)]. by intros ? ? ? ->. Qed.

Lemma wlp_consumer_at k Q s :
  (forall c, mc_consumerMap s !! k = Some (Some c) -> Q c s []) -> wlp (consumer_at k) Q s.
Proof.
  intros HQ. unfold consumer_at, wlp. run_M.
  destruct (mc_consumerMap s !! k) as [[c|]|]; simpl; try done. by apply HQ.
Qed.

Lemma preserves_consumer_at k : preserves mc_wf (consumer_at k).
Proof. apply preserves_pure. intros s. unfold consumer_at. by wlp_run. Qed.

Lemma preserves_peer_at k : preserves mc_wf (peer_at k).
Proof.
  intros s Hwf. unfold peer_at. wlp_run; try done. destruct Hwf as [Hc Hd]. split; [|done]. simpl.
  intros k' p (c & -> & Hid & Hp)%Hc. exists c. split; [done|]. split; [done|].
  rewrite lookup_insert. by case_decide.
Qed.

Lemma preserves_close_consumer c : preserves mc_wf (close_consumer c).
Proof. apply preserves_pure. intros s. unfold close_consumer. by wlp_run. Qed.

Lemma preserves_produce kind e co a : preserves mc_wf (produce Produce kind e co a).
Proof. apply preserves_pure. intros s. unfold produce. by wlp_run. Qed.

Lemma preserves_ret {A} (a : A) : preserves mc_wf (mret a : mc_handler A).
Proof. by intros s Hwf. Qed.

Lemma preserves_emit e : preserves mc_wf (emit e : mc_handler unit).
Proof. by intros s Hwf. Qed.

Lemma preserves_close_producer p : preserves mc_wf (close_producer p).
Proof. apply preserves_pure. intros s. unfold close_producer. by wlp_run. Qed.

Lemma preserves_map_at_producers k : preserves mc_wf (map_at mc_producerMap mc_set_producers k).
Proof. intros s Hwf. unfold map_at. by wlp_run. Qed.
Lemma preserves_map_at_sources k : preserves mc_wf (map_at mc_sourceMap mc_set_sources k).
Proof. intros s Hwf. unfold map_at. by wlp_run. Qed.

Lemma mute_round_preserves kind pid muted pair : preserves mc_wf (mute_round kind pid muted pair).
Proof.
  intros s Hwf. unfold mute_round. wlp_step; [|done]. wlp_step. wlp_step. wlp_step; [done|].
  wlp_step. apply wlp_consumer_at. intros c Hc.
  destruct (wf_consumer _ _ _ Hwf Hc) as (c' & peer & [= <-] & Hid & Hp).
  unfold set_consumer. wlp_run; [|done]. apply wf_set_consumer; [done | by eauto |].
  by destruct (consumer_set_enabled_kind (negb muted) c) as (_ & -> & _).
Qed.

Lemma peer_round_preserves kind pid pair : preserves mc_wf (peer_round kind pid pair).
Proof. intros s Hwf. unfold peer_round, map_at. by wlp_run. Qed.

Lemma update_round_preserves tid paused k : preserves mc_wf (update_round tid paused k).
Proof.
  intros s Hwf. unfold update_round. apply wlp_bind, wlp_consumer_at. intros c Hc.
  destruct (wf_consumer _ _ _ Hwf Hc) as (c' & peer & [= <-] & Hid & Hp).
  case_decide; [|done]. unfold peer_at, set_consumer. rewrite Hid. run_M. unfold wlp. simpl. rewrite Hp. simpl.
  assert (Hwf' : mc_wf (mc_set_consumers <[k := Some (consumer_set_enabled (negb paused) c)]> s)).
  { apply wf_set_consumer; [done | by eauto |].
    by destruct (consumer_set_enabled_kind (negb paused) c) as (_ & -> & _). }
  by repeat case_decide.
Qed.

Lemma closed_round_preserves n k : preserves mc_wf (closed_round n k).
Proof.
  intros s Hwf. unfold closed_round. wlp_step. eapply wlp_mono; [|exact (preserves_consumer_at k s Hwf)].
  intros c s1 e1 Hwf1. wlp_step. wlp_step. wlp_step. wlp_step. wlp_step; [|done].
  wlp_step. eapply wlp_mono; [|exact (preserves_peer_at _ _ Hwf1)]. intros peer s2 e2 Hwf2.
  unfold close_consumer. wlp_run.
  all: destruct Hwf2 as [Hc Hd]; split; [|done]; simpl; intros k' p; rewrite lookup_delete;
    case_decide; [done|]; intros (c' & -> & Hid & Hp)%Hc; exists c';
    rewrite lookup_delete_ne by done; done.
Qed.

Lemma collect_tracks_preserves keys keep ts :
  (forall k c, preserves mc_wf (keep k c)) -> preserves mc_wf (collect_tracks keys keep ts).
Proof.
  intros Hk. revert ts. induction keys as [|k keys IH]; intros ts; simpl; [by intros s|].
  apply preserves_bind; [apply preserves_consumer_at|]. intros c.
  apply preserves_bind; [apply Hk|]. intros b. apply IH.
Qed.

Lemma reparse_pure {A} `{FieldsMap A} (m : A) Q s :
  (forall v, Q v s []) -> wlp (reparse print nlohmann_parse m) Q s.
Proof. intros HQ. unfold reparse. by destruct (nlohmann_parse _); [apply wlp_ret | apply wlp_throw]. Qed.

(** [GetId()] is the id the consumer was created with. *)
Hypothesis Consume_id : forall id producerId kind rtp app c,
  Consume id producerId kind rtp app = Ok c -> c_id c = id.

Lemma wf_new_consumer id pid c s :
  mc_wf s -> c_id c = id -> mc_wf (mc_set_peers <[id := pid]> (mc_set_consumers <[id := Some c]> s)).
Proof.
  intros [Hc Hd] Hid. split; [|done]. simpl. intros k p. rewrite !lookup_insert.
  case_decide; [intros [= <-]; subst; eauto | apply Hc].
Qed.

Lemma createNewConsumer_preserves r :
  preserves mc_wf (createNewConsumer print nlohmann_parse Consume r).
Proof.
  intros s Hwf. unfold createNewConsumer, createNewConsumer_in, alone, notify_alone, set_consumer.
  repeat first [wlp_step | apply reparse_pure; intros]; try done.
  all: apply wf_new_consumer; [done | by eapply Consume_id].
Qed.

Lemma createNewDataConsumer_same r s :
  mc_wf s ->
  wlp (createNewDataConsumer print nlohmann_parse ConsumeData r)
    (fun _ s' _ => mc_wf s' /\ mc_observers s' = mc_observers s) s.
Proof.
  intros Hwf. unfold createNewDataConsumer.
  repeat first [wlp_step | apply reparse_pure; intros]; try done.
  all: split; [|done]; destruct Hwf as [Hc Hd]; split; simpl.
  all: try (intros k p (c & -> & Hid & Hp)%Hc; exists c; split; [done|]; split; [done|];
            rewrite lookup_insert; by case_decide).
  all: intros k; rewrite lookup_insert; by case_decide.
Qed.

Lemma createNewDataConsumer_preserves r :
  preserves mc_wf (createNewDataConsumer print nlohmann_parse ConsumeData r).
Proof. intros s Hwf. eapply wlp_mono; [|by apply createNewDataConsumer_same]. by intros ??? []. Qed.

Lemma mc_destroy_preserves : preserves mc_wf mc_destroy.
Proof.
  assert (Hnone : forall s, preserves (E := mc_effect) mc_wf (modify (mc_set_mic None))) by
    (intros; by apply preserves_frame).
  unfold mc_destroy. apply preserves_bind; [by intros s|]. intros mic.
  apply preserves_bind.
  { destruct mic; [|by intros s]. apply preserves_bind; [apply preserves_close_producer|].
    intros _. by apply preserves_frame. }
  intros _. apply preserves_bind; [by intros s|]. intros producers.
  apply preserves_bind.
  { apply preserves_for_each. intros k _. apply preserves_bind; [by intros s|]. intros m.
    apply preserves_bind; [intros s Hs; by wlp_run|]. intros p.
    apply preserves_bind; [apply preserves_close_producer|]. intros _. by apply preserves_frame. }
  intros _. apply preserves_bind; [by intros s|]. intros dcs.
  apply preserves_bind.
  { apply preserves_for_each. intros k _ s Hs. unfold close_data_consumer. by wlp_run. }
  intros _. apply preserves_bind.
  { intros s [Hc Hd]. split; [done|]. simpl. intros k. by rewrite lookup_empty. }
  intros _. apply preserves_bind; [by intros s|]. intros cs. apply preserves_bind.
  { apply preserves_for_each. intros k _. apply preserves_bind; [apply preserves_consumer_at|].
    intros; apply preserves_close_consumer. }
  intros _. apply preserves_bind.
  { intros s [Hc Hd]. split; [|done]. simpl. intros k p. by rewrite lookup_empty. }
  intros _. by apply preserves_frame.
Qed.

Lemma recv_transport_closed_preserves : preserves mc_wf recv_transport_closed.
Proof.
  intros s [Hc Hd]. split; simpl.
  - intros k p. rewrite lookup_fmap_Some. intros (p' & <- & (c & -> & Hid & Hp)%Hc). simpl. eauto.
  - intros k Hk. apply lookup_fmap_Some in Hk as ([c|] & ? & Hp); [done|]. by apply (Hd k).
Qed.

Lemma enableAudio_preserves b : preserves mc_wf (mc_enableAudio CanProduce Produce b).
Proof.
  intros s Hwf. unfold mc_enableAudio, produce, close_producer. by wlp_run.
Qed.

Lemma enableVideo_preserves b n w h : preserves mc_wf (mc_enableVideo CanProduce Produce b n w h).
Proof.
  intros s Hwf. unfold mc_enableVideo, produce, close_producer, map_at. by wlp_run.
Qed.

Lemma mc_run_preserves op : preserves mc_wf (mc_run op).
Proof.
  destruct op; simpl; try (by apply preserves_frame); try (by intros s Hwf).
  - apply mc_destroy_preserves.
  - apply recv_transport_closed_preserves.
  - apply enableAudio_preserves.
  - apply enableVideo_preserves.
  - intros s Hwf. unfold mc_muteAudio. by wlp_run.
  - intros s Hwf. unfold mute_peer. wlp_step. wlp_step. wlp_step; [done|]. wlp_step.
    change (λ pair : string * string, _) with (mute_round kind pid muted).
    eapply wlp_mono; [|apply (preserves_for_until mc_wf); [|exact Hwf]]; [done|].
    intros; apply mute_round_preserves.
  - apply preserves_bind; [|intros; apply preserves_ret]. apply preserves_bind; [by intros s|]. intros m.
    apply preserves_bind; [|intros; apply preserves_ret].
    change (λ pair : string * string, _) with (peer_round kind pid).
    apply preserves_for_until. intros; apply peer_round_preserves.
  - apply preserves_bind; [|intros; apply preserves_ret]. apply preserves_bind; [by intros s|]. intros m.
    apply collect_tracks_preserves. intros; apply preserves_ret.
  - apply preserves_bind; [|intros; apply preserves_ret]. apply preserves_bind; [by intros s|]. intros m.
    apply collect_tracks_preserves. intros k c. apply preserves_bind; [apply preserves_peer_at | intros; apply preserves_ret].
  - intros s Hwf. unfold mc_inputFrame, map_at. by wlp_run.
  - intros s Hwf. unfold mc_onConsumerPaused. by wlp_run.
  - intros s Hwf. unfold mc_onConsumerResumed. by wlp_run.
  - destruct t; simpl.
    + apply createNewConsumer_preserves.
    + apply createNewDataConsumer_preserves.
    + apply preserves_bind; [by intros s|]. intros m.
      change (λ k : string, _) with (update_round tid paused). apply preserves_for_each. intros; apply update_round_preserves.
    + apply preserves_bind; [by intros s|]. intros m.
      change (λ k : string, _) with (closed_round notification).
      apply preserves_bind; [apply preserves_for_until; intros; apply closed_round_preserves | intros; apply preserves_ret].
Qed.

(** C8: whatever calls and tasks a new media controller handles, its tables
    stay consistent: every entry of [_consumerMap] is a non-null consumer,
    stored under its own id, whose peer [_consumerIdToPeerId] records, and no
    data consumer is null; the track queries therefore always end normally,
    and [getRemoteVideoTracks(pid)] returns the tracks of exactly the video
    consumers of that peer. *)
Theorem media_tables_consistent options api ops s es :
  for_each ops mc_run (new_media_controller options api) = Done (tt, s, es) ->
  mc_wf s /\
  (forall pid, mc_getRemoteVideoTracks pid s =
     Done (tracks_of (video_track_of pid s) (mc_consumerMap s), s, [])).
Proof.
  intros Hrun. assert (Hwf : mc_wf s).
  { assert (Hp : preserves mc_wf (for_each ops mc_run)) by
      (apply preserves_for_each; intros; apply mc_run_preserves).
    specialize (Hp (new_media_controller options api)). unfold wlp in Hp. rewrite Hrun in Hp. apply Hp.
    split; simpl; intros k; [intros p|]; by rewrite lookup_empty. }
  split; [done|]. intros pid. by apply getRemoteVideoTracks_spec.
Qed.
End invariant.

(** ** Local media *)

Section local.
Context `{HashOrder}.
Variable CanProduce : nat -> string -> bool.
Variable Produce : string -> option (list RtpEncodingParameters) -> Value -> Value -> result string Producer.
Implicit Types s : MediaController.

(** The controller may produce media of that kind. *)
Definition can_send (kind : string) s : Prop :=
  (exists d, mc_device s = Some d /\ CanProduce d kind = true) /\ is_Some (mc_sendTransport s) /\
  mc_api s = true.

Definition mic_options : Value := JObject [("opusDtx", JBool true); ("opusStereo", JBool true)].

(** A microphone session.  Turning the microphone on produces one audio
    track; [muteAudio(b)] pauses or resumes it, tells the server, and
    [isAudioMuted()] then answers [b]; turning it off asks the server to close
    the producer, closes it, and the microphone counts as muted again. *)
Theorem microphone_session p muted s :
  can_send "audio" s -> mc_micProducer s = None ->
  Produce "audio" None mic_options (JObject []) = Ok p -> pr_closed p = false ->
  exists s1 s2 s3,
    mc_enableAudio CanProduce Produce true s = Done (tt, s1, [MProduce "audio" None mic_options (JObject [])]) /\
    mc_muteAudio muted s1 =
      Done (tt, s2, [MApi (if muted then APauseProducer (pr_id p) else AResumeProducer (pr_id p)) true]) /\
    mc_isAudioMuted s2 = Done (muted, s2, []) /\
    mc_enableAudio CanProduce Produce true s2 = Done (tt, s2, []) /\
    mc_enableAudio CanProduce Produce false s2 =
      Done (tt, s3, [MApi (ACloseProducer (pr_id p)) true; MCloseProducer (pr_id p)]) /\
    mc_isAudioMuted s3 = Done (true, s3, []) /\ s3 = s.
Proof.
  intros ((d & Hd & Hcan) & [t Ht] & Hapi) Hmic HP Hcl.
  set (p' := producer_set_enabled (negb muted) p).
  assert (Hp' : pr_id p' = pr_id p /\ pr_closed p' = false /\ producer_IsPaused p' = muted).
  { subst p'. unfold producer_set_enabled, producer_IsPaused. rewrite Hcl. simpl. by rewrite negb_involutive. }
  destruct Hp' as (Hid & Hcl' & Hpaused).
  exists (mc_set_mic (Some p) s), (mc_set_mic (Some p') s), s.
  repeat split; unfold mc_enableAudio, mc_muteAudio, mc_isAudioMuted, produce, close_producer; run_M;
    rewrite ?Hd; simpl; rewrite ?Hcan; simpl; rewrite ?Ht; simpl; rewrite ?Hmic; simpl; rewrite ?Hapi; simpl.
  - fold mic_options. by rewrite HP.
  - fold p'. by rewrite Hid.
  - by rewrite Hpaused.
  - done.
  - rewrite Hcl', Hid. destruct s; simpl in Hmic; by rewrite Hmic.
  - done.
Qed.

Definition destroy_producer_round (k : string) : mc_handler unit :=
  m ← gets mc_producerMap;
  p ← deref "ref.second" (mjoin (m !! k));
  _ ← close_producer p;
  modify (mc_set_producers <[k := None]>).

Lemma destroy_loop_null l k s :
  k ∈ l -> mc_producerMap s !! k = Some None ->
  for_each l destroy_producer_round s = Fault (NullDeref "ref.second").
Proof.
  revert s. induction l as [|k' l IH]; intros s Hin Hk; [by apply not_elem_of_nil in Hin|].
  cbn [for_each]. unfold mbind at 1, M_bind at 1, destroy_producer_round at 1. unfold close_producer. run_M.
  destruct (mjoin (mc_producerMap s !! k')) as [p|] eqn:Hp; simpl; [|done].
  assert (Hne : k <> k') by (intros ->; by rewrite Hk in Hp).
  apply elem_of_cons in Hin as [->|Hin]; [done|].
  destruct (pr_closed p); simpl; rewrite IH; try done; simpl; by rewrite lookup_insert_ne.
Qed.

Lemma destroy_null_producer k s :
  mc_producerMap s !! k = Some None -> mc_destroy s = Fault (NullDeref "ref.second").
Proof.
  intros Hk. unfold mc_destroy. erewrite bind_done by done.
  assert (Hhead : exists s1 e1, (match mc_micProducer s with
      | Some p => _ ← close_producer p; modify (mc_set_mic None)
      | None => skip
      end) s = Done (tt, s1, e1) /\ mc_producerMap s1 = mc_producerMap s).
  { destruct (mc_micProducer s) as [p|]; [|by eexists _, _].
    unfold close_producer. run_M. destruct (pr_closed p); by eexists _, _. }
  destruct Hhead as (s1 & e1 & Hhead & Hs1). rewrite (bind_done _ _ _ _ _ _ Hhead).
  erewrite bind_done by done.
  assert (Hl : for_each (visit (mc_producerMap s1)) destroy_producer_round s1 = Fault (NullDeref "ref.second")).
  { apply (destroy_loop_null _ k); [|by rewrite Hs1]. apply elem_of_visit. rewrite Hs1, Hk. by eexists. }
  unfold destroy_producer_round in Hl. unfold mbind at 1, M_bind at 1. by rewrite Hl.
Qed.

(** What [destroy()] closes, in order: what is not closed yet of the microphone, the
    producers, the data consumers and the consumers. *)
Definition producer_closing (p : Producer) : list mc_effect := if pr_closed p then [] else [MCloseProducer (pr_id p)].
Definition consumer_closing (c : Consumer) : list mc_effect := if c_closed c then [] else [MCloseConsumer (c_id c)].
Definition data_consumer_closing (c : DataConsumer) : list mc_effect :=
  if dc_closed c then [] else [MCloseDataConsumer (dc_id c)].
Definition closing_all {A} (closing : A -> list mc_effect) (m : gmap string (option A)) : list mc_effect :=
  visit m ≫= fun k => from_option closing [] (mjoin (m !! k)).
Definition destroy_effects (s : MediaController) : list mc_effect :=
  from_option producer_closing [] (mc_micProducer s) ++ closing_all producer_closing (mc_producerMap s) ++
  closing_all data_consumer_closing (mc_dataConsumerMap s) ++ closing_all consumer_closing (mc_consumerMap s).

(** What it leaves: the producers and the video sources stay in their tables with null
    pointers, the tables of consumers are empty, that of their peers is as it was. *)
Definition destroyed (s : MediaController) : MediaController :=
  mkMC (mc_options s) (mc_api s) (mc_device s) (mc_sendTransport s) (mc_recvTransport s) (mc_encodings s) None
    ((fun _ => None) <$> mc_producerMap s) ((fun _ => None) <$> mc_sourceMap s) ∅ ∅ (mc_consumerIdToPeerId s)
    (mc_observers s).

Lemma for_each_emits {A} (l : list A) (body : A -> mc_handler unit) (effects : A -> list mc_effect) s :
  (forall x, x ∈ l -> body x s = Done (tt, s, effects x)) -> for_each l body s = Done (tt, s, l ≫= effects).
Proof.
  induction l as [|x l IH]; intros Hb; cbn [for_each]; [done|].
  rewrite (bind_done _ _ _ _ _ _ (Hb x (list_elem_of_here _ _))), IH; [done|]. intros; apply Hb; by right.
Qed.

Lemma bind_ext_in {A B} (l : list A) (f g : A -> list B) : (forall x, x ∈ l -> f x = g x) -> l ≫= f = l ≫= g.
Proof.
  induction l as [|x l IH]; intros Hfg; [done|].
  rewrite !bind_cons, Hfg by left. f_equal. apply IH. intros; apply Hfg. by right.
Qed.

(** The loop over the producers, which empties the entries it has visited. *)
Definition nulled (l : list string) (m : gmap string (option Producer)) : gmap string (option Producer) :=
  foldl (fun m k => <[k := None]> m) m l.

Lemma nulled_visit (m : gmap string (option Producer)) : nulled (visit m) m = (fun _ => None) <$> m.
Proof.
  clear Produce. assert (Hl : forall l m0 k, nulled l m0 !! k = if decide (k ∈ l) then Some None else m0 !! k).
  { induction l as [|k' l IH]; intros m0 k; [by rewrite decide_False by apply not_elem_of_nil|].
    simpl. unfold nulled in *. simpl. rewrite IH. destruct (decide (k ∈ l)) as [Hk|Hk].
    - by rewrite decide_True by by right.
    - destruct (decide (k = k')) as [->|Hne].
      + rewrite decide_True by left. apply lookup_insert_eq.
      + rewrite decide_False by (rewrite elem_of_cons; tauto). by rewrite lookup_insert_ne. }
  apply map_eq. intros k. rewrite Hl, lookup_fmap. destruct (decide (k ∈ visit m)) as [[p Hp]%elem_of_visit|Hk].
  - by rewrite Hp.
  - destruct (m !! k) as [p|] eqn:Hp; [|done]. destruct Hk. apply elem_of_visit. by eexists.
Qed.

Lemma destroy_loop_run l s :
  NoDup l -> (forall k, k ∈ l -> exists p, mc_producerMap s !! k = Some (Some p)) ->
  for_each l destroy_producer_round s =
    Done (tt, mc_set_producers (nulled l) s,
          l ≫= fun k => from_option producer_closing [] (mjoin (mc_producerMap s !! k))).
Proof.
  revert s. induction l as [|k l IH]; intros s Hnd Hl; cbn [for_each]; [by destruct s|].
  apply NoDup_cons in Hnd as [Hk Hnd]. destruct (Hl k (list_elem_of_here _ _)) as [p Hp].
  assert (Hround : destroy_producer_round k s = Done (tt, mc_set_producers <[k := None]> s, producer_closing p)).
  { unfold destroy_producer_round, close_producer, producer_closing. run_M. rewrite Hp. simpl. by destruct (pr_closed p). }
  rewrite (bind_done _ _ _ _ _ _ Hround).
  assert (Hne : forall k', k' ∈ l -> mc_producerMap (mc_set_producers <[k := None]> s) !! k' = mc_producerMap s !! k').
  { intros k' Hk'. simpl. by rewrite lookup_insert_ne by (by intros ->). }
  rewrite IH; [|done|intros k' Hk'; rewrite Hne by done; apply Hl; by right].
  rewrite bind_cons, Hp, (bind_ext_in l _ (fun k => from_option producer_closing [] (mjoin (mc_producerMap s !! k)))).
  - done.
  - intros k' Hk'. by rewrite Hne.
Qed.

(** When [destroy()] ends: no producer entry is null. *)
Lemma destroy_ends s :
  mc_wf s -> (forall k, mc_producerMap s !! k <> Some None) ->
  mc_destroy s = Done (tt, destroyed s, destroy_effects s).
Proof.
  clear Produce. intros [Hc Hd] Hp. unfold mc_destroy. erewrite bind_done by done.
  assert (Hhead : (match mc_micProducer s with
      | Some p => _ ← close_producer p; modify (mc_set_mic None)
      | None => skip
      end) s = Done (tt, mc_set_mic None s, from_option producer_closing [] (mc_micProducer s))).
  { destruct (mc_micProducer s) as [p|] eqn:Hmic.
    - unfold close_producer. run_M. unfold producer_closing. by destruct (pr_closed p).
    - destruct s; simpl in Hmic; by rewrite Hmic. }
  rewrite (bind_done _ _ _ _ _ _ Hhead). erewrite bind_done by done.
  pose proof (destroy_loop_run (visit (mc_producerMap s)) (mc_set_mic None s) (NoDup_visit _)) as Hl2.
  unfold destroy_producer_round in Hl2. simpl mc_producerMap in *. rewrite (bind_done _ _ _ _ _ _ (Hl2 ltac:(
    intros k [[p|] Hk]%elem_of_visit; [by eexists | by destruct (Hp k)]))). clear Hl2.
  set (s2 := mc_set_producers _ (mc_set_mic None s)). erewrite bind_done by done.
  pose proof (for_each_emits (visit (mc_dataConsumerMap s2)) (fun k =>
      m ← gets mc_dataConsumerMap; c ← deref "dataConsumer.second" (mjoin (m !! k)); close_data_consumer c)
      (fun k => from_option data_consumer_closing [] (mjoin (mc_dataConsumerMap s !! k))) s2) as Hl3.
  erewrite bind_done.
  2:{ apply Hl3. intros k [p Hk]%elem_of_visit. unfold close_data_consumer, data_consumer_closing. run_M.
      change (mc_dataConsumerMap s2) with (mc_dataConsumerMap s) in *. rewrite Hk.
      destruct p as [c|]; [|by destruct (Hd k)]. simpl. by destruct (dc_closed c). }
  erewrite bind_done by done. erewrite bind_done by done. set (s3 := mc_set_dataConsumers (λ _, ∅) s2).
  pose proof (for_each_emits (visit (mc_consumerMap s3)) (fun k => c ← consumer_at k; close_consumer c)
    (fun k => from_option consumer_closing [] (mjoin (mc_consumerMap s !! k))) s3) as Hl4.
  erewrite bind_done.
  2:{ apply Hl4. intros k [p Hk]%elem_of_visit. destruct (Hc k p Hk) as (c & -> & _).
      rewrite (bind_done _ _ _ _ _ _ (consumer_at_some k c s3 Hk)). change (mc_consumerMap s !! k = Some (Some c)) in Hk.
      rewrite Hk. unfold close_consumer, consumer_closing. simpl. by destruct (c_closed c). }
  erewrite bind_done by done. unfold modify. rewrite !app_nil_l, !app_nil_r.
  unfold destroyed. rewrite <- (nulled_visit (mc_producerMap s)). reflexivity.
Qed.

(** Nothing is closed twice: what the transports closed before is left alone. *)
Lemma closing_all_nil {A} (closing : A -> list mc_effect) (m : gmap string (option A)) :
  (forall k x, m !! k = Some (Some x) -> closing x = []) -> closing_all closing m = [].
Proof.
  intros Hm. unfold closing_all. induction (visit m) as [|k l IH]; [done|].
  rewrite bind_cons, IH, app_nil_r. destruct (m !! k) as [[x|]|] eqn:Hk; simpl; [by eapply Hm | done..].
Qed.

Lemma all_closed_no_effects s :
  (forall p, mc_micProducer s = Some p -> pr_closed p = true) ->
  (forall k p, mc_producerMap s !! k = Some (Some p) -> pr_closed p = true) ->
  (forall k c, mc_dataConsumerMap s !! k = Some (Some c) -> dc_closed c = true) ->
  (forall k c, mc_consumerMap s !! k = Some (Some c) -> c_closed c = true) -> destroy_effects s = [].
Proof.
  intros Hmic Hp Hd Hc. unfold destroy_effects. rewrite !closing_all_nil.
  - destruct (mc_micProducer s) as [p|]; [|done]. simpl. unfold producer_closing. by rewrite Hmic.
  - intros k c Hk. unfold consumer_closing. by rewrite (Hc k c Hk).
  - intros k c Hk. unfold data_consumer_closing. by rewrite (Hd k c Hk).
  - intros k c Hk. unfold producer_closing. by rewrite (Hp k c Hk).
Qed.

(** Turning a video track off (whether or not it was on) leaves a null
    pointer in [_producerMap]; the next [destroy()], hence leaving the room,
    dereferences it. *)
Theorem video_off_breaks_destroy trackName width height s :
  can_send "video" s ->
  exists s1 es,
    mc_enableVideo CanProduce Produce false trackName width height s = Done (tt, s1, es) /\
    mc_producerMap s1 !! trackName = Some None /\
    mc_destroy s1 = Fault (NullDeref "ref.second").
Proof.
  intros ((d & Hd & Hcan) & [t Ht] & Hapi).
  cut (exists s1 es, mc_enableVideo CanProduce Produce false trackName width height s = Done (tt, s1, es) /\
         mc_producerMap s1 !! trackName = Some None).
  { intros (s1 & es & Hrun & Hnull). exists s1, es. split; [done|]. split; [done|].
    by apply (destroy_null_producer trackName). }
  unfold mc_enableVideo, map_at, close_producer. run_M. rewrite Hd. simpl. rewrite Hcan. simpl. rewrite Ht. simpl.
  destruct (mc_producerMap s !! trackName) as [[p|]|] eqn:Hp; simpl;
    destruct (mc_sourceMap s !! trackName) as [[x|]|] eqn:Hx; simpl; rewrite ?Hapi; simpl;
    try (destruct (pr_closed p); simpl); eexists _, _; (split; [reflexivity|]); simpl;
    by rewrite ?lookup_insert_eq.
Qed.

(** [getRemoteAudioTracks(pid)] does not look at [pid]: it returns the
    audio tracks of all peers, so a peer is credited with the tracks of others. *)
Theorem audio_tracks_ignore_peer pid s :
  mc_wf s ->
  mc_getRemoteAudioTracks pid s =
    Done (tracks_of (fun _ c => bool_decide (c_kind c = "audio")) (mc_consumerMap s), s, []) /\
  (forall k c other, mc_consumerMap s !! k = Some (Some c) -> c_kind c = "audio" ->
     mc_consumerIdToPeerId s !! k = Some other -> other <> pid ->
     exists ts, mc_getRemoteAudioTracks pid s = Done (ts, s, []) /\ ts !! k = Some (c_track c)).
Proof.
  intros Hwf. pose proof (getRemoteAudioTracks_spec pid s Hwf) as Hs. split; [done|].
  intros k c other Hc Hk _ _. eexists. split; [exact Hs|]. unfold tracks_of.
  rewrite map_lookup_imap, Hc. simpl. by rewrite bool_decide_eq_true_2.
Qed.
End local.

(** ** Witnesses *)

Definition sample_consumer (id kind : string) : Consumer := mkConsumer id kind (Some 7%nat) true false.

(** Bob sends audio, Alice audio over which a data consumer is opened too. *)
Definition sample_media : MediaController :=
  mkMC OptionsDefault true (Some 1%nat) (Some 2%nat) (Some 3%nat) [] None ∅ ∅
    {["b1" := Some (sample_consumer "b1" "audio")]} {["d1" := Some (mkDataConsumer "d1" false)]}
    (<["b1" := "bob"]> {["d1" := "alice"]}) [].

Lemma sample_media_wf : mc_wf sample_media.
Proof.
  split; simpl.
  - intros k p Hk. apply lookup_singleton_Some in Hk as [<- <-]. eexists. split; [done|].
    split; [done|]. vm_compute. by eexists.
  - intros k Hk. by apply lookup_singleton_Some in Hk as [_ ?].
Defined.

Lemma sample_peer k pid :
  mc_consumerIdToPeerId sample_media !! k = Some pid ->
  (k = "b1" /\ pid = "bob") \/ (k = "d1" /\ pid = "alice").
Proof.
  simpl. intros [[<- <-]|[_ [<- <-]%lookup_singleton_Some]]%lookup_insert_Some; auto.
Qed.

Lemma mute_then_ask_witness :
  exists s', mute_peer "audio" "bob" true sample_media = Done (tt, s', [MApi (APauseConsumer "b1") true]) /\
             mc_consumerMap s' !! "b1" = Some (Some (mkConsumer "b1" "audio" (Some 7%nat) false false)) /\
             peer_muted "audio" "bob" s' = Done (true, s', []).
Proof.
  destruct (mute_then_ask "audio" "bob" true sample_media) as (s' & Hrun & Hset & _ & _ & Hask).
  - reflexivity.
  - intros k [[-> _]|[_ ?]]%sample_peer; [by eexists | done].
  - intros k c _ Hc. simpl in Hc. apply lookup_singleton_Some in Hc as [_ Hc]. injection Hc as <-. reflexivity.
  - exists "b1", (sample_consumer "b1" "audio"). repeat split; vm_compute; reflexivity.
  - exists s'. split; [rewrite Hrun; vm_compute; reflexivity|]. split; [|exact Hask].
    apply (Hset "b1" (sample_consumer "b1" "audio")); vm_compute; reflexivity.
Defined.

Lemma data_consumer_breaks_isMuted_witness :
  peer_muted "audio" "alice" sample_media = Fault (NullDeref "consumer").
Proof.
  apply (data_consumer_breaks_isMuted "audio" "alice" "d1").
  - exact sample_media_wf.
  - vm_compute. reflexivity.
  - vm_compute. reflexivity.
  - intros (k & c & [[-> H]|[-> _]]%sample_peer & Hc & _); [discriminate H | vm_compute in Hc; discriminate Hc].
Defined.

Lemma updateConsumer_acts_once_witness :
  exists s', updateConsumer "b1" true sample_media =
             Done (tt, s', [MNotify (Done [MRemoteAudioStateChanged "bob" true])]).
Proof.
  eexists. rewrite (updateConsumer_acts_once "b1" true sample_media sample_media_wf). vm_compute. reflexivity.
Defined.

Lemma consumerClosed_removes_witness :
  exists s', consumerClosed_task (consumer_closed "b1") sample_media =
             Done (tt, s', [MNotify (Done [MRemoteAudioStateChanged "bob" true;
                                           MRemoveRemoteAudioTrack "bob" "b1" None]); MCloseConsumer "b1"]).
Proof.
  eexists. rewrite (consumerClosed_removes "b1" sample_media sample_media_wf). vm_compute. reflexivity.
Defined.

Definition sample_Consume (id producerId kind : string) (rtp app : Value) : result string Consumer :=
  Ok (sample_consumer id kind).
Definition sample_nlohmann (text : string) : result string Value := Ok (JObject []).

Lemma createNewConsumer_answers_witness :
  exists s', createNewConsumer (fun _ => "{}") sample_nlohmann sample_Consume
    (complete_request "v1" "p1" "video" "bob" false (Some 12) default_init default_init) sample_media =
    Done (tt, s',
      [MConsume "v1" "p1" "video" (JObject []) (JObject []);
       MNotify (Done [MCreateRemoteVideoTrack "bob" "v1" (Some 7%nat) (JObject []);
                      MRemoteVideoStateChanged "bob" false]);
       MResponse (answer_request (Some 12)); MApi (ASetConsumerPreferredLayers "v1" 1 1) false]).
Proof.
  eexists. erewrite (createNewConsumer_answers _ _ _ sample_media 3%nat); [reflexivity..].
Defined.

Definition sample_ops : list mc_op :=
  [McSetRecv (Some 3%nat);
   McTask (TaskNewConsumer (complete_request "v1" "p1" "video" "bob" false (Some 12) default_init default_init));
   McMutePeer "video" "bob" true].
Definition sample_run : mc_op -> mc_handler unit :=
  mc_run (fun _ _ => true) (fun _ _ _ _ => Err "none") (fun _ => "{}") sample_nlohmann sample_Consume
    (fun _ _ _ _ _ _ => Err "none").

Lemma sample_Consume_id id producerId kind rtp app c :
  sample_Consume id producerId kind rtp app = Ok c -> c_id c = id.
Proof. by intros [= <-]. Qed.

Lemma media_tables_consistent_witness :
  exists s es,
    for_each sample_ops sample_run (new_media_controller OptionsDefault true) = Done (tt, s, es) /\
    mc_wf s /\ size (mc_consumerMap s) = 1%nat.
Proof.
  destruct (for_each sample_ops sample_run (new_media_controller OptionsDefault true)) as [[[[] s] es]|] eqn:Hrun.
  - exists s, es. split; [reflexivity|]. split.
    + exact (proj1 (media_tables_consistent _ _ _ _ _ _ sample_Consume_id _ _ _ _ _ Hrun)).
    + vm_compute in Hrun. injection Hrun as <- <-. vm_compute. reflexivity.
  - vm_compute in Hrun. discriminate Hrun.
Defined.

Definition sample_producer : Producer := mkProducer "mic" true false.

Lemma microphone_session_witness :
  exists s1, mc_enableAudio (fun _ _ => true) (fun _ _ _ _ => Ok sample_producer) true sample_media =
             Done (tt, s1, [MProduce "audio" None mic_options (JObject [])]).
Proof.
  destruct (microphone_session (fun _ _ => true) (fun _ _ _ _ => Ok sample_producer) sample_producer true
    sample_media) as (s1 & _ & _ & Hrun & _).
  - split; [by exists 1%nat | split; [by exists 2%nat | reflexivity]].
  - reflexivity.
  - reflexivity.
  - reflexivity.
  - exists s1. exact Hrun.
Defined.

Lemma video_off_breaks_destroy_witness :
  exists s1 es, mc_enableVideo (fun _ _ => true) (fun _ _ _ _ => Ok sample_producer) false "front" 640 480
                  sample_media = Done (tt, s1, es) /\
                mc_destroy s1 = Fault (NullDeref "ref.second").
Proof.
  destruct (video_off_breaks_destroy (fun _ _ => true) (fun _ _ _ _ => Ok sample_producer) "front" 640 480
    sample_media) as (s1 & es & Hrun & _ & Hf).
  - split; [by exists 1%nat | split; [by exists 2%nat | reflexivity]].
  - exists s1, es. split; [exact Hrun | exact Hf].
Defined.

Lemma audio_tracks_ignore_peer_witness :
  exists ts, mc_getRemoteAudioTracks "alice" sample_media = Done (ts, sample_media, []) /\
             ts !! "b1" = Some (Some 7%nat).
Proof.
  destruct (audio_tracks_ignore_peer "alice" sample_media sample_media_wf) as [_ Hother].
  apply (Hother "b1" (sample_consumer "b1" "audio") "bob").
  - vm_compute. reflexivity.
  - reflexivity.
  - vm_compute. reflexivity.
  - discriminate.
Defined.
