(* ===== verification/RemoteMedia.v ===== *)
(** * Remote media: the media controller and the participants together

    [RoomClient::init] registers the room and the participant controller as
    observers of the media controller, with the mediasoup thread, on which the
    media controller's tasks run: [notifyObservers] therefore calls them in the
    middle of the task ([media_controller.cpp], [participant_controller.cpp],
    [universal_observable.hpp]).  The tasks of [MediaController] are run here with
    these calls in place, on the state that holds both controllers. *)

From stdpp Require Import base gmap strings list.
From Stdlib Require Import ZArith Lia.
From S2P Require Import Prelude Json SignalingModels Observable MediasoupApi ParticipantController MediaController MediaControllerFacts.

#[local] Open Scope string_scope.
#[local] Open Scope list_scope.

(** The participant controller as an [IMediaEventHandler]. *)
Definition pc_on_media {MC E : Type} `{IMediaController MC E} (e : MediaEvent) :
    M (ParticipantController MC) (pc_effect E) unit :=
  match e with
  | MRemoteAudioStateChanged pid muted => pc_onRemoteAudioStateChanged pid muted
  | MRemoteVideoStateChanged pid muted => pc_onRemoteVideoStateChanged pid muted
  | MCreateRemoteAudioTrack pid tid track => pc_onCreateRemoteAudioTrack pid tid track
  | MRemoveRemoteAudioTrack pid tid track => pc_onRemoveRemoteAudioTrack pid tid track
  | MCreateRemoteVideoTrack pid tid track appData => pc_onCreateRemoteVideoTrack pid tid track appData
  | MRemoveRemoteVideoTrack pid tid track => pc_onRemoveRemoteVideoTrack pid tid track
  end.

Section remote.
Context `{HashOrder}.
(** The objects alive, the thread the task runs on, and the addresses of the
    participant controller among the observers. *)
Variable alive : address -> bool.
Variable current : nat.
Variable self : address.

Abbreviation controllers := (ParticipantController MediaController).
Abbreviation handler := (M (ParticipantController MediaController) (pc_effect mc_effect)).

(** [notifier(observer)]: the lambda's calls.  The room's handlers are empty. *)
Definition deliver (a : address) (calls : outcome (list MediaEvent)) : handler unit :=
  match calls with
  | Fault f => throw f
  | Done l => if decide (a = self) then for_each l pc_on_media else skip
  end.

(** [notifyObservers] of the media controller; a call for another thread is left
    as the effect [MNotify]. *)
Definition notify_media (calls : outcome (list MediaEvent)) : handler unit :=
  s ← get;
  match notifyObservers alive current (mc_observers (pc_media s)) with
  | Fault f => throw f
  | Done ds => for_each ds (fun d => match d with
                                     | Direct a => deliver a calls
                                     | Posted _ _ => emit (PMedia (MNotify calls))
                                     end)
  end.

Section tasks.
Variable print : Value -> string.
Variable nlohmann_parse : string -> result string Value.
Variable Consume : string -> string -> string -> Value -> Value -> result string Consumer.
Variable ConsumeData : string -> string -> Z -> string -> string -> Value -> result string DataConsumer.

(** A task of the media controller on the mediasoup thread. *)
Definition media_task (t : mc_task) : handler unit :=
  mc_run_task_in print nlohmann_parse Consume ConsumeData (fun A => media (A := A)) notify_media t.
End tasks.

(** ** What the participants do with the calls *)

(** What of the effects is the media controller's own doing. *)
Definition own_effect (e : pc_effect mc_effect) : list mc_effect :=
  match e with
  | PMedia (MNotify _) => []
  | PMedia e => [e]
  | PNotify _ => []
  end.
Definition without_notify (es : list mc_effect) : list mc_effect :=
  es ≫= (fun e => match e with MNotify _ => [] | _ => [e] end).

Lemma without_notify_app es es' : without_notify (es ++ es') = without_notify es ++ without_notify es'.
Proof. apply bind_app. Qed.

(** The participants answer every event and leave the media controller alone. *)
Definition answers_quietly (m : handler unit) : Prop :=
  forall pc, mc_wf (pc_media pc) -> exists pc' es, m pc = Done (tt, pc', es) /\
    pc_media pc' = pc_media pc /\ es ≫= own_effect = [].

Lemma quiet_with_participant pid (body : nat -> handler unit) :
  (forall p, answers_quietly (body p)) -> answers_quietly (with_participant pid body).
Proof.
  intros Hb pc Hwf. unfold with_participant. case_decide; [by eexists _, _|].
  unfold map_index. run_M. destruct (pc_participantMap pc !! pid) as [[p|]|]; simpl; try by eexists _, _.
  destruct (Hb p pc Hwf) as (pc' & es & -> & Hrest). by eexists _, _.
Qed.

Lemma quiet_media_event e : answers_quietly (pc_on_media e).
Proof.
  destruct e; cbn [pc_on_media]; apply quiet_with_participant; intros p pc Hwf;
    unfold update, media, zoom; run_M;
    rewrite ?(getRemoteAudioTracks_spec _ _ Hwf), ?(getRemoteVideoTracks_spec _ _ Hwf); by eexists _, _.
Qed.

Lemma quiet_media_events l : answers_quietly (for_each l pc_on_media).
Proof.
  induction l as [|e l IH]; intros pc Hwf; cbn [for_each]; [by eexists _, _|].
  destruct (quiet_media_event e pc Hwf) as (pc1 & e1 & H1 & Hm1 & Ho1).
  destruct (IH pc1 ltac:(by rewrite Hm1)) as (pc2 & e2 & H2 & Hm2 & Ho2).
  eexists _, _. rewrite (bind_done _ _ _ _ _ _ H1), H2. split; [done|]. split; [congruence|].
  by rewrite bind_app, Ho1, Ho2.
Qed.

Lemma quiet_delivery (ds : list delivery) l :
  answers_quietly (for_each ds (fun d => match d with
                                         | Direct a => deliver a (Done l)
                                         | Posted _ _ => emit (PMedia (MNotify (Done l)))
                                         end)).
Proof.
  induction ds as [|d ds IH]; intros pc Hwf; cbn [for_each]; [by eexists _, _|].
  assert (exists pc1 e1, (match d with Direct a => deliver a (Done l) | Posted _ _ => emit (PMedia (MNotify (Done l))) end) pc =
      Done (tt, pc1, e1) /\ pc_media pc1 = pc_media pc /\ e1 ≫= own_effect = []) as (pc1 & e1 & H1 & Hm1 & Ho1).
  { destruct d as [a|]; [|by eexists _, _]. unfold deliver. case_decide; [by apply quiet_media_events | by eexists _, _]. }
  destruct (IH pc1 ltac:(by rewrite Hm1)) as (pc2 & e2 & H2 & Hm2 & Ho2).
  eexists _, _. rewrite (bind_done _ _ _ _ _ _ H1), H2. split; [done|]. split; [congruence|].
  by rewrite bind_app, Ho1, Ho2.
Qed.

(** ** The tasks with their calls in place simulate the tasks alone *)

(** A notification whose lambda faults. *)
Definition faulty (es : list mc_effect) : Prop := Exists (fun e => exists f, e = MNotify (Fault f)) es.

(** From media states in [P]: where [m1] ends, [m2] ends with the same value, the
    same media state and the same effects apart from the notifications (or a faulty
    notification stops it), and where [m1] faults, [m2] faults. *)
Definition sim {A} (P : MediaController -> Prop) (m1 : mc_handler A) (m2 : handler A)
    (Q : A -> MediaController -> Prop) : Prop :=
  forall pc, P (pc_media pc) ->
    match m1 (pc_media pc) with
    | Done (a, m', es) =>
        Q a m' /\
        ((exists pc' es', m2 pc = Done (a, pc', es') /\ pc_media pc' = m' /\
            es' ≫= own_effect = without_notify es) \/
         (faulty es /\ exists g, m2 pc = Fault g))
    | Fault _ => exists g, m2 pc = Fault g
    end.

Lemma sim_bind {A B} P (m1 : mc_handler A) (m2 : handler A) R (f1 : A -> mc_handler B) (f2 : A -> handler B) Q :
  sim P m1 m2 R -> (forall a, sim (R a) (f1 a) (f2 a) Q) -> sim P (mbind f1 m1) (mbind f2 m2) Q.
Proof.
  intros Hm Hf pc HP. specialize (Hm pc HP). unfold mbind, M_bind.
  destruct (m1 (pc_media pc)) as [[[a m'] es]|f]; [|destruct Hm as [g ->]; by exists g].
  destruct Hm as [HR [(pc1 & e1 & -> & <- & Ho)|[Hbad [g ->]]]].
  - specialize (Hf a pc1 HR). destruct (f1 a (pc_media pc1)) as [[[b m2'] es2]|f].
    + destruct Hf as [HQ [(pc2 & e2 & -> & <- & Ho2)|[Hbad [g ->]]]]; (split; [done|]).
      * left. eexists _, _. split; [done|]. split; [done|]. by rewrite bind_app, without_notify_app, Ho, Ho2.
      * right. split; [apply Exists_app; by right | by exists g].
    + destruct Hf as [g ->]. by exists g.
  - assert (Hpost : match f1 a m' with Done (b, m2', _) => Q b m2' | Fault _ => True end).
    { specialize (Hf a (set_media m' pc) HR). simpl in Hf. destruct (f1 a m') as [[[b m2'] es2]|]; [apply Hf | done]. }
    destruct (f1 a m') as [[[b m2'] es2]|]; [|by exists g].
    split; [done|]. right. split; [apply Exists_app; by left | by exists g].
Qed.

Lemma sim_lift {A} P (m : mc_handler A) Q :
  (forall s, P s -> wlp m (fun a s' _ => Q a s') s) -> sim P m (media m) Q.
Proof.
  intros Hm pc HP. specialize (Hm _ HP). unfold wlp in Hm. unfold media, zoom.
  destruct (m (pc_media pc)) as [[[a m'] es]|f]; [|by eexists]. split; [done|]. left.
  eexists _, _. split; [done|]. split; [done|].
  induction es as [|e es IH]; [done|]. cbn. unfold without_notify in *. cbn. rewrite IH. by destruct e.
Qed.

Lemma sim_ret {A} (P : MediaController -> Prop) (a : A) (Q : A -> MediaController -> Prop) :
  (forall s, P s -> Q a s) -> sim P (mret a) (mret a) Q.
Proof. intros HQ pc HP. split; [by apply HQ|]. left. by eexists _, _. Qed.

Lemma sim_throw {A} P f (Q : A -> MediaController -> Prop) : sim P (throw f) (throw f) Q.
Proof. intros pc HP. by exists f. Qed.

Lemma sim_deref {A} P w (o : option A) : sim P (deref w o) (deref w o) (fun _ => P).
Proof. destruct o; [by apply sim_ret | apply sim_throw]. Qed.
Lemma sim_value {A} P w (o : option A) : sim P (value w o) (value w o) (fun _ => P).
Proof. destruct o; [by apply sim_ret | apply sim_throw]. Qed.

Lemma sim_for_each {A} (P : MediaController -> Prop) (l : list A) body1 body2 :
  (forall x, sim P (body1 x) (body2 x) (fun _ => P)) -> sim P (for_each l body1) (for_each l body2) (fun _ => P).
Proof.
  intros Hb. induction l as [|y l IH]; cbn [for_each]; [by apply sim_ret|].
  eapply sim_bind; [apply Hb | intros []; exact IH].
Qed.

Lemma sim_for_until {A R} (P : MediaController -> Prop) (l : list A) (body1 : A -> mc_handler (option R)) body2 :
  (forall x, sim P (body1 x) (body2 x) (fun _ => P)) -> sim P (for_until l body1) (for_until l body2) (fun _ => P).
Proof.
  intros Hb. induction l as [|y l IH]; cbn [for_until]; [by apply sim_ret|].
  eapply sim_bind; [apply Hb|]. intros [r|]; [by apply sim_ret | exact IH].
Qed.

(** Sound tables, and observers that can be told. *)
Definition tellable (m : MediaController) : Prop :=
  mc_wf m /\ exists ds, notifyObservers alive current (mc_observers m) = Done ds.

Lemma sim_notify calls : sim tellable (notify_alone calls) (notify_media calls) (fun _ => tellable).
Proof.
  intros pc [Hwf [ds Hds]]. cbn. split; [by split; [|exists ds]|]. unfold notify_media.
  erewrite bind_done by done. rewrite Hds. destruct calls as [l|f].
  - left. destruct (quiet_delivery ds l pc Hwf) as (pc' & es & -> & Hm & Ho). by eexists _, _.
  - assert (Hd : (exists es, for_each ds (fun d => match d with
        | Direct a => deliver a (Fault f) | Posted _ _ => emit (PMedia (MNotify (Fault f))) end) pc = Done (tt, pc, es) /\
        es ≫= own_effect = []) \/ exists g, for_each ds (fun d => match d with
        | Direct a => deliver a (Fault f) | Posted _ _ => emit (PMedia (MNotify (Fault f))) end) pc = Fault g).
    { clear Hds. induction ds as [|[a|t a] ds IH]; cbn [for_each]; [left; by eexists | right; by eexists |].
      erewrite bind_done by done. destruct IH as [(es & -> & Ho)|[g ->]]; [left; eexists; split; [done|]; done | right; by eexists]. }
    destruct Hd as [(es & -> & Ho)|[g ->]].
    + left. by eexists _, _.
    + right. split; [constructor; by eexists | by eexists].
Qed.

Lemma tellable_same m m' : mc_observers m' = mc_observers m -> mc_wf m' -> tellable m -> tellable m'.
Proof. intros Ho Hwf [_ Hd]. split; [done|]. by rewrite Ho. Qed.

Lemma sim_updateConsumer tid paused :
  sim tellable (updateConsumer tid paused) (updateConsumer_in (fun A => media (A := A)) notify_media tid paused)
    (fun _ => tellable).
Proof.
  unfold updateConsumer, updateConsumer_in.
  apply (sim_bind _ _ _ (fun _ => tellable)); [by apply sim_lift|]. intros m. apply sim_for_each. intros k.
  apply (sim_bind _ _ _ (fun c s => tellable s /\ mc_consumerMap s !! k = Some (Some c))).
  { apply sim_lift. intros s Hs. unfold consumer_at. wlp_run. split; [done|].
    destruct (mc_consumerMap s !! k) as [[c|]|]; by simplify_eq/=. }
  intros c. case_decide; [|apply sim_ret; by intros s []].
  apply (sim_bind _ _ _ (fun _ s => tellable s /\ mc_consumerMap s !! k = Some (Some c))).
  { apply sim_lift. intros s [Hs Hk]. destruct (wf_consumer _ _ _ (proj1 Hs) Hk) as (c0 & peer & [= <-] & Hid & Hp).
    unfold wlp. by rewrite (peer_at_some _ peer) by congruence. }
  intros peer. apply (sim_bind _ _ _ (fun _ => tellable)).
  { apply sim_lift. intros s [Hs Hk]. destruct (wf_consumer _ _ _ (proj1 Hs) Hk) as (c0 & peer0 & [= <-] & Hid & Hp).
    apply (tellable_same s); [done| |done]. apply wf_set_consumer; [apply Hs | by eexists |].
    by destruct (consumer_set_enabled_kind (negb paused) c) as (_ & -> & _). }
  intros []. repeat case_decide; [apply sim_notify..|by apply sim_ret].
Qed.

Lemma delete_both_wf tid s :
  mc_wf s -> mc_wf (mc_set_consumers (delete tid) (mc_set_peers (delete tid) s)).
Proof.
  intros [Hc Hd]. split; [|done]. simpl. intros k p. rewrite lookup_delete. case_decide; [done|].
  intros (c & -> & Hid & Hp)%Hc. exists c. by rewrite lookup_delete_ne.
Qed.

Lemma sim_consumerClosed n :
  sim tellable (consumerClosed_task n) (consumerClosed_in (fun A => media (A := A)) notify_media n)
    (fun _ => tellable).
Proof.
  unfold consumerClosed_task, consumerClosed_in.
  apply (sim_bind _ _ _ (fun _ => tellable)); [by apply sim_lift|]. intros m.
  apply (sim_bind _ _ _ (fun _ => tellable)); [|intros r; by apply sim_ret].
  apply sim_for_until. intros k.
  apply (sim_bind _ _ _ (fun _ => tellable)).
  { apply sim_lift. intros s Hs. unfold consumer_at. by wlp_run. }
  intros c. eapply sim_bind; [apply sim_deref|]. intros d. eapply sim_bind; [apply sim_value|]. intros data.
  case_decide; [|by apply sim_ret].
  apply (sim_bind _ _ _ (fun _ => tellable)).
  { apply sim_lift. intros s Hs. pose proof (preserves_peer_at (c_id c) s (proj1 Hs)) as Hp.
    unfold wlp, peer_at in *. revert Hp. run_M. destruct (mc_consumerIdToPeerId s !! c_id c); simpl; [done|].
    intros Hp. by apply (tellable_same s). }
  intros peer. apply (sim_bind _ _ _ (fun _ => tellable)).
  { repeat case_decide; [apply sim_notify..|by apply sim_ret]. }
  intros []. apply (sim_bind _ _ _ (fun _ => tellable)).
  { apply sim_lift. intros s Hs. unfold close_consumer. by wlp_run. }
  intros []. apply (sim_bind _ _ _ (fun _ s => exists s0, tellable s0 /\ s = mc_set_peers (delete (c_id c)) s0)).
  { apply sim_lift. intros s Hs. by exists s. }
  intros []. apply (sim_bind _ _ _ (fun _ => tellable)); [|intros []; by apply sim_ret].
  apply sim_lift. intros s (s0 & Hs0 & ->). apply (tellable_same s0); [done| |done]. apply delete_both_wf, Hs0.
Qed.

Section simulation.
Variable print : Value -> string.
Variable nlohmann_parse : string -> result string Value.
Variable Consume : string -> string -> string -> Value -> Value -> result string Consumer.
Variable ConsumeData : string -> string -> Z -> string -> string -> Value -> result string DataConsumer.
(** [GetId()] is the id the consumer was created with. *)
Hypothesis Consume_id : forall id producerId kind rtp app c,
  Consume id producerId kind rtp app = Ok c -> c_id c = id.

Lemma sim_reparse {A} `{FieldsMap A} (m : A) :
  sim tellable (reparse print nlohmann_parse m) (media (reparse print nlohmann_parse m)) (fun _ => tellable).
Proof. apply sim_lift. intros s Hs. unfold reparse. by destruct (nlohmann_parse _). Qed.

Lemma sim_createNewConsumer r :
  sim tellable (createNewConsumer print nlohmann_parse Consume r)
    (createNewConsumer_in print nlohmann_parse Consume (fun A => media (A := A)) notify_media r) (fun _ => tellable).
Proof.
  unfold createNewConsumer, createNewConsumer_in. destruct r as [r|]; [|by apply sim_ret].
  apply (sim_bind _ _ _ (fun _ => tellable)); [by apply sim_lift|]. intros s0.
  destruct (negb _); [by apply sim_ret|]. destruct (mc_recvTransport s0); [|by apply sim_ret].
  do 7 (eapply sim_bind; [first [apply sim_value | apply sim_reparse] | intros]).
  eapply sim_bind; [apply sim_value | intros id0]. eapply (sim_bind _ _ _ (fun _ => tellable)); [by apply sim_lift|]. intros [].
  destruct (Consume _ _ _ _ _) as [ptr|] eqn:Hcons; [|apply sim_throw].
  apply (sim_bind _ _ _ (fun _ s => exists s0, tellable s0 /\ s = mc_set_consumers <[a4 := Some ptr]> s0)).
  { apply sim_lift. intros s Hs. by exists s. }
  intros []. apply (sim_bind _ _ _ (fun _ => tellable)).
  { apply sim_lift. intros s (s1 & Hs1 & ->). apply (tellable_same s1); [done| |done].
    apply wf_new_consumer; [apply Hs1|]. by eapply Consume_id. }
  intros []. eapply sim_bind; [apply sim_value | intros paused]. eapply sim_bind; [apply sim_notify|]. intros [].
  destruct (negb _); [by apply sim_ret|]. apply (sim_bind _ _ _ (fun _ => tellable)); by intros; apply sim_lift.
Qed.

Lemma sim_createNewDataConsumer r :
  sim tellable (createNewDataConsumer print nlohmann_parse ConsumeData r)
    (media (createNewDataConsumer print nlohmann_parse ConsumeData r)) (fun _ => tellable).
Proof.
  apply sim_lift. intros s Hs.
  eapply wlp_mono; [|exact (createNewDataConsumer_same print nlohmann_parse ConsumeData r s (proj1 Hs))].
  intros [] s' es [Hwf Ho]. by apply (tellable_same s).
Qed.

Lemma sim_task t :
  sim tellable (mc_run_task print nlohmann_parse Consume ConsumeData t)
    (media_task print nlohmann_parse Consume ConsumeData t) (fun _ => tellable).
Proof.
  destruct t as [r|r|tid paused|n]; [apply sim_createNewConsumer | apply sim_createNewDataConsumer |
    apply sim_updateConsumer | apply sim_consumerClosed].
Qed.

(** C10: the observers do not disturb the media controller.  Run with the calls of
    its observers in place, a task of the media controller (on sound tables, with
    observers that have a thread) leaves it in the same state, with the same
    requests and media objects in the same order, as the task by itself; it ends
    abnormally when the task by itself does, or when a notification's lambda does. *)
Theorem observers_do_not_disturb t pc :
  tellable (pc_media pc) ->
  match mc_run_task print nlohmann_parse Consume ConsumeData t (pc_media pc) with
  | Done (_, m', es) =>
      mc_wf m' /\
      ((exists pc' es', media_task print nlohmann_parse Consume ConsumeData t pc = Done (tt, pc', es') /\
          pc_media pc' = m' /\ es' ≫= own_effect = without_notify es) \/
       (faulty es /\ exists g, media_task print nlohmann_parse Consume ConsumeData t pc = Fault g))
  | Fault _ => exists g, media_task print nlohmann_parse Consume ConsumeData t pc = Fault g
  end.
Proof.
  intros Hpc. pose proof (sim_task t pc Hpc) as Hs.
  destruct (mc_run_task _ _ _ _ t (pc_media pc)) as [[[[] m'] es]|f]; [|done].
  destruct Hs as [[Hwf _] Hs]. by split.
Qed.
End simulation.

(** ** What reaches the participants *)

Lemma media_done {A} (m : mc_handler A) (pc : controllers) a m' es :
  m (pc_media pc) = Done (a, m', es) -> media m pc = Done (a, set_media m' pc, PMedia <$> es).
Proof. intros Hm. unfold media, zoom. by rewrite Hm. Qed.

(** The participant controller is registered, once, and everything registered is
    called directly. *)
Definition registered (m : MediaController) : Prop :=
  exists l, notifyObservers alive current (mc_observers m) = Done (Direct <$> l) /\ NoDup l /\ self ∈ l.

Lemma notify_told l pc pc' es :
  registered (pc_media pc) -> for_each l pc_on_media pc = Done (tt, pc', es) ->
  notify_media (Done l) pc = Done (tt, pc', es).
Proof.
  intros (os & Hos & Hnd & Hin) Hl. unfold notify_media. erewrite bind_done by done. rewrite Hos.
  erewrite (for_each_single _ _ (Direct self)); [done|..].
  - apply list.NoDup_fmap; [by intros ?? [=] | done].
  - by apply list_elem_of_fmap_2.
  - simpl. by rewrite decide_True.
  - intros d (a & -> & _)%list_elem_of_fmap Hne. simpl. rewrite decide_False; [done|]. by intros ->.
  - intros d (a & -> & _)%list_elem_of_fmap Hne. simpl. rewrite decide_False; [done|]. by intros ->.
Qed.

(** The participant [p] of the peer [pid]. *)
Definition known (pid : string) (p : nat) (pc : controllers) : Prop :=
  pid <> "" /\ pc_participantMap pc !! pid = Some (Some p).

Lemma video_state_run pid p b (pc : controllers) :
  known pid p pc ->
  pc_on_media (MRemoteVideoStateChanged pid b) pc =
    Done (tt, set_heap (alter (setVideoMuted b) p) pc, [PNotify (PRemoteVideoStateChanged p b)]).
Proof.
  intros [Hne Hp]. cbn [pc_on_media].
  unfold pc_onRemoteVideoStateChanged, with_participant, map_index, update. rewrite decide_False by done.
  run_M. by rewrite Hp.
Qed.

(** The video tracks of a peer, as the media controller answers now. *)
Definition tracks_now (pid : string) (pc : controllers) : gmap string track_ptr :=
  tracks_of (video_track_of pid (pc_media pc)) (mc_consumerMap (pc_media pc)).

Lemma video_created_run pid p tid track app (pc : controllers) :
  known pid p pc -> mc_wf (pc_media pc) ->
  pc_on_media (MCreateRemoteVideoTrack pid tid track app) pc =
    Done (tt, set_heap (alter (setVideoTracks (tracks_now pid pc)) p) pc,
          [PNotify (PCreateRemoteVideoTrack p tid track app)]).
Proof.
  intros [Hne Hp] Hwf. cbn [pc_on_media].
  unfold pc_onCreateRemoteVideoTrack, with_participant, map_index, update, media, zoom.
  rewrite decide_False by done. run_M. rewrite Hp. simpl. rewrite (getRemoteVideoTracks_spec pid _ Hwf). by destruct pc.
Qed.

Lemma video_removed_run pid p tid track (pc : controllers) :
  known pid p pc -> mc_wf (pc_media pc) ->
  pc_on_media (MRemoveRemoteVideoTrack pid tid track) pc =
    Done (tt, set_heap (alter (setVideoTracks (tracks_now pid pc)) p) pc,
          [PNotify (PRemoveRemoteVideoTrack p tid track)]).
Proof.
  intros [Hne Hp] Hwf. cbn [pc_on_media].
  unfold pc_onRemoveRemoteVideoTrack, with_participant, map_index, update, media, zoom.
  rewrite decide_False by done. run_M. rewrite Hp. simpl. rewrite (getRemoteVideoTracks_spec pid _ Hwf). by destruct pc.
Qed.

Lemma tracks_now_lookup pid tid c (pc : controllers) :
  mc_consumerMap (pc_media pc) !! tid = Some (Some c) -> c_kind c = "video" ->
  mc_consumerIdToPeerId (pc_media pc) !! tid = Some pid ->
  tracks_now pid pc !! tid = Some (c_track c).
Proof.
  intros Hc Hk Hp. unfold tracks_now, tracks_of. rewrite map_lookup_imap, Hc. simpl.
  unfold video_track_of. by rewrite !bool_decide_eq_true_2.
Qed.

(** The new video of a known peer: two calls, on the state with the consumer. *)
Lemma new_video_events pid p tid track app paused q (pc : controllers) :
  known pid p pc -> mc_wf (pc_media pc) -> pc_heap pc !! p = Some q ->
  exists pc', for_each [MCreateRemoteVideoTrack pid tid track app; MRemoteVideoStateChanged pid paused] pc_on_media pc =
      Done (tt, pc', [PNotify (PCreateRemoteVideoTrack p tid track app); PNotify (PRemoteVideoStateChanged p paused)]) /\
    pc_media pc' = pc_media pc /\
    pc_heap pc' !! p = Some (setVideoMuted paused (setVideoTracks (tracks_now pid pc) q)).
Proof.
  intros Hk Hwf Hq. cbn [for_each].
  rewrite (bind_done _ _ _ _ _ _ (video_created_run pid p tid track app pc Hk Hwf)).
  rewrite (bind_done _ _ _ _ _ _ (video_state_run pid p paused (set_heap (alter (setVideoTracks (tracks_now pid pc)) p) pc) Hk)).
  eexists. split; [reflexivity|]. split; [done|]. simpl. by rewrite !lookup_alter_eq, Hq.
Qed.

Lemma closed_video_events pid p tid q (pc : controllers) :
  known pid p pc -> mc_wf (pc_media pc) -> pc_heap pc !! p = Some q ->
  exists pc', for_each [MRemoteVideoStateChanged pid true; MRemoveRemoteVideoTrack pid tid None] pc_on_media pc =
      Done (tt, pc', [PNotify (PRemoteVideoStateChanged p true); PNotify (PRemoveRemoteVideoTrack p tid None)]) /\
    pc_media pc' = pc_media pc /\
    pc_heap pc' !! p = Some (setVideoTracks (tracks_now pid pc) (setVideoMuted true q)).
Proof.
  intros Hk Hwf Hq. cbn [for_each].
  rewrite (bind_done _ _ _ _ _ _ (video_state_run pid p true pc Hk)).
  rewrite (bind_done _ _ _ _ _ _ (video_removed_run pid p tid None (set_heap (alter (setVideoMuted true) p) pc) Hk Hwf)).
  eexists. split; [reflexivity|]. split; [done|]. simpl. by rewrite !lookup_alter_eq, Hq.
Qed.

Section arrivals.
Variable print : Value -> string.
Variable nlohmann_parse : string -> result string Value.
Variable Consume : string -> string -> string -> Value -> Value -> result string Consumer.
Variable ConsumeData : string -> string -> Z -> string -> string -> Value -> result string DataConsumer.

Abbreviation task := (media_task print nlohmann_parse Consume ConsumeData).

(** C11: a remote video reaches its participant.  When the server announces a video
    of a known participant to a controller that consumes, and the transport makes
    the consumer, the participant then lists the track under the consumer's id and
    carries the announced mute state, and the observers of the participants are
    told of the track and the state, in that order; the server is answered. *)
Theorem new_video_reaches_participant id producerId kind pid paused rid rtp app rtpJson appJson c t p q
    (pc : controllers) :
  mc_wf (pc_media pc) -> registered (pc_media pc) -> known pid p pc -> pc_heap pc !! p = Some q ->
  o_consume (mc_options (pc_media pc)) = Some true -> mc_recvTransport (pc_media pc) = Some t ->
  mc_api (pc_media pc) = true ->
  nlohmann_parse (toJsonStr print rtp) = Ok rtpJson -> nlohmann_parse (toJsonStr print app) = Ok appJson ->
  Consume id producerId kind rtpJson appJson = Ok c -> c_id c = id -> c_kind c = "video" ->
  exists pc' q',
    task (TaskNewConsumer (complete_request id producerId kind pid paused rid rtp app)) pc =
      Done (tt, pc', [PMedia (MConsume id producerId kind rtpJson appJson);
                      PNotify (PCreateRemoteVideoTrack p id (c_track c) appJson);
                      PNotify (PRemoteVideoStateChanged p paused);
                      PMedia (MResponse (mk_BasicResponse (Some true) rid (Some true)));
                      PMedia (MApi (ASetConsumerPreferredLayers id 1 1) false)]) /\
    pc_heap pc' !! p = Some q' /\ p_videoTracks q' !! id = Some (c_track c) /\ p_isVideoMuted q' = Some paused.
Proof.
  intros Hwf Hreg Hk Hq Ho Ht Ha Hrtp Happ Hc <- Hkind.
  set (pc1 := set_media (mc_set_peers <[c_id c := pid]> (mc_set_consumers <[c_id c := Some c]> (pc_media pc))) pc).
  assert (Hwf1 : mc_wf (pc_media pc1)) by by apply wf_new_consumer.
  destruct (new_video_events pid p (c_id c) (c_track c) appJson paused q pc1 Hk Hwf1 Hq) as (pc2 & Hev & Hm & Hq2).
  pose proof (notify_told _ pc1 pc2 _ Hreg Hev) as Hnotify.
  exists pc2. eexists. split; [|split; [exact Hq2|split; [|done]]].
  - unfold media_task. cbn [mc_run_task_in createNewConsumer_in complete_request].
    erewrite bind_done by done. rewrite Ho, Ht. change (negb _) with false at 1. cbv iota.
    do 2 (erewrite bind_done by done). erewrite bind_done by (unfold media, zoom, reparse; by rewrite Hrtp).
    erewrite bind_done by done. erewrite bind_done by (unfold media, zoom, reparse; by rewrite Happ).
    do 4 (erewrite bind_done by done). rewrite Hc.
    do 3 (erewrite bind_done by done). unfold new_consumer_calls. rewrite Hkind. cbn [decide].
    erewrite bind_done by exact Hnotify. rewrite Ha. change (negb true) with false. cbv iota.
    erewrite bind_done by done. unfold media, zoom, emit. by destruct pc2.
  - cbn [p_videoTracks setVideoMuted setVideoTracks]. apply tracks_now_lookup; simpl; [|done|]; by rewrite lookup_insert_eq.
Qed.

(** One round of the loop over the consumers, with the calls in place. *)
Definition closed_round_in (notification : option ConsumerClosedNotification) (k : string) : handler (option unit) :=
  c ← media (consumer_at k);
  n ← deref "notification" notification;
  data ← value "notification->data" (ConsumerClosedNotification_data n);
  if decide (c_id c = value_or (ConsumerClosedNotification_Data_consumerId data) "") then
    peerId ← media (peer_at (c_id c));
    let tid := c_id c in
    _ ← (if decide (c_kind c = "audio") then
           notify_media (Done [MRemoteAudioStateChanged peerId true; MRemoveRemoteAudioTrack peerId tid None])
         else if decide (c_kind c = "video") then
           notify_media (Done [MRemoteVideoStateChanged peerId true; MRemoveRemoteVideoTrack peerId tid None])
         else skip);
    _ ← media (close_consumer c);
    _ ← media (modify (mc_set_peers (delete tid)));
    _ ← media (modify (mc_set_consumers (delete tid)));
    mret (Some tt)
  else mret None.

Lemma set_media_same (pc : controllers) : set_media (pc_media pc) pc = pc.
Proof. by destruct pc. Qed.

Lemma closed_round_in_other tid k (pc : controllers) :
  mc_wf (pc_media pc) -> is_Some (mc_consumerMap (pc_media pc) !! k) -> k <> tid ->
  closed_round_in (consumer_closed tid) k pc = Done (None, pc, []).
Proof.
  intros Hwf [c0 Hp] Hne. destruct (wf_consumer _ _ _ Hwf Hp) as (c & peer & -> & Hid & _).
  unfold closed_round_in. rewrite (bind_done _ _ _ _ _ _ (media_done _ pc _ _ _ (consumer_at_some _ _ _ Hp))).
  rewrite set_media_same. run_M. by rewrite decide_False by congruence.
Qed.

Lemma closed_round_in_hit tid c pid p q (pc : controllers) :
  mc_wf (pc_media pc) -> registered (pc_media pc) -> known pid p pc -> pc_heap pc !! p = Some q ->
  mc_consumerMap (pc_media pc) !! tid = Some (Some c) -> c_id c = tid -> c_kind c = "video" ->
  mc_consumerIdToPeerId (pc_media pc) !! tid = Some pid ->
  exists pc', closed_round_in (consumer_closed tid) tid pc =
      Done (Some tt, pc', [PNotify (PRemoteVideoStateChanged p true); PNotify (PRemoveRemoteVideoTrack p tid None)] ++
              (if c_closed c then [] else [PMedia (MCloseConsumer tid)])) /\
    pc_media pc' = mc_set_consumers (delete tid) (mc_set_peers (delete tid) (pc_media pc)) /\
    pc_heap pc' !! p = Some (setVideoTracks (tracks_now pid pc) (setVideoMuted true q)).
Proof.
  intros Hwf Hreg Hk Hq Hc Hid Hkind Hpeer.
  destruct (closed_video_events pid p tid q pc Hk Hwf Hq) as (pc2 & Hev & Hm & Hq2).
  exists (set_media (mc_set_consumers (delete tid) (mc_set_peers (delete tid) (pc_media pc2))) pc2).
  split; [|split; [by rewrite <- Hm | exact Hq2]]. unfold closed_round_in.
  rewrite (bind_done _ _ _ _ _ _ (media_done _ pc _ _ _ (consumer_at_some _ _ _ Hc))), set_media_same.
  do 2 (erewrite bind_done by done). rewrite decide_True by done. rewrite Hid.
  rewrite (bind_done _ _ _ _ _ _ (media_done _ pc _ _ _ (peer_at_some _ _ _ Hpeer))), set_media_same.
  rewrite Hkind. cbv zeta. rewrite decide_False by done. rewrite decide_True by done.
  rewrite (bind_done _ _ _ _ _ _ (notify_told _ pc pc2 _ Hreg Hev)).
  unfold close_consumer, media, zoom. run_M. rewrite Hid. by destruct (c_closed c).
Qed.

Lemma closed_video_run tid c pid p q (pc : controllers) :
  mc_wf (pc_media pc) -> registered (pc_media pc) -> known pid p pc -> pc_heap pc !! p = Some q ->
  mc_consumerMap (pc_media pc) !! tid = Some (Some c) -> c_kind c = "video" ->
  mc_consumerIdToPeerId (pc_media pc) !! tid = Some pid ->
  exists pc', task (TaskConsumerClosed (consumer_closed tid)) pc =
      Done (tt, pc', [PNotify (PRemoteVideoStateChanged p true); PNotify (PRemoveRemoteVideoTrack p tid None)] ++
              (if c_closed c then [] else [PMedia (MCloseConsumer tid)])) /\
    pc_media pc' = mc_set_consumers (delete tid) (mc_set_peers (delete tid) (pc_media pc)) /\
    pc_heap pc' !! p = Some (setVideoTracks (tracks_now pid pc) (setVideoMuted true q)).
Proof.
  intros Hwf Hreg Hk Hq Hc Hkind Hpeer.
  destruct (wf_consumer _ _ _ Hwf Hc) as (c0 & peer & [= <-] & Hid & _).
  destruct (closed_round_in_hit tid c pid p q pc Hwf Hreg Hk Hq Hc Hid Hkind Hpeer) as (pc' & Hrun & Hm & Hq').
  exists pc'. split; [|done]. unfold media_task. cbn [mc_run_task_in]. unfold consumerClosed_in.
  rewrite (bind_done _ _ _ _ _ _ (media_done _ pc (mc_consumerMap (pc_media pc)) (pc_media pc) [] eq_refl)), set_media_same.
  change (λ k : string, _) with (closed_round_in (consumer_closed tid)).
  erewrite bind_done; [|eapply (for_until_hit _ _ tid); [apply elem_of_visit; by eexists | exact Hrun|]].
  - simpl. by rewrite app_nil_r.
  - intros k Hk'%elem_of_visit Hne. by apply closed_round_in_other.
Qed.

End arrivals.
End remote.

(** ** Witnesses *)

(** A room whose two observers, 0 and 2, are alive and registered with thread 1. *)
Definition sample_observers : list inner_object := [WeakObject (Some 0%nat) (Some 1%nat); WeakObject (Some 2%nat) (Some 1%nat)].
Definition everyone (a : address) : bool := true.
Definition sample_controllers (consumers : gmap string (option Consumer)) (peers : gmap string string) :
    ParticipantController MediaController :=
  mkController {["bob" := Some 0%nat]} {[0%nat := setActive true (new_participant "bob" "Bob")]} 1%nat []
    (mkMC OptionsDefault true None None (Some 3%nat) [] None ∅ ∅ consumers ∅ peers sample_observers).
Definition with_video : ParticipantController MediaController :=
  sample_controllers {["v1" := Some (sample_consumer "v1" "video")]} {["v1" := "bob"]}.

Lemma sample_registered consumers peers : registered everyone 1 2 (pc_media (sample_controllers consumers peers)).
Proof.
  exists [0%nat; 2%nat]. split; [reflexivity|]. split; [|by right; left].
  apply NoDup_cons_2; [|apply NoDup_singleton]. by intros [=]%list_elem_of_singleton.
Defined.

Lemma with_video_wf : mc_wf (pc_media with_video).
Proof.
  split; simpl; [intros k p Hk | intros k Hk; by rewrite lookup_empty in Hk].
  apply lookup_singleton_Some in Hk as [<- <-]. eexists. split; [reflexivity|]. split; [reflexivity|]. by eexists.
Defined.

Lemma empty_controllers_wf : mc_wf (pc_media (sample_controllers ∅ ∅)).
Proof. split; simpl; intros k; [intros p|]; by rewrite lookup_empty. Defined.

Definition ask_consumer : string -> string -> string -> Value -> Value -> result string Consumer :=
  fun id _ kind _ _ => Ok (sample_consumer id kind).
Definition ask_data : string -> string -> Z -> string -> string -> Value -> result string DataConsumer :=
  fun id _ _ _ _ _ => Ok (mkDataConsumer id false).

Lemma new_video_reaches_participant_witness :
  exists pc' q' es,
    media_task everyone 1 2 (fun _ => "{}") sample_nlohmann ask_consumer ask_data
      (TaskNewConsumer (complete_request "v2" "pr" "video" "bob" false (Some 5%Z) default_init default_init))
      (sample_controllers ∅ ∅) = Done (tt, pc', es) /\
    pc_heap pc' !! 0%nat = Some q' /\ p_videoTracks q' !! "v2" = Some (Some 7%nat) /\ p_isVideoMuted q' = Some false.
Proof.
  edestruct (new_video_reaches_participant everyone 1 2 (fun _ => "{}") sample_nlohmann ask_consumer ask_data
    "v2" "pr" "video" "bob" false (Some 5%Z) default_init default_init) as (pc' & q' & Hrun & Hrest).
  - exact empty_controllers_wf.
  - apply sample_registered.
  - split; [discriminate | reflexivity].
  - reflexivity.
  - reflexivity.
  - reflexivity.
  - reflexivity.
  - reflexivity.
  - reflexivity.
  - reflexivity.
  - reflexivity.
  - reflexivity.
  - exists pc', q'. eexists. split; [exact Hrun | exact Hrest].
Defined.


Lemma observers_do_not_disturb_witness :
  exists m' es,
    mc_run_task (fun _ => "{}") sample_nlohmann ask_consumer ask_data (TaskUpdateConsumer "v1" true) (pc_media with_video)
      = Done (tt, m', es) /\ mc_wf m'.
Proof.
  eexists _, _. split; [vm_compute; reflexivity|].
  refine (proj1 (observers_do_not_disturb everyone 1 2 (fun _ => "{}") sample_nlohmann ask_consumer ask_data _
    (TaskUpdateConsumer "v1" true) with_video _)).
  - intros id producerId kind rtp app c [= <-]. reflexivity.
  - split; [exact with_video_wf|]. eexists. reflexivity.
Defined.
