(* ===== verification/VideoPipeline.v ===== *)
(** * From the application's frames to the encoder, and from the decoder back

    Models [core/service/dummy_video_source.{h,cc}], [dummy_video_encoder.{h,cc}] and
    [sdk/video_receiver.cpp].  The application hands in frames it has encoded itself:
    the source wraps the bytes as if they were the luma plane of an image, and the
    encoder takes them out again.  Of WebRTC, [FindNaluIndices] (the payload offsets
    it finds), [ParseNaluType], the supported formats and the clock are parameters;
    bytes are [Z]. *)

From stdpp Require Import base strings list.
From Stdlib Require Import ZArith Lia Ascii.
From S2P Require Import Prelude Strings MediaController MediaControllerFacts.

#[local] Open Scope list_scope.

(** ** Frames *)

(** The three planes and the strides of an [I420BufferInterface]; a null plane is
    [None]. *)
Record I420Buffer : Type := mkI420 {
  DataY : option (list Z);
  DataU : option (list Z);
  DataV : option (list Z);
  StrideY : Z
}.

(** [EncodedVideoI420Buffer]: [StrideY] converts the size to [int]. *)
Record EncodedVideoI420Buffer : Type := mkEncoded { m_width : Z; m_height : Z; m_encoded_data : list Z }.
Definition encoded_i420 (b : EncodedVideoI420Buffer) : I420Buffer :=
  mkI420 (Some (m_encoded_data b)) None None (wrap32 (Z.of_nat (length (m_encoded_data b)))).

(** A [VideoFrameBuffer]: the application's, a decoded image, or another one, native
    or not, that has no image in memory. *)
Inductive VideoFrameBuffer : Type :=
| EncodedVideoFrameBuffer (m_buffer : EncodedVideoI420Buffer)
| DecodedBuffer (image : I420Buffer)
| OtherBuffer (native : bool).

Definition is_native (b : VideoFrameBuffer) : bool :=
  match b with EncodedVideoFrameBuffer _ => true | DecodedBuffer _ => false | OtherBuffer n => n end.
Definition GetI420 (b : VideoFrameBuffer) : option I420Buffer :=
  match b with
  | EncodedVideoFrameBuffer e => Some (encoded_i420 e)
  | DecodedBuffer i => Some i
  | OtherBuffer _ => None
  end.

Record VideoFrame : Type := mkFrame {
  video_frame_buffer : VideoFrameBuffer;
  vf_width : Z;
  vf_height : Z;
  vf_timestamp : Z;
  vf_render_time_ms : Z;
  vf_ntp_time_ms : Z
}.

(** ** The source *)

(** [ref_count_] has no initializer: its first value is an argument. *)
Record DummyVideoSource : Type := mkDummySource { src_width : Z; src_height : Z; ref_count_ : Z }.
Definition new_source (garbage width height : Z) : DummyVideoSource := mkDummySource width height garbage.

Definition AddRef (s : DummyVideoSource) : DummyVideoSource :=
  mkDummySource (src_width s) (src_height s) (wrap32 (ref_count_ s + 1)).
(** True: [kDroppedLastRef]. *)
Definition Release (s : DummyVideoSource) : bool * DummyVideoSource :=
  let count := wrap32 (ref_count_ s - 1) in
  (count =? 0, mkDummySource (src_width s) (src_height s) count).

Inductive SourceState : Type := kInitializing | kLive | kEnded | kMuted.
Definition src_state (s : DummyVideoSource) : SourceState := kLive.
Definition src_remote (s : DummyVideoSource) : bool := false.
Definition src_is_screencast (s : DummyVideoSource) : bool := true.
Definition src_needs_denoising (s : DummyVideoSource) : option bool := Some false.

(** The frame given to [OnFrame]; [now] is [rtc::TimeMillis()].  The constructor's
    sizes are [uint32_t], the buffer's [int32_t]. *)
Definition InputFrame (now : Z) (s : DummyVideoSource) (data : list Z) : VideoFrame :=
  let buffer := EncodedVideoFrameBuffer (mkEncoded (wrap32 (src_width s)) (wrap32 (src_height s)) data) in
  mkFrame buffer (wrap32 (src_width s)) (wrap32 (src_height s)) 0 now 0.

(** ** The encoder *)

Definition WEBRTC_VIDEO_CODEC_OK : Z := 0.
Definition WEBRTC_VIDEO_CODEC_ERR_PARAMETER : Z := -4.
Definition WEBRTC_VIDEO_CODEC_UNINITIALIZED : Z := -7.

Inductive VideoFrameType : Type := kVideoFrameKey | kVideoFrameDelta.
Definition kIdr : Z := 5.

Record EncodedImage : Type := mkImage {
  ei_data : list Z;
  ei_encodedWidth : Z;
  ei_encodedHeight : Z;
  ei_capture_time_ms : Z;
  ei_timestamp : Z;
  ei_ntp_time_ms : Z;
  ei_frameType : VideoFrameType
}.

(** [m_encoded_image_callback], by address. *)
Record DummyEncoder : Type := mkEncoder { m_encoded_image_callback : option nat }.
Definition new_encoder : DummyEncoder := mkEncoder None.

Inductive encoder_effect : Type := OnEncodedImage (callback : nat) (image : EncodedImage).

Abbreviation enc_handler := (M DummyEncoder encoder_effect).

Definition InitEncode : enc_handler Z := mret WEBRTC_VIDEO_CODEC_OK.
Definition RegisterEncodeCompleteCallback (callback : option nat) : enc_handler Z :=
  _ ← modify (fun _ => mkEncoder callback); mret WEBRTC_VIDEO_CODEC_OK.
Definition enc_Release : enc_handler Z := mret WEBRTC_VIDEO_CODEC_OK.
Definition SetRates : enc_handler unit := skip.
(** [DummyEncoder::Encode], which the H.264 encoder overrides. *)
Definition base_Encode (frame : VideoFrame) : enc_handler Z := mret WEBRTC_VIDEO_CODEC_OK.

Section encoder.
Variable FindNaluIndices : list Z -> list nat.
Variable ParseNaluType : Z -> Z.

(** The loop over the indices; [None] where it reads past the end of the data. *)
Fixpoint frame_type (data : list Z) (indices : list nat) : option VideoFrameType :=
  match indices with
  | [] => Some kVideoFrameDelta
  | i :: indices =>
      match data !! i with
      | None => None
      | Some byte => if ParseNaluType byte =? kIdr then Some kVideoFrameKey else frame_type data indices
      end
  end.

(** [DummyH264Encoder::Encode].  [len] is the stride converted to [uint32_t];
    [EncodedImageBuffer::Create] copies [len] bytes. *)
Definition Encode (frame : VideoFrame) : enc_handler Z :=
  s ← get;
  match m_encoded_image_callback s with
  | None => mret WEBRTC_VIDEO_CODEC_UNINITIALIZED
  | Some callback =>
      let buffer := video_frame_buffer frame in
      if negb (is_native buffer) then mret WEBRTC_VIDEO_CODEC_ERR_PARAMETER
      else
        image ← deref "buffer->GetI420()" (GetI420 buffer);
        data ← deref "DataY()" (DataY image);
        let len := Z.to_nat (StrideY image mod 4294967296) in
        if (length data <? len)%nat then throw (Thrown "read past the end of the buffer")
        else
          match frame_type (take len data) (FindNaluIndices (take len data)) with
          | None => throw (Thrown "data[index.payload_start_offset]")
          | Some frameType =>
              _ ← emit (OnEncodedImage callback (mkImage (take len data) (vf_width frame) (vf_height frame)
                    (vf_render_time_ms frame) (vf_timestamp frame) (vf_ntp_time_ms frame) frameType));
              mret WEBRTC_VIDEO_CODEC_OK
          end
  end.
End encoder.

Record EncoderInfo : Type := mkInfo {
  supports_native_handle : bool;
  implementation_name : string;
  has_trusted_rate_controller : bool
}.
Definition base_GetEncoderInfo : EncoderInfo := mkInfo true "NULL_Encoder" true.
Definition GetEncoderInfo : EncoderInfo := mkInfo true "NULL_H264Encoder" true.

(** [absl::EqualsIgnoreCase(format.name, "H264")]; the factory's formats are the
    supported ones. *)
Definition EqualsIgnoreCase (a b : str) : bool := bool_decide (tolower <$> a = tolower <$> b).
Definition CreateVideoEncoder (name : str) : option DummyEncoder :=
  if EqualsIgnoreCase name (lit "H264") then Some new_encoder else None.
Definition GetSupportedFormats (SupportedH264Codecs : list str) : list str :=
  foldl (fun l format => l ++ [format]) [] SupportedH264Codecs.

(** ** The receiver *)

Record VideoReceiver : Type := mkReceiver { vr_trackName : string; vr_cb : option nat }.

Inductive receiver_effect : Type :=
| YuvCallback (cb : nat) (trackName : string) (y u v : option (list Z)) (width height : Z).

Definition OnFrame (r : VideoReceiver) (frame : VideoFrame) : outcome (list receiver_effect) :=
  match vr_cb r with
  | None => Done []
  | Some cb =>
      match GetI420 (video_frame_buffer frame) with
      | None => Fault (NullDeref "GetI420()")
      | Some i => Done [YuvCallback cb (vr_trackName r) (DataY i) (DataU i) (DataV i) (vf_width frame) (vf_height frame)]
      end
  end.

(** ** What arrives *)

(** The source of the media controller's track. *)
Definition source_of (s : VideoSource) : DummyVideoSource := new_source 0 (vs_width s) (vs_height s).

Section pipeline.
Variable FindNaluIndices : list Z -> list nat.
Variable ParseNaluType : Z -> Z.
(** The payload of a unit starts inside the data it was found in. *)
Hypothesis offsets_inside : forall data i, i ∈ FindNaluIndices data -> (i < length data)%nat.

(** A unit of the given type among the indices. *)
Definition has_unit (data : list Z) (indices : list nat) (type : Z) : Prop :=
  exists i byte, i ∈ indices /\ data !! i = Some byte /\ ParseNaluType byte = type.

Lemma frame_type_spec data indices :
  (forall i, i ∈ indices -> (i < length data)%nat) ->
  exists t, frame_type ParseNaluType data indices = Some t /\
    (t = kVideoFrameKey <-> has_unit data indices kIdr).
Proof.
  induction indices as [|i indices IH]; intros Hin; simpl.
  - eexists. split; [reflexivity|]. split; [done|]. intros (i & b & Hi & _). by apply not_elem_of_nil in Hi.
  - destruct (lookup_lt_is_Some_2 data i) as [b Hb]; [apply Hin; by left|]. rewrite Hb.
    destruct (IH (fun j Hj => Hin j (list_elem_of_further _ _ _ Hj))) as (t & -> & Ht).
    destruct (ParseNaluType b =? kIdr) eqn:Hk; eexists; (split; [reflexivity|]).
    + apply Z.eqb_eq in Hk. split; [intros _|done]. exists i, b. split; [by left | done].
    + apply Z.eqb_neq in Hk. rewrite Ht. split; intros (j & b' & Hj & Hb' & Hp).
      * exists j, b'. split; [by right | done].
      * exists j, b'. apply elem_of_cons in Hj as [->|Hj]; [congruence | done].
Qed.

Lemma stride_length (data : list Z) :
  Z.of_nat (length data) < 4294967296 ->
  Z.to_nat (wrap32 (Z.of_nat (length data)) mod 4294967296) = length data.
Proof.
  intros Hl. unfold wrap32. rewrite Zminus_mod_idemp_l.
  replace (Z.of_nat (length data) + 2147483648 - 2147483648) with (Z.of_nat (length data)) by lia.
  rewrite Z.mod_small by lia. lia.
Qed.

(** A frame of the application reaches the network unchanged.  What the media
    controller's [inputFrame] hands to a track's source, the encoder passes on once,
    byte for byte, with the size the source was made with and the time it came in; it
    is marked a key frame exactly when one of its units is an IDR slice.  This holds
    for every length a frame can have (32 bits), although the length travels as an
    [int] on the way. *)
Theorem frame_reaches_encoder `{HashOrder} trackName data now mc vs callback :
  mc_sourceMap mc !! trackName = Some (Some vs) -> Z.of_nat (length data) < 4294967296 ->
  mc_inputFrame trackName data mc = Done (tt, mc, [MInputFrame trackName vs data]) /\
  exists image,
    Encode FindNaluIndices ParseNaluType (InputFrame now (source_of vs) data) (mkEncoder (Some callback)) =
      Done (WEBRTC_VIDEO_CODEC_OK, mkEncoder (Some callback), [OnEncodedImage callback image]) /\
    ei_data image = data /\ ei_encodedWidth image = wrap32 (vs_width vs) /\
    ei_encodedHeight image = wrap32 (vs_height vs) /\ ei_capture_time_ms image = now /\
    (ei_frameType image = kVideoFrameKey <-> has_unit data (FindNaluIndices data) kIdr).
Proof.
  intros Hs Hl. split; [unfold mc_inputFrame, map_at; run_M; by rewrite Hs|].
  destruct (frame_type_spec data (FindNaluIndices data)) as (t & Ht & Hkey); [apply offsets_inside|].
  unfold Encode. run_M. rewrite stride_length, Nat.ltb_irrefl, firstn_all, Ht by done.
  eexists. split; [reflexivity|]. simpl. by repeat (split; [done|]).
Qed.
End pipeline.

(** The encoder takes nothing else: without a callback it answers
    [UNINITIALIZED], an image that is not native is refused with [ERR_PARAMETER], and
    neither reaches the callback; a native buffer of another kind has no image, and
    dereferencing it is fatal.  The receiver hands the three planes of a decoded
    image to the application. *)
Theorem encoder_refuses FindNaluIndices ParseNaluType frame callback r cb image :
  Encode FindNaluIndices ParseNaluType frame new_encoder = Done (WEBRTC_VIDEO_CODEC_UNINITIALIZED, new_encoder, []) /\
  (is_native (video_frame_buffer frame) = false ->
     Encode FindNaluIndices ParseNaluType frame (mkEncoder (Some callback)) =
       Done (WEBRTC_VIDEO_CODEC_ERR_PARAMETER, mkEncoder (Some callback), [])) /\
  (video_frame_buffer frame = OtherBuffer true ->
     Encode FindNaluIndices ParseNaluType frame (mkEncoder (Some callback)) = Fault (NullDeref "buffer->GetI420()")) /\
  (video_frame_buffer frame = DecodedBuffer image -> vr_cb r = Some cb ->
     OnFrame r frame = Done [YuvCallback cb (vr_trackName r) (DataY image) (DataU image) (DataV image)
                               (vf_width frame) (vf_height frame)]).
Proof.
  split; [done|]. split; [|split].
  - intros Hn. unfold Encode. run_M. by rewrite Hn.
  - intros Hb. unfold Encode. run_M. by rewrite Hb.
  - intros Hb Hcb. unfold OnFrame. by rewrite Hb, Hcb.
Qed.

(** Units that follow the start code 0 0 1. *)
Fixpoint start_codes (i : nat) (data : list Z) : list nat :=
  match data with
  | 0 :: ((0 :: 1 :: _ :: _) as data') => (i + 3)%nat :: start_codes (S i) data'
  | _ :: data' => start_codes (S i) data'
  | [] => []
  end.

Lemma start_codes_inside k data i : i ∈ start_codes k data -> (i < k + length data)%nat.
Proof.
  revert k. induction data as [|a data IH]; intros k; simpl; [by intros ?%not_elem_of_nil|].
  assert (Hrest : i ∈ start_codes (S k) data -> (i < k + S (length data))%nat).
  { intros Hi. specialize (IH (S k) Hi). lia. }
  destruct a as [|p|p]; try done. destruct data as [|[|q|q] [|[|[?|?|]|?] [|? ?]]]; try done.
  intros [->|Hi]%elem_of_cons; [simpl; lia | by apply Hrest].
Qed.

Definition one_source : MediaController :=
  mkMC OptionsDefault true (Some 0%nat) (Some 0%nat) None [] None ∅ {["front" := Some (mkSource 1280 720)]}%string ∅ ∅ ∅ [].

Lemma frame_reaches_encoder_witness :
  exists image,
    Encode (start_codes 0) (fun b => b mod 32) (InputFrame 7 (source_of (mkSource 1280 720)) [0; 0; 0; 1; 101; 9])
      (mkEncoder (Some 3%nat)) =
      Done (WEBRTC_VIDEO_CODEC_OK, mkEncoder (Some 3%nat), [OnEncodedImage 3 image]) /\ ei_encodedWidth image = 1280.
Proof.
  assert (Hs : mc_sourceMap one_source !! "front"%string = Some (Some (mkSource 1280 720))) by (vm_compute; reflexivity).
  destruct (frame_reaches_encoder (start_codes 0) (fun b => b mod 32) (start_codes_inside 0) "front"%string
    [0; 0; 0; 1; 101; 9] 7 one_source (mkSource 1280 720) 3%nat Hs ltac:(simpl; lia)) as (_ & image & He & _ & Hw & _).
  exists image. split; [exact He | exact Hw].
Defined.

Definition black : VideoFrame := mkFrame (DecodedBuffer (mkI420 (Some [0]) (Some [1]) (Some [2]) 1)) 1 1 0 0 0.

Lemma encoder_refuses_witness :
  is_native (video_frame_buffer black) = false /\
  OnFrame (mkReceiver "front"%string (Some 4%nat)) black =
    Done [YuvCallback 4 "front"%string (Some [0]) (Some [1]) (Some [2]) 1 1].
Proof.
  split; [reflexivity|].
  exact (proj2 (proj2 (proj2 (encoder_refuses (start_codes 0) (fun b => b mod 32) black 3%nat
    (mkReceiver "front"%string (Some 4%nat)) 4%nat (mkI420 (Some [0]) (Some [1]) (Some [2]) 1)))) eq_refl eq_refl).
Defined.
