(* ===== verification/Reader.v ===== *)
(** * The test programs' readers

    Models [test/reader.{h,cpp}]: the readers that feed files to the embedding client
    ([test_pusher.cpp] hands what [H264Reader] delivers to [RtcClient::inputFrame]).
    A file is its bytes and the position of the stream; [fopen] and [malloc] may fail.
    [H264Reader] cuts a stream of NAL units at the start codes 0 0 1 and 0 0 0 1. *)

From stdpp Require Import base strings list.
From Stdlib Require Import ZArith Lia.
From S2P Require Import Prelude MediaController VideoPipeline.

#[local] Open Scope list_scope.

(** ** The base class *)

Definition MAX_BUFFER_SIZE : Z := 1024 * 1024.

(** [rd_fp]: the open file's bytes and position.  [rd_buf]: whether [m_buf] is allocated. *)
Record Reader : Type := mkReader {
  rd_path : string;
  rd_cb : bool;
  rd_thread : bool;
  rd_bStart : bool;
  rd_fp : option (list Z * nat);
  rd_buf : bool
}.
Definition new_reader (path : string) : Reader := mkReader path false false false None false.

Inductive reader_effect : Type :=
| RThread   (* a thread that runs [RunLoop] *)
| RJoin
| RClose
| RFree
| RData (data : list Z)   (* [m_cb] *)
| RSleep (ms : Z).

Abbreviation reader_handler := (M Reader reader_effect).

Definition rd_set_fp (v : option (list Z * nat)) (r : Reader) : Reader :=
  mkReader (rd_path r) (rd_cb r) (rd_thread r) (rd_bStart r) v (rd_buf r).
Definition rd_set_buf (v : bool) (r : Reader) : Reader :=
  mkReader (rd_path r) (rd_cb r) (rd_thread r) (rd_bStart r) (rd_fp r) v.
Definition rd_set_thread (v : bool) (r : Reader) : Reader :=
  mkReader (rd_path r) (rd_cb r) v (rd_bStart r) (rd_fp r) (rd_buf r).
Definition rd_set_bStart (v : bool) (r : Reader) : Reader :=
  mkReader (rd_path r) (rd_cb r) (rd_thread r) v (rd_fp r) (rd_buf r).

(** [fopen]: the file's bytes, if it could be opened; [malloc]: whether it succeeds. *)
Definition rd_Start (fopen : option (list Z)) (malloc : bool) : reader_handler bool :=
  r ← get;
  if rd_bStart r then mret true
  else
    _ ← modify (rd_set_bStart true);
    if decide (rd_path r = ""%string) then mret true
    else
      _ ← modify (rd_set_fp ((fun bytes => (bytes, 0%nat)) <$> fopen));
      match fopen with
      | None => mret false
      | Some _ =>
          _ ← modify (rd_set_buf malloc);
          if negb malloc then mret false
          else
            _ ← modify (rd_set_thread true);
            _ ← emit RThread;
            mret true
      end.

(** [m_thread] stays set; [join] leaves it not joinable. *)
Definition rd_Stop : reader_handler unit :=
  _ ← modify (rd_set_bStart false);
  r ← get;
  _ ← (if rd_thread r then _ ← emit RJoin; modify (rd_set_thread false) else skip);
  _ ← (if rd_fp r is Some _ then _ ← emit RClose; modify (rd_set_fp None) else skip);
  if rd_buf r then _ ← emit RFree; modify (rd_set_buf false) else skip.

Definition SetDataCallback (cb : bool) : reader_handler unit :=
  modify (fun r => mkReader (rd_path r) cb (rd_thread r) (rd_bStart r) (rd_fp r) (rd_buf r)).

(** ** The H.264 reader *)

Definition start_code_4_bytes : list Z := [0; 0; 0; 1].
Definition start_code_3_bytes : list Z := [0; 0; 1].

Record H264Reader : Type := mkH264 {
  h_reader : Reader;
  h_fps : Z;
  h_sps : list Z;
  h_pps : list Z;
  h_lastFrameMillis : Z
}.
Definition new_h264 (path : string) (fps : Z) : H264Reader := mkH264 (new_reader path) fps [] [] 0.

(** What the loop of [ReadOneNalu] changes: the position, [m_sps] and [m_pps]. *)
Record nalu : Type := mkNalu { n_pos : nat; n_sps : list Z; n_pps : list Z }.

(** The two tests on the last bytes of [m_buf] up to [index], which is [rbuf], last
    byte first: the start code and [std::string(m_buf, index - 3)] or [index - 2]. *)
Definition found_unit (rbuf : list Z) : option (list Z * list Z) :=
  if (4 <? length rbuf)%nat && bool_decide (take 4 rbuf = [1; 0; 0; 0]) then
    Some (start_code_4_bytes, rev (drop 4 rbuf))
  else if (4 <? length rbuf)%nat && bool_decide (take 3 rbuf = [1; 0; 0]) then
    Some (start_code_3_bytes, rev (drop 3 rbuf))
  else None.

(** [m_buf[0] & 0x1F]. *)
Definition unit_type (unit : list Z) : Z := Z.land (hd 0 unit) 31.

(** The [switch]: [inl data] when it stops the loop, otherwise the state. *)
Definition take_unit (code unit : list Z) (s : nalu) : list Z + nalu :=
  let type := unit_type unit in
  if type =? 1 then inl (code ++ unit)
  else if type =? 5 then inl (n_sps s ++ n_pps s ++ code ++ unit)
  else if type =? 7 then inr (mkNalu (n_pos s) (code ++ unit) (n_pps s))
  else if type =? 8 then inr (mkNalu (n_pos s) (n_sps s) (code ++ unit))
  else inr s.

(** The loop: [m_buf] up to [index], and the state.  The data is empty when the unit
    does not fit the buffer.  [None]: not ended within [fuel] rounds. *)
Fixpoint read_loop (file : list Z) (fuel : nat) (rbuf : list Z) (s : nalu) : option (list Z * nalu) :=
  match fuel with
  | O => None
  | S fuel =>
      match file !! n_pos s with
      | None => read_loop file fuel rbuf (mkNalu 0 (n_sps s) (n_pps s))
      | Some ch =>
          let s := mkNalu (S (n_pos s)) (n_sps s) (n_pps s) in
          if MAX_BUFFER_SIZE - 1 <=? Z.of_nat (length rbuf) then Some ([], s)
          else
            match found_unit (ch :: rbuf) with
            | Some (code, unit) =>
                match take_unit code unit s with
                | inl data => Some (data, s)
                | inr s => read_loop file fuel [] s
                end
            | None => read_loop file fuel (ch :: rbuf) s
            end
      end
  end.

Abbreviation h264_handler := (M H264Reader reader_effect).

(** [None]: not ended within [fuel] rounds. *)
Definition ReadOneNalu (fuel : nat) : h264_handler (option unit) :=
  h ← get;
  fp ← deref "m_fp" (rd_fp (h_reader h));
  match read_loop (fst fp) fuel [] (mkNalu (snd fp) (h_sps h) (h_pps h)) with
  | None => mret None
  | Some (data, s) =>
      _ ← modify (fun h => mkH264 (rd_set_fp (Some (fst fp, n_pos s)) (h_reader h)) (h_fps h) (n_sps s) (n_pps s)
            (h_lastFrameMillis h));
      _ ← (if rd_cb (h_reader h) && negb (bool_decide (data = [])) then emit (RData data) else skip);
      mret (Some tt)
  end.

(** A round of [RunLoop]: [currentTime], and the clock at its end; [m_fps] is a
    [uint32_t]. *)
Definition h264_round (fuel : nat) (currentTime later : Z) : h264_handler (option unit) :=
  h ← get;
  let interval := 1000 / h_fps h in
  r ← (if (h_fps h =? 0) && negb (h_lastFrameMillis h =? 0) then throw (Thrown "division by zero")
       else if (h_lastFrameMillis h =? 0) || (interval <=? currentTime - h_lastFrameMillis h) then
         r ← ReadOneNalu fuel;
         match r with
         | None => mret None
         | Some _ => _ ← modify (fun h => mkH264 (h_reader h) (h_fps h) (h_sps h) (h_pps h) currentTime); mret (Some tt)
         end
       else mret (Some tt));
  match r with
  | None => mret None
  | Some _ =>
      if h_fps h =? 0 then throw (Thrown "division by zero")
      else
        let deltaTimeMillis := later - currentTime in
        _ ← (if deltaTimeMillis <? interval then emit (RSleep (interval - deltaTimeMillis)) else skip);
        mret (Some tt)
  end.

(** ** Raw readers *)

(** A round of [PCMReader::RunLoop] and [YUVReader::RunLoop]: [fread] sets the end of
    file when it gets fewer bytes than it asked for.  [int] converted to [size_t]. *)
Definition raw_round (frameSize interval : Z) : reader_handler unit :=
  r ← get;
  fp ← deref "m_fp" (rd_fp r);
  let asked := frameSize mod 18446744073709551616 in
  let left := drop (snd fp) (fst fp) in
  let got := if Z.of_nat (length left) <? asked then left else take (Z.to_nat asked) left in
  if MAX_BUFFER_SIZE <? Z.of_nat (length got) then throw (Thrown "write past the end of m_buf")
  else if Z.of_nat (length got) <? asked then modify (rd_set_fp (Some (fst fp, 0%nat)))
  else
    _ ← modify (rd_set_fp (Some (fst fp, (snd fp + length got)%nat)));
    _ ← (if rd_cb r then emit (RData got) else skip);
    emit (RSleep interval).

Definition pcm_round (frameInterval frameSize : Z) : reader_handler unit := raw_round frameSize frameInterval.
Definition yuv_round (frameRate width height : Z) : reader_handler unit :=
  if frameRate =? 0 then throw (Thrown "division by zero")
  else raw_round (Z.quot (wrap32 (width * height * 3)) 2) (Z.quot 1000 frameRate).
