(* ===== verification/ReaderFacts.v ===== *)
(** * The test programs' readers: theorems

    The specification of [ReadOneNalu] on a file of H.264 units, [next_frame], and the
    theorem that it is implemented; what the first call and files without slices do;
    how the encoder marks what is delivered; the raw readers. *)

From stdpp Require Import base strings list.
From Stdlib Require Import ZArith Lia.
From S2P Require Import Prelude MediaController VideoPipeline Reader.

#[local] Open Scope list_scope.

(** ** Streams of units *)

(** A file as the units it holds, each with the start code before it. *)
Abbreviation block := (list Z * list Z)%type.
Definition block_bytes (b : block) : list Z := fst b ++ snd b.
Definition file_of (blocks : list block) : list Z := concat (map block_bytes blocks).

Definition is_code (code : list Z) : Prop := code = start_code_4_bytes \/ code = start_code_3_bytes.

(** A unit as H.264 wants it: no start code inside, no zero at its end; and it fits
    the buffer with the start code after it. *)
Definition no_code (l : list Z) : Prop := forall a b, l <> a ++ start_code_3_bytes ++ b.
Definition block_ok (b : block) : Prop :=
  is_code (fst b) /\ (1 < length (snd b))%nat /\ no_code (snd b) /\ last (snd b) <> Some 0 /\
  Z.of_nat (length (snd b)) + 8 < MAX_BUFFER_SIZE.

(** The block after block [k]: the file is read in a circle. *)
Definition next_block (blocks : list block) (k : nat) : nat :=
  if (S k <? length blocks)%nat then S k else 0%nat.

(** The reader at the start of unit [k]: the units' parameter sets and the block. *)
Record at_block : Type := mkAt { at_k : nat; at_sps : list Z; at_pps : list Z }.

Definition code_of (blocks : list block) (k : nat) : list Z :=
  match blocks !! k with Some b => fst b | None => [] end.
Definition block_pos (blocks : list block) (k : nat) : nat :=
  (length (file_of (take k blocks)) + length (code_of blocks k))%nat.
Definition concrete (blocks : list block) (a : at_block) : nalu :=
  mkNalu (block_pos blocks (at_k a)) (at_sps a) (at_pps a).

(** The specification of [ReadOneNalu], block by block: the data it delivers is the
    next slice, with the parameter sets in front of an IDR slice.  The code put before
    a unit is the one that follows it. *)
Definition take_block (blocks : list block) (a : at_block) (unit : list Z) : list Z + at_block :=
  let k := next_block blocks (at_k a) in
  match take_unit (code_of blocks k) unit (mkNalu (block_pos blocks k) (at_sps a) (at_pps a)) with
  | inl data => inl data
  | inr s => inr (mkAt k (n_sps s) (n_pps s))
  end.
Fixpoint next_frame (blocks : list block) (fuel : nat) (a : at_block) : option (list Z * at_block) :=
  match fuel with
  | O => None
  | S fuel =>
      match blocks !! at_k a with
      | None => None
      | Some (_, unit) =>
          match take_block blocks a unit with
          | inl data => Some (data, mkAt (next_block blocks (at_k a)) (at_sps a) (at_pps a))
          | inr a => next_frame blocks fuel a
          end
      end
  end.

Definition is_slice (unit : list Z) : bool := (unit_type unit =? 1) || (unit_type unit =? 5).

(** ** Reading bytes *)

(** [reads file pos l pos']: from [pos] the next bytes are [l], then [pos']. *)
Inductive reads (file : list Z) : nat -> list Z -> nat -> Prop :=
| reads_nil pos : reads file pos [] pos
| reads_byte pos b l pos' : file !! pos = Some b -> reads file (S pos) l pos' -> reads file pos (b :: l) pos'
| reads_wrap pos b l pos' : file !! pos = None -> reads file 0 (b :: l) pos' -> reads file pos (b :: l) pos'.

Lemma reads_app file pos l1 pos1 l2 pos2 :
  reads file pos l1 pos1 -> reads file pos1 l2 pos2 -> reads file pos (l1 ++ l2) pos2.
Proof. induction 1; intros H2; [done | by eapply reads_byte; auto | by eapply reads_wrap; auto]. Qed.

Lemma reads_inside pre l post : reads (pre ++ l ++ post) (length pre) l (length pre + length l).
Proof.
  revert pre. induction l as [|b l IH]; intros pre; simpl; [rewrite Nat.add_0_r; apply reads_nil|].
  eapply reads_byte; [by rewrite lookup_app_r, Nat.sub_diag by lia|].
  specialize (IH (pre ++ [b])). rewrite length_app in IH. simpl in IH.
  rewrite <- !app_assoc in IH. simpl in IH.
  by replace (length pre + S (length l))%nat with (length pre + 1 + length l)%nat by lia;
    replace (S (length pre)) with (length pre + 1)%nat by lia.
Qed.

(** No unit is found while [l] is read. *)
Definition quiet (rbuf l : list Z) : Prop :=
  forall p q, l = p ++ q -> p <> [] -> found_unit (rev p ++ rbuf) = None.

Lemma loop_reads file pos l pos' : reads file pos l pos' -> forall rbuf sps pps, quiet rbuf l ->
  Z.of_nat (length rbuf) + Z.of_nat (length l) <= MAX_BUFFER_SIZE - 1 ->
  exists n, forall fuel, read_loop file (n + fuel) rbuf (mkNalu pos sps pps) =
    read_loop file fuel (rev l ++ rbuf) (mkNalu pos' sps pps).
Proof.
  induction 1 as [pos|pos b l pos' Hb Hr IH|pos b l pos' Hn Hr IH]; intros rbuf sps pps Hq Hlen; [by exists 0%nat|..].
  - destruct (IH (b :: rbuf) sps pps) as [n Hn].
    + intros p q -> Hp. specialize (Hq (b :: p) q eq_refl ltac:(done)). simpl in Hq. by rewrite <- app_assoc in Hq.
    + simpl in *. lia.
    + exists (S n). intros fuel. simpl. rewrite Hb.
      assert ((MAX_BUFFER_SIZE - 1 <=? Z.of_nat (length rbuf)) = false) as -> by (apply Z.leb_gt; simpl in Hlen; lia).
      rewrite ((Hq [b] l eq_refl ltac:(done)) : found_unit (b :: rbuf) = None). by rewrite Hn, <- app_assoc.
  - destruct (IH rbuf sps pps Hq Hlen) as [n Hn']. exists (S n). intros fuel. simpl. by rewrite Hn.
Qed.

Lemma read_loop_more file fuel rbuf s r : read_loop file fuel rbuf s = Some r ->
  forall fuel', (fuel <= fuel')%nat -> read_loop file fuel' rbuf s = Some r.
Proof.
  revert rbuf s. induction fuel as [|fuel IH]; [done|]. intros rbuf s Hr [|fuel'] Hf; [lia|].
  apply le_S_n in Hf. revert Hr. simpl. destruct (file !! n_pos s) as [ch|]; [|by intros; apply IH].
  destruct (_ <=? _); [done|]. destruct (found_unit _) as [[code unit]|]; [|by intros; apply IH].
  destruct (take_unit code unit _); [done | by intros; apply IH].
Qed.

Lemma reads_app_inv file l1 l2 pos pos' : reads file pos (l1 ++ l2) pos' ->
  exists mid, reads file pos l1 mid /\ reads file mid l2 pos'.
Proof.
  remember (l1 ++ l2) as l eqn:Hl. intros H. revert l1 Hl.
  induction H as [pos|pos b l pos' Hb Hr IH|pos b l pos' Hn Hr IH]; intros [|x l1] Hl; simpl in Hl; subst;
    try discriminate; try (eexists; split; [apply reads_nil|]).
  - apply reads_nil.
  - by eapply reads_byte.
  - injection Hl as <- ->. destruct (IH l1 eq_refl) as (mid & H1 & H2).
    exists mid. split; [by eapply reads_byte | done].
  - by eapply reads_wrap.
  - injection Hl as <- ->. destruct (IH (b :: l1) eq_refl) as (mid & H1 & H2).
    exists mid. split; [by eapply reads_wrap | done].
Qed.

(** The byte that completes a start code. *)
Lemma loop_found file pos b l pos' code unit rbuf sps pps : reads file pos (b :: l) pos' -> l = [] ->
  Z.of_nat (length rbuf) < MAX_BUFFER_SIZE - 1 -> found_unit (b :: rbuf) = Some (code, unit) ->
  exists n, forall fuel, read_loop file (S n + fuel) rbuf (mkNalu pos sps pps) =
    match take_unit code unit (mkNalu pos' sps pps) with
    | inl data => Some (data, mkNalu pos' sps pps)
    | inr s => read_loop file fuel [] s
    end.
Proof.
  remember (b :: l) as bs eqn:Hbs. intros H -> Hlen Hf. revert Hbs.
  induction H as [|pos b' l pos' Hb Hr IH|pos b' l pos' Hn Hr IH]; intros Hbs; [done|..]; injection Hbs as -> ->.
  - exists 0%nat. intros fuel. simpl. rewrite Hb.
    assert ((MAX_BUFFER_SIZE - 1 <=? Z.of_nat (length rbuf)) = false) as -> by (apply Z.leb_gt; lia).
    rewrite Hf. by inversion Hr; subst.
  - destruct (IH eq_refl) as [n IHn]. exists (S n). intros fuel.
    change (S (S n) + fuel)%nat with (S (S n + fuel)). cbn [read_loop n_pos]. rewrite Hn. apply IHn.
Qed.

Lemma found_code rbuf : found_unit rbuf <> None ->
  (4 < length rbuf)%nat /\ exists rest, rbuf = rev start_code_3_bytes ++ rest.
Proof.
  unfold found_unit. destruct (4 <? length rbuf)%nat eqn:Hl; [|done]. apply Nat.ltb_lt in Hl. cbn [andb].
  destruct (bool_decide (take 4 rbuf = [1; 0; 0; 0])) eqn:H4; [intros _|].
  - apply bool_decide_eq_true in H4. split; [done|]. destruct rbuf as [|? [|? [|? [|? ?]]]]; try done.
    injection H4 as -> -> -> ->. by eexists.
  - destruct (bool_decide (take 3 rbuf = [1; 0; 0])) eqn:H3; [intros _|done].
    apply bool_decide_eq_true in H3. split; [done|]. destruct rbuf as [|? [|? [|? ?]]]; try done.
    injection H3 as -> -> ->. by eexists.
Qed.

Lemma found_end code l : is_code code -> (1 < length l)%nat -> last l <> Some 0 ->
  found_unit (rev (l ++ code)) = Some (code, l).
Proof.
  intros Hc Hl Hlast. destruct l as [|x l _] using rev_ind; [simpl in Hl; lia|].
  rewrite last_snoc in Hlast. rewrite length_app in Hl. simpl in Hl.
  rewrite !rev_app_distr. unfold found_unit.
  assert (Hlen : (4 <? length (rev code ++ rev [x] ++ rev l))%nat = true).
  { apply Nat.ltb_lt. rewrite !length_app, !length_rev. destruct Hc as [-> | ->]; simpl; lia. }
  rewrite Hlen. destruct Hc as [-> | ->]; simpl; rewrite ?rev_involutive; [done|].
  by rewrite bool_decide_false by congruence.
Qed.

Lemma is_code_end code : is_code code -> exists l, code = l ++ [1] /\ (length code <= 4)%nat /\
  Forall (fun b => b = 0) l.
Proof. intros [-> | ->]; [exists [0; 0; 0] | exists [0; 0]]; repeat split; simpl; auto; lia. Qed.

(** Only the start code after a unit ends it, also when the unit is the file's first
    and its own start code is still in the buffer. *)
Lemma quiet_block pre u zeros :
  pre = [] \/ is_code pre -> no_code u -> Forall (fun b => b = 0) zeros -> quiet [] (pre ++ u ++ zeros).
Proof.
  intros Hpre Hu Hz p q Heq Hp. rewrite app_nil_r. destruct (found_unit (rev p)) eqn:Hf; [exfalso|done].
  destruct (found_code (rev p)) as (Hlen & rest & Hrest); [by rewrite Hf|]. rewrite length_rev in Hlen.
  apply (f_equal (@rev Z)) in Hrest. rewrite rev_involutive, rev_app_distr, rev_involutive in Hrest.
  assert (Hprelen : (length pre <= 4)%nat).
  { destruct Hpre as [-> | Hc]; [simpl; lia|]. by destruct (is_code_end _ Hc) as (? & _ & ? & _). }
  assert (Hin : forall k k', p = pre ++ k -> u = k ++ k' -> False).
  { intros k k' Hk Huk. rewrite Hrest in Hk. symmetry in Hk.
    apply app_eq_inv in Hk as [(m & Hm & Hm2)|(m & Hm & Hm2)].
    - assert (m = [] \/ k = [] \/ last m = Some 0) as [-> | [-> | Hlast]].
      { destruct m as [|a [|b [|c m]]]; [by left|injection Hm2 as <- _; by right; right|
          injection Hm2 as <- <- _; by right; right|].
        injection Hm2 as _ _ _ Hm2. symmetry in Hm2. apply app_nil in Hm2 as [_ ->]. by right; left. }
      + simpl in Hm2. subst k. apply (Hu [] k'). by rewrite Huk.
      + rewrite app_nil_r in Hm2. subst m. rewrite <- Hrest in Hm. subst pre. lia.
      + destruct Hpre as [-> | Hc]; [by symmetry in Hm; apply app_nil in Hm as [_ ->]|].
        destruct (is_code_end _ Hc) as (l & Hcl & _). rewrite Hcl in Hm. apply (f_equal last) in Hm.
        rewrite last_snoc, last_app, Hlast in Hm. discriminate.
    - apply (Hu m k'). rewrite Huk, Hm2. by rewrite <- app_assoc. }
  apply app_eq_inv in Heq as [(k & Hk & _)|(k & Hk & Heq)].
  - apply (f_equal length) in Hk. rewrite length_app in Hk. lia.
  - apply app_eq_inv in Heq as [(k' & Hk' & _)|(k' & Hk' & Heq)]; [by eapply Hin|].
    destruct k' as [|z k' _] using rev_ind; [apply (Hin k []); [done | by rewrite app_nil_r in *]|].
    rewrite Hk, Hk', !app_assoc in Hrest. apply (f_equal last) in Hrest.
    change start_code_3_bytes with ([0; 0] ++ [1]) in Hrest. rewrite (app_assoc (rev rest)) in Hrest.
    rewrite !last_snoc in Hrest. rewrite Heq in Hz. injection Hrest as ->.
    apply Forall_app in Hz as [Hz _]. apply Forall_app in Hz as [_ Hz]. by apply Forall_inv in Hz.
Qed.

Lemma loop_block file pos pre u code pos' sps pps :
  pre = [] \/ is_code pre -> block_ok (code, u) -> reads file pos (pre ++ u ++ code) pos' ->
  exists n, forall fuel, read_loop file (S n + fuel) [] (mkNalu pos sps pps) =
    match take_unit code (pre ++ u) (mkNalu pos' sps pps) with
    | inl data => Some (data, mkNalu pos' sps pps)
    | inr s => read_loop file fuel [] s
    end.
Proof.
  intros Hpre (Hc & Hl & Hno & Hlast & Hfit) Hr. simpl in Hc, Hl, Hno, Hlast, Hfit.
  destruct (is_code_end _ Hc) as (zeros & Hcode & Hclen & Hz).
  assert (Hprelen : (length pre <= 4)%nat).
  { destruct Hpre as [-> | Hp]; [simpl; lia|]. by destruct (is_code_end _ Hp) as (? & _ & ? & _). }
  assert (Hzlen : (length zeros < 4)%nat).
  { apply (f_equal length) in Hcode. rewrite length_app in Hcode. simpl in Hcode. lia. }
  rewrite Hcode, !app_assoc, <- (app_assoc pre) in Hr.
  apply reads_app_inv in Hr as (mid & H1 & H2).
  destruct (loop_reads _ _ _ _ H1 [] sps pps) as [n1 Hn1]; [by apply quiet_block|..].
  { rewrite !length_app. simpl. lia. }
  destruct (loop_found _ _ _ _ _ code (pre ++ u) (rev (pre ++ u ++ zeros) ++ []) sps pps H2 eq_refl) as [n2 Hn2].
  { rewrite app_nil_r, length_rev, !length_app. lia. }
  { rewrite app_nil_r.
    replace (1 :: rev (pre ++ u ++ zeros)) with (rev ((pre ++ u) ++ code)).
    - apply found_end; [done | rewrite length_app; lia|]. rewrite last_app.
      by destruct (last u) eqn:Hu; [|apply last_None in Hu; subst u; simpl in Hl; lia].
    - rewrite Hcode, (app_assoc _ zeros), <- (app_assoc pre), rev_app_distr. done. }
  exists (n1 + n2)%nat. intros fuel.
  replace (S (n1 + n2) + fuel)%nat with (n1 + (S n2 + fuel))%nat by lia. by rewrite Hn1, Hn2.
Qed.

(** ** Reading blocks *)

Lemma file_of_app l1 l2 : file_of (l1 ++ l2) = file_of l1 ++ file_of l2.
Proof. unfold file_of. by rewrite map_app, concat_app. Qed.

Lemma file_split blocks k b : blocks !! k = Some b ->
  file_of blocks = file_of (take k blocks) ++ block_bytes b ++ file_of (drop (S k) blocks).
Proof. intros Hb. rewrite <- (take_drop_middle _ _ _ Hb) at 1. by rewrite file_of_app. Qed.

Lemma block_pos_lookup blocks k b : blocks !! k = Some b ->
  block_pos blocks k = length (file_of (take k blocks) ++ fst b).
Proof. intros Hb. unfold block_pos, code_of. by rewrite Hb, length_app. Qed.

Lemma next_block_lookup blocks k b : blocks !! k = Some b -> exists b', blocks !! next_block blocks k = Some b'.
Proof.
  intros Hb%lookup_lt_Some. apply lookup_lt_is_Some_2. unfold next_block.
  destruct (S k <? length blocks)%nat eqn:H; [by apply Nat.ltb_lt | lia].
Qed.

(** After a unit comes the start code of the next block, at the file's end the first. *)
Lemma reads_block blocks k b : blocks !! k = Some b -> Forall block_ok blocks ->
  reads (file_of blocks) (block_pos blocks k) (snd b ++ code_of blocks (next_block blocks k))
    (block_pos blocks (next_block blocks k)).
Proof.
  intros Hb Hok. unfold next_block. destruct (S k <? length blocks)%nat eqn:H.
  - apply Nat.ltb_lt in H. destruct (lookup_lt_is_Some_2 _ _ H) as [b' Hb'].
    assert (Hfile : file_of blocks = (file_of (take k blocks) ++ fst b) ++ (snd b ++ fst b') ++ snd b' ++
      file_of (drop (S (S k)) blocks)).
    { rewrite (file_split _ _ _ Hb), (drop_S _ _ _ Hb'). unfold file_of, block_bytes. simpl. by rewrite <- !app_assoc. }
    assert (Hpos : block_pos blocks (S k) = (length (file_of (take k blocks) ++ fst b) + length (snd b ++ fst b'))%nat).
    { rewrite (block_pos_lookup _ _ _ Hb'), (take_S_r _ _ _ Hb), file_of_app, !length_app.
      unfold file_of at 2, block_bytes. simpl. rewrite app_nil_r, length_app. lia. }
    unfold code_of. rewrite Hb', Hpos, (block_pos_lookup _ _ _ Hb), Hfile. apply reads_inside.
  - apply Nat.ltb_ge in H. pose proof (lookup_lt_Some _ _ _ Hb) as Hk.
    destruct (lookup_lt_is_Some_2 blocks 0 ltac:(lia)) as [b0 Hb0].
    apply reads_app with (length (file_of blocks)).
    + rewrite (block_pos_lookup _ _ _ Hb), (file_split _ _ _ Hb), drop_ge by lia. unfold block_bytes.
      change (file_of []) with (@nil Z). rewrite app_nil_r, app_assoc.
      pose proof (reads_inside (file_of (take k blocks) ++ fst b) (snd b) []) as Hr. rewrite !app_nil_r in Hr.
      by rewrite (length_app (file_of (take k blocks) ++ fst b)), (length_app (file_of (take k blocks))) in *.
    + unfold code_of. rewrite Hb0, (block_pos_lookup _ _ _ Hb0). change (file_of (take 0 blocks)) with (@nil Z). simpl.
      pose proof (proj1 (Forall_lookup _ _) Hok _ _ Hb0) as (Hc & _).
      destruct (fst b0) as [|z c] eqn:Hc0; [by destruct Hc|].
      apply reads_wrap; [by apply lookup_ge_None_2|]. rewrite (file_split _ _ _ Hb0) at 1.
      change (file_of (take 0 blocks)) with (@nil Z). unfold block_bytes. rewrite Hc0, <- app_assoc.
      apply (reads_inside [] (z :: c)).
Qed.

Lemma loop_at_block blocks a b : Forall block_ok blocks -> blocks !! at_k a = Some b ->
  exists n, forall fuel, read_loop (file_of blocks) (S n + fuel) [] (concrete blocks a) =
    match take_block blocks a (snd b) with
    | inl data => Some (data, concrete blocks (mkAt (next_block blocks (at_k a)) (at_sps a) (at_pps a)))
    | inr a' => read_loop (file_of blocks) fuel [] (concrete blocks a')
    end.
Proof.
  intros Hok Hb. destruct (next_block_lookup _ _ _ Hb) as [b' Hb'].
  pose proof (proj1 (Forall_lookup _ _) Hok _ _ Hb) as (_ & Hu).
  pose proof (proj1 (Forall_lookup _ _) Hok _ _ Hb') as (Hc & _).
  assert (Hbk : block_ok (code_of blocks (next_block blocks (at_k a)), snd b)).
  { split; [|done]. unfold code_of. by rewrite Hb'. }
  destruct (loop_block _ _ [] _ _ _ (at_sps a) (at_pps a) (or_introl eq_refl) Hbk (reads_block _ _ _ Hb Hok)) as [n Hn].
  exists n. intros fuel. unfold concrete at 1. rewrite Hn. unfold take_block, take_unit. simpl.
  by repeat case_match; simplify_eq.
Qed.

Lemma loop_next_frame blocks fuel a r : Forall block_ok blocks -> next_frame blocks fuel a = Some r ->
  exists n, forall more, read_loop (file_of blocks) (n + more) [] (concrete blocks a) = Some (fst r, concrete blocks (snd r)).
Proof.
  intros Hok. revert a. induction fuel as [|fuel IH]; [done|]. intros a. simpl.
  destruct (blocks !! at_k a) as [[c u]|] eqn:Hb; [|done].
  destruct (loop_at_block _ _ _ Hok Hb) as [n Hn]. cbn [snd] in Hn.
  destruct (take_block blocks a u) as [data|a'].
  - intros [= <-]. exists (S n). intros more. apply Hn.
  - intros Hr. destruct (IH a' Hr) as [n' Hn']. exists (S n + n')%nat. intros more.
    by rewrite <- Nat.add_assoc, Hn, Hn'.
Qed.

(** Going round the file. *)
Lemma iter_next blocks d k : (k + d < length blocks)%nat -> Nat.iter d (next_block blocks) k = (k + d)%nat.
Proof.
  induction d as [|d IH]; intros Hk; simpl; [lia|]. rewrite IH by lia. unfold next_block.
  rewrite (proj2 (Nat.ltb_lt _ _)); lia.
Qed.

Lemma reach_block blocks j k : (j < length blocks)%nat -> (k < length blocks)%nat ->
  exists d, (d < length blocks)%nat /\ Nat.iter d (next_block blocks) k = j.
Proof.
  intros Hj Hk. destruct (decide (k <= j)%nat) as [Hle|Hgt].
  - exists (j - k)%nat. split; [lia|]. rewrite iter_next; lia.
  - exists (j + S (length blocks - 1 - k))%nat. split; [lia|].
    rewrite Nat.iter_add. simpl. rewrite (iter_next _ (length blocks - 1 - k) k) by lia.
    assert (next_block blocks (k + (length blocks - 1 - k)) = 0%nat) as ->.
    { unfold next_block. by rewrite (proj2 (Nat.ltb_ge _ _)) by lia. }
    rewrite iter_next; lia.
Qed.

Lemma take_block_cases blocks a u :
  (is_slice u = true /\ take_block blocks a u =
     inl ((if unit_type u =? 5 then at_sps a ++ at_pps a else []) ++ code_of blocks (next_block blocks (at_k a)) ++ u)) \/
  (is_slice u = false /\ exists sps pps, take_block blocks a u = inr (mkAt (next_block blocks (at_k a)) sps pps)).
Proof.
  unfold take_block, take_unit, is_slice. simpl.
  destruct (unit_type u =? 1) eqn:H1.
  { left. apply Z.eqb_eq in H1. by rewrite H1. }
  destruct (unit_type u =? 5); [left; by rewrite <- app_assoc|right]. split; [done|].
  destruct (unit_type u =? 7); [by eexists _, _|]. destruct (unit_type u =? 8); by eexists _, _.
Qed.

Lemma next_frame_reaches blocks d a b :
  blocks !! Nat.iter d (next_block blocks) (at_k a) = Some b -> is_slice (snd b) = true ->
  is_Some (blocks !! at_k a) -> is_Some (next_frame blocks (S d) a).
Proof.
  revert a. induction d as [|d IH]; intros a Hb Hs [[c u] Ha]; cbn [next_frame]; rewrite Ha.
  - simpl in Hb. rewrite Ha in Hb. injection Hb as <-.
    destruct (take_block_cases blocks a u) as [(_ & ->)|(Hn & _)]; [done | by simpl in Hs; congruence].
  - destruct (take_block_cases blocks a u) as [(_ & ->)|(_ & sps & pps & ->)]; [done|].
    destruct (next_block_lookup _ _ _ Ha) as [b' Hb'].
    apply IH; [|done|by exists b']. simpl. rewrite <- Nat.iter_succ_r. exact Hb.
Qed.

Lemma next_frame_more blocks fuel a r : next_frame blocks fuel a = Some r ->
  forall fuel', (fuel <= fuel')%nat -> next_frame blocks fuel' a = Some r.
Proof.
  revert a. induction fuel as [|fuel IH]; [done|]. intros a Hr [|fuel'] Hf; [lia|]. apply le_S_n in Hf. revert Hr. simpl.
  destruct (blocks !! at_k a) as [[c u]|]; [|done]. destruct (take_block blocks a u); [done|].
  intros. by apply IH.
Qed.

Definition has_slice (blocks : list block) : Prop := exists b, b ∈ blocks /\ is_slice (snd b) = true.

Lemma next_frame_exists blocks a : (at_k a < length blocks)%nat -> has_slice blocks ->
  is_Some (next_frame blocks (length blocks) a).
Proof.
  intros Ha (b & Hb & Hs). apply list_elem_of_lookup in Hb as [j Hj].
  destruct (reach_block blocks j (at_k a) (lookup_lt_Some _ _ _ Hj) Ha) as (d & Hd & Hit).
  destruct (next_frame_reaches blocks d a b) as [r Hr]; [by rewrite Hit | done | by apply lookup_lt_is_Some_2|].
  exists r. by eapply next_frame_more.
Qed.

(** What is delivered: a slice, behind the parameter sets when it is an IDR slice, and
    the start code that follows it in the file. *)
Lemma next_frame_data blocks fuel a data a' : next_frame blocks fuel a = Some (data, a') ->
  exists k b sps pps, blocks !! k = Some b /\ is_slice (snd b) = true /\
    a' = mkAt (next_block blocks k) sps pps /\
    data = (if unit_type (snd b) =? 5 then sps ++ pps else []) ++ code_of blocks (next_block blocks k) ++ snd b.
Proof.
  revert a. induction fuel as [|fuel IH]; [done|]. intros a. simpl.
  destruct (blocks !! at_k a) as [[c u]|] eqn:Hb; [|done].
  destruct (take_block_cases blocks a u) as [(Hs & ->)|(_ & sps & pps & ->)]; [|apply IH].
  intros [= <- <-]. by exists (at_k a), (c, u), (at_sps a), (at_pps a).
Qed.

(** ** The H.264 reader *)

(** The reader at a block of the file. *)
Definition h264_at (blocks : list block) (a : at_block) (h : H264Reader) : H264Reader :=
  mkH264 (rd_set_fp (Some (file_of blocks, block_pos blocks (at_k a))) (h_reader h)) (h_fps h) (at_sps a) (at_pps a)
    (h_lastFrameMillis h).

Lemma ReadOneNalu_run file pos h fuel :
  rd_fp (h_reader h) = Some (file, pos) ->
  ReadOneNalu fuel h =
    match read_loop file fuel [] (mkNalu pos (h_sps h) (h_pps h)) with
    | None => Done (None, h, [])
    | Some (data, s) =>
        Done (Some tt, mkH264 (rd_set_fp (Some (file, n_pos s)) (h_reader h)) (h_fps h) (n_sps s) (n_pps s)
                (h_lastFrameMillis h),
          if rd_cb (h_reader h) && negb (bool_decide (data = [])) then [RData data] else [])
    end.
Proof.
  intros Hfp. unfold ReadOneNalu. run_M. rewrite Hfp. simpl.
  destruct (read_loop file fuel [] _) as [[data s]|]; [|done]. simpl.
  by destruct (rd_cb (h_reader h) && negb (bool_decide (data = []))).
Qed.

Lemma slice_not_empty pre code u : is_slice u = true -> pre ++ code ++ u <> [].
Proof. intros Hs H. apply app_nil in H as [_ H]. apply app_nil in H as [_ ->]. done. Qed.

Lemma ReadOneNalu_delivers blocks fuel h data a' pos sps pps :
  rd_fp (h_reader h) = Some (file_of blocks, pos) -> h_sps h = sps -> h_pps h = pps -> rd_cb (h_reader h) = true ->
  (exists fuel a, next_frame blocks fuel a = Some (data, a')) ->
  read_loop (file_of blocks) fuel [] (mkNalu pos sps pps) = Some (data, concrete blocks a') ->
  ReadOneNalu fuel h = Done (Some tt, h264_at blocks a' h, [RData data]).
Proof.
  intros Hfp <- <- Hcb (f & a & Hnf) Hr. rewrite (ReadOneNalu_run _ _ _ _ Hfp), Hr, Hcb.
  destruct (next_frame_data _ _ _ _ _ Hnf) as (k & b & ? & ? & _ & Hs & _ & ->).
  rewrite bool_decide_false by by apply slice_not_empty. done.
Qed.

(** C21: [ReadOneNalu] implements the reader of units.  On every file of well-formed
    units with a slice among them, from the start of any unit, it returns, and it has
    called the callback once, with what the specification [next_frame] says: the next
    slice round the file, an IDR slice behind the last parameter sets; it stops at the
    start of the unit after it. *)
Theorem h264_reader_refines blocks a h :
  Forall block_ok blocks -> (at_k a < length blocks)%nat -> has_slice blocks -> rd_cb (h_reader h) = true ->
  exists data a', next_frame blocks (length blocks) a = Some (data, a') /\ (at_k a' < length blocks)%nat /\
    exists n, forall fuel, (n <= fuel)%nat ->
      ReadOneNalu fuel (h264_at blocks a h) = Done (Some tt, h264_at blocks a' h, [RData data]).
Proof.
  intros Hok Ha Hs Hcb. destruct (next_frame_exists _ _ Ha Hs) as [[data a'] Hnf]. exists data, a'.
  split; [done|]. split.
  { destruct (next_frame_data _ _ _ _ _ Hnf) as (k & b & ? & ? & Hk & _ & -> & _).
    destruct (next_block_lookup _ _ _ Hk) as [b' Hb']. by eapply lookup_lt_Some. }
  destruct (loop_next_frame _ _ _ _ Hok Hnf) as [n Hn]. exists n. intros fuel Hf.
  rewrite (ReadOneNalu_delivers blocks fuel (h264_at blocks a h) data a' _ _ _ eq_refl eq_refl eq_refl); [done|done|by eexists _, _|].
  replace fuel with (n + (fuel - n))%nat by lia. apply Hn.
Qed.

(** The first call starts before the file's first start code, so that code stays in
    front of the first unit in the buffer, which then has type 0 and is dropped. *)
Lemma loop_first blocks sps pps b : Forall block_ok blocks -> blocks !! 0%nat = Some b ->
  exists n, forall fuel, read_loop (file_of blocks) (S n + fuel) [] (mkNalu 0 sps pps) =
    read_loop (file_of blocks) fuel [] (concrete blocks (mkAt (next_block blocks 0) sps pps)).
Proof.
  intros Hok Hb. pose proof (proj1 (Forall_lookup _ _) Hok _ _ Hb) as (Hc & Hu).
  destruct (next_block_lookup _ _ _ Hb) as [b' Hb'].
  pose proof (proj1 (Forall_lookup _ _) Hok _ _ Hb') as (Hc' & _).
  assert (Hbk : block_ok (code_of blocks (next_block blocks 0), snd b)).
  { split; [|done]. unfold code_of. by rewrite Hb'. }
  assert (Hr : reads (file_of blocks) 0 (fst b ++ snd b ++ code_of blocks (next_block blocks 0))
                 (block_pos blocks (next_block blocks 0))).
  { apply reads_app with (block_pos blocks 0); [|by apply reads_block].
    rewrite (block_pos_lookup _ _ _ Hb), (file_split _ _ _ Hb). unfold block_bytes.
    rewrite <- app_assoc. apply (reads_inside []). }
  destruct (loop_block _ _ (fst b) _ _ _ sps pps (or_intror Hc) Hbk Hr) as [n Hn]. exists n. intros fuel. rewrite Hn.
  unfold take_unit. replace (unit_type (fst b ++ snd b)) with 0; [done|]. by destruct Hc as [-> | ->].
Qed.

(** C40: the first key frame a fresh reader delivers has no sequence parameter set.  On
    a file that begins as encoders write it (SPS, PPS, IDR slice) the first call drops
    the SPS, whose start code is still in the buffer, and delivers the IDR slice with
    the PPS alone. *)
Theorem first_key_frame_lacks_sps c0 sps c1 pps c2 idr more h :
  let blocks := (c0, sps) :: (c1, pps) :: (c2, idr) :: more in
  Forall block_ok blocks -> unit_type sps = 7 -> unit_type pps = 8 -> unit_type idr = 5 ->
  rd_fp (h_reader h) = Some (file_of blocks, 0%nat) -> h_sps h = [] -> h_pps h = [] -> rd_cb (h_reader h) = true ->
  exists n, forall fuel, (n <= fuel)%nat ->
    ReadOneNalu fuel h =
      Done (Some tt, h264_at blocks (mkAt (next_block blocks 2) [] (c2 ++ pps)) h,
        [RData ((c2 ++ pps) ++ code_of blocks (next_block blocks 2) ++ idr)]).
Proof.
  intros blocks Hok _ Hpps Hidr Hfp Hs Hp Hcb.
  destruct (loop_first blocks [] [] (c0, sps) Hok eq_refl) as [n1 Hn1].
  assert (Hnf : next_frame blocks 2 (mkAt (next_block blocks 0) [] []) =
    Some ((c2 ++ pps) ++ code_of blocks (next_block blocks 2) ++ idr, mkAt (next_block blocks 2) [] (c2 ++ pps))).
  { cbn [next_frame at_k]. unfold take_block, take_unit. simpl. rewrite Hpps. simpl. rewrite Hidr. by simpl. }
  destruct (loop_next_frame _ _ _ _ Hok Hnf) as [n2 Hn2]. exists (S n1 + n2)%nat. intros fuel Hf.
  apply (ReadOneNalu_delivers _ _ _ _ _ _ _ _ Hfp Hs Hp Hcb ltac:(by eexists _, _)).
  replace fuel with (S n1 + (n2 + (fuel - S n1 - n2)))%nat by lia. by rewrite Hn1, Hn2.
Qed.

Lemma read_loop_empty fuel rbuf s : read_loop [] fuel rbuf s = None.
Proof. revert s. by induction fuel; simpl. Qed.

Lemma read_loop_no_slice blocks fuel a : Forall block_ok blocks -> (at_k a < length blocks)%nat ->
  ~ has_slice blocks -> read_loop (file_of blocks) fuel [] (concrete blocks a) = None.
Proof.
  intros Hok Ha Hno. revert a Ha. induction (lt_wf fuel) as [fuel _ IH]. intros a Ha.
  destruct (lookup_lt_is_Some_2 _ _ Ha) as [b Hb]. destruct (loop_at_block _ _ _ Hok Hb) as [n Hn].
  destruct (take_block_cases blocks a (snd b)) as [(Hs & _)|(_ & sps & pps & Htb)].
  { exfalso. apply Hno. exists b. split; [by eapply list_elem_of_lookup_2 | done]. }
  rewrite Htb in Hn.
  assert (Hnext : (at_k (mkAt (next_block blocks (at_k a)) sps pps) < length blocks)%nat).
  { destruct (next_block_lookup _ _ _ Hb) as [b' Hb']. by eapply lookup_lt_Some. }
  destruct (decide (S n <= fuel)%nat) as [Hle|Hlt].
  - replace fuel with (S n + (fuel - S n))%nat by lia. rewrite Hn. apply IH; [lia | done].
  - destruct (read_loop (file_of blocks) fuel [] (concrete blocks a)) as [r|] eqn:Hr; [exfalso|done].
    pose proof (read_loop_more _ _ _ _ _ Hr (S n + 0) ltac:(lia)) as H. by rewrite Hn in H.
Qed.

(** On a file without slices [ReadOneNalu] never returns, however many rounds it is
    given: neither on an empty file, where it seeks to the start for ever, nor on one
    that holds only parameter sets and the like.  [Stop] joins the thread that runs it,
    so it does not return either. *)
Theorem reader_never_returns blocks a h fuel :
  Forall block_ok blocks -> (at_k a < length blocks)%nat -> ~ has_slice blocks ->
  ReadOneNalu fuel (h264_at blocks a h) = Done (None, h264_at blocks a h, []) /\
  forall h' pos, rd_fp (h_reader h') = Some ([], pos) -> ReadOneNalu fuel h' = Done (None, h', []).
Proof.
  intros Hok Ha Hno. split.
  - rewrite (ReadOneNalu_run (file_of blocks) (block_pos blocks (at_k a))) by done.
    pose proof (read_loop_no_slice blocks fuel a Hok Ha Hno) as Hr. unfold concrete in Hr. cbn [h264_at h_sps h_pps].
    by rewrite Hr.
  - intros h' pos Hfp. by rewrite (ReadOneNalu_run _ _ _ _ Hfp), read_loop_empty.
Qed.

(** ** What the encoder makes of it *)

Section encoder.
Variable FindNaluIndices : list Z -> list nat.
Variable ParseNaluType : Z -> Z.

(** [FindNaluIndices] finds the units behind the start codes 0 0 1. *)
Definition finds_units : Prop := forall data i, i ∈ FindNaluIndices data <->
  exists p q, data = p ++ start_code_3_bytes ++ q /\ q <> [] /\ i = (length p + 3)%nat.

(** The one start code of a unit with its code. *)
Lemma only_code code u p q : is_code code -> no_code u -> code ++ u = p ++ start_code_3_bytes ++ q -> q = u.
Proof.
  intros Hc Hu Heq.
  destruct Hc as [-> | ->]; unfold start_code_4_bytes, start_code_3_bytes in Heq; simpl in Heq.
  - destruct p as [|a [|b [|c [|d p]]]]; simpl in Heq; simplify_eq; [done|]. by destruct (Hu p q).
  - destruct p as [|a [|b [|c p]]]; simpl in Heq; simplify_eq; [done|]. by destruct (Hu p q).
Qed.

(** The encoder marks what the reader delivers as the reader meant it.  Whatever
    the parameter sets in front, the delivered data is a key frame for the encoder
    exactly when it was delivered for an IDR slice; the offsets of the units are inside
    the data. *)
Theorem reader_frames_marked blocks fuel a data a' :
  finds_units -> (forall b, ParseNaluType b = Z.land b 31) ->
  Forall block_ok blocks -> next_frame blocks fuel a = Some (data, a') ->
  exists k b, blocks !! k = Some b /\ at_k a' = next_block blocks k /\ is_slice (snd b) = true /\
    frame_type ParseNaluType data (FindNaluIndices data) =
      Some (if unit_type (snd b) =? kIdr then kVideoFrameKey else kVideoFrameDelta).
Proof.
  intros Hfind Hparse Hok Hnf.
  destruct (next_frame_data _ _ _ _ _ Hnf) as (k & b & sps & pps & Hb & Hs & -> & Hdata). exists k, b.
  split; [done|]. split; [done|]. split; [done|].
  destruct (next_block_lookup _ _ _ Hb) as [b' Hb'].
  pose proof (proj1 (Forall_lookup _ _) Hok _ _ Hb) as (_ & Hl & Hno & _).
  pose proof (proj1 (Forall_lookup _ _) Hok _ _ Hb') as (Hc & _).
  assert (Hcode : code_of blocks (next_block blocks k) = fst b') by (unfold code_of; by rewrite Hb').
  rewrite Hcode in Hdata.
  destruct (frame_type_spec ParseNaluType data (FindNaluIndices data)) as (t & -> & Ht).
  { intros i (p & q & -> & Hq & ->)%Hfind. rewrite !length_app. destruct q; [done|]. simpl. lia. }
  f_equal. destruct (snd b) as [|x u] eqn:Hu; [simpl in Hl; lia|].
  destruct (unit_type (x :: u) =? kIdr) eqn:Hidr.
  - apply Ht. unfold kIdr in Hidr. rewrite Hidr in Hdata. apply Z.eqb_eq in Hidr.
    assert (exists z, fst b' = z ++ start_code_3_bytes) as [z Hz] by (destruct Hc as [-> | ->]; [by exists [0] | by exists []]).
    exists (length ((sps ++ pps) ++ z) + 3)%nat, x. split; [|split].
    + apply Hfind. exists ((sps ++ pps) ++ z), (x :: u). split; [|done]. by rewrite Hdata, Hz, <- !app_assoc.
    + rewrite Hdata, Hz.
      replace ((sps ++ pps) ++ (z ++ start_code_3_bytes) ++ x :: u) with
        ((((sps ++ pps) ++ z) ++ start_code_3_bytes) ++ x :: u) by by rewrite <- !app_assoc.
      rewrite lookup_app_r, (length_app (_ ++ z)) by (rewrite (length_app (_ ++ z)); simpl; lia).
      by rewrite Nat.sub_diag.
    + by rewrite Hparse.
  - destruct t; [|done]. exfalso. destruct (proj1 Ht eq_refl) as (i & y & Hi & Hy & Hp).
    apply Hfind in Hi as (p & q & Hsplit & Hq & ->). unfold kIdr in Hidr. rewrite Hidr in Hdata. simpl in Hdata.
    rewrite Hdata in Hsplit. pose proof (only_code _ _ _ _ Hc Hno Hsplit) as ->.
    rewrite Hdata, Hsplit in Hy. rewrite app_assoc, lookup_app_r, length_app, Nat.sub_diag in Hy
      by (rewrite length_app; simpl; lia).
    injection Hy as <-. rewrite Hparse in Hp. apply Z.eqb_neq in Hidr. by apply Hidr.
Qed.
End encoder.

(** ** Raw readers *)

(** A round delivers the next whole frame; what is left at the end of the file is
    read into the buffer but not delivered, and reading starts again.  A frame larger
    than the buffer is written past its end. *)
Theorem raw_round_frames frameSize interval r file pos :
  rd_fp r = Some (file, pos) -> rd_cb r = true -> 0 < frameSize < 2147483648 ->
  (Z.of_nat (pos + Z.to_nat frameSize) <= Z.of_nat (length file) -> frameSize <= MAX_BUFFER_SIZE ->
     raw_round frameSize interval r =
       Done (tt, rd_set_fp (Some (file, (pos + Z.to_nat frameSize)%nat)) r,
         [RData (take (Z.to_nat frameSize) (drop pos file)); RSleep interval])) /\
  (Z.of_nat (pos + Z.to_nat frameSize) <= Z.of_nat (length file) -> MAX_BUFFER_SIZE < frameSize ->
     raw_round frameSize interval r = Fault (Thrown "write past the end of m_buf")) /\
  (Z.of_nat (length file) < Z.of_nat (pos + Z.to_nat frameSize) -> Z.of_nat (length file) <= MAX_BUFFER_SIZE ->
     raw_round frameSize interval r = Done (tt, rd_set_fp (Some (file, 0%nat)) r, [])).
Proof.
  intros Hfp Hcb Hsize. unfold raw_round. run_M. rewrite Hfp. simpl. rewrite Z.mod_small, length_drop by lia.
  assert (Hlen : Z.of_nat (pos + Z.to_nat frameSize) <= Z.of_nat (length file) ->
    (Z.of_nat (length file - pos) <? frameSize) = false /\
    length (take (Z.to_nat frameSize) (drop pos file)) = Z.to_nat frameSize).
  { intros H. split; [apply Z.ltb_ge; lia|]. rewrite length_take, length_drop. lia. }
  split; [|split].
  - intros [-> ->]%Hlen Hmax. rewrite Z2Nat.id, Z.ltb_irrefl, (proj2 (Z.ltb_ge _ _)) by lia. by rewrite Hcb.
  - intros [-> ->]%Hlen Hmax. by rewrite Z2Nat.id, (proj2 (Z.ltb_lt _ _)) by lia.
  - intros Hl Hmax. assert ((Z.of_nat (length file - pos) <? frameSize) = true) as Hb by (apply Z.ltb_lt; lia).
    rewrite Hb, length_drop, (proj2 (Z.ltb_ge MAX_BUFFER_SIZE _)) by lia. by rewrite Hb.
Qed.

(** A 720p picture does not fit: [YUVReader] asks for 1382400 bytes, [m_buf] has
    1048576, and the first frame of every file that holds one is written past its end. *)
Theorem yuv_720p_overflows frameRate r file :
  rd_fp r = Some (file, 0%nat) -> rd_cb r = true -> frameRate <> 0 -> 1382400 <= Z.of_nat (length file) ->
  yuv_round frameRate 1280 720 r = Fault (Thrown "write past the end of m_buf").
Proof.
  intros Hfp Hcb Hrate Hlen. unfold yuv_round. rewrite (proj2 (Z.eqb_neq _ _) Hrate).
  replace (Z.quot (wrap32 (1280 * 720 * 3)) 2) with 1382400 by (vm_compute; reflexivity).
  destruct (raw_round_frames 1382400 (Z.quot 1000 frameRate) r file 0 Hfp Hcb ltac:(lia)) as (_ & H & _).
  apply H; unfold MAX_BUFFER_SIZE; lia.
Qed.

(** ** Examples *)

Definition sps0 : list Z := [103; 9].
Definition pps0 : list Z := [104; 8].
Definition idr0 : list Z := [101; 7].
Definition slice0 : list Z := [65; 6].
Definition stream0 : list block :=
  [(start_code_4_bytes, sps0); (start_code_4_bytes, pps0); (start_code_3_bytes, idr0); (start_code_4_bytes, slice0)].
Definition playing : H264Reader :=
  mkH264 (mkReader "front.h264" true true true (Some (file_of stream0, 0%nat)) true) 25 [] [] 0.

Lemma short_no_code l : (length l < 3)%nat -> no_code l.
Proof. intros Hl a b ->. rewrite !length_app in Hl. simpl in Hl. lia. Qed.

Lemma short_block_ok code x y : is_code code -> y <> 0 -> block_ok (code, [x; y]).
Proof.
  intros Hc Hy. split; [done|]. split; [simpl; lia|]. split; [apply short_no_code; simpl; lia|].
  split; [simpl; congruence | simpl; unfold MAX_BUFFER_SIZE; lia].
Qed.

Lemma stream0_ok : Forall block_ok stream0.
Proof.
  unfold stream0. repeat apply Forall_cons_2; try apply Forall_nil_2; apply short_block_ok; try lia;
    (by left) || (by right).
Qed.

Lemma h264_reader_refines_witness :
  exists n, forall fuel, (n <= fuel)%nat ->
    ReadOneNalu fuel (h264_at stream0 (mkAt 0 [] []) playing) =
      Done (Some tt, h264_at stream0 (mkAt 3 (start_code_4_bytes ++ sps0) (start_code_3_bytes ++ pps0)) playing,
        [RData ([0; 0; 0; 1; 103; 9] ++ [0; 0; 1; 104; 8] ++ [0; 0; 0; 1; 101; 7])]).
Proof.
  destruct (h264_reader_refines stream0 (mkAt 0 [] []) playing stream0_ok) as (data & a' & Hnf & _ & n & Hn).
  - simpl. lia.
  - exists (start_code_3_bytes, idr0). split; [|reflexivity]. unfold stream0. do 2 right. left.
  - reflexivity.
  - vm_compute in Hnf. injection Hnf as <- <-. exists n. exact Hn.
Defined.

Lemma first_key_frame_lacks_sps_witness :
  exists n, forall fuel, (n <= fuel)%nat ->
    ReadOneNalu fuel playing =
      Done (Some tt, h264_at stream0 (mkAt 3 [] (start_code_3_bytes ++ pps0)) playing,
        [RData ([0; 0; 1; 104; 8] ++ [0; 0; 0; 1; 101; 7])]).
Proof.
  exact (first_key_frame_lacks_sps start_code_4_bytes sps0 start_code_4_bytes pps0 start_code_3_bytes idr0
    [(start_code_4_bytes, slice0)] playing stream0_ok eq_refl eq_refl eq_refl eq_refl eq_refl eq_refl eq_refl).
Defined.

(** The fuel that is enough here. *)
Example first_call : ReadOneNalu 24 playing =
  Done (Some tt, h264_at stream0 (mkAt 3 [] [0; 0; 1; 104; 8]) playing, [RData [0; 0; 1; 104; 8; 0; 0; 0; 1; 101; 7]]).
Proof. vm_compute. reflexivity. Qed.

Definition parameters_only : list block := [(start_code_4_bytes, sps0); (start_code_4_bytes, pps0)].

Lemma reader_never_returns_witness :
  ReadOneNalu 1000 (h264_at parameters_only (mkAt 1 [] []) playing) =
    Done (None, h264_at parameters_only (mkAt 1 [] []) playing, []).
Proof.
  refine (proj1 (reader_never_returns parameters_only (mkAt 1 [] []) playing 1000 _ _ _)).
  - unfold parameters_only. repeat apply Forall_cons_2; try apply Forall_nil_2; apply short_block_ok; try lia; by left.
  - simpl. lia.
  - intros (b & Hb & Hs). unfold parameters_only in Hb.
    apply elem_of_cons in Hb as [-> | Hb]; [discriminate|].
    apply elem_of_cons in Hb as [-> | Hb]; [discriminate|]. by apply not_elem_of_nil in Hb.
Defined.

(** The function of [VideoPipeline] finds the units. *)
Lemma start_codes_cons k x data i : i ∈ start_codes k (x :: data) <->
  (x = 0 /\ (exists y q, data = 0 :: 1 :: y :: q) /\ i = (k + 3)%nat) \/ i ∈ start_codes (S k) data.
Proof.
  assert (Hno : ~ (x = 0 /\ (exists y q, data = 0 :: 1 :: y :: q) /\ i = (k + 3)%nat) ->
    start_codes k (x :: data) = start_codes (S k) data -> i ∈ start_codes k (x :: data) <->
    (x = 0 /\ (exists y q, data = 0 :: 1 :: y :: q) /\ i = (k + 3)%nat) \/ i ∈ start_codes (S k) data).
  { intros Hn ->. tauto. }
  destruct x as [|x|x]; [|by apply Hno; [intros (? & _)|]..].
  destruct data as [|[|d|d] [|[|[?|?|]|?] [|y q]]];
    try (apply Hno; [intros (_ & (? & ? & ?) & _); congruence | reflexivity]).
  change (start_codes k (0 :: 0 :: 1 :: y :: q)) with ((k + 3)%nat :: start_codes (S k) (0 :: 1 :: y :: q)).
  rewrite elem_of_cons. split; intros [H|H]; [left; by eauto | by right | left; apply H | by right].
Qed.

Lemma start_codes_spec k data i : i ∈ start_codes k data <->
  exists p q, data = p ++ start_code_3_bytes ++ q /\ q <> [] /\ i = (k + (length p + 3))%nat.
Proof.
  revert k. induction data as [|x data IH]; intros k.
  - split; [by intros ?%not_elem_of_nil | intros ([|??] & q & H & _); discriminate].
  - rewrite start_codes_cons, IH. split.
    + intros [(-> & (y & q & ->) & ->)|(p & q & -> & Hq & ->)].
      * exists [], (y :: q). by split; [|split; [|simpl; lia]].
      * exists (x :: p), q. split; [done|]. split; [done|]. simpl. lia.
    + intros ([|x' p] & q & Heq & Hq & ->); simpl in Heq.
      * left. unfold start_code_3_bytes in Heq. simpl in Heq. injection Heq as -> ->. split; [done|].
        split; [|simpl; lia]. destruct q as [|y q]; [done|]. by eexists _, _.
      * right. injection Heq as -> ->. exists p, q. split; [done|]. split; [done|]. simpl. lia.
Qed.

Lemma reader_frames_marked_witness :
  frame_type (fun b => Z.land b 31) ([0; 0; 1; 104; 8] ++ [0; 0; 0; 1; 101; 7])
    (start_codes 0 ([0; 0; 1; 104; 8] ++ [0; 0; 0; 1; 101; 7])) = Some kVideoFrameKey.
Proof.
  assert (Hf : finds_units (start_codes 0)) by (intros data i; apply start_codes_spec).
  destruct (reader_frames_marked (start_codes 0) (fun b => Z.land b 31) stream0 2 (mkAt 1 [] [])
    ([0; 0; 1; 104; 8] ++ [0; 0; 0; 1; 101; 7]) (mkAt 3 [] [0; 0; 1; 104; 8]) Hf (fun b => eq_refl) stream0_ok
    ltac:(vm_compute; reflexivity)) as (k & b & Hb & Hk & _ & H).
  vm_compute in Hk. destruct k as [|[|[|[|k]]]]; try discriminate.
  vm_compute in Hb. injection Hb as <-. exact H.
Defined.

Lemma yuv_720p_overflows_witness :
  yuv_round 25 1280 720 (mkReader "a.yuv" true true true (Some (replicate (Z.to_nat 1382400) 16, 0%nat)) true) =
    Fault (Thrown "write past the end of m_buf").
Proof.
  apply (yuv_720p_overflows 25 _ (replicate (Z.to_nat 1382400) 16)); [reflexivity | reflexivity | lia|].
  rewrite length_replicate, Z2Nat.id; lia.
Defined.
