(* ===== verification/RoomClient.v ===== *)
(** * RoomClient

    Models [core/service/room_client.cpp]: the room's state machine from
    [join] over the transports to [CONNECTED], and [leave].

    Lambdas posted to the mediasoup thread are values of [rc_task], responses of
    the API arrive through the [on...Response] handlers; the client is alive
    when they run (otherwise [wself.lock()] makes them do nothing).  The two
    controllers [init] creates are heap objects: the participant controller
    holds the media controller, so [rc_controllers] carries both, and
    [rc_mediaController] / [rc_participantController] say whether the client's
    pointers to them are set.  What libmediasoupclient, the random generator and
    the JSON libraries answer are arguments. *)

From stdpp Require Import base gmap strings list pretty.
From Stdlib Require Import ZArith Lia.
From S2P Require Import Prelude Json SignalingModels Observable MediasoupApi ParticipantController MediaController.

#[local] Open Scope string_scope.
#[local] Open Scope list_scope.

Inductive RoomState : Type := UNKNOWN | CONNECTING | CONNECTED | CLOSED.
#[global] Instance RoomState_eq_dec : EqDecision RoomState.
Proof. solve_decision. Defined.

(** ** State *)

Record RoomClient : Type := mkRC {
  rc_state : RoomState;
  rc_hostname : string;
  rc_port : Z;
  rc_roomId : string;
  rc_peerId : string;
  rc_displayName : string;
  rc_options : Options;
  rc_signalingClient : bool;   (* not null *)
  rc_mediasoupApi : bool;   (* not null *)
  rc_mediasoupDevice : option nat;
  rc_devices : nat;   (* [Device] objects made so far *)
  rc_sendTransport : option nat;
  rc_recvTransport : option nat;
  rc_mediaController : bool;   (* not null *)
  rc_participantController : bool;   (* not null *)
  rc_controllers : ParticipantController MediaController;   (* the controllers [init] made, as heap objects *)
  rc_volume : Z
}.

Definition rc_set_state (v : RoomState) (s : RoomClient) : RoomClient := mkRC v (rc_hostname s) (rc_port s)
  (rc_roomId s) (rc_peerId s) (rc_displayName s) (rc_options s) (rc_signalingClient s) (rc_mediasoupApi s)
  (rc_mediasoupDevice s) (rc_devices s) (rc_sendTransport s) (rc_recvTransport s) (rc_mediaController s)
  (rc_participantController s) (rc_controllers s) (rc_volume s).
Definition rc_set_hostname (v : string) (s : RoomClient) : RoomClient := mkRC (rc_state s) v (rc_port s)
  (rc_roomId s) (rc_peerId s) (rc_displayName s) (rc_options s) (rc_signalingClient s) (rc_mediasoupApi s)
  (rc_mediasoupDevice s) (rc_devices s) (rc_sendTransport s) (rc_recvTransport s) (rc_mediaController s)
  (rc_participantController s) (rc_controllers s) (rc_volume s).
Definition rc_set_port (v : Z) (s : RoomClient) : RoomClient := mkRC (rc_state s) (rc_hostname s) v
  (rc_roomId s) (rc_peerId s) (rc_displayName s) (rc_options s) (rc_signalingClient s) (rc_mediasoupApi s)
  (rc_mediasoupDevice s) (rc_devices s) (rc_sendTransport s) (rc_recvTransport s) (rc_mediaController s)
  (rc_participantController s) (rc_controllers s) (rc_volume s).
Definition rc_set_roomId (v : string) (s : RoomClient) : RoomClient := mkRC (rc_state s) (rc_hostname s)
  (rc_port s) v (rc_peerId s) (rc_displayName s) (rc_options s) (rc_signalingClient s) (rc_mediasoupApi s)
  (rc_mediasoupDevice s) (rc_devices s) (rc_sendTransport s) (rc_recvTransport s) (rc_mediaController s)
  (rc_participantController s) (rc_controllers s) (rc_volume s).
Definition rc_set_peerId (v : string) (s : RoomClient) : RoomClient := mkRC (rc_state s) (rc_hostname s)
  (rc_port s) (rc_roomId s) v (rc_displayName s) (rc_options s) (rc_signalingClient s) (rc_mediasoupApi s)
  (rc_mediasoupDevice s) (rc_devices s) (rc_sendTransport s) (rc_recvTransport s) (rc_mediaController s)
  (rc_participantController s) (rc_controllers s) (rc_volume s).
Definition rc_set_displayName (v : string) (s : RoomClient) : RoomClient := mkRC (rc_state s) (rc_hostname
  s) (rc_port s) (rc_roomId s) (rc_peerId s) v (rc_options s) (rc_signalingClient s) (rc_mediasoupApi s)
  (rc_mediasoupDevice s) (rc_devices s) (rc_sendTransport s) (rc_recvTransport s) (rc_mediaController s)
  (rc_participantController s) (rc_controllers s) (rc_volume s).
Definition rc_set_options (v : Options) (s : RoomClient) : RoomClient := mkRC (rc_state s) (rc_hostname s)
  (rc_port s) (rc_roomId s) (rc_peerId s) (rc_displayName s) v (rc_signalingClient s) (rc_mediasoupApi s)
  (rc_mediasoupDevice s) (rc_devices s) (rc_sendTransport s) (rc_recvTransport s) (rc_mediaController s)
  (rc_participantController s) (rc_controllers s) (rc_volume s).
Definition rc_set_signalingClient (v : bool) (s : RoomClient) : RoomClient := mkRC (rc_state s) (rc_hostname
  s) (rc_port s) (rc_roomId s) (rc_peerId s) (rc_displayName s) (rc_options s) v (rc_mediasoupApi s)
  (rc_mediasoupDevice s) (rc_devices s) (rc_sendTransport s) (rc_recvTransport s) (rc_mediaController s)
  (rc_participantController s) (rc_controllers s) (rc_volume s).
Definition rc_set_mediasoupApi (v : bool) (s : RoomClient) : RoomClient := mkRC (rc_state s) (rc_hostname s)
  (rc_port s) (rc_roomId s) (rc_peerId s) (rc_displayName s) (rc_options s) (rc_signalingClient s) v
  (rc_mediasoupDevice s) (rc_devices s) (rc_sendTransport s) (rc_recvTransport s) (rc_mediaController s)
  (rc_participantController s) (rc_controllers s) (rc_volume s).
Definition rc_set_mediasoupDevice (v : option nat) (s : RoomClient) : RoomClient := mkRC (rc_state s)
  (rc_hostname s) (rc_port s) (rc_roomId s) (rc_peerId s) (rc_displayName s) (rc_options s)
  (rc_signalingClient s) (rc_mediasoupApi s) v (rc_devices s) (rc_sendTransport s) (rc_recvTransport s)
  (rc_mediaController s) (rc_participantController s) (rc_controllers s) (rc_volume s).
Definition rc_set_devices (v : nat) (s : RoomClient) : RoomClient := mkRC (rc_state s) (rc_hostname s)
  (rc_port s) (rc_roomId s) (rc_peerId s) (rc_displayName s) (rc_options s) (rc_signalingClient s)
  (rc_mediasoupApi s) (rc_mediasoupDevice s) v (rc_sendTransport s) (rc_recvTransport s) (rc_mediaController
  s) (rc_participantController s) (rc_controllers s) (rc_volume s).
Definition rc_set_sendTransport (v : option nat) (s : RoomClient) : RoomClient := mkRC (rc_state s)
  (rc_hostname s) (rc_port s) (rc_roomId s) (rc_peerId s) (rc_displayName s) (rc_options s)
  (rc_signalingClient s) (rc_mediasoupApi s) (rc_mediasoupDevice s) (rc_devices s) v (rc_recvTransport s)
  (rc_mediaController s) (rc_participantController s) (rc_controllers s) (rc_volume s).
Definition rc_set_recvTransport (v : option nat) (s : RoomClient) : RoomClient := mkRC (rc_state s)
  (rc_hostname s) (rc_port s) (rc_roomId s) (rc_peerId s) (rc_displayName s) (rc_options s)
  (rc_signalingClient s) (rc_mediasoupApi s) (rc_mediasoupDevice s) (rc_devices s) (rc_sendTransport s) v
  (rc_mediaController s) (rc_participantController s) (rc_controllers s) (rc_volume s).
Definition rc_set_mediaController (v : bool) (s : RoomClient) : RoomClient := mkRC (rc_state s) (rc_hostname
  s) (rc_port s) (rc_roomId s) (rc_peerId s) (rc_displayName s) (rc_options s) (rc_signalingClient s)
  (rc_mediasoupApi s) (rc_mediasoupDevice s) (rc_devices s) (rc_sendTransport s) (rc_recvTransport s) v
  (rc_participantController s) (rc_controllers s) (rc_volume s).
Definition rc_set_participantController (v : bool) (s : RoomClient) : RoomClient := mkRC (rc_state s)
  (rc_hostname s) (rc_port s) (rc_roomId s) (rc_peerId s) (rc_displayName s) (rc_options s)
  (rc_signalingClient s) (rc_mediasoupApi s) (rc_mediasoupDevice s) (rc_devices s) (rc_sendTransport s)
  (rc_recvTransport s) (rc_mediaController s) v (rc_controllers s) (rc_volume s).
Definition rc_set_controllers (v : ParticipantController MediaController) (s : RoomClient) : RoomClient :=
  mkRC (rc_state s) (rc_hostname s) (rc_port s) (rc_roomId s) (rc_peerId s) (rc_displayName s) (rc_options s)
  (rc_signalingClient s) (rc_mediasoupApi s) (rc_mediasoupDevice s) (rc_devices s) (rc_sendTransport s)
  (rc_recvTransport s) (rc_mediaController s) (rc_participantController s) v (rc_volume s).
Definition rc_set_volume (v : Z) (s : RoomClient) : RoomClient := mkRC (rc_state s) (rc_hostname s) (rc_port
  s) (rc_roomId s) (rc_peerId s) (rc_displayName s) (rc_options s) (rc_signalingClient s) (rc_mediasoupApi s)
  (rc_mediasoupDevice s) (rc_devices s) (rc_sendTransport s) (rc_recvTransport s) (rc_mediaController s)
  (rc_participantController s) (rc_controllers s) v.

(** A client as its constructor leaves it. *)
Definition new_room_client : RoomClient :=
  mkRC CLOSED "" 0 "" "" "" OptionsDefault false false None O None None false false
    (new_controller (new_media_controller OptionsDefault false)) 0.

(** ** Effects *)

(** The callbacks the client passes to the API, and the tasks it posts. *)
Inductive rc_callback : Type :=
| CbCapabilities
| CbTransport (producing consuming : bool)
| CbJoin
| CbConnect
| CbProduce
| CbProduceData.

Inductive rc_task : Type :=
| TaskOpened
| TaskClosed
| TaskLoadDevice (response : GetRouterRtpCapabilitiesResponse)
| TaskTransport (producing consuming : bool) (response : CreateWebRtcTransportResponse)
| TaskJoined (state : RoomState) (response : JoinResponse).

(** The objects that subscribe to the signaling client and the media controller. *)
Inductive subscriber : Type := SubRoom | SubMedia | SubParticipants.

Inductive rc_effect : Type :=
| RSignalingInit
| RSignalingDestroy
| RSubscribeSignaling (who : subscriber)
| RUnsubscribeSignaling (who : subscriber)
| RSubscribeMedia (who : subscriber)
| RConnect (url subprotocol : string)
| RDisconnect
| RApi (r : api_request) (cb : rc_callback)
| RPost (t : rc_task)
| RRoomStateChanged (state : RoomState)
| RLocalActiveSpeaker (volume : Z)
| RCreateTransport (producing : bool) (id : string) (ice : Value) (candidates : list Value) (dtls sctp : Value)
| RCloseRecv (t : nat)
| RCloseSend (t : nat)
| RControllers (e : pc_effect mc_effect).

Abbreviation rc_handler := (M RoomClient rc_effect).

(** [getProtooUrl]. *)
Definition getProtooUrl (hostname : string) (port : Z) (roomId peerId : string) : string :=
  "wss://" +:+ hostname +:+ ":" +:+ pretty port +:+ "/?roomId=" +:+ roomId +:+ "&peerId=" +:+ peerId.

(** A call of the participant controller, and of the media controller it holds. *)
Definition on_participants {A} (m : M (ParticipantController MediaController) (pc_effect mc_effect) A) :
    rc_handler A :=
  zoom rc_controllers rc_set_controllers RControllers m.
Definition on_media {A} (m : mc_handler A) : rc_handler A :=
  on_participants (media m).

(** [_mediaController->...]. *)
Definition with_media {A} (m : mc_handler A) : rc_handler A :=
  s ← get;
  if rc_mediaController s then on_media m else throw (NullDeref "_mediaController").

(** ** Life of the components *)

Section operations.
Context `{HashOrder}.

Definition rc_init : rc_handler unit :=
  s ← get;
  _ ← (if rc_signalingClient s then skip
       else _ ← modify (rc_set_signalingClient true);
            _ ← emit RSignalingInit;
            emit (RSubscribeSignaling SubRoom));
  s ← get;
  _ ← (if rc_signalingClient s && negb (rc_mediasoupApi s) then modify (rc_set_mediasoupApi true) else skip);
  s ← get;
  _ ← (if rc_mediaController s then skip
       else _ ← modify (rc_set_controllers (new_controller (new_media_controller (rc_options s) (rc_mediasoupApi s))));
            _ ← on_media mc_init;
            _ ← emit (RSubscribeSignaling SubMedia);
            _ ← modify (rc_set_mediaController true);
            emit (RSubscribeMedia SubRoom));
  s ← get;
  if rc_participantController s then skip
  else _ ← modify (fun s => rc_set_controllers (new_controller (pc_media (rc_controllers s))) s);
       _ ← on_participants pc_init;
       _ ← modify (rc_set_participantController true);
       _ ← emit (RSubscribeSignaling SubParticipants);
       emit (RSubscribeMedia SubParticipants).

(** [Transport::Close()] also closes the transport's producers or consumers. *)
Definition destroyComponents : rc_handler unit :=
  s ← get;
  _ ← (if rc_participantController s then
         _ ← on_participants pc_destroy; modify (rc_set_participantController false)
       else skip);
  _ ← (match rc_mediasoupDevice s with Some _ => modify (rc_set_mediasoupDevice None) | None => skip end);
  _ ← (match rc_recvTransport s with
       | Some t => _ ← emit (RCloseRecv t); _ ← on_media recv_transport_closed; modify (rc_set_recvTransport None)
       | None => skip
       end);
  _ ← (match rc_sendTransport s with
       | Some t => _ ← emit (RCloseSend t); _ ← on_media send_transport_closed; modify (rc_set_sendTransport None)
       | None => skip
       end);
  if rc_mediaController s then _ ← on_media mc_destroy; modify (rc_set_mediaController false) else skip.

(** The commented-out body of the source. *)
Definition createComponents : rc_handler unit := skip.

Definition rc_onRoomStateChanged (state : RoomState) : rc_handler unit :=
  _ ← (if decide (state = CONNECTED) then createComponents
       else if decide (state = CLOSED) then destroyComponents
       else skip);
  emit (RRoomStateChanged state).

Definition rc_destroy : rc_handler unit :=
  s ← get;
  _ ← (if rc_mediasoupApi s then modify (rc_set_mediasoupApi false) else skip);
  _ ← (if rc_signalingClient s then
         _ ← emit (RUnsubscribeSignaling SubRoom);
         _ ← emit RSignalingDestroy;
         modify (rc_set_signalingClient false)
       else skip);
  destroyComponents.

(** ** Joining and leaving *)

(** [peerId] is the result of [StringUtils::randomString(8)]. *)
Definition rc_join (peerId hostname : string) (port : Z) (roomId displayName : string)
    (options : option Options) : rc_handler unit :=
  s ← get;
  if decide (rc_state s <> CLOSED) then skip
  else if decide (hostname = "") then skip
  else
    _ ← modify (rc_set_hostname hostname);
    _ ← modify (rc_set_port port);
    if decide (roomId = "") then skip
    else
      _ ← modify (rc_set_roomId roomId);
      if decide (displayName = "") then skip
      else
        _ ← modify (rc_set_displayName displayName);
        _ ← modify (rc_set_options (match options with Some o => o | None => OptionsDefault end));
        _ ← modify (rc_set_peerId peerId);
        if rc_signalingClient s then
          _ ← emit RDisconnect;
          _ ← emit (RConnect (getProtooUrl hostname port roomId peerId) "protoo");
          _ ← modify (rc_set_state CONNECTING);
          rc_onRoomStateChanged CONNECTING
        else skip.

Definition rc_leave : rc_handler unit :=
  _ ← modify (rc_set_roomId "");
  s ← get;
  if decide (rc_state s = CLOSED) then skip
  else if rc_signalingClient s then
    _ ← emit RDisconnect;
    _ ← modify (rc_set_state CLOSED);
    rc_onRoomStateChanged CLOSED
  else skip.

Definition rc_onOpened : rc_handler unit := emit (RPost TaskOpened).
Definition rc_onClosed : rc_handler unit := emit (RPost TaskClosed).
Definition closed_task : rc_handler unit :=
  _ ← modify (rc_set_state CLOSED);
  rc_onRoomStateChanged CLOSED.

Definition getRouterRtpCapabilities : rc_handler unit :=
  s ← get;
  if negb (rc_mediasoupApi s) then skip else emit (RApi AGetRouterRtpCapabilities CbCapabilities).

Definition rc_onActiveSpeaker (notification : option ActiveSpeakerNotification) : rc_handler unit :=
  match notification with
  | None => skip
  | Some n =>
      data ← value "notification->data" (ActiveSpeakerNotification_data n);
      s ← get;
      if decide (rc_peerId s <> value_or (ActiveSpeakerNotification_Data_peerId data) "") then skip
      else
        let volume := value_or (ActiveSpeakerNotification_Data_volume data) 0%Z in
        _ ← modify (rc_set_volume volume);
        emit (RLocalActiveSpeaker volume)
  end.

(** The calls the application makes through the client. *)
Definition rc_muteAudio (muted : bool) : rc_handler unit := with_media (mc_muteAudio muted).
Definition rc_isAudioMuted : rc_handler bool := with_media mc_isAudioMuted.
Definition rc_enableAudio CanProduce Produce (enabled : bool) : rc_handler unit :=
  with_media (mc_enableAudio CanProduce Produce enabled).
Definition rc_enableVideo CanProduce Produce (enabled : bool) (trackName : string) (width height : Z) :
    rc_handler unit :=
  with_media (mc_enableVideo CanProduce Produce enabled trackName width height).

(** ** The handshake *)

Section handshake.
(** rapidjson's parser and writer, nlohmann's parser; the device's [Load]
    followed by [IsLoaded], the dumps of its capabilities, and the
    transports it creates (or the exceptions). *)
Variable parse : string -> option Value.
Variable print : Value -> string.
Variable nlohmann_parse : string -> result string Value.
Variable Load : nat -> Value -> result string bool.
Variable GetRtpCapabilities GetSctpCapabilities : nat -> string.
Variable CreateTransport : bool -> string -> Value -> list Value -> Value -> Value -> result string nat.

(** [nlohmann::json::parse(model.toJsonStr())]. *)
Definition rc_reparse {A} `{FieldsMap A} (m : A) : rc_handler Value :=
  match nlohmann_parse (toJsonStr print m) with
  | Ok v => mret v
  | Err e => throw (Thrown e)
  end.

(** [_mediasoupDevice->...]. *)
Definition the_device : rc_handler nat :=
  s ← get; deref "_mediasoupDevice" (rc_mediasoupDevice s).

Definition requestCreateTransport (forceTcp producing consuming : bool) : rc_handler unit :=
  s ← get;
  if negb (rc_mediasoupApi s) then skip
  else
    let send caps := emit (RApi (ACreateWebRtcTransport (Some
          (mk_CreateWebRtcTransportRequest_Data (Some consuming) (Some producing) (Some forceTcp) caps)))
          (CbTransport producing consuming)) in
    if value_or (o_datachannel (rc_options s)) false then
      d ← the_device;
      let json := c_str (GetSctpCapabilities d) in
      if decide (json = "") then skip
      else match fromJsonString parse default_init json with
           | Err _ => skip
           | Ok caps => send (Some caps)
           end
    else send None.

Definition createSendTransport : rc_handler unit := requestCreateTransport false true false.
Definition createRecvTransport : rc_handler unit := requestCreateTransport false false true.

Definition join_device : JoinRequest_Device :=
  mk_JoinRequest_Device (Some "ubuntu") (Some "mediasoup-client-cpp") (Some "1.0.0").

(** Reads a JSON text of the device, when the option asks for it; [None]
    stands for the early return. *)
Definition read_capabilities {A} `{FieldsMap A, DefaultInit A} (wanted : bool) (dump : nat -> string) :
    rc_handler (option (option A)) :=
  if wanted then
    d ← the_device;
    let json := c_str (dump d) in
    if decide (json = "") then mret None
    else match fromJsonString parse default_init json with
         | Err _ => mret None
         | Ok caps => mret (Some (Some caps))
         end
  else mret (Some None).

Definition joinImpl : rc_handler unit :=
  s ← get;
  if negb (rc_mediasoupApi s) then skip
  else
    rtp ← read_capabilities (A := JoinRequest_RTPCapabilities)
            (value_or (o_consume (rc_options s)) false) GetRtpCapabilities;
    match rtp with
    | None => skip
    | Some rtp =>
        sctp ← read_capabilities (A := JoinRequest_SCTPCapabilities)
                 (value_or (o_datachannel (rc_options s)) false) GetSctpCapabilities;
        match sctp with
        | None => skip
        | Some sctp =>
            emit (RApi (AJoin (Some (mk_JoinRequest_Data (Some (rc_displayName s)) (Some join_device) rtp sctp)))
                   CbJoin)
        end
    end.

Definition onLoadMediasoupDevice (response : GetRouterRtpCapabilitiesResponse) : rc_handler unit :=
  data ← value "response->data" (GetRouterRtpCapabilitiesResponse_data response);
  rtpCapabilities ← rc_reparse data;
  s ← get;
  d ← match rc_mediasoupDevice s with
      | Some d => mret d
      | None =>
          _ ← modify (fun s => rc_set_devices (S (rc_devices s)) (rc_set_mediasoupDevice (Some (rc_devices s)) s));
          mret (rc_devices s)
      end;
  match Load d rtpCapabilities with
  | Err e => throw (Thrown e)
  | Ok false => skip
  | Ok true =>
      _ ← with_media (mc_setMediasoupDevice (Some d));
      if value_or (o_produce (rc_options s)) false then createSendTransport
      else if value_or (o_consume (rc_options s)) false then createRecvTransport
      else joinImpl
  end.

(** [for (auto &candidate : iceCandidates.value())]. *)
Fixpoint reparse_all {A} `{FieldsMap A} (l : list A) : rc_handler (list Value) :=
  match l with
  | [] => mret []
  | x :: l => v ← rc_reparse x; vs ← reparse_all l; mret (v :: vs)
  end.

(** [role = "auto"]. *)
Definition auto_role (p : CreateWebRtcTransportResponse_DTLSParameters) :
    CreateWebRtcTransportResponse_DTLSParameters :=
  mk_CreateWebRtcTransportResponse_DTLSParameters
    (CreateWebRtcTransportResponse_DTLSParameters_fingerprints p) (Some "auto").

(** The condition of the early return is [!_mediasoupDevice &&
    _peerConnectionOptions]; the options are set by [init]. *)
Definition createTransportImpl (producing consuming : bool) (info : CreateWebRtcTransportResponse) :
    rc_handler unit :=
  s ← get;
  match rc_mediasoupDevice s with
  | None => skip
  | Some _ =>
      data ← value "transportInfo->data" (CreateWebRtcTransportResponse_data info);
      ice ← value "iceParameters" (CreateWebRtcTransportResponse_Data_iceParameters data);
      iceParameters ← rc_reparse ice;
      candidates ← value "iceCandidates" (CreateWebRtcTransportResponse_Data_iceCandidates data);
      iceCandidates ← reparse_all candidates;
      dtls ← value "dtlsParameters" (CreateWebRtcTransportResponse_Data_dtlsParameters data);
      dtlsParameters ← rc_reparse (auto_role dtls);
      sctp ← value "sctpParameters" (CreateWebRtcTransportResponse_Data_sctpParameters data);
      sctpParameters ← rc_reparse sctp;
      if producing || consuming then
        let id := value_or (CreateWebRtcTransportResponse_Data_id data) "" in
        _ ← emit (RCreateTransport producing id iceParameters iceCandidates dtlsParameters sctpParameters);
        match CreateTransport producing id iceParameters iceCandidates dtlsParameters sctpParameters with
        | Err e => throw (Thrown e)
        | Ok t =>
            if producing then
              _ ← modify (rc_set_sendTransport (Some t));
              with_media (mc_setSendTransport (Some t))
            else
              _ ← modify (rc_set_recvTransport (Some t));
              with_media (mc_setRecvTransport (Some t))
        end
      else skip
  end.

Definition onCreateSendTransport (info : CreateWebRtcTransportResponse) : rc_handler unit :=
  _ ← createTransportImpl true false info;
  s ← get;
  if value_or (o_consume (rc_options s)) false then createRecvTransport else joinImpl.
Definition onCreateRecvTransport (info : CreateWebRtcTransportResponse) : rc_handler unit :=
  _ ← createTransportImpl false true info;
  joinImpl.

(** ** Responses

    [!response->ok] is the negation of an [absl::optional<bool>]: it asks
    whether the member is present, not whether it is true. *)

Definition present (ok : option bool) : bool := match ok with Some _ => true | None => false end.

Definition onCapabilitiesResponse (errorCode : Z) (response : option GetRouterRtpCapabilitiesResponse) :
    rc_handler unit :=
  if decide (errorCode <> 0%Z) then skip
  else match response with
       | None => skip
       | Some r => if negb (present (GetRouterRtpCapabilitiesResponse_ok r)) then skip
                   else emit (RPost (TaskLoadDevice r))
       end.

Definition onTransportResponse (producing consuming : bool) (errorCode : Z)
    (response : option CreateWebRtcTransportResponse) : rc_handler unit :=
  if decide (errorCode <> 0%Z) then skip
  else match response with
       | None => skip
       | Some r => if negb (present (CreateWebRtcTransportResponse_ok r)) then skip
                   else emit (RPost (TaskTransport producing consuming r))
       end.

Definition onJoinResponse (errorCode : Z) (response : option JoinResponse) : rc_handler unit :=
  if decide (errorCode <> 0%Z) then skip
  else match response with
       | None => skip
       | Some r => if negb (present (JoinResponse_ok r)) then skip
                   else _ ← modify (rc_set_state CONNECTED);
                        emit (RPost (TaskJoined CONNECTED r))
       end.

Definition joined_task (state : RoomState) (response : JoinResponse) : rc_handler unit :=
  _ ← rc_onRoomStateChanged state;
  s ← get;
  if negb (rc_participantController s) then skip
  else
    data ← value "response->data" (JoinResponse_data response);
    for_each (value_or (JoinResponse_Data_peers data) []) (fun peer =>
      on_participants (createParticipant (value_or (JoinResponse_Peer_id peer) "")
                         (value_or (JoinResponse_Peer_displayName peer) ""))).

Definition rc_run_task (t : rc_task) : rc_handler unit :=
  match t with
  | TaskOpened => getRouterRtpCapabilities
  | TaskClosed => closed_task
  | TaskLoadDevice r => onLoadMediasoupDevice r
  | TaskTransport producing consuming r =>
      if producing then onCreateSendTransport r
      else if consuming then onCreateRecvTransport r
      else skip
  | TaskJoined state r => joined_task state r
  end.

(** ** Callbacks of the transports

    They run on their own threads and block until the response: the handler
    gives [Some v] when it returns [v] at once, [None] when it waits for the
    callback, whose value [..._promise] computes. *)

Definition rc_onConnect (transportId : string) (dtlsDump : string) : rc_handler (option unit) :=
  s ← get;
  if negb (rc_mediasoupApi s) then mret (Some tt)
  else
    let json := c_str dtlsDump in
    if decide (json = "") then mret (Some tt)
    else match fromJsonString parse default_init json with
         | Err _ => mret (Some tt)
         | Ok dtlsp =>
             _ ← emit (RApi (AConnectWebRtcTransport (Some
                   (mk_ConnectWebRtcTransportRequest_Data (Some transportId) (Some dtlsp)))) CbConnect);
             mret None
         end.

(** [signaling::SharingAppData sharingAppData = appData]. *)
Definition produce_app_data (appData : Value) : rc_handler (option ProduceRequest_AppData) :=
  match FindMember appData "sharing" with
  | None => mret None
  | Some _ =>
      match sharing_app_from_json appData (mkSharingAppData (mkSharing "")) with
      | Err (TypeError e) => throw (Thrown e)
      | Ok st =>
          mret (Some (mk_ProduceRequest_AppData None (Some
            (mk_ProduceRequest_SharingData (Some (sharing_trackName (sharing_appdata st)))))))
      end
  end.

Definition rc_onProduce (transportId kind rtpDump : string) (appData : Value) : rc_handler (option string) :=
  s ← get;
  if negb (rc_mediasoupApi s) then mret (Some "")
  else
    app ← produce_app_data appData;
    let json := c_str rtpDump in
    if decide (json = "") then mret (Some "")
    else match fromJsonString parse default_init json with
         | Err _ => mret (Some "")
         | Ok rtpp =>
             _ ← emit (RApi (AProduce (Some
                   (mk_ProduceRequest_Data (Some transportId) (Some kind) (Some rtpp) app))) CbProduce);
             mret None
         end.

Definition rc_onProduceData (transportId sctpDump label protocol : string) : rc_handler (option string) :=
  s ← get;
  if negb (rc_mediasoupApi s) then mret (Some "")
  else
    let json := c_str sctpDump in
    if decide (json = "") then mret (Some "")
    else match fromJsonString parse default_init json with
         | Err _ => mret (Some "")
         | Ok stcpsp =>
             _ ← emit (RApi (AProduceData (Some
                   (mk_ProduceDataRequest_Data (Some transportId) (Some label) (Some protocol) (Some stcpsp) None)))
                   CbProduceData);
             mret None
         end.

(** The values the promises get. *)
Definition produce_promise (errorCode : Z) (response : option ProduceResponse) : outcome string :=
  if decide (errorCode <> 0%Z) then Done ""
  else match response with
       | None => Done ""
       | Some r =>
           if negb (present (ProduceResponse_ok r)) then Done ""
           else match ProduceResponse_data r with
                | None => Fault (BadOptional "response->data")
                | Some d => Done (value_or (ProduceResponse_Data_id d) "")
                end
       end.
Definition produceData_promise (errorCode : Z) (response : option ProduceDataResponse) : outcome string :=
  if decide (errorCode <> 0%Z) then Done ""
  else match response with
       | None => Done ""
       | Some r =>
           if negb (present (ProduceDataResponse_ok r)) then Done ""
           else match ProduceDataResponse_data r with
                | None => Fault (BadOptional "response->data")
                | Some d => Done (value_or (ProduceDataResponse_Data_id d) "")
                end
       end.
End handshake.
End operations.
