(* ===== verification/RoomClientFacts.v ===== *)
(** * Properties of the room

    The handshake that brings a room from [join] to [CONNECTED], the state
    machine, and what is left after [leave]. *)

From stdpp Require Import base gmap strings list pretty.
From Stdlib Require Import ZArith Lia.
From S2P Require Import Prelude Json SignalingModels Observable MediasoupApi ParticipantController MediaController MediaControllerFacts RoomClient.

#[local] Open Scope string_scope.
#[local] Open Scope list_scope.

(** Everything that can happen to a room client after [init]. *)
Inductive rc_op : Type :=
| RcJoin (peerId hostname : string) (port : Z) (roomId displayName : string) (options : option Options)
| RcLeave
| RcDestroy
| RcOnOpened
| RcOnClosed
| RcActiveSpeaker (n : option ActiveSpeakerNotification)
| RcCapabilities (errorCode : Z) (r : option GetRouterRtpCapabilitiesResponse)
| RcTransport (producing consuming : bool) (errorCode : Z) (r : option CreateWebRtcTransportResponse)
| RcJoined (errorCode : Z) (r : option JoinResponse)
| RcTask (t : rc_task).

(** The requests among the effects, in order: the method, and the callback. *)
Fixpoint requests (es : list rc_effect) : list (string * rc_callback) :=
  match es with
  | [] => []
  | RApi r cb :: es => (api_method r, cb) :: requests es
  | _ :: es => requests es
  end.

(** The requests of the handshake, and the one a loaded device (a send transport)
    leads to. *)
Definition ask_capabilities : string * rc_callback := ("getRouterRtpCapabilities", CbCapabilities).
Definition ask_send : string * rc_callback := ("createWebRtcTransport", CbTransport true false).
Definition ask_recv : string * rc_callback := ("createWebRtcTransport", CbTransport false true).
Definition ask_join : string * rc_callback := ("join", CbJoin).
Definition ask_after_send (o : Options) : string * rc_callback :=
  if value_or (o_consume o) false then ask_recv else ask_join.
Definition ask_after_load (o : Options) : string * rc_callback :=
  if value_or (o_produce o) false then ask_send else ask_after_send o.

Lemma requests_app es es' : requests (es ++ es') = requests es ++ requests es'.
Proof. induction es as [|[] es IH]; simpl; by rewrite ?IH. Qed.

Lemma requests_controllers (es : list (pc_effect mc_effect)) : requests (RControllers <$> es) = [].
Proof. by induction es. Qed.

Section room.
Context `{HashOrder}.
Variable parse : string -> option Value.
Variable print : Value -> string.
Variable nlohmann_parse : string -> result string Value.
Variable Load : nat -> Value -> result string bool.
Variable GetRtpCapabilities GetSctpCapabilities : nat -> string.
Variable CreateTransport : bool -> string -> Value -> list Value -> Value -> Value -> result string nat.
Implicit Types s : RoomClient.

Abbreviation run_task := (rc_run_task parse print nlohmann_parse Load GetRtpCapabilities GetSctpCapabilities
  CreateTransport).

Definition rc_run (op : rc_op) : rc_handler unit :=
  match op with
  | RcJoin peerId hostname port roomId displayName options =>
      rc_join peerId hostname port roomId displayName options
  | RcLeave => rc_leave
  | RcDestroy => rc_destroy
  | RcOnOpened => rc_onOpened
  | RcOnClosed => rc_onClosed
  | RcActiveSpeaker n => rc_onActiveSpeaker n
  | RcCapabilities e r => onCapabilitiesResponse e r
  | RcTransport p c e r => onTransportResponse p c e r
  | RcJoined e r => onJoinResponse e r
  | RcTask t => run_task t
  end.

(** ** The handshake *)

(** A run that ends, with what it asked of the server. *)
Definition runs (m : rc_handler unit) s s' (asks : list (string * rc_callback)) : Prop :=
  exists es, m s = Done (tt, s', es) /\ requests es = asks.

Lemma runs_bind m m' s s1 s2 l1 l2 :
  runs m s s1 l1 -> runs m' s1 s2 l2 -> runs (_ ← m; m') s s2 (l1 ++ l2).
Proof.
  intros (e1 & H1 & <-) (e2 & H2 & <-). exists (e1 ++ e2). rewrite requests_app. split; [|done].
  rewrite (bind_done _ _ _ _ _ _ H1). by rewrite H2.
Qed.

Lemma runs_get (f : RoomClient -> rc_handler unit) s s' l : runs (f s) s s' l -> runs (x ← get; f x) s s' l.
Proof. intros (es & Hf & Hl). exists es. split; [|done]. erewrite bind_done by done. by rewrite Hf. Qed.

Lemma runs_cons op ops s s1 s2 l1 l2 :
  runs (rc_run op) s s1 l1 -> runs (for_each ops rc_run) s1 s2 l2 ->
  runs (for_each (op :: ops) rc_run) s s2 (l1 ++ l2).
Proof. apply runs_bind. Qed.

Lemma runs_step op ops s s1 s2 l1 l2 l :
  runs (rc_run op) s s1 l1 -> runs (for_each ops rc_run) s1 s2 l2 -> l = l1 ++ l2 ->
  runs (for_each (op :: ops) rc_run) s s2 l.
Proof. intros H1 H2 ->. by apply (runs_cons op ops s s1). Qed.

Lemma runs_nil s : runs (for_each [] rc_run) s s [].
Proof. by exists []. Qed.

(** The surroundings work: the JSON texts of the device [d] parse, what the
    writer writes nlohmann reads, the device loads, transports are created. *)
Record working (d : nat) : Prop := {
  w_sctp_text : c_str (GetSctpCapabilities d) <> "";
  w_rtp_text : c_str (GetRtpCapabilities d) <> "";
  w_transport_sctp : exists x : CreateWebRtcTransportRequest_SCTPCapabilities,
    fromJsonString parse default_init (c_str (GetSctpCapabilities d)) = Ok x;
  w_join_sctp : exists x : JoinRequest_SCTPCapabilities,
    fromJsonString parse default_init (c_str (GetSctpCapabilities d)) = Ok x;
  w_join_rtp : exists x : JoinRequest_RTPCapabilities,
    fromJsonString parse default_init (c_str (GetRtpCapabilities d)) = Ok x;
  w_nlohmann v : exists v', nlohmann_parse (print v) = Ok v';
  w_load v : Load d v = Ok true;
  w_create b id i c dt sc : exists t, CreateTransport b id i c dt sc = Ok t
}.

(** The room has its components and its device. *)
Definition ready (d : nat) (o : Options) s : Prop :=
  rc_mediasoupApi s = true /\ rc_mediaController s = true /\ rc_participantController s = true /\
  rc_mediasoupDevice s = Some d /\ rc_options s = o.

Lemma the_device_some d s : rc_mediasoupDevice s = Some d -> the_device s = Done (d, s, []).
Proof. intros Hd. unfold the_device. run_M. by rewrite Hd. Qed.

Lemma reparse_ok {A} `{FieldsMap A} d (m : A) s :
  working d -> exists v, rc_reparse print nlohmann_parse m s = Done (v, s, []).
Proof.
  intros Hw. destruct (w_nlohmann d Hw (jserialize m)) as [v Hv]. exists v. unfold rc_reparse, toJsonStr.
  by rewrite Hv.
Qed.

Lemma reparse_all_ok {A} `{FieldsMap A} d (l : list A) s :
  working d -> exists vs, reparse_all print nlohmann_parse l s = Done (vs, s, []).
Proof.
  intros Hw. induction l as [|x l [vs IH]]; cbn [reparse_all]; [by exists []|].
  destruct (reparse_ok d x s Hw) as [v Hv]. exists (v :: vs).
  rewrite (bind_done _ _ _ _ _ _ Hv). rewrite (bind_done _ _ _ _ _ _ IH). done.
Qed.

Lemma requestCreateTransport_runs d o f p c s :
  working d -> ready d o s ->
  runs (requestCreateTransport parse GetSctpCapabilities f p c) s s [("createWebRtcTransport", CbTransport p c)].
Proof.
  intros Hw (Ha & _ & _ & Hd & _). unfold runs, requestCreateTransport. erewrite bind_done by done.
  rewrite Ha. simpl. destruct (value_or (o_datachannel (rc_options s)) false); [|by eexists].
  rewrite (bind_done _ _ _ _ _ _ (the_device_some d s Hd)).
  destruct (w_transport_sctp d Hw) as [x Hx]. rewrite decide_False by apply (w_sctp_text d Hw). rewrite Hx.
  by eexists.
Qed.

Lemma read_capabilities_ok {A} `{FieldsMap A, DefaultInit A} d wanted dump s :
  rc_mediasoupDevice s = Some d -> c_str (dump d) <> "" ->
  (exists x : A, fromJsonString parse default_init (c_str (dump d)) = Ok x) ->
  exists r, read_capabilities (A := A) parse wanted dump s = Done (Some r, s, []).
Proof.
  intros Hd Ht [x Hx]. unfold read_capabilities. destruct wanted; [|by eexists].
  rewrite (bind_done _ _ _ _ _ _ (the_device_some d s Hd)). rewrite decide_False by done. rewrite Hx.
  by eexists.
Qed.

Lemma joinImpl_runs d o s :
  working d -> ready d o s ->
  runs (joinImpl parse GetRtpCapabilities GetSctpCapabilities) s s [ask_join].
Proof.
  intros Hw (Ha & _ & _ & Hd & _). unfold runs, joinImpl. erewrite bind_done by done. rewrite Ha. simpl.
  destruct (read_capabilities_ok (A := JoinRequest_RTPCapabilities) d
    (value_or (o_consume (rc_options s)) false) GetRtpCapabilities s Hd (w_rtp_text d Hw) (w_join_rtp d Hw))
    as [r Hr].
  destruct (read_capabilities_ok (A := JoinRequest_SCTPCapabilities) d
    (value_or (o_datachannel (rc_options s)) false) GetSctpCapabilities s Hd (w_sctp_text d Hw) (w_join_sctp d Hw))
    as [q Hq].
  rewrite (bind_done _ _ _ _ _ _ Hr). rewrite (bind_done _ _ _ _ _ _ Hq). by eexists.
Qed.

(** A response that carries what [createTransportImpl] reads. *)
Definition complete_info (info : CreateWebRtcTransportResponse) : Prop :=
  exists data ice cands dtls sctp,
    CreateWebRtcTransportResponse_data info = Some data /\
    CreateWebRtcTransportResponse_Data_iceParameters data = Some ice /\
    CreateWebRtcTransportResponse_Data_iceCandidates data = Some cands /\
    CreateWebRtcTransportResponse_Data_dtlsParameters data = Some dtls /\
    CreateWebRtcTransportResponse_Data_sctpParameters data = Some sctp.

(** The media controller the room owns. *)
Definition the_media s : MediaController := pc_media (rc_controllers s).
Definition set_the_media (f : MediaController -> MediaController) s : RoomClient :=
  rc_set_controllers (set_media (f (the_media s)) (rc_controllers s)) s.

Lemma with_media_modify f s :
  rc_mediaController s = true -> with_media (modify f) s = Done (tt, set_the_media f s, []).
Proof. intros Hm. unfold with_media. run_M. by rewrite Hm. Qed.

Lemma createTransport_runs d o producing info s :
  working d -> ready d o s -> complete_info info ->
  exists t, runs (createTransportImpl print nlohmann_parse CreateTransport producing (negb producing) info) s
    (set_the_media (if producing then mc_set_send (Some t) else mc_set_recv (Some t))
       (if producing then rc_set_sendTransport (Some t) s else rc_set_recvTransport (Some t) s)) [].
Proof.
  intros Hw (_ & Hm & _ & Hd & _) (data & ice & cands & dtls & sctp & H1 & H2 & H3 & H4 & H5).
  destruct (reparse_ok d ice s Hw) as [vi Hvi], (reparse_all_ok d cands s Hw) as [vc Hvc],
    (reparse_ok d (auto_role dtls) s Hw) as [vd Hvd], (reparse_ok d sctp s Hw) as [vs Hvs].
  set (id := value_or (CreateWebRtcTransportResponse_Data_id data) "").
  destruct (w_create d Hw producing id vi vc vd vs) as [t Ht]. exists t.
  unfold runs, createTransportImpl. erewrite bind_done by done. rewrite Hd, H1.
  erewrite bind_done by done. rewrite H2. erewrite bind_done by done. rewrite (bind_done _ _ _ _ _ _ Hvi), H3.
  erewrite bind_done by done. rewrite (bind_done _ _ _ _ _ _ Hvc), H4.
  erewrite bind_done by done. rewrite (bind_done _ _ _ _ _ _ Hvd), H5.
  erewrite bind_done by done. rewrite (bind_done _ _ _ _ _ _ Hvs).
  replace (producing || negb producing) with true by (by destruct producing).
  fold id. erewrite bind_done by done. rewrite Ht.
  destruct producing; erewrite bind_done by done; unfold mc_setSendTransport, mc_setRecvTransport;
    rewrite with_media_modify by done; by eexists.
Qed.

Lemma onCreateSendTransport_runs d o info s :
  working d -> ready d o s -> complete_info info ->
  exists t s', runs (onCreateSendTransport parse print nlohmann_parse GetRtpCapabilities GetSctpCapabilities
      CreateTransport info) s s' [ask_after_send o] /\
    s' = set_the_media (mc_set_send (Some t)) (rc_set_sendTransport (Some t) s).
Proof.
  intros Hw Hr Hi. destruct (createTransport_runs d o true info s Hw Hr Hi) as [t Ht].
  exists t. eexists. split; [|done]. set (s1 := set_the_media _ _).
  assert (Hr1 : ready d o s1) by exact Hr.
  assert (Hrest : runs (s0 ← get; if value_or (o_consume (rc_options s0)) false
      then createRecvTransport parse GetSctpCapabilities
      else joinImpl parse GetRtpCapabilities GetSctpCapabilities) s1 s1
    [ask_after_send o]).
  { apply runs_get.
    replace (rc_options s1) with o by (symmetry; apply Hr1). unfold ask_after_send.
    destruct (value_or (o_consume o) false).
    - by apply (requestCreateTransport_runs d o).
    - by apply (joinImpl_runs d o). }
  exact (runs_bind _ _ _ _ _ [] _ Ht Hrest).
Qed.

Lemma onCreateRecvTransport_runs d o info s :
  working d -> ready d o s -> complete_info info ->
  exists t, runs (onCreateRecvTransport parse print nlohmann_parse GetRtpCapabilities GetSctpCapabilities
      CreateTransport info) s (set_the_media (mc_set_recv (Some t)) (rc_set_recvTransport (Some t) s)) [ask_join].
Proof.
  intros Hw Hr Hi. destruct (createTransport_runs d o false info s Hw Hr Hi) as [t Ht].
  exists t. refine (runs_bind _ _ _ _ _ [] _ Ht _). by apply (joinImpl_runs d o).
Qed.

Lemma load_runs d o resp s data :
  working d -> rc_mediasoupApi s = true -> rc_mediaController s = true -> rc_participantController s = true ->
  rc_mediasoupDevice s = None -> rc_devices s = d -> rc_options s = o ->
  GetRouterRtpCapabilitiesResponse_data resp = Some data ->
  exists s', runs (onLoadMediasoupDevice parse print nlohmann_parse Load GetRtpCapabilities GetSctpCapabilities
      resp) s s' [ask_after_load o] /\
    ready d o s' /\ rc_state s' = rc_state s /\ the_media s' = mc_set_device (Some d) (the_media s) /\
    pc_participantMap (rc_controllers s') = pc_participantMap (rc_controllers s).
Proof.
  intros Hw Ha Hm Hp Hd Hn Ho Hdata. destruct (reparse_ok d data s Hw) as [v Hv].
  set (s1 := rc_set_devices (S (rc_devices s)) (rc_set_mediasoupDevice (Some (rc_devices s)) s)).
  set (s2 := set_the_media (mc_set_device (Some d)) s1).
  assert (Hr : ready d o s2) by (repeat split; try done; simpl; congruence).
  exists s2. split; [|done]. unfold runs, onLoadMediasoupDevice. rewrite Hdata. erewrite bind_done by done.
  rewrite (bind_done _ _ _ _ _ _ Hv). erewrite bind_done by done. rewrite Hd.
  rewrite (bind_done _ _ s d s1 []) by (unfold s1; by rewrite <- Hn).
  rewrite (w_load d Hw v). unfold mc_setMediasoupDevice. rewrite (bind_done _ _ _ _ _ _ (with_media_modify _ s1 Hm)). fold s2.
  destruct Hr as (?&?&?&?&?) eqn:Hr'. clear Hr'.
  assert (Hready : ready d o s2) by done. rewrite Ho. unfold ask_after_load, ask_after_send.
  destruct (value_or (o_produce o) false); [|destruct (value_or (o_consume o) false)].
  - destruct (requestCreateTransport_runs d o false true false s2 Hw Hready) as (es & Hes & Hq).
    exists es. unfold createSendTransport. by rewrite Hes.
  - destruct (requestCreateTransport_runs d o false false true s2 Hw Hready) as (es & Hes & Hq).
    exists es. unfold createRecvTransport. by rewrite Hes.
  - destruct (joinImpl_runs d o s2 Hw Hready) as (es & Hes & Hq). exists es. by rewrite Hes.
Qed.

(** Creating participants one by one. *)
Lemma create_all_runs (peers : list JoinResponse_Peer) s :
  exists s', runs (for_each peers (fun peer =>
      on_participants (createParticipant (value_or (JoinResponse_Peer_id peer) "")
                         (value_or (JoinResponse_Peer_displayName peer) "")))) s s' [] /\
    rc_state s' = rc_state s /\ the_media s' = the_media s /\
    (forall pid, is_Some (pc_participantMap (rc_controllers s) !! pid) \/
                 (exists peer, peer ∈ peers /\ value_or (JoinResponse_Peer_id peer) "" = pid) ->
                 is_Some (pc_participantMap (rc_controllers s') !! pid)).
Proof.
  revert s. induction peers as [|peer peers IH]; intros s.
  { exists s. split; [by exists []|]. split; [done|]. split; [done|].
    intros pid [Hs | (q & Hq & _)]; [done | by apply not_elem_of_nil in Hq]. }
  set (id := value_or (JoinResponse_Peer_id peer) ""). set (n := value_or (JoinResponse_Peer_displayName peer) "").
  assert (Hone : exists s1, runs (on_participants (createParticipant id n)) s s1 [] /\
      rc_state s1 = rc_state s /\ the_media s1 = the_media s /\
      (forall pid, is_Some (pc_participantMap (rc_controllers s) !! pid) \/ id = pid ->
                   is_Some (pc_participantMap (rc_controllers s1) !! pid))).
  { unfold runs, on_participants, zoom. destruct (pc_participantMap (rc_controllers s) !! id) eqn:Hid.
    - rewrite createParticipant_old by eauto. exists (rc_set_controllers (rc_controllers s) s).
      split; [by eexists|]. split; [done|]. split; [done|]. intros pid [?|<-]; [done | by eexists].
    - rewrite createParticipant_new by done.
      exists (rc_set_controllers (with_new_participant id n (rc_controllers s)) s).
      split; [by eexists|]. split; [done|]. split; [done|]. simpl. intros pid Hor.
      rewrite lookup_insert. case_decide; [by eexists|]. by destruct Hor. }
  destruct Hone as (s1 & Hrun1 & Hst1 & Hmed1 & Hmap1). destruct (IH s1) as (s2 & Hrun2 & Hst2 & Hmed2 & Hmap2).
  exists s2. split; [exact (runs_bind _ _ _ _ _ [] [] Hrun1 Hrun2)|].
  split; [congruence|]. split; [congruence|].
  intros pid [Hs | (q & [->|Hq]%elem_of_cons & Hpid)]; apply Hmap2.
  - left. apply Hmap1. by left.
  - left. apply Hmap1. by right.
  - right. by exists q.
Qed.

Lemma joined_runs resp data s :
  rc_participantController s = true -> JoinResponse_data resp = Some data ->
  exists s', runs (joined_task CONNECTED resp) s s' [] /\ rc_state s' = rc_state s /\
    the_media s' = the_media s /\
    (forall peer, peer ∈ value_or (JoinResponse_Data_peers data) [] ->
       is_Some (pc_participantMap (rc_controllers s') !! value_or (JoinResponse_Peer_id peer) "")).
Proof.
  intros Hp Hd. destruct (create_all_runs (value_or (JoinResponse_Data_peers data) []) s)
    as (s' & (es & Hes & Hl) & Hst & Hmed & Hmap).
  exists s'. split; [|split; [done|split; [done|]]].
  - exists (RRoomStateChanged CONNECTED :: es). split; [|exact Hl].
    assert (Hnotify : rc_onRoomStateChanged CONNECTED s = Done (tt, s, [RRoomStateChanged CONNECTED])) by done.
    unfold joined_task. rewrite (bind_done _ _ _ _ _ _ Hnotify). erewrite bind_done by done.
    rewrite Hp, Hd. simpl. erewrite bind_done by done. by rewrite Hes.
  - intros peer Hpeer. apply Hmap. right. by exists peer.
Qed.

(** The messages of a successful handshake under the options [o]: what the
    server sends, each followed by the task it is handed to. *)
Definition handshake (o : Options) (caps : GetRouterRtpCapabilitiesResponse)
    (send recv : CreateWebRtcTransportResponse) (j : JoinResponse) : list rc_op :=
  [RcOnOpened; RcTask TaskOpened; RcCapabilities 0 (Some caps); RcTask (TaskLoadDevice caps)] ++
  ((if value_or (o_produce o) false then
      [RcTransport true false 0 (Some send); RcTask (TaskTransport true false send)] else []) ++
   ((if value_or (o_consume o) false then
       [RcTransport false true 0 (Some recv); RcTask (TaskTransport false true recv)] else []) ++
    [RcJoined 0 (Some j); RcTask (TaskJoined CONNECTED j)])).

Definition handshake_requests (o : Options) : list (string * rc_callback) :=
  [ask_capabilities] ++
  (if value_or (o_produce o) false then [ask_send] else []) ++
  (if value_or (o_consume o) false then [ask_recv] else []) ++ [ask_join].

Lemma post_runs t s : runs (emit (RPost t)) s s [].
Proof. by eexists. Qed.

Lemma caps_response_runs caps s :
  present (GetRouterRtpCapabilitiesResponse_ok caps) = true ->
  runs (onCapabilitiesResponse 0 (Some caps)) s s [].
Proof. intros Hok. unfold onCapabilitiesResponse. rewrite decide_False by (by intros []). rewrite Hok. apply post_runs. Qed.

Lemma transport_response_runs p c r s :
  present (CreateWebRtcTransportResponse_ok r) = true -> runs (onTransportResponse p c 0 (Some r)) s s [].
Proof. intros Hok. unfold onTransportResponse. rewrite decide_False by (by intros []). rewrite Hok. apply post_runs. Qed.

Lemma join_response_runs j s :
  present (JoinResponse_ok j) = true ->
  runs (onJoinResponse 0 (Some j)) s (rc_set_state CONNECTED s) [].
Proof.
  intros Hok. unfold runs, onJoinResponse. rewrite decide_False by (by intros []). rewrite Hok. by eexists.
Qed.

Lemma opened_runs s : rc_mediasoupApi s = true -> runs getRouterRtpCapabilities s s [ask_capabilities].
Proof.
  intros Ha. unfold runs, getRouterRtpCapabilities. erewrite bind_done by done. rewrite Ha. by eexists.
Qed.

Definition joining (peerId hostname : string) (port : Z) (roomId displayName : string) (o : Options) s : RoomClient :=
  rc_set_state CONNECTING (rc_set_peerId peerId (rc_set_options o (rc_set_displayName displayName
    (rc_set_roomId roomId (rc_set_port port (rc_set_hostname hostname s)))))).

Lemma join_runs peerId hostname port roomId displayName o s :
  rc_state s = CLOSED -> rc_signalingClient s = true -> hostname <> "" -> roomId <> "" -> displayName <> "" ->
  rc_join peerId hostname port roomId displayName (Some o) s =
    Done (tt, joining peerId hostname port roomId displayName o s,
          [RDisconnect; RConnect (getProtooUrl hostname port roomId peerId) "protoo";
           RRoomStateChanged CONNECTING]).
Proof.
  intros Hst Hsig Hh Hr Hn. unfold rc_join, rc_onRoomStateChanged, createComponents. run_M. rewrite Hst.
  rewrite decide_False by (by intros []). rewrite decide_False by done. rewrite decide_False by done.
  rewrite decide_False by done. simpl. rewrite Hsig. done.
Qed.

(** A room that [init] has set up and that is closed. *)
Definition idle s : Prop :=
  rc_state s = CLOSED /\ rc_signalingClient s = true /\ rc_mediasoupApi s = true /\
  rc_mediaController s = true /\ rc_participantController s = true /\ rc_mediasoupDevice s = None.

(** The last step: the join response and its task. *)
Lemma finish_runs d o j data s :
  ready d o s -> present (JoinResponse_ok j) = true -> JoinResponse_data j = Some data ->
  exists s', runs (for_each [RcJoined 0 (Some j); RcTask (TaskJoined CONNECTED j)] rc_run) s s' [] /\
    rc_state s' = CONNECTED /\ the_media s' = the_media s /\
    (forall peer, peer ∈ value_or (JoinResponse_Data_peers data) [] ->
       is_Some (pc_participantMap (rc_controllers s') !! value_or (JoinResponse_Peer_id peer) "")).
Proof.
  intros (_ & _ & Hp & _) Hok Hd.
  destruct (joined_runs j data (rc_set_state CONNECTED s) Hp Hd) as (s' & Hrun & Hst & Hmed & Hmap).
  exists s'. split; [|done].
  eapply runs_step; [exact (join_response_runs j s Hok)| |reflexivity].
  eapply runs_step; [exact Hrun | apply runs_nil | reflexivity].
Qed.

(** The receive leg, when the room consumes, up to the join request. *)
Lemma recv_leg_runs d o recv s :
  working d -> ready d o s -> value_or (o_consume o) false = true ->
  present (CreateWebRtcTransportResponse_ok recv) = true -> complete_info recv ->
  exists t, runs (for_each [RcTransport false true 0 (Some recv); RcTask (TaskTransport false true recv)] rc_run) s
    (set_the_media (mc_set_recv (Some t)) (rc_set_recvTransport (Some t) s)) [ask_join].
Proof.
  intros Hw Hr Hc Hok Hi. destruct (onCreateRecvTransport_runs d o recv s Hw Hr Hi) as [t Ht].
  exists t. eapply runs_step; [exact (transport_response_runs false true recv s Hok)| |reflexivity].
  eapply runs_step; [exact Ht | apply runs_nil | reflexivity].
Qed.

Lemma runs_app ops ops' s s1 s2 l1 l2 :
  runs (for_each ops rc_run) s s1 l1 -> runs (for_each ops' rc_run) s1 s2 l2 ->
  runs (for_each (ops ++ ops') rc_run) s s2 (l1 ++ l2).
Proof.
  revert s l1. induction ops as [|op ops IH]; intros s l1 H1 H2.
  - destruct H1 as (es & [= <- <-] & <-). exact H2.
  - destruct H1 as (es & Hes & <-). cbn [for_each] in Hes. unfold mbind, M_bind in Hes.
    destruct (rc_run op s) as [[[[] s'] e1]|] eqn:Hop; [|done].
    destruct (for_each ops rc_run s') as [[[[] s''] e2]|] eqn:Hops; [|done]. injection Hes as <- <-.
    rewrite requests_app, <- app_assoc. apply (runs_cons op (ops ++ ops') s s' s2); [by exists e1|].
    apply IH; [by exists e2 | done].
Qed.

(** From a loaded device on: the transports the options ask for, then the join. *)
Lemma legs_run d o send recv j data s :
  working d -> ready d o s ->
  present (CreateWebRtcTransportResponse_ok send) = true -> complete_info send ->
  present (CreateWebRtcTransportResponse_ok recv) = true -> complete_info recv ->
  present (JoinResponse_ok j) = true -> JoinResponse_data j = Some data ->
  exists s' l, runs (for_each
      ((if value_or (o_produce o) false then
          [RcTransport true false 0 (Some send); RcTask (TaskTransport true false send)] else []) ++
       ((if value_or (o_consume o) false then
           [RcTransport false true 0 (Some recv); RcTask (TaskTransport false true recv)] else []) ++
        [RcJoined 0 (Some j); RcTask (TaskJoined CONNECTED j)])) rc_run) s s' l /\
    [ask_after_load o] ++ l
      = (if value_or (o_produce o) false then [ask_send] else []) ++
        (if value_or (o_consume o) false then [ask_recv] else []) ++ [ask_join] /\
    rc_state s' = CONNECTED /\
    mc_device (the_media s') = mc_device (the_media s) /\
    (value_or (o_produce o) false = true -> is_Some (mc_sendTransport (the_media s'))) /\
    (value_or (o_consume o) false = true -> is_Some (mc_recvTransport (the_media s'))) /\
    (forall peer, peer ∈ value_or (JoinResponse_Data_peers data) [] ->
       is_Some (pc_participantMap (rc_controllers s') !! value_or (JoinResponse_Peer_id peer) "")).
Proof.
  intros Hw Hr Hsok Hsi Hrok Hri Hjok Hjd.
  assert (Hsend : exists s1 l1, runs (for_each (if value_or (o_produce o) false then
          [RcTransport true false 0 (Some send); RcTask (TaskTransport true false send)] else []) rc_run) s s1 l1 /\
      l1 = (if value_or (o_produce o) false then
              [ask_after_send o] else []) /\
      ready d o s1 /\ mc_device (the_media s1) = mc_device (the_media s) /\
      (value_or (o_produce o) false = true -> is_Some (mc_sendTransport (the_media s1)))).
  { destruct (value_or (o_produce o) false); [|exists s, []; split; [apply runs_nil | done]].
    destruct (onCreateSendTransport_runs d o send s Hw Hr Hsi) as (t & s1 & Ht & ->).
    exists (set_the_media (mc_set_send (Some t)) (rc_set_sendTransport (Some t) s)). eexists.
    split; [|split; [reflexivity|split; [exact Hr|split; [done|intros; by eexists]]]].
    eapply runs_step; [exact (transport_response_runs true false send s Hsok)| |reflexivity].
    eapply runs_step; [exact Ht | apply runs_nil | reflexivity]. }
  destruct Hsend as (s1 & l1 & Hrun1 & -> & Hr1 & Hdev1 & Hs1).
  assert (Hrecv : exists s2 l2, runs (for_each (if value_or (o_consume o) false then
          [RcTransport false true 0 (Some recv); RcTask (TaskTransport false true recv)] else []) rc_run) s1 s2 l2 /\
      l2 = (if value_or (o_consume o) false then [ask_join] else []) /\
      ready d o s2 /\ mc_device (the_media s2) = mc_device (the_media s1) /\
      mc_sendTransport (the_media s2) = mc_sendTransport (the_media s1) /\
      (value_or (o_consume o) false = true -> is_Some (mc_recvTransport (the_media s2)))).
  { destruct (value_or (o_consume o) false) eqn:Hc; [|exists s1, []; split; [apply runs_nil | done]].
    destruct (recv_leg_runs d o recv s1 Hw Hr1 Hc Hrok Hri) as (t & Ht).
    eexists _, _. split; [exact Ht|]. split; [done|]. split; [exact Hr1|]. split; [done|]. split; [done|].
    intros; by eexists. }
  destruct Hrecv as (s2 & l2 & Hrun2 & -> & Hr2 & Hdev2 & Hsend2 & Hs2).
  destruct (finish_runs d o j data s2 Hr2 Hjok Hjd) as (s3 & Hrun3 & Hst & Hmed & Hmap).
  exists s3. eexists. split; [exact (runs_app _ _ _ _ _ _ _ Hrun1 (runs_app _ _ _ _ _ _ _ Hrun2 Hrun3))|].
  rewrite Hmed, Hdev2, Hsend2, Hdev1. split; [|done].
  unfold ask_after_load, ask_after_send.
  by destruct (value_or (o_produce o) false), (value_or (o_consume o) false).
Qed.

(** The handshake connects.  From an idle room, [join] followed by what a
    cooperating server sends brings the room to [CONNECTED]: the client asks
    for the router's capabilities, then for a send transport iff it produces,
    then for a receive transport iff it consumes, then joins, in that order
    and nothing else; the media controller then has the device and exactly
    the transports asked for, and every peer of the answer is a participant. *)
Theorem handshake_connects peerId hostname port roomId displayName o caps send recv j capsData data s :
  idle s -> working (rc_devices s) -> hostname <> "" -> roomId <> "" -> displayName <> "" ->
  present (GetRouterRtpCapabilitiesResponse_ok caps) = true ->
  GetRouterRtpCapabilitiesResponse_data caps = Some capsData ->
  present (CreateWebRtcTransportResponse_ok send) = true -> complete_info send ->
  present (CreateWebRtcTransportResponse_ok recv) = true -> complete_info recv ->
  present (JoinResponse_ok j) = true -> JoinResponse_data j = Some data ->
  exists s', runs (for_each (RcJoin peerId hostname port roomId displayName (Some o) ::
                             handshake o caps send recv j) rc_run) s s' (handshake_requests o) /\
    rc_state s' = CONNECTED /\ mc_device (the_media s') = Some (rc_devices s) /\
    (value_or (o_produce o) false = true -> is_Some (mc_sendTransport (the_media s'))) /\
    (value_or (o_consume o) false = true -> is_Some (mc_recvTransport (the_media s'))) /\
    (forall peer, peer ∈ value_or (JoinResponse_Data_peers data) [] ->
       is_Some (pc_participantMap (rc_controllers s') !! value_or (JoinResponse_Peer_id peer) "")).
Proof.
  intros (Hst & Hsig & Ha & Hm & Hp & Hd) Hw Hh Hro Hn Hcok Hcd Hsok Hsi Hrok Hri Hjok Hjd.
  set (s1 := joining peerId hostname port roomId displayName o s).
  destruct (load_runs (rc_devices s) o caps s1 capsData Hw Ha Hm Hp Hd eq_refl eq_refl Hcd)
    as (s2 & Hload & Hr2 & _ & Hmed2 & _).
  destruct (legs_run (rc_devices s) o send recv j data s2 Hw Hr2 Hsok Hsi Hrok Hri Hjok Hjd)
    as (s3 & l & Hlegs & Hl & Hst3 & Hdev3 & Hrest).
  exists s3. split; [|split; [done|split; [by rewrite Hdev3, Hmed2|done]]].
  unfold handshake_requests. rewrite <- Hl.
  eapply runs_step; [eexists; split; [by apply join_runs | reflexivity] | | reflexivity].
  unfold handshake. eapply runs_step; [apply post_runs | | reflexivity].
  eapply runs_step; [exact (opened_runs s1 Ha) | | reflexivity].
  eapply runs_step; [exact (caps_response_runs caps s1 Hcok) | | reflexivity].
  eapply runs_step; [exact Hload | exact Hlegs | reflexivity].
Qed.

(** ** Leaving *)

(** What closing the transports does to the media controller. *)
Definition recv_closed (m : MediaController) : MediaController :=
  mc_set_dataConsumers (fun m => option_map (fun c => mkDataConsumer (dc_id c) true) <$> m)
    (mc_set_consumers (fun m => option_map (fun c =>
        mkConsumer (c_id c) (c_kind c) (c_track c) (c_enabled c) true) <$> m) m).
Definition send_closed (m : MediaController) : MediaController :=
  mc_set_producers (fun m => option_map (fun p => mkProducer (pr_id p) (pr_enabled p) true) <$> m)
    (mc_set_mic ((fun p => mkProducer (pr_id p) (pr_enabled p) true) <$> mc_micProducer m) m).

Lemma recv_closed_wf m : mc_wf m -> mc_wf (recv_closed m).
Proof. intros Hwf. exact (recv_transport_closed_preserves m Hwf). Qed.

Lemma send_closed_producers m :
  (forall k, mc_producerMap m !! k <> Some None) -> forall k, mc_producerMap (send_closed m) !! k <> Some None.
Proof. intros Hp k Hk. simpl in Hk. apply lookup_fmap_Some in Hk as ([p|] & ? & Hk); [done | by apply (Hp k)]. Qed.

(** A room whose tables [destroy()] can walk. *)
Definition sound s : Prop :=
  mc_wf (the_media s) /\ (forall k, mc_producerMap (the_media s) !! k <> Some None).

Lemma on_media_done {A} (m : mc_handler A) s a m' es :
  m (the_media s) = Done (a, m', es) ->
  on_media m s = Done (a, rc_set_controllers (set_media m' (rc_controllers s)) s, RControllers <$> (PMedia <$> es)).
Proof. intros Hm. unfold on_media, on_participants, media, zoom. unfold the_media in Hm. by rewrite Hm. Qed.

(** The client's pointers to its components are all null. *)
Definition released s : Prop :=
  rc_participantController s = false /\ rc_mediaController s = false /\ rc_mediasoupDevice s = None /\
  rc_recvTransport s = None /\ rc_sendTransport s = None.

Definition closings s : list rc_effect :=
  (match rc_recvTransport s with Some t => [RCloseRecv t] | None => [] end) ++
  (match rc_sendTransport s with Some t => [RCloseSend t] | None => [] end).

(** The media controller once the transports there are have been closed. *)
Definition transports_closed s : MediaController :=
  let m := match rc_recvTransport s with Some _ => recv_closed (the_media s) | None => the_media s end in
  match rc_sendTransport s with Some _ => send_closed m | None => m end.

(** The client without its components; the controllers, which the application may still
    hold, as they were destroyed. *)
Definition without_components s : RoomClient :=
  let c := rc_controllers s in
  mkRC (rc_state s) (rc_hostname s) (rc_port s) (rc_roomId s) (rc_peerId s) (rc_displayName s) (rc_options s)
    (rc_signalingClient s) (rc_mediasoupApi s) None (rc_devices s) None None false false
    (mkController ∅ (pc_heap c) (pc_next c) (pc_observers c) (destroyed (pc_media c))) (rc_volume s).

Lemma destroyed_closed s : destroyed (transports_closed s) = destroyed (the_media s).
Proof.
  unfold transports_closed, destroyed, send_closed, recv_closed.
  destruct (rc_recvTransport s), (rc_sendTransport s); simpl; try done; f_equal; by rewrite <- map_fmap_compose.
Qed.

Lemma transports_closed_sound s :
  sound s -> mc_wf (transports_closed s) /\ (forall k, mc_producerMap (transports_closed s) !! k <> Some None).
Proof.
  intros [Hwf Hnn]. unfold transports_closed.
  set (m := match rc_recvTransport s with Some _ => recv_closed (the_media s) | None => the_media s end).
  assert (Hm : mc_wf m /\ (forall k, mc_producerMap m !! k <> Some None)).
  { unfold m. destruct (rc_recvTransport s); [|done]. split; [by apply recv_closed_wf | exact Hnn]. }
  destruct (rc_sendTransport s); [|done]. split; [apply Hm | apply send_closed_producers, Hm].
Qed.

Lemma destroyComponents_done s :
  rc_participantController s = true -> rc_mediaController s = true -> sound s ->
  destroyComponents s =
    Done (tt, without_components s, closings s ++ (RControllers <$> (PMedia <$> destroy_effects (transports_closed s)))).
Proof.
  intros Hp Hm [Hwf Hnn]%transports_closed_sound.
  pose proof (destroy_ends _ Hwf Hnn) as Hdes. revert Hdes. unfold without_components.
  change (pc_media (rc_controllers s)) with (the_media s). rewrite <- destroyed_closed.
  set (m2 := transports_closed s). intros Hdes.
  set (m1 := match rc_recvTransport s with Some _ => recv_closed (the_media s) | None => the_media s end).
  unfold destroyComponents. erewrite bind_done by done. rewrite Hp.
  set (s0 := rc_set_participantController false (rc_set_controllers (set_map (λ _, ∅) (rc_controllers s)) s)).
  rewrite (bind_done _ _ s tt s0 []) by done.
  set (s1 := rc_set_mediasoupDevice None s0).
  rewrite (bind_done _ _ s0 tt s1 []) by
    (unfold s1; destruct (rc_mediasoupDevice s) eqn:Hd; [done|]; unfold s0; destruct s; simpl in *; by subst).
  set (s2 := rc_set_recvTransport None (rc_set_controllers (set_media m1 (rc_controllers s1)) s1)).
  rewrite (bind_done _ _ s1 tt s2 (match rc_recvTransport s with Some t => [RCloseRecv t] | None => [] end)) by
    (unfold s2, m1; destruct (rc_recvTransport s) eqn:Hd; [done|]; unfold s1, s0; destruct s as [? ? ? ? ? ? ? ? ? ? ? ? ? ? ? [] ?];
     simpl in *; by subst).
  set (s3 := rc_set_sendTransport None (rc_set_controllers (set_media m2 (rc_controllers s2)) s2)).
  rewrite (bind_done _ _ s2 tt s3 (match rc_sendTransport s with Some t => [RCloseSend t] | None => [] end)) by
    (unfold s3, m2, transports_closed; destruct (rc_sendTransport s) eqn:Hd; [done|]; unfold s2, s1, s0;
     destruct s as [? ? ? ? ? ? ? ? ? ? ? ? ? ? ? [] ?]; simpl in *; by subst).
  rewrite Hm. rewrite (bind_done _ _ _ _ _ _ (on_media_done mc_destroy s3 tt _ _ Hdes)).
  unfold closings, modify. cbv iota beta. rewrite app_nil_r, <- app_assoc. reflexivity.
Qed.

(** C4: what leaving releases, and what it leaves.  From a room that is connecting or
    connected and whose tables are sound, [leave] disconnects, closes the receive and
    then the send transport if there are any, closes what is then still open of the
    producers and consumers, and tells the observers once that the room is closed.
    Afterwards the state is CLOSED, the room id is empty, the pointers to the device,
    the transports and the two controllers are null, the participants and both tables
    of consumers are empty and the producers and the sources have null pointers in
    their tables.  The signaling client and the API stay, and so do the table of the
    peers of consumers, the options and the observers; a second [leave] does nothing. *)
Theorem leave_releases_everything s :
  rc_state s <> CLOSED -> rc_signalingClient s = true -> rc_participantController s = true ->
  rc_mediaController s = true -> sound s ->
  let c := rc_controllers s in
  let m := pc_media c in
  let s' := mkRC CLOSED (rc_hostname s) (rc_port s) "" (rc_peerId s) (rc_displayName s) (rc_options s)
    true (rc_mediasoupApi s) None (rc_devices s) None None false false
    (mkController ∅ (pc_heap c) (pc_next c) (pc_observers c)
       (mkMC (mc_options m) (mc_api m) (mc_device m) (mc_sendTransport m) (mc_recvTransport m) (mc_encodings m) None
          ((fun _ => None) <$> mc_producerMap m) ((fun _ => None) <$> mc_sourceMap m) ∅ ∅ (mc_consumerIdToPeerId m)
          (mc_observers m))) (rc_volume s) in
  rc_leave s = Done (tt, s', [RDisconnect] ++ closings s ++
    (RControllers <$> (PMedia <$> destroy_effects (transports_closed s))) ++ [RRoomStateChanged CLOSED]) /\
  (is_Some (rc_recvTransport s) -> is_Some (rc_sendTransport s) -> destroy_effects (transports_closed s) = []) /\
  rc_leave s' = Done (tt, s', []).
Proof.
  intros Hst Hsig Hp Hm Hs c m. set (s1 := rc_set_state CLOSED (rc_set_roomId "" s)).
  pose proof (destroyComponents_done s1 Hp Hm Hs) as Hd.
  assert (Htail : rc_onRoomStateChanged CLOSED s1 = Done (tt, without_components s1,
      (closings s ++ (RControllers <$> (PMedia <$> destroy_effects (transports_closed s)))) ++ [RRoomStateChanged CLOSED])).
  { unfold rc_onRoomStateChanged. rewrite decide_False by done. rewrite decide_True by done.
    by rewrite (bind_done _ _ _ _ _ _ Hd). }
  split; [|split; [|done]].
  - unfold rc_leave. erewrite bind_done by done. erewrite bind_done by done.
    rewrite decide_False by done. change (rc_signalingClient (rc_set_roomId "" s)) with (rc_signalingClient s). rewrite Hsig.
    erewrite bind_done by done. erewrite bind_done by done. fold s1. rewrite Htail.
    unfold without_components. change (rc_signalingClient s1) with (rc_signalingClient s). rewrite Hsig, <- !app_assoc. reflexivity.
  - intros [tr Hr] [ts Hts]. apply all_closed_no_effects; unfold transports_closed; rewrite Hr, Hts; simpl.
    + intros p. destruct (mc_micProducer (the_media s)); simpl; [by intros [= <-] | done].
    + intros k p. rewrite lookup_fmap. destruct (mc_producerMap (the_media s) !! k) as [[q|]|]; simpl; [by intros [= <-] | done..].
    + intros k d. rewrite lookup_fmap. destruct (mc_dataConsumerMap (the_media s) !! k) as [[q|]|]; simpl; [by intros [= <-] | done..].
    + intros k d. rewrite lookup_fmap. destruct (mc_consumerMap (the_media s) !! k) as [[q|]|]; simpl; [by intros [= <-] | done..].
Qed.

(** ** After leaving *)

(** A room cannot be used again after [leave]: the components are created
    by [init] only, so joining again works up to the capabilities response,
    whose task dereferences the null [_mediaController]. *)
Theorem rejoin_faults peerId hostname port roomId displayName o caps capsData s :
  released s -> rc_state s = CLOSED -> rc_signalingClient s = true -> rc_mediasoupApi s = true ->
  working (rc_devices s) -> hostname <> "" -> roomId <> "" -> displayName <> "" ->
  present (GetRouterRtpCapabilitiesResponse_ok caps) = true ->
  GetRouterRtpCapabilitiesResponse_data caps = Some capsData ->
  for_each [RcJoin peerId hostname port roomId displayName (Some o); RcOnOpened; RcTask TaskOpened;
            RcCapabilities 0 (Some caps); RcTask (TaskLoadDevice caps)] rc_run s =
    Fault (NullDeref "_mediaController").
Proof.
  intros (_ & Hm & Hd & _) Hst Hsig Ha Hw Hh Hr Hn Hok Hdata.
  set (s1 := joining peerId hostname port roomId displayName o s).
  destruct (opened_runs s1 Ha) as (e1 & H1 & _), (caps_response_runs caps s1 Hok) as (e2 & H2 & _).
  cbn [for_each]. erewrite bind_done by (by apply join_runs). fold s1.
  erewrite bind_done by (exact eq_refl). rewrite (bind_done _ _ _ _ _ _ H1). rewrite (bind_done _ _ _ _ _ _ H2).
  assert (Hload : rc_run (RcTask (TaskLoadDevice caps)) s1 = Fault (NullDeref "_mediaController")).
  { cbn [rc_run rc_run_task]. unfold onLoadMediasoupDevice. rewrite Hdata. erewrite bind_done by done.
    destruct (reparse_ok _ capsData s1 Hw) as [v Hv]. rewrite (bind_done _ _ _ _ _ _ Hv).
    erewrite bind_done by done. change (rc_mediasoupDevice s1) with (rc_mediasoupDevice s). rewrite Hd.
    set (s2 := rc_set_devices (S (rc_devices s1)) (rc_set_mediasoupDevice (Some (rc_devices s1)) s1)).
    rewrite (bind_done _ _ s1 (rc_devices s1) s2 []) by done.
    change (rc_devices s1) with (rc_devices s). rewrite (w_load _ Hw v).
    unfold with_media. unfold mbind at 1, M_bind at 1.
    erewrite bind_done by done. change (rc_mediaController s2) with (rc_mediaController s). by rewrite Hm. }
  unfold mbind, M_bind. by rewrite Hload.
Qed.

(** A join response that arrives after [leave] reopens a dead room: the
    state becomes [CONNECTED] and the observers are told so, although every
    component is gone; [isAudioMuted()] dereferences a null pointer, and a new
    [join] is refused as a meeting already going on. *)
Theorem late_join_response j s :
  released s -> rc_state s = CLOSED -> present (JoinResponse_ok j) = true ->
  exists s', for_each [RcJoined 0 (Some j); RcTask (TaskJoined CONNECTED j)] rc_run s =
      Done (tt, s', [RPost (TaskJoined CONNECTED j); RRoomStateChanged CONNECTED]) /\
    rc_state s' = CONNECTED /\ released s' /\
    rc_isAudioMuted s' = Fault (NullDeref "_mediaController") /\
    (forall peerId hostname port roomId displayName o,
       rc_join peerId hostname port roomId displayName o s' = Done (tt, s', [])).
Proof.
  intros (Hp & Hm & Hrest) Hst Hok. exists (rc_set_state CONNECTED s).
  split; [|split; [done|split; [done|split]]].
  - cbn [for_each rc_run rc_run_task]. unfold onJoinResponse, joined_task, rc_onRoomStateChanged. run_M.
    try rewrite decide_False by (by intros []). rewrite Hok. simpl. by rewrite Hp.
  - unfold rc_isAudioMuted, with_media. run_M. by rewrite Hm.
  - intros. unfold rc_join. run_M. done.
Qed.

(** A refusal is taken for a success.  The callbacks test [!response->ok]
    on an [absl::optional<bool>], that is, whether the server sent an [ok]
    member at all; a response with [ok] false and no error code therefore goes
    on with the handshake, and a refused [join] makes the room [CONNECTED]. *)
Theorem refusal_is_success caps t j s :
  GetRouterRtpCapabilitiesResponse_ok caps = Some false -> CreateWebRtcTransportResponse_ok t = Some false ->
  JoinResponse_ok j = Some false ->
  rc_run (RcCapabilities 0 (Some caps)) s = Done (tt, s, [RPost (TaskLoadDevice caps)]) /\
  (forall p c, rc_run (RcTransport p c 0 (Some t)) s = Done (tt, s, [RPost (TaskTransport p c t)])) /\
  rc_run (RcJoined 0 (Some j)) s = Done (tt, rc_set_state CONNECTED s, [RPost (TaskJoined CONNECTED j)]).
Proof.
  intros H1 H2 H3. cbn [rc_run]. unfold onCapabilitiesResponse, onTransportResponse, onJoinResponse.
  rewrite !decide_False by (by intros []). rewrite H1, H2, H3. done.
Qed.

(** ** The state machine *)

(** The changes of [_state] a call or task may make. *)
Definition allowed (op : rc_op) (st st' : RoomState) : Prop :=
  st' = st \/
  match op with
  | RcJoin _ hostname _ roomId displayName _ =>
      st = CLOSED /\ st' = CONNECTING /\ hostname <> "" /\ roomId <> "" /\ displayName <> ""
  | RcLeave | RcTask TaskClosed => st' = CLOSED
  | RcJoined 0 (Some j) => st' = CONNECTED /\ present (JoinResponse_ok j) = true
  | _ => False
  end.

Definition in_state (st : RoomState) s : Prop := rc_state s = st.

(** A handler that leaves [_state] alone. *)
Definition keeps {A} (m : rc_handler A) : Prop := forall st, preserves (in_state st) m.

Lemma keeps_bind {A B} (m : rc_handler A) (f : A -> rc_handler B) :
  keeps m -> (forall a, keeps (f a)) -> keeps (mbind f m).
Proof. intros Hm Hf st. apply preserves_bind; [apply Hm | intros a; apply Hf]. Qed.
Lemma keeps_ret {A} (a : A) : keeps (mret a : rc_handler A).
Proof. by intros st s. Qed.
Lemma keeps_get : keeps (get : rc_handler RoomClient).
Proof. by intros st s. Qed.
Lemma keeps_emit e : keeps (emit e : rc_handler unit).
Proof. by intros st s. Qed.
Lemma keeps_throw {A} f : keeps (throw f : rc_handler A).
Proof. by intros st s. Qed.
Lemma keeps_deref {A} w (p : option A) : keeps (deref w p : rc_handler A).
Proof. by destruct p; intros st s. Qed.
Lemma keeps_value {A} w (p : option A) : keeps (value w p : rc_handler A).
Proof. by destruct p; intros st s. Qed.
Lemma keeps_modify f : (forall s, rc_state (f s) = rc_state s) -> keeps (modify f : rc_handler unit).
Proof. intros Hf st s Hs. unfold in_state, wlp, modify in *. by rewrite Hf. Qed.
Lemma keeps_on_participants {A} (m : M (ParticipantController MediaController) (pc_effect mc_effect) A) :
  keeps (on_participants m).
Proof.
  intros st s Hs. unfold wlp, on_participants, zoom. by destruct (m (rc_controllers s)) as [[[]]|].
Qed.
Lemma keeps_on_media {A} (m : mc_handler A) : keeps (on_media m).
Proof. apply keeps_on_participants. Qed.
Lemma keeps_for_each {A} (l : list A) (body : A -> rc_handler unit) :
  (forall x, keeps (body x)) -> keeps (for_each l body).
Proof. intros Hb st. apply preserves_for_each. intros x _. apply Hb. Qed.
End room.

#[export] Hint Resolve keeps_ret keeps_get keeps_emit keeps_throw keeps_deref keeps_value keeps_on_participants
  keeps_on_media : rtc.

(** Discharges [keeps] along the structure of a handler. *)
Ltac keep_state :=
  repeat first
    [ solve [auto with rtc]
    | solve [apply keeps_modify; done]
    | apply keeps_bind; [|intros]
    | match goal with
      | |- keeps (if ?b then _ else _) => destruct b
      | |- keeps (match ?x with _ => _ end) => destruct x
      end ].

Section machine.
Context `{HashOrder}.
Variable parse : string -> option Value.
Variable print : Value -> string.
Variable nlohmann_parse : string -> result string Value.
Variable Load : nat -> Value -> result string bool.
Variable GetRtpCapabilities GetSctpCapabilities : nat -> string.
Variable CreateTransport : bool -> string -> Value -> list Value -> Value -> Value -> result string nat.
Implicit Types s : RoomClient.

Lemma keeps_reparse {A} `{FieldsMap A} (m : A) : keeps (rc_reparse print nlohmann_parse m).
Proof. unfold rc_reparse. keep_state. Qed.
Lemma keeps_reparse_all {A} `{FieldsMap A} (l : list A) : keeps (reparse_all print nlohmann_parse l).
Proof. induction l; cbn [reparse_all]; keep_state; apply keeps_reparse. Qed.
Lemma keeps_with_media {A} (m : mc_handler A) : keeps (with_media m).
Proof. unfold with_media. keep_state. Qed.
Lemma keeps_the_device : keeps the_device.
Proof. unfold the_device. keep_state. Qed.
End machine.

#[export] Hint Resolve keeps_reparse keeps_reparse_all keeps_with_media keeps_the_device : rtc.

Section transitions.
Context `{HashOrder}.
Variable parse : string -> option Value.
Variable print : Value -> string.
Variable nlohmann_parse : string -> result string Value.
Variable Load : nat -> Value -> result string bool.
Variable GetRtpCapabilities GetSctpCapabilities : nat -> string.
Variable CreateTransport : bool -> string -> Value -> list Value -> Value -> Value -> result string nat.
Implicit Types s : RoomClient.

Lemma keeps_destroyComponents : keeps destroyComponents.
Proof. unfold destroyComponents. keep_state. Qed.
Lemma keeps_onRoomStateChanged st : keeps (rc_onRoomStateChanged st).
Proof.
  unfold rc_onRoomStateChanged, createComponents.
  keep_state; first [apply keeps_ret | apply keeps_destroyComponents].
Qed.
Lemma keeps_requestCreateTransport f p c : keeps (requestCreateTransport parse GetSctpCapabilities f p c).
Proof. unfold requestCreateTransport. keep_state; apply keeps_ret. Qed.
Lemma keeps_read_capabilities {A} `{FieldsMap A, DefaultInit A} wanted dump :
  keeps (read_capabilities (A := A) parse wanted dump).
Proof. unfold read_capabilities. keep_state. Qed.
Lemma keeps_joinImpl : keeps (joinImpl parse GetRtpCapabilities GetSctpCapabilities).
Proof.
  unfold joinImpl. apply keeps_bind; [auto with rtc|]. intros s0.
  destruct (negb _); [apply keeps_ret|]. apply keeps_bind; [apply keeps_read_capabilities|]. intros [rtp|]; [|apply keeps_ret].
  apply keeps_bind; [apply keeps_read_capabilities|]. intros [sctp|]; [apply keeps_emit | apply keeps_ret].
Qed.
Lemma keeps_createTransportImpl p c info :
  keeps (createTransportImpl print nlohmann_parse CreateTransport p c info).
Proof. unfold createTransportImpl. keep_state; apply keeps_ret. Qed.
#[local] Hint Resolve keeps_requestCreateTransport keeps_joinImpl : rtc.
Lemma keeps_load r : keeps (onLoadMediasoupDevice parse print nlohmann_parse Load GetRtpCapabilities
  GetSctpCapabilities r).
Proof.
  unfold onLoadMediasoupDevice, createSendTransport, createRecvTransport.
  keep_state; apply keeps_ret.
Qed.

Lemma keeps_allowed op (m : rc_handler unit) s :
  keeps m -> wlp m (fun _ s' _ => allowed op (rc_state s) (rc_state s')) s.
Proof.
  intros Hm. eapply wlp_mono; [|exact (Hm (rc_state s) s eq_refl)]. intros ? s' es Hs. left. exact Hs.
Qed.

Abbreviation run := (rc_run parse print nlohmann_parse Load GetRtpCapabilities GetSctpCapabilities CreateTransport).

(** C2: the room's state machine.  [_state] changes in these ways only: [join]
    takes a closed room with non-empty arguments to [CONNECTING], a positive
    join response takes it to [CONNECTED], [leave] and the closing of the
    connection take it to [CLOSED]; no other call, response or task touches it. *)
Theorem room_state_machine op s s' es :
  run op s = Done (tt, s', es) -> allowed op (rc_state s) (rc_state s').
Proof.
  cut (wlp (run op) (fun _ s' _ => allowed op (rc_state s) (rc_state s')) s).
  { intros Hw Hrun. unfold wlp in Hw. by rewrite Hrun in Hw. }
  destruct op as [| | | | | | | |e j|[]]; cbn [rc_run rc_run_task].
  - unfold rc_join. wlp_run; try (by left).
    eapply wlp_mono; [|refine (keeps_onRoomStateChanged CONNECTING CONNECTING _ _); reflexivity].
    intros ? s1 es1 Hs1. right. unfold in_state in Hs1. rewrite Hs1. simpl.
    split; [|done]. destruct (decide (rc_state s = CLOSED)); [done|]. by exfalso.
  - unfold rc_leave. wlp_run; try (by left).
    eapply wlp_mono; [|refine (keeps_onRoomStateChanged CLOSED CLOSED _ _); reflexivity].
    intros ? s1 es1 Hs1. right. exact Hs1.
  - apply keeps_allowed. unfold rc_destroy. keep_state.
  - apply keeps_allowed, keeps_emit.
  - apply keeps_allowed, keeps_emit.
  - apply keeps_allowed. unfold rc_onActiveSpeaker. keep_state; apply keeps_ret.
  - apply keeps_allowed. unfold onCapabilitiesResponse. keep_state; apply keeps_ret.
  - apply keeps_allowed. unfold onTransportResponse. keep_state; apply keeps_ret.
  - unfold onJoinResponse. wlp_run; try (by left). right. simpl.
    destruct (decide (e = 0%Z)) as [->|]; [|by exfalso].
    split; [done|]. by apply negb_false_iff.
  - apply keeps_allowed. unfold getRouterRtpCapabilities. keep_state; apply keeps_ret.
  - unfold closed_task. wlp_run.
    eapply wlp_mono; [|refine (keeps_onRoomStateChanged CLOSED CLOSED _ _); reflexivity].
    intros ? s1 es1 Hs1. right. exact Hs1.
  - apply keeps_allowed, keeps_load.
  - apply keeps_allowed. unfold onCreateSendTransport, onCreateRecvTransport, createRecvTransport.
    destruct producing; [|destruct consuming; [|apply keeps_ret]];
      (apply keeps_bind; [apply keeps_createTransportImpl | intros]).
    + apply keeps_bind; [apply keeps_get | intros]. case_match; [apply keeps_requestCreateTransport | apply keeps_joinImpl].
    + apply keeps_joinImpl.
  - apply keeps_allowed. unfold joined_task. apply keeps_bind; [apply keeps_onRoomStateChanged | intros].
    apply keeps_bind; [apply keeps_get | intros]. case_match; [apply keeps_ret|].
    apply keeps_bind; [apply keeps_value | intros]. apply keeps_for_each. intros. apply keeps_on_participants.
Qed.
End transitions.

(** ** Options and track names *)

Section options.
Context `{HashOrder}.
Implicit Types s : RoomClient.

Lemma init_idle :
  exists s0 es, rc_init new_room_client = Done (tt, s0, es) /\ idle s0 /\ sound s0 /\
    mc_options (the_media s0) = OptionsDefault /\ mc_api (the_media s0) = true /\
    mc_producerMap (the_media s0) = ∅ /\ mc_sourceMap (the_media s0) = ∅.
Proof.
  eexists _, _. split; [reflexivity|]. split; [done|]. split; [|done].
  split; [split|]; cbn; intros k; [intros p|..]; by rewrite lookup_empty.
Qed.

Lemma enableVideo_default CanProduce Produce trackName w h m :
  can_send CanProduce "video" m -> mc_options m = OptionsDefault ->
  mc_producerMap m !! trackName = None -> mc_sourceMap m !! trackName = None ->
  forall m' es, mc_enableVideo CanProduce Produce true trackName w h m = Done (tt, m', es) ->
  exists co app, es = [MProduce "video" None co app].
Proof.
  intros ((d & Hd & Hcan) & [t Ht] & _) Ho Hp Hs m' es. unfold mc_enableVideo, map_at, produce. run_M.
  rewrite Hd. simpl. rewrite Hcan. simpl. rewrite Ht. simpl. rewrite Hp. simpl. rewrite Hs. simpl. rewrite Ho. simpl.
  destruct (Produce _ _ _ _); simpl; [|done]. intros [= _ <-]. by eexists _, _.
Qed.

(** The options of [join] do not reach the media controller, which keeps
    the default options the client had when [init] created it: after [init]
    and a [join] that asks for simulcast the client has the options, the
    controller the defaults, and every video it then turns on is produced
    without encodings. *)
Theorem join_options_ignored peerId hostname port roomId displayName o :
  hostname <> "" -> roomId <> "" -> displayName <> "" ->
  exists s0 es0 s1 es1,
    rc_init new_room_client = Done (tt, s0, es0) /\
    rc_join peerId hostname port roomId displayName (Some o) s0 = Done (tt, s1, es1) /\
    rc_options s1 = o /\ mc_options (the_media s1) = OptionsDefault /\
    (forall CanProduce Produce trackName w h d t m' es,
       CanProduce d "video" = true ->
       mc_enableVideo CanProduce Produce true trackName w h
         (mc_set_send (Some t) (mc_set_device (Some d) (the_media s1))) = Done (tt, m', es) ->
       exists co app, es = [MProduce "video" None co app]).
Proof.
  intros Hh Hr Hn. destruct init_idle as (s0 & es0 & Hi & (Hst & Hsig & Ha & Hm & Hp & Hd) & _ & Ho & Hapi & Hprod & Hsrc).
  exists s0, es0. eexists _, _. split; [done|]. split; [by apply join_runs|]. split; [done|]. split; [done|].
  intros CanProduce Produce trackName w h d t m' es Hcan. clear Hi.
  apply enableVideo_default; [|exact Ho|..].
  - split; [by exists d|]. split; [by exists t | exact Hapi].
  - change (mc_producerMap (the_media s0) !! trackName = None). by rewrite Hprod, lookup_empty.
  - change (mc_sourceMap (the_media s0) !! trackName = None). by rewrite Hsrc, lookup_empty.
Qed.

Lemma sharing_app_roundtrip st st0 : sharing_app_from_json (sharing_app_to_json st) st0 = Ok st.
Proof. by destruct st as [[name]]. Qed.

(** The name of a local video track reaches the server: the application
    data [enableVideo] attaches to the producer comes back through [OnProduce],
    which puts the same track name into the [produce] request. *)
Theorem track_name_reaches_server parse transportId kind rtpDump rtpp trackName s :
  rc_mediasoupApi s = true -> c_str rtpDump <> "" ->
  fromJsonString parse default_init (c_str rtpDump) = Ok rtpp ->
  rc_onProduce parse transportId kind rtpDump
    (sharing_app_to_json (mkSharingAppData (mkSharing trackName))) s =
    Done (None, s,
      [RApi (AProduce (Some (mk_ProduceRequest_Data (Some transportId) (Some kind) (Some rtpp)
               (Some (mk_ProduceRequest_AppData None
                        (Some (mk_ProduceRequest_SharingData (Some trackName)))))))) CbProduce]).
Proof.
  intros Ha Ht Hp. unfold rc_onProduce, produce_app_data. run_M. rewrite Ha. simpl.
  rewrite decide_False by done. by rewrite Hp.
Qed.
End options.

(** ** Witnesses *)

Definition sample_parse (text : string) : option Value := Some (JObject []).
Definition sample_print (v : Value) : string := "{}".
Definition sample_Load (d : nat) (v : Value) : result string bool := Ok true.
Definition sample_dump (d : nat) : string := "{}".
Definition sample_Create (producing : bool) (id : string) (ice : Value) (c : list Value) (dt sc : Value) :
    result string nat := Ok 5%nat.

Abbreviation sample_room_run :=
  (rc_run sample_parse sample_print sample_nlohmann sample_Load sample_dump sample_dump sample_Create).

Lemma sample_working d :
  working sample_parse sample_print sample_nlohmann sample_Load sample_dump sample_dump sample_Create d.
Proof.
  split; try discriminate; try (eexists; vm_compute; reflexivity); try reflexivity.
Defined.

(** An idle room, and one that has been left. *)
Definition idle_room : RoomClient :=
  mkRC CLOSED "" 0 "" "" "" OptionsDefault true true None O None None true true
    (new_controller (new_media_controller OptionsDefault true)) 0.
Definition left_room : RoomClient :=
  mkRC CLOSED "h" 443 "" "p" "me" OptionsDefault true true None O None None false false
    (new_controller (new_media_controller OptionsDefault true)) 0.
Definition open_room : RoomClient := rc_set_sendTransport (Some 5%nat) (rc_set_state CONNECTED idle_room).

Definition sample_caps : GetRouterRtpCapabilitiesResponse :=
  mk_GetRouterRtpCapabilitiesResponse (Some true) (Some 1) (Some true) (Some default_init).
Definition sample_transport : CreateWebRtcTransportResponse :=
  mk_CreateWebRtcTransportResponse (Some true) (Some 2) (Some true)
    (Some (mk_CreateWebRtcTransportResponse_Data (Some "t") (Some default_init) (Some []) (Some default_init)
             (Some default_init))).
Definition sample_join : JoinResponse :=
  mk_JoinResponse (Some true) (Some 3) (Some true)
    (Some (mk_JoinResponse_Data (Some [mk_JoinResponse_Peer (Some "bob") (Some "Bob") None]))).

Lemma sample_transport_complete : complete_info sample_transport.
Proof. eexists _, _, _, _, _. repeat split; reflexivity. Defined.

Lemma handshake_connects_witness :
  exists s' es, for_each (RcJoin "me" "host" 443 "room" "Me" (Some OptionsDefault) ::
      handshake OptionsDefault sample_caps sample_transport sample_transport sample_join) sample_room_run idle_room =
    Done (tt, s', es) /\
    requests es = [ask_capabilities; ask_send; ask_recv; ask_join] /\
    rc_state s' = CONNECTED /\ is_Some (pc_participantMap (rc_controllers s') !! "bob").
Proof.
  destruct (handshake_connects sample_parse sample_print sample_nlohmann sample_Load sample_dump sample_dump
    sample_Create "me" "host" 443 "room" "Me" OptionsDefault sample_caps sample_transport sample_transport
    sample_join default_init (mk_JoinResponse_Data (Some [mk_JoinResponse_Peer (Some "bob") (Some "Bob") None]))
    idle_room) as (s' & (es & Hes & Hreq) & Hst & _ & _ & _ & Hmap).
  - repeat split.
  - apply sample_working.
  - discriminate.
  - discriminate.
  - discriminate.
  - reflexivity.
  - reflexivity.
  - reflexivity.
  - apply sample_transport_complete.
  - reflexivity.
  - apply sample_transport_complete.
  - reflexivity.
  - reflexivity.
  - exists s', es. split; [exact Hes|]. split; [exact Hreq|]. split; [exact Hst|].
    exact (Hmap _ (list_elem_of_here _ _)).
Defined.

Lemma empty_media_sound s : the_media s = new_media_controller OptionsDefault true -> sound s.
Proof.
  intros Hm. unfold sound. rewrite Hm. split; [split|]; cbn; intros k; [intros p|..]; by rewrite lookup_empty.
Defined.

Lemma leave_releases_everything_witness :
  exists s', rc_leave open_room = Done (tt, s', [RDisconnect; RCloseSend 5; RRoomStateChanged CLOSED]) /\
    released s' /\ rc_state s' = CLOSED /\ rc_leave s' = Done (tt, s', []).
Proof.
  destruct (leave_releases_everything open_room) as (Hrun & _ & Hagain);
    [discriminate | reflexivity | reflexivity | reflexivity | apply empty_media_sound; reflexivity |].
  rewrite all_closed_no_effects in Hrun by (cbn; intros *; rewrite ?lookup_fmap, ?lookup_empty; discriminate).
  eexists. split; [exact Hrun|]. split; [repeat split | split; [reflexivity | exact Hagain]].
Defined.

Lemma rejoin_faults_witness :
  for_each [RcJoin "me" "host" 443 "room" "Me" (Some OptionsDefault); RcOnOpened; RcTask TaskOpened;
            RcCapabilities 0 (Some sample_caps); RcTask (TaskLoadDevice sample_caps)] sample_room_run left_room =
    Fault (NullDeref "_mediaController").
Proof.
  apply (rejoin_faults sample_parse sample_print sample_nlohmann sample_Load sample_dump sample_dump sample_Create)
    with (capsData := default_init); try reflexivity; try discriminate.
  - repeat split.
  - apply sample_working.
Defined.

Lemma late_join_response_witness :
  exists s', for_each [RcJoined 0 (Some sample_join); RcTask (TaskJoined CONNECTED sample_join)]
      sample_room_run left_room =
    Done (tt, s', [RPost (TaskJoined CONNECTED sample_join); RRoomStateChanged CONNECTED]) /\
    rc_isAudioMuted s' = Fault (NullDeref "_mediaController").
Proof.
  destruct (late_join_response sample_parse sample_print sample_nlohmann sample_Load sample_dump sample_dump
    sample_Create sample_join left_room) as (s' & Hrun & _ & _ & Hf & _).
  - repeat split.
  - reflexivity.
  - reflexivity.
  - exists s'. split; [exact Hrun | exact Hf].
Defined.

Lemma refusal_is_success_witness :
  exists s', sample_room_run (RcJoined 0 (Some (mk_JoinResponse (Some true) (Some 3) (Some false) None))) idle_room
    = Done (tt, s', [RPost (TaskJoined CONNECTED (mk_JoinResponse (Some true) (Some 3) (Some false) None))]) /\
    rc_state s' = CONNECTED.
Proof.
  destruct (refusal_is_success sample_parse sample_print sample_nlohmann sample_Load sample_dump sample_dump
    sample_Create (mk_GetRouterRtpCapabilitiesResponse None None (Some false) None)
    (mk_CreateWebRtcTransportResponse None None (Some false) None)
    (mk_JoinResponse (Some true) (Some 3) (Some false) None) idle_room) as (_ & _ & Hrun);
    [reflexivity..|]. eexists. split; [exact Hrun | reflexivity].
Defined.

Lemma room_state_machine_witness :
  exists s' es, sample_room_run (RcJoined 0 (Some sample_join)) idle_room = Done (tt, s', es) /\
    allowed (RcJoined 0 (Some sample_join)) (rc_state idle_room) (rc_state s').
Proof.
  eexists _, _. split; [reflexivity|].
  apply (room_state_machine sample_parse sample_print sample_nlohmann sample_Load sample_dump sample_dump
    sample_Create _ idle_room _ [RPost (TaskJoined CONNECTED sample_join)]). reflexivity.
Defined.

Lemma join_options_ignored_witness :
  exists s0 es0 s1 es1, rc_init new_room_client = Done (tt, s0, es0) /\
    rc_join "me" "host" 443 "room" "Me" (Some (mkOptions (Some true) None None (Some true) (Some true) None None
      None None None None)) s0 = Done (tt, s1, es1) /\
    mc_options (the_media s1) = OptionsDefault.
Proof.
  destruct (join_options_ignored "me" "host" 443 "room" "Me" (mkOptions (Some true) None None (Some true)
    (Some true) None None None None None None)) as (s0 & es0 & s1 & es1 & Hi & Hj & _ & Ho & _); [discriminate..|].
  exists s0, es0, s1, es1. split; [exact Hi|]. split; [exact Hj | exact Ho].
Defined.

Lemma track_name_reaches_server_witness :
  exists rtpp, rc_onProduce sample_parse "t" "video" "{}" (sharing_app_to_json (mkSharingAppData (mkSharing "front")))
    idle_room = Done (None, idle_room,
      [RApi (AProduce (Some (mk_ProduceRequest_Data (Some "t") (Some "video") (Some rtpp)
               (Some (mk_ProduceRequest_AppData None (Some (mk_ProduceRequest_SharingData (Some "front"))))))))
         CbProduce]).
Proof.
  eexists. eapply track_name_reaches_server; [reflexivity | discriminate | vm_compute; reflexivity].
Defined.
