(* ===== verification/RtcClient.v ===== *)
(** * RtcClient

    Models [sdk/rtc_client.cpp]: the client applications embed.  It joins a room,
    turns its camera track on once connected (role 0), and attaches a receiver
    to every remote video track (role 1).  Calls on the room client, the
    controllers and WebRTC are effects; the arguments of the [DLOG] macro are
    evaluated in every build, so what they dereference counts.

    [deliver_participants] hands what the participant controller tells its
    observers to the client. *)

From stdpp Require Import base gmap strings list.
From Stdlib Require Import ZArith Lia.
From S2P Require Import Prelude Json SignalingModels Observable MediasoupApi ParticipantController MediaController MediaControllerFacts RemoteMedia RoomClient.

#[local] Open Scope string_scope.
#[local] Open Scope list_scope.

Record RtcClient : Type := mkRtc {
  rtc_room_client : bool;                  (* [_room_client] is not null *)
  rtc_ip : string;
  rtc_port : Z;
  rtc_room_id : string;
  rtc_user_name : string;
  rtc_role : Z;
  rtc_video_receivers : gmap nat string;   (* track -> the receiver's track name *)
  rtc_cb : option nat
}.

Definition new_rtc_client (ip : string) (port : Z) (room_id user_name : string) (role : Z) : RtcClient :=
  mkRtc false ip port room_id user_name role ∅ None.

Inductive rtc_effect : Type :=
| CCreateRoomClient
| CObserveRoom
| CUnobserveRoom
| CObserveParticipants
| CUnobserveParticipants
| CJoin (ip : string) (port : Z) (room_id user_name : string)
| CLeave
| CEnableVideo (enabled : bool) (trackName : string) (width height : Z)
| CInputFrame (trackName : string) (data : list Z)
| CAddSink (track : nat) (trackName : string) (cb : option nat).

Abbreviation rtc_handler := (M RtcClient rtc_effect).

Definition rtc_set_room (b : bool) (s : RtcClient) : RtcClient :=
  mkRtc b (rtc_ip s) (rtc_port s) (rtc_room_id s) (rtc_user_name s) (rtc_role s) (rtc_video_receivers s) (rtc_cb s).
Definition rtc_set_receivers (f : gmap nat string -> gmap nat string) (s : RtcClient) : RtcClient :=
  mkRtc (rtc_room_client s) (rtc_ip s) (rtc_port s) (rtc_room_id s) (rtc_user_name s) (rtc_role s)
    (f (rtc_video_receivers s)) (rtc_cb s).
Definition rtc_set_cb (cb : option nat) (s : RtcClient) : RtcClient :=
  mkRtc (rtc_room_client s) (rtc_ip s) (rtc_port s) (rtc_room_id s) (rtc_user_name s) (rtc_role s)
    (rtc_video_receivers s) cb.

(** [participants], [media]: whether [getParticipantController()] and
    [getMediaController()] give a pointer. *)
Definition rtc_init (participants : bool) : rtc_handler unit :=
  _ ← emit CCreateRoomClient;
  _ ← modify (rtc_set_room true);
  _ ← emit CObserveRoom;
  _ ← (if participants then emit CObserveParticipants else skip);
  s ← get;
  emit (CJoin (rtc_ip s) (rtc_port s) (rtc_room_id s) (rtc_user_name s)).

(** [_room_client->...]. *)
Definition the_room : rtc_handler unit :=
  s ← get; if rtc_room_client s then skip else throw (NullDeref "_room_client").

Definition rtc_destroy (participants : bool) : rtc_handler unit :=
  _ ← the_room;
  _ ← emit CUnobserveRoom;
  _ ← (if participants then emit CUnobserveParticipants else skip);
  _ ← emit CLeave;
  modify (rtc_set_room false).

Definition setYuvCallback (cb : option nat) : rtc_handler unit :=
  s ← get; if (rtc_role s =? 1)%Z then modify (rtc_set_cb cb) else skip.

Definition rtc_inputFrame (media : bool) (trackName : string) (data : list Z) : rtc_handler unit :=
  _ ← the_room;
  if media then emit (CInputFrame trackName data) else skip.

Definition rtc_onRoomStateChanged (state : RoomState) : rtc_handler unit :=
  s ← get;
  if decide (state = CONNECTED) then
    if rtc_room_client s && (rtc_role s =? 0)%Z then emit (CEnableVideo true "front" 1280 720) else skip
  else skip.

Definition rtc_onCreateRemoteVideoTrack (tid : string) (track : track_ptr) (appData : Value) : rtc_handler unit :=
  match sharing_app_from_json appData (mkSharingAppData (mkSharing "")) with
  | Err (TypeError e) => throw (Thrown e)
  | Ok sharingAppData =>
      t ← deref "track" track;
      s ← get;
      if (rtc_role s =? 1)%Z then
        let name := sharing_trackName (sharing_appdata sharingAppData) in
        _ ← emit (CAddSink t name (rtc_cb s));
        modify (rtc_set_receivers <[t := name]>)
      else skip
  end.

Definition rtc_onRemoveRemoteVideoTrack (tid : string) (track : track_ptr) : rtc_handler unit :=
  t ← deref "track" track;
  s ← get;
  if (rtc_role s =? 1)%Z then modify (rtc_set_receivers (delete t)) else skip.

(** The other callbacks only log. *)
Definition rtc_on_participant (e : ParticipantEvent) : rtc_handler unit :=
  match e with
  | PCreateRemoteVideoTrack _ tid track appData => rtc_onCreateRemoteVideoTrack tid track appData
  | PRemoveRemoteVideoTrack _ tid track => rtc_onRemoveRemoteVideoTrack tid track
  | _ => skip
  end.

(** ** The end of a remote video *)

Definition deliver_participants (es : list ParticipantEvent) : rtc_handler unit := for_each es rtc_on_participant.

Section removal.
Context `{HashOrder}.

(** C37: the end of a remote video crashes the application.  When the server
    closes a video consumer of a registered participant, the media controller
    tells its observers with a null track ([auto track] is commented out), the
    participant controller passes the null track on, and
    [RtcClient::onRemoveRemoteVideoTrack] dereferences it, whatever its role. *)
Theorem remote_video_end_crashes alive current self print nlohmann_parse Consume ConsumeData
    (pc : ParticipantController MediaController) (app : RtcClient) tid pid p q c :
  mc_wf (pc_media pc) -> registered alive current self (pc_media pc) -> known pid p pc -> pc_heap pc !! p = Some q ->
  mc_consumerMap (pc_media pc) !! tid = Some (Some c) -> c_kind c = "video" ->
  mc_consumerIdToPeerId (pc_media pc) !! tid = Some pid ->
  exists pc' es',
    media_task alive current self print nlohmann_parse Consume ConsumeData
      (TaskConsumerClosed (consumer_closed tid)) pc = Done (tt, pc', es') /\
    deliver_participants (notifications es') app = Fault (NullDeref "track").
Proof.
  intros Hwf Hreg Hk Hq Hc Hkind Hpeer.
  destruct (closed_video_run alive current self print nlohmann_parse Consume ConsumeData tid c pid p q pc
    Hwf Hreg Hk Hq Hc Hkind Hpeer) as (pc' & Hrun & _).
  exists pc'. eexists. split; [exact Hrun|]. by destruct (c_closed c).
Qed.
End removal.

(** ** Witness *)

Lemma remote_video_end_crashes_witness :
  exists pc' es',
    media_task everyone 1 2 (fun _ => "{}") sample_nlohmann ask_consumer ask_data
      (TaskConsumerClosed (consumer_closed "v1")) with_video = Done (tt, pc', es') /\
    deliver_participants (notifications es') (new_rtc_client "127.0.0.1" 4443 "room" "puller" 1) =
      Fault (NullDeref "track").
Proof.
  apply (remote_video_end_crashes everyone 1 2 (fun _ => "{}") sample_nlohmann ask_consumer ask_data with_video
    (new_rtc_client "127.0.0.1" 4443 "room" "puller" 1) "v1" "bob" 0%nat (setActive true (new_participant "bob" "Bob"))
    (sample_consumer "v1" "video"));
    [exact with_video_wf | apply sample_registered | split; [discriminate | reflexivity] | reflexivity..].
Defined.
