(* ===== verification/Programs.v ===== *)
(** * The test programs

    Models [test/test_pusher.cpp] and [test/test_puller.cpp]: the two main functions, from
    their start to the loop that waits for a signal, and after it; and the way of the
    file's frames in the pusher, from [H264Reader] over the lambda given to it,
    [RtcClient::inputFrame] and the media controller to WebRTC and from there, as far as
    WebRTC hands it on, to the encoder. *)

From stdpp Require Import base gmap strings list.
From Stdlib Require Import ZArith Lia.
From S2P Require Import Prelude Strings Conversions Json SignalingModels MediaController VideoPipeline Reader ReaderFacts RoomClient RtcClient.

#[local] Open Scope string_scope.
#[local] Open Scope list_scope.

(** ** The main functions *)

(** [is_exit], and the objects of [main]. *)
Record Program : Type := mkProgram {
  pg_core : bool;                  (* between [Core::init] and [Core::destroy] *)
  pg_client : option RtcClient;
  pg_front : option H264Reader;
  pg_is_exit : bool
}.
Definition new_program : Program := mkProgram false None None false.

Inductive program_effect : Type :=
| PgInit (log_path : string)
| PgDestroy
| PgClient (e : rtc_effect)
| PgReader (e : reader_effect)
| PgSleep (ms : Z).

Abbreviation program_handler := (M Program program_effect).

Definition pg_set_core (v : bool) (s : Program) : Program := mkProgram v (pg_client s) (pg_front s) (pg_is_exit s).
Definition pg_set_client (v : option RtcClient) (s : Program) : Program := mkProgram (pg_core s) v (pg_front s) (pg_is_exit s).
Definition pg_set_front (v : option H264Reader) (s : Program) : Program := mkProgram (pg_core s) (pg_client s) v (pg_is_exit s).
Definition pg_set_exit (v : bool) (s : Program) : Program := mkProgram (pg_core s) (pg_client s) (pg_front s) v.

Definition signal_handler : program_handler unit := modify (pg_set_exit true).

(** [std::stoi]: blanks, a sign, digits, and whatever follows them. *)
Definition stoi (s : string) : result string Z :=
  let text := skip_blanks (widen (lit s)) in
  let number := match text with 45 :: l | 43 :: l => l | _ => text end in
  match number with
  | c :: _ =>
      if is_digit c then
        let n := read_number text in
        if in_int32 n then Ok n else Err "std::out_of_range"
      else Err "std::invalid_argument"
  | [] => Err "std::invalid_argument"
  end.

Definition uint16 (z : Z) : Z := z mod 65536.

(** [client->] and [front->]. *)
Definition on_rtc {A} (m : rtc_handler A) : program_handler A := fun s =>
  match pg_client s with
  | None => Fault (NullDeref "client")
  | Some c => match m c with
              | Fault f => Fault f
              | Done (a, c', es) => Done (a, pg_set_client (Some c') s, PgClient <$> es)
              end
  end.
Definition h_set_reader (r : Reader) (h : H264Reader) : H264Reader :=
  mkH264 r (h_fps h) (h_sps h) (h_pps h) (h_lastFrameMillis h).
Definition on_front {A} (m : reader_handler A) : program_handler A := fun s =>
  match pg_front s with
  | None => Fault (NullDeref "front")
  | Some h => match m (h_reader h) with
              | Fault f => Fault f
              | Done (a, r, es) => Done (a, pg_set_front (Some (h_set_reader r h)) s, PgReader <$> es)
              end
  end.

(** [Core::init], the test of the arguments, and the client.  [Some n]: [main] returns. *)
Definition program_begin (log_path : string) (role : Z) (participants : bool) (argv : list string) :
    program_handler (option Z) :=
  _ ← emit (PgInit log_path);
  _ ← modify (pg_set_core true);
  match argv with
  | [_; ip; port; room_id; user_name] =>
      port ← match stoi port with Ok n => mret n | Err e => throw (Thrown e) end;
      _ ← modify (pg_set_client (Some (new_rtc_client ip (uint16 port) room_id user_name role)));
      _ ← on_rtc (rtc_init participants);
      mret None
  | _ => mret (Some (-1))
  end.

(** A round of [while (!is_exit)]: whether there is another one. *)
Definition wait_round : program_handler bool :=
  s ← get; if pg_is_exit s then mret false else _ ← emit (PgSleep 1000); mret true.

(** The loop; the signal comes after [rounds] rounds. *)
Fixpoint wait (rounds : nat) : program_handler unit :=
  match rounds with
  | O => _ ← signal_handler; _ ← wait_round; skip
  | S rounds => again ← wait_round; if again : bool then wait rounds else skip
  end.

(** The end of [main]. *)
Definition program_end (participants : bool) : program_handler Z :=
  _ ← on_rtc (rtc_destroy participants);
  _ ← emit PgDestroy;
  _ ← modify (pg_set_core false);
  mret 0.

Definition pusher_log : string := "/home/quxiaohui/workspace/mediasoup-sdk/logs/pusher".
Definition puller_log : string := "/home/quxiaohui/workspace/mediasoup-sdk/logs/puller".
Definition front_file : string := "/home/quxiaohui/workspace/cowa/mediasoup-client/Test/test.h264".

(** [main] of [test_pusher.cpp] up to the loop; [fopen] and [malloc] as in [rd_Start]. *)
Definition pusher_begin (participants : bool) (fopen : option (list Z)) (malloc : bool) (argv : list string) :
    program_handler (option Z) :=
  r ← program_begin pusher_log 0 participants argv;
  match r with
  | Some code => mret (Some code)
  | None =>
      _ ← modify (pg_set_front (Some (new_h264 front_file 10)));
      _ ← on_front (SetDataCallback true);
      _ ← on_front (rd_Start fopen malloc);
      mret None
  end.
Definition pusher_end (participants : bool) : program_handler Z :=
  _ ← on_front rd_Stop; program_end participants.

(** [main] of [test_puller.cpp]; its callback only logs. *)
Definition puller_begin (participants : bool) (argv : list string) : program_handler (option Z) :=
  r ← program_begin puller_log 1 participants argv;
  match r with
  | Some code => mret (Some code)
  | None => _ ← on_rtc (setYuvCallback (Some 0%nat)); mret None
  end.
Definition puller_end (participants : bool) : program_handler Z := program_end participants.

(** [begin]: up to the loop; [finish]: after it. *)
Definition main_function (begin : program_handler (option Z)) (rounds : nat) (finish : program_handler Z) : program_handler Z :=
  r ← begin;
  match r with
  | Some code => mret code
  | None => _ ← wait rounds; finish
  end.
Definition pusher_main (participants : bool) (fopen : option (list Z)) (malloc : bool) (argv : list string) (rounds : nat) :
    program_handler Z :=
  main_function (pusher_begin participants fopen malloc argv) rounds (pusher_end participants).
Definition puller_main (participants : bool) (argv : list string) (rounds : nat) : program_handler Z :=
  main_function (puller_begin participants argv) rounds (puller_end participants).

(** The lambda the pusher gives its reader; [data.size()] is an [int] there. *)
Definition push_frame (media : bool) (data : list Z) : rtc_handler unit :=
  let size := wrap32 (Z.of_nat (length data)) in
  if (0 <? size)%Z then rtc_inputFrame media "front" (take (Z.to_nat size) data) else skip.

(** ** From the file to the encoder

    Between [AdaptedVideoTrackSource::OnFrame], which the source calls, and
    [VideoEncoder::Encode], which the encoder overrides, is WebRTC: a state that takes
    frames and, on its own thread and at times of its own, hands frames to the encoder
    or none.  It is a parameter. *)

Section pump.
Context `{HashOrder}.
Variable FindNaluIndices : list Z -> list nat.
Variable ParseNaluType : Z -> Z.
Context {W : Type}.
Variable OnFrame : VideoFrame -> W -> W.
Variable to_encode : W -> option VideoFrame * W.

Record Pusher : Type := mkPusher {
  pu_reader : H264Reader;
  pu_client : RtcClient;
  pu_media : MediaController;
  pu_webrtc : W;
  pu_encoder : DummyEncoder
}.

(** A frame given to WebRTC; an image the encoder sends. *)
Inductive pusher_effect : Type :=
| PuOnFrame (frame : VideoFrame)
| PuImage (e : encoder_effect).

(** What the media controller does with a frame: it goes to the source, which makes the
    [VideoFrame] and gives it to WebRTC. *)
Definition hand_frame (now : Z) (e : mc_effect) : M W pusher_effect unit :=
  match e with
  | MInputFrame _ source data =>
      let frame := InputFrame now (source_of source) data in
      _ ← emit (PuOnFrame frame); modify (OnFrame frame)
  | _ => skip
  end.
Definition feed (now : Z) (e : rtc_effect) : M (MediaController * W) pusher_effect unit := fun s =>
  match e with
  | CInputFrame trackName data =>
      match mc_inputFrame trackName data (fst s) with
      | Fault f => Fault f
      | Done (_, mc, es) => zoom snd (fun w s => (fst s, w)) id (for_each es (hand_frame now)) (mc, snd s)
      end
  | _ => Done (tt, s, [])
  end.

(** A call of [ReadOneNalu] on the reader's thread, and what it sets off; [None]: the reader
    has not returned. *)
Definition pump (media : bool) (fuel : nat) (now : Z) : M Pusher pusher_effect (option unit) := fun s =>
  match ReadOneNalu fuel (pu_reader s) with
  | Fault f => Fault f
  | Done (r, h, es) =>
      match for_each es (fun e => match e with RData data => push_frame media data | _ => skip end) (pu_client s) with
      | Fault f => Fault f
      | Done (_, c, calls) =>
          match for_each calls (feed now) (pu_media s, pu_webrtc s) with
          | Fault f => Fault f
          | Done (_, (mc, w), frames) => Done (r, mkPusher h c mc w (pu_encoder s), frames)
          end
      end
  end.

(** WebRTC's turn: the encoder gets the frame WebRTC chooses, if any. *)
Definition encode_next : M Pusher pusher_effect unit := fun s =>
  match to_encode (pu_webrtc s) with
  | (None, w) => Done (tt, mkPusher (pu_reader s) (pu_client s) (pu_media s) w (pu_encoder s), [])
  | (Some frame, w) =>
      match Encode FindNaluIndices ParseNaluType frame (pu_encoder s) with
      | Fault f => Fault f
      | Done (_, enc, images) => Done (tt, mkPusher (pu_reader s) (pu_client s) (pu_media s) w enc, PuImage <$> images)
      end
  end.

(** The two threads in any order. *)
Inductive pusher_event : Type := EvRead (now : Z) | EvEncode.
Definition pusher_run (media : bool) (fuel : nat) (events : list pusher_event) : M Pusher pusher_effect unit :=
  for_each events (fun e => match e with
                            | EvRead now => _ ← pump media fuel now; skip
                            | EvEncode => encode_next
                            end).
End pump.
Arguments Pusher : clear implicits.
Arguments mkPusher {W}.

(** The frames given to WebRTC, and the images sent. *)
Definition frames_given (es : list pusher_effect) : list VideoFrame :=
  omap (fun e => match e with PuOnFrame frame => Some frame | _ => None end) es.
Definition images_sent (es : list pusher_effect) : list (nat * EncodedImage) :=
  omap (fun e => match e with PuImage (OnEncodedImage callback image) => Some (callback, image) | _ => None end) es.
Definition read_times (events : list pusher_event) : list Z :=
  omap (fun e => match e with EvRead now => Some now | EvEncode => None end) events.

(** What WebRTC hands on over a history of frames given ([Some]) and turns ([None]). *)
Fixpoint carried {W} (OnFrame : VideoFrame -> W -> W) (to_encode : W -> option VideoFrame * W)
    (ops : list (option VideoFrame)) (w : W) : list VideoFrame * W :=
  match ops with
  | [] => ([], w)
  | Some frame :: ops => carried OnFrame to_encode ops (OnFrame frame w)
  | None :: ops =>
      let '(out, w) := to_encode w in
      let '(outs, w) := carried OnFrame to_encode ops w in
      (option_list out ++ outs, w)
  end.

Lemma carried_app {W} (OnFrame : VideoFrame -> W -> W) to_encode ops1 ops2 w :
  carried OnFrame to_encode (ops1 ++ ops2) w =
    let '(outs1, w1) := carried OnFrame to_encode ops1 w in
    let '(outs2, w2) := carried OnFrame to_encode ops2 w1 in (outs1 ++ outs2, w2).
Proof.
  revert w. induction ops1 as [|[frame|] ops1 IH]; intros w; simpl.
  - by destruct (carried _ _ ops2 w).
  - apply IH.
  - destruct (to_encode w) as [out w1]. rewrite IH. destruct (carried _ _ ops1 w1) as [outs1 w2].
    destruct (carried _ _ ops2 w2) as [outs2 w3]. by rewrite app_assoc.
Qed.

(** *** What the encoder sends *)

(** The parameter sets the reader keeps are no longer than its buffer. *)
Definition small_sets (a : at_block) : Prop :=
  Z.of_nat (length (at_sps a)) <= MAX_BUFFER_SIZE /\ Z.of_nat (length (at_pps a)) <= MAX_BUFFER_SIZE.

(** The first [n] frames of a file, read in a circle. *)
Fixpoint frames_of (blocks : list block) (n : nat) (a : at_block) : list (list Z) :=
  match n with
  | O => []
  | S n => match next_frame blocks (length blocks) a with
           | None => []
           | Some (data, a) => data :: frames_of blocks n a
           end
  end.

Lemma code_of_small blocks k : Forall block_ok blocks -> (length (code_of blocks k) <= 4)%nat.
Proof.
  intros Hok. unfold code_of. destruct (blocks !! k) as [b|] eqn:Hb; [|simpl; lia].
  pose proof (proj1 (Forall_lookup _ _) Hok _ _ Hb) as (Hc & _). by destruct (is_code_end _ Hc) as (? & _ & ? & _).
Qed.

Lemma take_block_small blocks a b a' : Forall block_ok blocks -> block_ok b -> small_sets a ->
  take_block blocks a (snd b) = inr a' -> small_sets a'.
Proof.
  intros Hok (_ & _ & _ & _ & Hfit) [Hs Hp]. unfold take_block, take_unit. simpl.
  pose proof (code_of_small blocks (next_block blocks (at_k a)) Hok) as Hc.
  repeat case_match; intros; simplify_eq; split; simpl; rewrite ?length_app; lia.
Qed.

Lemma next_frame_small blocks fuel a data a' : Forall block_ok blocks -> small_sets a ->
  next_frame blocks fuel a = Some (data, a') -> small_sets a' /\ 0 < Z.of_nat (length data) < 2147483648.
Proof.
  intros Hok. revert a. induction fuel as [|fuel IH]; [done|]. intros a Ha. simpl.
  destruct (blocks !! at_k a) as [[c u]|] eqn:Hb; [|done].
  pose proof (proj1 (Forall_lookup _ _) Hok _ _ Hb) as Hbo.
  destruct (take_block_cases blocks a u) as [(Hs & ->)|(_ & sps & pps & Htb)].
  - intros [= <- <-]. split; [exact Ha|]. destruct Ha as [H1 H2]. destruct Hbo as (_ & Hl & _ & _ & Hfit).
    simpl in Hl, Hfit. pose proof (code_of_small blocks (next_block blocks (at_k a)) Hok) as Hc.
    unfold MAX_BUFFER_SIZE in *. rewrite !length_app. destruct (unit_type u =? 5)%Z; rewrite ?length_app; simpl; lia.
  - rewrite Htb. apply IH. by apply (take_block_small blocks a (c, u)).
Qed.

Section arrives.
Context `{HashOrder}.
Variable FindNaluIndices : list Z -> list nat.
Variable ParseNaluType : Z -> Z.
Hypothesis finds : finds_units FindNaluIndices.
Hypothesis parses : forall b, ParseNaluType b = Z.land b 31.

(** WebRTC, with the buffers it is given unchanged: it may drop frames, keep them as long
    as it likes and give them other times, but what it hands on are frames it was given,
    in their order. *)
Context {W : Type}.
Variable OnFrame : VideoFrame -> W -> W.
Variable to_encode : W -> option VideoFrame * W.
Variable idle : W.
Hypothesis in_order : forall ops,
  video_frame_buffer <$> fst (carried OnFrame to_encode ops idle) `sublist_of` video_frame_buffer <$> omap id ops.

Variable blocks : list block.
Hypothesis well_formed : Forall block_ok blocks.
Hypothesis slices : has_slice blocks.

(** The pusher when it runs: joined, its track in the media controller, WebRTC's
    callback in the encoder. *)
Variable (h : H264Reader) (client : RtcClient) (mc : MediaController) (vs : VideoSource) (callback : nat).
Hypothesis has_cb : rd_cb (h_reader h) = true.
Hypothesis joined : rtc_room_client client = true.
Hypothesis has_track : mc_sourceMap mc !! "front" = Some (Some vs).

Definition pusher_at (a : at_block) (w : W) : Pusher W :=
  mkPusher (h264_at blocks a h) client mc w (mkEncoder (Some callback)).

(** The frame the source makes of the bytes, and a frame that still has its buffer. *)
Definition frame_of (now : Z) (data : list Z) : VideoFrame := InputFrame now (source_of vs) data.
Definition holds (frame : VideoFrame) (data : list Z) : Prop :=
  video_frame_buffer frame = video_frame_buffer (frame_of 0 data).

(** Bytes of the file: a slice, with what the reader put in front of it. *)
Definition from_file (data : list Z) : Prop :=
  exists a a', small_sets a /\ next_frame blocks (length blocks) a = Some (data, a').

(** The image is a slice of the file, with what the reader put in front of it, and it is
    marked a key frame exactly when the slice is an IDR slice. *)
Definition marked (image : EncodedImage) : Prop :=
  exists b pre, b ∈ blocks /\ is_slice (snd b) = true /\ ei_data image = pre ++ snd b /\
    (ei_frameType image = kVideoFrameKey <-> unit_type (snd b) = kIdr).

Lemma pump_reads a data a' : small_sets a -> next_frame blocks (length blocks) a = Some (data, a') ->
  exists n, forall fuel now w, (n <= fuel)%nat ->
    pump OnFrame true fuel now (pusher_at a w) =
      Done (Some tt, pusher_at a' (OnFrame (frame_of now data) w), [PuOnFrame (frame_of now data)]).
Proof.
  intros Ha Hnf. destruct (next_frame_small _ _ _ _ _ well_formed Ha Hnf) as [_ Hlen].
  destruct (loop_next_frame _ _ _ _ well_formed Hnf) as [n Hn]. exists n. intros fuel now w Hf.
  specialize (Hn (fuel - n)%nat). replace (n + (fuel - n))%nat with fuel in Hn by lia.
  unfold pump, pusher_at. cbn [pu_reader pu_client pu_media pu_webrtc pu_encoder].
  rewrite (ReadOneNalu_delivers _ fuel (h264_at blocks a h) data a' (block_pos blocks (at_k a)) (at_sps a) (at_pps a)
    eq_refl eq_refl eq_refl has_cb ltac:(by eexists _, _) Hn).
  assert (Hw : wrap32 (Z.of_nat (length data)) = Z.of_nat (length data)).
  { unfold wrap32. rewrite Z.mod_small; lia. }
  assert (Hpush : push_frame true data client = Done (tt, client, [CInputFrame "front" data])).
  { unfold push_frame, rtc_inputFrame, the_room. rewrite Hw, (proj2 (Z.ltb_lt _ _)), Nat2Z.id, firstn_all by lia.
    run_M. by rewrite joined. }
  cbn [for_each]. rewrite (bind_done _ _ _ _ _ _ Hpush). run_M.
  unfold feed at 1, mc_inputFrame, map_at. run_M. rewrite has_track. run_M. reflexivity.
Qed.

Lemma encoded data frame : from_file data -> holds frame data ->
  exists image, ei_data image = data /\ marked image /\
    Encode FindNaluIndices ParseNaluType frame (mkEncoder (Some callback)) =
      Done (WEBRTC_VIDEO_CODEC_OK, mkEncoder (Some callback), [OnEncodedImage callback image]).
Proof.
  intros (a & a' & Ha & Hnf) Hframe.
  destruct (next_frame_small _ _ _ _ _ well_formed Ha Hnf) as [_ Hlen].
  destruct (reader_frames_marked FindNaluIndices ParseNaluType _ _ _ _ _ finds parses well_formed Hnf)
    as (k & b & Hb & Hk & Hs & Htype).
  destruct (next_frame_data _ _ _ _ _ Hnf) as (k' & b' & sps & pps & Hb' & _ & Ha' & Hdata).
  assert (k' = k) as ->.
  { rewrite Ha' in Hk. simpl in Hk. apply lookup_lt_Some in Hb, Hb'. revert Hk. unfold next_block.
    destruct (S k <? length blocks)%nat eqn:E; destruct (S k' <? length blocks)%nat eqn:E';
      rewrite ?Nat.ltb_lt, ?Nat.ltb_ge in *; lia. }
  rewrite Hb in Hb'. injection Hb' as <-.
  eexists. split; [|split].
  3:{ unfold Encode. run_M. rewrite Hframe. run_M. simpl. rewrite stride_length, Nat.ltb_irrefl, firstn_all, Htype by lia.
      reflexivity. }
  - done.
  - exists b. rewrite app_assoc in Hdata. eexists.
    split; [by eapply list_elem_of_lookup_2|]. split; [done|]. split; [exact Hdata|]. simpl.
    destruct (Z.eqb_spec (unit_type (snd b)) kIdr); split; congruence.
Qed.

(** A turn of WebRTC, after a history in which it was given frames of the file. *)
Lemma encode_next_run past a :
  Forall (fun frame => exists data, from_file data /\ holds frame data) (omap id past) ->
  exists images,
    encode_next FindNaluIndices ParseNaluType to_encode (pusher_at a (snd (carried OnFrame to_encode past idle))) =
      Done (tt, pusher_at a (snd (carried OnFrame to_encode (past ++ [None]) idle)),
            PuImage ∘ OnEncodedImage callback <$> images) /\
    Forall marked images /\
    exists outs, fst (carried OnFrame to_encode (past ++ [None]) idle) = fst (carried OnFrame to_encode past idle) ++ outs /\
      Forall2 (fun frame image => holds frame (ei_data image)) outs images.
Proof.
  intros Hpast. pose proof (in_order (past ++ [None])) as Hsub. rewrite carried_app in *.
  destruct (carried OnFrame to_encode past idle) as [outs w] eqn:Hc. simpl in *.
  unfold encode_next, pusher_at. cbn [pu_reader pu_client pu_media pu_webrtc pu_encoder].
  destruct (to_encode w) as [[frame|] w'] eqn:Hnext; simpl in *.
  2:{ exists []. split; [done|]. split; [done|]. exists []. by split. }
  rewrite omap_app, app_nil_r in Hsub.
  assert (Hin : video_frame_buffer frame ∈ video_frame_buffer <$> omap id past).
  { refine (elem_of_sublist _ _ _ _ Hsub). rewrite fmap_app. apply elem_of_app. right. by left. }
  apply list_elem_of_fmap in Hin as (given & Hbuf & Hgiven).
  pose proof (proj1 (Forall_forall _ _) Hpast _ Hgiven) as (data & Hfile & Hholds).
  destruct (encoded data frame Hfile) as (image & <- & Hm & ->); [unfold holds in *; congruence|].
  exists [image]. split; [done|]. split; [by constructor|]. exists [frame]. split; [done|].
  constructor; [|constructor]. unfold holds in *. congruence.
Qed.

(** The schedule from a state WebRTC got to by [past]. *)
Lemma pusher_runs events past a : (at_k a < length blocks)%nat -> small_sets a ->
  Forall (fun frame => exists data, from_file data /\ holds frame data) (omap id past) ->
  exists n, forall fuel, (n <= fuel)%nat -> exists es a' ops,
    pusher_run FindNaluIndices ParseNaluType OnFrame to_encode true fuel events
      (pusher_at a (snd (carried OnFrame to_encode past idle))) =
      Done (tt, pusher_at a' (snd (carried OnFrame to_encode (past ++ ops) idle)), es) /\
    omap id ops = frames_given es /\
    frames_given es = zip_with frame_of (read_times events) (frames_of blocks (length (read_times events)) a) /\
    Forall marked (snd <$> images_sent es) /\ Forall (fun c => c = callback) (fst <$> images_sent es) /\
    exists outs, fst (carried OnFrame to_encode (past ++ ops) idle) = fst (carried OnFrame to_encode past idle) ++ outs /\
      Forall2 (fun frame image => holds frame (ei_data image)) outs (snd <$> images_sent es).
Proof.
  revert past a. induction events as [|[now|] events IH]; intros past a Ha Hsmall Hpast.
  - exists 0%nat. intros fuel _. exists [], a, []. rewrite app_nil_r. do 5 (split; [done|]).
    exists []. split; [by rewrite app_nil_r | constructor].
  - destruct (next_frame_exists blocks a Ha slices) as [[data a'] Hnf].
    destruct (next_frame_small _ _ _ _ _ well_formed Hsmall Hnf) as [Hsmall' _].
    assert (Ha' : (at_k a' < length blocks)%nat).
    { destruct (next_frame_data _ _ _ _ _ Hnf) as (k & b & ? & ? & Hb & _ & -> & _).
      destruct (next_block_lookup _ _ _ Hb) as [b' Hb']. by eapply lookup_lt_Some. }
    set (past' := past ++ [Some (frame_of now data)]).
    assert (Hw : snd (carried OnFrame to_encode past' idle) = OnFrame (frame_of now data) (snd (carried OnFrame to_encode past idle)) /\
      fst (carried OnFrame to_encode past' idle) = fst (carried OnFrame to_encode past idle)).
    { unfold past'. rewrite carried_app. destruct (carried OnFrame to_encode past idle); simpl. by rewrite app_nil_r. }
    destruct Hw as [Hw Hout].
    destruct (IH past' a' Ha' Hsmall') as [n1 H1].
    { unfold past'. rewrite omap_app. apply Forall_app. split; [done|]. constructor; [|constructor].
      exists data. split; [by exists a, a' | done]. }
    destruct (pump_reads _ _ _ Hsmall Hnf) as [n2 H2]. exists (n1 + n2)%nat. intros fuel Hf.
    destruct (H1 fuel ltac:(lia)) as (es & a'' & ops & Hrun & Hops & Hgiven & Hmarked & Hcb & outs & Houts & Himages).
    exists (PuOnFrame (frame_of now data) :: es), a'', (Some (frame_of now data) :: ops).
    replace (past ++ Some (frame_of now data) :: ops) with (past' ++ ops) by (unfold past'; by rewrite <- app_assoc).
    split; [|split; [exact (f_equal (cons (frame_of now data)) Hops)|split; [|split; [done|split; [done|exists outs; by rewrite Houts, Hout]]]]].
    + unfold pusher_run in *. cbn [for_each]. rewrite Hw in Hrun.
      assert (Hbody : (_ ← pump OnFrame true fuel now; skip) (pusher_at a (snd (carried OnFrame to_encode past idle))) =
        Done (tt, pusher_at a' (OnFrame (frame_of now data) (snd (carried OnFrame to_encode past idle))),
              [PuOnFrame (frame_of now data)])).
      { by rewrite (bind_done _ _ _ _ _ _ (H2 fuel now _ ltac:(lia))). }
      by rewrite (bind_done _ _ _ _ _ _ Hbody), Hrun.
    + cbn [read_times omap list_omap length frames_of]. rewrite Hnf. exact (f_equal (cons (frame_of now data)) Hgiven).
  - destruct (encode_next_run past a Hpast) as (images & Hnext & Hm & outs1 & Houts1 & Him1).
    destruct (IH (past ++ [None]) a Ha Hsmall) as [n Hn].
    { rewrite omap_app. simpl. by rewrite app_nil_r. }
    exists n. intros fuel Hf.
    destruct (Hn fuel Hf) as (es & a' & ops & Hrun & Hops & Hgiven & Hmarked & Hcb & outs & Houts & Himages).
    rewrite <- app_assoc in Hrun, Houts.
    exists ((PuImage ∘ OnEncodedImage callback <$> images) ++ es), a', (None :: ops).
    assert (Hsent : images_sent ((PuImage ∘ OnEncodedImage callback <$> images) ++ es) =
      (pair callback <$> images) ++ images_sent es).
    { unfold images_sent. rewrite omap_app. f_equal. clear. induction images as [|i l IHl]; [done|]. simpl. by f_equal. }
    assert (Hnone : frames_given ((PuImage ∘ OnEncodedImage callback <$> images) ++ es) = frames_given es).
    { unfold frames_given. rewrite omap_app. replace (omap _ (_ <$> images)) with (@nil VideoFrame); [done|].
      clear. induction images as [|i l IHl]; [done|]. simpl. exact IHl. }
    rewrite Hsent, Hnone, !fmap_app, <- !list_fmap_compose.
    replace (snd ∘ pair callback <$> images) with images by (symmetry; apply list_fmap_id).
    split; [|split; [done|split; [done|split; [by apply Forall_app|split]]]].
    + unfold pusher_run in *. cbn [for_each]. by rewrite (bind_done _ _ _ _ _ _ Hnext), Hrun.
    + apply Forall_app. split; [|done]. apply Forall_fmap, Forall_true. done.
    + exists (outs1 ++ outs). split; [|by apply Forall2_app]. simpl in Houts. by rewrite Houts, Houts1, app_assoc.
Qed.

(** C20: the file's frames reach WebRTC, and what WebRTC hands on reaches the network.
    Once the pusher has joined and its track is on, whatever the order in which the
    reader is called and WebRTC takes its turns, with enough rounds of the reader's loop
    for each call: WebRTC is given one frame for each call of the reader, in order, with
    the bytes of the file's next frame (the specification [frames_of]: slice after slice
    round the file, an IDR slice behind the last parameter sets) and the time of the
    call.  As far as WebRTC hands on the frames it was given in their order, with the
    bytes they came with, dropping and delaying what it likes, the encoder's callback
    is called with frames of the file, byte for byte and in their order, each marked a
    key frame exactly when it is an IDR slice. *)
Theorem file_reaches_encoder a events : (at_k a < length blocks)%nat -> small_sets a ->
  exists n, forall fuel, (n <= fuel)%nat -> exists es a' w,
    pusher_run FindNaluIndices ParseNaluType OnFrame to_encode true fuel events (pusher_at a idle) =
      Done (tt, pusher_at a' w, es) /\
    frames_given es = zip_with (fun now data => InputFrame now (source_of vs) data) (read_times events)
                        (frames_of blocks (length (read_times events)) a) /\
    length (frames_of blocks (length (read_times events)) a) = length (read_times events) /\
    ei_data <$> (snd <$> images_sent es) `sublist_of` frames_of blocks (length (read_times events)) a /\
    Forall (fun c => c = callback) (fst <$> images_sent es) /\ Forall marked (snd <$> images_sent es).
Proof.
  intros Ha Hsmall. destruct (pusher_runs events [] a Ha Hsmall (Forall_nil_2 _)) as [n Hn]. exists n. intros fuel Hf.
  destruct (Hn fuel Hf) as (es & a' & ops & Hrun & Hops & Hgiven & Hm & Hcb & outs & Houts & Himages).
  exists es, a'. eexists. split; [exact Hrun|]. split; [exact Hgiven|].
  assert (Hlen : length (frames_of blocks (length (read_times events)) a) = length (read_times events)).
  { clear -Ha slices well_formed. generalize (length (read_times events)). intros n. revert a Ha.
    induction n as [|n IH]; intros a Ha; [done|]. simpl.
    destruct (next_frame_exists blocks a Ha slices) as [[data a'] Hnf]. rewrite Hnf. simpl. f_equal. apply IH.
    destruct (next_frame_data _ _ _ _ _ Hnf) as (k & b & ? & ? & Hb & _ & -> & _).
    destruct (next_block_lookup _ _ _ Hb) as [b' Hb']. by eapply lookup_lt_Some. }
  split; [exact Hlen|]. split; [|by split].
  pose proof (in_order ops) as Hsub. simpl in Houts. rewrite Houts in Hsub. rewrite Hops, Hgiven in Hsub.
  set (bytes := fun b => match b with EncodedVideoFrameBuffer e => m_encoded_data e | _ => [] end).
  apply (fmap_sublist bytes _ _) in Hsub. rewrite <- !list_fmap_compose in Hsub.
  replace (ei_data <$> (snd <$> images_sent es)) with (bytes ∘ video_frame_buffer <$> outs).
  - replace (frames_of blocks (length (read_times events)) a) with
      (bytes ∘ video_frame_buffer <$> zip_with frame_of (read_times events) (frames_of blocks (length (read_times events)) a));
      [exact Hsub|].
    revert Hlen. generalize (frames_of blocks (length (read_times events)) a) as l. generalize (read_times events) as ts. clear.
    intros ts l. revert ts. induction l as [|d l IH]; intros [|t ts] Hlen; simplify_eq/=; [done|]. by rewrite IH.
  - clear -Himages. induction Himages as [|frame image outs images Hh _ IH]; [done|].
    rewrite !fmap_cons, IH. f_equal. simpl. by rewrite Hh.
Qed.
End arrives.

(** ** The main functions *)

Lemma wait_run rounds s : pg_is_exit s = false ->
  wait rounds s = Done (tt, pg_set_exit true s, replicate rounds (PgSleep 1000)).
Proof.
  intros He. induction rounds as [|rounds IH]; [by run_M|].
  cbn [wait replicate]. unfold wait_round. run_M. rewrite He. run_M. by rewrite IH.
Qed.

Definition joins (participants : bool) (ip : string) (port : Z) (room_id user_name : string) : list rtc_effect :=
  [CCreateRoomClient; CObserveRoom] ++ (if participants then [CObserveParticipants] else []) ++
    [CJoin ip (uint16 port) room_id user_name].
Definition leaves (participants : bool) : list rtc_effect :=
  [CUnobserveRoom] ++ (if participants then [CUnobserveParticipants] else []) ++ [CLeave].

(** The pusher in its loop. *)
Definition pushing (fopen : option (list Z)) (malloc : bool) (ip : string) (port : Z) (room_id user_name : string) : Program :=
  let reads := if fopen is Some _ then malloc else false in
  mkProgram true (Some (rtc_set_room true (new_rtc_client ip (uint16 port) room_id user_name 0)))
    (Some (h_set_reader (mkReader front_file true reads true ((fun bytes => (bytes, 0%nat)) <$> fopen) reads)
       (new_h264 front_file 10))) false.

Lemma pusher_begin_run participants fopen malloc program ip port room_id user_name n : stoi port = Ok n ->
  pusher_begin participants fopen malloc [program; ip; port; room_id; user_name] new_program =
    Done (None, pushing fopen malloc ip n room_id user_name,
      [PgInit pusher_log] ++ (PgClient <$> joins participants ip n room_id user_name) ++
        (if (if fopen is Some _ then malloc else false) then [PgReader RThread] else [])).
Proof.
  intros Hn. unfold pusher_begin, program_begin, on_rtc, rtc_init, on_front, joins. run_M. rewrite Hn. run_M.
  by destruct participants, fopen, malloc.
Qed.

Lemma pusher_end_run participants fopen malloc ip port room_id user_name :
  let reads := if fopen is Some _ then malloc else false in
  exists s, pusher_end participants (pg_set_exit true (pushing fopen malloc ip port room_id user_name)) =
    Done (0, s, (PgReader <$> (if reads then [RJoin] else []) ++ (if fopen is Some _ then [RClose] else []) ++
                   (if reads then [RFree] else [])) ++ (PgClient <$> leaves participants) ++ [PgDestroy]) /\
    pg_core s = false.
Proof. by destruct participants, fopen, malloc; eexists. Qed.

(** [test_pusher]'s main function.  With four arguments and a number as the second it
    initializes the engine, joins (the port taken modulo 65536), reads the file on a
    thread of its own if it can be opened, sleeps until the signal, and undoes all of it
    in the opposite order.  With another number of arguments it returns -1 with the
    engine initialized and not destroyed; with a port that is no number, or none of 32
    bits, it dies of the exception. *)
Theorem pusher_main_calls participants fopen malloc argv rounds :
  (length argv <> 5%nat ->
     exists s, pusher_main participants fopen malloc argv rounds new_program = Done (-1, s, [PgInit pusher_log]) /\
       pg_core s = true) /\
  (forall program ip port room_id user_name, argv = [program; ip; port; room_id; user_name] ->
     (forall e, stoi port = Err e -> pusher_main participants fopen malloc argv rounds new_program = Fault (Thrown e)) /\
     (forall n, stoi port = Ok n ->
        let reads := if fopen is Some _ then malloc else false in
        exists s, pusher_main participants fopen malloc argv rounds new_program =
          Done (0, s,
            [PgInit pusher_log] ++ (PgClient <$> joins participants ip n room_id user_name) ++
            (if reads then [PgReader RThread] else []) ++ replicate rounds (PgSleep 1000) ++
            (PgReader <$> (if reads then [RJoin] else []) ++ (if fopen is Some _ then [RClose] else []) ++
               (if reads then [RFree] else [])) ++
            (PgClient <$> leaves participants) ++ [PgDestroy]) /\
          pg_core s = false)).
Proof.
  split.
  - intros Hlen. eexists. unfold pusher_main, main_function, pusher_begin, program_begin. run_M.
    destruct argv as [|? [|? [|? [|? [|? [|? ?]]]]]]; try done; by run_M.
  - intros program ip port room_id user_name ->. split.
    + intros e He. unfold pusher_main, main_function, pusher_begin, program_begin. run_M. by rewrite He.
    + intros n Hn. destruct (pusher_end_run participants fopen malloc ip n room_id user_name) as (s & Hend & Hcore).
      exists s. split; [|exact Hcore]. unfold pusher_main, main_function.
      rewrite (bind_done _ _ _ _ _ _ (pusher_begin_run participants fopen malloc program ip port room_id user_name n Hn)).
      rewrite (bind_done _ _ _ _ _ _ (wait_run rounds (pushing fopen malloc ip n room_id user_name) eq_refl)), Hend.
      by rewrite <- !app_assoc.
Qed.

(** ** Witnesses *)

Lemma pusher_main_calls_witness :
  (length ["test_pusher"; "127.0.0.1"] <> 5%nat /\
   exists s, pusher_main true None true ["test_pusher"; "127.0.0.1"] 3 new_program = Done (-1, s, [PgInit pusher_log]) /\
     pg_core s = true) /\
  (exists s, pusher_main true None true ["test_pusher"; "127.0.0.1"; "69979"; "room"; "bob"] 1 new_program =
     Done (0, s, [PgInit pusher_log; PgClient CCreateRoomClient; PgClient CObserveRoom; PgClient CObserveParticipants;
       PgClient (CJoin "127.0.0.1" 4443 "room" "bob"); PgSleep 1000; PgClient CUnobserveRoom;
       PgClient CUnobserveParticipants; PgClient CLeave; PgDestroy]) /\ pg_core s = false).
Proof.
  split; [split; [discriminate|]|].
  - exact (proj1 (pusher_main_calls true None true ["test_pusher"; "127.0.0.1"] 3) ltac:(discriminate)).
  - exact (proj2 (proj2 (pusher_main_calls true None true ["test_pusher"; "127.0.0.1"; "69979"; "room"; "bob"] 1)
      "test_pusher" "127.0.0.1" "69979" "room" "bob" eq_refl) 69979%Z eq_refl).
Defined.

Definition pushing_client : RtcClient := rtc_set_room true (new_rtc_client "127.0.0.1" 4443 "room" "bob" 0).

(** A WebRTC that keeps the last frame it was given only, and stamps it anew. *)
Definition keep_last (frame : VideoFrame) (w : list VideoFrame) : list VideoFrame := [frame].
Definition take_last (w : list VideoFrame) : option VideoFrame * list VideoFrame :=
  match w with
  | [] => (None, [])
  | f :: l => (Some (mkFrame (video_frame_buffer f) (vf_width f) (vf_height f) 90 (vf_render_time_ms f + 1) 7), l)
  end.

Lemma keep_last_in_order ops :
  video_frame_buffer <$> fst (carried keep_last take_last ops []) `sublist_of` video_frame_buffer <$> omap id ops.
Proof.
  cut (video_frame_buffer <$> fst (carried keep_last take_last ops []) ++ snd (carried keep_last take_last ops [])
       `sublist_of` video_frame_buffer <$> omap id ops).
  { intros Hsub. etrans; [|exact Hsub]. rewrite fmap_app. by apply sublist_inserts_r. }
  induction ops as [|o ops IH] using rev_ind; [done|].
  rewrite carried_app, omap_app. destruct (carried keep_last take_last ops []) as [outs w]. simpl in IH.
  rewrite fmap_app in IH. destruct o as [frame|]; simpl.
  - rewrite app_nil_r, !fmap_app. simpl. apply sublist_app; [|done]. etrans; [|exact IH]. by apply sublist_inserts_r.
  - rewrite app_nil_r. destruct w as [|f l]; simpl.
    + by rewrite !fmap_app, !app_nil_r in *.
    + rewrite !fmap_app, <- app_assoc. exact IH.
Defined.

Lemma file_reaches_encoder_witness :
  exists n, forall fuel, (n <= fuel)%nat -> exists es a' w,
    pusher_run (start_codes 0) (fun b => Z.land b 31) keep_last take_last true fuel
      [EvRead 0; EvEncode; EvEncode; EvRead 100; EvRead 200; EvEncode]%Z
      (pusher_at stream0 playing pushing_client one_source 3 (mkAt 0 [] []) []) =
      Done (tt, pusher_at stream0 playing pushing_client one_source 3 a' w, es) /\
    vf_render_time_ms <$> frames_given es = [0; 100; 200]%Z /\
    ei_data <$> (snd <$> images_sent es) `sublist_of`
      [[0; 0; 0; 1; 103; 9; 0; 0; 1; 104; 8; 0; 0; 0; 1; 101; 7]; [0; 0; 0; 1; 65; 6];
       [0; 0; 0; 1; 103; 9; 0; 0; 1; 104; 8; 0; 0; 0; 1; 101; 7]]%Z.
Proof.
  destruct (file_reaches_encoder (start_codes 0) (fun b => Z.land b 31)) with (OnFrame := keep_last) (to_encode := take_last)
    (idle := @nil VideoFrame) (blocks := stream0) (h := playing)
    (client := pushing_client) (mc := one_source) (vs := mkSource 1280 720) (callback := 3%nat) (a := mkAt 0 [] [])
    (events := [EvRead 0; EvEncode; EvEncode; EvRead 100; EvRead 200; EvEncode]%Z) as [n Hn].
  - intros data i. apply start_codes_spec.
  - done.
  - exact keep_last_in_order.
  - exact stream0_ok.
  - exists (start_code_3_bytes, idr0). split; [|reflexivity]. unfold stream0. do 2 right. left.
  - reflexivity.
  - reflexivity.
  - vm_compute. reflexivity.
  - simpl. lia.
  - split; simpl; unfold MAX_BUFFER_SIZE; lia.
  - exists n. intros fuel Hf. destruct (Hn fuel Hf) as (es & a' & w & Hrun & Hgiven & _ & Hsub & _).
    exists es, a', w. split; [exact Hrun|]. split; [rewrite Hgiven; reflexivity | exact Hsub].
Defined.
