(* ===== verification/Session.v ===== *)
(** * Session: a room client with everything under it

    The objects [RoomClient::init] creates, put together: the room client and its two
    controllers, the signaling client with its table of requests, the websocket
    transport over a TLS endpoint, and the two threads they share.
    [RoomClient] hands its transport thread to the signaling client, which hands it to
    the transport and to its own observers; the room's tasks, the media controller's
    tasks and the calls of the application run on the mediasoup thread; what the
    endpoint reports arrives on the endpoint's own thread
    ([room_client.cpp], [signaling_client.cpp], [websocket_transport.h],
    [mediasoup_api.h]).

    What a handler does to its own component happens when it is entered; each thing it
    sets off (a call of another component, a task posted, a callback, an observer told)
    is a step of its own afterwards, on the thread of the handler, which keeps what it
    has still to do.  A request is three steps, as in [SignalingClient::send]: it is
    made, its text is handed to the transport, it is entered into the table.  Between
    two steps of a thread the other threads and the network take theirs.  There are the
    mediasoup thread, the transport thread, and the threads on which the callbacks of
    the transports wait.  Calls down (to the client, the transport) never call back up.
    What leaves the system is an effect of the session. *)

From stdpp Require Import base gmap strings list.
From Stdlib Require Import ZArith Lia.
From S2P Require Import Prelude Json SignalingModels WebsocketRequest Observable Websocket SignalingClient MediasoupApi ParticipantController ParticipantProxy MediaController RemoteMedia RoomClient.

#[local] Open Scope string_scope.
#[local] Open Scope list_scope.

(** ** State *)

(** Whose callback a request carries; the media controller's callbacks only log. *)
Inductive requester : Type := ByRoom (cb : rc_callback) | ByMedia.
Abbreviation client := (SignalingClient (api_cb requester)).

(** What the program relies on: rapidjson, nlohmann, libmediasoupclient, websocketpp,
    the numbers [generateID()] draws, and the order of the table of requests. *)
Record Surroundings : Type := mkSurroundings {
  e_parse : string -> option Value;
  e_print : Value -> string;
  e_nlohmann : string -> result string Value;
  e_Load : nat -> Value -> result string bool;
  e_rtp : nat -> string;
  e_sctp : nat -> string;
  e_CreateTransport : bool -> string -> Value -> list Value -> Value -> Value -> result string nat;
  e_CanProduce : nat -> string -> bool;
  e_Produce : string -> option (list RtpEncodingParameters) -> Value -> Value -> result string Producer;
  e_Consume : string -> string -> string -> Value -> Value -> result string Consumer;
  e_ConsumeData : string -> string -> Z -> string -> string -> Value -> result string DataConsumer;
  e_get_connection : string -> bool;
  e_add_subprotocol : string -> bool;
  e_ids : nat -> Z;
  e_table_order : gmap Z (WebsocketRequest (api_cb requester)) -> list (Z * WebsocketRequest (api_cb requester))
}.

(** The calls an application makes, directly or through the participant controller. *)
Inductive app_call : Type :=
| AppJoin (peerId hostname : string) (port : Z) (roomId displayName : string) (options : option Options)
| AppLeave
| AppDestroy
| AppEnableAudio (enabled : bool)
| AppMuteAudio (muted : bool)
| AppIsAudioMuted
| AppEnableVideo (enabled : bool) (trackName : string) (width height : Z)
| AppParticipants (m : participant_method).

(** The tasks in the queue of the transport thread: calls of the transport's observer,
    the task of [handleResponse], calls of the client's observers. *)
Inductive network_task : Type :=
| TEvent (e : transport_event)
| TResponse (json : string)
| TObserve (a : address) (n : notifier).

(** The tasks in the queue of the mediasoup thread. *)
Inductive main_task : Type :=
| CallTask (c : app_call)
| RoomTask (t : rc_task)
| MediaTask (t : mc_task).

Abbreviation message := (WebsocketRequest (api_cb requester)).

(** What a thread has still to do: an effect of a handler of the room; the text of a
    request to send, and its entry into the table; an effect of a handler of the client;
    a callback of a request; an observer of the client to tell. *)
Inductive action : Type :=
| AEffect (e : rc_effect)
| ASend (q : message)
| ARecord (q : message)
| AClient (e : sc_effect (api_cb requester))
| AAnswer (c : user_call requester)
| ADeliver (d : delivery) (n : notifier).

(** [ses_threads]: the mediasoup thread is the first, the transport thread the second,
    the others run callbacks of transports. *)
Record Session : Type := mkSession {
  ses_room : RoomClient;
  ses_client : client;
  ses_transport : WebsocketTransport TLSWebsocketEndpoint;
  ses_draws : nat;                    (* numbers drawn so far *)
  ses_network : list network_task;
  ses_main : list main_task;
  ses_threads : list (list action)
}.

Definition ses_set_room (r : RoomClient) (s : Session) : Session :=
  mkSession r (ses_client s) (ses_transport s) (ses_draws s) (ses_network s) (ses_main s) (ses_threads s).
Definition ses_set_client (c : client) (s : Session) : Session :=
  mkSession (ses_room s) c (ses_transport s) (ses_draws s) (ses_network s) (ses_main s) (ses_threads s).
Definition ses_set_transport (t : WebsocketTransport TLSWebsocketEndpoint) (s : Session) : Session :=
  mkSession (ses_room s) (ses_client s) t (ses_draws s) (ses_network s) (ses_main s) (ses_threads s).
Definition ses_set_draws (n : nat) (s : Session) : Session :=
  mkSession (ses_room s) (ses_client s) (ses_transport s) n (ses_network s) (ses_main s) (ses_threads s).
Definition ses_set_network (l : list network_task) (s : Session) : Session :=
  mkSession (ses_room s) (ses_client s) (ses_transport s) (ses_draws s) l (ses_main s) (ses_threads s).
Definition ses_set_main (l : list main_task) (s : Session) : Session :=
  mkSession (ses_room s) (ses_client s) (ses_transport s) (ses_draws s) (ses_network s) l (ses_threads s).
Definition ses_set_threads (l : list (list action)) (s : Session) : Session :=
  mkSession (ses_room s) (ses_client s) (ses_transport s) (ses_draws s) (ses_network s) (ses_main s) l.

(** What leaves the system: frames and connections, what the room does with
    libmediasoupclient and tells the application, the values of the promises on which
    a transport's callback waits; [SRequest] records a call of the API with its id. *)
Inductive ses_effect : Type :=
| SWire (e : ws_effect)
| SRoom (e : rc_effect)
| SPromise (v : outcome string)
| SRequest (r : api_request) (gid : Z).

Abbreviation ses_handler := (M Session ses_effect).

(** ** Objects and threads *)

Definition main_thread : nat := 1.
Definition network_thread : nat := 2.
Definition endpoint_thread : nat := 3.

Definition addr (w : subscriber) : address :=
  match w with SubRoom => 0%nat | SubMedia => 1%nat | SubParticipants => 2%nat end.
Definition client_addr : address := 3%nat.
Definition transport_addr : address := 4%nat.

(** The application owns the room; the room owns the client (which owns the
    transport) and the controllers; the participant controller shares the other. *)
Definition alive (s : Session) (a : address) : bool :=
  match a with
  | 0%nat => true
  | 1%nat => rc_mediaController (ses_room s) || rc_participantController (ses_room s)
  | 2%nat => rc_participantController (ses_room s)
  | 3%nat | 4%nat => rc_signalingClient (ses_room s)
  | _ => false
  end.

Definition new_session : Session :=
  mkSession new_room_client (mkClient ∅ [] (Some network_thread)) new_transport 0 [] [] [[]; []].

(** A handler of a component inside the session, its effects carried out in order. *)
Definition routed {T E A} (g : Session -> T) (p : T -> Session -> Session) (perform : E -> ses_handler unit)
    (m : M T E A) : ses_handler A := fun s =>
  match m (g s) with
  | Fault f => Fault f
  | Done (a, t, es) => (_ ← for_each es perform; mret a) (p t s)
  end.

Definition post_main (t : main_task) : ses_handler unit :=
  modify (fun s => ses_set_main (ses_main s ++ [t]) s).
Definition post_network (t : network_task) : ses_handler unit :=
  modify (fun s => ses_set_network (ses_network s ++ [t]) s).

(** A handler of the room: what it sets off is left for later. *)
Definition begun (m : rc_handler unit) : ses_handler (list action) := fun s =>
  match m (ses_room s) with
  | Fault f => Fault f
  | Done (_, r, es) => Done (AEffect <$> es, ses_set_room r s, [])
  end.
(** The same for a handler of the client. *)
Definition begun_client (m : M client (sc_effect (api_cb requester)) unit) : ses_handler (list action) := fun s =>
  match m (ses_client s) with
  | Fault f => Fault f
  | Done (_, c, es) => Done (AClient <$> es, ses_set_client c s, [])
  end.
(** Something that leaves nothing for later. *)
Definition at_once (m : ses_handler unit) : ses_handler (list action) := _ ← m; mret [].

(** [generateID()]. *)
Definition draw (env : Surroundings) : ses_handler Z :=
  s ← get; _ ← modify (ses_set_draws (S (ses_draws s))); mret (e_ids env (ses_draws s)).

Section session.
Context `{HashOrder}.
Variable env : Surroundings.

#[local] Instance endpoint_interface : IWebsocketEndpoint TLSWebsocketEndpoint :=
  tls_interface (e_get_connection env) (e_add_subprotocol env).

(** ** Calls down *)

(** The transport's observers: the client, registered with the transport thread. *)
Definition perform_transport (e : tr_effect) : ses_handler unit :=
  match e with
  | TEndpoint e => emit (SWire e)
  | TNotify e =>
      s ← get;
      match notifyObservers (alive s) endpoint_thread (tr_observers (ses_transport s)) with
      | Fault f => throw f
      | Done ds => for_each ds (fun _ => post_network (TEvent e))   (* the endpoint's thread is not theirs *)
      end
  end.
Definition on_transport {A} (m : M (WebsocketTransport TLSWebsocketEndpoint) tr_effect A) : ses_handler A :=
  routed ses_transport ses_set_transport perform_transport m.

(** What the client does with its transport and its thread; none of it calls back. *)
Definition perform_down (e : sc_effect (api_cb requester)) : ses_handler unit :=
  match e with
  | TransportInit => on_transport tr_init
  | TransportAddObserver =>
      s ← get; on_transport (tr_addObserver (Some network_thread) (alive s) (Some client_addr))
  | TransportRemoveObserver => s ← get; on_transport (tr_removeObserver (alive s) (Some client_addr))
  | TransportConnect url subprotocol => on_transport (tr_connect transport_addr url subprotocol)
  | TransportDisconnect => on_transport tr_disconnect
  | TransportSendText text => on_transport (tr_sendText text)
  | TransportSendData data => on_transport (tr_sendData data)
  | PostTask json => post_network (TResponse json)
  | Callback _ | Notify _ => skip
  end.
Definition on_client {A} (m : M client (sc_effect (api_cb requester)) A) : ses_handler A :=
  routed ses_client ses_set_client perform_down m.

(** [send(text, transaction, scb, fcb)] up to the call of the transport; the rest is
    [send_request] and [record_request]. *)
Definition begin_send (text : string) (transcation : Z) (scb fcb : option (api_cb requester)) : ses_handler (list action) :=
  if decide (text = "") then mret []
  else request ← on_client (make_request text transcation scb fcb); mret [ASend request; ARecord request].

(** A call of the API, up to the same point; the request's constructor draws its id. *)
Definition begin_request (r : api_request) (cb : option requester) : ses_handler (list action) :=
  gid ← draw env;
  _ ← emit (SRequest r gid);
  s ← get;
  if rc_signalingClient (ses_room s) then
    begin_send (e_print env (api_message r gid)) gid (Some (mkCb (api_kind r) cb)) (Some (mkCb (api_kind r) cb))
  else mret [].
Definition begin_response (r : BasicResponse) : ses_handler (list action) :=
  s ← get;
  if rc_signalingClient (ses_room s) then
    begin_send (toJsonStr (e_print env) r) (value_or (BasicResponse_id r) (-1)) None None
  else mret [].

(** [~SignalingClient()], and the end of the transport and its endpoint. *)
Definition client_dies : ses_handler unit :=
  _ ← on_client clearRequests;
  on_transport (assign_websocket None).

(** What a handler of the room asks for. *)
Definition perform_effect (e : rc_effect) : ses_handler (list action) :=
  match e with
  | RSignalingInit => at_once (on_client sc_init)
  | RSignalingDestroy => at_once (_ ← on_client sc_destroy; client_dies)
  | RSubscribeSignaling w => at_once (s ← get; on_client (sc_addObserver (alive s) (Some (addr w))))
  | RUnsubscribeSignaling w => at_once (s ← get; on_client (sc_removeObserver (alive s) (Some (addr w))))
  | RSubscribeMedia w =>
      at_once (modify (fun s =>
        ses_set_room (rc_set_controllers (set_media
          (mc_set_observers (fun l => addWeakObserver (alive s) l (Some (addr w)) (Some main_thread))
             (pc_media (rc_controllers (ses_room s)))) (rc_controllers (ses_room s))) (ses_room s)) s))
  | RConnect url subprotocol => at_once (on_client (connect url subprotocol))
  | RDisconnect => at_once (on_client disconnect)
  | RApi r cb => begin_request r (Some (ByRoom cb))
  | RPost t => at_once (post_main (RoomTask t))
  | RControllers (PMedia (MApi r has_callback)) => begin_request r (if has_callback then Some ByMedia else None)
  | RControllers (PMedia (MResponse r)) => begin_response r
  | RControllers (PMedia (MPost t)) => at_once (post_main (MediaTask t))
  | e => at_once (emit (SRoom e))
  end.

(** ** Calls up *)

(** The response a lambda of the room is called with is of the type it asked for. *)
Definition as_capabilities (r : option ApiResponse) : option GetRouterRtpCapabilitiesResponse :=
  match r with Some (GetRouterRtpCapabilitiesResp r) => Some r | _ => None end.
Definition as_transport (r : option ApiResponse) : option CreateWebRtcTransportResponse :=
  match r with Some (CreateWebRtcTransportResp r) => Some r | _ => None end.
Definition as_join (r : option ApiResponse) : option JoinResponse :=
  match r with Some (JoinResp r) => Some r | _ => None end.
Definition as_produce (r : option ApiResponse) : option ProduceResponse :=
  match r with Some (ProduceResp r) => Some r | _ => None end.
Definition as_produceData (r : option ApiResponse) : option ProduceDataResponse :=
  match r with Some (ProduceDataResp r) => Some r | _ => None end.

(** [callback(errorCode, errorInfo, response)]. *)
Definition answer (c : user_call requester) : ses_handler (list action) :=
  match uc_callback c with
  | ByMedia => mret []
  | ByRoom cb =>
      match cb with
      | CbCapabilities => begun (onCapabilitiesResponse (uc_errorCode c) (as_capabilities (uc_response c)))
      | CbTransport producing consuming =>
          begun (onTransportResponse producing consuming (uc_errorCode c) (as_transport (uc_response c)))
      | CbJoin => begun (onJoinResponse (uc_errorCode c) (as_join (uc_response c)))
      | CbConnect => at_once (emit (SPromise (Done "")))
      | CbProduce => at_once (emit (SPromise (produce_promise (uc_errorCode c) (as_produce (uc_response c)))))
      | CbProduceData => at_once (emit (SPromise (produceData_promise (uc_errorCode c) (as_produceData (uc_response c)))))
      end
  end.

(** The lambdas of [MediasoupApi::send]; a response that is default-constructed may
    draw a number. *)
Definition called (c : request_call (api_cb requester)) : ses_handler (list action) :=
  gid ← draw env; mret (AAnswer <$> run_callback (e_parse env) gid c).

(** [ISignalingEventHandler] of the three observers; the other handlers are empty. *)
Definition room_event (e : SignalingEvent) : rc_handler unit :=
  match e with
  | onOpened => rc_onOpened
  | onClosed => rc_onClosed
  | onActiveSpeaker n => rc_onActiveSpeaker (Some n)
  | _ => skip
  end.
Definition media_event (e : SignalingEvent) : mc_handler unit :=
  match e with
  | onNewConsumer r => mc_onNewConsumer (Some r)
  | onNewDataConsumer r => mc_onNewDataConsumer (Some r)
  | onConsumerPaused n => mc_onConsumerPaused (Some n)
  | onConsumerResumed n => mc_onConsumerResumed (Some n)
  | onConsumerClosed n => mc_onConsumerClosed (Some n)
  | _ => skip
  end.
Definition participants_event (e : SignalingEvent) : M (ParticipantController MediaController) (pc_effect mc_effect) unit :=
  match e with
  | onNewPeer n => pc_onNewPeer (Some n)
  | onPeerClosed n => pc_onPeerClosed (Some n)
  | onPeerDisplayNameChanged n => pc_onPeerDisplayNameChanged (Some n)
  | onActiveSpeaker n => pc_onActiveSpeaker (Some n)
  | _ => skip
  end.

Definition handle_event (a : address) (e : SignalingEvent) : rc_handler unit :=
  match a with
  | 0%nat => room_event e
  | 1%nat => on_media (media_event e)
  | 2%nat => on_participants (participants_event e)
  | _ => skip
  end.

(** [notifier(observer)]. *)
Definition observe (a : address) (n : notifier) : ses_handler (list action) :=
  match observer_call (e_parse env) n with
  | None => mret []
  | Some e => begun (handle_event a e)
  end.
Definition deliver (d : delivery) (n : notifier) : ses_handler (list action) :=
  match d with
  | Direct a => observe a n
  | Posted _ a => at_once (post_network (TObserve a n))
  end.

(** [notifyObservers] of the client, on the transport thread. *)
Definition notify_client (n : notifier) : ses_handler (list action) :=
  s ← get;
  match notifyObservers (alive s) network_thread (sc_observers (ses_client s)) with
  | Fault f => throw f
  | Done ds => mret ((fun d => ADeliver d n) <$> ds)
  end.

(** What a handler of the client asks for. *)
Definition perform_client (e : sc_effect (api_cb requester)) : ses_handler (list action) :=
  match e with
  | Callback c => called c
  | Notify n => notify_client n
  | e => at_once (perform_down e)
  end.

(** ** The steps of a thread *)

Definition perform_action (a : action) : ses_handler (list action) :=
  match a with
  | AEffect e => perform_effect e
  | ASend q => at_once (on_client (send_request q))
  | ARecord q => at_once (on_client (record_request q))
  | AClient e => perform_client e
  | AAnswer c => answer c
  | ADeliver d n => deliver d n
  end.

(** ** The tasks *)

(** The posted lambdas lock their weak pointers when they run. *)
Definition if_alive (a : address) (m : ses_handler (list action)) : ses_handler (list action) :=
  s ← get; if alive s a then m else mret [].

Definition run_network (t : network_task) : ses_handler (list action) :=
  match t with
  | TEvent e =>
      if_alive client_addr (begun_client
        match e with
        | TOnOpened => sc_onOpened
        | TOnClosed => sc_onClosed (e_table_order env)
        | TOnFailed errorCode reason => sc_onFailed errorCode reason
        | TOnMessage json => sc_onMessage (e_parse env) json
        end)
  | TResponse json => if_alive client_addr (begun_client (handleResponse_task (e_parse env) json))
  | TObserve a n => if_alive a (observe a n)
  end.

Abbreviation room_task := (rc_run_task (e_parse env) (e_print env) (e_nlohmann env) (e_Load env) (e_rtp env)
  (e_sctp env) (e_CreateTransport env)).

(** The participant controller's [IParticipantController], through its proxy. *)
Definition app_run (c : app_call) : rc_handler unit :=
  match c with
  | AppJoin peerId hostname port roomId displayName options =>
      rc_join peerId hostname port roomId displayName options
  | AppLeave => rc_leave
  | AppDestroy => rc_destroy
  | AppEnableAudio enabled => rc_enableAudio (e_CanProduce env) (e_Produce env) enabled
  | AppMuteAudio muted => rc_muteAudio muted
  | AppIsAudioMuted => _ ← rc_isAudioMuted; skip
  | AppEnableVideo enabled trackName width height =>
      rc_enableVideo (e_CanProduce env) (e_Produce env) enabled trackName width height
  | AppParticipants m =>
      s ← get;
      if rc_participantController s then on_participants (_ ← participant_call m; skip) else skip
  end.

Definition run_main (t : main_task) : ses_handler (list action) :=
  match t with
  | CallTask c => begun (app_run c)
  | RoomTask t => begun (room_task t)
  | MediaTask t =>
      if_alive (addr SubMedia) (s ← get; begun (on_participants
        (media_task (alive s) main_thread (addr SubParticipants) (e_print env) (e_nlohmann env) (e_Consume env)
           (e_ConsumeData env) t)))
  end.

(** ** Events *)

(** The transports' callbacks, on threads of their own. *)
Inductive waiter : Type :=
| WaitConnect (transportId dtlsDump : string)
| WaitProduce (transportId kind rtpDump : string) (appData : Value)
| WaitProduceData (transportId sctpDump label protocol : string).

Definition waiter_run (w : waiter) : rc_handler unit :=
  match w with
  | WaitConnect transportId dtlsDump => _ ← rc_onConnect (e_parse env) transportId dtlsDump; skip
  | WaitProduce transportId kind rtpDump appData =>
      _ ← rc_onProduce (e_parse env) transportId kind rtpDump appData; skip
  | WaitProduceData transportId sctpDump label protocol =>
      _ ← rc_onProduceData (e_parse env) transportId sctpDump label protocol; skip
  end.

(** A call of the application (its proxy posts it), a report of the network, what a
    connection still reports while its endpoint is being destroyed, a transport's
    callback, the next task of the transport thread or the mediasoup thread, which they
    take when they have finished the last, and a step of a thread. *)
Inductive ses_event : Type :=
| EvCall (c : app_call)
| EvNet (id : Z) (e : net_event)
| EvLate (e : conn_event)
| EvWait (w : waiter)
| EvNetwork
| EvMain
| EvRun (i : nat).

(** Thread [i] begins with what [m] leaves, and then does what it had still to do. *)
Definition thread_runs (i : nat) (rest : list action) (m : ses_handler (list action)) : ses_handler unit :=
  todo ← m; modify (fun s => ses_set_threads (<[i := todo ++ rest]> (ses_threads s)) s).

Definition ses_step (e : ses_event) : ses_handler unit :=
  match e with
  | EvCall c => post_main (CallTask c)
  | EvNet id e => s ← get; on_transport (tr_net_event transport_addr (alive s) id e)
  | EvLate e => on_transport (tr_onConnection e)
  | EvWait w => todo ← begun (waiter_run w); modify (fun s => ses_set_threads (ses_threads s ++ [todo]) s)
  | EvNetwork =>
      s ← get;
      match ses_threads s !! 1%nat, ses_network s with
      | Some [], t :: l => _ ← modify (ses_set_network l); thread_runs 1 [] (run_network t)
      | _, _ => skip
      end
  | EvMain =>
      s ← get;
      match ses_threads s !! 0%nat, ses_main s with
      | Some [], t :: l => _ ← modify (ses_set_main l); thread_runs 0 [] (run_main t)
      | _, _ => skip
      end
  | EvRun i =>
      s ← get;
      match ses_threads s !! i with
      | Some (a :: l) => thread_runs i l (perform_action a)
      | _ => skip
      end
  end.

(** [init]. *)
Definition ses_start : ses_handler unit := thread_runs 0 [] (begun rc_init).
Definition ses_run (es : list ses_event) : ses_handler unit := _ ← ses_start; for_each es ses_step.
End session.
