(* ===== verification/SessionFacts.v ===== *)
(** * What holds in every history of a session

    Whatever happens to a session, however its threads interleave: the requests in the
    table, the tasks in the queues and what the threads have still to do are those the
    room made and the server's texts that arrived, so a room is connected only if the
    server said so. *)

From stdpp Require Import base gmap strings list pretty.
From Stdlib Require Import ZArith Lia.
From S2P Require Import Prelude Json SignalingModels WebsocketRequest Observable Websocket SignalingClient MediasoupApi ParticipantController ParticipantProxy MediaController MediaControllerFacts RemoteMedia RoomClient RoomClientFacts Session.

#[local] Open Scope string_scope.
#[local] Open Scope list_scope.

(** ** The room's handlers, seen from the session *)

(** A join request is sent with the join's callback, and only it. *)
Definition well_addressed (e : rc_effect) : Prop :=
  match e with
  | RApi r CbJoin => exists d, r = AJoin d
  | _ => True
  end.

(** A handler that does not connect the room by itself, and addresses its requests. *)
Definition not_connecting (s s' : RoomClient) : Prop := rc_state s' = CONNECTED -> rc_state s = CONNECTED.
#[local] Instance not_connecting_preorder : PreOrder not_connecting.
Proof. unfold not_connecting. split; [by intros s | intros s1 s2 s3; auto]. Qed.
Abbreviation tame m := (framed not_connecting well_addressed m).

Lemma tame_on_participants {A} (m : M (ParticipantController MediaController) (pc_effect mc_effect) A) :
  tame (on_participants m).
Proof. unfold on_participants. apply framed_zoom; [by intros s t Hs | by apply emits_only_any]. Qed.
#[local] Hint Resolve tame_on_participants : rtc.
#[local] Hint Extern 1 (framed not_connecting _ (on_media _)) => apply tame_on_participants : rtc.
#[local] Hint Extern 1 (not_connecting _ _) => (intros ?; done) : rtc.
#[local] Hint Extern 1 (well_addressed _) => (by eexists) : rtc.

Section tame_room.
Context `{HashOrder}.
Variable env : Surroundings.

Lemma tame_destroyComponents : tame destroyComponents.
Proof. unfold destroyComponents. frame_run. Qed.
#[local] Hint Resolve tame_destroyComponents : rtc.
Lemma tame_state_changed state : tame (rc_onRoomStateChanged state).
Proof. unfold rc_onRoomStateChanged, createComponents. frame_run. Qed.
#[local] Hint Resolve tame_state_changed : rtc.
Lemma tame_init : tame rc_init.
Proof. unfold rc_init. frame_run. Qed.
Lemma tame_with_media {A} (m : mc_handler A) : tame (with_media m).
Proof. unfold with_media. frame_run. Qed.
#[local] Hint Resolve tame_with_media : rtc.

Lemma tame_reparse {A} `{FieldsMap A} (m : A) : tame (rc_reparse (e_print env) (e_nlohmann env) m).
Proof. unfold rc_reparse. frame_run. Qed.
#[local] Hint Resolve tame_reparse : rtc.
Lemma tame_reparse_all {A} `{FieldsMap A} (l : list A) : tame (reparse_all (e_print env) (e_nlohmann env) l).
Proof. induction l; cbn [reparse_all]; frame_run. Qed.
#[local] Hint Resolve tame_reparse_all : rtc.
Lemma tame_the_device : tame the_device.
Proof. unfold the_device. frame_run. Qed.
#[local] Hint Resolve tame_the_device : rtc.
Lemma tame_read_capabilities {A} `{FieldsMap A, DefaultInit A} wanted dump :
  tame (read_capabilities (A := A) (e_parse env) wanted dump).
Proof. unfold read_capabilities. frame_run. Qed.
#[local] Hint Resolve tame_read_capabilities : rtc.
Lemma tame_request f p c : tame (requestCreateTransport (e_parse env) (e_sctp env) f p c).
Proof. unfold requestCreateTransport. frame_run. Qed.
#[local] Hint Resolve tame_request : rtc.
Lemma tame_joinImpl : tame (joinImpl (e_parse env) (e_rtp env) (e_sctp env)).
Proof. unfold joinImpl. frame_run. Qed.
#[local] Hint Resolve tame_joinImpl : rtc.
Lemma tame_createTransport p c r :
  tame (createTransportImpl (e_print env) (e_nlohmann env) (e_CreateTransport env) p c r).
Proof. unfold createTransportImpl. frame_run. Qed.
#[local] Hint Resolve tame_createTransport : rtc.

Lemma tame_task t : tame (rc_run_task (e_parse env) (e_print env) (e_nlohmann env) (e_Load env) (e_rtp env)
  (e_sctp env) (e_CreateTransport env) t).
Proof.
  destruct t as [| |r|p c r|state r]; cbn [rc_run_task].
  - unfold getRouterRtpCapabilities. frame_run.
  - unfold closed_task. frame_run.
  - unfold onLoadMediasoupDevice, createSendTransport, createRecvTransport. frame_run.
  - unfold onCreateSendTransport, onCreateRecvTransport, createRecvTransport. frame_run.
  - unfold joined_task. frame_run.
Qed.

Lemma tame_app c : tame (app_run env c).
Proof.
  destruct c; cbn [app_run].
  - unfold rc_join. frame_run.
  - unfold rc_leave. frame_run.
  - unfold rc_destroy. frame_run.
  - unfold rc_enableAudio. frame_run.
  - unfold rc_muteAudio. frame_run.
  - unfold rc_isAudioMuted. frame_run.
  - unfold rc_enableVideo. frame_run.
  - frame_run.
Qed.

Lemma tame_waiter w : tame (waiter_run env w).
Proof.
  destruct w; cbn [waiter_run]; unfold rc_onConnect, rc_onProduce, rc_onProduceData, produce_app_data; frame_run.
Qed.

Lemma tame_handle_event a e : tame (handle_event a e).
Proof.
  unfold handle_event, room_event, rc_onOpened, rc_onClosed, rc_onActiveSpeaker. frame_run.
Qed.

Lemma tame_capabilities e r : tame (onCapabilitiesResponse e r).
Proof. unfold onCapabilitiesResponse. frame_run. Qed.
Lemma tame_transport p c e r : tame (onTransportResponse p c e r).
Proof. unfold onTransportResponse. frame_run. Qed.
End tame_room.

(** ** A room is connected only if the server said so *)

(** The texts that arrived, and the requests the API was called with. *)
Definition received (es : list ses_event) : list string :=
  es ≫= (fun e => match e with
                  | EvNet _ (NetMessage (FText t)) => [t]
                  | EvLate (OnTextMessage t) => [t]
                  | _ => []
                  end).
Definition asked (es : list ses_effect) : list (api_request * Z) :=
  es ≫= (fun e => match e with SRequest r gid => [(r, gid)] | _ => [] end).

Section granted.
Context `{HashOrder}.
Variable env : Surroundings.
(** [generateID()] draws from its range. *)
Hypothesis ids_drawn : forall n, generateID (e_ids env n) = true.

#[local] Instance interface : IWebsocketEndpoint TLSWebsocketEndpoint :=
  tls_interface (e_get_connection env) (e_add_subprotocol env).

Abbreviation parse := (e_parse env).

(** A join request was made, and a text with its id came that is a join response
    with its [ok] member. *)
Definition answers_join (R : list string) (A : list (api_request * Z)) (gid : Z) (json : string) : Prop :=
  json ∈ R /\ (exists d, (AJoin d, gid) ∈ A) /\
  exists h, fromJsonString (A := ResponseHeader) parse default_init json = Ok h /\ ResponseHeader_id h = Some gid.
Definition granted (R : list string) (A : list (api_request * Z)) : Prop :=
  exists gid json j, answers_join R A gid json /\
    fromJsonString (A := JoinResponse) parse default_init json = Ok j /\ present (JoinResponse_ok j) = true.

Lemma granted_mono R R' A A' : R ⊆ R' -> A ⊆ A' -> granted R A -> granted R' A'.
Proof. intros HR HA (gid & json & j & (Hj & (d & Hd) & Hh) & Hrest). exists gid, json, j. split; [|done]. split; [auto|]. split; [exists d; auto | done]. Qed.

Definition for_join (cb : api_cb requester) : Prop := cb_user cb = Some (ByRoom CbJoin).

(** The entries of the table that carry the join's callback belong to join requests. *)
Definition table_ok (A : list (api_request * Z)) (c : client) : Prop :=
  map_Forall (fun k r => forall cb, wr_resolve r = Some cb -> for_join cb ->
    cb_kind cb = RJoin /\ exists d, (AJoin d, k) ∈ A) (sc_requestMap c).

Definition network_ok (R : list string) (t : network_task) : Prop :=
  match t with
  | TEvent (TOnMessage json) => json ∈ R
  | TResponse json => json ∈ R
  | _ => True
  end.

(** What a callback of the table is called with. *)
Definition call_ok (R : list string) (As : list (api_request * Z)) (c : request_call (api_cb requester)) : Prop :=
  match c with
  | Resolve cb json => for_join cb -> cb_kind cb = RJoin /\ exists gid, answers_join R As gid json
  | Reject _ errorCode _ => errorCode <> 0%Z
  end.
Definition user_ok (R : list string) (As : list (api_request * Z)) (c : user_call requester) : Prop :=
  uc_callback c = ByRoom CbJoin -> uc_errorCode c = 0%Z -> forall j,
  as_join (uc_response c) = Some j -> present (JoinResponse_ok j) = true -> granted R As.

(** What a thread has still to do: a request that carries the join's callback is a join
    request that was made. *)
Definition action_ok (R : list string) (A : list (api_request * Z)) (a : action) : Prop :=
  match a with
  | AEffect e => well_addressed e
  | ASend q | ARecord q => forall cb, wr_resolve q = Some cb -> for_join cb ->
      cb_kind cb = RJoin /\ exists d, (AJoin d, request_id q) ∈ A
  | AClient (Callback c) => call_ok R A c
  | AClient (PostTask json) => json ∈ R
  | AAnswer c => user_ok R A c
  | _ => True
  end.

Lemma answers_join_mono R A A' gid json : A ⊆ A' -> answers_join R A gid json -> answers_join R A' gid json.
Proof. intros HA (HR & (d & Hd) & Hh). split; [done|]. split; [exists d; auto | done]. Qed.
Lemma action_ok_mono R A A' a : A ⊆ A' -> action_ok R A a -> action_ok R A' a.
Proof.
  intros HA. destruct a as [e|q|q|e|c|d n]; cbn [action_ok]; [done| | | | |done].
  - intros Ha cb Hcb Hj. destruct (Ha cb Hcb Hj) as (Hk & d & Hd). eauto.
  - intros Ha cb Hcb Hj. destruct (Ha cb Hcb Hj) as (Hk & d & Hd). eauto.
  - destruct e as [| | | | | | |c| |]; try done. destruct c as [cb json|]; cbn [call_ok]; [|done]. intros Hc Hj.
    destruct (Hc Hj) as (Hk & gid & Hg). split; [done|]. exists gid. by eapply answers_join_mono.
  - intros Hu H1 H2 j H3 H4. eapply granted_mono; [done | exact HA | by eapply Hu].
Qed.
Lemma actions_mono R A A' l : A ⊆ A' -> Forall (action_ok R A) l -> Forall (action_ok R A') l.
Proof. intros HA Hl. eapply Forall_impl; [exact Hl|]. intros a. by apply action_ok_mono. Qed.
Lemma threads_mono R A A' l : A ⊆ A' -> Forall (Forall (action_ok R A)) l -> Forall (Forall (action_ok R A')) l.
Proof. intros HA Hl. eapply Forall_impl; [exact Hl|]. intros a. by apply actions_mono. Qed.

Record Inv (R : list string) (A : list (api_request * Z)) (s : Session) : Prop := {
  inv_table : table_ok A (ses_client s);
  inv_network : Forall (network_ok R) (ses_network s);
  inv_state : rc_state (ses_room s) = CONNECTED -> granted R A;
  inv_threads : Forall (Forall (action_ok R A)) (ses_threads s)
}.

Lemma Inv_mono R A A' s : A ⊆ A' -> Inv R A s -> Inv R A' s.
Proof.
  intros HA [Ht Hn Hs Hth]. split; [|done|intros; eapply granted_mono; eauto|by eapply threads_mono].
  intros k r Hk cb Hcb Hj. destruct (Ht k r Hk cb Hcb Hj) as (? & d & Hd). eauto.
Qed.

(** A handler of the session that keeps the invariant, when at least [A0] was asked
    before. *)
Definition safe {A} (R : list string) (A0 : list (api_request * Z)) (P : Session -> Prop) (m : ses_handler A) : Prop :=
  forall As s, A0 ⊆ As -> Inv R As s -> P s -> wlp m (fun _ s' es => Inv R (As ++ asked es) s') s.
Definition always (s : Session) : Prop := True.

Lemma asked_app es es' : asked (es ++ es') = asked es ++ asked es'.
Proof. apply bind_app. Qed.

Section rules.
Context (R : list string) (A0 : list (api_request * Z)).

Lemma safe_bind {A B} (m : ses_handler A) (f : A -> ses_handler B) P :
  safe R A0 P m -> (forall a, safe R A0 always (f a)) -> safe R A0 P (mbind f m).
Proof.
  intros Hm Hf As s HA Hi HP. apply wlp_bind. eapply wlp_mono; [|exact (Hm As s HA Hi HP)].
  intros a s1 e1 H1. assert (HA1 : A0 ⊆ As ++ asked e1) by set_solver.
  eapply wlp_mono; [|exact (Hf a _ s1 HA1 H1 I)]. intros b s2 e2 H2. by rewrite asked_app, app_assoc.
Qed.
Lemma safe_get {B} P (f : Session -> ses_handler B) :
  (forall s, safe R A0 (fun s' => P s' /\ s' = s) (f s)) -> safe R A0 P (s ← get; f s).
Proof. intros Hf As s HA Hi HP. apply wlp_bind. apply wlp_get. exact (Hf s As s HA Hi (conj HP eq_refl)). Qed.
Lemma safe_weaken {A} P (m : ses_handler A) : safe R A0 always m -> safe R A0 P m.
Proof. intros Hm As s HA Hi _. by apply Hm. Qed.
Lemma safe_later {A} A1 P (m : ses_handler A) : A1 ⊆ A0 -> safe R A1 P m -> safe R A0 P m.
Proof. intros HA Hm As s HA0. apply Hm. by etrans. Qed.
Lemma safe_ret {A} P (a : A) : safe R A0 P (mret a).
Proof. intros As s HA Hi _. unfold wlp; simpl. by rewrite app_nil_r. Qed.
Lemma safe_throw {A} P f : safe R A0 P (throw (A := A) f).
Proof. done. Qed.
Lemma safe_emit P e : safe R A0 P (emit e).
Proof. intros As s HA Hi _. unfold wlp; simpl. eapply Inv_mono; [|exact Hi]. set_solver. Qed.
Lemma safe_for_each {A} (l : list A) body :
  Forall (fun x => safe R A0 always (body x)) l -> safe R A0 always (for_each l body).
Proof. induction 1; cbn [for_each]; [apply safe_ret | by apply safe_bind]. Qed.

(** An assignment to a part of the session that the invariant does not read. *)
Lemma safe_modify P f :
  (forall s, ses_client (f s) = ses_client s /\ rc_state (ses_room (f s)) = rc_state (ses_room s) /\
     ses_network (f s) = ses_network s /\ ses_threads (f s) = ses_threads s) -> safe R A0 P (modify f).
Proof.
  intros Hf As s HA [Ht Hn Hs Hth] _. unfold wlp; simpl. rewrite app_nil_r. destruct (Hf s) as (E1 & E2 & E3 & E4).
  split; rewrite ?E1, ?E2, ?E3, ?E4; done.
Qed.

Lemma safe_post t : network_ok R t -> safe R A0 always (post_network t).
Proof.
  intros Hok As s HA [Ht Hn Hs Hth] _. unfold wlp; simpl. rewrite app_nil_r. split; [done| |done|done].
  simpl. apply Forall_app. split; [done|]. by apply Forall_singleton.
Qed.

(** A component's handler whose effects are carried out safely. *)
Lemma safe_routed {T E A} (g : Session -> T) p (perform : E -> ses_handler unit) (m : M T E A) P (Q : list (api_request * Z) -> E -> Prop) :
  (forall As s, A0 ⊆ As -> Inv R As s -> P s -> wlp m (fun _ t es => Inv R As (p t s) /\ Forall (Q As) es) (g s)) ->
  (forall As e, A0 ⊆ As -> Q As e -> safe R As always (perform e)) ->
  safe R A0 P (routed g p perform m).
Proof.
  intros Hm Hperf As s HA Hi HP. unfold wlp, routed. specialize (Hm As s HA Hi HP). unfold wlp in Hm.
  destruct (m (g s)) as [[[a t] es]|]; [|done]. destruct Hm as [Hi' Hq].
  assert (Hloop : forall As' s', As ⊆ As' -> Inv R As' s' ->
    wlp (for_each es perform) (fun _ s'' es' => Inv R (As' ++ asked es') s'') s').
  { clear Hi'. induction Hq as [|e es He Hes IH]; intros As' s' HA' Hi'; cbn [for_each].
    - unfold wlp; simpl. by rewrite app_nil_r.
    - apply wlp_bind. eapply wlp_mono; [|exact (Hperf As e HA He As' s' HA' Hi' I)]. intros [] s1 e1 H1.
      eapply wlp_mono; [|apply (IH (As' ++ asked e1)); [set_solver | exact H1]].
      intros [] s2 e2 H2. by rewrite asked_app, app_assoc. }
  specialize (Hloop As (p t s) ltac:(done) Hi'). unfold wlp, mbind, M_bind in *.
  destruct (for_each es perform (p t s)) as [[[[] s'] es']|]; [|done]. simpl. by rewrite app_nil_r.
Qed.
End rules.

(** *** The transport *)

Definition told_ok (R : list string) (e : tr_effect) : Prop :=
  match e with TNotify (TOnMessage json) => json ∈ R | _ => True end.

Lemma safe_on_transport {A} R A0 P (m : M (WebsocketTransport TLSWebsocketEndpoint) tr_effect A) :
  (forall s, P s -> wlp m (fun _ _ es => Forall (told_ok R) es) (ses_transport s)) -> safe R A0 P (on_transport m).
Proof.
  intros Hm. apply (safe_routed R A0 _ _ _ _ _ (fun _ => told_ok R)).
  - intros As s HA [Ht Hn Hs Hth] HP. eapply wlp_mono; [|exact (Hm s HP)]. intros a t es Hes. by split.
  - intros As [e|e] HA He; [apply safe_emit|]. cbn [perform_transport]. apply safe_get. intros s.
    destruct (notifyObservers _ _ _) as [ds|f]; [|apply safe_throw].
    apply safe_weaken, safe_for_each, Forall_forall. intros d _. apply safe_post. by destruct e.
Qed.

(** What goes down to the endpoint tells nothing. *)
Lemma quiet_websocket {A} R (m : M TLSWebsocketEndpoint ws_effect A) : emits_only (told_ok R) (websocket m).
Proof. unfold websocket. frame_run. Qed.
Lemma quiet_assign R w : emits_only (told_ok R) (assign_websocket w).
Proof. unfold assign_websocket. frame_run. Qed.
#[local] Hint Resolve quiet_websocket quiet_assign : rtc.

Lemma safe_transport_down {A} R A0 P (m : M (WebsocketTransport TLSWebsocketEndpoint) tr_effect A) :
  emits_only (told_ok R) m -> safe R A0 P (on_transport m).
Proof. intros Hm. apply safe_on_transport. intros s _. by apply emits_only_wlp. Qed.

(** *** The client *)

Definition down_ok (R : list string) (e : sc_effect (api_cb requester)) : Prop :=
  match e with PostTask json => json ∈ R | _ => True end.

Lemma safe_perform_down R A0 e : down_ok R e -> safe R A0 always (perform_down env e).
Proof.
  intros He. destruct e; cbn [perform_down]; try apply safe_get; intros.
  - apply safe_transport_down. unfold tr_init. frame_run.
  - apply safe_transport_down. unfold tr_addObserver. frame_run.
  - apply safe_transport_down. unfold tr_removeObserver. frame_run.
  - apply safe_transport_down. unfold tr_connect. frame_run.
  - apply safe_transport_down. unfold tr_disconnect. frame_run.
  - apply safe_transport_down. unfold tr_sendText. frame_run.
  - apply safe_transport_down. unfold tr_sendData. frame_run.
  - apply safe_ret.
  - apply safe_ret.
  - by apply safe_post.
Qed.

Lemma safe_on_client {A} R A0 P (m : M client (sc_effect (api_cb requester)) A) :
  (forall As c, A0 ⊆ As -> table_ok As c -> wlp m (fun _ c' es => table_ok As c' /\ Forall (down_ok R) es) c) ->
  safe R A0 P (on_client env m).
Proof.
  intros Hm. apply (safe_routed R A0 _ _ _ _ _ (fun _ => down_ok R)).
  - intros As s HA [Ht Hn Hs Hth] _. eapply wlp_mono; [|exact (Hm As _ HA Ht)]. intros a c es [Hc Hes]. by split.
  - intros As e _. apply safe_perform_down.
Qed.

(** A handler of the client that leaves the table alone. *)
Lemma safe_client_frame {A} R A0 P (m : M client (sc_effect (api_cb requester)) A) :
  (forall c, wlp m (fun _ c' es => sc_requestMap c' = sc_requestMap c /\ Forall (down_ok R) es) c) ->
  safe R A0 P (on_client env m).
Proof.
  intros Hm. apply safe_on_client. intros As c HA Hc. eapply wlp_mono; [|exact (Hm c)].
  intros a c' es [He Hes]. split; [|done]. unfold table_ok. by rewrite He.
Qed.

Lemma safe_clear R A0 P : safe R A0 P (on_client env clearRequests).
Proof. apply safe_on_client. intros As c HA Hc. split; [apply map_Forall_empty | done]. Qed.

(** *** What is left for later *)

(** A handler that keeps the invariant, and leaves only what may be left. *)
Definition leaves (R : list string) (A0 : list (api_request * Z)) (P : Session -> Prop) (m : ses_handler (list action)) : Prop :=
  forall As s, A0 ⊆ As -> Inv R As s -> P s ->
  wlp m (fun todo s' es => Inv R (As ++ asked es) s' /\ Forall (action_ok R (As ++ asked es)) todo) s.

Lemma leaves_weaken R A0 P m : leaves R A0 always m -> leaves R A0 P m.
Proof. intros Hm As s HA Hi _. by apply Hm. Qed.
Lemma leaves_ret R A0 P l : Forall (action_ok R A0) l -> leaves R A0 P (mret l).
Proof. intros Hl As s HA Hi _. unfold wlp; simpl. rewrite app_nil_r. split; [done|]. by eapply actions_mono. Qed.
Lemma leaves_at_once R A0 P m : safe R A0 P m -> leaves R A0 P (at_once m).
Proof.
  intros Hm As s HA Hi HP. unfold at_once. apply wlp_bind. eapply wlp_mono; [|exact (Hm As s HA Hi HP)].
  intros [] s1 e1 H1. apply wlp_ret. by rewrite app_nil_r.
Qed.
Lemma leaves_bind {A} R A0 P (m : ses_handler A) f :
  safe R A0 P m -> (forall a, leaves R A0 always (f a)) -> leaves R A0 P (mbind f m).
Proof.
  intros Hm Hf As s HA Hi HP. apply wlp_bind. eapply wlp_mono; [|exact (Hm As s HA Hi HP)].
  intros a s1 e1 H1. assert (HA1 : A0 ⊆ As ++ asked e1) by set_solver.
  eapply wlp_mono; [|exact (Hf a _ s1 HA1 H1 I)]. intros b s2 e2 H2. by rewrite asked_app, app_assoc.
Qed.
Lemma leaves_get R A0 P (f : Session -> ses_handler (list action)) :
  (forall s, leaves R A0 (fun s' => P s' /\ s' = s) (f s)) -> leaves R A0 P (s ← get; f s).
Proof. intros Hf As s HA Hi HP. apply wlp_bind, wlp_get. exact (Hf s As s HA Hi (conj HP eq_refl)). Qed.
Lemma leaves_throw R A0 P f : leaves R A0 P (throw f).
Proof. done. Qed.

Lemma leaves_draw R A0 P (f : Z -> ses_handler (list action)) :
  (forall gid, generateID gid = true -> leaves R A0 always (f gid)) -> leaves R A0 P (gid ← draw env; f gid).
Proof.
  intros Hf As s HA [Ht Hn Hs Hth] _. unfold draw. apply wlp_bind. wlp_run.
  eapply wlp_mono; [|apply (Hf (e_ids env (ses_draws s)) (ids_drawn _) As (ses_set_draws (S (ses_draws s)) s) HA); [by split | done]].
  by intros b s' es.
Qed.

(** *** Handlers of the room *)

Lemma leaves_begun R A0 P (m : rc_handler unit) :
  (forall As s, A0 ⊆ As -> P s -> wlp m (fun _ r es =>
     (rc_state r = CONNECTED -> rc_state (ses_room s) = CONNECTED \/ granted R As) /\ Forall well_addressed es) (ses_room s)) ->
  leaves R A0 P (begun m).
Proof.
  intros Hm As s HA [Ht Hn Hs Hth] HP. specialize (Hm As s HA HP). unfold wlp, begun in *.
  destruct (m (ses_room s)) as [[[[] r] es]|]; [|done]. destruct Hm as [Hr Hes]. cbn. rewrite app_nil_r.
  split; [split; [done|done| |done]; cbn; intros Hc; destruct (Hr Hc); auto | by apply Forall_fmap].
Qed.
Lemma leaves_tame R A0 P (m : rc_handler unit) : tame m -> leaves R A0 P (begun m).
Proof.
  intros Hm. apply leaves_begun. intros As s HA HP. eapply wlp_mono; [|exact (Hm (ses_room s))].
  intros a r es [Hr Hes]. auto.
Qed.

(** *** Requests *)

Lemma leaves_send R A0 P text id scb fcb :
  (forall cb, scb = Some cb -> for_join cb -> cb_kind cb = RJoin /\ exists d, (AJoin d, wrap32 id) ∈ A0) ->
  leaves R A0 P (begin_send env text id scb fcb).
Proof.
  intros Hcb. unfold begin_send. case_decide; [by apply leaves_ret|].
  intros As s HA Hi _. unfold wlp, on_client, routed, make_request, mbind, M_bind. cbn.
  rewrite app_nil_r. split; [by destruct s|].
  assert (Hok : forall q, wr_resolve q = scb -> wr_id q = id -> action_ok R As (ASend q) /\ action_ok R As (ARecord q)).
  { intros q Hr Hid. enough (action_ok R As (ARecord q)) by done. intros cb Hq Hj. unfold request_id. rewrite Hid. destruct (Hcb cb) as (Hk & d & Hd); [congruence | done|].
    split; [done|]. exists d. by apply HA. }
  apply Forall_cons. split; [by apply Hok|]. apply Forall_singleton. by apply Hok.
Qed.

Lemma leaves_asked R A0 P r gid (m : ses_handler (list action)) :
  leaves R ((r, gid) :: A0) always m -> leaves R A0 P (_ ← emit (SRequest r gid); m).
Proof.
  intros Hf As s HA Hi _. apply wlp_bind, wlp_emit.
  assert (Hi1 : Inv R (As ++ [(r, gid)]) s) by (eapply Inv_mono; [|exact Hi]; set_solver).
  assert (HA1 : (r, gid) :: A0 ⊆ As ++ [(r, gid)]).
  { intros x [->|Hx]%elem_of_cons; apply elem_of_app; [right; by left | left; by apply HA]. }
  eapply wlp_mono; [|exact (Hf _ s HA1 Hi1 I)].
  intros b s' es Hi'. cbv beta in Hi'. rewrite <- app_assoc in Hi'. exact Hi'.
Qed.

Lemma leaves_request R A0 P r cb :
  (cb = Some (ByRoom CbJoin) -> exists d, r = AJoin d) -> leaves R A0 P (begin_request env r cb).
Proof.
  intros Hcb. unfold begin_request. apply leaves_draw. intros gid Hg. apply leaves_asked, leaves_get. intros s.
  destruct (rc_signalingClient (ses_room s)); [|by apply leaves_ret]. apply leaves_send.
  intros cb' [= <-] Hj. cbn in Hj. destruct (Hcb Hj) as [d ->]. split; [done|]. exists d.
  rewrite (wrap32_id _ (generateID_int32 _ Hg)). by left.
Qed.

(** *** The effects of the room *)

Lemma leaves_effect R A0 e : well_addressed e -> leaves R A0 always (perform_effect env e).
Proof.
  intros He. destruct e as [| |w|w|w|url sub| |r cb|t|state|vol|p id ice cs dt sc|t|t|[ev|e]]; cbn [perform_effect];
    try (by apply leaves_at_once, safe_emit).
  - apply leaves_at_once, safe_on_client. intros As c HA Hc. unfold sc_init, clearRequests. wlp_run. split; [apply map_Forall_empty | by repeat constructor].
  - apply leaves_at_once, safe_bind.
    + apply safe_on_client. intros As c HA Hc. unfold sc_destroy, clearRequests. wlp_run. split; [apply map_Forall_empty | by repeat constructor].
    + intros _. unfold client_dies. apply safe_bind; [apply safe_clear|]. intros _. apply safe_transport_down. auto with rtc.
  - apply leaves_at_once, safe_get. intros s. apply safe_client_frame. intros c. unfold sc_addObserver. by wlp_run.
  - apply leaves_at_once, safe_get. intros s. apply safe_client_frame. intros c. unfold sc_removeObserver. by wlp_run.
  - apply leaves_at_once, safe_modify. by intros s.
  - apply leaves_at_once, safe_client_frame. intros c. unfold connect. wlp_run. by repeat constructor.
  - apply leaves_at_once, safe_client_frame. intros c. unfold disconnect. wlp_run. by repeat constructor.
  - apply leaves_request. intros [= ->]. exact He.
  - apply leaves_at_once, safe_modify. by intros s.
  - destruct e as [r has_callback|r|calls|t|k en co a|i p k rt a|i dp si l pr a|i|i|i|n src d]; try (by apply leaves_at_once, safe_emit).
    + apply leaves_request. by destruct has_callback.
    + unfold begin_response. apply leaves_get. intros s. destruct (rc_signalingClient _); [by apply leaves_send | by apply leaves_ret].
    + apply leaves_at_once, safe_modify. by intros s.
Qed.

(** *** Answers *)

Lemma run_callback_ok R As gid c : call_ok R As c -> Forall (user_ok R As) (run_callback parse gid c).
Proof.
  intros Hc. destruct c as [cb json|cb code info]; cbn [run_callback call_ok] in *.
  - case_decide; [constructor|]. destruct (parse_response _ _ _ _) as [resp|] eqn:Hp; [|constructor].
    destruct (cb_user cb) as [k|] eqn:Hk; [|constructor]. apply Forall_singleton.
    intros Hj _ j Hresp Hok. cbn in Hj. subst k. destruct (Hc Hk) as [Hkind [g Ha]].
    rewrite Hkind in Hp. cbn in Hp. destruct (fromJsonString (A := JoinResponse) parse default_init json) as [x|] eqn:Hx; [|done].
    injection Hp as <-. injection Hresp as <-. by exists g, json, x.
  - destruct (cb_user cb); [|constructor]. apply Forall_singleton. by intros _ ?.
Qed.

Lemma leaves_answer R A0 P c : user_ok R A0 c -> leaves R A0 P (answer c).
Proof.
  intros Hu. unfold answer. destruct (uc_callback c) as [cb|] eqn:Hcb; [|by apply leaves_ret].
  destruct cb; try (by apply leaves_at_once, safe_emit).
  - apply leaves_tame, tame_capabilities.
  - apply leaves_tame, tame_transport.
  - apply leaves_begun. intros As s HA _. unfold onJoinResponse. wlp_run; try by (split; [by left | constructor]).
    split; [|by repeat constructor]. intros _. right. eapply granted_mono; [done | exact HA|].
    eapply (Hu Hcb); [by destruct (decide (uc_errorCode c = 0%Z)) | done | by apply negb_false_iff].
Qed.

Lemma leaves_called R A0 P c : call_ok R A0 c -> leaves R A0 P (called env c).
Proof.
  intros Hc. unfold called. apply leaves_draw. intros gid _. apply leaves_ret, Forall_fmap.
  exact (run_callback_ok R A0 gid c Hc).
Qed.

Lemma leaves_observe R A0 P a n : leaves R A0 P (observe env a n).
Proof. unfold observe. destruct (observer_call _ n); [apply leaves_tame, tame_handle_event | by apply leaves_ret]. Qed.

Lemma leaves_notify R A0 P n : leaves R A0 P (notify_client n).
Proof.
  unfold notify_client. apply leaves_get. intros s. destruct (notifyObservers _ _ _) as [ds|]; [|apply leaves_throw].
  apply leaves_ret, Forall_fmap, Forall_forall. by intros d _.
Qed.

(** A step of a thread. *)
Lemma leaves_action R A0 a : action_ok R A0 a -> leaves R A0 always (perform_action env a).
Proof.
  intros Ha. destruct a as [e|q|q|e|c|d n]; cbn [perform_action action_ok] in *.
  - by apply leaves_effect.
  - apply leaves_at_once, safe_client_frame. intros c. unfold send_request. wlp_run. by repeat constructor.
  - apply leaves_at_once, safe_on_client. intros As c HA Hc. unfold record_request. wlp_run. split; [|constructor].
    apply map_Forall_insert_2; [|exact Hc]. intros cb Hcb Hj. cbn in Hcb. destruct (Ha cb Hcb Hj) as (Hk & d & Hd). eauto.
  - destruct e; cbn [perform_client]; try (by apply leaves_at_once, safe_perform_down).
    + by apply leaves_called.
    + apply leaves_notify.
  - by apply leaves_answer.
  - destruct d as [a|th a]; cbn [deliver]; [apply leaves_observe|].
    apply leaves_at_once. intros As s' HA Hi _. by apply (safe_post R A0 (TObserve a n)).
Qed.

(** *** Handlers of the client *)

Lemma leaves_client R A0 P (m : M client (sc_effect (api_cb requester)) unit) :
  (forall As c, A0 ⊆ As -> table_ok As c ->
     wlp m (fun _ c' es => table_ok As c' /\ Forall (fun e => action_ok R As (AClient e)) es) c) ->
  leaves R A0 P (begun_client m).
Proof.
  intros Hm As s HA [Ht Hn Hs Hth] HP. specialize (Hm As _ HA Ht). unfold wlp, begun_client in *.
  destruct (m (ses_client s)) as [[[[] c] es]|]; [|done]. destruct Hm as [Hc Hes]. cbn. rewrite app_nil_r.
  split; [by split | by apply Forall_fmap].
Qed.

(** *** The handlers of the client *)

Lemma onMessage_table json R As c : json ∈ R -> table_ok As c ->
  wlp (sc_onMessage parse json) (fun _ c' es => table_ok As c' /\ Forall (fun e => action_ok R As (AClient e)) es) c.
Proof.
  intros Hj Hc. unfold sc_onMessage, handleNotification, handleResponse, handleRequest. wlp_run; (split; [done|]);
    by repeat constructor.
Qed.

Lemma onClosed_table R As c : table_ok As c ->
  wlp (sc_onClosed (e_table_order env)) (fun _ c' es => table_ok As c' /\ Forall (fun e => action_ok R As (AClient e)) es) c.
Proof.
  intros Hc. unfold wlp. rewrite onClosed_run. split; [apply map_Forall_empty|].
  apply Forall_app. split; [|by repeat constructor]. apply Forall_forall.
  intros e (it & He & _)%list_elem_of_bind. apply list_elem_of_fmap in He as (x & -> & Hx). cbn in Hx.
  destruct (wr_reject it.2); [|by apply not_elem_of_nil in Hx]. apply list_elem_of_singleton in Hx as ->. done.
Qed.

Lemma response_table json R As c : json ∈ R -> table_ok As c ->
  wlp (handleResponse_task parse json) (fun _ c' es => table_ok As c' /\ Forall (fun e => action_ok R As (AClient e)) es) c.
Proof.
  intros Hj Hc. unfold handleResponse_task.
  destruct (fromJsonString (A := ResponseHeader) parse default_init json) as [h|] eqn:Hh; [|by split].
  destruct (ResponseHeader_id h) as [gid|] eqn:Hid; [|by split].
  wlp_run; try by split. simplify_eq/=.
  split; [by apply map_Forall_delete|]. apply Forall_fmap.
  destruct (wr_resolve _) as [cb|] eqn:Hcb; [|constructor]. apply Forall_singleton. simpl. intros Hjoin.
  match goal with Hr : sc_requestMap c !! ?g = Some _ |- _ => destruct (Hc _ _ Hr cb Hcb Hjoin) as (Hk & d & Hd); split; [done|]; exists g end.
  split; [done|]. split; [by exists d|]. by exists h.
Qed.

(** *** Tasks and events *)

Lemma leaves_if_alive R A0 P a m : leaves R A0 always m -> leaves R A0 P (if_alive a m).
Proof.
  intros Hm. unfold if_alive. apply leaves_get. intros s. destruct (alive s a); [by apply leaves_weaken | by apply leaves_ret].
Qed.

Lemma leaves_network R A0 t : network_ok R t -> leaves R A0 always (run_network env t).
Proof.
  intros Ht. destruct t as [e|json|a n]; cbn [run_network]; apply leaves_if_alive.
  - apply leaves_client. intros As c HA Hc. destruct e.
    + unfold sc_onOpened. wlp_run. split; [done | by repeat constructor].
    + by apply onClosed_table.
    + unfold sc_onFailed. wlp_run. split; [done | by repeat constructor].
    + by apply onMessage_table.
  - apply leaves_client. intros As c HA Hc. by apply response_table.
  - apply leaves_observe.
Qed.

Lemma leaves_main R A0 t : leaves R A0 always (run_main env t).
Proof.
  destruct t as [c|t|t]; cbn [run_main].
  - apply leaves_tame, tame_app.
  - apply leaves_tame, tame_task.
  - apply leaves_if_alive, leaves_get. intros s. apply leaves_tame, tame_on_participants.
Qed.

(** A thread that goes on. *)
Lemma safe_thread R A0 P i rest m :
  Forall (action_ok R A0) rest -> leaves R A0 P m -> safe R A0 P (thread_runs i rest m).
Proof.
  intros Hrest Hm As s HA Hi HP. unfold thread_runs. apply wlp_bind. eapply wlp_mono; [|exact (Hm As s HA Hi HP)].
  intros todo s1 e1 [[Ht Hn Hs Hth] Htodo]. apply wlp_modify. rewrite app_nil_r. split; [done|done|done|].
  cbn [ses_threads ses_set_threads]. apply Forall_insert; [done|]. apply Forall_app. split; [done|].
  eapply actions_mono; [|exact Hrest]. set_solver.
Qed.

(** The transport thread takes a task. *)
Lemma safe_pop R A0 l (m : ses_handler unit) P :
  (forall s, P s -> Forall (network_ok R) l) -> safe R A0 always m ->
  safe R A0 P (_ ← modify (ses_set_network l); m).
Proof.
  intros Hl Hm. apply safe_bind; [|done]. intros As s HA [Ht Hn Hs Hth] HP. unfold wlp; simpl. rewrite app_nil_r.
  split; [done|simpl; by eapply Hl | done | done].
Qed.

(** Only a text message tells the transport of a text. *)
Definition text_of (e : net_event) (c : conn_event) : Prop :=
  forall t, c = OnTextMessage t -> e = NetMessage (FText t).

Lemma md_event_text al e md : Forall (fun c => text_of e c.2) (md_event al e md).2.
Proof.
  destruct e as [| | | |[]| | |]; cbn; unfold call_observer; try destruct (lock _ _); repeat constructor;
    intros t; cbn; congruence.
Qed.

Definition texts_of (e : net_event) (y : ws_effect) : Prop :=
  match y with WObserver _ c => text_of e c | _ => True end.

Lemma endpoint_event_text al id e : emits_only (texts_of e) (t_event al id e).
Proof.
  apply (framed_zoom _ _ _ _ (fun e => e)); [done|]. unfold ep_event, with_connection. frame_run.
  pose proof (md_event_text al e c) as Ht. rewrite Heqp in Ht. apply framed_emits; [typeclasses eauto|].
  apply Forall_fmap. eapply Forall_impl; [exact Ht | done].
Qed.

Lemma net_event_told R al id e s :
  received [EvNet id e] ⊆ R -> wlp (tr_net_event transport_addr al id e) (fun _ _ es => Forall (told_ok R) es) s.
Proof.
  intros HR. unfold tr_net_event, wlp. destruct (tr_websocket s) as [w|]; [|by constructor].
  pose proof (emits_only_wlp _ _ w (endpoint_event_text al id e)) as Hw. unfold wlp in Hw.
  destruct (t_event al id e w) as [[[u w'] ws]|]; [|done].
  assert (Hcalls : Forall (text_of e) (ws ≫= my_call transport_addr)).
  { apply Forall_forall. intros c (y & Hy & Hin)%list_elem_of_bind. rewrite Forall_forall in Hw. specialize (Hw y Hin).
    destruct y as [| | |a c']; cbn in Hy; try (by apply not_elem_of_nil in Hy).
    case_decide; [|by apply not_elem_of_nil in Hy]. by apply list_elem_of_singleton in Hy as <-. }
  clear Hw. change (wlp (for_each (ws ≫= my_call transport_addr) tr_onConnection) (fun _ _ es => Forall (told_ok R) es)
    (tr_set_websocket (Some w') s)). generalize (tr_set_websocket (Some w') s).
  induction Hcalls as [|c l Hc Hl IH]; intros s1; cbn [for_each]; [by constructor|].
  apply wlp_bind. destruct c; cbn [tr_onConnection]; wlp_step; (eapply wlp_mono; [|exact (IH _)]);
    intros ? ? ? Hes; simpl; try done; constructor; try done. simpl. apply HR. rewrite (Hc _ eq_refl). by left.
Qed.

(** A new thread. *)
Lemma safe_bind_threads R A0 P (m : ses_handler (list action)) f :
  leaves R A0 P m ->
  (forall A' todo l, Forall (action_ok R A') todo -> Forall (Forall (action_ok R A')) l -> Forall (Forall (action_ok R A')) (f todo l)) ->
  safe R A0 P (todo ← m; modify (fun s => ses_set_threads (f todo (ses_threads s)) s)).
Proof.
  intros Hm Hf As s HA Hi HP. apply wlp_bind. eapply wlp_mono; [|exact (Hm As s HA Hi HP)].
  intros todo s1 e1 [[Ht Hn Hs Hth] Htodo]. apply wlp_modify. rewrite app_nil_r. split; [done|done|done|].
  by apply Hf.
Qed.

Lemma ses_step_safe R e As s :
  received [e] ⊆ R -> Inv R As s -> wlp (ses_step env e) (fun _ s' es => Inv R (As ++ asked es) s') s.
Proof.
  intros He Hi.
  assert (Hs : safe R As (fun s => Inv R As s) (ses_step env e)); [|by apply (Hs As s)].
  destruct e as [c|id e|e|w| | |i]; cbn [ses_step].
  - apply safe_modify. by intros s0.
  - apply safe_get. intros s0. apply safe_on_transport. intros s1 _. by apply net_event_told.
  - apply safe_transport_down. destruct e; cbn [tr_onConnection]; frame_run. simpl. set_solver.
  - apply (safe_bind_threads R As _ _ (fun todo l => l ++ [todo])); [apply leaves_tame, tame_waiter|].
    intros A' todo l Htodo Hl. apply Forall_app. by split; [|apply Forall_singleton].
  - apply safe_get. intros s0. destruct (ses_threads s0 !! 1%nat) as [[|]|]; [|apply safe_ret|apply safe_ret].
    destruct (ses_network s0) as [|t l] eqn:Hl; [apply safe_ret|].
    intros As' s' HA Hi' [Hinv ->]. destruct Hi' as [Ht Hn Hst Hth]. rewrite Hl in Hn. apply Forall_cons in Hn as [Hok Hn].
    apply (safe_pop R As l _ always); [done | by apply safe_thread; [constructor | apply leaves_network] | exact HA | | done].
    split; [done | by rewrite Hl; constructor | done | done].
  - apply safe_get. intros s0. destruct (ses_threads s0 !! 0%nat) as [[|]|]; [|apply safe_ret|apply safe_ret].
    destruct (ses_main s0) as [|t l]; [apply safe_ret|].
    apply safe_bind; [apply safe_modify; by intros s1 | intros _; by apply safe_thread; [constructor | apply leaves_main]].
  - apply safe_get. intros s0. destruct (ses_threads s0 !! i) as [[|a l]|] eqn:Hi'; [apply safe_ret| |apply safe_ret].
    intros As' s' HA Hs' [[Ht Hn Hst Hth] ->].
    pose proof (proj1 (Forall_lookup _ _) Hth _ _ Hi') as [Ha Hrest]%Forall_cons.
    by apply (safe_thread R As always i l _ Hrest (leaves_action R As a Ha)).
Qed.

Lemma Inv_start R : Inv R [] new_session.
Proof. split; [apply map_Forall_empty | constructor | done | by repeat constructor]. Qed.

Lemma events_safe R evs As s :
  received evs ⊆ R -> Inv R As s -> wlp (for_each evs (ses_step env)) (fun _ s' es => Inv R (As ++ asked es) s') s.
Proof.
  revert As s. induction evs as [|e evs IH]; intros As s HR Hi; cbn [for_each].
  - unfold wlp; simpl. by rewrite app_nil_r.
  - assert (Hsplit : received (e :: evs) = received [e] ++ received evs) by exact (bind_app _ [e] evs).
    rewrite Hsplit in HR. apply list_subseteq_app_iff_l in HR as [HR1 HR2]. apply wlp_bind.
    eapply wlp_mono; [|exact (ses_step_safe R e As s HR1 Hi)]. intros [] s1 e1 H1.
    eapply wlp_mono; [|exact (IH (As ++ asked e1) s1 HR2 H1)]. intros [] s2 e2 H2.
    by rewrite asked_app, app_assoc.
Qed.

Lemma run_safe evs s0 :
  Inv (received evs) [] s0 -> wlp (ses_run env evs) (fun _ s' es' => Inv (received evs) (asked es') s') s0.
Proof.
  intros Hi. unfold ses_run. apply wlp_bind.
  pose proof (safe_thread (received evs) [] always 0 [] _ (Forall_nil_2 _) (leaves_tame _ _ _ _ tame_init) [] s0 (list_subseteq_nil _) Hi I) as Hstart.
  eapply wlp_mono; [|exact Hstart].
  intros [] s1 e1 H1. pose proof (events_safe (received evs) evs (asked e1) s1 (reflexivity _) H1) as Hevs.
  eapply wlp_mono; [|exact Hevs]. intros [] s2 e2 H2. rewrite asked_app. exact H2.
Qed.

Lemma run_granted evs s0 s es :
  Inv (received evs) [] s0 -> ses_run env evs s0 = Done (tt, s, es) -> rc_state (ses_room s) = CONNECTED ->
  granted (received evs) (asked es).
Proof.
  intros Hi Hrun Hst. pose proof (run_safe evs s0 Hi) as Hw. unfold wlp in Hw. rewrite Hrun in Hw.
  exact (inv_state _ _ _ Hw Hst).
Qed.

(** C3: a room is connected only if the server said so.  Whatever calls, network
    events, responses and tasks a session goes through, and however its threads interleave
    between the effects of a handler and between the parts of sending a request, when its
    room is [CONNECTED] then a join request was made, and a text arrived that carries
    the request's id and reads as a join response with its [ok] member. *)
Theorem connected_was_granted evs s es :
  ses_run env evs new_session = Done (tt, s, es) -> rc_state (ses_room s) = CONNECTED ->
  exists json gid d h j,
    json ∈ received evs /\ (AJoin d, gid) ∈ asked es /\
    fromJsonString (A := ResponseHeader) parse default_init json = Ok h /\ ResponseHeader_id h = Some gid /\
    fromJsonString (A := JoinResponse) parse default_init json = Ok j /\ JoinResponse_ok j <> None.
Proof.
  intros Hrun Hst.
  destruct (run_granted evs new_session s es (Inv_start _) Hrun Hst) as (gid & json & j & (Hj & (d & Hd) & h & Hh & Hid) & Hjoin & Hok).
  exists json, gid, d, h, j. split; [exact Hj|]. split; [exact Hd|]. split; [exact Hh|]. split; [exact Hid|].
  split; [exact Hjoin|]. intros Hn. by rewrite Hn in Hok.
Qed.
End granted.

(** ** Witnesses *)

(** A printer that writes the method of a message, and a parser of the answers of a
    server that sends every text back after an ["R "]. *)
Definition demo_print (v : Value) : string :=
  match FindMember v "method" with Some (JString m) => if decide (m = "") then "{}" else m | _ => "{}" end.
Definition demo_reply (data : Value) : option Value :=
  Some (JObject [("response", JBool true); ("id", JInt 7); ("ok", JBool true); ("data", data)]).
Definition demo_parse (text : string) : option Value :=
  if decide (text = "R getRouterRtpCapabilities") then demo_reply (JObject [])
  else if decide (text = "R createWebRtcTransport") then
    demo_reply (JObject [("id", JString "t"); ("iceParameters", JObject []); ("iceCandidates", JArray []);
                         ("dtlsParameters", JObject []); ("sctpParameters", JObject [])])
  else if decide (text = "R join") then demo_reply (JObject [("peers", JArray [JObject [("id", JString "bob")]])])
  else Some (JObject []).
Definition demo_surroundings : Surroundings :=
  mkSurroundings demo_parse demo_print sample_nlohmann sample_Load sample_dump sample_dump sample_Create
    (fun _ _ => true) (fun _ _ _ _ => Err "no") (fun _ _ _ _ _ => Err "no") (fun _ _ _ _ _ _ => Err "no")
    (fun _ => true) (fun _ => true) (fun _ => 7%Z) map_to_list.
Definition demo_server (text : string) : list string := ["R " +:+ text].
Definition demo_join : ses_event := EvCall (AppJoin "me" "h" 443 "r" "Me" (Some OptionsDefault)).
Definition demo_text (text : string) : ses_event := EvNet 0 (NetMessage (FText text)).
(** Thread [i] takes [n] steps. *)
Definition steps (i n : nat) : list ses_event := replicate n (EvRun i).
(** A text of the server on its way to the room. *)
Definition demo_answer (text : string) : list ses_event :=
  [demo_text text; EvNetwork; EvRun 1; EvNetwork; EvRun 1; EvRun 1; EvRun 1].
Definition demo_events : list ses_event :=
  steps 0 6 ++ [demo_join; EvMain] ++ steps 0 3 ++ [EvNet 0 (NetOpen "srv"); EvNetwork] ++ steps 1 8 ++ [EvMain] ++ steps 0 3 ++
  demo_answer "R getRouterRtpCapabilities" ++ [EvMain] ++ steps 0 3 ++
  demo_answer "R createWebRtcTransport" ++ [EvMain] ++ steps 0 4 ++
  demo_answer "R createWebRtcTransport" ++ [EvMain; EvRun 0; EvRun 0; EvWait (WaitConnect "t" "{}"); EvRun 0;
    EvCall AppIsAudioMuted; EvRun 2; EvRun 0; EvRun 2] ++ demo_answer "R join".

Lemma demo_connects : exists s es,
  ses_run demo_surroundings demo_events new_session = Done (tt, s, es) /\ rc_state (ses_room s) = CONNECTED.
Proof. eexists _, _. split; [vm_compute; reflexivity | reflexivity]. Qed.

Lemma connected_was_granted_witness : exists s es,
  ses_run demo_surroundings demo_events new_session = Done (tt, s, es) /\
  exists json gid d h j,
    json ∈ received demo_events /\ (AJoin d, gid) ∈ asked es /\
    fromJsonString (A := ResponseHeader) demo_parse default_init json = Ok h /\ ResponseHeader_id h = Some gid /\
    fromJsonString (A := JoinResponse) demo_parse default_init json = Ok j /\ JoinResponse_ok j <> None.
Proof.
  destruct demo_connects as (s & es & Hrun & Hst). exists s, es. split; [exact Hrun|].
  exact (connected_was_granted demo_surroundings (fun _ => eq_refl) demo_events s es Hrun Hst).
Defined.
