(* ===== verification/SessionProgress.v ===== *)
(** * A session and its server

    A session closed by a server that opens the connection and answers the requests, and
    by an application that calls it meanwhile: in whatever order the application, the
    threads and the network take their turns, the client gets connected, unless an answer
    overtakes the entry of its request into the table. *)

From stdpp Require Import base gmap strings list pretty.
From Stdlib Require Import ZArith Lia.
From S2P Require Import Prelude Json SignalingModels WebsocketRequest Observable Websocket WebsocketFacts SignalingClient MediasoupApi ParticipantController ParticipantProxy MediaController MediaControllerFacts RemoteMedia RoomClient RoomClientFacts Session SessionFacts.

#[local] Open Scope string_scope.
#[local] Open Scope list_scope.

(** ** The closed system *)

(** The session, the calls the application has yet to make, what the network has yet to
    deliver, and what happened so far. *)
Record loop : Type := mkLoop {
  lp_session : Session;
  lp_calls : list app_call;
  lp_arriving : list net_event;
  lp_trace : list ses_effect
}.

(** The texts a session sends. *)
Definition texts (es : list ses_effect) : list string :=
  es ≫= (fun e => match e with SWire (WSend _ (FText t)) => [t] | _ => [] end).

Lemma texts_app es es' : texts (es ++ es') = texts es ++ texts es'.
Proof. apply bind_app. Qed.

(** ** The tasks of the handshake leave the client alone *)

(** They send requests, create transports, and tell the application; they leave the
    client and the room's state alone. *)
Definition plain (e : rc_effect) : Prop :=
  match e with
  | RApi _ _ | RCreateTransport _ _ _ _ _ _ | RRoomStateChanged _ | RControllers (PNotify _) => True
  | _ => False
  end.
Definition same_client (s s' : RoomClient) : Prop :=
  rc_signalingClient s' = rc_signalingClient s /\ (rc_mediaController s = true -> rc_mediaController s' = true) /\
  rc_state s' = rc_state s.
#[local] Instance same_client_preorder : PreOrder same_client.
Proof. unfold same_client. split; [by intros s | intros s1 s2 s3; intuition congruence]. Qed.
#[local] Hint Extern 1 (same_client _ _) => (by repeat split) : rtc.
Abbreviation mild m := (framed same_client plain m).

Section mild_room.
Context `{HashOrder}.
Variable env : Surroundings.

Lemma mild_with_media f : mild (with_media (modify f)).
Proof. unfold with_media, on_media, on_participants, media. frame_run. Qed.
#[local] Hint Extern 1 (framed same_client _ (with_media _)) => apply mild_with_media : rtc.
Lemma mild_reparse {A} `{FieldsMap A} (m : A) : mild (rc_reparse (e_print env) (e_nlohmann env) m).
Proof. unfold rc_reparse. frame_run. Qed.
#[local] Hint Resolve mild_reparse : rtc.
Lemma mild_reparse_all {A} `{FieldsMap A} (l : list A) : mild (reparse_all (e_print env) (e_nlohmann env) l).
Proof. induction l; cbn [reparse_all]; frame_run. Qed.
#[local] Hint Resolve mild_reparse_all : rtc.
Lemma mild_the_device : mild the_device.
Proof. unfold the_device. frame_run. Qed.
#[local] Hint Resolve mild_the_device : rtc.
Lemma mild_read_capabilities {A} `{FieldsMap A, DefaultInit A} wanted dump :
  mild (read_capabilities (A := A) (e_parse env) wanted dump).
Proof. unfold read_capabilities. frame_run. Qed.
#[local] Hint Resolve mild_read_capabilities : rtc.
Lemma mild_request f p c : mild (requestCreateTransport (e_parse env) (e_sctp env) f p c).
Proof. unfold requestCreateTransport. frame_run. Qed.
#[local] Hint Resolve mild_request : rtc.
Lemma mild_joinImpl : mild (joinImpl (e_parse env) (e_rtp env) (e_sctp env)).
Proof. unfold joinImpl. frame_run. Qed.
#[local] Hint Resolve mild_joinImpl : rtc.
Lemma mild_createTransport p c r :
  mild (createTransportImpl (e_print env) (e_nlohmann env) (e_CreateTransport env) p c r).
Proof. unfold createTransportImpl. frame_run. Qed.
#[local] Hint Resolve mild_createTransport : rtc.
Lemma mild_createParticipant pid name : mild (on_participants (createParticipant pid name)).
Proof.
  unfold on_participants. apply framed_zoom; [done|]. unfold createParticipant, map_index, update.
  frame_run. by intros s.
Qed.
#[local] Hint Resolve mild_createParticipant : rtc.

Definition handshake_task (t : rc_task) : Prop :=
  match t with TaskClosed => False | TaskJoined state _ => state = CONNECTED | _ => True end.

Lemma mild_task t :
  handshake_task t ->
  mild (rc_run_task (e_parse env) (e_print env) (e_nlohmann env) (e_Load env) (e_rtp env) (e_sctp env)
          (e_CreateTransport env) t).
Proof.
  intros Ht. destruct t as [| |r|p c r|state r]; cbn [rc_run_task handshake_task] in *.
  - unfold getRouterRtpCapabilities. frame_run.
  - done.
  - unfold onLoadMediasoupDevice, createSendTransport, createRecvTransport. frame_run.
  - unfold onCreateSendTransport, onCreateRecvTransport, createRecvTransport. frame_run.
  - subst. unfold joined_task, rc_onRoomStateChanged, createComponents. rewrite decide_True by done. frame_run.
Qed.
End mild_room.

Section loop.
Context `{HashOrder}.
Variable env : Surroundings.
(** What the server answers to a text, and its name. *)
Variable server : string -> list string.
Variable server_name : string.

(** What an effect of the session makes the network report later: the connection opens,
    the server's answers arrive. *)
Definition replies (e : ses_effect) : list net_event :=
  match e with
  | SWire (WConnect _ _ _) => [NetOpen server_name]
  | SWire (WSend _ (FText t)) => (fun t => NetMessage (FText t)) <$> server t
  | _ => []
  end.

Definition after (calls : list app_call) (arriving : list net_event) (trace : list ses_effect)
    (r : outcome (unit * Session * list ses_effect)) : outcome loop :=
  match r with
  | Fault f => Fault f
  | Done (_, s, es) => Done (mkLoop s calls (arriving ++ (es ≫= replies)) (trace ++ es))
  end.

(** A [patient] network delivers nothing while a request that was sent is not in the
    table. *)
Variable patient : bool.
Definition all_recorded (s : Session) : Prop := forall l q, l ∈ ses_threads s -> ARecord q ∉ l.

(** The application, the transport thread, the mediasoup thread (taking a task, or going
    on), or the network takes a step. *)
Inductive loop_step : loop -> outcome loop -> Prop :=
| loop_call s c cs a tr :
    loop_step (mkLoop s (c :: cs) a tr) (after cs a tr (ses_step env (EvCall c) s))
| loop_network s cs a tr :
    ses_threads s !! 1%nat = Some [] -> ses_network s <> [] ->
    loop_step (mkLoop s cs a tr) (after cs a tr (ses_step env EvNetwork s))
| loop_main s cs a tr :
    ses_threads s !! 0%nat = Some [] -> ses_main s <> [] ->
    loop_step (mkLoop s cs a tr) (after cs a tr (ses_step env EvMain s))
| loop_run i s x l cs a tr :
    ses_threads s !! i = Some (x :: l) ->
    loop_step (mkLoop s cs a tr) (after cs a tr (ses_step env (EvRun i) s))
| loop_arrives s e cs a tr :
    (patient = true -> all_recorded s) ->
    loop_step (mkLoop s cs (e :: a) tr)
      (after cs a tr (ses_step env (EvNet (tr_connectionId (ses_transport s)) e) s)).

(** On every way the system can go on, without a fault and without getting stuck,
    it comes to a state in [P]. *)
Inductive eventually (P : loop -> Prop) : outcome loop -> Prop :=
| eventually_now l : P l -> eventually P (Done l)
| eventually_later l :
    (exists o, loop_step l o) -> (forall o, loop_step l o -> eventually P o) -> eventually P (Done l).

Lemma eventually_mono (P Q : loop -> Prop) r : (forall l, P l -> Q l) -> eventually P r -> eventually Q r.
Proof. intros HPQ. induction 1 as [l Hl|l Hex Hall IH]; [by apply eventually_now, HPQ | by apply eventually_later]. Qed.

(** ** What goes on beside the handshake *)

(** A call that asks the room something, and changes nothing. *)
Definition idle_call (c : app_call) : Prop :=
  forall room, rc_mediaController room = true -> app_run env c room = Done (tt, room, []).

(** Something a thread has still to do that changes nothing and asks for nothing. *)
Definition quiet (a : action) : Prop :=
  (forall q, a <> ARecord q) /\
  exists es, (forall s, perform_action env a s = Done ([], s, es)) /\
    asked es = [] /\ texts es = [] /\ (es ≫= replies) = [].

(** The part of a session the handshake is about, with what was asked and sent. *)
Record core : Type := mkCore {
  c_room : RoomClient;
  c_client : client;
  c_transport : WebsocketTransport TLSWebsocketEndpoint;
  c_draws : nat;
  c_network : list network_task;
  c_key : list main_task;
  c_head : list action;
  c_tail : list action;
  c_arriving : list net_event;
  c_asked : list (api_request * Z);
  c_texts : list string
}.

(** And the rest: calls in the queue before and after the task that counts, and what the
    mediasoup thread and the transport thread have left to do. *)
Record noise : Type := mkNoise {
  z_before : list app_call;
  z_after : list app_call;
  z_rest : list action;
  z_left : list action
}.
Definition noise_ok (z : noise) : Prop :=
  Forall idle_call (z_before z) /\ Forall idle_call (z_after z) /\ Forall quiet (z_rest z) /\ Forall quiet (z_left z).

Definition dress (c : core) (z : noise) : Session :=
  mkSession (c_room c) (c_client c) (c_transport c) (c_draws c) (c_network c)
    ((CallTask <$> z_before z) ++ c_key c ++ (CallTask <$> z_after z))
    [c_head c ++ z_rest z; c_tail c ++ z_left z].

Definition told (tr : list ses_effect) (c : core) : Prop := asked tr = c_asked c /\ texts tr = c_texts c.

(** From [c] on, whatever goes on beside it, the system comes to [P]. *)
Definition reaches (P : loop -> Prop) (c : core) : Prop := forall z cs tr,
  noise_ok z -> Forall idle_call cs -> told tr c -> eventually P (Done (mkLoop (dress c z) cs (c_arriving c) tr)).

(** The event [e] takes [c] to a core from which [P] is reached. *)
Definition moves (P : loop -> Prop) (e : ses_event) (c : core) (arriving : list net_event) (enabled : noise -> Prop) : Prop :=
  exists c' es, reaches P c' /\ c_arriving c' = arriving ++ (es ≫= replies) /\
    c_asked c' = c_asked c ++ asked es /\ c_texts c' = c_texts c ++ texts es /\
    forall z, noise_ok z -> enabled z -> exists z', noise_ok z' /\ ses_step env e (dress c z) = Done (tt, dress c' z', es).

Definition anyhow (z : noise) : Prop := True.
Definition main_free (z : noise) : Prop := z_before z = [] /\ z_rest z = [].
Definition network_free (z : noise) : Prop := z_left z = [].

(** The network may deliver. *)
Definition deliverable (c : core) : Prop := patient = true -> forall q, ARecord q ∉ c_head c ++ c_tail c.

(** Some agent can take a step that counts, or all is done. *)
Definition progresses (P : loop -> Prop) (c : core) : Prop :=
  c_head c <> [] \/ c_key c <> [] \/ c_tail c <> [] \/ c_network c <> [] \/ (c_arriving c <> [] /\ deliverable c) \/
  (c_arriving c = [] /\ forall tr, told tr c -> P (mkLoop (dress c (mkNoise [] [] [] [])) [] [] tr)).

Lemma after_done cs a tr s es :
  after cs a tr (Done (tt, s, es)) = Done (mkLoop s cs (a ++ (es ≫= replies)) (tr ++ es)).
Proof. reflexivity. Qed.

(** A thread takes a step. *)
Lemma run_step i a l s l' s' es :
  ses_threads s !! i = Some (a :: l) -> perform_action env a s = Done (l', s', es) -> 
  ses_step env (EvRun i) s = Done (tt, ses_set_threads (<[i := l' ++ l]> (ses_threads s')) s', es).
Proof.
  intros Hi Ha. cbn [ses_step]. unfold mbind, M_bind, get. rewrite Hi.
  unfold thread_runs, mbind, M_bind. rewrite Ha. unfold modify. cbn [app]. by rewrite app_nil_r.
Qed.

(** The mediasoup thread and the transport thread take a task. *)
Lemma main_taken t mn s l' s' es :
  ses_threads s !! 0%nat = Some [] -> ses_main s = t :: mn ->
  run_main env t (ses_set_main mn s) = Done (l', s', es) ->
  ses_step env EvMain s = Done (tt, ses_set_threads (<[0%nat := l']> (ses_threads s')) s', es).
Proof.
  intros Hi Hm Ha. cbn [ses_step]. unfold mbind, M_bind, get. rewrite Hi, Hm.
  unfold thread_runs, modify, mbind, M_bind. rewrite Ha. cbn [app]. by rewrite !app_nil_r.
Qed.
Lemma network_taken t nw s l' s' es :
  ses_threads s !! 1%nat = Some [] -> ses_network s = t :: nw ->
  run_network env t (ses_set_network nw s) = Done (l', s', es) ->
  ses_step env EvNetwork s = Done (tt, ses_set_threads (<[1%nat := l']> (ses_threads s')) s', es).
Proof.
  intros Hi Hm Ha. cbn [ses_step]. unfold mbind, M_bind, get. rewrite Hi, Hm.
  unfold thread_runs, modify, mbind, M_bind. rewrite Ha. cbn [app]. by rewrite !app_nil_r.
Qed.

(** *** The steps that do not count *)

Lemma quiet_step i a l s :
  quiet a -> ses_threads s !! i = Some (a :: l) ->
  exists es, ses_step env (EvRun i) s = Done (tt, ses_set_threads (<[i := l]> (ses_threads s)) s, es) /\
    asked es = [] /\ texts es = [] /\ (es ≫= replies) = [].
Proof. intros (_ & es & Hes & Hq) Hi. exists es. split; [|done]. exact (run_step i a l s [] s es Hi (Hes s)). Qed.

Lemma idle_step c mn s :
  idle_call c -> rc_mediaController (ses_room s) = true -> ses_threads s !! 0%nat = Some [] -> ses_main s = CallTask c :: mn ->
  ses_step env EvMain s = Done (tt, ses_set_main mn s, []).
Proof.
  intros Hc Hm Hi Hl. assert (Hrun : run_main env (CallTask c) (ses_set_main mn s) = Done ([], ses_set_main mn s, [])).
  { cbn [run_main]. unfold begun. cbn [ses_room ses_set_main]. rewrite (Hc _ Hm). by destruct s. }
  rewrite (main_taken _ _ _ _ _ _ Hi Hl Hrun). do 3 f_equal. destruct s. unfold ses_set_threads. cbn in *.
  by rewrite list_insert_id.
Qed.

Definition noise_size (z : noise) (cs : list app_call) : nat :=
  2 * length cs + length (z_before z) + length (z_after z) + length (z_rest z) + length (z_left z).

Lemma told_more tr c es : told tr c -> asked es = [] -> texts es = [] -> told (tr ++ es) c.
Proof. intros [Ha Ht] H1 H2. split; [by rewrite asked_app, H1, app_nil_r | by rewrite texts_app, H2, app_nil_r]. Qed.

Lemma move_on P e c a en z cs tr :
  moves P e c a en -> noise_ok z -> en z -> Forall idle_call cs -> told tr c ->
  eventually P (after cs a tr (ses_step env e (dress c z))).
Proof.
  intros (c' & es & Hc' & Ha & Hasked & Htexts & Hstep) Hz Hen Hcs [H1 H2].
  destruct (Hstep z Hz Hen) as (z' & Hz' & ->). rewrite after_done, <- Ha. apply Hc'; [done|done|].
  split; [by rewrite asked_app, H1 | by rewrite texts_app, H2].
Qed.

(** An agent can always go on where something is left. *)
Lemma someone_moves c z cs tr :
  (c_head c ++ z_rest z <> [] \/ (CallTask <$> z_before z) ++ c_key c ++ (CallTask <$> z_after z) <> [] \/
   c_tail c ++ z_left z <> [] \/ c_network c <> [] \/ cs <> [] \/ (c_arriving c <> [] /\ all_recorded (dress c z)) \/
   (c_arriving c <> [] /\ patient = false)) ->
  exists o, loop_step (mkLoop (dress c z) cs (c_arriving c) tr) o.
Proof.
  intros Hany. destruct cs as [|x cs]; [|eexists; apply loop_call].
  destruct (c_head c ++ z_rest z) as [|a h] eqn:Hh; [|eexists; eapply (loop_run 0); cbn; by rewrite Hh].
  destruct (c_tail c ++ z_left z) as [|a l] eqn:Hl; [|eexists; eapply (loop_run 1); cbn; by rewrite Hl].
  destruct ((CallTask <$> z_before z) ++ c_key c ++ (CallTask <$> z_after z)) as [|t mn] eqn:Hmn.
  2:{ eexists. apply loop_main; cbn; [by rewrite Hh | by rewrite Hmn]. }
  destruct (c_network c) as [|t nw] eqn:Hnw.
  2:{ eexists. apply loop_network; cbn; [by rewrite Hl | by rewrite Hnw]. }
  destruct (c_arriving c) as [|e a] eqn:Ha; [by destruct Hany as [?|[?|[?|[?|[?|[[? _]|[? _]]]]]]]|].
  eexists. apply loop_arrives. destruct Hany as [?|[?|[?|[?|[?|[[_ ?]|[_ ?]]]]]]]; try done. congruence.
Qed.

Lemma deliverable_recorded c z : noise_ok z -> deliverable c -> patient = true -> all_recorded (dress c z).
Proof.
  intros (_ & _ & Hr & Hl) Hd Hp l q Hin Hq. specialize (Hd Hp q). cbn in Hin.
  assert (Hno : forall l, Forall quiet l -> ARecord q ∉ l).
  { intros l' Hq' Hin'. by destruct (proj1 (Forall_forall _ _) Hq' _ Hin') as [Hne _]; apply (Hne q). }
  specialize (Hno _ Hr) as Hno1. specialize (Hno _ Hl) as Hno2.
  apply elem_of_cons in Hin as [->|[->|Hin]%elem_of_cons]; [| |by apply not_elem_of_nil in Hin].
  all: apply elem_of_app in Hq as [Hq|Hq]; [apply Hd, elem_of_app; auto | done].
Qed.
Lemma recorded_deliverable c z : (patient = true -> all_recorded (dress c z)) -> deliverable c.
Proof.
  intros Hr Hp q Hq. specialize (Hr Hp). apply elem_of_app in Hq as [Hq|Hq].
  - apply (Hr (c_head c ++ z_rest z) q); [by left | set_solver].
  - apply (Hr (c_tail c ++ z_left z) q); [by right; left | set_solver].
Qed.

(** Steps that do not count leave the core and make the noise smaller. *)
Definition calms (c : core) (z : noise) (cs : list app_call) (cs' : list app_call)
    (r : outcome (unit * Session * list ses_effect)) : Prop :=
  exists z' es, r = Done (tt, dress c z', es) /\ noise_ok z' /\ (noise_size z' cs' < noise_size z cs)%nat /\
    asked es = [] /\ texts es = [] /\ (es ≫= replies) = [].

Lemma call_calms c z x cs : noise_ok z -> idle_call x -> calms c z (x :: cs) cs (ses_step env (EvCall x) (dress c z)).
Proof.
  intros (Hb & Ha & Hr & Hl) Hx. exists (mkNoise (z_before z) (z_after z ++ [x]) (z_rest z) (z_left z)), [].
  split; [|split; [split; [done|]; split; [apply Forall_app; by split; [|apply Forall_singleton]|done]|]].
  - cbn [ses_step]. unfold post_main, modify, dress, ses_set_main.
    cbn [z_before z_after z_rest z_left ses_room ses_client ses_transport ses_draws ses_network ses_main ses_threads].
    by rewrite fmap_app, <- !app_assoc.
  - unfold noise_size. cbn. rewrite length_app. cbn. split; [lia|done].
Qed.
Lemma rest_calms c z cs a l : noise_ok z -> c_head c = [] -> z_rest z = a :: l -> calms c z cs cs (ses_step env (EvRun 0) (dress c z)).
Proof.
  intros (Hb & Ha & Hr & Hl) Hh Hz. rewrite Hz in Hr. apply Forall_cons in Hr as [Hq Hr].
  destruct (quiet_step 0 a l (dress c z) Hq) as (es & Hstep & Hes); [cbn; by rewrite Hh, Hz|].
  exists (mkNoise (z_before z) (z_after z) l (z_left z)), es. split; [|split; [done|]].
  - rewrite Hstep. unfold dress, ses_set_threads. cbn. by rewrite Hh.
  - unfold noise_size. rewrite Hz. cbn. split; [lia|done].
Qed.
Lemma left_calms c z cs a l : noise_ok z -> c_tail c = [] -> z_left z = a :: l -> calms c z cs cs (ses_step env (EvRun 1) (dress c z)).
Proof.
  intros (Hb & Ha & Hr & Hl) Hh Hz. rewrite Hz in Hl. apply Forall_cons in Hl as [Hq Hl].
  destruct (quiet_step 1 a l (dress c z) Hq) as (es & Hstep & Hes); [cbn; by rewrite Hh, Hz|].
  exists (mkNoise (z_before z) (z_after z) (z_rest z) l), es. split; [|split; [done|]].
  - rewrite Hstep. unfold dress, ses_set_threads. cbn. by rewrite Hh.
  - unfold noise_size. rewrite Hz. cbn. split; [lia|done].
Qed.
Lemma before_calms c z cs x l :
  rc_mediaController (c_room c) = true -> noise_ok z -> c_head c = [] -> z_rest z = [] -> z_before z = x :: l ->
  calms c z cs cs (ses_step env EvMain (dress c z)).
Proof.
  intros Hm (Hb & Ha & Hr & Hl) Hh Hz Hx. rewrite Hx in Hb. apply Forall_cons in Hb as [Hi Hb].
  exists (mkNoise l (z_after z) (z_rest z) (z_left z)), []. split; [|split; [done|]].
  - apply (idle_step x); [done|done|cbn; by rewrite Hh, Hz|]. cbn. by rewrite Hx.
  - unfold noise_size. rewrite Hx. cbn. split; [lia|done].
Qed.
Lemma after_calms c z cs x l :
  rc_mediaController (c_room c) = true -> noise_ok z -> c_head c = [] -> z_rest z = [] -> z_before z = [] -> c_key c = [] ->
  z_after z = x :: l -> calms c z cs cs (ses_step env EvMain (dress c z)).
Proof.
  intros Hm (Hb & Ha & Hr & Hl) Hh Hz Hb' Hk Hx. rewrite Hx in Ha. apply Forall_cons in Ha as [Hi Ha].
  exists (mkNoise [] l (z_rest z) (z_left z)), []. split; [|split; [done|]].
  - unfold dress at 2. cbn. apply (idle_step x); [done|done|cbn; by rewrite Hh, Hz|]. cbn. by rewrite Hb', Hk, Hx.
  - unfold noise_size. rewrite Hx, Hb'. cbn. split; [lia|done].
Qed.

(** The rule: [P] is reached from [c] if it is from every core that a step that counts
    leads to. *)
Lemma advance P c :
  rc_mediaController (c_room c) = true -> progresses P c ->
  (forall a h, c_head c = a :: h -> moves P (EvRun 0) c (c_arriving c) anyhow) ->
  (c_head c = [] -> c_key c <> [] -> moves P EvMain c (c_arriving c) main_free) ->
  (forall a l, c_tail c = a :: l -> moves P (EvRun 1) c (c_arriving c) anyhow) ->
  (c_tail c = [] -> c_network c <> [] -> moves P EvNetwork c (c_arriving c) network_free) ->
  (forall e a, c_arriving c = e :: a -> deliverable c ->
     moves P (EvNet (tr_connectionId (c_transport c)) e) c a anyhow) ->
  reaches P c.
Proof.
  intros Hm Hp Hhead Hkey Htail Hnet Harr z cs tr. remember (noise_size z cs) as n eqn:Hn. revert z cs tr Hn.
  induction (lt_wf n) as [n _ IH]. intros z cs tr -> Hz Hcs Htold.
  assert (Hcalm : forall cs' r, Forall idle_call cs' -> calms c z cs cs' r -> eventually P (after cs' (c_arriving c) tr r)).
  { intros cs' r Hcs' (z' & es & -> & Hz' & Hlt & H1 & H2 & H3). rewrite after_done, H3, app_nil_r.
    eapply IH; [exact Hlt|done|done|done|]. by apply told_more. }
  assert (Hgo : (exists o, loop_step (mkLoop (dress c z) cs (c_arriving c) tr) o) \/ P (mkLoop (dress c z) cs (c_arriving c) tr)).
  { destruct Hp as [Hp|[Hp|[Hp|[Hp|[[Hp Hd]|[Hnone Hp]]]]]].
    - left. apply someone_moves. left. by destruct (c_head c).
    - left. apply someone_moves. right. left. by destruct (CallTask <$> z_before z), (c_key c).
    - left. apply someone_moves. do 2 right. left. by destruct (c_tail c).
    - left. apply someone_moves. by do 3 right; left.
    - left. apply someone_moves. do 5 right. destruct patient eqn:Hpat; [left|by right]. split; [done|].
      by apply deliverable_recorded.
    - destruct cs as [|x cs]; [|left; apply someone_moves; by do 4 right; left].
      destruct z as [[|x b] [|y a] [|q r] [|q' l]]; rewrite ?Hnone; first [by right; apply Hp | left; rewrite <- Hnone; apply someone_moves; cbn].
      all: first [by left; destruct (c_head c) | by right; left; destruct (c_key c) | by do 2 right; left; destruct (c_tail c)]. }
  destruct Hgo as [Hgo|Hnow]; [|by apply eventually_now]. apply eventually_later; [exact Hgo|].
  intros o Ho. inversion Ho as [s x cs0 a tr0|s cs0 a tr0 Hth Hnw|s cs0 a tr0 Hth Hmn|i s x l cs0 a tr0 Hth|s e cs0 a tr0 Hrec]; subst.
  - apply Forall_cons in Hcs as [Hx Hcs]. apply Hcalm; [done | by apply call_calms].
  - injection Hth as [Ht Hl]%app_nil. eapply move_on; [by apply Hnet|done|done|done|done].
  - injection Hth as [Hh Hr]%app_nil. destruct (z_before z) as [|x b] eqn:Hb.
    + destruct (decide (c_key c = [])) as [Hk|Hk].
      * destruct (z_after z) as [|x b] eqn:Hx; [by cbn in Hmn; rewrite Hb, Hk, Hx in Hmn|].
        apply Hcalm; [done | by eapply after_calms].
      * eapply move_on; [by apply Hkey|done|by split|done|done].
    + apply Hcalm; [done | by eapply before_calms].
  - destruct i as [|[|i]]; [| |done]; injection Hth as Hth.
    + destruct (c_head c) as [|a h] eqn:Hh.
      * apply Hcalm; [done | by eapply rest_calms].
      * eapply move_on; [by eapply Hhead|done|done|done|done].
    + destruct (c_tail c) as [|a h] eqn:Hh.
      * apply Hcalm; [done | by eapply left_calms].
      * eapply move_on; [by eapply Htail|done|done|done|done].
  - eapply move_on; [eapply Harr; [done | by eapply recorded_deliverable]|done|done|done|done].
Qed.

(** Where only one agent has something to do that counts. *)
Section alone.
Context (P : loop -> Prop) (c : core).
Hypothesis Hmedia : rc_mediaController (c_room c) = true.

Lemma head_alone :
  c_head c <> [] -> c_tail c = [] -> c_network c = [] -> c_arriving c = [] ->
  moves P (EvRun 0) c (c_arriving c) anyhow -> reaches P c.
Proof. intros H1 H2 H3 H4 Hm. apply advance; try done; [by left | congruence..]. Qed.
Lemma key_alone :
  c_head c = [] -> c_key c <> [] -> c_tail c = [] -> c_network c = [] -> c_arriving c = [] ->
  moves P EvMain c (c_arriving c) main_free -> reaches P c.
Proof. intros H1 H2 H3 H4 H5 Hm. apply advance; try done; [by right; left | congruence..]. Qed.
Lemma tail_alone :
  c_head c = [] -> c_key c = [] -> c_tail c <> [] -> c_arriving c = [] ->
  moves P (EvRun 1) c (c_arriving c) anyhow -> reaches P c.
Proof. intros H1 H2 H3 H4 Hm. apply advance; try done; [by do 2 right; left | congruence..]. Qed.
Lemma network_alone :
  c_head c = [] -> c_key c = [] -> c_tail c = [] -> c_network c <> [] -> c_arriving c = [] ->
  moves P EvNetwork c (c_arriving c) network_free -> reaches P c.
Proof. intros H1 H2 H3 H4 H5 Hm. apply advance; try done; [by do 3 right; left | congruence..]. Qed.
Lemma arriving_alone e :
  c_head c = [] -> c_key c = [] -> c_tail c = [] -> c_network c = [] -> c_arriving c = [e] ->
  moves P (EvNet (tr_connectionId (c_transport c)) e) c [] anyhow -> reaches P c.
Proof.
  intros H1 H2 H3 H4 H5 Hm. apply advance; try done; try congruence.
  do 4 right. left. split; [by rewrite H5|]. intros _ q. rewrite H1, H3. apply not_elem_of_nil.
Qed.
Lemma all_done :
  c_head c = [] -> c_key c = [] -> c_tail c = [] -> c_network c = [] -> c_arriving c = [] ->
  (forall tr, told tr c -> P (mkLoop (dress c (mkNoise [] [] [] [])) [] [] tr)) -> reaches P c.
Proof. intros H1 H2 H3 H4 H5 Hp. apply advance; try done; [by do 5 right | congruence..]. Qed.
End alone.

(** The steps of the two threads. *)
Lemma head_step c z a h l' s' es :
  c_head c = a :: h -> perform_action env a (dress c z) = Done (l', s', es) ->
  ses_step env (EvRun 0) (dress c z) = Done (tt, ses_set_threads (<[0%nat := l' ++ h ++ z_rest z]> (ses_threads s')) s', es).
Proof. intros Hh Ha. apply (run_step 0 a); [cbn; by rewrite Hh | done]. Qed.
Lemma tail_step c z a h l' s' es :
  c_tail c = a :: h -> perform_action env a (dress c z) = Done (l', s', es) ->
  ses_step env (EvRun 1) (dress c z) = Done (tt, ses_set_threads (<[1%nat := l' ++ h ++ z_left z]> (ses_threads s')) s', es).
Proof. intros Hh Ha. apply (run_step 1 a); [cbn; by rewrite Hh | done]. Qed.
Lemma key_step c z t k l' s' es :
  c_head c = [] -> main_free z -> c_key c = t :: k ->
  run_main env t (ses_set_main (k ++ (CallTask <$> z_after z)) (dress c z)) = Done (l', s', es) ->
  ses_step env EvMain (dress c z) = Done (tt, ses_set_threads (<[0%nat := l']> (ses_threads s')) s', es).
Proof. intros Hh [Hb Hr] Hk Hrun. eapply main_taken; [cbn; by rewrite Hh, Hr | cbn; by rewrite Hb, Hk | exact Hrun]. Qed.
Lemma network_step c z t k l' s' es :
  c_tail c = [] -> network_free z -> c_network c = t :: k ->
  run_network env t (ses_set_network k (dress c z)) = Done (l', s', es) ->
  ses_step env EvNetwork (dress c z) = Done (tt, ses_set_threads (<[1%nat := l']> (ses_threads s')) s', es).
Proof. intros Hh Hl Hk Hrun. eapply network_taken; [cbn; by rewrite Hh, Hl | exact Hk | exact Hrun]. Qed.

(** A step that leads from [c] to [c'] and lets nothing out. *)
Lemma moves_to P e c c' arriving en :
  reaches P c' -> c_arriving c' = arriving -> c_asked c' = c_asked c -> c_texts c' = c_texts c ->
  (forall z, noise_ok z -> en z -> exists z', noise_ok z' /\ ses_step env e (dress c z) = Done (tt, dress c' z', [])) ->
  moves P e c arriving en.
Proof.
  intros Hc Ha H1 H2 Hstep. exists c', []. split; [done|]. split; [by rewrite app_nil_r|].
  split; [by rewrite app_nil_r|]. by split; [rewrite app_nil_r|].
Qed.

(** ** The tasks of the handshake *)

(** A transport whose connection [hdl] is open. *)
Abbreviation interface := (endpoint_interface env).
Record open_transport (tr : WebsocketTransport TLSWebsocketEndpoint) (hdl : nat) : Prop := {
  ot_sends text : text <> "" ->
    @tr_sendText _ interface text tr = Done (tt, tr, [TEndpoint (WSend hdl (FText text))]);
  ot_hears al json : al transport_addr = true ->
    @tr_net_event _ interface transport_addr al (tr_connectionId tr) (NetMessage (FText json)) tr =
      Done (tt, tr, [TNotify (TOnMessage json)]);
  ot_told : tr_observers tr = [WeakObject (Some client_addr) (Some network_thread)]
}.

(** The room's three objects are registered with the client. *)
Definition client_observers : list inner_object :=
  [WeakObject (Some (addr SubRoom)) (Some network_thread); WeakObject (Some (addr SubMedia)) (Some network_thread);
   WeakObject (Some (addr SubParticipants)) (Some network_thread)].

(** A session with these parts. *)
Definition session_of (tr : WebsocketTransport TLSWebsocketEndpoint) (room : RoomClient)
    (table : gmap Z (WebsocketRequest (api_cb requester))) (n : nat)
    (network : list network_task) (main : list main_task) (threads : list (list action)) : Session :=
  mkSession room (mkClient table client_observers (Some network_thread)) tr n network main threads.

#[local] Ltac session_fields :=
  cbn [session_of ses_room ses_client ses_transport ses_draws ses_network ses_main ses_threads ses_set_room ses_set_client
       ses_set_transport ses_set_draws ses_set_network ses_set_main ses_set_threads].

(** A handler of a component, and then its effects. *)
Lemma routed_done {T E A} (g : Session -> T) p (perform : E -> ses_handler unit) (m : M T E A) s a t es s' es' :
  m (g s) = Done (a, t, es) -> for_each es perform (p t s) = Done (tt, s', es') ->
  routed g p perform m s = Done (a, s', es').
Proof. intros Hm Hes. unfold routed. rewrite Hm, (bind_done _ _ _ _ _ _ Hes). cbn. by rewrite app_nil_r. Qed.

Section steps.
Variable tr : WebsocketTransport TLSWebsocketEndpoint.
Variable hdl : nat.
Hypothesis Htr : open_transport tr hdl.
Abbreviation st := (session_of tr).

(** A request is made, its text sent, its entry put into the table. *)
Lemma request_made room n r cb :
  rc_signalingClient room = true -> e_print env (api_message r (e_ids env n)) <> "" ->
  exists q, (forall nw mn ths, perform_action env (AEffect (RApi r cb)) (st room ∅ n nw mn ths) =
      Done ([ASend q; ARecord q], st room ∅ (S n) nw mn ths, [SRequest r (e_ids env n)])) /\
    wr_text q = e_print env (api_message r (e_ids env n)) /\ wr_id q = e_ids env n /\
    wr_resolve q = Some (mkCb (api_kind r) (Some (ByRoom cb))).
Proof.
  intros Hsig Hne. eexists. split; [|split; [|split]].
  - intros nw mn ths. cbn [perform_action perform_effect]. unfold begin_request, draw. session_fields.
    unfold mbind, M_bind, get, modify, emit, mret, M_ret. session_fields. rewrite Hsig. unfold begin_send.
    rewrite decide_False by done. unfold on_client, routed, make_request, gets, mbind, M_bind, mret, M_ret. session_fields.
    cbn [sc_requestMap]. reflexivity.
  - reflexivity.
  - reflexivity.
  - reflexivity.
Qed.
Lemma request_sent q room table n nw mn ths :
  wr_text q <> "" ->
  perform_action env (ASend q) (st room table n nw mn ths) =
    Done ([], st room table n nw mn ths, [SWire (WSend hdl (FText (wr_text q)))]).
Proof.
  intros Hne. set (s := st room table n nw mn ths).
  assert (Hon : on_transport (@tr_sendText _ interface (wr_text q)) s = Done (tt, s, [SWire (WSend hdl (FText (wr_text q)))])).
  { eapply routed_done; [exact (ot_sends _ _ Htr _ Hne) | reflexivity]. }
  assert (Hdown : on_client env (send_request q) s = Done (tt, s, [SWire (WSend hdl (FText (wr_text q)))])).
  { eapply routed_done; [reflexivity|]. cbn [for_each perform_down]. unfold mbind, M_bind.
    change (ses_set_client (ses_client s) s) with s. by rewrite Hon. }
  cbn [perform_action]. unfold at_once, mbind, M_bind. by rewrite Hdown.
Qed.
Lemma request_recorded q room table n nw mn ths :
  perform_action env (ARecord q) (st room table n nw mn ths) =
    Done ([], st room (<[request_id q := ticktock q]> table) n nw mn ths, []).
Proof. reflexivity. Qed.

(** A text arrives, and is handed to the transport thread. *)
Lemma text_arrives room table n nw mn ths json :
  rc_signalingClient room = true ->
  ses_step env (EvNet (tr_connectionId tr) (NetMessage (FText json))) (st room table n nw mn ths) =
    Done (tt, st room table n (nw ++ [TEvent (TOnMessage json)]) mn ths, []).
Proof.
  intros Hsig. cbn [ses_step]. erewrite bind_done by done. unfold on_transport, routed.
  rewrite (ot_hears _ _ Htr) by exact Hsig. cbn [session_of ses_transport ses_set_transport for_each perform_transport].
  unfold mbind, M_bind, get. cbn [ses_transport ses_set_transport session_of]. rewrite (ot_told _ _ Htr). cbn. rewrite Hsig. reflexivity.
Qed.

(** A response is handed to the thread again. *)
Definition is_response (json : string) : Prop :=
  exists t, fromJsonString (A := MessageType) (e_parse env) default_init json = Ok t /\
    value_or (MessageType_notification t) false = false /\ MessageType_response t = Some true.

Lemma message_read room table n nw mn ths json :
  rc_signalingClient room = true -> is_response json ->
  run_network env (TEvent (TOnMessage json)) (st room table n nw mn ths) =
    Done ([AClient (PostTask json)], st room table n nw mn ths, []).
Proof.
  intros Hsig (t & Ht & Hn & Hr). cbn [run_network]. unfold if_alive. erewrite bind_done by done.
  cbn [alive client_addr]. session_fields. rewrite Hsig. unfold begun_client, sc_onMessage. rewrite Ht, Hn, Hr. reflexivity.
Qed.
Lemma response_posted room table n nw mn ths json :
  perform_action env (AClient (PostTask json)) (st room table n nw mn ths) =
    Done ([], st room table n (nw ++ [TResponse json]) mn ths, []).
Proof. reflexivity. Qed.

(** The task of a response takes the request out of the table and calls back. *)
Definition carries_id (gid : Z) (json : string) : Prop :=
  exists h, fromJsonString (A := ResponseHeader) (e_parse env) default_init json = Ok h /\ ResponseHeader_id h = Some gid.

Lemma response_found room q n nw mn ths gid json cb :
  rc_signalingClient room = true -> generateID gid = true -> carries_id gid json -> wr_resolve q = Some cb ->
  run_network env (TResponse json) (st room {[gid := q]} n nw mn ths) =
    Done ([AClient (Callback (Resolve cb json))], st room ∅ n nw mn ths, []).
Proof.
  intros Hsig Hg (h & Hh & Hid) Hq. cbn [run_network]. unfold if_alive. erewrite bind_done by done.
  cbn [alive client_addr]. session_fields. rewrite Hsig. unfold begun_client. session_fields.
  rewrite (response_hit (e_parse env) json h gid q _ Hh Hid (generateID_nonneg _ Hg) (lookup_singleton_eq _ _)).
  rewrite Hq. unfold set_requestMap. cbn. by rewrite delete_singleton_eq.
Qed.
(** A response to a request that is not in the table goes unheard. *)
Lemma response_unheard room n nw mn ths gid json :
  rc_signalingClient room = true -> carries_id gid json ->
  run_network env (TResponse json) (st room ∅ n nw mn ths) = Done ([], st room ∅ n nw mn ths, []).
Proof.
  intros Hsig (h & Hh & Hid). cbn [run_network]. unfold if_alive. erewrite bind_done by done.
  cbn [alive client_addr]. session_fields. rewrite Hsig. unfold begun_client. session_fields.
  by rewrite (response_miss (e_parse env) json h gid (mkClient ∅ client_observers (Some network_thread)) Hh Hid (lookup_empty _)).
Qed.
Lemma called_back room table n nw mn ths json r cb resp :
  json <> "" -> (forall g, parse_response (e_parse env) (api_kind r) g json = Ok resp) ->
  perform_action env (AClient (Callback (Resolve (mkCb (api_kind r) (Some (ByRoom cb))) json))) (st room table n nw mn ths) =
    Done ([AAnswer (mkCall (ByRoom cb) 0 "" (Some resp))], st room table (S n) nw mn ths, []).
Proof.
  intros Hne Hp. cbn [perform_action perform_client]. unfold called, draw. cbn [run_callback cb_kind cb_user].
  unfold mbind, M_bind, get, modify, mret, M_ret. session_fields. cbv iota beta.
  rewrite decide_False by done. rewrite Hp. reflexivity.
Qed.
End steps.

(** ** The handshake among the threads *)

(** The answer [createTransportImpl] and the others can use. *)
Definition useful (r : api_request) (resp : ApiResponse) : Prop :=
  match r, resp with
  | AGetRouterRtpCapabilities, GetRouterRtpCapabilitiesResp x =>
      present (GetRouterRtpCapabilitiesResponse_ok x) = true /\ GetRouterRtpCapabilitiesResponse_data x <> None
  | ACreateWebRtcTransport _, CreateWebRtcTransportResp x =>
      present (CreateWebRtcTransportResponse_ok x) = true /\ complete_info x
  | AJoin _, JoinResp x => present (JoinResponse_ok x) = true /\ JoinResponse_data x <> None
  | _, _ => False
  end.

Definition in_handshake (r : api_request) : Prop :=
  match r with AGetRouterRtpCapabilities | ACreateWebRtcTransport _ | AJoin _ => True | _ => False end.

(** It answers each request of the handshake with one text: a response with the
    request's id, of the request's type, with the data the client needs. *)
Definition cooperates : Prop := forall r n,
  in_handshake r ->
  exists json resp, server (e_print env (api_message r (e_ids env n))) = [json] /\
    json <> "" /\ is_response json /\ carries_id (e_ids env n) json /\
    (forall g, parse_response (e_parse env) (api_kind r) g json = Ok resp) /\ useful r resp.

(** What is sent when these requests are made. *)
Definition sent (A : list (api_request * Z)) : list string := (fun x => e_print env (api_message x.1 x.2)) <$> A.

(** What the tasks of the handshake do beside the request is quiet. *)
Lemma plain_quiet e : plain e -> match e with RApi _ _ => False | _ => True end -> quiet (AEffect e).
Proof.
  intros Hp Hr. split; [done|]. exists [SRoom e]. split; [|done]. intros s.
  by destruct e as [| | | | | | | | | | | | | |[ev|e]].
Qed.
Lemma quiet_effects es : Forall plain es -> requests es = [] -> Forall quiet (AEffect <$> es).
Proof.
  induction 1 as [|e es He Hes IH]; [constructor|]. cbn [fmap list_fmap requests].
  destruct e as [| | | | | | |r cb| | | | | | |[ev|e]]; try done; intros Hq; (constructor; [by apply plain_quiet | by apply IH]).
Qed.
Lemma asking_effects es m cb :
  Forall plain es -> requests es = [(m, cb)] ->
  exists pre r post, es = pre ++ RApi r cb :: post /\ api_method r = m /\
    Forall quiet (AEffect <$> pre) /\ Forall quiet (AEffect <$> post).
Proof.
  induction 1 as [|e es He Hes IH]; [done|]. intros Hq.
  assert (Hcase : (exists r cb', e = RApi r cb') \/
    match e with RApi _ _ => False | _ => True end /\ requests (e :: es) = requests es).
  { destruct e; try (by right). left. eauto. }
  destruct Hcase as [(r & cb' & ->)|[Hno Heq]].
  - injection Hq as Hm -> Hq. exists [], r, es. repeat split; [done|constructor|]. by apply quiet_effects.
  - rewrite Heq in Hq. destruct (IH Hq) as (pre & r & post & -> & Hm & H1 & H2).
    exists (e :: pre), r, post. do 2 (split; [done|]). split; [|done]. constructor; [by apply plain_quiet | done].
Qed.

Abbreviation room_task := (rc_run_task (e_parse env) (e_print env) (e_nlohmann env) (e_Load env) (e_rtp env)
  (e_sctp env) (e_CreateTransport env)).

Hypothesis ids_drawn : forall n, generateID (e_ids env n) = true.
Hypothesis prints : forall r gid, e_print env (api_message r gid) <> "".
Hypothesis Hserver : cooperates.

Section calm.
Variable tr : WebsocketTransport TLSWebsocketEndpoint.
Variable hdl : nat.
Hypothesis Htr : open_transport tr hdl.
Variable P : loop -> Prop.

(** A session in the middle of the handshake. *)
Definition hs room (table : gmap Z message) n nw key head tail arr A X : core :=
  mkCore room (mkClient table client_observers (Some network_thread)) tr n nw key head tail arr A X.

(** The mediasoup thread takes a task of the room. *)
Lemma takes_task t room room' es n A X :
  rc_mediaController room = true -> room_task t room = Done (tt, room', es) ->
  reaches P (hs room' ∅ n [] [] (AEffect <$> es) [] [] A X) ->
  reaches P (hs room ∅ n [] [RoomTask t] [] [] [] A X).
Proof.
  intros Hm Hrun Hnext. apply key_alone; try done. eapply moves_to; [exact Hnext|done|done|done|].
  intros z (Hb & Ha & Hr & Hl) Hfree. pose proof Hfree as [Hb0 Hr0].
  exists (mkNoise (z_after z) [] [] (z_left z)). split; [by repeat split|].
  rewrite (key_step _ z (RoomTask t) [] (AEffect <$> es) (session_of tr room' ∅ n [] (CallTask <$> z_after z) [[]; z_left z]) []); [|done..|].
  - unfold dress. cbn. by rewrite !app_nil_r.
  - cbn [run_main]. unfold begun, dress. cbn. rewrite Hrun, Hr0. reflexivity.
Qed.

(** It does something quiet. *)
Lemma does_quiet a h room n A X :
  rc_mediaController room = true -> quiet a ->
  reaches P (hs room ∅ n [] [] h [] [] A X) -> reaches P (hs room ∅ n [] [] (a :: h) [] [] A X).
Proof.
  intros Hm (_ & es & Hes & H1 & H2 & H3) Hnext. apply head_alone; try done.
  exists (hs room ∅ n [] [] h [] [] A X), es. split; [exact Hnext|].
  split; [by rewrite H3|]. split; [by rewrite H1, app_nil_r|]. split; [by rewrite H2, app_nil_r|].
  intros z Hz _. exists z. split; [done|].
  by rewrite (head_step (hs _ _ _ _ _ _ _ _ _ _) z a h _ _ _ eq_refl (Hes _)).
Qed.
Lemma does_all_quiet l h room n A X :
  rc_mediaController room = true -> Forall quiet l ->
  reaches P (hs room ∅ n [] [] h [] [] A X) -> reaches P (hs room ∅ n [] [] (l ++ h) [] [] A X).
Proof. intros Hm Hl Hnext. induction Hl; [done|]. by apply does_quiet. Qed.

(** It makes a request. *)
Lemma makes_request r cb post room n A X :
  rc_mediaController room = true -> rc_signalingClient room = true -> e_print env (api_message r (e_ids env n)) <> "" ->
  (forall q, wr_text q = e_print env (api_message r (e_ids env n)) -> wr_id q = e_ids env n ->
     wr_resolve q = Some (mkCb (api_kind r) (Some (ByRoom cb))) ->
     reaches P (hs room ∅ (S n) [] [] (ASend q :: ARecord q :: post) [] [] (A ++ [(r, e_ids env n)]) X)) ->
  reaches P (hs room ∅ n [] [] (AEffect (RApi r cb) :: post) [] [] A X).
Proof.
  intros Hm Hsig Hne Hnext. destruct (request_made tr room n r cb Hsig Hne) as (q & Hmade & Hq1 & Hq2 & Hq3).
  apply head_alone; try done.
  eexists _, [SRequest r (e_ids env n)]. split; [exact (Hnext q Hq1 Hq2 Hq3)|]. do 2 (split; [reflexivity|]). split; [symmetry; apply app_nil_r|].
  intros z Hz _. exists z. split; [done|]. 
  by rewrite (head_step (hs _ _ _ _ _ _ _ _ _ _) z _ post _ _ _ eq_refl (Hmade _ _ _)).
Qed.

(** It sends the text, and the server answers. *)
Lemma sends_text q post room n A X json :
  rc_mediaController room = true -> wr_text q <> "" -> server (wr_text q) = [json] ->
  reaches P (hs room ∅ n [] [] (ARecord q :: post) [] [NetMessage (FText json)] A (X ++ [wr_text q])) ->
  reaches P (hs room ∅ n [] [] (ASend q :: ARecord q :: post) [] [] A X).
Proof.
  intros Hm Hne Hs Hnext. apply head_alone; try done.
  eexists _, [SWire (WSend hdl (FText (wr_text q)))]. split; [exact Hnext|].
  split; [cbn [mbind list_bind replies]; by rewrite Hs|]. split; [symmetry; apply app_nil_r|]. split; [reflexivity|].
  intros z Hz _. exists z. split; [done|]. 
  by rewrite (head_step (hs _ _ _ _ _ _ _ _ _ _) z _ (ARecord q :: post) _ _ _ eq_refl (request_sent tr hdl Htr q _ _ _ _ _ _ Hne)).
Qed.

(** *** The answer on its way *)

Section answer.
Variables (room : RoomClient) (n : nat) (json : string) (A : list (api_request * Z)) (X : list string).
Hypothesis Hmedia : rc_mediaController room = true.
Hypothesis Hsig : rc_signalingClient room = true.

Lemma records q post nw tail arr :
  Forall quiet post -> reaches P (hs room {[request_id q := ticktock q]} n nw [] [] tail arr A X) ->
  moves P (EvRun 0) (hs room ∅ n nw [] (ARecord q :: post) tail arr A X) arr anyhow.
Proof.
  intros Hpost Hnext. eapply moves_to; [exact Hnext|done|done|done|]. intros z (Hb & Ha & Hr & Hl) _.
  exists (mkNoise (z_before z) (z_after z) (post ++ z_rest z) (z_left z)).
  split; [do 2 (split; [done|]); split; [by apply Forall_app|done]|].
  by rewrite (head_step (hs _ _ _ _ _ _ _ _ _ _) z _ post _ _ _ eq_refl (request_recorded tr q _ _ _ _ _ _)).
Qed.
Lemma arrives table head tail arr :
  reaches P (hs room table n [TEvent (TOnMessage json)] [] head tail arr A X) ->
  moves P (EvNet (tr_connectionId tr) (NetMessage (FText json))) (hs room table n [] [] head tail (NetMessage (FText json) :: arr) A X)
    arr anyhow.
Proof.
  intros Hnext. eapply moves_to; [exact Hnext|done|done|done|]. intros z Hz _. exists z. split; [done|].
  exact (text_arrives tr hdl Htr room table n [] _ _ json Hsig).
Qed.
Lemma reads table head arr :
  is_response json -> reaches P (hs room table n [] [] head [AClient (PostTask json)] arr A X) ->
  moves P EvNetwork (hs room table n [TEvent (TOnMessage json)] [] head [] arr A X) arr network_free.
Proof.
  intros Hresp Hnext. eapply moves_to; [exact Hnext|done|done|done|]. intros z Hz Hfree. exists z. split; [done|].
  rewrite (network_step (hs _ _ _ _ _ _ _ _ _ _) z _ [] _ _ _ eq_refl Hfree eq_refl (message_read tr room table n [] _ _ json Hsig Hresp)).
  unfold dress. cbn. by rewrite Hfree.
Qed.
Lemma posts table head arr :
  reaches P (hs room table n [TResponse json] [] head [] arr A X) ->
  moves P (EvRun 1) (hs room table n [] [] head [AClient (PostTask json)] arr A X) arr anyhow.
Proof.
  intros Hnext. eapply moves_to; [exact Hnext|done|done|done|]. intros z Hz _. exists z. split; [done|].
  by rewrite (tail_step (hs _ _ _ _ _ _ _ _ _ _) z _ [] _ _ _ eq_refl (response_posted tr room table n [] _ _ json)).
Qed.
Lemma finds q gid head arr cb :
  generateID gid = true -> carries_id gid json -> wr_resolve q = Some cb ->
  reaches P (hs room ∅ n [] [] head [AClient (Callback (Resolve cb json))] arr A X) ->
  moves P EvNetwork (hs room {[gid := q]} n [TResponse json] [] head [] arr A X) arr network_free.
Proof.
  intros Hg Hid Hq Hnext. eapply moves_to; [exact Hnext|done|done|done|]. intros z Hz Hfree. exists z. split; [done|].
  rewrite (network_step (hs _ _ _ _ _ _ _ _ _ _) z _ [] _ _ _ eq_refl Hfree eq_refl (response_found tr room q n [] _ _ gid json cb Hsig Hg Hid Hq)).
  unfold dress. cbn. by rewrite Hfree.
Qed.
Lemma misses gid head arr :
  carries_id gid json -> reaches P (hs room ∅ n [] [] head [] arr A X) ->
  moves P EvNetwork (hs room ∅ n [TResponse json] [] head [] arr A X) arr network_free.
Proof.
  intros Hid Hnext. eapply moves_to; [exact Hnext|done|done|done|]. intros z Hz Hfree. exists z. split; [done|].
  rewrite (network_step (hs _ _ _ _ _ _ _ _ _ _) z _ [] _ _ _ eq_refl Hfree eq_refl (response_unheard tr room n [] _ _ gid json Hsig Hid)).
  unfold dress. cbn. by rewrite Hfree.
Qed.

(** The request is in the table before its answer is looked up. *)
Variables (q : message) (post : list action) (cb : api_cb requester).
Hypothesis Hg : generateID (request_id q) = true.
Hypothesis Hid : carries_id (request_id q) json.
Hypothesis Hresp : is_response json.
Hypothesis Hq : wr_resolve q = Some cb.
Hypothesis Hpost : Forall quiet post.
Hypothesis Hheard : reaches P (hs room ∅ n [] [] [] [AClient (Callback (Resolve cb json))] [] A X).

Abbreviation waiting nw tail arr := (hs room {[request_id q := ticktock q]} n nw [] [] tail arr A X).
Abbreviation unrecorded nw tail arr := (hs room ∅ n nw [] (ARecord q :: post) tail arr A X).

Lemma waiting_response : reaches P (waiting [TResponse json] [] []).
Proof. apply network_alone; try done. by apply (finds _ _ _ _ cb). Qed.
Lemma waiting_post : reaches P (waiting [] [AClient (PostTask json)] []).
Proof. apply tail_alone; try done. apply posts, waiting_response. Qed.
Lemma waiting_message : reaches P (waiting [TEvent (TOnMessage json)] [] []).
Proof. apply network_alone; try done. apply reads; [done | apply waiting_post]. Qed.
Lemma waiting_arrival : reaches P (waiting [] [] [NetMessage (FText json)]).
Proof. eapply arriving_alone; try done. apply arrives, waiting_message. Qed.

(** Its answer is looked up first: the request stays in the table for ever. *)
Section overtaken.
Hypothesis Hstalled : reaches P (waiting [] [] []).

Lemma overtaken : reaches P (unrecorded [] [] []).
Proof. apply head_alone; try done. by apply records. Qed.
Lemma overtaken_response : reaches P (unrecorded [TResponse json] [] []).
Proof.
  apply advance; try done; [by left|intros a h _|intros _ _].
  - apply records; [done | apply waiting_response].
  - eapply misses; [exact Hid | apply overtaken].
Qed.
Lemma overtaken_post : reaches P (unrecorded [] [AClient (PostTask json)] []).
Proof.
  apply advance; try done; [by left|intros a h _|intros a l _].
  - apply records; [done | apply waiting_post].
  - apply posts, overtaken_response.
Qed.
Lemma overtaken_message : reaches P (unrecorded [TEvent (TOnMessage json)] [] []).
Proof.
  apply advance; try done; [by left|intros a h _|intros _ _].
  - apply records; [done | apply waiting_message].
  - apply reads; [done | apply overtaken_post].
Qed.
End overtaken.

(** An answer under way while its request is not in the table: a patient network waits. *)
Lemma answer_races : (patient = false -> reaches P (waiting [] [] [])) -> reaches P (unrecorded [] [] [NetMessage (FText json)]).
Proof.
  intros Hstalled. apply advance; try done; [by left|intros a h _|intros e a [= <- <-] Hd].
  - apply records; [done | apply waiting_arrival].
  - apply arrives, overtaken_message. destruct (decide (patient = true)) as [Hp|Hp%not_true_is_false]; [|by apply Hstalled].
    exfalso. apply (Hd Hp q). by left.
Qed.
End answer.

(** *** The callback *)

Lemma calls_back room n json A X r cb resp :
  rc_mediaController room = true -> json <> "" -> (forall g, parse_response (e_parse env) (api_kind r) g json = Ok resp) ->
  reaches P (hs room ∅ (S n) [] [] [] [AAnswer (mkCall (ByRoom cb) 0 "" (Some resp))] [] A X) ->
  reaches P (hs room ∅ n [] [] [] [AClient (Callback (Resolve (mkCb (api_kind r) (Some (ByRoom cb))) json))] [] A X).
Proof.
  intros Hm Hne Hp Hnext. apply tail_alone; try done. eapply moves_to; [exact Hnext|done|done|done|].
  intros z Hz _. exists z. split; [done|].
  by rewrite (tail_step (hs _ _ _ _ _ _ _ _ _ _) z _ [] _ _ _ eq_refl (called_back tr room ∅ n [] _ _ json r cb resp Hne Hp)).
Qed.

(** The transport thread posts a task to the other. *)
Lemma posts_task t l room n A X :
  rc_mediaController room = true -> Forall quiet l ->
  reaches P (hs room ∅ n [] [RoomTask t] [] [] [] A X) -> reaches P (hs room ∅ n [] [] [] (AEffect (RPost t) :: l) [] A X).
Proof.
  intros Hm Hl Hnext. apply tail_alone; try done. eapply moves_to; [exact Hnext|done|done|done|].
  intros z (Hb & Ha & Hr & Hle) _. exists (mkNoise (z_before z ++ z_after z) [] (z_rest z) (l ++ z_left z)).
  split; [split; [by apply Forall_app|]; split; [done|]; split; [done | by apply Forall_app]|].
  assert (Hpost : forall s, perform_action env (AEffect (RPost t)) s = Done ([], ses_set_main (ses_main s ++ [RoomTask t]) s, [])) by done.
  rewrite (tail_step (hs _ _ _ _ _ _ _ _ _ _) z _ l _ _ _ eq_refl (Hpost _)).
  unfold dress, hs, ses_set_main, ses_set_threads.
  cbn [c_room c_client c_transport c_draws c_network c_key c_head c_tail z_before z_after z_rest z_left ses_room ses_client ses_transport ses_draws ses_network ses_main ses_threads].
  by rewrite fmap_app, app_nil_r, <- !app_assoc.
Qed.

(** A callback of the room that posts a task. *)
Lemma answers cb resp room room' t n A X :
  rc_mediaController room = true -> rc_mediaController room' = true ->
  (forall s, ses_room s = room -> answer (mkCall (ByRoom cb) 0 "" (Some resp)) s = Done ([AEffect (RPost t)], ses_set_room room' s, [])) ->
  reaches P (hs room' ∅ n [] [RoomTask t] [] [] [] A X) ->
  reaches P (hs room ∅ n [] [] [] [AAnswer (mkCall (ByRoom cb) 0 "" (Some resp))] [] A X).
Proof.
  intros Hm Hm' Hans Hnext. apply tail_alone; try done. eapply moves_to; [by apply (posts_task t []); [exact Hm'| |exact Hnext]|done|done|done|].
  intros z Hz _. exists z. split; [done|].
  set (c := hs room _ _ _ _ _ _ _ _ _).
  by rewrite (tail_step c z (AAnswer (mkCall (ByRoom cb) 0 "" (Some resp))) [] _ _ _ eq_refl (Hans (dress c z) eq_refl)).
Qed.

Lemma sent_snoc A r gid : sent (A ++ [(r, gid)]) = sent A ++ [e_print env (api_message r gid)].
Proof. unfold sent. by rewrite fmap_app. Qed.

(** One request of the handshake: the task that makes it, the answer, its way
    through the two queues of the thread, and the callback; or the stall. *)
Lemma round t room room' m cb n A :
  handshake_task t -> rc_mediaController room = true -> rc_signalingClient room = true ->
  runs (room_task t) room room' [(m, cb)] -> (forall r, api_method r = m -> in_handshake r) ->
  (forall r resp, api_method r = m -> useful r resp ->
     reaches P (hs room' ∅ (S (S n)) [] [] [] [AAnswer (mkCall (ByRoom cb) 0 "" (Some resp))] []
       (A ++ [(r, e_ids env n)]) (sent (A ++ [(r, e_ids env n)])))) ->
  (forall r q, patient = false -> api_method r = m -> wr_resolve q = Some (mkCb (api_kind r) (Some (ByRoom cb))) ->
     reaches P (hs room' {[e_ids env n := q]} (S n) [] [] [] [] [] (A ++ [(r, e_ids env n)]) (sent (A ++ [(r, e_ids env n)])))) ->
  reaches P (hs room ∅ n [] [RoomTask t] [] [] [] A (sent A)).
Proof.
  intros Ht Hm Hsig (es & Hrun & Hq) Hin Hnext Hstall.
  pose proof (mild_task env t Ht room) as Hmild. unfold wlp in Hmild. rewrite Hrun in Hmild.
  destruct Hmild as [(Hsig' & Hm' & _) Hplain]. specialize (Hm' Hm). rewrite Hsig in Hsig'.
  destruct (asking_effects es m cb Hplain Hq) as (pre & r & post & -> & Hr & Hpre & Hpost).
  destruct (Hserver r n (Hin r Hr)) as (json & resp & Hserve & Hne & Hresp & Hid & Hparse & Huse).
  apply (takes_task t room room' _ n A (sent A) Hm Hrun). rewrite fmap_app.
  apply does_all_quiet; [done|done|]. cbn [fmap list_fmap].
  apply makes_request; [done|done|apply prints|]. intros q Hq1 Hq2 Hq3.
  assert (Hqid : request_id q = e_ids env n).
  { unfold request_id. rewrite Hq2. apply wrap32_id, generateID_int32, ids_drawn. }
  apply (sends_text q _ _ _ _ _ json); [done | rewrite Hq1; apply prints | by rewrite Hq1|].
  rewrite Hq1, <- sent_snoc.
  apply (answer_races room' (S n) json _ _ Hm' Hsig' q (AEffect <$> post) (mkCb (api_kind r) (Some (ByRoom cb)))).
  - rewrite Hqid. apply ids_drawn.
  - by rewrite Hqid.
  - done.
  - exact Hq3.
  - done.
  - apply (calls_back room' (S n) json _ _ r cb resp); [done|done|done|]. by apply Hnext.
  - intros Hp. rewrite Hqid. by apply (Hstall r).
Qed.

End calm.

(** ** The handshake, from the back *)

(** No queue holds a task, no thread has anything to do, nothing will arrive. *)
Definition at_rest (s : Session) : Prop :=
  ses_network s = [] /\ ses_main s = [] /\ Forall (fun l => l = []) (ses_threads s).
Definition over (l : loop) : Prop := at_rest (lp_session l) /\ lp_calls l = [] /\ lp_arriving l = [].

(** Everything is done: the room is connected with the transports it asked for, no
    request is pending, nothing is under way, and exactly the requests of the
    handshake were made and sent, in order. *)
Definition joined (o : Options) (l : loop) : Prop :=
  let room := ses_room (lp_session l) in
  over l /\ rc_state room = CONNECTED /\ is_Some (mc_device (the_media room)) /\
  (value_or (o_produce o) false = true -> is_Some (mc_sendTransport (the_media room))) /\
  (value_or (o_consume o) false = true -> is_Some (mc_recvTransport (the_media room))) /\
  sc_requestMap (ses_client (lp_session l)) = ∅ /\
  (fun x => api_method x.1) <$> asked (lp_trace l) = (handshake_requests o).*1 /\
  texts (lp_trace l) = sent (asked (lp_trace l)).

(** The handshake stopped: nothing is under way, the room is still connecting, and the
    last request it made stays in the table. *)
Definition stalled (o : Options) (l : loop) : Prop :=
  over l /\ rc_state (ses_room (lp_session l)) = CONNECTING /\
  (exists r gid q cb, last (asked (lp_trace l)) = Some (r, gid) /\ in_handshake r /\
     sc_requestMap (ses_client (lp_session l)) = {[gid := q]} /\
     wr_resolve q = Some (mkCb (api_kind r) (Some (ByRoom cb)))) /\
  (fun x => api_method x.1) <$> asked (lp_trace l) `prefix_of` (handshake_requests o).*1 /\
  texts (lp_trace l) = sent (asked (lp_trace l)).

(** What the schedule may lead to. *)
Definition outcome_of (o : Options) (l : loop) : Prop := joined o l \/ (patient = false /\ stalled o l).

Section legs.
Variable tr : WebsocketTransport TLSWebsocketEndpoint.
Variable hdl : nat.
Hypothesis Htr : open_transport tr hdl.
Variable d : nat.
Variable o : Options.
Hypothesis Hworking : working (e_parse env) (e_print env) (e_nlohmann env) (e_Load env) (e_rtp env) (e_sctp env)
  (e_CreateTransport env) d.
Abbreviation core_of := (hs tr).
Abbreviation methods A := ((fun x : api_request * Z => api_method x.1) <$> A).

(** The room has the device and the transports of the options, as far as they are
    [sent] and [received]. *)
Definition equipped (sent received : bool) (room : RoomClient) : Prop :=
  rc_signalingClient room = true /\ rc_state room = CONNECTING /\ ready d o room /\ is_Some (mc_device (the_media room)) /\
  (sent = true -> is_Some (mc_sendTransport (the_media room))) /\
  (received = true -> is_Some (mc_recvTransport (the_media room))).

(** The request that stays in the table. *)
Lemma stalls room n A r gid q cb :
  rc_mediaController room = true -> rc_state room = CONNECTING -> patient = false -> in_handshake r ->
  wr_resolve q = Some (mkCb (api_kind r) (Some (ByRoom cb))) -> methods (A ++ [(r, gid)]) `prefix_of` (handshake_requests o).*1 ->
  reaches (outcome_of o) (core_of room {[gid := q]} n [] [] [] [] [] (A ++ [(r, gid)]) (sent (A ++ [(r, gid)]))).
Proof.
  intros Hm Hst Hp Hr Hq Hpre. apply all_done; try done. intros l [Ha Ht]. right. split; [done|].
  cbn in Ha, Ht. unfold stalled. cbn [lp_session lp_trace]. rewrite Ha, Ht.
  split; [by repeat split; repeat constructor|]. split; [done|]. split; [|done].
  exists r, gid, q, cb. by rewrite last_snoc.
Qed.

Lemma ready_media room : ready d o room -> rc_mediaController room = true.
Proof. by intros (_ & ? & _). Qed.

Lemma join_leg room n A r resp :
  equipped (value_or (o_produce o) false) (value_or (o_consume o) false) room ->
  methods A = (handshake_requests o).*1 -> api_method r = "join" -> useful r resp ->
  reaches (outcome_of o) (core_of room ∅ n [] [] [] [AAnswer (mkCall (ByRoom CbJoin) 0 "" (Some resp))] [] A (sent A)).
Proof.
  intros (Hsig & Hst & Hready & Hdev & Hsend & Hrecv) HA Hr Huse. pose proof (ready_media room Hready) as Hm.
  destruct r; try discriminate Hr. destruct resp; try done. destruct Huse as [Hok Hdata].
  destruct (JoinResponse_data r) as [jd|] eqn:Hjd; [|done]. pose proof Hready as (_ & _ & Hp & _).
  set (room1 := rc_set_state CONNECTED room).
  apply (answers tr (outcome_of o) CbJoin (JoinResp r) room room1 (TaskJoined CONNECTED r)); [done|done| |].
  { intros s Hs. unfold answer. cbn [uc_callback uc_errorCode uc_response as_join]. unfold begun. rewrite Hs.
    unfold onJoinResponse. rewrite decide_False by (by intros []). rewrite Hok. reflexivity. }
  destruct (joined_runs r jd room1 Hp Hjd) as (room' & (es & Hrun & Hq) & Hst' & Hmed & _).
  pose proof (mild_task env (TaskJoined CONNECTED r) eq_refl room1) as Hmild.
  unfold wlp in Hmild. cbn [rc_run_task] in Hmild. rewrite Hrun in Hmild. destruct Hmild as [(Hsig' & Hm' & _) Hplain].
  specialize (Hm' Hm). apply (takes_task tr (outcome_of o) (TaskJoined CONNECTED r) room1 room' es); [done|exact Hrun|].
  rewrite <- (app_nil_r (AEffect <$> es)). apply does_all_quiet; [done | by apply quiet_effects|].
  apply all_done; try done. intros l [Ha Ht]. left. cbn in Ha, Ht. unfold joined, dress, hs.
  cbn [lp_session lp_trace ses_room c_room]. rewrite Ha, Ht, Hmed, Hst'. repeat (split; [by repeat split; repeat constructor|]). done.
Qed.

Lemma transport_answered room n p c x A X :
  rc_mediaController room = true -> present (CreateWebRtcTransportResponse_ok x) = true ->
  reaches (outcome_of o) (core_of room ∅ n [] [RoomTask (TaskTransport p c x)] [] [] [] A X) ->
  reaches (outcome_of o) (core_of room ∅ n [] [] [] [AAnswer (mkCall (ByRoom (CbTransport p c)) 0 "" (Some (CreateWebRtcTransportResp x)))] [] A X).
Proof.
  intros Hm Hok. apply answers; [done|done|]. intros s Hs. unfold answer.
  cbn [uc_callback uc_errorCode uc_response as_transport]. unfold begun. rewrite Hs.
  unfold onTransportResponse. rewrite decide_False by (by intros []). rewrite Hok. reflexivity.
Qed.

Lemma methods_snoc A r gid asks ask :
  methods A = asks.*1 -> api_method r = ask.1 -> methods (A ++ [(r, gid)]) = (asks ++ [ask : string * rc_callback]).*1.
Proof. intros HA Hr. rewrite !fmap_app, HA. cbn. by rewrite Hr. Qed.
Lemma methods_prefix A r gid asks ask rest :
  methods A = asks.*1 -> api_method r = ask.1 -> handshake_requests o = asks ++ (ask : string * rc_callback) :: rest ->
  methods (A ++ [(r, gid)]) `prefix_of` (handshake_requests o).*1.
Proof. intros HA Hr ->. rewrite (methods_snoc A r gid asks ask HA Hr). exists rest.*1. by rewrite !fmap_app, <- app_assoc. Qed.

(** One leg of the handshake: a task that asks for one thing, and then the rest. *)
Lemma leg t room room' ask n A asks rest sent' received' :
  handshake_task t -> rc_mediaController room = true -> rc_signalingClient room = true ->
  runs (room_task t) room room' [ask] -> (forall r, api_method r = ask.1 -> in_handshake r) ->
  methods A = asks.*1 -> handshake_requests o = asks ++ ask :: rest -> equipped sent' received' room' ->
  (forall r resp n' A', api_method r = ask.1 -> useful r resp -> methods A' = (asks ++ [ask]).*1 ->
     reaches (outcome_of o) (core_of room' ∅ n' [] [] [] [AAnswer (mkCall (ByRoom ask.2) 0 "" (Some resp))] [] A' (sent A'))) ->
  reaches (outcome_of o) (core_of room ∅ n [] [RoomTask t] [] [] [] A (sent A)).
Proof.
  intros Ht Hm Hsig Hruns Hin HA Hasks (_ & Hst & Hready & _) Hnext. destruct ask as [m cb]. cbn [fst snd] in *.
  apply (round tr hdl Htr (outcome_of o) t room room' m cb); [done|done|done|done|done| |].
  - intros r resp Hr Huse. apply (Hnext r); [done|done|]. by apply methods_snoc.
  - intros r q Hp Hr Hq. eapply stalls; [by apply ready_media|done|done|by apply Hin|exact Hq|].
    by apply (methods_prefix _ _ _ asks (m, cb) rest).
Qed.

Lemma recv_leg room n A r resp asks :
  value_or (o_consume o) false = true -> equipped (value_or (o_produce o) false) false room ->
  handshake_requests o = asks ++ [ask_join] ->
  methods A = asks.*1 -> api_method r = "createWebRtcTransport" -> useful r resp ->
  reaches (outcome_of o) (core_of room ∅ n [] [] [] [AAnswer (mkCall (ByRoom (CbTransport false true)) 0 "" (Some resp))] [] A (sent A)).
Proof.
  intros Hc (Hsig & Hst & Hready & Hdev & Hsend & _) Hasks HA Hr Huse.
  destruct r; try discriminate Hr. destruct resp as [|x| | | | | | | | | |]; try done. destruct Huse as [Hok Hinfo].
  apply transport_answered; [by apply ready_media | done|].
  destruct (onCreateRecvTransport_runs _ _ _ _ _ _ _ d o x room Hworking Hready Hinfo) as (t & Hruns).
  set (room' := set_the_media _ _) in Hruns.
  assert (Hequipped : equipped (value_or (o_produce o) false) (value_or (o_consume o) false) room').
  { split; [exact Hsig|]. split; [exact Hst|]. split; [exact Hready|]. split; [exact Hdev|].
    split; [exact Hsend|]. intros _. by eexists. }
  eapply (leg (TaskTransport false true x) room room' ask_join n A asks []); [done|by apply ready_media|done|exact Hruns| |done|done|exact Hequipped|].
  - intros r Hm. by destruct r.
  - intros r resp n' A' Hm Huse' HA'. apply (join_leg _ _ _ r); [done| |done|done]. by rewrite HA', Hasks.
Qed.

Lemma send_leg room n A r resp :
  value_or (o_produce o) false = true -> equipped false false room ->
  methods A = [ask_capabilities; ask_send].*1 -> api_method r = "createWebRtcTransport" -> useful r resp ->
  reaches (outcome_of o) (core_of room ∅ n [] [] [] [AAnswer (mkCall (ByRoom (CbTransport true false)) 0 "" (Some resp))] [] A (sent A)).
Proof.
  intros Hc (Hsig & Hst & Hready & Hdev & _ & _) HA Hr Huse.
  destruct r; try discriminate Hr. destruct resp as [|x| | | | | | | | | |]; try done. destruct Huse as [Hok Hinfo].
  apply transport_answered; [by apply ready_media | done|].
  destruct (onCreateSendTransport_runs _ _ _ _ _ _ _ d o x room Hworking Hready Hinfo) as (t & room' & Hruns & ->).
  set (room' := set_the_media _ _) in *.
  assert (Hequipped : equipped (value_or (o_produce o) false) false room').
  { split; [exact Hsig|]. split; [exact Hst|]. split; [exact Hready|]. split; [exact Hdev|]. split; [intros _; by eexists | done]. }
  unfold ask_after_send in Hruns. destruct (value_or (o_consume o) false) eqn:Hconsume.
  - assert (Hall : handshake_requests o = [ask_capabilities; ask_send] ++ ask_recv :: [ask_join]).
    { unfold handshake_requests. by rewrite Hc, Hconsume. }
    eapply (leg (TaskTransport true false x) room room' ask_recv n A [ask_capabilities; ask_send]);
      [done|by apply ready_media|done|exact Hruns| |done|exact Hall|exact Hequipped|].
    + intros r Hm. by destruct r.
    + intros r resp n' A' Hm Huse' HA'. by apply (recv_leg _ _ _ r _ ([ask_capabilities; ask_send] ++ [ask_recv])).
  - assert (Hall : handshake_requests o = [ask_capabilities; ask_send] ++ ask_join :: []).
    { unfold handshake_requests. by rewrite Hc, Hconsume. }
    eapply (leg (TaskTransport true false x) room room' ask_join n A [ask_capabilities; ask_send]);
      [done|by apply ready_media|done|exact Hruns| |done|exact Hall|exact Hequipped|].
    + intros r Hm. by destruct r.
    + intros r resp n' A' Hm Huse' HA'. apply (join_leg _ _ _ r); [by rewrite Hconsume| |done|done]. by rewrite HA', Hall.
Qed.

(** From the moment the room asks for the router's capabilities. *)
Lemma opened_leg room n :
  rc_signalingClient room = true -> rc_mediasoupApi room = true -> rc_mediaController room = true ->
  rc_participantController room = true -> rc_mediasoupDevice room = None -> rc_devices room = d ->
  rc_options room = o -> rc_state room = CONNECTING ->
  reaches (outcome_of o) (core_of room ∅ n [] [RoomTask TaskOpened] [] [] [] [] []).
Proof.
  intros Hsig Ha Hm Hp Hdev Hd Ho Hst.
  assert (Hfirst : exists rest, handshake_requests o = ask_capabilities :: rest).
  { unfold handshake_requests. by eexists. }
  destruct Hfirst as [rest Hfirst].
  apply (round tr hdl Htr (outcome_of o) TaskOpened room room "getRouterRtpCapabilities" CbCapabilities n []);
    [done|done|done|by apply opened_runs|intros r Hr; by destruct r| |].
  2:{ intros r q Hpat Hr Hq. apply (stalls room (S n) [] r _ q CbCapabilities); [done|done|done|by destruct r|exact Hq|].
      exact (methods_prefix [] r _ [] ask_capabilities rest eq_refl Hr Hfirst). }
  intros r resp Hr Huse. destruct r; try discriminate Hr. destruct resp as [x| | | | | | | | | | |]; try done.
  destruct Huse as [Hok Hdata]. destruct (GetRouterRtpCapabilitiesResponse_data x) as [data|] eqn:Hx; [|done].
  apply (answers tr (outcome_of o) CbCapabilities _ room room (TaskLoadDevice x)); [done|done| |].
  { intros s Hs. unfold answer. cbn [uc_callback uc_errorCode uc_response as_capabilities]. unfold begun. rewrite Hs.
    unfold onCapabilitiesResponse. rewrite decide_False by (by intros []). rewrite Hok. reflexivity. }
  destruct (load_runs _ _ _ _ _ _ _ d o x room data Hworking Ha Hm Hp Hdev Hd Ho Hx) as (room' & Hruns & Hready & Hst' & Hmed & _).
  pose proof Hruns as (es & Hrun & _). pose proof (mild_task env (TaskLoadDevice x) I room) as Hmild.
  unfold wlp in Hmild. cbn [rc_run_task] in Hmild. rewrite Hrun in Hmild. destruct Hmild as [(Hsame & _) _].
  assert (Hequipped : equipped false false room').
  { split; [congruence|]. split; [congruence|]. split; [done|]. split; [rewrite Hmed; by eexists|done]. }
  set (A := [] ++ [(AGetRouterRtpCapabilities, e_ids env n)]).
  unfold ask_after_load, ask_after_send in Hruns. destruct (value_or (o_produce o) false) eqn:Hproduce.
  { assert (Hall : exists rest, handshake_requests o = [ask_capabilities] ++ ask_send :: rest).
    { unfold handshake_requests. rewrite Hproduce. by eexists. }
    destruct Hall as [rest' Hall].
    eapply (leg (TaskLoadDevice x) room room' ask_send _ A [ask_capabilities]);
      [done|done|done|exact Hruns|intros r Hm'; by destruct r|done|exact Hall|exact Hequipped|].
    intros r resp n' A' Hm' Huse' HA'. by apply (send_leg _ _ _ r). }
  destruct (value_or (o_consume o) false) eqn:Hconsume.
  - assert (Hall : handshake_requests o = [ask_capabilities] ++ ask_recv :: [ask_join]).
    { unfold handshake_requests. by rewrite Hproduce, Hconsume. }
    eapply (leg (TaskLoadDevice x) room room' ask_recv _ A [ask_capabilities]);
      [done|done|done|exact Hruns|intros r Hm'; by destruct r|done|exact Hall|exact Hequipped|].
    intros r resp n' A' Hm' Huse' HA'. apply (recv_leg _ _ _ r _ ([ask_capabilities] ++ [ask_recv])); try done.
    by rewrite Hproduce.
  - assert (Hall : handshake_requests o = [ask_capabilities] ++ ask_join :: []).
    { unfold handshake_requests. by rewrite Hproduce, Hconsume. }
    eapply (leg (TaskLoadDevice x) room room' ask_join _ A [ask_capabilities]);
      [done|done|done|exact Hruns|intros r Hm'; by destruct r|done|exact Hall|exact Hequipped|].
    intros r resp n' A' Hm' Huse' HA'. apply (join_leg _ _ _ r); [by rewrite Hproduce, Hconsume| |done|done].
    by rewrite HA', Hall.
Qed.
End legs.

(** ** From the start *)

(** The transport with one connection. *)
Definition one_connection (status url srv : string) : WebsocketTransport TLSWebsocketEndpoint :=
  mkTransport url 0
    (Some (mkTls (mkEndpoint {[0%Z := mkMetadata 0 0 status url srv "" (Some transport_addr)]} 1 1)
             (tls_init_handler new_tls_endpoint)))
    [WeakObject (Some client_addr) (Some network_thread)].

Lemma single_event al e md :
  tls_event al 0 e (mkTls (mkEndpoint {[0%Z := md]} 1 1) (tls_init_handler new_tls_endpoint)) =
    Done (tt, mkTls (mkEndpoint {[0%Z := (md_event al e md).1]} 1 1) (tls_init_handler new_tls_endpoint),
          (fun c => WObserver c.1 c.2) <$> (md_event al e md).2).
Proof.
  apply (on_base_run (ep_event al 0 e) (mkTls (mkEndpoint {[0%Z := md]} 1 1) _)).
  unfold ep_event, with_connection. erewrite bind_done by done.
  cbn [tls_base ep_connectionList]. rewrite lookup_singleton_eq.
  destruct (md_event al e md) as [md' calls]. cbn [fst snd].
  erewrite bind_done by done. unfold ep_set_list. cbn [ep_connectionList ep_nextId ep_hdls].
  rewrite insert_singleton_eq. reflexivity.
Qed.

(** What the connection reports reaches the transport. *)
Lemma connection_event al e status url srv :
  @tr_net_event _ interface transport_addr al 0 e (one_connection status url srv) =
    for_each (((fun c => WObserver c.1 c.2) <$> (md_event al e (mkMetadata 0 0 status url srv "" (Some transport_addr))).2)
              ≫= my_call transport_addr) tr_onConnection
      (tr_set_websocket (Some (mkTls (mkEndpoint
         {[0%Z := (md_event al e (mkMetadata 0 0 status url srv "" (Some transport_addr))).1]} 1 1)
         (tls_init_handler new_tls_endpoint))) (one_connection status url srv)).
Proof. unfold tr_net_event, one_connection. cbn [tr_websocket t_event interface tls_interface]. by rewrite single_event. Qed.

Lemma one_connection_open status url srv : open_transport (one_connection status url srv) 0.
Proof.
  split; [| |done].
  - intros text Hne. unfold tr_sendText. rewrite decide_False by done. reflexivity.
  - intros al json Hal. change (tr_connectionId _) with 0%Z. rewrite connection_event.
    unfold md_event, md_onMessage, call_observer, lock. cbn [md_observer fst snd]. rewrite Hal. reflexivity.
Qed.

Lemma for_each_app_done {S E A} (l l' : list A) (f : A -> M S E unit) s s1 s2 e1 e2 :
  for_each l f s = Done (tt, s1, e1) -> for_each l' f s1 = Done (tt, s2, e2) ->
  for_each (l ++ l') f s = Done (tt, s2, e1 ++ e2).
Proof.
  revert s e1. induction l as [|x l IH]; intros s e1.
  - cbn. intros [= <- <-]. done.
  - cbn [for_each app]. unfold mbind, M_bind. destruct (f x s) as [[[[] s'] e]|]; [|done].
    destruct (for_each l f s') as [[[[] s''] e']|] eqn:Hl; [|done]. intros [= <- <-] H2.
    by rewrite (IH s' e' Hl H2), app_assoc.
Qed.
Lemma effects_cons {S F E} (e : E) es (perform : E -> M S F unit) s s1 s2 e1 e2 :
  perform e s = Done (tt, s1, e1) -> for_each es perform s1 = Done (tt, s2, e2) ->
  for_each (e :: es) perform s = Done (tt, s2, e1 ++ e2).
Proof. intros He Hes. cbn [for_each]. by rewrite (bind_done _ _ _ _ _ _ He), Hes. Qed.

(** The transport after [init]. *)
Definition unconnected : WebsocketTransport TLSWebsocketEndpoint :=
  mkTransport "" (-1) None [WeakObject (Some client_addr) (Some network_thread)].

Lemma connect_done room n url sub nw mn ths :
  accepted_url (e_get_connection env) (e_add_subprotocol env) url sub = true ->
  on_client env (connect url sub) (session_of unconnected room ∅ n nw mn ths) =
    Done (tt, session_of (one_connection "Connecting" url "N/A") room ∅ n nw mn ths, [SWire (WConnect 0 url sub)]).
Proof.
  intros Hacc.
  destruct (ep_connect_run (e_get_connection env) (e_add_subprotocol env) url (Some transport_addr) sub new_endpoint)
    as (h & _ & Hrun); [done|]. rewrite Hacc in Hrun.
  set (fresh := mkTransport url (-1) (Some new_tls_endpoint) [WeakObject (Some client_addr) (Some network_thread)]).
  assert (Hws : websocket (@t_connect _ interface url (Some transport_addr) sub) fresh =
    Done (0%Z, tr_set_id (-1) (one_connection "Connecting" url "N/A"), [TEndpoint (WConnect 0 url sub)])).
  { unfold websocket. erewrite bind_done by done. erewrite bind_done by done. unfold zoom.
    change (t_connect _ _ _) with (tls_connect (e_get_connection env) (e_add_subprotocol env) url (Some transport_addr) sub).
    unfold tls_connect. rewrite (on_base_run _ new_tls_endpoint _ _ _ Hrun). reflexivity. }
  assert (Htr : @tr_connect _ interface transport_addr url sub unconnected =
    Done (tt, one_connection "Connecting" url "N/A", [TEndpoint (WConnect 0 url sub)])).
  { unfold tr_connect. erewrite bind_done by done.
    rewrite (bind_done (@assign_websocket _ interface (Some (@t_new _ interface))) _ _ tt fresh []) by done.
    rewrite (bind_done _ _ _ _ _ _ Hws). reflexivity. }
  assert (Hon : on_transport (@tr_connect _ interface transport_addr url sub) (session_of unconnected room ∅ n nw mn ths) =
    Done (tt, session_of (one_connection "Connecting" url "N/A") room ∅ n nw mn ths, [SWire (WConnect 0 url sub)])).
  { unfold on_transport, routed. session_fields. rewrite Htr. reflexivity. }
  eapply routed_done; [reflexivity|].
  exact (effects_cons (TransportConnect url sub) [] (perform_down env) _ _ _ _ [] Hon eq_refl).
Qed.

(** What the connection reports when it opens. *)
Lemma connection_opens room n u srv nw mn ths :
  rc_signalingClient room = true ->
  ses_step env (EvNet 0 (NetOpen srv)) (session_of (one_connection "Connecting" u "N/A") room ∅ n nw mn ths) =
    Done (tt, session_of (one_connection "Open" u srv) room ∅ n (nw ++ [TEvent TOnOpened]) mn ths, []).
Proof.
  intros Hsig. cbn [ses_step]. erewrite bind_done by done.
  set (s0 := session_of _ _ _ _ _ _ _).
  assert (Hal : alive s0 transport_addr = true) by exact Hsig.
  assert (Htr : @tr_net_event _ interface transport_addr (alive s0) 0 (NetOpen srv) (one_connection "Connecting" u "N/A") =
    Done (tt, one_connection "Open" u srv, [TNotify TOnOpened])).
  { rewrite connection_event. unfold md_event, md_onOpen, call_observer, lock. cbn [md_observer fst snd].
    rewrite Hal. reflexivity. }
  assert (Hon : on_transport (@tr_net_event _ interface transport_addr (alive s0) 0 (NetOpen srv)) s0 =
    Done (tt, session_of (one_connection "Open" u srv) room ∅ n (nw ++ [TEvent TOnOpened]) mn ths, [])).
  { eapply routed_done; [exact Htr|].
    apply (effects_cons _ [] _ _ (session_of (one_connection "Open" u srv) room ∅ n (nw ++ [TEvent TOnOpened]) mn ths) _ [] []); [|done].
    cbn [perform_transport]. erewrite bind_done by done. cbn. by rewrite Hsig. }
  rewrite Hon. reflexivity.
Qed.

(** The client tells its three observers; the room leaves a task to post, the others do
    nothing. *)
Lemma opening_read tr room n nw mn ths :
  rc_signalingClient room = true ->
  run_network env (TEvent TOnOpened) (session_of tr room ∅ n nw mn ths) =
    Done ([AClient (Notify NotifyOpened)], session_of tr room ∅ n nw mn ths, []).
Proof.
  intros Hsig. cbn [run_network]. unfold if_alive. erewrite bind_done by done. cbn [alive client_addr]. session_fields.
  rewrite Hsig. reflexivity.
Qed.
Definition told_opened : list action :=
  [ADeliver (Direct 0%nat) NotifyOpened; ADeliver (Direct 1%nat) NotifyOpened; ADeliver (Direct 2%nat) NotifyOpened].
Lemma opening_told tr room n nw mn ths :
  rc_mediaController room = true -> rc_participantController room = true ->
  perform_action env (AClient (Notify NotifyOpened)) (session_of tr room ∅ n nw mn ths) =
    Done (told_opened, session_of tr room ∅ n nw mn ths, []).
Proof.
  intros Hm Hp. cbn [perform_action perform_client]. unfold notify_client. erewrite bind_done by done. session_fields.
  cbn [sc_observers]. unfold notifyObservers. cbn. by rewrite Hm, Hp.
Qed.
Lemma room_told s :
  perform_action env (ADeliver (Direct 0%nat) NotifyOpened) s = Done ([AEffect (RPost TaskOpened)], s, []).
Proof. destruct s as [[] ? ? ? ? ? ?]. reflexivity. Qed.
Lemma others_told a s : a <> 0%nat -> perform_action env (ADeliver (Direct a) NotifyOpened) s = Done ([], s, []).
Proof.
  intros Ha. destruct s as [[? ? ? ? ? ? ? ? ? ? ? ? ? ? ? []] ? ? ? ? ? ?]. by destruct a as [|[|[|a]]].
Qed.
Lemma others_quiet a : a <> 0%nat -> quiet (ADeliver (Direct a) NotifyOpened).
Proof. intros Ha. split; [done|]. exists []. split; [|done]. intros s. by apply others_told. Qed.

(** A room that has created nothing yet. *)
Definition nothing_yet (room : RoomClient) : Prop :=
  rc_mediasoupDevice room = None /\ rc_sendTransport room = None /\ rc_recvTransport room = None /\
  mc_micProducer (the_media room) = None /\ mc_producerMap (the_media room) = ∅ /\
  mc_dataConsumerMap (the_media room) = ∅ /\ mc_consumerMap (the_media room) = ∅.

(** The effects of [init], and what each does. *)
Definition init_effects : list rc_effect :=
  [RSignalingInit; RSubscribeSignaling SubRoom; RSubscribeSignaling SubMedia; RSubscribeMedia SubRoom;
   RSubscribeSignaling SubParticipants; RSubscribeMedia SubParticipants].
Definition init_room : RoomClient :=
  match rc_init new_room_client with Done (_, room, _) => room | Fault _ => new_room_client end.
Lemma init_runs : rc_init new_room_client = Done (tt, init_room, init_effects).
Proof. vm_compute. reflexivity. Qed.

(** One of them, alone. *)
Lemma effect_alone P room cl tr n key a h A X room' cl' tr' n' :
  rc_mediaController room = true ->
  (forall mn ths, perform_action env a (mkSession room cl tr n [] mn ths) = Done ([], mkSession room' cl' tr' n' [] mn ths, [])) ->
  reaches P (mkCore room' cl' tr' n' [] key h [] [] A X) -> reaches P (mkCore room cl tr n [] key (a :: h) [] [] A X).
Proof.
  intros Hm Ha Hnext. apply head_alone; try done. eapply moves_to; [exact Hnext|done|done|done|].
  intros z Hz _. exists z. split; [done|]. set (c := mkCore room _ _ _ _ _ _ _ _ _ _).
  by rewrite (head_step c z a h _ _ _ eq_refl (Ha _ _)).
Qed.

Lemma init_leg P key :
  (forall room, idle room -> nothing_yet room -> rc_devices room = 0%nat -> reaches P (hs unconnected room ∅ 0 [] key [] [] [] [] [])) ->
  reaches P (mkCore init_room (mkClient ∅ [] (Some network_thread)) new_transport 0 [] key (AEffect <$> init_effects) [] [] [] []).
Proof.
  intros Hnext. cbn [init_effects fmap list_fmap].
  do 6 (eapply effect_alone; [vm_compute; reflexivity | intros mn ths; vm_compute; reflexivity|]).
  apply Hnext; by repeat split.
Qed.

(** The connection opens: the transport thread hears of it, and so does the room, while
    the mediasoup thread goes on. *)
Lemma opening_leg P room n u :
  rc_signalingClient room = true -> rc_mediaController room = true -> rc_participantController room = true ->
  reaches P (hs (one_connection "Open" u server_name) room ∅ n [] [RoomTask TaskOpened] [] [] [] [] []) ->
  reaches P (hs (one_connection "Connecting" u "N/A") room ∅ n [] [] [] [] [NetOpen server_name] [] []).
Proof.
  intros Hsig Hm Hp Hnext. set (tr := one_connection "Open" u server_name) in *.
  assert (H3 : reaches P (hs tr room ∅ n [] [] [] told_opened [] [] [])).
  { apply tail_alone; try done. eapply (moves_to P _ _ (hs tr room ∅ n [] [] [] (AEffect (RPost TaskOpened) :: drop 1 told_opened) [] [] []));
      [|done|done|done|].
    - apply posts_task; [done| |exact Hnext]. by repeat (constructor; [by apply others_quiet|]).
    - intros z Hz _. exists z. split; [done|]. set (c := hs _ _ _ _ _ _ _ told_opened _ _ _).
      by rewrite (tail_step c z _ (drop 1 told_opened) _ _ _ eq_refl (room_told _)). }
  assert (H2 : reaches P (hs tr room ∅ n [] [] [] [AClient (Notify NotifyOpened)] [] [] [])).
  { apply tail_alone; try done. eapply moves_to; [exact H3|done|done|done|]. intros z Hz _. exists z. split; [done|].
    set (c := hs _ _ _ _ _ _ _ _ _ _ _). by rewrite (tail_step c z _ [] _ _ _ eq_refl (opening_told tr room n [] _ _ Hm Hp)). }
  assert (H1 : reaches P (hs tr room ∅ n [TEvent TOnOpened] [] [] [] [] [] [])).
  { apply network_alone; try done. eapply moves_to; [exact H2|done|done|done|]. intros z Hz Hfree. exists z. split; [done|].
    set (c := hs _ _ _ _ _ _ _ _ _ _ _).
    rewrite (network_step c z _ [] _ _ _ eq_refl Hfree eq_refl (opening_read tr room n [] _ _ Hsig)).
    unfold dress. cbn. by rewrite Hfree. }
  eapply arriving_alone; try done. eapply moves_to; [exact H1|done|done|done|]. intros z Hz _. exists z. split; [done|].
  exact (connection_opens room n u server_name [] _ _ Hsig).
Qed.

Section join.
Variables (peerId hostname : string) (port : Z) (roomId displayName : string) (o : Options).
Abbreviation url := (getProtooUrl hostname port roomId peerId).
Abbreviation call := (AppJoin peerId hostname port roomId displayName (Some o)).
Hypothesis Hhost : hostname <> "".
Hypothesis Hroom : roomId <> "".
Hypothesis Hname : displayName <> "".
Hypothesis Haccepted : accepted_url (e_get_connection env) (e_add_subprotocol env) url "protoo" = true.

(** [join] asks for a connection. *)
Lemma join_leg_start P room :
  idle room -> 
  reaches P (hs (one_connection "Connecting" url "N/A") (joining peerId hostname port roomId displayName o room) ∅ 0 [] [] [] []
    [NetOpen server_name] [] []) ->
  reaches P (hs unconnected room ∅ 0 [] [CallTask call] [] [] [] [] []).
Proof.
  intros (Hst & Hsig & _ & Hm & _) Hnext. set (room' := joining _ _ _ _ _ _ _) in *.
  assert (H2 : reaches P (hs unconnected room' ∅ 0 [] []
    [AEffect (RConnect url "protoo"); AEffect (RRoomStateChanged CONNECTING)] [] [] [] [])).
  { apply head_alone; try done.
    eexists _, [SWire (WConnect 0 url "protoo")]. split; [exact Hnext|]. do 3 (split; [reflexivity|]).
    intros z (Hb & Ha & Hr & Hl) _.
    exists (mkNoise (z_before z) (z_after z) (AEffect (RRoomStateChanged CONNECTING) :: z_rest z) (z_left z)).
    split; [do 2 (split; [done|]); split; [constructor; [by apply plain_quiet | done]|done]|].
    set (c := hs unconnected _ _ _ _ _ _ _ _ _ _).
    assert (Hdo : perform_action env (AEffect (RConnect url "protoo")) (dress c z) =
      Done ([], session_of (one_connection "Connecting" url "N/A") room' ∅ 0 [] (ses_main (dress c z)) (ses_threads (dress c z)),
        [SWire (WConnect 0 url "protoo")])).
    { cbn [perform_action perform_effect]. unfold at_once, mbind, M_bind.
      by rewrite (connect_done room' 0 url "protoo" [] _ _ Haccepted : on_client env (connect url "protoo") (dress c z) = _). }
    by rewrite (head_step c z _ [AEffect (RRoomStateChanged CONNECTING)] _ _ _ eq_refl Hdo). }
  assert (H1 : reaches P (hs unconnected room' ∅ 0 [] []
    [AEffect RDisconnect; AEffect (RConnect url "protoo"); AEffect (RRoomStateChanged CONNECTING)] [] [] [] [])).
  { eapply effect_alone; [done| |exact H2]. reflexivity. }
  apply key_alone; try done. eapply moves_to; [exact H1|done|done|done|]. intros z (Hb & Ha & Hr & Hl) Hfree. pose proof Hfree as [_ Hr0].
  exists (mkNoise (z_after z) [] [] (z_left z)). split; [by repeat split|]. set (c := hs unconnected room _ _ _ _ _ _ _ _ _).
  rewrite (key_step c z (CallTask call) [] (AEffect <$> [RDisconnect; RConnect url "protoo"; RRoomStateChanged CONNECTING])
    (session_of unconnected room' ∅ 0 [] (CallTask <$> z_after z) [[]; z_left z]) []); [|done..|].
  - unfold dress. cbn. by rewrite !app_nil_r.
  - cbn [run_main app_run]. unfold begun, dress. cbn. rewrite (join_runs _ _ _ _ _ _ _ Hst Hsig Hhost Hroom Hname), Hr0. reflexivity.
Qed.

(** The session after the call. *)
Lemma call_made : exists s,
  ses_run env [EvCall call] new_session = Done (tt, s, []) /\
  s = dress (mkCore init_room (mkClient ∅ [] (Some network_thread)) new_transport 0 [] [CallTask call] (AEffect <$> init_effects) [] [] [] [])
        (mkNoise [] [] [] []).
Proof.
  eexists. split; [|reflexivity]. unfold ses_run, ses_start, thread_runs, begun. unfold mbind at 1, M_bind at 1. unfold mbind at 1, M_bind at 1.
  change (ses_room new_session) with new_room_client. rewrite init_runs. reflexivity.
Qed.

Lemma joining_reaches P calls :
  Forall idle_call calls ->
  (forall room, idle (rc_set_state CLOSED room) -> nothing_yet room -> rc_devices room = 0%nat -> rc_options room = o ->
     rc_state room = CONNECTING ->
     reaches P (hs (one_connection "Open" url server_name) room ∅ 0 [] [RoomTask TaskOpened] [] [] [] [] [])) ->
  exists s, ses_run env [EvCall call] new_session = Done (tt, s, []) /\ eventually P (Done (mkLoop s calls [] [])).
Proof.
  intros Hcalls Hnext. destruct call_made as (s & Hrun & ->). eexists. split; [exact Hrun|].
  refine (init_leg P [CallTask call] _ (mkNoise [] [] [] []) calls [] _ Hcalls _); [|by repeat split|done].
  intros room Hidle Hno Hd. apply join_leg_start; [done|]. pose proof Hidle as (Hst & Hsig & Hapi & Hm & Hp & Hdev).
  apply opening_leg; [done|done|done|]. by apply Hnext.
Qed.
End join.
End loop.

(** C1: joining connects.  On a fresh client the application joins a room, and goes on
    calling it with any finite number of calls that ask something; the connection the
    session asks for opens at some time, and the server answers each request of the
    handshake with one response.  In whatever order the application, the mediasoup
    thread, the transport thread and the network then take their turns, between any two
    effects of a handler and between the parts of sending a request, nothing faults or
    gets stuck, and after finitely many steps all is at rest, with exactly the requests
    made so far sent, each once and in order.  Then the handshake is complete (the room
    is connected, with its device and the transports the options ask for, and no request
    is pending), or an answer was looked up before its request was in the table: the
    handshake ends there, the room connecting for ever and the request pending.  If the
    network delivers nothing between the sending of a request and its entry into the
    table, it is always the first. *)
Theorem session_connects `{HashOrder} env server srv peerId hostname port roomId displayName o calls :
  hostname <> "" -> roomId <> "" -> displayName <> "" ->
  accepted_url (e_get_connection env) (e_add_subprotocol env) (getProtooUrl hostname port roomId peerId) "protoo" = true ->
  working (e_parse env) (e_print env) (e_nlohmann env) (e_Load env) (e_rtp env) (e_sctp env) (e_CreateTransport env) 0 ->
  (forall n, generateID (e_ids env n) = true) ->
  (forall r gid, e_print env (api_message r gid) <> "") ->
  cooperates env server -> Forall (idle_call env) calls ->
  exists s,
    ses_run env [EvCall (AppJoin peerId hostname port roomId displayName (Some o))] new_session = Done (tt, s, []) /\
    eventually env server srv true (joined env o) (Done (mkLoop s calls [] [])) /\
    eventually env server srv false (fun l => joined env o l \/ stalled env o l) (Done (mkLoop s calls [] [])).
Proof.
  intros Hh Hr Hn Hacc Hwork Hids Hprints Hserver Hcalls.
  assert (Hboth : forall patient, exists s,
    ses_run env [EvCall (AppJoin peerId hostname port roomId displayName (Some o))] new_session = Done (tt, s, []) /\
    eventually env server srv patient (outcome_of env patient o) (Done (mkLoop s calls [] []))).
  { intros patient. apply joining_reaches; [done..|]. intros room (_ & Hsig & Hapi & Hm & Hp & Hdev) Hno Hd Ho Hst.
    eapply (opened_leg env server srv patient Hids Hprints Hserver _ 0 (one_connection_open env "Open" _ srv) 0 o Hwork); done. }
  destruct (Hboth true) as (s & Hrun & Htrue), (Hboth false) as (s' & Hrun' & Hfalse).
  rewrite Hrun in Hrun'. injection Hrun' as <-. exists s. split; [exact Hrun|].
  split; (eapply eventually_mono; [|eassumption]); intros l [Hl|[Hl1 Hl2]]; auto. discriminate.
Qed.

(** ** Witnesses *)

Section demo.
Context `{HashOrder}.

Lemma demo_prints v : demo_print v <> "".
Proof. unfold demo_print. destruct (FindMember v "method") as [[]|]; try done. by case_decide. Qed.

Lemma demo_method r gid : in_handshake r -> demo_print (api_message r gid) = api_method r.
Proof.
  destruct r as [|[]|[]| | | | | | | | | | | | | | | | | | | |]; try done; intros _; vm_compute; reflexivity.
Qed.

Lemma demo_cooperates : cooperates demo_surroundings demo_server.
Proof.
  intros r n Hr. unfold demo_server. change (e_print demo_surroundings) with demo_print. rewrite demo_method by done.
  destruct r; try done; (eexists; eexists; split; [reflexivity|]; split; [discriminate|]);
    (split; [eexists; split; [vm_compute; reflexivity|done]|]); (split; [eexists; split; [vm_compute; reflexivity|done]|]).
  all: split; [intros g; vm_compute; reflexivity|].
  - split; [done|discriminate].
  - split; [done|]. eexists _, _, _, _, _. repeat split; reflexivity.
  - split; [done|discriminate].
Qed.
End demo.

Lemma demo_working : working demo_parse demo_print sample_nlohmann sample_Load sample_dump sample_dump sample_Create 0.
Proof. split; try discriminate; try (eexists; vm_compute; reflexivity); reflexivity. Defined.

(** Two calls that ask something. *)
Definition demo_calls : list app_call := [AppIsAudioMuted; AppParticipants PMGetParticipants].
Lemma demo_idle : Forall (idle_call demo_surroundings) demo_calls.
Proof.
  repeat constructor; intros [? ? ? ? ? ? ? ? ? ? ? ? ? [] [] []] Hm; first [discriminate Hm | reflexivity].
Qed.

Lemma session_connects_witness : exists s,
  ses_run demo_surroundings [demo_join] new_session = Done (tt, s, []) /\
  eventually demo_surroundings demo_server "srv" true (joined demo_surroundings OptionsDefault) (Done (mkLoop s demo_calls [] [])) /\
  eventually demo_surroundings demo_server "srv" false
    (fun l => joined demo_surroundings OptionsDefault l \/ stalled demo_surroundings OptionsDefault l) (Done (mkLoop s demo_calls [] [])).
Proof.
  apply (session_connects demo_surroundings demo_server "srv" "me" "h" 443 "r" "Me" OptionsDefault demo_calls).
  - discriminate.
  - discriminate.
  - discriminate.
  - reflexivity.
  - exact demo_working.
  - reflexivity.
  - intros r gid. apply demo_prints.
  - exact demo_cooperates.
  - exact demo_idle.
Defined.
