(* ===== verification/SessionRaces.v ===== *)
(** * Orders of events that a session does not survive

    Two races between the threads and the network of one session, on explicit
    schedules: an answer that is looked up before its request is in the table, and a
    room that is left while its connection opens. *)

From stdpp Require Import base gmap strings list pretty.
From Stdlib Require Import ZArith Lia.
From S2P Require Import Prelude Json SignalingModels WebsocketRequest Observable Websocket WebsocketFacts SignalingClient MediasoupApi ParticipantController ParticipantProxy MediaController MediaControllerFacts RemoteMedia RoomClient RoomClientFacts Session SessionFacts SessionProgress.

#[local] Open Scope string_scope.
#[local] Open Scope list_scope.

(** ** Runs *)

#[local] Ltac session_fields :=
  cbn [session_of ses_room ses_client ses_transport ses_draws ses_network ses_main ses_threads ses_set_room ses_set_client
       ses_set_transport ses_set_draws ses_set_network ses_set_main ses_set_threads].

Section races.
Context `{HashOrder}.
Variable env : Surroundings.
Abbreviation interface := (endpoint_interface env).
Abbreviation does es := (for_each es (ses_step env)).

Lemma run_more evs evs' s0 s1 s2 e1 e2 :
  ses_run env evs s0 = Done (tt, s1, e1) -> does evs' s1 = Done (tt, s2, e2) ->
  ses_run env (evs ++ evs') s0 = Done (tt, s2, e1 ++ e2).
Proof.
  unfold ses_run, mbind, M_bind. destruct (ses_start s0) as [[[[] s] e]|f]; [|done].
  intros H1 H2. destruct (does evs s) as [[[[] s'] e']|f'] eqn:Hevs; [|done].
  injection H1 as -> <-. by rewrite (for_each_app_done evs evs' (ses_step env) s s1 s2 e' e2 Hevs H2), app_assoc.
Qed.

(** One event, and then others. *)
Lemma one_then e es s s1 s2 f1 f2 :
  ses_step env e s = Done (tt, s1, f1) -> does es s1 = Done (tt, s2, f2) -> does (e :: es) s = Done (tt, s2, f1 ++ f2).
Proof. apply effects_cons. Qed.

(** What the room and the threads are in a session of the handshake. *)
Abbreviation st := session_of.

Lemma main_goes tr room table n nw mn a h t1 l' room' tr' table' n' nw' mn' es :
  perform_action env a (st tr room table n nw mn [a :: h; t1]) = Done (l', st tr' room' table' n' nw' mn' [a :: h; t1], es) ->
  ses_step env (EvRun 0) (st tr room table n nw mn [a :: h; t1]) = Done (tt, st tr' room' table' n' nw' mn' [l' ++ h; t1], es).
Proof. intros Ha. by rewrite (run_step env 0 a h (st tr room table n nw mn [a :: h; t1]) _ _ _ eq_refl Ha). Qed.
Lemma transport_goes tr room table n nw mn a h t0 l' room' tr' table' n' nw' mn' es :
  perform_action env a (st tr room table n nw mn [t0; a :: h]) = Done (l', st tr' room' table' n' nw' mn' [t0; a :: h], es) ->
  ses_step env (EvRun 1) (st tr room table n nw mn [t0; a :: h]) = Done (tt, st tr' room' table' n' nw' mn' [t0; l' ++ h], es).
Proof. intros Ha. by rewrite (run_step env 1 a h (st tr room table n nw mn [t0; a :: h]) _ _ _ eq_refl Ha). Qed.
Lemma main_takes tr room table n nw mn t t1 l' room' es :
  run_main env t (st tr room table n nw mn [[]; t1]) = Done (l', st tr room' table n nw mn [[]; t1], es) ->
  ses_step env EvMain (st tr room table n nw (t :: mn) [[]; t1]) = Done (tt, st tr room' table n nw mn [l'; t1], es).
Proof. intros Ha. by rewrite (main_taken env t mn (st tr room table n nw (t :: mn) [[]; t1]) _ _ _ eq_refl eq_refl Ha). Qed.
Lemma transport_takes tr room table n nw mn t t0 l' table' es :
  run_network env t (st tr room table n nw mn [t0; []]) = Done (l', st tr room table' n nw mn [t0; []], es) ->
  ses_step env EvNetwork (st tr room table n (t :: nw) mn [t0; []]) = Done (tt, st tr room table' n nw mn [t0; l'], es).
Proof. intros Ha. by rewrite (network_taken env t nw (st tr room table n (t :: nw) mn [t0; []]) _ _ _ eq_refl eq_refl Ha). Qed.

(** ** Up to the opening of the connection *)

Lemma started : exists room, (forall mn,
  does (steps 0 6) (mkSession init_room (mkClient ∅ [] (Some network_thread)) new_transport 0 [] mn [AEffect <$> init_effects; []]) =
    Done (tt, st unconnected room ∅ 0 [] mn [[]; []], [])) /\ idle room /\ nothing_yet room /\ rc_devices room = 0%nat.
Proof. eexists. split; [intros mn; vm_compute; reflexivity | by repeat split]. Qed.

Section join.
Variables (peerId hostname : string) (port : Z) (roomId displayName : string) (o : Options).
Abbreviation url := (getProtooUrl hostname port roomId peerId).
Abbreviation call := (AppJoin peerId hostname port roomId displayName (Some o)).
Hypothesis Hhost : hostname <> "".
Hypothesis Hroom : roomId <> "".
Hypothesis Hname : displayName <> "".
Hypothesis Haccepted : accepted_url (e_get_connection env) (e_add_subprotocol env) url "protoo" = true.

(** The application joins, and the mediasoup thread does all of it. *)
Definition join_events (c : app_call) : list ses_event := [EvCall c] ++ steps 0 6 ++ [EvMain] ++ steps 0 3.

Lemma join_connects :
  exists room,
    ses_run env (join_events call) new_session =
      Done (tt, st (one_connection "Connecting" url "N/A") room ∅ 0 [] [] [[]; []],
            [SWire (WConnect 0 url "protoo"); SRoom (RRoomStateChanged CONNECTING)]) /\
    idle (rc_set_state CLOSED room) /\ nothing_yet room /\ rc_state room = CONNECTING.
Proof.
  destruct started as (room & Hstart & Hidle & Hno & Hd). pose proof Hidle as (Hst & Hsig & _).
  exists (joining peerId hostname port roomId displayName o room). split; [|by repeat split; apply Hidle || apply Hno].
  set (room' := joining peerId hostname port roomId displayName o room).
  destruct (call_made env peerId hostname port roomId displayName o) as (s & Hrun & ->).
  unfold join_events. refine (run_more [EvCall call] _ _ _ _ [] _ Hrun _).
  refine (for_each_app_done (steps 0 6) _ _ _ _ _ [] _ (Hstart [CallTask call]) _).
  refine (one_then _ _ _ (st unconnected room' ∅ 0 [] [] [AEffect <$> [RDisconnect; RConnect url "protoo"; RRoomStateChanged CONNECTING]; []])
    _ [] _ _ _).
  { apply main_takes. cbn [run_main app_run]. unfold begun. session_fields.
    by rewrite (join_runs _ _ _ _ _ _ _ Hst Hsig Hhost Hroom Hname). }
  cbn [fmap list_fmap steps replicate].
  refine (one_then _ _ _ _ _ [] _ (main_goes unconnected room' ∅ 0 [] [] (AEffect RDisconnect) _ [] [] _ _ _ _ _ _ _ eq_refl) _).
  refine (one_then _ _ _ (st (one_connection "Connecting" url "N/A") room' ∅ 0 [] [] [[AEffect (RRoomStateChanged CONNECTING)]; []])
    _ [SWire (WConnect 0 url "protoo")] _ _ _).
  { apply (main_goes _ _ _ _ _ _ (AEffect (RConnect url "protoo")) [AEffect (RRoomStateChanged CONNECTING)] [] []).
    cbn [perform_action perform_effect]. unfold at_once, mbind, M_bind. by rewrite (connect_done env room' 0 url "protoo" [] _ _ Haccepted). }
  reflexivity.
Qed.

(** The connection opens, with [mn] in the queue of the mediasoup thread. *)
Lemma connection_told room n u srv mn :
  rc_signalingClient room = true -> rc_mediaController room = true -> rc_participantController room = true ->
  does (EvNetwork :: steps 1 5) (st (one_connection "Open" u srv) room ∅ n [TEvent TOnOpened] mn [[]; []]) =
    Done (tt, st (one_connection "Open" u srv) room ∅ n [] (mn ++ [RoomTask TaskOpened]) [[]; []], []).
Proof.
  intros Hsig Hm Hp. set (tr := one_connection "Open" u srv). cbn [steps replicate].
  refine (one_then _ _ _ _ _ [] [] (transport_takes tr room ∅ n [] mn _ _ _ _ _ (opening_read env tr room n [] mn _ Hsig)) _).
  refine (one_then _ _ _ _ _ [] [] (transport_goes tr room ∅ n [] mn _ [] _ _ _ _ _ _ _ _ _ (opening_told env tr room n [] mn _ Hm Hp)) _).
  refine (one_then _ _ _ _ _ [] [] (transport_goes tr room ∅ n [] mn _ (drop 1 told_opened) _ _ _ _ _ _ _ _ _ (room_told env _)) _).
  refine (one_then _ _ _ _ _ [] [] (transport_goes tr room ∅ n [] mn (AEffect (RPost TaskOpened)) _ _ [] _ _ _ _ _ _ _ eq_refl) _).
  assert (H1 : forall s, perform_action env (ADeliver (Direct 1%nat) NotifyOpened) s = Done ([], s, [])) by (intros s; by apply others_told).
  assert (H2 : forall s, perform_action env (ADeliver (Direct 2%nat) NotifyOpened) s = Done ([], s, [])) by (intros s; by apply others_told).
  refine (one_then _ _ _ _ _ [] [] (transport_goes tr room ∅ n [] _ _ _ _ _ _ _ _ _ _ _ _ (H1 _)) _).
  refine (one_then _ _ _ _ _ [] [] (transport_goes tr room ∅ n [] _ _ _ _ _ _ _ _ _ _ _ _ (H2 _)) _).
  reflexivity.
Qed.

(** ** An answer that overtakes its request *)

(** The schedule up to the sending of the first request, and on from the arrival of its
    answer. *)
Definition up_to_sending (c : app_call) (srv : string) : list ses_event :=
  join_events c ++ [EvNet 0 (NetOpen srv)] ++ (EvNetwork :: steps 1 5) ++ [EvMain] ++ steps 0 2.
Definition overtaking : list ses_event := [EvNetwork; EvRun 1; EvNetwork; EvRun 0].

Lemma at_rest_stays s e :
  at_rest s -> match e with EvNetwork | EvMain | EvRun _ => True | _ => False end ->
  ses_step env e s = Done (tt, s, []).
Proof.
  intros (Hn & Hm & Hidle) He. destruct e as [| | | | | |i]; try done; cbn [ses_step]; unfold mbind, M_bind, get.
  - rewrite Hn. by destruct (ses_threads s !! 1%nat) as [[|]|].
  - rewrite Hm. by destruct (ses_threads s !! 0%nat) as [[|]|].
  - destruct (ses_threads s !! i) as [l|] eqn:Hl; [|done]. by rewrite (proj1 (Forall_lookup _ _) Hidle _ _ Hl).
Qed.

(** C35: an answer that is too quick stalls the handshake.  With a server that answers
    every request of the handshake, as in [session_connects], there is a schedule in which
    the answer to the first request arrives after the request was sent ([up_to_sending])
    and is looked up before its entry into the table.  Afterwards nothing more was sent,
    the server's every answer has been delivered, no thread has anything to do and no
    queue holds a task, so nothing happens any more; the room stays [CONNECTING], its
    request pending for ever, and nobody is told. *)
Theorem overtaken_handshake_stalls server srv :
  (forall n, generateID (e_ids env n) = true) ->
  (forall r gid, e_print env (api_message r gid) <> "") ->
  cooperates env server ->
  exists json s1 s fx,
    let es := up_to_sending call srv ++ EvNet 0 (NetMessage (FText json)) :: overtaking in
    ses_run env (up_to_sending call srv) new_session = Done (tt, s1, fx) /\ (texts fx ≫= server) = [json] /\
    ses_run env es new_session = Done (tt, s, fx) /\
    rc_state (ses_room s) = CONNECTING /\
    (exists q, sc_requestMap (ses_client s) = {[e_ids env 0 := q]} /\
       wr_resolve q = Some (mkCb RGetRouterRtpCapabilities (Some (ByRoom CbCapabilities)))) /\
    at_rest s /\
    (forall e, match e with EvNetwork | EvMain | EvRun _ => True | _ => False end -> ses_step env e s = Done (tt, s, [])).
Proof.
  intros Hids Hprints Hserver.
  destruct join_connects as (room & Hrun & (_ & Hsig & Hapi & Hm & Hp & _) & _ & Hst).
  change (rc_signalingClient room = true) in Hsig. change (rc_mediasoupApi room = true) in Hapi.
  change (rc_mediaController room = true) in Hm. change (rc_participantController room = true) in Hp.
  destruct (Hserver AGetRouterRtpCapabilities 0%nat I) as (json & resp & Hserve & _ & Hresp & Hid & _).
  set (tr := one_connection "Open" url srv). pose proof (one_connection_open env "Open" url srv : open_transport env tr 0) as Hopen.
  destruct (request_made env tr room 0 AGetRouterRtpCapabilities CbCapabilities Hsig (Hprints _ _)) as (q & Hmade & Hq1 & Hq2 & Hq3).
  assert (Hqt : wr_text q <> "") by (rewrite Hq1; apply Hprints).
  exists json, (st tr room ∅ 1 [] [] [[ARecord q]; []]), (st tr room {[request_id q := ticktock q]} 1 [] [] [[]; []]).
  eexists. cbv zeta.
  assert (Hsent : ses_run env (up_to_sending call srv) new_session = Done (tt, st tr room ∅ 1 [] [] [[ARecord q]; []],
    [SWire (WConnect 0 url "protoo"); SRoom (RRoomStateChanged CONNECTING)] ++
    [SRequest AGetRouterRtpCapabilities (e_ids env 0); SWire (WSend 0 (FText (wr_text q)))])).
  { unfold up_to_sending. refine (run_more _ _ _ _ _ _ _ Hrun _).
    refine (one_then _ _ _ _ _ [] _ (connection_opens env room 0 url srv [] [] [[]; []] Hsig) _).
    refine (for_each_app_done _ _ _ _ _ _ [] _ (connection_told room 0 url srv [] Hsig Hm Hp) _).
    refine (one_then _ _ _ (st tr room ∅ 0 [] [] [[AEffect (RApi AGetRouterRtpCapabilities CbCapabilities)]; []]) _ [] _ _ _).
    { apply main_takes. cbn [run_main rc_run_task]. unfold begun. session_fields.
      assert (Htask : getRouterRtpCapabilities room = Done (tt, room, [RApi AGetRouterRtpCapabilities CbCapabilities])).
      { unfold getRouterRtpCapabilities, mbind, M_bind, get. by rewrite Hapi. }
      by rewrite Htask. }
    refine (one_then _ _ _ _ _ [_] _ (main_goes _ _ _ _ _ _ _ [] _ _ _ _ _ _ _ _ _ (Hmade [] [] _)) _).
    refine (one_then _ _ _ _ _ [_] [] (main_goes _ _ _ _ _ _ _ [ARecord q] _ _ _ _ _ _ _ _ _ (request_sent env tr 0 Hopen q room ∅ 1 [] [] _ Hqt)) _).
    reflexivity. }
  split; [exact Hsent|]. split.
  { cbn [app]. cbn. rewrite Hq1. exact (eq_trans (app_nil_r _) Hserve). }
  assert (Hqid : request_id q = e_ids env 0).
  { unfold request_id. rewrite Hq2. apply wrap32_id, generateID_int32, Hids. }
  split; [|split; [exact Hst|split; [|split]]].
  - refine (eq_trans (run_more _ (EvNet 0 (NetMessage (FText json)) :: overtaking) _ _ _ _ [] Hsent _) _); [|by rewrite app_nil_r].
    refine (one_then _ _ _ _ _ [] [] (text_arrives env tr 0 Hopen room ∅ 1 [] [] _ json Hsig) _).
    refine (one_then _ _ _ _ _ [] [] (transport_takes tr room ∅ 1 [] [] _ _ _ _ _ (message_read env tr room ∅ 1 [] [] _ json Hsig Hresp)) _).
    refine (one_then _ _ _ _ _ [] [] (transport_goes tr room ∅ 1 [] [] _ [] _ _ _ _ _ _ _ _ _ (response_posted env tr room ∅ 1 [] [] _ json)) _).
    refine (one_then _ _ _ _ _ [] [] (transport_takes tr room ∅ 1 [] [] _ _ _ _ _ (response_unheard env tr room 1 [] [] _ _ json Hsig Hid)) _).
    refine (one_then _ _ _ _ _ [] [] (main_goes tr room ∅ 1 [] [] _ [] _ _ _ _ _ _ _ _ _ (request_recorded env tr q room ∅ 1 [] [] _)) _).
    reflexivity.
  - exists (ticktock q). by rewrite <- Hqid.
  - by repeat split; repeat constructor.
  - intros e He. apply at_rest_stays; [by repeat split; repeat constructor | done].
Qed.

(** ** Leaving while the connection opens *)

Lemma destroys_nothing m :
  mc_micProducer m = None -> mc_producerMap m = ∅ -> mc_dataConsumerMap m = ∅ -> mc_consumerMap m = ∅ ->
  exists m', mc_destroy m = Done (tt, m', []).
Proof.
  intros H1 H2 H3 H4. eexists. unfold mc_destroy. erewrite bind_done by done. rewrite H1.
  erewrite bind_done by done. erewrite bind_done by done. rewrite H2, visit_empty.
  erewrite bind_done by done. erewrite bind_done by done. rewrite H3, visit_empty.
  erewrite bind_done by done. erewrite bind_done by done. erewrite bind_done by done.
  change (mc_consumerMap _) with (mc_consumerMap m). rewrite H4, visit_empty. reflexivity.
Qed.

Lemma destroys_no_components room :
  rc_mediaController room = true -> rc_participantController room = true -> nothing_yet room ->
  exists room', destroyComponents room = Done (tt, room', []) /\
    rc_state room' = rc_state room /\ rc_signalingClient room' = rc_signalingClient room /\
    rc_mediasoupApi room' = rc_mediasoupApi room.
Proof.
  intros Hm Hp (Hdev & Hsend & Hrecv & H1 & H2 & H3 & H4).
  destruct (destroys_nothing (the_media room) H1 H2 H3 H4) as [m' Hdes].
  set (room0 := rc_set_participantController false (rc_set_controllers (set_map (λ _, ∅) (rc_controllers room)) room)).
  exists (rc_set_mediaController false (rc_set_controllers (set_media m' (rc_controllers room0)) room0)).
  split; [|done]. unfold destroyComponents. erewrite bind_done by done. rewrite Hp.
  rewrite (bind_done _ _ room tt room0 []) by done. rewrite Hdev. erewrite bind_done by done.
  rewrite Hrecv. erewrite bind_done by done. rewrite Hsend. erewrite bind_done by done. rewrite Hm.
  rewrite (bind_done _ _ _ _ _ _ (on_media_done mc_destroy room0 tt m' [] Hdes)). reflexivity.
Qed.

Lemma leaves_nothing room :
  rc_state room = CONNECTING -> rc_signalingClient room = true -> rc_mediaController room = true ->
  rc_participantController room = true -> nothing_yet room ->
  exists room', rc_leave room = Done (tt, room', [RDisconnect; RRoomStateChanged CLOSED]) /\
    rc_state room' = CLOSED /\ rc_signalingClient room' = true /\ rc_mediasoupApi room' = rc_mediasoupApi room.
Proof.
  intros Hst Hsig Hm Hp Hno.
  set (room1 := rc_set_state CLOSED (rc_set_roomId "" room)).
  destruct (destroys_no_components room1 Hm Hp Hno) as (room' & Hdes & Hst' & Hsig' & Hapi').
  exists room'. split; [|by rewrite Hst', Hsig', Hapi']. unfold rc_leave. erewrite bind_done by done. erewrite bind_done by done.
  change (rc_state _) with (rc_state room). rewrite Hst. rewrite decide_False by done.
  change (rc_signalingClient _) with (rc_signalingClient room). rewrite Hsig.
  erewrite bind_done by done. rewrite (bind_done _ _ _ tt room1 []) by done.
  unfold rc_onRoomStateChanged. rewrite decide_False by done. rewrite decide_True by done.
  rewrite (bind_done _ _ _ _ _ _ Hdes). reflexivity.
Qed.

(** Closing the one connection. *)
Lemma disconnect_done room n nw mn ths u srv :
  exists es, on_client env disconnect (st (one_connection "Open" u srv) room ∅ n nw mn ths) =
    Done (tt, st (mkTransport u (-1) None [WeakObject (Some client_addr) (Some network_thread)]) room ∅ n nw mn ths, es).
Proof. eexists. vm_compute. reflexivity. Qed.

Lemma bind_fault {S E A B} (m : M S E A) (f : A -> M S E B) s x : m s = Fault x -> mbind f m s = Fault x.
Proof. intros Hm. unfold mbind, M_bind. by rewrite Hm. Qed.

(** A request without a connection. *)
Lemma unconnected_send q room n mn h t1 u :
  wr_text q <> "" ->
  ses_step env (EvRun 0) (st (mkTransport u (-1) None [WeakObject (Some client_addr) (Some network_thread)]) room ∅ n [] mn [ASend q :: h; t1]) =
    Fault (NullDeref "_websocket").
Proof.
  intros Hne. set (s := st _ _ _ _ _ _ _).
  assert (Ha : perform_action env (ASend q) s = Fault (NullDeref "_websocket")).
  { cbn [perform_action]. unfold at_once. apply bind_fault. unfold on_client, routed, send_request, emit. apply bind_fault.
    cbn [for_each perform_down]. apply bind_fault. unfold on_transport, routed. session_fields. unfold tr_sendText. rewrite decide_False by done. reflexivity. }
  cbn [ses_step]. unfold thread_runs, mbind, M_bind, get. change (ses_threads s !! 0%nat) with (Some (ASend q :: h)).
  cbv iota beta. by rewrite Ha.
Qed.

(** The schedule: the connection opens, and the application leaves before the mediasoup
    thread has run the task with which the room asks for the router's capabilities. *)
Definition leaving (srv : string) : list ses_event :=
  join_events call ++ [EvNet 0 (NetOpen srv); EvCall AppLeave] ++ (EvNetwork :: steps 1 5) ++ [EvMain; EvRun 0; EvRun 0].

(** C36: leaving while the connection opens crashes.  When the connection opens, and
    the application leaves before the mediasoup thread has run the task with which
    the room asks for the router's capabilities, the task finds no endpoint:
    [leave] has destroyed it, the task does not look at the room's state, and
    [send] dereferences a null pointer. *)
Theorem leave_while_opening_crashes srv :
  (forall gid, e_print env (api_message AGetRouterRtpCapabilities gid) <> "") ->
  exists s es,
    ses_run env (leaving srv) new_session = Done (tt, s, es) /\
    rc_state (ses_room s) = CLOSED /\ ses_main s = [RoomTask TaskOpened] /\
    does [EvMain; EvRun 0; EvRun 0] s = Fault (NullDeref "_websocket").
Proof.
  intros Hprints.
  destruct join_connects as (room & Hrun & (_ & Hsig & Hapi & Hm & Hp & Hdev) & Hno & Hst).
  change (rc_signalingClient room = true) in Hsig. change (rc_mediasoupApi room = true) in Hapi.
  change (rc_mediaController room = true) in Hm. change (rc_participantController room = true) in Hp.
  destruct (leaves_nothing room Hst Hsig Hm Hp Hno) as (room' & Hleave & Hst' & Hsig' & Hapi').
  set (main := [RoomTask TaskOpened]). set (left := [AEffect RDisconnect; AEffect (RRoomStateChanged CLOSED)]).
  destruct (disconnect_done room' 0 [] main [left; []] url srv) as [es Hdis].
  set (closed := mkTransport _ _ _ _) in Hdis. set (tr := one_connection "Open" url srv) in *.
  exists (st closed room' ∅ 0 [] main [[]; []]). eexists. split; [|split; [exact Hst'|split; [done|]]].
  { unfold leaving. refine (run_more _ _ _ _ _ _ _ Hrun _).
    refine (one_then _ _ _ _ _ [] _ (connection_opens env room 0 url srv [] [] [[]; []] Hsig) _).
    refine (one_then (EvCall AppLeave) _ (st tr room ∅ 0 [TEvent TOnOpened] [] [[]; []])
      (st tr room ∅ 0 [TEvent TOnOpened] [CallTask AppLeave] [[]; []]) _ [] _ eq_refl _).
    refine (for_each_app_done _ _ _ _ _ _ [] _ (connection_told room 0 url srv [CallTask AppLeave] Hsig Hm Hp) _).
    refine (one_then _ _ _ (st tr room' ∅ 0 [] main [left; []]) _ [] _ _ _).
    { apply main_takes. cbn [run_main app_run]. unfold begun. session_fields. by rewrite Hleave. }
    refine (one_then _ _ _ (st closed room' ∅ 0 [] main [drop 1 left; []]) _ es _ _ _).
    { assert (Hdo : perform_action env (AEffect RDisconnect) (st tr room' ∅ 0 [] main [left; []]) =
        Done ([], st closed room' ∅ 0 [] main [left; []], es)).
      { cbn [perform_action perform_effect]. unfold at_once, mbind, M_bind. rewrite Hdis. cbn. by rewrite app_nil_r. }
      exact (main_goes _ _ _ _ _ _ (AEffect RDisconnect) (drop 1 left) [] [] _ _ _ _ _ _ _ Hdo). }
    reflexivity. }
  destruct (request_made env closed room' 0 AGetRouterRtpCapabilities CbCapabilities Hsig' (Hprints _)) as (q & Hmade & Hq1 & _).
  assert (Hmain : ses_step env EvMain (st closed room' ∅ 0 [] main [[]; []]) =
    Done (tt, st closed room' ∅ 0 [] [] [[AEffect (RApi AGetRouterRtpCapabilities CbCapabilities)]; []], [])).
  { apply main_takes. cbn [run_main rc_run_task]. unfold begun. session_fields.
    assert (Htask : getRouterRtpCapabilities room' = Done (tt, room', [RApi AGetRouterRtpCapabilities CbCapabilities])).
    { unfold getRouterRtpCapabilities, mbind, M_bind, get. by rewrite (eq_trans Hapi' Hapi). }
    by rewrite Htask. }
  cbn [for_each]. rewrite (bind_done _ _ _ _ _ _ Hmain).
  rewrite (bind_done _ _ _ _ _ _ (main_goes _ _ _ _ _ _ _ [] _ _ _ _ _ _ _ _ _ (Hmade [] [] _))).
  rewrite bind_fault with (x := NullDeref "_websocket"); [done|]. apply unconnected_send. by rewrite Hq1.
Qed.
End join.
End races.

(** ** Witnesses *)

Definition demo_call : app_call := AppJoin "me" "h" 443 "r" "Me" (Some OptionsDefault).

Lemma overtaken_handshake_stalls_witness : exists json s1 s fx,
  let es := up_to_sending demo_call "srv" ++ EvNet 0 (NetMessage (FText json)) :: overtaking in
  ses_run demo_surroundings (up_to_sending demo_call "srv") new_session = Done (tt, s1, fx) /\
  (texts fx ≫= demo_server) = [json] /\
  ses_run demo_surroundings es new_session = Done (tt, s, fx) /\
  rc_state (ses_room s) = CONNECTING /\
  (exists q, sc_requestMap (ses_client s) = {[7%Z := q]} /\
     wr_resolve q = Some (mkCb RGetRouterRtpCapabilities (Some (ByRoom CbCapabilities)))) /\
  at_rest s /\
  (forall e, match e with EvNetwork | EvMain | EvRun _ => True | _ => False end ->
     ses_step demo_surroundings e s = Done (tt, s, [])).
Proof.
  apply (overtaken_handshake_stalls demo_surroundings "me" "h" 443 "r" "Me" OptionsDefault) with (server := demo_server).
  - discriminate.
  - discriminate.
  - discriminate.
  - reflexivity.
  - reflexivity.
  - intros r gid. apply demo_prints.
  - exact demo_cooperates.
Defined.

Lemma leave_while_opening_crashes_witness : exists s es,
  ses_run demo_surroundings (leaving "me" "h" 443 "r" "Me" OptionsDefault "srv") new_session = Done (tt, s, es) /\
  rc_state (ses_room s) = CLOSED /\ ses_main s = [RoomTask TaskOpened] /\
  for_each [EvMain; EvRun 0; EvRun 0] (ses_step demo_surroundings) s = Fault (NullDeref "_websocket").
Proof.
  apply (leave_while_opening_crashes demo_surroundings "me" "h" 443 "r" "Me" OptionsDefault).
  - discriminate.
  - discriminate.
  - discriminate.
  - reflexivity.
  - intros gid. apply demo_prints.
Defined.
