(* ===== verification/Engine.v ===== *)
(** * The engine and the life of the process

    Models [core/service/core.cpp], [engine.cpp], [component_factory.cpp],
    [rtc_context.cpp] and [core/utils/thread_provider.cpp] (not the [WIN32] branches),
    and the parts of [room_client.cpp] the engine and the application use through
    [RoomClientProxy].

    A running thread, a peer connection factory, an [RTCContext] and a room client
    are numbered in the order they are made; the last two are heap objects.  The
    singletons are members of the process.  [CreatePeerConnectionFactory] answers
    whether its [n]-th call gives a factory. *)

From stdpp Require Import base gmap strings list.
From Stdlib Require Import ZArith Lia.
From S2P Require Import Prelude Logger Json SignalingModels Observable MediasoupApi ParticipantController MediaController RoomClient Proxy ProxyObject.

#[local] Open Scope string_scope.
#[local] Open Scope list_scope.

(** ** State *)

Record ThreadProvider : Type := mkTP { tp_threadsMap : gmap string nat; tp_inited : bool; tp_destroy : bool }.
Definition new_thread_provider : ThreadProvider := mkTP ∅ false true.

Record RTCContext : Type := mkCtx {
  ctx_factory : option nat;
  ctx_networkThread : option nat;
  ctx_signalingThread : option nat;
  ctx_workerThread : option nat
}.

(** A [RoomClient] with the members [RoomClient.v] leaves out. *)
Record RoomObject : Type := mkRO {
  ro_id : string;
  ro_rtcContext : option nat;
  ro_mediasoupThread : option nat;
  ro_transportThread : option nat;
  ro_observers : list inner_object;
  ro_peerConnectionOptions : option (option nat);   (* the factory of the options, once made *)
  ro_client : RoomClient
}.

Record Process : Type := mkProcess {
  os_logger : Logger;
  os_mediasoupclient : bool;   (* between [Initialize] and [Cleanup] *)
  os_spawned : nat;   (* threads made so far *)
  os_running : list nat;
  os_factories : nat;   (* calls of [CreatePeerConnectionFactory] so far *)
  os_contexts : list RTCContext;
  os_clients : list RoomObject;
  cf_threadProvider : option ThreadProvider;
  en_rtcContext : option nat;
  en_roomClients : gmap string nat
}.

Definition os_set_logger (v : Logger) (s : Process) : Process := mkProcess v (os_mediasoupclient s) (os_spawned s)
  (os_running s) (os_factories s) (os_contexts s) (os_clients s) (cf_threadProvider s) (en_rtcContext s) (en_roomClients s).
Definition os_set_mediasoupclient (v : bool) (s : Process) : Process := mkProcess (os_logger s) v (os_spawned s)
  (os_running s) (os_factories s) (os_contexts s) (os_clients s) (cf_threadProvider s) (en_rtcContext s) (en_roomClients s).
Definition os_set_threads (n : nat) (running : list nat) (s : Process) : Process := mkProcess (os_logger s)
  (os_mediasoupclient s) n running (os_factories s) (os_contexts s) (os_clients s) (cf_threadProvider s)
  (en_rtcContext s) (en_roomClients s).
Definition os_set_factories (n : nat) (s : Process) : Process := mkProcess (os_logger s) (os_mediasoupclient s)
  (os_spawned s) (os_running s) n (os_contexts s) (os_clients s) (cf_threadProvider s) (en_rtcContext s) (en_roomClients s).
Definition os_set_contexts (f : list RTCContext -> list RTCContext) (s : Process) : Process := mkProcess (os_logger s)
  (os_mediasoupclient s) (os_spawned s) (os_running s) (os_factories s) (f (os_contexts s)) (os_clients s)
  (cf_threadProvider s) (en_rtcContext s) (en_roomClients s).
Definition os_set_clients (f : list RoomObject -> list RoomObject) (s : Process) : Process := mkProcess (os_logger s)
  (os_mediasoupclient s) (os_spawned s) (os_running s) (os_factories s) (os_contexts s) (f (os_clients s))
  (cf_threadProvider s) (en_rtcContext s) (en_roomClients s).
Definition cf_set_threadProvider (v : option ThreadProvider) (s : Process) : Process := mkProcess (os_logger s)
  (os_mediasoupclient s) (os_spawned s) (os_running s) (os_factories s) (os_contexts s) (os_clients s) v
  (en_rtcContext s) (en_roomClients s).
Definition en_set_rtcContext (v : option nat) (s : Process) : Process := mkProcess (os_logger s) (os_mediasoupclient s)
  (os_spawned s) (os_running s) (os_factories s) (os_contexts s) (os_clients s) (cf_threadProvider s) v (en_roomClients s).
Definition en_set_roomClients (f : gmap string nat -> gmap string nat) (s : Process) : Process := mkProcess (os_logger s)
  (os_mediasoupclient s) (os_spawned s) (os_running s) (os_factories s) (os_contexts s) (os_clients s)
  (cf_threadProvider s) (en_rtcContext s) (f (en_roomClients s)).

(** Before [Core::init]. *)
Definition new_process : Process := mkProcess new_logger false 0 [] 0 [] [] None None ∅.

Inductive os_effect : Type :=
| EThreadStarted (t : nat)
| EThreadStopped (t : nat)
| ELog (e : lg_effect)
| EClient (c : nat) (e : rc_effect).

Abbreviation os_handler := (M Process os_effect).

(** ** Threads *)

(** [rtc::Thread::Create().release()], [SetName] and [Start]. *)
Definition spawn : os_handler nat :=
  s ← get;
  _ ← modify (os_set_threads (S (os_spawned s)) (os_running s ++ [os_spawned s]));
  _ ← emit (EThreadStarted (os_spawned s));
  mret (os_spawned s).
(** [Thread::Stop]. *)
Definition stop (t : nat) : os_handler unit :=
  _ ← modify (fun s => os_set_threads (os_spawned s) (filter (fun u => u <> t) (os_running s)) s);
  emit (EThreadStopped t).

(** [_threadProvider->]. *)
Definition provider : os_handler ThreadProvider :=
  s ← get; deref "_threadProvider" (cf_threadProvider s).
Definition set_provider (f : ThreadProvider -> ThreadProvider) : os_handler unit :=
  modify (fun s => cf_set_threadProvider (f <$> cf_threadProvider s) s).

Definition tp_init : os_handler unit :=
  set_provider (fun p => mkTP (tp_threadsMap p) true (tp_destroy p)).

Definition tp_create (threadNames : list string) : os_handler unit :=
  p ← provider;
  if negb (tp_inited p) then skip
  else for_each threadNames (fun name =>
    t ← spawn;
    set_provider (fun p => mkTP (<[name := t]> (tp_threadsMap p)) (tp_inited p) (tp_destroy p))).

Definition tp_stopAll `{HashOrder} : os_handler unit :=
  p ← provider;
  _ ← for_each (hash_order (tp_threadsMap p)) (fun thread => stop (snd thread));
  set_provider (fun p => mkTP ∅ (tp_inited p) true).

(** The call of [stopAll] is commented out. *)
Definition tp_destroy_all : os_handler unit :=
  _ ← provider;
  set_provider (fun p => mkTP (tp_threadsMap p) (tp_inited p) true).

Definition tp_thread (name : string) : os_handler (option nat) :=
  p ← provider; mret (tp_threadsMap p !! name).

(** ** The component factory *)

Definition cf_init : os_handler unit :=
  s ← get;
  match cf_threadProvider s with
  | Some _ => skip
  | None =>
      _ ← modify (cf_set_threadProvider (Some new_thread_provider));
      _ ← tp_init;
      tp_create ["transport"; "mediasoup"; "communication"; "main"]
  end.

Definition cf_destroy : os_handler unit :=
  s ← get;
  match cf_threadProvider s with
  | Some _ => _ ← tp_destroy_all; modify (cf_set_threadProvider None)
  | None => skip
  end.

(** The macro [getThread]. *)
Definition getThread (name : string) : os_handler (option nat) := tp_thread name.

(** ** The WebRTC context *)

Section engine.
Context `{HashOrder}.
Variable CreatePeerConnectionFactory : nat -> bool.
Variable opens : string -> bool.   (* the files the process can open *)
Variable log_path : string.

Definition the_context (c : nat) : os_handler RTCContext :=
  s ← get; deref "_rtcContext" (os_contexts s !! c).

(** The call to [Start] of the three threads only logs when it fails. *)
Definition ctx_init (c : nat) : os_handler unit :=
  x ← the_context c;
  match ctx_factory x with
  | Some _ => skip
  | None =>
      network ← spawn;
      signaling ← spawn;
      worker ← spawn;
      s ← get;
      let factory := if CreatePeerConnectionFactory (os_factories s) then Some (os_factories s) else None in
      _ ← modify (os_set_factories (S (os_factories s)));
      modify (os_set_contexts (<[c := mkCtx factory (Some network) (Some signaling) (Some worker)]>))
  end.

Definition ctx_destroy (c : nat) : os_handler unit :=
  x ← the_context c;
  match ctx_factory x with
  | Some _ => modify (os_set_contexts (<[c := mkCtx None (ctx_networkThread x) (ctx_signalingThread x) (ctx_workerThread x)]>))
  | None => skip
  end.

(** ** The room client behind its proxy *)

(** What [configure] reads: the contexts. *)
Definition configure (contexts : list RTCContext) (o : RoomObject) : RoomObject :=
  let factory := match ro_rtcContext o with
                 | Some c => match contexts !! c with Some x => ctx_factory x | None => None end
                 | None => None
                 end in
  mkRO (ro_id o) (ro_rtcContext o) (ro_mediasoupThread o) (ro_transportThread o) (ro_observers o) (Some factory)
    (ro_client o).

Definition ro_set_client (v : RoomClient) (o : RoomObject) : RoomObject :=
  mkRO (ro_id o) (ro_rtcContext o) (ro_mediasoupThread o) (ro_transportThread o) (ro_observers o)
    (ro_peerConnectionOptions o) v.
Definition ro_set_observers (f : list inner_object -> list inner_object) (o : RoomObject) : RoomObject :=
  mkRO (ro_id o) (ro_rtcContext o) (ro_mediasoupThread o) (ro_transportThread o) (f (ro_observers o))
    (ro_peerConnectionOptions o) (ro_client o).

Abbreviation ro_handler := (M RoomObject rc_effect).

Definition on_client {A} (m : rc_handler A) : ro_handler A := zoom ro_client ro_set_client id m.

(** [RoomClient::init]: the media controller's constructor dereferences the context. *)
Definition ro_init (contexts : list RTCContext) : ro_handler unit :=
  _ ← modify (configure contexts);
  o ← get;
  _ ← (if rc_mediaController (ro_client o) then skip
       else _ ← deref "_rtcContext" (ro_rtcContext o); skip);
  on_client rc_init.

(** The methods of [RoomClientProxy], with what else their outcome depends on. *)
Inductive room_method : Type :=
| MInit
| MDestroy
| MGetId
| MGetRoomId
| MAddObserver (observer : observer_ptr) (callbackThread : option nat)
| MRemoveObserver (observer : observer_ptr)
| MJoin (host : string) (port : Z) (roomId displayName : string) (opts : option Options)
| MLeave
| MGetRoomState
| MEnableAudio (enabled : bool)
| MMuteAudio (muted : bool)
| MIsAudioMuted
| MEnableVideo (enabled : bool) (trackName : string) (width height : Z)
| MSpeakingVolume
| MGetParticipantController
| MGetMediaController.

Inductive room_result : Type :=
| RVoid
| RString (s : string)
| RState (s : RoomState)
| RBool (b : bool)
| RInt (z : Z)
| RPointer (set : bool).   (* whether the pointer is not null *)

(** What a call finds: the contexts, the observers alive, the random id a join
    draws, the answers of libmediasoupclient. *)
Record call_env : Type := mkEnv {
  ce_contexts : list RTCContext;
  ce_alive : address -> bool;
  ce_peerId : string;
  ce_CanProduce : nat -> string -> bool;
  ce_Produce : string -> option (list RtpEncodingParameters) -> Value -> Value -> result string Producer
}.

Definition returning {A} (inj : A -> room_result) (m : ro_handler A) : ro_handler room_result :=
  a ← m; mret (inj a).
Definition void : unit -> room_result := fun _ => RVoid.

Definition ro_method (env : call_env) (m : room_method) : ro_handler room_result :=
  match m with
  | MInit => returning void (ro_init (ce_contexts env))
  | MDestroy => returning void (on_client rc_destroy)
  | MGetId => returning RString (gets ro_id)
  | MGetRoomId => returning RString (gets (fun o => rc_roomId (ro_client o)))
  | MAddObserver observer callbackThread =>
      returning void (modify (ro_set_observers (fun l => addWeakObserver (ce_alive env) l observer callbackThread)))
  | MRemoveObserver observer =>
      returning void (modify (ro_set_observers (fun l => removeObserver (ce_alive env) l observer)))
  | MJoin host port roomId displayName opts =>
      returning void (on_client (rc_join (ce_peerId env) host port roomId displayName opts))
  | MLeave => returning void (on_client rc_leave)
  | MGetRoomState => returning RState (gets (fun o => rc_state (ro_client o)))
  | MEnableAudio enabled => returning void (on_client (rc_enableAudio (ce_CanProduce env) (ce_Produce env) enabled))
  | MMuteAudio muted => returning void (on_client (rc_muteAudio muted))
  | MIsAudioMuted => returning RBool (on_client rc_isAudioMuted)
  | MEnableVideo enabled trackName width height =>
      returning void (on_client (rc_enableVideo (ce_CanProduce env) (ce_Produce env) enabled trackName width height))
  | MSpeakingVolume => returning RInt (gets (fun o => rc_volume (ro_client o)))
  | MGetParticipantController => returning RPointer (gets (fun o => rc_participantController (ro_client o)))
  | MGetMediaController => returning RPointer (gets (fun o => rc_mediaController (ro_client o)))
  end.

(** What a call of [RoomClientProxy] does on the client's thread. *)
Definition room_call (em : call_env * room_method) : ro_handler room_result := ro_method (fst em) (snd em).
Definition room_data : Type := @object_data RoomObject rc_effect.
Definition room_body (em : call_env * room_method) :
    @prog (outcome room_result) room_data (call_env * room_method) := object_body room_call em.

(** The callbacks of the transports run on threads of their own ([std::async]);
    [alive] tells whether the client could be locked. *)
Section async.
Variable parse : string -> option Value.
Definition OnConnect (alive : bool) (transportId dtlsDump : string) : rc_handler (option unit) :=
  if alive then rc_onConnect parse transportId dtlsDump else mret (Some tt).
Definition OnConnectionStateChange (connectionState : string) : rc_handler unit := skip.
Definition OnProduce (alive : bool) (transportId kind rtpDump : string) (appData : Value) : rc_handler (option string) :=
  if alive then rc_onProduce parse transportId kind rtpDump appData else mret (Some "").
Definition OnProduceData (alive : bool) (transportId sctpDump label protocol : string) : rc_handler (option string) :=
  if alive then rc_onProduceData parse transportId sctpDump label protocol else mret (Some "").
End async.

(** ** The engine *)

Definition en_init : os_handler unit :=
  s ← get;
  match en_rtcContext s with
  | Some _ => skip
  | None =>
      let c := length (os_contexts s) in
      _ ← modify (os_set_contexts (fun l => l ++ [mkCtx None None None None]));
      _ ← modify (en_set_rtcContext (Some c));
      ctx_init c
  end.

(** A call of the client's proxy, on the thread the proxy was made with. *)
Definition through_proxy {A} (c : nat) (m : ro_handler A) : os_handler A := fun s =>
  match os_clients s !! c with
  | None => Fault (NullDeref "proxy")
  | Some o =>
      match ro_mediasoupThread o with
      | None => Fault (NullDeref "_thread")
      | Some _ =>
          match m o with
          | Fault f => Fault f
          | Done (a, o', es) => Done (a, os_set_clients (<[c := o']>) s, EClient c <$> es)
          end
      end
  end.

Definition en_destroy : os_handler unit :=
  s ← get;
  _ ← for_each (hash_order (en_roomClients s)) (fun c => through_proxy (snd c) (on_client rc_destroy));
  s ← get;
  match en_rtcContext s with
  | Some c => ctx_destroy c
  | None => skip
  end.

(** [id] is the random id the new client gives itself; the proxy's address is the client's. *)
Definition createRoomClient (id : string) : os_handler nat :=
  mediasoupThread ← getThread "mediasoup";
  transportThread ← getThread "transport";
  s ← get;
  let c := length (os_clients s) in
  _ ← modify (os_set_clients (fun l =>
        l ++ [mkRO id (en_rtcContext s) mediasoupThread transportThread [] None new_room_client]));
  _ ← through_proxy c (ro_init (os_contexts s));
  key ← through_proxy c (gets ro_id);
  _ ← modify (en_set_roomClients (<[key := c]>));
  mret c.

Definition getRTCContext (s : Process) : option nat := en_rtcContext s.
Definition getRoomClients (s : Process) : gmap string nat := en_roomClients s.
(** The macro [getRoomClient]. *)
Definition getRoomClient (id : string) (s : Process) : option nat := getRoomClients s !! id.

(** ** The process *)

Definition on_logger {A} (m : M Logger lg_effect A) : os_handler A := zoom os_logger os_set_logger ELog m.

Definition core_init : os_handler unit :=
  _ ← on_logger (lg_init opens log_path);
  _ ← modify (os_set_mediasoupclient true);
  _ ← cf_init;
  en_init.

Definition core_destroy : os_handler unit :=
  _ ← modify (os_set_mediasoupclient false);
  _ ← en_destroy;
  _ ← cf_destroy;
  on_logger lg_destroy.

Inductive os_op : Type :=
| OpInit
| OpDestroy
| OpCreate (id : string)
| OpCall (c : nat) (env : call_env) (m : room_method).

Definition os_run (op : os_op) : os_handler unit :=
  match op with
  | OpInit => core_init
  | OpDestroy => core_destroy
  | OpCreate id => _ ← createRoomClient id; skip
  | OpCall c env m =>
      s ← get;
      _ ← through_proxy c (ro_method (mkEnv (os_contexts s) (ce_alive env) (ce_peerId env)
            (ce_CanProduce env) (ce_Produce env)) m); skip
  end.
Definition os_runs (ops : list os_op) : os_handler unit := for_each ops os_run.
End engine.
