(* ===== verification/EngineFacts.v ===== *)
(** * Theorems on the engine *)

From stdpp Require Import base gmap strings list fin_maps.
From Stdlib Require Import ZArith Lia.
From S2P Require Import Prelude Logger Json SignalingModels Observable MediasoupApi ParticipantController MediaController MediaControllerFacts RoomClient Proxy ProxyObject Engine.

#[local] Open Scope string_scope.
#[local] Open Scope list_scope.
#[local] Open Scope nat_scope.

Section engine_facts.
Context `{HashOrder}.
Variable CreatePeerConnectionFactory : nat -> bool.
Variable opens : string -> bool.
Variable log_path : string.
Hypothesis opens_app : opens (log_path +:+ "/app.log") = true.
Hypothesis opens_rtc : opens (log_path +:+ "/rtc.log") = true.
Abbreviation core_init := (core_init CreatePeerConnectionFactory opens log_path).
Abbreviation os_run := (os_run CreatePeerConnectionFactory opens log_path).
Abbreviation os_runs := (os_runs CreatePeerConnectionFactory opens log_path).

(** ** Threads *)

(** Every thread started is running. *)
Definition all_running (s : Process) : Prop := os_running s = seq 0 (os_spawned s).

Lemma spawn_running : preserves all_running spawn.
Proof.
  intros s Hs. unfold spawn. wlp_run. unfold all_running in *. simpl. by rewrite Hs, <- seq_S.
Qed.

Lemma modify_running f :
  (forall s, os_running (f s) = os_running s /\ os_spawned (f s) = os_spawned s) -> preserves all_running (modify (E := os_effect) f).
Proof. intros Hf s Hs. apply wlp_modify. unfold all_running. destruct (Hf s) as [-> ->]. exact Hs. Qed.

Lemma the_context_running c : preserves all_running (the_context c).
Proof. intros s Hs. unfold the_context. wlp_run. exact Hs. Qed.

Lemma through_proxy_running {A} c (m : M RoomObject rc_effect A) : preserves all_running (through_proxy c m).
Proof.
  intros s Hs. unfold wlp, through_proxy. destruct (os_clients s !! c) as [o|]; [|done].
  destruct (ro_mediasoupThread o); [|done]. by destruct (m o) as [[[? ?] ?]|].
Qed.

Lemma provider_running : preserves all_running provider.
Proof. intros s Hs. unfold provider. wlp_run. exact Hs. Qed.

Lemma on_logger_running {A} (m : M Logger lg_effect A) : preserves all_running (on_logger m).
Proof. intros s Hs. unfold wlp, on_logger, zoom. by destruct (m (os_logger s)) as [[[? ?] ?]|]. Qed.

Lemma get_running : preserves all_running (get (E := os_effect)).
Proof. intros s Hs. exact Hs. Qed.

Lemma ret_running {A} (a : A) : preserves all_running (mret (M := M Process os_effect) a).
Proof. intros s Hs. exact Hs. Qed.

Ltac running :=
  repeat first
    [ apply spawn_running | apply the_context_running
    | apply through_proxy_running | apply on_logger_running | apply provider_running | apply get_running | apply ret_running
    | apply preserves_for_each; intros
    | apply preserves_bind; [|intros]
    | apply modify_running; by intros []
    | match goal with
      | |- preserves _ (match ?x with _ => _ end) => destruct x
      | |- preserves _ (if ?x then _ else _) => destruct x
      end ].

Lemma os_run_running op : preserves all_running (os_run op).
Proof.
  destruct op; simpl; unfold Engine.core_init, core_destroy, cf_init, cf_destroy, en_init, en_destroy, ctx_init, ctx_destroy,
    createRoomClient, getThread, tp_thread, tp_init, tp_create, tp_destroy_all, set_provider, skip; running.
Qed.

Lemma os_runs_running ops : preserves all_running (os_runs ops).
Proof. apply preserves_for_each. intros op _. apply os_run_running. Qed.

(** The loggers are there and write. *)
Definition logging (s : Process) : Prop := writing log_path (os_logger s).
(** Their names are not taken. *)
Definition unnamed (s : Process) : Prop :=
  ("app" ∉ lg_loggers (os_logger s)) /\ ("rtc" ∉ lg_loggers (os_logger s)).

Lemma dropped_unnamed s : lg_loggers (os_logger s) = [] -> unnamed s.
Proof. intros Hl. unfold unnamed. rewrite Hl. split; apply not_elem_of_nil. Qed.

Lemma on_logger_init s :
  unnamed s -> exists l, on_logger (lg_init opens log_path) s = Done (tt, os_set_logger l s, []) /\ logging (os_set_logger l s).
Proof.
  intros [Ha Hr]. destruct (lg_init_run opens log_path (os_logger s) opens_app opens_rtc Ha Hr) as (l & Hrun & Hw & _).
  exists l. unfold on_logger, zoom. by rewrite Hrun.
Qed.

(** A process between two of its lives. *)
Definition between (k : nat) (s : Process) : Prop :=
  cf_threadProvider s = None /\ en_roomClients s = ∅ /\ lg_loggers (os_logger s) = [] /\ os_spawned s = 4 * k + 3 /\
  exists n g w, en_rtcContext s = Some 0 /\ os_contexts s = [mkCtx None n g w].

Definition life : os_handler unit := os_runs [OpInit; OpDestroy].

Lemma cf_init_new s :
  cf_threadProvider s = None ->
  exists s' es, cf_init s = Done (tt, s', es) /\
    (exists p m, cf_threadProvider s' = Some p /\ tp_threadsMap p !! "mediasoup" = Some m) /\
    en_roomClients s' = en_roomClients s /\ os_spawned s' = os_spawned s + 4 /\ os_contexts s' = os_contexts s /\
    en_rtcContext s' = en_rtcContext s /\ os_clients s' = os_clients s /\ os_factories s' = os_factories s /\
    os_logger s' = os_logger s.
Proof.
  destruct s. simpl. intros ->. do 2 eexists. split; [reflexivity|]. simpl. split; [by do 2 eexists|]. repeat split. lia.
Qed.
Lemma core_destroy_idle s c x p :
  en_roomClients s = ∅ -> en_rtcContext s = Some c -> os_contexts s !! c = Some x -> cf_threadProvider s = Some p -> logging s ->
  exists s', core_destroy s = Done (tt, s', []) /\ cf_threadProvider s' = None /\ en_roomClients s' = ∅ /\
    lg_loggers (os_logger s') = [] /\
    en_rtcContext s' = Some c /\ os_spawned s' = os_spawned s /\ os_clients s' = os_clients s /\
    os_contexts s' = <[c := mkCtx None (ctx_networkThread x) (ctx_signalingThread x) (ctx_workerThread x)]> (os_contexts s).
Proof.
  intros Hc Hx Hl Hp Hlog%lg_destroy_run. destruct s as [lg ms sp ru fa cx cl tp rt rc].
  simpl in *. subst rc rt tp.
  assert (Hen : forall st, en_roomClients st = ∅ -> en_rtcContext st = Some c -> en_destroy st = ctx_destroy c st).
  { intros st He Hr. unfold en_destroy. run_M. rewrite He, hash_order_empty. simpl. rewrite Hr. by destruct (ctx_destroy c st) as [[[[] ?] ?]|]. }
  unfold core_destroy. erewrite bind_done by reflexivity. unfold mbind, M_bind at 1. rewrite Hen by done.
  unfold ctx_destroy, the_context. run_M. rewrite Hl. unfold on_logger, zoom. destruct x as [[f|] n g w]; simpl; rewrite Hlog;
    (eexists; split; [reflexivity|]); simpl; repeat split; by rewrite ?list_insert_id.
Qed.

(** [core_init] where there is no thread provider: the engine keeps its context if it has one. *)
Lemma core_init_unprovided s :
  cf_threadProvider s = None -> unnamed s ->
  exists s2 e2, logging s2 /\ (exists p m, cf_threadProvider s2 = Some p /\ tp_threadsMap p !! "mediasoup" = Some m) /\
    en_roomClients s2 = en_roomClients s /\ os_spawned s2 = os_spawned s + 4 /\ os_contexts s2 = os_contexts s /\
    en_rtcContext s2 = en_rtcContext s /\ os_clients s2 = os_clients s /\ os_factories s2 = os_factories s /\
    core_init s =
      match en_init CreatePeerConnectionFactory s2 with
      | Done (u, s3, e3) => Done (u, s3, e2 ++ e3)
      | Fault f => Fault f
      end.
Proof.
  intros Hp Hun. destruct (on_logger_init s Hun) as (l & Hinit & Hlog).
  set (s1 := os_set_mediasoupclient true (os_set_logger l s)).
  destruct (cf_init_new s1 Hp) as (s2 & es & Hcf & Hp2 & Hc2 & Hn2 & Hx2 & Hr2 & Hcl2 & Hf2 & Hl2).
  exists s2, es. split; [unfold logging; by rewrite Hl2|]. repeat (split; [assumption|]). unfold Engine.core_init.
  rewrite (bind_done _ _ _ _ _ _ Hinit).
  rewrite (bind_done _ _ _ tt s1 [] eq_refl), (bind_done _ _ _ _ _ _ Hcf).
  by destruct (en_init _ s2) as [[[? ?] ?]|].
Qed.

Lemma life_runs s s1 e1 s2 e2 :
  core_init s = Done (tt, s1, e1) -> core_destroy s1 = Done (tt, s2, e2) ->
  life s = Done (tt, s2, e1 ++ e2).
Proof.
  intros H1 H2. unfold life, os_runs. simpl. rewrite (bind_done _ _ _ _ _ _ H1), (bind_done _ _ _ _ _ _ H2).
  simpl. by rewrite app_nil_r.
Qed.

Lemma en_init_kept s c : en_rtcContext s = Some c -> en_init CreatePeerConnectionFactory s = Done (tt, s, []).
Proof. intros Hr. unfold en_init. run_M. by rewrite Hr. Qed.

Lemma life_between k s :
  between k s -> exists s' es, life s = Done (tt, s', es) /\ between (S k) s'.
Proof.
  intros (Hp & Hc & Hlg & Hn & n & g & w & Hr & Hx).
  destruct (core_init_unprovided s Hp (dropped_unnamed s Hlg)) as (s2 & e2 & Hlog & (p & m & Hp2 & _) & Hc2 & Hn2 & Hx2 & Hr2 & _ & _ & Hinit).
  rewrite (en_init_kept s2 0) in Hinit by congruence.
  destruct (core_destroy_idle s2 0 (mkCtx None n g w) p) as (s3 & Hd & Hp3 & Hc3 & Hlg3 & Hr3 & Hn3 & _ & Hx3);
    [congruence | congruence | by rewrite Hx2, Hx | done | done|].
  do 2 eexists. split; [exact (life_runs _ _ _ _ _ Hinit Hd)|].
  split; [done|]. split; [done|]. split; [done|]. split; [lia|]. exists n, g, w. split; [done|]. by rewrite Hx3, Hx2, Hx.
Qed.

Lemma life_first : exists s' es, life new_process = Done (tt, s', es) /\ between 1 s'.
Proof.
  assert (Hun : unnamed new_process) by (split; by intros ?%list_elem_of_singleton).
  destruct (core_init_unprovided new_process eq_refl Hun) as (s2 & e2 & Hlog & (p & m & Hp2 & _) & Hc2 & Hn2 & Hx2 & Hr2 & _ & _ & Hinit).
  destruct s2 as [lg ms sp ru fa cx cl tp rt rc]. simpl in *. subst.
  unfold en_init in Hinit. cbv beta iota zeta delta [mbind M_bind get modify emit deref mret M_ret ctx_init the_context spawn] in Hinit.
  simpl in Hinit.
  match type of Hinit with _ = Done (_, ?s3, _) =>
    destruct (core_destroy_idle s3 0 _ p eq_refl eq_refl eq_refl eq_refl Hlog) as (s4 & Hd & Hp3 & Hc3 & Hlg3 & Hr3 & Hn3 & _ & Hx3) end.
  do 2 eexists. split; [exact (life_runs _ _ _ _ _ Hinit Hd)|]. split; [done|]. split; [done|]. split; [done|]. split; [done|].
  do 3 eexists. split; [done|]. exact Hx3.
Qed.

(** No thread is ever stopped: in every history of the process each thread that
    was started still runs, and [n] rounds of [Core::init] and [Core::destroy] leave
    [4 n + 3] of them running. *)
Theorem threads_leak ops n :
  wlp (os_runs ops) (fun _ s _ => os_running s = seq 0 (os_spawned s)) new_process /\
  (1 <= n -> exists s es,
    os_runs (mjoin (replicate n [OpInit; OpDestroy])) new_process = Done (tt, s, es) /\
    length (os_running s) = 4 * n + 3).
Proof.
  split; [by apply os_runs_running|]. intros Hn.
  assert (Happ : forall l1 l2 s, os_runs (l1 ++ l2) s =
    (_ ← os_runs l1; os_runs l2) s).
  { induction l1 as [|op l1 IH]; intros l2 s; simpl.
    - unfold os_runs. simpl. run_M. by destruct (for_each l2 _ s) as [[[? ?] ?]|].
    - unfold os_runs in *. simpl. unfold mbind, M_bind in *. destruct (os_run op s) as [[[? s1] e1]|]; [|done].
      rewrite IH. destruct (for_each l1 _ s1) as [[[? s2] e2]|]; [|done].
      destruct (for_each l2 _ s2) as [[[? ?] ?]|]; [by rewrite app_assoc | done]. }
  enough (Hs : exists s es, os_runs (mjoin (replicate n [OpInit; OpDestroy])) new_process
    = Done (tt, s, es) /\ between n s).
  { destruct Hs as (s & es & Hrun & Hb). exists s, es. split; [done|].
    pose proof (os_runs_running (mjoin (replicate n [OpInit; OpDestroy])) new_process eq_refl) as Hw.
    unfold wlp in Hw. rewrite Hrun in Hw. rewrite Hw, length_seq. by destruct Hb as (_ & _ & _ & -> & _). }
  assert (Hmany : forall k j s, between j s -> exists s' es,
    os_runs (mjoin (replicate k [OpInit; OpDestroy])) s = Done (tt, s', es) /\ between (k + j) s').
  { induction k as [|k IH]; intros j s Hb; [by exists s, []|].
    destruct (life_between j s Hb) as (s1 & e1 & H1 & Hb1). destruct (IH (S j) s1 Hb1) as (s2 & e2 & H2 & Hb2).
    exists s2, (e1 ++ e2). change (mjoin (replicate (S k) ?l)) with (l ++ mjoin (replicate k l)).
    rewrite Happ, (bind_done _ _ _ _ _ _ H1), H2. split; [done|]. by replace (S k + j) with (k + S j) by lia. }
  destruct n as [|n]; [lia|]. destruct life_first as (s1 & e1 & H1 & Hb1).
  destruct (Hmany n 1 s1 Hb1) as (s2 & e2 & H2 & Hb2). exists s2, (e1 ++ e2).
  change (mjoin (replicate (S n) ?l)) with (l ++ mjoin (replicate n l)).
  rewrite Happ, (bind_done _ _ _ _ _ _ H1), H2. split; [done|]. by replace (S n) with (n + 1) by lia.
Qed.

(** ** Creating a client *)

Lemma new_client_init :
  exists r es, rc_init new_room_client = Done (tt, r, es) /\ rc_state r = CLOSED /\ rc_signalingClient r = true /\
    rc_mediasoupApi r = true /\ rc_mediaController r = true /\ rc_participantController r = true.
Proof. do 2 eexists. split; [reflexivity|]. by repeat split. Qed.

(** A call to the client made last. *)
Lemma through_last {A} (m : M RoomObject rc_effect A) s l o o' t a es :
  os_clients s = l ++ [o] -> ro_mediasoupThread o = Some t -> m o = Done (a, o', es) ->
  through_proxy (length l) m s = Done (a, os_set_clients (fun _ => l ++ [o']) s, EClient (length l) <$> es).
Proof.
  intros Hl Ht Hm. unfold through_proxy. rewrite Hl, lookup_app_r, Nat.sub_diag by done. simpl. rewrite Ht, Hm.
  do 3 f_equal. unfold os_set_clients. rewrite Hl. by rewrite insert_app_r_alt, Nat.sub_diag by done.
Qed.

Lemma ro_init_new contexts o c x r es :
  ro_rtcContext o = Some c -> contexts !! c = Some x -> ro_client o = new_room_client ->
  rc_init new_room_client = Done (tt, r, es) ->
  ro_init contexts o = Done (tt, ro_set_client r (configure contexts o), es).
Proof.
  intros Hc Hx Hn Hr. unfold ro_init. set (o1 := configure contexts o).
  assert (Hn1 : ro_client o1 = new_room_client) by exact Hn. assert (Hc1 : ro_rtcContext o1 = Some c) by exact Hc.
  rewrite (bind_done _ _ _ tt o1 [] eq_refl), (bind_done _ _ _ o1 o1 [] eq_refl). clearbody o1.
  assert (Hs : (if rc_mediaController (ro_client o1) then skip
    else _ ← deref "_rtcContext" (ro_rtcContext o1); skip) o1 = Done (tt, o1, [] : list rc_effect)).
  { rewrite Hn1, Hc1. reflexivity. }
  rewrite (bind_done _ _ _ _ _ _ Hs). unfold on_client, zoom. rewrite Hn1, Hr. by rewrite list_fmap_id.
Qed.

(** What a client is like that [createRoomClient] has made. *)
Definition created (id : string) (m : nat) (factory : option nat) (o : RoomObject) : Prop :=
  ro_id o = id /\ ro_mediasoupThread o = Some m /\ ro_peerConnectionOptions o = Some factory /\
  rc_state (ro_client o) = CLOSED /\ rc_signalingClient (ro_client o) = true /\
  rc_mediasoupApi (ro_client o) = true /\ rc_mediaController (ro_client o) = true /\
  rc_participantController (ro_client o) = true.

Lemma createRoomClient_ok id s p m c x :
  cf_threadProvider s = Some p -> tp_threadsMap p !! "mediasoup" = Some m ->
  en_rtcContext s = Some c -> os_contexts s !! c = Some x ->
  exists s' es o, createRoomClient id s = Done (length (os_clients s), s', es) /\
    os_clients s' = os_clients s ++ [o] /\ en_roomClients s' = <[id := length (os_clients s)]> (en_roomClients s) /\
    created id m (ctx_factory x) o.
Proof.
  intros Hp Hm Hc Hx.
  destruct new_client_init as (r & es & Hr & Hfields).
  set (o := mkRO id (Some c) (Some m) (tp_threadsMap p !! "transport") [] (Some (ctx_factory x)) r).
  set (s1 := os_set_clients (fun l => l ++ [o]) s).
  exists (en_set_roomClients (<[id := length (os_clients s)]>) s1).
  set (o0 := mkRO id (Some c) (Some m) (tp_threadsMap p !! "transport") [] None new_room_client).
  assert (Ho : ro_init (os_contexts s) o0 = Done (tt, o, es)).
  { rewrite (ro_init_new _ o0 c x r es eq_refl Hx eq_refl Hr). subst o. unfold configure. simpl. by rewrite Hx. }
  set (s0 := os_set_clients (fun l => l ++ [o0]) s).
  pose proof (through_last _ s0 (os_clients s) o0 o m _ _ eq_refl eq_refl Ho) as H1.
  pose proof (through_last (gets ro_id) s1 (os_clients s) o o m id [] eq_refl eq_refl eq_refl) as H2.
  eexists. exists o. split.
  - unfold createRoomClient, getThread, tp_thread, provider.
    assert (Hpd : (s ← get (E := os_effect); deref "_threadProvider" (cf_threadProvider s)) s = Done (p, s, [])).
    { run_M. by rewrite Hp. }
    assert (Hth : forall name, (p ← (s ← get (E := os_effect); deref "_threadProvider" (cf_threadProvider s));
      mret (tp_threadsMap p !! name)) s = Done (tp_threadsMap p !! name, s, [])).
    { intros name. by rewrite (bind_done _ _ _ _ _ _ Hpd). }
    rewrite (bind_done _ _ _ _ _ _ (Hth "mediasoup")), (bind_done _ _ _ _ _ _ (Hth "transport")).
    rewrite (bind_done _ _ _ s s [] eq_refl), (bind_done _ _ _ tt _ [] eq_refl), Hm, Hc.
    rewrite (bind_done _ _ _ _ _ _ H1).
    change (os_set_clients (fun _ => os_clients s ++ [o]) s0) with s1. rewrite (bind_done _ _ _ _ _ _ H2). reflexivity.
  - split; [done|]. split; [done|]. by destruct Hfields as (? & ? & ? & ? & ?).
Qed.
(** [createRoomClient] makes a client that is ready to join and can be found: it
    needs the thread provider, the [mediasoup] thread and the WebRTC context; the
    client is then initialized with all its components, its connections use the
    context's factory, [getRoomClient] gives it under its id, and the clients there
    were stay as they are.  Without a thread provider the call dereferences null. *)
Theorem createRoomClient_registers id s :
  (forall p m c x, cf_threadProvider s = Some p -> tp_threadsMap p !! "mediasoup" = Some m ->
     en_rtcContext s = Some c -> os_contexts s !! c = Some x ->
     exists s' es o, createRoomClient id s = Done (length (os_clients s), s', es) /\
       os_clients s' = os_clients s ++ [o] /\ getRoomClient id s' = Some (length (os_clients s)) /\
       (forall id', id' <> id -> getRoomClient id' s' = getRoomClient id' s) /\
       created id m (ctx_factory x) o) /\
  (cf_threadProvider s = None -> createRoomClient id s = Fault (NullDeref "_threadProvider")).
Proof.
  split; [|by intros Hp; unfold createRoomClient, getThread, tp_thread, provider; run_M; rewrite Hp].
  intros p m c x Hp Hm Hc Hx.
  destruct (createRoomClient_ok id s p m c x Hp Hm Hc Hx) as (s' & es & o & Hrun & Hcl & Hrooms & Ho).
  exists s', es, o. unfold getRoomClient, getRoomClients. rewrite Hrooms.
  split; [done|]. split; [done|]. split; [apply lookup_insert_eq|]. split; [|done].
  intros id' Hid. apply lookup_insert_ne. congruence.
Qed.

(** ** Starting again *)

(** What [Core::destroy] leaves behind. *)
Definition shut_down (c : nat) (s : Process) : Prop :=
  cf_threadProvider s = None /\ en_rtcContext s = Some c /\ lg_loggers (os_logger s) = [] /\
  exists x, os_contexts s !! c = Some x /\ ctx_factory x = None.

Lemma through_proxy_engine {A} c c' x (m : M RoomObject rc_effect A) :
  preserves (fun s => en_rtcContext s = Some c' /\ os_contexts s !! c' = Some x) (through_proxy c m).
Proof.
  intros s Hs. unfold wlp, through_proxy. destruct (os_clients s !! c) as [o|]; [|done].
  destruct (ro_mediasoupThread o); [|done]. by destruct (m o) as [[[? ?] ?]|].
Qed.

Lemma cf_destroy_leaves s :
  wlp cf_destroy (fun _ s' _ => cf_threadProvider s' = None /\ en_rtcContext s' = en_rtcContext s /\
    os_contexts s' = os_contexts s) s.
Proof. destruct s as [? ? ? ? ? ? ? [p|] ? ?]; by repeat split. Qed.

Lemma ctx_destroy_leaves s c x :
  os_contexts s !! c = Some x ->
  wlp (ctx_destroy c) (fun _ s' _ => en_rtcContext s' = en_rtcContext s /\
    exists x, os_contexts s' !! c = Some x /\ ctx_factory x = None) s.
Proof.
  intros Hx. unfold ctx_destroy, the_context, wlp. run_M. rewrite Hx. destruct (ctx_factory x) as [f|] eqn:Hf; simpl.
  - split; [done|]. eexists. split; [by apply list_lookup_insert_eq; eapply lookup_lt_Some | done].
  - split; [done|]. by exists x.
Qed.

Lemma core_destroy_leaves s c x :
  en_rtcContext s = Some c -> os_contexts s !! c = Some x -> wlp core_destroy (fun _ s' _ => shut_down c s') s.
Proof.
  intros Hc Hx. unfold core_destroy. do 2 wlp_step. apply wlp_bind. unfold en_destroy. do 2 wlp_step. apply wlp_bind.
  eapply wlp_mono; [|apply (preserves_for_each (fun s => en_rtcContext s = Some c /\ os_contexts s !! c = Some x));
    [intros; apply through_proxy_engine | done]].
  intros _ s1 _ [Hc1 Hx1]. cbv beta. do 2 wlp_step. rewrite Hc1.
  eapply wlp_mono; [|by apply (ctx_destroy_leaves s1 c x)]. intros _ s2 _ (Hc2 & x2 & Hx2 & Hf2). cbv beta.
  apply wlp_bind. eapply wlp_mono; [|apply cf_destroy_leaves]. intros _ s3 _ (Hp3 & Hc3 & Hx3). cbv beta.
  unfold wlp, on_logger, zoom. pose proof (lg_destroy_drops (os_logger s3)) as Hl. unfold wlp in Hl.
  destruct (lg_destroy (os_logger s3)) as [[[[] l] es]|]; [|done].
  split; [done|]. split; [simpl; congruence|]. split; [done|]. exists x2. split; [simpl; congruence | done].
Qed.

(** C32: the process cannot start again: after [Core::destroy] and a second
    [Core::init] the engine keeps its old WebRTC context, whose factory is gone, and
    every client made from then on has no peer connection factory. *)
Theorem restart_loses_factory id s c x :
  en_rtcContext s = Some c -> os_contexts s !! c = Some x ->
  (exists s1 e1, core_destroy s = Done (tt, s1, e1)) ->
  exists s' es a o m,
    (_ ← core_destroy; _ ← core_init; createRoomClient id) s = Done (a, s', es) /\
    os_clients s' !! a = Some o /\ created id m None o.
Proof.
  intros Hc Hx (s1 & e1 & Hd). pose proof (core_destroy_leaves s c x Hc Hx) as Hw. unfold wlp in Hw. rewrite Hd in Hw.
  destruct Hw as (Hp1 & Hc1 & Hl1 & x1 & Hx1 & Hf1).
  destruct (core_init_unprovided s1 Hp1 (dropped_unnamed s1 Hl1)) as (s2 & e2 & _ & (p & m & Hp2 & Hm2) & _ & _ & Hx2 & Hr2 & _ & _ & Hinit).
  rewrite (en_init_kept s2 c) in Hinit by congruence.
  destruct (createRoomClient_ok id s2 p m c x1 Hp2 Hm2) as (s3 & e3 & o & Hrun & Hcl & _ & Ho); [congruence | congruence|].
  do 3 eexists. exists o, m. rewrite (bind_done _ _ _ _ _ _ Hd), (bind_done _ _ _ _ _ _ Hinit), Hrun.
  split; [reflexivity|]. split; [by rewrite Hcl, lookup_app_r, Nat.sub_diag by done|]. by rewrite <- Hf1.
Qed.

(** Only the logger's own functions touch it. *)
Definition same_logger (s s' : Process) : Prop := os_logger s' = os_logger s.
#[local] Instance same_logger_preorder : PreOrder same_logger.
Proof. unfold same_logger. split; [by intros s | intros s1 s2 s3; congruence]. Qed.
#[local] Hint Extern 1 (same_logger _ _) => reflexivity : rtc.

Lemma keeps_logger_rest :
  framed same_logger (fun _ : os_effect => True) (_ ← modify (os_set_mediasoupclient true); _ ← cf_init; en_init CreatePeerConnectionFactory).
Proof.
  unfold cf_init, tp_init, tp_create, set_provider, provider, en_init, ctx_init, the_context, spawn. frame_run.
Qed.

(** [Core::init] twice without [Core::destroy] throws, since the loggers' names are taken,
    and [Core::destroy] before [Core::init] dereferences a null logger. *)
Theorem core_misuse s s1 e1 :
  core_init s = Done (tt, s1, e1) ->
  core_init s1 = Fault (Thrown "logger with that name already exists") /\
  core_destroy new_process = Fault (NullDeref "logger").
Proof.
  intros Hrun. split.
  2:{ unfold core_destroy. erewrite bind_done by done. unfold en_destroy, mbind, M_bind, get. cbn [en_roomClients os_set_mediasoupclient new_process].
      by rewrite hash_order_empty. }
  assert (Hin : "app" ∈ lg_loggers (os_logger s1)).
  { assert (Hw : wlp core_init (fun _ s' _ => "app" ∈ lg_loggers (os_logger s')) s); [|unfold wlp in Hw; by rewrite Hrun in Hw].
    clear Hrun. unfold Engine.core_init. apply wlp_bind. unfold wlp, on_logger, zoom.
    pose proof (lg_init_names opens log_path (os_logger s)) as Hl. unfold wlp in Hl.
    destruct (lg_init opens log_path (os_logger s)) as [[[[] l] es]|]; [|done].
    eapply wlp_mono; [|exact (keeps_logger_rest (os_set_logger l s))]. intros [] s' e' [Hsame _]. rewrite Hsame. exact Hl. }
  unfold Engine.core_init, mbind, M_bind, on_logger, zoom.
  by rewrite (proj1 (logger_misuse opens log_path (os_logger s1) trace "") opens_app Hin).
Qed.

(** ** Calls from many threads *)

(** Calls of [RoomClientProxy] from any number of threads, interleaved in any way,
    are a history: whenever the mediasoup thread is idle, the client and what it has
    done are those after some sequence of whole method calls, one after another, and
    the results the callers got are the results of that sequence, each once. *)
Theorem room_client_proxy_serialises w progs local d sched :
  (forall t, t <> w -> calls_only w (progs t)) ->
  let c := run room_body sched (start w progs local d) in
  ts_cursor (threads c w) = Idle ->
  exists ms rs, call_all room_call ms d = (rs, ts_data (threads c w)) /\ omap id (promises c) ≡ₚ rs.
Proof. exact (object_serialises room_call w progs local d sched). Qed.
End engine_facts.

(** ** A process *)

Definition factory_made : nat -> bool := fun _ => true.

(** After [Core::init]. *)
Definition started : Process :=
  match Engine.core_init factory_made every_file "logs" new_process with Done (_, s, _) => s | Fault _ => new_process end.

Lemma threads_leak_witness :
  1 <= 2 /\ exists s es, Engine.os_runs factory_made every_file "logs" [OpInit; OpDestroy; OpInit; OpDestroy] new_process = Done (tt, s, es) /\
    length (os_running s) = 11.
Proof. split; [lia|]. exact (proj2 (threads_leak factory_made every_file "logs" eq_refl eq_refl [] 2) ltac:(lia)). Defined.

Lemma createRoomClient_registers_witness :
  en_rtcContext started = Some 0 /\
  exists s' es o, createRoomClient "42" started = Done (0, s', es) /\ created "42" 1 (Some 0) o.
Proof.
  split; [vm_compute; reflexivity|].
  destruct (cf_threadProvider started) as [p|] eqn:Hp; [|vm_compute in Hp; discriminate Hp].
  assert (Hm : tp_threadsMap p !! "mediasoup" = Some 1).
  { vm_compute in Hp. apply Some_inj in Hp. subst p. vm_compute. reflexivity. }
  assert (Hc : en_rtcContext started = Some 0) by (vm_compute; reflexivity).
  assert (Hx : os_contexts started !! 0 = Some (mkCtx (Some 0) (Some 4) (Some 5) (Some 6))) by (vm_compute; reflexivity).
  assert (Hl : length (os_clients started) = 0) by (vm_compute; reflexivity).
  destruct (proj1 (createRoomClient_registers "42" started) p 1 0 _ Hp Hm Hc Hx) as (s' & es & o & Hrun & _ & _ & _ & Ho).
  rewrite Hl in Hrun. exists s', es, o. exact (conj Hrun Ho).
Defined.

(** A process with a client in it. *)
Definition with_a_client : Process :=
  match createRoomClient "42" started with Done (_, s, _) => s | Fault _ => new_process end.

Lemma restart_loses_factory_witness :
  en_rtcContext with_a_client = Some 0 /\
  exists s' es a o m,
    (_ ← core_destroy; _ ← Engine.core_init factory_made every_file "logs"; createRoomClient "43") with_a_client = Done (a, s', es) /\
    os_clients s' !! a = Some o /\ created "43" m None o.
Proof.
  assert (Hc : en_rtcContext with_a_client = Some 0) by (vm_compute; reflexivity).
  assert (Hx : os_contexts with_a_client !! 0 = Some (mkCtx (Some 0) (Some 4) (Some 5) (Some 6))) by (vm_compute; reflexivity).
  split; [exact Hc|].
  assert (Hd : exists s1 e1, core_destroy with_a_client = Done (tt, s1, e1)) by (do 2 eexists; vm_compute; reflexivity).
  exact (restart_loses_factory factory_made every_file "logs" eq_refl eq_refl "43" with_a_client 0 _ Hc Hx Hd).
Defined.

Lemma core_misuse_witness :
  exists s1 e1, Engine.core_init factory_made every_file "logs" new_process = Done (tt, s1, e1) /\
    Engine.core_init factory_made every_file "logs" s1 = Fault (Thrown "logger with that name already exists").
Proof.
  assert (Hd : exists s1 e1, Engine.core_init factory_made every_file "logs" new_process = Done (tt, s1, e1))
    by (do 2 eexists; vm_compute; reflexivity).
  destruct Hd as (s1 & e1 & Hd). exists s1, e1. split; [exact Hd|].
  exact (proj1 (core_misuse factory_made every_file "logs" eq_refl _ s1 e1 Hd)).
Defined.

Definition sample_env : call_env :=
  mkEnv [mkCtx (Some 0) None None None] (fun _ => true) "peer" (fun _ _ => false) (fun _ _ _ _ => Err "no").
Definition sample_room : RoomObject := mkRO "42" (Some 0) (Some 0) (Some 1) [] None new_room_client.

(** Every thread initializes the client and asks for its state. *)
Definition sample_caller (t : thread) : @prog (outcome room_result) room_data (call_env * room_method) :=
  Call (Some 0) (sample_env, MInit) (fun _ => Call (Some 0) (sample_env, MGetRoomState) Ret).

Lemma room_client_proxy_serialises_witness :
  let c := run room_body [1; 2; 0; 1; 0; 0; 0; 0; 0] (start 0 sample_caller (fun _ => Fault (Thrown "")) (Done (sample_room, []))) in
  ts_cursor (threads c 0) = Idle /\
  exists ms rs, call_all room_call ms (Done (sample_room, [])) = (rs, ts_data (threads c 0)) /\ omap id (promises c) ≡ₚ rs.
Proof.
  intros c. assert (Hi : ts_cursor (threads c 0) = Idle) by reflexivity.
  split; [exact Hi|].
  exact (room_client_proxy_serialises 0 sample_caller (fun _ => Fault (Thrown "")) (Done (sample_room, []))
    [1; 2; 0; 1; 0; 0; 0; 0; 0] (fun t _ => conj eq_refl (fun _ => conj eq_refl (fun _ => I))) Hi).
Defined.
